(* ===== verification/_CoqProject ===== *)
-Q . S2P
Prelude.v
Memory.v
Rings.v
CStr.v
Printk.v
Format.v
Device.v
Fat32Names.v
Fat32.v
Fat32Table.v
Fat32Files.v
Paging.v
Tasks.v
TaskQueue.v
Scheduler.v
TaskLife.v
Font.v
Graphics.v
Console.v
Logger.v
PagingMap.v
PagingBoot.v
PagingProc.v
Crc32.v
Gpt.v
Fat32Format.v
Installer.v
Run.v
Machine.v
Boot.v
Layouts.v
Cpu.v
Idt.v
UserMode.v
Pci.v
CycleRing.v
Xhci.v
XhciRings.v
Usb.v
UsbKeyboard.v
MassStorage.v
UsbPorts.v
Interrupts.v
Apic.v
Init.v
Process.v
ProcessStart.v
Nvme.v
Syscall.v
Shell.v
Apps.v
KernelState.v
KernelMain.v
KernelShell.v
SyscallHandler.v
UserProgram.v
TestTasks.v
