(* ===== verification/Prelude.v ===== *)
(** * Sylphia-OS: a verification development for the kernel

    Sylphia-OS is a small x86-64 kernel in C++ with a UEFI loader in C and user
    programs.  This library models the loader, the kernel and the programs as executable
    functions translated from src/bootloader, src/kernel, src/std and src/apps, and
    proves what makes each part correct.  Names are the source's where the language
    allows it; [Set_] stands for [Set], [new_X] for the constructor of X.

    ** The program and the files that model it

    The loader hands a memory map and a frame buffer to KernelMain (main.cpp), which
    starts the processor's tables, the frame allocator, the page tables, the devices, the
    file system and the tasks, and waits; the first tick of the timer runs the idle task,
    which starts the shell.  The files, in dependency order:

    - [Prelude]: machine integers, buffers of cells, counted loops, little-endian
      values in buffers, the stores to packed structures.
    - [Memory]: memory/memory_manager.cpp ([Bitmap], [MemoryManager]) and new.cpp
      ([New]).  [Class FrameAllocator] with its laws is what the rest of the kernel
      relies on; [FramePool] adds the set of frames in use.  Both are discharged by
      [MemoryManager].
    - [Rings]: the ring buffers of sys/std/file_descriptor.hpp ([KeyboardFD],
      [PipeFD]).
    - [CStr]: std/string.cpp and the memory functions of cxx.cpp.
    - [Printk], [Format]: printk.cpp, and what a format stands for.
    - [Device]: block_device.hpp as [Class BlockDevice] with laws and a concrete
      disk, and the monad [FS] (disk, allocator, kprintf calls) in which the file
      system code runs, with its weakest precondition [wp].
    - [Fat32Names], [Fat32], [Fat32Table], [Fat32Files]: fs/fat32/fat32_driver.cpp:
      names and entries, every operation of the driver, then the theory of the
      allocation table and of files and directories.
    - [Paging], [PagingMap], [PagingBoot], [PagingProc]: paging.cpp: the operations,
      what a hierarchy of tables means, the identity map of the boot, the page tables
      of processes.
    - [Tasks], [TaskQueue], [Scheduler], [TaskLife]: task/task_manager.cpp,
      task/scheduler.cpp and context_switch.asm: tasks in a heap of addresses, the
      ready queue as a list, the switch, creation and end of a task.
    - [Font], [Graphics], [Console]: font.cpp, graphics.cpp, console.cpp.
    - [Logger]: sys/logger/logger.cpp, whose Flush goes through the FAT32 driver.
    - [Crc32], [Gpt], [Fat32Format], [Installer]: fs/gpt.cpp, fs/installer.cpp,
      fs/fat32/fat32.cpp and step 5 of KernelMain.
    - [Run], [Machine]: the monad of code that talks to hardware, and [Class Machine],
      what its instructions do to memory, registers and ports.
    - [Boot]: bootloader/main.c over [Class Firmware], the UEFI calls.
    - [Layouts]: the keyboard tables, and the version of sys/sys.cpp.
    - [Cpu], [Idt], [UserMode]: segmentation.cpp, interrupt.cpp and asmfunc.asm: the
      descriptor tables with the checks of the processor, the way into user mode, the
      system call instruction and its entry code.
    - [Pci]: pci/pci.cpp over the configuration ports.
    - [CycleRing], [Xhci], [XhciRings]: driver/usb/xhci.cpp: rings with cycle bits as
      queues, every method of the controller, and its transfer and event rings.
    - [Usb], [UsbKeyboard], [MassStorage], [UsbPorts]: the descriptors, the keyboard and
      the mass storage driver over [Class UsbController], and what joins them: the
      ports, the interrupts, SetupPCI.
    - [Interrupts], [Apic]: the exception handlers, apic.cpp, ioapic.cpp, pic.cpp; what
      the controllers do with the accesses to their registers ([Class ApicLaws]).
    - [Init]: InitializeCore of sys/init/init.cpp.
    - [Process], [ProcessStart]: app/elf: the program loader, the calls Spawn, Exit and
      TaskExit, the idle task; how a new program finds its arguments.
    - [Nvme]: driver/nvme over [Class NvmeController].
    - [Syscall]: sys/std/file_descriptor.cpp and the calls of sys/syscall.cpp on
      files, descriptors and the console.
    - [Shell], [Apps]: the user programs apps/shell, apps/stdio and apps/test over
      [Class UserCalls], the wrappers of apps/_header/syscall.hpp.
    - [KernelState], [KernelMain]: the state of the whole kernel, [Sys], the steps of
      the components on it, and main.cpp.
    - [KernelShell]: shell/shell.cpp, the shell inside the kernel.
    - [SyscallHandler]: the switch over the calls, on [Sys].
    - [UserProgram]: the wrappers on [Sys], which make the kernel an instance of
      [UserCalls]: the theorems of [Shell] hold of the shell on this kernel.
    - [TestTasks]: task/test_task.cpp and the serial input of the idle task.

    ** How the code is modelled

    Integers are values of [Z], wrapped by [u8], [u16], [u32], [u64] and [i32] where
    the C++ type wraps.  Memory that is only data is a list of bytes; the frame
    buffer is a map from word indices to words, the page tables a map from frame
    addresses to their 512 entries, the tasks a map from addresses to structures.
    A read or write through a pointer to nothing has no result ([None], [NoFuel]);
    theorems that an operation succeeds are therefore also theorems that it never
    follows such a pointer.  File system code runs in [FS], a state monad with failure:
    each [Allocate], [Free], [Read] and [Write] of the source is one step of it, and
    kprintf calls are recorded as events.  Code that talks to devices runs on a [Host]:
    the machine, the frame allocator, the driver's members and what is printed; a run
    ends with a result, or halted, or out of rounds.  A register read returns a new
    machine as well, so a device may act at any access.  The processor ([Cpu], [Core])
    has its registers, its tables and its model specific registers, and does the checks
    of the instructions that load them.  A program's memory is reached through the page
    tables of the current CR3 in [Process]; the calls of [Syscall] see it as the bytes at
    the caller's addresses.  [Sys] has one frame allocator, which every component takes
    in turn, and shows the kprintf calls on the console in their order.

    Code that is not part of the repository is a parameter: the UEFI firmware
    ([FirmwareLaws], kept by [FirmwareSim]), the machine ([MachineLaws], kept by [Ram]),
    its interrupt controllers ([ApicLaws], kept by [ApicSim]),
    the host bridge ([PciBusLaws]), the controller of the NVMe disk
    ([NvmeControllerLaws], kept by [Nvme.Sim]), the other side of the xHCI rings
    ([fetch], [posted]), the block device under the file system ([BlockDeviceLaws], kept
    by [RamDisk] and by the pair of disks of the installer).  The program loader in Rust
    is an argument of the definitions that call it.

    ** Fuel

    Loops whose end depends on the disk or on a device take a number of iterations.
    A chain of clusters handed out by AllocateCluster has at most 126 clusters,
    because the driver looks at one FAT sector only, and the loops over a file's
    chain are shown to end within that; FindDirectoryEntry has its own bound of
    10001 rounds in the source; FreeChain is shown to end within the number of
    clusters of any table whose links stay inside it, because it clears each link
    it follows.  Polling loops of the NVMe driver end within the number of polls
    after which a controller that keeps the laws answers.  The polling loops of the xHCI
    driver count their own timeouts; a program header table has at most 0x10000 headers,
    a 16-bit count, and a string of a program is looked at up to a bound.  The theorems
    are about total runs: they state that the operation ends and what it leaves.

    ** What the theorems show

    - Loader: EfiMain loads the segments of a well-formed kernel file, zeroes the rest
      of each, leaves the boot services with a map that is current, and enters the
      kernel with the screen and the map.
    - Start: InitializeCore leaves tables that the processor accepts and that no later
      step writes to, the identity map in CR3 and, for system calls, the registers, a
      context and a stack of its own; KernelMain ends in its loop with interrupts on, the
      timer of the local APIC running and the keyboard's line routed, and the first
      interrupt of the timer is acknowledged and starts the idle task.
    - Processor: the segments have the types the selectors are loaded with, each vector
      that the kernel uses reaches its handler; a system call returns to the program
      with its registers, and how the shared context loses the stack of a program when
      two are in calls at once.
    - Memory: after Initialize exactly the frames that conventional memory holds
      and nothing occupies are free; Allocate takes the lowest run that fits and
      fails only when there is none; Free undoes Allocate exactly; so does delete
      for new; and the sizes for which Allocate wraps.
    - Files: what WriteFile writes ReadFile returns, nothing else on the disk
      changes and all buffers are returned; lookup along a directory chain is exact
      and ends on every disk; FreeChain ends even on a loop; the 8.3 conversion
      equals its specification, with the one class of names it loses.
    - Disks: a fresh disk becomes valid partition tables (accepted by a reader
      written after the UEFI specification, CRC included) and an empty volume that files
      can be written to; a disk with a file system is left alone; the checksum is the
      CRC-32 of IEEE 802.3, a division of polynomials.
    - NVMe: reads and writes become exactly the commands for their blocks and
      memory, in order, across the wrap of the queues and the phase bit.
    - PCI and USB: SetupMSI programs the capability of a device; what is queued on a
      transfer ring the controller takes, and what it posts on the event ring the driver
      takes, in order and across the link and the cycle bit; ReadSectors of the mass
      storage driver delivers the blocks; the keyboard turns reports into the characters
      of the keys that are new; and how the interrupt handler takes a report away from
      the driver that waits for it.
    - Paging: Initialize maps the first 64 GiB to themselves; MapPage gives the
      pages their frames and changes no other translation, large pages it splits
      included.  The tables of a new process translate as the kernel's and are given
      back exactly; what AllocateVirtualForProcess maps below 2 GiB no other hierarchy
      sees; and what the program loader maps the process does not see either.
    - Tasks: a yield rotates the ready queue, a task gets back its registers and its
      place, nobody starves; the end of a task gives back what its creation took; a new
      program starts in user mode with its arguments on its stack.
    - Console: PutString implements a terminal of character cells, pixel for pixel.
    - Descriptors, pipes, keyboard, logger, kprintf: first in, first out without
      loss; queries return the last 256 records of everything logged; kprintf prints
      the one text its format stands for: numerals by their value, signs, fields.
    - System calls and programs: through the system call handler Open, Read and Close
      deliver a file; a line typed with corrections runs the command of its words in the
      shell; the keys that wait in the keyboard's buffer reach the shell and show on the
      console.

    ** Not modelled

    The part of the kernel in Rust, which is a second program loader; the build files and
    scripts; the entry points that the C++ run time needs (__cxa_guard_acquire,
    __cxa_pure_virtual and their like); the structures of uefi.h and of the disk formats
    that no code reads, and declarations; the copy of the console to the serial port,
    compiled in for debugging.  Interrupts do not occur inside an operation: a task is
    switched only at Schedule, which the timer calls as well as Yield; nor between the [sti]
    of KernelMain and its loop, where the timer does not run yet but a USB device may
    interrupt.  Writes of the kernel do not look at the right to write (CR0.WP).  The name
    of eleven characters that WriteFile and CreateDirectory print has no terminator; what
    lies behind it is not shown.  Concurrent access
    to the rings is the interleaving of whole operations.  In [Sys] the disk under the
    file system and the registers of its controller are separate: that the driver carries
    reads and writes out is the theorem of [Nvme]. *)
From Stdlib Require Export Ascii.
From stdpp Require Export prelude gmap strings.
From Stdlib Require Export Lia ZArith.
Export ListNotations.

Create Rewrite HintDb kbuf.
Declare Scope kern_scope.
Delimit Scope kern_scope with kern.
#[global] Open Scope Z_scope.

(** ** Machine integers: values of Z, wrapped where the C++ type wraps *)

Definition u8 (z : Z) : Z := z mod 2 ^ 8.
Definition u16 (z : Z) : Z := z mod 2 ^ 16.
Definition u32 (z : Z) : Z := z mod 2 ^ 32.
Definition u64 (z : Z) : Z := z mod 2 ^ 64.
(** conversion to the signed 32-bit [int] *)
Definition i32 (z : Z) : Z := (z + 2 ^ 31) mod 2 ^ 32 - 2 ^ 31.

Definition is_byte (b : Z) : Prop := 0 <= b < 256.
Definition is_u32 (z : Z) : Prop := 0 <= z < 2 ^ 32.
Definition is_u64 (z : Z) : Prop := 0 <= z < 2 ^ 64.

#[export] Instance is_byte_dec b : Decision (is_byte b).
Proof. unfold is_byte. apply _. Defined.
#[export] Instance is_u32_dec b : Decision (is_u32 b).
Proof. unfold is_u32. apply _. Defined.

(** [lia] with Euclidean division and modulo by constants *)
Ltac zlia := Z.to_euclidean_division_equations; lia.

Lemma u8_small z : 0 <= z < 256 -> u8 z = z.
Proof. intros; apply Z.mod_small; lia. Qed.
Lemma u16_small z : 0 <= z < 65536 -> u16 z = z.
Proof. intros; apply Z.mod_small; lia. Qed.
Lemma u32_small z : 0 <= z < 2 ^ 32 -> u32 z = z.
Proof. intros; apply Z.mod_small; lia. Qed.
Lemma u64_small z : 0 <= z < 2 ^ 64 -> u64 z = z.
Proof. intros; apply Z.mod_small; lia. Qed.
Lemma u32_range z : 0 <= u32 z < 2 ^ 32.
Proof. apply Z.mod_pos_bound; lia. Qed.
Lemma u64_range z : 0 <= u64 z < 2 ^ 64.
Proof. apply Z.mod_pos_bound; lia. Qed.
Lemma u8_range z : 0 <= u8 z < 256.
Proof. apply Z.mod_pos_bound; lia. Qed.

(** Case analysis on the boolean comparisons of the code *)
Ltac zcases :=
  repeat match goal with
  | H : context [Z.leb ?a ?b] |- _ => destruct (Z.leb_spec a b)
  | H : context [Z.ltb ?a ?b] |- _ => destruct (Z.ltb_spec a b)
  | H : context [Z.eqb ?a ?b] |- _ => destruct (Z.eqb_spec a b)
  | |- context [Z.leb ?a ?b] => destruct (Z.leb_spec a b)
  | |- context [Z.ltb ?a ?b] => destruct (Z.ltb_spec a b)
  | |- context [Z.eqb ?a ?b] => destruct (Z.eqb_spec a b)
  end.

(** ** Buffers: lists of cells indexed by Z *)

(** what an out-of-range read yields; the code's indices are in range *)
Class Dflt (A : Type) := dflt : A.
#[export] Instance Z_dflt : Dflt Z := 0.

Section Buffers.
Context {A : Type} `{!Dflt A}.
Implicit Types (l : list A) (i : Z) (v : A).

Definition zlen l : Z := Z.of_nat (length l).
(** [l[i]]; the code's indices are in range, outside it is the default *)
Definition rd l i : A := if i <? 0 then dflt else default dflt (l !! Z.to_nat i).
(** [l[i] = v] *)
Definition upd l i v : list A := if i <? 0 then l else <[Z.to_nat i := v]> l.
(** [n] cells from offset [off] *)
Definition slice l (off n : Z) : list A := take (Z.to_nat n) (drop (Z.to_nat off) l).
(** [memcpy(l + off, src, |src|)] *)
Definition splice l (off : Z) (src : list A) : list A :=
  take (Z.to_nat off) l ++ src ++ drop (Z.to_nat off + length src) l.

Lemma zlen_nonneg l : 0 <= zlen l.
Proof. unfold zlen; lia. Qed.

Lemma zlen_app l1 l2 : zlen (l1 ++ l2) = zlen l1 + zlen l2.
Proof. unfold zlen. rewrite length_app. lia. Qed.

Lemma zlen_cons v l : zlen (v :: l) = 1 + zlen l.
Proof. unfold zlen. cbn [length]. lia. Qed.

Lemma zlen_upd l i v : zlen (upd l i v) = zlen l.
Proof. unfold zlen, upd. case_match; [done|]. by rewrite length_insert. Qed.

Lemma rd_nat l (n : nat) : rd l (Z.of_nat n) = default dflt (l !! n).
Proof. unfold rd. rewrite (proj2 (Z.ltb_ge _ _)) by lia. by rewrite Nat2Z.id. Qed.

Lemma rd_lookup l i : 0 <= i < zlen l -> l !! Z.to_nat i = Some (rd l i).
Proof.
  unfold rd, zlen. intros Hi. rewrite (proj2 (Z.ltb_ge _ _)) by lia.
  destruct (lookup_lt_is_Some_2 l (Z.to_nat i)) as [x Hx]; [lia|]. by rewrite Hx.
Qed.

Lemma rd_outside l i : ~ 0 <= i < zlen l -> rd l i = dflt.
Proof.
  unfold rd, zlen. intros Hi. destruct (Z.ltb_spec i 0); [done|]. rewrite lookup_ge_None_2 by lia. done.
Qed.

Lemma rd_upd_eq l i v : 0 <= i < zlen l -> rd (upd l i v) i = v.
Proof.
  unfold rd, upd, zlen. intros Hi. rewrite !(proj2 (Z.ltb_ge _ _)) by lia.
  rewrite list_lookup_insert_eq by lia. done.
Qed.

Lemma rd_upd_ne l i j v : 0 <= i -> i <> j -> rd (upd l i v) j = rd l j.
Proof.
  unfold rd, upd. intros Hi Hj. rewrite (proj2 (Z.ltb_ge i 0)) by lia.
  destruct (Z.ltb_spec j 0); [done|]. rewrite list_lookup_insert_ne by lia. done.
Qed.

Lemma rd_upd l i j v :
  0 <= i < zlen l -> rd (upd l i v) j = if j =? i then v else rd l j.
Proof.
  intros Hi. destruct (Z.eqb_spec j i) as [->|Hne].
  - by apply rd_upd_eq.
  - apply rd_upd_ne; lia.
Qed.

Lemma rd_upd_other l i j v : i <> j -> rd (upd l i v) j = rd l j.
Proof.
  intros Hij. destruct (Z.ltb_spec i 0) as [Hi|Hi]; [|by apply rd_upd_ne].
  unfold upd. by rewrite (proj2 (Z.ltb_lt _ _)).
Qed.

Lemma upd_outside l i v : ~ 0 <= i < zlen l -> upd l i v = l.
Proof.
  unfold upd, zlen. intros Hi. destruct (Z.ltb_spec i 0); [done|]. apply list_insert_ge. lia.
Qed.

Lemma upd_upd l i v w : upd (upd l i v) i w = upd l i w.
Proof. unfold upd. case_match; [done|]. by rewrite list_insert_insert_eq. Qed.

Lemma upd_comm l i j v w : i <> j -> upd (upd l i v) j w = upd (upd l j w) i v.
Proof.
  unfold upd. intros Hij. destruct (Z.ltb_spec i 0), (Z.ltb_spec j 0); try done.
  apply list_insert_insert_ne. lia.
Qed.

Lemma rd_app_l l1 l2 i : i < zlen l1 -> rd (l1 ++ l2) i = rd l1 i.
Proof.
  unfold rd, zlen. intros Hi. destruct (Z.ltb_spec i 0); [done|].
  rewrite lookup_app_l by lia. done.
Qed.

Lemma rd_app_r l1 l2 i : zlen l1 <= i -> rd (l1 ++ l2) i = rd l2 (i - zlen l1).
Proof.
  unfold rd, zlen. intros Hi.
  rewrite !(proj2 (Z.ltb_ge _ _)) by lia.
  rewrite lookup_app_r by lia. f_equal. f_equal. lia.
Qed.

Lemma rd_replicate n v i : 0 <= i < Z.of_nat n -> rd (replicate n v) i = v.
Proof.
  unfold rd. intros Hi. rewrite (proj2 (Z.ltb_ge _ _)) by lia.
  rewrite lookup_replicate_2 by lia. done.
Qed.

(** Two buffers of one length with equal cells are equal *)
Lemma buf_ext l1 l2 :
  zlen l1 = zlen l2 -> (forall i, 0 <= i < zlen l1 -> rd l1 i = rd l2 i) -> l1 = l2.
Proof.
  unfold zlen. intros Hlen Hrd. apply list_eq_same_length with (length l1); [lia|done|].
  intros i x y Hi H1 H2. specialize (Hrd (Z.of_nat i) ltac:(lia)).
  rewrite !rd_nat, H1, H2 in Hrd. done.
Qed.

Lemma Forall_rd (P : A -> Prop) l i : Forall P l -> 0 <= i < zlen l -> P (rd l i).
Proof.
  intros HP Hi. eapply Forall_lookup_1; [exact HP|]. by apply rd_lookup.
Qed.

Lemma Forall_upd (P : A -> Prop) l i v : Forall P l -> P v -> Forall P (upd l i v).
Proof.
  intros. unfold upd. case_match; [done|]. by apply Forall_insert.
Qed.

Lemma zlen_slice l off n :
  0 <= off -> 0 <= n -> off + n <= zlen l -> zlen (slice l off n) = n.
Proof. unfold zlen, slice. intros. rewrite length_take, length_drop. lia. Qed.

Lemma rd_slice l off n i :
  0 <= off -> 0 <= i < n -> rd (slice l off n) i = rd l (off + i).
Proof.
  unfold rd, slice. intros. rewrite !(proj2 (Z.ltb_ge _ _)) by lia.
  rewrite lookup_take_lt, lookup_drop by lia. do 2 f_equal. lia.
Qed.

Lemma zlen_splice l off src :
  0 <= off -> off + zlen src <= zlen l -> zlen (splice l off src) = zlen l.
Proof.
  unfold zlen, splice. intros. rewrite !length_app, length_take, length_drop. lia.
Qed.

Lemma rd_splice l off src i :
  0 <= off -> 0 <= i -> off + zlen src <= zlen l ->
  rd (splice l off src) i
  = if (off <=? i) && (i <? off + zlen src) then rd src (i - off) else rd l i.
Proof.
  unfold splice. intros Ho Hi Hl.
  assert (Hzt : zlen (take (Z.to_nat off) l) = off).
  { unfold zlen in *. rewrite length_take. lia. }
  destruct (Z.leb_spec off i); cbn [andb].
  - rewrite rd_app_r by lia. rewrite Hzt.
    destruct (Z.ltb_spec i (off + zlen src)).
    + rewrite rd_app_l by lia. done.
    + rewrite rd_app_r by lia. unfold rd, zlen in *.
      rewrite !(proj2 (Z.ltb_ge _ _)) by lia. rewrite lookup_drop. do 2 f_equal. lia.
  - rewrite rd_app_l by lia. unfold rd.
    destruct (Z.ltb_spec i 0); [lia|]. rewrite lookup_take_lt by lia. done.
Qed.
End Buffers.

#[export] Hint Rewrite @zlen_upd @zlen_app @zlen_cons : kbuf.

(** ** Loops *)

Section Loops.
Context {A S : Type}.

(** [for (i = lo; n times; ++i) if (body i returns) return ...;] *)
Fixpoint for_return (n : nat) (i : Z) (body : Z -> option A) : option A :=
  match n with
  | O => None
  | Datatypes.S n' => match body i with
           | Some r => Some r
           | None => for_return n' (i + 1) body
           end
  end.

(** [for (i = lo; n times; ++i) s = body(i, s);] *)
Fixpoint for_loop (n : nat) (i : Z) (body : Z -> S -> S) (s : S) : S :=
  match n with
  | O => s
  | Datatypes.S n' => for_loop n' (i + 1) body (body i s)
  end.

(** [while (cond(s)) s = body(s);]; [None] when the fuel runs out *)
Fixpoint while_fuel (fuel : nat) (cond : S -> bool) (body : S -> S) (s : S) : option S :=
  if cond s then
    match fuel with
    | O => None
    | Datatypes.S f => while_fuel f cond body (body s)
    end
  else Some s.

Lemma for_return_Some n i body r :
  for_return n i body = Some r <->
  exists k, i <= k < i + Z.of_nat n /\ body k = Some r
            /\ forall j, i <= j < k -> body j = None.
Proof.
  revert i. induction n as [|n IH]; intros i; cbn [for_return].
  { split; [done|]. intros (k & Hk & _). lia. }
  destruct (body i) as [r'|] eqn:Hb.
  - split.
    + intros [= ->]. exists i. split_and!; [lia..|done|]. intros; lia.
    + intros (k & Hk & Hbk & Hlt). destruct (decide (k = i)) as [->|Hne]; [congruence|].
      rewrite Hlt in Hb by lia. done.
  - rewrite IH. split; intros (k & Hk & Hbk & Hlt).
    + exists k. split_and!; [lia..|done|]. intros j Hj.
      destruct (decide (j = i)) as [->|]; [done|]. apply Hlt. lia.
    + exists k. assert (k <> i) by congruence. split_and!; [lia..|done|].
      intros j Hj. apply Hlt. lia.
Qed.

Lemma for_return_None n i body :
  for_return n i body = None <-> forall k, i <= k < i + Z.of_nat n -> body k = None.
Proof.
  revert i. induction n as [|n IH]; intros i; cbn [for_return].
  { split; [intros _ k Hk; lia|done]. }
  destruct (body i) as [r|] eqn:Hb.
  - split; [done|]. intros Hall. rewrite Hall in Hb by lia. done.
  - rewrite IH. split; intros Hall k Hk.
    + destruct (decide (k = i)) as [->|]; [done|]. apply Hall; lia.
    + apply Hall; lia.
Qed.

(** An invariant of the loop body, indexed by the counter *)
Lemma for_loop_inv (P : Z -> S -> Prop) n i body s :
  P i s ->
  (forall k s', i <= k < i + Z.of_nat n -> P k s' -> P (k + 1) (body k s')) ->
  P (i + Z.of_nat n) (for_loop n i body s).
Proof.
  revert i s. induction n as [|n IH]; intros i s H0 Hstep; cbn [for_loop].
  { by rewrite Z.add_0_r. }
  replace (i + Z.of_nat (Datatypes.S n)) with (i + 1 + Z.of_nat n) by lia.
  apply IH.
  - apply Hstep; [lia|done].
  - intros k s' Hk. apply Hstep. lia.
Qed.

Lemma for_loop_ext n i (f g : Z -> S -> S) s :
  (forall k s', i <= k < i + Z.of_nat n -> f k s' = g k s') ->
  for_loop n i f s = for_loop n i g s.
Proof.
  revert i s. induction n as [|n IH]; intros i s Hfg; cbn [for_loop]; [done|].
  rewrite Hfg by lia. apply IH. intros k s' Hk. apply Hfg. lia.
Qed.

(** what commutes with the body commutes with the loop *)
Lemma for_loop_comm (g : S -> S) n i (body : Z -> S -> S) s :
  (forall k s', g (body k s') = body k (g s')) -> g (for_loop n i body s) = for_loop n i body (g s).
Proof.
  intros Hg. revert i s. induction n as [|n IH]; intros i s; cbn [for_loop]; [done|].
  by rewrite IH, Hg.
Qed.

(** a counter that starts at 0 with the base added in the body *)
Lemma for_loop_shift n i j (f : Z -> S -> S) s :
  for_loop n j (fun k => f (i + k)) s = for_loop n (i + j) f s.
Proof.
  revert j s. induction n as [|n IH]; intros j s; cbn [for_loop]; [done|].
  rewrite IH. f_equal. lia.
Qed.
End Loops.

(** ** Little-endian integers inside byte buffers *)

Fixpoint le_val (bs : list Z) : Z :=
  match bs with
  | [] => 0
  | b :: t => b + 256 * le_val t
  end.

Fixpoint le_bytes (n : nat) (v : Z) : list Z :=
  match n with
  | O => []
  | S n' => v mod 256 :: le_bytes n' (v / 256)
  end.

Definition get16 (l : list Z) (off : Z) : Z := le_val (slice l off 2).
Definition get32 (l : list Z) (off : Z) : Z := le_val (slice l off 4).
Definition put16 (l : list Z) (off v : Z) : list Z := splice l off (le_bytes 2 v).
Definition put32 (l : list Z) (off v : Z) : list Z := splice l off (le_bytes 4 v).
Definition put64 (l : list Z) (off v : Z) : list Z := splice l off (le_bytes 8 v).

Lemma length_le_bytes n v : length (le_bytes n v) = n.
Proof. revert v. induction n; intros; cbn [le_bytes length]; auto. Qed.

Lemma zlen_le_bytes n v : zlen (le_bytes n v) = Z.of_nat n.
Proof. unfold zlen. by rewrite length_le_bytes. Qed.

Lemma le_bytes_range n v : Forall is_byte (le_bytes n v).
Proof.
  revert v. induction n; intros; cbn [le_bytes]; constructor; [|done].
  apply Z.mod_pos_bound; lia.
Qed.

Lemma le_val_bytes n v : 0 <= v < 256 ^ Z.of_nat n -> le_val (le_bytes n v) = v.
Proof.
  revert v. induction n as [|n IH]; intros v Hv; cbn [le_bytes le_val].
  { change (256 ^ Z.of_nat 0) with 1 in Hv. lia. }
  rewrite Nat2Z.inj_succ, Z.pow_succ_r in Hv by lia.
  rewrite IH; [zlia|]. split; [apply Z.div_pos; lia|].
  apply Z.div_lt_upper_bound; lia.
Qed.

Lemma le_val_range bs : Forall is_byte bs -> 0 <= le_val bs < 256 ^ zlen bs.
Proof.
  induction 1 as [|b bs Hb _ IH]; cbn [le_val].
  { unfold zlen; cbn; lia. }
  rewrite zlen_cons, Z.pow_add_r by (pose proof (zlen_nonneg bs); lia).
  change (256 ^ 1) with 256. unfold is_byte in Hb. lia.
Qed.

Section BufferBytes.
Implicit Types l : list Z.

Lemma Forall_slice (P : Z -> Prop) l off n : Forall P l -> Forall P (slice l off n).
Proof. intros. unfold slice. by apply Forall_take, Forall_drop. Qed.

Lemma Forall_splice (P : Z -> Prop) l off src :
  Forall P l -> Forall P src -> Forall P (splice l off src).
Proof.
  intros. unfold splice. rewrite !Forall_app. split_and!; [by apply Forall_take|done|].
  by apply Forall_drop.
Qed.

Lemma length_upd (l : list Z) i v : length (upd l i v) = length l.
Proof. pose proof (zlen_upd l i v). unfold zlen in *. lia. Qed.

Lemma splice_cons (l : list Z) j x xs :
  0 <= j < zlen l -> splice (upd l j x) (j + 1) xs = splice l j (x :: xs).
Proof.
  intros Hj. unfold splice, upd, zlen in *. rewrite (proj2 (Z.ltb_ge j 0)) by lia.
  replace (Z.to_nat (j + 1)) with (S (Z.to_nat j)) by lia.
  rewrite (take_S_r _ _ x) by (apply list_lookup_insert_eq; lia).
  rewrite take_insert_ge by lia. rewrite <- app_assoc. cbn [app]. do 3 f_equal.
  rewrite drop_insert_lt by lia. f_equal. cbn [length]. lia.
Qed.

Lemma splice_nil (l : list Z) j : splice l j [] = l.
Proof. unfold splice. cbn [app length]. rewrite Nat.add_0_r. apply take_drop. Qed.

Lemma slice_slice {A} (l : list A) o n o' n' :
  0 <= o -> 0 <= o' -> 0 <= n' -> o' + n' <= n -> slice (slice l o n) o' n' = slice l (o + o') n'.
Proof.
  intros. unfold slice. rewrite skipn_firstn_comm, firstn_firstn, skipn_skipn. f_equal; [lia|]. f_equal. lia.
Qed.

Lemma slice_all {A} (l : list A) : slice l 0 (zlen l) = l.
Proof. unfold slice, zlen. rewrite Nat2Z.id. by rewrite take_ge. Qed.

Lemma slice_splice_same l off src :
  0 <= off -> off + zlen src <= zlen l -> slice (splice l off src) off (zlen src) = src.
Proof.
  intros Ho Hl. pose proof (zlen_nonneg src). apply buf_ext.
  - rewrite zlen_slice; [done|lia..|]. rewrite zlen_splice by lia. lia.
  - intros i Hi. rewrite zlen_slice in Hi; [|lia..|rewrite zlen_splice by lia; lia].
    rewrite rd_slice by lia. rewrite rd_splice by lia.
    destruct (Z.leb_spec off (off + i)); [|lia].
    destruct (Z.ltb_spec (off + i) (off + zlen src)); [|lia]. cbn [andb].
    f_equal. lia.
Qed.

Lemma slice_splice_other l off src off' n :
  0 <= off -> 0 <= off' -> 0 <= n -> off + zlen src <= zlen l -> off' + n <= zlen l ->
  off' + n <= off \/ off + zlen src <= off' ->
  slice (splice l off src) off' n = slice l off' n.
Proof.
  intros Ho Ho' Hn Hl Hl' Hd. apply buf_ext.
  - rewrite !zlen_slice; [done|lia..|]. rewrite zlen_splice by lia. lia.
  - intros i Hi. rewrite zlen_slice in Hi; [|lia..|rewrite zlen_splice by lia; lia].
    rewrite !rd_slice by lia. rewrite rd_splice by lia.
    destruct (Z.leb_spec off (off' + i)), (Z.ltb_spec (off' + i) (off + zlen src));
      cbn [andb]; try done. lia.
Qed.

Lemma get32_put32_eq l off v :
  0 <= off -> off + 4 <= zlen l -> 0 <= v < 2 ^ 32 -> get32 (put32 l off v) off = v.
Proof.
  intros. unfold get32, put32.
  pose proof (slice_splice_same l off (le_bytes 4 v)) as Hs.
  rewrite zlen_le_bytes in Hs. change (Z.of_nat 4) with 4 in Hs.
  rewrite Hs by lia. apply le_val_bytes. cbn; lia.
Qed.

Lemma get32_put32_ne l off v off' :
  0 <= off -> 0 <= off' -> off + 4 <= zlen l -> off' + 4 <= zlen l ->
  off' + 4 <= off \/ off + 4 <= off' ->
  get32 (put32 l off v) off' = get32 l off'.
Proof.
  intros. unfold get32, put32. f_equal.
  apply slice_splice_other; rewrite ?zlen_le_bytes; lia.
Qed.

Lemma get32_range l off :
  Forall is_byte l -> 0 <= off -> off + 4 <= zlen l -> 0 <= get32 l off < 2 ^ 32.
Proof.
  intros Hb Ho Hl. unfold get32.
  pose proof (le_val_range (slice l off 4) (Forall_slice _ _ _ _ Hb)) as Hr.
  rewrite zlen_slice in Hr by lia. cbn in Hr |- *. lia.
Qed.

Lemma zlen_put32 l off v : 0 <= off -> off + 4 <= zlen l -> zlen (put32 l off v) = zlen l.
Proof. intros. apply zlen_splice; rewrite ?zlen_le_bytes; lia. Qed.

Lemma put32_bytes l off v : Forall is_byte l -> Forall is_byte (put32 l off v).
Proof. intros. apply Forall_splice; [done|apply le_bytes_range]. Qed.
End BufferBytes.

(** ** Packed structures: a buffer filled field by field *)

Definition get64 (l : list Z) (off : Z) : Z := le_val (slice l off 8).

(** stores to the fields of a structure, each an offset and the bytes stored *)
Definition store (l : list Z) (fields : list (Z * list Z)) : list Z :=
  fold_left (fun b f => splice b f.1 f.2) fields l.

Definition apart (f g : Z * list Z) : bool :=
  (f.1 + zlen f.2 <=? g.1) || (g.1 + zlen g.2 <=? f.1).

(** the fields lie inside [n] bytes and do not overlap *)
Fixpoint fields_ok (n : Z) (fields : list (Z * list Z)) : bool :=
  match fields with
  | [] => true
  | f :: rest => (0 <=? f.1) && (f.1 + zlen f.2 <=? n) && forallb (apart f) rest && fields_ok n rest
  end.

(** membership in a list of fields *)
Ltac in_fields := cbn [In]; repeat first [left; reflexivity | right].

Section Store.
Implicit Types (l : list Z) (fields : list (Z * list Z)).

Lemma fields_ok_cons n f rest :
  fields_ok n (f :: rest) = true <->
  (0 <= f.1 /\ f.1 + zlen f.2 <= n) /\ (forall g, In g rest -> apart f g = true) /\ fields_ok n rest = true.
Proof.
  cbn [fields_ok]. rewrite !andb_true_iff, Z.leb_le, Z.leb_le, forallb_forall. tauto.
Qed.

Lemma zlen_store fields : forall l, fields_ok (zlen l) fields = true -> zlen (store l fields) = zlen l.
Proof.
  induction fields as [|f rest IH]; intros l Hok; [done|].
  apply fields_ok_cons in Hok as (Hf & _ & Hrest). cbn [store fold_left].
  assert (Hl : zlen (splice l f.1 f.2) = zlen l) by (apply zlen_splice; lia).
  fold (store (splice l f.1 f.2) rest). rewrite IH; rewrite ?Hl; done.
Qed.

Lemma store_bytes fields : forall l,
  Forall is_byte l -> Forall (fun f => Forall is_byte f.2) fields -> Forall is_byte (store l fields).
Proof.
  induction fields as [|f rest IH]; intros l Hl Hf; [done|]. apply Forall_cons in Hf as [Hf Hrest].
  apply IH; [|done]. by apply Forall_splice.
Qed.

(** bytes no field covers stay *)
Lemma slice_store_other fields : forall l off n,
  fields_ok (zlen l) fields = true -> 0 <= off -> 0 <= n -> off + n <= zlen l ->
  (forall g, In g fields -> off + n <= g.1 \/ g.1 + zlen g.2 <= off) ->
  slice (store l fields) off n = slice l off n.
Proof.
  induction fields as [|f rest IH]; intros l off n Hok Ho Hn Hl Hap; [done|].
  apply fields_ok_cons in Hok as (Hf & _ & Hrest). cbn [store fold_left].
  assert (Hs : zlen (splice l f.1 f.2) = zlen l) by (apply zlen_splice; lia).
  fold (store (splice l f.1 f.2) rest). rewrite IH; rewrite ?Hs; try done.
  - apply slice_splice_other; try lia. destruct (Hap f (or_introl eq_refl)); lia.
  - intros g Hg. apply Hap. by right.
Qed.

(** a field holds the bytes stored there *)
Lemma slice_store fields : forall l off src,
  fields_ok (zlen l) fields = true -> In (off, src) fields ->
  slice (store l fields) off (zlen src) = src.
Proof.
  induction fields as [|f rest IH]; intros l off src Hok Hin; [done|].
  apply fields_ok_cons in Hok as (Hf & Hap & Hrest). cbn [store fold_left].
  assert (Hs : zlen (splice l f.1 f.2) = zlen l) by (apply zlen_splice; lia).
  fold (store (splice l f.1 f.2) rest). destruct Hin as [->|Hin].
  - cbn [fst snd] in *. pose proof (zlen_nonneg src).
    rewrite slice_store_other; rewrite ?Hs; try done; try lia.
    + apply slice_splice_same; lia.
    + intros g Hg. specialize (Hap g Hg). unfold apart in Hap. cbn [fst snd] in Hap.
      apply orb_true_iff in Hap. rewrite !Z.leb_le in Hap. lia.
  - apply IH; rewrite ?Hs; done.
Qed.

Lemma le_val_store l fields off n v :
  fields_ok (zlen l) fields = true -> In (off, le_bytes n v) fields -> 0 <= v < 256 ^ Z.of_nat n ->
  le_val (slice (store l fields) off (Z.of_nat n)) = v.
Proof.
  intros Hok Hin Hv. rewrite <- (zlen_le_bytes n v) at 1. rewrite slice_store by done.
  by apply le_val_bytes.
Qed.

Lemma rd_store l fields off v :
  fields_ok (zlen l) fields = true -> In (off, [v]) fields -> rd (store l fields) off = v.
Proof.
  intros Hok Hin. pose proof (slice_store fields l off [v] Hok Hin) as Hs.
  assert (Hoff : 0 <= off).
  { clear Hs. induction fields as [|f rest IH]; [done|].
    apply fields_ok_cons in Hok as (Hf & _ & Hrest). destruct Hin as [->|Hin]; [apply Hf|by apply IH]. }
  change (zlen [v]) with 1 in Hs. rewrite <- (Z.add_0_r off), <- (rd_slice _ off 1 0), Hs by lia. done.
Qed.

Lemma splice_splice_same l off src src' :
  0 <= off -> zlen src = zlen src' -> off + zlen src <= zlen l ->
  splice (splice l off src) off src' = splice l off src'.
Proof.
  intros Ho Hs Hl. pose proof (zlen_splice l off src Ho Hl).
  apply buf_ext; [rewrite !zlen_splice; lia|]. intros i Hi. rewrite zlen_splice in Hi by lia.
  rewrite !(rd_splice _ off src' i) by lia. case_match; [done|].
  rewrite rd_splice by lia. by rewrite Hs, H0.
Qed.
End Store.

Lemma zeros_bytes n : Forall is_byte (replicate n 0).
Proof. apply Forall_replicate. unfold is_byte. lia. Qed.

Lemma zlen_zeros n : zlen (replicate n 0) = Z.of_nat n.
Proof. unfold zlen. by rewrite length_replicate. Qed.

(** ** C strings: the bytes before the terminator *)

(** The characters of a C string literal; [\n], [\b], [\\] and [\e] (the
    code's [\033]) are the escapes the sources use. *)
Fixpoint c_lit (s : string) : list Z :=
  match s with
  | EmptyString => []
  | String "\"%char (String "n"%char t) => 10 :: c_lit t
  | String "\"%char (String "b"%char t) => 8 :: c_lit t
  | String "\"%char (String "e"%char t) => 27 :: c_lit t
  | String "\"%char (String "\"%char t) => 92 :: c_lit t
  | String a t => Z.of_N (Ascii.N_of_ascii a) :: c_lit t
  end.
Arguments c_lit _%_string.

(** the code of a character constant *)
Definition chr (s : string) : Z := rd (c_lit s) 0.
Arguments chr _%_string.

(** [s[i]] of a C string: the terminator is the zero after the last byte *)
Definition cch (s : list Z) (i : Z) : Z := rd s i.

(** a C string holds no zero byte *)
Definition is_cstr (s : list Z) : Prop := Forall (fun c => 0 < c < 256) s.

#[export] Instance is_cstr_dec s : Decision (is_cstr s).
Proof. unfold is_cstr. apply _. Defined.

Lemma cch_nil i : cch [] i = 0.
Proof. unfold cch, rd. case_match; done. Qed.

Lemma cch_cons_0 c s : cch (c :: s) 0 = c.
Proof. done. Qed.

Lemma cch_cons_S c s i : 0 <= i -> cch (c :: s) (i + 1) = cch s i.
Proof.
  intros. unfold cch, rd. rewrite !(proj2 (Z.ltb_ge _ _)) by lia.
  replace (Z.to_nat (i + 1)) with (S (Z.to_nat i)) by lia. done.
Qed.

Lemma cch_end s i : zlen s <= i -> cch s i = 0.
Proof.
  unfold zlen, cch, rd. intros. case_match; [done|].
  by rewrite lookup_ge_None_2 by lia.
Qed.

Lemma cch_nonzero s i : is_cstr s -> 0 <= i < zlen s -> 0 < cch s i < 256.
Proof. intros Hs Hi. unfold cch. eapply (Forall_rd _ _ _ Hs); done. Qed.

(** ** Console events: one call of [kprintf], its format and its arguments *)

Inductive karg :=
  | KInt (v : Z)
  | KStr (s : list Z)
  | KPtr (v : Z).

Record kevent := KP { kp_fmt : list Z; kp_args : list karg }.
