(* ===== verification/Memory.v ===== *)
(** * The physical frame allocator (kernel/memory, kernel/new.cpp)

    [Module Bitmap]: the class Bitmap, one bit per 4 KiB frame, set when the
    frame is in use.  [Module MemoryManager]: Initialize, AllocateFrame,
    FreeFrame, Allocate and Free.  [Module New]: operator new and delete with
    their 16-byte size header.  [Class FrameAllocator] is the interface the
    other components are verified against; the last section discharges it. *)
From S2P Require Import Prelude.

(** ** kernel/memory/memory.hpp *)

Inductive MemoryType :=
  | kEfiReservedMemoryType | kEfiLoaderCode | kEfiLoaderData
  | kEfiBootServicesCode | kEfiBootServicesData
  | kEfiRuntimeServicesCode | kEfiRuntimeServicesData
  | kEfiConventionalMemory
  | kEfiUnusableMemory | kEfiACPIReclaimMemory | kEfiACPIMemoryNVS
  | kEfiMemoryMappedIO | kEfiMemoryMappedIOPortSpace | kEfiPalCode
  | kEfiPersistentMemory | kEfiMaxMemoryType.

#[export] Instance MemoryType_eq_dec : EqDecision MemoryType.
Proof. solve_decision. Defined.

(** the enumerators in order, so that [static_cast<MemoryType>(type)] can be read off *)
Definition MemoryTypes : list MemoryType :=
  [ kEfiReservedMemoryType; kEfiLoaderCode; kEfiLoaderData;
    kEfiBootServicesCode; kEfiBootServicesData;
    kEfiRuntimeServicesCode; kEfiRuntimeServicesData;
    kEfiConventionalMemory;
    kEfiUnusableMemory; kEfiACPIReclaimMemory; kEfiACPIMemoryNVS;
    kEfiMemoryMappedIO; kEfiMemoryMappedIOPortSpace; kEfiPalCode;
    kEfiPersistentMemory; kEfiMaxMemoryType ].

Record MemoryDescriptor := {
  md_type : Z;
  physical_start : Z;
  virtual_start : Z;
  number_of_pages : Z;
  attribute : Z
}.

Definition is_conventional (desc : MemoryDescriptor) : bool :=
  bool_decide (MemoryTypes !! Z.to_nat (md_type desc) = Some kEfiConventionalMemory).

(** The descriptors found at [buffer], [buffer + descriptor_size], ... :
    [map_size / descriptor_size] of them. *)
Definition MemoryMap := list MemoryDescriptor.

(** ** class Bitmap *)

Module Bitmap.
Record t := mk {
  buffer_ : list Z;
  bitmap_size_ : Z
}.

(** [SetBuffer] followed by the caller's fill of the buffer *)
Definition SetBuffer (buffer : list Z) (size : Z) : t := mk buffer size.

Definition Get (bm : t) (index : Z) : bool :=
  if bitmap_size_ bm <=? index / 8 then true
  else negb (Z.land (rd (buffer_ bm) (index / 8)) (Z.shiftl 1 (index mod 8)) =? 0).

Definition Set_ (bm : t) (index : Z) (allocated : bool) : t :=
  if bitmap_size_ bm <=? index / 8 then bm
  else
    let b := rd (buffer_ bm) (index / 8) in
    let b' := if allocated
              then Z.lor b (Z.shiftl 1 (index mod 8))
              else Z.land b (Z.lnot (Z.shiftl 1 (index mod 8))) in
    mk (upd (buffer_ bm) (index / 8) b') (bitmap_size_ bm).

(** first clear bit of the byte [b], or none *)
Definition first_clear_bit (b : Z) : option Z :=
  for_return 8 0 (fun bit =>
    if negb (Z.odd (Z.land (Z.shiftr b bit) 1)) then Some bit else None).

Definition FindFreeFrame (bm : t) : Z :=
  match for_return (Z.to_nat (bitmap_size_ bm)) 0 (fun i =>
          let b := rd (buffer_ bm) i in
          if negb (b =? 255) then
            match first_clear_bit b with
            | Some bit => Some (i * 8 + bit)
            | None => None
            end
          else None) with
  | Some r => r
  | None => -1
  end.

(** The buffer is as long as the size says, and holds bytes *)
Record wf (bm : t) : Prop := {
  wf_size : zlen (buffer_ bm) = bitmap_size_ bm;
  wf_bytes : Forall is_byte (buffer_ bm)
}.

Definition frames (bm : t) : Z := 8 * bitmap_size_ bm.

Lemma byte_bits_high b k : is_byte b -> 8 <= k -> Z.testbit b k = false.
Proof.
  intros Hb Hk. destruct (decide (b = 0)) as [->|]; [apply Z.bits_0|].
  apply Z.bits_above_log2; [unfold is_byte in Hb; lia|].
  assert (Z.log2 b < 8); [|lia]. apply Z.log2_lt_pow2; unfold is_byte in Hb; lia.
Qed.

Lemma byte_of_bits b : 0 <= b -> (forall k, 8 <= k -> Z.testbit b k = false) -> is_byte b.
Proof.
  intros H0 Hk. unfold is_byte. split; [done|].
  destruct (Z.ltb_spec b 256); [done|exfalso].
  assert (Hlog : 8 <= Z.log2 b) by (apply Z.log2_le_pow2; lia).
  specialize (Hk _ Hlog). rewrite Z.bit_log2 in Hk by lia. done.
Qed.

Lemma land_bit_testbit b k :
  0 <= k -> negb (Z.land b (Z.shiftl 1 k) =? 0) = Z.testbit b k.
Proof.
  intros Hk. rewrite Z.shiftl_1_l. destruct (Z.testbit b k) eqn:Hb.
  - destruct (Z.eqb_spec (Z.land b (2 ^ k)) 0) as [He|]; [exfalso|done].
    apply (f_equal (fun x => Z.testbit x k)) in He.
    rewrite Z.land_spec, Hb, Z.pow2_bits_true, Z.bits_0 in He by lia. done.
  - replace (Z.land b (2 ^ k)) with 0; [done|]. symmetry. apply Z.bits_inj'.
    intros n Hn. rewrite Z.land_spec, Z.bits_0. destruct (decide (n = k)) as [->|].
    + by rewrite Hb.
    + rewrite Z.pow2_bits_false by lia. apply andb_false_r.
Qed.

Lemma Get_testbit bm i :
  0 <= i < frames bm -> Get bm i = Z.testbit (rd (buffer_ bm) (i / 8)) (i mod 8).
Proof.
  unfold Get, frames. intros Hi.
  destruct (Z.leb_spec (bitmap_size_ bm) (i / 8)); [zlia|].
  apply land_bit_testbit. zlia.
Qed.

Lemma Get_outside bm i : frames bm <= i -> Get bm i = true.
Proof. unfold Get, frames. intros. destruct (Z.leb_spec (bitmap_size_ bm) (i / 8)); [done|zlia]. Qed.

Lemma Set_size bm i v : bitmap_size_ (Set_ bm i v) = bitmap_size_ bm.
Proof. unfold Set_. by case_match. Qed.

Lemma Set_outside bm i v : frames bm <= i -> Set_ bm i v = bm.
Proof. unfold Set_, frames. intros. destruct (Z.leb_spec (bitmap_size_ bm) (i / 8)); [done|zlia]. Qed.

Lemma testbit_shiftl_1 k n : 0 <= k -> 0 <= n -> Z.testbit (Z.shiftl 1 k) n = (n =? k).
Proof.
  intros. rewrite Z.shiftl_1_l. destruct (Z.eqb_spec n k) as [->|].
  - by apply Z.pow2_bits_true.
  - by apply Z.pow2_bits_false.
Qed.

(** The new byte of [Set_], bit by bit *)
Lemma set_byte_testbit b k v n :
  0 <= k -> 0 <= n ->
  Z.testbit (if (v : bool) then Z.lor b (Z.shiftl 1 k)
             else Z.land b (Z.lnot (Z.shiftl 1 k))) n
  = if n =? k then v else Z.testbit b n.
Proof.
  intros Hk Hn. destruct v.
  - rewrite Z.lor_spec, testbit_shiftl_1 by done. destruct (n =? k); [apply orb_true_r|apply orb_false_r].
  - rewrite Z.land_spec, Z.lnot_spec, testbit_shiftl_1 by done.
    destruct (n =? k); [apply andb_false_r|apply andb_true_r].
Qed.

Lemma Set_wf bm i v : wf bm -> 0 <= i -> wf (Set_ bm i v).
Proof.
  intros [Hs Hb] Hi. unfold Set_.
  destruct (Z.leb_spec (bitmap_size_ bm) (i / 8)) as [|Hlt]; [by split|].
  split; cbn [buffer_ bitmap_size_]; [by rewrite zlen_upd|].
  apply Forall_upd; [done|].
  assert (Hbyte : is_byte (rd (buffer_ bm) (i / 8))).
  { apply Forall_rd; [done|]. rewrite Hs. zlia. }
  assert (0 <= i mod 8 < 8) by zlia.
  apply byte_of_bits.
  - destruct v.
    + apply Z.lor_nonneg. split; [apply Hbyte|]. apply Z.shiftl_nonneg; lia.
    + apply Z.land_nonneg. left. apply Hbyte.
  - intros k Hk. rewrite set_byte_testbit by lia.
    destruct (Z.eqb_spec k (i mod 8)); [lia|]. by apply byte_bits_high.
Qed.

(** Reading after writing: the written frame has the new mark, the others keep theirs *)
Lemma Get_Set bm i j v :
  wf bm -> 0 <= i < frames bm -> 0 <= j ->
  Get (Set_ bm i v) j = if j =? i then v else Get bm j.
Proof.
  intros [Hs Hb] Hi Hj.
  destruct (Z.ltb_spec j (frames bm)) as [Hlt|Hge].
  - rewrite !Get_testbit; [|done|unfold frames in *; rewrite Set_size; lia].
    unfold Set_, frames in *. destruct (Z.leb_spec (bitmap_size_ bm) (i / 8)); [zlia|].
    cbn [buffer_]. rewrite rd_upd by (rewrite Hs; zlia).
    destruct (Z.eqb_spec (j / 8) (i / 8)) as [Hd|Hd].
    + rewrite set_byte_testbit by zlia. rewrite <- Hd.
      destruct (Z.eqb_spec (j mod 8) (i mod 8)), (Z.eqb_spec j i); try done; exfalso; zlia.
    + destruct (Z.eqb_spec j i) as [->|]; [done|done].
  - rewrite !Get_outside; [|done|unfold frames in *; rewrite Set_size; lia].
    destruct (Z.eqb_spec j i); [lia|done].
Qed.

(** A well-formed bitmap is determined by its size and its marks *)
Lemma bitmap_ext bm1 bm2 :
  wf bm1 -> wf bm2 -> bitmap_size_ bm1 = bitmap_size_ bm2 ->
  (forall j, 0 <= j < frames bm1 -> Get bm1 j = Get bm2 j) -> bm1 = bm2.
Proof.
  intros [Hs1 Hb1] [Hs2 Hb2] Hsz HG. destruct bm1 as [l1 n1], bm2 as [l2 n2]; cbn in *. subst n2.
  f_equal; [|lia]. apply buf_ext; [lia|]. intros i Hi.
  pose proof (Forall_rd _ _ i Hb1 ltac:(lia)) as Hy1.
  pose proof (Forall_rd _ _ i Hb2 ltac:(lia)) as Hy2.
  apply Z.bits_inj'. intros k Hk. destruct (Z.ltb_spec k 8).
  - specialize (HG (8 * i + k) ltac:(unfold frames; cbn; lia)).
    rewrite !Get_testbit in HG by (unfold frames; cbn; lia). cbn in HG.
    replace ((8 * i + k) / 8) with i in HG by zlia.
    replace ((8 * i + k) mod 8) with k in HG by zlia. done.
  - rewrite !byte_bits_high by done. done.
Qed.

(** clearing two marks, in either order *)
Lemma Set_clear_comm bm i j : Set_ (Set_ bm i false) j false = Set_ (Set_ bm j false) i false.
Proof.
  destruct bm as [l n]. unfold Set_ at 2 4. cbn [buffer_ bitmap_size_].
  destruct (Z.leb_spec n (i / 8)), (Z.leb_spec n (j / 8)); unfold Set_; cbn [buffer_ bitmap_size_];
    zcases; try done; try lia. f_equal.
  destruct (decide (i / 8 = j / 8)) as [Hij|Hij].
  - rewrite <- Hij. destruct (decide (0 <= i / 8 < zlen l)) as [Hr|Hr].
    + rewrite !rd_upd_eq, !upd_upd by done. f_equal.
      rewrite <- !Z.land_assoc. f_equal. apply Z.land_comm.
    + by rewrite !(upd_outside l) by done.
  - rewrite !rd_upd_other by done. by apply upd_comm.
Qed.

Lemma first_clear_bit_Some b k :
  first_clear_bit b = Some k <->
  0 <= k < 8 /\ Z.testbit b k = false /\ forall j, 0 <= j < k -> Z.testbit b j = true.
Proof.
  assert (Hodd : forall j, 0 <= j -> Z.odd (Z.land (Z.shiftr b j) 1) = Z.testbit b j).
  { intros j Hj. rewrite <- Z.bit0_odd, Z.land_spec, Z.shiftr_spec by lia.
    rewrite Z.add_0_l. apply andb_true_r. }
  unfold first_clear_bit. rewrite for_return_Some. split.
  - intros (k' & Hk & Hbk & Hlt). rewrite Hodd in Hbk by lia.
    destruct (Z.testbit b k') eqn:Hb; [done|]. cbn in Hbk. injection Hbk as ->.
    split_and!; [lia..|done|]. intros j Hj. specialize (Hlt j ltac:(lia)).
    rewrite Hodd in Hlt by lia. by destruct (Z.testbit b j).
  - intros (Hk & Hbk & Hlt). exists k. split_and!; [lia..| |].
    + by rewrite Hodd, Hbk by lia.
    + intros j Hj. by rewrite Hodd, Hlt by lia.
Qed.

Lemma first_clear_bit_None b : is_byte b -> first_clear_bit b = None -> b = 255.
Proof.
  intros Hb HN. apply Z.bits_inj'. intros k Hk.
  destruct (Z.ltb_spec k 8).
  - unfold first_clear_bit in HN. rewrite for_return_None in HN.
    specialize (HN k ltac:(lia)). rewrite <- Z.bit0_odd, Z.land_spec, Z.shiftr_spec in HN by lia.
    rewrite Z.add_0_l, andb_true_r in HN. destruct (Z.testbit b k); [|done].
    assert (Hc : k = 0 \/ k = 1 \/ k = 2 \/ k = 3 \/ k = 4 \/ k = 5 \/ k = 6 \/ k = 7) by lia.
    by destruct_or! Hc; subst.
  - rewrite byte_bits_high by done. symmetry. apply byte_bits_high; [|done]. unfold is_byte; lia.
Qed.

Lemma FindFreeFrame_cases bm :
  wf bm ->
  (FindFreeFrame bm = -1 /\ forall j, 0 <= j < frames bm -> Get bm j = true)
  \/ (0 <= FindFreeFrame bm < frames bm /\ Get bm (FindFreeFrame bm) = false
      /\ forall j, 0 <= j < FindFreeFrame bm -> Get bm j = true).
Proof.
  intros Hwf. pose proof (wf_size _ Hwf) as Hs. pose proof (zlen_nonneg (buffer_ bm)).
  assert (Hfull : forall i, 0 <= i < bitmap_size_ bm ->
    rd (buffer_ bm) i = 255 -> forall k, 0 <= k < 8 -> Get bm (i * 8 + k) = true).
  { intros i Hi He k Hk. rewrite Get_testbit by (unfold frames; lia).
    replace ((i * 8 + k) / 8) with i by zlia. replace ((i * 8 + k) mod 8) with k by zlia.
    rewrite He. change 255 with (Z.ones 8). apply Z.ones_spec_low. lia. }
  assert (Hnone : forall i, 0 <= i < bitmap_size_ bm ->
    (if negb (rd (buffer_ bm) i =? 255) then
       match first_clear_bit (rd (buffer_ bm) i) with
       | Some bit => Some (i * 8 + bit) | None => None end
     else None) = None -> rd (buffer_ bm) i = 255).
  { intros i Hi. destruct (Z.eqb_spec (rd (buffer_ bm) i) 255); [done|]. cbn [negb].
    destruct (first_clear_bit (rd (buffer_ bm) i)) eqn:Hf; [done|]. intros _.
    apply first_clear_bit_None; [|done]. apply Forall_rd; [apply Hwf|lia]. }
  unfold FindFreeFrame. case_match eqn:Hfr.
  - right. apply for_return_Some in Hfr as (i & Hi & Hbody & Hlt).
    destruct (Z.eqb_spec (rd (buffer_ bm) i) 255); [done|]. cbn [negb] in Hbody.
    destruct (first_clear_bit (rd (buffer_ bm) i)) as [k|] eqn:Hf; [|done].
    injection Hbody as <-. apply first_clear_bit_Some in Hf as (Hk & Hbk & Hlk).
    assert (Hdiv : forall k', 0 <= k' < 8 -> (i * 8 + k') / 8 = i /\ (i * 8 + k') mod 8 = k').
    { intros. split; zlia. }
    split_and!; [lia|unfold frames; lia| |].
    + rewrite Get_testbit by (unfold frames; lia). by rewrite (proj1 (Hdiv k Hk)), (proj2 (Hdiv k Hk)).
    + intros j Hj. destruct (decide (j / 8 = i)) as [He|Hne].
      * replace j with (i * 8 + j mod 8) by zlia.
        assert (Hm : 0 <= j mod 8 < 8) by zlia.
        rewrite Get_testbit by (unfold frames; lia).
        rewrite (proj1 (Hdiv _ Hm)), (proj2 (Hdiv _ Hm)). apply Hlk. zlia.
      * replace j with (j / 8 * 8 + j mod 8) by zlia.
        apply Hfull; [zlia| |zlia]. apply Hnone; [zlia|]. apply Hlt. zlia.
  - left. split; [done|]. rewrite for_return_None in Hfr. intros j Hj. unfold frames in Hj.
    replace j with (j / 8 * 8 + j mod 8) by zlia.
    apply Hfull; [zlia| |zlia]. apply Hnone; [zlia|]. apply Hfr. zlia.
Qed.

(** Marking the [n] frames from [i], as the loops of the allocator do *)
Definition Set_range (bm : t) (i : Z) (n : nat) (v : bool) : t :=
  for_loop n i (fun f b => Set_ b f v) bm.

Lemma Set_range_spec bm i n v :
  wf bm -> 0 <= i ->
  wf (Set_range bm i n v) /\ bitmap_size_ (Set_range bm i n v) = bitmap_size_ bm
  /\ forall j, 0 <= j < frames bm ->
      Get (Set_range bm i n v) j
      = if (i <=? j) && (j <? i + Z.of_nat n) then v else Get bm j.
Proof.
  intros Hwf Hi. unfold Set_range.
  apply (for_loop_inv (fun k b => wf b /\ bitmap_size_ b = bitmap_size_ bm /\
    forall j, 0 <= j < frames bm -> Get b j = if (i <=? j) && (j <? k) then v else Get bm j)).
  - split_and!; [done..|]. intros j Hj. destruct (Z.leb_spec i j), (Z.ltb_spec j i); try done; lia.
  - intros k b Hk (Hb & Hsz & HG). split_and!.
    + apply Set_wf; [done|lia].
    + by rewrite Set_size.
    + intros j Hj. destruct (Z.ltb_spec k (frames b)) as [Hin|Hout].
      * rewrite Get_Set by (done || lia). rewrite HG by done.
        destruct (Z.eqb_spec j k), (Z.leb_spec i j), (Z.ltb_spec j k), (Z.ltb_spec j (k + 1));
          cbn [andb]; try done; lia.
      * rewrite Set_outside by done. rewrite HG by done.
        unfold frames in *. rewrite Hsz in Hout.
        destruct (Z.ltb_spec j k), (Z.ltb_spec j (k + 1)); try done; lia.
Qed.
End Bitmap.

(** ** class MemoryManager *)

Module MemoryManager.
Import Bitmap.

Definition kFrameSize : Z := 4096.

Record t := mk {
  bitmap_ : Bitmap.t;
  range_begin_ : Z;
  range_end_ : Z
}.

(** the static members before Initialize *)
Definition initial : t := mk (Bitmap.mk [] 0) 0 0.

Definition region_end (desc : MemoryDescriptor) : Z :=
  u64 (physical_start desc + u64 (number_of_pages desc * 4096)).

(** first pass: the largest end address of a region *)
Definition max_region_end (memmap : MemoryMap) (range_end0 : Z) : Z :=
  fold_left (fun range_end desc =>
               if range_end <? region_end desc then region_end desc else range_end)
            memmap range_end0.

(** second pass: the first conventional region that holds the bitmap, 0 when none *)
Fixpoint find_bitmap_base (memmap : MemoryMap) (bitmap_size : Z) : Z :=
  match memmap with
  | [] => 0
  | desc :: rest =>
      if is_conventional desc
         && (bitmap_size <=? u64 (number_of_pages desc * kFrameSize))
      then physical_start desc
      else find_bitmap_base rest bitmap_size
  end.

(** third pass: every frame of a conventional region becomes free *)
Definition free_region (bm : Bitmap.t) (desc : MemoryDescriptor) : Bitmap.t :=
  if is_conventional desc then
    let start_frame := physical_start desc / kFrameSize in
    let end_frame := region_end desc / kFrameSize in
    for_loop (Z.to_nat (end_frame - start_frame)) start_frame
             (fun f b => Set_ b f false) bm
  else bm.

(** the bitmap of Initialize: everything used, then the conventional regions
    free, then the bitmap's own frames, the kernel image and frame 0 used *)
Definition initial_bitmap (memmap : MemoryMap)
    (bitmap_size bitmap_base kernel_start kernel_end : Z) : Bitmap.t :=
  let bm0 := SetBuffer (replicate (Z.to_nat bitmap_size) 255) bitmap_size in
  let bm1 := fold_left free_region memmap bm0 in
  let bitmap_start_frame := bitmap_base / kFrameSize in
  let bitmap_end_frame := u64 (bitmap_base + bitmap_size + kFrameSize - 1) / kFrameSize in
  let bm2 := for_loop (Z.to_nat (bitmap_end_frame - bitmap_start_frame))
                      bitmap_start_frame (fun f b => Set_ b f true) bm1 in
  let k_start_frame := kernel_start / kFrameSize in
  let k_end_frame := u64 (kernel_end + kFrameSize - 1) / kFrameSize in
  let bm3 := for_loop (Z.to_nat (k_end_frame - k_start_frame))
                      k_start_frame (fun f b => Set_ b f true) bm2 in
  Set_ bm3 0 true.

(** [Initialize]; [kernel_start] and [kernel_end] are the linker's symbols.
    [None]: no region can hold the bitmap, the code halts. *)
Definition Initialize (memmap : MemoryMap) (kernel_start kernel_end : Z) (m : t)
  : option t :=
  let range_end := max_region_end memmap (range_end_ m) in
  let total_frames := range_end / kFrameSize in
  let bitmap_size := (total_frames + 7) / 8 in
  let bitmap_base := find_bitmap_base memmap bitmap_size in
  if bitmap_base =? 0 then None
  else Some (mk (initial_bitmap memmap bitmap_size bitmap_base kernel_start kernel_end)
                (range_begin_ m) range_end).

Definition with_bitmap (m : t) (bm : Bitmap.t) : t :=
  mk bm (range_begin_ m) (range_end_ m).

(** the address, 0 for nullptr, and the new state *)
Definition AllocateFrame (m : t) : Z * t :=
  let frame := FindFreeFrame (bitmap_ m) in
  if frame <? 0 then (0, m)
  else (frame * kFrameSize, with_bitmap m (Set_ (bitmap_ m) frame true)).

Definition FreeFrame (ptr : Z) (m : t) : t :=
  let frame := ptr / kFrameSize in
  with_bitmap m (Set_ (bitmap_ m) frame false).

(** inner loop of Allocate: the first [j < num_frames] that blocks a run at [i] *)
Definition blocked_at (bm : Bitmap.t) (total_frames num_frames i : Z) : option Z :=
  for_return (Z.to_nat num_frames) 0 (fun j =>
    if (total_frames <=? i + j) || Get bm (i + j) then Some j else None).

(** outer loop: [i += j; ++i] after a blocked run.  [i] grows at every turn,
    so [total_frames - start] turns are enough. *)
Fixpoint search_run (fuel : nat) (bm : Bitmap.t) (total_frames num_frames i : Z)
  : option Z :=
  match fuel with
  | O => None
  | S fuel' =>
      if i <? total_frames then
        match blocked_at bm total_frames num_frames i with
        | None => Some i
        | Some j => search_run fuel' bm total_frames num_frames (i + j + 1)
        end
      else None
  end.

Definition Allocate (size alignment : Z) (m : t) : Z * t :=
  if size =? 0 then (0, m)
  else
    let num_frames := u64 (size + kFrameSize - 1) / kFrameSize in
    if num_frames =? 1 then AllocateFrame m
    else
      let total_frames := range_end_ m / kFrameSize in
      let start_search := FindFreeFrame (bitmap_ m) in
      if start_search <? 0 then (0, m)
      else
        match search_run (Z.to_nat (total_frames - start_search)) (bitmap_ m)
                         total_frames num_frames start_search with
        | Some i =>
            (i * kFrameSize,
             with_bitmap m (for_loop (Z.to_nat num_frames) 0
                              (fun j b => Set_ b (i + j) true) (bitmap_ m)))
        | None => (0, m)
        end.

Definition Free (ptr size : Z) (m : t) : t :=
  let start_frame := ptr / kFrameSize in
  let num_frames := u64 (size + kFrameSize - 1) / kFrameSize in
  with_bitmap m (for_loop (Z.to_nat num_frames) 0
                   (fun i b => Set_ b (start_frame + i) false) (bitmap_ m)).

Definition total_frames (m : t) : Z := range_end_ m / kFrameSize.

(** The state Initialize establishes and every operation keeps: frame 0 is
    never free, nor is a frame at or above the end of memory. *)
Record inv (m : t) : Prop := {
  inv_wf : Bitmap.wf (bitmap_ m);
  inv_cover : total_frames m <= frames (bitmap_ m);
  inv_bound : 0 <= range_end_ m < 2 ^ 64;
  inv_zero : Get (bitmap_ m) 0 = true;
  inv_high : forall j, total_frames m <= j -> Get (bitmap_ m) j = true
}.

(** the frames [i], ..., [i + n - 1] exist and are free *)
Definition free_run (m : t) (i n : Z) : Prop :=
  forall k, i <= k < i + n -> k < total_frames m /\ Get (bitmap_ m) k = false.

Lemma blocked_at_None m num i :
  blocked_at (bitmap_ m) (total_frames m) num i = None <-> free_run m i num.
Proof.
  unfold blocked_at, free_run. rewrite for_return_None. split.
  - intros HN k Hk. specialize (HN (k - i) ltac:(lia)).
    replace (i + (k - i)) with k in HN by lia.
    destruct (Z.leb_spec (total_frames m) k); [done|].
    destruct (Get (bitmap_ m) k); [done|]. done.
  - intros Hf k Hk. destruct (Hf (i + k) ltac:(lia)) as [H1 H2].
    rewrite H2. destruct (Z.leb_spec (total_frames m) (i + k)); [lia|done].
Qed.

Lemma blocked_at_Some m num i j :
  blocked_at (bitmap_ m) (total_frames m) num i = Some j ->
  0 <= j < num /\ forall s, i <= s <= i + j -> ~ free_run m s num.
Proof.
  unfold blocked_at. intros (k & Hk & Hb & _)%for_return_Some.
  destruct (_ || _) eqn:Hor; [|done]. injection Hb as ->. split; [lia|].
  intros s Hs Hrun. destruct (Hrun (i + j) ltac:(lia)) as [H1 H2].
  rewrite H2, orb_false_r in Hor. apply Z.leb_le in Hor. lia.
Qed.

Lemma search_run_spec m num fuel i :
  1 <= num -> 0 <= i -> total_frames m - i <= Z.of_nat fuel ->
  match search_run fuel (bitmap_ m) (total_frames m) num i with
  | Some r => i <= r /\ free_run m r num /\ forall s, i <= s < r -> ~ free_run m s num
  | None => forall s, i <= s -> ~ free_run m s num
  end.
Proof.
  intros Hnum. assert (Htop : forall s, total_frames m <= s -> ~ free_run m s num).
  { intros s Hs Hrun. destruct (Hrun s ltac:(lia)). lia. }
  revert i. induction fuel as [|fuel IH]; intros i Hi Hfuel; cbn [search_run].
  { intros s Hs. apply Htop. lia. }
  destruct (Z.ltb_spec i (total_frames m)); [|intros s Hs; apply Htop; lia].
  destruct (blocked_at _ _ _ _) as [j|] eqn:Hb.
  - apply blocked_at_Some in Hb as [Hj Hno]. specialize (IH (i + j + 1) ltac:(lia) ltac:(lia)).
    destruct (search_run fuel _ _ _ _) as [r|].
    + destruct IH as (Hr & Hrun & Hfirst). split_and!; [lia|done|].
      intros s Hs. destruct (Z.le_gt_cases s (i + j)); [apply Hno; lia|apply Hfirst; lia].
    + intros s Hs. destruct (Z.le_gt_cases s (i + j)); [apply Hno; lia|apply IH; lia].
  - apply blocked_at_None in Hb. split_and!; [lia|done|]. intros; lia.
Qed.

(** Marking a run of existing frames keeps the invariant *)
Lemma inv_mark m i n :
  inv m -> 0 <= i -> inv (with_bitmap m (Set_range (bitmap_ m) i n true)).
Proof.
  intros [Hwf Hc Hb Hz Hh] Hi.
  destruct (Set_range_spec (bitmap_ m) i n true Hwf Hi) as (Hwf' & Hsz & HG).
  assert (Hkeep : forall j, 0 <= j -> Get (bitmap_ m) j = true ->
            Get (Set_range (bitmap_ m) i n true) j = true).
  { intros j Hj HGj. destruct (Z.ltb_spec j (frames (bitmap_ m))).
    - rewrite HG by lia. by case_match.
    - apply Get_outside. unfold frames in *. lia. }
  split; cbn [bitmap_ with_bitmap range_end_]; unfold total_frames in *;
    cbn [range_end_ with_bitmap bitmap_] in *; auto.
  - unfold frames in *. lia.
  - apply Hkeep; [lia|done].
  - intros j Hj. apply Hkeep; [|by apply Hh]. unfold kFrameSize in *. zlia.
Qed.

(** Freeing the frames that a run marked gives the bitmap back *)
Lemma Set_range_undo bm i n :
  wf bm -> 0 <= i ->
  (forall k, i <= k < i + Z.of_nat n -> k < frames bm -> Get bm k = false) ->
  Set_range (Set_range bm i n true) i n false = bm.
Proof.
  intros Hwf Hi Hfree.
  destruct (Set_range_spec bm i n true Hwf Hi) as (Hwf1 & Hsz1 & HG1).
  destruct (Set_range_spec _ i n false Hwf1 Hi) as (Hwf2 & Hsz2 & HG2).
  apply bitmap_ext; [done..|congruence|]. intros j Hj. unfold frames in *.
  rewrite HG2 by lia. rewrite HG1 by lia.
  destruct (Z.leb_spec i j), (Z.ltb_spec j (i + Z.of_nat n)); cbn [andb]; try done.
  symmetry. apply Hfree; lia.
Qed.

Lemma Set_range_1 bm i v : Set_range bm i 1 v = Set_ bm i v.
Proof. done. Qed.

Lemma mark_loop bm i n v :
  for_loop n 0 (fun j b => Set_ b (i + j) v) bm = Set_range bm i n v.
Proof.
  unfold Set_range. rewrite (for_loop_shift n i 0 (fun f b => Set_ b f v)).
  by rewrite Z.add_0_r.
Qed.

Definition num_frames (size : Z) : Z := (size + 4095) / 4096.

Lemma num_frames_u64 size :
  0 <= size <= 2 ^ 64 - 4096 -> u64 (size + kFrameSize - 1) / kFrameSize = num_frames size.
Proof. intros. unfold num_frames, kFrameSize. rewrite u64_small by lia. f_equal. lia. Qed.

(** What Allocate does, in one statement: first fit over runs of free frames *)
Lemma Allocate_cases m size al :
  inv m -> 0 < size <= 2 ^ 64 - 4096 ->
  (Allocate size al m = (0, m) /\ forall i, 0 <= i -> ~ free_run m i (num_frames size))
  \/ exists f, 0 < f /\ free_run m f (num_frames size)
      /\ (forall i, 0 <= i < f -> ~ free_run m i (num_frames size))
      /\ Allocate size al m
         = (f * 4096,
            with_bitmap m (Set_range (bitmap_ m) f (Z.to_nat (num_frames size)) true)).
Proof.
  intros Hinv Hsize. assert (Hn : 1 <= num_frames size) by (unfold num_frames; zlia).
  unfold Allocate. rewrite (proj2 (Z.eqb_neq size 0)) by lia.
  rewrite num_frames_u64 by lia. fold (total_frames m).
  assert (Hskip : forall i r, 0 <= i < r ->
    (forall j, 0 <= j < r -> Get (bitmap_ m) j = true) -> ~ free_run m i (num_frames size)).
  { intros i r Hi Hall Hrun. destruct (Hrun i ltac:(lia)) as [_ Hg].
    rewrite Hall in Hg by lia. done. }
  destruct (FindFreeFrame_cases (bitmap_ m) (inv_wf _ Hinv)) as [[HF Hall]|(HF & Hg & Hall)].
  - left. rewrite HF. unfold AllocateFrame. rewrite HF. cbn. split; [by case_match|].
    intros i Hi Hrun. destruct (Hrun i ltac:(lia)) as [Ht Hgi].
    destruct (Z.ltb_spec i (frames (bitmap_ m))).
    + rewrite Hall in Hgi by lia. done.
    + rewrite Get_outside in Hgi by lia. done.
  - set (r := FindFreeFrame (bitmap_ m)) in *.
    assert (Hr0 : 0 < r).
    { destruct (decide (r = 0)) as [He|]; [|lia]. rewrite He, (inv_zero _ Hinv) in Hg. done. }
    destruct (Z.eqb_spec (num_frames size) 1) as [H1|H1].
    + right. exists r. rewrite H1. split_and!; [lia| |rewrite <- H1; intros; eapply Hskip; eauto; lia|].
      * intros k Hk. assert (k = r) by lia. subst k. split; [|done].
        destruct (Z.ltb_spec r (total_frames m)); [done|].
        rewrite (inv_high _ Hinv) in Hg by done. done.
      * unfold AllocateFrame. fold r. rewrite (proj2 (Z.ltb_ge r 0)) by lia. done.
    + rewrite (proj2 (Z.ltb_ge r 0)) by lia.
      pose proof (search_run_spec m (num_frames size) (Z.to_nat (total_frames m - r)) r
                    Hn ltac:(lia) ltac:(lia)) as Hs.
      destruct (search_run _ _ _ _ _) as [f|].
      * right. destruct Hs as (Hf & Hrun & Hfirst). exists f. split_and!; [lia|done| |].
        -- intros i Hi. destruct (Z.le_gt_cases r i); [apply Hfirst; lia|].
           eapply Hskip; [|exact Hall]. lia.
        -- by rewrite mark_loop.
      * left. split; [done|]. intros i Hi. destruct (Z.le_gt_cases r i); [apply Hs; lia|].
        eapply Hskip; [|exact Hall]. lia.
Qed.

(** *** Initialize *)

Definition desc_ok (desc : MemoryDescriptor) : Prop :=
  0 <= physical_start desc /\ 0 <= number_of_pages desc
  /\ physical_start desc + number_of_pages desc * 4096 + 4096 < 2 ^ 64.

#[export] Instance desc_ok_dec desc : Decision (desc_ok desc).
Proof. unfold desc_ok. apply _. Defined.

(** frame [f] lies in the conventional region [desc] *)
Definition in_region (desc : MemoryDescriptor) (f : Z) : Prop :=
  is_conventional desc = true
  /\ physical_start desc / 4096 <= f
     < (physical_start desc + number_of_pages desc * 4096) / 4096.

Lemma region_end_ok desc :
  desc_ok desc ->
  region_end desc = physical_start desc + number_of_pages desc * 4096.
Proof. intros (H1 & H2 & H3). unfold region_end.
  rewrite (u64_small (_ * _)) by lia. apply u64_small. lia.
Qed.

Lemma max_region_end_spec memmap r0 :
  Forall desc_ok memmap -> 0 <= r0 < 2 ^ 64 ->
  r0 <= max_region_end memmap r0 < 2 ^ 64
  /\ forall desc, In desc memmap -> region_end desc <= max_region_end memmap r0.
Proof.
  unfold max_region_end. intros Hok. revert r0.
  induction Hok as [|d ds Hd _ IH]; intros r0 Hr0; cbn [fold_left].
  { split; [lia|]. intros _ []. }
  assert (Hrd : 0 <= region_end d < 2 ^ 64).
  { rewrite region_end_ok by done. destruct Hd as (? & ? & ?). lia. }
  destruct (Z.ltb_spec r0 (region_end d)).
  - destruct (IH (region_end d) Hrd) as [Hb Hin]. split; [lia|].
    intros desc [<-|Hd']; [lia|by apply Hin].
  - destruct (IH r0 Hr0) as [Hb Hin]. split; [lia|].
    intros desc [<-|Hd']; [lia|by apply Hin].
Qed.

Lemma find_bitmap_base_spec memmap size base :
  Forall desc_ok memmap -> find_bitmap_base memmap size = base -> base <> 0 ->
  0 < base /\ base + size + 4096 < 2 ^ 64.
Proof.
  induction 1 as [|d ds Hd _ IH]; cbn [find_bitmap_base]; [congruence|].
  destruct (is_conventional d && _) eqn:Hc; [|done]. intros <- Hne.
  apply andb_true_iff in Hc as [_ Hle]. destruct Hd as (? & ? & ?).
  apply Z.leb_le in Hle. unfold kFrameSize in Hle. rewrite u64_small in Hle by lia. lia.
Qed.

Lemma free_region_range bm desc :
  desc_ok desc ->
  free_region bm desc
  = if is_conventional desc
    then Set_range bm (physical_start desc / 4096)
           (Z.to_nat ((physical_start desc + number_of_pages desc * 4096) / 4096
                      - physical_start desc / 4096)) false
    else bm.
Proof. intros Hd. unfold free_region. rewrite region_end_ok by done. done. Qed.

Lemma free_regions_spec memmap bm :
  Forall desc_ok memmap -> wf bm ->
  let bm' := fold_left free_region memmap bm in
  wf bm' /\ bitmap_size_ bm' = bitmap_size_ bm
  /\ forall f, 0 <= f < frames bm ->
      (Get bm' f = false <-> Get bm f = false \/ exists d, In d memmap /\ in_region d f).
Proof.
  intros Hok. revert bm. induction Hok as [|d ds Hd _ IH]; intros bm Hwf; cbn [fold_left].
  { split_and!; [done..|]. intros f _. split; [by left|].
    by intros [?|(? & [] & _)]. }
  rewrite free_region_range by done. pose proof Hd as (Hd1 & Hd2 & Hd3).
  set (lo := physical_start d / 4096) in *.
  set (hi := (physical_start d + number_of_pages d * 4096) / 4096) in *.
  assert (Hlohi : 0 <= lo <= hi) by (subst lo hi; zlia).
  assert (Hone : forall f, in_region d f <-> is_conventional d = true /\ lo <= f < hi) by done.
  destruct (is_conventional d).
  - destruct (Set_range_spec bm lo (Z.to_nat (hi - lo)) false Hwf ltac:(lia)) as (Hw1 & Hs1 & HG1).
    destruct (IH _ Hw1) as (Hw2 & Hs2 & HG2). split_and!; [done|congruence|].
    intros f Hf. rewrite HG2 by (unfold frames in *; lia). rewrite HG1 by done.
    split.
    + intros [Hg|(d' & Hin & Hr)]; [|right; exists d'; split; [by right|done]].
      destruct (Z.leb_spec lo f), (Z.ltb_spec f (lo + Z.of_nat (Z.to_nat (hi - lo))));
        cbn [andb] in Hg; try (by left).
      right. exists d. split; [by left|]. apply Hone. split; [done|lia].
    + intros [Hg|(d' & [<-|Hin] & Hr)].
      * left. by case_match.
      * left. apply Hone in Hr as [_ Hr].
        rewrite (proj2 (Z.leb_le _ _)), (proj2 (Z.ltb_lt _ _)) by lia. done.
      * right. by exists d'.
  - destruct (IH bm Hwf) as (Hw2 & Hs2 & HG2). split_and!; [done..|].
    intros f Hf. rewrite HG2 by done. split; intros [Hg|(d' & Hin & Hr)]; try by left.
    + right. exists d'. split; [by right|done].
    + destruct Hin as [<-|Hin]; [|right; by exists d'].
      apply Hone in Hr as [Hr _]. done.
Qed.

Lemma Get_full n f : 0 <= f < 8 * Z.of_nat n -> Get (SetBuffer (replicate n 255) (Z.of_nat n)) f = true.
Proof.
  intros Hf. rewrite Get_testbit by (unfold frames; cbn; lia). cbn [buffer_ SetBuffer].
  rewrite rd_replicate by zlia. change 255 with (Z.ones 8). apply Z.ones_spec_low. zlia.
Qed.

(** Marking an address range [lo, hi): the frames that meet it *)
Definition frame_of_range (lo hi f : Z) : Prop := lo / 4096 <= f < (hi + 4095) / 4096.

Lemma mark_range_spec bm lo hi :
  wf bm -> 0 <= lo <= hi -> hi + 4096 < 2 ^ 64 ->
  let bm' := for_loop (Z.to_nat (u64 (hi + kFrameSize - 1) / kFrameSize - lo / kFrameSize))
               (lo / kFrameSize) (fun f b => Set_ b f true) bm in
  wf bm' /\ bitmap_size_ bm' = bitmap_size_ bm
  /\ forall f, 0 <= f < frames bm ->
      (Get bm' f = false <-> Get bm f = false /\ ~ frame_of_range lo hi f).
Proof.
  intros Hwf Hlo Hhi. assert (H0 : 0 <= lo / 4096) by zlia.
  cbv zeta. unfold kFrameSize. rewrite u64_small by lia.
  set (n := Z.to_nat ((hi + 4096 - 1) / 4096 - lo / 4096)).
  fold (Set_range bm (lo / 4096) n true).
  destruct (Set_range_spec bm (lo / 4096) n true Hwf H0) as (Hw & Hs & HG).
  split_and!; [done..|]. intros f Hf. rewrite HG by done. subst n.
  unfold frame_of_range. replace (hi + 4096 - 1) with (hi + 4095) by lia.
  assert (lo / 4096 <= (hi + 4095) / 4096) by zlia.
  destruct (Z.leb_spec (lo / 4096) f),
    (Z.ltb_spec f (lo / 4096 + Z.of_nat (Z.to_nat ((hi + 4095) / 4096 - lo / 4096))));
    cbn [andb]; intuition (done || lia).
Qed.

(** in a conventional region, and outside the bitmap, the kernel and frame 0 *)
Definition usable (memmap : MemoryMap) (base size ks ke f : Z) : Prop :=
  (exists d, In d memmap /\ in_region d f)
  /\ f <> 0 /\ ~ frame_of_range base (base + size) f /\ ~ frame_of_range ks ke f.

Lemma initial_bitmap_spec memmap size base ks ke :
  Forall desc_ok memmap -> 0 <= size -> 0 < base -> base + size + 4096 < 2 ^ 64 ->
  0 <= ks <= ke -> ke + 4096 < 2 ^ 64 ->
  let bm := initial_bitmap memmap size base ks ke in
  wf bm /\ bitmap_size_ bm = size /\ Get bm 0 = true
  /\ forall f, 0 <= f < 8 * size -> (Get bm f = false <-> usable memmap base size ks ke f).
Proof.
  intros Hok Hsize Hb0 Hbase Hk Hke. cbv zeta. unfold initial_bitmap.
  set (bm0 := SetBuffer (replicate (Z.to_nat size) 255) size).
  assert (Hwf0 : wf bm0).
  { split; cbn [buffer_ bitmap_size_ bm0 SetBuffer].
    - unfold zlen. rewrite length_replicate. lia.
    - apply Forall_replicate. unfold is_byte. lia. }
  destruct (free_regions_spec memmap bm0 Hok Hwf0) as (Hwf1 & Hs1 & HG1). cbv zeta in *.
  set (bm1 := fold_left free_region memmap bm0) in *.
  replace (base + size + kFrameSize - 1) with ((base + size) + kFrameSize - 1) by lia.
  destruct (mark_range_spec bm1 base (base + size) Hwf1 ltac:(lia) ltac:(lia))
    as (Hwf2 & Hs2 & HG2). cbv zeta in *.
  set (bm2 := for_loop _ (base / kFrameSize) _ bm1) in *.
  destruct (mark_range_spec bm2 ks ke Hwf2 ltac:(lia) ltac:(lia)) as (Hwf3 & Hs3 & HG3).
  cbv zeta in *. set (bm3 := for_loop _ (ks / kFrameSize) _ bm2) in *.
  assert (frames bm1 = 8 * size /\ frames bm2 = 8 * size /\ frames bm3 = 8 * size) as (Hf1 & Hf2 & Hf3).
  { unfold frames. by rewrite Hs3, Hs2, Hs1. }
  assert (Hf0 : frames bm0 = 8 * size) by done.
  assert (Hzero : forall f, 0 <= f ->
    Get (Set_ bm3 0 true) f = if f =? 0 then true else Get bm3 f).
  { intros f Hf. destruct (Z.ltb_spec 0 (frames bm3)); [by apply Get_Set|].
    rewrite Set_outside by lia. destruct (Z.eqb_spec f 0); [|done]. apply Get_outside. lia. }
  split_and!; [by apply Set_wf|by rewrite Set_size, Hs3, Hs2|by rewrite Hzero|].
  intros f Hf. rewrite Hzero by lia. unfold usable.
  destruct (Z.eqb_spec f 0) as [->|]; [split; [done|by intros (_ & ? & _)]|].
  rewrite HG3, HG2, HG1 by lia.
  assert (Get bm0 f = true) as ->; [|intuition done].
  subst bm0. rewrite <- (Z2Nat.id size) at 2 by lia. apply Get_full. lia.
Qed.

(** the allocator after Initialize: its invariant, and which frames are free *)
Lemma Initialize_spec memmap kernel_start kernel_end m :
  Forall desc_ok memmap ->
  0 <= kernel_start <= kernel_end -> kernel_end + 4096 < 2 ^ 64 ->
  Initialize memmap kernel_start kernel_end initial = Some m ->
  let size := bitmap_size_ (bitmap_ m) in
  let base := find_bitmap_base memmap size in
  inv m /\ base <> 0
  /\ forall f, 0 <= f ->
     (Get (bitmap_ m) f = false <-> usable memmap base size kernel_start kernel_end f).
Proof.
  intros Hok Hk Hke HI. unfold Initialize in HI. cbn [range_end_ range_begin_ initial] in HI.
  destruct (max_region_end_spec memmap 0 Hok ltac:(lia)) as [Hre Hmax].
  set (re := max_region_end memmap 0) in *. set (tot := re / kFrameSize) in *.
  assert (Htot : 0 <= tot) by (apply Z.div_pos; unfold kFrameSize; lia).
  set (size := (tot + 7) / 8) in *. assert (Hsize : 0 <= size) by (apply Z.div_pos; lia).
  set (base := find_bitmap_base memmap size) in *.
  destruct (Z.eqb_spec base 0) as [|Hb0]; [done|].
  destruct (find_bitmap_base_spec memmap size base Hok eq_refl Hb0) as [Hbpos Hbase].
  destruct (initial_bitmap_spec memmap size base kernel_start kernel_end Hok Hsize Hbpos Hbase Hk Hke)
    as (Hwf & Hs & Hz & HG). injection HI as <-. cbn [bitmap_]. rewrite Hs. fold base.
  assert (Hcov : tot <= 8 * size) by (clear -Htot; subst size; zlia).
  assert (Hin : forall f, usable memmap base size kernel_start kernel_end f -> f < tot).
  { intros f ((d & Hd & _ & Hf) & _). pose proof (Hmax _ Hd) as Hle.
    rewrite region_end_ok in Hle by (by eapply List.Forall_forall in Hok).
    eapply Z.lt_le_trans; [apply Hf|]. apply Z.div_le_mono; [done|lia]. }
  assert (Hspec : forall f, 0 <= f ->
    Get (initial_bitmap memmap size base kernel_start kernel_end) f = false <->
    usable memmap base size kernel_start kernel_end f).
  { intros f Hf. destruct (Z.ltb_spec f (8 * size)); [apply HG; lia|].
    rewrite Get_outside by (unfold frames; rewrite Hs; lia).
    split; [done|]. intros Hu. apply Hin in Hu. lia. }
  split_and!; [|done|exact Hspec].
  split; cbn [bitmap_ range_end_]; unfold total_frames; cbn [range_end_ bitmap_]; fold tot;
    [done|unfold frames; lia|lia|done|].
  intros j Hj. apply not_false_iff_true. rewrite Hspec by lia. intros Hu%Hin. lia.
Qed.

(** the frames of the kernel image are in use *)
Lemma Initialize_kernel memmap kernel_start kernel_end m :
  Forall desc_ok memmap ->
  0 <= kernel_start <= kernel_end -> kernel_end + 4096 < 2 ^ 64 ->
  Initialize memmap kernel_start kernel_end initial = Some m ->
  inv m /\ forall a, kernel_start <= a < kernel_end -> Get (bitmap_ m) (a / 4096) = true.
Proof.
  intros Hok Hk Hke HI. destruct (Initialize_spec memmap kernel_start kernel_end m Hok Hk Hke HI) as (Hi & _ & Hf).
  split; [done|]. intros a Ha. apply not_false_iff_true. rewrite Hf by (apply Z.div_pos; lia).
  intros (_ & _ & _ & Hn). apply Hn. unfold frame_of_range, kFrameSize in *. zlia.
Qed.

(** C30: Initialize builds the invariant, and a frame is free afterwards exactly
    when a conventional region of the memory map holds it and it is neither
    frame 0, nor part of the bitmap itself, nor part of the kernel image. *)
Theorem Initialize_free_frames memmap kernel_start kernel_end m :
  Forall desc_ok memmap ->
  0 <= kernel_start <= kernel_end -> kernel_end + 4096 < 2 ^ 64 ->
  Initialize memmap kernel_start kernel_end initial = Some m ->
  let size := bitmap_size_ (bitmap_ m) in
  let base := find_bitmap_base memmap size in
  inv m /\ base <> 0
  /\ forall f, 0 <= f ->
     (Get (bitmap_ m) f = false <-> usable memmap base size kernel_start kernel_end f).
Proof. apply Initialize_spec. Qed.

(** *** Allocate and Free *)

Lemma Allocate_spec m size al p m' :
  inv m -> 0 < size <= 2 ^ 64 - 4096 -> Allocate size al m = (p, m') ->
  inv m'
  /\ (p = 0 <-> forall i, 0 <= i -> ~ free_run m i (num_frames size))
  /\ (p = 0 -> m' = m)
  /\ (p <> 0 -> exists f, p = f * 4096 /\ 0 < f /\ free_run m f (num_frames size)
      /\ (forall i, 0 <= i < f -> ~ free_run m i (num_frames size))
      /\ forall j, 0 <= j ->
           Get (bitmap_ m') j
           = ((f <=? j) && (j <? f + num_frames size)) || Get (bitmap_ m) j).
Proof.
  intros Hinv Hsize HA.
  destruct (Allocate_cases m size al Hinv Hsize) as [[HN Hno]|(f & Hf & Hrun & Hfirst & HS)].
  - rewrite HN in HA. injection HA as <- <-. split_and!; done.
  - rewrite HS in HA. injection HA as <- <-.
    assert (Hn : 1 <= num_frames size) by (unfold num_frames; zlia).
    split_and!; [apply inv_mark; [done|lia]| |lia|].
    + split; [lia|]. intros Hno. destruct (Hno f); [lia|done].
    + intros _. exists f. split_and!; [done..|]. intros j Hj. cbn [bitmap_ with_bitmap].
      destruct (Set_range_spec (bitmap_ m) f (Z.to_nat (num_frames size)) true
                  (inv_wf _ Hinv) ltac:(lia)) as (_ & Hs & HG).
      destruct (Z.ltb_spec j (frames (bitmap_ m))).
      * rewrite HG by lia. rewrite Z2Nat.id by lia. by case_match.
      * rewrite !Get_outside; [by rewrite orb_true_r|done|unfold frames in *; lia].
Qed.

(** C21: Allocate is first fit.  It returns null and changes nothing exactly when
    no run of enough free frames exists; otherwise it returns the start of the
    lowest run, which it marks used, and every other frame keeps its mark. *)
Theorem Allocate_first_fit m size al p m' :
  inv m -> 0 < size <= 2 ^ 64 - 4096 -> Allocate size al m = (p, m') ->
  inv m'
  /\ (p = 0 <-> forall i, 0 <= i -> ~ free_run m i (num_frames size))
  /\ (p = 0 -> m' = m)
  /\ (p <> 0 -> exists f, p = f * 4096 /\ 0 < f /\ free_run m f (num_frames size)
      /\ (forall i, 0 <= i < f -> ~ free_run m i (num_frames size))
      /\ forall j, 0 <= j ->
           Get (bitmap_ m') j
           = ((f <=? j) && (j <? f + num_frames size)) || Get (bitmap_ m) j).
Proof. apply Allocate_spec. Qed.

Lemma Free_Allocate m size al p m' :
  inv m -> 0 < size <= 2 ^ 64 - 4096 -> Allocate size al m = (p, m') -> p <> 0 ->
  Free p size m' = m.
Proof.
  intros Hinv Hsize HA Hp.
  destruct (Allocate_cases m size al Hinv Hsize) as [[HN _]|(f & Hf & Hrun & _ & HS)];
    [congruence|]. rewrite HS in HA. injection HA as <- <-.
  assert (Hn : 1 <= num_frames size) by (unfold num_frames; zlia).
  unfold Free. rewrite num_frames_u64 by lia. rewrite Z.div_mul by done.
  rewrite mark_loop. cbn [bitmap_ with_bitmap].
  rewrite Set_range_undo; [|apply Hinv|lia|].
  - by destruct m.
  - intros k Hk _. rewrite Z2Nat.id in Hk by lia. by apply Hrun.
Qed.

Lemma Free_Free m p size q size' : Free p size (Free q size' m) = Free q size' (Free p size m).
Proof.
  unfold Free, with_bitmap. cbn [bitmap_ range_begin_ range_end_]. f_equal.
  set (n := Z.to_nat _). set (n' := Z.to_nat _).
  apply (for_loop_comm (for_loop n 0 _)). intros k b. symmetry.
  apply (for_loop_comm (fun b => Set_ b (q / kFrameSize + k) false)). intros k' b'. apply Set_clear_comm.
Qed.

(** C31: freeing what Allocate returned, with the size it was asked for, restores
    the allocator exactly: no frame is lost and none is freed that was in use. *)
Theorem Allocate_Free_roundtrip m size al :
  inv m -> 0 < size <= 2 ^ 64 - 4096 ->
  let '(p, m') := Allocate size al m in
  if p =? 0 then m' = m else Free p size m' = m.
Proof.
  intros Hinv Hsize. destruct (Allocate size al m) as [p m'] eqn:HA.
  destruct (Z.eqb_spec p 0) as [->|Hp]; [|by eapply Free_Allocate].
  eapply Allocate_spec in HA as (_ & _ & H0 & _); auto.
Qed.

(** C38: a request within 4095 bytes of the address space wraps to zero frames:
    as long as one frame is free Allocate answers with that frame's address but
    reserves nothing, so the same memory is handed out again. *)
Theorem Allocate_wraps m size al :
  inv m -> 2 ^ 64 - 4096 < size < 2 ^ 64 -> 0 <= FindFreeFrame (bitmap_ m) ->
  let p := FindFreeFrame (bitmap_ m) * 4096 in
  p <> 0 /\ Allocate size al m = (p, m) /\ fst (Allocate 4096 al m) = p.
Proof.
  intros Hinv Hsize HF.
  destruct (FindFreeFrame_cases (bitmap_ m) (inv_wf _ Hinv)) as [[? _]|(Hr & Hg & _)]; [lia|].
  set (r := FindFreeFrame (bitmap_ m)) in *. cbv zeta.
  assert (r <> 0) by (intros He; rewrite He, (inv_zero _ Hinv) in Hg; done).
  assert (Hrt : r < total_frames m).
  { destruct (Z.ltb_spec r (total_frames m)); [done|]. rewrite (inv_high _ Hinv) in Hg; done. }
  split_and!; [lia| |].
  - unfold Allocate. rewrite (proj2 (Z.eqb_neq size 0)) by lia.
    assert (u64 (size + kFrameSize - 1) / kFrameSize = 0) as ->.
    { unfold kFrameSize, u64. apply Z.div_small.
      replace (size + 4096 - 1) with (size - (2 ^ 64 - 4095) + 1 * 2 ^ 64) by lia.
      rewrite Z.mod_add by lia. rewrite Z.mod_small by lia. lia. }
    cbn [Z.eqb]. fold r (total_frames m). rewrite (proj2 (Z.ltb_ge r 0)) by lia.
    destruct (Z.to_nat (total_frames m - r)) as [|k] eqn:Hk; [lia|].
    cbn [search_run]. rewrite (proj2 (Z.ltb_lt _ _)) by done. cbn.
    by destruct m.
  - unfold Allocate. cbn [Z.eqb]. change (u64 (4096 + kFrameSize - 1) / kFrameSize =? 1) with true.
    unfold AllocateFrame. fold r. rewrite (proj2 (Z.ltb_ge r 0)) by lia. done.
Qed.
End MemoryManager.

(** ** The allocator as the other components see it *)

Class FrameAllocator (M : Type) := {
  Allocate : Z -> Z -> M -> Z * M;
  Free : Z -> Z -> M -> M;
  alloc_inv : M -> Prop
}.

Class FrameAllocatorLaws (M : Type) `{FrameAllocator M} := {
  Allocate_null m size al m' :
    alloc_inv m -> 0 <= size <= 2 ^ 64 - 4096 -> Allocate size al m = (0, m') -> m' = m;
  Allocate_inv m size al p m' :
    alloc_inv m -> 0 <= size <= 2 ^ 64 - 4096 -> Allocate size al m = (p, m') -> alloc_inv m';
  Allocate_Free m size al p m' :
    alloc_inv m -> 0 <= size <= 2 ^ 64 - 4096 -> Allocate size al m = (p, m') -> p <> 0 ->
    Free p size m' = m;
  (** whole frames suit every alignment up to the size of one *)
  Allocate_align m size al : Allocate size al m = Allocate size 4096 m;
  (** two buffers may be given back in either order *)
  Free_comm m p size q size' : Free p size (Free q size' m) = Free q size' (Free p size m)
}.

#[export] Instance MemoryManager_allocator : FrameAllocator MemoryManager.t := {
  Allocate := MemoryManager.Allocate;
  Free := MemoryManager.Free;
  alloc_inv := MemoryManager.inv
}.

#[export] Instance MemoryManager_laws : FrameAllocatorLaws MemoryManager.t.
Proof.
  assert (H0 : forall al m, MemoryManager.Allocate 0 al m = (0, m)) by done.
  split; cbn; intros m size al; destruct (decide (size = 0)) as [->|Hne]; rewrite ?H0.
  - congruence.
  - intros m' Hi Hs HA. eapply MemoryManager.Allocate_spec in HA as (_ & _ & Hn & _); auto; lia.
  - congruence.
  - intros p m' Hi Hs HA. eapply MemoryManager.Allocate_spec in HA as (Hi' & _); auto; lia.
  - congruence.
  - intros p m' Hi Hs HA Hp. eapply MemoryManager.Free_Allocate; eauto; lia.
  - done.
  - done.
  - intros q size'. apply MemoryManager.Free_Free.
  - intros q size'. apply MemoryManager.Free_Free.
Qed.

(** Single frames, by frame number: the interface the page tables are built on *)
Class FramePool (M : Type) := {
  AllocateFrame : M -> Z * M;
  FreeFrame : Z -> M -> M;
  frame_free : M -> Z -> bool;
  frame_managed : M -> Z -> Prop;
  pool_inv : M -> Prop
}.

Class FramePoolLaws (M : Type) `{FramePool M} := {
  AllocateFrame_spec m p m' :
    pool_inv m -> AllocateFrame m = (p, m') ->
    p = 0 /\ m' = m
    \/ exists f, p = 4096 * f /\ 0 < f < 2 ^ 52 /\ frame_managed m f /\ frame_free m f = true
       /\ pool_inv m' /\ (forall g, frame_free m' g = frame_free m g && negb (g =? f))
       /\ forall g, frame_managed m' g <-> frame_managed m g;
  FreeFrame_spec m f :
    pool_inv m -> frame_managed m f ->
    let m' := FreeFrame (4096 * f) m in
    pool_inv m' /\ (forall g, frame_free m' g = frame_free m g || (g =? f))
    /\ forall g, frame_managed m' g <-> frame_managed m g
}.

#[export] Instance MemoryManager_pool : FramePool MemoryManager.t := {
  AllocateFrame := MemoryManager.AllocateFrame;
  FreeFrame := MemoryManager.FreeFrame;
  frame_free m f := (0 <=? f) && negb (Bitmap.Get (MemoryManager.bitmap_ m) f);
  frame_managed m f := 0 < f < MemoryManager.total_frames m;
  pool_inv := MemoryManager.inv
}.

(** marking a frame above 0 keeps the invariant and changes the state of that frame only *)
Lemma mark_frame m f b :
  MemoryManager.inv m -> 0 < f < MemoryManager.total_frames m ->
  let m' := MemoryManager.with_bitmap m (Bitmap.Set_ (MemoryManager.bitmap_ m) f b) in
  MemoryManager.inv m'
  /\ forall g, 0 <= g -> Bitmap.Get (MemoryManager.bitmap_ m') g
       = if g =? f then b else Bitmap.Get (MemoryManager.bitmap_ m) g.
Proof.
  intros [Hwf Hcov Hbound Hzero Hhigh] Hf m'.
  assert (HG : forall g, 0 <= g -> Bitmap.Get (MemoryManager.bitmap_ m') g
    = if g =? f then b else Bitmap.Get (MemoryManager.bitmap_ m) g).
  { intros g Hgr. apply Bitmap.Get_Set; [done|lia|done]. }
  split; [|exact HG]. split; cbn [m' MemoryManager.bitmap_ MemoryManager.with_bitmap MemoryManager.range_end_].
  - apply Bitmap.Set_wf; [done|lia].
  - unfold Bitmap.frames in *. rewrite Bitmap.Set_size. exact Hcov.
  - done.
  - unfold m' in HG. cbn in HG. rewrite HG by lia. by rewrite (proj2 (Z.eqb_neq 0 f)) by lia.
  - intros j Hj. change (MemoryManager.total_frames _) with (MemoryManager.total_frames m) in Hj.
    unfold m' in HG. cbn in HG. rewrite HG, (proj2 (Z.eqb_neq j f)) by lia. by apply Hhigh.
Qed.

#[export] Instance MemoryManager_pool_laws : FramePoolLaws MemoryManager.t.
Proof.
  split; cbn.
  - intros m p m' Hinv. unfold MemoryManager.AllocateFrame.
    destruct (Bitmap.FindFreeFrame_cases (MemoryManager.bitmap_ m) (MemoryManager.inv_wf _ Hinv))
      as [[HF _]|(HF & Hg & _)].
    { rewrite HF. cbn. intros [= <- <-]. by left. }
    set (f := Bitmap.FindFreeFrame (MemoryManager.bitmap_ m)) in *.
    rewrite (proj2 (Z.ltb_ge f 0)) by lia. intros [= <- <-]. right. exists f.
    assert (Hft : f < MemoryManager.total_frames m).
    { destruct (Z.lt_ge_cases f (MemoryManager.total_frames m)); [done|].
      by rewrite (MemoryManager.inv_high _ Hinv) in Hg. }
    assert (Hf0 : f <> 0) by (intros Hz; rewrite Hz, (MemoryManager.inv_zero _ Hinv) in Hg; done).
    pose proof (MemoryManager.inv_bound _ Hinv) as Hb.
    assert (Hfb : f < 2 ^ 52).
    { unfold MemoryManager.total_frames, MemoryManager.kFrameSize in Hft. zlia. }
    destruct (mark_frame m f true Hinv ltac:(lia)) as [Hinv' HG].
    split; [unfold MemoryManager.kFrameSize; lia|]. split; [lia|]. split; [lia|].
    split; [by rewrite (proj2 (Z.leb_le 0 f)), Hg by lia|]. split; [exact Hinv'|]. split; [|done].
    intros g. destruct (Z.leb_spec 0 g); cbn [andb]; [|done]. rewrite HG by done.
    destruct (g =? f); cbn; by rewrite ?andb_false_r, ?andb_true_r.
  - intros m f Hinv Hf. unfold MemoryManager.FreeFrame.
    replace (4096 * f / MemoryManager.kFrameSize) with f
      by (unfold MemoryManager.kFrameSize; rewrite Z.mul_comm, Z.div_mul; lia).
    destruct (mark_frame m f false Hinv Hf) as [Hinv' HG]. split; [exact Hinv'|]. split; [|done].
    intros g. destruct (Z.leb_spec 0 g); cbn [andb].
    + rewrite HG by done. destruct (g =? f); cbn; by rewrite ?orb_true_r, ?orb_false_r.
    + rewrite (proj2 (Z.eqb_neq g f)) by lia. done.
Qed.

(** ** kernel/new.cpp *)

Module New.
Definition kHeaderSize : Z := 16.

(** the allocator, and the 64-bit size words stored at the block addresses *)
Record t := mk {
  mm : MemoryManager.t;
  headers : gmap Z Z
}.

Definition operator_new (size : Z) (h : t) : Z * t :=
  let total_size := u64 (size + kHeaderSize) in
  let '(ptr, m') := MemoryManager.Allocate total_size 16 (mm h) in
  if ptr =? 0 then (0, mk m' (headers h))
  else (u64 (ptr + kHeaderSize), mk m' (<[ptr := total_size]> (headers h))).

(** [None]: the block holds no header this program wrote *)
Definition operator_delete (ptr : Z) (h : t) : option t :=
  if ptr =? 0 then Some h
  else
    let real_ptr := u64 (ptr - kHeaderSize) in
    match headers h !! real_ptr with
    | Some total_size => Some (mk (MemoryManager.Free real_ptr total_size (mm h)) (headers h))
    | None => None
    end.

(** delete gives back exactly what new took: the header written below the
    object records the size, so the allocator returns to its state before new. *)
Theorem new_delete_restores size h q h' :
  MemoryManager.inv (mm h) -> 0 <= size <= 2 ^ 64 - 8192 ->
  operator_new size h = (q, h') -> q <> 0 ->
  exists h'', operator_delete q h' = Some h'' /\ mm h'' = mm h.
Proof.
  intros Hinv Hsize HN Hq. unfold operator_new, kHeaderSize in HN.
  rewrite u64_small in HN by lia.
  destruct (MemoryManager.Allocate (size + 16) 16 (mm h)) as [p m'] eqn:HA.
  destruct (Z.eqb_spec p 0) as [->|Hp]; [congruence|]. injection HN as <- <-.
  pose proof HA as HA'.
  apply MemoryManager.Allocate_spec in HA as (_ & _ & _ & HS); [|done|lia].
  destruct (HS Hp) as (f & -> & Hf0 & Hrun & _).
  assert (Hf : f < MemoryManager.total_frames (mm h)).
  { apply (Hrun f). unfold MemoryManager.num_frames. zlia. }
  assert (0 <= f < 2 ^ 52).
  { pose proof (MemoryManager.inv_bound _ Hinv).
    unfold MemoryManager.total_frames, MemoryManager.kFrameSize in Hf.
    zlia. }
  unfold operator_delete, kHeaderSize. rewrite (u64_small (f * 4096 + 16)) by lia.
  rewrite (proj2 (Z.eqb_neq _ 0)) by lia.
  replace (f * 4096 + 16 - 16) with (f * 4096) by lia. rewrite u64_small by lia.
  cbn [headers mm]. rewrite lookup_insert_eq. eexists. split; [done|]. cbn [mm].
  eapply MemoryManager.Free_Allocate; eauto. lia.
Qed.
End New.

(** ** A machine with 16 frames, the concrete input of the witnesses *)

Section Witnesses.
Import MemoryManager.

(** 60 KiB of conventional memory from frame 1 and a reserved page *)
Definition sample_map : MemoryMap :=
  [ {| md_type := 0; physical_start := 0; virtual_start := 0;
       number_of_pages := 1; attribute := 0 |};
    {| md_type := 7; physical_start := 4096; virtual_start := 0;
       number_of_pages := 15; attribute := 15 |} ].

(** frames 1 (bitmap) and 3, 4 (kernel) are taken: 2 and 5..15 are free *)
Definition sample : MemoryManager.t := mk (Bitmap.mk [27; 0] 2) 0 65536.

Lemma Initialize_free_frames_witness :
  Initialize sample_map 12288 20480 initial = Some sample /\ inv sample.
Proof.
  assert (HI : Initialize sample_map 12288 20480 initial = Some sample) by (vm_compute; reflexivity).
  split; [exact HI|].
  refine (proj1 (Initialize_free_frames sample_map 12288 20480 sample _ _ _ HI)); [|lia|lia].
  repeat constructor; cbn; lia.
Defined.

Lemma sample_inv : inv sample.
Proof.
  split; [by split; [done|repeat constructor; cbn; lia]|vm_compute; congruence|cbn; lia|done|].
  intros j Hj. apply Bitmap.Get_outside. exact Hj.
Qed.

Lemma Allocate_first_fit_witness :
  fst (Allocate 8192 16 sample) = 20480 /\ inv (snd (Allocate 8192 16 sample)).
Proof.
  split; [vm_compute; reflexivity|].
  refine (proj1 (Allocate_first_fit sample 8192 16 _ _ sample_inv _ (surjective_pairing _))).
  lia.
Defined.

Lemma Allocate_Free_roundtrip_witness :
  Free 20480 8192 (snd (Allocate 8192 16 sample)) = sample.
Proof. exact (Allocate_Free_roundtrip sample 8192 16 sample_inv ltac:(lia)). Defined.

Lemma Allocate_wraps_witness :
  Allocate (2 ^ 64 - 1) 16 sample = (8192, sample).
Proof. exact (proj1 (proj2 (Allocate_wraps sample (2 ^ 64 - 1) 16 sample_inv ltac:(lia)
               ltac:(vm_compute; congruence)))). Defined.

Lemma new_delete_restores_witness :
  exists h'', New.operator_delete 8208 (snd (New.operator_new 100 (New.mk sample ∅))) = Some h''
              /\ New.mm h'' = sample.
Proof.
  refine (New.new_delete_restores 100 (New.mk sample ∅) 8208 _ sample_inv _ _ _);
    [lia|vm_compute; reflexivity|lia].
Defined.
End Witnesses.
