(* ===== verification/Rings.v ===== *)
(** * The ring buffers behind standard input and pipes (kernel/sys/std)

    KeyboardFD (1024 characters, filled one at a time by the keyboard driver)
    and PipeFD (4096 characters, filled by Write) keep the same three counters
    over a fixed array.  [contents] is the queue a ring stands for; every
    operation is shown to act on it as the queue operation does. *)
From S2P Require Import Prelude.

Record Ring := mkRing {
  buffer_ : list Z;
  write_pos_ : Z;
  read_pos_ : Z;
  count_ : Z
}.

Section Ring.
Context (kBufferSize : Z).

(** [buffer_[write_pos_] = c; write_pos_ = (write_pos_ + 1) % kBufferSize; count_++] *)
Definition put_char (r : Ring) (c : Z) : Ring :=
  mkRing (upd (buffer_ r) (write_pos_ r) c)
         ((write_pos_ r + 1) mod kBufferSize) (read_pos_ r) (count_ r + 1).

(** [c = buffer_[read_pos_]; read_pos_ = (read_pos_ + 1) % kBufferSize; count_--] *)
Definition take_char (r : Ring) : Z * Ring :=
  (rd (buffer_ r) (read_pos_ r),
   mkRing (buffer_ r) (write_pos_ r) ((read_pos_ r + 1) mod kBufferSize) (count_ r - 1)).

(** [while (read_count < len && count_ > 0)]: at most [len] turns *)
Fixpoint read_loop (len : nat) (r : Ring) : list Z * Ring :=
  match len with
  | O => ([], r)
  | S len' =>
      if 0 <? count_ r then
        let '(c, r') := take_char r in
        let '(out, r'') := read_loop len' r' in
        (c :: out, r'')
      else ([], r)
  end.

(** [while (written_count < len)], leaving when the buffer is full: the number
    of characters of [data] that were stored *)
Fixpoint write_loop (data : list Z) (r : Ring) : Z * Ring :=
  match data with
  | [] => (0, r)
  | c :: rest =>
      if kBufferSize <=? count_ r then (0, r)
      else
        let '(n, r') := write_loop rest (put_char r c) in
        (n + 1, r')
  end.

Record ring_inv (r : Ring) : Prop := {
  ri_len : zlen (buffer_ r) = kBufferSize;
  ri_read : 0 <= read_pos_ r < kBufferSize;
  ri_count : 0 <= count_ r <= kBufferSize;
  ri_write : write_pos_ r = (read_pos_ r + count_ r) mod kBufferSize
}.

(** the [n] characters from position [pos] on, wrapping around *)
Fixpoint window (buf : list Z) (pos : Z) (n : nat) : list Z :=
  match n with
  | O => []
  | S n' => rd buf (pos mod kBufferSize) :: window buf (pos + 1) n'
  end.

(** The queue the ring stands for, oldest character first *)
Definition contents (r : Ring) : list Z :=
  window (buffer_ r) (read_pos_ r) (Z.to_nat (count_ r)).

Lemma length_window buf pos n : length (window buf pos n) = n.
Proof. revert pos. induction n; intros; cbn [window length]; auto. Qed.

Lemma zlen_contents r : ring_inv r -> zlen (contents r) = count_ r.
Proof. intros Hr. unfold contents, zlen. rewrite length_window. destruct Hr. lia. Qed.

Lemma window_snoc buf pos n :
  window buf pos (S n) = window buf pos n ++ [rd buf ((pos + Z.of_nat n) mod kBufferSize)].
Proof.
  revert pos. induction n as [|n IH]; intros pos.
  { cbn [window app]. by rewrite Z.add_0_r. }
  change (window buf pos (S (S n)))
    with (rd buf (pos mod kBufferSize) :: window buf (pos + 1) (S n)).
  rewrite IH. cbn [window app].
  by replace (pos + 1 + Z.of_nat n) with (pos + Z.of_nat (S n)) by lia.
Qed.

Lemma window_upd_outside buf pos n i v :
  0 < kBufferSize -> 0 <= i < kBufferSize -> zlen buf = kBufferSize ->
  (forall k, 0 <= k < Z.of_nat n -> (pos + k) mod kBufferSize <> i) ->
  window (upd buf i v) pos n = window buf pos n.
Proof.
  intros Hk Hi Hl. revert pos. induction n as [|n IH]; intros pos Hout; cbn [window]; [done|].
  rewrite IH.
  - f_equal. apply rd_upd_ne; [lia|]. specialize (Hout 0 ltac:(lia)).
    rewrite Z.add_0_r in Hout. congruence.
  - intros k Hkn. specialize (Hout (k + 1) ltac:(lia)).
    by replace (pos + 1 + k) with (pos + (k + 1)) by lia.
Qed.

Lemma window_mod buf pos n :
  0 < kBufferSize -> window buf (pos mod kBufferSize) n = window buf pos n.
Proof.
  intros Hk. revert pos. induction n as [|n IH]; intros pos; cbn [window]; [done|].
  rewrite Z.mod_mod by lia. f_equal.
  rewrite <- (IH (pos mod kBufferSize + 1)), <- (IH (pos + 1)).
  f_equal. by rewrite Zplus_mod_idemp_l.
Qed.

Hypothesis kBufferSize_pos : 0 < kBufferSize.

Lemma mod_wrap a k : 0 <= a < kBufferSize -> 0 <= k < kBufferSize ->
  (a + k) mod kBufferSize = if a + k <? kBufferSize then a + k else a + k - kBufferSize.
Proof.
  intros. destruct (Z.ltb_spec (a + k) kBufferSize).
  - apply Z.mod_small; lia.
  - replace (a + k) with (a + k - kBufferSize + 1 * kBufferSize) at 1 by lia.
    rewrite Z.mod_add by lia. apply Z.mod_small; lia.
Qed.

Lemma put_char_spec r c :
  ring_inv r -> count_ r < kBufferSize ->
  ring_inv (put_char r c) /\ contents (put_char r c) = contents r ++ [c].
Proof.
  intros [Hl Hr Hc Hw] Hfull. pose proof (Z.mod_pos_bound (read_pos_ r + count_ r) kBufferSize).
  split.
  - split; cbn [put_char buffer_ read_pos_ count_ write_pos_]; rewrite ?zlen_upd; auto; [lia|].
    rewrite Hw, Zplus_mod_idemp_l. f_equal. lia.
  - unfold contents. cbn [put_char buffer_ read_pos_ count_].
    replace (Z.to_nat (count_ r + 1)) with (S (Z.to_nat (count_ r))) by lia.
    rewrite window_snoc. rewrite Z2Nat.id by lia. rewrite <- Hw.
    rewrite rd_upd_eq by lia. f_equal.
    apply window_upd_outside; [lia..|]. intros k Hk.
    rewrite Hw. rewrite !mod_wrap by lia.
    destruct (Z.ltb_spec (read_pos_ r + k) kBufferSize),
      (Z.ltb_spec (read_pos_ r + count_ r) kBufferSize); lia.
Qed.

Lemma take_char_spec r c r' :
  ring_inv r -> 0 < count_ r -> take_char r = (c, r') ->
  ring_inv r' /\ contents r = c :: contents r' /\ count_ r' = count_ r - 1.
Proof.
  intros [Hl Hr Hc Hw] Hne [= <- <-]. split_and!; [|unfold contents|done].
  - split; cbn [buffer_ read_pos_ count_ write_pos_]; [done|apply Z.mod_pos_bound; lia|lia|].
    rewrite Hw, Zplus_mod_idemp_l. f_equal. lia.
  - cbn [buffer_ read_pos_ count_].
    replace (Z.to_nat (count_ r)) with (S (Z.to_nat (count_ r - 1))) by lia. cbn [window].
    rewrite (Z.mod_small (read_pos_ r)) by lia. by rewrite window_mod by lia.
Qed.

(** Read takes the oldest characters off the queue, as many as there are up to [len] *)
Lemma read_loop_spec len r :
  ring_inv r ->
  let '(out, r') := read_loop len r in
  ring_inv r' /\ out = take len (contents r) /\ contents r' = drop len (contents r).
Proof.
  revert r. induction len as [|len IH]; intros r Hr; cbn [read_loop]; [done|].
  pose proof (ri_count _ Hr). destruct (Z.ltb_spec 0 (count_ r)) as [Hne|He].
  - destruct (take_char r) as [c r1] eqn:Ht.
    destruct (take_char_spec r c r1 Hr Hne Ht) as (Hr1 & Hc & _).
    specialize (IH r1 Hr1). destruct (read_loop len r1) as [out r2].
    destruct IH as (Hr2 & -> & Hd). rewrite Hc. cbn [take drop]. done.
  - assert (contents r = []) as ->.
    { unfold contents. replace (Z.to_nat (count_ r)) with 0%nat by lia. done. }
    by rewrite take_nil, drop_nil.
Qed.

(** Write appends the characters that fit and reports how many those were *)
Lemma write_loop_spec data r :
  ring_inv r ->
  let '(n, r') := write_loop data r in
  ring_inv r' /\ n = Z.min (zlen data) (kBufferSize - count_ r)
  /\ contents r' = contents r ++ take (Z.to_nat n) data.
Proof.
  revert r. induction data as [|c rest IH]; intros r Hr; cbn [write_loop].
  { pose proof (ri_count _ Hr). split_and!; [done|unfold zlen; cbn; lia|by rewrite app_nil_r]. }
  pose proof (ri_count _ Hr). pose proof (zlen_nonneg rest).
  destruct (Z.leb_spec kBufferSize (count_ r)) as [Hf|Hf].
  - rewrite zlen_cons. split_and!; [done|lia|by rewrite app_nil_r].
  - destruct (put_char_spec r c Hr Hf) as [Hr1 Hc1]. specialize (IH _ Hr1).
    destruct (write_loop rest (put_char r c)) as [n r']. destruct IH as (Hr' & Hn & Hc').
    cbn [put_char count_] in Hn. rewrite zlen_cons. split_and!; [done|lia|].
    rewrite Hc', Hc1, <- app_assoc.
    replace (Z.to_nat (n + 1)) with (S (Z.to_nat n)) by lia. done.
Qed.
End Ring.

(** ** class KeyboardFD *)

Module KeyboardFD.
Definition kBufferSize : Z := 1024.

(** the members of a new object; the array is not initialised, [garbage] is what it holds *)
Definition new (garbage : list Z) : Ring := mkRing garbage 0 0 0.

Definition OnInput (r : Ring) (c : Z) : Ring :=
  if kBufferSize <=? count_ r then r else put_char kBufferSize r c.

(** [typed]: the characters g_usb_keyboard->Update() delivers through OnInput
    before the buffer is read ([] without a keyboard).  The result is the
    returned count, the characters stored in [buf] and the new state. *)
Definition Read (typed : list Z) (len : Z) (r : Ring) : Z * list Z * Ring :=
  let r1 := fold_left OnInput typed r in
  if count_ r1 =? 0 then (0, [], r1)
  else
    let '(out, r2) := read_loop kBufferSize (Z.to_nat len) r1 in
    (zlen out, out, r2).

Definition Write (buf : list Z) (r : Ring) : Z * Ring := (0, r).

Definition Flush (r : Ring) : Ring := mkRing (buffer_ r) 0 0 0.

Abbreviation inv := (ring_inv kBufferSize).
Abbreviation queue := (contents kBufferSize).

Lemma keyboard_size_pos : 0 < kBufferSize. Proof. done. Qed.

Lemma OnInput_inv r c : inv r -> inv (OnInput r c).
Proof.
  intros Hr. unfold OnInput. destruct (Z.leb_spec kBufferSize (count_ r)); [done|].
  by apply put_char_spec.
Qed.

Lemma OnInput_queue r c :
  inv r -> queue (OnInput r c) = if kBufferSize <=? zlen (queue r) then queue r else queue r ++ [c].
Proof.
  intros Hr. rewrite zlen_contents by done. unfold OnInput.
  destruct (Z.leb_spec kBufferSize (count_ r)); [done|]. by apply put_char_spec.
Qed.

(** characters typed into a queue of bounded length: the overflow is dropped *)
Lemma typed_queue typed r :
  inv r -> let r' := fold_left OnInput typed r in
  inv r' /\ queue r' = queue r ++ take (Z.to_nat (kBufferSize - zlen (queue r))) typed.
Proof.
  revert r. induction typed as [|c rest IH]; intros r Hr; cbn [fold_left].
  { by rewrite take_nil, app_nil_r. }
  destruct (IH _ (OnInput_inv r c Hr)) as [Hi Hq]. split; [done|]. rewrite Hq.
  rewrite OnInput_queue by done. destruct (Z.leb_spec kBufferSize (zlen (queue r))) as [Hf|Hf].
  - by replace (Z.to_nat (kBufferSize - zlen (queue r))) with 0%nat by lia.
  - rewrite zlen_app. change (zlen [c]) with 1.
    replace (Z.to_nat (kBufferSize - zlen (queue r)))
      with (S (Z.to_nat (kBufferSize - (zlen (queue r) + 1)))) by lia.
    by rewrite <- app_assoc.
Qed.

(** reading the keyboard delivers characters in the order they were typed:
    the pending and newly typed characters, cut at the 1024 the buffer holds,
    are split into what the reader gets (at most [len]) and what stays. *)
Theorem Read_fifo typed len r :
  inv r -> 0 <= len ->
  let '(n, out, r') := Read typed len r in
  inv r' /\ n = zlen out /\ zlen out <= len
  /\ out ++ queue r' = queue r ++ take (Z.to_nat (kBufferSize - zlen (queue r))) typed
  /\ (out = [] -> len = 0 \/ queue r' = []).
Proof.
  intros Hr Hlen. unfold Read. destruct (typed_queue typed r Hr) as [Hr1 Hq1]. cbv zeta in *.
  rewrite <- Hq1. set (r1 := fold_left OnInput typed r) in *.
  assert (Hz : count_ r1 = 0 <-> queue r1 = []).
  { rewrite <- (zlen_contents kBufferSize r1) by done. unfold zlen. destruct (queue r1); cbn; split; done || lia. }
  destruct (Z.eqb_spec (count_ r1) 0) as [He|He].
  - apply Hz in He. split_and!; [done..|auto].
  - pose proof (read_loop_spec kBufferSize keyboard_size_pos (Z.to_nat len) r1 Hr1) as Hl.
    destruct (read_loop _ _ _) as [out r2]. destruct Hl as (Hr2 & -> & Hd). rewrite Hd.
    split_and!; [done..| |by rewrite take_drop|].
    + unfold zlen. rewrite length_take. lia.
    + destruct (queue r1) as [|c q]; [by destruct Hz as [_ Hz]; destruct He, Hz|].
      destruct (Z.to_nat len) eqn:Hn; [left; lia|done].
Qed.
End KeyboardFD.

(** ** class PipeFD *)

Module PipeFD.
Definition kBufferSize : Z := 4096.

(** the constructor: [new char[4096]] is not initialised, [garbage] is what it holds *)
Definition new (garbage : list Z) : Ring := mkRing garbage 0 0 0.

Definition Read (len : Z) (r : Ring) : Z * list Z * Ring :=
  if count_ r =? 0 then (0, [], r)
  else
    let '(out, r') := read_loop kBufferSize (Z.to_nat len) r in
    (zlen out, out, r').

(** [buf]: the [len] characters the caller passes *)
Definition Write (buf : list Z) (len : Z) (r : Ring) : Z * Ring :=
  write_loop kBufferSize (take (Z.to_nat len) buf) r.

Definition Reset (r : Ring) : Ring := mkRing (buffer_ r) 0 0 0.

Abbreviation inv := (ring_inv kBufferSize).
Abbreviation queue := (contents kBufferSize).

Lemma pipe_size_pos : 0 < kBufferSize. Proof. done. Qed.

Lemma new_inv garbage : zlen garbage = kBufferSize -> inv (new garbage) /\ queue (new garbage) = [].
Proof. intros. split; [split; cbn; done || lia|done]. Qed.

Lemma Read_spec len r :
  inv r ->
  let '(n, out, r') := Read len r in
  inv r' /\ n = zlen out /\ out = take (Z.to_nat len) (queue r)
  /\ queue r' = drop (Z.to_nat len) (queue r).
Proof.
  intros Hr. unfold Read. destruct (Z.eqb_spec (count_ r) 0) as [He|He].
  - assert (queue r = []) as ->.
    { pose proof (zlen_contents kBufferSize r Hr) as Hz. unfold zlen in Hz.
      destruct (queue r); [done|cbn in Hz; lia]. }
    by rewrite take_nil, drop_nil.
  - pose proof (read_loop_spec kBufferSize pipe_size_pos (Z.to_nat len) r Hr) as Hl.
    destruct (read_loop _ _ _) as [out r']. destruct Hl as (Hr' & -> & Hd). done.
Qed.

Lemma Write_spec buf len r :
  inv r -> 0 <= len <= zlen buf ->
  let '(n, r') := Write buf len r in
  inv r' /\ n = Z.min len (kBufferSize - zlen (queue r))
  /\ queue r' = queue r ++ take (Z.to_nat n) buf.
Proof.
  intros Hr Hlen. unfold Write.
  pose proof (write_loop_spec kBufferSize pipe_size_pos (take (Z.to_nat len) buf) r Hr) as Hl.
  destruct (write_loop _ _ _) as [n r']. destruct Hl as (Hr' & Hn & Hq).
  assert (Hz : zlen (take (Z.to_nat len) buf) = len) by (unfold zlen in *; rewrite length_take; lia).
  rewrite Hz in Hn. rewrite <- (zlen_contents kBufferSize r Hr) in Hn.
  split_and!; [done..|]. rewrite Hq, take_take. do 2 f_equal. lia.
Qed.

(** *** A pipe and its history

    One writer and one reader use the pipe in any order; [sent] holds the
    characters Write accepted so far and [received] those Read returned. *)
Record history := mkHistory {
  ring : Ring;
  sent : list Z;
  received : list Z
}.

Inductive step : history -> history -> Prop :=
  | step_write h buf len n r' :
      0 <= len <= zlen buf ->
      Write buf len (ring h) = (n, r') ->
      step h (mkHistory r' (sent h ++ take (Z.to_nat n) buf) (received h))
  | step_read h len n out r' :
      Read len (ring h) = (n, out, r') ->
      step h (mkHistory r' (sent h) (received h ++ out)).

Definition hist_inv (h : history) : Prop :=
  inv (ring h) /\ sent h = received h ++ queue (ring h).

Lemma step_hist_inv h h' : step h h' -> hist_inv h -> hist_inv h'.
Proof.
  intros Hs [Hr Hq]. destruct Hs as [h buf len n r' Hlen HW|h len n out r' HR].
  - pose proof (Write_spec buf len (ring h) Hr Hlen) as HS. rewrite HW in HS.
    destruct HS as (Hr' & _ & Hq'). split; cbn; [done|]. by rewrite Hq, Hq', <- app_assoc.
  - pose proof (Read_spec len (ring h) Hr) as HS. rewrite HR in HS.
    destruct HS as (Hr' & _ & -> & Hq'). split; cbn; [done|].
    by rewrite Hq, Hq', <- app_assoc, take_drop.
Qed.

(** C27: a pipe is a lossless FIFO.  Whatever the interleaving of reads and
    writes, what the reader received is a prefix of what the writer had accepted,
    and the rest, never more than 4096 characters, is what the pipe still holds. *)
Theorem pipe_lossless_fifo garbage h :
  zlen garbage = kBufferSize ->
  rtc step (mkHistory (new garbage) [] []) h ->
  sent h = received h ++ queue (ring h) /\ zlen (queue (ring h)) <= kBufferSize.
Proof.
  intros Hg Hsteps.
  assert (Hi : hist_inv h).
  { refine (rtc_ind_l (fun x => hist_inv x -> hist_inv h) h _ _ _ Hsteps _).
    - done.
    - intros x y Hxy _ IH Hx. by apply IH, (step_hist_inv x y).
    - by destruct (new_inv garbage Hg). }
  destruct Hi as [Hr Hq]. split; [done|].
  rewrite zlen_contents by done. apply Hr.
Qed.

(** Write accepts as many characters as there is room for, never blocks and
    never overwrites unread ones; Read returns the oldest ones, as many as asked
    for or as there are. *)
Theorem pipe_write_then_read buf len k r :
  inv r -> 0 <= len <= zlen buf -> 0 <= k ->
  let '(n, r1) := Write buf len r in
  let '(m, out, r2) := Read k r1 in
  n = Z.min len (kBufferSize - zlen (queue r))
  /\ m = Z.min k (zlen (queue r) + n)
  /\ out ++ queue r2 = queue r ++ take (Z.to_nat n) buf.
Proof.
  intros Hr Hlen Hk. pose proof (Write_spec buf len r Hr Hlen) as HW.
  destruct (Write buf len r) as [n r1]. destruct HW as (Hr1 & Hn & Hq1).
  pose proof (Read_spec k r1 Hr1) as HR. destruct (Read k r1) as [[m out] r2].
  destruct HR as (_ & -> & -> & Hq2).
  assert (Hroom : 0 <= n <= zlen buf).
  { rewrite zlen_contents in Hn by done. destruct Hr as [_ _ Hc _]. lia. }
  split_and!; [done| |by rewrite Hq2, take_drop, Hq1].
  rewrite Hq1. unfold zlen in *. rewrite length_take, length_app, length_take. lia.
Qed.
End PipeFD.

(** ** Concrete inputs *)

Section Witnesses.

Definition blank (n : Z) : list Z := replicate (Z.to_nat n) 0.

Lemma Read_fifo_witness :
  KeyboardFD.Read [97; 98; 99] 2 (KeyboardFD.new (blank 1024)) = (2, [97; 98],
    snd (KeyboardFD.Read [97; 98; 99] 2 (KeyboardFD.new (blank 1024))))
  /\ contents 1024 (snd (KeyboardFD.Read [97; 98; 99] 2 (KeyboardFD.new (blank 1024)))) = [99].
Proof.
  split; [vm_compute; reflexivity|].
  assert (Hi : ring_inv 1024 (KeyboardFD.new (blank 1024))) 
    by (split; [reflexivity|cbn; lia..|reflexivity]).
  pose proof (KeyboardFD.Read_fifo [97; 98; 99] 2 _ Hi ltac:(lia)) as HR.
  vm_compute in HR |- *. destruct HR as (_ & _ & _ & HR & _). congruence.
Defined.

(** write "ab", read one character, write "c" *)
Definition sample_history : PipeFD.history :=
  let r0 := PipeFD.new (blank 4096) in
  let '(_, r1) := PipeFD.Write [97; 98] 2 r0 in
  let '(_, _, r2) := PipeFD.Read 1 r1 in
  let '(_, r3) := PipeFD.Write [99] 1 r2 in
  PipeFD.mkHistory r3 [97; 98; 99] [97].

Lemma pipe_lossless_fifo_witness :
  [97; 98; 99] = [97] ++ contents 4096 (PipeFD.ring sample_history).
Proof.
  refine (proj1 (PipeFD.pipe_lossless_fifo (blank 4096) sample_history _ _)); [reflexivity|].
  eapply rtc_l; [eapply (PipeFD.step_write _ [97; 98] 2); [unfold zlen; cbn; lia|vm_compute; reflexivity]|].
  eapply rtc_l; [eapply (PipeFD.step_read _ 1); vm_compute; reflexivity|].
  eapply rtc_l; [eapply (PipeFD.step_write _ [99] 1); [unfold zlen; cbn; lia|vm_compute; reflexivity]|].
  vm_compute. apply rtc_refl.
Defined.

Lemma pipe_write_then_read_witness :
  fst (fst (PipeFD.Read 2 (snd (PipeFD.Write [1; 2; 3] 3 (PipeFD.new (blank 4096)))))) = 2.
Proof.
  assert (Hi : ring_inv 4096 (PipeFD.new (blank 4096))) 
    by (split; [reflexivity|cbn; lia..|reflexivity]).
  pose proof (PipeFD.pipe_write_then_read [1; 2; 3] 3 2 _ Hi ltac:(unfold zlen; cbn; lia) ltac:(lia)) as HR.
  vm_compute in HR |- *. destruct HR as (_ & HR & _). exact HR.
Defined.
End Witnesses.
