(* ===== verification/CStr.v ===== *)
(** * C strings and memory blocks (std/string.cpp, kernel/cxx.cpp)

    A C string is the list of its bytes before the terminator; [cch s i] reads
    [s[i]], the terminator included.  Destination buffers are byte lists. *)
From S2P Require Import Prelude.

Definition strlen (s : list Z) : Z := zlen s.

(** [while (s[len]) len++]: the loop behind strlen, on a buffer that holds the
    string; [None] when no terminator is found *)
Fixpoint strlen_buf (buf : list Z) (len : Z) : option Z :=
  match buf with
  | [] => None
  | c :: rest => if c =? 0 then Some len else strlen_buf rest (len + 1)
  end.

(** the loop of strcmp; the characters compared are unsigned *)
Fixpoint strcmp (s1 s2 : list Z) : Z :=
  match s1, s2 with
  | [], [] => 0
  | [], c2 :: _ => 0 - c2
  | c1 :: _, [] => c1
  | c1 :: t1, c2 :: t2 => if c1 =? c2 then strcmp t1 t2 else c1 - c2
  end.

Fixpoint strncmp_loop (n : nat) (i : Z) (s1 s2 : list Z) : Z :=
  match n with
  | O => 0
  | S n' =>
      if negb (cch s1 i =? cch s2 i) then cch s1 i - cch s2 i
      else if cch s1 i =? 0 then 0
      else strncmp_loop n' (i + 1) s1 s2
  end.

Definition strncmp (s1 s2 : list Z) (n : Z) : Z := strncmp_loop (Z.to_nat n) 0 s1 s2.

(** The string a buffer holds: the bytes before its first zero *)
Fixpoint cstr_of (buf : list Z) : list Z :=
  match buf with
  | [] => []
  | c :: rest => if c =? 0 then [] else c :: cstr_of rest
  end.

(** [while ( *src) *d++ = *src++; *d = 0;], with [d] an index into [dest]; [None]
    when that writes past the end of [dest] *)
Fixpoint copy_str (d : Z) (dest src : list Z) : option (list Z) :=
  if d <? zlen dest then
    match src with
    | [] => Some (upd dest d 0)
    | c :: rest => copy_str (d + 1) (upd dest d c) rest
    end
  else None.

Definition strcpy (dest src : list Z) : option (list Z) := copy_str 0 dest src.

(** strcat(dest, src): [d] starts at the terminator of [dest] *)
Definition strcat (dest src : list Z) : option (list Z) :=
  copy_str (zlen (cstr_of dest)) dest src.

(** memset(s, c, n) and memcpy(dest, src, n) on the first [n] bytes of a block *)
Definition memset (s : list Z) (c n : Z) : list Z := splice s 0 (replicate (Z.to_nat n) (u8 c)).
Definition memcpy (dest src : list Z) (n : Z) : list Z := splice dest 0 (slice src 0 n).

Lemma strcmp_eq_0 s1 s2 : is_cstr s1 -> is_cstr s2 -> strcmp s1 s2 = 0 <-> s1 = s2.
Proof.
  intros H1. revert s2. induction H1 as [|c1 t1 Hc1 Ht1 IH]; intros s2 H2.
  - destruct H2 as [|c2 t2 Hc2 Ht2]; cbn [strcmp]; [done|]. split; [lia|done].
  - destruct H2 as [|c2 t2 Hc2 Ht2]; cbn [strcmp]; [split; [lia|done]|].
    destruct (Z.eqb_spec c1 c2) as [->|Hne].
    + rewrite IH by done. split; congruence.
    + split; [lia|congruence].
Qed.

Lemma cstr_of_cstr s rest : is_cstr s -> cstr_of (s ++ 0 :: rest) = s.
Proof.
  induction 1 as [|c t Hc _ IH]; cbn [app cstr_of]; [done|].
  rewrite (proj2 (Z.eqb_neq c 0)) by lia. by rewrite IH.
Qed.

Lemma cstr_of_is_cstr buf : Forall is_byte buf -> is_cstr (cstr_of buf).
Proof.
  induction 1 as [|c t Hc _ IH]; cbn [cstr_of]; [constructor|].
  destruct (Z.eqb_spec c 0); [constructor|]. constructor; [unfold is_byte in Hc; lia|done].
Qed.

Lemma splice_0 (l src : list Z) : splice l 0 src = src ++ drop (length src) l.
Proof. done. Qed.

Lemma strlen_buf_cstr s rest k : is_cstr s -> strlen_buf (s ++ 0 :: rest) k = Some (k + strlen s).
Proof.
  unfold strlen. intros Hs. revert k. induction Hs as [|c t Hc _ IH]; intros k; cbn [app strlen_buf].
  - rewrite Z.eqb_refl. f_equal. unfold zlen. cbn. lia.
  - rewrite (proj2 (Z.eqb_neq c 0)) by lia. rewrite IH, zlen_cons. f_equal. lia.
Qed.

Lemma copy_str_splice src : forall d dest, 0 <= d ->
  copy_str d dest src
  = if d + zlen src <? zlen dest then Some (splice dest d (src ++ [0])) else None.
Proof.
  induction src as [|c t IH]; intros d dest Hd; cbn [copy_str].
  - change (zlen []) with 0. rewrite Z.add_0_r. destruct (Z.ltb_spec d (zlen dest)); [|done].
    cbn [app]. by rewrite <- splice_cons, splice_nil by lia.
  - rewrite zlen_cons. pose proof (zlen_nonneg t). destruct (Z.ltb_spec d (zlen dest)).
    + rewrite IH, zlen_upd, <- Z.add_assoc by lia.
      destruct (Z.ltb_spec (d + (1 + zlen t)) (zlen dest)); [|done].
      cbn [app]. by rewrite splice_cons by lia.
    + by rewrite (proj2 (Z.ltb_ge _ _)) by lia.
Qed.

(** strcpy leaves the source string in the destination, strcat the concatenation *)
Lemma strcpy_spec dest src dest' :
  is_cstr src -> strcpy dest src = Some dest' ->
  zlen dest' = zlen dest /\ cstr_of dest' = src.
Proof.
  unfold strcpy. intros Hs. rewrite copy_str_splice, Z.add_0_l by lia.
  destruct (Z.ltb_spec (zlen src) (zlen dest)); [|done].
  intros [= <-]. split.
  - apply zlen_splice; [lia|]. rewrite zlen_app. change (zlen [0]) with 1. lia.
  - rewrite splice_0, <- app_assoc. by apply cstr_of_cstr.
Qed.

Lemma cstr_of_prefix buf :
  exists rest, buf = cstr_of buf ++ rest /\ (rest = [] \/ exists r, rest = 0 :: r).
Proof.
  induction buf as [|c t (rest & Ht & Hr)]; cbn [cstr_of]; [exists []; auto|].
  destruct (Z.eqb_spec c 0) as [->|].
  - exists (0 :: t). eauto.
  - exists rest. split; [|done]. cbn [app]. by f_equal.
Qed.

Lemma strcat_spec dest src dest' :
  Forall is_byte dest -> is_cstr src -> strcat dest src = Some dest' ->
  zlen dest' = zlen dest /\ cstr_of dest' = cstr_of dest ++ src.
Proof.
  unfold strcat. intros Hb Hs. rewrite copy_str_splice by apply zlen_nonneg.
  destruct (Z.ltb_spec (zlen (cstr_of dest) + zlen src) (zlen dest)); [|done].
  intros [= <-]. split.
  - apply zlen_splice; [apply zlen_nonneg|]. rewrite zlen_app. change (zlen [0]) with 1. lia.
  - destruct (cstr_of_prefix dest) as (rest & Hd & _). unfold splice.
    assert (Htake : take (Z.to_nat (zlen (cstr_of dest))) dest = cstr_of dest).
    { rewrite Hd at 2. unfold zlen. rewrite Nat2Z.id. by rewrite take_app_length. }
    rewrite Htake. rewrite <- (app_assoc src), app_assoc.
    apply cstr_of_cstr. apply Forall_app. split; [by apply cstr_of_is_cstr|done].
Qed.

(** The strings of the kernel library: strcmp is zero exactly on equal
    strings, and copying a directory prefix and appending a name, as the shells
    do to find a program, leaves the concatenation whenever it fits. *)
Theorem strcpy_strcat_path dest dir name d1 d2 :
  is_cstr dir -> is_cstr name -> Forall is_byte dest ->
  strcpy dest dir = Some d1 -> strcat d1 name = Some d2 ->
  zlen d2 = zlen dest /\ strcmp (cstr_of d2) (dir ++ name) = 0.
Proof.
  intros Hd Hn Hb H1 H2. destruct (strcpy_spec dest dir d1 Hd H1) as [Hl1 Hc1].
  assert (Hb1 : Forall is_byte d1).
  { unfold strcpy in H1. rewrite copy_str_splice, Z.add_0_l in H1 by lia. destruct (Z.ltb_spec (zlen dir) (zlen dest)); [|done].
    injection H1 as <-. apply Forall_splice; [done|]. apply Forall_app. split.
    - eapply Forall_impl; [exact Hd|]. intros c Hc. unfold is_byte. cbn in Hc. lia.
    - apply Forall_singleton. unfold is_byte. lia. }
  destruct (strcat_spec d1 name d2 Hb1 Hn H2) as [Hl2 Hc2]. split; [congruence|].
  assert (Hdn : is_cstr (dir ++ name)) by (by apply Forall_app).
  apply strcmp_eq_0; [|done|by rewrite Hc2, Hc1]. by rewrite Hc2, Hc1.
Qed.

Lemma strcpy_strcat_path_witness :
  exists d1 d2, strcpy (replicate 64 0) (c_lit "/sys/bin/") = Some d1
    /\ strcat d1 (c_lit "test") = Some d2
    /\ strcmp (cstr_of d2) (c_lit "/sys/bin/test") = 0.
Proof.
  do 2 eexists. split; [vm_compute; reflexivity|]. split; [vm_compute; reflexivity|].
  refine (proj2 (strcpy_strcat_path (replicate 64 0) (c_lit "/sys/bin/") (c_lit "test") _ _ _ _ _ _ _));
    try (apply (bool_decide_unpack _); vm_compute; exact I); vm_compute; reflexivity.
Defined.
