(* ===== verification/Printk.v ===== *)
(** * Formatted output (kernel/printk.cpp)

    [utoa] as the code does it, digits first and an in-place reversal after, and
    [kprintf] with its 1000-character buffer: the strings it hands to
    Console::PutString and its result.  [format_text] is the same text without the buffer;
    what the text should be is in Format.v. *)
From S2P Require Import Prelude CStr.

(** ** utoa *)

(** [(remainder < 10) ? (remainder + '0') : (remainder - 10 + 'a')] *)
Definition digit_char (remainder : Z) : Z :=
  if remainder <? 10 then remainder + 48 else remainder - 10 + 97.

(** [do ... while (value /= base)]: the digits in the order they are stored; 64 turns
    are enough for any base of at least 2 *)
Fixpoint utoa_digits (fuel : nat) (value base : Z) : list Z :=
  match fuel with
  | O => []
  | S f =>
      digit_char (value mod base)
      :: (if value / base =? 0 then [] else utoa_digits f (value / base) base)
  end.

(** [while (ptr1 < ptr)]: the characters at [i] and [j] change places *)
Fixpoint reverse_loop (fuel : nat) (str : list Z) (i j : Z) : list Z :=
  match fuel with
  | O => str
  | S f =>
      if i <? j
      then reverse_loop f (upd (upd str j (rd str i)) i (rd str j)) (i + 1) (j - 1)
      else str
  end.

Definition utoa (value base : Z) : list Z :=
  let str := utoa_digits 64 value base in
  reverse_loop (length str) str 0 (zlen str - 1).

(** ** kprintf *)

(** the characters in the buffer, and the strings printed so far *)
Record Out := mkOut { buffer : list Z; printed : list (list Z) }.

Definition putc (o : Out) (c : Z) : Out :=
  if 1000 <=? zlen (buffer o)
  then mkOut [c] (printed o ++ [cstr_of (buffer o)])
  else mkOut (buffer o ++ [c]) (printed o).

Definition puts (o : Out) (s : list Z) : Out := fold_left putc s o.

(** [va_arg(args, long long)] and the other integer types; reading past the last
    argument is undefined, the model then reads zero *)
Definition arg_int (a : karg) : Z :=
  match a with KInt v => v | KPtr v => v | KStr _ => 0 end.
Definition arg_str (a : karg) : list Z :=
  match a with KStr s => s | KInt _ | KPtr _ => c_lit "(null)" end.
Definition i64 (z : Z) : Z := (z + 2 ^ 63) mod 2 ^ 64 - 2 ^ 63.

Definition is_digit (c : Z) : bool := (48 <=? c) && (c <=? 57).

(** the width: its value and what follows it *)
Fixpoint parse_width (fmt : list Z) (width : Z) : Z * list Z :=
  match fmt with
  | c :: rest => if is_digit c then parse_width rest (width * 10 + (c - 48)) else (width, fmt)
  | [] => (width, [])
  end.

(** [l], [ll] or nothing *)
Definition parse_long (fmt : list Z) : Z * list Z :=
  match fmt with
  | c :: rest =>
      if c =? chr "l" then
        match rest with
        | c' :: rest' => if c' =? chr "l" then (2, rest') else (1, rest)
        | [] => (1, rest)
        end
      else (0, fmt)
  | [] => (0, fmt)
  end.

Definition padding (width len : Z) (c : Z) : list Z :=
  replicate (Z.to_nat (if len <? width then width - len else 0)) c.

(** the characters one conversion prints *)
Definition convert (conv : Z) (zero_pad : bool) (width long_mode : Z) (a : karg) : list Z :=
  let unsigned := if 0 <? long_mode then u64 (arg_int a) else u32 (arg_int a) in
  if conv =? chr "d" then
    let val := if 0 <? long_mode then i64 (arg_int a) else i32 (arg_int a) in
    let negative := val <? 0 in
    let num := utoa (u64 (if negative then - val else val)) 10 in
    let total_len := zlen num + (if negative then 1 else 0) in
    (if zero_pad then [] else padding width total_len 32)
      ++ (if negative then [chr "-"] else [])
      ++ (if zero_pad then padding width total_len 48 else [])
      ++ num
  else if conv =? chr "u" then
    let num := utoa unsigned 10 in
    padding width (zlen num) (if zero_pad then 48 else 32) ++ num
  else if conv =? chr "x" then
    let num := utoa unsigned 16 in
    padding width (zlen num) (if zero_pad then 48 else 32) ++ num
  else if conv =? chr "p" then
    let num := utoa (u64 (arg_int a)) 16 in
    c_lit "0x" ++ padding width (zlen num + 2) 48 ++ num
  else if conv =? chr "s" then
    padding width (strlen (arg_str a)) 32 ++ arg_str a
  else if conv =? chr "c" then
    padding width 1 32 ++ [u8 (arg_int a)]
  else if conv =? chr "%" then [chr "%"]
  else [chr "%"; conv].

(** whether a conversion takes an argument *)
Definition takes_arg (conv : Z) : bool := existsb (Z.eqb conv) (c_lit "duxpsc").

(** The loop over the format.  [None]: the format ends inside a conversion, and the
    code goes on reading after the terminator. *)
Fixpoint kprintf_loop (fuel : nat) (format : list Z) (args : list karg) (o : Out) : option Out :=
  match fuel, format with
  | _, [] => Some o
  | O, _ => None
  | S f, c :: rest =>
      if c =? chr "%" then
        let '(zero_pad, rest) :=
          match rest with
          | z :: rest' => if z =? 48 then (true, rest') else (false, rest)
          | [] => (false, rest)
          end in
        let '(width, rest) := parse_width rest 0 in
        let '(long_mode, rest) := parse_long rest in
        match rest with
        | [] => None
        | conv :: rest =>
            if takes_arg conv then
              let a := default (KInt 0) (head args) in
              kprintf_loop f rest (tail args) (puts o (convert conv zero_pad width long_mode a))
            else kprintf_loop f rest args (puts o (convert conv zero_pad width long_mode (KInt 0)))
        end
      else kprintf_loop f rest args (putc o c)
  end.

(** the strings given to PutString in order, and the result; without a console
    nothing is printed and the result is -1 *)
Definition kprintf (console : bool) (format : list Z) (args : list karg) : option (list (list Z) * Z) :=
  if negb console then Some ([], -1)
  else
    match kprintf_loop (length format) format args (mkOut [] []) with
    | Some o => Some (printed o ++ [cstr_of (buffer o)], zlen (buffer o))
    | None => None
    end.

(** ** utoa prints the number *)

Definition digit_value (c : Z) : Z := if c <? 97 then c - 48 else c - 97 + 10.

(** the number a string of digits denotes, most significant first *)
Definition digits_value (base : Z) (s : list Z) : Z :=
  fold_left (fun acc c => acc * base + digit_value c) s 0.

Lemma digit_value_char r : 0 <= r < 16 -> digit_value (digit_char r) = r.
Proof. unfold digit_value, digit_char. intros. zcases; lia. Qed.

Lemma digits_value_app base s c :
  digits_value base (s ++ [c]) = digits_value base s * base + digit_value c.
Proof. unfold digits_value. by rewrite fold_left_app. Qed.

Lemma reverse_loop_rev fuel : forall a l b,
  (length l <= 2 * fuel)%nat ->
  reverse_loop fuel (a ++ l ++ b) (zlen a) (zlen a + zlen l - 1) = a ++ rev l ++ b.
Proof.
  induction fuel as [|f IH]; intros a l b Hf; cbn [reverse_loop].
  { destruct l; [done|cbn in Hf; lia]. }
  pose proof (zlen_nonneg l). destruct (Z.ltb_spec (zlen a) (zlen a + zlen l - 1)) as [Hlt|Hge]; cycle 1.
  { destruct l as [|x [|y l]]; [done|done|rewrite !zlen_cons in Hge; pose proof (zlen_nonneg l); lia]. }
  destruct l as [|x l]; [unfold zlen in Hlt; cbn in Hlt; lia|].
  destruct (exists_last (l := l)) as (m & y & ->).
  { intros ->. unfold zlen in Hlt. cbn in Hlt. lia. }
  assert (Hi : rd (a ++ (x :: m ++ [y]) ++ b) (zlen a) = x).
  { rewrite rd_app_r by lia. by rewrite Z.sub_diag. }
  assert (Hlen : zlen (x :: m ++ [y]) = zlen m + 2) by (rewrite zlen_cons, zlen_app; change (zlen [y]) with 1; lia).
  rewrite Hlen in *. pose proof (zlen_nonneg m).
  assert (Hsplit : a ++ (x :: m ++ [y]) ++ b = (a ++ x :: m) ++ y :: b)
    by (rewrite <- !app_assoc; cbn [app]; by rewrite <- app_assoc).
  assert (Hax : zlen (a ++ x :: m) = zlen a + zlen m + 1) by (rewrite zlen_app, zlen_cons; lia).
  assert (Hj : rd (a ++ (x :: m ++ [y]) ++ b) (zlen a + (zlen m + 2) - 1) = y).
  { rewrite Hsplit, rd_app_r by lia. by replace (_ - _) with 0 by lia. }
  rewrite Hi, Hj, Hsplit.
  assert (Hu1 : upd ((a ++ x :: m) ++ y :: b) (zlen a + (zlen m + 2) - 1) x = (a ++ x :: m) ++ x :: b).
  { unfold upd. rewrite (proj2 (Z.ltb_ge _ 0)) by (pose proof (zlen_nonneg a); lia).
    replace (Z.to_nat _) with (length (a ++ x :: m) + 0)%nat by (unfold zlen in *; lia).
    by rewrite insert_app_r. }
  rewrite Hu1.
  assert (Hu2 : upd ((a ++ x :: m) ++ x :: b) (zlen a) y = (a ++ [y]) ++ m ++ x :: b).
  { unfold upd. rewrite (proj2 (Z.ltb_ge _ 0)) by (pose proof (zlen_nonneg a); lia).
    rewrite <- app_assoc. replace (Z.to_nat _) with (length a + 0)%nat by (unfold zlen; lia).
    rewrite insert_app_r. by rewrite <- app_assoc. }
  rewrite Hu2. specialize (IH (a ++ [y]) m (x :: b)).
  rewrite zlen_app in IH. change (zlen [y]) with 1 in IH.
  replace (zlen a + (zlen m + 2) - 1 - 1) with (zlen a + 1 + zlen m - 1) by lia.
  rewrite IH; [|cbn [length] in Hf; rewrite length_app in Hf; cbn in Hf; lia].
  cbn [rev]. rewrite rev_app_distr. cbn [rev app]. by rewrite <- !app_assoc.
Qed.

Lemma utoa_rev value base : utoa value base = rev (utoa_digits 64 value base).
Proof.
  unfold utoa. set (l := utoa_digits 64 value base).
  pose proof (reverse_loop_rev (length l) [] l [] ltac:(lia)) as Hr.
  rewrite !app_nil_r in Hr. exact Hr.
Qed.

Lemma utoa_digits_value fuel : forall value base,
  2 <= base <= 16 -> 0 <= value < 2 ^ Z.of_nat fuel -> (0 < fuel)%nat ->
  digits_value base (rev (utoa_digits fuel value base)) = value.
Proof.
  induction fuel as [|f IH]; intros value base Hb Hv Hf; [lia|]. cbn [utoa_digits rev].
  rewrite digits_value_app, digit_value_char by (pose proof (Z.mod_pos_bound value base); lia).
  destruct (Z.eqb_spec (value / base) 0) as [Hz|Hz].
  - cbn [rev]. change (digits_value base []) with 0. pose proof (Z.div_mod value base). lia.
  - rewrite IH; [pose proof (Z.div_mod value base); lia|done| |].
    + split; [apply Z.div_pos; lia|]. rewrite Nat2Z.inj_succ, Z.pow_succ_r in Hv by lia.
      apply Z.div_lt_upper_bound; nia.
    + destruct f; [|lia]. cbn in Hv. assert (Hv1 : value = 0 \/ value = 1) by lia.
      destruct Hv1 as [-> | ->]; rewrite Z.div_small in Hz by lia; done.
Qed.

Lemma utoa_digits_length fuel : forall value n,
  0 <= value < 10 ^ Z.of_nat n -> (0 < n)%nat -> (length (utoa_digits fuel value 10) <= n)%nat.
Proof.
  induction fuel as [|f IH]; intros value n Hv Hn; cbn [utoa_digits length]; [lia|].
  destruct (Z.eqb_spec (value / 10) 0); cbn [length]; [lia|].
  destruct n as [|n]; [lia|]. rewrite Nat2Z.inj_succ, Z.pow_succ_r in Hv by lia.
  assert (Hd : 0 <= value / 10 < 10 ^ Z.of_nat n).
  { split; [apply Z.div_pos; lia|]. apply Z.div_lt_upper_bound; lia. }
  destruct n as [|n]; [cbn in Hd; lia|]. specialize (IH (value / 10) (S n) Hd ltac:(lia)). lia.
Qed.

(** utoa writes the digits of the number, most significant first, and its
    terminator always fits the 32 bytes of kprintf's num_buf. *)
Theorem utoa_correct value base :
  0 <= value < 2 ^ 64 -> base = 10 \/ base = 16 ->
  digits_value base (utoa value base) = value /\ zlen (utoa value base) + 1 <= 32.
Proof.
  intros Hv Hb. rewrite utoa_rev. split.
  - apply utoa_digits_value; [lia|cbn; lia|lia].
  - unfold zlen. rewrite length_rev. destruct Hb as [-> | ->].
    + pose proof (utoa_digits_length 64 value 20 ltac:(cbn; lia) ltac:(lia)). lia.
    + assert (Hx : forall fuel v n, 0 <= v < 16 ^ Z.of_nat n -> (0 < n)%nat ->
               (length (utoa_digits fuel v 16) <= n)%nat).
      { induction fuel as [|f IH]; intros v n Hvn Hn; cbn [utoa_digits length]; [lia|].
        destruct (Z.eqb_spec (v / 16) 0); cbn [length]; [lia|].
        destruct n as [|n]; [lia|]. rewrite Nat2Z.inj_succ, Z.pow_succ_r in Hvn by lia.
        assert (Hd : 0 <= v / 16 < 16 ^ Z.of_nat n).
        { split; [apply Z.div_pos; lia|]. apply Z.div_lt_upper_bound; lia. }
        destruct n as [|n]; [cbn in Hd; lia|]. specialize (IH (v / 16) (S n) Hd ltac:(lia)). lia. }
      pose proof (Hx 64%nat value 16%nat ltac:(cbn; lia) ltac:(lia)). lia.
Qed.

Lemma utoa_correct_witness : digits_value 16 (utoa (2 ^ 64 - 1) 16) = 2 ^ 64 - 1
  /\ zlen (utoa (2 ^ 64 - 1) 16) + 1 <= 32.
Proof. apply (utoa_correct (2 ^ 64 - 1) 16); [lia | by right]. Defined.

(** ** The text of a format *)

(** the characters a format stands for, with no buffer; [None] as above *)
Fixpoint format_text (fuel : nat) (format : list Z) (args : list karg) : option (list Z) :=
  match fuel, format with
  | _, [] => Some []
  | O, _ => None
  | S f, c :: rest =>
      if c =? chr "%" then
        let '(zero_pad, rest) :=
          match rest with
          | z :: rest' => if z =? 48 then (true, rest') else (false, rest)
          | [] => (false, rest)
          end in
        let '(width, rest) := parse_width rest 0 in
        let '(long_mode, rest) := parse_long rest in
        match rest with
        | [] => None
        | conv :: rest =>
            let a := default (KInt 0) (if takes_arg conv then head args else None) in
            let args' := if takes_arg conv then tail args else args in
            app (convert conv zero_pad width long_mode a) <$> format_text f rest args'
        end
      else cons c <$> format_text f rest args
  end.

(** A format is complete when an automaton that reads it ends outside a
    conversion: [Text], after ['%'] and digits, after ['l']. *)
Inductive FmtState := Text | Flags | Long | LongLong.

Definition fmt_step (st : FmtState) (c : Z) : FmtState :=
  match st with
  | Text => if c =? chr "%" then Flags else Text
  | Flags => if is_digit c then Flags else if c =? chr "l" then Long else Text
  | Long => if c =? chr "l" then LongLong else Text
  | LongLong => Text
  end.

Definition format_complete (format : list Z) : Prop := fold_left fmt_step format Text = Text.

Lemma puts_app o s1 s2 : puts o (s1 ++ s2) = puts (puts o s1) s2.
Proof. apply fold_left_app. Qed.

Lemma kprintf_loop_text fuel : forall format args o,
  kprintf_loop fuel format args o = puts o <$> format_text fuel format args.
Proof.
  induction fuel as [|f IH]; intros [|c rest] args o; try done. cbn [kprintf_loop format_text].
  destruct (c =? chr "%"); [|rewrite IH; by destruct (format_text f rest args)].
  destruct (match rest with z :: _ => _ | [] => _ end) as [zp r1].
  destruct (parse_width r1 0) as [w r2]. destruct (parse_long r2) as [lm [|conv r3]]; [done|].
  destruct (takes_arg conv) eqn:Ht; rewrite IH.
  - destruct (format_text f r3 (tail args)); [|done]. cbn. by rewrite puts_app.
  - cbn [default]. destruct (format_text f r3 args); [|done]. cbn. by rewrite puts_app.
Qed.

Lemma parse_width_run : forall format w,
  (length (snd (parse_width format w)) <= length format)%nat /\
  fold_left fmt_step format Flags = fold_left fmt_step (snd (parse_width format w)) Flags /\
  (forall c rest, snd (parse_width format w) = c :: rest -> is_digit c = false).
Proof.
  induction format as [|c rest IH]; intros w; cbn [parse_width]; [done|].
  destruct (is_digit c) eqn:Hc; cbn [snd].
  - destruct (IH (w * 10 + (c - 48))) as (Hl & Hs & Hd). split; [cbn; lia|]. split; [|exact Hd].
    cbn [fold_left]. unfold fmt_step at 2. by rewrite Hc.
  - split; [lia|]. split; [done|]. by intros ? ? [= <- <-].
Qed.

Lemma parse_long_run format :
  (forall c rest, format = c :: rest -> is_digit c = false) ->
  (length (snd (parse_long format)) <= length format)%nat /\
  (snd (parse_long format) = [] -> fold_left fmt_step format Flags <> Text) /\
  (forall conv rest, snd (parse_long format) = conv :: rest ->
     fold_left fmt_step format Flags = fold_left fmt_step rest Text).
Proof.
  intros Hd. destruct format as [|c rest]; cbn [parse_long]; [done|].
  specialize (Hd c rest eq_refl). cbn [fold_left]. unfold fmt_step at 2 4. rewrite Hd.
  destruct (c =? chr "l"); [|split; [cbn; lia|]; split; [done|]; by intros ? ? [= <- <-]].
  destruct rest as [|c' rest']; [split; [cbn; lia|]; done|].
  cbn [fold_left]. unfold fmt_step at 2 4. destruct (c' =? chr "l"); cbn [snd length].
  - split; [lia|]. split; [by intros ->|]. by intros ? ? ->.
  - split; [lia|]. split; [done|]. by intros ? ? [= <- <-].
Qed.

Lemma format_text_complete fuel : forall format args,
  (length format <= fuel)%nat ->
  is_Some (format_text fuel format args) <-> format_complete format.
Proof.
  unfold format_complete.
  induction fuel as [|f IH]; intros [|c rest] args Hf; cbn [format_text]; try (cbn in Hf; lia).
  1,2: by split.
  cbn [length] in Hf. cbn [fold_left]. unfold fmt_step at 2.
  destruct (c =? chr "%"); [|rewrite fmap_is_Some; apply IH; lia].
  set (r := match rest with z :: _ => _ | [] => _ end).
  assert (Hr : (length r.2 <= length rest)%nat
    /\ fold_left fmt_step rest Flags = fold_left fmt_step r.2 Flags).
  { subst r. destruct rest as [|z rest']; [done|]. destruct (Z.eqb_spec z 48) as [->|]; [|done].
    cbn. split; [lia|done]. }
  clearbody r. destruct r as [zp r1]. cbn [snd] in Hr. destruct Hr as [Hl1 ->].
  pose proof (parse_width_run r1 0) as (Hl2 & Hs2 & Hd). destruct (parse_width r1 0) as [w r2].
  cbn [snd] in *. rewrite Hs2. pose proof (parse_long_run r2 Hd) as (Hl3 & He & Hc).
  destruct (parse_long r2) as [lm [|conv r3]]; cbn [snd length] in *.
  - split; [by intros [? ?]|]. intros Ht. by destruct (He eq_refl).
  - rewrite (Hc conv r3 eq_refl), fmap_is_Some. apply IH. lia.
Qed.

(** ** The buffer *)

Definition out_text (o : Out) : list Z := concat (printed o) ++ cstr_of (buffer o).
Definition out_ok (o : Out) : Prop :=
  is_cstr (buffer o) /\ zlen (buffer o) <= 1000 /\ Forall (fun s => zlen s = 1000) (printed o).

Lemma cstr_of_id s : is_cstr s -> cstr_of s = s.
Proof. induction 1 as [|c t Hc _ IH]; cbn [cstr_of]; [done|]. by rewrite (proj2 (Z.eqb_neq c 0)), IH by lia. Qed.

Lemma putc_ok o c : out_ok o -> 0 < c < 256 ->
  out_ok (putc o c) /\ out_text (putc o c) = out_text o ++ [c].
Proof.
  intros (Hb & Hl & Hp) Hc. unfold putc, out_text, out_ok.
  assert (Hc1 : is_cstr [c]) by (repeat constructor; lia).
  destruct (Z.leb_spec 1000 (zlen (buffer o))) as [Hfull|Hroom]; cbn [buffer printed].
  - rewrite (cstr_of_id _ Hb), (cstr_of_id _ Hc1), concat_app. cbn [concat]. rewrite app_nil_r.
    split; [|done]. split; [done|]. split; [unfold zlen; cbn; lia|].
    apply Forall_app. split; [done|]. repeat constructor. lia.
  - assert (Hbc : is_cstr (buffer o ++ [c])) by (apply Forall_app; by split).
    rewrite (cstr_of_id _ Hb), (cstr_of_id _ Hbc), app_assoc. split; [|done].
    split; [done|]. split; [rewrite zlen_app; change (zlen [c]) with 1; lia|done].
Qed.

Lemma puts_ok s : forall o, out_ok o -> is_cstr s ->
  out_ok (puts o s) /\ out_text (puts o s) = out_text o ++ s.
Proof.
  induction s as [|c s IH]; intros o Ho Hs; [by rewrite app_nil_r|].
  apply Forall_cons in Hs as [Hc Hs]. destruct (putc_ok o c Ho ltac:(lia)) as [Ho' Ht].
  destruct (IH (putc o c) Ho' Hs) as [Hok Htx]. split; [exact Hok|].
  change (puts o (c :: s)) with (puts (putc o c) s). rewrite Htx, Ht. by rewrite <- app_assoc.
Qed.

(** kprintf of a complete format prints exactly the characters that its loop makes, cut into strings of 1000 characters and a last shorter
    one, and returns the length of that last string only. *)
Lemma kprintf_text format args :
  format_complete format ->
  exists text, format_text (length format) format args = Some text /\
    (is_cstr text ->
     exists chunks rest, kprintf true format args = Some (chunks ++ [rest], zlen rest)
       /\ concat chunks ++ rest = text
       /\ Forall (fun s => zlen s = 1000) chunks /\ zlen rest <= 1000).
Proof.
  intros Hf. destruct (proj2 (format_text_complete (length format) format args ltac:(lia)) Hf) as [text Ht].
  exists text. split; [done|]. intros Hs. unfold kprintf. cbn [negb].
  rewrite kprintf_loop_text, Ht. cbn [fmap option_fmap option_map].
  assert (Ho : out_ok (mkOut [] [])) by (split; [constructor|]; split; [done|constructor]).
  destruct (puts_ok text _ Ho Hs) as [(Hb & Hl & Hp) Htx]. unfold out_text in Htx.
  rewrite (cstr_of_id _ Hb) in *. by exists (printed (puts (mkOut [] []) text)), (buffer (puts (mkOut [] []) text)).
Qed.
