(* ===== verification/Format.v ===== *)
(** * What kprintf prints (kernel/printk.cpp)

    The specification of formats: directives, the numeral of a number, the field of a
    conversion, none of it in terms of the code.  [kprintf_prints] shows that [kprintf]
    prints the text a format stands for; [prints_unique], that there is one such text. *)
From S2P Require Import Prelude Printk.

(** ** What a format stands for

    A format is a sequence of characters and conversions; [spelled] writes it down.
    What each prints is stated through the value of the numeral it prints and the
    width of its field, without the functions of the code. *)

Inductive modifier := no_modifier | one_l | two_l.

Inductive directive :=
| Char (c : Z)
| Conversion (zero : bool) (width : list Z) (len : modifier) (conv : Z).

Definition spell (d : directive) : list Z :=
  match d with
  | Char c => [c]
  | Conversion zero width len conv =>
      chr "%" :: (if zero then [chr "0"] else []) ++ width
      ++ (match len with no_modifier => [] | one_l => [chr "l"] | two_l => [chr "l"; chr "l"] end)
      ++ [conv]
  end.

Definition spelled (ds : list directive) : list Z := concat (spell <$> ds).

Definition decimal (c : Z) : Prop := 48 <= c <= 57.

(** a directive that the format can only be read as: a width without the flag does not
    begin with a zero, and what ends a conversion does not continue it *)
Definition readable (d : directive) : Prop :=
  match d with
  | Char c => c <> chr "%"
  | Conversion zero width len conv =>
      Forall decimal width
      /\ (zero = false -> head width <> Some 48)
      /\ match len with
         | no_modifier => conv <> chr "l" /\ ~ decimal conv
         | one_l => conv <> chr "l"
         | two_l => True
         end
  end.

(** the width is an [int] *)
Definition narrow (d : directive) : Prop :=
  match d with
  | Char _ => True
  | Conversion _ width _ _ => digits_value 10 width < 2 ^ 31
  end.

Definition well_formed (d : directive) : Prop := readable d /\ narrow d.

(** [s] is the numeral of [n]: digits and small letters, none of them leading zeros *)
Definition is_numeral (base n : Z) (s : list Z) : Prop :=
  s <> [] /\ Forall (fun c => (decimal c \/ 97 <= c <= 102) /\ digit_value c < base) s
  /\ digits_value base s = n /\ (head s = Some 48 -> s = [48]).

(** what [w] bits of an argument hold, with a sign and without *)
Definition signed_value (w v n : Z) : Prop :=
  - 2 ^ (w - 1) <= n < 2 ^ (w - 1) /\ (n - v) mod 2 ^ w = 0.
Definition unsigned_value (w v n : Z) : Prop := 0 <= n < 2 ^ w /\ (n - v) mod 2 ^ w = 0.

Definition arg_bits (len : modifier) : Z := match len with no_modifier => 32 | _ => 64 end.

(** [s] at the right of a field of [w] characters filled with [c] *)
Definition in_field (w c : Z) (s : list Z) : list Z := replicate (Z.to_nat (w - zlen s)) c ++ s.

Definition sign (n : Z) : list Z := if n <? 0 then [chr "-"] else [].
Definition filler (zero : bool) : Z := if zero then 48 else 32.

(** an argument passed for an integer or for a pointer *)
Inductive carries : karg -> Z -> Prop :=
| carries_int v : carries (KInt v) v
| carries_ptr v : carries (KPtr v) v.

(** zeros go between the sign and the digits, spaces before the sign; the width of %p
    counts its 0x; strings and characters are always filled with spaces *)
Inductive rendered (zero : bool) (w : Z) (len : modifier) : Z -> karg -> list Z -> Prop :=
| rendered_d a v n s :
    carries a v -> signed_value (arg_bits len) v n -> is_numeral 10 (Z.abs n) s ->
    rendered zero w len (chr "d") a
      (if zero then sign n ++ in_field (w - zlen (sign n)) 48 s else in_field w 32 (sign n ++ s))
| rendered_u a v n s :
    carries a v -> unsigned_value (arg_bits len) v n -> is_numeral 10 n s ->
    rendered zero w len (chr "u") a (in_field w (filler zero) s)
| rendered_x a v n s :
    carries a v -> unsigned_value (arg_bits len) v n -> is_numeral 16 n s ->
    rendered zero w len (chr "x") a (in_field w (filler zero) s)
| rendered_p a v n s :
    carries a v -> unsigned_value 64 v n -> is_numeral 16 n s ->
    rendered zero w len (chr "p") a (c_lit "0x" ++ in_field (w - 2) 48 s)
| rendered_s s : rendered zero w len (chr "s") (KStr s) (in_field w 32 s)
| rendered_null : rendered zero w len (chr "s") (KPtr 0) (in_field w 32 (c_lit "(null)"))
| rendered_c a v n :
    carries a v -> unsigned_value 8 v n ->
    rendered zero w len (chr "c") a (in_field w 32 [n]).

Inductive prints : list directive -> list karg -> list Z -> Prop :=
| prints_end args : prints [] args []
| prints_char c ds args t : prints ds args t -> prints (Char c :: ds) args (c :: t)
| prints_percent zero width len ds args t :
    prints ds args t -> prints (Conversion zero width len (chr "%") :: ds) args (chr "%" :: t)
| prints_unknown zero width len conv ds args t :
    conv ∉ c_lit "duxpsc%" -> prints ds args t ->
    prints (Conversion zero width len conv :: ds) args (chr "%" :: conv :: t)
| prints_conversion zero width len conv ds a args s t :
    rendered zero (digits_value 10 width) len conv a s -> prints ds args t ->
    prints (Conversion zero width len conv :: ds) (a :: args) (s ++ t).

(** the argument has the type of the conversion; the negation of the least 64-bit
    number overflows *)
Definition suits (conv : Z) (len : modifier) (a : karg) : Prop :=
  if conv =? chr "s" then (exists s, a = KStr s) \/ a = KPtr 0
  else exists v, carries a v
    /\ (conv = chr "d" -> arg_bits len = 64 -> v mod 2 ^ 64 <> 2 ^ 63).

Fixpoint enough (ds : list directive) (args : list karg) : Prop :=
  match ds with
  | [] => True
  | Conversion _ _ len conv :: ds =>
      if decide (conv ∈ c_lit "duxpsc")
      then match args with [] => False | a :: args => suits conv len a /\ enough ds args end
      else enough ds args
  | Char _ :: ds => enough ds args
  end.

(** ** The numerals of utoa *)

Lemma digit_char_ok r base : 0 <= r < base -> base <= 16 ->
  (decimal (digit_char r) \/ 97 <= digit_char r <= 102) /\ digit_value (digit_char r) < base.
Proof.
  intros Hr Hb. rewrite digit_value_char by lia. split; [|lia].
  unfold decimal, digit_char. zcases; lia.
Qed.

Lemma is_numeral_snoc base n s r :
  2 <= base <= 16 -> 0 < n -> 0 <= r < base -> is_numeral base n s ->
  is_numeral base (n * base + r) (s ++ [digit_char r]).
Proof.
  intros Hb Hn Hr (Hne & Hall & Hv & Hh). destruct s as [|c s]; [done|].
  split; [done|]. split; [apply Forall_app; split; [done|]; constructor; [|done]; by apply digit_char_ok; lia|].
  split; [by rewrite digits_value_app, digit_value_char, Hv by lia|].
  intros Hc. specialize (Hh Hc). rewrite Hh in Hv. change (digits_value base [48]) with 0 in Hv. lia.
Qed.

Lemma is_numeral_digit base r : 2 <= base <= 16 -> 0 <= r < base -> is_numeral base r [digit_char r].
Proof.
  intros Hb Hr. split; [done|]. split; [constructor; [|done]; by apply digit_char_ok; lia|].
  split; [|by intros [= ->]]. unfold digits_value. cbn [fold_left]. rewrite digit_value_char; lia.
Qed.

Lemma utoa_digits_numeral fuel : forall value base,
  2 <= base <= 16 -> 0 <= value < 2 ^ Z.of_nat fuel -> (0 < fuel)%nat ->
  is_numeral base value (rev (utoa_digits fuel value base)).
Proof.
  induction fuel as [|f IH]; intros value base Hb Hv Hf; [lia|]. cbn [utoa_digits rev].
  pose proof (Z.mod_pos_bound value base ltac:(lia)) as Hr.
  pose proof (Z.div_mod value base ltac:(lia)) as Hd.
  destruct (Z.eqb_spec (value / base) 0) as [Hz|Hz].
  - cbn [rev app]. rewrite Hd, Hz at 1. rewrite Z.mul_0_r, Z.add_0_l. by apply is_numeral_digit.
  - rewrite Hd at 1. rewrite Z.mul_comm. rewrite Nat2Z.inj_succ, Z.pow_succ_r in Hv by lia.
    assert (Hq : 0 < value / base) by (pose proof (Z.div_pos value base ltac:(lia) ltac:(lia)); lia).
    apply is_numeral_snoc; [done|done|done|]. apply IH; [done| |].
    + split; [lia|]. apply Z.div_lt_upper_bound; nia.
    + destruct f; [|lia]. cbn in Hv. assert (Hv1 : value = 0 \/ value = 1) by lia.
      destruct Hv1 as [-> | ->]; rewrite Z.div_small in Hz by lia; done.
Qed.

Lemma utoa_numeral base n : 2 <= base <= 16 -> 0 <= n < 2 ^ 64 -> is_numeral base n (utoa n base).
Proof. intros Hb Hn. rewrite utoa_rev. apply utoa_digits_numeral; [done|cbn; lia|lia]. Qed.

(** ** There is one numeral of each number *)

Lemma digit_value_inj c d :
  decimal c \/ 97 <= c <= 102 -> decimal d \/ 97 <= d <= 102 ->
  digit_value c = digit_value d -> c = d.
Proof. unfold decimal, digit_value. intros. zcases; lia. Qed.

Lemma digit_value_range c : decimal c \/ 97 <= c <= 102 -> 0 <= digit_value c.
Proof. unfold decimal, digit_value. intros. zcases; lia. Qed.

(** the digits before the last one are the numeral of the quotient *)
Lemma is_numeral_inv base n s :
  2 <= base -> is_numeral base n s ->
  exists t c, s = t ++ [c] /\ (decimal c \/ 97 <= c <= 102) /\ digit_value c = n mod base /\
    (t = [] /\ n / base = 0 \/ is_numeral base (n / base) t /\ 0 < n / base).
Proof.
  intros Hb (Hne & Hall & Hv & Hh). destruct (exists_last Hne) as (t & c & ->). exists t, c.
  apply Forall_app in Hall as [Ht Hc]. apply Forall_cons in Hc as [[Hc Hlt] _].
  rewrite digits_value_app in Hv. pose proof (digit_value_range c Hc) as H0.
  assert (Hq : n / base = digits_value base t /\ n mod base = digit_value c).
  { split; [symmetry; apply (Z.div_unique _ _ _ (digit_value c))|symmetry; apply (Z.mod_unique _ _ (digits_value base t))];
      lia. }
  destruct Hq as [Hq Hm]. split; [done|]. split; [done|]. split; [done|].
  destruct t as [|x t]; [by left|]. right. rewrite Hq.
  assert (Hx : x <> 48). { intros ->. specialize (Hh eq_refl). by destruct t. }
  split; [split; [done|]; split; [done|]; split; [done|]; by intros [= ->]|].
  apply Forall_cons in Ht as [[Hx1 Hx2] Ht]. pose proof (digit_value_range x Hx1).
  assert (0 < digit_value x).
  { destruct (decide (digit_value x = 0)) as [Hz|]; [|lia]. destruct Hx.
    apply digit_value_inj; [done|unfold decimal; lia|exact Hz]. }
  clear -Ht Hb H1. unfold digits_value. cbn [fold_left].
  assert (Hacc : forall acc, 0 < acc -> 0 < fold_left (fun a c => a * base + digit_value c) t acc).
  { induction Ht as [|y t [Hy _] _ IH]; intros acc Ha; [done|]. cbn [fold_left]. apply IH.
    pose proof (digit_value_range y Hy). nia. }
  apply Hacc. lia.
Qed.

Lemma is_numeral_unique base s1 : forall s2 n,
  2 <= base -> is_numeral base n s1 -> is_numeral base n s2 -> s1 = s2.
Proof.
  induction s1 as [s1 IH] using (induction_ltof1 _ (@length Z)). unfold ltof in IH.
  intros s2 n Hb H1 H2.
  destruct (is_numeral_inv base n s1 Hb H1) as (t1 & c1 & -> & Hc1 & Hd1 & Hq1).
  destruct (is_numeral_inv base n s2 Hb H2) as (t2 & c2 & -> & Hc2 & Hd2 & Hq2).
  rewrite (digit_value_inj c1 c2 Hc1 Hc2) by congruence. f_equal.
  destruct Hq1 as [[-> Hz1]|[Hn1 Hp1]], Hq2 as [[-> Hz2]|[Hn2 Hp2]]; [done|lia|lia|].
  apply (IH t1) with (n := n / base); [|done..]. rewrite length_app. cbn. lia.
Qed.

(** ** The conversions *)

Lemma mod_unique_range P lo n m v :
  lo <= n < lo + P -> lo <= m < lo + P -> (n - v) mod P = 0 -> (m - v) mod P = 0 -> n = m.
Proof.
  intros Hn Hm H1 H2. assert (P <> 0) by lia.
  apply Z.mod_divide in H1 as [a Ha]; [|done]. apply Z.mod_divide in H2 as [b Hb]; [|done].
  assert (a - b = 0); [|nia]. assert (Hd : n - m = (a - b) * P) by lia.
  destruct (Z.lt_trichotomy (a - b) 0) as [|[|]]; [nia|done|nia].
Qed.

Lemma unsigned_value_unique w v n m :
  unsigned_value w v n -> unsigned_value w v m -> n = m.
Proof. intros [Hn H1] [Hm H2]. apply (mod_unique_range (2 ^ w) 0 n m v); lia || done. Qed.

Lemma signed_value_unique w v n m :
  0 < w -> signed_value w v n -> signed_value w v m -> n = m.
Proof.
  intros Hw [Hn H1] [Hm H2].
  assert (Hp : 2 ^ w = 2 * 2 ^ (w - 1)) by (replace w with (Z.succ (w - 1)) at 1 by lia; apply Z.pow_succ_r; lia).
  apply (mod_unique_range (2 ^ w) (- 2 ^ (w - 1)) n m v); [lia|lia|done|done].
Qed.

Lemma carries_unique a v w : carries a v -> carries a w -> v = w.
Proof. by do 2 inversion 1. Qed.

Lemma arg_bits_pos len : 0 < arg_bits len.
Proof. by destruct len. Qed.

Ltac no_such_conversion :=
  match goal with H : chr _ = chr _ |- _ => vm_compute in H; discriminate H end.

Lemma rendered_unique zero w len conv a s t :
  rendered zero w len conv a s -> rendered zero w len conv a t -> s = t.
Proof.
  intros H1 H2. destruct H1; inversion H2; subst; try no_such_conversion; try done;
    repeat match goal with
    | Hc : carries ?a ?v, Hd : carries ?a ?v' |- _ =>
        pose proof (carries_unique a v v' Hc Hd); subst; clear Hd
    | Hc : unsigned_value ?w ?v ?n, Hd : unsigned_value ?w ?v ?m |- _ =>
        pose proof (unsigned_value_unique w v n m Hc Hd); subst; clear Hd
    | Hc : signed_value ?w ?v ?n, Hd : signed_value ?w ?v ?m |- _ =>
        pose proof (signed_value_unique w v n m (arg_bits_pos _) Hc Hd); subst; clear Hd
    | Hc : is_numeral ?b ?n ?s, Hd : is_numeral ?b ?n ?t |- _ =>
        pose proof (is_numeral_unique b s t n ltac:(lia) Hc Hd); subst; clear Hd
    end; try done; match goal with H : carries _ _ |- _ => inversion H end.
Qed.

Lemma rendered_conv zero w len conv a s :
  rendered zero w len conv a s -> conv ∈ c_lit "duxpsc".
Proof. destruct 1; apply (bool_decide_unpack _); vm_compute; exact I. Qed.

Lemma percent_takes_nothing : chr "%" ∉ c_lit "duxpsc".
Proof. apply (bool_decide_unpack _). vm_compute. exact I. Qed.

Lemma known_conversions conv : conv ∉ c_lit "duxpsc%" -> conv <> chr "%" /\ conv ∉ c_lit "duxpsc".
Proof.
  change (c_lit "duxpsc%") with (c_lit "duxpsc" ++ [chr "%"]). rewrite elem_of_app, list_elem_of_singleton.
  naive_solver.
Qed.

(** a format and its arguments stand for one text *)
Lemma prints_unique ds : forall args s t, prints ds args s -> prints ds args t -> s = t.
Proof.
  induction ds as [|[c|zero width len conv] ds IH]; intros args s t Hs Ht.
  - inversion Hs; inversion Ht; by subst.
  - inversion Hs as [|? ? ? ? Hp1| | |]; inversion Ht as [|? ? ? ? Hp2| | |]; subst. f_equal. by apply (IH args).
  - inversion Hs as [| |? ? ? ? ? ? Hp1|? ? ? ? ? ? ? K1 Hp1|? ? ? ? ? a1 ? s1 ? C1 Hp1];
      inversion Ht as [| |? ? ? ? ? ? Hp2|? ? ? ? ? ? ? K2 Hp2|? ? ? ? ? a2 ? s2 ? C2 Hp2]; subst;
      try match goal with K : _ ∉ c_lit "duxpsc%" |- _ => apply known_conversions in K as [? ?] end;
      try match goal with C : rendered _ _ _ _ _ _ |- _ => pose proof (rendered_conv _ _ _ _ _ _ C) end;
      try done; try (by destruct percent_takes_nothing).
    1,2: f_equal; try f_equal; by eapply IH.
    simplify_eq. f_equal; [by eapply rendered_unique|by eapply IH].
Qed.

(** ** Each conversion of the code is the one specified *)

Definition long_mode_of (len : modifier) : Z :=
  match len with no_modifier => 0 | one_l => 1 | two_l => 2 end.

Lemma padding_in_field w c s : padding w (zlen s) c ++ s = in_field w c s.
Proof. unfold padding, in_field. f_equal. f_equal. zcases; lia. Qed.

Lemma wrap_cancels P a b v : P <> 0 -> ((v + a) mod P - b - v) mod P = (a - b) mod P.
Proof.
  intros HP. rewrite (Z.mod_eq (v + a) P) by done. replace (v + a - P * ((v + a) / P) - b - v)
    with (a - b + - ((v + a) / P) * P) by lia. by apply Z.mod_add.
Qed.

Lemma unsigned_value_wrap w v : 0 <= w -> unsigned_value w v (v mod 2 ^ w).
Proof.
  intros Hw. assert (0 < 2 ^ w) by lia. split; [by apply Z.mod_pos_bound|].
  pose proof (wrap_cancels (2 ^ w) 0 0 v ltac:(lia)) as Hc.
  rewrite Z.add_0_r, !Z.sub_0_r in Hc. by rewrite Hc, Z.mod_0_l by lia.
Qed.

Lemma i32_signed v : signed_value 32 v (i32 v).
Proof.
  unfold i32, signed_value. change (32 - 1) with 31. split.
  - pose proof (Z.mod_pos_bound (v + 2 ^ 31) (2 ^ 32) ltac:(lia)). lia.
  - by rewrite wrap_cancels.
Qed.

Lemma i64_signed v : signed_value 64 v (i64 v).
Proof.
  unfold i64, signed_value. change (64 - 1) with 63. split.
  - pose proof (Z.mod_pos_bound (v + 2 ^ 63) (2 ^ 64) ltac:(lia)). lia.
  - by rewrite wrap_cancels.
Qed.

Lemma carries_arg a v : carries a v -> arg_int a = v.
Proof. by destruct 1. Qed.

(** the unsigned number that the code takes for [u] and [x] *)
Definition arg_unsigned (len : modifier) (v : Z) : Z :=
  if 0 <? long_mode_of len then u64 v else u32 v.

Lemma arg_unsigned_value len v : unsigned_value (arg_bits len) v (arg_unsigned len v).
Proof. destruct len; apply unsigned_value_wrap; cbn; lia. Qed.

Lemma arg_unsigned_range len v : 0 <= arg_unsigned len v < 2 ^ 64.
Proof. destruct (arg_unsigned_value len v) as [H _]. destruct len; cbn [arg_bits] in H; lia. Qed.

Definition arg_signed (len : modifier) (v : Z) : Z :=
  if 0 <? long_mode_of len then i64 v else i32 v.

Lemma arg_signed_value len v : signed_value (arg_bits len) v (arg_signed len v).
Proof. destruct len; apply i32_signed || apply i64_signed. Qed.

Lemma arg_signed_abs len v :
  u64 (if arg_signed len v <? 0 then - arg_signed len v else arg_signed len v) = Z.abs (arg_signed len v)
  /\ 0 <= Z.abs (arg_signed len v) < 2 ^ 64.
Proof.
  assert (Hr : - 2 ^ 63 <= arg_signed len v < 2 ^ 63).
  { destruct (arg_signed_value len v) as [H _]. destruct len; cbn [arg_bits] in H; lia. }
  split; [|lia]. rewrite u64_small by (destruct (Z.ltb_spec (arg_signed len v) 0); lia).
  destruct (Z.ltb_spec (arg_signed len v) 0); lia.
Qed.

Lemma convert_d zero w len a v :
  carries a v ->
  rendered zero w len (chr "d") a (convert (chr "d") zero w (long_mode_of len) a).
Proof.
  intros Ha. pose proof (arg_signed_value len v) as Hs. destruct (arg_signed_abs len v) as [Hu Hr].
  pose proof (utoa_numeral 10 _ ltac:(lia) Hr) as Hn.
  pose proof (rendered_d zero w len a v _ _ Ha Hs Hn) as Hc.
  enough (He : convert (chr "d") zero w (long_mode_of len) a = _) by (rewrite He; exact Hc).
  unfold convert. rewrite (carries_arg a v Ha), Z.eqb_refl. cbv zeta.
  fold (arg_signed len v). rewrite Hu. set (num := utoa (Z.abs (arg_signed len v)) 10).
  assert (Hl : zlen num + (if arg_signed len v <? 0 then 1 else 0) = zlen (sign (arg_signed len v) ++ num)).
  { rewrite zlen_app. unfold sign. destruct (arg_signed len v <? 0); [change (zlen [chr "-"]) with 1|change (zlen []) with 0]; lia. }
  rewrite Hl. fold (sign (arg_signed len v)). destruct zero; cbn [app].
  - f_equal. unfold padding, in_field. f_equal. f_equal. rewrite zlen_app. zcases; lia.
  - by rewrite <- padding_in_field.
Qed.

Lemma convert_ok zero w len conv a :
  conv ∈ c_lit "duxpsc" -> suits conv len a ->
  rendered zero w len conv a (convert conv zero w (long_mode_of len) a).
Proof.
  intros Hc Hs. unfold suits in Hs. vm_compute in Hc.
  repeat (apply elem_of_cons in Hc as [->|Hc]); [..|by apply not_elem_of_nil in Hc].
  1-4,6: destruct Hs as (v & Ha & _).
  - by apply (convert_d zero w len a v).
  - change 117 with (chr "u"). change (convert (chr "u") zero w (long_mode_of len) a)
      with (padding w (zlen (utoa (if 0 <? long_mode_of len then u64 (arg_int a) else u32 (arg_int a)) 10))
              (filler zero) ++ utoa (if 0 <? long_mode_of len then u64 (arg_int a) else u32 (arg_int a)) 10).
    rewrite (carries_arg a v Ha), padding_in_field. fold (arg_unsigned len v).
    eapply rendered_u; [done|apply arg_unsigned_value|apply utoa_numeral; [lia|apply arg_unsigned_range]].
  - change 120 with (chr "x"). change (convert (chr "x") zero w (long_mode_of len) a)
      with (padding w (zlen (utoa (if 0 <? long_mode_of len then u64 (arg_int a) else u32 (arg_int a)) 16))
              (filler zero) ++ utoa (if 0 <? long_mode_of len then u64 (arg_int a) else u32 (arg_int a)) 16).
    rewrite (carries_arg a v Ha), padding_in_field. fold (arg_unsigned len v).
    eapply rendered_x; [done|apply arg_unsigned_value|apply utoa_numeral; [lia|apply arg_unsigned_range]].
  - change 112 with (chr "p"). change (convert (chr "p") zero w (long_mode_of len) a)
      with (c_lit "0x" ++ padding w (zlen (utoa (u64 (arg_int a)) 16) + 2) 48 ++ utoa (u64 (arg_int a)) 16).
    rewrite (carries_arg a v Ha).
    assert (Hp : padding w (zlen (utoa (u64 v) 16) + 2) 48 ++ utoa (u64 v) 16 = in_field (w - 2) 48 (utoa (u64 v) 16)).
    { unfold padding, in_field. f_equal. f_equal. zcases; lia. }
    rewrite Hp. eapply rendered_p; [done|by apply unsigned_value_wrap|apply utoa_numeral; [lia|apply u64_range]].
  - change 99 with (chr "c"). change (convert (chr "c") zero w (long_mode_of len) a)
      with (padding w (zlen [u8 (arg_int a)]) 32 ++ [u8 (arg_int a)]).
    rewrite (carries_arg a v Ha), padding_in_field. eapply rendered_c; [done|by apply unsigned_value_wrap].
  - change 115 with (chr "s"). change (convert (chr "s") zero w (long_mode_of len) a)
      with (padding w (zlen (arg_str a)) 32 ++ arg_str a).
    rewrite padding_in_field. destruct Hs as [[s ->]| ->]; [apply rendered_s|apply rendered_null].
Qed.

(** ** A format is read as the directives it spells *)

Lemma decimal_digit c : decimal c <-> is_digit c = true.
Proof. unfold decimal, is_digit. rewrite andb_true_iff, !Z.leb_le. done. Qed.

Lemma parse_width_spelled width : forall acc rest,
  Forall decimal width -> (forall c, head rest = Some c -> ~ decimal c) ->
  parse_width (width ++ rest) acc
  = (fold_left (fun n c => n * 10 + digit_value c) width acc, rest).
Proof.
  induction width as [|c width IH]; intros acc rest Hw Hr; cbn [app fold_left].
  - destruct rest as [|c rest]; [done|]. cbn [parse_width]. specialize (Hr c eq_refl).
    rewrite decimal_digit in Hr. by destruct (is_digit c).
  - apply Forall_cons in Hw as [Hc Hw]. cbn [parse_width]. rewrite (proj1 (decimal_digit c) Hc).
    rewrite IH by done. do 3 f_equal. unfold digit_value, decimal in *. zcases; lia.
Qed.

Definition modifier_text (len : modifier) : list Z :=
  match len with no_modifier => [] | one_l => [chr "l"] | two_l => [chr "l"; chr "l"] end.

Lemma parse_long_spelled len conv rest :
  (len <> two_l -> conv <> chr "l") ->
  parse_long (modifier_text len ++ conv :: rest) = (long_mode_of len, conv :: rest).
Proof.
  intros Hc. destruct len; cbn [modifier_text app parse_long long_mode_of]; rewrite ?Z.eqb_refl; [| |done];
    by rewrite (proj2 (Z.eqb_neq conv (chr "l"))) by (by apply Hc).
Qed.

Lemma takes_arg_spec conv : takes_arg conv = true <-> conv ∈ c_lit "duxpsc".
Proof.
  unfold takes_arg. rewrite existsb_exists, list_elem_of_In. split.
  - by intros (c & Hin & ->%Z.eqb_eq).
  - intros Hin. exists conv. split; [done|apply Z.eqb_refl].
Qed.

Lemma convert_other zero w len conv a :
  conv ∉ c_lit "duxpsc" ->
  convert conv zero w len a = if conv =? chr "%" then [chr "%"] else [chr "%"; conv].
Proof.
  intros Hc. assert (Hne : forall c, c ∈ c_lit "duxpsc" -> (conv =? c) = false).
  { intros c Hin. apply Z.eqb_neq. by intros ->. }
  unfold convert. rewrite !Hne by (apply (bool_decide_unpack _); vm_compute; exact I). done.
Qed.

(** the characters of one conversion of a format *)
Lemma format_text_conversion f zero width len conv rest args :
  well_formed (Conversion zero width len conv) ->
  format_text (S f) (spell (Conversion zero width len conv) ++ rest) args
  = (if takes_arg conv
     then app (convert conv zero (digits_value 10 width) (long_mode_of len) (default (KInt 0) (head args)))
            <$> format_text f rest (tail args)
     else app (convert conv zero (digits_value 10 width) (long_mode_of len) (KInt 0))
            <$> format_text f rest args).
Proof.
  intros [(Hw & Hz & Hl) _]. cbn [spell app format_text]. rewrite Z.eqb_refl.
  change (match len with no_modifier => _ | _ => _ end) with (modifier_text len).
  set (after := modifier_text len ++ [conv] ++ rest).
  assert (Hafter : forall c, head after = Some c -> ~ decimal c).
  { intros c. subst after. destruct len; cbn [modifier_text app head]; intros [= <-]; [tauto|..];
      unfold decimal; change (chr "l") with 108; lia. }
  assert (Hspell : ((if zero then [chr "0"] else []) ++ width ++ modifier_text len ++ [conv]) ++ rest
    = (if zero then [48] else []) ++ width ++ after).
  { subst after. rewrite <- !app_assoc. by destruct zero. }
  rewrite Hspell.
  assert (Hflag : match (if zero then [48] else []) ++ width ++ after with
    | z :: rest' => if z =? 48 then (true, rest') else (false, (if zero then [48] else []) ++ width ++ after)
    | [] => (false, (if zero then [48] else []) ++ width ++ after) end = (zero, width ++ after)).
  { destruct zero; cbn [app]; [done|]. destruct width as [|c width]; cbn [app].
    - destruct after as [|c after']; [done|]. specialize (Hafter c eq_refl).
      destruct (Z.eqb_spec c 48) as [->|]; [|done]. destruct Hafter. unfold decimal. lia.
    - destruct (Z.eqb_spec c 48) as [->|]; [|done]. by destruct (Hz eq_refl). }
  rewrite Hflag, parse_width_spelled by done. fold (digits_value 10 width).
  subst after. change ([conv] ++ rest) with (conv :: rest).
  rewrite parse_long_spelled by (destruct len; tauto). by destruct (takes_arg conv).
Qed.

Lemma format_text_spelled ds : forall args fuel,
  (length (spelled ds) <= fuel)%nat -> Forall well_formed ds -> enough ds args ->
  exists text, format_text fuel (spelled ds) args = Some text /\ prints ds args text.
Proof.
  induction ds as [|d ds IH]; intros args fuel Hf Hds Ha.
  { exists []. split; [by destruct fuel|constructor]. }
  apply Forall_cons in Hds as [Hd Hds]. change (spelled (d :: ds)) with (spell d ++ spelled ds) in *.
  rewrite length_app in Hf. destruct fuel as [|fuel]; [destruct d; cbn [spell length] in Hf; lia|].
  destruct d as [c|zero width len conv].
  - destruct Hd as [Hd _].
    cbn [readable enough spell length app format_text] in *. rewrite (proj2 (Z.eqb_neq _ _) Hd).
    destruct (IH args fuel ltac:(lia) Hds Ha) as (text & Ht & Hp). rewrite Ht.
    exists (c :: text). by split; [|constructor].
  - rewrite (format_text_conversion _ _ _ _ _ _ _ Hd). cbn [enough] in Ha.
    assert (Hf' : (length (spelled ds) <= fuel)%nat) by (cbn [spell length] in Hf; lia).
    destruct (decide (conv ∈ c_lit "duxpsc")) as [Hin|Hout].
    + destruct args as [|a args]; [done|]. destruct Ha as [Hs Ha]. rewrite (proj2 (takes_arg_spec _) Hin).
      destruct (IH args fuel Hf' Hds Ha) as (text & Ht & Hp). cbn [tail head default]. rewrite Ht.
      eexists. split; [reflexivity|]. apply prints_conversion; [|done]. by apply convert_ok.
    + destruct (takes_arg conv) eqn:Ht; [by rewrite takes_arg_spec in Ht|]. clear Ht.
      destruct (IH args fuel Hf' Hds Ha) as (text & Ht & Hp). rewrite Ht, convert_other by done.
      cbn [fmap option_fmap option_map].
      destruct (Z.eqb_spec conv (chr "%")) as [->|Hne]; eexists; (split; [reflexivity|]); cbn [app].
      * by constructor.
      * apply prints_unknown; [|done]. change (c_lit "duxpsc%") with (c_lit "duxpsc" ++ [chr "%"]).
        rewrite elem_of_app, list_elem_of_singleton. tauto.
Qed.

(** ** Every complete format is spelled by directives *)

Lemma digits_split format :
  exists w r, format = w ++ r /\ Forall decimal w /\ (forall c, head r = Some c -> ~ decimal c)
    /\ fold_left fmt_step format Flags = fold_left fmt_step r Flags.
Proof.
  induction format as [|c format IH]; [by exists [], []|].
  destruct (is_digit c) eqn:Hc.
  - destruct IH as (w & r & -> & Hw & Hr & Hs). exists (c :: w), r.
    split; [done|]. split; [constructor; [by apply decimal_digit|done]|]. split; [done|].
    cbn [fold_left]. unfold fmt_step at 2. by rewrite Hc.
  - exists [], (c :: format). split; [done|]. split; [done|]. split; [|done].
    intros c' [= <-]. by rewrite decimal_digit, Hc.
Qed.

Lemma flag_split w : Forall decimal w ->
  exists zero width, w = (if zero : bool then [chr "0"] else []) ++ width /\ Forall decimal width
    /\ (zero = false -> head width <> Some 48).
Proof.
  intros Hw. destruct w as [|c w]; [by exists false, []|]. destruct (decide (c = 48)) as [->|Hne].
  - exists true, w. apply Forall_cons in Hw as [_ Hw]. done.
  - exists false, (c :: w). split; [done|]. split; [done|]. by intros _ [= ->].
Qed.

Lemma conversion_split r :
  (forall c, head r = Some c -> ~ decimal c) -> fold_left fmt_step r Flags = Text ->
  exists len conv rest, r = modifier_text len ++ conv :: rest
    /\ match len with
       | no_modifier => conv <> chr "l" /\ ~ decimal conv
       | one_l => conv <> chr "l"
       | two_l => True
       end /\ fold_left fmt_step rest Text = Text.
Proof.
  intros Hd Hs. destruct r as [|c r]; [done|]. specialize (Hd c eq_refl).
  cbn [fold_left] in Hs. unfold fmt_step at 2 in Hs.
  destruct (is_digit c) eqn:Hc; [by rewrite decimal_digit in Hd|].
  destruct (Z.eqb_spec c (chr "l")) as [->|Hne]; [|by exists no_modifier, c, r].
  destruct r as [|c' r]; [done|]. cbn [fold_left] in Hs. unfold fmt_step at 2 in Hs.
  destruct (Z.eqb_spec c' (chr "l")) as [->|Hne]; [|by exists one_l, c', r].
  destruct r as [|c' r]; [done|]. by exists two_l, c', r.
Qed.

Lemma format_complete_spelled format :
  format_complete format -> exists ds, Forall readable ds /\ spelled ds = format.
Proof.
  unfold format_complete. induction format as [format IH] using (induction_ltof1 _ (@length Z)).
  unfold ltof in IH. intros Hf. destruct format as [|c format]; [by exists []|].
  cbn [fold_left] in Hf. unfold fmt_step at 2 in Hf. destruct (Z.eqb_spec c (chr "%")) as [->|Hne].
  - destruct (digits_split format) as (w & r & -> & Hw & Hr & Hs). rewrite Hs in Hf.
    destruct (flag_split w Hw) as (zero & width & -> & Hwidth & Hz).
    destruct (conversion_split r Hr Hf) as (len & conv & rest & -> & Hl & Hrest).
    destruct (IH rest) as (ds & Hds & Hsp); [|done|].
    { cbn. rewrite !length_app. cbn. lia. }
    exists (Conversion zero width len conv :: ds). split; [by constructor|].
    change (spelled (_ :: ds)) with (spell (Conversion zero width len conv) ++ spelled ds).
    rewrite Hsp. cbn [spell]. change (match len with no_modifier => _ | _ => _ end) with (modifier_text len).
    cbn [app]. by rewrite <- !app_assoc.
  - destruct (IH format) as (ds & Hds & Hsp); [cbn; lia|done|].
    exists (Char c :: ds). split; [by constructor|]. cbn. by f_equal.
Qed.


Definition sample_directives : list directive :=
  [Char (chr "t"); Char (chr "="); Conversion true (c_lit "5") no_modifier (chr "d"); Char (chr " ");
   Conversion false [] one_l (chr "x"); Char (chr " "); Conversion false (c_lit "3") no_modifier (chr "s")].
Definition sample_args : list karg := [KInt (-42); KInt (-1); KStr (c_lit "ok")].

Lemma sample_prints :
  prints sample_directives sample_args (c_lit "t=-0042 ffffffffffffffff  ok").
Proof.
  do 2 apply prints_char. apply (prints_conversion _ _ _ _ _ _ _ (c_lit "-0042")).
  { apply (rendered_d true 5 no_modifier _ (-42) (-42) (c_lit "42")); [constructor|done|].
    split; [done|]. split; [|done]. unfold decimal. apply (bool_decide_unpack _). vm_compute. exact I. }
  apply prints_char. apply (prints_conversion _ _ _ _ _ _ _ (c_lit "ffffffffffffffff")).
  { apply (rendered_x false 0 one_l _ (-1) (2 ^ 64 - 1) (c_lit "ffffffffffffffff")); [constructor|done|].
    split; [done|]. split; [|done]. unfold decimal. apply (bool_decide_unpack _). vm_compute. exact I. }
  apply prints_char. apply (prints_conversion _ _ _ _ _ _ _ (c_lit " ok")); [|constructor].
  apply rendered_s.
Qed.

