(* ===== verification/Device.v ===== *)
(** * Block devices and the state the file system code runs in

    [Class BlockDevice] is kernel/block_device.hpp; [BlockDeviceLaws] states what
    a disk that works promises, and [RamDisk] is a disk that keeps the promise.
    File system operations run in the monad [FS]: the disk, the frame allocator
    their buffers come from, and the [kprintf] calls made so far. *)
From S2P Require Import Prelude Memory.

Class BlockDevice (D : Type) := {
  (** [Read(lba, buffer, count)]: the result and the bytes the buffer then holds *)
  dev_Read : Z -> Z -> D -> bool * list Z;
  (** [Write(lba, buffer, count)] *)
  dev_Write : Z -> list Z -> Z -> D -> bool * D
}.

Definition kSectorSize : Z := 512.

(** [n] consecutive sectors of a disk given by its sectors *)
Fixpoint sectors (sec : Z -> list Z) (lba : Z) (n : nat) : list Z :=
  match n with
  | O => []
  | S n' => sec lba ++ sectors sec (lba + 1) n'
  end.

Class BlockDeviceLaws (D : Type) `{BlockDevice D} := {
  sector : D -> Z -> list Z;
  sector_len d lba : zlen (sector d lba) = kSectorSize;
  sector_bytes d lba : Forall is_byte (sector d lba);
  dev_Read_spec d lba n :
    0 <= n -> dev_Read lba n d = (true, sectors (sector d) lba (Z.to_nat n));
  dev_Write_spec d lba buf n :
    0 <= n -> zlen buf = kSectorSize * n -> Forall is_byte buf ->
    exists d', dev_Write lba buf n d = (true, d')
      /\ forall l, sector d' l = if (lba <=? l) && (l <? lba + n)
                                then slice buf (kSectorSize * (l - lba)) kSectorSize
                                else sector d l
}.

(** ** The monad *)

Record World (D M : Type) := mkWorld {
  w_dev : D;
  w_mm : M;
  w_out : list kevent
}.
Arguments mkWorld {D M}.
Arguments w_dev {D M}.
Arguments w_mm {D M}.
Arguments w_out {D M}.

(** A run that ends; [NullBuffer]: the frame allocator had no memory for a buffer
    whose address the code does not test; [OutOfFuel]: a loop ran longer than
    the bound given to the model. *)
Inductive Outcome (D M A : Type) :=
  | Done (a : A) (w : World D M)
  | NullBuffer
  | OutOfFuel.
Arguments Done {D M A}.
Arguments NullBuffer {D M A}.
Arguments OutOfFuel {D M A}.

Definition FS (D M A : Type) : Type := World D M -> Outcome D M A.

Definition fs_ret {D M A} (a : A) : FS D M A := fun w => Done a w.
Definition fs_bind {D M A B} (m : FS D M A) (k : A -> FS D M B) : FS D M B :=
  fun w => match m w with
           | Done a w' => k a w'
           | NullBuffer => NullBuffer
           | OutOfFuel => OutOfFuel
           end.

Declare Scope fs_scope.
Delimit Scope fs_scope with fs.
Notation "x <- m ;; k" := (fs_bind m (fun x => k))
  (at level 100, m at next level, right associativity) : fs_scope.
Notation "'let*' p := m 'in' k" := (fs_bind m (fun p => k))
  (at level 10, p pattern, m at level 100, k at level 200) : fs_scope.
Notation "m ;; k" := (fs_bind m (fun _ => k))
  (at level 100, right associativity) : fs_scope.
#[global] Open Scope fs_scope.

Section Operations.
Context {D M : Type} `{BlockDevice D} `{FrameAllocator M}.

Definition kprintf (fmt : string) (args : list karg) : FS D M unit :=
  fun w => Done tt (mkWorld (w_dev w) (w_mm w) (w_out w ++ [KP (c_lit fmt) args])).

(** [MemoryManager::Allocate] *)
Definition Allocate_ (size al : Z) : FS D M Z :=
  fun w => let '(p, m') := Allocate size al (w_mm w) in
           Done p (mkWorld (w_dev w) m' (w_out w)).

(** [MemoryManager::Allocate] where the code uses the buffer without a test *)
Definition Buffer (size al : Z) : FS D M Z :=
  p <- Allocate_ size al ;;
  if p =? 0 then fun _ => NullBuffer else fs_ret p.

(** [MemoryManager::Free] *)
Definition Free_ (p size : Z) : FS D M unit :=
  fun w => Done tt (mkWorld (w_dev w) (Free p size (w_mm w)) (w_out w)).

Definition Read (lba count : Z) : FS D M (bool * list Z) :=
  fun w => Done (dev_Read lba count (w_dev w)) w.

Definition Write (lba : Z) (buf : list Z) (count : Z) : FS D M bool :=
  fun w => let '(ok, d') := dev_Write lba buf count (w_dev w) in
           Done ok (mkWorld d' (w_mm w) (w_out w)).

(** [for (i = lo; n times; ++i) body(i);] *)
Fixpoint fs_for (n : nat) (i : Z) (body : Z -> FS D M unit) : FS D M unit :=
  match n with
  | O => fs_ret tt
  | S n' => body i ;; fs_for n' (i + 1) body
  end.
End Operations.
Arguments kprintf {D M} _%_string _ _.

(** ** Runs that end: [wp m Q w], the run of [m] from [w] ends and [Q] holds then *)

Definition wp {D M A} (m : FS D M A) (Q : A -> World D M -> Prop) (w : World D M) : Prop :=
  match m w with
  | Done a w' => Q a w'
  | NullBuffer => False
  | OutOfFuel => False
  end.

Lemma wp_Done {D M A} (m : FS D M A) Q w :
  wp m Q w <-> exists a w', m w = Done a w' /\ Q a w'.
Proof.
  unfold wp. destruct (m w) as [a w'| |]; split; try done; [eauto| |..];
    intros (? & ? & Heq & ?); congruence.
Qed.

(** The allocator can serve the buffers of the given sizes, one inside the other *)
Fixpoint room {M} `{FrameAllocator M} (sizes : list Z) (mm : M) : Prop :=
  match sizes with
  | [] => True
  | s :: rest => fst (Allocate s 4096 mm) <> 0 /\ room rest (snd (Allocate s 4096 mm))
  end.

Section WP.
Context {D M : Type} `{BlockDeviceLaws D} `{FrameAllocatorLaws M}.
Implicit Types (d : D) (mm : M).

Lemma wp_mono {A} (m : FS D M A) (P Q : A -> World D M -> Prop) w :
  wp m P w -> (forall a w', P a w' -> Q a w') -> wp m Q w.
Proof. unfold wp. destruct (m w); auto. Qed.

Lemma wp_ret {A} (a : A) (Q : A -> World D M -> Prop) w : Q a w -> wp (fs_ret a) Q w.
Proof. done. Qed.

Lemma wp_bind {A B} (m : FS D M A) (k : A -> FS D M B) Q w :
  wp m (fun a w' => wp (k a) Q w') w -> wp (fs_bind m k) Q w.
Proof. unfold wp, fs_bind. by destruct (m w). Qed.

(** an invariant of the loop body, indexed by the counter *)
Lemma wp_for (I : Z -> World D M -> Prop) n : forall i body (Q : unit -> World D M -> Prop) w,
  I i w ->
  (forall k w', i <= k < i + Z.of_nat n -> I k w' -> wp (body k) (fun _ => I (k + 1)) w') ->
  (forall w', I (i + Z.of_nat n) w' -> Q tt w') ->
  wp (fs_for n i body) Q w.
Proof.
  induction n as [|n IH]; intros i body Q w HI Hbody HQ; cbn [fs_for].
  - apply wp_ret, HQ. by rewrite Z.add_0_r.
  - apply wp_bind. eapply wp_mono; [apply (Hbody i w); [lia|done]|]. intros a w1 HI'. cbn beta in *.
    apply IH; [done| |].
    + intros k w2 Hk. apply Hbody. lia.
    + intros w2 HI2. apply HQ. by replace (i + Z.of_nat (S n)) with (i + 1 + Z.of_nat n) by lia.
Qed.

Lemma wp_kprintf fmt args (Q : unit -> World D M -> Prop) d mm out :
  Q tt (mkWorld d mm (out ++ [KP (c_lit fmt) args])) ->
  wp (kprintf fmt args) Q (mkWorld d mm out).
Proof. done. Qed.

(** a buffer: the continuation runs with an allocator that freeing the buffer
    turns back into the one of before *)
Lemma wp_Buffer_at size al (Q : Z -> World D M -> Prop) d mm out :
  alloc_inv mm -> 0 <= size < 2 ^ 32 -> fst (Allocate size 4096 mm) <> 0 ->
  (forall p, alloc_inv (snd (Allocate size 4096 mm)) -> Free p size (snd (Allocate size 4096 mm)) = mm ->
             Q p (mkWorld d (snd (Allocate size 4096 mm)) out)) ->
  wp (Buffer size al) Q (mkWorld d mm out).
Proof.
  intros Hi Hs Hp HQ. unfold wp, Buffer, fs_bind, Allocate_. cbn [w_mm w_dev w_out].
  rewrite Allocate_align.
  destruct (Allocate size 4096 mm) as [p mm'] eqn:HA. cbn [fst snd] in *.
  rewrite (proj2 (Z.eqb_neq p 0)) by done. cbn. apply HQ.
  - eapply Allocate_inv; [exact Hi| |exact HA]. lia.
  - eapply Allocate_Free; [exact Hi| |exact HA|done]. lia.
Qed.

Lemma wp_Buffer size rest al (Q : Z -> World D M -> Prop) d mm out :
  alloc_inv mm -> 0 <= size < 2 ^ 32 -> room (size :: rest) mm ->
  (forall p mm', alloc_inv mm' -> room rest mm' -> Free p size mm' = mm ->
                 Q p (mkWorld d mm' out)) ->
  wp (Buffer size al) Q (mkWorld d mm out).
Proof. intros Hi Hs [Hp Hr] HQ. apply wp_Buffer_at; [done..|]. intros p Hi' HF. by apply HQ. Qed.

Lemma wp_Free p size (Q : unit -> World D M -> Prop) d mm out :
  Q tt (mkWorld d (Free p size mm) out) -> wp (Free_ p size) Q (mkWorld d mm out).
Proof. done. Qed.

Lemma wp_Read lba n (Q : bool * list Z -> World D M -> Prop) d mm out :
  0 <= n -> Q (true, sectors (sector d) lba (Z.to_nat n)) (mkWorld d mm out) ->
  wp (Read lba n) Q (mkWorld d mm out).
Proof. intros Hn HQ. unfold wp, Read. cbn [w_dev]. by rewrite dev_Read_spec. Qed.

Lemma wp_Read1 lba (Q : bool * list Z -> World D M -> Prop) d mm out :
  Q (true, sector d lba) (mkWorld d mm out) -> wp (Read lba 1) Q (mkWorld d mm out).
Proof. intros HQ. apply wp_Read; [done|]. change (Z.to_nat 1) with 1%nat. cbn [sectors]. by rewrite app_nil_r. Qed.

Lemma wp_Write lba buf n (Q : bool -> World D M -> Prop) d mm out :
  0 <= n -> zlen buf = kSectorSize * n -> Forall is_byte buf ->
  (forall d', (forall l, sector d' l = if (lba <=? l) && (l <? lba + n)
                                 then slice buf (kSectorSize * (l - lba)) kSectorSize
                                 else sector d l) ->
              Q true (mkWorld d' mm out)) ->
  wp (Write lba buf n) Q (mkWorld d mm out).
Proof.
  intros Hn Hl Hb HQ. destruct (dev_Write_spec d lba buf n Hn Hl Hb) as (d' & HW & Hs).
  unfold wp, Write. cbn [w_dev w_mm w_out]. rewrite HW. by apply HQ.
Qed.

Lemma wp_Write1 lba buf (Q : bool -> World D M -> Prop) d mm out :
  zlen buf = kSectorSize -> Forall is_byte buf ->
  (forall d', (forall l, sector d' l = if l =? lba then buf else sector d l) ->
              Q true (mkWorld d' mm out)) ->
  wp (Write lba buf 1) Q (mkWorld d mm out).
Proof.
  intros Hl Hb HQ. apply wp_Write; [done|lia|done|]. intros d' Hd'. apply HQ. intros l.
  rewrite Hd'. destruct (Z.eqb_spec l lba) as [->|Hne].
  - rewrite Z.leb_refl, (proj2 (Z.ltb_lt _ _)), Z.sub_diag, Z.mul_0_r by lia. cbn [andb].
    unfold slice. cbn [Z.to_nat drop]. apply take_ge. unfold zlen, kSectorSize in *. lia.
  - destruct (Z.leb_spec lba l), (Z.ltb_spec l (lba + 1)); cbn [andb]; done || lia.
Qed.
End WP.

(** the sectors read in one operation, cell by cell and sector by sector *)
Section Sectors.
Context (sec : Z -> list Z) (sec_len : forall l, zlen (sec l) = kSectorSize).

Lemma zlen_sectors lba n : zlen (sectors sec lba n) = kSectorSize * Z.of_nat n.
Proof.
  revert lba. induction n as [|n IH]; intros lba; cbn [sectors]; [done|].
  rewrite zlen_app, IH, sec_len. lia.
Qed.

Lemma slice_sectors lba n s k o :
  0 <= s < Z.of_nat n -> 0 <= o -> 0 <= k -> o + k <= kSectorSize ->
  slice (sectors sec lba n) (kSectorSize * s + o) k = slice (sec (lba + s)) o k.
Proof.
  revert lba s. induction n as [|n IH]; intros lba s Hs Ho Hk Hok; [lia|]. cbn [sectors].
  pose proof (sec_len lba) as Hl. unfold zlen, kSectorSize in *. unfold slice.
  destruct (decide (s = 0)) as [->|Hne].
  - rewrite Z.add_0_r. replace (512 * 0 + o) with o by lia.
    rewrite drop_app_le by lia. rewrite take_app_le; [done|]. rewrite length_drop. lia.
  - rewrite drop_app_ge by lia.
    replace (Z.to_nat (512 * s + o) - length (sec lba))%nat
      with (Z.to_nat (512 * (s - 1) + o)) by lia.
    specialize (IH (lba + 1) (s - 1) ltac:(lia) Ho Hk Hok). unfold slice in IH. rewrite IH.
    do 3 f_equal. lia.
Qed.

Lemma rd_sectors lba n s o :
  0 <= s < Z.of_nat n -> 0 <= o < kSectorSize ->
  rd (sectors sec lba n) (kSectorSize * s + o) = rd (sec (lba + s)) o.
Proof.
  intros Hs Ho. pose proof (slice_sectors lba n s 1 o Hs ltac:(lia) ltac:(lia) ltac:(lia)) as HS.
  assert (H1 : rd (slice (sectors sec lba n) (kSectorSize * s + o) 1) 0
               = rd (slice (sec (lba + s)) o 1) 0) by (by rewrite HS).
  rewrite !rd_slice in H1 by (unfold kSectorSize in *; lia).
  by rewrite !Z.add_0_r in H1.
Qed.
End Sectors.

Lemma sectors_ext (f g : Z -> list Z) lba n :
  (forall l, lba <= l < lba + Z.of_nat n -> f l = g l) -> sectors f lba n = sectors g lba n.
Proof.
  revert lba. induction n as [|n IH]; intros lba Hfg; cbn [sectors]; [done|].
  rewrite Hfg by lia. f_equal. apply IH. intros l Hl. apply Hfg. lia.
Qed.

Lemma sectors_bytes (f : Z -> list Z) lba n :
  (forall l, Forall is_byte (f l)) -> Forall is_byte (sectors f lba n).
Proof.
  intros Hf. revert lba. induction n as [|n IH]; intros lba; cbn [sectors]; [constructor|].
  apply Forall_app. split; [apply Hf|apply IH].
Qed.

(** the sectors of a buffer put the buffer together again *)
Lemma sectors_slices lba buf n :
  zlen buf = kSectorSize * Z.of_nat n ->
  sectors (fun l => slice buf (kSectorSize * (l - lba)) kSectorSize) lba n = buf.
Proof.
  revert lba buf. induction n as [|n IH]; intros lba buf Hl; cbn [sectors].
  - destruct buf; [done|]. rewrite zlen_cons in Hl. pose proof (zlen_nonneg buf). lia.
  - rewrite Z.sub_diag, Z.mul_0_r.
    transitivity (take 512 buf ++ drop 512 buf); [|by rewrite take_drop]. f_equal.
    assert (Hd : zlen (drop 512 buf) = kSectorSize * Z.of_nat n).
    { unfold zlen, kSectorSize in *. rewrite length_drop. lia. }
    rewrite <- (IH (lba + 1) (drop 512 buf) Hd) at 1.
    apply sectors_ext. intros l Hr. unfold slice, kSectorSize. rewrite drop_drop. do 2 f_equal. lia.
Qed.

(** ** A disk in memory: the sectors written so far, the others zero *)

Abbreviation RamDisk := (gmap Z (list Z)).

Definition ram_sector (d : RamDisk) (lba : Z) : list Z :=
  match d !! lba with
  | Some s => if bool_decide (zlen s = kSectorSize /\ Forall is_byte s)
              then s else replicate 512 0
  | None => replicate 512 0
  end.

Fixpoint ram_write (lba : Z) (buf : list Z) (n : nat) (d : RamDisk) : RamDisk :=
  match n with
  | O => d
  | S n' => ram_write (lba + 1) (drop 512 buf) n' (<[lba := take 512 buf]> d)
  end.

#[export] Instance RamDisk_device : BlockDevice RamDisk := {
  dev_Read lba n d := (true, sectors (ram_sector d) lba (Z.to_nat n));
  dev_Write lba buf n d := (true, ram_write lba buf (Z.to_nat n) d)
}.

Lemma ram_write_sector lba buf n d l :
  zlen buf = kSectorSize * Z.of_nat n -> Forall is_byte buf ->
  ram_sector (ram_write lba buf n d) l
  = if (lba <=? l) && (l <? lba + Z.of_nat n)
    then slice buf (kSectorSize * (l - lba)) kSectorSize else ram_sector d l.
Proof.
  unfold kSectorSize. revert lba buf d. induction n as [|n IH]; intros lba buf d Hl Hb; cbn [ram_write].
  { destruct (Z.leb_spec lba l), (Z.ltb_spec l (lba + Z.of_nat 0)); cbn [andb]; done || lia. }
  assert (Hd : zlen (drop 512 buf) = 512 * Z.of_nat n).
  { unfold zlen in *. rewrite length_drop. lia. }
  rewrite IH by (done || by apply Forall_drop).
  destruct (Z.ltb_spec lba l) as [Hlt|Hge].
  - rewrite (proj2 (Z.leb_le (lba + 1) l)), (proj2 (Z.leb_le lba l)) by lia.
    replace (lba + 1 + Z.of_nat n) with (lba + Z.of_nat (S n)) by lia.
    destruct (Z.ltb_spec l (lba + Z.of_nat (S n))); cbn [andb].
    + unfold slice. rewrite drop_drop. do 2 f_equal. lia.
    + unfold ram_sector. by rewrite lookup_insert_ne by lia.
  - rewrite (proj2 (Z.leb_gt (lba + 1) l)) by lia. cbn [andb].
    destruct (decide (l = lba)) as [->|Hne].
    + rewrite Z.leb_refl, (proj2 (Z.ltb_lt _ _)) by lia. cbn [andb].
      unfold ram_sector. rewrite lookup_insert_eq.
      rewrite bool_decide_eq_true_2.
      * unfold slice. rewrite Z.sub_diag, Z.mul_0_r. done.
      * split; [unfold kSectorSize, zlen in *; rewrite length_take; lia|by apply Forall_take].
    + rewrite (proj2 (Z.leb_gt lba l)) by lia. cbn [andb].
      unfold ram_sector. by rewrite lookup_insert_ne by lia.
Qed.

#[export] Program Instance RamDisk_laws : BlockDeviceLaws RamDisk := {
  sector := ram_sector
}.
Next Obligation.
  intros d lba. unfold ram_sector. repeat case_match; try done.
  by apply bool_decide_eq_true in H0 as [? _].
Qed.
Next Obligation.
  intros d lba. unfold ram_sector. repeat case_match.
  - by apply bool_decide_eq_true in H0 as [_ ?].
  - apply Forall_replicate. unfold is_byte. lia.
  - apply Forall_replicate. unfold is_byte. lia.
Qed.
Next Obligation. done. Qed.
Next Obligation.
  intros d lba buf n Hn Hl Hb. eexists. split; [reflexivity|]. intros l.
  rewrite ram_write_sector; rewrite ?Z2Nat.id by lia; done.
Qed.
