(* ===== verification/Fat32Names.v ===== *)
(** * FAT32 names and directory entries (fs/fat32/fat32_defs.hpp and the pure
      parts of fs/fat32/fat32_driver.cpp)

    8.3 names ([To83Format], [IsNameEqual]), the 32-byte directory entry inside a
    buffer, the scans over a buffer's entries and the cutting of a path into
    segments.  Names are C strings (CStr.v); an entry's name field is eleven
    bytes, blank padded. *)
From S2P Require Import Prelude CStr.

(** ** 8.3 names *)

Definition kBlank : Z := 32.
Definition kDot : Z := 46.
Definition kSlash : Z := 47.

(** [if (c >= 'a' && c <= 'z') c -= 32;] *)
Definition upper (c : Z) : Z := if (97 <=? c) && (c <=? 122) then c - 32 else c.

Definition blank11 : list Z := replicate 11 kBlank.

(** [while (target_name[k] && target_name[k] != '.')] of IsNameEqual: what is left
    of the target from the dot on, and the converted name *)
Fixpoint convert_base (s : list Z) (j : Z) (conv : list Z) : list Z * list Z :=
  match s with
  | [] => ([], conv)
  | c :: t =>
      if c =? kDot then (s, conv)
      else if j <? 8 then convert_base t (j + 1) (upd conv j (upper c))
      else convert_base t j conv
  end.

Fixpoint convert_ext (s : list Z) (j : Z) (conv : list Z) : list Z :=
  match s with
  | [] => conv
  | c :: t =>
      if j <? 11 then convert_ext t (j + 1) (upd conv j (upper c))
      else convert_ext t j conv
  end.

Definition convert_dotted (target_name : list Z) : list Z :=
  let '(rest, conv) := convert_base target_name 0 blank11 in
  match rest with
  | c :: ext => if c =? kDot then convert_ext ext 8 conv else conv
  | [] => conv
  end.

(** eleven characters and no dot: the name is in 8.3 form already *)
Definition is_83 (target_name : list Z) : bool :=
  (strlen target_name =? 11) && negb (existsb (Z.eqb kDot) target_name).

Definition converted (target_name : list Z) : list Z :=
  if is_83 target_name
  then for_loop 11 0 (fun k conv => upd conv k (upper (cch target_name k))) blank11
  else convert_dotted target_name.

Definition IsNameEqual (entry_name target_name : list Z) : bool :=
  match for_return 11 0 (fun k =>
          if negb (rd entry_name k =? rd (converted target_name) k) then Some false else None)
  with
  | Some r => r
  | None => true
  end.

(** The loops of To83Format: the base name, the characters skipped before the dot,
    the extension *)
Fixpoint to83_base (src : list Z) (dst_idx : Z) (dst : list Z) : list Z * list Z :=
  match src with
  | [] => ([], dst)
  | c :: t =>
      if negb (c =? kDot) && (dst_idx <? 8)
      then to83_base t (dst_idx + 1) (upd dst dst_idx (upper c))
      else (src, dst)
  end.

Fixpoint to83_skip (src : list Z) : list Z :=
  match src with
  | [] => []
  | c :: t => if negb (c =? kDot) then to83_skip t else src
  end.

Fixpoint to83_ext (src : list Z) (dst_idx : Z) (dst : list Z) : list Z :=
  match src with
  | [] => dst
  | c :: t =>
      if dst_idx <? 11 then to83_ext t (dst_idx + 1) (upd dst dst_idx (upper c)) else dst
  end.

Definition To83Format (src : list Z) : list Z :=
  let '(rest, dst) := to83_base src 0 blank11 in
  match to83_skip rest with
  | c :: ext => if c =? kDot then to83_ext ext 8 dst else dst
  | [] => dst
  end.

(** ** Directory entries *)

Record DirectoryEntry := mkDirectoryEntry {
  de_name : list Z;
  de_attr : Z;
  de_nt_res : Z;
  de_crt_time_tenth : Z;
  de_crt_time : Z;
  de_crt_date : Z;
  de_lst_acc_date : Z;
  de_fst_clus_hi : Z;
  de_wrt_time : Z;
  de_wrt_date : Z;
  de_fst_clus_lo : Z;
  de_file_size : Z
}.

(** [entries[i]] of a buffer seen as an array of packed entries *)
Definition dirent (buf : list Z) (i : Z) : DirectoryEntry :=
  let o := 32 * i in
  mkDirectoryEntry (slice buf o 11) (rd buf (o + 11)) (rd buf (o + 12)) (rd buf (o + 13))
    (get16 buf (o + 14)) (get16 buf (o + 16)) (get16 buf (o + 18)) (get16 buf (o + 20))
    (get16 buf (o + 22)) (get16 buf (o + 24)) (get16 buf (o + 26)) (get32 buf (o + 28)).

(** [(fst_clus_hi << 16) | fst_clus_lo] *)
Definition first_cluster_of (e : DirectoryEntry) : Z :=
  u32 (Z.lor (Z.shiftl (de_fst_clus_hi e) 16) (de_fst_clus_lo e)).

Definition is_dir (e : DirectoryEntry) : bool := negb (Z.land (de_attr e) 16 =? 0).

Definition set_fst_clus (buf : list Z) (i cluster : Z) : list Z :=
  put16 (put16 buf (32 * i + 20) (Z.land (Z.shiftr cluster 16) 65535))
        (32 * i + 26) (Z.land cluster 65535).

(** the eleven bytes [memcpy(name, src, 11)] copies from a C string *)
Definition name11 (name : list Z) : list Z := (fun k => cch name (Z.of_nat k)) <$> seq 0 11.

(** the entry AddDirectoryEntry builds in slot [i] *)
Definition put_entry (buf : list Z) (i : Z) (name : list Z) (start_cluster size attr : Z) : list Z :=
  let buf := splice buf (32 * i) (replicate 32 0) in
  let buf := splice buf (32 * i) (name11 name) in
  let buf := upd buf (32 * i + 11) attr in
  let buf := set_fst_clus buf i start_cluster in
  put32 buf (32 * i + 28) size.

(** [dir[i].name[0]], as an unsigned character *)
Definition name0 (buf : list Z) (i : Z) : Z := rd buf (32 * i).

(** The first of [n] entries that is free: AddDirectoryEntry *)
Definition find_slot (buf : list Z) (n : nat) : option Z :=
  for_return n 0 (fun i =>
    if (name0 buf i =? 0) || (name0 buf i =? 229) then Some i else None).

(** The scan for a name that FindDirectoryEntry, DeleteFile and AppendFile share:
    the end mark, the entry's index, or neither in this cluster *)
Inductive Scan := ScanEnd | ScanFound (i : Z) | ScanNone.

Definition scan_entries (name : list Z) (buf : list Z) (num_entries : Z) : Scan :=
  match for_return (Z.to_nat num_entries) 0 (fun i =>
          if name0 buf i =? 0 then Some ScanEnd
          else if name0 buf i =? 229 then None
          else if de_attr (dirent buf i) =? 15 then None
          else if IsNameEqual (de_name (dirent buf i)) name then Some (ScanFound i)
          else None)
  with
  | Some r => r
  | None => ScanNone
  end.

(** ** Paths *)

(** [while ( *p && *p != '/' && i < 15) segment[i++] = *p++;]: the segment and
    what is left of the path *)
Fixpoint next_segment (p : list Z) (i : Z) : list Z * list Z :=
  match p with
  | [] => ([], [])
  | c :: t =>
      if negb (c =? kSlash) && (i <? 15)
      then let '(s, rest) := next_segment t (i + 1) in (c :: s, rest)
      else ([], p)
  end.

(** [if ( *p == '/') p++;] *)
Definition skip_slash (p : list Z) : list Z :=
  match p with
  | c :: t => if c =? kSlash then t else p
  | [] => []
  end.

(** The name ListDirectory prints: blanks dropped, a dot before the extension of
    what is not a directory *)
Definition not_blank (c : Z) : bool := negb (c =? kBlank).

Definition display_name (e : DirectoryEntry) : list Z :=
  filter not_blank (slice (de_name e) 0 8)
  ++ (if negb (is_dir e) && not_blank (rd (de_name e) 8)
      then kDot :: filter not_blank (slice (de_name e) 8 3) else []).

(** ** What the 8.3 conversions compute *)

(** reference definition: the name before and after its first dot, in upper case,
    cut or blank padded to eight and three characters *)
Fixpoint before_dot (s : list Z) : list Z :=
  match s with
  | [] => []
  | c :: t => if c =? kDot then [] else c :: before_dot t
  end.

Fixpoint after_dot (s : list Z) : list Z :=
  match s with
  | [] => []
  | c :: t => if c =? kDot then t else after_dot t
  end.

Definition pad (n : nat) (s : list Z) : list Z := take n ((upper <$> s) ++ replicate n kBlank).
Definition spec83 (s : list Z) : list Z := pad 8 (before_dot s) ++ pad 3 (after_dot s).

Lemma to83_skip_dot s : to83_skip s = match to83_skip s with [] => [] | _ :: _ => kDot :: after_dot s end.
Proof.
  induction s as [|c t IH]; cbn [to83_skip after_dot]; [done|].
  destruct (Z.eqb_spec c kDot) as [->|]; cbn [negb]; [done|exact IH].
Qed.

Lemma to83_skip_nil s : to83_skip s = [] -> after_dot s = [].
Proof.
  induction s as [|c t IH]; cbn [to83_skip after_dot]; [done|].
  by destruct (Z.eqb_spec c kDot); cbn [negb].
Qed.

Lemma convert_base_spec s : forall j conv, 0 <= j <= 8 -> zlen conv = 11 ->
  convert_base s j conv
  = (to83_skip s, splice conv j (upper <$> take (Z.to_nat (8 - j)) (before_dot s))).
Proof.
  induction s as [|c t IH]; intros j conv Hj Hl; cbn [convert_base before_dot to83_skip].
  { by rewrite take_nil, splice_nil. }
  destruct (Z.eqb_spec c kDot); cbn [negb]; [by rewrite take_nil, splice_nil|].
  destruct (Z.ltb_spec j 8).
  - rewrite IH by (rewrite ?zlen_upd; lia).
    replace (Z.to_nat (8 - j)) with (S (Z.to_nat (8 - (j + 1)))) by lia.
    cbn [take fmap list_fmap]. by rewrite splice_cons by lia.
  - rewrite IH by lia. by replace (Z.to_nat (8 - j)) with 0%nat by lia.
Qed.

Lemma convert_ext_spec s : forall j conv, 8 <= j <= 11 -> zlen conv = 11 ->
  convert_ext s j conv = splice conv j (upper <$> take (Z.to_nat (11 - j)) s).
Proof.
  induction s as [|c t IH]; intros j conv Hj Hl; cbn [convert_ext].
  { by rewrite take_nil, splice_nil. }
  destruct (Z.ltb_spec j 11).
  - rewrite IH by (rewrite ?zlen_upd; lia).
    replace (Z.to_nat (11 - j)) with (S (Z.to_nat (11 - (j + 1)))) by lia.
    cbn [take fmap list_fmap]. by rewrite splice_cons by lia.
  - rewrite IH by lia. by replace (Z.to_nat (11 - j)) with 0%nat by lia.
Qed.

Lemma to83_ext_eq s : forall j conv, to83_ext s j conv = convert_ext s j conv.
Proof.
  induction s as [|c t IH]; intros j conv; cbn [to83_ext convert_ext]; [done|].
  destruct (Z.ltb_spec j 11); [done|]. clear IH. revert conv.
  induction t as [|c' t IH]; intros conv; cbn [convert_ext]; [done|].
  by rewrite (proj2 (Z.ltb_ge j 11)) by lia.
Qed.

Lemma to83_base_eq s : forall j dst, 0 <= j <= 8 ->
  let '(rest, dst') := to83_base s j dst in
  convert_base s j dst = (to83_skip rest, dst') /\ to83_skip rest = to83_skip s.
Proof.
  assert (Hfull : forall t dst, convert_base t 8 dst = (to83_skip t, dst)).
  { induction t as [|c t IH]; intros dst; cbn [convert_base to83_skip]; [done|].
    destruct (Z.eqb_spec c kDot); cbn [negb]; [done|apply IH]. }
  induction s as [|c t IH]; intros j dst Hj; cbn [to83_base convert_base]; [done|].
  destruct (Z.eqb_spec c kDot) as [->|Hne]; cbn [negb andb].
  { cbn [to83_skip]. by rewrite Z.eqb_refl. }
  destruct (Z.ltb_spec j 8); cbn [to83_skip].
  - specialize (IH (j + 1) (upd dst j (upper c)) ltac:(lia)).
    destruct (to83_base t (j + 1) (upd dst j (upper c))) as [rest dst'].
    rewrite (proj2 (Z.eqb_neq c kDot)) by done. done.
  - rewrite (proj2 (Z.eqb_neq c kDot)) by done. cbn [negb].
    replace j with 8 by lia. by rewrite Hfull.
Qed.

Lemma splice_blank n (b : list Z) :
  (length b <= n)%nat -> b ++ replicate (n - length b) kBlank = take n (b ++ replicate n kBlank).
Proof.
  intros Hb. rewrite take_app_ge by done. f_equal. rewrite take_replicate. f_equal. lia.
Qed.

Lemma pad_take n s : pad n s = (upper <$> take n s) ++ replicate (n - length (take n s)) kBlank.
Proof.
  unfold pad. rewrite fmap_take. destruct (decide (n <= length s)%nat).
  - rewrite take_app_le by (rewrite length_fmap; lia).
    rewrite length_take, Nat.min_l, Nat.sub_diag by lia. cbn [replicate]. by rewrite app_nil_r.
  - rewrite (take_ge (upper <$> s)) by (rewrite length_fmap; lia).
    rewrite (take_ge s) by lia. rewrite <- (length_fmap upper s).
    rewrite splice_blank; [done|rewrite length_fmap; lia].
Qed.

Lemma length_pad n s : length (pad n s) = n.
Proof. unfold pad. rewrite length_take, length_app, length_replicate. lia. Qed.

(** a base of eight and an extension of three, spliced into the blank name *)
Lemma splice_pads b e :
  splice (splice blank11 0 (upper <$> take 8 b)) 8 (upper <$> take 3 e) = pad 8 b ++ pad 3 e.
Proof.
  assert (H8 : splice blank11 0 (upper <$> take 8 b) = pad 8 b ++ replicate 3 kBlank).
  { rewrite splice_0. unfold blank11. rewrite length_fmap, drop_replicate, pad_take, <- app_assoc.
    f_equal. rewrite <- replicate_add. f_equal. rewrite length_take. lia. }
  rewrite H8. unfold splice. rewrite length_fmap. change (Z.to_nat 8) with 8%nat.
  rewrite take_app_le, take_ge by (rewrite length_pad; lia). f_equal.
  rewrite drop_app_ge by (rewrite length_pad; lia). rewrite length_pad, drop_replicate, pad_take.
  f_equal. f_equal. lia.
Qed.

Lemma convert_dotted_spec s : convert_dotted s = spec83 s.
Proof.
  unfold convert_dotted, spec83. rewrite convert_base_spec by done.
  destruct (to83_skip s) as [|c ext] eqn:Hs.
  - rewrite (to83_skip_nil _ Hs), <- splice_pads. cbn [take fmap list_fmap].
    by rewrite splice_nil.
  - pose proof (to83_skip_dot s) as Hd. rewrite Hs in Hd. injection Hd as -> ->.
    rewrite Z.eqb_refl, convert_ext_spec; [apply splice_pads|lia|].
    rewrite zlen_splice; [done|lia|]. unfold zlen. rewrite length_fmap, length_take. cbn. lia.
Qed.

Lemma To83Format_dotted s : To83Format s = convert_dotted s.
Proof.
  unfold To83Format, convert_dotted.
  pose proof (to83_base_eq s 0 blank11 ltac:(lia)) as Hb.
  destruct (to83_base s 0 blank11) as [rest dst]. destruct Hb as [-> _].
  destruct (to83_skip rest) as [|c ext]; [done|]. destruct (c =? kDot); [apply to83_ext_eq|done].
Qed.

Lemma converted_spec s : converted s = if is_83 s then upper <$> s else spec83 s.
Proof.
  unfold converted. destruct (is_83 s) eqn:H83; [|apply convert_dotted_spec].
  unfold is_83 in H83. apply andb_true_iff in H83 as [Hlen _]. apply Z.eqb_eq in Hlen.
  unfold strlen, zlen in Hlen.
  do 11 (destruct s as [|? s]; [cbn in Hlen; lia|]). destruct s; [|cbn in Hlen; lia].
  reflexivity.
Qed.

Lemma zlen_converted s : zlen (converted s) = 11.
Proof.
  rewrite converted_spec. destruct (is_83 s) eqn:H83.
  - apply andb_true_iff in H83 as [Hlen _]. apply Z.eqb_eq in Hlen.
    unfold zlen. rewrite length_fmap. exact Hlen.
  - unfold spec83, zlen. by rewrite length_app, !length_pad.
Qed.

Lemma IsNameEqual_iff entry name :
  zlen entry = 11 -> IsNameEqual entry name = true <-> entry = converted name.
Proof.
  intros Hl. unfold IsNameEqual. destruct (for_return _ _ _) as [r|] eqn:Hf.
  - apply for_return_Some in Hf as (k & Hk & Hb & _).
    destruct (Z.eqb_spec (rd entry k) (rd (converted name) k)); [done|]. injection Hb as <-.
    split; [done|]. congruence.
  - split; [intros _|done]. apply buf_ext; [by rewrite zlen_converted|]. intros i Hi.
    pose proof (proj1 (for_return_None _ _ _) Hf i ltac:(lia)) as Hb. cbn beta in Hb.
    destruct (Z.eqb_spec (rd entry i) (rd (converted name) i)); done.
Qed.

(** To83Format gives the base before the first dot and the extension after it,
    in upper case, cut or blank padded to eight and to three characters. *)
Theorem To83Format_spec s : To83Format s = spec83 s.
Proof. rewrite To83Format_dotted. apply convert_dotted_spec. Qed.

(** an entry is found under exactly the names whose 8.3 form it holds: the name
    itself in upper case when it has eleven characters and no dot, what To83Format
    gives otherwise. *)
Theorem IsNameEqual_spec entry name :
  zlen entry = 11 ->
  IsNameEqual entry name = true
  <-> entry = if is_83 name then upper <$> name else To83Format name.
Proof.
  intros Hl. rewrite IsNameEqual_iff by done. rewrite converted_spec, To83Format_dotted.
  by rewrite convert_dotted_spec.
Qed.

Lemma IsNameEqual_spec_witness :
  IsNameEqual (To83Format (c_lit "kernel.elf")) (c_lit "kernel.elf") = true.
Proof.
  refine (proj2 (IsNameEqual_spec (To83Format (c_lit "kernel.elf")) (c_lit "kernel.elf") _) _);
    vm_compute; reflexivity.
Defined.

(** the name CopyFileFrom and EnsureDirectory store for a path component of
    eleven characters without a dot is not found again under that component,
    unless its last three characters are blanks. *)
Theorem eleven_characters_lost name :
  is_83 name = true -> slice name 8 3 <> replicate 3 kBlank -> is_cstr name ->
  IsNameEqual (To83Format name) name = false.
Proof.
  intros H83 Hne Hcs. apply not_true_is_false. intros Heq.
  apply IsNameEqual_iff in Heq; cycle 1.
  { rewrite To83Format_dotted, convert_dotted_spec.
    unfold spec83, zlen. by rewrite length_app, !length_pad. }
  rewrite converted_spec, H83, To83Format_dotted, convert_dotted_spec in Heq. apply Hne.
  apply andb_true_iff in H83 as [Hlen Hdot]. apply Z.eqb_eq in Hlen. apply negb_true_iff in Hdot.
  unfold strlen, zlen in Hlen.
  assert (Ha : after_dot name = []).
  { clear -Hdot. induction name as [|c t IH]; [done|]. cbn [existsb after_dot] in *.
    apply orb_false_iff in Hdot as [Hc Ht]. rewrite Z.eqb_sym, Hc. by apply IH. }
  unfold spec83 in Heq. rewrite Ha in Heq.
  assert (Hd : drop 8 (upper <$> name) = replicate 3 kBlank).
  { rewrite <- Heq. rewrite drop_app_ge by (rewrite length_pad; lia). by rewrite length_pad. }
  rewrite <- fmap_drop in Hd. unfold slice.
  assert (Hu : forall c, upper c = kBlank -> c = kBlank).
  { intros c. unfold upper, kBlank. zcases; cbn [andb]; lia. }
  change (Z.to_nat 8) with 8%nat. change (Z.to_nat 3) with 3%nat.
  rewrite take_ge by (rewrite length_drop; lia).
  remember (drop 8 name) as l. clear -Hd Hu.
  destruct l as [|a [|b [|c [|? ?]]]]; try done. cbn in Hd. injection Hd as Ha Hb Hc.
  by rewrite (Hu a Ha), (Hu b Hb), (Hu c Hc).
Qed.

Lemma eleven_characters_lost_witness :
  IsNameEqual (To83Format (c_lit "screenshots")) (c_lit "screenshots") = false.
Proof.
  refine (eleven_characters_lost (c_lit "screenshots") _ _ _); [vm_compute; reflexivity|..].
  - vm_compute. discriminate.
  - apply (bool_decide_unpack _). vm_compute. exact I.
Defined.

(** ** The entry AddDirectoryEntry writes, read back *)

Lemma zlen_name11 name : zlen (name11 name) = 11.
Proof. unfold zlen, name11. by rewrite length_fmap, length_seq. Qed.

Lemma zlen_put16 l off v : 0 <= off -> off + 2 <= zlen l -> zlen (put16 l off v) = zlen l.
Proof. intros. apply zlen_splice; rewrite ?zlen_le_bytes; lia. Qed.

Lemma name11_bytes name : is_cstr name -> Forall is_byte (name11 name).
Proof.
  intros Hn. apply Forall_fmap, Forall_forall. intros k _. cbn. unfold cch, is_byte.
  destruct (decide (Z.of_nat k < zlen name)).
  - pose proof (cch_nonzero name (Z.of_nat k) Hn ltac:(lia)). unfold cch in *. lia.
  - pose proof (cch_end name (Z.of_nat k) ltac:(lia)). unfold cch in *. lia.
Qed.

(** writing inside a block that has just been written *)
Lemma splice_splice (l A B : list Z) o k :
  0 <= o -> 0 <= k -> k + zlen B <= zlen A -> o + zlen A <= zlen l ->
  splice (splice l o A) (o + k) B = splice l o (splice A k B).
Proof.
  intros Ho Hk HB HA. pose proof (zlen_nonneg B).
  assert (HsA : zlen (splice A k B) = zlen A) by (apply zlen_splice; lia).
  apply buf_ext; rewrite !zlen_splice; rewrite ?zlen_splice, ?HsA; try lia.
  intros j Hj. rewrite (rd_splice (splice l o A)), (rd_splice l o A), (rd_splice l o (splice A k B))
    by (rewrite ?zlen_splice, ?HsA; lia).
  rewrite HsA. destruct (Z.leb_spec o j), (Z.ltb_spec j (o + zlen A)); cbn [andb].
  - rewrite rd_splice by lia. zcases; cbn [andb]; try lia; [f_equal; lia|done..].
  - zcases; cbn [andb]; done || lia.
  - zcases; cbn [andb]; done || lia.
  - zcases; cbn [andb]; done || lia.
Qed.

Lemma upd_splice (l A : list Z) o k v :
  0 <= o -> 0 <= k < zlen A -> o + zlen A <= zlen l ->
  upd (splice l o A) (o + k) v = splice l o (upd A k v).
Proof.
  intros Ho Hk HA.
  apply buf_ext; [rewrite !zlen_upd, !zlen_splice; rewrite ?zlen_upd; lia|].
  rewrite zlen_upd, zlen_splice by lia. intros j Hj.
  rewrite rd_upd, !rd_splice; rewrite ?zlen_splice, ?zlen_upd; try lia.
  zcases; cbn [andb]; try lia; try done; rewrite ?rd_upd by lia; zcases; try done; lia.
Qed.

(** the 32 bytes of an entry, and the entry in slot [i] of a buffer *)
Definition entry_bytes (name : list Z) (start size attr : Z) : list Z :=
  put_entry (replicate 32 0) 0 name start size attr.
Definition slot (buf : list Z) (i : Z) : list Z := slice buf (32 * i) 32.

Lemma put_entry_splice buf i name start size attr :
  0 <= i -> 32 * i + 32 <= zlen buf ->
  put_entry buf i name start size attr = splice buf (32 * i) (entry_bytes name start size attr).
Proof.
  intros Hi Hl. unfold entry_bytes, put_entry, set_fst_clus, put16, put32.
  pose proof (zlen_name11 name) as H11.
  assert (H32 : zlen (replicate 32 0) = 32) by done.
  change (32 * 0) with 0. rewrite !Z.add_0_l.
  replace (splice (replicate 32 0) 0 (replicate 32 0)) with (replicate 32 0) by done.
  pose proof (splice_splice buf (replicate 32 0) (name11 name) (32 * i) 0) as Hn.
  rewrite Z.add_0_r in Hn. rewrite Hn by lia.
  set (A0 := splice (replicate 32 0) 0 (name11 name)).
  assert (HA0 : zlen A0 = 32) by (subst A0; rewrite zlen_splice; lia).
  rewrite upd_splice by lia.
  set (A1 := upd A0 11 attr). assert (HA1 : zlen A1 = 32) by (subst A1; by rewrite zlen_upd).
  rewrite splice_splice by (rewrite ?zlen_le_bytes; lia).
  set (A2 := splice A1 20 _).
  assert (HA2 : zlen A2 = 32) by (subst A2; rewrite zlen_splice; rewrite ?zlen_le_bytes; lia).
  rewrite splice_splice by (rewrite ?zlen_le_bytes; lia).
  set (A3 := splice A2 26 _).
  assert (HA3 : zlen A3 = 32) by (subst A3; rewrite zlen_splice; rewrite ?zlen_le_bytes; lia).
  by rewrite splice_splice by (rewrite ?zlen_le_bytes; lia).
Qed.

Lemma zlen_entry_bytes name start size attr : zlen (entry_bytes name start size attr) = 32.
Proof. reflexivity. Qed.

(** an entry is what its slot holds *)
Lemma dirent_slot buf i :
  0 <= i -> 32 * i + 32 <= zlen buf -> dirent buf i = dirent (slot buf i) 0.
Proof.
  intros Hi Hl. unfold dirent, slot, get16, get32. cbn [Z.mul].
  assert (Hs : forall o n, 0 <= o -> 0 <= n -> o + n <= 32 ->
             slice (slice buf (32 * i) 32) (0 + o) n = slice buf (32 * i + o) n).
  { intros o n Ho Hn Hon. apply buf_ext; rewrite !zlen_slice; rewrite ?zlen_slice; try lia.
    intros j Hj. rewrite !rd_slice by lia. f_equal. lia. }
  f_equal; try (f_equal; symmetry; apply Hs; lia); try (symmetry; rewrite rd_slice by lia; f_equal; lia).
  rewrite <- (Z.add_0_r (32 * i)) at 1. symmetry. apply (Hs 0 11); lia.
Qed.

Lemma name0_slot buf i : 0 <= i -> name0 buf i = rd (slot buf i) 0.
Proof. intros Hi. unfold name0, slot. rewrite rd_slice by lia. f_equal. lia. Qed.

Lemma slot_put_entry buf i j name start size attr :
  0 <= i -> 0 <= j -> 32 * i + 32 <= zlen buf -> 32 * j + 32 <= zlen buf ->
  slot (put_entry buf i name start size attr) j
  = if j =? i then entry_bytes name start size attr else slot buf j.
Proof.
  intros Hi Hj Hli Hlj. rewrite put_entry_splice by done. unfold slot.
  destruct (Z.eqb_spec j i) as [->|Hne].
  - apply (slice_splice_same buf (32 * i) (entry_bytes name start size attr));
      rewrite ?zlen_entry_bytes; lia.
  - apply slice_splice_other; rewrite ?zlen_entry_bytes; lia.
Qed.

Lemma land_65535 v : Z.land v 65535 = v mod 65536.
Proof. change 65535 with (Z.ones 16). by rewrite Z.land_ones by lia. Qed.

(** the bytes AddDirectoryEntry writes decode to the entry it means *)
Lemma dirent_entry_bytes name start size attr :
  is_u32 start -> is_u32 size ->
  let e := dirent (entry_bytes name start size attr) 0 in
  de_name e = name11 name /\ de_attr e = attr /\ de_file_size e = size
  /\ first_cluster_of e = start.
Proof.
  unfold is_u32. intros Hs Hz. set (e := dirent _ 0).
  assert (Hsz : de_file_size e = le_val (le_bytes 4 size)) by reflexivity.
  assert (Hhi : de_fst_clus_hi e = le_val (le_bytes 2 (Z.land (Z.shiftr start 16) 65535))) by reflexivity.
  assert (Hlo : de_fst_clus_lo e = le_val (le_bytes 2 (Z.land start 65535))) by reflexivity.
  split_and!; [reflexivity|reflexivity|rewrite Hsz; apply le_val_bytes; cbn; lia|].
  unfold first_cluster_of. rewrite Hhi, Hlo, !land_65535, Z.shiftr_div_pow2 by lia.
  rewrite !le_val_bytes by (apply Z.mod_pos_bound; lia).
  change (2 ^ 16) with 65536. rewrite (Z.mod_small (start / 65536)) by zlia.
  assert (Hor : Z.lor (Z.shiftl (start / 65536) 16) (start mod 65536) = start).
  { rewrite <- Z.add_nocarry_lor.
    - rewrite Z.shiftl_mul_pow2 by lia. zlia.
    - apply Z.bits_inj'. intros n Hn. rewrite Z.land_spec, Z.bits_0.
      destruct (Z.ltb_spec n 16).
      + by rewrite Z.shiftl_spec_low.
      + change 65536 with (2 ^ 16). by rewrite Z.mod_pow2_bits_high, andb_false_r by lia. }
  rewrite Hor. by apply u32_small.
Qed.

Lemma entry_bytes_ok name start size attr :
  is_cstr name -> is_byte attr -> Forall is_byte (entry_bytes name start size attr).
Proof.
  intros Hn Ha. unfold entry_bytes, put_entry, set_fst_clus.
  apply put32_bytes. unfold put16. apply Forall_splice; [|apply le_bytes_range].
  apply Forall_splice; [|apply le_bytes_range]. apply Forall_upd; [|done].
  apply Forall_splice; [|by apply name11_bytes].
  apply Forall_splice; apply Forall_replicate; unfold is_byte; lia.
Qed.

(** ** Scanning after an entry was added *)

(** what the scan makes of one slot *)
Definition scan_slot (name : list Z) (sl : list Z) (i : Z) : option Scan :=
  if rd sl 0 =? 0 then Some ScanEnd
  else if rd sl 0 =? 229 then None
  else if de_attr (dirent sl 0) =? 15 then None
  else if IsNameEqual (de_name (dirent sl 0)) name then Some (ScanFound i)
  else None.

Definition slot_free (sl : list Z) : bool := (rd sl 0 =? 0) || (rd sl 0 =? 229).

Lemma scan_entries_slots name buf n :
  32 * n <= zlen buf ->
  scan_entries name buf n
  = default ScanNone (for_return (Z.to_nat n) 0 (fun i => scan_slot name (slot buf i) i)).
Proof.
  intros Hl. unfold scan_entries.
  assert (Heq : forall m k, 0 <= k -> k + Z.of_nat m <= Z.max n 0 ->
    for_return m k (fun i =>
      if name0 buf i =? 0 then Some ScanEnd else if name0 buf i =? 229 then None
      else if de_attr (dirent buf i) =? 15 then None
      else if IsNameEqual (de_name (dirent buf i)) name then Some (ScanFound i) else None)
    = for_return m k (fun i => scan_slot name (slot buf i) i)).
  { induction m as [|m IH]; intros k Hk Hm; cbn [for_return]; [done|].
    unfold scan_slot. rewrite name0_slot, dirent_slot, IH by lia. done. }
  rewrite Heq by lia. by destruct (for_return _ _ _).
Qed.

Lemma scan_slot_used name sl i :
  slot_free sl = false -> scan_slot name sl i = None \/ scan_slot name sl i = Some (ScanFound i).
Proof.
  unfold slot_free, scan_slot. intros Hf. apply orb_false_iff in Hf as [-> ->].
  repeat case_match; auto.
Qed.

(** a name that was not found is found in the first free slot once it is put there *)
Lemma scan_added name buf buf' n i e :
  32 * n <= zlen buf -> zlen buf' = zlen buf -> 0 <= i < n ->
  (forall j, 0 <= j < n -> slot buf' j = if j =? i then e else slot buf j) ->
  (forall j, 0 <= j < i -> slot_free (slot buf j) = false) ->
  (forall k, scan_entries name buf n <> ScanFound k) ->
  scan_slot name e i = Some (ScanFound i) ->
  scan_entries name buf' n = ScanFound i.
Proof.
  intros Hl Hl' Hi Hslot Hused Hno He. rewrite scan_entries_slots in Hno |- * by lia.
  rewrite (proj2 (for_return_Some _ _ _ (ScanFound i))); [done|].
  exists i. rewrite Hslot, Z.eqb_refl by lia. split_and!; [lia|lia|done|].
  intros j Hj. rewrite Hslot, (proj2 (Z.eqb_neq j i)) by lia.
  destruct (scan_slot_used name (slot buf j) j (Hused j ltac:(lia))) as [|Hf]; [done|].
  exfalso. destruct (for_return _ 0 (fun k => scan_slot name (slot buf k) k)) as [r|] eqn:Hr.
  - apply for_return_Some in Hr as (k & Hk & Hb & Hlt). apply (Hno k). cbn.
    assert (Hkj : k <= j). { destruct (Z.le_gt_cases k j); [done|]. rewrite Hlt in Hf by lia. done. }
    destruct (scan_slot_used name (slot buf k) k (Hused k ltac:(lia))); congruence.
  - rewrite (proj1 (for_return_None _ _ _) Hr j) in Hf by lia. done.
Qed.
