(* ===== verification/Fat32.v ===== *)
(** * The FAT32 driver (fs/fat32/fat32_driver.cpp)

    Every operation of FAT32Driver, in the monad of Device.v: each buffer is taken
    from the frame allocator and given back where the code does it, and each sector
    read or written is one device operation.  Loops over cluster chains take the
    number of iterations allowed as [fuel]; Fat32Table.v and Fat32Files.v show how
    much is enough. *)
From S2P Require Import Prelude Memory CStr Device Fat32Names.

Record FAT32Driver := mkFAT32Driver {
  part_lba_ : Z;
  sec_per_clus_ : Z;
  reserved_sectors_ : Z;
  num_fats_ : Z;
  fat_sz32_ : Z;
  root_clus_ : Z;
  fat_start_lba_ : Z;
  data_start_lba_ : Z
}.

Definition EOCC : Z := 268435455.       (* 0x0FFFFFFF *)
Definition kChainEnd : Z := 268435448.  (* 0x0FFFFFF8 *)

(** [cluster >= 2 && cluster < 0x0FFFFFF8] *)
Definition in_chain (cluster : Z) : bool := (2 <=? cluster) && (cluster <? kChainEnd).

Definition cluster_bytes (drv : FAT32Driver) : Z := u32 (sec_per_clus_ drv * 512).
Definition num_entries (drv : FAT32Driver) : Z := cluster_bytes drv / 32.

Definition ClusterToLBA (drv : FAT32Driver) (cluster : Z) : Z :=
  u64 (data_start_lba_ drv + u32 (cluster - 2) * sec_per_clus_ drv).

(** [(parent_cluster == 0) ? root_clus_ : parent_cluster] *)
Definition or_root (drv : FAT32Driver) (cluster : Z) : Z :=
  if cluster =? 0 then root_clus_ drv else cluster.

Section Driver.
Context {D M : Type} `{BlockDevice D} `{FrameAllocator M}.
Implicit Types drv : FAT32Driver.
Implicit Types name path data buffer buf : list Z.
Local Abbreviation FS := (FS D M).

(** The constructor and Initialize: the geometry from the BIOS parameter block *)
Definition Initialize (partition_lba : Z) : FS FAT32Driver :=
  buf <- Buffer 512 4096 ;;
  let* (_, bpb) := Read partition_lba 1 in
  kprintf "[FAT32 DEBUG] Read BPB from LBA %lld\n" [KInt partition_lba] ;;
  kprintf "[FAT32 DEBUG] Signature: %x (Expect 0xAA55)\n" [KInt (get16 bpb 510)] ;;
  kprintf "[FAT32 DEBUG] SecPerClus: %d\n" [KInt (rd bpb 13)] ;;
  kprintf "[FAT32 DEBUG] ResSectors: %d\n" [KInt (get16 bpb 14)] ;;
  let sec_per_clus := rd bpb 13 in
  let reserved_sectors := get16 bpb 14 in
  let num_fats := rd bpb 16 in
  let fat_sz32 := get32 bpb 36 in
  let root_clus := get32 bpb 44 in
  let fat_start_lba := u64 (partition_lba + reserved_sectors) in
  let data_start_lba := u64 (fat_start_lba + u32 (num_fats * fat_sz32)) in
  kprintf "[FAT32] Driver Initialized. ClusterSize=%d sectors\n" [KInt sec_per_clus] ;;
  Free_ buf 512 ;;
  fs_ret (mkFAT32Driver partition_lba sec_per_clus reserved_sectors num_fats fat_sz32
            root_clus fat_start_lba data_start_lba).

(** ** The file allocation table *)

(** the entry [i] of a FAT sector *)
Definition fat_entry (sec : list Z) (i : Z) : Z := get32 sec (4 * i).

Definition find_free_entry (sec : list Z) : option Z :=
  for_return 126 2 (fun i => if fat_entry sec i =? 0 then Some i else None).

Definition AllocateCluster drv : FS Z :=
  buf <- Buffer 512 4096 ;;
  let* (_, entries) := Read (fat_start_lba_ drv) 1 in
  match find_free_entry entries with
  | Some i =>
      let entries := put32 entries (4 * i) EOCC in
      Write (fat_start_lba_ drv) entries 1 ;;
      Write (u64 (fat_start_lba_ drv + fat_sz32_ drv)) entries 1 ;;
      Free_ buf 512 ;;
      fs_ret i
  | None =>
      Free_ buf 512 ;;
      kprintf "[FAT32] No free clusters found in first FAT sector!\n" [] ;;
      fs_ret 0
  end.

Definition LinkCluster drv (current next : Z) : FS unit :=
  let sector_offset := current / 128 in
  let entry_offset := current mod 128 in
  let target_lba := u64 (fat_start_lba_ drv + sector_offset) in
  buf <- Buffer 512 4096 ;;
  let* (_, entries) := Read target_lba 1 in
  let entries := put32 entries (4 * entry_offset) next in
  Write target_lba entries 1 ;;
  Write (u64 (target_lba + fat_sz32_ drv)) entries 1 ;;
  Free_ buf 512.

Definition GetNextCluster drv (current_cluster : Z) : FS Z :=
  let sector_offset := current_cluster / 128 in
  let entry_offset := current_cluster mod 128 in
  let target_lba := u64 (fat_start_lba_ drv + sector_offset) in
  buf <- Buffer 512 4096 ;;
  let* (_, entries) := Read target_lba 1 in
  let next := Z.land (fat_entry entries entry_offset) EOCC in
  Free_ buf 512 ;;
  fs_ret next.

Fixpoint FreeChain (fuel : nat) drv (current : Z) : FS unit :=
  if in_chain current then
    match fuel with
    | O => fun _ => OutOfFuel
    | S f =>
        next <- GetNextCluster drv current ;;
        LinkCluster drv current 0 ;;
        FreeChain f drv next
    end
  else fs_ret tt.

(** ** Directory entries on disk *)

(** the sectors of the parent's first cluster, from sector [s] on; the result says
    whether a slot was found and written *)
Fixpoint add_entry_loop (n : nat) (s lba : Z) name (start_cluster size attr : Z) : FS bool :=
  match n with
  | O => fs_ret false
  | S n' =>
      let* (_, buf) := Read (u64 (lba + s)) 1 in
      match find_slot buf 16 with
      | Some i =>
          Write (u64 (lba + s)) (put_entry buf i name start_cluster size attr) 1 ;;
          fs_ret true
      | None => add_entry_loop n' (s + 1) lba name start_cluster size attr
      end
  end.

Definition AddDirectoryEntry drv name (start_cluster size attr parent_cluster : Z) : FS unit :=
  let target_cluster := or_root drv parent_cluster in
  let lba := ClusterToLBA drv target_cluster in
  buf <- Buffer 512 4096 ;;
  added <- add_entry_loop (Z.to_nat (sec_per_clus_ drv)) 0 lba name start_cluster size attr ;;
  Free_ buf 512 ;;
  if (added : bool) then fs_ret tt else kprintf "[FAT32] Directory full!\n" [].

(** The loop over the directory's clusters; [n] is what [loop_safety] leaves *)
Fixpoint find_entry_loop (n : nat) drv name (buf current_cluster : Z)
    : FS (option DirectoryEntry) :=
  if in_chain current_cluster then
    match n with
    | O =>
        kprintf "[FAT32] Error: Directory cluster chain too long or loop detected.\n" [] ;;
        Free_ buf (cluster_bytes drv) ;;
        fs_ret None
    | S n' =>
        let lba := ClusterToLBA drv current_cluster in
        let* (ok, entries) := Read lba (sec_per_clus_ drv) in
        if negb ok then
          kprintf "[FAT32] Disk Read Error at LBA %lld\n" [KInt lba] ;;
          Free_ buf (cluster_bytes drv) ;;
          fs_ret None
        else
          match scan_entries name entries (num_entries drv) with
          | ScanEnd => Free_ buf (cluster_bytes drv) ;; fs_ret None
          | ScanFound i =>
              Free_ buf (cluster_bytes drv) ;; fs_ret (Some (dirent entries i))
          | ScanNone =>
              next <- GetNextCluster drv current_cluster ;;
              find_entry_loop n' drv name buf next
          end
    end
  else
    Free_ buf (cluster_bytes drv) ;; fs_ret None.

(** [loop_safety++ > 10000] lets 10001 iterations through *)
Definition kLoopSafety : nat := Z.to_nat 10001.

Definition FindDirectoryEntry drv name (parent_cluster : Z) : FS (option DirectoryEntry) :=
  let current_cluster := or_root drv parent_cluster in
  buf <- Buffer (cluster_bytes drv) 4096 ;;
  find_entry_loop kLoopSafety drv name buf current_cluster.

(** The first cluster of a new directory: "." and ".." *)
Definition dot_entries drv (new_cluster parent_ref : Z) : list Z :=
  let buf := replicate (Z.to_nat (cluster_bytes drv)) 0 in
  let buf := splice buf 0 (replicate 32 0) in
  let buf := splice buf 0 (c_lit ".          ") in
  let buf := upd buf 11 16 in
  let buf := set_fst_clus buf 0 new_cluster in
  let buf := splice buf 32 (replicate 32 0) in
  let buf := splice buf 32 (c_lit "..         ") in
  let buf := upd buf 43 16 in
  set_fst_clus buf 1 parent_ref.

(** the name is printed as in [WriteFile] *)
Definition CreateDirectory drv name (parent_cluster : Z) : FS Z :=
  kprintf "[FAT32] Creating Directory: %s...\n" [KStr name] ;;
  new_cluster <- AllocateCluster drv ;;
  if new_cluster =? 0 then fs_ret 0
  else
    let target_lba := ClusterToLBA drv new_cluster in
    buf <- Buffer (cluster_bytes drv) 4096 ;;
    let parent_ref := if parent_cluster =? 0 then 0 else parent_cluster in
    Write target_lba (dot_entries drv new_cluster parent_ref) (sec_per_clus_ drv) ;;
    Free_ buf (cluster_bytes drv) ;;
    LinkCluster drv new_cluster EOCC ;;
    AddDirectoryEntry drv name new_cluster 0 16 parent_cluster ;;
    fs_ret new_cluster.

(** [while ( *p)] of EnsureDirectory; a segment of the path is consumed by each
    iteration, so the path's length bounds them *)
Fixpoint ensure_loop (n : nat) drv path (current_cluster : Z) : FS Z :=
  match path, n with
  | [], _ => fs_ret current_cluster
  | _ :: _, O => fun _ => OutOfFuel
  | _ :: _, S n' =>
      let '(segment, rest) := next_segment path 0 in
      let rest := skip_slash rest in
      if strlen segment =? 0 then fs_ret current_cluster
      else
        found <- FindDirectoryEntry drv segment current_cluster ;;
        match found with
        | Some entry =>
            if is_dir entry then ensure_loop n' drv rest (first_cluster_of entry)
            else
              kprintf "[FAT32] Error: %s is a file, not a directory.\n" [KStr segment] ;;
              fs_ret 0
        | None =>
            new_cluster <- CreateDirectory drv (To83Format segment) current_cluster ;;
            if new_cluster =? 0 then fs_ret 0
            else ensure_loop n' drv rest new_cluster
        end
  end.

Definition EnsureDirectory drv path : FS Z :=
  ensure_loop (length path) drv (skip_slash path) (root_clus_ drv).

(** ** Path lookup *)

Fixpoint file_entry_loop (n : nat) drv path (current_cluster : Z)
    : FS (option DirectoryEntry) :=
  match path, n with
  | [], _ => fs_ret None
  | _ :: _, O => fun _ => OutOfFuel
  | _ :: _, S n' =>
      let '(name_buf, rest) := next_segment path 0 in
      found <- FindDirectoryEntry drv name_buf current_cluster ;;
      match found with
      | None => fs_ret None
      | Some entry =>
          match rest with
          | [] => fs_ret (Some entry)
          | _ :: _ =>
              if negb (is_dir entry) then fs_ret None
              else file_entry_loop n' drv (skip_slash rest)
                     (or_root drv (first_cluster_of entry))
          end
      end
  end.

Definition GetFileEntry drv path (base_cluster : Z) : FS (option DirectoryEntry) :=
  if cch path 0 =? kSlash
  then file_entry_loop (length path) drv (skip_slash path) (root_clus_ drv)
  else file_entry_loop (length path) drv path (or_root drv base_cluster).

Definition GetDirectoryCluster drv path (base_cluster : Z) : FS Z :=
  if strcmp path (c_lit "/") =? 0 then fs_ret (root_clus_ drv)
  else if (cch path 0 =? 0) || (strcmp path (c_lit ".") =? 0)
  then fs_ret (or_root drv base_cluster)
  else
    found <- GetFileEntry drv path base_cluster ;;
    match found with
    | Some entry =>
        if is_dir entry then fs_ret (or_root drv (first_cluster_of entry))
        else fs_ret 4294967295
    | None => fs_ret 4294967295
    end.

Definition GetFileSize drv path : FS Z :=
  found <- GetFileEntry drv path 0 ;;
  match found with
  | Some entry => fs_ret (de_file_size entry)
  | None => fs_ret 0
  end.

(** ** Listing *)

Definition list_entry (e : DirectoryEntry) : FS unit :=
  (if is_dir e then kprintf "DIR      " [] else kprintf "FILE     " []) ;;
  kprintf "%d " [KInt (de_file_size e)] ;;
  (if de_file_size e <? 1000000 then kprintf " " [] else fs_ret tt) ;;
  (if de_file_size e <? 1000 then kprintf "   " [] else fs_ret tt) ;;
  kprintf "%s\n" [KStr (display_name e)].

Fixpoint list_entries (n : nat) (i : Z) buf : FS unit :=
  match n with
  | O => fs_ret tt
  | S n' =>
      if name0 buf i =? 0 then fs_ret tt
      else if name0 buf i =? 229 then list_entries n' (i + 1) buf
      else if de_attr (dirent buf i) =? 15 then list_entries n' (i + 1) buf
      else list_entry (dirent buf i) ;; list_entries n' (i + 1) buf
  end.

Fixpoint list_loop (fuel : nat) drv (current_cluster : Z) : FS unit :=
  if current_cluster <? kChainEnd then
    match fuel with
    | O => fun _ => OutOfFuel
    | S f =>
        let* (_, buf) := Read (ClusterToLBA drv current_cluster) (sec_per_clus_ drv) in
        list_entries (Z.to_nat (num_entries drv)) 0 buf ;;
        next <- GetNextCluster drv current_cluster ;;
        list_loop f drv next
    end
  else fs_ret tt.

Definition ListDirectory (fuel : nat) drv (cluster : Z) : FS unit :=
  buf <- Buffer (cluster_bytes drv) 4096 ;;
  kprintf "Type     Size       Name\n" [] ;;
  kprintf "----     ----       ----\n" [] ;;
  list_loop fuel drv (or_root drv cluster) ;;
  Free_ buf (cluster_bytes drv).

(** ** Deleting *)

Fixpoint delete_loop (fuel : nat) drv name (buf current_cluster : Z) : FS bool :=
  if current_cluster <? kChainEnd then
    match fuel with
    | O => fun _ => OutOfFuel
    | S f =>
        let lba := ClusterToLBA drv current_cluster in
        let* (_, entries) := Read lba (sec_per_clus_ drv) in
        match scan_entries name entries (num_entries drv) with
        | ScanFound i =>
            let fst_clus := first_cluster_of (dirent entries i) in
            (if negb (fst_clus =? 0) then FreeChain f drv fst_clus else fs_ret tt) ;;
            let entries := upd entries (32 * i) 229 in
            let sector_offset := i / 16 in
            Write (u64 (lba + sector_offset)) (slice entries (sector_offset * 512) 512) 1 ;;
            kprintf "[FAT32] File deleted.\n" [] ;;
            Free_ buf (cluster_bytes drv) ;;
            fs_ret true
        | _ =>
            next <- GetNextCluster drv current_cluster ;;
            delete_loop f drv name buf next
        end
    end
  else
    Free_ buf (cluster_bytes drv) ;;
    kprintf "[FAT32] File not found.\n" [] ;;
    fs_ret false.

Definition DeleteFile (fuel : nat) drv name (parent_cluster : Z) : FS bool :=
  kprintf "[FAT32] Deleting file: %s...\n" [KStr name] ;;
  let current_cluster := or_root drv parent_cluster in
  buf <- Buffer (cluster_bytes drv) 4096 ;;
  delete_loop fuel drv name buf current_cluster.

(** ** Reading *)

Fixpoint read_file_loop (fuel : nat) drv (bytes_remaining current_cluster offset : Z) buffer
    : FS (list Z) :=
  if (0 <? bytes_remaining) && (current_cluster <? kChainEnd) then
    match fuel with
    | O => fun _ => OutOfFuel
    | S f =>
        let* (_, temp_buf) := Read (ClusterToLBA drv current_cluster) (sec_per_clus_ drv) in
        let copy_len := if cluster_bytes drv <? bytes_remaining
                        then cluster_bytes drv else bytes_remaining in
        let buffer := splice buffer offset (slice temp_buf 0 copy_len) in
        next <- GetNextCluster drv current_cluster ;;
        read_file_loop f drv (u32 (bytes_remaining - copy_len)) next
          (u32 (offset + copy_len)) buffer
    end
  else fs_ret buffer.

(** the result and the contents of [buffer] afterwards *)
Definition ReadFile (fuel : nat) drv name buffer (buffer_size base_cluster : Z)
    : FS (Z * list Z) :=
  found <- GetFileEntry drv name base_cluster ;;
  match found with
  | None => fs_ret (0, buffer)
  | Some entry =>
      if buffer_size <? de_file_size entry then
        kprintf "[FAT32] Error: Buffer too small (%d < %d)\n"
          [KInt buffer_size; KInt (de_file_size entry)] ;;
        fs_ret (0, buffer)
      else
        temp_buf <- Buffer (cluster_bytes drv) 4096 ;;
        buffer <- read_file_loop fuel drv (de_file_size entry) (first_cluster_of entry) 0 buffer ;;
        kprintf " Done.\n" [] ;;
        Free_ temp_buf (cluster_bytes drv) ;;
        fs_ret (de_file_size entry, buffer)
  end.

(** ** Writing *)

(** the bytes of the cluster that holds [write_len] bytes of [data] from [offset],
    zero padded *)
Definition cluster_image drv data (offset write_len : Z) : list Z :=
  splice (replicate (Z.to_nat (cluster_bytes drv)) 0) 0 (slice data offset write_len).

Definition write_len drv (bytes_remaining : Z) : Z :=
  if cluster_bytes drv <? bytes_remaining then cluster_bytes drv else bytes_remaining.

Definition write_cluster drv (cluster : Z) data (offset len : Z) : FS unit :=
  let target_lba := ClusterToLBA drv cluster in
  sector_buf <- Buffer (cluster_bytes drv) 4096 ;;
  Write target_lba (cluster_image drv data offset len) (sec_per_clus_ drv) ;;
  Free_ sector_buf (cluster_bytes drv).

(** the first and the last cluster written, [None] when the disk is full *)
Fixpoint write_file_loop (fuel : nat) drv data
    (bytes_remaining current_offset first_cluster prev_cluster current_cluster : Z)
    : FS (option (Z * Z)) :=
  if 0 <? bytes_remaining then
    match fuel with
    | O => fun _ => OutOfFuel
    | S f =>
        current_cluster <- AllocateCluster drv ;;
        if current_cluster =? 0 then
          kprintf "[FAT32] Error: Disk Full!\n" [] ;;
          fs_ret None
        else
          first_cluster <- (if first_cluster =? 0 then fs_ret current_cluster
                            else LinkCluster drv prev_cluster current_cluster ;;
                                 fs_ret first_cluster) ;;
          let len := write_len drv bytes_remaining in
          write_cluster drv current_cluster data current_offset len ;;
          write_file_loop f drv data (u32 (bytes_remaining - len))
            (u32 (current_offset + len)) first_cluster current_cluster current_cluster
    end
  else fs_ret (Some (first_cluster, current_cluster)).

(** [name] is printed as the eleven characters it has; kprintf reads on behind them, where
    there is no terminator *)
Definition WriteFile (fuel : nat) drv name data (size parent_cluster : Z) : FS unit :=
  if size =? 0 then fs_ret tt
  else
    kprintf "[FAT32] Writing file: %s (%d bytes)...\n" [KStr name; KInt size] ;;
    clusters <- write_file_loop fuel drv data size 0 0 0 0 ;;
    match clusters with
    | None => fs_ret tt
    | Some (first_cluster, current_cluster) =>
        LinkCluster drv current_cluster EOCC ;;
        AddDirectoryEntry drv name first_cluster size 32 parent_cluster ;;
        kprintf "[FAT32] File Written Successfully (Start Cluster %d)\n" [KInt first_cluster]
    end.

(** ** Appending *)

(** [while (true)]: the last cluster of the chain *)
Fixpoint last_cluster_loop (fuel : nat) drv (last_cluster : Z) : FS Z :=
  match fuel with
  | O => fun _ => OutOfFuel
  | S f =>
      next <- GetNextCluster drv last_cluster ;;
      if kChainEnd <=? next then fs_ret last_cluster else last_cluster_loop f drv next
  end.

(** step 5: new clusters for the rest of the data; the last cluster of the chain *)
Fixpoint append_loop (fuel : nat) drv data (bytes_remaining current_offset prev_cluster : Z)
    : FS Z :=
  if 0 <? bytes_remaining then
    match fuel with
    | O => fun _ => OutOfFuel
    | S f =>
        new_cluster <- AllocateCluster drv ;;
        if new_cluster =? 0 then
          kprintf "[FAT32] Error: Disk Full!\n" [] ;;
          fs_ret prev_cluster
        else
          LinkCluster drv prev_cluster new_cluster ;;
          let len := write_len drv bytes_remaining in
          write_cluster drv new_cluster data current_offset len ;;
          append_loop f drv data (u32 (bytes_remaining - len)) (u32 (current_offset + len))
            new_cluster
    end
  else fs_ret prev_cluster.

(** step 6: the file's entry gets its new size, and its first cluster when it had
    none; the result says whether the entry was found *)
Fixpoint update_entry_loop (fuel : nat) drv name (old_size new_size first_cluster : Z)
    (buf current_cluster : Z) : FS bool :=
  if current_cluster <? kChainEnd then
    match fuel with
    | O => fun _ => OutOfFuel
    | S f =>
        let lba := ClusterToLBA drv current_cluster in
        let* (_, entries) := Read lba (sec_per_clus_ drv) in
        match scan_entries name entries (num_entries drv) with
        | ScanFound i =>
            let entries := put32 entries (32 * i + 28) new_size in
            let entries := if old_size =? 0 then set_fst_clus entries i first_cluster
                           else entries in
            let sector_offset := i / 16 in
            Write (u64 (lba + sector_offset)) (slice entries (sector_offset * 512) 512) 1 ;;
            Free_ buf (cluster_bytes drv) ;;
            kprintf "[FAT32] File Appended Successfully (New Size: %d)\n" [KInt new_size] ;;
            fs_ret true
        | _ =>
            next <- GetNextCluster drv current_cluster ;;
            update_entry_loop f drv name old_size new_size first_cluster buf next
        end
    end
  else
    Free_ buf (cluster_bytes drv) ;;
    kprintf "[FAT32] Error: Could not update directory entry.\n" [] ;;
    fs_ret false.

(** steps 3 to 6 of AppendFile, once the chain's ends are known *)
Definition append_data (fuel : nat) drv name data (size target_dir first_cluster last_cluster
    old_size : Z) : FS unit :=
  let used := if (old_size mod cluster_bytes drv =? 0) && (0 <? old_size)
              then cluster_bytes drv else old_size mod cluster_bytes drv in
  let free_in_last := if old_size =? 0 then cluster_bytes drv
                      else u32 (cluster_bytes drv - used) in
  let* (bytes_remaining, current_offset) :=
    (if (0 <? free_in_last) && (0 <? old_size) then
       let lba := ClusterToLBA drv last_cluster in
       sector_buf <- Buffer (cluster_bytes drv) 4096 ;;
       let* (_, content) := Read lba (sec_per_clus_ drv) in
       let append_len := if free_in_last <? size then free_in_last else size in
       Write lba (splice content used (slice data 0 append_len)) (sec_per_clus_ drv) ;;
       Free_ sector_buf (cluster_bytes drv) ;;
       fs_ret (u32 (size - append_len), append_len)
     else fs_ret (size, 0)) in
  prev_cluster <- append_loop fuel drv data bytes_remaining current_offset last_cluster ;;
  LinkCluster drv prev_cluster EOCC ;;
  let new_size := u32 (old_size + size) in
  buf <- Buffer (cluster_bytes drv) 4096 ;;
  _updated <- update_entry_loop fuel drv name old_size new_size first_cluster buf target_dir ;;
  fs_ret tt.

Definition AppendFile (fuel : nat) drv name data (size parent_cluster : Z) : FS unit :=
  if size =? 0 then fs_ret tt
  else
    let target_dir := or_root drv parent_cluster in
    found <- FindDirectoryEntry drv name target_dir ;;
    match found with
    | None => WriteFile fuel drv name data size parent_cluster
    | Some entry =>
        kprintf "[FAT32] Appending to file: %s (%d bytes)...\n" [KStr name; KInt size] ;;
        let first_cluster := first_cluster_of entry in
        let old_size := de_file_size entry in
        if first_cluster =? 0 then
          first_cluster <- AllocateCluster drv ;;
          if first_cluster =? 0 then
            kprintf "[FAT32] Error: Disk Full!\n" []
          else
            append_data fuel drv name data size target_dir first_cluster first_cluster old_size
        else
          last_cluster <- last_cluster_loop fuel drv first_cluster ;;
          append_data fuel drv name data size target_dir first_cluster last_cluster old_size
    end.
End Driver.

(** ** Copying from another volume *)

Section Copy.
Context {D1 D2 M : Type} `{BlockDevice D1} `{BlockDevice D2} `{FrameAllocator M}.

(** an operation on the source volume, on the destination volume *)
Definition on_src {A} (m : FS D1 M A) : FS (D1 * D2) M A := fun w =>
  match m (mkWorld (w_dev w).1 (w_mm w) (w_out w)) with
  | Done a w' => Done a (mkWorld (w_dev w', (w_dev w).2) (w_mm w') (w_out w'))
  | NullBuffer => NullBuffer
  | OutOfFuel => OutOfFuel
  end.

Definition on_dst {A} (m : FS D2 M A) : FS (D1 * D2) M A := fun w =>
  match m (mkWorld (w_dev w).2 (w_mm w) (w_out w)) with
  | Done a w' => Done a (mkWorld ((w_dev w).1, w_dev w') (w_mm w') (w_out w'))
  | NullBuffer => NullBuffer
  | OutOfFuel => OutOfFuel
  end.

(** [for (p = dst_path; *p; ++p) if ( *p == '/') last_slash = p;] *)
Definition last_slash (path : list Z) : option Z :=
  for_loop (length path) 0
    (fun i acc => if cch path i =? kSlash then Some i else acc) None.

(** [junk]: what the memory of the buffer holds *)
Definition CopyFileFrom (fuel : nat) (junk : list Z) (drv src_fs : FAT32Driver) (src_path dst_path : list Z)
    : FS (D1 * D2) M bool :=
  size <- on_src (GetFileSize src_fs src_path) ;;
  if size =? 0 then
    kprintf "[FAT32] File not found or empty: %s\n" [KStr src_path] ;;
    fs_ret false
  else
    kprintf "[FAT32] Copying file from %s to %s... (%d bytes)\n"
      [KStr src_path; KStr dst_path; KInt size] ;;
    buf <- Allocate_ size 16 ;;
    if buf =? 0 then
      kprintf "[FAT32] Failed to allocate buffer for file copy.\n" [] ;;
      fs_ret false
    else
      let* (got, content) :=
        on_src (ReadFile fuel src_fs src_path (take (Z.to_nat size) (junk ++ replicate (Z.to_nat size) 0)) size 0) in
      if negb (got =? size) then
        kprintf "[FAT32] Read failed.\n" [] ;;
        Free_ buf size ;;
        fs_ret false
      else
        let* (parent_cluster, filename_part, ok) :=
          (match last_slash dst_path with
           | None => fs_ret (0, dst_path, true)
           | Some i =>
               let len := if 63 <? i then 63 else i in
               let dir_part := slice dst_path 0 len in
               let filename_part := drop (Z.to_nat (i + 1)) dst_path in
               if 0 <? len then
                 parent_cluster <- on_dst (EnsureDirectory drv dir_part) ;;
                 if parent_cluster =? 0 then
                   kprintf "[FAT32] Failed to ensure directory: %s\n" [KStr dir_part] ;;
                   Free_ buf size ;;
                   fs_ret (0, filename_part, false)
                 else fs_ret (parent_cluster, filename_part, true)
               else fs_ret (0, filename_part, true)
           end) in
        if (ok : bool) then
          on_dst (WriteFile fuel drv (To83Format filename_part) content size parent_cluster) ;;
          Free_ buf size ;;
          fs_ret true
        else fs_ret false.
End Copy.
