(* ===== verification/Fat32Table.v ===== *)
(** * The file allocation table of a FAT32 volume

    The FAT seen as a function from clusters to 32-bit words, and what
    AllocateCluster, LinkCluster, GetNextCluster and FreeChain do to it.  Every
    statement is about total runs: the operation ends, gives its buffer back, and
    leaves the sectors outside the two FATs alone. *)
From S2P Require Import Prelude Memory CStr Device Fat32Names Fat32.

(** A volume with two FATs and at most 128 sectors a cluster, inside 2^63 sectors *)
Record geometry (drv : FAT32Driver) : Prop := {
  g_spc : 1 <= sec_per_clus_ drv <= 128;
  g_fat_sz : 1 <= fat_sz32_ drv <= 2 ^ 21;
  g_fat_start : 0 <= fat_start_lba_ drv;
  g_data : data_start_lba_ drv = fat_start_lba_ drv + 2 * fat_sz32_ drv;
  g_end : data_start_lba_ drv < 2 ^ 63;
  g_root : in_chain (root_clus_ drv) = true
}.

(** the clusters the FAT has an entry for *)
Definition clusters (drv : FAT32Driver) : Z := 128 * fat_sz32_ drv.

Lemma in_chain_spec c : in_chain c = true <-> 2 <= c < kChainEnd.
Proof. unfold in_chain. rewrite andb_true_iff, Z.leb_le, Z.ltb_lt. done. Qed.

Lemma EOCC_range : 0 <= EOCC < 2 ^ 32.
Proof. unfold EOCC. lia. Qed.

Section Table.
Context {D M : Type} `{BlockDeviceLaws D} `{FrameAllocatorLaws M}.
Context (drv : FAT32Driver) (Hg : geometry drv).
Implicit Types (d : D) (mm : M) (c : Z).
Local Abbreviation Prog := (Device.FS D M).

(** the word of cluster [c] in the first FAT, and its link *)
Definition fat_raw d c : Z := fat_entry (sector d (fat_start_lba_ drv + c / 128)) (c mod 128).
Definition fat d c : Z := Z.land (fat_raw d c) EOCC.

(** the second FAT is a copy of the first *)
Definition mirrored d : Prop :=
  forall s, 0 <= s < fat_sz32_ drv ->
    sector d (fat_start_lba_ drv + fat_sz32_ drv + s) = sector d (fat_start_lba_ drv + s).

Definition outside_fat (lba : Z) : Prop := lba < fat_start_lba_ drv \/ data_start_lba_ drv <= lba.

(** [d'] is [d] with the word of cluster [c] set to [v] *)
Record linked d d' c (v : Z) : Prop := {
  lk_fat c' : 0 <= c' < clusters drv -> fat_raw d' c' = if c' =? c then v else fat_raw d c';
  lk_other lba : outside_fat lba -> sector d' lba = sector d lba;
  lk_mirror : mirrored d -> mirrored d'
}.

Lemma fat_raw_range d c : 0 <= fat_raw d c < 2 ^ 32.
Proof.
  unfold fat_raw, fat_entry. pose proof (Z.mod_pos_bound c 128 ltac:(lia)).
  apply get32_range; [apply sector_bytes|lia|]. rewrite sector_len. unfold kSectorSize. lia.
Qed.

Lemma fat_range d c : 0 <= fat d c < 2 ^ 28.
Proof.
  unfold fat, EOCC. change 268435455 with (Z.ones 28).
  rewrite Z.land_ones by lia. apply Z.mod_pos_bound. lia.
Qed.

Lemma fat_EOCC d c : fat_raw d c = EOCC -> fat d c = EOCC.
Proof. unfold fat. by intros ->. Qed.

Lemma fat_small d c v : fat_raw d c = v -> 0 <= v < 2 ^ 28 -> fat d c = v.
Proof.
  unfold fat, EOCC. intros -> Hv. change 268435455 with (Z.ones 28).
  rewrite Z.land_ones by lia. apply Z.mod_small. lia.
Qed.

(** clusters keep different words in different places *)
Lemma cluster_split c c' : c / 128 = c' / 128 -> c mod 128 = c' mod 128 -> c = c'.
Proof. intros Hd Hm. rewrite (Z.div_mod c 128), (Z.div_mod c' 128) by lia. lia. Qed.

Lemma cluster_sector c : 0 <= c < clusters drv -> 0 <= c / 128 < fat_sz32_ drv.
Proof.
  unfold clusters. intros. split; [apply Z.div_pos; lia|]. apply Z.div_lt_upper_bound; lia.
Qed.

Lemma lba_small s : 0 <= s < fat_sz32_ drv -> u64 (fat_start_lba_ drv + s) = fat_start_lba_ drv + s.
Proof. intros Hs. pose proof Hg as []. apply u64_small. lia. Qed.

Lemma lba2_small s :
  0 <= s < fat_sz32_ drv ->
  u64 (fat_start_lba_ drv + s + fat_sz32_ drv) = fat_start_lba_ drv + s + fat_sz32_ drv.
Proof. intros Hs. pose proof Hg as []. apply u64_small. lia. Qed.

(** Writing one FAT sector with a changed word to both FATs *)
Lemma linked_writes d d1 d2 c v :
  0 <= c < clusters drv -> 0 <= v < 2 ^ 32 ->
  let lba := fat_start_lba_ drv + c / 128 in
  let sec := put32 (sector d lba) (4 * (c mod 128)) v in
  (forall l, sector d1 l = if l =? lba then sec else sector d l) ->
  (forall l, sector d2 l = if l =? lba + fat_sz32_ drv then sec else sector d1 l) ->
  linked d d2 c v.
Proof.
  intros Hc Hv lba sec Hd1 Hd2. pose proof (cluster_sector c Hc) as Hs.
  pose proof Hg as [? ? ? Hdata ? ?]. subst lba.
  assert (Hm : 0 <= c mod 128 < 128) by (apply Z.mod_pos_bound; lia).
  assert (Hf : forall k, 0 <= k < fat_sz32_ drv ->
            sector d2 (fat_start_lba_ drv + k)
            = if k =? c / 128 then sec else sector d (fat_start_lba_ drv + k)).
  { intros k Hk. rewrite Hd2, Hd1. zcases; done || lia. }
  split.
  - intros c' Hc'. pose proof (cluster_sector c' Hc') as Hs'. unfold fat_raw.
    rewrite Hf by done.
    assert (Hm' : 0 <= c' mod 128 < 128) by (apply Z.mod_pos_bound; lia).
    destruct (Z.eqb_spec (c' / 128) (c / 128)) as [Hd|Hd].
    + unfold fat_entry, sec. destruct (Z.eqb_spec c' c) as [->|Hne].
      * apply get32_put32_eq; rewrite ?sector_len; unfold kSectorSize; lia.
      * rewrite get32_put32_ne; rewrite ?sector_len; unfold kSectorSize; try lia; [by rewrite Hd|].
        assert (c' mod 128 <> c mod 128) by (intros Hmm; apply Hne; by apply cluster_split). lia.
    + destruct (Z.eqb_spec c' c) as [->|]; [lia|done].
  - intros l Hl. unfold outside_fat in Hl. rewrite Hd2, Hd1. zcases; done || lia.
  - intros Hmir s Hk. rewrite Hf by done. rewrite Hd2, Hd1.
    destruct (Z.eqb_spec s (c / 128)) as [->|].
    + rewrite (proj2 (Z.eqb_eq _ _)) by lia. done.
    + rewrite !(proj2 (Z.eqb_neq _ _)) by lia. by apply Hmir.
Qed.

Lemma fat_sec_ok d lba c v :
  0 <= c -> let sec := put32 (sector d lba) (4 * (c mod 128)) v in
  zlen sec = kSectorSize /\ Forall is_byte sec.
Proof.
  intros Hc sec. pose proof (Z.mod_pos_bound c 128 ltac:(lia)). split.
  - subst sec. rewrite zlen_put32; rewrite ?sector_len; unfold kSectorSize; lia.
  - apply put32_bytes, sector_bytes.
Qed.

Lemma wp_LinkCluster d mm out c v (Q : unit -> World D M -> Prop) :
  alloc_inv mm -> room [512] mm -> 0 <= c < clusters drv -> 0 <= v < 2 ^ 32 ->
  (forall d', linked d d' c v -> Q tt (mkWorld d' mm out)) ->
  wp (LinkCluster drv c v) Q (mkWorld d mm out).
Proof.
  intros Hi Hr Hc Hv HQ. pose proof (cluster_sector c Hc) as Hs.
  unfold LinkCluster. apply wp_bind, (wp_Buffer _ []); [done|lia|done|].
  intros p mm' _ _ HF. apply wp_bind, wp_Read1. rewrite !lba_small by lia.
  set (lba := fat_start_lba_ drv + c / 128).
  destruct (fat_sec_ok d lba c v ltac:(lia)) as [Hsl Hsb].
  apply wp_bind, wp_Write1; [done..|]. intros d1 Hd1.
  apply wp_bind, wp_Write1; [done..|]. intros d2 Hd2.
  subst lba. rewrite lba2_small in Hd2 by lia.
  apply wp_Free. rewrite HF. apply HQ. by apply (linked_writes d d1).
Qed.

Lemma wp_GetNextCluster d mm out c (Q : Z -> World D M -> Prop) :
  alloc_inv mm -> room [512] mm -> 0 <= c < 2 ^ 32 ->
  Q (fat d c) (mkWorld d mm out) ->
  wp (GetNextCluster drv c) Q (mkWorld d mm out).
Proof.
  intros Hi Hr Hc HQ. pose proof Hg as [? ? ? Hdata ? ?].
  assert (Hs : 0 <= c / 128 < 2 ^ 32) by zlia.
  unfold GetNextCluster. apply wp_bind, (wp_Buffer _ []); [done|lia|done|].
  intros p mm' _ _ HF. apply wp_bind, wp_Read1. rewrite u64_small by lia.
  apply wp_bind, wp_Free. rewrite HF. exact HQ.
Qed.

(** the first free cluster of the FAT's first sector *)
Lemma wp_AllocateCluster d mm out (Q : Z -> World D M -> Prop) :
  alloc_inv mm -> room [512] mm ->
  (forall c d', 2 <= c < 128 -> fat_raw d c = 0 -> (forall c', 2 <= c' < c -> fat_raw d c' <> 0) ->
     linked d d' c EOCC -> Q c (mkWorld d' mm out)) ->
  ((forall c, 2 <= c < 128 -> fat_raw d c <> 0) ->
   Q 0 (mkWorld d mm
          (out ++ [KP (c_lit "[FAT32] No free clusters found in first FAT sector!\n") []]))) ->
  wp (AllocateCluster drv) Q (mkWorld d mm out).
Proof.
  intros Hi Hr Hsome Hnone. pose proof Hg as [? ? ? Hdata ? ?].
  assert (Hraw : forall c, 2 <= c < 128 -> fat_raw d c = fat_entry (sector d (fat_start_lba_ drv)) c).
  { intros c Hc. unfold fat_raw. rewrite (Z.div_small c 128), (Z.mod_small c 128) by lia.
    by rewrite Z.add_0_r. }
  unfold AllocateCluster. apply wp_bind, (wp_Buffer _ []); [done|lia|done|].
  intros p mm' _ _ HF. apply wp_bind, wp_Read1.
  destruct (find_free_entry (sector d (fat_start_lba_ drv))) as [i|] eqn:HE.
  - apply for_return_Some in HE as (k & Hk & Hb & Hlt).
    destruct (Z.eqb_spec (fat_entry (sector d (fat_start_lba_ drv)) k) 0); [|done].
    injection Hb as <-. change (Z.of_nat 126) with 126 in Hk.
    assert (Hc : 0 <= k < clusters drv) by (unfold clusters; lia).
    pose proof (Z.mod_small k 128 ltac:(lia)) as Hkm.
    destruct (fat_sec_ok d (fat_start_lba_ drv) k EOCC ltac:(lia)) as [Hsl Hsb].
    rewrite Hkm in Hsl, Hsb.
    apply wp_bind, wp_Write1; [done..|]. intros d1 Hd1.
    apply wp_bind, wp_Write1; [done..|]. intros d2 Hd2.
    apply wp_bind, wp_Free. rewrite HF. apply wp_ret, Hsome; [lia|by rewrite Hraw by lia| |].
    + intros c' Hc'. rewrite Hraw by lia. specialize (Hlt c' ltac:(lia)).
      destruct (Z.eqb_spec (fat_entry (sector d (fat_start_lba_ drv)) c') 0); done.
    + apply (linked_writes d d1); [done|apply EOCC_range|..];
        rewrite Hkm, (Z.div_small k 128), Z.add_0_r by lia; [done|].
      rewrite u64_small in Hd2 by lia. done.
  - pose proof (proj1 (for_return_None _ _ _) HE) as Hall.
    apply wp_bind, wp_Free. rewrite HF. apply wp_bind, wp_kprintf, wp_ret, Hnone.
    intros c Hc. rewrite Hraw by lia. specialize (Hall c ltac:(lia)). cbn beta in Hall.
    destruct (Z.eqb_spec (fat_entry (sector d (fat_start_lba_ drv)) c) 0); done.
Qed.

(** ** FreeChain *)

(** the clusters that following links from [start] visits *)
Inductive reach (f : Z -> Z) (start : Z) : Z -> Prop :=
  | reach_start : in_chain start = true -> reach f start start
  | reach_next c : reach f start c -> in_chain (f c) = true -> reach f start (f c).

(** links stay inside the FAT; they may be shared, and they may loop *)
Definition closed_fat d : Prop :=
  forall c, 0 <= c < clusters drv -> in_chain (fat d c) = true -> fat d c < clusters drv.

Record freed d d' (start : Z) : Prop := {
  fr_freed c : 0 <= c < clusters drv -> reach (fat d) start c -> fat_raw d' c = 0;
  fr_either c : 0 <= c < clusters drv -> fat_raw d' c = 0 \/ fat_raw d' c = fat_raw d c;
  fr_kept c : 0 <= c < clusters drv -> ~ reach (fat d) start c -> fat_raw d' c = fat_raw d c;
  fr_other lba : outside_fat lba -> sector d' lba = sector d lba;
  fr_mirror : mirrored d -> mirrored d'
}.

Lemma linked_fat d d' c v c' :
  linked d d' c v -> 0 <= c' < clusters drv ->
  fat d' c' = if c' =? c then Z.land v EOCC else fat d c'.
Proof. intros Hl Hc'. unfold fat. rewrite (lk_fat _ _ _ _ Hl) by done. by case_match. Qed.

Lemma reach_in_chain f start c : reach f start c -> in_chain c = true.
Proof. by destruct 1. Qed.

Lemma reach_in_start f start c : reach f start c -> in_chain start = true.
Proof. by induction 1. Qed.

Lemma reach_range d start c :
  closed_fat d -> start < clusters drv -> reach (fat d) start c -> 0 <= c < clusters drv.
Proof.
  intros Hcl Hs. induction 1 as [Hin|c Hc IH Hin].
  - apply in_chain_spec in Hin. lia.
  - pose proof (fat_range d c). split; [lia|]. by apply Hcl.
Qed.

(** clearing the head of a chain leaves the rest of it reachable from its link *)
Lemma reach_unlink d d1 start c :
  closed_fat d -> linked d d1 start 0 -> in_chain start = true -> start < clusters drv ->
  reach (fat d) start c <-> c = start \/ reach (fat d1) (fat d start) c.
Proof.
  intros Hcl Hl Hin Hst.
  assert (Hfat : forall x, 0 <= x < clusters drv -> x <> start -> fat d1 x = fat d x).
  { intros x Hx Hne. rewrite (linked_fat _ _ _ _ _ Hl) by done.
    by rewrite (proj2 (Z.eqb_neq x start)). }
  assert (Hfs : fat d1 start = 0).
  { apply in_chain_spec in Hin. rewrite (linked_fat _ _ _ _ _ Hl) by lia. by rewrite Z.eqb_refl. }
  assert (Hcl1 : closed_fat d1).
  { intros x Hx Hix. destruct (decide (x = start)) as [->|Hne]; [by rewrite Hfs in Hix|].
    rewrite Hfat in * by done. by apply Hcl. }
  split.
  - induction 1 as [_|c Hc [->|IH] Hin']; [by left|..].
    + right. by apply reach_start.
    + right. destruct (decide (c = start)) as [->|Hne]; [by apply reach_start|].
      pose proof (reach_range d start c Hcl Hst Hc) as Hcr.
      rewrite <- (Hfat c) by done. apply reach_next; [done|]. by rewrite (Hfat c).
  - intros [->|Hr]; [by apply reach_start|].
    assert (Hnext : in_chain (fat d start) = true -> fat d start < clusters drv).
    { intros. apply in_chain_spec in Hin. apply Hcl; [lia|done]. }
    induction Hr as [Hi|c Hc IH Hi].
    + apply reach_next; [by apply reach_start|done].
    + destruct (decide (c = start)) as [->|Hne]; [by rewrite Hfs in Hi|].
      assert (Hi0 : in_chain (fat d start) = true).
      { by eapply reach_in_start. }
      pose proof (reach_range d1 _ c Hcl1 (Hnext Hi0) Hc) as Hcr.
      rewrite Hfat in * by done. by apply reach_next.
Qed.

(** the words still in use are among [live]: each step but the last takes one out *)
Lemma FreeChain_run (live : list Z) : forall fuel d mm out cur (Q : unit -> World D M -> Prop),
  alloc_inv mm -> room [512] mm -> closed_fat d ->
  (in_chain cur = true -> cur < clusters drv) ->
  (forall c, 0 <= c < clusters drv -> fat d c <> 0 -> In c live) ->
  (length live < fuel)%nat ->
  (forall d', freed d d' cur -> Q tt (mkWorld d' mm out)) ->
  wp (FreeChain fuel drv cur) Q (mkWorld d mm out).
Proof.
  remember (length live) as n eqn:Hn. revert live Hn.
  induction n as [n IH] using lt_wf_ind.
  intros live Hn fuel d mm out cur Q Hi Hr Hcl Hcur Hlive Hf HQ.
  destruct fuel as [|fuel]; [lia|]. cbn [FreeChain].
  destruct (in_chain cur) eqn:Hin.
  2:{ apply wp_ret, HQ. split; auto. intros c _ Hre. apply reach_in_start in Hre. congruence. }
  pose proof (proj1 (in_chain_spec cur) Hin) as Hcr. specialize (Hcur eq_refl).
  apply wp_bind, wp_GetNextCluster; [done..|unfold kChainEnd in Hcr; lia|].
  apply wp_bind, wp_LinkCluster; [done..|lia|lia|]. intros d1 Hl.
  assert (Hpost : forall d', freed d1 d' (fat d cur) -> freed d d' cur).
  { intros d' [Ha He Hb Hc Hd].
    assert (Hraw : forall c, 0 <= c < clusters drv ->
              fat_raw d1 c = if c =? cur then 0 else fat_raw d c) by (by apply lk_fat).
    split.
    - intros c Hcc Hre. apply (reach_unlink d d1) in Hre as [->|Hre]; [|by apply Ha|done..].
      specialize (Hraw cur Hcc). rewrite Z.eqb_refl in Hraw.
      destruct (He cur Hcc); congruence.
    - intros c Hcc. specialize (Hraw c Hcc). destruct (He c Hcc) as [|Hq]; [by left|].
      rewrite Hq, Hraw. case_match; auto.
    - intros c Hcc Hre. rewrite (reach_unlink d d1) in Hre by done.
      rewrite Hb by tauto. rewrite Hraw by done. destruct (Z.eqb_spec c cur); [tauto|done].
    - intros lba Ho. rewrite Hc by done. by apply (lk_other _ _ _ _ Hl).
    - intros Hm. apply Hd. by apply (lk_mirror _ _ _ _ Hl). }
  assert (Hcl1 : closed_fat d1).
  { intros x Hx Hix. rewrite (linked_fat _ _ _ _ _ Hl) in Hix |- * by done.
    destruct (x =? cur); [done|]. by apply Hcl. }
  destruct (decide (fat d cur = 0)) as [Hz|Hz].
  { (* the link was free: the next test ends the loop *)
    rewrite Hz. destruct fuel; apply HQ, Hpost; rewrite Hz;
      (split; [|auto|done|done|done]); intros c _ Hre; by apply reach_in_start in Hre. }
  assert (Hlen : (length (filter (fun x => x <> cur) live) < length live)%nat).
  { apply length_filter_lt with cur; [|by intros []].
    apply list_elem_of_In, Hlive; [lia|done]. }
  eapply (IH _ ltac:(rewrite Hn; exact Hlen) (filter (fun x => x <> cur) live) eq_refl);
    [done|done|done| | |lia|auto].
  - intros Hin'. apply Hcl; [lia|done].
  - intros c Hcc Hnz. rewrite (linked_fat _ _ _ _ _ Hl) in Hnz by done.
    destruct (Z.eqb_spec c cur); [done|]. apply list_elem_of_In, list_elem_of_filter.
    split; [done|]. by apply list_elem_of_In, Hlive.
Qed.

(** C32: FreeChain ends on every FAT whose links stay inside it, shared and looping
    chains included, within one iteration more than there are clusters; exactly
    the clusters the chain visits are free afterwards, the other words, the
    sectors outside the FATs and the frame allocator are unchanged, and the second
    FAT stays a copy of the first. *)
Theorem FreeChain_terminates d mm out start :
  alloc_inv mm -> room [512] mm -> closed_fat d -> 0 <= start < clusters drv ->
  exists d', FreeChain (S (Z.to_nat (clusters drv))) drv start (mkWorld d mm out)
             = Done tt (mkWorld d' mm out)
    /\ (forall c, 0 <= c < clusters drv ->
          (reach (fat d) start c -> fat_raw d' c = 0)
          /\ (~ reach (fat d) start c -> fat_raw d' c = fat_raw d c))
    /\ (forall lba, outside_fat lba -> sector d' lba = sector d lba)
    /\ (mirrored d -> mirrored d').
Proof.
  intros Hi Hr Hcl Hs.
  assert (Hwp : wp (FreeChain (S (Z.to_nat (clusters drv))) drv start)
    (fun _ w' => exists d', w' = mkWorld d' mm out /\ freed d d' start) (mkWorld d mm out)).
  { apply (FreeChain_run (seqZ 0 (clusters drv))); try done; [lia| | |eauto].
    - intros c Hc _. apply list_elem_of_In, elem_of_seqZ. lia.
    - rewrite length_seqZ. lia. }
  apply wp_Done in Hwp as ([] & w' & Hrun & d' & -> & Hf). exists d'.
  split; [done|]. split; [|split; apply Hf]. intros c Hc. split; intros; by apply Hf.
Qed.

(** The links of the FAT: after LinkCluster GetNextCluster follows the new link
    from the cluster and the old ones from every other, and AllocateCluster takes
    the first free cluster of the first FAT sector and ends a chain with it, or
    reports that there is none; the second FAT stays a copy and all other sectors
    and the frame allocator are unchanged. *)
Theorem FAT_links d mm out c v c' :
  alloc_inv mm -> room [512] mm -> 0 <= c < clusters drv -> 0 <= c' < clusters drv -> 0 <= v < 2 ^ 28 ->
  (exists d', LinkCluster drv c v (mkWorld d mm out) = Done tt (mkWorld d' mm out)
     /\ GetNextCluster drv c' (mkWorld d' mm out)
        = Done (if c' =? c then v else fat d c') (mkWorld d' mm out)
     /\ (mirrored d -> mirrored d') /\ forall lba, outside_fat lba -> sector d' lba = sector d lba)
  /\ exists r d' out', AllocateCluster drv (mkWorld d mm out) = Done r (mkWorld d' mm out')
     /\ (r = 0 <-> forall x, 2 <= x < 128 -> fat_raw d x <> 0) /\ (r = 0 -> d' = d)
     /\ (r <> 0 -> 2 <= r < 128 /\ fat_raw d r = 0 /\ (forall x, 2 <= x < r -> fat_raw d x <> 0)
          /\ linked d d' r EOCC).
Proof.
  intros Hi Hr Hc Hc' Hv. split.
  - assert (HL : wp (LinkCluster drv c v) (fun _ w' => exists d', w' = mkWorld d' mm out /\ linked d d' c v)
                    (mkWorld d mm out)) by (apply wp_LinkCluster; eauto; lia).
    apply wp_Done in HL as ([] & w' & HL & d' & -> & Hl). exists d'. split; [done|].
    split; [|split; apply Hl].
    assert (HG : wp (GetNextCluster drv c') (fun r w' => r = fat d' c' /\ w' = mkWorld d' mm out)
                    (mkWorld d' mm out)).
    { apply wp_GetNextCluster; auto. pose proof Hg as []. unfold clusters in Hc'. lia. }
    apply wp_Done in HG as (r & w' & HG & -> & ->). rewrite HG. f_equal.
    destruct (Z.eqb_spec c' c) as [->|Hne].
    + apply fat_small; [|done]. rewrite (lk_fat _ _ _ _ Hl) by done. by rewrite Z.eqb_refl.
    + unfold fat. rewrite (lk_fat _ _ _ _ Hl) by done. by rewrite (proj2 (Z.eqb_neq c' c)).
  - assert (HA : wp (AllocateCluster drv) (fun r w' => exists d' out', w' = mkWorld d' mm out' /\
       (r = 0 /\ d' = d /\ (forall x, 2 <= x < 128 -> fat_raw d x <> 0)
        \/ 2 <= r < 128 /\ fat_raw d r = 0 /\ (forall x, 2 <= x < r -> fat_raw d x <> 0)
           /\ linked d d' r EOCC)) (mkWorld d mm out)).
    { apply wp_AllocateCluster; [done..| |].
      - intros x d' Hx Hz Hf Hl. exists d', out. auto 8.
      - intros Hfull. exists d. eexists. auto 8. }
    apply wp_Done in HA as (r & w' & HA & d' & out' & -> & Hcase). exists r, d', out'. split; [done|].
    destruct Hcase as [(-> & -> & Hfull)|(Hr2 & Hz & Hf & Hl)].
    + done.
    + split; [|split; [lia|done]]. split; [lia|]. intros Hall. by destruct (Hall r Hr2).
Qed.
End Table.

(** ** A small volume: one sector per cluster and per FAT *)

Definition small_volume : FAT32Driver := mkFAT32Driver 0 1 1 2 1 2 1 3.

Definition small_fat : list Z :=
  put32 (put32 (put32 (replicate 512 0) 0 EOCC) 4 EOCC) 8 EOCC.

(** the root directory is empty *)
Definition small_disk : RamDisk := ram_write 1 small_fat 1 (ram_write 2 small_fat 1 ∅).

Lemma sample_alloc_inv : alloc_inv sample.
Proof. exact sample_inv. Qed.

Lemma small_geometry : geometry small_volume.
Proof. split; cbn; try lia; done. Qed.

Lemma small_room : room [512] sample /\ room [cluster_bytes small_volume; 512] sample.
Proof. vm_compute. repeat split; discriminate. Qed.


Lemma closed_fat_dec {D} `{BlockDeviceLaws D} drv (d : D) :
  forallb (fun c => negb (in_chain (fat drv d c)) || (fat drv d c <? clusters drv))
    (seqZ 0 (clusters drv)) = true -> closed_fat drv d.
Proof.
  intros Hall c Hc Hin. rewrite forallb_forall in Hall.
  assert (Hs : In c (seqZ 0 (clusters drv))) by (apply list_elem_of_In, elem_of_seqZ; lia).
  specialize (Hall c Hs).
  rewrite Hin in Hall. cbn [negb orb] in Hall. by apply Z.ltb_lt.
Qed.

(** a chain that runs into a loop: 5, 6, 7, 6, ... *)
Definition looping_fat : list Z := put32 (put32 (put32 small_fat 20 6) 24 7) 28 6.
Definition looping_disk : RamDisk := ram_write 1 looping_fat 1 (ram_write 2 looping_fat 1 ∅).

Lemma FreeChain_terminates_witness : exists d',
  FreeChain 129 small_volume 5 (mkWorld looping_disk sample []) = Done tt (mkWorld d' sample [])
  /\ fat_raw small_volume d' 5 = 0.
Proof.
  assert (Hcl : closed_fat small_volume looping_disk) by (apply closed_fat_dec; vm_compute; reflexivity).
  destruct (FreeChain_terminates small_volume small_geometry looping_disk sample [] 5
    sample_alloc_inv (proj1 small_room) Hcl ltac:(vm_compute; split; congruence))
    as (d' & HF & Hfat & _).
  exists d'. split; [exact HF|]. apply (Hfat 5); [vm_compute; split; congruence|].
  apply reach_start. reflexivity.
Defined.

Lemma FAT_links_witness : exists d',
  LinkCluster small_volume 5 9 (mkWorld looping_disk sample []) = Done tt (mkWorld d' sample [])
  /\ GetNextCluster small_volume 5 (mkWorld d' sample []) = Done 9 (mkWorld d' sample []).
Proof.
  destruct (FAT_links small_volume small_geometry looping_disk sample [] 5 9 5
    sample_alloc_inv (proj1 small_room)) as [(d' & HL & HG & _) _];
    [vm_compute; split; congruence..|].
  exists d'. split; [exact HL|exact HG].
Defined.
