(* ===== verification/Fat32Files.v ===== *)
(** * Files and directories of a FAT32 volume

    What FindDirectoryEntry, AddDirectoryEntry, WriteFile and ReadFile do to the
    disk of Fat32Table.v: the lookup along a directory's chain, the entry added in
    the first free slot, and the round trip of a file's bytes. *)
From S2P Require Import Prelude Memory CStr Device Fat32Names Fat32 Fat32Table.

Section Files.
Context {D M : Type} `{BlockDeviceLaws D} `{FrameAllocatorLaws M}.
Context (drv : FAT32Driver) (Hg : geometry drv).
Implicit Types (d : D) (mm : M) (c : Z) (name data : list Z).
Local Abbreviation Prog := (Device.FS D M).
Local Abbreviation fat := (fat drv).
Local Abbreviation fat_raw := (fat_raw drv).
Local Abbreviation spc := (sec_per_clus_ drv).
Local Abbreviation cb := (cluster_bytes drv).

(** the bytes of cluster [c] *)
Definition cluster_data d c : list Z := sectors (sector d) (ClusterToLBA drv c) (Z.to_nat spc).

Lemma cb_eq : cb = 512 * spc.
Proof. pose proof Hg as []. unfold cluster_bytes. rewrite u32_small; lia. Qed.

Lemma num_entries_eq : num_entries drv = 16 * spc.
Proof. unfold num_entries. rewrite cb_eq. replace (512 * spc) with (16 * spc * 32) by lia. by rewrite Z.div_mul. Qed.

Lemma cluster_lba c : 2 <= c < 2 ^ 28 -> ClusterToLBA drv c = data_start_lba_ drv + (c - 2) * spc.
Proof.
  intros Hc. pose proof Hg as []. unfold ClusterToLBA. rewrite u32_small by lia.
  apply u64_small. nia.
Qed.

Lemma zlen_cluster_data d c : zlen (cluster_data d c) = cb.
Proof.
  pose proof Hg as []. unfold cluster_data. rewrite zlen_sectors by apply sector_len.
  rewrite cb_eq. unfold kSectorSize. lia.
Qed.

(** the sectors of clusters are outside the FATs, and of two clusters disjoint *)
Definition in_cluster c (lba : Z) : Prop :=
  ClusterToLBA drv c <= lba < ClusterToLBA drv c + spc.

Lemma cluster_outside_fat c lba : 2 <= c < 2 ^ 28 -> in_cluster c lba -> outside_fat drv lba.
Proof.
  unfold in_cluster, outside_fat. intros Hc. rewrite cluster_lba by done.
  pose proof Hg as []. nia.
Qed.

Lemma cluster_disjoint c c' lba :
  2 <= c < 2 ^ 28 -> 2 <= c' < 2 ^ 28 -> in_cluster c lba -> in_cluster c' lba -> c = c'.
Proof.
  unfold in_cluster. intros Hc Hc'. rewrite !cluster_lba by done. pose proof Hg as []. nia.
Qed.

Lemma cluster_data_ext d d' c :
  (forall lba, in_cluster c lba -> sector d' lba = sector d lba) ->
  cluster_data d' c = cluster_data d c.
Proof.
  intros Hs. pose proof Hg as []. unfold cluster_data. apply sectors_ext. intros l Hl.
  apply Hs. unfold in_cluster. lia.
Qed.

Lemma linked_data d d' c v c' :
  linked drv d d' c v -> 2 <= c' < 2 ^ 28 -> cluster_data d' c' = cluster_data d c'.
Proof.
  intros Hl Hc. apply cluster_data_ext. intros lba Hlba.
  eapply lk_other; [exact Hl|]. by eapply cluster_outside_fat.
Qed.

Lemma slot_cluster d c s i :
  0 <= s < spc -> 0 <= i < 16 ->
  slot (cluster_data d c) (16 * s + i) = slot (sector d (ClusterToLBA drv c + s)) i.
Proof.
  intros Hs Hi. unfold slot, cluster_data.
  replace (32 * (16 * s + i)) with (kSectorSize * s + 32 * i) by (unfold kSectorSize; lia).
  apply slice_sectors; [apply sector_len|lia|lia|lia|unfold kSectorSize; lia].
Qed.

(** ** Looking a name up along the directory's chain *)

Fixpoint lookup_chain (n : nat) d name c : option DirectoryEntry :=
  if in_chain c then
    match n with
    | O => None
    | S n' =>
        match scan_entries name (cluster_data d c) (num_entries drv) with
        | ScanEnd => None
        | ScanFound i => Some (dirent (cluster_data d c) i)
        | ScanNone => lookup_chain n' d name (fat d c)
        end
    end
  else None.

Lemma wp_find_entry_loop n : forall d mm out name p cur
    (Q : option DirectoryEntry -> World D M -> Prop),
  alloc_inv mm -> room [512] mm ->
  (forall out', Q (lookup_chain n d name cur) (mkWorld d (Free p cb mm) out')) ->
  wp (find_entry_loop n drv name p cur) Q (mkWorld d mm out).
Proof.
  induction n as [|n IH]; intros d mm out name p cur Q Hi Hr HQ; cbn [find_entry_loop lookup_chain] in *.
  - destruct (in_chain cur).
    + apply wp_bind, wp_kprintf, wp_bind, wp_Free, wp_ret, HQ.
    + apply wp_bind, wp_Free, wp_ret, HQ.
  - destruct (in_chain cur) eqn:Hin; [|apply wp_bind, wp_Free, wp_ret, HQ].
    apply in_chain_spec in Hin. pose proof Hg as []. unfold kChainEnd in Hin.
    apply wp_bind, wp_Read; [lia|]. cbn [negb].
    fold (cluster_data d cur).
    destruct (scan_entries name (cluster_data d cur) (num_entries drv)).
    + apply wp_bind, wp_Free, wp_ret, HQ.
    + apply wp_bind, wp_Free, wp_ret, HQ.
    + apply wp_bind, wp_GetNextCluster; [done..|lia|]. by apply IH.
Qed.

Lemma cb_range : 0 <= cb < 2 ^ 32.
Proof. unfold cluster_bytes. apply u32_range. Qed.

Lemma wp_FindDirectoryEntry d mm out name parent (Q : option DirectoryEntry -> World D M -> Prop) :
  alloc_inv mm -> room [cb; 512] mm ->
  (forall out', Q (lookup_chain kLoopSafety d name (or_root drv parent)) (mkWorld d mm out')) ->
  wp (FindDirectoryEntry drv name parent) Q (mkWorld d mm out).
Proof.
  intros Hi Hr HQ. unfold FindDirectoryEntry.
  apply wp_bind, (wp_Buffer _ [512]); [done|apply cb_range|done|].
  intros p mm' Hi' Hr' HF. apply wp_find_entry_loop; [done..|]. rewrite HF. exact HQ.
Qed.

(** ** Adding an entry *)

Record entry_added d d' c (i : Z) (e : list Z) : Prop := {
  ea_slot j : 0 <= j < 16 * spc ->
    slot (cluster_data d' c) j = if j =? i then e else slot (cluster_data d c) j;
  ea_other lba : ~ in_cluster c lba -> sector d' lba = sector d lba
}.

Lemma find_slot_spec buf :
  zlen buf = kSectorSize ->
  match find_slot buf 16 with
  | Some i => 0 <= i < 16 /\ slot_free (slot buf i) = true
              /\ forall j, 0 <= j < i -> slot_free (slot buf j) = false
  | None => forall j, 0 <= j < 16 -> slot_free (slot buf j) = false
  end.
Proof.
  intros Hl. unfold find_slot. destruct (for_return _ _ _) as [i|] eqn:Hf.
  - apply for_return_Some in Hf as (k & Hk & Hb & Hlt).
    assert (Hslot : forall j, 0 <= j -> (name0 buf j =? 0) || (name0 buf j =? 229) = slot_free (slot buf j)).
    { intros j Hj. by rewrite name0_slot by lia. }
    rewrite Hslot in Hb by lia. destruct (slot_free (slot buf k)) eqn:Hk'; [|done].
    injection Hb as <-. split_and!; [lia|lia|done|]. intros j Hj.
    specialize (Hlt j ltac:(lia)). cbn beta in Hlt. rewrite Hslot in Hlt by lia.
    by destruct (slot_free (slot buf j)).
  - intros j Hj. pose proof (proj1 (for_return_None _ _ _) Hf j ltac:(lia)) as Hb.
    cbn beta in Hb. rewrite name0_slot in Hb by lia. unfold slot_free.
    by destruct ((rd (slot buf j) 0 =? 0) || (rd (slot buf j) 0 =? 229)).
Qed.

Section Add.
Context (name : list Z) (start size attr c : Z).
Context (Hname : is_cstr name) (Hattr : is_byte attr) (Hc : 2 <= c < 2 ^ 28).
Let e := entry_bytes name start size attr.

Lemma sector_entry_added d d' s i :
  0 <= s < spc -> 0 <= i < 16 ->
  (forall l, sector d' l = if l =? ClusterToLBA drv c + s
                      then put_entry (sector d (ClusterToLBA drv c + s)) i name start size attr
                      else sector d l) ->
  entry_added d d' c (16 * s + i) e.
Proof.
  intros Hs Hi Hd'. split.
  - intros j Hj. assert (Hsplit : j = 16 * (j / 16) + j mod 16) by (apply Z.div_mod; lia).
    assert (0 <= j / 16 < spc /\ 0 <= j mod 16 < 16) as [Hjd Hjm] by zlia.
    rewrite Hsplit, !slot_cluster by done. rewrite Hd'.
    destruct (Z.eqb_spec (ClusterToLBA drv c + j / 16) (ClusterToLBA drv c + s)) as [Heq|Hne].
    + rewrite Heq, slot_put_entry by (rewrite ?sector_len; unfold kSectorSize; lia).
      replace (j / 16) with s by lia. zcases; done || lia.
    + rewrite (proj2 (Z.eqb_neq _ _)) by lia. done.
  - intros lba Hlba. rewrite Hd', (proj2 (Z.eqb_neq _ _)); [done|].
    intros ->. apply Hlba. unfold in_cluster. lia.
Qed.

Lemma wp_add_entry_loop n : forall s d mm out (Q : bool -> World D M -> Prop),
  0 <= s -> s + Z.of_nat n = spc ->
  (forall j, 0 <= j < 16 * s -> slot_free (slot (cluster_data d c) j) = false) ->
  (forall i d', 0 <= i < 16 * spc -> slot_free (slot (cluster_data d c) i) = true ->
     (forall j, 0 <= j < i -> slot_free (slot (cluster_data d c) j) = false) ->
     entry_added d d' c i e -> Q true (mkWorld d' mm out)) ->
  ((forall j, 0 <= j < 16 * spc -> slot_free (slot (cluster_data d c) j) = false) ->
   Q false (mkWorld d mm out)) ->
  wp (add_entry_loop n s (ClusterToLBA drv c) name start size attr) Q (mkWorld d mm out).
Proof.
  induction n as [|n IH]; intros s d mm out Q Hs Hn Hused Hsome Hnone; cbn [add_entry_loop].
  { apply wp_ret, Hnone. intros j Hj. apply Hused. lia. }
  assert (Hlba : u64 (ClusterToLBA drv c + s) = ClusterToLBA drv c + s).
  { rewrite cluster_lba by done. pose proof Hg as []. apply u64_small. nia. }
  rewrite Hlba. apply wp_bind, wp_Read1.
  pose proof (find_slot_spec (sector d (ClusterToLBA drv c + s)) (sector_len _ _)) as Hfs.
  destruct (find_slot _ 16) as [i|].
  - destruct Hfs as (Hi & Hfree & Hfirst).
    assert (Hslot : forall j, 0 <= j < 16 -> slot (sector d (ClusterToLBA drv c + s)) j
                    = slot (cluster_data d c) (16 * s + j)) by (intros; by rewrite slot_cluster by lia).
    apply wp_bind, wp_Write1.
    + rewrite put_entry_splice, zlen_splice; rewrite ?zlen_entry_bytes, ?sector_len;
        unfold kSectorSize; lia.
    + rewrite put_entry_splice by (rewrite ?sector_len; unfold kSectorSize; lia).
      apply Forall_splice; [apply sector_bytes|by apply entry_bytes_ok].
    + intros d' Hd'. apply wp_ret. apply (Hsome (16 * s + i)); [lia|by rewrite <- Hslot| |].
      * intros j Hj. destruct (decide (j < 16 * s)); [apply Hused; lia|].
        replace j with (16 * s + (j - 16 * s)) by lia. rewrite <- Hslot by lia. apply Hfirst. lia.
      * apply sector_entry_added; [lia|done|]. exact Hd'.
  - apply (IH (s + 1)); [lia|lia| |done..]. intros j Hj.
    destruct (decide (j < 16 * s)); [apply Hused; lia|].
    replace j with (16 * s + (j - 16 * s)) by lia. rewrite slot_cluster by lia. apply Hfs. lia.
Qed.

Lemma wp_AddDirectoryEntry d mm out parent (Q : unit -> World D M -> Prop) :
  alloc_inv mm -> room [512] mm -> or_root drv parent = c ->
  (forall i d', 0 <= i < 16 * spc -> slot_free (slot (cluster_data d c) i) = true ->
     (forall j, 0 <= j < i -> slot_free (slot (cluster_data d c) j) = false) ->
     entry_added d d' c i e -> Q tt (mkWorld d' mm out)) ->
  ((forall j, 0 <= j < 16 * spc -> slot_free (slot (cluster_data d c) j) = false) ->
   Q tt (mkWorld d mm (out ++ [KP (c_lit "[FAT32] Directory full!\n") []]))) ->
  wp (AddDirectoryEntry drv name start size attr parent) Q (mkWorld d mm out).
Proof.
  intros Hi Hr Hor Hsome Hnone. pose proof Hg as []. unfold AddDirectoryEntry. rewrite Hor.
  apply wp_bind, (wp_Buffer _ []); [done|lia|done|]. intros p mm' _ _ HF.
  apply wp_bind, wp_add_entry_loop; [lia|lia|lia|..].
  - intros i d' Hir Hfree Hfirst Hadd. apply wp_bind, wp_Free. rewrite HF. apply wp_ret. eauto.
  - intros Hfull. apply wp_bind, wp_Free. rewrite HF. apply wp_kprintf. auto.
Qed.
End Add.

(** ** Chains of clusters and the data they hold *)

(** [cs] is a chain: each word links to the next cluster, the last ends it *)
Fixpoint chain d (cs : list Z) : Prop :=
  match cs with
  | [] => True
  | c :: t => fat_raw d c = match t with [] => EOCC | c' :: _ => c' end /\ chain d t
  end.

(** the clusters hold [data] from [off] to its end, the last one zero padded *)
Fixpoint holds d (cs : list Z) data (off : Z) : Prop :=
  match cs with
  | [] => zlen data <= off
  | c :: t =>
      off < zlen data
      /\ cluster_data d c = cluster_image drv data off (write_len drv (zlen data - off))
      /\ holds d t data (off + write_len drv (zlen data - off))
  end.

Lemma chain_ext d d' cs :
  (forall c, In c cs -> fat_raw d' c = fat_raw d c) -> chain d cs -> chain d' cs.
Proof.
  induction cs as [|c t IH]; intros He Hc; cbn [chain] in *; [done|]. destruct Hc as [Hh Ht].
  split; [rewrite He; [done|by left]|]. apply IH; [|done]. intros. apply He. by right.
Qed.

Lemma holds_ext d d' cs data : forall off,
  (forall c, In c cs -> cluster_data d' c = cluster_data d c) ->
  holds d cs data off -> holds d' cs data off.
Proof.
  induction cs as [|c t IH]; intros off He Hh; cbn [holds] in *; [done|].
  destruct Hh as (Ho & Hc & Ht). split; [done|].
  split; [rewrite He; [done|by left]|]. apply IH; [|done]. intros. apply He. by right.
Qed.

(** the free clusters AllocateCluster can find *)
Definition free_clusters d : list Z := filter (fun c => fat_raw d c = 0) (seqZ 2 126).

Lemma elem_free d c : c ∈ free_clusters d <-> 2 <= c < 128 /\ fat_raw d c = 0.
Proof. unfold free_clusters. rewrite list_elem_of_filter, elem_of_seqZ. split; intros []; split; done || lia. Qed.

Lemma length_free_remove d d' c :
  2 <= c < 128 -> fat_raw d c = 0 ->
  (forall c', 2 <= c' < 128 -> fat_raw d' c' = 0 <-> c' <> c /\ fat_raw d c' = 0) ->
  length (free_clusters d) = S (length (free_clusters d')).
Proof.
  intros Hc Hf He. assert (Hp : free_clusters d ≡ₚ c :: free_clusters d').
  { apply NoDup_Permutation.
    - apply NoDup_filter, NoDup_seqZ.
    - apply NoDup_cons. split; [rewrite elem_free, He by done; tauto|apply NoDup_filter, NoDup_seqZ].
    - intros x. rewrite elem_of_cons, !elem_free. destruct (decide (x = c)) as [->|Hne]; [tauto|].
      split.
      + intros [Hx Hz0]. right. split; [done|]. by apply He.
      + intros [?|[Hx Hz0]]; [done|]. split; [done|]. by apply He in Hz0 as [_ ?]. }
  by rewrite Hp.
Qed.

Lemma write_len_range r : 0 < r -> 0 < write_len drv r <= r /\ write_len drv r <= cb.
Proof.
  intros Hr. pose proof Hg as []. pose proof cb_eq. unfold write_len.
  destruct (Z.ltb_spec cb r); lia.
Qed.

Lemma cluster_image_ok data off len :
  Forall is_byte data -> 0 <= off -> 0 <= len <= cb -> off + len <= zlen data ->
  zlen (cluster_image drv data off len) = cb /\ Forall is_byte (cluster_image drv data off len).
Proof.
  intros Hb Ho Hl Hd. pose proof cb_range.
  assert (Hz : zlen (replicate (Z.to_nat cb) 0) = cb) by (unfold zlen; rewrite length_replicate; lia).
  unfold cluster_image. split.
  - rewrite zlen_splice; rewrite ?zlen_slice; lia.
  - apply Forall_splice; [apply Forall_replicate; unfold is_byte; lia|by apply Forall_slice].
Qed.

Lemma wp_write_cluster d mm out c data off len (Q : unit -> World D M -> Prop) :
  alloc_inv mm -> room [cb] mm -> 2 <= c < 2 ^ 28 -> Forall is_byte data ->
  0 <= off -> 0 <= len <= cb -> off + len <= zlen data ->
  (forall d', cluster_data d' c = cluster_image drv data off len ->
     (forall lba, ~ in_cluster c lba -> sector d' lba = sector d lba) -> Q tt (mkWorld d' mm out)) ->
  wp (write_cluster drv c data off len) Q (mkWorld d mm out).
Proof.
  intros Hi Hr Hc Hb Ho Hl Hd HQ. pose proof Hg as [].
  destruct (cluster_image_ok data off len Hb Ho Hl Hd) as [Hzi Hbi].
  unfold write_cluster. apply wp_bind, (wp_Buffer _ []); [done|apply cb_range|done|].
  intros p mm' _ _ HF. apply wp_bind, wp_Write; [lia|by rewrite Hzi, cb_eq|done|].
  intros d' Hd'. apply wp_Free. rewrite HF. apply HQ.
  - unfold cluster_data. transitivity
      (sectors (fun l => slice (cluster_image drv data off len)
         (kSectorSize * (l - ClusterToLBA drv c)) kSectorSize) (ClusterToLBA drv c) (Z.to_nat spc)).
    + apply sectors_ext. intros l Hlr. rewrite Hd'.
      rewrite (proj2 (Z.leb_le _ _)), (proj2 (Z.ltb_lt _ _)) by lia. done.
    + apply sectors_slices. rewrite Hzi, cb_eq. unfold kSectorSize. lia.
  - intros lba Hlba. rewrite Hd'. unfold in_cluster in Hlba.
    destruct (Z.leb_spec (ClusterToLBA drv c) lba), (Z.ltb_spec lba (ClusterToLBA drv c + spc));
      cbn [andb]; done || lia.
Qed.

Lemma fat_raw_ext d d' c :
  0 <= c < clusters drv ->
  (forall lba, ~ outside_fat drv lba -> sector d' lba = sector d lba) -> fat_raw d' c = fat_raw d c.
Proof.
  intros Hc Hs. pose proof Hg as []. pose proof (cluster_sector drv c Hc).
  unfold Fat32Table.fat_raw. rewrite Hs; [done|]. unfold outside_fat. lia.
Qed.

(** ** The loop of WriteFile *)

(** [cs] are the clusters the loop took, from [d] to [d'], for the bytes of [data]
    from [off]; [prev] is the cluster written before them *)
Record written d d' (cs : list Z) data (off prev : Z) : Prop := {
  wr_free c : In c cs -> 2 <= c < 128 /\ fat_raw d c = 0;
  wr_nodup : NoDup cs;
  wr_chain : chain d' cs;
  wr_holds : holds d' cs data off;
  wr_prev : 2 <= prev < 128 -> fat_raw d prev = EOCC ->
            fat_raw d' prev = match cs with [] => EOCC | c :: _ => c end;
  wr_fat c : 0 <= c < clusters drv -> ~ In c cs -> c <> prev -> fat_raw d' c = fat_raw d c;
  wr_other lba : outside_fat drv lba -> (forall c, In c cs -> ~ in_cluster c lba) ->
                 sector d' lba = sector d lba;
  wr_mirror : mirrored drv d -> mirrored drv d'
}.

(** the words of the table once a cluster is taken, linked behind [prev] and written *)
Lemma link_words d d1 d2 d3 c prev x :
  2 <= c < 128 -> c <> prev -> prev = 0 \/ 2 <= prev < 128 ->
  linked drv d d1 c EOCC -> (if prev =? 0 then d2 = d1 else linked drv d1 d2 prev c) ->
  (forall lba, ~ in_cluster c lba -> sector d3 lba = sector d2 lba) -> 0 <= x < clusters drv ->
  fat_raw d3 x = if x =? c then EOCC else if (x =? prev) && negb (prev =? 0) then c else fat_raw d x.
Proof.
  intros Hc Hcp Hprev Hl1 Hl2 Hoth Hx. pose proof Hg as [? Hsz ? ? ? ?].
  assert (Hin : forall lba, ~ outside_fat drv lba -> ~ in_cluster c lba).
  { intros lba Ho Hi. apply Ho. eapply cluster_outside_fat; [|exact Hi]. lia. }
  rewrite (fat_raw_ext d2 d3) by (auto; intros; apply Hoth; auto).
  destruct (Z.eqb_spec prev 0) as [->|Hp0].
  - subst d2. rewrite (lk_fat _ _ _ _ _ Hl1) by done. rewrite andb_false_r. done.
  - rewrite (lk_fat _ _ _ _ _ Hl2), (lk_fat _ _ _ _ _ Hl1) by done. rewrite andb_true_r.
    zcases; try done; lia.
Qed.

Lemma written_cons d d1 d2 d3 d' c cs data off prev :
  2 <= c < 128 -> fat_raw d c = 0 -> c <> prev -> off < zlen data ->
  linked drv d d1 c EOCC ->
  (if prev =? 0 then d2 = d1 else linked drv d1 d2 prev c) ->
  cluster_data d3 c = cluster_image drv data off (write_len drv (zlen data - off)) ->
  (forall lba, ~ in_cluster c lba -> sector d3 lba = sector d2 lba) ->
  written d3 d' cs data (off + write_len drv (zlen data - off)) c ->
  (prev = 0 \/ (2 <= prev < 128 /\ fat_raw d prev = EOCC)) ->
  written d d' (c :: cs) data off prev.
Proof.
  intros Hc Hfree Hcp Hoff Hl1 Hl2 Hdata Hoth [Wf Wn Wc Wh Wp Wfat Wo Wm] Hprev.
  pose proof Hg as [? Hsz ? ? ? ?].
  assert (H128 : forall x, 2 <= x < 128 -> 0 <= x < clusters drv) by (unfold clusters; lia).
  assert (H28 : forall x, 2 <= x < 128 -> 2 <= x < 2 ^ 28) by lia.
  assert (Hin : forall lba, ~ outside_fat drv lba -> ~ in_cluster c lba).
  { intros lba Ho Hi. apply Ho. eapply cluster_outside_fat; [apply H28, Hc|exact Hi]. }
  pose proof (fun x => link_words d d1 d2 d3 c prev x Hc Hcp ltac:(intuition) Hl1 Hl2 Hoth) as H3.
  assert (Hc3 : fat_raw d3 c = EOCC) by (rewrite H3, Z.eqb_refl by auto; done).
  assert (Hncs : ~ In c cs). { intros Hi. destruct (Wf c Hi) as [_ Hz]. rewrite Hc3 in Hz. done. }
  assert (Hpcs : prev <> 0 -> ~ In prev cs).
  { intros Hp0 Hi. destruct (Wf prev Hi) as [Hpr Hz]. rewrite H3 in Hz by auto.
    rewrite (proj2 (Z.eqb_neq prev c)), Z.eqb_refl, (proj2 (Z.eqb_neq prev 0)) in Hz by lia.
    cbn [andb negb] in Hz. lia. }
  assert (Hcd : cluster_data d' c = cluster_data d3 c).
  { apply cluster_data_ext. intros lba Hlba. apply Wo; [eapply cluster_outside_fat; eauto|].
    intros x Hx Hxl. apply Hncs. replace c with x; [done|].
    eapply cluster_disjoint; [apply H28, (Wf x Hx)|apply H28, Hc|done..]. }
  split.
  - intros x [<-|Hx]; [done|]. destruct (Wf x Hx) as [Hxr Hz]. split; [done|].
    rewrite H3 in Hz by auto. destruct (Z.eqb_spec x c); [done|].
    destruct (Z.eqb_spec x prev) as [->|]; [|done].
    destruct (Z.eqb_spec prev 0); cbn [andb negb] in Hz; [done|lia].
  - apply NoDup_cons. split; [by rewrite list_elem_of_In|done].
  - cbn [chain]. split; [|done]. apply Wp; [done|exact Hc3].
  - cbn [holds]. split; [done|]. split; [by rewrite Hcd|done].
  - intros Hpr Hpe. rewrite Wfat; [|by apply H128|apply Hpcs; lia|lia].
    rewrite H3 by auto. rewrite (proj2 (Z.eqb_neq prev c)), Z.eqb_refl, (proj2 (Z.eqb_neq prev 0)) by lia.
    done.
  - intros x Hx Hni Hxp. cbn [In] in Hni. assert (Hxc : x <> c) by (intros ->; tauto).
    rewrite Wfat, H3 by tauto.
    by rewrite (proj2 (Z.eqb_neq x c)), (proj2 (Z.eqb_neq x prev)).
  - intros lba Ho Hni. rewrite Wo; [|done|intros x Hx; apply Hni; by right].
    rewrite Hoth by (apply Hni; by left).
    destruct (prev =? 0); [subst d2|rewrite (lk_other _ _ _ _ _ Hl2) by done];
      by apply (lk_other _ _ _ _ _ Hl1).
  - intros Hm. apply Wm. assert (Hm2 : mirrored drv d2).
    { destruct (prev =? 0); [subst d2|eapply lk_mirror; [exact Hl2|]]; eapply lk_mirror; eauto. }
    intros s Hs. rewrite !Hoth by (apply Hin; unfold outside_fat; lia). by apply Hm2.
Qed.

(** the last cluster of a chain that follows [prev] *)
Fixpoint last_of (prev : Z) (cs : list Z) : Z :=
  match cs with
  | [] => prev
  | c :: t => last_of c t
  end.

Lemma written_nil d data off prev : zlen data <= off -> written d d [] data off prev.
Proof. intros Ho. split; try done. apply NoDup_nil_2. Qed.

Lemma free_after_step d d1 d2 d3 c prev :
  2 <= c < 128 -> fat_raw d c = 0 -> prev <> c ->
  linked drv d d1 c EOCC -> (if prev =? 0 then d2 = d1 else linked drv d1 d2 prev c) ->
  (prev = 0 \/ (2 <= prev < 128 /\ fat_raw d prev = EOCC)) ->
  (forall lba, ~ outside_fat drv lba -> sector d3 lba = sector d2 lba) ->
  length (free_clusters d) = S (length (free_clusters d3)) /\ fat_raw d3 c = EOCC.
Proof.
  intros Hc Hfree Hcp Hl1 Hl2 Hprev Hs. pose proof Hg as [? Hsz ? ? ? ?].
  assert (H128 : forall x, 2 <= x < 128 -> 0 <= x < clusters drv) by (unfold clusters; lia).
  assert (H3 : forall x, 2 <= x < 128 ->
    fat_raw d3 x = if x =? c then EOCC else if (x =? prev) && negb (prev =? 0) then c else fat_raw d x).
  { intros x Hx. rewrite (fat_raw_ext d2 d3) by auto.
    destruct (Z.eqb_spec prev 0) as [->|Hp0].
    - subst d2. rewrite (lk_fat _ _ _ _ _ Hl1) by auto. by rewrite andb_false_r.
    - rewrite (lk_fat _ _ _ _ _ Hl2), (lk_fat _ _ _ _ _ Hl1) by auto. rewrite andb_true_r.
      zcases; try done; lia. }
  split; [|by rewrite H3, Z.eqb_refl]. apply (length_free_remove _ _ c); [done..|].
  intros x Hx. rewrite H3 by done. unfold EOCC. destruct (Z.eqb_spec x c) as [->|Hxc]; [lia|].
  destruct (Z.eqb_spec x prev) as [->|Hxp]; cbn [andb]; [|tauto].
  destruct (Z.eqb_spec prev 0); cbn [negb]; [tauto|].
  destruct Hprev as [?|[_ Hpe]]; [lia|]. rewrite Hpe. unfold EOCC. lia.
Qed.

Section WriteLoop.
Context (data : list Z) (Hdata : Forall is_byte data) (Hsize : zlen data < 2 ^ 32).

Lemma wp_write_file_loop fuel : forall d mm out off first prev
    (Q : option (Z * Z) -> World D M -> Prop),
  alloc_inv mm -> room [512] mm -> room [cb] mm -> 0 <= off <= zlen data ->
  zlen data - off <= cb * Z.of_nat (length (free_clusters d)) ->
  (length (free_clusters d) <= fuel)%nat ->
  (first = 0 /\ prev = 0 \/ first <> 0 /\ 2 <= prev < 128 /\ fat_raw d prev = EOCC) ->
  (forall d' cs, written d d' cs data off prev ->
     Q (Some (if first =? 0 then last_of 0 (take 1 cs) else first, last_of prev cs))
       (mkWorld d' mm out)) ->
  wp (write_file_loop fuel drv data (zlen data - off) off first prev prev) Q (mkWorld d mm out).
Proof.
  induction fuel as [|fuel IH]; intros d mm out off first prev Q Hi Hr5 Hrc Hoff Hroom Hfuel Hstate HQ;
    cbn [write_file_loop]; (destruct (Z.ltb_spec 0 (zlen data - off)); cycle 1;
    [apply wp_ret; specialize (HQ d [] (written_nil d data off prev ltac:(lia)));
     cbn [last_of take] in HQ; destruct (Z.eqb_spec first 0) as [->|]; done|]).
  { destruct (free_clusters d); cbn [length] in *; lia. }
  pose proof Hg as [? Hsz ? ? ? ?]. pose proof cb_range as Hcb.
  destruct (write_len_range (zlen data - off)) as [Hlen1 Hlen2]; [done|].
  set (len := write_len drv (zlen data - off)) in *.
  apply wp_bind, wp_AllocateCluster; [done..| |].
  2:{ intros Hfull. exfalso. destruct (free_clusters d) as [|c t] eqn:Hfc; [cbn in Hroom; lia|].
      assert (Hcf : c ∈ free_clusters d) by (rewrite Hfc; apply list_elem_of_here).
      apply elem_free in Hcf as [Hc Hz]. by apply (Hfull c). }
  intros c d1 Hc Hz _ Hl1. rewrite (proj2 (Z.eqb_neq c 0)) by lia.
  assert (H128 : forall x, 2 <= x < 128 -> 0 <= x < clusters drv) by (unfold clusters; lia).
  assert (Hcp : c <> prev).
  { intros ->. destruct Hstate as [[_ ->]|(_ & _ & He)]; [lia|]. rewrite Hz in He. done. }
  apply wp_bind. eapply (wp_mono _ (fun fc w' => fc = (if first =? 0 then c else first) /\
    exists d2, w' = mkWorld d2 mm out /\ if prev =? 0 then d2 = d1 else linked drv d1 d2 prev c)).
  { destruct Hstate as [[-> ->]|(Hf0 & Hp & Hpe)].
    - cbn [Z.eqb]. apply wp_ret. eauto.
    - rewrite (proj2 (Z.eqb_neq first 0)), (proj2 (Z.eqb_neq prev 0)) by lia.
      apply wp_bind, wp_LinkCluster; [done..|auto|lia|]. intros d2 Hl2. apply wp_ret. eauto. }
  intros fc w' (-> & d2 & -> & Hl2). cbn beta.
  assert (Hprev : prev = 0 \/ (2 <= prev < 128 /\ fat_raw d prev = EOCC)) by (clear -Hstate; tauto).
  apply wp_bind, wp_write_cluster; [done|done|lia|done|lia|lia|lia|]. intros d3 Hd3 Ho3.
  assert (Hin : forall lba, ~ outside_fat drv lba -> sector d3 lba = sector d2 lba).
  { intros lba Ho. apply Ho3. intros Hic. apply Ho. eapply cluster_outside_fat; [|exact Hic]. lia. }
  destruct (free_after_step d d1 d2 d3 c prev) as [Hcount Hc3]; try done.
  rewrite (u32_small (zlen data - off - len)), (u32_small (off + len)) by lia.
  replace (zlen data - off - len) with (zlen data - (off + len)) by lia.
  assert (Hfc : (if first =? 0 then c else first) <> 0).
  { destruct (Z.eqb_spec first 0); lia. }
  apply IH; try done; [lia| |lia|right; split; [done|]; split; [lia|done]|].
  - assert (Hl : len = cb \/ len = zlen data - off).
    { unfold len, write_len. destruct (cb <? zlen data - off); auto. }
    rewrite Hcount in Hroom. nia.
  - intros d' cs Hw. specialize (HQ d' (c :: cs)). cbn [take last_of] in HQ.
    rewrite (proj2 (Z.eqb_neq _ 0) Hfc).
    destruct (Z.eqb_spec first 0); apply HQ; eapply written_cons; eauto; lia.
Qed.
End WriteLoop.

(** ** WriteFile *)

(** [d'] is [d] with the file [name] of contents [data] added to directory [dir]:
    its chain is [cs], its entry is in slot [i] *)
Record file_written d d' (dir : Z) name data (cs : list Z) (i : Z) : Prop := {
  fw_free c : In c cs -> 2 <= c < 128 /\ fat_raw d c = 0;
  fw_nodup : NoDup cs;
  fw_chain : chain d' cs;
  fw_holds : holds d' cs data 0;
  fw_slot_range : 0 <= i < 16 * spc;
  fw_slot_free : slot_free (slot (cluster_data d dir) i) = true;
  fw_slot_first j : 0 <= j < i -> slot_free (slot (cluster_data d dir) j) = false;
  fw_slot j : 0 <= j < 16 * spc ->
    slot (cluster_data d' dir) j
    = if j =? i then entry_bytes name (last_of 0 (take 1 cs)) (zlen data) 32
      else slot (cluster_data d dir) j;
  fw_fat c : 2 <= c < clusters drv -> ~ In c cs -> fat_raw d' c = fat_raw d c;
  fw_other lba : outside_fat drv lba -> (forall c, In c cs -> ~ in_cluster c lba) ->
                 ~ in_cluster dir lba -> sector d' lba = sector d lba;
  fw_mirror : mirrored drv d -> mirrored drv d'
}.

Lemma chain_last d cs prev : chain d cs -> cs <> [] -> fat_raw d (last_of prev cs) = EOCC.
Proof.
  revert prev. induction cs as [|c t IH]; intros prev Hc Hne; [done|]. cbn [chain last_of] in *.
  destruct Hc as [Hh Ht]. destruct t as [|c' t]; [done|]. by apply IH.
Qed.

Lemma last_of_in prev cs : cs <> [] -> In (last_of prev cs) cs.
Proof.
  revert prev. induction cs as [|c t IH]; intros prev Hne; [done|]. cbn [last_of].
  destruct t as [|c' t]; [by left|]. right. by apply IH.
Qed.

Section WriteFile.
Context (dir parent : Z) (Hor : or_root drv parent = dir) (Hdir : 2 <= dir < clusters drv).
Context (name data : list Z) (Hname : is_cstr name) (Hdata : Forall is_byte data).
Context (Hsize : 0 < zlen data < 2 ^ 32).

Lemma clusters_28 c : 2 <= c < clusters drv -> 2 <= c < 2 ^ 28.
Proof. pose proof Hg as []. unfold clusters. lia. Qed.

Lemma file_written_intro d d1 d2 d3 cs i :
  fat_raw d dir <> 0 -> cs <> [] -> written d d1 cs data 0 0 -> linked drv d1 d2 (last_of 0 cs) EOCC ->
  0 <= i < 16 * spc -> slot_free (slot (cluster_data d2 dir) i) = true ->
  (forall j, 0 <= j < i -> slot_free (slot (cluster_data d2 dir) j) = false) ->
  entry_added d2 d3 dir i (entry_bytes name (last_of 0 (take 1 cs)) (zlen data) 32) ->
  file_written d d3 dir name data cs i.
Proof.
  intros Hused Hne [Wf Wn Wc Wh _ Wfat Wo Wm] Hl Hi Hfree Hfirst [As Ao].
  pose proof Hg as [? Hsz ? ? ? ?]. pose proof (clusters_28 dir Hdir) as Hdir28.
  assert (H128 : forall x, 2 <= x < 128 -> 0 <= x < clusters drv) by (unfold clusters; lia).
  assert (Hncs : ~ In dir cs) by (intros Hin; destruct (Wf dir Hin); congruence).
  assert (Hfat2 : forall x, 0 <= x < clusters drv -> fat_raw d2 x = fat_raw d1 x).
  { intros x Hx. rewrite (lk_fat _ _ _ _ _ Hl) by done. destruct (Z.eqb_spec x (last_of 0 cs)) as [->|];
      [|done]. by rewrite (chain_last d1). }
  assert (Hfat3 : forall x, 0 <= x < clusters drv -> fat_raw d3 x = fat_raw d1 x).
  { intros x Hx. rewrite (fat_raw_ext d2 d3), Hfat2; [done..|]. intros lba Ho. apply Ao. intros Hic.
    apply Ho. by eapply cluster_outside_fat. }
  assert (Hdata2 : forall x, 2 <= x < 2 ^ 28 -> cluster_data d2 x = cluster_data d1 x).
  { intros x Hx. by eapply linked_data. }
  assert (Hdir1 : cluster_data d1 dir = cluster_data d dir).
  { apply cluster_data_ext. intros lba Hlba. apply Wo; [by eapply cluster_outside_fat|].
    intros x Hx Hxl. apply Hncs. replace dir with x; [done|].
    apply (cluster_disjoint x dir lba); [|exact Hdir28|exact Hxl|exact Hlba]. destruct (Wf x Hx). lia. }
  rewrite Hdata2, Hdir1 in Hfree by done.
  split; [exact Wf|exact Wn| | |done|done| | | | |].
  - eapply chain_ext; [|exact Wc]. intros x Hx. apply Hfat3, H128. by apply Wf.
  - eapply holds_ext; [|exact Wh]. intros x Hx. destruct (Wf x Hx) as [Hxr _].
    rewrite <- (Hdata2 x) by lia. apply cluster_data_ext. intros lba Hlba. apply Ao. intros Hd.
    apply Hncs. replace dir with x; [done|]. apply (cluster_disjoint x dir lba); auto. lia.
  - intros j Hj. specialize (Hfirst j Hj). by rewrite Hdata2, Hdir1 in Hfirst.
  - intros j Hj. by rewrite As, Hdata2, Hdir1.
  - intros c Hc Hnin. rewrite Hfat3, Wfat; [done|lia|done|lia|lia].
  - intros lba Ho Hni Hnd. rewrite Ao, (lk_other _ _ _ _ _ Hl) by done. by apply Wo.
  - intros Hm s Hs. assert (Hin : forall lba, ~ outside_fat drv lba -> sector d3 lba = sector d2 lba).
    { intros lba Ho. apply Ao. intros Hic. apply Ho. by eapply cluster_outside_fat. }
    rewrite !Hin by (unfold outside_fat; lia). apply (lk_mirror _ _ _ _ _ Hl); auto.
Qed.

Lemma wp_WriteFile fuel d mm out (Q : unit -> World D M -> Prop) :
  alloc_inv mm -> room [512] mm -> room [cb] mm -> fat_raw d dir <> 0 ->
  zlen data <= cb * Z.of_nat (length (free_clusters d)) ->
  (length (free_clusters d) <= fuel)%nat ->
  (exists i, 0 <= i < 16 * spc /\ slot_free (slot (cluster_data d dir) i) = true) ->
  (forall d' cs i out', cs <> [] -> file_written d d' dir name data cs i -> Q tt (mkWorld d' mm out')) ->
  wp (WriteFile fuel drv name data (zlen data) parent) Q (mkWorld d mm out).
Proof.
  intros Hi Hr5 Hrc Hused Hroom Hfuel (k & Hk & Hkf) HQ. pose proof Hg as [? Hsz ? ? ? ?].
  pose proof (clusters_28 dir Hdir) as Hdir28.
  assert (H128 : forall x, 2 <= x < 128 -> 0 <= x < clusters drv) by (unfold clusters; lia).
  unfold WriteFile. rewrite (proj2 (Z.eqb_neq (zlen data) 0)) by lia.
  apply wp_bind, wp_kprintf, wp_bind.
  pose proof (wp_write_file_loop data Hdata ltac:(lia) fuel d mm) as Hloop.
  specialize (Hloop (out ++ [KP (c_lit "[FAT32] Writing file: %s (%d bytes)...\n")
                       [KStr name; KInt (zlen data)]]) 0 0 0).
  rewrite Z.sub_0_r in Hloop. apply Hloop; [done..|lia|done|done|by left|]. clear Hloop.
  intros d1 cs Hw. cbn [Z.eqb].
  assert (Hne : cs <> []).
  { intros ->. pose proof (wr_holds _ _ _ _ _ _ Hw) as Hh. cbn in Hh. lia. }
  assert (Hlast : 2 <= last_of 0 cs < 128) by (apply (wr_free _ _ _ _ _ _ Hw), last_of_in; done).
  apply wp_bind, wp_LinkCluster; [done..|by apply H128|apply EOCC_range|].
  intros d2 Hl.
  assert (Hdir2 : cluster_data d2 dir = cluster_data d dir).
  { rewrite (linked_data d1 d2 (last_of 0 cs) EOCC) by done. apply cluster_data_ext.
    intros lba Hlba. apply (wr_other _ _ _ _ _ _ Hw); [by eapply cluster_outside_fat|].
    intros x Hx Hxl. destruct (wr_free _ _ _ _ _ _ Hw x Hx) as [Hxr Hxz]. apply Hused.
    replace dir with x; [done|]. apply (cluster_disjoint x dir lba); auto. lia. }
  apply wp_bind, (wp_AddDirectoryEntry name (last_of 0 (take 1 cs)) (zlen data) 32 dir);
    [done|unfold is_byte; lia|done..| |].
  - intros i d3 Hir Hfree Hfirst Hadd. apply wp_kprintf, (HQ _ cs i); [done|].
    by eapply file_written_intro.
  - intros Hfull. rewrite Hdir2 in Hfull. by rewrite Hfull in Hkf.
Qed.
End WriteFile.

(** ** ReadFile *)

Lemma splice_app (b x y : list Z) o :
  0 <= o -> o + zlen x <= zlen b ->
  splice (splice b o x) (o + zlen x) y = splice b o (x ++ y).
Proof.
  intros Ho Hx. unfold splice, zlen in *. rewrite app_assoc.
  assert (Ht : take (Z.to_nat (o + Z.of_nat (length x)))
     (take (Z.to_nat o) b ++ x ++ drop (Z.to_nat o + length x) b) = take (Z.to_nat o) b ++ x).
  { rewrite app_assoc. apply take_app_length'. rewrite length_app, length_take. lia. }
  rewrite Ht, <- !app_assoc. do 2 f_equal. f_equal.
  rewrite app_assoc. rewrite drop_app_ge by (rewrite length_app, length_take; lia).
  rewrite drop_drop, !length_app, length_take. f_equal. lia.
Qed.

Lemma slice_split (l : list Z) o n m :
  0 <= o -> 0 <= n -> 0 <= m -> slice l o n ++ slice l (o + n) m = slice l o (n + m).
Proof.
  intros. unfold slice. rewrite !Z2Nat.inj_add by lia. rewrite <- drop_drop.
  apply take_take_drop.
Qed.

Lemma slice_image data off len :
  0 <= off -> 0 <= len <= cb -> off + len <= zlen data ->
  slice (cluster_image drv data off len) 0 len = slice data off len.
Proof.
  intros Ho Hl Hd. pose proof cb_range. unfold cluster_image.
  pose proof (slice_splice_same (replicate (Z.to_nat cb) 0) 0 (slice data off len)) as Hs.
  rewrite zlen_slice in Hs by lia. apply Hs; [lia|]. unfold zlen. rewrite length_replicate. lia.
Qed.

Section ReadLoop.
Context (data : list Z) (Hsize : zlen data < 2 ^ 32).

Lemma wp_read_file_loop cs : forall fuel d mm out off buffer (Q : list Z -> World D M -> Prop),
  alloc_inv mm -> room [512] mm -> 0 <= off -> zlen data <= zlen buffer ->
  (forall c, In c cs -> 2 <= c < 128) -> chain d cs -> holds d cs data off ->
  off <= zlen data -> (length cs <= fuel)%nat ->
  Q (splice buffer off (slice data off (zlen data - off))) (mkWorld d mm out) ->
  wp (read_file_loop fuel drv (zlen data - off) (match cs with [] => EOCC | c :: _ => c end) off buffer)
     Q (mkWorld d mm out).
Proof.
  induction cs as [|c cs IH]; intros fuel d mm out off buffer Q Hi Hr Ho Hb Hcs Hch Hh Hle Hf HQ.
  - cbn [holds] in Hh. assert (zlen data - off = 0) as Hz by lia. rewrite Hz in HQ |- *.
    unfold slice in HQ. cbn [Z.to_nat take] in HQ. rewrite splice_nil in HQ.
    destruct fuel; exact HQ.
  - cbn [holds chain length] in Hh, Hch, Hf. destruct Hh as (Hoff & Hcd & Hh). destruct Hch as [Hnext Hch].
    destruct fuel as [|fuel]; [lia|]. cbn [read_file_loop].
    specialize (Hcs c (or_introl eq_refl)) as Hc.
    rewrite (proj2 (Z.ltb_lt 0 _)), (proj2 (Z.ltb_lt c kChainEnd)) by (unfold kChainEnd; lia).
    cbn [andb]. pose proof Hg as [? Hsz ? ? ? ?]. pose proof cb_range.
    destruct (write_len_range (zlen data - off)) as [Hl1 Hl2]; [lia|].
    apply wp_bind, wp_Read; [lia|]. fold (cluster_data d c). fold (write_len drv (zlen data - off)).
    set (len := write_len drv (zlen data - off)) in *.
    apply wp_bind, wp_GetNextCluster; [done..|lia|].
    rewrite Hcd, slice_image by lia.
    rewrite u32_small, (u32_small (off + len)) by lia.
    replace (zlen data - off - len) with (zlen data - (off + len)) by lia.
    replace (fat d c) with (match cs with [] => EOCC | c' :: _ => c' end).
    + assert (Hsl : zlen (slice data off len) = len) by (apply zlen_slice; lia).
      apply IH; [done|done|lia| |auto using in_cons|done|done|lia|lia|].
      * rewrite zlen_splice; lia.
      * pose proof (splice_app buffer (slice data off len)
          (slice data (off + len) (zlen data - (off + len))) off) as Hsa. rewrite Hsl in Hsa.
        rewrite Hsa, slice_split by lia. by replace (len + (zlen data - (off + len))) with (zlen data - off) by lia.
    + symmetry. destruct cs as [|c' t]; [by apply fat_EOCC|].
      apply fat_small; [done|]. specialize (Hcs c' (or_intror (or_introl eq_refl))). lia.
Qed.
End ReadLoop.

(** ** A path that is one name *)

Definition plain_name (path : list Z) : Prop :=
  path <> [] /\ Forall (fun c => c <> kSlash) path /\ (length path <= 15)%nat.

Lemma next_segment_plain path : forall i,
  Forall (fun c => c <> kSlash) path -> i + zlen path <= 15 -> next_segment path i = (path, []).
Proof.
  induction path as [|c t IH]; intros i Hf Hl; cbn [next_segment]; [done|].
  apply Forall_cons in Hf as [Hc Ht]. rewrite zlen_cons in Hl. pose proof (zlen_nonneg t).
  rewrite (proj2 (Z.eqb_neq c kSlash)), (proj2 (Z.ltb_lt i 15)) by (done || lia). cbn [negb andb].
  by rewrite IH by (done || lia).
Qed.

Lemma or_root_idem c : or_root drv (or_root drv c) = or_root drv c.
Proof.
  pose proof Hg as [? ? ? ? ? Hroot]. apply in_chain_spec in Hroot. unfold or_root.
  destruct (Z.eqb_spec c 0); [|by rewrite (proj2 (Z.eqb_neq c 0))].
  by rewrite (proj2 (Z.eqb_neq (root_clus_ drv) 0)) by lia.
Qed.

Lemma wp_GetFileEntry_plain d mm out path base (Q : option DirectoryEntry -> World D M -> Prop) :
  alloc_inv mm -> room [cb; 512] mm -> plain_name path ->
  (forall out', Q (lookup_chain kLoopSafety d path (or_root drv base)) (mkWorld d mm out')) ->
  wp (GetFileEntry drv path base) Q (mkWorld d mm out).
Proof.
  intros Hi Hr (Hne & Hs & Hl) HQ. destruct path as [|c t]; [done|].
  unfold GetFileEntry. rewrite cch_cons_0. pose proof Hs as Hs'. apply Forall_cons in Hs' as [Hc _].
  rewrite (proj2 (Z.eqb_neq c kSlash)) by done. cbn [length file_entry_loop].
  rewrite next_segment_plain; [|done|unfold zlen; lia].
  apply wp_bind, wp_FindDirectoryEntry; [done..|]. intros out'. rewrite or_root_idem.
  destruct (lookup_chain kLoopSafety d (c :: t) (or_root drv base)) eqn:Hlk; apply wp_ret;
    specialize (HQ out'); by rewrite ?Hlk in HQ.
Qed.

(** the directory, the names and the contents of a file that can be written *)
Record writable d (parent : Z) name path data : Prop := {
  wt_dir : in_chain (or_root drv parent) = true;
  wt_dir_fat : or_root drv parent < clusters drv;
  wt_dir_used : fat_raw d (or_root drv parent) <> 0;
  wt_slot : exists i, 0 <= i < 16 * spc /\
            slot_free (slot (cluster_data d (or_root drv parent)) i) = true;
  wt_new : forall i, scan_entries path (cluster_data d (or_root drv parent)) (num_entries drv) <> ScanFound i;
  wt_name : is_cstr name;
  wt_name0 : cch name 0 <> 0 /\ cch name 0 <> 229;
  wt_path : plain_name path;
  wt_match : IsNameEqual (name11 name) path = true;
  wt_data : Forall is_byte data;
  wt_size : 0 < zlen data < 2 ^ 32;
  wt_room : zlen data <= cb * Z.of_nat (length (free_clusters d))
}.

Lemma free_clusters_le d : (length (free_clusters d) <= 126)%nat.
Proof. unfold free_clusters. rewrite length_filter, length_seqZ. done. Qed.

Lemma scan_entry_bytes name path start size i :
  cch name 0 <> 0 /\ cch name 0 <> 229 -> IsNameEqual (name11 name) path = true ->
  scan_slot path (entry_bytes name start size 32) i = Some (ScanFound i).
Proof.
  intros [H00 H0e] Hm. unfold scan_slot.
  assert (Hr0 : rd (entry_bytes name start size 32) 0 = cch name 0) by reflexivity.
  assert (Hde : de_name (dirent (entry_bytes name start size 32) 0) = name11 name) by reflexivity.
  assert (Hat : de_attr (dirent (entry_bytes name start size 32) 0) = 32) by reflexivity.
  rewrite Hr0, Hde, Hat, Hm.
  by rewrite (proj2 (Z.eqb_neq _ 0)), (proj2 (Z.eqb_neq _ 229)).
Qed.

Lemma lookup_written d d' dir name path data cs i :
  in_chain dir = true ->
  cch name 0 <> 0 /\ cch name 0 <> 229 -> IsNameEqual (name11 name) path = true ->
  (forall k, scan_entries path (cluster_data d dir) (num_entries drv) <> ScanFound k) ->
  file_written d d' dir name data cs i ->
  lookup_chain kLoopSafety d' path dir
  = Some (dirent (entry_bytes name (last_of 0 (take 1 cs)) (zlen data) 32) 0).
Proof.
  intros Hin Hn0 Hm Hnew Hw. pose proof Hg as [? Hsz ? ? ? ?].
  replace kLoopSafety with (S (pred kLoopSafety)) by (unfold kLoopSafety; lia).
  cbn [lookup_chain]. rewrite Hin.
  destruct Hw as [_ _ _ _ Hir Hfree Hfirst Hslot _ _ _].
  rewrite num_entries_eq in Hnew |- *.
  rewrite (scan_added path (cluster_data d dir) _ _ i
            (entry_bytes name (last_of 0 (take 1 cs)) (zlen data) 32)); try done.
  - rewrite dirent_slot, Hslot, Z.eqb_refl; [done|lia..|]. rewrite zlen_cluster_data, cb_eq. lia.
  - rewrite zlen_cluster_data, cb_eq. lia.
  - by rewrite !zlen_cluster_data.
  - by apply scan_entry_bytes.
Qed.

(** reading a file that was written, and its size *)
Lemma wp_ReadFile_written d d' mm out dir parent name path data cs i buffer buffer_size
    (Q : Z * list Z -> World D M -> Prop) :
  alloc_inv mm -> room [512] mm -> room [cb; 512] mm -> or_root drv parent = dir ->
  writable d parent name path data -> file_written d d' dir name data cs i -> cs <> [] ->
  zlen data <= buffer_size -> zlen data <= zlen buffer ->
  (forall out', Q (zlen data, splice buffer 0 data) (mkWorld d' mm out')) ->
  wp (ReadFile 126 drv path buffer buffer_size parent) Q (mkWorld d' mm out).
Proof.
  intros Hi Hr5 Hrc <- [Hin Hdf Hused Hslot Hnew Hname Hn0 Hpath Hmatch Hdata Hsize Hroom] Hfw Hne Hbs Hbl HQ.
  set (dir := or_root drv parent) in *. pose proof (free_clusters_le d).
  unfold ReadFile. apply wp_bind, wp_GetFileEntry_plain; [done..|]. intros o1. fold dir.
  rewrite (lookup_written d d' dir name path data cs i) by done.
  destruct cs as [|c0 cs]; [done|]. change (last_of 0 (take 1 (c0 :: cs))) with c0.
  pose proof Hfw as [Hcs Hnd Hch Hh _ _ _ _ _ _ _].
  destruct (Hcs c0 (or_introl eq_refl)) as [Hc0 _].
  destruct (dirent_entry_bytes name c0 (zlen data) 32) as (_ & _ & Hsz & Hfc); [unfold is_u32; lia..|].
  rewrite Hsz, Hfc, (proj2 (Z.ltb_ge _ _)) by done.
  apply wp_bind, (wp_Buffer _ [512]); [done|apply cb_range|done|]. intros p mm' Hi' Hr' HF.
  apply wp_bind.
  pose proof (wp_read_file_loop data ltac:(lia) (c0 :: cs) 126 d' mm' o1 0 buffer) as Hl.
  rewrite Z.sub_0_r in Hl. apply Hl; try done; [intros; by apply Hcs|lia| |].
  - (* the chain is no longer than the free clusters *)
    assert (Hsub : c0 :: cs ⊆+ free_clusters d).
    { apply NoDup_submseteq; [|intros x Hx; apply elem_free, Hcs; by apply list_elem_of_In]. exact Hnd. }
    apply submseteq_length in Hsub. lia.
  - apply wp_bind, wp_kprintf, wp_bind, wp_Free, wp_ret. rewrite HF, slice_all. apply HQ.
Qed.

Lemma wp_GetFileSize_written d d' mm out name path data cs i (Q : Z -> World D M -> Prop) :
  alloc_inv mm -> room [cb; 512] mm ->
  writable d 0 name path data -> file_written d d' (or_root drv 0) name data cs i -> cs <> [] ->
  (forall out', Q (zlen data) (mkWorld d' mm out')) ->
  wp (GetFileSize drv path) Q (mkWorld d' mm out).
Proof.
  intros Hi Hrc [Hin Hdf Hused Hslot Hnew Hname Hn0 Hpath Hmatch Hdata Hsize Hroom] Hfw Hne HQ.
  unfold GetFileSize. apply wp_bind, wp_GetFileEntry_plain; [done..|]. intros o1.
  rewrite (lookup_written d d' (or_root drv 0) name path data cs i) by done.
  destruct cs as [|c0 cs]; [done|]. change (last_of 0 (take 1 (c0 :: cs))) with c0.
  destruct (fw_free _ _ _ _ _ _ _ Hfw c0 (or_introl eq_refl)) as [Hc0 _].
  destruct (dirent_entry_bytes name c0 (zlen data) 32) as (_ & _ & Hsz & _); [unfold is_u32; lia..|].
  apply wp_ret. rewrite Hsz. apply HQ.
Qed.

(** writing a file that can be written *)
Lemma wp_WriteFile_writable d mm out parent name path data (Q : unit -> World D M -> Prop) :
  alloc_inv mm -> room [512] mm -> room [cb; 512] mm -> writable d parent name path data ->
  (forall d' cs i out', cs <> [] -> file_written d d' (or_root drv parent) name data cs i ->
     Q tt (mkWorld d' mm out')) ->
  wp (WriteFile 126 drv name data (zlen data) parent) Q (mkWorld d mm out).
Proof.
  intros Hi Hr5 Hrc [Hin Hdf Hused Hslot Hnew Hname Hn0 Hpath Hmatch Hdata Hsize Hroom] HQ.
  pose proof (free_clusters_le d). pose proof (proj1 (in_chain_spec (or_root drv parent)) Hin) as Hdr.
  apply (wp_WriteFile (or_root drv parent) parent eq_refl); try done; [lia|by destruct Hrc].
Qed.

(** C1: a file that is written can be read back: with a free directory slot, enough
    free clusters and room for the buffers, WriteFile ends, and ReadFile of the name
    then ends with the file's size, its bytes at the start of the buffer and the
    rest of the buffer as it was; both give every buffer back, and reading leaves
    the disk alone.  126 iterations are enough for every loop. *)
Theorem WriteFile_ReadFile d mm out parent name path data buffer buffer_size :
  alloc_inv mm -> room [512] mm -> room [cb; 512] mm ->
  writable d parent name path data -> zlen data <= buffer_size -> zlen data <= zlen buffer ->
  exists d' out' out'',
    WriteFile 126 drv name data (zlen data) parent (mkWorld d mm out)
    = Done tt (mkWorld d' mm out')
    /\ ReadFile 126 drv path buffer buffer_size parent (mkWorld d' mm out')
       = Done (zlen data, splice buffer 0 data) (mkWorld d' mm out'').
Proof.
  intros Hi Hr5 Hrc Hwt Hbs Hbl.
  assert (HW : wp (WriteFile 126 drv name data (zlen data) parent)
    (fun _ w' => exists d' cs i out', w' = mkWorld d' mm out' /\ cs <> []
       /\ file_written d d' (or_root drv parent) name data cs i) (mkWorld d mm out)).
  { apply (wp_WriteFile_writable d mm out parent name path data); [done..|]. eauto 8. }
  apply wp_Done in HW as ([] & w' & HW & d' & cs & i & out' & -> & Hne & Hfw).
  assert (HR : wp (ReadFile 126 drv path buffer buffer_size parent)
    (fun r w' => r = (zlen data, splice buffer 0 data) /\ exists out'', w' = mkWorld d' mm out'')
    (mkWorld d' mm out')).
  { eapply wp_ReadFile_written; eauto. }
  apply wp_Done in HR as (r & w' & HR & -> & out'' & ->). eauto 6.
Qed.

(** C23: writing a file changes nothing else: the clusters in use keep their FAT
    words and, the directory apart, their data; the other entries of the directory
    stay; the second FAT stays a copy of the first; every buffer is given back. *)
Theorem WriteFile_frame d mm out parent name path data :
  alloc_inv mm -> room [512] mm -> room [cb; 512] mm -> writable d parent name path data ->
  exists d' out', WriteFile 126 drv name data (zlen data) parent (mkWorld d mm out)
                  = Done tt (mkWorld d' mm out')
    /\ (forall c, 2 <= c < clusters drv -> fat_raw d c <> 0 ->
          fat_raw d' c = fat_raw d c
          /\ (c <> or_root drv parent -> cluster_data d' c = cluster_data d c))
    /\ (exists i, slot_free (slot (cluster_data d (or_root drv parent)) i) = true
          /\ forall j, 0 <= j < 16 * spc -> j <> i ->
               slot (cluster_data d' (or_root drv parent)) j = slot (cluster_data d (or_root drv parent)) j)
    /\ (mirrored drv d -> mirrored drv d').
Proof.
  intros Hi Hr5 Hrc [Hin Hdf Hused Hslot Hnew Hname Hn0 Hpath Hmatch Hdata Hsize Hroom].
  set (dir := or_root drv parent) in *. pose proof (free_clusters_le d).
  pose proof (proj1 (in_chain_spec dir) Hin) as Hdr.
  assert (Hdir28 : 2 <= dir < 2 ^ 28) by (apply clusters_28; lia).
  assert (HW : wp (WriteFile 126 drv name data (zlen data) parent)
    (fun _ w' => exists d' cs i out', w' = mkWorld d' mm out' /\ file_written d d' dir name data cs i)
    (mkWorld d mm out)).
  { apply (wp_WriteFile dir parent eq_refl); try done; [lia|by destruct Hrc|]. eauto 8. }
  apply wp_Done in HW as ([] & w' & HW & d' & cs & i & out' & -> & Hfw). exists d', out'.
  pose proof Hfw as [Hcs Hnd Hch Hh Hir Hfree Hfirst Hsl Hfat Hoth Hmir].
  split; [done|]. split; [|split; [|done]].
  - intros c Hc Hcu. assert (Hni : ~ In c cs) by (intros Hx; by destruct (Hcs c Hx)).
    split; [by apply Hfat|]. intros Hcd. apply cluster_data_ext. intros lba Hlba.
    assert (Hc28 : 2 <= c < 2 ^ 28) by (by apply clusters_28).
    apply Hoth; [by eapply cluster_outside_fat| |].
    + intros x Hx Hxl. apply Hni. replace c with x; [done|]. destruct (Hcs x Hx).
      apply (cluster_disjoint x c lba); auto. lia.
    + intros Hdl. apply Hcd. by apply (cluster_disjoint c dir lba).
  - exists i. split; [done|]. intros j Hj Hji. by rewrite Hsl, (proj2 (Z.eqb_neq j i)).
Qed.

(** the [k]-th cluster of the chain that starts at [c] *)
Definition nth_link d c (k : nat) : Z := Nat.iter k (fat d) c.

Lemma nth_link_S d c k : nth_link d c (S k) = nth_link d (fat d c) k.
Proof. unfold nth_link. apply Nat.iter_succ_r. Qed.

Lemma lookup_chain_spec d name e : forall n c,
  lookup_chain n d name c = Some e <->
  exists k i, (k < n)%nat
    /\ (forall j, (j <= k)%nat -> in_chain (nth_link d c j) = true)
    /\ (forall j, (j < k)%nat ->
          scan_entries name (cluster_data d (nth_link d c j)) (num_entries drv) = ScanNone)
    /\ scan_entries name (cluster_data d (nth_link d c k)) (num_entries drv) = ScanFound i
    /\ e = dirent (cluster_data d (nth_link d c k)) i.
Proof.
  induction n as [|n IH]; intros c; cbn [lookup_chain].
  { split; [by case_match|]. intros (k & i & Hk & _). lia. }
  destruct (in_chain c) eqn:Hin.
  2:{ split; [done|]. intros (k & i & _ & Hall & _). specialize (Hall 0%nat ltac:(lia)).
      unfold nth_link in Hall. cbn in Hall. congruence. }
  destruct (scan_entries name (cluster_data d c) (num_entries drv)) as [|i|] eqn:Hs.
  - split; [done|]. intros (k & i & _ & _ & Hnone & Hf & _).
    destruct k as [|k]; [cbn in Hf; congruence|]. specialize (Hnone 0%nat ltac:(lia)).
    cbn in Hnone. congruence.
  - split.
    + intros [= <-]. exists 0%nat, i. split_and!; [lia| |lia|done|done].
      intros j Hj. by replace j with 0%nat by lia.
    + intros (k & i' & _ & _ & Hnone & Hf & ->). destruct k as [|k].
      * cbn in Hf |- *. congruence.
      * specialize (Hnone 0%nat ltac:(lia)). cbn in Hnone. congruence.
  - rewrite IH. split.
    + intros (k & i & Hk & Hall & Hnone & Hf & ->). exists (S k), i. rewrite !nth_link_S.
      split_and!; [lia| | |done|done]; intros [|j] Hj; try done; rewrite nth_link_S;
        [apply Hall|apply Hnone]; lia.
    + intros (k & i & Hk & Hall & Hnone & Hf & ->). destruct k as [|k].
      { cbn in Hf. congruence. }
      exists k, i. rewrite nth_link_S in Hf |- *. split_and!; [lia| | |done|done];
        intros j Hj; rewrite <- nth_link_S; [apply Hall|apply Hnone]; lia.
Qed.

(** FindDirectoryEntry ends on every disk, cyclic chains included, gives its
    buffers back and leaves the disk alone; it returns an entry exactly when one of
    the first 10001 clusters of the directory's chain holds the name before any end
    mark, and then the entry as it is on the disk. *)
Theorem FindDirectoryEntry_spec d mm out name parent :
  alloc_inv mm -> room [cb; 512] mm ->
  exists r out', FindDirectoryEntry drv name parent (mkWorld d mm out) = Done r (mkWorld d mm out')
    /\ forall e, r = Some e <->
        exists k i, (k < kLoopSafety)%nat
          /\ (forall j, (j <= k)%nat -> in_chain (nth_link d (or_root drv parent) j) = true)
          /\ (forall j, (j < k)%nat -> scan_entries name
                (cluster_data d (nth_link d (or_root drv parent) j)) (num_entries drv) = ScanNone)
          /\ scan_entries name (cluster_data d (nth_link d (or_root drv parent) k)) (num_entries drv)
             = ScanFound i
          /\ e = dirent (cluster_data d (nth_link d (or_root drv parent) k)) i.
Proof.
  intros Hi Hr. assert (Hwp : wp (FindDirectoryEntry drv name parent)
    (fun r w' => r = lookup_chain kLoopSafety d name (or_root drv parent)
                 /\ exists out', w' = mkWorld d mm out') (mkWorld d mm out)).
  { apply wp_FindDirectoryEntry; eauto. }
  apply wp_Done in Hwp as (r & w' & HF & -> & out' & ->). eexists _, out'. split; [exact HF|].
  intros e. apply lookup_chain_spec.
Qed.
End Files.

(** ** A file on the small volume *)

Definition small_data : list Z := (fun k => Z.of_nat k mod 256) <$> seq 1 700.

Lemma small_writable :
  writable small_volume small_disk 0 (c_lit "HELLO   TXT") (c_lit "hello.txt") small_data.
Proof.
  assert (Hfree : length (free_clusters small_volume small_disk) = 125%nat) by (vm_compute; reflexivity).
  assert (Hlen : zlen small_data = 700) by (vm_compute; reflexivity).
  split; try (vm_compute; reflexivity); try (vm_compute; split; congruence).
  - vm_compute. congruence.
  - exists 0. split; [split; [reflexivity|vm_compute; reflexivity]|vm_compute; reflexivity].
  - intros i. assert (Hs : scan_entries (c_lit "hello.txt")
      (cluster_data small_volume small_disk (or_root small_volume 0)) (num_entries small_volume) = ScanEnd)
      by (vm_compute; reflexivity). rewrite Hs. discriminate.
  - apply (bool_decide_unpack _). vm_compute. exact I.
  - split; [vm_compute; congruence|]. split; [|vm_compute; lia].
    apply (bool_decide_unpack _). vm_compute. exact I.
  - apply (bool_decide_unpack _). vm_compute. exact I.
  - rewrite Hfree, Hlen. vm_compute. congruence.
Qed.

Lemma WriteFile_ReadFile_witness : exists d' out' out'',
  WriteFile 126 small_volume (c_lit "HELLO   TXT") small_data 700 0 (mkWorld small_disk sample [])
  = Done tt (mkWorld d' sample out')
  /\ ReadFile 126 small_volume (c_lit "hello.txt") (replicate 1000 255) 1000 0 (mkWorld d' sample out')
     = Done (700, splice (replicate 1000 255) 0 small_data) (mkWorld d' sample out'').
Proof.
  exact (WriteFile_ReadFile small_volume small_geometry small_disk sample [] 0
    (c_lit "HELLO   TXT") (c_lit "hello.txt") small_data (replicate 1000 255) 1000
    sample_alloc_inv (proj1 small_room) (proj2 small_room) small_writable ltac:(vm_compute; congruence)
    ltac:(vm_compute; congruence)).
Defined.

Lemma WriteFile_frame_witness : exists d' out',
  WriteFile 126 small_volume (c_lit "HELLO   TXT") small_data 700 0 (mkWorld small_disk sample [])
  = Done tt (mkWorld d' sample out') /\ (mirrored small_volume small_disk -> mirrored small_volume d').
Proof.
  destruct (WriteFile_frame small_volume small_geometry small_disk sample [] 0
    (c_lit "HELLO   TXT") (c_lit "hello.txt") small_data
    sample_alloc_inv (proj1 small_room) (proj2 small_room) small_writable) as (d' & out' & H1 & _ & _ & H2).
  exists d', out'. split; [exact H1|exact H2].
Defined.

Lemma FindDirectoryEntry_spec_witness : exists r out',
  FindDirectoryEntry small_volume (c_lit "hello.txt") 0 (mkWorld small_disk sample [])
  = Done r (mkWorld small_disk sample out').
Proof.
  destruct (FindDirectoryEntry_spec small_volume small_geometry small_disk sample []
    (c_lit "hello.txt") 0 sample_alloc_inv (proj2 small_room)) as (r & out' & H1 & _).
  exists r, out'. exact H1.
Defined.
