(* ===== verification/Paging.v ===== *)
(** * Page tables (kernel/paging.hpp, kernel/paging.cpp)

    Tables live in page frames: [tables] gives the 512 entries of the frame at an
    address.  CR3 and the TLB invalidations are part of the state, as are the frame
    pool the tables come from and the [kprintf] calls.  [translate] is the walk the
    processor does; the theorems about it are in PagingMap.v. *)
From S2P Require Import Prelude Memory.

Definition kPageSize4K : Z := 4096.
Definition kPageSize2M : Z := 2 * 1024 * 1024.

(** ** PageTableEntry *)

(** the bit fields *)
Definition present (e : Z) : bool := Z.testbit e 0.
Definition read_write (e : Z) : bool := Z.testbit e 1.
Definition user_supervisor (e : Z) : bool := Z.testbit e 2.
Definition huge_page (e : Z) : bool := Z.testbit e 7.

(** [bits.f = b] for the one-bit field [f] at position [i] *)
Definition set_bit (i : Z) (b : bool) (e : Z) : Z := if b then Z.setbit e i else Z.clearbit e i.

Definition SetAddress (addr e : Z) : Z :=
  Z.lor (Z.ldiff e (Z.shiftl (Z.ones 40) 12))
        (Z.shiftl (Z.land (Z.shiftr addr 12) (Z.ones 40)) 12).
Definition GetAddress (e : Z) : Z := Z.shiftl (Z.land (Z.shiftr e 12) (Z.ones 40)) 12.

(** ** PageManager *)

Definition kPresent : Z := 1.
Definition kWritable : Z := 2.
Definition kUser : Z := 4.
Definition has (flags flag : Z) : bool := negb (Z.land flags flag =? 0).

Record PM (M : Type) := mkPM {
  pml4_table_ : Z;
  cr3 : Z;
  tables : gmap Z (list Z);
  pool : M;
  invalidated : list Z;
  pm_out : list kevent
}.
Arguments mkPM {M}.
Arguments pml4_table_ {M}.
Arguments cr3 {M}.
Arguments tables {M}.
Arguments pool {M}.
Arguments invalidated {M}.
Arguments pm_out {M}.

(** the entries of a table; a frame nothing was written to reads as zeros *)
Definition table_at (ts : gmap Z (list Z)) (tbl : Z) : list Z := default (replicate 512 0) (ts !! tbl).
Definition entry_at (ts : gmap Z (list Z)) (tbl i : Z) : Z := rd (table_at ts tbl) i.

(** the index of [vaddr] in the table of a level: 1 for PT, ..., 4 for PML4 *)
Definition index (level : nat) (vaddr : Z) : Z :=
  Z.land (Z.shiftr vaddr (12 + 9 * (Z.of_nat level - 1))) 511.

Section PageManager.
Context {M : Type} `{FramePool M}.
Local Abbreviation PM := (PM M).
Implicit Types s : PM.

Definition with_tables s ts : PM := mkPM (pml4_table_ s) (cr3 s) ts (pool s) (invalidated s) (pm_out s).
Definition with_pool s m : PM := mkPM (pml4_table_ s) (cr3 s) (tables s) m (invalidated s) (pm_out s).
Definition with_pml4 s p : PM := mkPM p (cr3 s) (tables s) (pool s) (invalidated s) (pm_out s).
Definition print (fmt : string) s : PM :=
  mkPM (pml4_table_ s) (cr3 s) (tables s) (pool s) (invalidated s) (pm_out s ++ [KP (c_lit fmt) []]).
Definition LoadCR3 (pml4_addr : Z) s : PM :=
  mkPM (pml4_table_ s) pml4_addr (tables s) (pool s) (invalidated s) (pm_out s).
Definition InvalidateTLB (vaddr : Z) s : PM :=
  mkPM (pml4_table_ s) (cr3 s) (tables s) (pool s) (invalidated s ++ [vaddr]) (pm_out s).

Definition entry s (tbl i : Z) : Z := entry_at (tables s) tbl i.
Definition set_entry (tbl i e : Z) s : PM :=
  with_tables s (<[tbl := upd (table_at (tables s) tbl) i e]> (tables s)).
(** [memset(frame, 0, 4096)] *)
Definition clear_frame (frame : Z) s : PM :=
  with_tables s (<[frame := replicate 512 0]> (tables s)).

(** the new table's address, 0 for nullptr *)
Definition AllocateTable s : Z * PM :=
  let '(ptr, m) := AllocateFrame (pool s) in
  if ptr =? 0 then (0, with_pool s m) else (ptr, clear_frame ptr (with_pool s m)).

(** the lambda of MapPage *)
Definition EnsureEntry (flags tbl i : Z) s : Z * PM :=
  if negb (present (entry s tbl i)) then
    let '(new_table, s) := AllocateTable s in
    if new_table =? 0 then (0, s)
    else
      let e := SetAddress new_table (entry s tbl i) in
      let e := set_bit 2 (has flags kUser) (set_bit 1 true (set_bit 0 true e)) in
      (GetAddress e, set_entry tbl i e s)
  else
    let s := if has flags kUser then set_entry tbl i (set_bit 2 true (entry s tbl i)) s else s in
    (GetAddress (entry s tbl i), s).

(** the entries that stand for the 4 KiB pages of a 2 MiB page *)
Definition split_entry (huge k : Z) : Z :=
  let e := SetAddress (u64 (GetAddress huge + k * kPageSize4K)) 0 in
  let e := Z.lor e (Z.land huge 4095) in
  set_bit 0 true (set_bit 7 false e).

(** [false] when there is no frame for the new table *)
Definition SplitHuge (flags pd_table pd_idx : Z) s : bool * PM :=
  if present (entry s pd_table pd_idx) && huge_page (entry s pd_table pd_idx) then
    let '(new_pt, s) := AllocateTable s in
    if new_pt =? 0 then (false, s)
    else
      let huge := entry s pd_table pd_idx in
      let s := for_loop 512 0 (fun k => set_entry new_pt k (split_entry huge k)) s in
      let e := SetAddress new_pt huge in
      let e := set_bit 0 true (set_bit 7 false e) in
      let e := if has flags kUser then set_bit 2 true e else e in
      (true, set_entry pd_table pd_idx e s)
  else (true, s).

(** one turn of the loop of MapPage; [false] when it returns from the function *)
Definition map_one (vaddr paddr flags : Z) s : bool * PM :=
  let '(pdp_table, s) := EnsureEntry flags (pml4_table_ s) (index 4 vaddr) s in
  if pdp_table =? 0 then (false, s)
  else
    let '(pd_table, s) := EnsureEntry flags pdp_table (index 3 vaddr) s in
    if pd_table =? 0 then (false, s)
    else
      let '(split, s) := SplitHuge flags pd_table (index 2 vaddr) s in
      if negb split then (false, s)
      else
        let '(pt_table, s) := EnsureEntry flags pd_table (index 2 vaddr) s in
        if pt_table =? 0 then (false, s)
        else
          let e := SetAddress paddr (entry s pt_table (index 1 vaddr)) in
          let e := set_bit 0 (has flags kPresent) e in
          let e := set_bit 1 (has flags kWritable) e in
          let e := set_bit 2 (has flags kUser) e in
          (true, InvalidateTLB vaddr (set_entry pt_table (index 1 vaddr) e s)).

Fixpoint map_loop (n : nat) (i virtual_addr physical_addr flags : Z) s : PM :=
  match n with
  | O => s
  | S n' =>
      match map_one (u64 (virtual_addr + i * kPageSize4K)) (u64 (physical_addr + i * kPageSize4K))
              flags s with
      | (true, s) => map_loop n' (i + 1) virtual_addr physical_addr flags s
      | (false, s) => s
      end
  end.

Definition MapPage (virtual_addr physical_addr count flags : Z) s : PM :=
  if pml4_table_ s =? 0 then s
  else map_loop (Z.to_nat count) 0 virtual_addr physical_addr flags s.

Fixpoint alloc_loop (n : nat) (i virtual_addr flags : Z) s : bool * PM :=
  match n with
  | O => (true, s)
  | S n' =>
      let '(frame, m) := AllocateFrame (pool s) in
      let s := with_pool s m in
      if frame =? 0 then (false, s)
      else
        let s := clear_frame frame s in
        let s := MapPage (u64 (virtual_addr + i * kPageSize4K)) frame 1 flags s in
        alloc_loop n' (i + 1) virtual_addr flags s
  end.

Definition AllocateVirtual (virtual_addr size flags : Z) s : bool * PM :=
  if negb (virtual_addr mod kPageSize4K =? 0) then (false, s)
  else
    let num_pages := u64 (size + kPageSize4K - 1) / kPageSize4K in
    alloc_loop (Z.to_nat num_pages) 0 virtual_addr flags s.

(** an entry of the identity mapping *)
Definition table_entry (table : Z) (e : Z) : Z :=
  set_bit 2 true (set_bit 1 true (set_bit 0 true (SetAddress table e))).

Definition identity_pd (i_pdp pd_table : Z) s : PM :=
  for_loop 512 0 (fun i_pd s =>
    let physical_addr := u64 (i_pdp * 1024 * 1024 * 1024 + i_pd * 2 * 1024 * 1024) in
    let e := SetAddress physical_addr (entry s pd_table i_pd) in
    let e := set_bit 7 true (set_bit 1 true (set_bit 0 true e)) in
    set_entry pd_table i_pd (set_bit 2 true e) s) s.

Definition identity_pdp (pdp_table : Z) s : PM :=
  for_loop 64 0 (fun i_pdp s =>
    let '(pd_table, s) := AllocateTable s in
    let s := set_entry pdp_table i_pdp (table_entry pd_table (entry s pdp_table i_pdp)) s in
    identity_pd i_pdp pd_table s) s.

(** [None]: no frame for the PML4, the code halts *)
Definition Initialize s : option PM :=
  let s := print "[Paging] Initializing with 2MB Huge Pages...\n" s in
  let '(pml4, s) := AllocateTable s in
  let s := with_pml4 s pml4 in
  if pml4 =? 0 then None
  else
    let '(pdp_table, s) := AllocateTable s in
    let s := set_entry pml4 0 (table_entry pdp_table (entry s pml4 0)) s in
    let s := identity_pdp pdp_table s in
    let s := print "[Paging] Identity Mapping (0-64GB) Created.\n" s in
    let s := LoadCR3 (pml4_table_ s) s in
    Some (print "[Paging] CR3 Loaded. Paging is active!\n" s).

(** ** Page tables of processes *)

Definition GetKernelCR3 s : Z := pml4_table_ s.

Definition CopyPageTable (src : Z) s : Z * PM :=
  let '(new_table, s) := AllocateTable s in
  if new_table =? 0 then (0, s)
  else (new_table, for_loop 512 0 (fun i s => set_entry new_table i (entry s src i) s) s).

Fixpoint FreePageTableHierarchy (level : nat) (table : Z) (free_frames : bool) s : PM :=
  match level with
  | O => s
  | S below =>
      if table =? 0 then s
      else
        for_loop 512 0 (fun i s =>
          let e := entry s table i in
          if negb (present e) then s
          else
            let child_addr := GetAddress e in
            if child_addr =? 0 then s
            else
              match below with
              | O => if free_frames then with_pool s (FreeFrame child_addr (pool s)) else s
              | S _ =>
                  if huge_page e then s
                  else
                    let s := FreePageTableHierarchy below child_addr free_frames s in
                    with_pool s (FreeFrame child_addr (pool s))
              end) s
  end.

(** the copy of the page directory that [pdp] has at [i] *)
Definition copy_directory (pdp i : Z) s : PM :=
  if present (entry s pdp i) then
    let '(new_pd, s) := CopyPageTable (GetAddress (entry s pdp i)) s in
    if new_pd =? 0 then s else set_entry pdp i (SetAddress new_pd (entry s pdp i)) s
  else s.

Definition CreateProcessPageTable s : Z * PM :=
  let '(new_pml4, s) := CopyPageTable (pml4_table_ s) s in
  if new_pml4 =? 0 then (0, print "[Paging] Failed to allocate PML4 for new process\n" s)
  else if present (entry s new_pml4 0) then
    let '(new_pdp, s) := CopyPageTable (GetAddress (entry s new_pml4 0)) s in
    if new_pdp =? 0 then (new_pml4, s)
    else
      let s := set_entry new_pml4 0 (SetAddress new_pdp (entry s new_pml4 0)) s in
      let s := copy_directory new_pdp 0 s in
      let s := copy_directory new_pdp 1 s in
      (new_pml4, s)
  else (new_pml4, s).

Definition SwitchPageTable (cr3_value : Z) s : PM :=
  if cr3_value =? 0 then print "[Paging] Warning: Attempted to switch to null page table\n" s
  else LoadCR3 cr3_value s.

(** the page directory that [pdp] has at [i] goes back to the pool *)
Definition free_directory (pdp i : Z) s : PM :=
  if present (entry s pdp i) then
    let s := with_pool s (FreeFrame (GetAddress (entry s pdp i)) (pool s)) in
    set_entry pdp i 0 s
  else s.

Definition FreeProcessPageTable (cr3_value : Z) s : PM :=
  if cr3_value =? pml4_table_ s then print "[Paging] Warning: Cannot free kernel page table\n" s
  else if cr3_value =? 0 then s
  else
    let s :=
      if present (entry s cr3_value 0) then
        let target_pdp := GetAddress (entry s cr3_value 0) in
        let s := free_directory target_pdp 0 s in
        let s := free_directory target_pdp 1 s in
        with_pool s (FreeFrame target_pdp (pool s))
      else s in
    with_pool s (FreeFrame cr3_value (pool s)).

Definition AllocateVirtualForProcess (target_cr3 virtual_addr size flags : Z) s : bool * PM :=
  let current_cr3 := cr3 s in
  let s := if negb (target_cr3 =? current_cr3) then SwitchPageTable target_cr3 s else s in
  let original_pml4 := pml4_table_ s in
  let s := with_pml4 s target_cr3 in
  let '(result, s) := AllocateVirtual virtual_addr size flags s in
  let s := with_pml4 s original_pml4 in
  let s := if negb (target_cr3 =? current_cr3) then SwitchPageTable current_cr3 s else s in
  (result, s).
End PageManager.
