(* ===== verification/Tasks.v ===== *)
(** * Tasks and the ready queue (kernel/task/task.hpp, task_manager.cpp)

    Task structures live in a heap of addresses and are linked through their
    [next] and [prev] pointers, as in the code.  An operation is [None] when it
    follows a pointer to no task; TaskQueue.v shows that a well-formed queue never
    does, and what the operations do to the queue as a list. *)
From S2P Require Import Prelude Memory CStr Paging.

Inductive TaskState := READY | RUNNING | BLOCKED | TERMINATED.

#[export] Instance TaskState_eq_dec : EqDecision TaskState.
Proof. solve_decision. Defined.

Record TaskContext := mkTaskContext {
  ctx_r15 : Z; ctx_r14 : Z; ctx_r13 : Z; ctx_r12 : Z;
  ctx_r11 : Z; ctx_r10 : Z; ctx_r9 : Z; ctx_r8 : Z;
  ctx_rdi : Z; ctx_rsi : Z; ctx_rbp : Z; ctx_rsp : Z;
  ctx_rbx : Z; ctx_rdx : Z; ctx_rcx : Z; ctx_rax : Z;
  ctx_cs : Z; ctx_ss : Z; ctx_ds : Z; ctx_es : Z; ctx_fs : Z; ctx_gs : Z;
  ctx_rip : Z; ctx_rflags : Z; ctx_cr3 : Z
}.

(** memset(&context, 0, sizeof(TaskContext)) *)
Definition zero_context : TaskContext :=
  mkTaskContext 0 0 0 0 0 0 0 0 0 0 0 0 0 0 0 0 0 0 0 0 0 0 0 0 0.

Definition kMaxFDs : Z := 16.

Record Task := mkTask {
  task_id : Z;
  state : TaskState;
  context : TaskContext;
  kernel_stack : Z;
  kernel_stack_size : Z;
  next : Z;
  prev : Z;
  name : list Z;
  entry_point : Z;
  argc : Z;
  argv : Z;
  is_app : bool;
  user_stack : Z;
  user_stack_size : Z;
  user_stack_top : Z;
  process_fds : list Z;
  parent_task_id : Z
}.

(** sizeof(Task) in the System V ABI *)
Definition sizeof_Task : Z := 472.

Definition set_state (x : TaskState) (t : Task) : Task :=
  mkTask (task_id t) x (context t) (kernel_stack t) (kernel_stack_size t) (next t) (prev t)
    (name t) (entry_point t) (argc t) (argv t) (is_app t) (user_stack t) (user_stack_size t)
    (user_stack_top t) (process_fds t) (parent_task_id t).
Definition set_context (x : TaskContext) (t : Task) : Task :=
  mkTask (task_id t) (state t) x (kernel_stack t) (kernel_stack_size t) (next t) (prev t)
    (name t) (entry_point t) (argc t) (argv t) (is_app t) (user_stack t) (user_stack_size t)
    (user_stack_top t) (process_fds t) (parent_task_id t).
Definition set_next (x : Z) (t : Task) : Task :=
  mkTask (task_id t) (state t) (context t) (kernel_stack t) (kernel_stack_size t) x (prev t)
    (name t) (entry_point t) (argc t) (argv t) (is_app t) (user_stack t) (user_stack_size t)
    (user_stack_top t) (process_fds t) (parent_task_id t).
Definition set_prev (x : Z) (t : Task) : Task :=
  mkTask (task_id t) (state t) (context t) (kernel_stack t) (kernel_stack_size t) (next t) x
    (name t) (entry_point t) (argc t) (argv t) (is_app t) (user_stack t) (user_stack_size t)
    (user_stack_top t) (process_fds t) (parent_task_id t).
(** [task->is_app = true; task->entry_point = e] *)
Definition set_app (e : Z) (t : Task) : Task :=
  mkTask (task_id t) (state t) (context t) (kernel_stack t) (kernel_stack_size t) (next t) (prev t)
    (name t) e (argc t) (argv t) true (user_stack t) (user_stack_size t)
    (user_stack_top t) (process_fds t) (parent_task_id t).
Definition set_user_stack (base size top : Z) (t : Task) : Task :=
  mkTask (task_id t) (state t) (context t) (kernel_stack t) (kernel_stack_size t) (next t) (prev t)
    (name t) (entry_point t) (argc t) (argv t) (is_app t) base size top (process_fds t)
    (parent_task_id t).
(** [task->entry_point = e; task->argc = n], and the other members CreateProcess sets *)
Definition set_entry_argc (e n : Z) (t : Task) : Task :=
  mkTask (task_id t) (state t) (context t) (kernel_stack t) (kernel_stack_size t) (next t) (prev t)
    (name t) e n (argv t) (is_app t) (user_stack t) (user_stack_size t)
    (user_stack_top t) (process_fds t) (parent_task_id t).
Definition set_argv (x : Z) (t : Task) : Task :=
  mkTask (task_id t) (state t) (context t) (kernel_stack t) (kernel_stack_size t) (next t) (prev t)
    (name t) (entry_point t) (argc t) x (is_app t) (user_stack t) (user_stack_size t)
    (user_stack_top t) (process_fds t) (parent_task_id t).
Definition set_name (x : list Z) (t : Task) : Task :=
  mkTask (task_id t) (state t) (context t) (kernel_stack t) (kernel_stack_size t) (next t) (prev t)
    x (entry_point t) (argc t) (argv t) (is_app t) (user_stack t) (user_stack_size t)
    (user_stack_top t) (process_fds t) (parent_task_id t).
Definition set_cr3 (x : Z) (c : TaskContext) : TaskContext :=
  mkTaskContext (ctx_r15 c) (ctx_r14 c) (ctx_r13 c) (ctx_r12 c) (ctx_r11 c) (ctx_r10 c) (ctx_r9 c)
    (ctx_r8 c) (ctx_rdi c) (ctx_rsi c) (ctx_rbp c) (ctx_rsp c) (ctx_rbx c) (ctx_rdx c) (ctx_rcx c)
    (ctx_rax c) (ctx_cs c) (ctx_ss c) (ctx_ds c) (ctx_es c) (ctx_fs c) (ctx_gs c) (ctx_rip c)
    (ctx_rflags c) x.

(** The static members of TaskManager and the memory they point into: the tasks,
    the 64-bit words on kernel stacks, the argument arrays and strings *)
Record TM (M : Type) := mkTM {
  heap : gmap Z Task;
  current_task_ : Z;
  ready_queue_head_ : Z;
  ready_queue_tail_ : Z;
  next_task_id_ : Z;
  task_count_ : Z;
  words : gmap Z Z;
  arrays : gmap Z (list Z);
  strings : gmap Z (list Z);
  pages : PM M
}.
Arguments mkTM {M}.
Arguments heap {M}.
Arguments current_task_ {M}.
Arguments ready_queue_head_ {M}.
Arguments ready_queue_tail_ {M}.
Arguments next_task_id_ {M}.
Arguments task_count_ {M}.
Arguments words {M}.
Arguments arrays {M}.
Arguments strings {M}.
Arguments pages {M}.

Definition kKernelStackSize : Z := 16 * 1024.

Section TaskManager.
Context {M : Type} `{FrameAllocator M} `{FramePool M}.
Local Abbreviation TM := (TM M).
Implicit Types s : TM.

Definition with_heap h s : TM :=
  mkTM h (current_task_ s) (ready_queue_head_ s) (ready_queue_tail_ s) (next_task_id_ s)
    (task_count_ s) (words s) (arrays s) (strings s) (pages s).
Definition with_head p s : TM :=
  mkTM (heap s) (current_task_ s) p (ready_queue_tail_ s) (next_task_id_ s)
    (task_count_ s) (words s) (arrays s) (strings s) (pages s).
Definition with_tail p s : TM :=
  mkTM (heap s) (current_task_ s) (ready_queue_head_ s) p (next_task_id_ s)
    (task_count_ s) (words s) (arrays s) (strings s) (pages s).
Definition with_pages pm s : TM :=
  mkTM (heap s) (current_task_ s) (ready_queue_head_ s) (ready_queue_tail_ s) (next_task_id_ s)
    (task_count_ s) (words s) (arrays s) (strings s) pm.
Definition with_strings m s : TM :=
  mkTM (heap s) (current_task_ s) (ready_queue_head_ s) (ready_queue_tail_ s) (next_task_id_ s)
    (task_count_ s) (words s) (arrays s) m (pages s).
Definition with_arrays m s : TM :=
  mkTM (heap s) (current_task_ s) (ready_queue_head_ s) (ready_queue_tail_ s) (next_task_id_ s)
    (task_count_ s) (words s) m (strings s) (pages s).
Definition with_mm (m : M) s : TM := with_pages (with_pool (pages s) m) s.
Definition with_count n s : TM :=
  mkTM (heap s) (current_task_ s) (ready_queue_head_ s) (ready_queue_tail_ s) (next_task_id_ s)
    n (words s) (arrays s) (strings s) (pages s).
Definition tprintf (fmt : string) (args : list karg) s : TM :=
  let pm := pages s in
  with_pages (mkPM (pml4_table_ pm) (cr3 pm) (tables pm) (pool pm) (invalidated pm)
                (pm_out pm ++ [KP (c_lit fmt) args])) s.

(** MemoryManager::Free *)
Definition kfree (p size : Z) s : TM := with_mm (Free p size (pool (pages s))) s.

(** [task->field = ...] *)
Definition modify (p : Z) (f : Task -> Task) s : option TM :=
  t ← heap s !! p; Some (with_heap (<[p := f t]> (heap s)) s).

Definition Initialize s : TM :=
  tprintf "[TaskManager] Initialized.\n" []
    (mkTM (heap s) 0 0 0 0 0 (words s) (arrays s) (strings s) (pages s)).

Definition GetCurrentTask s : Z := current_task_ s.
Definition SetCurrentTask (task : Z) s : TM :=
  mkTM (heap s) task (ready_queue_head_ s) (ready_queue_tail_ s) (next_task_id_ s)
    (task_count_ s) (words s) (arrays s) (strings s) (pages s).
Definition GetNextTask s : Z := ready_queue_head_ s.
Definition GetTaskCount s : Z := task_count_ s.

(** ** The ready queue *)

Definition AddToReadyQueue (task : Z) s : option TM :=
  if task =? 0 then Some s
  else
    t ← heap s !! task;
    if negb (next t =? 0) || negb (prev t =? 0) || (task =? ready_queue_head_ s) then Some s
    else
      s ← modify task (fun t => set_prev (ready_queue_tail_ s) (set_next 0 (set_state READY t))) s;
      s ← (if negb (ready_queue_tail_ s =? 0) then modify (ready_queue_tail_ s) (set_next task) s
           else Some (with_head task s));
      Some (with_tail task s).

Definition RemoveFromReadyQueue (task : Z) s : option TM :=
  if task =? 0 then Some s
  else
    t ← heap s !! task;
    let s := if task =? ready_queue_head_ s then with_head (next t) s else s in
    let s := if task =? ready_queue_tail_ s then with_tail (prev t) s else s in
    s ← (if negb (prev t =? 0) then modify (prev t) (set_next (next t)) s else Some s);
    s ← (if negb (next t =? 0) then modify (next t) (set_prev (prev t)) s else Some s);
    modify task (fun t => set_prev 0 (set_next 0 t)) s.

Definition BlockTask (task : Z) s : option TM :=
  if task =? 0 then Some s
  else
    s ← RemoveFromReadyQueue task s;
    modify task (set_state BLOCKED) s.

Definition WakeTask (task : Z) s : option TM :=
  if task =? 0 then Some s
  else
    t ← heap s !! task;
    if decide (state t = BLOCKED) then AddToReadyQueue task s else Some s.

(** ** Creating and ending tasks *)

(** the task CreateTask fills in on its zeroed structure *)
Definition initial_context (stack_top entry cr3 : Z) : TaskContext :=
  mkTaskContext 0 0 0 0 0 0 0 0 0 0 0 stack_top 0 0 0 0 8 16 16 16 0 0 entry 514 cr3.

Definition new_task (id stack stack_top entry cr3 : Z) : Task :=
  mkTask id READY (initial_context stack_top entry cr3) stack kKernelStackSize 0 0
    (replicate 32 0) 0 0 0 false 0 0 0 (replicate 16 0) 0.

(** the task's address, 0 for nullptr *)
Definition CreateTask (entry : Z) s : Z * TM :=
  let '(task, m) := Allocate sizeof_Task 16 (pool (pages s)) in
  let s := with_mm m s in
  if task =? 0 then (0, tprintf "[TaskManager] Failed to allocate Task struct.\n" [] s)
  else
    let '(stack, m) := Allocate kKernelStackSize 16 (pool (pages s)) in
    let s := with_mm m s in
    if stack =? 0 then
      (0, kfree task sizeof_Task (tprintf "[TaskManager] Failed to allocate kernel stack.\n" [] s))
    else
      let id := next_task_id_ s in
      let stack_top := u64 (stack + kKernelStackSize) in
      let stack_top := Z.ldiff stack_top 15 in
      let stack_top := u64 (stack_top - 8) in
      let t := new_task id stack stack_top entry (cr3 (pages s)) in
      let s := mkTM (<[task := t]> (heap s)) (current_task_ s) (ready_queue_head_ s)
                 (ready_queue_tail_ s) (u64 (id + 1)) (u64 (task_count_ s + 1))
                 (<[stack_top := entry]> (words s)) (arrays s) (strings s) (pages s) in
      (task, tprintf "[TaskManager] Created Task ID=%lu, Entry=%lx\n" [KInt id; KInt entry] s).

(** the argument strings of [argv], then the array itself *)
Fixpoint free_args (args : list Z) s : option TM :=
  match args with
  | [] => Some s
  | p :: rest =>
      if p =? 0 then free_args rest s
      else
        str ← strings s !! p;
        free_args rest (kfree p (strlen str + 1) s)
  end.

Definition free_argv (argv argc : Z) s : option TM :=
  if argv =? 0 then Some s
  else
    args ← arrays s !! argv;
    s ← free_args (take (Z.to_nat argc) args) s;
    Some (kfree argv (u64 (8 * (argc + 1))) s).

Definition TerminateTask (task : Z) s : option TM :=
  if task =? 0 then Some s
  else
    s ← RemoveFromReadyQueue task s;
    s ← modify task (set_state TERMINATED) s;
    t ← heap s !! task;
    s ← (if is_app t then
           let cr := ctx_cr3 (context t) in
           let s := if negb (cr =? 0) && negb (cr =? GetKernelCR3 (pages s))
                    then with_pages (FreeProcessPageTable cr (pages s)) s else s in
           free_argv (argv t) (argc t) s
         else Some s);
    let s := if kernel_stack t =? 0 then s else kfree (kernel_stack t) (kernel_stack_size t) s in
    let s := kfree task sizeof_Task s in
    let s := with_heap (delete task (heap s)) s in
    let s := with_count (u64 (task_count_ s - 1)) s in
    Some (tprintf "[TaskManager] Terminated Task.\n" [] s).

Definition kUserStackTop : Z := 1879048192.  (* 0x70000000 *)
Definition kUserStackSize : Z := 64 * 1024.
Definition kUserStackBase : Z := kUserStackTop - kUserStackSize.

Definition CreateAppTask (wrapper_entry app_entry : Z) s : option (Z * TM) :=
  let '(task, s) := CreateTask wrapper_entry s in
  if task =? 0 then Some (0, s)
  else
    s ← modify task (set_app app_entry) s;
    let '(process_cr3, pm) := CreateProcessPageTable (pages s) in
    let s := with_pages pm s in
    if process_cr3 =? 0 then
      s ← TerminateTask task (tprintf "[TaskManager] Failed to create process page table\n" [] s);
      Some (0, s)
    else
      s ← modify task (fun t => set_context (set_cr3 process_cr3 (context t)) t) s;
      let '(ok, pm) := AllocateVirtualForProcess process_cr3 kUserStackBase kUserStackSize
                         (Z.lor kPresent (Z.lor kWritable kUser)) (pages s) in
      let s := with_pages pm s in
      if negb ok then
        let s := tprintf "[TaskManager] Failed to allocate user stack\n" [] s in
        let s := with_pages (FreeProcessPageTable process_cr3 (pages s)) s in
        s ← TerminateTask task s;
        Some (0, s)
      else
        s ← modify task (set_user_stack kUserStackBase kUserStackSize kUserStackTop) s;
        t ← heap s !! task;
        Some (task, tprintf "[TaskManager] Created AppTask ID=%lu, AppEntry=%lx, CR3=%lx\n"
                      [KInt (task_id t); KInt app_entry; KInt process_cr3] s).
End TaskManager.
