(* ===== verification/TaskQueue.v ===== *)
(** * The ready queue as a list

    [queue s l]: the doubly linked list between [ready_queue_head_] and
    [ready_queue_tail_] holds the tasks [l], in order, and every other task is
    unlinked.  AddToReadyQueue, RemoveFromReadyQueue, BlockTask and WakeTask are
    list operations under it, and never follow a dangling pointer. *)
From S2P Require Import Prelude Memory CStr Paging Tasks.

(** ** Doubly linked segments *)

Fixpoint dll (h : gmap Z Task) (prv : Z) (l : list Z) (nxt : Z) : Prop :=
  match l with
  | [] => True
  | p :: t => exists tk, h !! p = Some tk /\ prev tk = prv /\ next tk = List.hd nxt t /\ dll h p t nxt
  end.

Definition last_or (d : Z) (l : list Z) : Z := List.last l d.

Lemma last_or_cons d p l : last_or d (p :: l) = last_or p l.
Proof. unfold last_or. revert p. induction l as [|x l IH]; intros p; cbn; [done|]. destruct l; [done|]. apply IH. Qed.

Lemma last_or_app d l1 l2 : last_or d (l1 ++ l2) = last_or (last_or d l1) l2.
Proof. revert d. induction l1 as [|x l IH]; intros d; [done|]. cbn [app]. by rewrite !last_or_cons, IH. Qed.

Lemma last_or_in d l : l <> [] -> last_or d l ∈ l.
Proof.
  revert d. induction l as [|x l IH]; intros d Hne; [done|]. rewrite last_or_cons.
  destruct l as [|y l]; [by left|]. right. by apply IH.
Qed.

Lemma hd_in d (l : list Z) : l <> [] -> List.hd d l ∈ l.
Proof. destruct l; [done|]. by left. Qed.

Lemma dll_app h l1 : forall prv l2 nxt,
  dll h prv (l1 ++ l2) nxt <-> dll h prv l1 (List.hd nxt l2) /\ dll h (last_or prv l1) l2 nxt.
Proof.
  induction l1 as [|p t IH]; intros prv l2 nxt; cbn [app dll]; [split; [by split|by intros []]|].
  rewrite last_or_cons. split.
  - intros (tk & Ht & Hp & Hn & Hd). apply IH in Hd as [H1 H2]. split; [|done].
    exists tk. split_and!; try done. rewrite Hn. by destruct t.
  - intros [(tk & Ht & Hp & Hn & Hd) H2]. exists tk. split_and!; try done; [|by apply IH].
    rewrite Hn. by destruct t.
Qed.

Lemma dll_frame h h' l : forall prv nxt,
  (forall p, p ∈ l -> h' !! p = h !! p) -> dll h prv l nxt -> dll h' prv l nxt.
Proof.
  induction l as [|p t IH]; intros prv nxt Heq Hd; cbn [dll] in *; [done|].
  destruct Hd as (tk & Ht & Hp & Hn & Hd). exists tk. rewrite Heq by (by left).
  split_and!; try done. apply IH; [|done]. intros q Hq. apply Heq. by right.
Qed.

Lemma dll_lookup h l prv nxt p : dll h prv l nxt -> p ∈ l -> is_Some (h !! p).
Proof.
  revert prv. induction l as [|q t IH]; intros prv Hd Hp; cbn [dll] in *; [by apply elem_of_nil in Hp|].
  destruct Hd as (tk & Ht & _ & _ & Hd). apply elem_of_cons in Hp as [->|Hp]; eauto.
Qed.

(** redirecting the segment's outer links *)
Lemma dll_set_last h l prv nxt x tk :
  NoDup l -> l <> [] -> dll h prv l nxt -> h !! last_or 0 l = Some tk ->
  dll (<[last_or 0 l := set_next x tk]> h) prv l x.
Proof.
  revert prv. induction l as [|p t IH]; intros prv Hnd Hne Hd Hl; [done|].
  apply NoDup_cons in Hnd as [Hp Hnd]. cbn [dll] in *. destruct Hd as (tk' & Ht & Hpr & Hn & Hd).
  destruct t as [|q t].
  - unfold last_or in *. cbn in *. exists (set_next x tk). rewrite lookup_insert_eq.
    split_and!; [done| |done|done]. cbn. congruence.
  - assert (Hll : last_or 0 (p :: q :: t) = last_or 0 (q :: t)) by (by rewrite !last_or_cons).
    rewrite Hll in *. assert (Hin : last_or 0 (q :: t) ∈ q :: t) by (by apply last_or_in).
    exists tk'. rewrite lookup_insert_ne by (intros <-; done). split_and!; [done..|].
    by apply IH.
Qed.

Lemma dll_set_first h l prv nxt x tk :
  NoDup l -> l <> [] -> dll h prv l nxt -> h !! List.hd 0 l = Some tk ->
  dll (<[List.hd 0 l := set_prev x tk]> h) x l nxt.
Proof.
  destruct l as [|p t]; intros Hnd Hne Hd Hl; [done|]. cbn [dll List.hd] in *.
  destruct Hd as (tk' & Ht & Hpr & Hn & Hd). apply NoDup_cons in Hnd as [Hp Hnd].
  exists (set_prev x tk). rewrite lookup_insert_eq. split_and!; [done|done|cbn; congruence|].
  eapply dll_frame; [|exact Hd]. intros q Hq. rewrite lookup_insert_ne; [done|]. by intros <-.
Qed.

(** ** The queue *)

Section Queue.
Context {M : Type} `{FrameAllocator M} `{FramePool M}.
Implicit Types (s : TM M) (l : list Z) (p : Z).

Record queue s l : Prop := {
  q_nodup : NoDup l;
  q_zero : 0 ∉ l;
  q_head : ready_queue_head_ s = List.hd 0 l;
  q_tail : ready_queue_tail_ s = last_or 0 l;
  q_links : dll (heap s) 0 l 0;
  q_out p t : heap s !! p = Some t -> p ∉ l -> next t = 0 /\ prev t = 0;
  q_null : heap s !! 0 = None
}.

(** what a task is apart from its links *)
Definition unlinked (t : Task) : Task := set_next 0 (set_prev 0 t).

(** the heap differs in links only, and at [p] by [f] *)
Definition same_tasks s s' p (f : Task -> Task) : Prop :=
  forall q, unlinked <$> (heap s' !! q)
       = (fun t => unlinked (if decide (q = p) then f t else t)) <$> (heap s !! q).

(** everything but the heap and the queue's ends *)
Definition same_rest s s' : Prop :=
  current_task_ s' = current_task_ s /\ next_task_id_ s' = next_task_id_ s
  /\ task_count_ s' = task_count_ s /\ words s' = words s /\ arrays s' = arrays s
  /\ strings s' = strings s /\ pages s' = pages s.

Lemma modify_Some p f s t :
  heap s !! p = Some t -> modify p f s = Some (with_heap (<[p := f t]> (heap s)) s).
Proof. intros Ht. unfold modify. by rewrite Ht. Qed.

Lemma queue_lookup s l p : queue s l -> p ∈ l -> is_Some (heap s !! p).
Proof. intros Hq. eapply dll_lookup, (q_links _ _ Hq). Qed.

(** a task is linked exactly when it is in the queue *)
Lemma linked_in_queue s l p t :
  queue s l -> heap s !! p = Some t ->
  negb (next t =? 0) || negb (prev t =? 0) || (p =? ready_queue_head_ s) = bool_decide (p ∈ l).
Proof.
  intros Hq Ht. destruct (decide (p ∈ l)) as [Hin|Hin].
  - rewrite bool_decide_eq_true_2 by done.
    destruct (list_elem_of_split l p Hin) as (l1 & l2 & ->).
    pose proof (q_links _ _ Hq) as Hd. apply dll_app in Hd as [_ Hd]. cbn [dll] in Hd.
    destruct Hd as (tk & Htk & Hp & Hn & _). assert (tk = t) as -> by congruence.
    rewrite Hn, Hp, (q_head _ _ Hq). pose proof (q_zero _ _ Hq) as Hz.
    destruct l1 as [|x l1].
    { cbn. by rewrite Z.eqb_refl, orb_true_r. }
    assert (last_or 0 (x :: l1) <> 0) as Hne.
    { intros He. apply Hz. rewrite <- He. apply elem_of_app. left. by apply last_or_in. }
    rewrite (proj2 (Z.eqb_neq _ 0) Hne). by rewrite orb_true_r.
  - rewrite bool_decide_eq_false_2 by done. destruct (q_out _ _ Hq p t Ht Hin) as [-> ->]. cbn.
    apply Z.eqb_neq. rewrite (q_head _ _ Hq). intros ->. destruct l as [|x l].
    + cbn in Ht. rewrite (q_null _ _ Hq) in Ht. done.
    + apply Hin. by left.
Qed.

(** the queue with one task more at its end: the first one *)
Lemma queue_first s s' p t' :
  queue s [] -> p <> 0 -> heap s' = <[p := t']> (heap s) -> prev t' = 0 -> next t' = 0 ->
  ready_queue_head_ s' = p -> ready_queue_tail_ s' = p -> queue s' [p].
Proof.
  intros Hq Hp0 Hh Hpr Hn Hhd Htl. split; rewrite ?Hh; try done.
  - apply NoDup_singleton.
  - rewrite list_elem_of_singleton. by intros <-.
  - cbn [dll List.hd]. exists t'. by rewrite lookup_insert_eq.
  - intros q tq Hqt Hni. rewrite lookup_insert_ne in Hqt by (intros <-; apply Hni; by left).
    exact (q_out _ _ Hq q tq Hqt (not_elem_of_nil q)).
  - rewrite lookup_insert_ne by done. apply (q_null _ _ Hq).
Qed.

(** or behind the last one, [tl], which is linked to it *)
Lemma queue_appended s s' l p t' tl :
  queue s l -> l <> [] -> p ∉ l -> p <> 0 -> heap s !! last_or 0 l = Some tl ->
  heap s' = <[last_or 0 l := set_next p tl]> (<[p := t']> (heap s)) -> prev t' = last_or 0 l -> next t' = 0 ->
  ready_queue_head_ s' = ready_queue_head_ s -> ready_queue_tail_ s' = p -> queue s' (l ++ [p]).
Proof.
  intros Hq Hl Hin Hp0 Htl Hh Hpr Hn Hhd Htail.
  assert (Hlast : last_or 0 l ∈ l) by (by apply last_or_in).
  assert (Hpl : p <> last_or 0 l) by (intros He; apply Hin; by rewrite He).
  assert (Hd1 : dll (<[p := t']> (heap s)) 0 l 0).
  { eapply dll_frame; [|apply (q_links _ _ Hq)]. intros q Hqi. rewrite lookup_insert_ne; [done|]. by intros <-. }
  split; rewrite ?Hh.
  - apply NoDup_app. split_and!; [apply Hq| |apply NoDup_singleton].
    intros x Hx Hxp. apply list_elem_of_singleton in Hxp. by subst.
  - rewrite elem_of_app, list_elem_of_singleton. intros [?|?]; [by apply (q_zero _ _ Hq)|by subst].
  - rewrite Hhd, (q_head _ _ Hq). by destruct l.
  - by rewrite last_or_app.
  - apply dll_app. cbn [List.hd]. split.
    + apply (dll_set_last _ _ 0 0); [apply Hq|done|done|]. by rewrite lookup_insert_ne.
    + cbn [dll]. exists t'. rewrite lookup_insert_ne by done. by rewrite lookup_insert_eq.
  - intros q tq Hqt Hni. rewrite elem_of_app, list_elem_of_singleton in Hni.
    rewrite !lookup_insert_ne in Hqt by (intros <-; tauto). eapply (q_out _ _ Hq); eauto.
  - rewrite !lookup_insert_ne; [apply (q_null _ _ Hq)|done|]. intros He. apply (q_zero _ _ Hq). by rewrite <- He.
Qed.

Lemma AddToReadyQueue_spec s l p t :
  queue s l -> heap s !! p = Some t ->
  exists s', AddToReadyQueue p s = Some s' /\ same_rest s s'
    /\ queue s' (if decide (p ∈ l) then l else l ++ [p])
    /\ same_tasks s s' p (if decide (p ∈ l) then id else set_state READY).
Proof.
  intros Hq Ht. assert (Hp0 : p <> 0) by (intros ->; rewrite (q_null _ _ Hq) in Ht; done).
  unfold AddToReadyQueue. rewrite (proj2 (Z.eqb_neq p 0)), Ht by done. cbn [mbind option_bind].
  rewrite (linked_in_queue s l p t Hq Ht). destruct (decide (p ∈ l)) as [Hin|Hin].
  { rewrite bool_decide_eq_true_2 by done. exists s. split_and!; try done.
    intros q. case_decide; done. }
  rewrite bool_decide_eq_false_2 by done. rewrite (modify_Some p _ s t Ht). cbn [mbind option_bind].
  cbn [ready_queue_tail_ with_heap]. rewrite (q_tail _ _ Hq).
  set (t' := set_prev (last_or 0 l) (set_next 0 (set_state READY t))). set (h1 := <[p := t']> (heap s)).
  destruct (decide (l = [])) as [->|Hl].
  - change (last_or 0 []) with 0. cbn [Z.eqb negb mbind option_bind].
    eexists. split; [done|]. split; [done|]. split; [by apply (queue_first s _ p t')|].
    intros q. cbn [heap with_tail with_head with_heap]. unfold h1. destruct (decide (q = p)) as [->|Hne].
    + by rewrite lookup_insert_eq, Ht.
    + by rewrite lookup_insert_ne by done.
  - assert (Hlast : last_or 0 l ∈ l) by (by apply last_or_in).
    rewrite (proj2 (Z.eqb_neq (last_or 0 l) 0)) by (intros He; apply (q_zero _ _ Hq); by rewrite <- He). cbn [negb].
    destruct (dll_lookup _ _ _ _ _ (q_links _ _ Hq) Hlast) as [tl Htl].
    assert (Hpl : p <> last_or 0 l) by (intros He; apply Hin; by rewrite He).
    assert (Htl1 : h1 !! last_or 0 l = Some tl) by (unfold h1; by rewrite lookup_insert_ne).
    erewrite modify_Some by exact Htl1. cbn [mbind option_bind].
    eexists. split; [done|]. split; [done|]. split; [by apply (queue_appended s _ l p t' tl)|].
    intros q. cbn [heap with_tail with_head with_heap]. destruct (decide (q = last_or 0 l)) as [->|Hne].
    + rewrite lookup_insert_eq, Htl. cbn [fmap option_fmap option_map]. by rewrite decide_False by (by intros <-).
    + rewrite lookup_insert_ne by done. unfold h1. destruct (decide (q = p)) as [->|Hne'].
      * by rewrite lookup_insert_eq, Ht.
      * by rewrite lookup_insert_ne by done.
Qed.

(** *** RemoveFromReadyQueue *)

Lemma with_heap_same s : with_heap (heap s) s = s.
Proof. by destruct s. Qed.

Lemma unlinked_insert (h : gmap Z Task) q (t t' : Task) :
  h !! q = Some t -> unlinked t' = unlinked t ->
  forall r, unlinked <$> ((<[q := t']> h) !! r) = unlinked <$> (h !! r).
Proof.
  intros Hq Ht r. destruct (decide (r = q)) as [->|Hne].
  - rewrite lookup_insert_eq, Hq. cbn [fmap option_fmap option_map]. by rewrite Ht.
  - by rewrite lookup_insert_ne.
Qed.

(** the two conditional writes to the neighbours *)
Lemma relink_prev s l prv nxt x :
  dll (heap s) prv l nxt -> NoDup l -> 0 ∉ l ->
  exists h', (if negb (last_or 0 l =? 0) then modify (last_or 0 l) (set_next x) s else Some s)
             = Some (with_heap h' s)
    /\ dll h' prv l x /\ (forall q, q ∉ l -> h' !! q = heap s !! q)
    /\ forall q, unlinked <$> (h' !! q) = unlinked <$> (heap s !! q).
Proof.
  intros Hd Hnd Hz. destruct l as [|y l].
  { exists (heap s). change (last_or 0 []) with 0. by rewrite with_heap_same. }
  assert (Hin : last_or 0 (y :: l) ∈ y :: l) by (by apply last_or_in).
  assert (Hne : last_or 0 (y :: l) <> 0) by (intros He; by rewrite He in Hin).
  rewrite (proj2 (Z.eqb_neq _ 0) Hne). cbn [negb].
  destruct (dll_lookup _ _ _ _ _ Hd Hin) as [tl Htl].
  erewrite modify_Some by exact Htl. eexists. split; [done|]. split_and!.
  - eapply dll_set_last; eauto.
  - intros q Hq. rewrite lookup_insert_ne; [done|]. by intros <-.
  - by eapply unlinked_insert.
Qed.

Lemma relink_next s l prv nxt x :
  dll (heap s) prv l nxt -> NoDup l -> 0 ∉ l ->
  exists h', (if negb (List.hd 0 l =? 0) then modify (List.hd 0 l) (set_prev x) s else Some s)
             = Some (with_heap h' s)
    /\ dll h' x l nxt /\ (forall q, q ∉ l -> h' !! q = heap s !! q)
    /\ forall q, unlinked <$> (h' !! q) = unlinked <$> (heap s !! q).
Proof.
  intros Hd Hnd Hz. destruct l as [|y l].
  { exists (heap s). cbn [List.hd Z.eqb negb]. by rewrite with_heap_same. }
  assert (Hne : y <> 0) by (intros ->; apply Hz; by left).
  cbn [List.hd]. rewrite (proj2 (Z.eqb_neq _ 0) Hne). cbn [negb].
  destruct (dll_lookup _ _ _ _ y Hd) as [tl Htl]; [by left|].
  erewrite modify_Some by exact Htl. eexists. split; [done|]. split_and!.
  - by eapply (dll_set_first (heap s) (y :: l)).
  - intros q Hq. rewrite lookup_insert_ne; [done|]. intros <-. apply Hq. by left.
  - by eapply unlinked_insert.
Qed.

(** the queue's ends once [p] is out *)
Lemma ends_removed l1 l2 p :
  NoDup (l1 ++ p :: l2) ->
  (if p =? List.hd 0 (l1 ++ p :: l2) then List.hd 0 l2 else List.hd 0 (l1 ++ p :: l2)) = List.hd 0 (l1 ++ l2)
  /\ (if p =? last_or 0 (l1 ++ p :: l2) then last_or 0 l1 else last_or 0 (l1 ++ p :: l2))
     = last_or 0 (l1 ++ l2).
Proof.
  intros Hnd. split.
  - destruct l1 as [|x l1]; cbn [app List.hd]; [by rewrite Z.eqb_refl|].
    apply NoDup_cons in Hnd as [Hx _]. rewrite (proj2 (Z.eqb_neq p x)); [done|].
    intros ->. apply Hx, elem_of_app. right. by left.
  - rewrite !last_or_app, last_or_cons. apply NoDup_app in Hnd as (_ & _ & Hnd).
    apply NoDup_cons in Hnd as [Hp _]. destruct l2 as [|y l2].
    + change (last_or p []) with p. by rewrite Z.eqb_refl.
    + rewrite !last_or_cons, (proj2 (Z.eqb_neq p _)); [done|].
      intros He. apply Hp. rewrite He, <- (last_or_cons 0). by apply last_or_in.
Qed.

(** the queue without [p], once its neighbours in the heap [h] are linked to each other *)
Lemma queue_removed s s' l1 l2 p t' h :
  queue s (l1 ++ p :: l2) -> heap s' = <[p := t']> h -> prev t' = 0 -> next t' = 0 ->
  dll h 0 l1 (List.hd 0 l2) -> dll h (last_or 0 l1) l2 0 ->
  (forall x, x ∉ l1 -> x ∉ l2 -> h !! x = heap s !! x) ->
  ready_queue_head_ s' = List.hd 0 (l1 ++ l2) -> ready_queue_tail_ s' = last_or 0 (l1 ++ l2) ->
  queue s' (l1 ++ l2).
Proof.
  intros [Hnd Hz _ _ _ Hout Hnull] Hh Hpr Hn Hd1 Hd2 Hoth Hhd Htl.
  apply NoDup_app in Hnd as (Hnd1 & Hdis & Hnd2). apply NoDup_cons in Hnd2 as [Hp2 Hnd2].
  assert (Hp1 : p ∉ l1) by (intros Hx; apply (Hdis p Hx); by left).
  assert (H12 : forall x, x ∈ l1 -> x ∉ l2) by (intros x Hx Hx2; apply (Hdis x Hx); by right).
  rewrite elem_of_app, elem_of_cons in Hz.
  assert (Hfr : forall x, x <> p -> (<[p := t']> h) !! x = h !! x) by (intros; by rewrite lookup_insert_ne).
  split; rewrite ?Hh; try done.
  - apply NoDup_app. done.
  - rewrite elem_of_app. tauto.
  - apply dll_app. split; (eapply dll_frame; [|eassumption]); intros x Hx; apply Hfr; by intros ->.
  - intros q tq Hqt Hni. rewrite elem_of_app in Hni. destruct (decide (q = p)) as [->|Hqp].
    + rewrite lookup_insert_eq in Hqt. by injection Hqt as <-.
    + rewrite Hfr, Hoth in Hqt by tauto. apply (Hout q tq Hqt). rewrite elem_of_app, elem_of_cons. tauto.
  - rewrite Hfr, Hoth by (tauto || (intros ->; tauto)). done.
Qed.

Lemma remove_queued s l1 l2 p t :
  queue s (l1 ++ p :: l2) -> heap s !! p = Some t ->
  exists s', RemoveFromReadyQueue p s = Some s' /\ same_rest s s' /\ queue s' (l1 ++ l2)
             /\ same_tasks s s' p id.
Proof.
  intros Hq Ht. assert (Hp0 : p <> 0) by (intros ->; rewrite (q_null _ _ Hq) in Ht; done).
  pose proof Hq as [Hnd Hz Hhead Htail Hd _ _].
  destruct (ends_removed l1 l2 p Hnd) as [Hh Htl].
  apply dll_app in Hd as [Hd1 Hd2]. cbn [dll List.hd] in Hd1, Hd2.
  destruct Hd2 as (tk & Htk & Hprev & Hnext & Hd2). assert (tk = t) as -> by congruence.
  apply NoDup_app in Hnd as (Hnd1 & Hdis & Hnd2). apply NoDup_cons in Hnd2 as [Hp2 Hnd2].
  assert (Hp1 : p ∉ l1) by (intros Hx; apply (Hdis p Hx); by left).
  assert (H12 : forall x, x ∈ l1 -> x ∉ l2) by (intros x Hx Hx2; apply (Hdis x Hx); by right).
  rewrite elem_of_app, elem_of_cons in Hz.
  unfold RemoveFromReadyQueue. rewrite (proj2 (Z.eqb_neq p 0)), Ht by done.
  cbn [mbind option_bind]. rewrite Hnext, Hprev.
  set (s1 := if p =? ready_queue_head_ s then with_head (List.hd 0 l2) s else s).
  set (s2 := if p =? ready_queue_tail_ s1 then with_tail (last_or 0 l1) s1 else s1).
  assert (Hs2 : heap s2 = heap s /\ same_rest s s2 /\ ready_queue_head_ s2 = List.hd 0 (l1 ++ l2)
                /\ ready_queue_tail_ s2 = last_or 0 (l1 ++ l2)).
  { rewrite <- Hh, <- Htl, <- Hhead, <- Htail. subst s2 s1.
    destruct (p =? ready_queue_head_ s); cbn [with_head ready_queue_tail_];
      destruct (p =? ready_queue_tail_ s); done. }
  destruct Hs2 as (Hheap & Hrest & Hh2 & Ht2).
  destruct (relink_prev s2 l1 0 p (List.hd 0 l2)) as (h3 & -> & Hd1' & Hout3 & Hun3);
    [by rewrite Hheap|done|tauto|].
  cbn [mbind option_bind].
  destruct (relink_next (with_heap h3 s2) l2 p 0 (last_or 0 l1)) as (h4 & -> & Hd2' & Hout4 & Hun4);
    [|done|tauto|].
  { eapply dll_frame; [|exact Hd2]. intros x Hx. cbn [heap with_heap]. rewrite Hout3, Hheap; [done|].
    intros Hx1. by apply (H12 x). }
  cbn [heap with_heap] in Hout4, Hun4. cbn [mbind option_bind].
  assert (Hp4 : h4 !! p = Some t) by (rewrite Hout4, Hout3, Hheap by done; done).
  erewrite modify_Some by exact Hp4. eexists. split; [done|]. split; [done|]. split.
  - apply (queue_removed s _ l1 l2 p (set_prev 0 (set_next 0 t)) h4 Hq); try done.
    + destruct l2 as [|y l2]; cbn [List.hd] in Hd1' |- *;
        (eapply dll_frame; [|exact Hd1']; intros x Hx; apply Hout4; auto).
    + intros x Hx1 Hx2. by rewrite Hout4, Hout3, Hheap.
  - intros q. cbn [heap with_heap]. rewrite (unlinked_insert _ _ t _ Hp4) by done.
    rewrite Hun4, Hun3, Hheap. destruct (heap s !! q); [|done].
    cbn [fmap option_fmap option_map]. by case_decide.
Qed.

Lemma filter_ne_id (p : Z) l : p ∉ l -> filter (fun x => x <> p) l = l.
Proof.
  induction l as [|x l IH]; intros Hp; [done|]. apply not_elem_of_cons in Hp as [Hx Hl].
  rewrite filter_cons_True by done. by rewrite IH.
Qed.

Lemma RemoveFromReadyQueue_spec s l p t :
  queue s l -> heap s !! p = Some t ->
  exists s', RemoveFromReadyQueue p s = Some s' /\ same_rest s s'
    /\ queue s' (filter (fun x => x <> p) l) /\ same_tasks s s' p id.
Proof.
  intros Hq Ht. destruct (decide (p ∈ l)) as [Hin|Hin].
  - destruct (list_elem_of_split l p Hin) as (l1 & l2 & ->).
    pose proof (q_nodup _ _ Hq) as Hnd. apply NoDup_app in Hnd as (_ & Hdis & Hnd2).
    apply NoDup_cons in Hnd2 as [Hp2 _].
    rewrite filter_app, filter_cons_False by tauto.
    rewrite !filter_ne_id; [by eapply remove_queued|done|]. intros Hx. apply (Hdis p Hx). by left.
  - assert (Hp0 : p <> 0) by (intros ->; rewrite (q_null _ _ Hq) in Ht; done).
    destruct (q_out _ _ Hq p t Ht Hin) as [Hn Hp].
    assert (Hnh : (p =? ready_queue_head_ s) = false).
    { pose proof (linked_in_queue s l p t Hq Ht) as Hl. rewrite bool_decide_eq_false_2 in Hl by done.
      by apply orb_false_iff in Hl as [_ ?]. }
    assert (Hnt : (p =? ready_queue_tail_ s) = false).
    { apply Z.eqb_neq. rewrite (q_tail _ _ Hq). intros ->. destruct l as [|x l]; [done|].
      apply Hin. by apply last_or_in. }
    unfold RemoveFromReadyQueue. rewrite (proj2 (Z.eqb_neq p 0)), Ht by done.
    cbn [mbind option_bind]. rewrite Hnh, Hnt, Hn, Hp. cbn [Z.eqb negb mbind option_bind].
    rewrite (modify_Some p _ s t Ht).
    assert (Heq : set_prev 0 (set_next 0 t) = t) by (destruct t; cbn in *; by subst).
    rewrite Heq, insert_id, with_heap_same by done.
    exists s. split; [done|]. split; [done|]. split.
    + by rewrite filter_ne_id.
    + intros q. destruct (heap s !! q); [|done]. cbn. by case_decide.
Qed.
End Queue.
