(* ===== verification/Scheduler.v ===== *)
(** * The scheduler (kernel/task/scheduler.cpp, context_switch.asm)

    Schedule moves the running task to the end of the ready queue, takes the next
    one from its head and switches the processor's registers.  [cpu] holds the
    registers, with [ctx_rip] where execution goes on; the return addresses that
    SwitchContext finds on the stacks are in [words].  The slots below the stack
    pointers that it uses to move RFLAGS are not recorded. *)
From S2P Require Import Prelude Memory CStr Paging Tasks TaskQueue.

Record Sched (M : Type) := mkSched {
  tm : TM M;
  enabled_ : bool;
  schedule_count_ : Z;
  cpu : TaskContext;
  dummy_context : TaskContext;
  interrupts : bool
}.
Arguments mkSched {M}.
Arguments tm {M}.
Arguments enabled_ {M}.
Arguments schedule_count_ {M}.
Arguments cpu {M}.
Arguments dummy_context {M}.
Arguments interrupts {M}.

(** the stores of SwitchContext: the segment registers and RIP of the old context
    stay what they were *)
Definition save_context (c : TaskContext) (cr3 : Z) (old : TaskContext) : TaskContext :=
  mkTaskContext (ctx_r15 c) (ctx_r14 c) (ctx_r13 c) (ctx_r12 c) (ctx_r11 c) (ctx_r10 c) (ctx_r9 c)
    (ctx_r8 c) (ctx_rdi c) (ctx_rsi c) (ctx_rbp c) (ctx_rsp c) (ctx_rbx c) (ctx_rdx c) (ctx_rcx c)
    (ctx_rax c) (ctx_cs old) (ctx_ss old) (ctx_ds old) (ctx_es old) (ctx_fs old) (ctx_gs old)
    (ctx_rip old) (ctx_rflags c) cr3.

(** the loads, and [ret]: execution goes on at the address on the new stack *)
Definition load_context (c new : TaskContext) (return_address : Z) : TaskContext :=
  mkTaskContext (ctx_r15 new) (ctx_r14 new) (ctx_r13 new) (ctx_r12 new) (ctx_r11 new) (ctx_r10 new)
    (ctx_r9 new) (ctx_r8 new) (ctx_rdi new) (ctx_rsi new) (ctx_rbp new) (u64 (ctx_rsp new + 8))
    (ctx_rbx new) (ctx_rdx new) (ctx_rcx new) (ctx_rax new) (ctx_cs c) (ctx_ss c) (ctx_ds c)
    (ctx_es c) (ctx_fs c) (ctx_gs c) return_address (ctx_rflags new) (ctx_cr3 new).

Section Scheduler.
Context {M : Type} `{FrameAllocator M} `{FramePool M}.
Local Abbreviation Sched := (Sched M).
Implicit Types s : Sched.

Definition with_tm t s : Sched :=
  mkSched t (enabled_ s) (schedule_count_ s) (cpu s) (dummy_context s) (interrupts s).
Definition with_cpu c s : Sched :=
  mkSched (tm s) (enabled_ s) (schedule_count_ s) c (dummy_context s) (interrupts s).
Definition with_dummy c s : Sched :=
  mkSched (tm s) (enabled_ s) (schedule_count_ s) (cpu s) c (interrupts s).
Definition with_interrupts b s : Sched :=
  mkSched (tm s) (enabled_ s) (schedule_count_ s) (cpu s) (dummy_context s) b.

(** the loads of SwitchContext from the context of [task] *)
Definition enter (task : Z) s : option Sched :=
  t ← heap (tm s) !! task;
  let new := context t in
  return_address ← words (tm s) !! ctx_rsp new;
  let pm := if ctx_cr3 new =? cr3 (pages (tm s)) then pages (tm s)
            else LoadCR3 (ctx_cr3 new) (pages (tm s)) in
  Some (with_cpu (load_context (cpu s) new return_address) (with_tm (with_pages pm (tm s)) s)).

(** SwitchContext between two tasks, and from the static dummy context *)
Definition SwitchContext (old new : Z) s : option Sched :=
  t ← modify old (fun t => set_context (save_context (cpu s) (cr3 (pages (tm s))) (context t)) t) (tm s);
  enter new (with_tm t s).

Definition SwitchContext_dummy (new : Z) s : option Sched :=
  enter new (with_dummy (save_context (cpu s) (cr3 (pages (tm s))) (dummy_context s)) s).

Definition Initialize s : Sched :=
  mkSched (tprintf "[Scheduler] Initialized.\n" [] (tm s)) false 0 (cpu s) (dummy_context s)
    (interrupts s).

(** [current && current->state == TaskState::RUNNING] *)
Definition is_running (current : Z) (t : TM M) : bool :=
  match heap t !! current with
  | Some c => negb (current =? 0) && bool_decide (state c = RUNNING)
  | None => false
  end.

(** [current && current->is_app && current->state == TaskState::RUNNING] *)
Definition is_running_app (current : Z) (t : TM M) : bool :=
  match heap t !! current with
  | Some c => negb (current =? 0) && is_app c && bool_decide (state c = RUNNING)
  | None => false
  end.

Definition Schedule (voluntary : bool) s : option Sched :=
  if negb (enabled_ s) then Some s
  else
    let current := GetCurrentTask (tm s) in
    let next := GetNextTask (tm s) in
    if next =? 0 then Some s
    else if current =? next then Some s
    else if negb voluntary && is_running_app current (tm s) then Some s
    else
      t ← (if is_running current (tm s) then
             t ← RemoveFromReadyQueue current (tm s);
             t ← modify current (set_state READY) t;
             AddToReadyQueue current t
           else Some (tm s));
      t ← RemoveFromReadyQueue next t;
      t ← modify next (set_state RUNNING) t;
      let t := SetCurrentTask next t in
      let s := mkSched t (enabled_ s) (u32 (schedule_count_ s + 1)) (cpu s) (dummy_context s)
                 (interrupts s) in
      if negb (current =? 0) then SwitchContext current next s else SwitchContext_dummy next s.

Definition Yield s : option Sched :=
  s ← Schedule true (with_interrupts false s);
  Some (with_interrupts true s).

Definition IsEnabled s : bool := enabled_ s.
Definition Enable s : Sched :=
  mkSched (tprintf "[Scheduler] Enabled.\n" [] (tm s)) true (schedule_count_ s) (cpu s)
    (dummy_context s) (interrupts s).
Definition Disable s : Sched :=
  mkSched (tprintf "[Scheduler] Disabled.\n" [] (tm s)) false (schedule_count_ s) (cpu s)
    (dummy_context s) (interrupts s).

(** ** Schedule refines the rotation of a list

    [view s (p :: l)]: [p] runs, [l] waits in the ready queue in this order, and
    every waiting task has a return address on its stack. *)

Definition resumable (t : TM M) (p : Z) : Prop :=
  exists tk w, heap t !! p = Some tk /\ state tk = READY /\ words t !! ctx_rsp (context tk) = Some w.

Record view s (l : list Z) : Prop := {
  v_enabled : enabled_ s = true;
  v_running : exists p tk, List.hd 0 l = p /\ current_task_ (tm s) = p
              /\ heap (tm s) !! p = Some tk /\ state tk = RUNNING;
  v_nodup : NoDup l;
  v_queue : queue (tm s) (List.tl l);
  v_ready p : p ∈ List.tl l -> resumable (tm s) p
}.

Definition context_of (t : TM M) (p : Z) : option TaskContext := context <$> (heap t !! p).

Lemma same_tasks_lookup (t t' : TM M) p f q tk :
  same_tasks t t' p f -> heap t !! q = Some tk ->
  exists tk', heap t' !! q = Some tk' /\ unlinked tk' = unlinked (if decide (q = p) then f tk else tk).
Proof.
  intros Hs Hq. specialize (Hs q). rewrite Hq in Hs. cbn [fmap option_fmap option_map] in Hs.
  destruct (heap t' !! q) as [tk'|]; [|done]. cbn [fmap option_fmap option_map] in Hs.
  exists tk'. split; [done|congruence].
Qed.

Lemma unlinked_fields t t' :
  unlinked t = unlinked t' -> state t = state t' /\ context t = context t' /\ is_app t = is_app t'.
Proof. destruct t, t'. cbn. intros [= -> -> -> -> -> -> -> -> -> -> -> -> -> -> ->]. done. Qed.

(** changing a field other than the links keeps the queue *)
Lemma queue_modify (t : TM M) l p f tk :
  queue t l -> heap t !! p = Some tk -> next (f tk) = next tk -> prev (f tk) = prev tk ->
  queue (with_heap (<[p := f tk]> (heap t)) t) l.
Proof.
  intros [Hnd Hz Hh Ht Hd Ho Hn] Hp Hnx Hpv. split; try done.
  - cbn [heap with_heap]. clear -Hd Hp Hnx Hpv. revert Hd. generalize 0 at 1 3.
    induction l as [|q l IH]; intros prv; cbn [dll]; [done|].
    intros (tq & Hq & Hqp & Hqn & Hd). destruct (decide (q = p)) as [->|Hne].
    + exists (f tk). rewrite lookup_insert_eq. assert (tq = tk) as -> by congruence.
      split_and!; [done|congruence|congruence|by apply IH].
    + exists tq. rewrite lookup_insert_ne by done. split_and!; [done..|by apply IH].
  - cbn [heap with_heap]. intros q tq Hq Hni. destruct (decide (q = p)) as [->|Hne].
    + rewrite lookup_insert_eq in Hq. injection Hq as <-. rewrite Hnx, Hpv. by apply Ho with p.
    + rewrite lookup_insert_ne in Hq by done. by apply Ho with q.
  - cbn [heap with_heap]. rewrite lookup_insert_ne; [done|]. intros ->. congruence.
Qed.

(** what the scheduler cares about in a task *)
Definition info (t : TM M) (r : Z) : option (TaskState * TaskContext) :=
  (fun tk => (state tk, context tk)) <$> (heap t !! r).

Lemma info_same_tasks (t t' : TM M) p (f : Task -> Task) :
  same_tasks t t' p f ->
  (forall r, r <> p -> info t' r = info t r)
  /\ forall tk, heap t !! p = Some tk -> info t' p = Some (state (f tk), context (f tk)).
Proof.
  intros Hs. unfold info. split.
  - intros r Hr. specialize (Hs r). destruct (heap t' !! r) as [tk'|], (heap t !! r) as [tk|]; try done.
    cbn [fmap option_fmap option_map] in Hs |- *. rewrite decide_False in Hs by done. apply (inj Some) in Hs.
    destruct (unlinked_fields _ _ Hs) as (-> & -> & _). done.
  - intros tk Ht. destruct (same_tasks_lookup _ _ _ _ p tk Hs Ht) as (tk' & -> & Hu).
    rewrite decide_True in Hu by done. destruct (unlinked_fields _ _ Hu) as (Hst & Hc & _).
    cbn. by rewrite Hst, Hc.
Qed.

Lemma info_lookup (t : TM M) r x c :
  info t r = Some (x, c) <-> exists tk, heap t !! r = Some tk /\ state tk = x /\ context tk = c.
Proof.
  unfold info. destruct (heap t !! r) as [tk|]; cbn; split.
  - intros [= <- <-]. eauto.
  - by intros (? & [= <-] & <- & <-).
  - done.
  - by intros (? & ? & _).
Qed.

(** one step of the queue on the scheduler's view of the tasks *)
Lemma remove_step (t : TM M) l p x c :
  queue t l -> info t p = Some (x, c) ->
  exists t', RemoveFromReadyQueue p t = Some t' /\ same_rest t t'
    /\ queue t' (filter (fun q => q <> p) l) /\ forall r, info t' r = info t r.
Proof.
  intros Hq Hi. apply info_lookup in Hi as (tk & Ht & Hst & Hc).
  destruct (RemoveFromReadyQueue_spec t l p tk Hq Ht) as (t' & HR & Hrest & Hq' & Hs).
  exists t'. split_and!; try done. destruct (info_same_tasks _ _ _ _ Hs) as [Ho Hp].
  intros r. destruct (decide (r = p)) as [->|]; [|auto]. rewrite (Hp tk Ht). unfold info. by rewrite Ht.
Qed.

Lemma add_step (t : TM M) l p x c :
  queue t l -> info t p = Some (x, c) -> p ∉ l ->
  exists t', AddToReadyQueue p t = Some t' /\ same_rest t t' /\ queue t' (l ++ [p])
    /\ (forall r, r <> p -> info t' r = info t r) /\ info t' p = Some (READY, c).
Proof.
  intros Hq Hi Hp. apply info_lookup in Hi as (tk & Ht & Hst & Hc).
  destruct (AddToReadyQueue_spec t l p tk Hq Ht) as (t' & HA & Hrest & Hq' & Hs).
  rewrite !decide_False in * by done. exists t'.
  destruct (info_same_tasks _ _ _ _ Hs) as [Ho Hpp]. split_and!; try done.
  rewrite (Hpp tk Ht). by rewrite <- Hc.
Qed.

(** [modify] with a function that leaves the links alone *)
Lemma modify_step (t : TM M) l p f x c :
  queue t l -> info t p = Some (x, c) -> (forall tk, next (f tk) = next tk /\ prev (f tk) = prev tk) ->
  exists t' tk, modify p f t = Some t' /\ same_rest t t' /\ queue t' l
    /\ ready_queue_head_ t' = ready_queue_head_ t
    /\ (forall r, r <> p -> info t' r = info t r)
    /\ state tk = x /\ context tk = c /\ info t' p = Some (state (f tk), context (f tk)).
Proof.
  intros Hq Hi Hf. apply info_lookup in Hi as (tk & Ht & Hst & Hc). destruct (Hf tk) as [Hn Hp].
  eexists _, tk. split; [by apply modify_Some|]. split; [done|].
  split; [by apply queue_modify|]. split; [done|]. unfold info. cbn [heap with_heap]. split_and!; try done.
  - intros r Hr. by rewrite lookup_insert_ne.
  - by rewrite lookup_insert_eq.
Qed.

Lemma enter_step s q x c w :
  info (tm s) q = Some (x, c) -> words (tm s) !! ctx_rsp c = Some w ->
  exists s', enter q s = Some s' /\ cpu s' = load_context (cpu s) c w
    /\ enabled_ s' = enabled_ s /\ cr3 (pages (tm s')) = ctx_cr3 c
    /\ heap (tm s') = heap (tm s) /\ words (tm s') = words (tm s)
    /\ current_task_ (tm s') = current_task_ (tm s)
    /\ ready_queue_head_ (tm s') = ready_queue_head_ (tm s)
    /\ ready_queue_tail_ (tm s') = ready_queue_tail_ (tm s).
Proof.
  intros Hi Hw. apply info_lookup in Hi as (tk & Ht & Hst & <-). unfold enter. rewrite Ht.
  cbn [mbind option_bind]. rewrite Hw. cbn [mbind option_bind]. eexists. split; [done|].
  destruct (Z.eqb_spec (ctx_cr3 (context tk)) (cr3 (pages (tm s)))); done.
Qed.

(** the rotation: [p] goes to the end, [q] runs *)
Record switched s s' (p q : Z) (rest : list Z) : Prop := {
  sw_view : view s' (q :: rest ++ [p]);
  sw_saved old : context_of (tm s) p = Some old ->
    context_of (tm s') p = Some (save_context (cpu s) (cr3 (pages (tm s))) old);
  sw_kept r : r <> p -> context_of (tm s') r = context_of (tm s) r;
  sw_loaded : exists c w, context_of (tm s) q = Some c /\ words (tm s) !! ctx_rsp c = Some w
              /\ cpu s' = load_context (cpu s) c w /\ cr3 (pages (tm s')) = ctx_cr3 c;
  sw_words : words (tm s') = words (tm s)
}.

Lemma context_of_info (t : TM M) r : context_of t r = snd <$> info t r.
Proof. unfold context_of, info. by destruct (heap t !! r). Qed.

Lemma same_rest_trans (t1 t2 t3 : TM M) : same_rest t1 t2 -> same_rest t2 t3 -> same_rest t1 t3.
Proof. unfold same_rest. intuition congruence. Qed.

(** the running task goes to the end of the queue *)
Lemma preempt_step (t : TM M) p l c :
  queue t l -> info t p = Some (RUNNING, c) -> p ∉ l ->
  exists t', (t ← RemoveFromReadyQueue p t; t ← modify p (set_state READY) t; AddToReadyQueue p t) = Some t'
    /\ same_rest t t' /\ queue t' (l ++ [p])
    /\ (forall r, r <> p -> info t' r = info t r) /\ info t' p = Some (READY, c).
Proof.
  intros Hq Hip Hpl.
  destruct (remove_step t l p _ _ Hq Hip) as (t1 & -> & Hr1 & Hq1 & Hi1).
  rewrite filter_ne_id in Hq1 by done. cbn [mbind option_bind].
  assert (Hip1 : info t1 p = Some (RUNNING, c)) by (by rewrite Hi1).
  destruct (modify_step t1 _ p (set_state READY) _ _ Hq1 Hip1)
    as (t2 & k2 & -> & Hr2 & Hq2 & _ & Ho2 & _ & Hk2 & Hi2); [done|]. cbn [mbind option_bind].
  destruct (add_step t2 _ p _ _ Hq2 Hi2 Hpl) as (t3 & -> & Hr3 & Hq3 & Ho3 & Hi3).
  exists t3. split; [done|]. split; [by eapply same_rest_trans, same_rest_trans|].
  split; [done|]. split; [|by rewrite <- Hk2]. intros r Hr. by rewrite Ho3, Ho2, Hi1.
Qed.

(** the head of the queue leaves it and runs *)
Lemma dispatch_step (t : TM M) q rest c :
  queue t (q :: rest) -> info t q = Some (READY, c) ->
  exists t1 t', RemoveFromReadyQueue q t = Some t1 /\ modify q (set_state RUNNING) t1 = Some t'
    /\ same_rest t t' /\ queue t' rest
    /\ (forall r, r <> q -> info t' r = info t r) /\ info t' q = Some (RUNNING, c).
Proof.
  intros Hq Hiq. pose proof (q_nodup _ _ Hq) as Hnd. apply NoDup_cons in Hnd as [Hqr _].
  destruct (remove_step t _ q _ _ Hq Hiq) as (t1 & HR & Hr1 & Hq1 & Hi1).
  rewrite filter_cons_False, filter_ne_id in Hq1 by tauto.
  assert (Hiq1 : info t1 q = Some (READY, c)) by (by rewrite Hi1).
  destruct (modify_step t1 _ q (set_state RUNNING) _ _ Hq1 Hiq1)
    as (t2 & k2 & HM & Hr2 & Hq2 & _ & Ho2 & _ & Hk2 & Hi2); [done|].
  exists t1, t2. split_and!; try done; [by eapply same_rest_trans| |by rewrite <- Hk2].
  intros r Hr. by rewrite Ho2, Hi1.
Qed.

(** SwitchContext between two tasks of a queue *)
Lemma switch_step s p q l cp cq w :
  queue (tm s) l -> info (tm s) p = Some (READY, cp) -> info (tm s) q = Some (RUNNING, cq) -> p <> q ->
  words (tm s) !! ctx_rsp cq = Some w ->
  exists s', SwitchContext p q s = Some s' /\ queue (tm s') l /\ enabled_ s' = enabled_ s
    /\ current_task_ (tm s') = current_task_ (tm s) /\ words (tm s') = words (tm s)
    /\ (forall r, r <> p -> info (tm s') r = info (tm s) r)
    /\ info (tm s') p = Some (READY, save_context (cpu s) (cr3 (pages (tm s))) cp)
    /\ cpu s' = load_context (cpu s) cq w /\ cr3 (pages (tm s')) = ctx_cr3 cq.
Proof.
  intros Hq Hip Hiq Hpq Hw. unfold SwitchContext.
  destruct (modify_step (tm s) _ p
    (fun t => set_context (save_context (cpu s) (cr3 (pages (tm s))) (context t)) t) _ _ Hq Hip)
    as (t6 & k6 & -> & Hr6 & Hq6 & Hh6 & Ho6 & Hst6 & Hk6 & Hi6); [done|].
  cbn [mbind option_bind]. cbn [state context set_context] in Hi6. rewrite Hst6, Hk6 in Hi6.
  destruct Hr6 as (Hcur6 & _ & _ & Hw6 & _ & _ & Hpg6).
  destruct (enter_step (with_tm t6 s) q RUNNING cq w) as
    (s' & -> & Hcpu & Hen & Hcr & Hheap & Hwords & Hcur & Hhd & Htl).
  { cbn [tm with_tm]. by rewrite Ho6. }
  { cbn [tm with_tm]. by rewrite Hw6. }
  cbn [tm cpu enabled_ with_tm] in *.
  assert (Hinfo : forall r, info (tm s') r = info t6 r) by (intros r; unfold info; by rewrite Hheap).
  exists s'. split_and!; try done; try congruence.
  - destruct Hq6 as [? ? Hh Ht Hd Ho Hn].
    split; rewrite ?Hheap, ?Hhd, ?Htl; done.
  - intros r Hr. by rewrite Hinfo, Ho6.
Qed.

(** when the state, context and stack of every task are as the switch leaves them *)
Lemma switched_intro s s' p q rest w wq cp cq :
  view s (p :: q :: rest) -> words (tm s) !! ctx_rsp (cpu s) = Some w ->
  info (tm s) p = Some (RUNNING, cp) -> info (tm s) q = Some (READY, cq) -> words (tm s) !! ctx_rsp cq = Some wq ->
  queue (tm s') (rest ++ [p]) -> enabled_ s' = true -> current_task_ (tm s') = q -> words (tm s') = words (tm s) ->
  (forall r, r <> p -> r <> q -> info (tm s') r = info (tm s) r) ->
  info (tm s') p = Some (READY, save_context (cpu s) (cr3 (pages (tm s))) cp) ->
  info (tm s') q = Some (RUNNING, cq) ->
  cpu s' = load_context (cpu s) cq wq -> cr3 (pages (tm s')) = ctx_cr3 cq ->
  switched s s' p q rest.
Proof.
  intros [_ _ Hnd _ Hready] Hw Hip Hiq Hwq Hq' Hen' Hcur' Hwd' Hothers Hip' Hiq' Hcpu Hcr. cbn [List.tl] in Hready.
  apply NoDup_cons in Hnd as Hnd'. destruct Hnd' as [Hpl Hnd'].
  split.
  - split; cbn [List.hd List.tl]; [done| | |done|].
    + apply info_lookup in Hiq' as (k & Hk & Hks & _). exists q, k. split_and!; done.
    + change (q :: rest ++ [p]) with ((q :: rest) ++ [p]). by rewrite <- Permutation_cons_append.
    + intros r Hr. apply elem_of_app in Hr as [Hr|Hr%list_elem_of_singleton].
      * destruct (Hready r) as (k & wk & Hk & Hks & Hkw); [by right|].
        assert (Hir : info (tm s') r = Some (READY, context k)).
        { rewrite Hothers; [apply info_lookup; eauto| |].
          - intros ->. apply Hpl. by right.
          - intros ->. apply NoDup_cons in Hnd' as [? _]. done. }
        apply info_lookup in Hir as (k' & Hk' & Hks' & Hkc). exists k', wk. split_and!; [done..|].
        by rewrite Hkc, Hwd'.
      * subst r. apply info_lookup in Hip' as (k' & Hk' & Hks' & Hkc). exists k', w.
        split_and!; [done..|]. by rewrite Hkc, Hwd'.
  - intros old Hold. rewrite context_of_info, Hip'. rewrite context_of_info, Hip in Hold.
    cbn in Hold |- *. by injection Hold as ->.
  - intros r Hr. rewrite !context_of_info. destruct (decide (r = q)) as [->|Hrq].
    + by rewrite Hiq', Hiq.
    + by rewrite Hothers.
  - exists cq, wq. rewrite context_of_info, Hiq. done.
  - exact Hwd'.
Qed.

Lemma Schedule_rotates s p q rest w :
  view s (p :: q :: rest) -> words (tm s) !! ctx_rsp (cpu s) = Some w ->
  exists s', Schedule true s = Some s' /\ switched s s' p q rest.
Proof.
  intros Hv Hw. pose proof Hv as [Hen (p' & tp & <- & Hcur & Hp & Hrun) Hnd Hq Hready]. cbn [List.hd List.tl] in *.
  pose proof Hnd as Hnd'. apply NoDup_cons in Hnd' as [Hpl Hnd'].
  assert (Hpq : p <> q) by (intros ->; apply Hpl; by left).
  assert (Hq0 : q <> 0) by (intros ->; apply (q_zero _ _ Hq); by left).
  assert (Hp0 : p <> 0) by (intros ->; rewrite (q_null _ _ Hq) in Hp; done).
  assert (Hip : info (tm s) p = Some (RUNNING, context tp)) by (apply info_lookup; eauto).
  destruct (Hready q) as (tq & wq & Htq & Hstq & Hwq); [by left|].
  assert (Hiq : info (tm s) q = Some (READY, context tq)) by (apply info_lookup; eauto).
  assert (Hrunp : is_running p (tm s) = true).
  { unfold is_running. by rewrite Hp, bool_decide_eq_true_2, (proj2 (Z.eqb_neq p 0)). }
  unfold Schedule, GetCurrentTask, GetNextTask. rewrite Hen, Hcur, (q_head _ _ Hq), Hrunp.
  cbn [negb List.hd]. rewrite (proj2 (Z.eqb_neq q 0) Hq0), (proj2 (Z.eqb_neq p q) Hpq),
    (proj2 (Z.eqb_neq p 0) Hp0). cbn [negb andb].
  destruct (preempt_step _ p _ _ Hq Hip Hpl) as (t3 & -> & Hr3 & Hq3 & Ho3 & Hi3).
  cbn [mbind option_bind app] in *.
  destruct (dispatch_step t3 q _ (context tq) Hq3) as (t4 & t5 & HR & HM & Hr5 & Hq5 & Ho5 & Hi5);
    [by rewrite Ho3|].
  rewrite HR. cbn [mbind option_bind]. rewrite HM. cbn [mbind option_bind].
  pose proof (same_rest_trans _ _ _ Hr3 Hr5) as (_ & _ & _ & Hw5 & _ & _ & Hpg5).
  set (s5 := mkSched _ _ _ _ _ _).
  destruct (switch_step s5 p q (rest ++ [p]) (context tp) (context tq) wq)
    as (s' & -> & Hq' & Hen' & Hcur' & Hwd' & Ho' & Hi' & Hcpu' & Hcr'); subst s5;
    cbn [tm cpu enabled_] in *; [by destruct Hq5| |done|done|by cbn; rewrite Hw5|].
  { change (info t5 p = Some (READY, context tp)). by rewrite Ho5. }
  change (info (SetCurrentTask q t5)) with (info t5) in Ho'.
  change (pages (SetCurrentTask q t5)) with (pages t5) in *.
  change (words (SetCurrentTask q t5)) with (words t5) in *.
  exists s'. split; [done|]. rewrite Hpg5 in *.
  apply (switched_intro s s' _ q rest w wq (context tp) (context tq)); try done.
  - congruence.
  - intros r Hr Hr'. by rewrite Ho', Ho5, Ho3.
  - rewrite Ho' by (intros E; apply Hpq; symmetry; exact E). exact Hi5.
Qed.

(** ** Runs: the current task runs, then yields *)

Definition with_words ws (t : TM M) : TM M :=
  mkTM (heap t) (current_task_ t) (ready_queue_head_ t) (ready_queue_tail_ t) (next_task_id_ t)
    (task_count_ t) ws (arrays t) (strings t) (pages t).

(** the current task ran until it called Schedule with registers [c]: it wrote no
    other task's return address *)
Definition run c ws s : Sched := with_cpu c (with_tm (with_words ws (tm s)) s).
Definition own_stack c (ws : gmap Z Z) s : Prop :=
  is_Some (ws !! ctx_rsp c)
  /\ forall r x cr, r <> current_task_ (tm s) -> info (tm s) r = Some (x, cr) ->
       ws !! ctx_rsp cr = words (tm s) !! ctx_rsp cr.

Inductive turn s s' : Prop :=
  | turn_yield c ws : own_stack c ws s -> Schedule true (run c ws s) = Some s' -> turn s s'.

Definition rotate (l : list Z) : list Z := match l with [] => [] | x :: t => t ++ [x] end.

Lemma view_run s l c ws : view s l -> own_stack c ws s -> view (run c ws s) l.
Proof.
  intros [Hen Hrun Hnd Hq Hr] [_ Hws]. split; try done.
  - by destruct Hq.
  - intros p Hp. destruct (Hr p Hp) as (tk & w & Ht & Hs & Hw). exists tk, w. split_and!; try done.
    cbn [tm run with_cpu with_tm words with_words]. rewrite <- Hw. apply (Hws p READY).
    + destruct Hrun as (h & th & Hh & -> & _). intros ->. destruct l as [|x l]; [by apply elem_of_nil in Hp|].
      cbn in Hh, Hp. subst x. by apply NoDup_cons in Hnd as [? _].
    + apply info_lookup. eauto.
Qed.

Lemma turn_view s s' l : view s l -> turn s s' -> view s' (rotate l).
Proof.
  intros Hv [c ws Hown HS]. pose proof (view_run _ _ _ _ Hv Hown) as Hv'.
  destruct l as [|p [|q rest]].
  - destruct Hv as [_ (p & tk & Hp & Hc & Ht & _) _ Hq _]. cbn in Hp. subst p.
    cbn [List.tl] in Hq. rewrite (q_null _ _ Hq) in Ht. done.
  - (* nothing to switch to *)
    destruct Hv' as [Hen Hrun Hnd Hq Hr]. unfold Schedule in HS. rewrite Hen in HS. cbn [negb] in HS.
    unfold GetNextTask in HS. rewrite (q_head _ _ Hq) in HS. cbn in HS. injection HS as <-. by split.
  - destruct Hown as [[w Hw] _]. destruct (Schedule_rotates _ p q rest w Hv') as (s1 & HS1 & Hsw); [done|].
    rewrite HS1 in HS. injection HS as <-. apply Hsw.
Qed.

(** the tasks of a view are rotated by every turn *)
Lemma turns_view k : forall s s' l, view s l -> nsteps turn k s s' -> view s' (Nat.iter k rotate l).
Proof.
  induction k as [|k IH]; intros s s' l Hv Hs; inversion Hs; subst; [done|].
  rewrite Nat.iter_succ_r. eapply IH; [|eassumption]. by eapply turn_view.
Qed.

Lemma iter_rotate l k : (k <= length l)%nat -> Nat.iter k rotate l = drop k l ++ take k l.
Proof.
  induction k as [|k IH]; intros Hk; cbn [Nat.iter nat_rect]; [by rewrite app_nil_r|].
  change (nat_rect _ l (fun _ => rotate) k) with (Nat.iter k rotate l). rewrite IH by lia.
  destruct (lookup_lt_is_Some_2 l k) as [x Hx]; [lia|].
  rewrite (drop_S l x k Hx), (take_S_r l k x Hx). cbn [app rotate]. by rewrite <- app_assoc.
Qed.

Lemma with_words_same (t : TM M) : with_words (words t) t = t.
Proof. by destruct t. Qed.

(** a view of at least two tasks can always turn *)
Lemma turns_exist k : forall s l, view s l -> (2 <= length l)%nat -> exists s', nsteps turn k s s'.
Proof.
  induction k as [|k IH]; intros s l Hv Hl; [exists s; constructor|].
  destruct l as [|p [|q rest]]; cbn [length] in Hl; [lia..|].
  destruct (v_ready _ _ Hv q) as (tq & w & Htq & Hsq & Hw); [by left|].
  assert (Hown : own_stack (context tq) (words (tm s)) s) by (split; [exists w; exact Hw|intros; reflexivity]).
  pose proof (view_run _ _ _ _ Hv Hown) as Hv'.
  destruct (Schedule_rotates _ p q rest w Hv') as (s1 & HS & _); [done|].
  assert (Ht : turn s s1) by (by eapply turn_yield).
  destruct (IH s1 (rotate (p :: q :: rest))) as [s' Hs]; [exact (turn_view _ _ _ Hv Ht)| |].
  - cbn [rotate length]. rewrite length_app. cbn. lia.
  - exists s'. by eapply nsteps_l.
Qed.

(** C2: round robin.  From a well-formed state the waiting tasks get the processor
    in the order of the ready queue, one at each yield, however the running tasks
    change the registers and their own stacks: after k yields the k-th of the
    tasks is the current one and is RUNNING, and the others wait in order. *)
Theorem round_robin s s' l k p :
  view s l -> nsteps turn k s s' -> l !! k = Some p ->
  current_task_ (tm s') = p /\ (state <$> (heap (tm s') !! p)) = Some RUNNING
  /\ queue (tm s') (drop (S k) l ++ take k l).
Proof.
  intros Hv Hs Hk. pose proof (turns_view k s s' l Hv Hs) as Hv'.
  pose proof (lookup_lt_Some _ _ _ Hk) as Hlt. rewrite iter_rotate in Hv' by lia.
  rewrite (drop_S l p k Hk) in Hv'. destruct Hv' as [_ (q & tk & Hq & Hc & Ht & Hst) _ Hqu _].
  cbn [app List.hd List.tl] in Hq, Hqu. subst q. split; [done|]. split; [|done].
  rewrite Ht. cbn. by rewrite Hst.
Qed.

(** no deadlock and no fault: Schedule from a well-formed state with a second
    task always switches; the old task's registers are saved in its own context,
    no other context changes, and the registers and the page table are those of
    the new task, which returns to the address on its stack. *)
Theorem Yield_switches s p q rest w :
  view s (p :: q :: rest) -> words (tm s) !! ctx_rsp (cpu s) = Some w ->
  exists s', Yield s = Some s' /\ switched s s' p q rest.
Proof.
  intros Hv Hw. unfold Yield.
  assert (Hv' : view (with_interrupts false s) (p :: q :: rest)) by (by destruct Hv).
  destruct (Schedule_rotates _ p q rest w Hv' Hw) as (s1 & -> & Hsw).
  cbn [mbind option_bind]. eexists. split; [done|]. destruct Hsw as [Hv1 Hsv Hk Hl Hwd].
  split; try done. by destruct Hv1.
Qed.

(** what a task gets back: everything SwitchContext saves but the stack pointer *)
Definition registers (c : TaskContext) : list Z :=
  [ctx_r15 c; ctx_r14 c; ctx_r13 c; ctx_r12 c; ctx_r11 c; ctx_r10 c; ctx_r9 c; ctx_r8 c;
   ctx_rdi c; ctx_rsi c; ctx_rbp c; ctx_rbx c; ctx_rdx c; ctx_rcx c; ctx_rax c; ctx_rflags c].

Lemma turn_keeps s s' p q rest r C w :
  view s (p :: q :: rest) -> turn s s' -> r <> p ->
  context_of (tm s) r = Some C -> words (tm s) !! ctx_rsp C = Some w ->
  context_of (tm s') r = Some C /\ words (tm s') !! ctx_rsp C = Some w
  /\ (r = q -> (exists c0, cpu s' = load_context c0 C w) /\ cr3 (pages (tm s')) = ctx_cr3 C).
Proof.
  intros Hv [c ws Hown HS] Hr HC Hw. pose proof (view_run _ _ _ _ Hv Hown) as Hv'.
  destruct Hown as [[w0 Hw0] Hws].
  destruct (Schedule_rotates _ p q rest w0 Hv' Hw0) as (s1 & HS1 & [_ _ Hkept Hload Hwords]).
  rewrite HS1 in HS. injection HS as <-.
  assert (Hcur : current_task_ (tm s) = p).
  { destruct Hv as [_ (p' & tk & <- & Hc & _) _ _ _]. done. }
  assert (HwsC : ws !! ctx_rsp C = Some w).
  { rewrite context_of_info in HC. destruct (info (tm s) r) as [[x C']|] eqn:Hi; [|done].
    cbn in HC. injection HC as ->. rewrite (Hws r x C); [done|congruence|done]. }
  split; [by rewrite (Hkept r Hr)|]. split; [by rewrite Hwords|].
  intros ->. destruct Hload as (C' & w' & HC' & Hw' & Hcpu & Hcr).
  change (context_of (tm (run c ws s)) q) with (context_of (tm s) q) in HC'.
  assert (C' = C) as -> by congruence. change (words (tm (run c ws s))) with ws in Hw'.
  assert (w' = w) as -> by congruence. eauto.
Qed.

(** a waiting task is given the processor with the registers of its context *)
Lemma waiting_loaded k : forall s s' l r C w,
  view s l -> l !! S k = Some r -> context_of (tm s) r = Some C ->
  words (tm s) !! ctx_rsp C = Some w -> nsteps turn (S k) s s' ->
  (exists c0, cpu s' = load_context c0 C w) /\ cr3 (pages (tm s')) = ctx_cr3 C.
Proof.
  induction k as [|k IH]; intros s s' l r C w Hv Hl HC Hw Hs;
    inversion Hs as [|? ? s1 ? Hturn Hrest]; subst;
    destruct l as [|p [|q rest]]; try done.
  - cbn in Hl. injection Hl as ->. inversion Hrest; subst.
    assert (Hr : r <> p) by (intros ->; pose proof (v_nodup _ _ Hv) as Hnd;
      apply NoDup_cons in Hnd as [Hnd _]; apply Hnd; by left).
    by destruct (turn_keeps s s' p r rest r C w Hv Hturn Hr HC Hw) as (_ & _ & Hq); apply Hq.
  - cbn [lookup list_lookup] in Hl.
    assert (Hr : r <> p).
    { intros ->. pose proof (v_nodup _ _ Hv) as Hnd. apply NoDup_cons in Hnd as [Hnd _].
      apply Hnd. right. by apply list_elem_of_lookup_2 with k. }
    destruct (turn_keeps s s1 p q rest r C w Hv Hturn Hr HC Hw) as (HC1 & Hw1 & _).
    eapply (IH s1 s' (rotate (p :: q :: rest))); [by eapply turn_view| |done|done|done].
    cbn [rotate app lookup list_lookup]. apply lookup_app_l_Some. exact Hl.
Qed.

(** C34: a task that yields gets its registers, its page table and its place in the
    code back when its turn comes again, whatever the other tasks did meanwhile
    with the registers and their stacks. *)
Theorem yield_returns s s1 s2 c ws w p q rest :
  view s (p :: q :: rest) -> own_stack c ws s -> ws !! ctx_rsp c = Some w ->
  Schedule true (run c ws s) = Some s1 -> nsteps turn (S (length rest)) s1 s2 ->
  current_task_ (tm s2) = p /\ registers (cpu s2) = registers c
  /\ ctx_rip (cpu s2) = w /\ ctx_rsp (cpu s2) = u64 (ctx_rsp c + 8)
  /\ cr3 (pages (tm s2)) = cr3 (pages (tm s)).
Proof.
  intros Hv Hown Hw HS Hs. pose proof (view_run _ _ _ _ Hv Hown) as Hv'.
  destruct (Schedule_rotates _ p q rest w Hv' Hw) as (s1' & HS1 & [Hv1 Hsaved _ _ Hwords]).
  rewrite HS1 in HS. injection HS as <-.
  assert (Hold : exists old, context_of (tm (run c ws s)) p = Some old).
  { destruct Hv as [_ (p' & tk & <- & _ & Ht & _) _ _ _]. exists (context tk).
    unfold context_of. cbn [tm run with_cpu with_tm heap with_words List.hd] in *. by rewrite Ht. }
  destruct Hold as [old Hold]. specialize (Hsaved old Hold).
  change (cpu (run c ws s)) with c in Hsaved.
  change (pages (tm (run c ws s))) with (pages (tm s)) in Hsaved.
  set (C := save_context c (cr3 (pages (tm s))) old) in *.
  assert (Hpos : (q :: rest ++ [p]) !! S (length rest) = Some p).
  { change ((rest ++ [p]) !! length rest = Some p). rewrite lookup_app_r by done. by rewrite Nat.sub_diag. }
  assert (HwC : words (tm s1') !! ctx_rsp C = Some w) by (by rewrite Hwords).
  destruct (waiting_loaded _ _ _ _ _ C w Hv1 Hpos Hsaved HwC Hs) as [(c0 & ->) Hcr].
  split; [|done].
  pose proof (turns_view _ _ _ _ Hv1 Hs) as Hv2. rewrite iter_rotate in Hv2
    by (cbn [length]; rewrite length_app; cbn; lia).
  destruct Hv2 as [_ (x & tk & Hx & -> & _) _ _ _]. rewrite <- Hx.
  rewrite (drop_S _ p _ Hpos). done.
Qed.
End Scheduler.

(** ** Three tasks *)

Section Sample.

(** 64 page frames, the first one taken *)
Definition sample_pool : MemoryManager.t :=
  MemoryManager.mk (Bitmap.mk [1; 0; 0; 0; 0; 0; 0; 0] 8) 0 262144.

Definition empty_tm : TM MemoryManager.t :=
  mkTM ∅ 0 0 0 0 0 ∅ ∅ ∅ (mkPM 4096 4096 ∅ sample_pool [] []).

Definition three_tasks : option (TM MemoryManager.t) :=
  let '(a, t) := CreateTask 1000 empty_tm in
  let '(b, t) := CreateTask 2000 t in
  let '(c, t) := CreateTask 3000 t in
  t ← AddToReadyQueue b t;
  t ← AddToReadyQueue c t;
  t ← modify a (set_state RUNNING) t;
  Some (SetCurrentTask a t).

(** the tasks' addresses *)
Definition three : list Z := [4096; 24576; 45056].

(** the running task has called Schedule: its return address is on its stack *)
Definition sample_words : gmap Z Z :=
  <[24000 := 1234]> (match three_tasks with Some t => words t | None => ∅ end).
Definition sample_cpu : TaskContext :=
  mkTaskContext 15 14 13 12 11 10 9 8 7 6 5 24000 4 3 2 1 8 16 16 16 0 0 1500 514 4096.

Definition sample_sched : Sched MemoryManager.t :=
  match three_tasks with
  | Some t => mkSched (with_words sample_words t) true 0 sample_cpu zero_context true
  | None => mkSched empty_tm true 0 sample_cpu zero_context true
  end.

(** a decision procedure for [dll] and [queue] *)
Fixpoint dll_check (h : gmap Z Task) (prv : Z) (l : list Z) (nxt : Z) : bool :=
  match l with
  | [] => true
  | p :: t =>
      match h !! p with
      | Some tk => (prev tk =? prv) && (next tk =? List.hd nxt t) && dll_check h p t nxt
      | None => false
      end
  end.

Lemma dll_check_ok h l nxt : forall prv, dll_check h prv l nxt = true -> dll h prv l nxt.
Proof.
  induction l as [|p t IH]; intros prv Hc; cbn [dll_check dll] in *; [done|].
  destruct (h !! p) as [tk|]; [|done].
  apply andb_true_iff in Hc as [Hc Hd]. apply andb_true_iff in Hc as [Hp Hn].
  exists tk. split_and!; [done|by apply Z.eqb_eq|by apply Z.eqb_eq|by apply IH].
Qed.

Definition out_check (h : gmap Z Task) (l : list Z) : bool :=
  forallb (fun '(p, t) => bool_decide (p ∈ l) || (next t =? 0) && (prev t =? 0)) (map_to_list h).

Lemma out_check_ok h l p t :
  out_check h l = true -> h !! p = Some t -> p ∉ l -> next t = 0 /\ prev t = 0.
Proof.
  intros Hc Hp Hl. unfold out_check in Hc. rewrite forallb_forall in Hc.
  specialize (Hc (p, t) (proj1 (list_elem_of_In _ _) (proj2 (elem_of_map_to_list _ _ _) Hp))).
  cbn in Hc. rewrite bool_decide_eq_false_2 in Hc by done. cbn in Hc.
  apply andb_true_iff in Hc as [H1 H2]. split; by apply Z.eqb_eq.
Qed.

Lemma sample_view : view sample_sched three.
Proof.
  split.
  - vm_compute. reflexivity.
  - eexists 4096, _. split_and!; vm_compute; reflexivity.
  - apply (bool_decide_unpack _). vm_compute. exact I.
  - split.
    + apply (bool_decide_unpack _). vm_compute. exact I.
    + apply (bool_decide_unpack _). vm_compute. exact I.
    + vm_compute. reflexivity.
    + vm_compute. reflexivity.
    + apply dll_check_ok. vm_compute. reflexivity.
    + intros p t. apply out_check_ok. vm_compute. reflexivity.
    + vm_compute. reflexivity.
  - intros p Hp. apply elem_of_cons in Hp as [->|Hp].
    { eexists _, _. split_and!; vm_compute; reflexivity. }
    apply elem_of_cons in Hp as [->|Hp]; [|by apply elem_of_nil in Hp].
    eexists _, _. split_and!; vm_compute; reflexivity.
Qed.

Lemma Yield_switches_witness : exists s', Yield sample_sched = Some s' /\ current_task_ (tm s') = 24576.
Proof.
  destruct (Yield_switches sample_sched 4096 24576 [45056] 1234 sample_view) as (s' & HY & Hsw);
    [vm_compute; reflexivity|].
  exists s'. split; [exact HY|]. destruct (v_running _ _ (sw_view _ _ _ _ _ Hsw)) as (p & tk & Hp & Hc & _).
  rewrite Hc, <- Hp. reflexivity.
Defined.

Lemma sample_own : own_stack sample_cpu sample_words sample_sched.
Proof.
  split; [eexists; vm_compute; reflexivity|]. intros r x cr _ _. reflexivity.
Qed.

Lemma round_robin_witness : exists s', nsteps turn 2 sample_sched s' /\ current_task_ (tm s') = 45056.
Proof.
  destruct (turns_exist 2 sample_sched three sample_view) as [s' Hs]; [cbn; lia|].
  exists s'. split; [exact Hs|].
  exact (proj1 (round_robin sample_sched s' three 2 45056 sample_view Hs eq_refl)).
Defined.

Lemma yield_returns_witness : exists s1 s2,
  Schedule true (run sample_cpu sample_words sample_sched) = Some s1 /\ nsteps turn 2 s1 s2
  /\ registers (cpu s2) = registers sample_cpu /\ ctx_rip (cpu s2) = 1234.
Proof.
  pose proof (view_run _ _ _ _ sample_view sample_own) as Hv.
  destruct (Schedule_rotates _ 4096 24576 [45056] 1234 Hv) as (s1 & HS & Hsw); [vm_compute; reflexivity|].
  destruct (turns_exist 2 s1 _ (sw_view _ _ _ _ _ Hsw)) as [s2 Hs]; [cbn; lia|].
  exists s1, s2. split; [exact HS|]. split; [exact Hs|].
  destruct (yield_returns sample_sched s1 s2 sample_cpu sample_words 1234 4096 24576 [45056]
    sample_view sample_own ltac:(vm_compute; reflexivity) HS Hs) as (_ & Hr & Hip & _).
  split; [exact Hr|exact Hip].
Defined.
End Sample.
