(* ===== verification/TaskLife.v ===== *)
(** * The life of a task: CreateTask, its first run, TerminateTask *)
From S2P Require Import Prelude Memory CStr Paging Tasks TaskQueue Scheduler.

Section Life.
Context {M : Type} `{FrameAllocatorLaws M} `{FramePool M}.
Implicit Types (t : TM M) (s : Sched M).

(** the stack pointer of a new task: below the entry point's slot *)
Definition initial_rsp (stack : Z) : Z := u64 (Z.ldiff (u64 (stack + kKernelStackSize)) 15 - 8).

(** what CreateTask did when it returned [p] *)
Record created t t' (entry p stack : Z) : Prop := {
  cr_heap : heap t' = <[p := new_task (next_task_id_ t) stack (initial_rsp stack) entry (cr3 (pages t))]> (heap t);
  cr_words : words t' = <[initial_rsp stack := entry]> (words t);
  cr_ids : next_task_id_ t' = u64 (next_task_id_ t + 1) /\ task_count_ t' = u64 (task_count_ t + 1);
  cr_rest : current_task_ t' = current_task_ t /\ ready_queue_head_ t' = ready_queue_head_ t
            /\ ready_queue_tail_ t' = ready_queue_tail_ t /\ arrays t' = arrays t /\ strings t' = strings t;
  cr_pages : pml4_table_ (pages t') = pml4_table_ (pages t) /\ cr3 (pages t') = cr3 (pages t)
             /\ tables (pages t') = tables (pages t);
  cr_pool : Free p sizeof_Task (Free stack kKernelStackSize (pool (pages t'))) = pool (pages t);
  cr_stack : stack <> 0
}.

Lemma CreateTask_cases t entry :
  alloc_inv (pool (pages t)) ->
  let '(p, t') := CreateTask entry t in
  p = 0 /\ (exists out, t' = with_pages (mkPM (pml4_table_ (pages t)) (cr3 (pages t)) (tables (pages t))
                                     (pool (pages t)) (invalidated (pages t)) out) t)
  \/ p <> 0 /\ exists stack, created t t' entry p stack.
Proof.
  intros Hi. assert (Hs1 : 0 <= sizeof_Task <= 2 ^ 64 - 4096) by (unfold sizeof_Task; lia).
  assert (Hs2 : 0 <= kKernelStackSize <= 2 ^ 64 - 4096) by (unfold kKernelStackSize; lia).
  unfold CreateTask. destruct (Allocate sizeof_Task 16 (pool (pages t))) as [p m1] eqn:HA1.
  destruct (Z.eqb_spec p 0) as [->|Hp].
  { left. split; [done|]. eexists. rewrite (Allocate_null _ _ _ _ Hi Hs1 HA1). reflexivity. }
  pose proof (Allocate_Free _ _ _ _ _ Hi Hs1 HA1 Hp) as HF1.
  pose proof (Allocate_inv _ _ _ _ _ Hi Hs1 HA1) as Hi1.
  cbn [pages with_mm with_pages with_pool pool].
  destruct (Allocate kKernelStackSize 16 m1) as [stack m2] eqn:HA2.
  destruct (Z.eqb_spec stack 0) as [->|Hst].
  { left. split; [done|]. eexists. rewrite (Allocate_null _ _ _ _ Hi1 Hs2 HA2).
    unfold kfree, with_mm, tprintf. cbn [pages with_pages with_pool pool pml4_table_ cr3 tables invalidated pm_out].
    rewrite HF1. reflexivity. }
  pose proof (Allocate_Free _ _ _ _ _ Hi1 Hs2 HA2 Hst) as HF2.
  right. split; [done|]. exists stack. split; try done.
  change (Free p sizeof_Task (Free stack kKernelStackSize m2) = pool (pages t)). by rewrite HF2.
Qed.

(** a task that is not in the heap yet joins the unlinked ones *)
Lemma created_queue t t' entry p stack l :
  queue t l -> created t t' entry p stack -> p <> 0 -> heap t !! p = None -> queue t' l.
Proof.
  intros Hq [Hh _ _ (_ & Hhd & Htl & _) _ _ _] Hp Hnone.
  assert (Hpl : p ∉ l).
  { intros Hin. destruct (queue_lookup t l p Hq Hin) as [x Hx]. congruence. }
  destruct Hq as [Hnd Hz Hqh Hqt Hd Ho Hn]. split; try congruence; rewrite Hh.
  - eapply dll_frame; [|exact Hd]. intros q Hqi. rewrite lookup_insert_ne; [done|]. by intros <-.
  - intros q tq Hqt' Hni. destruct (decide (q = p)) as [->|Hne].
    + rewrite lookup_insert_eq in Hqt'. injection Hqt' as <-. done.
    + rewrite lookup_insert_ne in Hqt' by done. by apply (Ho q).
  - by rewrite lookup_insert_ne.
Qed.

(** everything a task took is back: heap, frames, task count, and the queue is [l] *)
Definition given_back t t'' (l : list Z) : Prop :=
  heap t'' = heap t /\ pool (pages t'') = pool (pages t) /\ task_count_ t'' = task_count_ t /\ queue t'' l.

(** task [p] runs: it starts at [entry] in the address space [page_table] *)
Definition starts_at s' (p entry page_table : Z) : Prop :=
  current_task_ (tm s') = p /\ (state <$> (heap (tm s') !! p)) = Some RUNNING
  /\ ctx_rip (cpu s') = entry /\ ctx_rflags (cpu s') = 514 /\ cr3 (pages (tm s')) = page_table.

(** C35: CreateTask either returns a task and leaves the queue as it was, or it
    returns null and gives back everything it had taken; ending the new task gives
    the memory, the heap and the task count of before. *)
Theorem CreateTask_TerminateTask t entry l :
  alloc_inv (pool (pages t)) -> queue t l -> heap t !! fst (CreateTask entry t) = None ->
  0 <= task_count_ t < 2 ^ 64 - 1 ->
  let '(p, t') := CreateTask entry t in
  (p = 0 -> heap t' = heap t /\ pool (pages t') = pool (pages t) /\ queue t' l)
  /\ (p <> 0 -> queue t' l /\ (exists tk, heap t' !! p = Some tk /\ state tk = READY
                                       /\ task_id tk = next_task_id_ t /\ is_app tk = false)
      /\ exists t'', TerminateTask p t' = Some t'' /\ given_back t t'' l).
Proof.
  intros Hi Hq Hnone Hcount. pose proof (CreateTask_cases t entry Hi) as Hc.
  destruct (CreateTask entry t) as [p t']. cbn [fst] in Hnone.
  destruct Hc as [[-> (out & ->)]|[Hp (stack & Hc)]]; split; try done.
  { intros _. split_and!; [done..|by destruct Hq]. }
  intros _. pose proof (created_queue _ _ _ _ _ _ Hq Hc Hp Hnone) as Hq'.
  pose proof Hc as [Hh _ [Hid Hcnt] Hrest Hpages Hpool Hstack].
  set (tk := new_task (next_task_id_ t) stack (initial_rsp stack) entry (cr3 (pages t))) in *.
  assert (Hlk : heap t' !! p = Some tk) by (by rewrite Hh, lookup_insert_eq).
  split; [done|]. split; [by exists tk|].
  assert (Hpl : p ∉ l).
  { intros Hin. destruct (queue_lookup t l p Hq Hin) as [x Hx]. congruence. }
  assert (HR : RemoveFromReadyQueue p t' = Some t').
  { pose proof (linked_in_queue t' l p tk Hq' Hlk) as Hlink.
    rewrite bool_decide_eq_false_2 in Hlink by done. apply orb_false_iff in Hlink as [_ Hnh].
    assert (Hnt : (p =? ready_queue_tail_ t') = false).
    { apply Z.eqb_neq. rewrite (q_tail _ _ Hq'). intros ->. destruct l as [|x l]; [done|].
      apply Hpl. by apply last_or_in. }
    unfold RemoveFromReadyQueue. rewrite (proj2 (Z.eqb_neq p 0)), Hlk by done.
    cbn [mbind option_bind next prev tk new_task]. rewrite Hnh, Hnt. cbn [Z.eqb negb mbind option_bind].
    erewrite modify_Some by exact Hlk. change (set_prev 0 (set_next 0 tk)) with tk.
    by rewrite insert_id, with_heap_same. }
  unfold TerminateTask, given_back. rewrite (proj2 (Z.eqb_neq p 0)), HR by done. cbn [mbind option_bind].
  erewrite modify_Some by exact Hlk. cbn [mbind option_bind heap with_heap].
  rewrite lookup_insert_eq. cbn [mbind option_bind is_app set_state tk new_task kernel_stack kernel_stack_size].
  rewrite (proj2 (Z.eqb_neq stack 0)) by done. eexists. split; [done|].
  cbn [heap with_heap with_count tprintf with_pages kfree with_mm pages pool with_pool task_count_].
  split; [|split; [|split]].
  - rewrite Hh, insert_insert_eq. by rewrite delete_insert_id.
  - exact Hpool.
  - rewrite Hcnt, (u64_small (task_count_ t + 1)) by lia. rewrite u64_small by lia. lia.
  - destruct Hrest as (_ & Hhd & Htl & _). destruct Hq as [Hnd Hz Hqh Hqt Hd Ho Hn].
    split; cbn [heap with_heap with_count tprintf with_pages kfree with_mm ready_queue_head_ ready_queue_tail_];
      rewrite ?Hh, ?insert_insert_eq, ?delete_insert_id by done; try done; congruence.
Qed.

Lemma load_rsp_aligned stack : u64 (initial_rsp stack + 8) mod 16 = 0.
Proof.
  unfold initial_rsp. set (top := Z.ldiff (u64 (stack + kKernelStackSize)) 15).
  assert (Ht : exists k, top = 16 * k /\ 0 <= top < 2 ^ 64).
  { pose proof (u64_range (stack + kKernelStackSize)) as Hr. change 15 with (Z.ones 4) in top.
    assert (He : top = Z.shiftl (Z.shiftr (u64 (stack + kKernelStackSize)) 4) 4).
    { unfold top. by rewrite Z.ldiff_ones_r by lia. }
    rewrite Z.shiftl_mul_pow2, Z.shiftr_div_pow2 in He by lia. change (2 ^ 4) with 16 in He.
    exists (u64 (stack + kKernelStackSize) / 16). split; [lia|]. rewrite He. zlia. }
  destruct Ht as (k & Hk & Hr). unfold u64. clearbody top.
  rewrite Zplus_mod_idemp_l. replace (top - 8 + 8) with top by lia.
  rewrite (Z.mod_small top) by lia. rewrite Hk, Z.mul_comm. by apply Z.mod_mul.
Qed.

(** nothing runs and one task waits: Schedule starts it *)
Lemma first_switch s p c entry voluntary :
  queue (tm s) [p] -> info (tm s) p = Some (READY, c) -> words (tm s) !! ctx_rsp c = Some entry ->
  enabled_ s = true -> current_task_ (tm s) = 0 -> p <> 0 ->
  exists s', Schedule voluntary s = Some s' /\ cpu s' = load_context (cpu s) c entry
    /\ current_task_ (tm s') = p /\ (state <$> (heap (tm s') !! p)) = Some RUNNING
    /\ cr3 (pages (tm s')) = ctx_cr3 c /\ queue (tm s') [].
Proof.
  intros Hq Hi Hw Hen Hcur Hp.
  destruct (dispatch_step (tm s) p [] c Hq Hi) as (t3 & t4 & HR & HM & Hr4 & Hq4 & _ & Hi4).
  pose proof Hr4 as (_ & _ & _ & Hw4 & _ & _ & Hpg4).
  assert (Hna : is_running_app 0 (tm s) = false).
  { unfold is_running_app. by rewrite (q_null _ _ Hq). }
  assert (Hnr : is_running 0 (tm s) = false) by (unfold is_running; by rewrite (q_null _ _ Hq)).
  unfold Schedule, GetCurrentTask, GetNextTask.
  rewrite Hen, (q_head _ _ Hq), Hcur. cbn [negb List.hd].
  rewrite (proj2 (Z.eqb_neq p 0)), (proj2 (Z.eqb_neq 0 p)) by done. cbn [negb].
  rewrite Hna, Hnr, andb_false_r. cbn [mbind option_bind]. rewrite HR. cbn [mbind option_bind].
  rewrite HM. cbn [mbind option_bind Z.eqb negb]. unfold SwitchContext_dummy.
  destruct (enter_step (with_dummy (save_context (cpu s) (cr3 (pages (SetCurrentTask p t4))) (dummy_context s))
    (mkSched (SetCurrentTask p t4) true (u32 (schedule_count_ s + 1)) (cpu s) (dummy_context s)
       (interrupts s))) p RUNNING c entry)
    as (s' & HE & Hcpu & _ & Hcr' & Hheap & _ & Hcur' & Hhd & Htl); [exact Hi4| |].
  { cbn [tm with_dummy]. change (words (SetCurrentTask p t4)) with (words t4). by rewrite Hw4. }
  exists s'. split; [exact HE|]. cbn [tm with_dummy] in *. split_and!; try done.
  - rewrite Hheap. change (heap (SetCurrentTask p t4)) with (heap t4).
    apply info_lookup in Hi4 as (k & -> & <- & _). done.
  - destruct Hq4 as [? ? ? ? Hd Ho Hn]. split; rewrite ?Hheap, ?Hhd, ?Htl; done.
Qed.

(** task [p] waits alone to start at [entry] in the address space [page_table] *)
Record waits t (p entry page_table : Z) : Prop := {
  wt_null : p <> 0;
  wt_queue : queue t [p];
  wt_current : current_task_ t = 0;
  wt_task : exists stack c, info t p = Some (READY, c) /\ words t !! ctx_rsp c = Some entry
            /\ c = initial_context (initial_rsp stack) entry page_table
}.

Lemma waits_pages t p entry page_table pm : waits t p entry page_table -> waits (with_pages pm t) p entry page_table.
Proof. intros [Hp [? ? ? ? ? ? ?] Hc Ht]. by split. Qed.

(** a created and queued task waits; without memory nothing changes but the output *)
Lemma CreateTask_waits t entry :
  queue t [] -> current_task_ t = 0 ->
  let '(p, t1) := CreateTask entry t in heap t !! p = None ->
  p = 0 \/ exists t2, AddToReadyQueue p t1 = Some t2 /\ waits t2 p entry (cr3 (pages t)) /\ p <> 0.
Proof.
  intros Hq Hcur. unfold CreateTask. destruct (Allocate sizeof_Task 16 (pool (pages t))) as [p m1].
  destruct (Z.eqb_spec p 0) as [->|Hp]; [by left|]. cbn [pages with_mm with_pages with_pool pool].
  destruct (Allocate kKernelStackSize 16 m1) as [stack m2]. destruct (Z.eqb_spec stack 0) as [->|Hst]; [by left|].
  intros Hnone. right. set (t1 := tprintf _ _ _).
  assert (Hq1 : queue t1 []).
  { destruct Hq as [? ? Hhd Htl _ Ho Hn]. split; try done.
    - intros q tq Hl Hni. unfold t1 in Hl. cbn [tprintf with_pages heap] in Hl.
      change (heap (with_mm m2 (with_mm m1 t))) with (heap t) in Hl.
      apply lookup_insert_Some in Hl as [[_ <-]|[_ Hl]]; [done|]. by apply Ho with q.
    - unfold t1. cbn [tprintf with_pages heap]. change (heap (with_mm m2 (with_mm m1 t))) with (heap t).
      by rewrite lookup_insert_ne by done. }
  set (c := initial_context (initial_rsp stack) entry (cr3 (pages t))).
  assert (Hi : info t1 p = Some (READY, c)).
  { unfold info, t1. cbn [tprintf with_pages heap]. by rewrite lookup_insert_eq. }
  destruct (add_step t1 [] p _ _ Hq1 Hi (not_elem_of_nil p)) as (t2 & HA & Hr & Hq2 & _ & Hi2).
  exists t2. split; [exact HA|]. split; [|exact Hp]. destruct Hr as (Hc2 & _ & _ & Hw2 & _). split; try done.
  - rewrite Hc2. exact Hcur.
  - exists stack, c. split; [exact Hi2|]. split; [|done]. rewrite Hw2. apply lookup_insert_eq.
Qed.

(** The first run of a task: when nothing runs and it waits alone, Schedule starts it at
    its entry point, with interrupts enabled, in the address space CreateTask was called
    in.  Its stack pointer is then a multiple of 16, where the ABI the code refers to has
    8 more than one at a function's entry. *)
Theorem first_run s p entry page_table voluntary :
  waits (tm s) p entry page_table -> enabled_ s = true ->
  exists s', Schedule voluntary s = Some s' /\ starts_at s' p entry page_table
    /\ queue (tm s') [] /\ ctx_rsp (cpu s') mod 16 = 0.
Proof.
  intros [Hp Hq Hcur (stack & c & Hi & Hw & ->)] Hen.
  destruct (first_switch s p _ entry voluntary Hq Hi Hw Hen Hcur Hp) as (s' & HS & Hcpu & Hcur' & Hst & Hcr' & Hq').
  exists s'. split; [exact HS|]. split; [|split; [exact Hq'|]].
  - split; [exact Hcur'|]. split; [exact Hst|]. by rewrite Hcpu, Hcr'.
  - rewrite Hcpu. apply load_rsp_aligned.
Qed.
End Life.

(** ** On a small machine *)

Lemma sample_pool_inv : alloc_inv sample_pool.
Proof.
  split; [by split; [done|repeat constructor; cbn; lia]|vm_compute; congruence|cbn; lia|done|].
  intros j Hj. apply Bitmap.Get_outside. exact Hj.
Qed.

Lemma empty_queue : queue empty_tm [].
Proof. split; try done. apply NoDup_nil_2. apply not_elem_of_nil. Qed.

Lemma CreateTask_TerminateTask_witness : exists t'',
  TerminateTask 4096 (snd (CreateTask 1000 empty_tm)) = Some t'' /\ pool (pages t'') = sample_pool.
Proof.
  pose proof (CreateTask_TerminateTask empty_tm 1000 [] sample_pool_inv empty_queue
    ltac:(vm_compute; reflexivity) ltac:(vm_compute; split; congruence)) as Hc.
  destruct (CreateTask 1000 empty_tm) as [p t'] eqn:HC.
  assert (Hp : p = 4096).
  { change p with (fst (p, t')). rewrite <- HC. vm_compute. reflexivity. }
  rewrite Hp in Hc. destruct (proj2 Hc ltac:(discriminate)) as (_ & _ & t'' & HT & _ & Hpool & _).
  exists t''. split; [exact HT|exact Hpool].
Defined.

Definition idle_sched : Sched MemoryManager.t := mkSched empty_tm true 0 sample_cpu zero_context true.

Lemma first_run_witness : exists p t1 t2 s', CreateTask 1000 empty_tm = (p, t1)
  /\ AddToReadyQueue p t1 = Some t2
  /\ Schedule true (with_tm t2 idle_sched) = Some s' /\ ctx_rip (cpu s') = 1000.
Proof.
  pose proof (CreateTask_waits empty_tm 1000 empty_queue eq_refl) as HC.
  assert (Hp : fst (CreateTask 1000 empty_tm) = 4096) by (vm_compute; reflexivity).
  destruct (CreateTask 1000 empty_tm) as [p t1]. cbn [fst] in Hp. subst p.
  destruct (HC eq_refl) as [?|(t2 & HA & Hw & _)]; [discriminate|].
  destruct (first_run (with_tm t2 idle_sched) 4096 1000 (cr3 (pages empty_tm)) true Hw eq_refl) as (s' & HS & (_ & _ & Hip & _) & _).
  exists 4096, t1, t2, s'. split_and!; [done|exact HA|exact HS|exact Hip].
Defined.
