(* ===== verification/Font.v ===== *)
(** * The font (kernel/font.cpp)

    The bitmaps of the characters from 0x20 to 0x7E, sixteen rows each, and GetFont. *)
From S2P Require Import Prelude.

(** the sixteen rows of a glyph, a byte each with the leftmost pixel in the top bit, from
    the number that has them as digits *)
Definition glyph_rows (g : Z) : list Z :=
  map (fun row => Z.land (Z.shiftr g (8 * (15 - row))) 255) (seqZ 0 16).

(** ASCII 0x20 (space) to 0x7E (~); the rows of a glyph are written as one number *)
Definition kFontAscii : list (list Z) := map glyph_rows [
  0x00000000000000000000000000000000; 0x0000183c3c3c18181800181800000000;
  0x00666624000000000000000000000000; 0x000036367f3636367f36360000000000;
  0x183c6060584c4606063c181818000000; 0x00666c18306600000000000000000000;
  0x386c6c386dc686c67c00000000000000; 0x0018180c000000000000000000000000;
  0x000c18303030303030180c0000000000; 0x0030180c0c0c0c0c0c18300000000000;
  0x000000004224ff244200000000000000; 0x0000001818187e181818000000000000;
  0x0000000000000000000018180c000000; 0x0000000000007e000000000000000000;
  0x00000000000000000000181800000000; 0x000002060c183060c080000000000000;
  0x003c666e76666666663c000000000000; 0x0018381818181818187e000000000000;
  0x003c66060c183060667e000000000000; 0x003c66061c060606663c000000000000;
  0x000c1c2c4c6cff0c0c0c000000000000; 0x007e607c06060606663c000000000000;
  0x001c30607c666666663c000000000000; 0x007e66060c1818181818000000000000;
  0x003c66663c666666663c000000000000; 0x003c666666663e060c38000000000000;
  0x00000018180000001818000000000000; 0x000000181800000018180c0000000000;
  0x000c183060c06030180c000000000000; 0x000000007e007e000000000000000000;
  0x0030180c0603060c1830000000000000; 0x003c660c181800181800000000000000;
  0x003c666e6e6e606e603e000000000000; 0x00183c6666667e666666000000000000;
  0x007c6666667c6666667c000000000000; 0x003c666060606060663c000000000000;
  0x00786c66666666666c78000000000000; 0x007e606060786060607e000000000000;
  0x007e6060607860606060000000000000; 0x003c666060606e66663c000000000000;
  0x00666666667e66666666000000000000; 0x003c181818181818183c000000000000;
  0x0006060606060606663c000000000000; 0x00666c7870786c666666000000000000;
  0x0060606060606060607e000000000000; 0x0063777f6b6363636363000000000000;
  0x0063676f7b7363636363000000000000; 0x003c666666666666663c000000000000;
  0x007c6666667c60606060000000000000; 0x003c66666666666e3c0e000000000000;
  0x007c6666667c6c666666000000000000; 0x003c666030180c06663c000000000000;
  0x007e1818181818181818000000000000; 0x0066666666666666663c000000000000;
  0x006666666666663c1818000000000000; 0x00636363636b7f776363000000000000;
  0x0066663c1818183c6666000000000000; 0x006666663c1818181818000000000000;
  0x007e060c183060c0607e000000000000; 0x003c303030303030303c000000000000;
  0x0080c06030180c060301000000000000; 0x003c0c0c0c0c0c0c0c3c000000000000;
  0x10386cc6000000000000000000000000; 0x0000000000000000000000000000ff00;
  0x180c0600000000000000000000000000; 0x000000003c427e42427e000000000000;
  0x00000040405c6242625c000000000000; 0x000000003c424040423c000000000000;
  0x00000002023a4642463a000000000000; 0x000000003c427e40423c000000000000;
  0x00000c12107c10101010000000000000; 0x000000003a44443c0438000000000000;
  0x00000040405c62426242000000000000; 0x0000100030101010103c000000000000;
  0x000004000c0404044438000000000000; 0x0000004044485060504c000000000000;
  0x0000301010101010103c000000000000; 0x000000006a4949494949000000000000;
  0x000000005c6242424242000000000000; 0x000000003c424242423c000000000000;
  0x000000005c624242625c404000000000; 0x000000003a464242463a020200000000;
  0x000000005c6240404040000000000000; 0x000000003c403c02423c000000000000;
  0x00000020702020202418000000000000; 0x0000000042424242463a000000000000;
  0x00000000424224241818000000000000; 0x00000000414955552222000000000000;
  0x00000000422418182442000000000000; 0x000000004242423e021c101000000000;
  0x000000007c081020407c000000000000; 0x00081818103010181808000000000000;
  0x00181818181818181818000000000000; 0x00101818080c08181810000000000000;
  0x00316b46000000000000000000000000].

(** [None] is the null pointer *)
Definition GetFont (c : Z) : option (list Z) :=
  if (0x20 <=? c) && (c <=? 0x7E) then kFontAscii !! Z.to_nat (c - 0x20) else None.

Lemma kFontAscii_shape : length kFontAscii = 95%nat /\ Forall (fun g => length g = 16%nat) kFontAscii.
Proof. split; [reflexivity|]. repeat constructor. Qed.

(** every printable character has a glyph *)
Lemma GetFont_printable c :
  is_Some (GetFont c) <-> 0x20 <= c <= 0x7E.
Proof.
  unfold GetFont. destruct (Z.leb_spec 0x20 c); destruct (Z.leb_spec c 0x7E); cbn [andb];
    try (split; [by intros [? ?]|lia]).
  split; [lia|]. intros _. apply lookup_lt_is_Some_2. rewrite (proj1 kFontAscii_shape). lia.
Qed.
