(* ===== verification/Graphics.v ===== *)
(** * The frame buffer (kernel/graphics.cpp, graphics.hpp)

    [FillRectangle], [WriteAscii] and [WriteString] on the pixels of the frame buffer,
    a map from the index of a 32-bit word to its value.  The lemmas give the picture
    after each operation in coordinates, and show that no word outside the visible
    area is written. *)
From S2P Require Import Prelude Font.

Record FrameBufferConfig := mkFrameBufferConfig {
  FrameBufferBase : Z; FrameBufferSize : Z;
  HorizontalResolution : Z; VerticalResolution : Z; PixelsPerScanLine : Z }.

(** [base[index]] *)
Abbreviation Pixels := (gmap Z Z).
Definition pixel (fb : Pixels) (index : Z) : Z := default 0 (fb !! index).

(** [for (int i = i0; i < i0 + n; ++i) { if (stop(i)) break; body(i); }] *)
Fixpoint for_break {S} (n : nat) (i : Z) (stop : Z -> bool) (body : Z -> S -> S) (s : S) : S :=
  match n with
  | O => s
  | Datatypes.S n' => if stop i then s else for_break n' (i + 1) stop body (body i s)
  end.

(** [uint32_t index = y * config.PixelsPerScanLine + x] *)
Definition pixel_index (config : FrameBufferConfig) (x y : Z) : Z :=
  u32 (y * PixelsPerScanLine config + x).

Definition FillRectangle (config : FrameBufferConfig) (x y w h color : Z) (fb : Pixels) : Pixels :=
  for_break (Z.to_nat h) 0 (fun dy => VerticalResolution config <=? y + dy) (fun dy fb =>
    let current_y := y + dy in
    for_break (Z.to_nat w) 0 (fun dx => HorizontalResolution config <=? x + dx) (fun dx fb =>
      let current_x := x + dx in
      <[pixel_index config current_x current_y := color]> fb) fb) fb.

Definition WriteAscii (config : FrameBufferConfig) (x y c fg_color bg_color : Z) (fb : Pixels) : Pixels :=
  match GetFont c with
  | None => fb
  | Some font =>
      for_break 16 0 (fun dy => VerticalResolution config <=? y + dy) (fun dy fb =>
        let row_bitmap := rd font dy in
        for_break 8 0 (fun dx => HorizontalResolution config <=? x + dx) (fun dx fb =>
          let index := pixel_index config (x + dx) (y + dy) in
          if negb (Z.land (Z.shiftr row_bitmap (7 - dx)) 1 =? 0)
          then <[index := fg_color]> fb
          else <[index := bg_color]> fb) fb) fb
  end.

Fixpoint WriteString (config : FrameBufferConfig) (x y : Z) (s : list Z) (fg_color bg_color : Z)
    (fb : Pixels) : Pixels :=
  match s with
  | [] => fb
  | c :: rest =>
      WriteString config (x + 8) y rest fg_color bg_color
        (WriteAscii config x y c fg_color bg_color fb)
  end.

(** ** The picture *)

(** a display the code can address: a scan line holds a row, and the index of a pixel
    fits the 32 bits it is computed in *)
Record config_ok (config : FrameBufferConfig) : Prop := {
  cfg_width : 0 <= HorizontalResolution config <= PixelsPerScanLine config;
  cfg_height : 0 <= VerticalResolution config;
  cfg_index : VerticalResolution config * PixelsPerScanLine config <= 2 ^ 32 }.

Definition visible (config : FrameBufferConfig) (index : Z) : Prop :=
  exists x y, 0 <= x < HorizontalResolution config /\ 0 <= y < VerticalResolution config
    /\ index = y * PixelsPerScanLine config + x.

(** only words of the visible area have changed *)
Definition draws (config : FrameBufferConfig) (fb fb' : Pixels) : Prop :=
  forall index, ~ visible config index -> fb' !! index = fb !! index.

#[export] Instance draws_preorder config : PreOrder (draws config).
Proof. split; [by intros fb i|]. intros f1 f2 f3 H1 H2 i Hi. by rewrite H2, H1. Qed.

(** the pixel at column [x] of line [y] *)
Definition at_xy (config : FrameBufferConfig) (fb : Pixels) (x y : Z) : Z :=
  pixel fb (y * PixelsPerScanLine config + x).

(** the picture that shows [color] in a block of [w] columns and [h] lines at [(x, y)] *)
Definition in_block (config : FrameBufferConfig) (x y w h x' y' : Z) : bool :=
  (x <=? x') && (x' <? x + w) && (x' <? HorizontalResolution config)
  && (y <=? y') && (y' <? y + h) && (y' <? VerticalResolution config).

Section Picture.
Context (config : FrameBufferConfig) (Hok : config_ok config).
Local Abbreviation W := (HorizontalResolution config).
Local Abbreviation H := (VerticalResolution config).
Local Abbreviation P := (PixelsPerScanLine config).

Lemma pixel_index_eq x y : 0 <= x < W -> 0 <= y < H -> pixel_index config x y = y * P + x.
Proof. destruct Hok. intros. apply u32_small. nia. Qed.

Lemma at_xy_set x y v fb x' y' : 0 <= x < W -> 0 <= x' < P ->
  at_xy config (<[y * P + x := v]> fb) x' y' =
  if (x' =? x) && (y' =? y) then v else at_xy config fb x' y'.
Proof.
  destruct Hok. intros Hx Hx'. unfold at_xy, pixel.
  destruct (Z.eqb_spec x' x) as [->|Hn]; destruct (Z.eqb_spec y' y) as [->|Hm]; cbn [andb].
  1: by rewrite lookup_insert_eq.
  all: rewrite lookup_insert_ne; [done|nia].
Qed.

Lemma draws_set x y v fb : 0 <= x < W -> 0 <= y < H -> draws config fb (<[y * P + x := v]> fb).
Proof. intros Hx Hy i Hi. apply lookup_insert_ne. intros <-. apply Hi. by exists x, y. Qed.

(** *** A row *)

Definition draw_row (n : nat) (i x y : Z) (color : Z -> Z) (fb : Pixels) : Pixels :=
  for_break n i (fun dx => W <=? x + dx)
    (fun dx fb => <[pixel_index config (x + dx) y := color dx]> fb) fb.

Lemma draw_row_at n : forall i x y color fb x' y',
  0 <= x + i -> 0 <= y < H -> 0 <= x' < P ->
  draws config fb (draw_row n i x y color fb) /\
  at_xy config (draw_row n i x y color fb) x' y' =
  if (x + i <=? x') && (x' <? x + i + Z.of_nat n) && (x' <? W) && (y' =? y)
  then color (x' - x) else at_xy config fb x' y'.
Proof.
  induction n as [|n IH]; intros i x y color fb x' y' Hi Hy Hx'; unfold draw_row; cbn [for_break].
  { split; [done|]. by replace (_ && (x' <? x + i + Z.of_nat 0)) with false by (zcases; cbn; lia). }
  destruct (Z.leb_spec W (x + i)) as [Hs|Hs].
  { split; [done|]. by replace (_ && (x' <? W)) with false by (zcases; cbn; lia). }
  fold (draw_row n (i + 1) x y color (<[pixel_index config (x + i) y := color i]> fb)).
  rewrite pixel_index_eq by lia.
  destruct (IH (i + 1) x y color (<[y * P + (x + i) := color i]> fb) x' y') as [Hd Ha]; [lia..|].
  split; [etrans; [apply (draws_set (x + i) y (color i)); lia|exact Hd]|].
  rewrite Ha, at_xy_set by lia.
  destruct (Z.eqb_spec x' (x + i)) as [->|Hne].
  - replace (x + i - x) with i by lia. zcases; cbn; try lia; done.
  - zcases; cbn; try lia; done.
Qed.

(** *** A block *)

Definition draw_block (m n : nat) (j x y : Z) (color : Z -> Z -> Z) (fb : Pixels) : Pixels :=
  for_break m j (fun dy => H <=? y + dy) (fun dy fb => draw_row n 0 x (y + dy) (color dy) fb) fb.

Lemma draw_block_at m n : forall j x y color fb x' y',
  0 <= x -> 0 <= y + j -> 0 <= x' < P ->
  draws config fb (draw_block m n j x y color fb) /\
  at_xy config (draw_block m n j x y color fb) x' y' =
  if in_block config x (y + j) (Z.of_nat n) (Z.of_nat m) x' y'
  then color (y' - y) (x' - x) else at_xy config fb x' y'.
Proof.
  unfold in_block. induction m as [|m IH]; intros j x y color fb x' y' Hx Hj Hx';
    unfold draw_block; cbn [for_break].
  { split; [done|]. replace (_ && (y' <? y + j + Z.of_nat 0) && _) with false by (zcases; cbn; lia). done. }
  destruct (Z.leb_spec H (y + j)) as [Hs|Hs].
  { split; [done|]. by replace (_ && (y' <? H)) with false by (zcases; cbn; lia). }
  fold (draw_block m n (j + 1) x y color (draw_row n 0 x (y + j) (color j) fb)).
  destruct (draw_row_at n 0 x (y + j) (color j) fb x' y') as [Hd1 Ha1]; [lia..|].
  destruct (IH (j + 1) x y color (draw_row n 0 x (y + j) (color j) fb) x' y') as [Hd2 Ha2]; [lia..|].
  split; [by etrans|]. rewrite Ha2, Ha1, Z.add_0_r.
  destruct (Z.eqb_spec y' (y + j)) as [->|Hne].
  - replace (y + j - y) with j by lia. zcases; cbn; try lia; done.
  - zcases; cbn; try lia; done.
Qed.

Lemma FillRectangle_at x y w h color fb x' y' :
  0 <= x -> 0 <= y -> 0 <= w -> 0 <= h -> 0 <= x' < P ->
  draws config fb (FillRectangle config x y w h color fb) /\
  at_xy config (FillRectangle config x y w h color fb) x' y' =
  if in_block config x y w h x' y' then color else at_xy config fb x' y'.
Proof.
  intros Hx Hy Hw Hh Hx'.
  destruct (draw_block_at (Z.to_nat h) (Z.to_nat w) 0 x y (fun _ _ => color) fb x' y') as [Hd Ha]; [lia..|].
  rewrite !Z2Nat.id, Z.add_0_r in Ha by lia. by split.
Qed.

(** the colour of a pixel of a character *)
Definition glyph (font : list Z) (fg_color bg_color dy dx : Z) : Z :=
  if Z.testbit (rd font dy) (7 - dx) then fg_color else bg_color.

Lemma land_shiftr_testbit a n : 0 <= n -> negb (Z.land (Z.shiftr a n) 1 =? 0) = Z.testbit a n.
Proof.
  intros Hn. change 1 with (Z.ones 1). rewrite Z.land_ones by lia. change (2 ^ 1) with 2.
  rewrite Zmod_odd, <- Z.bit0_odd, Z.shiftr_spec, Z.add_0_l by lia. by destruct (Z.testbit a n).
Qed.

Lemma for_break_ext {S} n : forall i stop (f g : Z -> S -> S) s,
  (forall k s, i <= k < i + Z.of_nat n -> f k s = g k s) ->
  for_break n i stop f s = for_break n i stop g s.
Proof.
  induction n as [|n IH]; intros i stop f g s He; cbn [for_break]; [done|].
  rewrite He by lia. destruct (stop i); [done|]. apply IH. intros. apply He. lia.
Qed.

Lemma WriteAscii_block x y c font fg bg fb :
  GetFont c = Some font ->
  WriteAscii config x y c fg bg fb = draw_block 16 8 0 x y (glyph font fg bg) fb.
Proof.
  intros Hf. unfold WriteAscii. rewrite Hf. unfold draw_block.
  apply for_break_ext. intros dy s _. unfold draw_row. apply for_break_ext.
  intros dx s' Hdx. cbv zeta. rewrite land_shiftr_testbit by lia.
  unfold glyph. by destruct (Z.testbit (rd font dy) (7 - dx)).
Qed.

Lemma WriteAscii_at x y c font fg bg fb x' y' :
  GetFont c = Some font -> 0 <= x -> 0 <= y -> 0 <= x' < P ->
  draws config fb (WriteAscii config x y c fg bg fb) /\
  at_xy config (WriteAscii config x y c fg bg fb) x' y' =
  if in_block config x y 8 16 x' y' then glyph font fg bg (y' - y) (x' - x) else at_xy config fb x' y'.
Proof.
  intros Hf Hx Hy Hx'. rewrite (WriteAscii_block x y c font fg bg fb Hf).
  destruct (draw_block_at 16 8 0 x y (glyph font fg bg) fb x' y' Hx ltac:(lia) Hx') as [Hd Ha].
  split; [exact Hd|]. rewrite Ha, Z.add_0_r. reflexivity.
Qed.

End Picture.
