(* ===== verification/Console.v ===== *)
(** * The text console (kernel/console.cpp, console.hpp)

    Console with its cursor, its colours and its escape-sequence state machine over
    the frame buffer, and what it promises: a terminal of character cells
    ([Terminal]) that PutString implements. *)
From S2P Require Import Prelude CStr Font Graphics.

Inductive State := kNormal | kEsc | kBracket | kParam.

#[export] Instance State_eq_dec : EqDecision State.
Proof. solve_decision. Defined.

Record Console := mkConsole {
  config_ : FrameBufferConfig;
  fg_color_ : Z; bg_color_ : Z;
  cursor_row_ : Z; cursor_column_ : Z;
  rows_ : Z; columns_ : Z;
  state_ : State; esc_buf_ : list Z; esc_buf_idx_ : Z;
  default_fg_color_ : Z; default_bg_color_ : Z;
  base : Pixels (** the words at config_.FrameBufferBase *) }.

(** the fields an operation changes *)
Definition set_colors (c : Console) (fg bg : Z) : Console :=
  mkConsole (config_ c) fg bg (cursor_row_ c) (cursor_column_ c) (rows_ c) (columns_ c)
    (state_ c) (esc_buf_ c) (esc_buf_idx_ c) (default_fg_color_ c) (default_bg_color_ c) (base c).
Definition set_cursor (c : Console) (row column : Z) : Console :=
  mkConsole (config_ c) (fg_color_ c) (bg_color_ c) row column (rows_ c) (columns_ c)
    (state_ c) (esc_buf_ c) (esc_buf_idx_ c) (default_fg_color_ c) (default_bg_color_ c) (base c).
Definition set_escape (c : Console) (st : State) : Console :=
  mkConsole (config_ c) (fg_color_ c) (bg_color_ c) (cursor_row_ c) (cursor_column_ c) (rows_ c)
    (columns_ c) st (esc_buf_ c) (esc_buf_idx_ c) (default_fg_color_ c) (default_bg_color_ c) (base c).
Definition set_esc (c : Console) (buf : list Z) (idx : Z) : Console :=
  mkConsole (config_ c) (fg_color_ c) (bg_color_ c) (cursor_row_ c) (cursor_column_ c) (rows_ c)
    (columns_ c) (state_ c) buf idx (default_fg_color_ c) (default_bg_color_ c) (base c).
Definition set_base (c : Console) (fb : Pixels) : Console :=
  mkConsole (config_ c) (fg_color_ c) (bg_color_ c) (cursor_row_ c) (cursor_column_ c) (rows_ c)
    (columns_ c) (state_ c) (esc_buf_ c) (esc_buf_idx_ c) (default_fg_color_ c) (default_bg_color_ c) fb.

(** the constructor; [esc] is what the object's memory holds in [esc_buf_], and [fb]
    the frame buffer *)
Definition new_Console (config : FrameBufferConfig) (fg_color bg_color : Z) (esc : list Z) (fb : Pixels)
    : Console :=
  mkConsole config fg_color bg_color 0 0
    (VerticalResolution config / 16) (HorizontalResolution config / 8)
    kNormal esc 0 fg_color bg_color fb.

(** ** Operations *)

(** the copy of every line to the one 16 above, and the last row cleared *)
Definition scroll_copy (config : FrameBufferConfig) (fb : Pixels) : Pixels :=
  let copy_height := i32 (u32 (VerticalResolution config - 16)) in
  for_break (Z.to_nat copy_height) 0 (fun _ => false) (fun y fb =>
    for_break (Z.to_nat (HorizontalResolution config)) 0 (fun _ => false) (fun x fb =>
      let src_index := pixel_index config x (y + 16) in
      let dst_index := pixel_index config x y in
      <[dst_index := pixel fb src_index]> fb) fb) fb.

Definition Refresh (c : Console) : Console :=
  set_base c
    (FillRectangle (config_ c) 0 ((rows_ c - 1) * 16) (HorizontalResolution (config_ c)) 16
       (bg_color_ c) (scroll_copy (config_ c) (base c))).

Definition NewLine (c : Console) : Console :=
  let c := set_cursor c (cursor_row_ c) 0 in
  if cursor_row_ c <? rows_ c - 1
  then set_cursor c (cursor_row_ c + 1) (cursor_column_ c)
  else Refresh c.

Definition kAnsiColors : list Z :=
  [0x000000; 0xFF0000; 0x00FF00; 0xFFFF00; 0x0000FF; 0xFF00FF; 0x00FFFF; 0xFFFFFF].

(** the number in [esc_buf_]; a number that leaves the int wraps around *)
Definition ansi_param (buf : list Z) : Z :=
  fold_left (fun param p => i32 (param * 10 + (p - 48))) (cstr_of buf) 0.

Definition ExecuteAnsiCommand (c : Console) : Console :=
  let param := ansi_param (esc_buf_ c) in
  if param =? 0 then set_colors c (default_fg_color_ c) (default_bg_color_ c)
  else if (30 <=? param) && (param <=? 37) then
    set_colors c (rd kAnsiColors (param - 30)) (bg_color_ c)
  else if (40 <=? param) && (param <=? 47) then
    set_colors c (fg_color_ c) (rd kAnsiColors (param - 40))
  else c.

Definition is_digit (ch : Z) : bool := (48 <=? ch) && (ch <=? 57).

(** [if (esc_buf_idx_ < sizeof(esc_buf_) - 1) esc_buf_[esc_buf_idx_++] = c;] *)
Definition push_digit (c : Console) (ch : Z) : Console :=
  if esc_buf_idx_ c <? 31
  then set_esc c (upd (esc_buf_ c) (esc_buf_idx_ c) ch) (esc_buf_idx_ c + 1)
  else c.

(** [esc_buf_[esc_buf_idx_] = 0;] *)
Definition terminate (c : Console) : Console :=
  set_esc c (upd (esc_buf_ c) (esc_buf_idx_ c) 0) (esc_buf_idx_ c).

Definition ProcessEscapeSequence (c : Console) (ch : Z) : Console :=
  match state_ c with
  | kEsc =>
      if ch =? chr "[" then set_esc (set_escape c kBracket) (esc_buf_ c) 0
      else set_escape c kNormal
  | kBracket =>
      if is_digit ch then push_digit (set_escape c kParam) ch
      else if ch =? chr "m" then
        let c := set_esc c (upd (upd (esc_buf_ c) 0 48) 1 0) (esc_buf_idx_ c) in
        set_escape (ExecuteAnsiCommand c) kNormal
      else set_escape c kNormal
  | kParam =>
      if is_digit ch then push_digit c ch
      else if ch =? chr ";" then
        let c := ExecuteAnsiCommand (terminate c) in
        set_esc c (esc_buf_ c) 0
      else if ch =? chr "m" then set_escape (ExecuteAnsiCommand (terminate c)) kNormal
      else set_escape c kNormal
  | kNormal => c
  end.

(** the check at the end of a line *)
Definition wrap (c : Console) : Console :=
  if columns_ c <=? cursor_column_ c then NewLine c else c.

(** one character of PutString *)
Definition put_char (c : Console) (ch : Z) : Console :=
  wrap (
    if negb (bool_decide (state_ c = kNormal)) then ProcessEscapeSequence c ch
    else if ch =? 27 then set_escape c kEsc
    else if ch =? 10 then NewLine c
    else if ch =? 8 then
      if 0 <? cursor_column_ c then
        let c := set_cursor c (cursor_row_ c) (cursor_column_ c - 1) in
        set_base c (WriteAscii (config_ c) (cursor_column_ c * 8) (cursor_row_ c * 16) 32
                      (bg_color_ c) (bg_color_ c) (base c))
      else c
    else if cursor_column_ c <? columns_ c then
      let c := set_base c (WriteAscii (config_ c) (cursor_column_ c * 8) (cursor_row_ c * 16) ch
                             (fg_color_ c) (bg_color_ c) (base c)) in
      set_cursor c (cursor_row_ c) (cursor_column_ c + 1)
    else c).

Definition PutString (c : Console) (s : list Z) : Console := fold_left put_char s c.

Definition SetColor (c : Console) (fg_color bg_color : Z) : Console := set_colors c fg_color bg_color.

Definition Panic (c : Console) (fg_color bg_color : Z) : Console :=
  let c := set_colors c fg_color bg_color in
  let c := set_base c (FillRectangle (config_ c) 0 0 (HorizontalResolution (config_ c))
                         (VerticalResolution (config_ c)) (bg_color_ c) (base c)) in
  set_cursor c 0 0.

(** ** The terminal it implements *)

(** a character on its colours; a cell is [None] while nothing is known of its pixels *)
Record Cell := mkCell { cell_char : Z; cell_fg : Z; cell_bg : Z }.

(** outside a sequence, after ESC, after ESC [, and the digits of a parameter *)
Inductive Parser := Plain | Escape | Bracket | Param (digits : list Z).

Record Terminal := mkTerminal {
  t_row : Z; t_column : Z; t_fg : Z; t_bg : Z; t_parser : Parser;
  t_cells : Z -> Z -> option Cell }.

Section Spec.
Context (rows columns default_fg default_bg : Z).

Definition with_cell (cells : Z -> Z -> option Cell) (row column : Z) (v : option Cell) :=
  fun r k => if (r =? row) && (k =? column) then v else cells r k.

Definition t_newline (t : Terminal) : Terminal :=
  if t_row t + 1 <? rows
  then mkTerminal (t_row t + 1) 0 (t_fg t) (t_bg t) (t_parser t) (t_cells t)
  else mkTerminal (t_row t) 0 (t_fg t) (t_bg t) (t_parser t)
         (fun r k => if r =? rows - 1 then Some (mkCell 32 (t_bg t) (t_bg t)) else t_cells t (r + 1) k).

(** the eight colours: bit 0 is red, bit 1 green and bit 2 blue *)
Definition ansi_color (n : Z) : Z :=
  (if Z.testbit n 0 then 0xFF0000 else 0) + (if Z.testbit n 1 then 0xFF00 else 0)
  + (if Z.testbit n 2 then 0xFF else 0).

(** the value of a parameter as an int *)
Definition sgr_value (digits : list Z) : Z :=
  i32 (fold_left (fun n d => n * 10 + (d - 48)) digits 0).

(** select graphic rendition: 0, 30-37 and 40-47 *)
Definition sgr (t : Terminal) (digits : list Z) : Terminal :=
  let n := sgr_value digits in
  let '(fg, bg) :=
    if n =? 0 then (default_fg, default_bg)
    else if n / 10 =? 3 then (if n mod 10 <=? 7 then ansi_color (n mod 10) else t_fg t, t_bg t)
    else if n / 10 =? 4 then (t_fg t, if n mod 10 <=? 7 then ansi_color (n mod 10) else t_bg t)
    else (t_fg t, t_bg t) in
  mkTerminal (t_row t) (t_column t) fg bg (t_parser t) (t_cells t).

Definition parse_to (t : Terminal) (p : Parser) : Terminal :=
  mkTerminal (t_row t) (t_column t) (t_fg t) (t_bg t) p (t_cells t).

(** a parameter keeps its first 31 digits *)
Definition t_escape (t : Terminal) (ch : Z) : Terminal :=
  match t_parser t with
  | Plain => t
  | Escape => parse_to t (if ch =? chr "[" then Bracket else Plain)
  | Bracket =>
      if is_digit ch then parse_to t (Param [ch])
      else parse_to (if ch =? chr "m" then sgr t [] else t) Plain
  | Param digits =>
      if is_digit ch then parse_to t (Param (take 31 (digits ++ [ch])))
      else if ch =? chr ";" then parse_to (sgr t digits) (Param [])
      else parse_to (if ch =? chr "m" then sgr t digits else t) Plain
  end.

Definition t_put (t : Terminal) (ch : Z) : Terminal :=
  match t_parser t with
  | Plain =>
      if ch =? 27 then parse_to t Escape
      else if ch =? 10 then t_newline t
      else if ch =? 8 then
        if 0 <? t_column t then
          mkTerminal (t_row t) (t_column t - 1) (t_fg t) (t_bg t) Plain
            (with_cell (t_cells t) (t_row t) (t_column t - 1) (Some (mkCell 32 (t_bg t) (t_bg t))))
        else t
      else
        let cell := if (0x20 <=? ch) && (ch <=? 0x7E) then Some (mkCell ch (t_fg t) (t_bg t))
                    else t_cells t (t_row t) (t_column t) in
        let t' := mkTerminal (t_row t) (t_column t + 1) (t_fg t) (t_bg t) Plain
                    (with_cell (t_cells t) (t_row t) (t_column t) cell) in
        if t_column t + 1 =? columns then t_newline t' else t'
  | _ => t_escape t ch
  end.

End Spec.

(** the pixels of a cell show its character *)
Definition shows (config : FrameBufferConfig) (fb : Pixels) (row column : Z) (cell : option Cell) : Prop :=
  match cell with
  | None => True
  | Some v =>
      exists font, GetFont (cell_char v) = Some font /\
        forall dy dx, 0 <= dy < 16 -> 0 <= dx < 8 ->
          at_xy config fb (column * 8 + dx) (row * 16 + dy) = glyph font (cell_fg v) (cell_bg v) dy dx
  end.

(** the state of the sequence parser *)
Definition parses (c : Console) (p : Parser) : Prop :=
  match p with
  | Plain => state_ c = kNormal
  | Escape => state_ c = kEsc
  | Bracket => state_ c = kBracket /\ esc_buf_idx_ c = 0
  | Param digits =>
      state_ c = kParam /\ esc_buf_idx_ c = zlen digits /\ zlen digits <= 31
        /\ Forall (fun d => is_digit d = true) digits /\ take (length digits) (esc_buf_ c) = digits
  end.

(** A console that shows the terminal [t]: its cursor is on the screen (left of
    column [limit]), the digits of the parameter being read are in [esc_buf_] and
    every cell is on the frame buffer. *)
Record renders_in (limit : Z) (c : Console) (t : Terminal) : Prop := {
  r_config : config_ok (config_ c);
  r_rows : rows_ c = VerticalResolution (config_ c) / 16;
  r_columns : columns_ c = HorizontalResolution (config_ c) / 8;
  r_row : cursor_row_ c = t_row t /\ 0 <= t_row t < rows_ c;
  r_column : cursor_column_ c = t_column t /\ 0 <= t_column t < limit;
  r_colors : fg_color_ c = t_fg t /\ bg_color_ c = t_bg t;
  r_esc : zlen (esc_buf_ c) = 32;
  r_parser : parses c (t_parser t);
  r_cells : forall row column, 0 <= row < rows_ c -> 0 <= column < columns_ c ->
    shows (config_ c) (base c) row column (t_cells t row column) }.

Definition renders (c : Console) (t : Terminal) : Prop := renders_in (columns_ c) c t.

(** ** Scrolling *)

Section Scroll.
Context (config : FrameBufferConfig) (Hok : config_ok config).
Local Abbreviation W := (HorizontalResolution config).
Local Abbreviation H := (VerticalResolution config).
Local Abbreviation P := (PixelsPerScanLine config).

Definition copy_row (n : nat) (i y : Z) (fb : Pixels) : Pixels :=
  for_break n i (fun _ => false) (fun x fb =>
    <[pixel_index config x y := pixel fb (pixel_index config x (y + 16))]> fb) fb.

Lemma copy_row_at n : forall i y fb x' y',
  0 <= i -> i + Z.of_nat n <= W -> 0 <= y -> y + 16 < H -> 0 <= x' < P ->
  draws config fb (copy_row n i y fb) /\
  at_xy config (copy_row n i y fb) x' y' =
  if (y' =? y) && (i <=? x') && (x' <? i + Z.of_nat n) then at_xy config fb x' (y + 16)
  else at_xy config fb x' y'.
Proof.
  induction n as [|n IH]; intros i y fb x' y' Hi Hn Hy HyH Hx'; unfold copy_row; cbn [for_break].
  { split; [done|]. by replace (_ && (x' <? _)) with false by (zcases; cbn; lia). }
  rewrite (pixel_index_eq config Hok i y), (pixel_index_eq config Hok i (y + 16)) by lia.
  fold (at_xy config fb i (y + 16)). set (v := at_xy config fb i (y + 16)).
  fold (copy_row n (i + 1) y (<[y * P + i := v]> fb)).
  destruct (IH (i + 1) y (<[y * P + i := v]> fb) x' y') as [Hd Ha]; [lia..|].
  split; [etrans; [apply (draws_set config i y v); lia|exact Hd]|].
  rewrite Ha, !(at_xy_set config Hok) by lia.
  rewrite (proj2 (Z.eqb_neq (y + 16) y)), andb_false_r by lia.
  destruct (Z.eqb_spec x' i) as [->|Hne]; zcases; cbn; try lia; try done; subst; done.
Qed.

Definition copy_rows (m : nat) (j : Z) (fb : Pixels) : Pixels :=
  for_break m j (fun _ => false) (fun y fb => copy_row (Z.to_nat W) 0 y fb) fb.

Lemma copy_rows_at m : forall j fb x' y',
  0 <= j -> j + Z.of_nat m + 16 <= H -> 0 <= x' < P ->
  draws config fb (copy_rows m j fb) /\
  at_xy config (copy_rows m j fb) x' y' =
  if (j <=? y') && (y' <? j + Z.of_nat m) && (x' <? W) then at_xy config fb x' (y' + 16)
  else at_xy config fb x' y'.
Proof.
  pose proof (cfg_width _ Hok) as HW.
  induction m as [|m IH]; intros j fb x' y' Hj Hm Hx'; unfold copy_rows; cbn [for_break].
  { split; [done|]. by replace (_ && (y' <? _)) with false by (zcases; cbn; lia). }
  fold (copy_rows m (j + 1) (copy_row (Z.to_nat W) 0 j fb)).
  destruct (copy_row_at (Z.to_nat W) 0 j fb x' y') as [Hd1 Ha1]; [lia..|].
  destruct (copy_row_at (Z.to_nat W) 0 j fb x' (y' + 16)) as [_ Ha1']; [lia..|].
  destruct (IH (j + 1) (copy_row (Z.to_nat W) 0 j fb) x' y') as [Hd2 Ha2]; [lia..|].
  split; [by etrans|]. rewrite Ha2, Ha1, Ha1'.
  destruct (Z.eqb_spec y' j) as [->|Hne]; zcases; cbn; try lia; done.
Qed.

Lemma scroll_copy_at fb x' y' :
  16 <= H -> 8 <= W -> 0 <= x' < W -> 0 <= y' ->
  draws config fb (scroll_copy config fb) /\
  at_xy config (scroll_copy config fb) x' y' =
  if y' <? H - 16 then at_xy config fb x' (y' + 16) else at_xy config fb x' y'.
Proof.
  intros HH HW Hx' Hy'. destruct Hok as [HP _ HI].
  assert (Hc : i32 (u32 (H - 16)) = H - 16).
  { rewrite u32_small by nia. unfold i32. rewrite Z.mod_small; [lia|]. nia. }
  unfold scroll_copy. rewrite Hc.
  destruct (copy_rows_at (Z.to_nat (H - 16)) 0 fb x' y') as [Hd Ha]; [lia..|].
  split; [exact Hd|]. etrans; [exact Ha|]. zcases; cbn; try lia; done.
Qed.

End Scroll.

(** ** Cells *)

Section Cells.
Context (config : FrameBufferConfig) (Hok : config_ok config).
Local Abbreviation W := (HorizontalResolution config).
Local Abbreviation H := (VerticalResolution config).
Local Abbreviation P := (PixelsPerScanLine config).

(** a cell is unchanged when its pixels are *)
Lemma shows_same fb fb' row column row' column' cell :
  0 <= row -> 0 <= column < W / 8 ->
  (forall dy dx, 0 <= dy < 16 -> 0 <= dx < 8 ->
     at_xy config fb' (column' * 8 + dx) (row' * 16 + dy) = at_xy config fb (column * 8 + dx) (row * 16 + dy)) ->
  shows config fb row column cell -> shows config fb' row' column' cell.
Proof.
  intros Hr Hc He. destruct cell as [v|]; [|done]. intros (font & Hf & Hs). exists font.
  split; [done|]. intros dy dx Hdy Hdx. by rewrite He, Hs.
Qed.

Lemma shows_write fb row column ch fg bg r k cell font :
  GetFont ch = Some font ->
  0 <= row < H / 16 -> 0 <= column < W / 8 -> 0 <= r < H / 16 -> 0 <= k < W / 8 ->
  shows config fb r k cell ->
  shows config (WriteAscii config (column * 8) (row * 16) ch fg bg fb) r k
    (if (r =? row) && (k =? column) then Some (mkCell ch fg bg) else cell).
Proof.
  intros Hf Hrow Hcol Hr Hk Hs. destruct Hok as [HP _ _].
  assert (HW : k * 8 + 8 <= W) by (pose proof (Z.mul_div_le W 8); lia).
  assert (HH : r * 16 + 16 <= H) by (pose proof (Z.mul_div_le H 16); lia).
  assert (Hp : forall dy dx, 0 <= dy < 16 -> 0 <= dx < 8 ->
    at_xy config (WriteAscii config (column * 8) (row * 16) ch fg bg fb) (k * 8 + dx) (r * 16 + dy)
    = if (r =? row) && (k =? column) then glyph font fg bg dy dx else at_xy config fb (k * 8 + dx) (r * 16 + dy)).
  { intros dy dx Hdy Hdx.
    destruct (WriteAscii_at config Hok (column * 8) (row * 16) ch font fg bg fb
                (k * 8 + dx) (r * 16 + dy)) as [_ ->]; [done|lia..|].
    unfold in_block. destruct (Z.eqb_spec r row) as [->|]; destruct (Z.eqb_spec k column) as [->|];
      cbn [andb]; zcases; cbn; try lia; try done. f_equal; lia. }
  destruct ((r =? row) && (k =? column)).
  - exists font. split; [done|]. intros dy dx Hdy Hdx. by rewrite Hp.
  - revert Hs. apply shows_same; [lia..|]. exact Hp.
Qed.

Lemma shows_blank fb r k bg :
  (forall dy dx, 0 <= dy < 16 -> 0 <= dx < 8 -> at_xy config fb (k * 8 + dx) (r * 16 + dy) = bg) ->
  shows config fb r k (Some (mkCell 32 bg bg)).
Proof.
  intros Hb. eexists. split; [reflexivity|]. intros dy dx Hdy Hdx. rewrite Hb by lia.
  unfold glyph. by destruct (Z.testbit _ _).
Qed.

Lemma shows_scroll fb bg cells r k :
  16 <= H -> 8 <= W -> 0 <= r < H / 16 -> 0 <= k < W / 8 ->
  (forall r k, 0 <= r < H / 16 -> 0 <= k < W / 8 -> shows config fb r k (cells r k)) ->
  shows config (FillRectangle config 0 ((H / 16 - 1) * 16) W 16 bg (scroll_copy config fb)) r k
    (if r =? H / 16 - 1 then Some (mkCell 32 bg bg) else cells (r + 1) k).
Proof.
  intros HH HW Hr Hk Hc. pose proof (cfg_width _ Hok) as HP.
  assert (HWk : k * 8 + 8 <= W) by (pose proof (Z.mul_div_le W 8); lia).
  assert (HHr : r * 16 + 16 <= H) by (pose proof (Z.mul_div_le H 16); lia).
  assert (Hp : forall dy dx, 0 <= dy < 16 -> 0 <= dx < 8 ->
    at_xy config (FillRectangle config 0 ((H / 16 - 1) * 16) W 16 bg (scroll_copy config fb))
      (k * 8 + dx) (r * 16 + dy)
    = if r =? H / 16 - 1 then bg else at_xy config fb (k * 8 + dx) ((r + 1) * 16 + dy)).
  { intros dy dx Hdy Hdx.
    destruct (FillRectangle_at config Hok 0 ((H / 16 - 1) * 16) W 16 bg (scroll_copy config fb)
                (k * 8 + dx) (r * 16 + dy)) as [_ ->]; [lia..|].
    destruct (scroll_copy_at config Hok fb (k * 8 + dx) (r * 16 + dy)) as [_ ->]; [lia..|].
    replace ((r + 1) * 16 + dy) with (r * 16 + dy + 16) by lia.
    pose proof (Z.mul_div_le H 16 ltac:(lia)) as HHd.
    unfold in_block. destruct (Z.eqb_spec r (H / 16 - 1)) as [->|]; zcases; cbn; try lia; done. }
  destruct (Z.eqb_spec r (H / 16 - 1)) as [->|Hne].
  - by apply shows_blank.
  - apply (shows_same fb _ (r + 1) k); [lia..|exact Hp|]. apply Hc; lia.
Qed.

End Cells.

(** ** Parameters *)

Lemma i32_mod_eq a b : (a - b) mod 2 ^ 32 = 0 -> i32 a = i32 b.
Proof. unfold i32. intros Hab. zlia. Qed.

Lemma i32_step n n' d : i32 n = i32 n' -> i32 (i32 n * 10 + d) = i32 (n' * 10 + d).
Proof. intros Hn. rewrite Hn. apply i32_mod_eq. unfold i32. zlia. Qed.

Lemma ansi_param_wrap digits : forall n n', i32 n = i32 n' -> n = i32 n ->
  fold_left (fun p d => i32 (p * 10 + (d - 48))) digits n
  = i32 (fold_left (fun p d => p * 10 + (d - 48)) digits n').
Proof.
  induction digits as [|d ds IH]; intros n n' Hn Hi; cbn [fold_left]; [by rewrite <- Hn|].
  apply IH.
  - rewrite Hi at 1. rewrite (i32_step n n') by done.
    apply i32_mod_eq. unfold i32. zlia.
  - unfold i32. zlia.
Qed.

(** the string in [esc_buf_] after its terminator is written *)
Lemma cstr_of_upd buf digits :
  Forall (fun d => is_digit d = true) digits -> zlen digits < zlen buf ->
  take (length digits) buf = digits -> cstr_of (upd buf (zlen digits) 0) = digits.
Proof.
  intros Hd Hl Ht. unfold upd. rewrite (proj2 (Z.ltb_ge _ 0)) by (unfold zlen; lia).
  unfold zlen in *. rewrite Nat2Z.id.
  rewrite <- (take_drop (length digits) buf), Ht at 1.
  rewrite <- (Nat.add_0_r (length digits)) at 1. rewrite insert_app_r.
  destruct (drop (length digits) buf) as [|x rest] eqn:Hdr.
  { pose proof (length_drop buf (length digits)). rewrite Hdr in *. cbn in *. lia. }
  cbn. apply cstr_of_cstr. eapply Forall_impl; [exact Hd|]. unfold is_digit, is_byte. intros d.
  zcases; cbn; try done; lia.
Qed.

Lemma ansi_param_digits buf digits :
  Forall (fun d => is_digit d = true) digits -> zlen digits < zlen buf ->
  take (length digits) buf = digits -> ansi_param (upd buf (zlen digits) 0) = sgr_value digits.
Proof. intros. unfold ansi_param, sgr_value. rewrite cstr_of_upd by done. by apply ansi_param_wrap. Qed.

Lemma ansi_colors_spec n : 0 <= n <= 7 -> rd kAnsiColors n = ansi_color n.
Proof.
  intros Hn. assert (Hall : Forall (fun k => rd kAnsiColors k = ansi_color k) (seqZ 0 8))
    by repeat constructor.
  apply (proj1 (Forall_forall _ _) Hall), elem_of_seqZ. lia.
Qed.

(** what a sequence that does not touch the cells keeps *)
Definition same_screen (c c' : Console) : Prop :=
  config_ c' = config_ c /\ rows_ c' = rows_ c /\ columns_ c' = columns_ c
  /\ default_fg_color_ c' = default_fg_color_ c /\ default_bg_color_ c' = default_bg_color_ c.

Lemma ExecuteAnsiCommand_sgr c t digits :
  ansi_param (esc_buf_ c) = sgr_value digits ->
  fg_color_ c = t_fg t -> bg_color_ c = t_bg t ->
  let t' := sgr (default_fg_color_ c) (default_bg_color_ c) t digits in
  ExecuteAnsiCommand c = set_colors c (t_fg t') (t_bg t').
Proof.
  intros Hp Hf Hb. cbn zeta. unfold ExecuteAnsiCommand, sgr. rewrite Hp.
  set (n := sgr_value digits). rewrite <- Hf, <- Hb. clearbody n.
  destruct (Z.eqb_spec n 0) as [->|Hn]; [done|].
  destruct (Z.leb_spec 30 n); destruct (Z.leb_spec n 37); cbn [andb].
  1: { rewrite (proj2 (Z.eqb_eq (n / 10) 3)), (proj2 (Z.leb_le (n mod 10) 7)) by zlia.
       rewrite <- ansi_colors_spec by zlia. by replace (n mod 10) with (n - 30) by zlia. }
  all: destruct (Z.leb_spec 40 n); destruct (Z.leb_spec n 47); cbn [andb]; try lia.
  all: try (rewrite (proj2 (Z.eqb_neq (n / 10) 3)), (proj2 (Z.eqb_eq (n / 10) 4)),
              (proj2 (Z.leb_le (n mod 10) 7)) by zlia;
            rewrite <- ansi_colors_spec by zlia; by replace (n mod 10) with (n - 40) by zlia).
  all: destruct (Z.eqb_spec (n / 10) 3); [|destruct (Z.eqb_spec (n / 10) 4)];
    destruct (Z.leb_spec (n mod 10) 7); try (by destruct c); exfalso; zlia.
Qed.

(** ** The simulation *)

Lemma NewLine_renders limit c t :
  0 < columns_ c -> renders_in limit c t ->
  renders (NewLine c) (t_newline (rows_ c) t)
  /\ draws (config_ c) (base c) (base (NewLine c)) /\ same_screen c (NewLine c).
Proof.
  intros Hcol [Hok Hr Hc [Hrow Hrb] Hcb [Hfg Hbg] He Hp Hcells].
  unfold NewLine, t_newline. cbn [cursor_row_ set_cursor rows_ cursor_column_].
  rewrite <- Hrow. destruct (Z.ltb_spec (cursor_row_ c) (rows_ c - 1)) as [Hl|Hl].
  - rewrite (proj2 (Z.ltb_lt _ _)) by lia. split; [|done].
    unfold renders. split; cbn; try done; lia.
  - rewrite (proj2 (Z.ltb_ge _ _)) by lia.
    assert (Hrw : cursor_row_ c = rows_ c - 1) by lia.
    pose proof (Z.mul_div_le (VerticalResolution (config_ c)) 16 ltac:(lia)) as HH.
    pose proof (Z.mul_div_le (HorizontalResolution (config_ c)) 8 ltac:(lia)) as HW.
    unfold Refresh. cbn [config_ base set_base set_cursor bg_color_ rows_]. split; [|split; [|done]].
    + unfold renders. split; cbn; try done; try lia.
      intros r k Hrr Hk. rewrite Hr, <- Hbg. apply shows_scroll; [done|lia..|].
      intros r' k' Hr' Hk'. apply Hcells; lia.
    + etrans; [apply (scroll_copy_at (config_ c) Hok (base c) 0 0); lia|].
      destruct (cfg_width _ Hok).
      apply (FillRectangle_at (config_ c) Hok 0 ((rows_ c - 1) * 16)
               (HorizontalResolution (config_ c)) 16 (bg_color_ c) _ 0 0); lia.
Qed.

(** what a step that leaves the cells alone has to show *)
Lemma renders_parse c t c' fg bg p :
  renders c t -> same_screen c c' -> base c' = base c ->
  cursor_row_ c' = cursor_row_ c -> cursor_column_ c' = cursor_column_ c ->
  fg_color_ c' = fg -> bg_color_ c' = bg -> zlen (esc_buf_ c') = 32 -> parses c' p ->
  renders c' (mkTerminal (t_row t) (t_column t) fg bg p (t_cells t)).
Proof.
  intros [Hok Hr Hc Hrow Hcol _ _ _ Hcells] (Hcf & Hrs & Hcs & _) Hb H1 H2 H3 H4 H5 Hp.
  unfold renders. split; cbn [t_row t_column t_fg t_bg t_parser t_cells];
    rewrite ?Hcf, ?Hrs, ?Hcs, ?H1, ?H2, ?Hb; try done.
Qed.

Lemma renders_esc_buf c t buf :
  renders c t -> zlen buf = 32 -> parses (set_esc c buf (esc_buf_idx_ c)) (t_parser t) ->
  renders (set_esc c buf (esc_buf_idx_ c)) t.
Proof. intros [] Hz Hp. unfold renders. by split. Qed.

Lemma push_digit_parses c digits ch :
  is_digit ch = true -> zlen (esc_buf_ c) = 32 -> state_ c = kParam -> esc_buf_idx_ c = zlen digits ->
  zlen digits <= 31 -> Forall (fun d => is_digit d = true) digits ->
  take (length digits) (esc_buf_ c) = digits ->
  zlen (esc_buf_ (push_digit c ch)) = 32 /\ parses (push_digit c ch) (Param (take 31 (digits ++ [ch]))).
Proof.
  intros Hd He Hst Hi Hl Hf Ht. unfold push_digit. rewrite Hi.
  destruct (Z.ltb_spec (zlen digits) 31) as [Hlt|Hge]; cbn.
  - rewrite take_ge by (rewrite length_app; unfold zlen in *; cbn; lia).
    rewrite zlen_upd, zlen_app. change (zlen [ch]) with 1. rewrite length_app. cbn [length].
    repeat split; try done; try lia.
    + apply Forall_app. by split; [|constructor].
    + unfold upd. rewrite (proj2 (Z.ltb_ge _ 0)) by (unfold zlen; lia).
      unfold zlen in *. rewrite Nat2Z.id, Nat.add_1_r.
      erewrite take_S_r; [|apply list_lookup_insert_eq; lia].
      by rewrite take_insert_ge, Ht by lia.
  - rewrite take_app_le, (take_ge digits) by (unfold zlen in *; lia). done.
Qed.

Lemma ExecuteAnsiCommand_keeps c t digits :
  renders c t -> ansi_param (esc_buf_ c) = sgr_value digits ->
  exists fg bg, ExecuteAnsiCommand c = set_colors c fg bg /\
    sgr (default_fg_color_ c) (default_bg_color_ c) t digits
    = mkTerminal (t_row t) (t_column t) fg bg (t_parser t) (t_cells t).
Proof.
  intros Hr Hp. destruct (r_colors _ _ _ Hr) as [Hf Hb].
  rewrite (ExecuteAnsiCommand_sgr c t digits Hp Hf Hb). unfold sgr.
  set (fb := if sgr_value digits =? 0 then _ else _). destruct fb as [fg bg]. by exists fg, bg.
Qed.

Lemma escape_renders c t ch :
  renders c t -> state_ c <> kNormal ->
  let c' := ProcessEscapeSequence c ch in
  renders c' (t_escape (default_fg_color_ c) (default_bg_color_ c) t ch)
  /\ base c' = base c /\ same_screen c c'.
Proof.
  intros Hr Hn. cbn zeta. destruct (r_colors _ _ _ Hr) as [Hfg Hbg].
  pose proof (r_esc _ _ _ Hr) as He. pose proof (r_parser _ _ _ Hr) as Hp.
  unfold ProcessEscapeSequence, t_escape. destruct (t_parser t) as [| | |digits] eqn:Ht; cbn in Hp.
  - done.
  - rewrite Hp. unfold parse_to. destruct (ch =? chr "[");
      (split; [|done]); apply (renders_parse c t); try done.
  - destruct Hp as [Hst Hi]. rewrite Hst. destruct (is_digit ch) eqn:Hd.
    + destruct (push_digit_parses (set_escape c kParam) [] ch) as [Hz Hpp]; try done.
      split; [|by unfold push_digit; case_match].
      apply (renders_parse c t); try done; unfold push_digit; by case_match.
    + destruct (ch =? chr "m"); [|split; [|done]; by apply (renders_parse c t)].
      set (c1 := set_esc c (upd (upd (esc_buf_ c) 0 48) 1 0) (esc_buf_idx_ c)).
      assert (Hc1 : renders c1 t).
      { apply renders_esc_buf; [done|by rewrite !zlen_upd|]. by rewrite Ht. }
      destruct (ExecuteAnsiCommand_keeps c1 t [] Hc1) as (fg & bg & -> & Hs).
      { unfold c1, ansi_param. cbn [esc_buf_ set_esc].
        unfold zlen in He.
        destruct (esc_buf_ c) as [|a [|b l]]; [cbn in He; lia..|done]. }
      cbn [default_fg_color_ default_bg_color_ set_esc c1] in Hs. unfold c1 in Hs. cbn in Hs. rewrite Hs.
      split; [|done]. apply (renders_parse c t); try done. rewrite <- He. etrans; apply zlen_upd.
  - destruct Hp as (Hst & Hi & Hl & Hf & Htk). rewrite Hst. destruct (is_digit ch) eqn:Hd.
    + destruct (push_digit_parses c digits ch) as [Hz Hpp]; try done.
      split; [|by unfold push_digit; case_match].
      apply (renders_parse c t); try done; unfold push_digit; by case_match.
    + assert (Hc1 : renders (terminate c) t).
      { apply renders_esc_buf; [done|by rewrite zlen_upd|]. rewrite Ht. cbn. repeat split; try done.
        unfold upd. rewrite (proj2 (Z.ltb_ge _ 0)) by (rewrite Hi; unfold zlen; lia).
        rewrite Hi. unfold zlen. by rewrite Nat2Z.id, take_insert_ge by lia. }
      destruct (ExecuteAnsiCommand_keeps (terminate c) t digits Hc1) as (fg & bg & -> & Hs).
      { cbn. rewrite Hi. apply ansi_param_digits; try done. lia. }
      cbn in Hs. rewrite Hs.
      destruct (ch =? chr ";"); [|destruct (ch =? chr "m")]; (split; [|done]);
        apply (renders_parse c t); try done; rewrite <- He; apply zlen_upd.
Qed.

(** the state between a character and the wrap at the end of the line *)
Lemma write_renders c t ch fg bg row column limit :
  renders c t -> t_parser t = Plain -> row = t_row t -> 0 <= column < columns_ c ->
  0 <= limit < columns_ c + 1 ->
  let fb := WriteAscii (config_ c) (column * 8) (row * 16) ch fg bg (base c) in
  let cell := if (0x20 <=? ch) && (ch <=? 0x7E) then Some (mkCell ch fg bg) else t_cells t row column in
  renders_in (columns_ c + 1) (set_cursor (set_base c fb) row limit)
    (mkTerminal row limit (t_fg t) (t_bg t) Plain (with_cell (t_cells t) row column cell))
  /\ draws (config_ c) (base c) fb.
Proof.
  intros Hr Ht -> Hcol Hlim. cbn zeta.
  destruct Hr as [Hok Hrs Hcs [Hrow Hrb] Hcb Hc He Hp Hcells]. rewrite Ht in Hp. cbn in Hp.
  set (fb := WriteAscii _ _ _ _ _ _ _).
  assert (Hcell : forall r k, 0 <= r < rows_ c -> 0 <= k < columns_ c ->
    shows (config_ c) fb r k
      (with_cell (t_cells t) (t_row t) column
         (if (0x20 <=? ch) && (ch <=? 0x7E) then Some (mkCell ch fg bg) else t_cells t (t_row t) column) r k)).
  { intros r k Hrr Hk. unfold with_cell. destruct (GetFont ch) as [font|] eqn:Hf.
    - replace ((0x20 <=? ch) && (ch <=? 0x7E)) with true
        by (unfold GetFont in Hf; destruct ((0x20 <=? ch) && (ch <=? 0x7E)); done).
      apply (shows_write (config_ c) Hok (base c) (t_row t) column ch fg bg r k (t_cells t r k) font); try done; try lia.
      by apply Hcells.
    - replace ((0x20 <=? ch) && (ch <=? 0x7E)) with false.
      2: { symmetry. apply not_true_is_false. intros Hb. apply andb_prop in Hb as [Hb1 Hb2].
           apply Z.leb_le in Hb1, Hb2. destruct (proj2 (GetFont_printable ch)) as [? ?]; [lia|congruence]. }
      subst fb. unfold WriteAscii. rewrite Hf.
      destruct (Z.eqb_spec r (t_row t)) as [->|]; destruct (Z.eqb_spec k column) as [->|]; by apply Hcells. }
  split.
  - split; cbn; try done; try lia.
  - destruct (GetFont ch) as [font|] eqn:Hf.
    + pose proof (cfg_width _ Hok). pose proof (Z.mul_div_le (HorizontalResolution (config_ c)) 8).
      apply (WriteAscii_at (config_ c) Hok (column * 8) (t_row t * 16) ch font fg bg (base c) 0 0); try done; lia.
    + subst fb. unfold WriteAscii. by rewrite Hf.
Qed.

Lemma renders_in_narrow limit c t :
  renders_in limit c t -> t_column t < columns_ c -> renders c t.
Proof. intros [] ?. unfold renders. split; try done. lia. Qed.

Lemma wrap_renders c t : renders c t -> wrap c = c.
Proof. unfold wrap. intros []. by rewrite (proj2 (Z.leb_gt _ _)) by lia. Qed.

(** a character written in the last column moves the cursor to the next line *)
Lemma wrap_written c c1 t1 :
  0 < columns_ c -> renders_in (columns_ c + 1) c1 t1 -> same_screen c c1 ->
  draws (config_ c) (base c) (base c1) ->
  renders (wrap c1) (if t_column t1 =? columns_ c then t_newline (rows_ c) t1 else t1)
  /\ draws (config_ c) (base c) (base (wrap c1)) /\ same_screen c (wrap c1).
Proof.
  intros Hc Hr Hs Hd. destruct (Hs) as (Hcc & Hrc & Hc1 & _ & _). unfold wrap.
  destruct (r_column _ _ _ Hr) as [Hk Hl]. destruct (Z.eqb_spec (t_column t1) (columns_ c)) as [Hw|Hw].
  - rewrite (proj2 (Z.leb_le _ _)) by lia.
    destruct (NewLine_renders _ c1 _ ltac:(lia) Hr) as (Hr'' & Hd' & Hs').
    rewrite Hrc in Hr''. rewrite Hcc in Hd'.
    split; [exact Hr''|]. split; [by etrans|]. unfold same_screen in *. intuition congruence.
  - rewrite (proj2 (Z.leb_gt _ _)) by lia. split; [|done].
    apply (renders_in_narrow (columns_ c + 1)); [exact Hr|lia].
Qed.

Lemma put_char_renders c t ch :
  renders c t ->
  renders (put_char c ch) (t_put (rows_ c) (columns_ c) (default_fg_color_ c) (default_bg_color_ c) t ch)
  /\ draws (config_ c) (base c) (base (put_char c ch)) /\ same_screen c (put_char c ch).
Proof.
  intros Hr. pose proof (r_parser _ _ _ Hr) as Hp. destruct (r_column _ _ _ Hr) as [Hcur Hcb].
  destruct (r_row _ _ _ Hr) as [Hcr Hrb]. destruct (r_colors _ _ _ Hr) as [Hfg Hbg].
  unfold put_char. destruct (decide (state_ c = kNormal)) as [Hn|Hn].
  2: { rewrite bool_decide_eq_false_2 by done. cbn [negb].
       assert (Ht : t_put (rows_ c) (columns_ c) (default_fg_color_ c) (default_bg_color_ c) t ch
                    = t_escape (default_fg_color_ c) (default_bg_color_ c) t ch).
       { unfold t_put. destruct (t_parser t); done. }
       rewrite Ht. destruct (escape_renders c t ch Hr Hn) as (Hr' & Hb & Hs).
       rewrite (wrap_renders _ _ Hr'). split; [done|]. split; [by rewrite Hb|done]. }
  rewrite bool_decide_eq_true_2 by done. cbn [negb].
  assert (Ht : t_parser t = Plain) by (destruct (t_parser t); cbn in Hp; destruct_and?; congruence).
  unfold t_put. rewrite Ht. destruct (ch =? 27) eqn:Hesc.
  { assert (Hr' : renders (set_escape c kEsc) (parse_to t Escape)).
    { unfold parse_to. apply (renders_parse c t); try done. by destruct Hr. }
    rewrite (wrap_renders _ _ Hr'). done. }
  destruct (ch =? 10).
  { destruct (NewLine_renders _ c t ltac:(lia) Hr) as (Hr' & Hd & Hs).
    by rewrite (wrap_renders _ _ Hr'). }
  destruct (ch =? 8).
  { rewrite Hcur. destruct (0 <? t_column t) eqn:Hz; [|by rewrite (wrap_renders _ _ Hr)].
    apply Z.ltb_lt in Hz.
    destruct (write_renders c t 32 (bg_color_ c) (bg_color_ c) (cursor_row_ c) (t_column t - 1) (t_column t - 1))
      as [Hr' Hd]; try done; try lia.
    rewrite Hbg, Hcr in Hr'. rewrite Hbg, Hcr in Hd. pose proof (wrap_written c _ _ ltac:(lia) Hr' ltac:(done) Hd) as HW.
    cbn [t_column] in HW. rewrite (proj2 (Z.eqb_neq _ _)) in HW by lia.
    cbn [set_cursor bg_color_ cursor_row_ cursor_column_ base config_]. rewrite Hbg, Hcr. exact HW. }
  rewrite (proj2 (Z.ltb_lt (cursor_column_ c) (columns_ c))) by lia.
  destruct (write_renders c t ch (fg_color_ c) (bg_color_ c) (cursor_row_ c) (cursor_column_ c) (cursor_column_ c + 1))
    as [Hr' Hd]; try done; try lia.
  rewrite Hfg, Hbg, Hcr, Hcur in Hr'. rewrite Hfg, Hbg, Hcr, Hcur in Hd.
  pose proof (wrap_written c _ _ ltac:(lia) Hr' ltac:(done) Hd) as HW. cbn [t_column] in HW.
  cbn [set_base cursor_row_ cursor_column_]. rewrite Hfg, Hbg, Hcr, Hcur. exact HW.
Qed.

(** C17: PutString is the terminal: on a console that shows a terminal it leaves one
    that shows the terminal after the same characters, with line wrap, scrolling,
    backspace and colour sequences; the cursor stays on the screen, the digits of
    a sequence in their 32 bytes, and no pixel outside the visible area changes. *)
Theorem PutString_terminal c t s :
  renders c t ->
  renders (PutString c s)
    (fold_left (t_put (rows_ c) (columns_ c) (default_fg_color_ c) (default_bg_color_ c)) s t)
  /\ draws (config_ c) (base c) (base (PutString c s)).
Proof.
  revert c t. induction s as [|ch s IH]; intros c t Hr; [done|].
  destruct (put_char_renders c t ch Hr) as (Hr' & Hd & (Hc & Hrs & Hcs & Hf & Hb)).
  destruct (IH _ _ Hr') as [Hr'' Hd']. rewrite Hc, Hrs, Hcs, Hf, Hb in *.
  split; [exact Hr''|]. by etrans.
Qed.

(** ** From the constructor on *)

Lemma new_Console_renders config fg bg esc fb :
  config_ok config -> 8 <= HorizontalResolution config -> 16 <= VerticalResolution config ->
  zlen esc = 32 ->
  renders (new_Console config fg bg esc fb) (mkTerminal 0 0 fg bg Plain (fun _ _ => None)).
Proof. intros. unfold renders. split; cbn; try done; split; try done; zlia. Qed.

(** After Panic every cell of the screen is blank on the new background, the
    cursor is at the top left, and text is written in the new colours. *)
Theorem Panic_clears c t fg bg :
  renders c t -> t_parser t = Plain ->
  renders (Panic c fg bg) (mkTerminal 0 0 fg bg Plain (fun _ _ => Some (mkCell 32 bg bg)))
  /\ draws (config_ c) (base c) (base (Panic c fg bg)).
Proof.
  intros [Hok Hrs Hcs [Hrow Hrb] Hcb Hc He Hp Hcells] Ht. rewrite Ht in Hp. cbn in Hp.
  pose proof (cfg_width _ Hok) as HW. pose proof (cfg_height _ Hok) as HH.
  split; [|apply (FillRectangle_at (config_ c) Hok 0 0 (HorizontalResolution (config_ c))
                    (VerticalResolution (config_ c)) bg (base c) 0 0); cbn;
           pose proof (Z.mul_div_le (HorizontalResolution (config_ c)) 8); lia].
  unfold renders. split; cbn; try done; try lia. intros r k Hr Hk.
  pose proof (Z.mul_div_le (HorizontalResolution (config_ c)) 8 ltac:(lia)).
  pose proof (Z.mul_div_le (VerticalResolution (config_ c)) 16 ltac:(lia)).
  apply shows_blank. intros dy dx Hdy Hdx.
  destruct (FillRectangle_at (config_ c) Hok 0 0 (HorizontalResolution (config_ c))
              (VerticalResolution (config_ c)) bg (base c) (k * 8 + dx) (r * 16 + dy)) as [_ ->]; [lia..|].
  unfold in_block. zcases; cbn; try lia; done.
Qed.

(** *** A screen of two by two characters *)

Definition small_config : FrameBufferConfig := mkFrameBufferConfig 0 2048 16 32 16.
Definition small_console : Console := new_Console small_config 0xFFFFFF 0 (replicate 32 7) ∅.

Lemma small_console_renders :
  renders small_console (mkTerminal 0 0 0xFFFFFF 0 Plain (fun _ _ => None)).
Proof. apply new_Console_renders; [|cbn; lia..|done]. split; cbn; lia. Qed.

(** green "ab", which scrolls at its second wrap, then "c" in the default colours *)
Definition small_text : list Z :=
  c_lit "xy" ++ [27] ++ c_lit "[32;45mab" ++ [27] ++ c_lit "[mc".

Lemma PutString_terminal_witness :
  exists t, renders (PutString small_console small_text) t
    /\ t_row t = 1 /\ t_column t = 1
    /\ t_cells t 0 0 = Some (mkCell 97 0x00FF00 0xFF00FF) /\ t_cells t 1 0 = Some (mkCell 99 0xFFFFFF 0).
Proof.
  pose proof (proj1 (PutString_terminal small_console _ small_text small_console_renders)) as Hr.
  eexists. split; [exact Hr|]. vm_compute. repeat split.
Defined.

Lemma Panic_clears_witness :
  renders (Panic small_console 0xFF0000 5)
    (mkTerminal 0 0 0xFF0000 5 Plain (fun _ _ => Some (mkCell 32 5 5))).
Proof. apply (Panic_clears small_console _ 0xFF0000 5 small_console_renders). reflexivity. Defined.
