(* ===== verification/Logger.v ===== *)
(** * The event logger (sys/logger/logger.cpp, logger.hpp)

    The ring of 256 entries, its queries and Flush, which appends binary records to
    a file through the FAT32 driver.  A query returns what it should of the history
    of all Log calls, of which the logger keeps the last 256. *)
From S2P Require Import Prelude Memory CStr Device Fat32Names Fat32.

(** ** Data *)

Inductive LogLevel := Info | Warning | Error.
Inductive LogType := Kernel | FSLog | Driver | MemoryLog | Application | Network.

#[export] Instance LogLevel_eq_dec : EqDecision LogLevel.
Proof. solve_decision. Defined.
#[export] Instance LogType_eq_dec : EqDecision LogType.
Proof. solve_decision. Defined.

(** the values of the enumerators *)
Definition level_code (l : LogLevel) : Z := match l with Info => 0 | Warning => 1 | Error => 2 end.
Definition type_code (t : LogType) : Z :=
  match t with
  | Kernel => 0 | FSLog => 1 | Driver => 2 | MemoryLog => 3 | Application => 4 | Network => 5
  end.

(** [message]: 128 bytes *)
Record LogEntry := mkLogEntry {
  timestamp : Z; level : LogLevel; type : LogType; message : list Z; is_flushed : bool }.

#[export] Instance LogEntry_dflt : Dflt LogEntry := mkLogEntry 0 Info Kernel [] true.

Definition kLogBufferSize : Z := 256.
Definition kLogFileMagic : Z := 0x474F4C53.

Record EventLogger := mkEventLogger {
  buffer_ : list LogEntry; head_ : Z; count_ : Z; tick_counter_ : Z }.

(** ** Strings *)

(** the loop of str_copy: [src] is what is left to copy *)
Fixpoint str_copy (dst src : list Z) (i max_len : Z) : list Z :=
  match src with
  | c :: rest => if i <? max_len - 1 then str_copy (upd dst i c) rest (i + 1) max_len else upd dst i 0
  | [] => upd dst i 0
  end.

(** the inner loop of str_contains: [needle] is found at [i] *)
Definition match_at (haystack needle : list Z) (i : Z) : bool :=
  default true
    (for_return (length needle) 0 (fun j =>
       if negb (cch haystack (i + j) =? cch needle j) then Some false else None)).

Definition str_contains (haystack needle : list Z) : bool :=
  if cch needle 0 =? 0 then true
  else
    let h_len := zlen haystack in
    let n_len := zlen needle in
    if h_len <? n_len then false
    else
      default false
        (for_return (Z.to_nat (h_len - n_len + 1)) 0 (fun i =>
           if match_at haystack needle i then Some true else None)).

(** ** Operations *)

(** the constructor; [junk] is what the memory of the messages holds *)
Definition new_EventLogger (junk : list (list Z)) : EventLogger :=
  mkEventLogger (map (fun m => mkLogEntry 0 Info Kernel (upd m 0 0) true) junk) 0 0 0.

Definition Log (lg : EventLogger) (lv : LogLevel) (ty : LogType) (msg : list Z) : EventLogger :=
  let entry := rd (buffer_ lg) (head_ lg) in
  let entry' := mkLogEntry (tick_counter_ lg) lv ty (str_copy (message entry) msg 0 128) false in
  mkEventLogger (upd (buffer_ lg) (head_ lg) entry')
    ((head_ lg + 1) mod kLogBufferSize)
    (if count_ lg <? kLogBufferSize then count_ lg + 1 else count_ lg)
    (u64 (tick_counter_ lg + 1)).

Definition MatchesFilter (entry : LogEntry) (filter_level : option LogLevel)
    (filter_type : option LogType) (keyword : option (list Z)) : bool :=
  match filter_level with
  | Some l => bool_decide (level entry = l) | None => true end
  && match filter_type with
     | Some t => bool_decide (type entry = t) | None => true end
  && match keyword with
     | Some k => str_contains (cstr_of (message entry)) k | None => true end.

Definition start_idx (lg : EventLogger) : Z := if count_ lg <? kLogBufferSize then 0 else head_ lg.

Section Queries.
Context (fl : option LogLevel) (ft : option LogType) (kw : option (list Z)).

(** the loop of GetLogs from [i]; the result is what it adds to [out_entries] *)
Fixpoint get_logs_loop (n : nat) (i : Z) (lg : EventLogger) (count offset retrieved skipped : Z)
    : list LogEntry :=
  match n with
  | O => []
  | S n' =>
      let entry := rd (buffer_ lg) ((start_idx lg + i) mod kLogBufferSize) in
      if negb (MatchesFilter entry fl ft kw) then get_logs_loop n' (i + 1) lg count offset retrieved skipped
      else if skipped <? offset then get_logs_loop n' (i + 1) lg count offset retrieved (skipped + 1)
      else if count <=? retrieved + 1 then [entry]
      else entry :: get_logs_loop n' (i + 1) lg count offset (retrieved + 1) skipped
  end.

Definition GetLogs (lg : EventLogger) (count offset : Z) : list LogEntry :=
  if (count_ lg =? 0) || (count =? 0) then []
  else get_logs_loop (Z.to_nat (count_ lg)) 0 lg count offset 0 0.

Definition GetLogCount (lg : EventLogger) : Z :=
  if count_ lg =? 0 then 0
  else for_loop (Z.to_nat (count_ lg)) 0 (fun i matched =>
         if MatchesFilter (rd (buffer_ lg) ((start_idx lg + i) mod kLogBufferSize)) fl ft kw
         then matched + 1 else matched) 0.

End Queries.

Definition LevelToString (l : LogLevel) : list Z :=
  match l with Info => c_lit "INFO" | Warning => c_lit "WARN" | Error => c_lit "ERROR" end.
Definition TypeToString (t : LogType) : list Z :=
  match t with
  | Kernel => c_lit "Kernel" | FSLog => c_lit "FS" | Driver => c_lit "Driver"
  | MemoryLog => c_lit "Memory" | Application => c_lit "App" | Network => c_lit "Net"
  end.

(** ** Flush *)

(** LogEntryBinary over zeroed memory *)
Definition encode (e : LogEntry) : list Z :=
  let b := replicate 512 0 in
  let b := put64 b 0 (timestamp e) in
  let b := upd b 8 (level_code (level e)) in
  let b := upd b 9 (type_code (type e)) in
  let b := put16 b 10 (u16 (zlen (cstr_of (message e)))) in
  splice b 12 (message e).

(** LogFileHeader: magic, version 1, entry size 512, entry count 0 *)
Definition log_header : list Z :=
  put16 (put16 (put32 (replicate 64 0) 0 kLogFileMagic) 4 1) 6 512.

Definition flush_idx (lg : EventLogger) (i : Z) : Z :=
  if count_ lg <? kLogBufferSize then i else (head_ lg + i) mod kLogBufferSize.

Definition mark_flushed (e : LogEntry) : LogEntry :=
  mkLogEntry (timestamp e) (level e) (type e) (message e) true.

Definition entries_to_flush (lg : EventLogger) : Z :=
  for_loop (Z.to_nat (count_ lg)) 0 (fun i n =>
    if negb (is_flushed (rd (buffer_ lg) (flush_idx lg i))) then n + 1 else n) 0.

(** [for (i = 0; i < count_ && bin_idx < flush_count; i++)]: the records, in order,
    and the ring with their entries marked *)
Fixpoint flush_loop (n : nat) (i bin_idx flush_count : Z) (lg : EventLogger)
    : list Z * EventLogger :=
  match n with
  | O => ([], lg)
  | S n' =>
      if bin_idx <? flush_count then
        let idx := flush_idx lg i in
        let entry := rd (buffer_ lg) idx in
        if is_flushed entry then flush_loop n' (i + 1) bin_idx flush_count lg
        else
          let lg' := mkEventLogger (upd (buffer_ lg) idx (mark_flushed entry))
                       (head_ lg) (count_ lg) (tick_counter_ lg) in
          let '(bins, lg'') := flush_loop n' (i + 1) (bin_idx + 1) flush_count lg' in
          (encode entry ++ bins, lg'')
      else ([], lg)
  end.

Section Flush.
Context {D M : Type} `{BlockDevice D} `{FrameAllocator M}.

Definition log_name : list Z := c_lit "SYSTEM  LOG".

(** [g_system_fs] may be null; [fuel] bounds the cluster chains of the driver *)
Definition Flush (fuel : nat) (g_system_fs : option FAT32Driver) (lg : EventLogger) : FS D M EventLogger :=
  match g_system_fs with
  | None => fs_ret lg
  | Some drv =>
      let n := entries_to_flush lg in
      if n =? 0 then fs_ret lg
      else
        (existing_size <- GetFileSize drv log_name ;;
         (if existing_size =? 0 then WriteFile fuel drv log_name log_header 64 0 else fs_ret tt) ;;
         let kMaxEntriesPerFlush := 8 in
         let flush_count := if kMaxEntriesPerFlush <? n then kMaxEntriesPerFlush else n in
         let buf_size := 512 * flush_count in
         bin_entries <- Allocate_ buf_size 512 ;;
         if bin_entries =? 0 then fs_ret lg
         else
           let '(bins, lg') := flush_loop (Z.to_nat (count_ lg)) 0 0 flush_count lg in
           AppendFile fuel drv log_name bins (zlen bins) 0 ;;
           Free_ bin_entries buf_size ;;
           fs_ret lg')
  end.
End Flush.

(** ** Strings *)

Lemma str_copy_cstr src : forall dst i,
  is_cstr src -> 0 <= i < 128 -> zlen dst = 128 ->
  zlen (str_copy dst src i 128) = 128 /\
  take (Z.to_nat i) (str_copy dst src i 128) = take (Z.to_nat i) dst /\
  cstr_of (drop (Z.to_nat i) (str_copy dst src i 128)) = take (Z.to_nat (127 - i)) src.
Proof.
  assert (Hend : forall dst i, 0 <= i < 128 -> zlen dst = 128 ->
    zlen (upd dst i 0) = 128 /\ take (Z.to_nat i) (upd dst i 0) = take (Z.to_nat i) dst
    /\ cstr_of (drop (Z.to_nat i) (upd dst i 0)) = []).
  { intros dst i Hi Hl. split; [by rewrite zlen_upd|]. unfold upd, zlen in *.
    rewrite (proj2 (Z.ltb_ge i 0)) by lia. split; [by rewrite take_insert_ge by lia|].
    by rewrite (drop_S _ 0 (Z.to_nat i)) by (apply list_lookup_insert_eq; lia). }
  induction src as [|c rest IH]; intros dst i Hs Hi Hl; cbn [str_copy].
  { by rewrite take_nil; apply Hend. }
  apply Forall_cons in Hs as [Hc Hs]. destruct (Z.ltb_spec i (128 - 1)) as [Hlt|Hge].
  - destruct (IH (upd dst i c) (i + 1) Hs) as (H1 & H2 & H3); [lia|by rewrite zlen_upd|].
    replace (Z.to_nat (i + 1)) with (S (Z.to_nat i)) in * by lia.
    set (r := str_copy (upd dst i c) rest (i + 1) 128) in *. clearbody r.
    assert (Hu : upd dst i c !! Z.to_nat i = Some c).
    { unfold upd. rewrite (proj2 (Z.ltb_ge i 0)) by lia.
      apply list_lookup_insert_eq. unfold zlen in Hl. lia. }
    assert (Hr : r !! Z.to_nat i = Some c).
    { rewrite <- Hu, <- (lookup_take_lt r (S (Z.to_nat i))), H2 by lia. apply lookup_take_lt. lia. }
    split; [done|]. split.
    + assert (Ht : take (Z.to_nat i) (take (S (Z.to_nat i)) r) = take (Z.to_nat i) (take (S (Z.to_nat i)) (upd dst i c)))
        by (by rewrite H2).
      rewrite !take_take, Nat.min_l in Ht by lia. rewrite Ht. unfold upd.
      rewrite (proj2 (Z.ltb_ge i 0)) by lia. by rewrite take_insert_ge by lia.
    + rewrite (drop_S _ c _ Hr). cbn [cstr_of]. rewrite (proj2 (Z.eqb_neq c 0)) by lia.
      rewrite H3. replace (Z.to_nat (127 - i)) with (S (Z.to_nat (127 - (i + 1)))) by lia. done.
  - replace (Z.to_nat (127 - i)) with 0%nat by lia. by apply Hend.
Qed.

Lemma match_at_spec haystack needle i :
  0 <= i -> i + zlen needle <= zlen haystack ->
  match_at haystack needle i = true <-> slice haystack i (zlen needle) = needle.
Proof.
  intros Hi Hl. unfold match_at. set (body := fun j : Z => _).
  assert (Hs : zlen (slice haystack i (zlen needle)) = zlen needle)
    by (apply zlen_slice; [lia|apply zlen_nonneg|lia]).
  destruct (for_return (length needle) 0 body) as [b|] eqn:Hf; cbn.
  - apply for_return_Some in Hf as (k & Hk & Hb & _). subst body. cbn in Hb.
    destruct (Z.eqb_spec (cch haystack (i + k)) (cch needle k)) as [|Hne]; [done|].
    injection Hb as <-. split; [done|]. intros He. exfalso. apply Hne. unfold cch.
    rewrite <- He, rd_slice by (unfold zlen; lia). done.
  - split; [|done]. intros _. apply buf_ext; [done|]. intros k Hk. rewrite Hs in Hk.
    rewrite rd_slice by lia. pose proof (proj1 (for_return_None _ _ _) Hf k ltac:(unfold zlen in Hk; lia)) as Hb.
    subst body. cbn in Hb. by destruct (Z.eqb_spec (cch haystack (i + k)) (cch needle k)).
Qed.

(** str_contains finds a keyword exactly when it is a part of the message. *)
Theorem str_contains_spec haystack needle :
  is_cstr needle ->
  str_contains haystack needle = true <-> exists before after, haystack = before ++ needle ++ after.
Proof.
  intros Hn. unfold str_contains. destruct needle as [|c needle].
  { rewrite cch_nil. split; [|done]. intros _. by exists [], haystack. }
  apply Forall_cons in Hn as [Hc _]. rewrite cch_cons_0, (proj2 (Z.eqb_neq c 0)) by lia.
  generalize (c :: needle). clear. intros nd. destruct (Z.ltb_spec (zlen haystack) (zlen nd)) as [Hlt|Hge].
  { split; [done|]. intros (a & b & ->). rewrite !zlen_app in Hlt.
    pose proof (zlen_nonneg a). pose proof (zlen_nonneg b). lia. }
  set (body := fun i : Z => _).
  destruct (for_return (Z.to_nat (zlen haystack - zlen nd + 1)) 0 body) as [r|] eqn:Hf; cbn.
  - apply for_return_Some in Hf as (k & Hk & Hb & _). subst body. cbn in Hb.
    destruct (match_at haystack nd k) eqn:Hm; [|done]. injection Hb as <-.
    apply match_at_spec in Hm; [|lia..]. split; [|done]. intros _. unfold slice in Hm.
    exists (take (Z.to_nat k) haystack), (drop (Z.to_nat (zlen nd)) (drop (Z.to_nat k) haystack)).
    etrans; [symmetry; apply (take_drop (Z.to_nat k))|]. f_equal.
    etrans; [symmetry; apply (take_drop (Z.to_nat (zlen nd)))|]. by rewrite Hm.
  - split; [done|]. intros (a & b & Heq). exfalso.
    assert (Hz : zlen haystack = zlen a + (zlen nd + zlen b)) by (by rewrite Heq, !zlen_app).
    pose proof (zlen_nonneg a) as Ha. pose proof (zlen_nonneg b) as Hb.
    pose proof (proj1 (for_return_None _ _ _) Hf (zlen a) ltac:(lia)) as Hnone.
    subst body. cbn in Hnone. destruct (match_at haystack nd (zlen a)) eqn:Hm; [done|].
    apply not_true_iff_false in Hm. apply Hm, match_at_spec; [lia..|].
    rewrite Heq. unfold slice, zlen. by rewrite !Nat2Z.id, drop_app_length, take_app_length.
Qed.

Lemma str_contains_spec_witness :
  exists before after, c_lit "disk full" = before ++ c_lit "k f" ++ after.
Proof. apply (str_contains_spec (c_lit "disk full") (c_lit "k f")); [repeat constructor|reflexivity]. Defined.

(** ** The history *)

Record LogRecord := mkLogRecord {
  r_time : Z; r_level : LogLevel; r_type : LogType; r_text : list Z }.

Definition view (e : LogEntry) : LogRecord :=
  mkLogRecord (timestamp e) (level e) (type e) (cstr_of (message e)).

(** all that was ever logged: the n-th call has tick n, and keeps 127 characters *)
Definition history (calls : list (LogLevel * LogType * list Z)) : list LogRecord :=
  fold_left (fun h '(lv, ty, msg) => h ++ [mkLogRecord (u64 (zlen h)) lv ty (take 127 msg)]) calls [].

Definition log_all (lg : EventLogger) (calls : list (LogLevel * LogType * list Z)) : EventLogger :=
  fold_left (fun lg '(lv, ty, msg) => Log lg lv ty msg) calls lg.

(** what a filter selects *)
Definition selects (fl : option LogLevel) (ft : option LogType) (kw : option (list Z)) (r : LogRecord) : bool :=
  match fl with Some l => bool_decide (r_level r = l) | None => true end
  && match ft with Some t => bool_decide (r_type r = t) | None => true end
  && match kw with Some k => str_contains (r_text r) k | None => true end.

(** the ring holds the end of the history *)
Record logged (lg : EventLogger) (h : list LogRecord) : Prop := {
  l_size : zlen (buffer_ lg) = 256;
  l_messages : Forall (fun e => zlen (message e) = 128) (buffer_ lg);
  l_count : count_ lg = zlen h `min` 256;
  l_head : head_ lg = zlen h mod 256;
  l_tick : tick_counter_ lg = u64 (zlen h);
  l_entries : forall j, zlen h - count_ lg <= j < zlen h ->
    h !! Z.to_nat j = Some (view (rd (buffer_ lg) (j mod 256))) }.

Lemma new_logged junk :
  zlen junk = 256 -> Forall (fun m => zlen m = 128) junk -> logged (new_EventLogger junk) [].
Proof.
  intros Hj Hm. split; try done.
  - unfold zlen, new_EventLogger in *. cbn. by rewrite length_map.
  - cbn. apply Forall_map. eapply Forall_impl; [exact Hm|]. intros m Hz. cbn [message]. unfold zlen in *. by rewrite length_insert.
  - intros j Hj'. cbn in Hj'. unfold zlen in Hj'. cbn in Hj'. lia.
Qed.

Lemma Log_logged lg h lv ty msg :
  logged lg h -> is_cstr msg ->
  logged (Log lg lv ty msg) (h ++ [mkLogRecord (u64 (zlen h)) lv ty (take 127 msg)]).
Proof.
  intros [Hs Hm Hc Hh Ht He] Hmsg. pose proof (zlen_nonneg h) as Hnn.
  assert (Hr : 0 <= head_ lg < 256) by zlia.
  pose proof (Forall_rd _ _ (head_ lg) Hm ltac:(lia)) as Hml. cbn in Hml.
  destruct (str_copy_cstr msg (message (rd (buffer_ lg) (head_ lg))) 0 Hmsg ltac:(lia) Hml)
    as (Hz & _ & Hcs). cbn [Z.to_nat drop] in Hcs.
  unfold Log. set (e := mkLogEntry _ _ _ _ _).
  assert (Hz1 : zlen (h ++ [mkLogRecord (u64 (zlen h)) lv ty (take 127 msg)]) = zlen h + 1) by (by rewrite zlen_app).
  split; cbn [buffer_ head_ count_ tick_counter_]; rewrite ?Hz1.
  - by rewrite zlen_upd.
  - by apply Forall_upd.
  - unfold kLogBufferSize. zcases; lia.
  - unfold kLogBufferSize. zlia.
  - rewrite Ht. unfold u64. zlia.
  - intros j Hj. rewrite rd_upd by lia.
    destruct (decide (j = zlen h)) as [->|Hne].
    + rewrite Hh, Z.eqb_refl. unfold zlen. rewrite Nat2Z.id, lookup_app_r, Nat.sub_diag by lia.
      cbn. unfold view, e. cbn. rewrite Ht. by replace (cstr_of _) with (take 127 msg).
    + assert (Hjj : zlen h - count_ lg <= j < zlen h).
      { unfold kLogBufferSize in Hj. destruct (Z.ltb_spec (count_ lg) 256); lia. }
      assert (Hjw : zlen h - 256 < j).
      { unfold kLogBufferSize in Hj. destruct (Z.ltb_spec (count_ lg) 256); lia. }
      rewrite (proj2 (Z.eqb_neq _ _)) by zlia.
      rewrite lookup_app_l by (unfold zlen in *; lia). by apply He.
Qed.

Lemma log_all_logged calls : forall lg h,
  logged lg h -> Forall (fun c => is_cstr (snd c)) calls ->
  logged (log_all lg calls)
    (fold_left (fun h '(lv, ty, msg) => h ++ [mkLogRecord (u64 (zlen h)) lv ty (take 127 msg)]) calls h).
Proof.
  induction calls as [|[[lv ty] msg] calls IH]; intros lg h Hl Hc; [done|].
  apply Forall_cons in Hc as [Hc Hcs]. apply IH; [by apply Log_logged|done].
Qed.

(** the entries the queries go through, the oldest first *)
Definition entries (lg : EventLogger) : list LogEntry :=
  map (fun i => rd (buffer_ lg) ((start_idx lg + i) mod kLogBufferSize)) (seqZ 0 (count_ lg)).

Lemma entries_history lg h :
  logged lg h -> map view (entries lg) = drop (length h - 256) h.
Proof.
  intros [Hs _ Hc Hh _ He]. unfold entries. rewrite map_map. pose proof (zlen_nonneg h) as Hnn.
  apply list_eq. intros i. rewrite lookup_drop. change (map ?f ?l) with (f <$> l).
  destruct (decide (Z.of_nat i < count_ lg)) as [Hi|Hi].
  - rewrite list_lookup_fmap, lookup_seqZ_lt by lia. cbn [fmap option_fmap option_map].
    assert (Hj := He (zlen h - count_ lg + Z.of_nat i) ltac:(lia)).
    replace (Z.to_nat (zlen h - count_ lg + Z.of_nat i)) with (length h - 256 + i)%nat in Hj
      by (unfold zlen in *; lia).
    rewrite Hj. do 3 f_equal. unfold start_idx, kLogBufferSize.
    destruct (Z.ltb_spec (count_ lg) 256); zlia.
  - rewrite list_lookup_fmap, lookup_seqZ_ge by lia.
    symmetry. apply lookup_ge_None_2. unfold zlen in *. lia.
Qed.

(** ** Queries *)

Section QuerySpec.
Context (fl : option LogLevel) (ft : option LogType) (kw : option (list Z)).
Implicit Types (lg : EventLogger) (l : list LogEntry).

Lemma MatchesFilter_view e : MatchesFilter e fl ft kw = selects fl ft kw (view e).
Proof. done. Qed.

Lemma filter_view l :
  map view (List.filter (fun e => MatchesFilter e fl ft kw) l)
  = List.filter (selects fl ft kw) (map view l).
Proof.
  induction l as [|e l IH]; cbn [List.filter map]; [done|].
  rewrite <- MatchesFilter_view. destruct (MatchesFilter e fl ft kw); cbn [map]; by rewrite IH.
Qed.

(** the entries of positions [i], ..., [i + n - 1] *)
Definition entries_from lg (i : Z) (n : nat) : list LogEntry :=
  map (fun i => rd (buffer_ lg) ((start_idx lg + i) mod kLogBufferSize)) (seqZ i (Z.of_nat n)).

Lemma entries_from_S lg i n :
  entries_from lg i (S n)
  = rd (buffer_ lg) ((start_idx lg + i) mod kLogBufferSize) :: entries_from lg (i + 1) n.
Proof. unfold entries_from. by rewrite Nat2Z.inj_succ, seqZ_cons, Z.pred_succ by lia. Qed.

Lemma get_logs_loop_spec lg count offset n : forall i retrieved skipped,
  0 <= retrieved < count -> 0 <= skipped <= offset ->
  get_logs_loop fl ft kw n i lg count offset retrieved skipped
  = take (Z.to_nat (count - retrieved)) (drop (Z.to_nat (offset - skipped))
      (List.filter (fun e => MatchesFilter e fl ft kw) (entries_from lg i n))).
Proof.
  induction n as [|n IH]; intros i retrieved skipped Hr Hs; cbn [get_logs_loop].
  { change (entries_from lg i 0) with (@nil LogEntry). cbn [List.filter]. by rewrite drop_nil, take_nil. }
  rewrite entries_from_S. cbn [List.filter].
  destruct (MatchesFilter _ fl ft kw); cbn [negb]; [|by apply IH].
  destruct (Z.ltb_spec skipped offset).
  - rewrite IH by lia. by replace (Z.to_nat (offset - skipped)) with (S (Z.to_nat (offset - (skipped + 1)))) by lia.
  - replace (Z.to_nat (offset - skipped)) with 0%nat by lia. rewrite drop_0.
    replace (Z.to_nat (count - retrieved)) with (S (Z.to_nat (count - (retrieved + 1)))) by lia.
    cbn [take]. destruct (Z.leb_spec count (retrieved + 1)).
    + by replace (Z.to_nat (count - (retrieved + 1))) with 0%nat by lia.
    + rewrite IH by lia. by replace (Z.to_nat (offset - skipped)) with 0%nat by lia.
Qed.

Lemma entries_from_all lg : 0 <= count_ lg -> entries lg = entries_from lg 0 (Z.to_nat (count_ lg)).
Proof. intros. unfold entries, entries_from. by rewrite Z2Nat.id by lia. Qed.

Lemma GetLogs_entries lg count offset :
  0 <= count_ lg -> 0 <= count -> 0 <= offset ->
  GetLogs fl ft kw lg count offset
  = take (Z.to_nat count) (drop (Z.to_nat offset)
      (List.filter (fun e => MatchesFilter e fl ft kw) (entries lg))).
Proof.
  intros Hc Hn Ho. unfold GetLogs. rewrite entries_from_all by done.
  destruct (Z.eqb_spec (count_ lg) 0) as [->|]; cbn [orb].
  { change (entries_from lg 0 (Z.to_nat 0)) with (@nil LogEntry). cbn [List.filter]. by rewrite drop_nil, take_nil. }
  destruct (Z.eqb_spec count 0) as [->|]; [done|].
  rewrite get_logs_loop_spec by lia. by rewrite !Z.sub_0_r.
Qed.

Lemma count_loop_filter (p : LogEntry -> bool) (f : Z -> LogEntry) n : forall i m,
  for_loop n i (fun i m => if p (f i) then m + 1 else m) m
  = m + zlen (List.filter p (map f (seqZ i (Z.of_nat n)))).
Proof.
  induction n as [|n IH]; intros i m; cbn [for_loop].
  { change (seqZ i (Z.of_nat 0)) with (@nil Z). cbn. change (zlen (@nil LogEntry)) with 0. lia. }
  rewrite Nat2Z.inj_succ, seqZ_cons, Z.pred_succ, IH by lia. cbn [map List.filter].
  destruct (p (f i)); rewrite ?zlen_cons; unfold Z.succ; lia.
Qed.

Lemma GetLogCount_entries lg :
  0 <= count_ lg ->
  GetLogCount fl ft kw lg = zlen (List.filter (fun e => MatchesFilter e fl ft kw) (entries lg)).
Proof.
  intros Hc. unfold GetLogCount. rewrite entries_from_all by done. unfold entries_from.
  destruct (Z.eqb_spec (count_ lg) 0) as [->|]; [done|].
  by rewrite (count_loop_filter (fun e => MatchesFilter e fl ft kw)
                (fun i => rd (buffer_ lg) ((start_idx lg + i) mod kLogBufferSize))).
Qed.

End QuerySpec.

(** C36: Whatever was logged, and however often the ring wrapped, a query returns the
    matching records among the last 256 of the history, the oldest first, without the
    first [offset] and at most [count]; GetLogCount is how many match. *)
Theorem GetLogs_history junk calls fl ft kw count offset :
  zlen junk = 256 -> Forall (fun m => zlen m = 128) junk ->
  Forall (fun c => is_cstr (snd c)) calls -> 0 <= count -> 0 <= offset ->
  let lg := log_all (new_EventLogger junk) calls in
  let matching := List.filter (selects fl ft kw) (drop (length (history calls) - 256) (history calls)) in
  map view (GetLogs fl ft kw lg count offset)
    = take (Z.to_nat count) (drop (Z.to_nat offset) matching)
  /\ GetLogCount fl ft kw lg = zlen matching.
Proof.
  intros Hj Hm Hc Hn Ho. cbn zeta.
  pose proof (log_all_logged calls _ [] (new_logged junk Hj Hm) Hc) as Hl. fold (history calls) in Hl.
  assert (Hcount : 0 <= count_ (log_all (new_EventLogger junk) calls)).
  { rewrite (l_count _ _ Hl). pose proof (zlen_nonneg (history calls)). lia. }
  rewrite GetLogs_entries, GetLogCount_entries by done. rewrite <- (entries_history _ _ Hl), <- filter_view.
  split; [|unfold zlen; by rewrite length_map].
  by rewrite <- (firstn_map view), <- skipn_map.
Qed.

Definition sample_calls : list (LogLevel * LogType * list Z) :=
  [(Info, Kernel, c_lit "boot"); (Error, FSLog, c_lit "disk full"); (Error, Driver, c_lit "no disk")].

Lemma GetLogs_history_witness :
  map view (GetLogs (Some Error) None (Some (c_lit "disk"))
    (log_all (new_EventLogger (replicate 256 (replicate 128 9))) sample_calls) 10 1)
  = [mkLogRecord 2 Error Driver (c_lit "no disk")].
Proof.
  pose proof (GetLogs_history (replicate 256 (replicate 128 9)) sample_calls (Some Error) None
    (Some (c_lit "disk")) 10 1) as Hg.
  etrans; [apply Hg|vm_compute; reflexivity]; try lia; try done.
  - by apply Forall_replicate.
  - repeat constructor.
Defined.

(** ** Flush *)

(** the first [n] entries that are not on disk, and the entries with these marked *)
Fixpoint unflushed_first (n : nat) (l : list LogEntry) : list LogEntry :=
  match l, n with
  | [], _ | _, O => []
  | e :: l', S n' => if is_flushed e then unflushed_first n l' else e :: unflushed_first n' l'
  end.

Fixpoint mark_first (n : nat) (l : list LogEntry) : list LogEntry :=
  match l, n with
  | [], _ | _, O => l
  | e :: l', S n' => if is_flushed e then e :: mark_first n l' else mark_flushed e :: mark_first n' l'
  end.

Lemma flush_idx_start lg i :
  zlen (buffer_ lg) = 256 -> 0 <= i < count_ lg -> count_ lg <= 256 ->
  flush_idx lg i = (start_idx lg + i) mod kLogBufferSize.
Proof. intros. unfold flush_idx, start_idx, kLogBufferSize. destruct (Z.ltb_spec (count_ lg) 256); [|done]. zlia. Qed.

Lemma entries_from_upd lg i n idx e :
  zlen (buffer_ lg) = 256 -> idx = (start_idx lg + (i - 1)) mod 256 -> 0 <= Z.of_nat n <= 255 ->
  entries_from (mkEventLogger (upd (buffer_ lg) idx e) (head_ lg) (count_ lg) (tick_counter_ lg)) i n
  = entries_from lg i n.
Proof.
  intros Hl -> Hn. unfold entries_from. apply map_ext_Forall, Forall_forall. intros j Hj.
  apply elem_of_seqZ in Hj.
  change (start_idx (mkEventLogger _ _ _ _)) with (start_idx lg). cbn [buffer_].
  apply rd_upd_ne; unfold kLogBufferSize; zlia.
Qed.

Lemma flush_loop_spec flush_count n : forall i bin_idx lg,
  zlen (buffer_ lg) = 256 -> count_ lg <= 256 -> 0 <= i -> i + Z.of_nat n = count_ lg ->
  let '(bins, lg') := flush_loop n i bin_idx flush_count lg in
  let k := Z.to_nat (flush_count - bin_idx) in
  bins = concat (map encode (unflushed_first k (entries_from lg i n)))
  /\ entries_from lg' i n = mark_first k (entries_from lg i n)
  /\ head_ lg' = head_ lg /\ count_ lg' = count_ lg /\ tick_counter_ lg' = tick_counter_ lg
  /\ (forall j, rd (buffer_ lg') j = rd (buffer_ lg) j
             \/ rd (buffer_ lg') j = mark_flushed (rd (buffer_ lg) j)
                /\ exists k, i <= k < i + Z.of_nat n /\ j = (start_idx lg + k) mod 256)
  /\ zlen (buffer_ lg') = 256.
Proof.
  induction n as [|n IH]; intros i bin_idx lg Hl Hc Hi Hn; cbn [flush_loop].
  { split_and!; try done. intros j. by left. }
  destruct (Z.ltb_spec bin_idx flush_count) as [Hlt|Hge].
  2: { replace (Z.to_nat (flush_count - bin_idx)) with 0%nat by lia. cbn zeta.
       rewrite entries_from_S. split_and!; try done. intros j. by left. }
  rewrite flush_idx_start by lia. set (idx := (start_idx lg + i) mod kLogBufferSize).
  rewrite entries_from_S. fold idx. set (e := rd (buffer_ lg) idx).
  assert (Hidx : 0 <= idx < 256) by (unfold idx, kLogBufferSize; zlia).
  replace (Z.to_nat (flush_count - bin_idx)) with (S (Z.to_nat (flush_count - (bin_idx + 1)))) by lia.
  destruct (is_flushed e) eqn:Hf.
  - specialize (IH (i + 1) bin_idx lg Hl Hc ltac:(lia) ltac:(lia)).
    destruct (flush_loop n (i + 1) bin_idx flush_count lg) as [bins lg'].
    replace (Z.to_nat (flush_count - bin_idx)) with (S (Z.to_nat (flush_count - (bin_idx + 1)))) in IH by lia.
    cbn zeta in *. cbn [unflushed_first mark_first]. rewrite Hf.
    destruct IH as (Hb & He & Hh & Hct & Htk & Hfr & Hlen).
    split_and!; try done.
    + rewrite entries_from_S, He. f_equal. unfold start_idx. rewrite Hh, Hct. fold (start_idx lg). fold idx.
      destruct (Hfr idx) as [->|(_ & k & Hk & Hx)]; [done|]. unfold idx, kLogBufferSize in Hx. zlia.
    + intros j. destruct (Hfr j) as [|(Hm & k & Hk & Hx)]; [by left|]. right. split; [done|].
      exists k. split; [lia|done].
  - set (lg1 := mkEventLogger (upd (buffer_ lg) idx (mark_flushed e)) (head_ lg) (count_ lg) (tick_counter_ lg)).
    assert (Hl1 : zlen (buffer_ lg1) = 256) by (unfold lg1; cbn [buffer_]; by rewrite zlen_upd).
    specialize (IH (i + 1) (bin_idx + 1) lg1 Hl1 Hc ltac:(lia) ltac:(cbn; lia)).
    destruct (flush_loop n (i + 1) (bin_idx + 1) flush_count lg1) as [bins lg'].
    cbn zeta in *. cbn [unflushed_first mark_first map concat]. rewrite Hf. cbn [map concat].
    destruct IH as (Hb & He & Hh & Hct & Htk & Hfr & Hlen).
    change (start_idx lg1) with (start_idx lg) in Hfr.
    assert (Hsame : entries_from lg1 (i + 1) n = entries_from lg (i + 1) n).
    { apply entries_from_upd; [done| |lia]. by replace (i + 1 - 1) with i by lia. }
    rewrite Hsame in *.
    assert (Hrd : forall j, j <> idx -> rd (buffer_ lg1) j = rd (buffer_ lg) j)
      by (intros j Hj; apply rd_upd_ne; lia).
    assert (Hrdi : rd (buffer_ lg1) idx = mark_flushed e) by (apply rd_upd_eq; lia).
    split_and!; try done.
    + by rewrite Hb.
    + assert (Hst : start_idx lg' = start_idx lg) by (unfold start_idx; by rewrite Hh, Hct).
      rewrite entries_from_S, He, Hst. fold idx. f_equal.
      destruct (Hfr idx) as [->|(_ & k & Hk & Hx)]; [done|]. unfold idx, kLogBufferSize in Hx. zlia.
    + intros j. destruct (decide (j = idx)) as [->|Hne].
      * right. split; [|exists i; split; [lia|done]].
        destruct (Hfr idx) as [->|(_ & k & Hk & Hx)]; [done|]. unfold idx, kLogBufferSize in Hx. zlia.
      * destruct (Hfr j) as [->|(-> & k & Hk & Hx)]; [left; by apply Hrd|].
        right. rewrite Hrd by done. split; [done|]. exists k. split; [lia|done].
Qed.

Lemma entries_to_flush_filter lg :
  zlen (buffer_ lg) = 256 -> 0 <= count_ lg <= 256 ->
  entries_to_flush lg = zlen (List.filter (fun e => negb (is_flushed e)) (entries lg)).
Proof.
  intros Hl Hc. unfold entries_to_flush.
  rewrite (for_loop_ext _ _ _ (fun i n =>
    if negb (is_flushed (rd (buffer_ lg) ((start_idx lg + i) mod kLogBufferSize))) then n + 1 else n)).
  - rewrite (count_loop_filter (fun e => negb (is_flushed e))
               (fun i => rd (buffer_ lg) ((start_idx lg + i) mod kLogBufferSize))).
    unfold entries. by rewrite Z2Nat.id by lia.
  - intros k s Hk. by rewrite flush_idx_start by lia.
Qed.

Lemma unflushed_first_length k : forall l,
  (k <= length (List.filter (fun e => negb (is_flushed e)) l))%nat ->
  length (unflushed_first k l) = k /\
  (length (List.filter (fun e => negb (is_flushed e)) (mark_first k l)) + k
   = length (List.filter (fun e => negb (is_flushed e)) l))%nat.
Proof.
  induction k as [|k IHk]; intros l; [by destruct l; intros; cbn; split; lia|].
  induction l as [|e l IH]; cbn [List.filter unflushed_first mark_first length]; [lia|].
  destruct (is_flushed e) eqn:Hf; cbn [negb].
  - cbn [List.filter]. rewrite Hf. cbn [negb]. exact IH.
  - cbn [length List.filter]. unfold mark_flushed at 1. cbn [is_flushed negb]. intros Hk.
    destruct (IHk l ltac:(lia)) as [H1 H2]. split; lia.
Qed.

(** Flush writes the records of the oldest entries that are not on disk, at most
    eight of them and in their order, marks exactly these, and leaves the history the
    queries see as it was. *)
Theorem flush_oldest lg h :
  logged lg h ->
  let n := entries_to_flush lg in
  let flush_count := if 8 <? n then 8 else n in
  let batch := unflushed_first (Z.to_nat flush_count) (entries lg) in
  let '(bins, lg') := flush_loop (Z.to_nat (count_ lg)) 0 0 flush_count lg in
  zlen batch = flush_count /\ bins = concat (map encode batch)
  /\ entries lg' = mark_first (Z.to_nat flush_count) (entries lg)
  /\ entries_to_flush lg' = n - flush_count
  /\ logged lg' h.
Proof.
  intros [Hs Hm Hc Hh Ht He]. cbn zeta. pose proof (zlen_nonneg h) as Hnn.
  rewrite entries_to_flush_filter by lia.
  set (u := List.filter (fun e => negb (is_flushed e)) (entries lg)).
  set (fc := if 8 <? zlen u then 8 else zlen u).
  assert (Hfc : 0 <= fc <= zlen u) by (pose proof (zlen_nonneg u); unfold fc; zcases; lia).
  destruct (unflushed_first_length (Z.to_nat fc) (entries lg)) as [Hlen Hrest]; [fold u; unfold zlen in Hfc; lia|].
  pose proof (flush_loop_spec fc (Z.to_nat (count_ lg)) 0 0 lg Hs ltac:(lia) ltac:(lia) ltac:(lia)) as Hf.
  destruct (flush_loop (Z.to_nat (count_ lg)) 0 0 fc lg) as [bins lg'].
  cbn zeta in Hf. rewrite Z.sub_0_r in Hf. destruct Hf as (Hb & Hen & Hh' & Hc' & Ht' & Hfr & Hl').
  rewrite <- (entries_from_all lg) in Hb, Hen by lia. rewrite <- Hc', <- entries_from_all in Hen by lia.
  split_and!; try done.
  - unfold zlen. lia.
  - rewrite entries_to_flush_filter, Hen by lia. fold u in Hrest. unfold zlen in *. lia.
  - split; try congruence.
    + apply Forall_forall. intros e Hin. apply list_elem_of_lookup in Hin as [j Hj].
      pose proof (lookup_lt_Some _ _ _ Hj) as Hlt.
      assert (Hrd : rd (buffer_ lg') (Z.of_nat j) = e) by (rewrite rd_nat; by rewrite Hj).
      pose proof (Forall_rd _ _ (Z.of_nat j) Hm ltac:(unfold zlen in *; lia)) as Hme. cbn in Hme.
      by destruct (Hfr (Z.of_nat j)) as [Hx|[Hx _]]; rewrite <- Hrd, Hx.
    + intros j Hj. rewrite Hc' in Hj. rewrite (He j Hj).
      by destruct (Hfr (j mod 256)) as [->|[-> _]].
Qed.

Lemma sample_logged :
  logged (log_all (new_EventLogger (replicate 256 (replicate 128 9))) sample_calls) (history sample_calls).
Proof.
  apply log_all_logged; [apply new_logged|]; [done|by apply Forall_replicate|repeat constructor].
Qed.

Lemma flush_oldest_witness :
  exists bins lg', flush_loop 3 0 0 3 (log_all (new_EventLogger (replicate 256 (replicate 128 9))) sample_calls)
    = (bins, lg') /\ zlen bins = 1536 /\ entries_to_flush lg' = 0.
Proof.
  pose proof (flush_oldest _ _ sample_logged) as Hf. cbn zeta in Hf.
  change (entries_to_flush (log_all (new_EventLogger (replicate 256 (replicate 128 9))) sample_calls)) with 3 in Hf.
  change (if 8 <? 3 then 8 else 3) with 3 in Hf.
  change (Z.to_nat (count_ (log_all (new_EventLogger (replicate 256 (replicate 128 9))) sample_calls))) with 3%nat in Hf.
  destruct (flush_loop 3 0 0 3 _) as [bins lg'] eqn:Hl. destruct Hf as (_ & Hb & _ & He & _).
  exists bins, lg'. split; [done|]. split; [|exact He]. rewrite Hb. vm_compute. reflexivity.
Defined.

(** *** The binary record *)

Lemma cstr_of_take l :
  take (length (cstr_of l)) l = cstr_of l /\ (length (cstr_of l) <= length l)%nat.
Proof.
  induction l as [|c l [IH1 IH2]]; cbn [cstr_of]; [done|].
  destruct (c =? 0); cbn [length take]; [split; [done|lia]|]. rewrite IH1. split; [done|lia].
Qed.

(** A reader of the log file gets an entry back from its 512 bytes: time, level,
    type, and the message of the recorded length. *)
Theorem encode_record e :
  0 <= timestamp e < 2 ^ 64 -> zlen (message e) = 128 ->
  let b := encode e in
  zlen b = 512 /\ le_val (slice b 0 8) = timestamp e /\ rd b 8 = level_code (level e)
  /\ rd b 9 = type_code (type e) /\ slice b 12 (get16 b 10) = cstr_of (message e).
Proof.
  intros Ht Hm. cbn zeta. unfold encode.
  set (b0 := put64 (replicate 512 0) 0 (timestamp e)).
  assert (Hr : zlen (replicate 512 0) = 512) by (unfold zlen; by rewrite length_replicate).
  assert (H0 : zlen b0 = 512) by (etrans; [apply zlen_splice; rewrite ?zlen_le_bytes|]; lia).
  assert (H0v : slice b0 0 8 = le_bytes 8 (timestamp e)).
  { pose proof (slice_splice_same (replicate 512 0) 0 (le_bytes 8 (timestamp e))) as Hs.
    rewrite zlen_le_bytes in Hs. apply Hs; lia. }
  set (b2 := upd (upd b0 8 _) 9 _).
  assert (H2 : zlen b2 = 512) by (unfold b2; by rewrite !zlen_upd).
  destruct (cstr_of_take (message e)) as [Hp Hpl].
  set (len := u16 (zlen (cstr_of (message e)))).
  assert (Hlen : len = zlen (cstr_of (message e))) by (apply u16_small; unfold zlen in *; lia).
  set (b3 := put16 b2 10 len).
  assert (H3 : zlen b3 = 512) by (unfold b3; rewrite <- H2; apply zlen_splice; rewrite ?zlen_le_bytes; lia).
  assert (H4 : zlen (splice b3 12 (message e)) = 512) by (rewrite <- H3; apply zlen_splice; lia).
  split; [done|].
  assert (Hlow : forall i, 0 <= i < 10 -> rd (splice b3 12 (message e)) i = rd b2 i).
  { intros i Hi. rewrite rd_splice by lia. destruct (Z.leb_spec 12 i); [lia|]. cbn [andb].
    unfold b3, put16. rewrite rd_splice by (rewrite ?zlen_le_bytes; lia).
    destruct (Z.leb_spec 10 i); [lia|]. done. }
  assert (Hg : get16 (splice b3 12 (message e)) 10 = len).
  { unfold get16. rewrite slice_splice_other by lia. unfold b3, put16.
    pose proof (slice_splice_same b2 10 (le_bytes 2 len)) as Hs.
    rewrite zlen_le_bytes in Hs. change (Z.of_nat 2) with 2 in Hs. rewrite Hs by lia.
    apply le_val_bytes. unfold zlen in *. cbn. lia. }
  rewrite Hg. split_and!.
  - rewrite <- (le_val_bytes 8 (timestamp e)), <- H0v by (cbn; lia). apply (f_equal le_val),  buf_ext.
    { rewrite !zlen_slice; lia. }
    intros i Hi. rewrite zlen_slice in Hi by lia. rewrite !rd_slice, Hlow by lia.
    unfold b2. rewrite !rd_upd_ne by lia. done.
  - rewrite Hlow by lia. unfold b2. rewrite rd_upd_ne, rd_upd_eq by lia. done.
  - rewrite Hlow by lia. unfold b2. by rewrite rd_upd_eq by (rewrite zlen_upd; lia).
  - rewrite Hlen. pose proof (slice_splice_same b3 12 (message e) ltac:(lia) ltac:(lia)) as Hs.
    rewrite Hm in Hs. unfold slice in *.
    apply (f_equal (take (length (cstr_of (message e))))) in Hs. rewrite take_take, Hp in Hs.
    etrans; [|exact Hs]. f_equal. unfold zlen in *. lia.
Qed.

Lemma encode_record_witness :
  slice (encode (mkLogEntry 77 Error FSLog (c_lit "disk full" ++ replicate 119 0) false)) 12 9
  = c_lit "disk full".
Proof.
  pose proof (encode_record (mkLogEntry 77 Error FSLog (c_lit "disk full" ++ replicate 119 0) false)
    ltac:(cbn; lia) eq_refl) as (_ & _ & _ & _ & Hs).
  etrans; [|exact Hs]. vm_compute. reflexivity.
Defined.
