(* ===== verification/PagingMap.v ===== *)
(** * What page tables mean (for kernel/paging.cpp)

    [translate] is the processor's walk: the physical address of a virtual one, with
    the right to write and the right of user code.  A well-formed hierarchy is a tree
    of frames in use; MapPage then gives the requested pages their translation and
    keeps all others, large pages it has to split included. *)
From S2P Require Import Prelude Memory Paging.

(** ** Bits of an entry *)

Lemma SetAddress_testbit a e i :
  0 <= i ->
  Z.testbit (SetAddress a e) i = if (12 <=? i) && (i <? 52) then Z.testbit a i else Z.testbit e i.
Proof.
  intros Hi. unfold SetAddress. rewrite Z.lor_spec, Z.ldiff_spec, !Z.shiftl_spec by lia.
  destruct (Z.leb_spec 12 i); cbn [andb].
  - rewrite Z.land_spec, Z.shiftr_spec, Z.testbit_ones_nonneg by lia.
    replace (i - 12 + 12) with i by lia.
    destruct (Z.ltb_spec i 52).
    + rewrite (proj2 (Z.ltb_lt (i - 12) 40)) by lia. by destruct (Z.testbit e i), (Z.testbit a i).
    + rewrite (proj2 (Z.ltb_ge (i - 12) 40)) by lia. by destruct (Z.testbit e i), (Z.testbit a i).
  - rewrite !(Z.testbit_neg_r _ (i - 12)) by lia. by destruct (Z.testbit e i).
Qed.

Lemma GetAddress_testbit e i :
  0 <= i -> Z.testbit (GetAddress e) i = (12 <=? i) && (i <? 52) && Z.testbit e i.
Proof.
  intros Hi. unfold GetAddress. rewrite Z.shiftl_spec by lia. destruct (Z.leb_spec 12 i); cbn [andb].
  - rewrite Z.land_spec, Z.shiftr_spec, Z.testbit_ones_nonneg by lia.
    replace (i - 12 + 12) with i by lia. rewrite andb_comm. f_equal.
    destruct (Z.ltb_spec i 52); [apply Z.ltb_lt|apply Z.ltb_ge]; lia.
  - by rewrite Z.testbit_neg_r by lia.
Qed.

Lemma set_bit_testbit k b e i :
  0 <= k -> 0 <= i -> Z.testbit (set_bit k b e) i = if i =? k then b else Z.testbit e i.
Proof.
  intros Hk Hi. unfold set_bit. destruct b; destruct (Z.eqb_spec i k) as [->|Hne].
  - apply Z.setbit_eq; lia.
  - apply Z.setbit_neq; lia.
  - apply Z.clearbit_eq.
  - apply Z.clearbit_neq; lia.
Qed.

(** a page-aligned address an entry can hold *)
Definition page_address (a : Z) : Prop := exists f, a = 4096 * f /\ 0 <= f < 2 ^ 40.

Lemma page_address_bits a i :
  page_address a -> 0 <= i -> Z.testbit a i = (12 <=? i) && (i <? 52) && Z.testbit a i.
Proof.
  intros (f & -> & Hf) Hi. rewrite Z.mul_comm. change 4096 with (2 ^ 12).
  destruct (Z.leb_spec 12 i); cbn [andb]; [|by rewrite Z.mul_pow2_bits_low by lia].
  destruct (Z.ltb_spec i 52); cbn [andb]; [done|].
  rewrite Z.mul_pow2_bits by lia. destruct (decide (f = 0)) as [->|]; [apply Z.bits_0|].
  apply Z.bits_above_log2; [lia|]. apply Z.log2_lt_pow2; [lia|].
  eapply Z.lt_le_trans; [apply Hf|]. apply Z.pow_le_mono_r; lia.
Qed.

Lemma GetAddress_SetAddress a e : page_address a -> GetAddress (SetAddress a e) = a.
Proof.
  intros Ha. apply Z.bits_inj'. intros i Hi. rewrite GetAddress_testbit, SetAddress_testbit by done.
  rewrite (page_address_bits a i Ha Hi). by destruct ((12 <=? i) && (i <? 52)).
Qed.

Lemma GetAddress_set_bit k b e : 0 <= k < 12 -> GetAddress (set_bit k b e) = GetAddress e.
Proof.
  intros Hk. apply Z.bits_inj'. intros i Hi. rewrite !GetAddress_testbit, set_bit_testbit by lia.
  zcases; cbn; try done; lia.
Qed.

Lemma GetAddress_page e : page_address (GetAddress e).
Proof.
  unfold page_address, GetAddress. exists (Z.land (Z.shiftr e 12) (Z.ones 40)).
  split; [rewrite Z.shiftl_mul_pow2 by lia; lia|].
  rewrite Z.land_ones by lia. apply Z.mod_pos_bound. lia.
Qed.

Lemma flag_SetAddress k a e : 0 <= k < 12 -> Z.testbit (SetAddress a e) k = Z.testbit e k.
Proof. intros Hk. rewrite SetAddress_testbit by lia. by rewrite (proj2 (Z.leb_gt 12 k)) by lia. Qed.

(** the flags of an entry built by the code *)
Ltac flags :=
  unfold present, read_write, user_supervisor, huge_page;
  repeat first
    [ rewrite set_bit_testbit by lia
    | rewrite flag_SetAddress by lia ];
  cbn [Z.eqb Pos.eqb].

Lemma split_entry_spec huge k :
  GetAddress huge mod 2 ^ 21 = 0 -> 0 <= k < 512 ->
  let e := split_entry huge k in
  present e = true /\ huge_page e = false /\ read_write e = read_write huge
  /\ user_supervisor e = user_supervisor huge /\ GetAddress e = GetAddress huge + k * 4096.
Proof.
  intros Hm Hk. cbn zeta. destruct (GetAddress_page huge) as (f & Hf & Hr).
  assert (Hp : page_address (GetAddress huge + k * 4096)).
  { exists (f + k). split; [lia|]. rewrite Hf in Hm. zlia. }
  assert (Hu : u64 (GetAddress huge + k * kPageSize4K) = GetAddress huge + k * 4096).
  { unfold kPageSize4K. destruct Hp as (g & Hg & Hgr). apply u64_small. lia. }
  assert (Hlow : forall b i, 0 <= i < 12 -> Z.testbit (Z.lor (SetAddress b 0) (Z.land huge 4095)) i = Z.testbit huge i).
  { intros b i Hi. rewrite Z.lor_spec, flag_SetAddress, Z.bits_0, Z.land_spec by lia.
    change 4095 with (Z.ones 12). rewrite Z.testbit_ones_nonneg, (proj2 (Z.ltb_lt i 12)) by lia.
    by rewrite andb_true_r. }
  unfold split_entry. rewrite Hu. unfold present, read_write, user_supervisor, huge_page.
  rewrite !GetAddress_set_bit by lia.
  repeat (rewrite set_bit_testbit by lia). cbn [Z.eqb Pos.eqb]. rewrite !Hlow by lia.
  split_and!; try done. apply Z.bits_inj'. intros i Hi.
  rewrite GetAddress_testbit, Z.lor_spec, SetAddress_testbit, Z.bits_0, Z.land_spec by lia.
  change 4095 with (Z.ones 12). rewrite Z.testbit_ones_nonneg by lia.
  rewrite (page_address_bits _ i Hp Hi).
  destruct (Z.leb_spec 12 i); cbn [andb orb]; [|done].
  rewrite (proj2 (Z.ltb_ge i 12)) by lia. rewrite andb_false_r, orb_false_r.
  by destruct (Z.ltb_spec i 52).
Qed.

(** ** The walk of the processor *)

(** the bytes of virtual space before the page at the indices [path] *)
Fixpoint offset (path : list Z) : Z :=
  match path with
  | [] => 0
  | i :: rest => i * (4096 * 512 ^ zlen rest) + offset rest
  end.

(** from table [t] along the indices [path]: the page, and the rights all the entries
    on the way grant *)
Fixpoint walk (ts : gmap Z (list Z)) (t : Z) (path : list Z) : option (Z * bool * bool) :=
  match path with
  | [] => None
  | i :: rest =>
      let e := entry_at ts t i in
      if negb (present e) then None
      else
        let below :=
          match rest with
          | [] => Some (GetAddress e, true, true)
          | _ => if huge_page e then Some (GetAddress e + offset rest, true, true)
                 else walk ts (GetAddress e) rest
          end in
        match below with
        | Some (page, w, u) => Some (page, read_write e && w, user_supervisor e && u)
        | None => None
        end
  end.

Definition indices (vaddr : Z) : list Z := [index 4 vaddr; index 3 vaddr; index 2 vaddr; index 1 vaddr].

(** the physical address of [vaddr], and whether it may be written, and used by user code *)
Definition translate (ts : gmap Z (list Z)) (root vaddr : Z) : option (Z * bool * bool) :=
  match walk ts root (indices vaddr) with
  | Some (page, w, u) => Some (page + vaddr mod 4096, w, u)
  | None => None
  end.

(** the table an entry points to *)
Definition child (e : Z) : option Z :=
  if present e && negb (huge_page e) then Some (GetAddress e) else None.

(** the table at the end of a path of indices *)
Fixpoint node (ts : gmap Z (list Z)) (t : Z) (path : list Z) : option Z :=
  match path with
  | [] => Some t
  | i :: rest => match child (entry_at ts t i) with
                 | Some c => node ts c rest
                 | None => None
                 end
  end.

(** the rights of a path of tables *)
Fixpoint rights (ts : gmap Z (list Z)) (t : Z) (path : list Z) : bool * bool :=
  match path with
  | [] => (true, true)
  | i :: rest =>
      let e := entry_at ts t i in
      let '(w, u) := rights ts (GetAddress e) rest in
      (read_write e && w, user_supervisor e && u)
  end.

Definition restrict (r : bool * bool) (tr : option (Z * bool * bool)) : option (Z * bool * bool) :=
  match tr with
  | Some (page, w, u) => Some (page, fst r && w, snd r && u)
  | None => None
  end.

Lemma child_Some e c :
  child e = Some c <-> present e = true /\ huge_page e = false /\ c = GetAddress e.
Proof.
  unfold child. destruct (present e), (huge_page e); cbn; split; try done; try (intros (? & ? & ?); congruence).
  by intros [= <-].
Qed.

Lemma node_app ts p : forall t q,
  node ts t (p ++ q) = match node ts t p with Some c => node ts c q | None => None end.
Proof.
  induction p as [|i p IH]; intros t q; cbn [app node]; [done|].
  by destruct (child (entry_at ts t i)).
Qed.

Lemma rights_snoc ts p : forall t c i,
  node ts t p = Some c ->
  rights ts t (p ++ [i])
  = (fst (rights ts t p) && read_write (entry_at ts c i), snd (rights ts t p) && user_supervisor (entry_at ts c i)).
Proof.
  induction p as [|j p IH]; intros t c i Hn; cbn [app rights node] in *.
  - injection Hn as ->. by rewrite !andb_true_r.
  - destruct (child (entry_at ts t j)) as [c'|] eqn:Hc; [|done]. apply child_Some in Hc as (_ & _ & ->).
    rewrite (IH _ c i Hn). destruct (rights ts (GetAddress (entry_at ts t j)) p) as [w u]. cbn.
    by rewrite !andb_assoc.
Qed.

Lemma walk_app ts p : forall t c rest,
  node ts t p = Some c -> rest <> [] ->
  walk ts t (p ++ rest) = restrict (rights ts t p) (walk ts c rest).
Proof.
  induction p as [|i p IH]; intros t c rest Hn Hr; cbn [app node rights] in *.
  - injection Hn as ->. by destruct (walk ts c rest) as [[[]]|].
  - destruct (child (entry_at ts t i)) as [c'|] eqn:Hc; [|done].
    apply child_Some in Hc as (Hp & Hh & ->). cbn [walk]. rewrite Hp, Hh. cbn [negb].
    destruct (p ++ rest) as [|j l] eqn:Hl.
    { destruct p; [by destruct rest|done]. }
    rewrite <- Hl, (IH _ c rest Hn Hr).
    destruct (rights ts (GetAddress (entry_at ts t i)) p) as [w u].
    destruct (walk ts c rest) as [[[pg w'] u']|]; cbn; [|done]. by rewrite !andb_assoc.
Qed.

(** two states agree on the entries a path goes through *)
Definition agree (ts ts' : gmap Z (list Z)) (t : Z) (path : list Z) : Prop :=
  forall q j c, (q ++ [j]) `prefix_of` path -> node ts t q = Some c -> entry_at ts' c j = entry_at ts c j.

Lemma agree_cons ts ts' t i rest c :
  agree ts ts' t (i :: rest) -> child (entry_at ts t i) = Some c -> agree ts ts' c rest.
Proof.
  intros Ha Hc q j c' Hpre Hn. apply (Ha (i :: q) j c').
  - cbn. by apply prefix_cons.
  - cbn [node]. by rewrite Hc.
Qed.

Lemma agree_entry ts ts' t i rest : agree ts ts' t (i :: rest) -> entry_at ts' t i = entry_at ts t i.
Proof. intros Ha. apply (Ha [] i t); [|done]. by exists rest. Qed.

Lemma node_frame ts ts' path : forall t, agree ts ts' t path -> node ts' t path = node ts t path.
Proof.
  induction path as [|i rest IH]; intros t Ha; cbn [node]; [done|].
  rewrite (agree_entry _ _ _ _ _ Ha). destruct (child (entry_at ts t i)) as [c|] eqn:Hc; [|done].
  by apply IH, (agree_cons ts ts' t i).
Qed.

Lemma rights_frame ts ts' path : forall t c,
  node ts t path = Some c -> agree ts ts' t path -> rights ts' t path = rights ts t path.
Proof.
  induction path as [|i rest IH]; intros t c Hn Ha; cbn [rights node] in *; [done|].
  rewrite (agree_entry _ _ _ _ _ Ha). destruct (child (entry_at ts t i)) as [c'|] eqn:Hc; [|done].
  pose proof (agree_cons _ _ _ _ _ _ Ha Hc) as Ha'. apply child_Some in Hc as (_ & _ & ->).
  by rewrite (IH _ c Hn Ha').
Qed.

Lemma walk_frame ts ts' path : forall t, agree ts ts' t path -> walk ts' t path = walk ts t path.
Proof.
  induction path as [|i rest IH]; intros t Ha; cbn [walk]; [done|].
  rewrite (agree_entry _ _ _ _ _ Ha). destruct (present (entry_at ts t i)) eqn:Hp; [|done]. cbn [negb].
  destruct rest as [|j rest]; [done|]. destruct (huge_page (entry_at ts t i)) eqn:Hh; [done|].
  rewrite (IH (GetAddress (entry_at ts t i))); [done|]. apply (agree_cons ts ts' t i); [done|].
  by apply child_Some.
Qed.

(** ** What a change may do to a translation *)

(** the same page with the same right to write; user code loses nothing, and gains
    only when [user] says so *)
Definition keeps (user : bool) (old new : option (Z * bool * bool)) : Prop :=
  match old, new with
  | None, None => True
  | Some (page, w, u), Some (page', w', u') =>
      page' = page /\ w' = w /\ (u' = u \/ user = true /\ u' = true)
  | _, _ => False
  end.

#[export] Instance keeps_preorder user : PreOrder (keeps user).
Proof.
  split.
  - intros [[[p w] u]|]; cbn; [|done]. split_and!; try done. by left.
  - intros [[[p w] u]|] [[[p' w'] u']|] [[[p'' w''] u'']|]; cbn; try done.
    intros (-> & -> & Hu) (-> & -> & Hu'). split_and!; try done.
    destruct Hu as [->|[-> ->]], Hu' as [->|[? ->]]; auto.
Qed.

Lemma keeps_weaken user old new : keeps false old new -> keeps user old new.
Proof.
  destruct old as [[[p w] u]|], new as [[[p' w'] u']|]; cbn; try done.
  intros (-> & -> & [->|[? _]]); [|done]. auto.
Qed.

Lemma keeps_restrict user r old new : keeps user old new -> keeps user (restrict r old) (restrict r new).
Proof.
  destruct old as [[[p w] u]|], new as [[[p' w'] u']|]; cbn; try done.
  intros (-> & -> & Hu). split_and!; try done.
  destruct Hu as [->|[-> ->]]; [by left|]. destruct (snd r); cbn; auto.
Qed.

(** ** Well-formed hierarchies *)

Definition path_ok (p : list Z) : Prop := Forall (fun i => 0 <= i < 512) p.

Ltac indices_ok :=
  unfold path_ok; repeat (apply Forall_cons_2; [assumption || lia|]); apply Forall_nil_2.

Section WellFormed.
Context {M : Type} `{FramePoolLaws M}.

(** a table: a frame in use below 2^52 *)
Definition table_frame (m : M) (ts : gmap Z (list Z)) (t : Z) : Prop :=
  exists f, t = 4096 * f /\ 0 < f < 2 ^ 40 /\ frame_managed m f /\ frame_free m f = false
    /\ zlen (table_at ts t) = 512.

Record wf (m : M) (ts : gmap Z (list Z)) (root : Z) : Prop := {
  wf_inj p q t : path_ok p -> path_ok q -> (length p <= 3)%nat -> (length q <= 3)%nat ->
    node ts root p = Some t -> node ts root q = Some t -> p = q;
  wf_node p t : path_ok p -> (length p <= 3)%nat -> node ts root p = Some t -> table_frame m ts t;
  wf_upper p t i : path_ok p -> (length p <= 2)%nat -> node ts root p = Some t -> 0 <= i < 512 ->
    let e := entry_at ts t i in
    (present e = true -> read_write e = true)
    /\ (huge_page e = true -> present e = true /\ length p = 2%nat /\ GetAddress e mod 2 ^ 21 = 0) }.

(** the frames the pool can give out have addresses an entry can hold *)
Definition small_frames (m : M) : Prop := forall f, frame_managed m f -> f < 2 ^ 40.

Lemma entry_at_set ts t i e t' j :
  0 <= i < zlen (table_at ts t) ->
  entry_at (<[t := upd (table_at ts t) i e]> ts) t' j
  = if bool_decide (t' = t) && (j =? i) then e else entry_at ts t' j.
Proof.
  intros Hi. unfold entry_at, table_at. destruct (decide (t' = t)) as [->|Hne].
  - rewrite bool_decide_eq_true_2, lookup_insert_eq by done. cbn [default andb]. by apply rd_upd.
  - rewrite bool_decide_eq_false_2, lookup_insert_ne by done. done.
Qed.

Lemma prefix_snoc_ok q j path n :
  (q ++ [j]) `prefix_of` path -> path_ok path -> (length path <= S n)%nat ->
  path_ok q /\ (length q <= n)%nat.
Proof.
  intros [k ->] Hok Hl. rewrite !length_app in Hl. cbn in Hl. unfold path_ok in *.
  apply Forall_app in Hok as [Hok _]. apply Forall_app in Hok as [Hok _]. split; [done|lia].
Qed.

(** a change of the entry [i] of the table at [p], and of frames that are no tables,
    is not seen from other paths *)
Lemma agree_set m ts ts' root p t i path :
  wf m ts root -> path_ok p -> (length p <= 3)%nat -> node ts root p = Some t ->
  path_ok path -> (length path <= 4)%nat -> ~ (p ++ [i]) `prefix_of` path ->
  (forall q c j, path_ok q -> (length q <= 3)%nat -> node ts root q = Some c ->
     c <> t \/ j <> i -> entry_at ts' c j = entry_at ts c j) ->
  agree ts ts' root path.
Proof.
  intros Hwf Hp Hlp Hn Hpath Hlen Hnot Hsame q j c Hpre Hc.
  destruct (prefix_snoc_ok q j path 3 Hpre Hpath Hlen) as [Hq Hlq].
  apply (Hsame q); try done. destruct (decide (c = t)) as [->|]; [|by left]. right. intros ->.
  apply Hnot. by rewrite (wf_inj _ _ _ Hwf p q t).
Qed.

Lemma not_prefix_self (p : list Z) i : ~ (p ++ [i]) `prefix_of` p.
Proof. intros [k Hk]. apply (f_equal length) in Hk. rewrite !length_app in Hk. cbn in Hk. lia. Qed.

(** the conditions on an entry of an upper table, at a path of length [n] *)
Definition upper_ok (n : nat) (e : Z) : Prop :=
  (present e = true -> read_write e = true)
  /\ (huge_page e = true -> present e = true /\ n = 2%nat /\ GetAddress e mod 2 ^ 21 = 0).

(** *** A change of one entry, the table it points to staying the same *)

(** entry [i] of the table [t] that is the node at [p] *)
Record spot (m : M) (ts : gmap Z (list Z)) (root : Z) (p : list Z) (t i : Z) : Prop := {
  sp_wf : wf m ts root; sp_path : path_ok p; sp_length : (length p <= 3)%nat;
  sp_node : node ts root p = Some t; sp_index : 0 <= i < 512 }.

Lemma path_ok_snoc q j : path_ok (q ++ [j]) <-> path_ok q /\ 0 <= j < 512.
Proof. unfold path_ok. rewrite Forall_app, Forall_cons. intuition. Qed.

Section Update.
Context {m : M} {ts : gmap Z (list Z)} {root : Z} {p : list Z} {t i : Z} (Hsp : spot m ts root p t i).

Definition same_elsewhere (ts' : gmap Z (list Z)) : Prop :=
  forall q c j, path_ok q -> (length q <= 3)%nat -> node ts root q = Some c ->
    c <> t \/ j <> i -> entry_at ts' c j = entry_at ts c j.

Lemma set_same_elsewhere e : same_elsewhere (<[t := upd (table_at ts t) i e]> ts).
Proof.
  destruct Hsp as [Hwf Hp Hlp Hn Hi].
  intros q c j Hq Hlq Hc Hne. destruct (wf_node _ _ _ Hwf p t Hp Hlp Hn) as (f & _ & _ & _ & _ & Hz).
  rewrite entry_at_set by lia. destruct (decide (c = t)) as [->|]; cbn.
  - rewrite bool_decide_eq_true_2 by done. cbn [andb]. destruct (Z.eqb_spec j i); [|done].
    by destruct Hne.
  - by rewrite bool_decide_eq_false_2.
Qed.

Context {ts' : gmap Z (list Z)} (Hsame : same_elsewhere ts').

Lemma agree_beside path :
  path_ok path -> (length path <= 4)%nat -> ~ (p ++ [i]) `prefix_of` path -> agree ts ts' root path.
Proof. destruct Hsp. intros. by apply (agree_set m ts ts' root p t i). Qed.

Lemma node_here : node ts' root p = Some t.
Proof. destruct Hsp as [Hwf Hp Hlp Hn Hi]. rewrite (node_frame ts ts'); [done|]. apply agree_beside; [done|lia|apply not_prefix_self]. Qed.

Lemma rights_here : rights ts' root p = rights ts root p.
Proof. destruct Hsp as [Hwf Hp Hlp Hn Hi]. apply (rights_frame ts ts' p root t Hn). apply agree_beside; [done|lia|apply not_prefix_self]. Qed.

Lemma agree_below c rest :
  node ts root (p ++ [i]) = Some c -> path_ok rest -> (length p + 1 + length rest <= 4)%nat ->
  agree ts ts' c rest.
Proof.
  destruct Hsp as [Hwf Hp Hlp Hn Hi].
  intros Hc Hr Hl q j c' Hpre Hn'. destruct (prefix_snoc_ok q j rest (length rest - 1) Hpre Hr) as [Hq Hlq].
  { destruct Hpre as [k ->]. rewrite !length_app. cbn. lia. }
  assert (Hlr : (0 < length rest)%nat) by (destruct Hpre as [k ->]; rewrite !length_app; cbn; lia).
  assert (Hfull : node ts root (p ++ i :: q) = Some c').
  { change (i :: q) with ([i] ++ q). rewrite app_assoc, node_app, Hc. exact Hn'. }
  assert (Hok : path_ok (p ++ i :: q)).
  { apply Forall_app. split; [done|]. by constructor. }
  assert (Hlf : (length (p ++ i :: q) <= 3)%nat) by (rewrite length_app; cbn; lia).
  apply (Hsame (p ++ i :: q)); try done. left. intros ->.
  pose proof (wf_inj _ _ _ Hwf _ _ _ Hok Hp Hlf Hlp Hfull Hn) as He.
  apply (f_equal length) in He. rewrite length_app in He. cbn in He. lia.
Qed.

(** a path of four indices goes through the entry or beside it *)
Lemma walk_cases path :
  path_ok path -> length path = 4%nat ->
  walk ts' root path = walk ts root path
  \/ exists rest, path = p ++ i :: rest /\ path_ok rest /\ (length p + 1 + length rest = 4)%nat
     /\ walk ts root path = restrict (rights ts root p) (walk ts t (i :: rest))
     /\ walk ts' root path = restrict (rights ts root p) (walk ts' t (i :: rest)).
Proof.
  destruct Hsp as [Hwf Hp Hlp Hn Hi].
  intros Hpath Hl. destruct (decide ((p ++ [i]) `prefix_of` path)) as [[rest ->]|Hno].
  - right. exists rest. rewrite <- app_assoc in *. cbn [app] in *.
    unfold path_ok in Hpath. apply Forall_app in Hpath as [_ Hpath]. apply Forall_cons in Hpath as [_ Hr].
    rewrite length_app in Hl. cbn [length] in Hl. split_and!; try done; [lia| |].
    + by apply walk_app.
    + rewrite <- rights_here. by apply walk_app; [apply node_here|].
  - left. apply walk_frame, agree_beside; [done|lia|done].
Qed.

Lemma same_child_node q :
  length p = 3%nat \/ child (entry_at ts' t i) = child (entry_at ts t i) ->
  path_ok q -> (length q <= 3)%nat -> node ts' root q = node ts root q.
Proof.
  destruct Hsp as [Hwf Hp Hlp Hn Hi].
  intros Hch. induction q as [|j q IH] using rev_ind; intros Hq Hlq; [done|].
  apply path_ok_snoc in Hq as [Hq Hj]. rewrite length_app in Hlq. cbn in Hlq.
  rewrite !node_app, IH by (done || lia). destruct (node ts root q) as [c|] eqn:Hc; [|done].
  cbn [node]. destruct (decide (c = t /\ j = i)) as [[-> ->]|Hne].
  - pose proof (wf_inj _ _ _ Hwf q p t Hq Hp ltac:(lia) Hlp Hc Hn) as ->.
    destruct Hch as [| ->]; [lia|done].
  - rewrite (Hsame q c j) by (done || lia || (destruct (decide (c = t)); [right|left]; tauto)). done.
Qed.

Lemma same_child_wf :
  length p = 3%nat \/ child (entry_at ts' t i) = child (entry_at ts t i) ->
  (length p <= 2 -> upper_ok (length p) (entry_at ts' t i))%nat ->
  (forall c, zlen (table_at ts' c) = zlen (table_at ts c)) ->
  wf m ts' root.
Proof.
  destruct Hsp as [Hwf Hp Hlp Hn Hi].
  intros Hch Hup Hz. split.
  - intros q r c Hq Hr Hlq Hlr. rewrite !same_child_node by done. by apply (wf_inj _ _ _ Hwf).
  - intros q c Hq Hlq. rewrite same_child_node by done. intros Hc.
    destruct (wf_node _ _ _ Hwf q c Hq Hlq Hc) as (f & Hf). exists f. by rewrite Hz.
  - intros q c j Hq Hlq. rewrite same_child_node by (done || lia). intros Hc Hj.
    destruct (decide (c = t /\ j = i)) as [[-> ->]|Hne].
    + pose proof (wf_inj _ _ _ Hwf q p t Hq Hp ltac:(lia) Hlp Hc Hn) as ->. by apply Hup.
    + rewrite (Hsame q c j) by (done || lia || (destruct (decide (c = t)); [right|left]; tauto)).
      by apply (wf_upper _ _ _ Hwf q).
Qed.

(** *** A change that hangs a new table [r] below the entry *)

Lemma new_child_node r q :
  child (entry_at ts t i) = None -> child (entry_at ts' t i) = Some r ->
  (forall q c, path_ok q -> (length q <= 3)%nat -> node ts root q = Some c -> c <> r) ->
  length p = 2%nat \/ (forall j, child (entry_at ts' r j) = None) ->
  (length p <= 2)%nat -> path_ok q -> (length q <= 3)%nat ->
  node ts' root q = if decide (q = p ++ [i]) then Some r else node ts root q.
Proof.
  destruct Hsp as [Hwf Hp Hlp Hn Hi].
  intros He He' Hfresh Hleaf Hl2. assert (Hni : node ts root (p ++ [i]) = None).
  { rewrite node_app, Hn. cbn [node]. by rewrite He. }
  induction q as [|j q IH] using rev_ind; intros Hq Hlq.
  { rewrite decide_False; [done|]. intros Hx. by destruct p. }
  apply path_ok_snoc in Hq as [Hq Hj]. rewrite length_app in Hlq. cbn in Hlq.
  rewrite !node_app, IH by (done || lia). destruct (decide (q = p ++ [i])) as [->|Hqp].
  - rewrite length_app in Hlq. cbn in Hlq. rewrite decide_False, Hni.
    + cbn [node]. destruct Hleaf as [|Hleaf]; [lia|]. by rewrite Hleaf.
    + intros Hx. apply (f_equal length) in Hx. rewrite !length_app in Hx. cbn in Hx. lia.
  - destruct (node ts root q) as [c|] eqn:Hc.
    2: { rewrite decide_False; [done|]. intros Hx. apply app_inj_tail in Hx as [-> ->]. congruence. }
    cbn [node]. destruct (decide (c = t /\ j = i)) as [[-> ->]|Hne].
    + pose proof (wf_inj _ _ _ Hwf q p t Hq Hp ltac:(lia) Hlp Hc Hn) as ->.
      by rewrite decide_True, He'.
    + rewrite decide_False.
      * rewrite (Hsame q c j) by (done || lia || (destruct (decide (c = t)); [right|left]; tauto)). done.
      * intros Hx. apply app_inj_tail in Hx as [-> ->]. rewrite Hn in Hc. injection Hc as <-. by apply Hne.
Qed.

Lemma new_child_wf m' f :
  let r := 4096 * f in
  0 < f < 2 ^ 40 -> frame_managed m f -> frame_free m f = true ->
  (forall g, frame_managed m' g <-> frame_managed m g) ->
  (forall g, frame_free m' g = frame_free m g && negb (g =? f)) ->
  child (entry_at ts t i) = None -> child (entry_at ts' t i) = Some r ->
  length p = 2%nat \/ (forall j, entry_at ts' r j = 0) ->
  (length p <= 2)%nat -> upper_ok (length p) (entry_at ts' t i) ->
  (forall c, c <> r -> zlen (table_at ts' c) = zlen (table_at ts c)) -> zlen (table_at ts' r) = 512 ->
  wf m' ts' root.
Proof.
  destruct Hsp as [Hwf Hp Hlp Hn Hi].
  intros r Hf Hm Hfree Hman' Hfree' He He' Hleaf Hl2 Hup Hz Hzr.
  assert (Hfresh : forall q c, path_ok q -> (length q <= 3)%nat -> node ts root q = Some c -> c <> r).
  { intros q c Hq Hlq Hc ->. destruct (wf_node _ _ _ Hwf q _ Hq Hlq Hc) as (g & Hg & _ & _ & Hgf & _).
    assert (g = f) as -> by (unfold r in Hg; lia). congruence. }
  assert (Hnode : forall q, path_ok q -> (length q <= 3)%nat ->
    node ts' root q = if decide (q = p ++ [i]) then Some r else node ts root q).
  { intros q. apply (new_child_node r q He He' Hfresh); [|done].
    destruct Hleaf as [|Hz0]; [by left|]. right. intros j. by rewrite Hz0. }
  split.
  - intros q1 q2 c Hq1 Hq2 Hl1 Hl2'. rewrite !Hnode by done.
    destruct (decide (q1 = p ++ [i])) as [->|], (decide (q2 = p ++ [i])) as [->|]; try done.
    + intros [= <-] Hc. by destruct (Hfresh q2 _ Hq2 Hl2' Hc).
    + intros Hc [= <-]. by destruct (Hfresh q1 _ Hq1 Hl1 Hc).
    + by apply (wf_inj _ _ _ Hwf).
  - intros q c Hq Hlq. rewrite Hnode by done. destruct (decide (q = p ++ [i])) as [->|].
    + intros [= <-]. exists f. rewrite Hman', Hfree', Z.eqb_refl, andb_false_r. done.
    + intros Hc. destruct (wf_node _ _ _ Hwf q c Hq Hlq Hc) as (g & Hg & Hr & Hgm & Hgf & Hgz).
      exists g. rewrite Hman', Hfree', Hgf, Hz by (by apply (Hfresh q)). done.
  - intros q c j Hq Hlq. rewrite Hnode by (done || lia). intros Hc Hj.
    destruct (decide (q = p ++ [i])) as [->|].
    + injection Hc as <-. rewrite length_app in Hlq. cbn in Hlq.
      destruct Hleaf as [|Hz0]; [lia|]. by rewrite Hz0.
    + destruct (decide (c = t /\ j = i)) as [[-> ->]|Hne].
      * pose proof (wf_inj _ _ _ Hwf q p t Hq Hp ltac:(lia) Hlp Hc Hn) as ->. exact Hup.
      * rewrite (Hsame q c j) by (done || lia || (destruct (decide (c = t)); [right|left]; tauto)).
        by apply (wf_upper _ _ _ Hwf q).
Qed.

(** *** What becomes of the translations *)

Lemma walk_set_user path user :
  (length p <= 2)%nat -> child (entry_at ts t i) = child (entry_at ts' t i) ->
  present (entry_at ts t i) = true -> huge_page (entry_at ts t i) = false ->
  read_write (entry_at ts' t i) = read_write (entry_at ts t i) ->
  user_supervisor (entry_at ts' t i) = user_supervisor (entry_at ts t i)
    \/ user = true /\ user_supervisor (entry_at ts' t i) = true ->
  path_ok path -> length path = 4%nat -> keeps user (walk ts root path) (walk ts' root path).
Proof.
  destruct Hsp as [Hwf Hp Hlp Hn Hi].
  intros Hl2 Hch Hpr Hhg Hrw Hus Hpath Hl.
  destruct (walk_cases path Hpath Hl) as [->|(rest & -> & Hr & Hlr & -> & ->)]; [done|].
  apply keeps_restrict. cbn [walk]. destruct rest as [|k rest]; [cbn in Hlr; lia|].
  assert (Hc : child (entry_at ts t i) = Some (GetAddress (entry_at ts t i))) by (by apply child_Some).
  rewrite Hc in Hch. symmetry in Hch. apply child_Some in Hch as (Hpr' & Hhg' & Hga).
  rewrite Hpr, Hpr', Hhg, Hhg', <- Hga, Hrw. cbn [negb].
  rewrite (walk_frame ts ts'); cycle 1.
  { apply agree_below; [|done|lia]. rewrite node_app, Hn. cbn [node]. by rewrite Hc. }
  destruct (walk ts (GetAddress (entry_at ts t i)) (k :: rest)) as [[[pg w] u]|]; cbn [keeps]; [|done].
  split_and!; try done. destruct Hus as [->|[-> ->]]; [by left|]. destruct u; cbn; [by right|].
  by rewrite !andb_false_r; left.
Qed.

Lemma walk_new_table path user r :
  (length p <= 2)%nat -> present (entry_at ts t i) = false -> child (entry_at ts' t i) = Some r ->
  (forall j, entry_at ts' r j = 0) ->
  path_ok path -> length path = 4%nat -> keeps user (walk ts root path) (walk ts' root path).
Proof.
  destruct Hsp as [Hwf Hp Hlp Hn Hi].
  intros Hl2 Hpr Hch Hz Hpath Hl.
  destruct (walk_cases path Hpath Hl) as [->|(rest & -> & Hr & Hlr & -> & ->)]; [done|].
  apply keeps_restrict. cbn [walk]. rewrite Hpr. cbn [negb].
  apply child_Some in Hch as (-> & -> & <-). cbn [negb].
  destruct rest as [|k rest]; [cbn in Hlr; lia|]. cbn [walk]. by rewrite Hz.
Qed.

Lemma walk_split path user r :
  length p = 2%nat -> present (entry_at ts t i) = true -> huge_page (entry_at ts t i) = true ->
  GetAddress (entry_at ts t i) mod 2 ^ 21 = 0 ->
  child (entry_at ts' t i) = Some r ->
  (forall k, 0 <= k < 512 -> entry_at ts' r k = split_entry (entry_at ts t i) k) ->
  read_write (entry_at ts' t i) = read_write (entry_at ts t i) ->
  user_supervisor (entry_at ts' t i) = user_supervisor (entry_at ts t i)
    \/ user = true /\ user_supervisor (entry_at ts' t i) = true ->
  path_ok path -> length path = 4%nat -> keeps user (walk ts root path) (walk ts' root path).
Proof.
  destruct Hsp as [Hwf Hp Hlp Hn Hi].
  intros Hl2 Hpr Hhg Hal Hch Hfill Hrw Hus Hpath Hl.
  destruct (walk_cases path Hpath Hl) as [->|(rest & -> & Hr & Hlr & -> & ->)]; [done|].
  apply keeps_restrict. destruct rest as [|k [|? ?]]; [cbn in Hlr; lia| |cbn in Hlr; lia].
  apply Forall_cons in Hr as [Hk _]. cbn [walk]. apply child_Some in Hch as (-> & -> & <-).
  rewrite Hpr, Hhg, (Hfill k Hk), Hrw. cbn [negb].
  destruct (split_entry_spec (entry_at ts t i) k Hal Hk) as (-> & _ & -> & -> & ->). cbn [keeps offset].
  split_and!.
  - change (zlen (@nil Z)) with 0. lia.
  - by rewrite !andb_true_r, andb_diag.
  - rewrite !andb_true_r.
    destruct Hus as [->|[-> ->]]; destruct (user_supervisor (entry_at ts t i)); cbn; auto.
Qed.

(** the last level: the walk of the page itself, and the others *)
Lemma walk_leaf path :
  length p = 3%nat -> path_ok path -> length path = 4%nat ->
  walk ts' root path =
  if decide (path = p ++ [i]) then
    if present (entry_at ts' t i) then
      Some (GetAddress (entry_at ts' t i), fst (rights ts root p) && read_write (entry_at ts' t i),
            snd (rights ts root p) && user_supervisor (entry_at ts' t i))
    else None
  else walk ts root path.
Proof.
  destruct Hsp as [Hwf Hp Hlp Hn Hi].
  intros Hl3 Hpath Hl. destruct (decide (path = p ++ [i])) as [->|Hne].
  - rewrite (walk_app ts' p root t [i] node_here) by done. rewrite rights_here. cbn [walk].
    destruct (present (entry_at ts' t i)); cbn; [|done]. by rewrite !andb_true_r.
  - apply walk_frame, agree_beside; [done|lia|]. intros [k Hk]. apply Hne. rewrite Hk.
    destruct k as [|? k]; [by rewrite app_nil_r|]. exfalso. apply (f_equal length) in Hk.
    rewrite !length_app in Hk. cbn in Hk. lia.
Qed.
End Update.

(** ** The operations *)

Implicit Types (s : PM M).

Definition exhausted (m : M) : Prop := fst (AllocateFrame m) = 0.

(** a page manager with a well-formed hierarchy *)
Record good s : Prop := {
  g_pool : pool_inv (pool s);
  g_small : small_frames (pool s);
  g_wf : wf (pool s) (tables s) (pml4_table_ s) }.

(** [s'] has the translations of [s], up to rights of user code where [user] *)
Record extends (user : bool) s s' : Prop := {
  ex_good : good s';
  ex_root : pml4_table_ s' = pml4_table_ s;
  ex_cr3 : cr3 s' = cr3 s;
  ex_walk path : path_ok path -> length path = 4%nat ->
    keeps user (walk (tables s) (pml4_table_ s) path) (walk (tables s') (pml4_table_ s) path) }.

Lemma extends_refl user s : good s -> extends user s s.
Proof. by split. Qed.

Lemma extends_trans user s1 s2 s3 : extends user s1 s2 -> extends user s2 s3 -> extends user s1 s3.
Proof.
  intros [G1 R1 C1 W1] [G2 R2 C2 W2]. split; [done|congruence..|].
  intros path Hp Hl. rewrite R1 in W2. etrans; [by apply W1|by apply W2].
Qed.

(** the way to a table allows writing, and user code if asked for *)
Definition rights_ok (user : bool) (ts : gmap Z (list Z)) (root : Z) (p : list Z) : Prop :=
  fst (rights ts root p) = true /\ (user = true -> snd (rights ts root p) = true).

Lemma AllocateTable_cases s :
  pool_inv (pool s) -> small_frames (pool s) ->
  let '(r, s') := AllocateTable s in
  r = 0 /\ s' = s /\ exhausted (pool s)
  \/ exists f m', r = 4096 * f /\ s' = clear_frame r (with_pool s m') /\ 0 < f < 2 ^ 40
     /\ frame_managed (pool s) f /\ frame_free (pool s) f = true /\ pool_inv m'
     /\ (forall g, frame_managed m' g <-> frame_managed (pool s) g)
     /\ (forall g, frame_free m' g = frame_free (pool s) g && negb (g =? f)).
Proof.
  intros Hi Hs. unfold AllocateTable, exhausted. destruct (AllocateFrame (pool s)) as [r m'] eqn:HA.
  destruct (AllocateFrame_spec _ _ _ Hi HA) as [[-> ->]|(f & -> & Hf & Hm & Hfr & Hi' & Hfr' & Hm')].
  - left. split_and!; try done. by destruct s.
  - rewrite (proj2 (Z.eqb_neq _ 0)) by lia. cbv beta iota. right. exists f, m'. pose proof (Hs f Hm). split_and!; try done; lia.
Qed.

(** an update of the tables of [s] by one entry of a node is a state like [s] *)
Lemma zlen_set ts t i e c :
  zlen (table_at (<[t := upd (table_at ts t) i e]> ts) c) = zlen (table_at ts c).
Proof.
  unfold table_at. destruct (decide (c = t)) as [->|Hne].
  - rewrite lookup_insert_eq. cbn [default]. apply zlen_upd.
  - by rewrite lookup_insert_ne.
Qed.

Lemma table_at_insert ts t l c : table_at (<[t := l]> ts) c = if decide (c = t) then l else table_at ts c.
Proof.
  unfold table_at. destruct (decide (c = t)) as [->|Hne]; [by rewrite lookup_insert_eq|].
  by rewrite lookup_insert_ne.
Qed.

(** a frame from the pool is no table of the hierarchy *)
Lemma fresh_not_node s f q c :
  good s -> frame_free (pool s) f = true -> path_ok q -> (length q <= 3)%nat ->
  node (tables s) (pml4_table_ s) q = Some c -> c <> 4096 * f.
Proof.
  intros Hg Hf Hq Hl Hc ->. destruct (wf_node _ _ _ (g_wf _ Hg) q _ Hq Hl Hc) as (g & Hgf & _ & _ & Hgn & _).
  assert (g = f) as -> by lia. congruence.
Qed.

Lemma rd_zeros n j : rd (replicate n 0) j = 0.
Proof.
  unfold rd. destruct (j <? 0); [done|]. destruct (replicate n 0 !! Z.to_nat j) eqn:Hx; [|done].
  by apply lookup_replicate in Hx as [-> _].
Qed.

(** filling the table [r] entry by entry, with values that depend on the other tables only *)
Lemma fill_with r (v : Z -> PM M -> Z) (w : Z -> Z) s n :
  zlen (table_at (tables s) r) = 512 -> (n <= 512)%nat ->
  (forall k s', (forall c, c <> r -> table_at (tables s') c = table_at (tables s) c) -> v k s' = w k) ->
  let s' := for_loop n 0 (fun k s => set_entry r k (v k s) s) s in
  pml4_table_ s' = pml4_table_ s /\ cr3 s' = cr3 s /\ pool s' = pool s
  /\ (forall c, c <> r -> table_at (tables s') c = table_at (tables s) c)
  /\ zlen (table_at (tables s') r) = 512
  /\ (forall k, 0 <= k < Z.of_nat n -> entry_at (tables s') r k = w k).
Proof.
  intros Hz Hn Hv. pose (P := fun (k : Z) s' => pml4_table_ s' = pml4_table_ s /\ cr3 s' = cr3 s
    /\ pool s' = pool s /\ (forall c, c <> r -> table_at (tables s') c = table_at (tables s) c)
    /\ zlen (table_at (tables s') r) = 512
    /\ (forall j, 0 <= j < k -> entry_at (tables s') r j = w j)).
  apply (for_loop_inv P n 0).
  - split_and!; try done. intros j Hj. lia.
  - intros k s' Hk (H1 & H2 & H3 & H4 & H5 & H6). split_and!; try done; cbn [set_entry with_tables tables].
    + intros c Hc. by rewrite table_at_insert, decide_False, H4.
    + by rewrite zlen_set.
    + intros j Hj. rewrite entry_at_set, bool_decide_eq_true_2 by (done || lia). cbn [andb].
      destruct (Z.eqb_spec j k) as [-> |]; [by apply Hv|]. apply H6. lia.
Qed.

Lemma fill_spec r (v : Z -> Z) s n :
  zlen (table_at (tables s) r) = 512 -> (n <= 512)%nat ->
  let s' := for_loop n 0 (fun k => set_entry r k (v k)) s in
  pml4_table_ s' = pml4_table_ s /\ cr3 s' = cr3 s /\ pool s' = pool s
  /\ (forall c, c <> r -> table_at (tables s') c = table_at (tables s) c)
  /\ zlen (table_at (tables s') r) = 512
  /\ (forall k, 0 <= k < Z.of_nat n -> entry_at (tables s') r k = v k).
Proof. intros Hz Hn. by apply (fill_with r (fun k _ => v k) v). Qed.

(** the entry of a split page, which points to the new table *)
Lemma split_link (user : bool) r e :
  page_address r ->
  let e' := set_bit 0 true (set_bit 7 false (SetAddress r e)) in
  let e'' := if user then set_bit 2 true e' else e' in
  child e'' = Some r /\ present e'' = true /\ huge_page e'' = false /\ read_write e'' = read_write e
  /\ (user_supervisor e'' = user_supervisor e /\ user = false \/ user = true /\ user_supervisor e'' = true).
Proof.
  intros Hpa. cbn zeta.
  assert (Ha : GetAddress (set_bit 0 true (set_bit 7 false (SetAddress r e))) = r).
  { rewrite !GetAddress_set_bit by lia. by apply GetAddress_SetAddress. }
  destruct user; (split_and!; [|by flags|by flags|by flags|]).
  - apply child_Some. rewrite GetAddress_set_bit, Ha by lia. split; [by flags|]. split; [by flags|done].
  - right. split; [done|by flags].
  - apply child_Some. rewrite Ha. split; [by flags|]. split; [by flags|done].
  - left. split; [by flags|done].
Qed.

(** *** EnsureEntry *)

Section Entry.
Context (flags : Z) (s : PM M) (p : list Z) (t i : Z).
Local Abbreviation user := (has flags kUser).
Local Abbreviation root := (pml4_table_ s).
Context (Hg : good s) (Hp : path_ok p) (Hn : node (tables s) root p = Some t) (Hi : 0 <= i < 512)
  (Hr : rights_ok user (tables s) root p).

(** what a level of the walk leaves behind *)
Definition entered (q : list Z) (r : Z) s' : Prop :=
  extends user s s' /\ node (tables s') root q = Some r /\ rights_ok user (tables s') root q.

(** the new entry, as EnsureEntry and the split write it *)
Lemma linked_entry r e (b : bool) :
  page_address r -> huge_page e = false ->
  let e' := set_bit 2 b (set_bit 1 true (set_bit 0 true (SetAddress r e))) in
  child e' = Some r /\ present e' = true /\ read_write e' = true /\ user_supervisor e' = b
  /\ huge_page e' = false /\ GetAddress e' = r.
Proof.
  intros Hpa He. cbn zeta.
  assert (Ha : GetAddress (set_bit 2 b (set_bit 1 true (set_bit 0 true (SetAddress r e)))) = r).
  { rewrite !GetAddress_set_bit by lia. by apply GetAddress_SetAddress. }
  assert (Hf : present (set_bit 2 b (set_bit 1 true (set_bit 0 true (SetAddress r e)))) = true
    /\ huge_page (set_bit 2 b (set_bit 1 true (set_bit 0 true (SetAddress r e)))) = false).
  { flags. by split. }
  destruct Hf as [Hf1 Hf2]. split_and!; try done; [|by flags..].
  apply child_Some. by rewrite Ha.
Qed.

(** the entry gets its user bit *)
Lemma EnsureEntry_user :
  (length p <= 2)%nat -> huge_page (entry s t i) = false -> present (entry s t i) = true ->
  user = true ->
  entered (p ++ [i]) (GetAddress (entry s t i)) (set_entry t i (set_bit 2 true (entry s t i)) s)
  /\ GetAddress (entry (set_entry t i (set_bit 2 true (entry s t i)) s) t i) = GetAddress (entry s t i).
Proof.
  intros Hl2 Hhg Hpr Hu. pose proof (g_wf _ Hg) as Hwf. assert (Hlp : (length p <= 3)%nat) by lia.
  assert (Hsp : spot (pool s) (tables s) root p t i) by done.
  destruct (wf_upper _ _ _ Hwf p t i Hp Hl2 Hn Hi) as [Hrw _]. unfold entry in *.
  set (e := entry_at (tables s) t i) in *. set (e' := set_bit 2 true e).
  assert (Hsame := set_same_elsewhere Hsp e').
  set (s' := set_entry t i e' s).
  change (<[t := upd (table_at (tables s) t) i e']> (tables s)) with (tables s') in Hsame.
  assert (He' : entry_at (tables s') t i = e').
  { destruct (wf_node _ _ _ Hwf p t Hp Hlp Hn) as (f & _ & _ & _ & _ & Hz).
    unfold s'. cbn [set_entry with_tables tables]. rewrite entry_at_set by lia.
    by rewrite bool_decide_eq_true_2, Z.eqb_refl. }
  assert (Hga : GetAddress e' = GetAddress e) by (by apply GetAddress_set_bit).
  assert (Hf : present e' = true /\ huge_page e' = false /\ read_write e' = true /\ user_supervisor e' = true).
  { unfold e'. split_and!; [flags; exact Hpr|flags; exact Hhg|flags; exact (Hrw Hpr)|by flags]. }
  destruct Hf as (Hf1 & Hf2 & Hf3 & Hf4).
  assert (Hch : child e = Some (GetAddress e)) by (by apply child_Some).
  assert (Hce' : child (entry_at (tables s') t i) = child (entry_at (tables s) t i)).
  { rewrite He'. fold e. rewrite Hch, <- Hga. by apply child_Some. }
  split; [|by rewrite He'].
  assert (Hnode := same_child_node Hsp Hsame).
  split; [split; try done|split].
  - destruct Hg as [? ? _]. split; try done.
    apply (same_child_wf Hsp Hsame); [by right| |].
    + intros _. rewrite He'. split; [done|]. by rewrite Hf2.
    + intros c. apply zlen_set.
  - intros path Hpath Hl.
    apply (walk_set_user Hsp Hsame); try done.
    + rewrite He', Hf3. symmetry. by apply Hrw.
    + right. by rewrite He'.
  - rewrite Hnode; [|by right|by apply path_ok_snoc|rewrite length_app; cbn; lia].
    rewrite node_app, Hn. cbn [node]. fold e. by rewrite Hch.
  - pose proof (node_here Hsp Hsame) as Hn'.
    unfold rights_ok. rewrite (rights_snoc _ _ _ _ _ Hn'), He', Hf3, Hf4.
    rewrite (rights_here Hsp Hsame).
    destruct Hr as [-> Hru]. cbn. split; [done|]. intros _. by rewrite Hru.
Qed.

(** *** A new table below the entry: [s1] has the frame, the tables of [s] and the new one *)

Section Attach.
Context (f : Z) (s1 : PM M) (e' : Z).
Local Abbreviation r := (4096 * f).
Context (Hl2 : (length p <= 2)%nat) (Hf : 0 < f < 2 ^ 40)
  (Hman : frame_managed (pool s) f) (Hfree : frame_free (pool s) f = true)
  (Hinv1 : pool_inv (pool s1))
  (Hman1 : forall g, frame_managed (pool s1) g <-> frame_managed (pool s) g)
  (Hfree1 : forall g, frame_free (pool s1) g = frame_free (pool s) g && negb (g =? f))
  (Hroot1 : pml4_table_ s1 = pml4_table_ s) (Hcr1 : cr3 s1 = cr3 s)
  (Htabs1 : forall c, c <> r -> table_at (tables s1) c = table_at (tables s) c)
  (Hlen1 : zlen (table_at (tables s1) r) = 512).
Local Abbreviation s' := (set_entry t i e' s1).

Lemma attach_spot : spot (pool s) (tables s) root p t i.
Proof. split; try done; [apply (g_wf _ Hg)|lia]. Qed.

Lemma attach_not_t : t <> r.
Proof. apply (fresh_not_node s f p t Hg Hfree Hp); [lia|done]. Qed.

Lemma attach_entry c j :
  entry_at (tables s') c j
  = if bool_decide (c = t) && (j =? i) then e' else entry_at (tables s1) c j.
Proof.
  cbn [set_entry with_tables tables]. apply entry_at_set.
  rewrite Htabs1 by apply attach_not_t.
  destruct (wf_node _ _ _ (g_wf _ Hg) p t Hp ltac:(lia) Hn) as (g & _ & _ & _ & _ & Hz). lia.
Qed.

Lemma attach_here : entry_at (tables s') t i = e'.
Proof. rewrite attach_entry. by rewrite bool_decide_eq_true_2, Z.eqb_refl. Qed.

Lemma attach_new j : entry_at (tables s') r j = entry_at (tables s1) r j.
Proof. rewrite attach_entry, bool_decide_eq_false_2; [done|]. intros Hx. by apply attach_not_t. Qed.

Lemma attach_same : same_elsewhere (ts := tables s) (root := root) (t := t) (i := i) (tables s').
Proof.
  intros q c j Hq Hlq Hc Hne. rewrite attach_entry.
  assert (Hb : bool_decide (c = t) && (j =? i) = false).
  { destruct (decide (c = t)); [|by rewrite bool_decide_eq_false_2].
    destruct Hne; [done|]. rewrite (proj2 (Z.eqb_neq j i)) by done. apply andb_false_r. }
  rewrite Hb. unfold entry_at. rewrite Htabs1; [done|].
  by apply (fresh_not_node s f q c).
Qed.

Lemma attach_entered :
  child (entry s t i) = None -> child e' = Some r -> upper_ok (length p) e' ->
  read_write e' = true -> (user = true -> user_supervisor e' = true) ->
  length p = 2%nat \/ (forall j, entry_at (tables s1) r j = 0) ->
  (forall path, path_ok path -> length path = 4%nat ->
     keeps user (walk (tables s) root path) (walk (tables s') root path)) ->
  entered (p ++ [i]) r s'.
Proof.
  intros Hc Hc' Hup Hrw Hus Hleaf Hwalk. pose proof attach_spot as Hsp.
  assert (Hleaf' : length p = 2%nat \/ (forall j, entry_at (tables s') r j = 0)).
  { destruct Hleaf as [|Hz]; [by left|]. right. intros j. by rewrite attach_new. }
  assert (Hpi : node (tables s') root (p ++ [i]) = Some r).
  { rewrite node_app, (node_here Hsp attach_same). cbn [node]. by rewrite attach_here, Hc'. }
  split; [split; try done|split; [done|]].
  - destruct Hg as [_ Hsm _]. split; [done| |].
    + intros g Hgm. apply Hsm. by apply Hman1.
    + change (pml4_table_ s') with (pml4_table_ s1). rewrite Hroot1.
      apply (new_child_wf Hsp attach_same (pool s1) f); try done.
      * by rewrite attach_here.
      * by rewrite attach_here.
      * intros c Hne. cbn [set_entry with_tables tables]. by rewrite zlen_set, Htabs1.
      * cbn [set_entry with_tables tables]. by rewrite zlen_set.
  - unfold rights_ok. rewrite (rights_snoc _ _ _ _ _ (node_here Hsp attach_same)), attach_here, Hrw.
    rewrite (rights_here Hsp attach_same). destruct Hr as [-> Hru]. cbn [fst snd andb]. split; [done|].
    intros Hu. by rewrite Hru, Hus.
Qed.
End Attach.

Lemma EnsureEntry_spec :
  (length p <= 2)%nat -> huge_page (entry s t i) = false ->
  let '(c, s') := EnsureEntry flags t i s in
  c = 0 /\ s' = s /\ exhausted (pool s) \/ c <> 0 /\ entered (p ++ [i]) c s'.
Proof.
  intros Hl2 Hhg. unfold EnsureEntry. destruct (present (entry s t i)) eqn:Hpr; cbn [negb].
  - right. assert (Hnc : node (tables s) root (p ++ [i]) = Some (GetAddress (entry s t i))).
    { rewrite node_app, Hn. cbn [node]. unfold entry in *. by rewrite (proj2 (child_Some _ _) (conj Hpr (conj Hhg eq_refl))). }
    assert (Hpi : path_ok (p ++ [i])) by (by apply path_ok_snoc).
    assert (Hli : (length (p ++ [i]) <= 3)%nat) by (rewrite length_app; cbn; lia).
    destruct (wf_node _ _ _ (g_wf _ Hg) _ _ Hpi Hli Hnc) as (g & Hge & Hgr & _).
    destruct (Sumbool.sumbool_of_bool user) as [Hu|Hu]; rewrite Hu.
    + destruct (EnsureEntry_user Hl2 Hhg Hpr Hu) as [He ->]. split; [lia|exact He].
    + split; [lia|]. split; [by apply extends_refl|]. split; [done|].
      unfold rights_ok. rewrite Hu, (rights_snoc _ _ _ _ _ Hn).
      destruct (wf_upper _ _ _ (g_wf _ Hg) p t i Hp Hl2 Hn Hi) as [Hrw _].
      unfold entry in Hpr. destruct Hr as [-> _]. by rewrite Hrw.
  - pose proof (AllocateTable_cases s (g_pool _ Hg) (g_small _ Hg)) as HA.
    destruct (AllocateTable s) as [c s1].
    destruct HA as [(-> & -> & He)|(f & m' & -> & -> & Hf & Hm & Hfr & Hi' & Hm' & Hfr')]; [by left|].
    rewrite (proj2 (Z.eqb_neq _ 0)) by lia. right. set (s1 := clear_frame _ _).
    assert (Hpa : page_address (4096 * f)) by (exists f; split; [done|lia]).
    assert (Htab : forall c, table_at (tables s1) c = if decide (c = 4096 * f) then replicate 512 0 else table_at (tables s) c)
      by (intros c; apply table_at_insert).
    assert (Hte : entry s1 t i = entry s t i).
    { unfold entry, entry_at. rewrite Htab, decide_False; [done|]. by apply (fresh_not_node s f p t Hg Hfr Hp); [lia|]. }
    rewrite Hte. set (e' := set_bit 2 user _).
    destruct (linked_entry (4096 * f) (entry s t i) user Hpa Hhg) as (Hc' & Hp' & Hw' & Hu' & Hh' & Hga).
    fold e' in Hc', Hp', Hw', Hu', Hh', Hga. rewrite Hga. split; [lia|].
    assert (Hz1 : forall j, entry_at (tables s1) (4096 * f) j = 0).
    { intros j. unfold entry_at. rewrite Htab, decide_True by done. apply rd_zeros. }
    assert (Hl1 : zlen (table_at (tables s1) (4096 * f)) = 512).
    { rewrite Htab, decide_True by done. unfold zlen. by rewrite length_replicate. }
    assert (Htab' : forall c, c <> 4096 * f -> table_at (tables s1) c = table_at (tables s) c)
      by (intros c Hne; by rewrite Htab, decide_False).
    assert (Hch : child (entry s t i) = None) by (unfold child; by rewrite Hpr).
    apply (attach_entered f s1 e'); try done.
    + split; [done|]. by rewrite Hh'.
    + by rewrite Hu'.
    + by right.
    + intros path Hpath Hl.
      apply (walk_new_table (attach_spot Hl2) (attach_same f s1 e' Hl2 Hfr Htab') path user (4096 * f)); try done.
      * by rewrite (attach_here f s1 e' Hl2 Hfr Htab').
      * intros j. by rewrite (attach_new f s1 e' Hl2 Hfr Htab').
Qed.

(** *** The split of a large page *)

Lemma SplitHuge_spec :
  length p = 2%nat ->
  let '(ok, s') := SplitHuge flags t i s in
  ok = false /\ s' = s /\ exhausted (pool s)
  \/ ok = true /\ extends user s s' /\ node (tables s') root p = Some t
     /\ rights_ok user (tables s') root p /\ huge_page (entry s' t i) = false.
Proof.
  intros Hl2. assert (Hl2' : (length p <= 2)%nat) by lia. unfold SplitHuge.
  destruct (wf_upper _ _ _ (g_wf _ Hg) p t i Hp Hl2' Hn Hi) as [Hrw Hhup].
  change (entry_at (tables s) t i) with (entry s t i) in Hrw, Hhup.
  destruct (present (entry s t i)) eqn:Hpr; destruct (huge_page (entry s t i)) eqn:Hhg; cbn [andb];
    try (right; split; [done|]; split; [by apply extends_refl|done]).
  2: { by destruct (Hhup eq_refl) as [? _]. }
  destruct (Hhup eq_refl) as (_ & _ & Hal). specialize (Hrw eq_refl).
  pose proof (AllocateTable_cases s (g_pool _ Hg) (g_small _ Hg)) as HA.
  destruct (AllocateTable s) as [c s0].
  destruct HA as [(-> & -> & He)|(f & m' & -> & -> & Hf & Hm & Hfr & Hi' & Hm' & Hfr')]; [by left|].
  rewrite (proj2 (Z.eqb_neq _ 0)) by lia. right. set (s0 := clear_frame _ _).
  assert (Htab : forall c, table_at (tables s0) c = if decide (c = 4096 * f) then replicate 512 0 else table_at (tables s) c)
    by (intros c; apply table_at_insert).
  assert (Hte : entry s0 t i = entry s t i).
  { unfold entry, entry_at. rewrite Htab, decide_False; [done|]. by apply (fresh_not_node s f p t Hg Hfr Hp); [lia|]. }
  rewrite Hte. destruct (fill_spec (4096 * f) (split_entry (entry s t i)) s0 512) as (R1 & R2 & R3 & R4 & R5 & R6).
  { rewrite Htab, decide_True by done. unfold zlen. by rewrite length_replicate. }
  { done. }
  set (s1 := for_loop 512 0 _ s0) in *. clearbody s1.
  assert (Htab' : forall c, c <> 4096 * f -> table_at (tables s1) c = table_at (tables s) c)
    by (intros c Hne; by rewrite R4, Htab, decide_False).
  destruct (split_link user (4096 * f) (entry s t i)) as (Hc' & Hp' & Hh' & Hw' & Hu').
  { exists f. split; [done|lia]. }
  set (e' := if user then _ else _) in *. split; [done|].
  pose proof (attach_here f s1 e' Hl2' Hfr Htab') as Hhere.
  pose proof (attach_same f s1 e' Hl2' Hfr Htab') as Hsame.
  destruct (attach_entered f s1 e') as (He & _ & _); try done.
  - rewrite R3. exact Hi'.
  - intros g. rewrite R3. apply Hm'.
  - intros g. rewrite R3. apply Hfr'.
  - unfold child. by rewrite Hpr, Hhg.
  - split; [intros _; by rewrite Hw'|by rewrite Hh'].
  - by rewrite Hw'.
  - intros Hu. destruct Hu' as [[_ Hu']|[_ Hu']]; congruence.
  - by left.
  - intros path Hpath Hl.
    apply (walk_split (attach_spot Hl2') Hsame path user (4096 * f)); try done.
    + by rewrite Hhere.
    + intros k Hk. rewrite (attach_new f s1 e' Hl2' Hfr Htab'). by apply R6.
    + by rewrite Hhere.
    + rewrite Hhere. destruct Hu' as [[Hu' _]|Hu']; [by left|by right].
  - split; [exact He|]. split; [apply (node_here (attach_spot Hl2') Hsame)|]. split.
    + unfold rights_ok. by rewrite (rights_here (attach_spot Hl2') Hsame).
    + unfold entry. by rewrite Hhere.
Qed.
End Entry.

(** *** One page *)

Lemma index_range level v : 0 <= index level v < 512.
Proof. unfold index. change 511 with (Z.ones 9). rewrite Z.land_ones by lia. apply Z.mod_pos_bound. lia. Qed.

Lemma indices_ok v : path_ok (indices v) /\ length (indices v) = 4%nat.
Proof. split; [|done]. repeat constructor; apply index_range. Qed.

(** what a page mapped to [pa] with [flags] translates to *)
Definition request (flags pa : Z) : option (Z * bool * bool) :=
  if has flags kPresent then Some (pa, has flags kWritable, has flags kUser) else None.

(** [s'] has the page at [path] as requested and the others as [s] *)
Record page_mapped (flags pa : Z) (path : list Z) s s' : Prop := {
  pm_good : good s';
  pm_root : pml4_table_ s' = pml4_table_ s;
  pm_cr3 : cr3 s' = cr3 s;
  pm_this : walk (tables s') (pml4_table_ s) path = request flags pa;
  pm_others q : path_ok q -> length q = 4%nat -> q <> path ->
    keeps (has flags kUser) (walk (tables s) (pml4_table_ s) q) (walk (tables s') (pml4_table_ s) q) }.

Lemma leaf_entry pa e (pr w u : bool) :
  page_address pa ->
  let e' := set_bit 2 u (set_bit 1 w (set_bit 0 pr (SetAddress pa e))) in
  GetAddress e' = pa /\ present e' = pr /\ read_write e' = w /\ user_supervisor e' = u.
Proof.
  intros Hpa. cbn zeta. split_and!; [|by flags..].
  rewrite !GetAddress_set_bit by lia. by apply GetAddress_SetAddress.
Qed.

Lemma set_leaf flags pa s p t i :
  good s -> path_ok p -> length p = 3%nat -> node (tables s) (pml4_table_ s) p = Some t ->
  0 <= i < 512 -> rights_ok (has flags kUser) (tables s) (pml4_table_ s) p -> page_address pa ->
  let e' := set_bit 2 (has flags kUser) (set_bit 1 (has flags kWritable)
              (set_bit 0 (has flags kPresent) (SetAddress pa (entry s t i)))) in
  page_mapped flags pa (p ++ [i]) s (set_entry t i e' s).
Proof.
  intros Hg Hp Hl3 Hn Hi [Hrw Hru] Hpa. cbn zeta.
  destruct (leaf_entry pa (entry s t i) (has flags kPresent) (has flags kWritable) (has flags kUser) Hpa)
    as (Ha & Hpr & Hw & Hu).
  set (e' := set_bit 2 _ _) in *. clearbody e'.
  assert (Hsp : spot (pool s) (tables s) (pml4_table_ s) p t i) by (split; try done; [apply (g_wf _ Hg)|lia]).
  pose proof (set_same_elsewhere Hsp e') as Hsame.
  assert (He' : entry_at (tables (set_entry t i e' s)) t i = e').
  { destruct (wf_node _ _ _ (g_wf _ Hg) p t Hp ltac:(lia) Hn) as (f & _ & _ & _ & _ & Hz).
    cbn [set_entry with_tables tables]. rewrite entry_at_set by lia.
    by rewrite bool_decide_eq_true_2, Z.eqb_refl. }
  change (<[t := upd (table_at (tables s) t) i e']> (tables s)) with (tables (set_entry t i e' s)) in Hsame.
  pose proof (fun q => walk_leaf Hsp Hsame q Hl3) as Hwalk. rewrite He' in Hwalk.
  split; try done.
  - destruct Hg as [? ? _]. split; try done.
    apply (same_child_wf Hsp Hsame); [by left|lia|]. intros c. apply zlen_set.
  - rewrite Hwalk; [|by apply path_ok_snoc|rewrite length_app; cbn; lia].
    rewrite decide_True, Hpr, Ha, Hw, Hu, Hrw by done. unfold request.
    destruct (has flags kPresent); [|done]. cbn [andb].
    destruct (has flags kUser); [by rewrite Hru|by rewrite andb_false_r].
  - intros q Hq Hl Hne. by rewrite Hwalk, decide_False.
Qed.

Lemma upper_not_huge s p t i :
  good s -> path_ok p -> (length p <= 1)%nat -> node (tables s) (pml4_table_ s) p = Some t -> 0 <= i < 512 ->
  huge_page (entry s t i) = false.
Proof.
  intros Hg Hp Hl Hn Hi. destruct (wf_upper _ _ _ (g_wf _ Hg) p t i Hp ltac:(lia) Hn Hi) as [_ Hh].
  unfold entry. destruct (huge_page (entry_at (tables s) t i)); [|done]. destruct (Hh eq_refl) as (_ & ? & _). lia.
Qed.

Lemma page_mapped_after flags pa path s1 s2 s3 :
  extends (has flags kUser) s1 s2 -> page_mapped flags pa path s2 s3 -> page_mapped flags pa path s1 s3.
Proof.
  intros [G R C W] [G' R' C' T O]. rewrite R in T, O. split; try done; [congruence..|].
  intros q Hq Hl Hne. etrans; [by apply W|by apply O].
Qed.

Lemma map_one_spec v pa flags s :
  good s -> page_address pa ->
  let '(ok, s') := map_one v pa flags s in
  ok = false /\ extends (has flags kUser) s s' /\ exhausted (pool s')
  \/ ok = true /\ page_mapped flags pa (indices v) s s'.
Proof.
  intros Hg Hpa. unfold map_one, indices.
  set (i4 := index 4 v). set (i3 := index 3 v). set (i2 := index 2 v). set (i1 := index 1 v).
  assert (H4 : 0 <= i4 < 512) by apply index_range. assert (H3 : 0 <= i3 < 512) by apply index_range.
  assert (H2 : 0 <= i2 < 512) by apply index_range. assert (H1 : 0 <= i1 < 512) by apply index_range.
  clearbody i4 i3 i2 i1.
  (* PML4 *)
  assert (Hp0 : path_ok []) by constructor.
  pose proof (EnsureEntry_spec flags s [] (pml4_table_ s) i4 Hg Hp0 eq_refl H4
    ltac:(by split) ltac:(cbn; lia) (upper_not_huge _ [] _ _ Hg Hp0 ltac:(cbn; lia) eq_refl H4)) as HE.
  destruct (EnsureEntry flags (pml4_table_ s) i4 s) as [pdp s1].
  destruct HE as [(-> & -> & He)|(Hnz & Hx1 & Hn1 & Hr1)]; [by left; split; [done|split; [by apply extends_refl|]]|].
  rewrite (proj2 (Z.eqb_neq pdp 0)) by done. cbn [app] in *.
  (* PDP *)
  pose proof (ex_good _ _ _ Hx1) as Hg1. rewrite <- (ex_root _ _ _ Hx1) in Hn1, Hr1.
  assert (Hp1 : path_ok [i4]) by indices_ok.
  pose proof (EnsureEntry_spec flags s1 [i4] pdp i3 Hg1 Hp1 Hn1 H3 Hr1
    ltac:(cbn; lia) (upper_not_huge _ [i4] _ _ Hg1 Hp1 ltac:(cbn; lia) Hn1 H3)) as HE.
  destruct (EnsureEntry flags pdp i3 s1) as [pd s2].
  destruct HE as [(-> & -> & He)|(Hnz2 & Hx2 & Hn2 & Hr2)]; [by left|].
  rewrite (proj2 (Z.eqb_neq pd 0)) by done. cbn [app] in *.
  pose proof (extends_trans _ _ _ _ Hx1 Hx2) as Hx12.
  (* PD, with the split *)
  pose proof (ex_good _ _ _ Hx2) as Hg2. rewrite <- (ex_root _ _ _ Hx2) in Hn2, Hr2.
  assert (Hp2 : path_ok [i4; i3]) by indices_ok.
  pose proof (SplitHuge_spec flags s2 [i4; i3] pd i2 Hg2 Hp2 Hn2 H2 Hr2 eq_refl) as HS.
  destruct (SplitHuge flags pd i2 s2) as [ok s3].
  destruct HS as [(-> & -> & He)|(-> & Hx3 & Hn3 & Hr3 & Hh3)]; [by left|]. cbn [negb].
  pose proof (extends_trans _ _ _ _ Hx12 Hx3) as Hx13.
  pose proof (ex_good _ _ _ Hx3) as Hg3. rewrite <- (ex_root _ _ _ Hx3) in Hn3, Hr3.
  pose proof (EnsureEntry_spec flags s3 [i4; i3] pd i2 Hg3 Hp2 Hn3 H2 Hr3 ltac:(cbn; lia) Hh3) as HE.
  destruct (EnsureEntry flags pd i2 s3) as [pt s4].
  destruct HE as [(-> & -> & He)|(Hnz4 & Hx4 & Hn4 & Hr4)]; [by left|].
  rewrite (proj2 (Z.eqb_neq pt 0)) by done. cbn [app] in *.
  pose proof (extends_trans _ _ _ _ Hx13 Hx4) as Hx14.
  (* PT *)
  pose proof (ex_good _ _ _ Hx4) as Hg4. rewrite <- (ex_root _ _ _ Hx4) in Hn4, Hr4.
  right. split; [done|]. apply (page_mapped_after _ _ _ _ s4 _ Hx14).
  pose proof (set_leaf flags pa s4 [i4; i3; i2] pt i1 Hg4 ltac:(indices_ok) eq_refl Hn4 H1 Hr4 Hpa) as HL.
  cbn zeta in HL. destruct HL as [[G1 G2 G3] HL2 HL3 HL4 HL5]. by split.
Qed.

(** *** Runs of pages *)

Lemma index_div level v : (1 <= level)%nat -> index level v = v / 2 ^ (12 + 9 * (Z.of_nat level - 1)) mod 512.
Proof.
  intros Hl. unfold index. change 511 with (Z.ones 9). rewrite Z.land_ones by lia.
  by rewrite Z.shiftr_div_pow2 by lia.
Qed.

Lemma indices_page a : 0 <= a < 2 ^ 48 -> 
  a / 4096 = index 1 a + 512 * index 2 a + 262144 * index 3 a + 134217728 * index 4 a.
Proof.
  intros Ha. rewrite !index_div by lia. cbn [Z.of_nat Pos.of_succ_nat Pos.succ Z.sub Z.add Z.mul Pos.mul Pos.add].
  change (2 ^ (12 + 9 * (1 - 1))) with 4096. change (2 ^ (12 + 9 * (2 - 1))) with 2097152.
  change (2 ^ (12 + 9 * (3 - 1))) with 1073741824. change (2 ^ (12 + 9 * (4 - 1))) with 549755813888.
  change (2 ^ 48) with 281474976710656 in Ha. zlia.
Qed.

Lemma indices_inj a b : 0 <= a < 2 ^ 48 -> 0 <= b < 2 ^ 48 -> indices a = indices b -> a / 4096 = b / 4096.
Proof.
  intros Ha Hb [= H4 H3 H2 H1]. rewrite (indices_page a), (indices_page b) by done. congruence.
Qed.

Lemma indices_same a b : a / 4096 = b / 4096 -> indices a = indices b.
Proof.
  intros He. assert (Hi : forall l, (1 <= l)%nat -> index l a = index l b).
  { intros l Hl. rewrite !index_div by done. rewrite Z.pow_add_r by lia. change (2 ^ 12) with 4096.
    rewrite <- !Z.div_div by lia. by rewrite He. }
  unfold indices. by rewrite !Hi by lia.
Qed.

Lemma keeps_request flags pa new : keeps (has flags kUser) (request flags pa) new -> new = request flags pa.
Proof.
  unfold request. destruct (has flags kPresent); destruct new as [[[p w] u]|]; cbn; try done.
  intros (-> & -> & [-> | [-> ->]]); done.
Qed.

(** the first [k] pages from [v] are mapped to the frames from [pa], starting from [s] *)
Record range_mapped (flags v pa k : Z) s s' : Prop := {
  rm_good : good s';
  rm_root : pml4_table_ s' = pml4_table_ s;
  rm_cr3 : cr3 s' = cr3 s;
  rm_these j : 0 <= j < k ->
    walk (tables s') (pml4_table_ s) (indices (v + 4096 * j)) = request flags (pa + 4096 * j);
  rm_others q : path_ok q -> length q = 4%nat -> (forall j, 0 <= j < k -> q <> indices (v + 4096 * j)) ->
    keeps (has flags kUser) (walk (tables s) (pml4_table_ s) q) (walk (tables s') (pml4_table_ s) q) }.

Lemma range_mapped_extends flags v pa k s s1 s2 :
  range_mapped flags v pa k s s1 -> extends (has flags kUser) s1 s2 -> range_mapped flags v pa k s s2.
Proof.
  intros [G R C T O] [G' R' C' W]. rewrite R in W. split; try done; [congruence..| |].
  - intros j Hj. apply (keeps_request flags). rewrite <- (T j Hj). apply W; apply indices_ok.
  - intros q Hq Hl Hn. etrans; [by apply O|by apply W].
Qed.

Lemma range_mapped_step flags v pa k s s1 s2 :
  0 <= k -> 0 <= v -> v + 4096 * (k + 1) <= 2 ^ 48 ->
  range_mapped flags v pa k s s1 -> page_mapped flags (pa + 4096 * k) (indices (v + 4096 * k)) s1 s2 ->
  range_mapped flags v pa (k + 1) s s2.
Proof.
  intros Hk Hv Hend [G R C T O] [G' R' C' T' O']. rewrite R in T', O'.
  split; try done; [congruence..| |].
  - intros j Hj. destruct (decide (j = k)) as [->|Hne]; [done|].
    apply (keeps_request flags). rewrite <- (T j) by lia. apply O'; [apply indices_ok..|].
    intros He. apply indices_inj in He; [|lia..]. apply Hne. zlia.
  - intros q Hq Hl Hn. etrans; [apply O; try done; intros j Hj; apply Hn; lia|].
    apply O'; try done. apply Hn. lia.
Qed.

Lemma map_loop_spec flags v pa n : forall k s s0,
  0 <= k -> 0 <= v -> v + 4096 * (k + Z.of_nat n) <= 2 ^ 48 ->
  pa mod 4096 = 0 -> 0 <= pa -> pa + 4096 * (k + Z.of_nat n) <= 2 ^ 52 ->
  range_mapped flags v pa k s0 s ->
  exists k', k <= k' <= k + Z.of_nat n /\ range_mapped flags v pa k' s0 (map_loop n k v pa flags s)
    /\ (k' = k + Z.of_nat n \/ exhausted (pool (map_loop n k v pa flags s))).
Proof.
  induction n as [|n IH]; intros k s s0 Hk Hv Hend Hal Hpa Hpend Hm; cbn [map_loop].
  { exists k. split; [lia|]. split; [done|]. left. lia. }
  unfold kPageSize4K. rewrite !u64_small by lia.
  assert (Hpage : page_address (pa + k * 4096)) by (exists (pa / 4096 + k); zlia).
  pose proof (map_one_spec (v + k * 4096) (pa + k * 4096) flags s (rm_good _ _ _ _ _ _ Hm) Hpage) as H1.
  destruct (map_one (v + k * 4096) (pa + k * 4096) flags s) as [ok s1].
  destruct H1 as [(-> & Hx & He)|(-> & Hp)].
  - exists k. split; [lia|]. split; [by apply (range_mapped_extends _ _ _ _ _ s)|by right].
  - rewrite !(Z.mul_comm k) in Hp.
    destruct (IH (k + 1) s1 s0) as (k' & Hk' & Hm' & He'); try lia; try done.
    { by apply (range_mapped_step _ _ _ _ _ s); [lia..| |]. }
    exists k'. split; [lia|]. split; [done|]. destruct He' as [->|]; [left; lia|by right].
Qed.

Lemma keeps_translate user ts R ts' R' a :
  keeps user (walk ts R (indices a)) (walk ts' R' (indices a)) -> keeps user (translate ts R a) (translate ts' R' a).
Proof.
  unfold translate. destruct (walk ts R (indices a)) as [[[p w] u]|], (walk ts' R' (indices a)) as [[[p' w'] u']|];
    cbn; try done. by intros (-> & -> & Hu).
Qed.

(** C3: MapPage gives the pages from [v] on, in order, the frames from [pa] on with the
    rights asked for, until all are mapped or the frame pool is exhausted; every other
    address keeps its translation (a large page in the way is split without a change),
    except that user code may gain access below tables it now needs. *)
Theorem MapPage_maps flags v pa count s :
  good s -> v mod 4096 = 0 -> 0 <= v -> v + 4096 * count <= 2 ^ 48 ->
  pa mod 4096 = 0 -> 0 <= pa -> pa + 4096 * count <= 2 ^ 52 -> 0 <= count ->
  let s' := MapPage v pa count flags s in
  good s' /\ exists k, 0 <= k <= count /\ (k = count \/ exhausted (pool s')) /\
    forall a, 0 <= a < 2 ^ 48 ->
      if (v <=? a) && (a <? v + 4096 * k) then
        translate (tables s') (pml4_table_ s) a
        = if has flags kPresent then Some (pa + (a - v), has flags kWritable, has flags kUser) else None
      else keeps (has flags kUser) (translate (tables s) (pml4_table_ s) a)
             (translate (tables s') (pml4_table_ s) a).
Proof.
  intros Hg Hv Hv0 Hend Hpa Hpa0 Hpend Hc. cbn zeta. unfold MapPage.
  destruct (wf_node _ _ _ (g_wf _ Hg) [] (pml4_table_ s)) as (f & Hf & Hfr & _); [constructor|cbn; lia|done|].
  rewrite (proj2 (Z.eqb_neq _ 0)) by lia.
  destruct (map_loop_spec flags v pa (Z.to_nat count) 0 s s) as (k & Hk & Hm & He); try lia.
  { split; try done. intros j Hj. lia. }
  rewrite !Z2Nat.id in * by lia. split; [apply Hm|]. exists k. split; [lia|]. split; [done|].
  intros a Ha. unfold translate. destruct (Z.leb_spec v a) as [Hva|Hva]; destruct (Z.ltb_spec a (v + 4096 * k)) as [Hak|Hak];
    cbn [andb].
  1: { assert (Hj : indices a = indices (v + 4096 * ((a - v) / 4096))) by (apply indices_same; zlia).
       rewrite Hj, (rm_these _ _ _ _ _ _ Hm) by zlia. unfold request.
       destruct (has flags kPresent); [|done]. do 3 f_equal. zlia. }
  all: destruct (indices_ok a) as [Hok Hl];
    pose proof (rm_others _ _ _ _ _ _ Hm (indices a) Hok Hl) as Hkeep;
    match type of Hkeep with ?A -> _ => assert (Hno : A) end;
    [intros j Hj Heq; apply indices_inj in Heq; [zlia|lia|lia]|];
    specialize (Hkeep Hno);
    destruct (walk (tables s) (pml4_table_ s) (indices a)) as [[[p1 w1] u1]|];
    destruct (walk (tables _) (pml4_table_ s) (indices a)) as [[[p2 w2] u2]|]; cbn in *; try done;
    destruct Hkeep as (-> & -> & Hu); done.
Qed.
End WellFormed.
