(* ===== verification/PagingBoot.v ===== *)
(** * The identity map (PageManager::Initialize, kernel/paging.cpp)

    With frames for its 66 tables, Initialize leaves a well-formed hierarchy in which
    every address below 64 GiB stands for itself and no other address is mapped. *)
From S2P Require Import Prelude Memory Paging PagingMap.

Section Boot.
Context {M : Type} `{FramePoolLaws M}.
Implicit Types (s : PM M).

(** [n] frames can be taken one after the other *)
Fixpoint available (n : nat) (m : M) : Prop :=
  match n with
  | O => True
  | S n' => fst (AllocateFrame m) <> 0 /\ available n' (snd (AllocateFrame m))
  end.

(** the walk of the identity map when the directories below [k] and [l] entries of
    directory [k] are filled *)
Definition ident (k l : Z) (q : list Z) : option (Z * bool * bool) :=
  match q with
  | [i4; i3; i2; i1] =>
      if (i4 =? 0) && ((i3 <? k) || ((i3 =? k) && (i2 <? l)))
      then Some (offset [i3; i2; i1], true, true) else None
  | _ => None
  end.

Lemma keeps_ident user k l q new : keeps user (ident k l q) new -> new = ident k l q.
Proof.
  unfold ident. destruct q as [|i4 [|i3 [|i2 [|i1 [|]]]]]; cbn [keeps]; destruct new as [[[p w] u]|]; try done;
    destruct ((i4 =? 0) && _); cbn [keeps]; try done.
  intros (-> & -> & [-> | [_ ->]]); done.
Qed.

(** *** Hanging an empty table *)

(** [s'] is [s] with the new table [r] at the path [p ++ [i]] *)
Record attached (p : list Z) (t i r : Z) s s' : Prop := {
  at_good : good s';
  at_root : pml4_table_ s' = pml4_table_ s;
  at_node : node (tables s') (pml4_table_ s) (p ++ [i]) = Some r;
  at_rights : rights (tables s') (pml4_table_ s) (p ++ [i]) = (true, true);
  at_walk q : path_ok q -> length q = 4%nat ->
    keeps true (walk (tables s) (pml4_table_ s) q) (walk (tables s') (pml4_table_ s) q);
  at_other c j : c <> r -> c <> t \/ j <> i -> entry_at (tables s') c j = entry_at (tables s) c j;
  at_new j : entry_at (tables s') r j = 0;
  at_nodes q : path_ok q -> (length q <= 3)%nat ->
    node (tables s') (pml4_table_ s) q = if decide (q = p ++ [i]) then Some r else node (tables s) (pml4_table_ s) q;
  at_fresh q : path_ok q -> (length q <= 3)%nat -> node (tables s) (pml4_table_ s) q <> Some r }.

Lemma attach_table p t i s :
  good s -> path_ok p -> (length p <= 2)%nat -> node (tables s) (pml4_table_ s) p = Some t ->
  0 <= i < 512 -> rights (tables s) (pml4_table_ s) p = (true, true) -> entry s t i = 0 ->
  fst (AllocateFrame (pool s)) <> 0 ->
  let '(r, s1) := AllocateTable s in
  let s' := set_entry t i (table_entry r (entry s1 t i)) s1 in
  pool s' = snd (AllocateFrame (pool s)) /\ attached p t i r s s'.
Proof.
  intros Hg Hp Hl2 Hn Hi Hr He Hav.
  pose proof (AllocateTable_cases s (g_pool _ Hg) (g_small _ Hg)) as HA.
  assert (Hpool : pool (snd (AllocateTable s)) = snd (AllocateFrame (pool s))).
  { unfold AllocateTable. destruct (AllocateFrame (pool s)) as [x m]. by destruct (x =? 0). }
  destruct (AllocateTable s) as [r s1]. cbn [snd] in Hpool. cbn zeta. split; [done|].
  destruct HA as [(_ & _ & Hx)|(f & m' & -> & -> & Hf & Hm & Hfr & Hi' & Hm' & Hfr')]; [done|].
  set (s1 := clear_frame _ _) in *.
  assert (Htab : forall c, table_at (tables s1) c = if decide (c = 4096 * f) then replicate 512 0 else table_at (tables s) c)
    by (intros c; apply table_at_insert).
  assert (Htab' : forall c, c <> 4096 * f -> table_at (tables s1) c = table_at (tables s) c)
    by (intros c Hne; by rewrite Htab, decide_False).
  assert (Hz1 : forall j, entry_at (tables s1) (4096 * f) j = 0).
  { intros j. unfold entry_at. rewrite Htab, decide_True by done. apply rd_zeros. }
  assert (Hte : entry s1 t i = 0).
  { rewrite <- He. unfold entry, entry_at. rewrite Htab'; [done|].
    by apply (fresh_not_node s f p t Hg Hfr Hp); [lia|]. }
  assert (Hpa : page_address (4096 * f)) by (exists f; split; [done|lia]).
  rewrite Hte. destruct (linked_entry (4096 * f) 0 true Hpa eq_refl) as (Hc' & Hp' & Hw' & Hu' & Hh' & _).
  fold (table_entry (4096 * f) 0) in Hc', Hp', Hw', Hu', Hh'. set (e' := table_entry (4096 * f) 0) in *. clearbody e'.
  assert (Hrok : rights_ok (has kUser kUser) (tables s) (pml4_table_ s) p) by (unfold rights_ok; by rewrite Hr).
  pose proof (attach_spot s p t i Hg Hp Hn Hi Hl2) as Hsp.
  pose proof (attach_same s p t i Hg Hp Hn Hi f s1 e' Hl2 Hfr Htab') as Hsame.
  pose proof (attach_here s p t i Hg Hp Hn Hi f s1 e' Hl2 Hfr Htab') as Hhere.
  assert (Hkeep : forall path, path_ok path -> length path = 4%nat ->
    keeps true (walk (tables s) (pml4_table_ s) path) (walk (tables (set_entry t i e' s1)) (pml4_table_ s) path)).
  { intros path Hpath Hl. apply (walk_new_table Hsp Hsame path true (4096 * f)); try done.
    - unfold entry in He. by rewrite He.
    - by rewrite Hhere.
    - intros j. by rewrite (attach_new s p t i Hg Hp Hn Hi f s1 e' Hl2 Hfr Htab'). }
  destruct (attach_entered kUser s p t i Hg Hp Hn Hi Hrok f s1 e') as ([Hgood Hroot _ _] & Hnode & _); try done.
  - rewrite Htab, decide_True by done. unfold zlen. by rewrite length_replicate.
  - by rewrite He.
  - split; [done|]. by rewrite Hh'.
  - by right.
  - split; try done.
    + rewrite (rights_snoc _ _ _ _ _ (node_here Hsp Hsame)), Hhere, Hw', Hu', (rights_here Hsp Hsame), Hr. done.
    + intros c j Hne Hcj. rewrite (attach_entry s p t i Hg Hp Hn Hi f s1 e' Hl2 Hfr Htab').
      assert (Hb : bool_decide (c = t) && (j =? i) = false).
      { destruct (decide (c = t)); [|by rewrite bool_decide_eq_false_2].
        destruct Hcj; [done|]. rewrite (proj2 (Z.eqb_neq j i)) by done. apply andb_false_r. }
      rewrite Hb. unfold entry_at. by rewrite Htab'.
    + intros j. by rewrite (attach_new s p t i Hg Hp Hn Hi f s1 e' Hl2 Hfr Htab').
    + intros q Hq Hlq. apply (new_child_node Hsp Hsame (4096 * f)); try done.
      * unfold entry in He. by rewrite He.
      * by rewrite Hhere.
      * intros q' c. by apply (fresh_not_node s f q').
      * right. intros j. by rewrite (attach_new s p t i Hg Hp Hn Hi f s1 e' Hl2 Hfr Htab'), Hz1.
    + intros q Hq Hlq Hx. by destruct (fresh_not_node s f q _ Hg Hfr Hq Hlq Hx).
Qed.

(** *** The 512 large pages of a directory *)

(** an entry of the identity map *)
Definition large_entry (pa : Z) : Z :=
  set_bit 2 true (set_bit 7 true (set_bit 1 true (set_bit 0 true (SetAddress pa 0)))).

Lemma large_entry_spec pa :
  page_address pa ->
  present (large_entry pa) = true /\ huge_page (large_entry pa) = true
  /\ read_write (large_entry pa) = true /\ user_supervisor (large_entry pa) = true
  /\ GetAddress (large_entry pa) = pa.
Proof.
  intros Hpa. unfold large_entry. split_and!; [by flags..|].
  rewrite !GetAddress_set_bit by lia. by apply GetAddress_SetAddress.
Qed.

(** the directories below [k], and [l] entries of directory [k], are filled *)
Record filling (root pdp : Z) (m : M) (k pd l : Z) s : Prop := {
  f_good : good s;
  f_root : pml4_table_ s = root;
  f_pool : pool s = m;
  f_pdp : node (tables s) root [0] = Some pdp;
  f_pd : node (tables s) root [0; k] = Some pd;
  f_rights : rights (tables s) root [0] = (true, true) /\ rights (tables s) root [0; k] = (true, true);
  f_pdp_zero i : k < i < 512 -> entry s pdp i = 0;
  f_pd_zero i : l <= i < 512 -> entry s pd i = 0;
  f_directories i : 0 <= i <= k -> node (tables s) root [0; i] <> None;
  f_large q : path_ok q -> length q = 3%nat -> node (tables s) root q = None;
  f_walk q : path_ok q -> length q = 4%nat -> walk (tables s) root q = ident k l q }.

Lemma ident_other k l q :
  length q = 4%nat -> ~ [0; k; l] `prefix_of` q -> ident k (l + 1) q = ident k l q.
Proof.
  intros Hl Hno. destruct q as [|i4 [|i3 [|i2 [|i1 [|]]]]]; try done. unfold ident.
  assert (Hne : ~ (i4 = 0 /\ i3 = k /\ i2 = l)).
  { intros (-> & -> & ->). apply Hno. by exists [i1]. }
  destruct (Z.eqb_spec i4 0), (Z.ltb_spec i3 k), (Z.eqb_spec i3 k), (Z.ltb_spec i2 l), (Z.ltb_spec i2 (l + 1));
    cbn [andb orb]; try done; exfalso; lia.
Qed.

Lemma path_2 a b : 0 <= a < 512 -> 0 <= b < 512 -> path_ok [a; b].
Proof. intros. indices_ok. Qed.

Lemma filling_step root pdp m k pd l s :
  0 <= k < 64 -> 0 <= l < 512 -> filling root pdp m k pd l s ->
  filling root pdp m k pd (l + 1) (set_entry pd l (large_entry (k * 2 ^ 30 + l * 2 ^ 21)) s).
Proof.
  intros Hk Hl [Hg <- Hm Hpdp Hpd [Hr1 Hr2] Hz1 Hz2 Hds Hlg Hw].
  set (pa := k * 2 ^ 30 + l * 2 ^ 21).
  destruct (large_entry_spec pa) as (Hpr & Hhg & Hrw & Hus & Hga).
  { exists (k * 2 ^ 18 + l * 2 ^ 9). unfold pa. lia. }
  set (e' := large_entry pa) in *. clearbody e'.
  assert (Hp2 : path_ok [0; k]) by (apply path_2; lia). assert (Hp1 : path_ok [0]) by indices_ok.
  assert (Hsp : spot (pool s) (tables s) (pml4_table_ s) [0; k] pd l) by (split; try done; [apply (g_wf _ Hg)|cbn; lia]).
  pose proof (set_same_elsewhere Hsp e') as Hsame.
  set (s' := set_entry pd l e' s). change (<[pd := upd (table_at (tables s) pd) l e']> (tables s)) with (tables s') in Hsame.
  assert (Hent : forall c j, entry_at (tables s') c j = if bool_decide (c = pd) && (j =? l) then e' else entry_at (tables s) c j).
  { intros c j. destruct (wf_node _ _ _ (g_wf _ Hg) [0; k] pd Hp2 ltac:(cbn; lia) Hpd) as (f & _ & _ & _ & _ & Hz).
    apply entry_at_set. lia. }
  assert (Hhere : entry_at (tables s') pd l = e') by (rewrite Hent, bool_decide_eq_true_2, Z.eqb_refl; done).
  assert (Hold : entry_at (tables s) pd l = 0) by (apply Hz2; lia).
  assert (Hchild : length [0; k] = 3%nat \/ child (entry_at (tables s') pd l) = child (entry_at (tables s) pd l)).
  { right. rewrite Hhere, Hold. unfold child. by rewrite Hpr, Hhg. }
  assert (Hne : pdp <> pd).
  { intros ->. pose proof (wf_inj _ _ _ (g_wf _ Hg) [0] [0; k] pd Hp1 Hp2 ltac:(cbn; lia) ltac:(cbn; lia) Hpdp Hpd). done. }
  split; try done.
  - destruct Hg as [Gi Gs Gw]. split; try done. apply (same_child_wf Hsp Hsame Hchild).
    + intros _. rewrite Hhere. split; [done|]. intros _. rewrite Hga. split_and!; try done. unfold pa. zlia.
    + intros c. apply zlen_set.
  - rewrite (same_child_node Hsp Hsame) by (done || (cbn; lia)). done.
  - rewrite (same_child_node Hsp Hsame) by (done || (cbn; lia)). done.
  - split; [|by rewrite (rights_here Hsp Hsame)].
    rewrite <- Hr1. apply (rights_frame _ _ _ _ pdp Hpdp). apply (agree_beside Hsp Hsame); [done|cbn; lia|].
    intros [x Hx]. done.
  - intros i Hi. unfold entry. rewrite Hent, bool_decide_eq_false_2 by done. by apply Hz1.
  - intros i Hi. unfold entry. rewrite Hent, (proj2 (Z.eqb_neq i l)), andb_false_r by lia. apply Hz2. lia.
  - intros i Hi. rewrite (same_child_node Hsp Hsame) by (done || (cbn; lia) || (apply path_2; lia)). by apply Hds.
  - intros q Hq Hlq. rewrite (same_child_node Hsp Hsame) by (done || lia). by apply Hlg.
  - intros q Hq Hlq. destruct (decide ([0; k; l] `prefix_of` q)) as [[rest ->]|Hno].
    + destruct rest as [|i1 [|]]; try done.
      change ([0; k; l] ++ [i1]) with ([0; k] ++ [l; i1]).
      rewrite (walk_app _ _ _ _ _ (node_here Hsp Hsame)), (rights_here Hsp Hsame), Hr2 by done.
      cbn [walk app]. rewrite Hhere, Hpr, Hhg, Hga, Hrw, Hus. cbn [negb restrict fst snd andb ident].
      rewrite (proj2 (Z.ltb_lt l (l + 1))), Z.eqb_refl, Z.eqb_refl, orb_true_r by lia. cbn [andb offset].
      do 3 f_equal. unfold pa. change (zlen [l; i1]) with 2. change (zlen [i1]) with 1. change (zlen (@nil Z)) with 0. lia.
    + rewrite ident_other, <- Hw by done. apply walk_frame, (agree_beside Hsp Hsame); [done|lia|done].
Qed.

Lemma identity_pd_spec root pdp m k pd s :
  0 <= k < 64 -> filling root pdp m k pd 0 s -> filling root pdp m k pd 512 (identity_pd k pd s).
Proof.
  intros Hk Hf. unfold identity_pd. apply (for_loop_inv (fun l s => filling root pdp m k pd l s) 512 0); [done|].
  intros l s' Hl Hf'. cbn [Z.of_nat] in Hl. pose proof (filling_step root pdp m k pd l s' Hk ltac:(lia) Hf') as Hs.
  rewrite (f_pd_zero _ _ _ _ _ _ _ Hf' l) by lia.
  replace (u64 (k * 1024 * 1024 * 1024 + l * 2 * 1024 * 1024)) with (k * 2 ^ 30 + l * 2 ^ 21)
    by (rewrite u64_small by lia; lia). exact Hs.
Qed.

(** *** The 64 directories *)

Record booted (extra : nat) (root pdp k : Z) s : Prop := {
  b_good : good s;
  b_root : pml4_table_ s = root;
  b_node : node (tables s) root [0] = Some pdp;
  b_rights : rights (tables s) root [0] = (true, true);
  b_zero i : k <= i < 512 -> entry s pdp i = 0;
  b_walk q : path_ok q -> length q = 4%nat -> walk (tables s) root q = ident k 0 q;
  b_directories i : 0 <= i < k -> node (tables s) root [0; i] <> None;
  b_large q : path_ok q -> length q = 3%nat -> node (tables s) root q = None;
  b_available : available (Z.to_nat (64 - k) + extra) (pool s) }.

Lemma first_entry_same (ts ts' : gmap Z (list Z)) root pdp :
  entry_at ts' root 0 = entry_at ts root 0 -> node ts root [0] = Some pdp ->
  rights ts root [0] = (true, true) ->
  node ts' root [0] = Some pdp /\ rights ts' root [0] = (true, true).
Proof. cbn [node rights]. intros ->. by split. Qed.

Lemma attach_directory extra root pdp k s :
  0 <= k < 64 -> booted extra root pdp k s ->
  let '(pd, s1) := AllocateTable s in
  filling root pdp (snd (AllocateFrame (pool s))) k pd 0
    (set_entry pdp k (table_entry pd (entry s1 pdp k)) s1)
  /\ available (Z.to_nat (64 - (k + 1)) + extra) (snd (AllocateFrame (pool s))).
Proof.
  intros Hk [Hg <- Hn Hr Hz Hw Hds Hlg Hav].
  replace (Z.to_nat (64 - k) + extra)%nat with (S (Z.to_nat (64 - (k + 1)) + extra)) in Hav by lia. destruct Hav as [Hav1 Hav2].
  pose proof (wf_inj _ _ _ (g_wf _ Hg) [] [0]) as Hinj.
  assert (Hp1 : path_ok [0]) by indices_ok. assert (Hp0 : path_ok []) by constructor.
  assert (Hrp : pml4_table_ s <> pdp).
  { intros Heq. by specialize (Hinj pdp Hp0 Hp1 ltac:(cbn; lia) ltac:(cbn; lia) ltac:(by rewrite Heq) Hn). }
  pose proof (attach_table [0] pdp k s Hg Hp1 ltac:(cbn; lia) Hn ltac:(lia) Hr (Hz k ltac:(lia)) Hav1) as HA.
  destruct (AllocateTable s) as [pd s1]. cbn zeta in HA.
  set (s' := set_entry pdp k _ s1) in *. clearbody s'.
  destruct HA as (Hpool & [G R N Rt W O Z0 Nd F]). cbn [app] in *.
  assert (Hfr : pml4_table_ s <> pd) by (intros Heq; apply (F [] Hp0 ltac:(cbn; lia)); cbn; congruence).
  assert (Hpd : pdp <> pd) by (intros Heq; apply (F [0] Hp1 ltac:(cbn; lia)); congruence).
  destruct (first_entry_same (tables s) (tables s') (pml4_table_ s) pdp) as [Hn' Hr']; [apply O; auto|done|done|].
  split; [|done]. split; try done.
  - intros i Hi. unfold entry. rewrite O; [apply Hz; lia|done|right; lia].
  - intros i _. apply Z0.
  - intros i Hi. rewrite Nd by (apply path_2 || (cbn; lia); lia). case_decide as Hx; [done|].
    apply Hds. assert (i <> k) by congruence. lia.
  - intros q Hq Hl. rewrite Nd by (done || lia). rewrite decide_False; [by apply Hlg|]. intros ->. done.
  - intros q Hq Hl. apply (keeps_ident true). rewrite <- Hw by done. by apply W.
Qed.

Lemma ident_full k q : path_ok q -> ident k 512 q = ident (k + 1) 0 q.
Proof.
  intros Hq. unfold ident. destruct q as [|i4 [|i3 [|i2 [|i1 [|]]]]]; try done.
  unfold path_ok in Hq. rewrite !Forall_cons in Hq. destruct Hq as (_ & _ & H2 & _).
  replace ((i3 <? k) || (i3 =? k) && (i2 <? 512)) with ((i3 <? k + 1) || (i3 =? k + 1) && (i2 <? 0)); [done|].
  destruct (Z.ltb_spec i3 k), (Z.eqb_spec i3 k), (Z.ltb_spec i2 512), (Z.ltb_spec i3 (k + 1)),
    (Z.eqb_spec i3 (k + 1)), (Z.ltb_spec i2 0); cbn [andb orb]; try done; exfalso; lia.
Qed.

Lemma identity_pdp_spec extra root pdp s :
  booted extra root pdp 0 s -> booted extra root pdp 64 (identity_pdp pdp s).
Proof.
  intros Hb. unfold identity_pdp. apply (for_loop_inv (fun k s => booted extra root pdp k s) 64 0); [done|].
  intros k s' Hk Hb'. cbn [Z.of_nat] in Hk.
  pose proof (attach_directory extra root pdp k s' ltac:(lia) Hb') as HA.
  destruct (AllocateTable s') as [pd s1]. destruct HA as [Hf Hav].
  pose proof (identity_pd_spec root pdp _ k pd _ ltac:(lia) Hf) as [Hg Hr Hm Hn _ [Hr1 _] Hz _ Hds Hlg Hw].
  cbn zeta. set (s2 := identity_pd _ _ _) in *. clearbody s2. split; try done.
  - intros i Hi. apply Hz. lia.
  - intros q Hq Hl. by rewrite Hw, ident_full.
  - intros i Hi. apply Hds. lia.
  - by rewrite Hm.
Qed.

(** *** The root *)

(** a new root table alone *)
Lemma root_good s f m' :
  0 < f < 2 ^ 40 -> frame_managed m' f -> frame_free m' f = false -> pool_inv m' -> small_frames m' ->
  let s' := with_pml4 (clear_frame (4096 * f) (with_pool s m')) (4096 * f) in
  good s' /\ (forall j, entry s' (4096 * f) j = 0) /\ (forall q, q <> [] -> node (tables s') (4096 * f) q = None)
  /\ forall q, path_ok q -> length q = 4%nat -> walk (tables s') (4096 * f) q = None.
Proof.
  intros Hf Hm Hfr Hi Hsm. cbn zeta. set (s' := with_pml4 _ _).
  assert (Htab : table_at (tables s') (4096 * f) = replicate 512 0).
  { cbn. rewrite table_at_insert. by rewrite decide_True. }
  assert (Hz : forall j, entry_at (tables s') (4096 * f) j = 0) by (intros j; unfold entry_at; rewrite Htab; apply rd_zeros).
  assert (Hnode : forall p t, node (tables s') (4096 * f) p = Some t -> p = [] /\ t = 4096 * f).
  { intros [|i p] t; cbn [node]; [by intros [= <-]|]. by rewrite Hz. }
  split; [|split; [exact Hz|split]].
  - split; try done. change (pml4_table_ s') with (4096 * f). split.
    + intros p q t _ _ _ _ Hp Hq. apply Hnode in Hp as [-> _]. by apply Hnode in Hq as [-> _].
    + intros p t _ _ Hp. apply Hnode in Hp as [_ ->]. exists f. split_and!; try done; try lia.
      rewrite Htab. unfold zlen. by rewrite length_replicate.
    + intros p t i _ _ Hp Hi'. apply Hnode in Hp as [_ ->]. by rewrite Hz.
  - intros [|i q] Hne; [done|]. cbn [node]. by rewrite Hz.
  - intros [|i q] _ Hl; [done|]. cbn [walk]. by rewrite Hz.
Qed.

(** *** The identity map *)

Lemma ident_translate a :
  0 <= a < 2 ^ 48 ->
  match ident 64 0 (indices a) with
  | Some (page, w, u) => Some (page + a mod 4096, w, u)
  | None => None
  end = if a <? 64 * 2 ^ 30 then Some (a, true, true) else None.
Proof.
  intros Ha. pose proof (indices_page a Ha) as Hp. unfold ident, indices. cbn [offset].
  change (zlen [index 2 a; index 1 a]) with 2. change (zlen [index 1 a]) with 1. change (zlen (@nil Z)) with 0.
  pose proof (index_range 1 a) as H1. pose proof (index_range 2 a) as H2.
  pose proof (index_range 3 a) as H3. pose proof (index_range 4 a) as H4.
  rewrite (proj2 (Z.ltb_ge (index 2 a) 0)), andb_false_r, orb_false_r by lia.
  pose proof (Z.div_mod a 4096 ltac:(lia)) as Hd. pose proof (Z.mod_pos_bound a 4096 ltac:(lia)) as Hm.
  destruct (Z.eqb_spec (index 4 a) 0); destruct (Z.ltb_spec (index 3 a) 64); destruct (Z.ltb_spec a (64 * 2 ^ 30));
    cbn [andb]; try done; try lia. do 3 f_equal. lia.
Qed.

(** what Initialize leaves: the identity map of 64 directories, and [extra] frames *)
Lemma Initialize_booted extra s :
  pool_inv (pool s) -> small_frames (pool s) -> available (66 + extra) (pool s) ->
  exists s' pdp, Initialize s = Some s' /\ booted extra (pml4_table_ s') pdp 64 s' /\ cr3 s' = pml4_table_ s'.
Proof.
  intros Hi Hsm [Hav [Hav1 Hav2]]. unfold Initialize. set (s0 := print _ s).
  change (pool s) with (pool s0) in *. clearbody s0. clear s.
  pose proof (AllocateTable_cases s0 Hi Hsm) as HA.
  assert (Hpool : pool (snd (AllocateTable s0)) = snd (AllocateFrame (pool s0))).
  { unfold AllocateTable. destruct (AllocateFrame (pool s0)) as [x m]. by destruct (x =? 0). }
  destruct (AllocateTable s0) as [root s1]. cbn [snd] in Hpool.
  destruct HA as [(_ & _ & Hx)|(f & m' & -> & -> & Hf & Hm & Hfr & Hi' & Hm' & Hfr')]; [done|].
  cbn [clear_frame with_pool with_tables pool] in Hpool. subst m'.
  destruct (root_good s0 f (snd (AllocateFrame (pool s0)))) as (Hg & Hz & Hnn & Hw); try done.
  { by apply Hm'. } { by rewrite Hfr', Z.eqb_refl, andb_false_r. } { intros g Hgm. by apply Hsm, Hm'. }
  cbv zeta. set (s2 := with_pml4 _ _) in *. rewrite (proj2 (Z.eqb_neq (4096 * f) 0)) by lia.
  change (4096 * f) with (pml4_table_ s2) in Hz, Hw, Hnn |- *.
  change (snd (AllocateFrame (pool s0))) with (pool s2) in Hav1, Hav2. clearbody s2.
  assert (Hp0 : path_ok []) by constructor.
  pose proof (attach_table [] (pml4_table_ s2) 0 s2 Hg Hp0 ltac:(cbn; lia) eq_refl ltac:(lia) eq_refl (Hz 0) Hav1) as HA.
  destruct (AllocateTable s2) as [pdp s3]. cbn zeta in HA.
  set (s4 := set_entry (pml4_table_ s2) 0 _ s3) in *. clearbody s4. cbn [app] in HA.
  destruct HA as (Hpool4 & [G R N Rt W O Z0 Nd F]).
  assert (Hb : booted extra (pml4_table_ s2) pdp 0 s4).
  { split; try done.
    - intros i _. apply Z0.
    - intros q Hq Hl. apply (keeps_ident true). specialize (W q Hq Hl). rewrite Hw in W by done.
      destruct q as [|i4 [|i3 [|i2 [|i1 [|]]]]]; try done. unfold ident.
      unfold path_ok in Hq. rewrite !Forall_cons in Hq. destruct Hq as (_ & H3 & H2 & _).
      replace ((i3 <? 0) || (i3 =? 0) && (i2 <? 0)) with false; [by rewrite andb_false_r|].
      rewrite (proj2 (Z.ltb_ge i3 0)), (proj2 (Z.ltb_ge i2 0)) by lia. by rewrite andb_false_r.
    - intros i Hi0. lia.
    - intros q Hq Hl. rewrite Nd, decide_False by (done || lia || (intros ->; done)). apply Hnn. by intros ->.
    - by rewrite Hpool4. }
  apply identity_pdp_spec in Hb as [Bg Br Bn Brt Bz Bw Bd Bl Bav].
  set (s5 := identity_pdp pdp s4) in *. clearbody s5.
  eexists _, pdp. split; [reflexivity|]. cbn [pml4_table_ print LoadCR3 cr3]. split; [|done].
  rewrite <- Br in *. destruct Bg. by split.
Qed.

(** C24: With frames for its tables, Initialize builds a well-formed hierarchy, loads it,
    and maps every address below 64 GiB to itself, for reading and writing and for
    user code, and nothing above. *)
Theorem Initialize_identity s :
  pool_inv (pool s) -> small_frames (pool s) -> available 66 (pool s) ->
  exists s', Initialize s = Some s' /\ good s' /\ cr3 s' = pml4_table_ s'
    /\ forall a, 0 <= a < 2 ^ 48 ->
         translate (tables s') (pml4_table_ s') a = if a <? 64 * 2 ^ 30 then Some (a, true, true) else None.
Proof.
  intros Hi Hsm Hav. destruct (Initialize_booted 0 s Hi Hsm Hav) as (s' & pdp & HI & [Bg _ _ _ _ Bw _ _ _] & Hc).
  exists s'. split; [done|]. split; [done|]. split; [done|]. intros a Ha. unfold translate.
  destruct (indices_ok a) as [Hok Hl]. rewrite Bw by done. by apply ident_translate.
Qed.
End Boot.

(** ** On a machine with 128 frames *)

Definition table_pool : MemoryManager.t := MemoryManager.mk (Bitmap.mk (1 :: replicate 15 0) 16) 0 524288.

Definition unmapped_pm : PM MemoryManager.t := mkPM 0 0 ∅ table_pool [] [].

Lemma table_pool_inv : MemoryManager.inv table_pool.
Proof.
  split; [by split; [done|repeat constructor; cbn; lia]|vm_compute; congruence|cbn; lia|done|].
  intros j Hj. apply Bitmap.Get_outside. exact Hj.
Qed.

Lemma table_pool_small : small_frames table_pool.
Proof. intros f Hf. change (0 < f < 128) in Hf. lia. Qed.

Fixpoint availableb (n : nat) (m : MemoryManager.t) : bool :=
  match n with
  | O => true
  | S n' => negb (fst (AllocateFrame m) =? 0) && availableb n' (snd (AllocateFrame m))
  end.

Lemma availableb_spec n : forall m, availableb n m = true -> available n m.
Proof.
  induction n as [|n IH]; intros m; cbn [availableb available]; [done|].
  intros Hb. apply andb_prop in Hb as [Hb1 Hb2]. split; [|by apply IH].
  intros Hz. by rewrite Hz in Hb1.
Qed.

Lemma Initialize_identity_witness :
  exists s', Initialize unmapped_pm = Some s' /\
    translate (tables s') (pml4_table_ s') 3735928559 = Some (3735928559, true, true).
Proof.
  destruct (Initialize_identity unmapped_pm) as (s' & Hs & _ & _ & Ht).
  - exact table_pool_inv.
  - exact table_pool_small.
  - apply availableb_spec. vm_compute. reflexivity.
  - exists s'. split; [exact Hs|]. apply (Ht 3735928559). lia.
Defined.

(** a hierarchy of its root table only *)
Definition root_pm : PM MemoryManager.t :=
  with_pml4 (clear_frame 4096 (with_pool unmapped_pm (snd (AllocateFrame table_pool)))) 4096.

Lemma root_pm_good : good root_pm.
Proof.
  pose proof (AllocateFrame_spec table_pool _ _ table_pool_inv (surjective_pairing _)) as HA.
  assert (Hf : fst (AllocateFrame table_pool) = 4096) by (vm_compute; reflexivity).
  destruct HA as [[Hz _]|(f & Hfe & Hfr & _ & _ & Hi & Hfree & Hm)]; [congruence|].
  apply (root_good unmapped_pm 1 (snd (AllocateFrame table_pool))); try done; try lia.
  intros g Hg. by apply table_pool_small, Hm.
Qed.

(** a page at 4 MiB, readable by user code *)
Lemma MapPage_maps_witness :
  translate (tables (MapPage 4194304 8192 1 5 root_pm)) 4096 4194400 = Some (8288, false, true).
Proof.
  destruct (MapPage_maps 5 4194304 8192 1 root_pm root_pm_good eq_refl ltac:(lia) ltac:(lia)
    eq_refl ltac:(lia) ltac:(lia) ltac:(lia)) as (_ & k & Hk & He & Ht).
  destruct He as [-> |He].
  - specialize (Ht 4194400 ltac:(lia)). exact Ht.
  - exfalso. assert (Hx : fst (AllocateFrame (pool (MapPage 4194304 8192 1 5 root_pm))) <> 0)
      by (vm_compute; discriminate). exact (Hx He).
Defined.
