(* ===== verification/PagingProc.v ===== *)
(** * The page tables of processes (kernel/paging.cpp)

    CreateProcessPageTable copies the tables of the first two gigabytes and shares
    the rest with the kernel: the copy translates as the kernel does, what is mapped
    in it below 2 GiB is seen in no other hierarchy, and FreeProcessPageTable gives
    its frames back. *)
From S2P Require Import Prelude Memory Paging PagingMap PagingBoot.

(** ** Hierarchies that look alike *)

(** the entries that the walk along [path] meets from [R] in [ts] and from [R'] in
    [ts'] are equal, or point to tables with equal rights *)
Definition seen_alike (ts : gmap Z (list Z)) (R : Z) (ts' : gmap Z (list Z)) (R' : Z) (path : list Z) : Prop :=
  forall q j c, (q ++ [j]) `prefix_of` path -> node ts R q = Some c ->
  exists c', node ts' R' q = Some c' /\
    (entry_at ts' c' j = entry_at ts c j
     \/ q ++ [j] <> path /\ child (entry_at ts c j) <> None /\ child (entry_at ts' c' j) <> None
        /\ read_write (entry_at ts' c' j) = read_write (entry_at ts c j)
        /\ user_supervisor (entry_at ts' c' j) = user_supervisor (entry_at ts c j)).

Lemma seen_alike_below ts R ts' R' i rest c c' :
  seen_alike ts R ts' R' (i :: rest) ->
  child (entry_at ts R i) = Some c -> child (entry_at ts' R' i) = Some c' ->
  seen_alike ts c ts' c' rest.
Proof.
  intros Ha Hc Hc' q j d Hpre Hd. destruct (Ha (i :: q) j d) as (d' & Hd' & He).
  - cbn. by apply prefix_cons.
  - cbn [node]. by rewrite Hc.
  - exists d'. cbn [node] in Hd'. rewrite Hc' in Hd'. split; [done|].
    destruct He as [He|(Hne & He)]; [by left|]. right. split; [|done]. cbn in Hne. congruence.
Qed.

Lemma walk_alike ts ts' path : forall R R', seen_alike ts R ts' R' path -> walk ts' R' path = walk ts R path.
Proof.
  induction path as [|i rest IH]; intros R R' Ha; cbn [walk]; [done|].
  destruct (Ha [] i R) as (c' & [= <-] & He); [by exists rest|done|].
  assert (Hb : forall c d, child (entry_at ts R i) = Some c -> child (entry_at ts' R' i) = Some d ->
    walk ts' d rest = walk ts c rest).
  { intros c d Hc Hd. by apply IH, (seen_alike_below ts R ts' R' i). }
  destruct He as [He|(Hne & Hc & Hc' & -> & ->)].
  - rewrite He in *. destruct (present (entry_at ts R i)) eqn:Hp; cbn [negb]; [|done].
    destruct rest as [|k rest]; [done|]. destruct (huge_page (entry_at ts R i)) eqn:Hh; [done|].
    by rewrite (Hb (GetAddress (entry_at ts R i)) (GetAddress (entry_at ts R i))) by (by apply child_Some).
  - destruct (child (entry_at ts R i)) as [c|] eqn:Hcc; [|done].
    destruct (child (entry_at ts' R' i)) as [d|] eqn:Hdd; [|done].
    specialize (Hb c d eq_refl eq_refl).
    apply child_Some in Hcc as (-> & -> & ->). apply child_Some in Hdd as (-> & -> & ->). cbn [negb].
    destruct rest as [|k rest]; [done|]. by rewrite Hb.
Qed.

Section Process.
Context {M : Type} `{FramePoolLaws M}.
Implicit Types (s : PM M) (m : M).

(** ** One table of a hierarchy replaced by a copy *)

(** the hierarchy of [R'] is that of [R] with the table at [p] replaced by the copy [r] *)
Record recopied m ts R m' ts' R' (p : list Z) (f : Z) : Prop := {
  rc_frame : 0 < f < 2 ^ 40 /\ frame_managed m f /\ frame_free m f = true;
  rc_pool : pool_inv m' /\ (forall g, frame_managed m' g <-> frame_managed m g)
    /\ (forall g, frame_free m' g = frame_free m g && negb (g =? f));
  rc_node q : path_ok q -> (length q <= 3)%nat ->
    node ts' R' q = if decide (q = p) then Some (4096 * f) else node ts R q;
  rc_copy c : node ts R p = Some c -> forall j, entry_at ts' (4096 * f) j = entry_at ts c j;
  rc_was : node ts R p <> None;
  rc_entry q c j : path_ok q -> (length q <= 3)%nat -> q <> p -> node ts R q = Some c ->
    entry_at ts' c j = entry_at ts c j
    \/ q ++ [j] = p /\ child (entry_at ts c j) <> None /\ child (entry_at ts' c j) <> None
       /\ read_write (entry_at ts' c j) = read_write (entry_at ts c j)
       /\ user_supervisor (entry_at ts' c j) = user_supervisor (entry_at ts c j);
  rc_length c : zlen (table_at ts' c) = if decide (c = 4096 * f) then 512 else zlen (table_at ts c) }.

Lemma fresh_table m ts R f q c :
  wf m ts R -> frame_free m f = true -> path_ok q -> (length q <= 3)%nat -> node ts R q = Some c -> c <> 4096 * f.
Proof.
  intros Hw Hf Hq Hl Hc ->. destruct (wf_node _ _ _ Hw q _ Hq Hl Hc) as (g & Hg & _ & _ & Hgn & _).
  assert (g = f) as -> by lia. congruence.
Qed.

Lemma recopied_wf m ts R m' ts' R' p f :
  wf m ts R -> path_ok p -> (length p <= 2)%nat -> recopied m ts R m' ts' R' p f -> wf m' ts' R'.
Proof.
  intros Hw Hp Hl [(Hf & Hm & Hfr) (Hi' & Hm' & Hfr') Hn Hc Hwas He Hz]. split.
  - intros q1 q2 c H1 H2 L1 L2. rewrite !Hn by done.
    destruct (decide (q1 = p)) as [->|], (decide (q2 = p)) as [->|]; try done.
    + intros [= <-] Hx. by destruct (fresh_table _ _ _ f q2 _ Hw Hfr H2 L2 Hx).
    + intros Hx [= <-]. by destruct (fresh_table _ _ _ f q1 _ Hw Hfr H1 L1 Hx).
    + by apply (wf_inj _ _ _ Hw).
  - intros q c Hq Hlq. rewrite Hn by done. destruct (decide (q = p)) as [->|].
    + intros [= <-]. exists f. rewrite Hm', Hfr', Z.eqb_refl, andb_false_r, Hz, decide_True by done. done.
    + intros Hx. destruct (wf_node _ _ _ Hw q c Hq Hlq Hx) as (g & -> & Hg & Hgm & Hgf & Hgz). exists g.
      rewrite Hm', Hfr', Hgf, Hz, decide_False by (by apply (fresh_table _ _ _ f q _ Hw Hfr)). done.
  - intros q c j Hq Hlq. rewrite Hn by (done || lia). intros Hx Hj.
    destruct (decide (q = p)) as [->|Hne].
    + destruct (node ts R p) as [c0|] eqn:Hc0; [|done]. injection Hx as <-.
      rewrite (Hc c0 eq_refl j). by apply (wf_upper _ _ _ Hw p).
    + destruct (He q c j Hq ltac:(lia) Hne Hx) as [->|(_ & Hch & Hch' & Hrw & _)]; [by apply (wf_upper _ _ _ Hw q)|].
      destruct (wf_upper _ _ _ Hw q c j Hq Hlq Hx Hj) as [Hold _].
      destruct (child (entry_at ts c j)) as [d|] eqn:Hd; [|done]. apply child_Some in Hd as (Hd & _ & _).
      destruct (child (entry_at ts' c j)) as [d'|] eqn:Hd'; [|done]. apply child_Some in Hd' as (_ & Hh & _).
      split; [intros _; rewrite Hrw; auto|by rewrite Hh].
Qed.

Lemma recopied_walk m ts R m' ts' R' p f path :
  recopied m ts R m' ts' R' p f -> (length p <= 2)%nat -> path_ok path -> length path = 4%nat ->
  walk ts' R' path = walk ts R path.
Proof.
  intros [_ _ Hn Hc _ He _] Hl Hpath Hlen. apply walk_alike. intros q j c Hpre Hx.
  destruct (prefix_snoc_ok q j path 3 Hpre Hpath ltac:(lia)) as [Hq Hlq].
  rewrite Hn by done. destruct (decide (q = p)) as [->|Hne].
  - exists (4096 * f). split; [done|]. left. by apply Hc.
  - exists c. split; [done|]. destruct (He q c j Hq Hlq Hne Hx) as [->|(Hqp & Hr)]; [by left|].
    right. split; [|done]. rewrite Hqp. intros ->. lia.
Qed.

(** ** CopyPageTable *)

(** what an operation that takes the frame [f] and writes to it and to the tables in [W]
    leaves alone *)
Record copied (W : Z -> Prop) f s s' : Prop := {
  cp_root : pml4_table_ s' = pml4_table_ s;
  cp_cr3 : cr3 s' = cr3 s;
  cp_pool : pool s' = snd (AllocateFrame (pool s));
  cp_frame : 0 < f < 2 ^ 40 /\ frame_managed (pool s) f /\ frame_free (pool s) f = true;
  cp_laws : pool_inv (pool s') /\ (forall g, frame_managed (pool s') g <-> frame_managed (pool s) g)
    /\ (forall g, frame_free (pool s') g = frame_free (pool s) g && negb (g =? f));
  cp_other c : c <> 4096 * f -> ~ W c -> table_at (tables s') c = table_at (tables s) c }.

Lemma CopyPageTable_spec src s :
  pool_inv (pool s) -> small_frames (pool s) -> fst (AllocateFrame (pool s)) <> 0 ->
  (forall f, frame_free (pool s) f = true -> src <> 4096 * f) ->
  let '(r, s') := CopyPageTable src s in
  exists f, r = 4096 * f /\ copied (fun _ => False) f s s'
    /\ zlen (table_at (tables s') r) = 512
    /\ forall j, 0 <= j < 512 -> entry_at (tables s') r j = entry_at (tables s) src j.
Proof.
  intros Hi Hsm Hav Hsrc. unfold CopyPageTable.
  pose proof (AllocateTable_cases s Hi Hsm) as HA.
  assert (Hpool : pool (snd (AllocateTable s)) = snd (AllocateFrame (pool s))).
  { unfold AllocateTable. destruct (AllocateFrame (pool s)) as [x m]. by destruct (x =? 0). }
  destruct (AllocateTable s) as [r s1]. cbn [snd] in Hpool.
  destruct HA as [(_ & _ & Hx)|(f & m' & -> & -> & Hf & Hm & Hfr & Hi' & Hm' & Hfr')]; [done|].
  rewrite (proj2 (Z.eqb_neq (4096 * f) 0)) by lia. specialize (Hsrc f Hfr). set (s1 := clear_frame _ _) in *.
  assert (Htab : forall c, table_at (tables s1) c = if decide (c = 4096 * f) then replicate 512 0 else table_at (tables s) c)
    by (intros c; apply table_at_insert).
  destruct (fill_with (4096 * f) (fun k s' => entry s' src k) (entry s src) s1 512) as (R1 & R2 & R3 & R4 & R5 & R6).
  - rewrite Htab, decide_True by done. unfold zlen. by rewrite length_replicate.
  - done.
  - intros k s' Hs'. unfold entry, entry_at. rewrite Hs', Htab, decide_False by done. done.
  - exists f. split; [done|]. split; [|by split].
    assert (Hp : pool s1 = m') by done. split; rewrite ?R3, ?Hp; try done.
    intros c Hc _. by rewrite R4, Htab, decide_False.
Qed.

(** the frame [f] holds the copy [r] of the root [R] *)
Lemma copy_root R s f s' :
  wf (pool s) (tables s) R -> copied (fun _ => False) f s s' -> zlen (table_at (tables s') (4096 * f)) = 512 ->
  (forall j, 0 <= j < 512 -> entry_at (tables s') (4096 * f) j = entry_at (tables s) R j) ->
  recopied (pool s) (tables s) R (pool s') (tables s') (4096 * f) [] f.
Proof.
  intros Hw [_ _ _ Hf Hl Ho] Hz He. destruct (wf_node _ _ _ Hw [] R) as (g & _ & _ & _ & _ & HzR); [constructor|cbn; lia|done|].
  assert (He' : forall j, entry_at (tables s') (4096 * f) j = entry_at (tables s) R j).
  { intros j. destruct (decide (0 <= j < 512)); [by apply He|]. unfold entry_at. by rewrite !rd_outside by lia. }
  assert (Hsame : forall q c, path_ok q -> (length q <= 3)%nat -> node (tables s) R q = Some c ->
    table_at (tables s') c = table_at (tables s) c).
  { intros q c Hq Hlq Hc. apply Ho; [|tauto]. by apply (fresh_table _ _ _ f q _ Hw (proj2 (proj2 Hf)) Hq Hlq). }
  assert (Hn : forall q, path_ok q -> (length q <= 3)%nat -> q <> [] -> node (tables s') (4096 * f) q = node (tables s) R q).
  { intros [|i q] Hq Hlq Hne; [done|]. cbn [node]. rewrite He'.
    destruct (child (entry_at (tables s) R i)) as [c|] eqn:Hc; [|done]. apply node_frame.
    intros q' j d [k Hpre] Hd. unfold entry_at. rewrite (Hsame (i :: q') d); [done| | |cbn [node]; by rewrite Hc].
    - unfold path_ok in *. rewrite Hpre in Hq. rewrite Forall_cons, !Forall_app in Hq. apply Forall_cons. tauto.
    - rewrite Hpre in Hlq. cbn in *. rewrite !length_app in Hlq. cbn in Hlq. lia. }
  split; try done.
  - intros q Hq Hlq. destruct (decide (q = [])) as [->|Hne]; [done|by apply Hn].
  - intros c [= <-]. exact He'.
  - intros q c j Hq Hlq Hne Hc. left. unfold entry_at. by rewrite (Hsame q).
  - intros c. destruct (decide (c = 4096 * f)) as [->|]; [done|]. by rewrite Ho by tauto.
Qed.

(** the new entry: the frame changes, the flags stay *)
Lemma redirected f e c :
  0 < f < 2 ^ 40 -> child e = Some c ->
  child (SetAddress (4096 * f) e) = Some (4096 * f)
  /\ read_write (SetAddress (4096 * f) e) = read_write e
  /\ user_supervisor (SetAddress (4096 * f) e) = user_supervisor e.
Proof.
  intros Hf Hc. apply child_Some in Hc as (Hp & Hh & _). split; [|by split; flags].
  apply child_Some. rewrite GetAddress_SetAddress by (exists f; lia). split_and!; [by flags..|done].
Qed.

(** *** The table below the entry [i] of [t] copied, and the entry redirected to the copy *)

Section Redirect.
Context {R p t i c f : Z} {path : list Z} {s s1 : PM M}.
Local Abbreviation r := (4096 * f).
Local Abbreviation e := (entry_at (tables s) t i).
Local Abbreviation s2 := (set_entry t i (SetAddress r (entry s1 t i)) s1).
Context (Hw : wf (pool s) (tables s) R) (Hp : path_ok path) (Hl : (length path <= 1)%nat)
  (Hn : node (tables s) R path = Some t) (Hi : 0 <= i < 512) (Hc : child e = Some c)
  (Hcp : copied (fun _ => False) f s s1) (Hz : zlen (table_at (tables s1) r) = 512)
  (He : forall j, 0 <= j < 512 -> entry_at (tables s1) r j = entry_at (tables s) c j).

Lemma redirect_child : node (tables s) R (path ++ [i]) = Some c.
Proof. rewrite node_app, Hn. cbn [node]. by rewrite Hc. Qed.

Lemma redirect_fresh q d : path_ok q -> (length q <= 3)%nat -> node (tables s) R q = Some d -> d <> r.
Proof. destruct (cp_frame _ _ _ _ Hcp) as (_ & _ & Hf). by apply (fresh_table (pool s)). Qed.

Lemma redirect_copy j : entry_at (tables s1) r j = entry_at (tables s) c j.
Proof.
  destruct (decide (0 <= j < 512)); [by apply He|].
  destruct (wf_node _ _ _ Hw (path ++ [i]) c) as (g & _ & _ & _ & _ & Hzc);
    [by apply path_ok_snoc|rewrite length_app; cbn; lia|exact redirect_child|].
  unfold entry_at. by rewrite !rd_outside by lia.
Qed.

Lemma redirect_entry d j :
  entry_at (tables s2) d j
  = if bool_decide (d = t) && (j =? i) then SetAddress r e else entry_at (tables s1) d j.
Proof.
  assert (Ht : table_at (tables s1) t = table_at (tables s) t).
  { apply (cp_other _ _ _ _ Hcp); [|tauto]. apply (redirect_fresh path); [done|lia|done]. }
  destruct (wf_node _ _ _ Hw path t Hp ltac:(lia) Hn) as (g & _ & _ & _ & _ & Hzt).
  cbn [set_entry with_tables tables]. rewrite entry_at_set by (rewrite Ht; lia).
  unfold entry, entry_at at 1. by rewrite Ht.
Qed.

Lemma redirect_old q d j :
  path_ok q -> (length q <= 3)%nat -> node (tables s) R q = Some d -> d <> t \/ j <> i ->
  entry_at (tables s2) d j = entry_at (tables s) d j.
Proof.
  intros Hq Hlq Hd Hne. rewrite redirect_entry.
  assert (Hb : bool_decide (d = t) && (j =? i) = false).
  { destruct (decide (d = t)); [|by rewrite bool_decide_eq_false_2].
    destruct Hne; [done|]. rewrite (proj2 (Z.eqb_neq j i)) by done. apply andb_false_r. }
  rewrite Hb. unfold entry_at. rewrite (cp_other _ _ _ _ Hcp); [done| |tauto]. by apply (redirect_fresh q).
Qed.

Lemma redirect_new : child (entry_at (tables s2) t i) = Some r
  /\ read_write (entry_at (tables s2) t i) = read_write e
  /\ user_supervisor (entry_at (tables s2) t i) = user_supervisor e.
Proof.
  rewrite redirect_entry, bool_decide_eq_true_2, Z.eqb_refl by done. cbn [andb].
  apply (redirected f e c); [apply (cp_frame _ _ _ _ Hcp)|done].
Qed.

Lemma redirect_not_t : t <> r.
Proof. apply (redirect_fresh path); [done|lia|done]. Qed.

Lemma redirect_node q :
  path_ok q -> (length q <= 3)%nat ->
  node (tables s2) R q = if decide (q = path ++ [i]) then Some r else node (tables s) R q.
Proof.
  induction q as [|j q IH] using rev_ind; intros Hq Hlq.
  { rewrite decide_False; [done|]. intros Hx. by destruct path. }
  apply path_ok_snoc in Hq as [Hq Hj]. rewrite length_app in Hlq. cbn in Hlq.
  rewrite !node_app, IH by (done || lia). destruct (decide (q = path ++ [i])) as [->|Hqp].
  - rewrite decide_False, redirect_child.
    + cbn [node]. rewrite redirect_entry, bool_decide_eq_false_2, redirect_copy; [done|].
      intros Hx. by apply redirect_not_t.
    + intros Hx. apply (f_equal length) in Hx. rewrite !length_app in Hx. cbn in Hx. lia.
  - destruct (node (tables s) R q) as [d|] eqn:Hd.
    2: { rewrite decide_False; [done|]. intros Hx. apply app_inj_tail in Hx as [-> ->]. congruence. }
    cbn [node]. destruct (decide (d = t /\ j = i)) as [[-> ->]|Hne].
    + pose proof (wf_inj _ _ _ Hw q path t Hq Hp ltac:(lia) ltac:(lia) Hd Hn) as ->.
      by rewrite decide_True, (proj1 redirect_new).
    + rewrite decide_False.
      * rewrite (redirect_old q d j) by (done || lia || (destruct (decide (d = t)); [right|left]; tauto)). done.
      * intros Hx. apply app_inj_tail in Hx as [-> ->]. rewrite Hn in Hd. injection Hd as <-. by apply Hne.
Qed.

Lemma redirect_recopied : recopied (pool s) (tables s) R (pool s2) (tables s2) R (path ++ [i]) f.
Proof.
  pose proof redirect_child as Hch. split.
  - apply Hcp.
  - apply Hcp.
  - apply redirect_node.
  - intros d Hd j. rewrite redirect_entry, bool_decide_eq_false_2 by (intros Hx; by destruct redirect_not_t).
    cbn [andb]. rewrite redirect_copy. congruence.
  - by rewrite Hch.
  - intros q d j Hq Hlq Hne Hd. destruct (decide (d = t /\ j = i)) as [[-> ->]|Hdj].
    + right. pose proof (wf_inj _ _ _ Hw q path t Hq Hp Hlq ltac:(lia) Hd Hn) as ->. split; [done|].
      destruct redirect_new as (-> & -> & ->). by rewrite Hc.
    + left. apply (redirect_old q); try done. destruct (decide (d = t)); [right|left]; tauto.
  - intros d. cbn [set_entry with_tables tables]. rewrite zlen_set.
    destruct (decide (d = r)) as [->|Hd]; [done|]. by rewrite (cp_other _ _ _ _ Hcp) by tauto.
Qed.

(** tables other than the copy and the one that points to it stay *)
Lemma redirect_tables : copied (fun d => d = t) f s s2.
Proof.
  destruct Hcp as [? ? ? ? ? Ho]. split; try done. intros d Hd Ht.
  cbn [set_entry with_tables tables]. rewrite table_at_insert, decide_False by exact Ht. apply Ho; [done|by intros []].
Qed.
End Redirect.

(** ** A hierarchy none of whose tables is written *)

Definition untouched (ts ts' : gmap Z (list Z)) (R : Z) : Prop :=
  forall q c, path_ok q -> (length q <= 3)%nat -> node ts R q = Some c -> table_at ts' c = table_at ts c.

Lemma untouched_agree ts ts' R path :
  untouched ts ts' R -> path_ok path -> (length path <= 4)%nat -> agree ts ts' R path.
Proof.
  intros Hu Hp Hl q j c Hpre Hc. destruct (prefix_snoc_ok q j path 3 Hpre Hp Hl) as [Hq Hlq].
  unfold entry_at. by rewrite (Hu q c).
Qed.

Lemma untouched_node ts ts' R q :
  untouched ts ts' R -> path_ok q -> (length q <= 3)%nat -> node ts' R q = node ts R q.
Proof. intros. apply node_frame, untouched_agree; [done..|lia]. Qed.

Lemma untouched_walk ts ts' R q :
  untouched ts ts' R -> path_ok q -> length q = 4%nat -> walk ts' R q = walk ts R q.
Proof. intros. apply walk_frame, untouched_agree; [done..|lia]. Qed.

Lemma untouched_translate ts ts' R a : untouched ts ts' R -> translate ts' R a = translate ts R a.
Proof. intros Hu. unfold translate. destruct (indices_ok a). by rewrite (untouched_walk ts ts'). Qed.

Lemma untouched_wf m m' ts ts' R :
  untouched ts ts' R -> (forall g, frame_managed m' g <-> frame_managed m g) ->
  (forall g, frame_free m g = false -> (exists q, path_ok q /\ (length q <= 3)%nat /\ node ts R q = Some (4096 * g)) ->
    frame_free m' g = false) ->
  wf m ts R -> wf m' ts' R.
Proof.
  intros Hu Hm Hf Hw. split.
  - intros p q t Hp Hq Hlp Hlq. rewrite !(untouched_node ts ts') by done. by apply (wf_inj _ _ _ Hw).
  - intros q c Hq Hlq. rewrite (untouched_node ts ts') by done. intros Hc.
    destruct (wf_node _ _ _ Hw q c Hq Hlq Hc) as (g & -> & Hg & Hgm & Hgf & Hgz). exists g.
    rewrite Hm, (Hu q) by done. split_and!; try done; try lia. apply Hf; [done|]. by exists q.
  - intros q c j Hq Hlq. rewrite (untouched_node ts ts') by (done || lia). intros Hc Hj.
    unfold entry_at. rewrite (Hu q c) by (done || lia). by apply (wf_upper _ _ _ Hw q).
Qed.

(** ** The first two gigabytes *)

Definition low (q : list Z) : Prop :=
  match q with
  | [] => True
  | i :: rest => i = 0 /\ match rest with [] => True | j :: _ => 0 <= j < 2 end
  end.

(** the tables of [P] for the first two gigabytes are no tables of [Q] *)
Definition apart (ts : gmap Z (list Z)) (P Q : Z) : Prop :=
  forall p q t, low p -> path_ok p -> (length p <= 3)%nat -> path_ok q -> (length q <= 3)%nat ->
  node ts P p = Some t -> node ts Q q <> Some t.

(** the kernel's hierarchy: it has the directories of the first two gigabytes, which map
    large pages only *)
Record kernel_map s : Prop := {
  km_good : good s;
  km_directory i : 0 <= i < 2 -> exists pd, node (tables s) (pml4_table_ s) [0; i] = Some pd;
  km_large i j : 0 <= i < 2 -> 0 <= j < 512 -> node (tables s) (pml4_table_ s) [0; i; j] = None }.

(** ** CreateProcessPageTable *)

Lemma copy_directory_spec P pdp i pd s :
  pool_inv (pool s) -> small_frames (pool s) -> fst (AllocateFrame (pool s)) <> 0 ->
  wf (pool s) (tables s) P -> 0 <= i < 2 ->
  node (tables s) P [0] = Some pdp -> node (tables s) P [0; i] = Some pd ->
  exists f, recopied (pool s) (tables s) P (pool (copy_directory pdp i s)) (tables (copy_directory pdp i s)) P [0; i] f
    /\ copied (fun d => d = pdp) f s (copy_directory pdp i s).
Proof.
  intros Hpi Hsm Hav Hw Hi Hpdp Hpd. unfold copy_directory.
  assert (Hp1 : path_ok [0]) by indices_ok. assert (Hp2 : path_ok [0; i]) by indices_ok.
  assert (Hc : child (entry s pdp i) = Some pd).
  { change [0; i] with ([0] ++ [i]) in Hpd. rewrite node_app, Hpdp in Hpd. cbn [node] in Hpd. unfold entry.
    by destruct (child (entry_at (tables s) pdp i)). }
  pose proof (proj1 (child_Some _ _) Hc) as (Hpr & _ & Ha). rewrite Hpr, <- Ha.
  pose proof (CopyPageTable_spec pd s Hpi Hsm Hav) as HC.
  destruct (CopyPageTable pd s) as [r s1].
  destruct HC as (f & -> & Hcp & Hz & He).
  { intros g Hg. by apply (fresh_table _ _ _ g [0; i] pd Hw Hg Hp2 ltac:(cbn; lia)). }
  destruct (cp_frame _ _ _ _ Hcp) as (Hf & _).
  rewrite (proj2 (Z.eqb_neq (4096 * f) 0)) by lia. exists f.
  pose proof (redirect_recopied (i := i) Hw Hp1 ltac:(cbn; lia) Hpdp ltac:(lia) Hc Hcp Hz He) as Hr.
  pose proof (redirect_tables (t := pdp) (i := i) Hcp) as Ht. by split.
Qed.

(** the frames that hold copies, with the paths of the tables they are copies of *)
Fixpoint copy_at (l : list (list Z * Z)) (q : list Z) : option Z :=
  match l with
  | [] => None
  | (p, f) :: l => if decide (q = p) then Some (4096 * f) else copy_at l q
  end.

(** [P] in [s'] is the kernel's hierarchy of [s] with copies [l] of some of its tables *)
Record copy_of s P s' (l : list (list Z * Z)) : Prop := {
  co_root : pml4_table_ s' = pml4_table_ s;
  co_cr3 : cr3 s' = cr3 s;
  co_pool : pool_inv (pool s') /\ (forall g, frame_managed (pool s') g <-> frame_managed (pool s) g);
  co_free g : frame_free (pool s') g = frame_free (pool s) g && negb (existsb (Z.eqb g) (map snd l));
  co_frames f : In f (map snd l) -> 0 < f < 2 ^ 40 /\ frame_managed (pool s) f /\ frame_free (pool s) f = true;
  co_wf : wf (pool s') (tables s') P;
  co_node q : path_ok q -> (length q <= 3)%nat ->
    node (tables s') P q = match copy_at l q with Some r => Some r | None => node (tables s) (pml4_table_ s) q end;
  co_walk q : path_ok q -> length q = 4%nat -> walk (tables s') P q = walk (tables s) (pml4_table_ s) q;
  co_other c : ~ In c (map (fun x => 4096 * snd x) l) -> table_at (tables s') c = table_at (tables s) c }.

Lemma copy_of_start s f s' :
  good s -> copied (fun _ => False) f s s' ->
  recopied (pool s) (tables s) (pml4_table_ s) (pool s') (tables s') (4096 * f) [] f ->
  copy_of s (4096 * f) s' [([], f)].
Proof.
  intros Hg [Hr Hc3 _ Hf (Hi & Hm & Hfree) Ho] Hrc. assert (Hp0 : path_ok []) by constructor.
  split; try done.
  - intros g. by rewrite Hfree; cbn; rewrite orb_false_r.
  - intros g [<-|[]]. exact Hf.
  - apply (recopied_wf _ _ _ _ _ _ _ _ (g_wf _ Hg) Hp0 ltac:(cbn; lia) Hrc).
  - intros q Hq Hl. rewrite (rc_node _ _ _ _ _ _ _ _ Hrc) by done. cbn. by destruct (decide (q = [])).
  - intros q Hq Hl. by apply (recopied_walk _ _ _ _ _ _ _ _ q Hrc ltac:(cbn; lia)).
  - intros c Hn. apply Ho; [|by intros []]. intros ->. apply Hn. by left.
Qed.

Lemma copy_of_step s P s1 l W p f s2 :
  copy_of s P s1 l -> path_ok p -> (length p <= 2)%nat ->
  recopied (pool s1) (tables s1) P (pool s2) (tables s2) P p f -> copied W f s1 s2 ->
  (forall c, W c -> In c (map (fun x => 4096 * snd x) l)) ->
  copy_of s P s2 ((p, f) :: l).
Proof.
  intros [Hr Hc3 (Hi & Hm) Hfree Hfr Hw Hn Hwk Ho] Hp Hlp Hrc [Hr' Hc3' _ Hf (Hi' & Hm' & Hfree') Ho'] HW.
  split.
  - congruence.
  - congruence.
  - split; [done|]. intros g. by rewrite Hm'.
  - intros g. rewrite Hfree', Hfree. cbn [map snd existsb]. by destruct (frame_free (pool s) g), (existsb _ _), (g =? f).
  - cbn [map snd In]. intros g [<-|Hg]; [|by apply Hfr]. destruct Hf as (Hf1 & Hf2 & Hf3). rewrite Hm in Hf2.
    rewrite Hfree in Hf3. apply andb_prop in Hf3 as [Hf3 _]. done.
  - by apply (recopied_wf _ _ _ _ _ _ _ _ Hw Hp Hlp Hrc).
  - intros q Hq Hl. rewrite (rc_node _ _ _ _ _ _ _ _ Hrc) by done. cbn [copy_at].
    destruct (decide (q = p)); [done|]. by apply Hn.
  - intros q Hq Hl. rewrite (recopied_walk _ _ _ _ _ _ _ _ q Hrc) by done. by apply Hwk.
  - cbn [map snd In]. intros c Hc. rewrite Ho'; [|intros ->; tauto|intros HWc; apply HW in HWc; tauto].
    apply Ho. tauto.
Qed.

Definition process_copies (f1 f2 f3 f4 : Z) : list (list Z * Z) := [([0; 1], f4); ([0; 0], f3); ([0], f2); ([], f1)].

Lemma small_frames_same m m' :
  (forall g, frame_managed m' g <-> frame_managed m g) -> small_frames m -> small_frames m'.
Proof. intros Hm Hs g Hg. by apply Hs, Hm. Qed.

Lemma kernel_pdp s : kernel_map s -> exists pdp, node (tables s) (pml4_table_ s) [0] = Some pdp.
Proof.
  intros Hk. destruct (km_directory _ Hk 0 ltac:(lia)) as (pd & Hpd).
  change [0; 0] with ([0] ++ [0]) in Hpd. rewrite node_app in Hpd.
  destruct (node (tables s) (pml4_table_ s) [0]) as [pdp|]; [by exists pdp|done].
Qed.

Lemma copy_low_directory s P s1 l f2 i pd :
  copy_of s P s1 l -> small_frames (pool s) -> fst (AllocateFrame (pool s1)) <> 0 ->
  copy_at l [0] = Some (4096 * f2) -> copy_at l [0; i] = None -> In f2 (map snd l) ->
  0 <= i < 2 -> node (tables s) (pml4_table_ s) [0; i] = Some pd ->
  exists f, pool (copy_directory (4096 * f2) i s1) = snd (AllocateFrame (pool s1))
    /\ copy_of s P (copy_directory (4096 * f2) i s1) (([0; i], f) :: l).
Proof.
  intros Hc Hsm Hav Hl0 Hl1 Hin Hi Hpd. assert (Hp1 : path_ok [0]) by indices_ok. assert (Hp2 : path_ok [0; i]) by indices_ok.
  destruct (co_pool _ _ _ _ Hc) as [I1 M1]. pose proof (co_node _ _ _ _ Hc) as N1.
  destruct (copy_directory_spec P (4096 * f2) i pd s1) as (f & Hr & Ht); try done.
  - by apply (small_frames_same (pool s)).
  - apply Hc.
  - rewrite N1, Hl0 by (done || (cbn; lia)). done.
  - rewrite N1, Hl1 by (done || (cbn; lia)). done.
  - exists f. split; [apply Ht|].
    apply (copy_of_step s P s1 l (fun d => d = 4096 * f2) [0; i] f); try done.
    intros c ->. apply (in_map (fun x => 4096 * x)) in Hin. by rewrite map_map in Hin.
Qed.

Lemma CreateProcessPageTable_copies s :
  kernel_map s -> available 4 (pool s) ->
  let '(P, s') := CreateProcessPageTable s in
  exists f1 f2 f3 f4, P = 4096 * f1 /\ copy_of s P s' (process_copies f1 f2 f3 f4).
Proof.
  intros Hk (Hav1 & Hav2 & Hav3 & Hav4 & _). pose proof (km_good _ Hk) as Hg. pose proof (g_small _ Hg) as Hsm.
  destruct (km_directory _ Hk 0 ltac:(lia)) as (pd0 & Hpd0). destruct (km_directory _ Hk 1 ltac:(lia)) as (pd1 & Hpd1).
  assert (Hp0 : path_ok []) by constructor. assert (Hp1 : path_ok [0]) by indices_ok.
  assert (Hp20 : path_ok [0; 0]) by indices_ok. assert (Hp21 : path_ok [0; 1]) by indices_ok.
  unfold CreateProcessPageTable.
  (* the root *)
  pose proof (CopyPageTable_spec (pml4_table_ s) s (g_pool _ Hg) Hsm Hav1) as HC.
  destruct (CopyPageTable (pml4_table_ s) s) as [P s1].
  destruct HC as (f1 & -> & Hcp1 & Hz1 & He1).
  { intros g Hgf. by apply (fresh_table _ _ _ g [] _ (g_wf _ Hg) Hgf Hp0 ltac:(cbn; lia)). }
  assert (Hc1 : copy_of s (4096 * f1) s1 [([], f1)]).
  { apply copy_of_start; try done. apply copy_root; try done. apply Hg. }
  rewrite <- (cp_pool _ _ _ _ Hcp1) in Hav2, Hav3, Hav4. destruct (cp_frame _ _ _ _ Hcp1) as (Hf1 & _).
  rewrite (proj2 (Z.eqb_neq (4096 * f1) 0)) by lia.
  (* the page directory pointers *)
  destruct (kernel_pdp s Hk) as (pdp & Hpdp).
  destruct Hc1 as [R1 C1 (I1 & M1) F1 Fr1 W1 N1 Wk1 O1] eqn:Hc1e. clear Hc1e.
  assert (HN1 : node (tables s1) (4096 * f1) [0] = Some pdp) by (rewrite N1 by (done || (cbn; lia)); exact Hpdp).
  assert (Hch : child (entry_at (tables s1) (4096 * f1) 0) = Some pdp).
  { cbn [node] in HN1. by destruct (child (entry_at (tables s1) (4096 * f1) 0)). }
  pose proof (proj1 (child_Some _ _) Hch) as (Hpr & _ & Ha). unfold entry at 1 2. rewrite Hpr, <- Ha.
  pose proof (CopyPageTable_spec pdp s1 I1 (small_frames_same _ _ M1 Hsm) Hav2) as HC.
  destruct (CopyPageTable pdp s1) as [r2 s2].
  destruct HC as (f2 & -> & Hcp2 & Hz2 & He2).
  { intros g Hgf. by apply (fresh_table _ _ _ g [0] _ W1 Hgf Hp1 ltac:(cbn; lia)). }
  rewrite <- (cp_pool _ _ _ _ Hcp2) in Hav3, Hav4. destruct (cp_frame _ _ _ _ Hcp2) as (Hf2 & _).
  rewrite (proj2 (Z.eqb_neq (4096 * f2) 0)) by lia.
  assert (Hc2 : copy_of s (4096 * f1) (set_entry (4096 * f1) 0 (SetAddress (4096 * f2) (entry s2 (4096 * f1) 0)) s2) [([0], f2); ([], f1)]).
  { eapply (copy_of_step s _ s1 [([], f1)] (fun c => c = 4096 * f1) [0] f2).
    - by split.
    - done.
    - cbn. lia.
    - apply (redirect_recopied (path := []) W1 Hp0 (le_0_n _) eq_refl (conj (Z.le_refl 0) eq_refl) Hch Hcp2 Hz2 He2).
    - by apply redirect_tables.
    - intros c ->. by left. }
  change (pool s2) with (pool (set_entry (4096 * f1) 0 (SetAddress (4096 * f2) (entry s2 (4096 * f1) 0)) s2)) in Hav3, Hav4.
  set (s3 := set_entry (4096 * f1) 0 _ s2) in *. clearbody s3.
  destruct (copy_low_directory s (4096 * f1) s3 [([0], f2); ([], f1)] f2 0 pd0) as (f3 & Hp3 & Hc3);
    try done; [by left|].
  destruct (copy_low_directory s (4096 * f1) (copy_directory (4096 * f2) 0 s3) (([0; 0], f3) :: [([0], f2); ([], f1)]) f2 1 pd1)
    as (f4 & Hp4 & Hc4); try done; [by rewrite Hp3|by right; left|].
  by exists f1, f2, f3, f4.
Qed.

Lemma low_cases p :
  low p -> path_ok p -> (length p <= 3)%nat ->
  (p = [] \/ p = [0] \/ p = [0; 0] \/ p = [0; 1])
  \/ exists i j, 0 <= i < 2 /\ 0 <= j < 512 /\ p = [0; i; j].
Proof.
  unfold path_ok. destruct p as [|a [|b [|c [|]]]]; cbn [low length]; rewrite ?Forall_cons; intros Hl Hp Hlen.
  - auto.
  - destruct Hl as [-> _]. auto.
  - destruct Hl as [-> Hb]. left. assert (b = 0 \/ b = 1) as [-> | ->] by lia; auto.
  - destruct Hl as [-> Hb]. right. exists b, c. tauto.
  - lia.
Qed.

Lemma kernel_map_kept s s' :
  kernel_map s -> untouched (tables s) (tables s') (pml4_table_ s) -> pml4_table_ s' = pml4_table_ s ->
  pool_inv (pool s') -> (forall g, frame_managed (pool s') g <-> frame_managed (pool s) g) ->
  (forall g, frame_free (pool s) g = false -> frame_free (pool s') g = false) -> kernel_map s'.
Proof.
  intros [[Hi Hs Hw] Hd Hl] Hu Hr Hi' Hm Hf. split; [split| |]; rewrite ?Hr.
  - done.
  - by apply (small_frames_same (pool s)).
  - apply (untouched_wf (pool s) (pool s') (tables s)); auto.
  - intros i Hi2. rewrite (untouched_node (tables s)); [by apply Hd|done|indices_ok|cbn; lia].
  - intros i j Hi2 Hj. rewrite (untouched_node (tables s)); [by apply Hl|done|indices_ok|cbn; lia].
Qed.

Section Copies.
Context {s s' : PM M} {P f1 f2 f3 f4 : Z} (Hk : kernel_map s) (Hc : copy_of s P s' (process_copies f1 f2 f3 f4)).
Local Abbreviation R := (pml4_table_ s).
Local Abbreviation copies := (process_copies f1 f2 f3 f4).

Lemma copy_not_kernel q t r :
  path_ok q -> (length q <= 3)%nat -> node (tables s) R q = Some t -> In r (map (fun x => 4096 * snd x) copies) -> t <> r.
Proof.
  intros Hq Hl Ht Hin. rewrite <- (map_map snd) in Hin. apply in_map_iff in Hin as (f & <- & Hf).
  destruct (co_frames _ _ _ _ Hc f Hf) as (_ & _ & Hfree).
  by apply (fresh_table _ _ _ f q t (g_wf _ (km_good _ Hk)) Hfree).
Qed.

Lemma copies_untouched : untouched (tables s) (tables s') R.
Proof.
  intros q c Hq Hl Hn. apply (co_other _ _ _ _ Hc). intros Hin. by apply (copy_not_kernel q c c).
Qed.

Lemma copies_cases q r : copy_at copies q = Some r -> In r (map (fun x => 4096 * snd x) copies).
Proof. cbn. repeat case_decide; intros [= <-]; tauto. Qed.

Lemma copies_kernel_map : kernel_map s'.
Proof.
  apply (kernel_map_kept s); try done; [apply copies_untouched|apply Hc|apply Hc|apply Hc|].
  intros g Hg. by rewrite (co_free _ _ _ _ Hc), Hg.
Qed.

Lemma copies_good : good (with_pml4 s' P).
Proof.
  destruct (co_pool _ _ _ _ Hc) as [Hi' Hm]. split; [done| |apply Hc].
  apply (small_frames_same (pool s)); [done|]. apply (g_small _ (km_good _ Hk)).
Qed.

Lemma copies_apart : apart (tables s') P R /\ apart (tables s') R P.
Proof.
  assert (Hno : forall i j, 0 <= i < 2 -> copy_at copies [0; i; j] = None).
  { intros i j _. cbn. by repeat case_decide. }
  split; intros p q t Hlow Hp Hlp Hq Hlq; rewrite (co_node _ _ _ _ Hc), (untouched_node (tables s) (tables s') R) by (done || apply copies_untouched).
  - intros Ht Hx.
    assert (Hcp : copy_at copies p = Some t).
    { destruct (low_cases p Hlow Hp Hlp) as [Hcases|(i & j & Hi & Hj & ->)].
      - destruct Hcases as [-> | [-> | [-> | ->]]]; exact Ht.
      - rewrite Hno, (km_large _ Hk) in Ht by done. done. }
    apply copies_cases in Hcp. by apply (copy_not_kernel q t t).
  - intros Ht. destruct (copy_at copies q) as [r|] eqn:Hcq.
    + intros [= ->]. apply copies_cases in Hcq. by apply (copy_not_kernel p t t).
    + intros Hx. pose proof (wf_inj _ _ _ (g_wf _ (km_good _ Hk)) p q t Hp Hq Hlp Hlq Ht Hx) as <-.
      destruct (low_cases p Hlow Hp Hlp) as [Hcases|(i & j & Hi & Hj & ->)].
      * by destruct Hcases as [-> | [-> | [-> | ->]]].
      * by rewrite (km_large _ Hk) in Ht.
Qed.

Lemma copies_node : P = 4096 * f1 ->
  node (tables s') P [0] = Some (4096 * f2) /\ node (tables s') P [0; 0] = Some (4096 * f3)
  /\ node (tables s') P [0; 1] = Some (4096 * f4).
Proof. intros _. split_and!; rewrite (co_node _ _ _ _ Hc) by (indices_ok || (cbn; lia)); done. Qed.

Lemma copies_translate a : translate (tables s') P a = translate (tables s) R a.
Proof. unfold translate. destruct (indices_ok a). by rewrite (co_walk _ _ _ _ Hc). Qed.
End Copies.

(** ** FreeProcessPageTable *)

(** [s'] is [s] with the frames [l] given back and nothing else written than the tables [W] *)
Record released (W : Z -> Prop) (l : list Z) s s' : Prop := {
  rl_root : pml4_table_ s' = pml4_table_ s;
  rl_cr3 : cr3 s' = cr3 s;
  rl_pool : pool_inv (pool s') /\ (forall g, frame_managed (pool s') g <-> frame_managed (pool s) g);
  rl_free g : frame_free (pool s') g = frame_free (pool s) g || existsb (Z.eqb g) l;
  rl_other c : ~ W c -> table_at (tables s') c = table_at (tables s) c }.

Lemma release_frame W l f s s' :
  released W l s s' -> frame_managed (pool s) f ->
  released W (f :: l) s (with_pool s' (FreeFrame (4096 * f) (pool s'))).
Proof.
  intros [Hr Hc (Hi & Hm) Hf Ho] Hmf. destruct (FreeFrame_spec (pool s') f Hi) as (Hi' & Hf' & Hm'); [by apply Hm|].
  split; try done; cbn [with_pool pool].
  - split; [done|]. intros g. by rewrite Hm'.
  - intros g. rewrite Hf', Hf. cbn [existsb]. by destruct (frame_free (pool s) g), (existsb _ l), (g =? f).
Qed.

(** the page directory at the entry [i] of [pdp] goes back *)
Lemma free_directory_spec W l pdp i f s s' :
  released W l s s' -> frame_managed (pool s) f -> W pdp ->
  child (entry s' pdp i) = Some (4096 * f) ->
  released W (f :: l) s (free_directory pdp i s').
Proof.
  intros Hr Hm HW Hch. apply child_Some in Hch as (Hpr & _ & Ha). unfold free_directory. rewrite Hpr, <- Ha.
  destruct (release_frame W l f s s' Hr Hm) as [H1 H2 H3 H4 H5]. split; try done.
  intros c Hc. cbn [set_entry with_tables tables]. rewrite table_at_insert, decide_False; [by apply H5|congruence].
Qed.

Lemma FreeProcessPageTable_spec P f1 f2 f3 f4 s :
  pool_inv (pool s) -> P = 4096 * f1 -> P <> pml4_table_ s -> wf (pool s) (tables s) P ->
  node (tables s) P [0] = Some (4096 * f2) -> node (tables s) P [0; 0] = Some (4096 * f3) ->
  node (tables s) P [0; 1] = Some (4096 * f4) ->
  released (fun c => c = 4096 * f2) [f1; f2; f4; f3] s (FreeProcessPageTable P s).
Proof.
  intros Hi -> Hne Hw N1 N2 N3.
  assert (Hman : forall q f, path_ok q -> (length q <= 3)%nat -> node (tables s) (4096 * f1) q = Some (4096 * f) ->
    0 < f /\ frame_managed (pool s) f /\ zlen (table_at (tables s) (4096 * f)) = 512).
  { intros q f Hq Hl Hn. destruct (wf_node _ _ _ Hw q _ Hq Hl Hn) as (g & Hg & Hgr & Hgm & _ & Hz).
    assert (g = f) as -> by lia. split_and!; [lia|done..]. }
  destruct (Hman [] f1) as (Hf1 & M1 & _); [constructor|cbn; lia|done|].
  destruct (Hman [0] f2) as (_ & M2 & Z2); [indices_ok|cbn; lia|done|].
  destruct (Hman [0; 0] f3) as (_ & M3 & _); [indices_ok|cbn; lia|done|].
  destruct (Hman [0; 1] f4) as (_ & M4 & _); [indices_ok|cbn; lia|done|].
  cbn [node] in N1, N2, N3. unfold FreeProcessPageTable.
  rewrite (proj2 (Z.eqb_neq _ _) Hne), (proj2 (Z.eqb_neq (4096 * f1) 0)) by lia.
  destruct (child (entry_at (tables s) (4096 * f1) 0)) as [c|] eqn:Hch; [|done]. injection N1 as ->.
  apply child_Some in Hch as (Hpr & _ & Ha).
  change (entry_at (tables s) (4096 * f1) 0) with (entry s (4096 * f1) 0) in Hpr, Ha. rewrite Hpr, <- Ha.
  destruct (child (entry_at (tables s) (4096 * f2) 0)) as [c|] eqn:Hc0; [|done]. injection N2 as ->.
  destruct (child (entry_at (tables s) (4096 * f2) 1)) as [c|] eqn:Hc1; [|done]. injection N3 as ->.
  apply release_frame; [|done]. apply release_frame; [|done].
  apply free_directory_spec; try done.
  - apply free_directory_spec; try done. split; try done. intros g. by rewrite orb_false_r.
  - unfold free_directory, entry. rewrite (proj1 (proj1 (child_Some _ _) Hc0)).
    cbn [set_entry with_tables with_pool tables]. rewrite entry_at_set by lia. by rewrite andb_false_r.
Qed.

(** a new process: its tables, those of the kernel, and neither's low tables in the other *)
Lemma CreateProcessPageTable_apart s :
  kernel_map s -> available 4 (pool s) ->
  let '(P, s') := CreateProcessPageTable s in
  good (with_pml4 s' P) /\ kernel_map s' /\ pml4_table_ s' = pml4_table_ s /\ cr3 s' = cr3 s
  /\ apart (tables s') P (pml4_table_ s) /\ apart (tables s') (pml4_table_ s) P
  /\ forall a, translate (tables s') P a = translate (tables s) (pml4_table_ s) a.
Proof.
  intros Hk Hav. pose proof (CreateProcessPageTable_copies s Hk Hav) as HC.
  destruct (CreateProcessPageTable s) as [P s']. destruct HC as (f1 & f2 & f3 & f4 & HP & Hc).
  split; [apply (copies_good Hk Hc)|]. split; [apply (copies_kernel_map Hk Hc)|].
  split; [apply Hc|]. split; [apply Hc|]. destruct (copies_apart Hk Hc) as [H1 H2].
  split; [done|]. split; [done|]. apply (copies_translate Hc).
Qed.

(** ** What mapping below 2 GiB writes to *)

Definition fresh m (c : Z) : Prop := exists f, c = 4096 * f /\ frame_free m f = true.

(** the tables of the hierarchy of [s] for the first two gigabytes *)
Definition lows s (c : Z) : Prop :=
  exists q, low q /\ path_ok q /\ (length q <= 3)%nat /\ node (tables s) (pml4_table_ s) q = Some c.

Record grows s s' : Prop := {
  gr_root : pml4_table_ s' = pml4_table_ s;
  gr_tables c : ~ lows s c -> ~ fresh (pool s) c -> table_at (tables s') c = table_at (tables s) c;
  gr_lows c : lows s' c -> lows s c \/ fresh (pool s) c;
  gr_free f : frame_free (pool s') f = true -> frame_free (pool s) f = true;
  gr_managed f : frame_managed (pool s') f <-> frame_managed (pool s) f }.

#[export] Instance grows_preorder : PreOrder grows.
Proof.
  split.
  - intros s. split; try done. by left.
  - intros s1 s2 s3 [R T L F G] [R' T' L' F' G'].
    assert (Hfr : forall c, fresh (pool s2) c -> fresh (pool s1) c) by (intros c (f & -> & Hf); exists f; auto).
    split.
    + congruence.
    + intros c Hl Hf. rewrite T', T; try done; [intros Hl2; apply L in Hl2; tauto|auto].
    + intros c Hc. apply L' in Hc as [Hc|Hc]; [by apply L|right; auto].
    + auto.
    + intros f. by rewrite G'.
Qed.

(** a change of the entry [i] of a low table that leaves the tables what they were *)
Lemma grows_entry s p t i e :
  good s -> path_ok p -> (length p <= 3)%nat -> low p -> node (tables s) (pml4_table_ s) p = Some t -> 0 <= i < 512 ->
  length p = 3%nat \/ child e = child (entry s t i) -> grows s (set_entry t i e s).
Proof.
  intros Hg Hp Hl Hlow Hn Hi Hch. assert (Hsp : spot (pool s) (tables s) (pml4_table_ s) p t i) by (split; try done; apply (g_wf _ Hg)).
  pose proof (set_same_elsewhere Hsp e) as Hsame.
  assert (Hhere : entry_at (tables (set_entry t i e s)) t i = e).
  { destruct (wf_node _ _ _ (g_wf _ Hg) p t Hp Hl Hn) as (f & _ & _ & _ & _ & Hz).
    cbn [set_entry with_tables tables]. rewrite entry_at_set by lia. by rewrite bool_decide_eq_true_2, Z.eqb_refl. }
  split; try done.
  - intros c Hc _. cbn [set_entry with_tables tables]. rewrite table_at_insert, decide_False; [done|].
    intros ->. apply Hc. by exists p.
  - intros c (q & Hq1 & Hq2 & Hq3 & Hq4). left. exists q. split_and!; try done. rewrite <- Hq4. symmetry.
    apply (same_child_node Hsp Hsame); try done. destruct Hch as [|Hch]; [by left|right].
    etrans; [|exact Hch]. f_equal. exact Hhere.
Qed.

(** a new table below the entry [i] of a low table *)
Lemma grows_attach s p t i f s1 e :
  good s -> path_ok p -> (length p <= 2)%nat -> low p -> node (tables s) (pml4_table_ s) p = Some t -> 0 <= i < 512 ->
  pml4_table_ s1 = pml4_table_ s -> frame_free (pool s) f = true ->
  (forall g, frame_managed (pool s1) g <-> frame_managed (pool s) g) ->
  (forall g, frame_free (pool s1) g = frame_free (pool s) g && negb (g =? f)) ->
  (forall c, c <> 4096 * f -> table_at (tables s1) c = table_at (tables s) c) ->
  child (entry s t i) = None -> child e = Some (4096 * f) ->
  length p = 2%nat \/ (forall j, entry_at (tables s1) (4096 * f) j = 0) ->
  grows s (set_entry t i e s1).
Proof.
  intros Hg Hp Hl Hlow Hn Hi Hr1 Hfr Hm Hfr' Htab Hc Hc' Hleaf.
  assert (Hsp : spot (pool s) (tables s) (pml4_table_ s) p t i) by (split; try done; [apply (g_wf _ Hg)|lia]).
  pose proof (attach_same s p t i Hg Hp Hn Hi f s1 e Hl Hfr Htab) as Hsame.
  pose proof (attach_here s p t i Hg Hp Hn Hi f s1 e Hl Hfr Htab) as Hhere.
  split; try done.
  - intros c Hcl Hcf. cbn [set_entry with_tables tables]. rewrite table_at_insert, decide_False.
    + apply Htab. intros ->. apply Hcf. by exists f.
    + intros ->. apply Hcl. exists p. split_and!; try done. lia.
  - intros c (q & Hq1 & Hq2 & Hq3 & Hq4). change (pml4_table_ (set_entry t i e s1)) with (pml4_table_ s1) in Hq4.
    rewrite Hr1, (new_child_node Hsp Hsame (4096 * f)) in Hq4; try done; [|by rewrite Hhere| |].
    + case_decide; [|left; by exists q]. injection Hq4 as <-. right. by exists f.
    + intros q' c' Hq' Hl' Hn'. by apply (fresh_table _ _ _ f q' c' (g_wf _ Hg)).
    + destruct Hleaf as [|Hz]; [by left|]. right. intros j.
      by rewrite (attach_new s p t i Hg Hp Hn Hi f s1 e Hl Hfr Htab), Hz.
  - intros g. cbn [set_entry with_tables pool]. rewrite Hfr'. by intros [? _]%andb_prop.
Qed.

(** a table from the pool, and nothing else *)
Lemma AllocateTable_fresh s :
  pool_inv (pool s) -> small_frames (pool s) ->
  let '(r, s1) := AllocateTable s in
  r = 0 /\ s1 = s
  \/ exists f, r = 4096 * f /\ 0 < f < 2 ^ 40 /\ frame_free (pool s) f = true
     /\ pml4_table_ s1 = pml4_table_ s /\ (forall g, frame_managed (pool s1) g <-> frame_managed (pool s) g)
     /\ (forall g, frame_free (pool s1) g = frame_free (pool s) g && negb (g =? f))
     /\ (forall c, c <> r -> table_at (tables s1) c = table_at (tables s) c)
     /\ (forall j, entry_at (tables s1) r j = 0) /\ zlen (table_at (tables s1) r) = 512.
Proof.
  intros Hi Hs. pose proof (AllocateTable_cases s Hi Hs) as HA. destruct (AllocateTable s) as [r s1].
  destruct HA as [(-> & -> & _)|(f & m' & -> & -> & Hf & Hm & Hfr & Hi' & Hm' & Hfr')]; [by left|right].
  assert (Htab : forall c, table_at (tables (clear_frame (4096 * f) (with_pool s m'))) c
    = if decide (c = 4096 * f) then replicate 512 0 else table_at (tables s) c) by (intros c; apply table_at_insert).
  exists f. split_and!; try done; try lia.
  - intros c Hc. by rewrite Htab, decide_False.
  - intros j. unfold entry_at. rewrite Htab, decide_True by done. apply rd_zeros.
  - rewrite Htab, decide_True by done. unfold zlen. by rewrite length_replicate.
Qed.

Lemma EnsureEntry_grows flags s p t i :
  good s -> path_ok p -> (length p <= 2)%nat -> low p -> node (tables s) (pml4_table_ s) p = Some t -> 0 <= i < 512 ->
  huge_page (entry s t i) = false -> grows s (snd (EnsureEntry flags t i s)).
Proof.
  intros Hg Hp Hl Hlow Hn Hi Hh. unfold EnsureEntry. destruct (present (entry s t i)) eqn:Hpr; cbn [negb].
  - destruct (has flags kUser); cbn [snd]; [|done].
    apply (grows_entry s p); try done; [lia|]. right. unfold child.
    assert (Hf : present (set_bit 2 true (entry s t i)) = present (entry s t i)
      /\ huge_page (set_bit 2 true (entry s t i)) = huge_page (entry s t i)) by (split; by flags).
    destruct Hf as [-> ->]. by rewrite GetAddress_set_bit by lia.
  - pose proof (AllocateTable_fresh s (g_pool _ Hg) (g_small _ Hg)) as HA. destruct (AllocateTable s) as [r s1].
    destruct HA as [[-> ->]|(f & -> & Hf & Hfr & Hr1 & Hm & Hfree & Htab & Hz & _)]; cbn [snd Z.eqb]; [done|].
    rewrite (proj2 (Z.eqb_neq (4096 * f) 0)) by lia. cbn [snd].
    assert (Hte : entry s1 t i = entry s t i).
    { unfold entry, entry_at. rewrite Htab; [done|]. by apply (fresh_table _ _ _ f p t (g_wf _ Hg)); [..|lia|]. }
    rewrite Hte. apply (grows_attach s p t i f s1); try done.
    + unfold child. by rewrite Hpr.
    + apply (linked_entry (4096 * f) (entry s t i)); [exists f; lia|done].
    + by right.
Qed.

Lemma SplitHuge_grows flags s p t i :
  good s -> path_ok p -> length p = 2%nat -> low p -> node (tables s) (pml4_table_ s) p = Some t -> 0 <= i < 512 ->
  grows s (snd (SplitHuge flags t i s)).
Proof.
  intros Hg Hp Hl Hlow Hn Hi. unfold SplitHuge.
  destruct (present (entry s t i) && huge_page (entry s t i)) eqn:Hph; cbn [snd]; [|done].
  pose proof (AllocateTable_fresh s (g_pool _ Hg) (g_small _ Hg)) as HA. destruct (AllocateTable s) as [r s1].
  destruct HA as [[-> ->]|(f & -> & Hf & Hfr & Hr1 & Hm & Hfree & Htab & _ & Hz)]; cbn [snd Z.eqb]; [done|].
  rewrite (proj2 (Z.eqb_neq (4096 * f) 0)) by lia. cbn [snd].
  destruct (fill_spec (4096 * f) (split_entry (entry s1 t i)) s1 512 Hz (le_n _)) as (R1 & R2 & R3 & R4 & _ & _).
  set (s2 := for_loop 512 0 _ s1) in *. clearbody s2.
  apply (grows_attach s p t i f s2); try done; try lia.
  - intros g. rewrite R3. apply Hm.
  - intros g. rewrite R3. apply Hfree.
  - intros c Hc. by rewrite R4, Htab.
  - apply andb_prop in Hph as [Hpr Hh]. unfold child. by rewrite Hpr, Hh.
  - destruct (split_link (has flags kUser) (4096 * f) (entry s1 t i)) as [Hc' _]; [exists f; lia|exact Hc'].
Qed.

Lemma low_prefix i4 i3 : i4 = 0 -> 0 <= i3 < 2 -> low [] /\ low [i4] /\ low [i4; i3] /\ forall i2, low [i4; i3; i2].
Proof. intros -> Hi. cbn. tauto. Qed.

(** mapping one page below 2 GiB *)
Lemma map_one_grows v pa flags s :
  good s -> page_address pa -> index 4 v = 0 -> 0 <= index 3 v < 2 -> grows s (snd (map_one v pa flags s)).
Proof.
  intros Hg Hpa Hv4 Hv3. unfold map_one.
  set (i4 := index 4 v) in *. set (i3 := index 3 v) in *. set (i2 := index 2 v). set (i1 := index 1 v).
  assert (H4 : 0 <= i4 < 512) by apply index_range. assert (H3 : 0 <= i3 < 512) by apply index_range.
  assert (H2 : 0 <= i2 < 512) by apply index_range. assert (H1 : 0 <= i1 < 512) by apply index_range.
  destruct (low_prefix i4 i3 Hv4 Hv3) as (L0 & L1 & L2 & L3). clearbody i4 i3 i2 i1.
  assert (Hp0 : path_ok []) by constructor. assert (Hp1 : path_ok [i4]) by indices_ok.
  assert (Hp2 : path_ok [i4; i3]) by indices_ok. assert (Hp3 : path_ok [i4; i3; i2]) by indices_ok.
  (* PML4 *)
  pose proof (upper_not_huge s [] _ _ Hg Hp0 ltac:(cbn; lia) eq_refl H4) as Hh.
  pose proof (EnsureEntry_grows flags s [] _ i4 Hg Hp0 ltac:(cbn; lia) L0 eq_refl H4 Hh) as G1.
  pose proof (EnsureEntry_spec flags s [] _ i4 Hg Hp0 eq_refl H4 ltac:(by split) ltac:(cbn; lia) Hh) as HE.
  destruct (EnsureEntry flags (pml4_table_ s) i4 s) as [pdp s1]. cbn [snd] in G1.
  destruct HE as [(-> & _ & _)|(Hnz & Hx1 & Hn1 & Hr1)]; [done|].
  rewrite (proj2 (Z.eqb_neq pdp 0)) by done. cbn [app] in *.
  (* PDP *)
  pose proof (ex_good _ _ _ Hx1) as Hg1. rewrite <- (ex_root _ _ _ Hx1) in Hn1, Hr1.
  pose proof (upper_not_huge s1 [i4] _ _ Hg1 Hp1 ltac:(cbn; lia) Hn1 H3) as Hh1.
  pose proof (EnsureEntry_grows flags s1 [i4] _ i3 Hg1 Hp1 ltac:(cbn; lia) L1 Hn1 H3 Hh1) as G2.
  pose proof (EnsureEntry_spec flags s1 [i4] _ i3 Hg1 Hp1 Hn1 H3 Hr1 ltac:(cbn; lia) Hh1) as HE.
  destruct (EnsureEntry flags pdp i3 s1) as [pd s2]. cbn [snd] in G2. assert (G12 : grows s s2) by (by etrans).
  destruct HE as [(-> & _ & _)|(Hnz2 & Hx2 & Hn2 & Hr2)]; [done|].
  rewrite (proj2 (Z.eqb_neq pd 0)) by done. cbn [app] in *.
  (* PD, with the split *)
  pose proof (ex_good _ _ _ Hx2) as Hg2. rewrite <- (ex_root _ _ _ Hx2) in Hn2, Hr2.
  pose proof (SplitHuge_grows flags s2 [i4; i3] pd i2 Hg2 Hp2 eq_refl L2 Hn2 H2) as G3.
  pose proof (SplitHuge_spec flags s2 [i4; i3] pd i2 Hg2 Hp2 Hn2 H2 Hr2 eq_refl) as HS.
  destruct (SplitHuge flags pd i2 s2) as [ok s3]. cbn [snd] in G3. assert (G13 : grows s s3) by (by etrans).
  destruct HS as [(-> & _ & _)|(-> & Hx3 & Hn3 & Hr3 & Hh3)]; [done|]. cbn [negb].
  pose proof (ex_good _ _ _ Hx3) as Hg3. rewrite <- (ex_root _ _ _ Hx3) in Hn3, Hr3.
  pose proof (EnsureEntry_grows flags s3 [i4; i3] pd i2 Hg3 Hp2 ltac:(cbn; lia) L2 Hn3 H2 Hh3) as G4.
  pose proof (EnsureEntry_spec flags s3 [i4; i3] pd i2 Hg3 Hp2 Hn3 H2 Hr3 ltac:(cbn; lia) Hh3) as HE.
  destruct (EnsureEntry flags pd i2 s3) as [pt s4]. cbn [snd] in G4. assert (G14 : grows s s4) by (by etrans).
  destruct HE as [(-> & _ & _)|(Hnz4 & Hx4 & Hn4 & Hr4)]; [done|].
  rewrite (proj2 (Z.eqb_neq pt 0)) by done. cbn [app snd] in *.
  (* PT *)
  pose proof (ex_good _ _ _ Hx4) as Hg4. rewrite <- (ex_root _ _ _ Hx4) in Hn4.
  set (e := set_bit 2 _ _).
  pose proof (grows_entry s4 [i4; i3; i2] pt i1 e Hg4 Hp3 ltac:(cbn; lia) (L3 i2) Hn4 H1 ltac:(by left)) as G5.
  etrans; [exact G14|]. destruct G5. by split.
Qed.

(** *** AllocateVirtual *)

Lemma low_index v : 0 <= v < 2 ^ 31 -> index 4 v = 0 /\ 0 <= index 3 v < 2.
Proof.
  intros Hv. rewrite !index_div by lia. cbn [Z.of_nat Pos.of_succ_nat Pos.succ Z.sub Z.add Z.mul Pos.mul Pos.add].
  change (2 ^ (12 + 9 * (4 - 1))) with 549755813888. change (2 ^ (12 + 9 * (3 - 1))) with 1073741824.
  change (2 ^ 31) with 2147483648 in Hv. zlia.
Qed.

(** a data frame from the pool *)
Lemma take_frame s frame m :
  good s -> AllocateFrame (pool s) = (frame, m) -> frame <> 0 ->
  let s1 := clear_frame frame (with_pool s m) in
  extends false s s1 /\ grows s s1
  /\ exists f, frame = 4096 * f /\ 0 < f < 2 ^ 40 /\ frame_free (pool s) f = true /\ frame_free (pool s1) f = false.
Proof.
  intros Hg HA Hne. destruct (AllocateFrame_spec _ _ _ (g_pool _ Hg) HA) as [[-> _]|(f & -> & Hf & Hm & Hfr & Hi' & Hfr' & Hm')]; [done|].
  pose proof (g_small _ Hg f Hm) as Hf40. cbn zeta. set (s1 := clear_frame _ _).
  assert (Hu : untouched (tables s) (tables s1) (pml4_table_ s)).
  { intros q c Hq Hl Hn. unfold s1. cbn. rewrite table_at_insert, decide_False; [done|].
    by apply (fresh_table _ _ _ f q c (g_wf _ Hg) Hfr). }
  split; [|split].
  - split; try done.
    + split; [done| |].
      * apply (small_frames_same (pool s)); [done|apply Hg].
      * apply (untouched_wf (pool s) m (tables s)); try done; [|apply Hg]. intros g Hgf _. by rewrite Hfr', Hgf.
    + intros q Hq Hl. by rewrite (untouched_walk _ _ _ q Hu).
  - split; try done.
    + intros c _ Hc. unfold s1. cbn. rewrite table_at_insert, decide_False; [done|]. intros ->. apply Hc. by exists f.
    + intros c (q & H1 & H2 & H3 & H4). left. exists q. split_and!; try done.
      by rewrite <- (untouched_node _ _ _ _ Hu).
    + intros g. unfold s1. cbn. rewrite Hfr'. by intros [? _]%andb_prop.
  - exists f. split_and!; try done; try lia. unfold s1. cbn. by rewrite Hfr', Z.eqb_refl, andb_false_r.
Qed.

Lemma MapPage_one v pa flags s :
  pml4_table_ s <> 0 -> 0 <= v < 2 ^ 64 -> 0 <= pa < 2 ^ 64 -> MapPage v pa 1 flags s = snd (map_one v pa flags s).
Proof.
  intros Hr Hv Hp. unfold MapPage. rewrite (proj2 (Z.eqb_neq _ 0)) by done.
  change (Z.to_nat 1) with 1%nat. cbn [map_loop]. rewrite !Z.mul_0_l, !Z.add_0_r, !u64_small by done.
  by destruct (map_one v pa flags s) as [[] s'].
Qed.

Lemma with_pool_same s : with_pool s (pool s) = s.
Proof. by destruct s. Qed.

Lemma alloc_loop_exhausted flags n i v s :
  good s -> exhausted (pool s) -> snd (alloc_loop n i v flags s) = s.
Proof.
  intros Hg He. destruct n as [|n]; cbn [alloc_loop]; [done|]. unfold exhausted in He.
  destruct (AllocateFrame (pool s)) as [frame m] eqn:HA. cbn [fst] in He. subst frame.
  destruct (AllocateFrame_spec _ _ _ (g_pool _ Hg) HA) as [[_ ->]|(f & Hf & ? & _)]; [|lia]. apply with_pool_same.
Qed.

(** the pages from [i] to [i + n] after [v] have frames of their own that were free *)
Definition pages_given (flags v i : Z) (n : nat) s s' : Prop :=
  exists fs, length fs = n /\ NoDup fs
    /\ Forall (fun f => frame_free (pool s) f = true /\ frame_free (pool s') f = false) fs
    /\ forall k f, fs !! k = Some f ->
         walk (tables s') (pml4_table_ s) (indices (v + 4096 * (i + Z.of_nat k))) = request flags (4096 * f).

Lemma pages_given_cons flags v i n s s1 s2 s' f :
  grows s s2 -> grows s1 s2 -> grows s2 s' -> frame_free (pool s) f = true -> frame_free (pool s1) f = false ->
  pages_given flags v (i + 1) n s2 s' ->
  walk (tables s') (pml4_table_ s) (indices (v + 4096 * i)) = request flags (4096 * f) ->
  pages_given flags v i (S n) s s'.
Proof.
  intros Gr Gr2 Gr' Hfr Hfr1 (fs & Hlen & Hnd & Hfs & Hwalk) Hfirst.
  assert (Hused : forall g, frame_free (pool s1) g = false -> frame_free (pool s') g = false).
  { intros g Hgf. destruct (frame_free (pool s') g) eqn:Hx; [|done].
    apply (gr_free _ _ Gr'), (gr_free _ _ Gr2) in Hx. congruence. }
  exists (f :: fs). split_and!.
  - cbn. by rewrite Hlen.
  - constructor; [|done]. intros Hin. rewrite Forall_forall in Hfs. apply Hfs in Hin as [Hin _].
    apply (gr_free _ _ Gr2) in Hin. congruence.
  - constructor; [by auto|]. eapply Forall_impl; [exact Hfs|]. intros g [Hg1 Hg2]. split; [by apply (gr_free _ _ Gr)|done].
  - intros [|k] g; cbn [lookup list_lookup].
    + intros [= <-]. by rewrite Z.add_0_r.
    + intros Hk. rewrite <- (gr_root _ _ Gr), <- (Hwalk k g Hk). do 2 f_equal. lia.
Qed.

Lemma alloc_loop_spec flags n : forall i v s,
  good s -> 0 <= i -> 0 <= v -> v + 4096 * (i + Z.of_nat n) <= 2 ^ 31 ->
  let '(ok, s') := alloc_loop n i v flags s in
  good s' /\ grows s s' /\ cr3 s' = cr3 s
  /\ (forall q, path_ok q -> length q = 4%nat ->
        (forall j, i <= j < i + Z.of_nat n -> q <> indices (v + 4096 * j)) ->
        keeps (has flags kUser) (walk (tables s) (pml4_table_ s) q) (walk (tables s') (pml4_table_ s) q))
  /\ (ok = true -> ~ exhausted (pool s') -> pages_given flags v i n s s').
Proof.
  induction n as [|n IH]; intros i v s Hg Hi Hv Hend; cbn [alloc_loop].
  { split_and!; try done. intros _ _. exists []. split_and!; try done; constructor. }
  destruct (AllocateFrame (pool s)) as [frame m] eqn:HA. destruct (Z.eqb_spec frame 0) as [->|Hne].
  { destruct (AllocateFrame_spec _ _ _ (g_pool _ Hg) HA) as [[_ ->]|(f & Hf & ? & _)]; [|lia].
    rewrite with_pool_same. by split_and!. }
  destruct (take_frame s frame m Hg HA Hne) as ([Gg1 R1 C1 W1] & Gr1 & f & -> & Hf & Hfr & Hfr1).
  set (s1 := clear_frame (4096 * f) (with_pool s m)) in *. clearbody s1.
  unfold kPageSize4K. rewrite u64_small by lia.
  assert (Hr0 : pml4_table_ s1 <> 0).
  { destruct (wf_node _ _ _ (g_wf _ Gg1) [] _ ltac:(constructor) ltac:(cbn; lia) eq_refl) as (g & -> & ? & _). lia. }
  assert (Hpage : page_address (4096 * f)) by (exists f; lia).
  rewrite MapPage_one by (done || lia).
  destruct (low_index (v + i * 4096) ltac:(lia)) as [Hx4 Hx3].
  pose proof (map_one_grows _ _ flags s1 Gg1 Hpage Hx4 Hx3) as Gr2.
  pose proof (map_one_spec (v + i * 4096) (4096 * f) flags s1 Gg1 Hpage) as HM.
  destruct (map_one (v + i * 4096) (4096 * f) flags s1) as [ok1 s2]. cbn [snd] in *.
  assert (Gr : grows s s2) by (by etrans).
  assert (Hstep : good s2 /\ cr3 s2 = cr3 s1 /\ forall q, path_ok q -> length q = 4%nat -> q <> indices (v + 4096 * i) ->
    keeps (has flags kUser) (walk (tables s) (pml4_table_ s) q) (walk (tables s2) (pml4_table_ s) q)).
  { destruct HM as [(_ & [G2 R2 C2 W2] & _)|(_ & [G2 R2 C2 _ W2])]; (split; [done|split; [done|]]); intros q Hq Hl Hqi;
      rewrite R1 in W2; (etrans; [eapply keeps_weaken, W1; done|]); apply W2; try done.
    by rewrite Z.mul_comm. }
  destruct Hstep as (Gg2 & C2 & W2).
  specialize (IH (i + 1) v s2 Gg2 ltac:(lia) Hv ltac:(lia)).
  pose proof (alloc_loop_exhausted flags n (i + 1) v s2 Gg2) as Hex.
  destruct (alloc_loop n (i + 1) v flags s2) as [ok s']. cbn [snd] in Hex.
  destruct IH as (Gg' & Gr' & C' & W' & Hgiven). rewrite (gr_root _ _ Gr) in W'.
  split; [done|]. split; [by etrans|]. split; [congruence|]. split.
  { intros q Hq Hl Hqi. etrans; [apply W2; try done; apply Hqi; lia|]. apply W'; try done. intros j Hj. apply Hqi. lia. }
  intros Hok Hne'. destruct HM as [(_ & _ & Hx)|(_ & HM)]; [by rewrite (Hex Hx) in Hne'|].
  apply (pages_given_cons flags v i n s s1 s2 s' f); [done|done|done|done|done|by apply Hgiven|].
  rewrite <- (gr_root _ _ Gr). apply (keeps_request flags). rewrite (Z.mul_comm i) in HM.
  rewrite <- (pm_this _ _ _ _ _ HM), R1, (gr_root _ _ Gr). apply W'; try apply indices_ok.
  intros j Hj Heq. apply indices_inj in Heq; [zlia|lia|lia].
Qed.

(** ** The life of a process's page tables *)


(** *** What a process maps is seen by nobody else *)

(** a hierarchy apart from the low tables of [s] outlives their growth *)
Lemma grows_apart s s' Q :
  grows s s' -> wf (pool s) (tables s) Q -> apart (tables s) (pml4_table_ s) Q ->
  untouched (tables s) (tables s') Q /\ wf (pool s') (tables s') Q /\ apart (tables s') (pml4_table_ s) Q.
Proof.
  intros [R T L F G] Hw Ha.
  assert (Hfr : forall q c, path_ok q -> (length q <= 3)%nat -> node (tables s) Q q = Some c -> ~ fresh (pool s) c).
  { intros q c Hq Hl Hn (f & -> & Hf). by apply (fresh_table _ _ _ f q _ Hw Hf Hq Hl Hn). }
  assert (Hlow : forall q c, path_ok q -> (length q <= 3)%nat -> node (tables s) Q q = Some c -> ~ lows s c).
  { intros q c Hq Hl Hn (p & H1 & H2 & H3 & H4). by apply (Ha p q c). }
  assert (Hu : untouched (tables s) (tables s') Q).
  { intros q c Hq Hl Hn. apply T; [by apply (Hlow q)|by apply (Hfr q)]. }
  split; [done|]. split.
  - apply (untouched_wf (pool s) (pool s') (tables s)); try done. intros g Hg _.
    destruct (frame_free (pool s') g) eqn:Hx; [|done]. apply F in Hx. congruence.
  - intros p q t H1 H2 H3 H4 H5 Hp. rewrite (untouched_node (tables s) (tables s') Q) by done. intros Hq.
    destruct (L t) as [Hl|Hf].
    + exists p. rewrite R. by split_and!.
    + by apply (Hlow q t).
    + by apply (Hfr q t).
Qed.

Lemma AllocateVirtual_spec v size flags s :
  good s -> v mod 4096 = 0 -> 0 <= v -> 0 <= size -> v + size <= 2 ^ 31 ->
  let n := Z.to_nat ((size + 4095) / 4096) in
  let '(ok, s') := AllocateVirtual v size flags s in
  good s' /\ grows s s' /\ cr3 s' = cr3 s
  /\ (forall q, path_ok q -> length q = 4%nat ->
        (forall j, 0 <= j < Z.of_nat n -> q <> indices (v + 4096 * j)) ->
        keeps (has flags kUser) (walk (tables s) (pml4_table_ s) q) (walk (tables s') (pml4_table_ s) q))
  /\ (ok = true -> ~ exhausted (pool s') -> pages_given flags v 0 n s s').
Proof.
  intros Hg Ha Hv Hs Hend. cbn zeta. unfold AllocateVirtual, kPageSize4K. rewrite Ha. cbn [Z.eqb negb].
  rewrite u64_small by lia. replace (size + 4096 - 1) with (size + 4095) by lia.
  apply alloc_loop_spec; try done. rewrite Z2Nat.id by zlia. zlia.
Qed.

Lemma AllocateVirtualForProcess_runs P v size flags s :
  P <> 0 -> cr3 s <> 0 ->
  let '(ok, s') := AllocateVirtualForProcess P v size flags s in
  exists s1 s2, (ok, s2) = AllocateVirtual v size flags s1
    /\ tables s1 = tables s /\ pool s1 = pool s /\ pml4_table_ s1 = P
    /\ tables s' = tables s2 /\ pool s' = pool s2 /\ pml4_table_ s' = pml4_table_ s
    /\ (cr3 s2 = cr3 s1 -> cr3 s' = cr3 s).
Proof.
  intros HP Hc. unfold AllocateVirtualForProcess, SwitchPageTable.
  destruct (Z.eqb_spec P (cr3 s)) as [He|He]; cbn [negb].
  - destruct (AllocateVirtual v size flags (with_pml4 s P)) as [ok s2] eqn:HA.
    exists (with_pml4 s P), s2. by split_and!.
  - rewrite (proj2 (Z.eqb_neq P 0) HP), (proj2 (Z.eqb_neq _ 0) Hc).
    destruct (AllocateVirtual v size flags (with_pml4 (LoadCR3 P s) P)) as [ok s2] eqn:HA.
    exists (with_pml4 (LoadCR3 P s) P), s2. by split_and!.
Qed.

(** C25: AllocateVirtualForProcess below 2 GiB gives the process frames that were free, one
    for each page and with the rights asked for, when it succeeds with frames to spare;
    the pages of the process outside the range, the processor's CR3 and every hierarchy
    that shares no low table with the process keep what they had. *)
Theorem AllocateVirtualForProcess_isolated P v size flags s :
  good (with_pml4 s P) -> cr3 s <> 0 -> has flags kPresent = true ->
  v mod 4096 = 0 -> 0 <= v -> 0 <= size -> v + size <= 2 ^ 31 ->
  let '(ok, s') := AllocateVirtualForProcess P v size flags s in
  good (with_pml4 s' P) /\ pml4_table_ s' = pml4_table_ s /\ cr3 s' = cr3 s
  /\ (forall Q, wf (pool s) (tables s) Q -> apart (tables s) P Q ->
        wf (pool s') (tables s') Q /\ apart (tables s') P Q
        /\ forall a, translate (tables s') Q a = translate (tables s) Q a)
  /\ (forall a, 0 <= a < 2 ^ 48 -> a < v \/ v + 4096 * ((size + 4095) / 4096) <= a ->
        keeps (has flags kUser) (translate (tables s) P a) (translate (tables s') P a))
  /\ (ok = true -> ~ exhausted (pool s') -> exists fs, NoDup fs
        /\ Forall (fun f => frame_free (pool s) f = true /\ frame_free (pool s') f = false) fs
        /\ forall a, v <= a < v + size -> exists f, fs !! Z.to_nat ((a - v) / 4096) = Some f
             /\ translate (tables s') P a = Some (4096 * f + a mod 4096, has flags kWritable, has flags kUser)).
Proof.
  intros Hg Hc Hpr Ha Hv Hs Hend.
  assert (HP : P <> 0).
  { destruct (wf_node _ _ _ (g_wf _ Hg) [] P ltac:(constructor) ltac:(cbn; lia) eq_refl) as (g & -> & ? & _). lia. }
  pose proof (AllocateVirtualForProcess_runs P v size flags s HP Hc) as HR.
  destruct (AllocateVirtualForProcess P v size flags s) as [ok s'].
  destruct HR as (s1 & s2 & HA & T1 & P1 & R1 & T2 & P2 & R2 & C2).
  assert (Hg1 : good s1) by (destruct Hg as [Gi Gs Gw]; split; rewrite ?P1, ?T1, ?R1; done).
  pose proof (AllocateVirtual_spec v size flags s1 Hg1 Ha Hv Hs Hend) as HS. rewrite <- HA in HS.
  cbn zeta in HS. destruct HS as (Gg & Gr & Gc & Gk & Gp).
  set (n := (size + 4095) / 4096) in *. assert (Hn : 0 <= n) by (unfold n; zlia).
  rewrite T1, R1, <- T2 in Gk. rewrite Z2Nat.id in Gk by done.
  split; [|split; [done|split; [by apply C2|split; [|split]]]].
  - destruct Gg as [Gi Gs Gw]. rewrite (gr_root _ _ Gr), R1 in Gw. split; cbn; rewrite ?P2, ?T2; done.
  - intros Q HQ Hap. rewrite <- P1, <- T1 in HQ. rewrite <- T1, <- R1 in Hap.
    destruct (grows_apart s1 s2 Q Gr HQ Hap) as (U & W & A). rewrite T1 in U. rewrite <- T2 in U, W, A. rewrite <- P2 in W.
    rewrite R1 in A. split_and!; try done. intros a. by apply untouched_translate.
  - intros a Har Hout. apply keeps_translate, Gk; try apply indices_ok.
    intros j Hj Heq. apply indices_inj in Heq; [zlia|lia|unfold n in *; zlia].
  - intros Hok Hex. rewrite P2 in Hex. destruct (Gp Hok Hex) as (fs & Hlen & Hnd & Hfs & Hw). exists fs.
    rewrite P1, <- P2 in Hfs. split; [done|]. split; [done|]. intros a Har.
    destruct (lookup_lt_is_Some_2 fs (Z.to_nat ((a - v) / 4096))) as [f Hf].
    { rewrite Hlen. apply Z2Nat.inj_lt; [zlia|done|unfold n; zlia]. }
    exists f. split; [done|]. specialize (Hw _ _ Hf). rewrite Z2Nat.id in Hw by zlia.
    rewrite R1, <- T2 in Hw. unfold translate.
    rewrite (indices_same a (v + 4096 * (0 + (a - v) / 4096))), Hw by zlia. unfold request. by rewrite Hpr.
Qed.

(** What ElfLoader maps for a new process, with AllocateVirtual after SwitchPageTable as
    the loader calls them, goes to the kernel's hierarchy: whatever AllocateVirtual
    returns, the process's own hierarchy, on which the processor runs, translates every
    address as before. *)
Theorem segments_not_in_process v size flags s :
  kernel_map s -> available 4 (pool s) -> v mod 4096 = 0 -> 0 <= v -> 0 <= size -> v + size <= 2 ^ 31 ->
  let '(P, s1) := CreateProcessPageTable s in
  let '(ok, s2) := AllocateVirtual v size flags (SwitchPageTable P s1) in
  cr3 s2 = P /\ forall a, translate (tables s2) P a = translate (tables s) (pml4_table_ s) a.
Proof.
  intros Hk Hav Ha Hv Hs Hend. pose proof (CreateProcessPageTable_apart s Hk Hav) as HC.
  destruct (CreateProcessPageTable s) as [P s1]. destruct HC as (HgP & Hk1 & HR & _ & _ & Hap & Ht).
  destruct (wf_node _ _ _ (g_wf _ HgP) [] P ltac:(constructor) ltac:(cbn; lia) eq_refl) as (g & Hg & Hgr & _).
  unfold SwitchPageTable. rewrite (proj2 (Z.eqb_neq P 0)) by lia.
  assert (Hg1 : good (LoadCR3 P s1)) by (destruct (km_good _ Hk1); by split).
  pose proof (AllocateVirtual_spec v size flags _ Hg1 Ha Hv Hs Hend) as HS. cbn zeta in HS.
  destruct (AllocateVirtual v size flags (LoadCR3 P s1)) as [ok s2]. destruct HS as (_ & Gr & Hc & _ & _).
  split; [by rewrite Hc|]. rewrite <- HR in Hap.
  destruct (grows_apart _ s2 P Gr (g_wf _ HgP) Hap) as (Hu & _). intros a.
  rewrite (untouched_translate _ _ _ a Hu). apply Ht.
Qed.

(** *** The kernel's map after the boot *)

Lemma booted_kernel_map extra root pdp s : booted extra root pdp 64 s -> kernel_map s /\ available extra (pool s).
Proof.
  intros [Hg <- _ _ _ _ Hd Hl Hav]. split; [|exact Hav]. split; [done| |].
  - intros i Hi. specialize (Hd i ltac:(lia)). destruct (node (tables s) (pml4_table_ s) [0; i]) as [pd|]; [by exists pd|done].
  - intros i j Hi Hj. apply Hl; [indices_ok|done].
Qed.
End Process.

(** ** Witnesses: the machine with 128 frames, after the boot *)

Lemma boot_128 : exists s, Initialize unmapped_pm = Some s /\ kernel_map s /\ available 8 (pool s) /\ cr3 s <> 0
  /\ forall a, 0 <= a < 64 * 2 ^ 30 -> translate (tables s) (pml4_table_ s) a = Some (a, true, true).
Proof.
  destruct (Initialize_booted 8 unmapped_pm) as (s & pdp & HI & Hb & Hc).
  - exact table_pool_inv.
  - exact table_pool_small.
  - apply availableb_spec. vm_compute. reflexivity.
  - destruct (booted_kernel_map _ _ _ _ Hb) as [Hk Hav]. exists s. split; [exact HI|]. split; [exact Hk|]. split; [exact Hav|].
    split.
    + rewrite Hc. destruct (wf_node _ _ _ (g_wf _ (km_good _ Hk)) [] _ ltac:(constructor) ltac:(cbn; lia) eq_refl) as (g & -> & ? & _). lia.
    + intros a Ha. unfold translate. destruct (indices_ok a) as [Hok Hl]. rewrite (b_walk _ _ _ _ _ Hb) by assumption.
      rewrite ident_translate by lia. by rewrite (proj2 (Z.ltb_lt a (64 * 2 ^ 30))) by lia.
Qed.

Lemma available_4 {M} `{FramePool M} (m : M) : available 8 m -> available 4 m.
Proof. cbn [available]. tauto. Qed.


(** a page of the process at 4 MiB: the kernel still has its own there *)
Lemma AllocateVirtualForProcess_isolated_witness :
  exists s, Initialize unmapped_pm = Some s /\
    let '(P, s1) := CreateProcessPageTable s in
    let '(ok, s2) := AllocateVirtualForProcess P 4194304 4096 7 s1 in
    cr3 s2 = cr3 s /\ translate (tables s2) (pml4_table_ s) 4194400 = Some (4194400, true, true).
Proof.
  destruct boot_128 as (s & HI & Hk & Hav & Hc & Ht). exists s. split; [exact HI|].
  pose proof (CreateProcessPageTable_apart s Hk (available_4 _ Hav)) as HC.
  pose proof (CreateProcessPageTable_copies s Hk (available_4 _ Hav)) as HC2.
  destruct (CreateProcessPageTable s) as [P s1]. destruct HC as (HgP & Hk1 & HR & HC3 & Hap & _ & _).
  destruct HC2 as (f1 & f2 & f3 & f4 & _ & Hcp).
  assert (Hc1 : cr3 s1 <> 0) by congruence.
  pose proof (AllocateVirtualForProcess_isolated P 4194304 4096 7 s1 HgP Hc1 eq_refl eq_refl
    ltac:(lia) ltac:(lia) ltac:(lia)) as HA.
  destruct (AllocateVirtualForProcess P 4194304 4096 7 s1) as [ok s2].
  destruct HA as (_ & _ & Hc2 & HQ & _). split; [congruence|].
  rewrite <- HR in Hap. destruct (HQ _ (g_wf _ (km_good _ Hk1)) Hap) as (_ & _ & Htr). rewrite <- HR.
  rewrite Htr, HR, (untouched_translate _ _ _ _ (copies_untouched Hk Hcp)). apply Ht. lia.
Defined.

(** a segment of one page at 4 MiB: the process goes on seeing the machine's memory there *)
Lemma segments_not_in_process_witness :
  exists s, Initialize unmapped_pm = Some s /\
    let '(P, s1) := CreateProcessPageTable s in
    let '(ok, s2) := AllocateVirtual 4194304 4096 7 (SwitchPageTable P s1) in
    cr3 s2 = P /\ translate (tables s2) P 4194400 = Some (4194400, true, true).
Proof.
  destruct boot_128 as (s & HI & Hk & Hav & Hc & Ht). exists s. split; [exact HI|].
  pose proof (segments_not_in_process 4194304 4096 7 s Hk (available_4 _ Hav) eq_refl
    ltac:(lia) ltac:(lia) ltac:(lia)) as HS.
  destruct (CreateProcessPageTable s) as [P s1].
  destruct (AllocateVirtual 4194304 4096 7 (SwitchPageTable P s1)) as [ok s2].
  destruct HS as [H1 H2]. split; [exact H1|]. rewrite H2. apply Ht. lia.
Defined.
