(* ===== verification/Crc32.v ===== *)
(** * The CRC-32 of the partition tables (fs/gpt.cpp)

    [CalculateCRC32] works bit by bit.  It is shown equal to the CRC-32 of IEEE 802.3,
    stated as a division of polynomials over GF(2), and to the usual table-driven
    routine; its step is linear over exclusive or, which also gives the detection of
    damage confined to one byte. *)
From S2P Require Import Prelude.

(** one pass of the inner loop *)
Definition crc_bit (crc : Z) : Z :=
  if negb (Z.land crc 1 =? 0) then Z.lxor (Z.shiftr crc 1) 0xEDB88320 else Z.shiftr crc 1.

(** one pass of the outer loop, for the byte [b] *)
Definition crc_byte (crc b : Z) : Z := for_loop 8 0 (fun _ => crc_bit) (Z.lxor crc b).

Definition CalculateCRC32 (buffer : list Z) (length : Z) : Z :=
  let crc := for_loop (Z.to_nat length) 0 (fun i crc => crc_byte crc (rd buffer i)) 0xFFFFFFFF in
  Z.lxor crc 0xFFFFFFFF.

(** ** CRC-32 as IEEE 802.3 defines it

    A message is a polynomial over GF(2): its bytes in order, each with its lowest bit
    first.  The checksum is the remainder of the message, 32 zero bits after it and its
    first 32 bits complemented, divided by the generator; it is complemented, and its
    highest power is the lowest bit.  Nothing here is taken from the code. *)

Definition crc32_powers : list Z := [32; 26; 23; 22; 16; 12; 11; 10; 8; 7; 5; 4; 2; 1; 0].
Definition generator : Z := foldr (fun e => Z.lxor (Z.shiftl 1 e)) 0 crc32_powers.

(** the lowest [n] bits in the opposite order *)
Fixpoint reflect (n : nat) (v : Z) : Z :=
  match n with
  | O => 0
  | S n' => Z.lxor (if Z.testbit v 0 then Z.shiftl 1 (Z.of_nat n') else 0) (reflect n' (Z.shiftr v 1))
  end.

Fixpoint message (bs : list Z) : Z :=
  match bs with
  | [] => 0
  | b :: bs => Z.lxor (Z.shiftl (reflect 8 b) (8 * zlen bs)) (message bs)
  end.

(** the long division of a polynomial of degree below [32 + k] *)
Fixpoint gf2_mod (k : nat) (a : Z) : Z :=
  match k with
  | O => a
  | S k' =>
      gf2_mod k' (if Z.testbit a (32 + Z.of_nat k') then Z.lxor a (Z.shiftl generator (Z.of_nat k')) else a)
  end.

Definition crc32_reference (bs : list Z) : Z :=
  let n := (8 * length bs)%nat in
  let dividend := Z.lxor (Z.shiftl (message bs) 32) (Z.shiftl 0xFFFFFFFF (Z.of_nat n)) in
  reflect 32 (Z.lxor (gf2_mod n dividend) 0xFFFFFFFF).

(** ** The step is linear and loses nothing *)

Lemma crc_bit_eq c : crc_bit c = Z.lxor (Z.shiftr c 1) (if Z.testbit c 0 then 0xEDB88320 else 0).
Proof.
  unfold crc_bit. change 1 with (Z.ones 1) at 1. rewrite Z.land_ones by lia.
  change (2 ^ 1) with 2. rewrite Zmod_odd, <- Z.bit0_odd.
  destruct (Z.testbit c 0); cbn [Z.eqb negb]; [done|by rewrite Z.lxor_0_r].
Qed.

Lemma crc_bit_lxor a b : crc_bit (Z.lxor a b) = Z.lxor (crc_bit a) (crc_bit b).
Proof.
  rewrite !crc_bit_eq, Z.shiftr_lxor, Z.lxor_spec. apply Z.bits_inj'. intros k Hk.
  rewrite !Z.lxor_spec. destruct (Z.testbit a 0), (Z.testbit b 0); cbn [xorb];
    rewrite ?Z.bits_0; repeat (destruct (Z.testbit _ k)); done.
Qed.

(** the step read backwards: the top bit tells whether the polynomial was added *)
Lemma crc_bit_top c : is_u32 c -> Z.testbit (crc_bit c) 31 = Z.testbit c 0.
Proof.
  intros Hc. rewrite crc_bit_eq, Z.lxor_spec, Z.shiftr_spec by lia.
  replace (Z.testbit c (31 + 1)) with false.
  - by destruct (Z.testbit c 0).
  - symmetry. destruct (decide (c = 0)) as [->|]; [apply Z.bits_0|]. unfold is_u32 in Hc.
    apply Z.bits_above_log2; [lia|]. apply Z.log2_lt_pow2; lia.
Qed.

Lemma lxor_u32 a b : is_u32 a -> is_u32 b -> is_u32 (Z.lxor a b).
Proof.
  unfold is_u32. intros Ha Hb. assert (0 <= Z.lxor a b) by (apply Z.lxor_nonneg; lia).
  split; [done|]. destruct (decide (Z.lxor a b = 0)) as [->|]; [lia|].
  apply Z.log2_lt_pow2; [lia|]. pose proof (Z.log2_lxor a b ltac:(lia) ltac:(lia)).
  assert (Hlog : forall x, 0 <= x < 2 ^ 32 -> Z.log2 x < 32).
  { intros x Hx. destruct (decide (x = 0)) as [->|]; [done|]. apply Z.log2_lt_pow2; lia. }
  pose proof (Hlog a Ha). pose proof (Hlog b Hb). lia.
Qed.

Lemma crc_bit_u32 c : is_u32 c -> is_u32 (crc_bit c).
Proof.
  intros Hc. rewrite crc_bit_eq. apply lxor_u32.
  - unfold is_u32 in *. rewrite Z.shiftr_div_pow2 by lia. change (2 ^ 1) with 2. zlia.
  - unfold is_u32. destruct (Z.testbit c 0); lia.
Qed.

Lemma crc_bit_inj a b : is_u32 a -> is_u32 b -> crc_bit a = crc_bit b -> a = b.
Proof.
  intros Ha Hb Heq. assert (H0 : Z.testbit a 0 = Z.testbit b 0).
  { by rewrite <- !crc_bit_top, Heq by done. }
  rewrite !crc_bit_eq, H0 in Heq. apply Z.bits_inj'. intros k Hk.
  destruct (decide (k = 0)) as [->|Hne]; [done|].
  apply (f_equal (fun z => Z.testbit z (k - 1))) in Heq.
  rewrite !Z.lxor_spec, !Z.shiftr_spec in Heq by lia.
  replace (k - 1 + 1) with k in Heq by lia.
  destruct (Z.testbit a k), (Z.testbit b k), (Z.testbit _ (k - 1)); done.
Qed.

(** eight steps *)
Lemma crc8_lxor n : forall a b,
  Nat.iter n crc_bit (Z.lxor a b) = Z.lxor (Nat.iter n crc_bit a) (Nat.iter n crc_bit b).
Proof. induction n as [|n IH]; intros a b; cbn [Nat.iter nat_rect]; [done|]. unfold Nat.iter in *. by rewrite IH, crc_bit_lxor. Qed.

Lemma for_loop_iter n i c : for_loop n i (fun _ => crc_bit) c = Nat.iter n crc_bit c.
Proof.
  revert i c. induction n as [|n IH]; intros i c; [done|]. cbn [for_loop]. rewrite IH.
  by rewrite <- Nat.iter_succ_r.
Qed.

(** low zero bits are shifted out *)
Lemma crc_shiftl n y : 0 <= y -> Nat.iter n crc_bit (Z.shiftl y (Z.of_nat n)) = y.
Proof.
  intros Hy. induction n as [|n IH]; [apply Z.shiftl_0_r|]. rewrite Nat.iter_succ_r.
  rewrite <- IH at 2. f_equal.
  rewrite crc_bit_eq, Z.shiftl_spec_low, Z.lxor_0_r by lia.
  rewrite Z.shiftr_shiftl_l by lia. f_equal. lia.
Qed.

Lemma iter_u32 n c : is_u32 c -> is_u32 (Nat.iter n crc_bit c).
Proof. intros Hc. induction n as [|n IH]; [done|]. cbn. by apply crc_bit_u32. Qed.

Lemma iter_inj n a b : is_u32 a -> is_u32 b -> Nat.iter n crc_bit a = Nat.iter n crc_bit b -> a = b.
Proof.
  intros Ha Hb. induction n as [|n IH]; [done|]. cbn. intros Heq. apply IH.
  apply crc_bit_inj in Heq; [done| |]; by apply (iter_u32 n).
Qed.

Lemma byte_u32 b : is_byte b -> is_u32 b.
Proof. unfold is_byte, is_u32. lia. Qed.

Lemma crc_byte_u32 c b : is_u32 c -> is_byte b -> is_u32 (crc_byte c b).
Proof.
  intros. unfold crc_byte. rewrite for_loop_iter. by apply iter_u32, lxor_u32, byte_u32.
Qed.

(** ** The whole buffer *)

Definition crc_bytes (crc : Z) (bs : list Z) : Z := fold_left crc_byte bs crc.

Lemma for_loop_fold {S} (f : S -> Z -> S) bs : forall i pre s, zlen pre = i ->
  for_loop (length bs) i (fun k c => f c (rd (pre ++ bs) k)) s = fold_left f bs s.
Proof.
  induction bs as [|b bs IH]; intros i pre s Hi; cbn [length for_loop fold_left]; [done|].
  rewrite rd_app_r, Hi, Z.sub_diag by lia. change (rd (b :: bs) 0) with b.
  replace (pre ++ b :: bs) with ((pre ++ [b]) ++ bs) by (by rewrite <- app_assoc).
  apply IH. by rewrite zlen_app, Hi.
Qed.

Lemma CalculateCRC32_bytes buffer n :
  0 <= n <= zlen buffer ->
  CalculateCRC32 buffer n = Z.lxor (crc_bytes 0xFFFFFFFF (slice buffer 0 n)) 0xFFFFFFFF.
Proof.
  intros Hn. unfold CalculateCRC32, crc_bytes. f_equal.
  rewrite <- (for_loop_fold crc_byte (slice buffer 0 n) 0 []) by done. cbn [app].
  assert (Hl : zlen (slice buffer 0 n) = n) by (apply zlen_slice; lia).
  replace (length (slice buffer 0 n)) with (Z.to_nat n) by (unfold zlen in *; lia).
  apply for_loop_ext. intros k c Hk. f_equal. rewrite rd_slice by lia. f_equal.
Qed.

Lemma crc_bytes_u32 c bs : is_u32 c -> Forall is_byte bs -> is_u32 (crc_bytes c bs).
Proof.
  intros Hc Hb. revert c Hc. induction Hb as [|b bs Hb _ IH]; intros c Hc; cbn; [done|].
  by apply IH, crc_byte_u32.
Qed.

Lemma CalculateCRC32_u32 buffer n :
  Forall is_byte buffer -> 0 <= n <= zlen buffer -> is_u32 (CalculateCRC32 buffer n).
Proof.
  intros Hb Hn. rewrite CalculateCRC32_bytes by done.
  apply lxor_u32; [|unfold is_u32; lia]. apply crc_bytes_u32; [unfold is_u32; lia|].
  by apply Forall_slice.
Qed.

(** the result depends on the first [n] bytes only *)
Lemma CalculateCRC32_ext buf1 buf2 n :
  0 <= n <= zlen buf1 -> n <= zlen buf2 -> slice buf1 0 n = slice buf2 0 n ->
  CalculateCRC32 buf1 n = CalculateCRC32 buf2 n.
Proof. intros H1 H2 Heq. rewrite !CalculateCRC32_bytes by lia. by rewrite Heq. Qed.

Lemma crc_bytes_inj bs : forall a b, is_u32 a -> is_u32 b -> Forall is_byte bs ->
  crc_bytes a bs = crc_bytes b bs -> a = b.
Proof.
  induction bs as [|x bs IH]; intros a b Ha Hb Hbs Heq; [done|]. apply Forall_cons in Hbs as [Hx Hbs].
  apply IH in Heq; [|by apply crc_byte_u32..|done].
  unfold crc_byte in Heq. rewrite !for_loop_iter in Heq.
  apply iter_inj in Heq; [|by apply lxor_u32, byte_u32..].
  apply (f_equal (fun z => Z.lxor z x)) in Heq.
  by rewrite !Z.lxor_assoc, Z.lxor_nilpotent, !Z.lxor_0_r in Heq.
Qed.

(** ** The routine with a table of 256 words *)

Definition crc_table : list Z := (fun n => Nat.iter 8 crc_bit (Z.of_nat n)) <$> seq 0 256.

Definition table_step (crc b : Z) : Z :=
  Z.lxor (Z.shiftr crc 8) (rd crc_table (Z.land (Z.lxor crc b) 255)).

Definition crc32_by_table (bs : list Z) : Z :=
  Z.lxor (fold_left table_step bs 0xFFFFFFFF) 0xFFFFFFFF.

Lemma rd_crc_table i : 0 <= i < 256 -> rd crc_table i = Nat.iter 8 crc_bit i.
Proof.
  intros Hi. unfold rd, crc_table. rewrite (proj2 (Z.ltb_ge _ _)) by lia.
  rewrite list_lookup_fmap, lookup_seq_lt by lia. cbn [fmap option_fmap option_map default].
  unfold id. do 2 f_equal. lia.
Qed.

Lemma crc_byte_table c b : is_u32 c -> is_byte b -> crc_byte c b = table_step c b.
Proof.
  intros Hc Hb. unfold crc_byte, table_step. rewrite for_loop_iter.
  assert (Hl : 0 <= Z.land (Z.lxor c b) 255 < 256).
  { change 255 with (Z.ones 8). rewrite Z.land_ones by lia. apply Z.mod_pos_bound. lia. }
  rewrite rd_crc_table by done.
  assert (Hs : Z.lxor c b = Z.lxor (Z.shiftl (Z.shiftr c 8) 8) (Z.land (Z.lxor c b) 255)).
  { apply Z.bits_inj'. intros k Hk. change 255 with (Z.ones 8).
    rewrite !Z.lxor_spec, Z.land_spec, Z.lxor_spec.
    destruct (Z.ltb_spec k 8).
    - rewrite Z.shiftl_spec_low, Z.ones_spec_low, andb_true_r by lia. done.
    - rewrite Z.shiftl_spec, Z.shiftr_spec, Z.ones_spec_high, andb_false_r by lia.
      rewrite xorb_false_r. replace (k - 8 + 8) with k by lia.
      replace (Z.testbit b k) with false; [apply xorb_false_r|]. symmetry. unfold is_byte in Hb.
      destruct (decide (b = 0)) as [->|]; [apply Z.bits_0|]. apply Z.bits_above_log2; [lia|].
      enough (Z.log2 b < 8) by lia. apply Z.log2_lt_pow2; lia. }
  rewrite Hs at 1. rewrite crc8_lxor. f_equal. apply (crc_shiftl 8).
  apply Z.shiftr_nonneg. unfold is_u32 in Hc. lia.
Qed.

Lemma crc_bytes_table bs : forall c, is_u32 c -> Forall is_byte bs ->
  crc_bytes c bs = fold_left table_step bs c.
Proof.
  induction bs as [|b bs IH]; intros c Hc Hbs; [done|]. apply Forall_cons in Hbs as [Hb Hbs].
  cbn. rewrite <- crc_byte_table by done. by apply IH; [apply crc_byte_u32|].
Qed.

(** The bit-by-bit CRC of any buffer is that of the table-driven routine. *)
Theorem CalculateCRC32_by_table bs :
  Forall is_byte bs -> CalculateCRC32 bs (zlen bs) = crc32_by_table bs.
Proof.
  intros Hb. pose proof (zlen_nonneg bs). rewrite CalculateCRC32_bytes by lia.
  unfold crc32_by_table. f_equal. rewrite <- crc_bytes_table; [|unfold is_u32; lia|done].
  f_equal. unfold slice, zlen. cbn [Z.to_nat drop]. rewrite Nat2Z.id. by rewrite take_ge.
Qed.

(** ** The division, a bit at a time *)

(** one bit of the division with a remainder of 32 bits: the code's step, mirrored *)
Definition division_step (r : Z) : Z :=
  Z.lxor (Z.shiftl r 1) (if Z.testbit r 31 then generator else 0).

Lemma reflect_spec n : forall v k, 0 <= k ->
  Z.testbit (reflect n v) k = if k <? Z.of_nat n then Z.testbit v (Z.of_nat n - 1 - k) else false.
Proof.
  induction n as [|n IH]; intros v k Hk; cbn [reflect].
  { rewrite Z.bits_0. by rewrite (proj2 (Z.ltb_ge _ _)) by lia. }
  rewrite Z.lxor_spec, IH by done.
  assert (Htop : Z.testbit (if Z.testbit v 0 then Z.shiftl 1 (Z.of_nat n) else 0) k
                 = if k =? Z.of_nat n then Z.testbit v 0 else false).
  { destruct (Z.testbit v 0); [|rewrite Z.bits_0; by destruct (_ =? _)].
    rewrite Z.shiftl_1_l. destruct (Z.eqb_spec k (Z.of_nat n)) as [->|Hne].
    - apply Z.pow2_bits_true. lia.
    - by apply Z.pow2_bits_false. }
  rewrite Htop. destruct (Z.eqb_spec k (Z.of_nat n)) as [->|Hne].
  - rewrite (proj2 (Z.ltb_ge _ _)), (proj2 (Z.ltb_lt _ _)) by lia. rewrite xorb_false_r. f_equal. lia.
  - rewrite xorb_false_l. destruct (Z.ltb_spec k (Z.of_nat n)).
    + rewrite (proj2 (Z.ltb_lt _ (Z.of_nat (S n)))), Z.shiftr_spec by lia. f_equal. lia.
    + by rewrite (proj2 (Z.ltb_ge _ _)) by lia.
Qed.

Lemma reflect_lxor n a b : reflect n (Z.lxor a b) = Z.lxor (reflect n a) (reflect n b).
Proof.
  apply Z.bits_inj'. intros k Hk. rewrite Z.lxor_spec, !reflect_spec by done.
  destruct (_ <? _); [apply Z.lxor_spec|done].
Qed.

Lemma reflect_nonneg n : forall v, 0 <= reflect n v.
Proof.
  induction n as [|n IH]; intros v; cbn [reflect]; [lia|]. apply Z.lxor_nonneg. split; intros _; [apply IH|].
  destruct (Z.testbit v 0); [|lia]. apply Z.shiftl_nonneg. lia.
Qed.

(** a number is below [2 ^ n] when no bit from [n] on is set *)
Lemma below_pow2 a n : 0 <= n -> 0 <= a -> (forall k, n <= k -> Z.testbit a k = false) -> a < 2 ^ n.
Proof.
  intros Hn Ha Hbits. destruct (decide (a = 0)) as [->|Hne]; [lia|].
  apply Z.log2_lt_pow2; [lia|]. destruct (Z.ltb_spec (Z.log2 a) n) as [|Hge]; [done|].
  specialize (Hbits _ Hge). rewrite Z.bit_log2 in Hbits by lia. done.
Qed.

Lemma testbit_above a n k : 0 <= a < 2 ^ n -> 0 <= n <= k -> Z.testbit a k = false.
Proof.
  intros Ha Hk. destruct (decide (a = 0)) as [->|Hne]; [apply Z.bits_0|].
  apply Z.bits_above_log2; [lia|]. assert (Z.log2 a < n) by (apply Z.log2_lt_pow2; lia). lia.
Qed.

Lemma message_range bs : 0 <= message bs < 2 ^ (8 * zlen bs).
Proof.
  induction bs as [|b bs IH]; [done|]. cbn [message].
  pose proof (zlen_nonneg bs). pose proof (reflect_nonneg 8 b). rewrite zlen_cons.
  assert (0 <= Z.lxor (Z.shiftl (reflect 8 b) (8 * zlen bs)) (message bs)).
  { apply Z.lxor_nonneg. split; intros _; [lia|]. by apply Z.shiftl_nonneg. }
  split; [done|]. apply below_pow2; [lia|done|]. intros k Hk.
  rewrite Z.lxor_spec, Z.shiftl_spec, reflect_spec by lia.
  rewrite (proj2 (Z.ltb_ge _ _)) by lia. apply (testbit_above _ (8 * zlen bs)); lia.
Qed.

(** the division with the 32 leading bits held apart, as a register would *)
Lemma gf2_mod_steps j : forall k r m,
  0 <= m < 2 ^ (32 + Z.of_nat k) ->
  gf2_mod (j + k) (Z.lxor (Z.shiftl r (Z.of_nat (j + k))) m)
  = gf2_mod k (Z.lxor (Z.shiftl (Nat.iter j division_step r) (Z.of_nat k)) m).
Proof.
  induction j as [|j IH]; intros k r m Hm; [done|].
  rewrite Nat.iter_succ_r, <- IH by done. cbn [Nat.add gf2_mod]. f_equal.
  rewrite Z.lxor_spec, Z.shiftl_spec, (testbit_above m (32 + Z.of_nat k)) by lia.
  replace (32 + Z.of_nat (j + k) - Z.of_nat (S (j + k))) with 31 by lia. rewrite xorb_false_r.
  assert (Hs : Z.shiftl r (Z.of_nat (S (j + k))) = Z.shiftl (Z.shiftl r 1) (Z.of_nat (j + k))).
  { rewrite Z.shiftl_shiftl by lia. f_equal. lia. }
  rewrite Hs. unfold division_step. destruct (Z.testbit r 31); [|by rewrite Z.lxor_0_r].
  rewrite Z.shiftl_lxor, !Z.lxor_assoc. f_equal. apply Z.lxor_comm.
Qed.

Lemma division_step_mirrored r : reflect 32 (division_step r) = crc_bit (reflect 32 r).
Proof.
  apply Z.bits_inj'. intros k Hk. unfold division_step. rewrite reflect_lxor, crc_bit_eq, !Z.lxor_spec.
  rewrite (reflect_spec 32 r 0) by lia. change (0 <? Z.of_nat 32) with true. cbv iota.
  change (Z.of_nat 32 - 1 - 0) with 31. f_equal; [|by destruct (Z.testbit r 31)].
  rewrite Z.shiftr_spec, !reflect_spec by lia. change (Z.of_nat 32) with 32.
  destruct (Z.ltb_spec k 32), (Z.ltb_spec (k + 1) 32); try lia; [|].
  - rewrite Z.shiftl_spec by lia. f_equal. lia.
  - apply Z.shiftl_spec_low. lia.
Qed.

Lemma steps_mirrored n r : reflect 32 (Nat.iter n division_step r) = Nat.iter n crc_bit (reflect 32 r).
Proof. induction n as [|n IH]; [done|]. cbn [Nat.iter nat_rect]. unfold Nat.iter in *. by rewrite division_step_mirrored, IH. Qed.

(** a byte with its lowest bit first, at the top of the register *)
Lemma byte_mirrored b : is_byte b -> reflect 32 (Z.shiftl (reflect 8 b) 24) = b.
Proof.
  intros Hb. apply Z.bits_inj'. intros k Hk. rewrite reflect_spec by done. change (Z.of_nat 32) with 32.
  destruct (Z.ltb_spec k 8).
  - rewrite (proj2 (Z.ltb_lt _ _)), Z.shiftl_spec, reflect_spec by lia. change (Z.of_nat 8) with 8.
    rewrite (proj2 (Z.ltb_lt _ _)) by lia. f_equal. lia.
  - rewrite (testbit_above b 8) by (unfold is_byte in Hb; lia).
    destruct (Z.ltb_spec k 32); [|done]. apply Z.shiftl_spec_low. lia.
Qed.

Lemma division_byte r b : is_byte b ->
  reflect 32 (Nat.iter 8 division_step (Z.lxor r (Z.shiftl (reflect 8 b) 24))) = crc_byte (reflect 32 r) b.
Proof.
  intros Hb. rewrite steps_mirrored, reflect_lxor, byte_mirrored by done.
  unfold crc_byte. symmetry. apply for_loop_iter.
Qed.

(** the next byte of the message comes to the top of the register *)
Lemma message_step r b m n :
  Z.lxor (Z.shiftl r (Z.of_nat (8 + n))) (Z.shiftl (Z.lxor (Z.shiftl (reflect 8 b) (Z.of_nat n)) m) 32)
  = Z.lxor (Z.shiftl (Z.lxor r (Z.shiftl (reflect 8 b) 24)) (Z.of_nat (8 + n))) (Z.shiftl m 32).
Proof.
  generalize (reflect 8 b). intros v. rewrite !Z.shiftl_lxor, !Z.shiftl_shiftl, <- Z.lxor_assoc by lia.
  do 3 f_equal. lia.
Qed.

Lemma message_cons b bs :
  message (b :: bs) = Z.lxor (Z.shiftl (reflect 8 b) (8 * zlen bs)) (message bs).
Proof. reflexivity. Qed.

Lemma crc_bytes_cons c b bs : crc_bytes c (b :: bs) = crc_bytes (crc_byte c b) bs.
Proof. reflexivity. Qed.

Lemma division_bytes bs : forall r, Forall is_byte bs ->
  reflect 32 (gf2_mod (8 * length bs)
    (Z.lxor (Z.shiftl r (Z.of_nat (8 * length bs))) (Z.shiftl (message bs) 32)))
  = crc_bytes (reflect 32 r) bs.
Proof.
  induction bs as [|b bs IH]; intros r Hbs.
  { change (message []) with 0. change (8 * length (@nil Z))%nat with 0%nat. cbn [gf2_mod].
    rewrite Z.shiftl_0_l, Z.lxor_0_r by lia. change (Z.of_nat 0) with 0. rewrite Z.shiftl_0_r. reflexivity. }
  apply Forall_cons in Hbs as [Hb Hbs]. pose proof (message_range bs) as Hr.
  rewrite message_cons, crc_bytes_cons. specialize (fun r => IH r Hbs).
  replace (8 * length (b :: bs))%nat with (8 + 8 * length bs)%nat by (cbn [length]; lia).
  assert (Hn : 8 * zlen bs = Z.of_nat (8 * length bs)) by (unfold zlen; lia). rewrite Hn in *.
  generalize dependent (8 * length bs)%nat. intros n IH Hr _.
  rewrite message_step, gf2_mod_steps, IH, division_byte; [done|exact Hb|].
  rewrite Z.shiftl_mul_pow2, Z.pow_add_r by lia. nia.
Qed.

(** C37: CalculateCRC32 computes the CRC-32 of IEEE 802.3 of any buffer: the reflected
    remainder of the division by the generator polynomial over GF(2). *)
Theorem CalculateCRC32_ieee bs :
  Forall is_byte bs -> CalculateCRC32 bs (zlen bs) = crc32_reference bs.
Proof.
  intros Hb. pose proof (zlen_nonneg bs). rewrite CalculateCRC32_bytes by lia.
  assert (Hall : slice bs 0 (zlen bs) = bs).
  { unfold slice, zlen. cbn [Z.to_nat drop]. rewrite Nat2Z.id. by rewrite take_ge. }
  unfold crc32_reference. rewrite Hall, reflect_lxor, Z.lxor_comm, (Z.lxor_comm (Z.shiftl _ 32)).
  rewrite (division_bytes bs 0xFFFFFFFF Hb), Z.lxor_comm. reflexivity.
Qed.

(** the check value that the catalogues of checksums give *)
Lemma CalculateCRC32_ieee_witness :
  CalculateCRC32 (c_lit "123456789") 9 = 0xCBF43926
  /\ CalculateCRC32 (c_lit "123456789") 9 = crc32_reference (c_lit "123456789").
Proof.
  split; [vm_compute; reflexivity|].
  apply (CalculateCRC32_ieee (c_lit "123456789")). apply (bool_decide_unpack _). vm_compute. exact I.
Defined.

(** A change of one byte changes the CRC, whatever the length and the place. *)
Theorem CalculateCRC32_detects bs i v :
  Forall is_byte bs -> is_byte v -> 0 <= i < zlen bs -> v <> rd bs i ->
  CalculateCRC32 (upd bs i v) (zlen bs) <> CalculateCRC32 bs (zlen bs).
Proof.
  intros Hb Hv Hi Hne Heq. pose proof (Forall_rd _ _ i Hb Hi) as Hold.
  assert (Hall : forall l : list Z, zlen l = zlen bs -> slice l 0 (zlen bs) = l).
  { intros l Hl. unfold slice, zlen in *. cbn [Z.to_nat drop]. rewrite Nat2Z.id. apply take_ge. lia. }
  rewrite !CalculateCRC32_bytes in Heq by (rewrite ?zlen_upd; lia).
  rewrite !Hall in Heq by (rewrite ?zlen_upd; lia).
  apply (f_equal (fun z => Z.lxor z 0xFFFFFFFF)) in Heq.
  rewrite !Z.lxor_assoc, Z.lxor_nilpotent, !Z.lxor_0_r in Heq.
  assert (Hat : bs !! Z.to_nat i = Some (rd bs i)) by (by apply rd_lookup).
  rewrite <- (take_drop_middle bs _ _ Hat) in Heq at 2.
  assert (Hup : upd bs i v = take (Z.to_nat i) bs ++ v :: drop (S (Z.to_nat i)) bs).
  { unfold upd, zlen in *. rewrite (proj2 (Z.ltb_ge _ _)) by lia. apply insert_take_drop. lia. }
  rewrite Hup in Heq. unfold crc_bytes in Heq. rewrite !fold_left_app in Heq. cbn [fold_left] in Heq.
  set (c := fold_left crc_byte (take (Z.to_nat i) bs) 0xFFFFFFFF) in Heq.
  assert (Hc : is_u32 c).
  { apply (crc_bytes_u32 _ (take (Z.to_nat i) bs)); [unfold is_u32; lia|by apply Forall_take]. }
  apply crc_bytes_inj in Heq; [|by apply crc_byte_u32..|by apply Forall_drop].
  unfold crc_byte in Heq. rewrite !for_loop_iter in Heq.
  apply iter_inj in Heq; [|by apply lxor_u32, byte_u32..].
  apply (f_equal (Z.lxor c)) in Heq.
  rewrite <- !Z.lxor_assoc, Z.lxor_nilpotent, !Z.lxor_0_l in Heq. done.
Qed.

Lemma CalculateCRC32_detects_witness :
  CalculateCRC32 (upd (c_lit "EFI PART") 4 0) 8 <> CalculateCRC32 (c_lit "EFI PART") 8.
Proof.
  apply (CalculateCRC32_detects (c_lit "EFI PART") 4 0).
  - apply (bool_decide_unpack _). vm_compute. exact I.
  - unfold is_byte. lia.
  - vm_compute. split; [discriminate|reflexivity].
  - vm_compute. discriminate.
Defined.
