(* ===== verification/Gpt.v ===== *)
(** * The GUID partition table (fs/installer.cpp, fs/gpt.hpp)

    [FormatDiskGPT] over any disk, and a reader of partition tables in the way of
    the UEFI specification, which accepts what it writes. *)
From S2P Require Import Prelude Memory Device Crc32.

(** ** fs/gpt.hpp *)

Record GUID := mkGUID { data1 : Z; data2 : Z; data3 : Z; data4 : list Z }.

Definition guid_bytes (g : GUID) : list Z :=
  le_bytes 4 (data1 g) ++ le_bytes 2 (data2 g) ++ le_bytes 2 (data3 g) ++ data4 g.

Definition kEspGuid : GUID :=
  mkGUID 0xC12A7328 0xF81F 0x11D2 [0xBA; 0x4B; 0x00; 0xA0; 0xC9; 0x3E; 0xC9; 0x3B].
Definition kUniqueGuid : GUID :=
  mkGUID 0x12345678 0xABCD 0xEFEF [0x01; 0x02; 0x03; 0x04; 0x05; 0x06; 0x07; 0x08].

(** the sector LegacyMBR; its first partition starts at byte 446 *)
Definition protective_mbr (total_blocks : Z) : list Z :=
  store (replicate 512 0)
    [ (446, [0x00]);                                (* boot_indicator *)
      (450, [0xEE]);                                (* sys_type *)
      (454, le_bytes 4 1);                          (* start_lba *)
      (458, le_bytes 4 (if 0xFFFFFFFF <? total_blocks then 0xFFFFFFFF else u32 (total_blocks - 1)));
      (510, le_bytes 2 0xAA55) ].

Definition entry_cnt : Z := 128.
Definition entry_sz : Z := 128.
Definition entry_array_size : Z := u64 (entry_cnt * entry_sz).

(** the stores to the fields of GPTPartitionEntry 0; [name] is UTF-16 *)
Definition entry_fields (total_blocks : Z) : list (Z * list Z) :=
  [ (0, guid_bytes kEspGuid);                       (* type_guid *)
    (16, guid_bytes kUniqueGuid);                   (* unique_guid *)
    (32, le_bytes 8 2048);                          (* first_lba *)
    (40, le_bytes 8 (u64 (total_blocks - 34)));     (* last_lba *)
    (48, le_bytes 8 0) ]                            (* attributes *)
  ++ imap (fun i c => (56 + 2 * Z.of_nat i, le_bytes 2 c)) (c_lit "Sylphia System").

Definition partition_entries (total_blocks : Z) : list Z :=
  store (replicate (Z.to_nat entry_array_size) 0) (entry_fields total_blocks).

(** GPTHeader: [header->crc32 = 0; header->crc32 = CalculateCRC32(header, 92)] *)
Definition set_crc (header : list Z) : list Z :=
  let header := put32 header 16 0 in
  put32 header 16 (CalculateCRC32 header 92).

Definition header_fields (total_blocks entries_crc : Z) : list (Z * list Z) :=
  [ (0, le_bytes 8 0x5452415020494645);             (* signature *)
    (8, le_bytes 4 0x00010000);                     (* revision *)
    (12, le_bytes 4 92);                            (* header_size *)
    (24, le_bytes 8 1);                             (* my_lba *)
    (32, le_bytes 8 (u64 (total_blocks - 1)));      (* alternate_lba *)
    (40, le_bytes 8 2048);                          (* first_usable_lba *)
    (48, le_bytes 8 (u64 (total_blocks - 34)));     (* last_usable_lba *)
    (56, guid_bytes kUniqueGuid);                   (* disk_guid *)
    (72, le_bytes 8 2);                             (* partition_entry_lba *)
    (80, le_bytes 4 entry_cnt);                     (* num_partition_entries *)
    (84, le_bytes 4 entry_sz);                      (* sizeof_partition_entry *)
    (88, le_bytes 4 entries_crc) ].                 (* partition_entry_array_crc32 *)

Definition primary_header (total_blocks entries_crc : Z) : list Z :=
  set_crc (store (replicate 512 0) (header_fields total_blocks entries_crc)).

Definition entry_sectors : Z := u32 (entry_array_size / 512).
Definition backup_start_lba (total_blocks : Z) : Z := u64 (total_blocks - 1 - entry_sectors).

(** the stores that turn the primary header into the backup *)
Definition backup_fields (total_blocks : Z) : list (Z * list Z) :=
  [ (24, le_bytes 8 (u64 (total_blocks - 1)));
    (32, le_bytes 8 1);
    (72, le_bytes 8 (backup_start_lba total_blocks)) ].

Definition backup_header (total_blocks : Z) (header : list Z) : list Z :=
  set_crc (store header (backup_fields total_blocks)).

Definition sectors_per_chunk : Z := 8.
Definition total_chunks : Z := u32 (entry_array_size / 4096).

Section Installer.
Context {D M : Type} `{BlockDevice D} `{FrameAllocator M}.
Local Abbreviation FS := (FS D M).

(** the entries in pieces of 4 KiB from sector [base] on *)
Definition write_entries (base : Z) (entry_buf : list Z) : FS unit :=
  fs_for (Z.to_nat total_chunks) 0 (fun i =>
    let lba_offset := u64 (base + u32 (i * sectors_per_chunk)) in
    let buf_offset := slice entry_buf (u32 (i * 4096)) 4096 in
    Write lba_offset buf_offset sectors_per_chunk ;;
    fs_ret tt).

(** [g_nvme]: the disk has a driver *)
Definition FormatDiskGPT (g_nvme : bool) (total_blocks : Z) : FS unit :=
  if negb g_nvme then fs_ret tt
  else
    kprintf "[Installer] Formatting Disk with GPT (Fixed PRP Issue)...\n" [] ;;
    sector_buf <- Buffer 512 4096 ;;
    Write 0 (protective_mbr total_blocks) 1 ;;
    entry_buf <- Buffer entry_array_size 4096 ;;
    let entries := partition_entries total_blocks in
    let entries_crc := CalculateCRC32 entries entry_array_size in
    write_entries 2 entries ;;
    write_entries (backup_start_lba total_blocks) entries ;;
    kprintf "[Installer] Partition Entries Written (Split 4KB chunks).\n" [] ;;
    let header := primary_header total_blocks entries_crc in
    Write 1 header 1 ;;
    Write (u64 (total_blocks - 1)) (backup_header total_blocks header) 1 ;;
    kprintf "[Installer] GPT Format Complete!\n" [] ;;
    Free_ sector_buf 512 ;;
    Free_ entry_buf entry_array_size.
End Installer.

(** ** Reading a partition table (UEFI 2.10, 5.3) *)

(** the checks of a reader on the header in sector [lba] *)
Record valid_header (sec : Z -> list Z) (lba : Z) : Prop := {
  vh_signature : get64 (sec lba) 0 = 0x5452415020494645;
  vh_revision : get32 (sec lba) 8 = 0x00010000;
  vh_size : 92 <= get32 (sec lba) 12 <= 512;
  vh_crc : get32 (sec lba) 16 = CalculateCRC32 (put32 (sec lba) 16 0) (get32 (sec lba) 12);
  vh_reserved : get32 (sec lba) 20 = 0;
  vh_lba : get64 (sec lba) 24 = lba;
  vh_entry_size : get32 (sec lba) 84 = 128;
  vh_entries : let size := get32 (sec lba) 80 * get32 (sec lba) 84 in
    get32 (sec lba) 88
    = CalculateCRC32 (sectors sec (get64 (sec lba) 72) (Z.to_nat ((size + 511) / 512))) size
}.

(** entry [i] of the array the header in [lba] points to: type, first and last block *)
Definition gpt_entry (sec : Z -> list Z) (lba i : Z) : list Z * Z * Z :=
  let entries := sectors sec (get64 (sec lba) 72) 32 in
  let e := slice entries (128 * i) 128 in
  (slice e 0 16, get64 e 32, get64 e 40).

(** where the headers say the arrays, the usable blocks and the other header are *)
Definition header_places (sec : Z -> list Z) (lba : Z) : Z * Z * Z * Z :=
  (get64 (sec lba) 32, get64 (sec lba) 40, get64 (sec lba) 48, get64 (sec lba) 72).

(** ** What the buffers hold *)

(** the bytes of a list of fields *)
Ltac field_bytes :=
  repeat (apply Forall_cons; split;
    [cbn [snd]; first [done | apply le_bytes_range | repeat constructor; unfold is_byte; lia]|]);
  apply Forall_nil; exact I.
Lemma slice_zeros n off k : 0 <= off -> 0 <= k -> off + k <= Z.of_nat n ->
  slice (replicate n 0) off k = replicate (Z.to_nat k) 0.
Proof.
  intros. unfold slice. rewrite drop_replicate, take_replicate. f_equal. lia.
Qed.

Lemma zlen_mbr total : zlen (protective_mbr total) = 512.
Proof. unfold protective_mbr. rewrite zlen_store; [done|]. vm_compute. reflexivity. Qed.

Lemma mbr_bytes total : Forall is_byte (protective_mbr total).
Proof.
  apply store_bytes; [apply zeros_bytes|]. field_bytes.
Qed.

Lemma guid_range g : Forall is_byte (data4 g) -> Forall is_byte (guid_bytes g).
Proof. intros. unfold guid_bytes. rewrite !Forall_app. split_and!; try apply le_bytes_range. done. Qed.

Lemma guids_range : Forall is_byte (guid_bytes kEspGuid) /\ Forall is_byte (guid_bytes kUniqueGuid).
Proof. split; apply (bool_decide_unpack _); vm_compute; exact I. Qed.

Lemma entry_fields_ok total : fields_ok entry_array_size (entry_fields total) = true.
Proof. vm_compute. reflexivity. Qed.

Lemma zlen_entries total : zlen (partition_entries total) = 16384.
Proof. unfold partition_entries. rewrite zlen_store; rewrite zlen_zeros; [done|]. apply entry_fields_ok. Qed.

Lemma entries_bytes total : Forall is_byte (partition_entries total).
Proof.
  apply store_bytes; [apply zeros_bytes|]. unfold entry_fields. destruct guids_range.
  apply Forall_app. split; [field_bytes|].
  apply Forall_lookup_2. intros i f Hf. rewrite list_lookup_imap in Hf.
  apply fmap_Some in Hf as (c & _ & ->). apply le_bytes_range.
Qed.

Section Header.
Implicit Types h : list Z.

Lemma zlen_set_crc h : zlen h = 512 -> zlen (set_crc h) = 512.
Proof. intros Hl. unfold set_crc. rewrite !zlen_put32; rewrite ?zlen_put32; lia. Qed.

Lemma set_crc_bytes h : Forall is_byte h -> Forall is_byte (set_crc h).
Proof. intros. unfold set_crc. by do 2 apply put32_bytes. Qed.

Lemma slice_set_crc h off n :
  zlen h = 512 -> 0 <= off -> 0 <= n -> off + n <= 512 -> off + n <= 16 \/ 20 <= off ->
  slice (set_crc h) off n = slice h off n.
Proof.
  intros Hl Ho Hn Hle Hap. unfold set_crc. pose proof (zlen_put32 h 16 0).
  unfold put32 in *. rewrite !slice_splice_other; rewrite ?zlen_le_bytes; lia || done.
Qed.

Lemma crc_set_crc h :
  zlen h = 512 -> Forall is_byte h ->
  get32 (set_crc h) 16 = CalculateCRC32 (put32 (set_crc h) 16 0) 92.
Proof.
  intros Hl Hb. assert (H1 : zlen (put32 h 16 0) = 512) by (rewrite zlen_put32; lia).
  pose proof (put32_bytes h 16 0 Hb) as Hb1. unfold set_crc. set (h1 := put32 h 16 0) in *.
  rewrite get32_put32_eq; [|lia..|].
  - f_equal. unfold put32 at 1. unfold put32 at 1.
    rewrite splice_splice_same by (rewrite ?zlen_le_bytes; lia). subst h1. unfold put32.
    rewrite splice_splice_same by (rewrite ?zlen_le_bytes; lia). done.
  - apply CalculateCRC32_u32; [done|lia].
Qed.

(** a header whose checksum has been set, in a sector that suits its fields *)
Lemma set_crc_valid (sec : Z -> list Z) lba h :
  zlen h = 512 -> Forall is_byte h -> sec lba = set_crc h ->
  get64 h 0 = 0x5452415020494645 -> get32 h 8 = 0x00010000 -> get32 h 12 = 92 -> get32 h 20 = 0 ->
  get64 h 24 = lba -> get32 h 80 = 128 -> get32 h 84 = 128 ->
  get32 h 88 = CalculateCRC32 (sectors sec (get64 h 72) 32) 16384 ->
  valid_header sec lba.
Proof.
  intros Hl Hb Hs. pose proof (crc_set_crc h Hl Hb) as Hcrc. unfold get32, get64 in *.
  assert (E : forall off n, 0 <= off -> 0 <= n -> off + n <= 512 -> off + n <= 16 \/ 20 <= off ->
    slice (sec lba) off n = slice h off n) by (intros; rewrite Hs; by apply slice_set_crc).
  intros Hsig Hrev Hsize Hres Hlba Hnum Hesz Harr.
  split; cbv zeta; unfold get32, get64; rewrite ?E by lia.
  1-3, 5-7: first [assumption | lia].
  - rewrite (E 12 4), Hs, Hsize by lia. exact Hcrc.
  - rewrite Hnum, Hesz. exact Harr.
Qed.
End Header.

Lemma header_fields_ok total crc : fields_ok 512 (header_fields total crc) = true.
Proof. vm_compute. reflexivity. Qed.

Lemma backup_fields_ok total : fields_ok 512 (backup_fields total) = true.
Proof. vm_compute. reflexivity. Qed.

Section Fields.
Context (total crc : Z) (Htotal : 67 <= total < 2 ^ 63) (Hcrc : is_u32 crc).

Definition header0 : list Z := store (replicate 512 0) (header_fields total crc).
Definition header1 : list Z := store (set_crc header0) (backup_fields total).

Lemma primary_header_eq : primary_header total crc = set_crc header0.
Proof. reflexivity. Qed.

Lemma backup_header_eq : backup_header total (primary_header total crc) = set_crc header1.
Proof. unfold backup_header. rewrite primary_header_eq. reflexivity. Qed.

Lemma header0_field off n v :
  In (off, le_bytes n v) (header_fields total crc) -> 0 <= v < 256 ^ Z.of_nat n ->
  le_val (slice header0 off (Z.of_nat n)) = v.
Proof. intros. apply le_val_store; [apply header_fields_ok|done..]. Qed.

Lemma zlen_header0 : zlen header0 = 512.
Proof. unfold header0. rewrite zlen_store; [done|apply header_fields_ok]. Qed.

Lemma header0_bytes : Forall is_byte header0.
Proof.
  apply store_bytes; [apply zeros_bytes|]. destruct guids_range.
  field_bytes.
Qed.

Lemma header1_field off n v :
  In (off, le_bytes n v) (backup_fields total) -> 0 <= v < 256 ^ Z.of_nat n ->
  le_val (slice header1 off (Z.of_nat n)) = v.
Proof.
  intros. apply le_val_store; [|done..]. rewrite zlen_set_crc by apply zlen_header0.
  apply backup_fields_ok.
Qed.

Lemma zlen_header1 : zlen header1 = 512.
Proof.
  pose proof (zlen_set_crc _ zlen_header0) as Hl. unfold header1.
  rewrite zlen_store; rewrite Hl; [done|apply backup_fields_ok].
Qed.

Lemma header1_bytes : Forall is_byte header1.
Proof.
  apply store_bytes; [apply set_crc_bytes, header0_bytes|].
  field_bytes.
Qed.

(** the other fields of the backup are those of the primary *)
Lemma header1_other off n :
  0 <= off -> 0 <= n -> off + n <= 512 -> off + n <= 16 \/ 20 <= off ->
  off + n <= 24 \/ (40 <= off /\ off + n <= 72) \/ 80 <= off ->
  slice header1 off n = slice header0 off n.
Proof.
  intros. pose proof (zlen_set_crc _ zlen_header0) as Hl. unfold header1.
  rewrite slice_store_other; rewrite ?Hl; [|apply backup_fields_ok|done..|].
  - apply slice_set_crc; try lia. apply zlen_header0.
  - intros g [<-|[<-|[<-|[]]]]; cbn [fst snd]; rewrite zlen_le_bytes; lia.
Qed.

Lemma header1_get64 off :
  0 <= off -> off + 8 <= 512 -> off + 8 <= 16 \/ 20 <= off ->
  off + 8 <= 24 \/ (40 <= off /\ off + 8 <= 72) \/ 80 <= off ->
  get64 header1 off = get64 header0 off.
Proof. intros. unfold get64. by rewrite header1_other by lia. Qed.

Lemma header1_get32 off :
  0 <= off -> off + 4 <= 512 -> off + 4 <= 16 \/ 20 <= off ->
  off + 4 <= 24 \/ (40 <= off /\ off + 4 <= 72) \/ 80 <= off ->
  get32 header1 off = get32 header0 off.
Proof. intros. unfold get32. by rewrite header1_other by lia. Qed.

Lemma header0_reserved : get32 header0 20 = 0.
Proof.
  unfold get32, header0.
  rewrite slice_store_other; rewrite ?zlen_zeros; [|apply header_fields_ok|lia..|].
  - rewrite slice_zeros by lia. done.
  - intros g Hg. unfold header_fields in Hg. cbn [In] in Hg.
    repeat (destruct Hg as [<-|Hg]; [cbn [fst snd]; rewrite ?zlen_le_bytes; vm_compute zlen; lia|]). done.
Qed.
End Fields.

(** ** Running FormatDiskGPT *)

Section Run.
Context {D M : Type} `{BlockDeviceLaws D} `{FrameAllocatorLaws M}.
Implicit Types (d : D) (mm : M).

(** [d'] is [d] with the buffer [buf] in the [n] sectors from [base] *)
Definition written d d' base (n : Z) (buf : list Z) : Prop :=
  forall l, sector d' l = if (base <=? l) && (l <? base + n)
                          then slice buf (512 * (l - base)) 512 else sector d l.

Lemma written_in d d' base n buf l :
  written d d' base n buf -> base <= l < base + n -> sector d' l = slice buf (512 * (l - base)) 512.
Proof.
  intros Hw Hl. rewrite Hw. by rewrite (proj2 (Z.leb_le _ _)), (proj2 (Z.ltb_lt _ _)) by lia.
Qed.

Lemma written_out d d' base n buf l :
  written d d' base n buf -> l < base \/ base + n <= l -> sector d' l = sector d l.
Proof. intros Hw Hl. rewrite Hw. zcases; cbn [andb]; done || lia. Qed.

Lemma wp_write_entries base buf d mm out (Q : unit -> World D M -> Prop) :
  0 <= base -> base + 32 < 2 ^ 64 -> zlen buf = 16384 -> Forall is_byte buf ->
  (forall d', written d d' base 32 buf -> Q tt (mkWorld d' mm out)) ->
  wp (write_entries base buf) Q (mkWorld d mm out).
Proof.
  intros Hb0 Hb Hl Hby HQ. unfold write_entries. change (Z.to_nat total_chunks) with 4%nat.
  apply (wp_for (fun k w => exists d', w = mkWorld d' mm out /\ written d d' base (8 * k) buf)).
  - exists d. split; [done|]. intros l. zcases; cbn [andb]; done || lia.
  - intros k w Hk (d1 & -> & Hw). unfold sectors_per_chunk.
    rewrite !u32_small, u64_small by lia. apply wp_bind, wp_Write.
    + done.
    + by rewrite zlen_slice by lia.
    + by apply Forall_slice.
    + intros d2 Hd2. apply wp_ret. exists d2. split; [done|]. intros l. rewrite Hd2, Hw.
      unfold kSectorSize.
      destruct (Z.leb_spec (base + k * 8) l), (Z.ltb_spec l (base + k * 8 + 8)); cbn [andb];
        zcases; cbn [andb]; try done; try lia.
      rewrite slice_slice by lia. f_equal. lia.
  - intros w (d' & -> & Hw). apply HQ. exact Hw.
Qed.

(** the six groups of writes, in their order *)
Lemma disk_after_writes d d1 d2 d3 d4 d5 total (mbr entries h1 h2 : list Z) l :
  67 <= total ->
  (forall l, sector d1 l = if l =? 0 then mbr else sector d l) ->
  written d1 d2 2 32 entries -> written d2 d3 (total - 33) 32 entries ->
  (forall l, sector d4 l = if l =? 1 then h1 else sector d3 l) ->
  (forall l, sector d5 l = if l =? total - 1 then h2 else sector d4 l) ->
  sector d5 l = if l =? total - 1 then h2 else if l =? 1 then h1 else if l =? 0 then mbr
    else if (2 <=? l) && (l <? 34) then slice entries (512 * (l - 2)) 512
    else if (total - 33 <=? l) && (l <? total - 1) then slice entries (512 * (l - (total - 33))) 512
    else sector d l.
Proof.
  intros Ht Hd1 Hd2 Hd3 Hd4 Hd5. rewrite Hd5, Hd4, Hd3, Hd2, Hd1. zcases; cbn [andb]; done || lia.
Qed.

(** the disk after the six groups of writes *)
Record formatted d d' (total : Z) : Prop := {
  fm_mbr : sector d' 0 = protective_mbr total;
  fm_primary : sector d' 1 = primary_header total (CalculateCRC32 (partition_entries total) 16384);
  fm_backup : sector d' (total - 1)
    = backup_header total (primary_header total (CalculateCRC32 (partition_entries total) 16384));
  fm_entries : forall l, 2 <= l < 34 -> sector d' l = slice (partition_entries total) (512 * (l - 2)) 512;
  fm_backup_entries : forall l, total - 33 <= l < total - 1 ->
    sector d' l = slice (partition_entries total) (512 * (l - (total - 33))) 512;
  fm_other : forall l, 34 <= l < total - 33 \/ total <= l -> sector d' l = sector d l
}.

Lemma wp_FormatDiskGPT total d mm out (Q : unit -> World D M -> Prop) :
  alloc_inv mm -> room [512; 16384] mm -> 67 <= total < 2 ^ 63 ->
  (forall d' out', formatted d d' total -> Q tt (mkWorld d' mm out')) ->
  wp (FormatDiskGPT true total) Q (mkWorld d mm out).
Proof.
  intros Hi Hr Ht HQ. unfold FormatDiskGPT. cbn [negb].
  assert (Ebs : backup_start_lba total = total - 33).
  { unfold backup_start_lba. change entry_sectors with 32. rewrite u64_small; lia. }
  rewrite Ebs, (u64_small (total - 1)) by lia. change entry_array_size with 16384.
  apply wp_bind, wp_kprintf, wp_bind, (wp_Buffer _ [16384]); [done|lia|done|]. intros p m1 Hi1 Hr1 HF1.
  apply wp_bind, wp_Write1; [apply zlen_mbr|apply mbr_bytes|]. intros d1 Hd1.
  apply wp_bind, (wp_Buffer _ []); [done|lia|done|]. intros q m2 Hi2 _ HF2. cbv zeta.
  pose proof (zlen_entries total) as Hel. pose proof (entries_bytes total) as Heb.
  apply wp_bind, wp_write_entries; [lia..|done|done|]. intros d2 Hd2.
  apply wp_bind, wp_write_entries; [lia..|done|done|]. intros d3 Hd3.
  apply wp_bind, wp_kprintf, wp_bind.
  set (crc := CalculateCRC32 (partition_entries total) 16384).
  pose proof (zlen_header0 total crc) as Hl0. pose proof (header0_bytes total crc) as Hb0.
  rewrite backup_header_eq, primary_header_eq.
  apply wp_Write1; [by apply zlen_set_crc|by apply set_crc_bytes|]. intros d4 Hd4.
  apply wp_bind, wp_Write1; [apply zlen_set_crc, zlen_header1|apply set_crc_bytes, header1_bytes|].
  intros d5 Hd5. apply wp_bind, wp_kprintf, wp_bind, wp_Free, wp_Free.
  rewrite Free_comm, HF2, HF1. apply HQ. split.
  all: clear HQ HF1 HF2 Hi1 Hi2 Hr1 Hl0 Hb0 Hel Heb.
  1-3: rewrite (disk_after_writes _ _ _ _ _ _ total _ _ _ _ _ (proj1 Ht) Hd1 Hd2 Hd3 Hd4 Hd5).
  4-6: intros l Hl; rewrite (disk_after_writes _ _ _ _ _ _ total _ _ _ _ _ (proj1 Ht) Hd1 Hd2 Hd3 Hd4 Hd5).
  all: clear Hd1 Hd2 Hd3 Hd4 Hd5; rewrite ?backup_header_eq, ?primary_header_eq; fold crc.
  all: zcases; cbn [andb]; first [exfalso; lia | reflexivity].
Qed.
End Run.

Lemma formatted_arrays (sec : Z -> list Z) base buf :
  zlen buf = 16384 ->
  (forall l, base <= l < base + 32 -> sec l = slice buf (512 * (l - base)) 512) -> sectors sec base 32 = buf.
Proof.
  intros Hl Hs. rewrite <- (sectors_slices base buf 32) by (rewrite Hl; done).
  apply sectors_ext. intros l Hr. apply Hs. lia.
Qed.

Lemma entry_of_entries total i :
  0 <= i < 128 ->
  let e := slice (partition_entries total) (128 * i) 128 in
  slice e 0 16 = if i =? 0 then guid_bytes kEspGuid else replicate 16 0.
Proof.
  intros Hi e. subst e. rewrite slice_slice, Z.add_0_r by lia. unfold partition_entries.
  destruct (Z.eqb_spec i 0) as [->|Hne].
  - apply (slice_store (entry_fields total) _ 0 (guid_bytes kEspGuid)).
    + rewrite zlen_zeros. apply entry_fields_ok.
    + by left.
  - assert (Hz : Z.of_nat (Z.to_nat entry_array_size) = 16384) by done.
    rewrite slice_store_other; rewrite ?zlen_zeros, ?Hz; try lia; try apply entry_fields_ok.
    + apply slice_zeros; lia.
    + assert (Hall : forallb (fun g => g.1 + zlen g.2 <=? 128) (entry_fields total) = true)
        by (vm_compute; reflexivity).
      intros g Hg. rewrite forallb_forall in Hall. specialize (Hall g Hg). lia.
Qed.

Lemma entry_lbas total off v :
  In (off, le_bytes 8 v) (entry_fields total) -> 0 <= v < 2 ^ 64 -> 0 <= off <= 120 ->
  get64 (slice (partition_entries total) 0 128) off = v.
Proof.
  intros Hin Hv Ho. unfold get64. rewrite slice_slice, Z.add_0_l by lia.
  apply (le_val_store _ (entry_fields total) off 8); [|done|done].
  rewrite zlen_zeros. apply entry_fields_ok.
Qed.

Section Correct.
Context {D : Type} `{BlockDeviceLaws D} (d d' : D) (total : Z).
Context (Htotal : 67 <= total < 2 ^ 63) (Hfm : formatted d d' total).

Context (crc : Z) (Ecrc : CalculateCRC32 (partition_entries total) 16384 = crc).

Lemma entries_crc_u32 : is_u32 crc.
Proof. rewrite <- Ecrc. apply CalculateCRC32_u32; [apply entries_bytes|]. rewrite zlen_entries. lia. Qed.

Lemma primary_array : sectors (sector d') 2 32 = partition_entries total.
Proof. apply formatted_arrays; [apply zlen_entries|]. intros l Hl. apply (fm_entries _ _ _ Hfm). lia. Qed.

Lemma backup_array : sectors (sector d') (total - 33) 32 = partition_entries total.
Proof. apply formatted_arrays; [apply zlen_entries|]. intros l Hl. apply (fm_backup_entries _ _ _ Hfm). lia. Qed.

Lemma primary_sector : sector d' 1 = set_crc (header0 total crc).
Proof. rewrite (fm_primary _ _ _ Hfm), Ecrc. apply primary_header_eq. Qed.

Lemma backup_sector : sector d' (total - 1) = set_crc (header1 total crc).
Proof. rewrite (fm_backup _ _ _ Hfm), Ecrc. apply backup_header_eq. Qed.

(** the fields of the primary header, by offset *)
Lemma header0_values :
  let h := header0 total crc in
  get64 h 0 = 0x5452415020494645 /\ get32 h 8 = 0x00010000 /\ get32 h 12 = 92
  /\ get64 h 24 = 1 /\ get64 h 32 = total - 1 /\ get64 h 40 = 2048 /\ get64 h 48 = total - 34
  /\ get64 h 72 = 2 /\ get32 h 80 = 128 /\ get32 h 84 = 128 /\ get32 h 88 = crc.
Proof.
  pose proof (u64_small (total - 1) ltac:(lia)) as E1. pose proof (u64_small (total - 34) ltac:(lia)) as E34.
  cbv zeta. unfold get64, get32. split_and!.
  1: apply (header0_field _ _ 0 8); [in_fields|lia].
  1: apply (header0_field _ _ 8 4); [in_fields|lia].
  1: apply (header0_field _ _ 12 4); [in_fields|lia].
  1: apply (header0_field _ _ 24 8); [in_fields|lia].
  1: rewrite <- E1; apply (header0_field _ _ 32 8); [in_fields|apply u64_range].
  1: apply (header0_field _ _ 40 8); [in_fields|lia].
  1: rewrite <- E34; apply (header0_field _ _ 48 8); [in_fields|apply u64_range].
  1: apply (header0_field _ _ 72 8); [in_fields|lia].
  1: apply (header0_field _ _ 80 4); [in_fields|unfold entry_cnt; lia].
  1: apply (header0_field _ _ 84 4); [in_fields|unfold entry_sz; lia].
  apply (header0_field _ _ 88 4); [in_fields|apply entries_crc_u32].
Qed.

Lemma header1_values :
  let h := header1 total crc in
  get64 h 24 = total - 1 /\ get64 h 32 = 1 /\ get64 h 72 = total - 33.
Proof.
  assert (Eb : backup_start_lba total = total - 33).
  { unfold backup_start_lba. change entry_sectors with 32. rewrite u64_small; lia. }
  pose proof (u64_small (total - 1) ltac:(lia)) as E1.
  cbv zeta. unfold get64. split_and!.
  - rewrite <- E1. apply (header1_field _ _ 24 8); [in_fields|apply u64_range].
  - apply (header1_field _ _ 32 8); [in_fields|lia].
  - rewrite <- Eb. apply (header1_field _ _ 72 8); [in_fields|]. rewrite Eb. lia.
Qed.

Lemma primary_valid : valid_header (sector d') 1.
Proof.
  destruct header0_values as (V0 & V8 & V12 & V24 & _ & _ & _ & V72 & V80 & V84 & V88).
  refine (set_crc_valid _ _ (header0 total crc) (zlen_header0 _ _) (header0_bytes _ _)
    primary_sector V0 V8 V12 (header0_reserved _ _) V24 V80 V84 _).
  rewrite V88, V72, primary_array. symmetry. exact Ecrc.
Qed.

Lemma backup_valid : valid_header (sector d') (total - 1).
Proof.
  destruct header0_values as (V0 & V8 & V12 & _ & _ & _ & _ & _ & V80 & V84 & V88).
  destruct header1_values as (W24 & _ & W72). pose proof (header0_reserved total crc) as V20.
  rewrite <- header1_get64 in V0 by lia. rewrite <- header1_get32 in V8, V12, V20, V80, V84, V88 by lia.
  refine (set_crc_valid _ _ (header1 total crc) (zlen_header1 _ _) (header1_bytes _ _)
    backup_sector V0 V8 V12 V20 W24 V80 V84 _).
  rewrite V88, W72, backup_array. symmetry. exact Ecrc.
Qed.

Lemma primary_places : header_places (sector d') 1 = (total - 1, 2048, total - 34, 2).
Proof.
  destruct header0_values as (_ & _ & _ & _ & V32 & V40 & V48 & V72 & _).
  unfold header_places, get64 in *. rewrite primary_sector. pose proof (zlen_header0 total crc).
  rewrite !slice_set_crc by lia. congruence.
Qed.

Lemma backup_places : header_places (sector d') (total - 1) = (1, 2048, total - 34, total - 33).
Proof.
  destruct header0_values as (_ & _ & _ & _ & _ & V40 & V48 & _).
  destruct header1_values as (_ & W32 & W72).
  rewrite <- header1_get64 in V40, V48 by lia.
  unfold header_places, get64 in *. rewrite backup_sector.
  pose proof (zlen_header1 total crc).
  rewrite !slice_set_crc by lia. congruence.
Qed.

Lemma entries_read lba : lba = 1 \/ lba = total - 1 ->
  gpt_entry (sector d') lba 0 = (guid_bytes kEspGuid, 2048, total - 34)
  /\ forall i, 1 <= i < 128 -> (gpt_entry (sector d') lba i).1.1 = replicate 16 0.
Proof.
  intros Hlba. assert (Harr : sectors (sector d') (get64 (sector d' lba) 72) 32 = partition_entries total).
  { destruct Hlba as [-> | ->].
    - pose proof primary_places as [= _ _ _ E]. rewrite E. apply primary_array.
    - pose proof backup_places as [= _ _ _ E]. rewrite E. apply backup_array. }
  unfold gpt_entry. rewrite Harr. pose proof (u64_small (total - 34) ltac:(lia)) as E34. split.
  - rewrite (entry_of_entries total 0) by lia. change (128 * 0) with 0.
    rewrite (entry_lbas total 32 2048), (entry_lbas total 40 (u64 (total - 34))), E34;
      [done|unfold entry_fields; in_fields|apply u64_range|lia|unfold entry_fields; in_fields|lia..].
  - intros i Hi. cbn [fst]. rewrite (entry_of_entries total i) by lia.
    by rewrite (proj2 (Z.eqb_neq i 0)) by lia.
Qed.
End Correct.

(** C22: FormatDiskGPT leaves a disk a reader of partition tables accepts: a
    protective MBR, and two headers with correct checksums of themselves and of
    their entry arrays, each naming the other, with one EFI system partition from
    block 2048 on; no other block changes and both buffers are given back. *)
Theorem FormatDiskGPT_valid {D M : Type} `{BlockDeviceLaws D} `{FrameAllocatorLaws M}
    (d : D) (mm : M) out total :
  alloc_inv mm -> room [512; 16384] mm -> 67 <= total < 2 ^ 63 ->
  exists d' out', FormatDiskGPT true total (mkWorld d mm out) = Done tt (mkWorld d' mm out')
  /\ sector d' 0 = protective_mbr total
  /\ valid_header (sector d') 1 /\ valid_header (sector d') (total - 1)
  /\ header_places (sector d') 1 = (total - 1, 2048, total - 34, 2)
  /\ header_places (sector d') (total - 1) = (1, 2048, total - 34, total - 33)
  /\ (forall lba, lba = 1 \/ lba = total - 1 ->
       gpt_entry (sector d') lba 0 = (guid_bytes kEspGuid, 2048, total - 34)
       /\ forall i, 1 <= i < 128 -> (gpt_entry (sector d') lba i).1.1 = replicate 16 0)
  /\ forall l, 34 <= l < total - 33 \/ total <= l -> sector d' l = sector d l.
Proof.
  intros Hi Hr Ht.
  assert (HW : wp (FormatDiskGPT true total)
    (fun _ w' => exists d' out', w' = mkWorld d' mm out' /\ formatted d d' total) (mkWorld d mm out)).
  { apply wp_FormatDiskGPT; [done..|]. intros d' out' Hfm. by exists d', out'. }
  apply wp_Done in HW as ([] & w' & HW & d' & out' & -> & Hfm). exists d', out'. split_and!.
  - done.
  - apply (fm_mbr _ _ _ Hfm).
  - exact (primary_valid d d' total Ht Hfm _ eq_refl).
  - exact (backup_valid d d' total Ht Hfm _ eq_refl).
  - exact (primary_places d d' total Ht Hfm _ eq_refl).
  - exact (backup_places d d' total Ht Hfm _ eq_refl).
  - intros lba Hlba. exact (entries_read d d' total Ht Hfm _ eq_refl lba Hlba).
  - apply (fm_other _ _ _ Hfm).
Qed.

Lemma FormatDiskGPT_valid_witness : exists d' out',
  FormatDiskGPT true 65536 (mkWorld (∅ : RamDisk) sample []) = Done tt (mkWorld d' sample out')
  /\ valid_header (sector d') 1 /\ valid_header (sector d') 65535.
Proof.
  destruct (FormatDiskGPT_valid (∅ : RamDisk) sample [] 65536) as (d' & out' & HF & _ & H1 & H2 & _).
  - exact sample_inv.
  - split; [|split; [|exact I]]; vm_compute; discriminate.
  - lia.
  - exists d', out'. exact (conj HF (conj H1 H2)).
Defined.
