(* ===== verification/Fat32Format.v ===== *)
(** * Formatting a partition as FAT32 (fs/fat32/fat32.cpp)

    [FormatPartitionFAT32] over any disk, and the volume that the driver of Fat32.v
    finds afterwards: an empty root directory and a table whose first 128 sectors
    are clear. *)
From S2P Require Import Prelude Memory CStr Device Fat32Names Fat32 Fat32Table Fat32Files.

Definition kPartitionStartLBA : Z := 2048.

Definition total_clusters (part_sectors : Z) : Z := u32 (part_sectors / 8).
Definition fat_sz_sec (part_sectors : Z) : Z := u32 (u32 (total_clusters part_sectors * 4) + 511) / 512.

(** the stores to FAT32_BPB *)
Definition bpb_fields (part_sectors : Z) : list (Z * list Z) :=
  [ (0, [0xEB]); (1, [0x58]); (2, [0x90]);          (* jmp_boot *)
    (3, c_lit "MSWIN4.1");                          (* oem_name *)
    (11, le_bytes 2 512);                           (* bytes_per_sec *)
    (13, [8]);                                      (* sec_per_clus *)
    (14, le_bytes 2 32);                            (* reserved_sec_cnt *)
    (16, [2]);                                      (* num_fats *)
    (17, le_bytes 2 0);                             (* root_ent_cnt *)
    (19, le_bytes 2 0);                             (* tot_sec16 *)
    (21, [0xF8]);                                   (* media *)
    (22, le_bytes 2 0);                             (* fat_sz16 *)
    (24, le_bytes 2 32);                            (* sec_per_trk *)
    (26, le_bytes 2 64);                            (* num_heads *)
    (28, le_bytes 4 kPartitionStartLBA);            (* hidd_sec *)
    (32, le_bytes 4 (u32 part_sectors));            (* tot_sec32 *)
    (36, le_bytes 4 (fat_sz_sec part_sectors));     (* fat_sz32 *)
    (40, le_bytes 2 0);                             (* ext_flags *)
    (42, le_bytes 2 0);                             (* fs_ver *)
    (44, le_bytes 4 2);                             (* root_clus *)
    (48, le_bytes 2 1);                             (* fs_info *)
    (50, le_bytes 2 6);                             (* bk_boot_sec *)
    (64, [0x80]);                                   (* drv_num *)
    (66, [0x29]);                                   (* boot_sig *)
    (67, le_bytes 4 0x12345678);                    (* vol_id *)
    (71, c_lit "SYLPHIA OS ");                      (* vol_lab *)
    (82, c_lit "FAT32   ");                         (* fil_sys_type *)
    (510, le_bytes 2 0xAA55) ].                     (* signature *)

(** the stores to FAT32_FSInfo *)
Definition fsinfo_fields (part_sectors : Z) : list (Z * list Z) :=
  [ (0, le_bytes 4 0x41615252);                     (* lead_sig *)
    (484, le_bytes 4 0x61417272);                   (* struc_sig *)
    (488, le_bytes 4 (u32 (total_clusters part_sectors - 1)));  (* free_count *)
    (492, le_bytes 4 3);                            (* nxt_free *)
    (508, le_bytes 4 0xAA550000) ].                 (* trail_sig *)

(** the first three entries of the table *)
Definition fat_fields : list (Z * list Z) :=
  [ (0, le_bytes 4 0x0FFFFFF8); (4, le_bytes 4 0x0FFFFFFF); (8, le_bytes 4 0x0FFFFFFF) ].

Definition zero_sector : list Z := replicate 512 0.
Definition bpb_sector (part_sectors : Z) : list Z := store zero_sector (bpb_fields part_sectors).
Definition fsinfo_sector (part_sectors : Z) : list Z := store zero_sector (fsinfo_fields part_sectors).
Definition fat_sector : list Z := store zero_sector fat_fields.

Section Format.
Context {D M : Type} `{BlockDevice D} `{FrameAllocator M}.
Local Abbreviation FS := (FS D M).

(** [for (i = lo; n times; ++i) Write(base + i, buf, 1);] *)
Definition write_each (n : nat) (lo base : Z) (buf : list Z) : FS unit :=
  fs_for n lo (fun i => Write (u64 (base + i)) buf 1 ;; fs_ret tt).

Definition FormatPartitionFAT32 (part_sectors : Z) : FS unit :=
  kprintf "[Installer] Formatting Partition 1 as FAT32...\n" [] ;;
  buf <- Buffer 512 4096 ;;
  kprintf "[Format] Total Sectors: %lld, FAT Size: %d sectors\n"
    [KInt part_sectors; KInt (fat_sz_sec part_sectors)] ;;
  Write (kPartitionStartLBA + 0) (bpb_sector part_sectors) 1 ;;
  Write (kPartitionStartLBA + 6) (bpb_sector part_sectors) 1 ;;
  kprintf "[Format] BPB Written.\n" [] ;;
  Write (kPartitionStartLBA + 1) (fsinfo_sector part_sectors) 1 ;;
  Write (kPartitionStartLBA + 7) (fsinfo_sector part_sectors) 1 ;;
  kprintf "[Format] FSInfo Written.\n" [] ;;
  let fat1_start := u64 (kPartitionStartLBA + 32) in
  Write fat1_start fat_sector 1 ;;
  let fat2_start := u64 (fat1_start + fat_sz_sec part_sectors) in
  Write fat2_start fat_sector 1 ;;
  write_each 127 1 fat1_start zero_sector ;;
  write_each 127 1 fat2_start zero_sector ;;
  kprintf "[Format] FAT Tables Initialized (Partial Clear).\n" [] ;;
  let data_start_lba := u64 (kPartitionStartLBA + 32 + u32 (2 * fat_sz_sec part_sectors)) in
  write_each 8 0 data_start_lba zero_sector ;;
  kprintf "[Format] Root Directory Initialized.\n" [] ;;
  kprintf "[Installer] FAT32 Format Complete!\n" [] ;;
  Free_ buf 512.
End Format.

(** ** The sectors written *)

Lemma zero_sector_ok : zlen zero_sector = 512 /\ Forall is_byte zero_sector.
Proof. split; [apply zlen_zeros|apply zeros_bytes]. Qed.

Lemma bpb_fields_ok part : fields_ok (zlen zero_sector) (bpb_fields part) = true.
Proof. vm_compute. reflexivity. Qed.

Lemma bpb_sector_ok part : zlen (bpb_sector part) = 512 /\ Forall is_byte (bpb_sector part).
Proof.
  split; [unfold bpb_sector; rewrite zlen_store; [apply zlen_zeros|apply bpb_fields_ok]|].
  apply store_bytes; [apply zeros_bytes|].
  repeat (apply Forall_cons; split; [cbn [snd]; first
    [apply le_bytes_range | apply (bool_decide_unpack _); vm_compute; exact I]|]); by apply Forall_nil.
Qed.

Lemma fsinfo_sector_ok part : zlen (fsinfo_sector part) = 512 /\ Forall is_byte (fsinfo_sector part).
Proof.
  split; [unfold fsinfo_sector; rewrite zlen_store; [apply zlen_zeros|vm_compute; reflexivity]|].
  apply store_bytes; [apply zeros_bytes|].
  repeat (apply Forall_cons; split; [apply le_bytes_range|]); by apply Forall_nil.
Qed.

Lemma fat_sector_ok : zlen fat_sector = 512 /\ Forall is_byte fat_sector.
Proof. split; [vm_compute; reflexivity|apply (bool_decide_unpack _); vm_compute; exact I]. Qed.

(** ** The disk afterwards *)

Section Run.
Context {D M : Type} `{BlockDeviceLaws D} `{FrameAllocatorLaws M}.
Implicit Types (d : D) (mm : M).

Lemma wp_write_each n lo base buf d mm out (Q : unit -> World D M -> Prop) :
  zlen buf = 512 /\ Forall is_byte buf -> 0 <= lo -> 0 <= base -> base + lo + Z.of_nat n < 2 ^ 64 ->
  (forall d', (forall l, sector d' l = if (base + lo <=? l) && (l <? base + lo + Z.of_nat n)
                                       then buf else sector d l) -> Q tt (mkWorld d' mm out)) ->
  wp (write_each n lo base buf) Q (mkWorld d mm out).
Proof.
  intros [Hl Hb] Hlo Hbase Hend HQ. unfold write_each.
  apply (wp_for (fun k w => exists d', w = mkWorld d' mm out /\
    forall l, sector d' l = if (base + lo <=? l) && (l <? base + k) then buf else sector d l)).
  - exists d. split; [done|]. intros l. zcases; cbn [andb]; done || lia.
  - intros k w Hk (d1 & -> & Hd1). rewrite u64_small by lia.
    apply wp_bind, wp_Write1; [done..|]. intros d2 Hd2. apply wp_ret. exists d2. split; [done|].
    intros l. rewrite Hd2, Hd1. zcases; cbn [andb]; done || lia.
  - intros w (d' & -> & Hd'). apply HQ. intros l. rewrite Hd'. by rewrite Z.add_assoc.
Qed.

(** what FormatPartitionFAT32 leaves on the disk, [fat] sectors being the size of
    a table *)
Record fresh d d' (part fat : Z) : Prop := {
  fr_bpb : sector d' 2048 = bpb_sector part;
  fr_fat1 : sector d' 2080 = fat_sector;
  fr_fat1_rest : forall s, 1 <= s < 128 -> sector d' (2080 + s) = zero_sector;
  fr_fat2 : sector d' (2080 + fat) = fat_sector;
  fr_fat2_rest : forall s, 1 <= s < 128 -> sector d' (2080 + fat + s) = zero_sector;
  fr_root : forall s, 0 <= s < 8 -> sector d' (2080 + 2 * fat + s) = zero_sector;
  fr_other : forall l,
    l < 2048 \/ 2080 + 128 <= l < 2080 + fat \/ 2080 + fat + 128 <= l < 2080 + 2 * fat
      \/ 2080 + 2 * fat + 8 <= l -> sector d' l = sector d l
}.

Lemma fat_sz_range part : 2 ^ 17 <= part < 2 ^ 31 ->
  128 <= fat_sz_sec part <= 2 ^ 21 /\ 2 * fat_sz_sec part + 1056 <= part
  /\ total_clusters part <= 128 * fat_sz_sec part.
Proof.
  intros Hp. unfold fat_sz_sec, total_clusters.
  pose proof (Z.div_mod part 8 ltac:(lia)) as E. pose proof (Z.mod_pos_bound part 8 ltac:(lia)) as Hm.
  set (c := part / 8) in *. clearbody c. set (r := part mod 8) in *. clearbody r.
  rewrite !(u32_small c) by lia. rewrite (u32_small (c * 4)) by lia. rewrite (u32_small (c * 4 + 511)) by lia.
  pose proof (Z.div_mod (c * 4 + 511) 512 ltac:(lia)).
  pose proof (Z.mod_pos_bound (c * 4 + 511) 512 ltac:(lia)). lia.
Qed.

(** the cases of the comparisons, those that cannot occur dropped on the way *)
Ltac zprune :=
  repeat (match goal with
          | |- context [Z.leb ?a ?b] => destruct (Z.leb_spec a b)
          | |- context [Z.ltb ?a ?b] => destruct (Z.ltb_spec a b)
          | |- context [Z.eqb ?a ?b] => destruct (Z.eqb_spec a b)
          end; cbn [andb orb]; try reflexivity; try (exfalso; lia)).

Lemma disk_after_format d d1 d2 d3 d4 d5 d6 d7 d8 d9 fat (bpb info f z : list Z) l :
  128 <= fat ->
  (forall l, sector d1 l = if l =? 2048 then bpb else sector d l) ->
  (forall l, sector d2 l = if l =? 2054 then bpb else sector d1 l) ->
  (forall l, sector d3 l = if l =? 2049 then info else sector d2 l) ->
  (forall l, sector d4 l = if l =? 2055 then info else sector d3 l) ->
  (forall l, sector d5 l = if l =? 2080 then f else sector d4 l) ->
  (forall l, sector d6 l = if l =? 2080 + fat then f else sector d5 l) ->
  (forall l, sector d7 l = if (2080 + 1 <=? l) && (l <? 2080 + 1 + Z.of_nat 127) then z else sector d6 l) ->
  (forall l, sector d8 l = if (2080 + fat + 1 <=? l) && (l <? 2080 + fat + 1 + Z.of_nat 127)
                                   then z else sector d7 l) ->
  (forall l, sector d9 l = if (2080 + 2 * fat + 0 <=? l) && (l <? 2080 + 2 * fat + 0 + Z.of_nat 8)
                                   then z else sector d8 l) ->
  sector d9 l = if l <? 2080
    then (if (l =? 2048) || (l =? 2054) then bpb else if (l =? 2049) || (l =? 2055) then info else sector d l)
    else if (l =? 2080) || (l =? 2080 + fat) then f
    else if (l <? 2208) || ((2080 + fat <=? l) && (l <? 2080 + fat + 128))
            || ((2080 + 2 * fat <=? l) && (l <? 2080 + 2 * fat + 8)) then z
    else sector d l.
Proof.
  intros Hf H1' H2' H3' H4' H5' H6' H7' H8' H9'.
  rewrite H9', H8', H7', H6', H5', H4', H3', H2', H1'. clear H1' H2' H3' H4' H5' H6' H7' H8' H9'.
  zprune.
Qed.

Lemma wp_FormatPartitionFAT32 part d mm out (Q : unit -> World D M -> Prop) :
  alloc_inv mm -> room [512] mm -> 2 ^ 17 <= part < 2 ^ 31 ->
  (forall d' out', fresh d d' part (fat_sz_sec part) -> Q tt (mkWorld d' mm out')) ->
  wp (FormatPartitionFAT32 part) Q (mkWorld d mm out).
Proof.
  intros Hi Hr Hp HQ. destruct (fat_sz_range part Hp) as (Hfat & _). unfold FormatPartitionFAT32.
  pose proof (bpb_sector_ok part) as [Hlb Hbb]. pose proof (fsinfo_sector_ok part) as [Hli Hbi].
  pose proof fat_sector_ok as [Hlf Hbf].
  change (kPartitionStartLBA + 0) with 2048. change (kPartitionStartLBA + 6) with 2054.
  change (kPartitionStartLBA + 1) with 2049. change (kPartitionStartLBA + 7) with 2055.
  change (u64 (kPartitionStartLBA + 32)) with 2080. change (kPartitionStartLBA + 32) with 2080.
  set (bpb := bpb_sector part) in *. set (info := fsinfo_sector part) in *.
  set (fat := fat_sz_sec part) in *. cbv zeta.
  rewrite (u32_small (2 * fat)), !u64_small by lia.
  apply wp_bind, wp_kprintf, wp_bind, (wp_Buffer _ []); [done|lia|done|]. intros p m1 Hi1 _ HF1.
  apply wp_bind, wp_kprintf.
  apply wp_bind, wp_Write1; [done..|]. intros d1 Hd1. apply wp_bind, wp_Write1; [done..|]. intros d2 Hd2.
  apply wp_bind, wp_kprintf.
  apply wp_bind, wp_Write1; [done..|]. intros d3 Hd3. apply wp_bind, wp_Write1; [done..|]. intros d4 Hd4.
  apply wp_bind, wp_kprintf.
  apply wp_bind, wp_Write1; [done..|]. intros d5 Hd5. apply wp_bind, wp_Write1; [done..|]. intros d6 Hd6.
  apply wp_bind, wp_write_each; [apply zero_sector_ok|lia..|]. intros d7 Hd7.
  apply wp_bind, wp_write_each; [apply zero_sector_ok|lia..|]. intros d8 Hd8.
  apply wp_bind, wp_kprintf.
  apply wp_bind, wp_write_each; [apply zero_sector_ok|lia..|]. intros d9 Hd9.
  apply wp_bind, wp_kprintf, wp_bind, wp_kprintf, wp_Free. rewrite HF1. apply HQ.
  assert (Hd := fun l => disk_after_format d d1 d2 d3 d4 d5 d6 d7 d8 d9 fat bpb info fat_sector
    zero_sector l (proj1 Hfat) Hd1 Hd2 Hd3 Hd4 Hd5 Hd6 Hd7 Hd8 Hd9).
  clear Hd1 Hd2 Hd3 Hd4 Hd5 Hd6 Hd7 Hd8 Hd9 HQ HF1.
  split; try intros s Hs.
  all: rewrite Hd; zprune.
Qed.
End Run.

(** ** The volume the driver finds *)

(** the driver's state after Initialize, from the sector it read *)
Definition volume_of (lba : Z) (bpb : list Z) : FAT32Driver :=
  let fat_start := u64 (lba + get16 bpb 14) in
  mkFAT32Driver lba (rd bpb 13) (get16 bpb 14) (rd bpb 16) (get32 bpb 36) (get32 bpb 44)
    fat_start (u64 (fat_start + u32 (rd bpb 16 * get32 bpb 36))).

Lemma wp_Initialize {D M : Type} `{BlockDeviceLaws D} `{FrameAllocatorLaws M} lba (d : D) (mm : M) out
    (Q : FAT32Driver -> World D M -> Prop) :
  alloc_inv mm -> room [512] mm ->
  (forall out', Q (volume_of lba (sector d lba)) (mkWorld d mm out')) ->
  wp (Fat32.Initialize lba) Q (mkWorld d mm out).
Proof.
  intros Hi Hr HQ. unfold Fat32.Initialize.
  apply wp_bind, (wp_Buffer _ []); [done|lia|done|]. intros p m1 Hi1 _ HF1.
  apply wp_bind, wp_Read1. do 4 apply wp_bind, wp_kprintf. cbv zeta.
  apply wp_bind, wp_kprintf, wp_bind, wp_Free. rewrite HF1. apply wp_ret, HQ.
Qed.

(** the driver's state after Initialize *)
Definition new_volume (part : Z) : FAT32Driver :=
  mkFAT32Driver 2048 8 32 2 (fat_sz_sec part) 2 2080 (2080 + 2 * fat_sz_sec part).

Lemma bpb_word part off n v :
  In (off, le_bytes n v) (bpb_fields part) -> 0 <= v < 256 ^ Z.of_nat n ->
  le_val (slice (bpb_sector part) off (Z.of_nat n)) = v.
Proof. intros. apply le_val_store; [apply bpb_fields_ok|done..]. Qed.

Lemma bpb_byte part off v : In (off, [v]) (bpb_fields part) -> rd (bpb_sector part) off = v.
Proof. intros. apply rd_store; [apply bpb_fields_ok|done]. Qed.

Lemma fat_sector_entries :
  forallb (fun i => fat_entry fat_sector i =? (if i =? 2 then EOCC else 0)) (seqZ 2 126) = true.
Proof. vm_compute. reflexivity. Qed.

Lemma fat_sector_entry i : 2 <= i < 128 -> fat_entry fat_sector i = if i =? 2 then EOCC else 0.
Proof.
  intros Hi. pose proof fat_sector_entries as Hall. rewrite forallb_forall in Hall.
  apply Z.eqb_eq, Hall, list_elem_of_In, elem_of_seqZ. lia.
Qed.

Lemma zero_sector_entry i : 0 <= i < 128 -> fat_entry zero_sector i = 0.
Proof. intros Hi. unfold fat_entry, get32, zero_sector, slice. rewrite drop_replicate, take_replicate.
  by replace (Z.to_nat 4 `min` (512 - Z.to_nat (4 * i)))%nat with 4%nat by lia.
Qed.

Lemma filter_agree {A} (P Q : A -> Prop) `{!forall x, Decision (P x), !forall x, Decision (Q x)} (l : list A) :
  (forall x, x ∈ l -> (P x <-> Q x)) -> filter P l = filter Q l.
Proof.
  induction l as [|x l IH]; intros HPQ; [done|]. rewrite !filter_cons.
  rewrite IH by (intros y Hy; apply HPQ; by right).
  destruct (decide (P x)) as [Hx|Hx], (decide (Q x)) as [Hy|Hy]; try done; exfalso.
  - apply Hy, HPQ; [left|done].
  - apply Hx, HPQ; [left|done].
Qed.

Section Volume.
Context {D M : Type} `{BlockDeviceLaws D} `{FrameAllocatorLaws M}.
Context (part : Z) (Hpart : 2 ^ 17 <= part < 2 ^ 31).
Implicit Types (d : D) (mm : M).
Local Abbreviation vol := (new_volume part).

Lemma new_volume_geometry : geometry vol.
Proof. destruct (fat_sz_range part Hpart) as (Hf & _). split; cbn; done || lia. Qed.

Section Fresh.
Context (d d' : D) (Hfr : fresh d d' part (fat_sz_sec part)).

Lemma wp_Initialize_fresh mm out (Q : FAT32Driver -> World D M -> Prop) :
  alloc_inv mm -> room [512] mm -> (forall out', Q vol (mkWorld d' mm out')) ->
  wp (Fat32.Initialize 2048) Q (mkWorld d' mm out).
Proof.
  intros Hi Hr HQ. destruct (fat_sz_range part Hpart) as (Hf & _).
  apply wp_Initialize; [done..|]. intros out'. replace (volume_of _ _) with vol; [apply HQ|].
  rewrite (fr_bpb _ _ _ _ Hfr).
  assert (V13 : rd (bpb_sector part) 13 = 8) by (apply bpb_byte; in_fields).
  assert (V14 : get16 (bpb_sector part) 14 = 32) by (apply (bpb_word part 14 2 32); [in_fields|lia]).
  assert (V16 : rd (bpb_sector part) 16 = 2) by (apply bpb_byte; in_fields).
  assert (V36 : get32 (bpb_sector part) 36 = fat_sz_sec part)
    by (apply (bpb_word part 36 4 (fat_sz_sec part)); [in_fields|lia]).
  assert (V44 : get32 (bpb_sector part) 44 = 2) by (apply (bpb_word part 44 4 2); [in_fields|lia]).
  unfold volume_of. rewrite V13, V14, V16, V36, V44. cbv zeta.
  by rewrite u32_small, !u64_small by lia.
Qed.

(** the table: the root directory's chain of one cluster, nothing else *)
Lemma fresh_fat c : 2 <= c < 16384 -> fat_raw vol d' c = if c =? 2 then EOCC else 0.
Proof.
  intros Hc. unfold fat_raw. cbn [fat_start_lba_ new_volume].
  pose proof (Z.mod_pos_bound c 128 ltac:(lia)) as Hm.
  destruct (Z.ltb_spec c 128).
  - rewrite Z.div_small, Z.mod_small, Z.add_0_r, (fr_fat1 _ _ _ _ Hfr) by lia. apply fat_sector_entry. lia.
  - rewrite (fr_fat1_rest _ _ _ _ Hfr) by zlia. rewrite zero_sector_entry by done.
    by rewrite (proj2 (Z.eqb_neq c 2)) by lia.
Qed.

Lemma fresh_root i : 0 <= i < 128 -> slot (cluster_data vol d' 2) i = replicate 32 0.
Proof.
  intros Hi. pose proof new_volume_geometry as Hg.
  replace i with (16 * (i / 16) + i mod 16) by zlia.
  rewrite slot_cluster; [|cbn; zlia|zlia]. rewrite cluster_lba by (done || lia).
  cbn [data_start_lba_ sec_per_clus_ new_volume]. rewrite Z.sub_diag, Z.mul_0_l, Z.add_0_r.
  rewrite (fr_root _ _ _ _ Hfr) by zlia. unfold slot, slice, zero_sector.
  rewrite drop_replicate, take_replicate. f_equal. zlia.
Qed.

Lemma fresh_free : length (free_clusters vol d') = 125%nat.
Proof.
  unfold free_clusters.
  transitivity (length (filter (fun c => (if c =? 2 then EOCC else 0) = 0) (seqZ 2 126))); [|by vm_compute].
  f_equal. apply filter_agree. intros c Hc%elem_of_seqZ. rewrite fresh_fat by lia. done.
Qed.

Lemma fresh_writable name path data :
  is_cstr name -> cch name 0 <> 0 /\ cch name 0 <> 229 -> plain_name path ->
  IsNameEqual (name11 name) path = true -> Forall is_byte data -> 0 < zlen data <= 125 * 4096 ->
  writable vol d' 0 name path data.
Proof.
  intros Hname Hn0 Hpath Hm Hb Hd. destruct (fat_sz_range part Hpart) as (Hf & _).
  pose proof new_volume_geometry as Hg. change (or_root vol 0) with 2.
  split; try change (or_root vol 0) with 2; try done.
  - unfold clusters. cbn. lia.
  - by rewrite fresh_fat by lia.
  - exists 0. split; [cbn; lia|]. rewrite fresh_root by lia. done.
  - intros i. rewrite scan_entries_slots.
    + change (num_entries vol) with 128. change (Z.to_nat 128) with (S 127). cbn [for_return].
      rewrite fresh_root by lia. discriminate.
    + rewrite zlen_cluster_data by done. vm_compute. discriminate.
  - lia.
  - rewrite fresh_free. change (cluster_bytes vol) with 4096. lia.
Qed.
End Fresh.
End Volume.

(** A formatted partition is a volume the driver accepts: Initialize finds the
    geometry that was written, the root directory is empty, its cluster and no other
    is taken among the first 16384 entries of the table, and any file of up to 125
    clusters can be written.  The sectors before the partition and behind the root
    directory stay as they were, and the buffers are given back. *)
Theorem FormatPartitionFAT32_fresh {D M : Type} `{BlockDeviceLaws D} `{FrameAllocatorLaws M}
    (d : D) (mm : M) out part :
  alloc_inv mm -> room [512] mm -> 2 ^ 17 <= part < 2 ^ 31 ->
  let vol := new_volume part in
  exists d' out' out'',
    FormatPartitionFAT32 part (mkWorld d mm out) = Done tt (mkWorld d' mm out')
    /\ Fat32.Initialize 2048 (mkWorld d' mm out') = Done vol (mkWorld d' mm out'')
    /\ geometry vol
    /\ (forall i, 0 <= i < 128 -> slot (cluster_data vol d' 2) i = replicate 32 0)
    /\ (forall c, 2 <= c < 16384 -> fat_raw vol d' c = if c =? 2 then EOCC else 0)
    /\ (forall name path data,
          is_cstr name -> cch name 0 <> 0 /\ cch name 0 <> 229 -> plain_name path ->
          IsNameEqual (name11 name) path = true -> Forall is_byte data -> 0 < zlen data <= 125 * 4096 ->
          writable vol d' 0 name path data)
    /\ forall l, l < 2048 \/ ClusterToLBA vol 3 <= l -> sector d' l = sector d l.
Proof.
  intros Hi Hr Hp vol. pose proof (new_volume_geometry part Hp) as Hg.
  assert (HW : wp (FormatPartitionFAT32 part)
    (fun _ w' => exists d' out', w' = mkWorld d' mm out' /\ fresh d d' part (fat_sz_sec part)) (mkWorld d mm out)).
  { apply wp_FormatPartitionFAT32; [done..|]. intros d' out' Hfr. by exists d', out'. }
  apply wp_Done in HW as ([] & w' & HF & d' & out' & -> & Hfr).
  assert (HI : wp (Fat32.Initialize 2048)
    (fun v w' => v = vol /\ exists out'', w' = mkWorld d' mm out'') (mkWorld d' mm out')).
  { apply (wp_Initialize_fresh part Hp d d' Hfr); [done..|]. intros o. split; [done|by exists o]. }
  apply wp_Done in HI as (v & w' & HI & -> & out'' & ->). exists d', out', out''. split_and!; try done.
  - intros i. exact (fresh_root part Hp d d' Hfr i).
  - intros c. exact (fresh_fat part d d' Hfr c).
  - intros. by apply (fresh_writable part Hp d d' Hfr).
  - intros l Hl. apply (fr_other _ _ _ _ Hfr). unfold vol in Hl. rewrite cluster_lba in Hl by (done || lia).
    cbn in Hl. lia.
Qed.

Lemma FormatPartitionFAT32_fresh_witness : exists d' out' out'',
  FormatPartitionFAT32 131072 (mkWorld (∅ : RamDisk) sample []) = Done tt (mkWorld d' sample out')
  /\ Fat32.Initialize 2048 (mkWorld d' sample out') = Done (new_volume 131072) (mkWorld d' sample out'')
  /\ writable (new_volume 131072) d' 0 (c_lit "HELLO   TXT") (c_lit "hello.txt") (c_lit "Hello").
Proof.
  destruct (FormatPartitionFAT32_fresh (∅ : RamDisk) sample [] 131072) as (d' & o & o' & H1 & H2 & _ & _ & _ & H3 & _).
  - exact sample_alloc_inv.
  - split; [vm_compute; discriminate|exact I].
  - split; [vm_compute; discriminate|reflexivity].
  - exists d', o, o'. split; [exact H1|split; [exact H2|]]. apply H3.
    + apply (bool_decide_unpack _). vm_compute. exact I.
    + vm_compute. split; discriminate.
    + apply (bool_decide_unpack _). vm_compute. exact I.
    + vm_compute. reflexivity.
    + apply (bool_decide_unpack _). vm_compute. exact I.
    + vm_compute. split; [reflexivity|discriminate].
Defined.
