(* ===== verification/Installer.v ===== *)
(** * The installer and the file system's part of the boot (fs/installer.cpp, main.cpp)

    [RunInstaller] copies the system from a USB stick to the internal disk;
    [BootFileSystem] is the fifth step of KernelMain, which formats an empty disk.
    The world has two disks: the USB stick first, the internal disk second. *)
From S2P Require Import Prelude Memory CStr Device Fat32Names Fat32 Fat32Table Fat32Files Crc32 Gpt Fat32Format.

Section Installer.
Context {D1 D2 M : Type} `{BlockDevice D1} `{BlockDevice D2} `{FrameAllocator M}.
Local Abbreviation FS := (FS (D1 * D2) M).

(** the block [operator new] takes for an object of [sizeof(FAT32Driver)] = 56
    bytes with its 16-byte header; its address is used without a test *)
Definition new_driver : FS Z := Buffer (56 + 16) 16.
Definition delete_driver (p : Z) : FS unit := Free_ p (56 + 16).

(** where the USB stick's first partition starts, and what is printed about it *)
Definition usb_partition (buf : list Z) : FS Z :=
  if (rd buf 510 =? 0x55) && (rd buf 511 =? 0xAA) then
    let is_bpb := (rd buf 0 =? 0xEB) || (rd buf 0 =? 0xE9) in
    if negb is_bpb then
      let start_lba := get32 buf (0x1BE + 8) in
      kprintf "[Installer] MBR detected. Partition 1 starts at LBA %d\n" [KInt start_lba] ;;
      fs_ret start_lba
    else
      kprintf "[Installer] BPB detected at LBA 0 (Superfloppy format).\n" [] ;;
      fs_ret 0
  else fs_ret 0.

Definition startup_script : list Z := c_lit "\\EFI\\BOOT\\BOOTX64.EFI".

(** [g_mass_storage]: a USB stick is there; [junk]: what the buffers of the five copies
    hold *)
Definition RunInstaller (fuel : nat) (junk : nat -> list Z) (g_mass_storage : bool) (nvme_fs : FAT32Driver)
    (already_installed : bool) : FS unit :=
  if negb g_mass_storage then
    kprintf "[Installer] No USB Mass Storage detected.\n" []
  else
    kprintf "[Installer] USB Mass Storage Detected. Checking for updates...\n" [] ;;
    buf <- Buffer 512 16 ;;
    let* (_, content) := on_src (Read 0 1) in
    usb_part_lba <- usb_partition content ;;
    Free_ buf 512 ;;
    obj <- new_driver ;;
    usb_fs <- on_src (Fat32.Initialize usb_part_lba) ;;
    (if negb already_installed then
      kprintf "[Installer] Performing initial file copy...\n" [] ;;
      on_dst (EnsureDirectory nvme_fs (c_lit "sys")) ;;
      on_dst (EnsureDirectory nvme_fs (c_lit "sys/bin")) ;;
      on_dst (EnsureDirectory nvme_fs (c_lit "home")) ;;
      CopyFileFrom fuel (junk 0%nat) nvme_fs usb_fs (c_lit "EFI/BOOT/BOOTX64.EFI") (c_lit "EFI/BOOT/BOOTX64.EFI") ;;
      CopyFileFrom fuel (junk 1%nat) nvme_fs usb_fs (c_lit "apps/shell.elf") (c_lit "sys/bin/shell.elf") ;;
      CopyFileFrom fuel (junk 2%nat) nvme_fs usb_fs (c_lit "apps/stdio.elf") (c_lit "sys/bin/stdio.elf") ;;
      CopyFileFrom fuel (junk 3%nat) nvme_fs usb_fs (c_lit "apps/test.elf") (c_lit "sys/bin/test.elf") ;;
      CopyFileFrom fuel (junk 4%nat) nvme_fs usb_fs (c_lit "kernel.elf") (c_lit "kernel.elf") ;;
      kprintf "[Installer] Update process finished.\n" [] ;;
      on_dst (WriteFile fuel nvme_fs (c_lit "STARTUP NSH") startup_script 21 0) ;;
      kprintf "[Installer] startup.nsh created.\n" [] ;;
      kprintf "[Installer] Installation Complete!\n" []
     else fs_ret tt) ;;
    delete_driver obj.

(** KernelMain, step 5; the result is [g_system_fs] *)
Definition BootFileSystem (fuel : nat) (junk : nat -> list Z) (g_nvme g_mass_storage : bool) : FS (option FAT32Driver) :=
  if g_nvme then
    check_buf <- Buffer 512 4096 ;;
    let* (_, check_bpb) := on_dst (Read 2048 1) in
    already_installed <-
      (if negb (get16 check_bpb 510 =? 0xAA55) then
        kprintf "[Installer] Disk is empty. Starting formatting...\n" [] ;;
        let disk_size := 1048576 in
        on_dst (FormatDiskGPT g_nvme disk_size) ;;
        on_dst (FormatPartitionFAT32 (u64 (disk_size - 2048))) ;;
        kprintf "[Installer] Format complete. Reboot is recommended but continuing...\n" [] ;;
        fs_ret false
       else
        kprintf "[Installer] Valid file system detected.\n" [] ;;
        fs_ret true) ;;
    Free_ check_buf 512 ;;
    obj <- new_driver ;;
    nvme_fs <- on_dst (Fat32.Initialize 2048) ;;
    RunInstaller fuel junk g_mass_storage nvme_fs already_installed ;;
    fs_ret (Some nvme_fs)
  else
    kprintf "NVMe Controller not found.\n" [] ;;
    fs_ret None.
End Installer.

(** ** Runs on two disks *)

Section Boot.
Context {D1 D2 M : Type} `{BlockDeviceLaws D1} `{BlockDeviceLaws D2} `{FrameAllocatorLaws M}.
Implicit Types mm : M.

Lemma wp_src {A} (m : Device.FS D1 M A) (Q : A -> World (D1 * D2) M -> Prop) (d1 : D1) (d2 : D2) mm out :
  wp m (fun a w => Q a (mkWorld (w_dev w, d2) (w_mm w) (w_out w))) (mkWorld d1 mm out) ->
  wp (on_src m) Q (mkWorld (d1, d2) mm out).
Proof. unfold wp, on_src. cbn [w_dev w_mm w_out fst snd]. by destruct (m _). Qed.

Lemma wp_dst {A} (m : Device.FS D2 M A) (Q : A -> World (D1 * D2) M -> Prop) (d1 : D1) (d2 : D2) mm out :
  wp m (fun a w => Q a (mkWorld (d1, w_dev w) (w_mm w) (w_out w))) (mkWorld d2 mm out) ->
  wp (on_dst m) Q (mkWorld (d1, d2) mm out).
Proof. unfold wp, on_dst. cbn [w_dev w_mm w_out fst snd]. by destruct (m _). Qed.

Lemma wp_usb_partition buf (Q : Z -> World (D1 * D2) M -> Prop) d mm out :
  (forall lba out', Q lba (mkWorld d mm out')) -> wp (usb_partition buf) Q (mkWorld d mm out).
Proof.
  intros HQ. unfold usb_partition. destruct (_ && _); [destruct (negb _)|apply wp_ret, HQ];
    apply wp_bind, wp_kprintf, wp_ret, HQ.
Qed.

(** an installer with nothing to install reads the stick and frees what it took *)
Lemma wp_RunInstaller_installed fuel junk usb vol (Q : unit -> World (D1 * D2) M -> Prop) (d1 : D1) (d2 : D2) mm out :
  alloc_inv mm -> room [512] mm -> room [72; 512] mm ->
  (forall out', Q tt (mkWorld (d1, d2) mm out')) ->
  wp (RunInstaller fuel junk usb vol true) Q (mkWorld (d1, d2) mm out).
Proof.
  intros Hi Hr1 Hr2 HQ. unfold RunInstaller. destruct usb; cbn [negb]; [|apply wp_kprintf, HQ].
  apply wp_bind, wp_kprintf, wp_bind, (wp_Buffer _ []); [done|lia|done|]. intros p m1 Hi1 _ HF1.
  apply wp_bind, wp_src, wp_Read1. cbn [w_dev w_mm w_out].
  apply wp_bind, wp_usb_partition. intros lba o1. apply wp_bind, wp_Free. rewrite HF1.
  apply wp_bind, (wp_Buffer _ [512]); [done|lia|done|]. intros q m2 Hi2 Hr2' HF2.
  apply wp_bind, wp_src, wp_Initialize; [done..|]. intros o2. cbn [w_dev w_mm w_out].
  apply wp_bind, wp_ret, wp_Free. rewrite HF2. apply HQ.
Qed.

(** C33: Starting a machine whose disk holds a file system changes neither disk, with a
    USB stick or without: the driver is made from the sector found at block 2048. *)
Theorem Boot_installed fuel junk usb (d1 : D1) (d2 : D2) mm out :
  alloc_inv mm -> room [512] mm -> room [72; 512] mm -> room [72; 72; 512] mm ->
  get16 (sector d2 2048) 510 = 0xAA55 ->
  exists mm' out', BootFileSystem fuel junk true usb (mkWorld (d1, d2) mm out)
    = Done (Some (volume_of 2048 (sector d2 2048))) (mkWorld (d1, d2) mm' out')
    /\ exists p, Free p 72 mm' = mm.
Proof.
  intros Hi Hr1 Hr2 [Hr3 Hr3'] Hsig.
  assert (HW : wp (BootFileSystem fuel junk true usb) (fun r w => r = Some (volume_of 2048 (sector d2 2048))
    /\ exists mm' out' p, w = mkWorld (d1, d2) mm' out' /\ Free p 72 mm' = mm) (mkWorld (d1, d2) mm out)).
  { unfold BootFileSystem.
    apply wp_bind, (wp_Buffer _ []); [done|lia|done|]. intros p m1 Hi1 _ HF1.
    apply wp_bind, wp_dst, wp_Read1. cbn [w_dev w_mm w_out]. rewrite Hsig. cbn [Z.eqb negb].
    apply wp_bind, wp_bind, wp_kprintf, wp_ret, wp_bind, wp_Free. rewrite HF1.
    apply wp_bind, wp_Buffer_at; [done|lia|apply Hr2|]. intros q Hi2 HF2.
    apply wp_bind, wp_dst, wp_Initialize; [done|apply Hr2|]. intros o1. cbn [w_dev w_mm w_out].
    apply wp_bind, wp_RunInstaller_installed; [done|apply Hr2|exact Hr3'|]. intros o2.
    apply wp_ret. split; [done|]. by eexists _, o2, q. }
  apply wp_Done in HW as (r & w & HB & -> & mm' & out' & p & -> & HF). exists mm', out'. eauto.
Qed.

(** formatting the partition keeps the partition tables *)
Lemma fresh_formatted (d d' d'' : D2) total part fat :
  formatted d d' total -> fresh d' d'' part fat -> 2080 + 2 * fat + 8 <= total - 33 -> 2048 <= total ->
  formatted d'' d'' total.
Proof.
  intros [F0 F1 F2 F3 F4 _] Hfr Hle Ht. pose proof (fr_other _ _ _ _ Hfr) as Ho.
  split; [..|done]; intros; rewrite Ho by lia; auto.
Qed.

Definition kDiskSize : Z := 1048576.

(** C13: Starting a machine with an empty disk, without a USB stick, leaves a disk with
    two valid partition tables and a file system in which files can be written, and
    the driver for it; the next start recognises the file system by its signature.  By
    its own count of sectors the file system reaches the end
    of the disk, past the last block of the partition and over the second table. *)
Theorem Boot_empty fuel junk (d1 : D1) (d2 : D2) mm out :
  alloc_inv mm -> room [512; 512; 16384] mm -> room [512; 512] mm -> room [72; 512] mm ->
  get16 (sector d2 2048) 510 <> 0xAA55 ->
  let vol := new_volume (kDiskSize - 2048) in
  exists d2' mm' out', BootFileSystem fuel junk true false (mkWorld (d1, d2) mm out)
    = Done (Some vol) (mkWorld (d1, d2') mm' out')
    /\ valid_header (sector d2') 1 /\ valid_header (sector d2') (kDiskSize - 1)
    /\ gpt_entry (sector d2') 1 0 = (guid_bytes kEspGuid, 2048, kDiskSize - 34)
    /\ geometry vol
    /\ (forall name path data,
          is_cstr name -> cch name 0 <> 0 /\ cch name 0 <> 229 -> plain_name path ->
          IsNameEqual (name11 name) path = true -> Forall is_byte data -> 0 < zlen data <= 125 * 4096 ->
          writable vol d2' 0 name path data)
    /\ 2048 + get32 (sector d2' 2048) 32 = kDiskSize
    /\ get16 (sector d2' 2048) 510 = 0xAA55
    /\ exists p, Free p 72 mm' = mm.
Proof.
  intros Hi Hr1 [_ Hr2] Hr3 Hsig vol.
  assert (Hpart : 2 ^ 17 <= kDiskSize - 2048 < 2 ^ 31) by (unfold kDiskSize; lia).
  assert (HW : wp (BootFileSystem fuel junk true false) (fun r w => r = Some vol /\ exists da d2' mm' out' p,
    w = mkWorld (d1, d2') mm' out' /\ Free p 72 mm' = mm /\ formatted d2 da kDiskSize
    /\ fresh da d2' (kDiskSize - 2048) (fat_sz_sec (kDiskSize - 2048))) (mkWorld (d1, d2) mm out)).
  { unfold BootFileSystem.
    apply wp_bind, (wp_Buffer _ [512; 16384]); [done|lia|done|]. intros p m1 Hi1 Hr1' HF1.
    apply wp_bind, wp_dst, wp_Read1. cbn [w_dev w_mm w_out].
    rewrite (proj2 (Z.eqb_neq _ _) Hsig). cbn [negb].
    apply wp_bind, wp_bind, wp_kprintf, wp_bind, wp_dst, wp_FormatDiskGPT; [done..|unfold kDiskSize; lia|].
    intros da o1 Hfm. cbn [w_dev w_mm w_out]. rewrite (u64_small (1048576 - 2048)) by lia.
    apply wp_bind, wp_dst, wp_FormatPartitionFAT32; [done|split; [apply Hr1'|done]|unfold kDiskSize in *; lia|].
    intros db o2 Hfr. cbn [w_dev w_mm w_out].
    apply wp_bind, wp_kprintf, wp_ret, wp_bind, wp_Free. rewrite HF1.
    apply wp_bind, wp_Buffer_at; [done|lia|apply Hr3|]. intros q Hi2 HF2.
    apply wp_bind, wp_dst, (wp_Initialize_fresh (kDiskSize - 2048) Hpart da db Hfr); [done|apply Hr3|].
    intros o3. cbn [w_dev w_mm w_out]. apply wp_bind. unfold RunInstaller. cbn [negb].
    apply wp_kprintf, wp_ret. split; [done|]. by eexists da, db, _, _, q. }
  apply wp_Done in HW as (r & w & HB & -> & da & d2' & mm' & out' & p & -> & HF & Hfm & Hfr).
  assert (Hfm' : formatted d2' d2' kDiskSize).
  { eapply fresh_formatted; [exact Hfm|exact Hfr|vm_compute; discriminate|vm_compute; discriminate]. }
  assert (Ht : 67 <= kDiskSize < 2 ^ 63) by (unfold kDiskSize; lia).
  exists d2', mm', out'. split_and!.
  - exact HB.
  - exact (primary_valid d2' d2' kDiskSize Ht Hfm' _ eq_refl).
  - exact (backup_valid d2' d2' kDiskSize Ht Hfm' _ eq_refl).
  - apply (entries_read d2' d2' kDiskSize Ht Hfm' _ eq_refl 1). by left.
  - by apply new_volume_geometry.
  - intros. by apply (fresh_writable _ Hpart da d2' Hfr).
  - rewrite (fr_bpb _ _ _ _ Hfr). unfold get32.
    rewrite (bpb_word _ 32 4 (u32 (kDiskSize - 2048))); [done|in_fields|apply u32_range].
  - rewrite (fr_bpb _ _ _ _ Hfr). vm_compute. reflexivity.
  - by exists p.
Qed.
End Boot.

Lemma Boot_empty_witness : exists d2' mm' out',
  BootFileSystem 0 (fun _ => []) true false (mkWorld ((∅ : RamDisk), (∅ : RamDisk)) sample [])
  = Done (Some (new_volume (kDiskSize - 2048))) (mkWorld (∅, d2') mm' out')
  /\ valid_header (sector d2') 1.
Proof.
  destruct (Boot_empty 0 (fun _ => []) (∅ : RamDisk) (∅ : RamDisk) sample []) as (d' & m' & o & H1 & H2 & _).
  - exact sample_alloc_inv.
  - repeat split; vm_compute; discriminate.
  - repeat split; vm_compute; discriminate.
  - repeat split; vm_compute; discriminate.
  - vm_compute. discriminate.
  - exists d', m', o. exact (conj H1 H2).
Defined.

Lemma Boot_installed_witness :
  let d2 := ram_write 2048 (bpb_sector 1046528) 1 ∅ in
  exists mm' out', BootFileSystem 0 (fun _ => []) true true (mkWorld ((∅ : RamDisk), d2) sample [])
    = Done (Some (volume_of 2048 (bpb_sector 1046528))) (mkWorld (∅, d2) mm' out').
Proof.
  intros d2. assert (Hs : sector d2 2048 = bpb_sector 1046528) by (vm_compute; reflexivity).
  destruct (Boot_installed 0 (fun _ => []) true (∅ : RamDisk) d2 sample []) as (m' & o & HB & _).
  - exact sample_alloc_inv.
  - repeat split; vm_compute; discriminate.
  - repeat split; vm_compute; discriminate.
  - repeat split; vm_compute; discriminate.
  - rewrite Hs. vm_compute. reflexivity.
  - exists m', o. rewrite Hs in HB. exact HB.
Defined.
