(* ===== verification/Run.v ===== *)
(** * Runs of driver code

    Code that talks to a device is a state monad whose runs end with a result
    ([Ret]), in an endless loop with the processor stopped ([Halted]), or have used
    the number of rounds given to a polling loop ([NoFuel]). *)
From S2P Require Import Prelude.

Inductive Run (S A : Type) :=
  | Ret (a : A) (s : S)
  | Halted (s : S)
  | NoFuel.
Arguments Ret {S A}.
Arguments Halted {S A}.
Arguments NoFuel {S A}.

Definition bind {S A B} (m : S -> Run S A) (k : A -> S -> Run S B) : S -> Run S B :=
  fun s => match m s with
           | Ret a s' => k a s'
           | Halted s' => Halted s'
           | NoFuel => NoFuel
           end.
Definition ret {S A} (a : A) : S -> Run S A := fun s => Ret a s.
Definition get {S A} (f : S -> A) : S -> Run S A := fun s => Ret (f s) s.
Definition modify {S} (f : S -> S) : S -> Run S unit := fun s => Ret tt (f s).
Definition halt {S A} : S -> Run S A := fun s => Halted s.

Declare Scope run_scope.
Delimit Scope run_scope with run.
Notation "x <-- m ;; k" := (bind m (fun x => k))
  (at level 100, m at next level, right associativity) : run_scope.
Notation "m ;;; k" := (bind m (fun _ => k)) (at level 100, right associativity) : run_scope.
Notation "'let**' p := m 'in' k" := (bind m (fun p => k))
  (at level 10, p pattern, m at level 100, k at level 200) : run_scope.

(** [for (i = i0; i < i0 + n; ++i) body(i)] *)
Fixpoint run_for {S} (n : nat) (i : Z) (body : Z -> S -> Run S unit) : S -> Run S unit :=
  match n with
  | O => ret tt
  | S n' => bind (body i) (fun _ => run_for n' (i + 1) body)
  end.

Lemma bind_Ret {S A B} (m : S -> Run S A) (k : A -> S -> Run S B) s a s' :
  m s = Ret a s' -> bind m k s = k a s'.
Proof. intros H. unfold bind. by rewrite H. Qed.

Lemma bind_Ret_inv {S A B} (m : S -> Run S A) (k : A -> S -> Run S B) s b s' :
  bind m k s = Ret b s' -> exists a s1, m s = Ret a s1 /\ k a s1 = Ret b s'.
Proof. unfold bind. destruct (m s) as [a s1| |]; [eauto|done..]. Qed.

Lemma run_for_inv {S} (P : Z -> S -> Prop) n : forall i (body : Z -> S -> Run S unit) s,
  P i s -> (forall j s1, i <= j < i + Z.of_nat n -> P j s1 -> exists s2, body j s1 = Ret tt s2 /\ P (j + 1) s2) ->
  exists s', run_for n i body s = Ret tt s' /\ P (i + Z.of_nat n) s'.
Proof.
  induction n as [|n IH]; intros i body s Hs Hb.
  - exists s. split; [done|]. by replace (i + Z.of_nat 0) with i by lia.
  - destruct (Hb i s ltac:(lia) Hs) as (s1 & H1 & Hp1). cbn [run_for]. rewrite (bind_Ret _ _ _ _ _ H1).
    destruct (IH (i + 1) body s1 Hp1) as (s' & Hr & Hp').
    { intros j s2 Hj. apply Hb. lia. }
    exists s'. split; [done|]. by replace (i + Z.of_nat (Datatypes.S n)) with (i + 1 + Z.of_nat n) by lia.
Qed.
