(* ===== verification/Machine.v ===== *)
(** * The machine the drivers run on

    [Class Machine] is what the instructions of the kernel do to the hardware:
    bytes of memory, 32-bit registers in the address space, ports, and the two
    instructions with which a polling loop lets time pass.  A device is part of the
    machine: it may act whenever a register or a port is accessed and whenever time
    passes, so reading a register also returns a machine.  [Host] adds what every
    driver shares: the frame allocator and the console output. *)
From S2P Require Import Prelude Run Memory.

Class Machine (W : Type) := {
  (** a byte of memory *)
  peek : W -> Z -> Z;
  poke : Z -> Z -> W -> W;
  (** a memory-mapped 32-bit register *)
  reg_read : Z -> W -> Z * W;
  reg_write : Z -> Z -> W -> W;
  (** a port access of 8 or 32 bits *)
  port_in : Z -> Z -> W -> Z * W;
  port_out : Z -> Z -> Z -> W -> W;
  (** the instructions [pause] and [wbinvd] *)
  cpu_pause : W -> W;
  cpu_wbinvd : W -> W
}.

Class MachineLaws (W : Type) `{Machine W} := {
  peek_byte w a : is_byte (peek w a);
  peek_poke w a v b : peek (poke a v w) b = if b =? a then u8 v else peek w b
}.

(** ** Bit fields of a register *)

(** a field put above the bits [b] uses *)
Lemma lor_above a b n : 0 <= n -> a mod 2 ^ n = 0 -> 0 <= b < 2 ^ n -> Z.lor a b = a + b.
Proof.
  intros Hn Ha Hb. symmetry. apply Z.add_nocarry_lor, Z.bits_inj'. intros i Hi.
  rewrite Z.land_spec, Z.bits_0. destruct (Z.ltb_spec i n) as [Hin|Hin].
  - rewrite <- (Z.mod_pow2_bits_low a n i Hin), Ha, Z.bits_0. done.
  - rewrite <- (Z.mod_small b (2 ^ n)) by lia. rewrite Z.mod_pow2_bits_high by lia. apply andb_false_r.
Qed.

Lemma shiftr_land a k n : 0 <= k -> 0 <= n -> Z.land (Z.shiftr a k) (Z.ones n) = a / 2 ^ k mod 2 ^ n.
Proof. intros Hk Hn. by rewrite Z.land_ones, Z.shiftr_div_pow2. Qed.

(** masks of the low bits, as the code writes them *)
Lemma land_bit0 a : Z.land a 1 = a mod 2.
Proof. change 1 with (Z.ones 1). by rewrite Z.land_ones. Qed.
Lemma land_byte a : Z.land a 0xFF = a mod 256.
Proof. change 0xFF with (Z.ones 8). by rewrite Z.land_ones. Qed.
Lemma land_half a : Z.land a 0xFFFF = a mod 65536.
Proof. change 0xFFFF with (Z.ones 16). by rewrite Z.land_ones. Qed.
Lemma land_word a : Z.land a 0xFFFFFFFF = a mod 2 ^ 32.
Proof. change 0xFFFFFFFF with (Z.ones 32). by rewrite Z.land_ones. Qed.

Lemma u32_parts a : 0 <= a < 2 ^ 64 -> Z.land a 0xFFFFFFFF + 2 ^ 32 * Z.shiftr a 32 = a.
Proof. intros Ha. rewrite land_word, Z.shiftr_div_pow2 by lia. pose proof (Z.div_mod a (2 ^ 32)). lia. Qed.

(** ** Words and blocks in memory *)

Section Memory.
Context {W : Type} `{Machine W}.
Implicit Types w : W.

Fixpoint peek_all (a : Z) (n : nat) w : list Z :=
  match n with
  | O => []
  | S n' => peek w a :: peek_all (a + 1) n' w
  end.

Fixpoint poke_all (a : Z) (bs : list Z) w : W :=
  match bs with
  | [] => w
  | b :: t => poke_all (a + 1) t (poke a b w)
  end.

(** a little-endian value of [n] bytes *)
Definition load (n : nat) (a : Z) w : Z := le_val (peek_all a n w).
Definition store_at (n : nat) (a v : Z) w : W := poke_all a (le_bytes n v) w.

Lemma length_peek_all a n w : length (peek_all a n w) = n.
Proof. revert a. induction n as [|n IH]; intros a; cbn [peek_all length]; [done|]. by rewrite IH. Qed.

Lemma peek_all_seq a n w : peek_all a n w = (fun j => peek w (a + Z.of_nat j)) <$> seq 0 n.
Proof.
  revert a. induction n as [|n IH]; intros a; [done|]. cbn [peek_all seq fmap list_fmap].
  f_equal; [f_equal; lia|]. rewrite IH. rewrite <- (fmap_S_seq 0 n), <- list_fmap_compose.
  apply list_fmap_ext. intros k x _. cbn. f_equal. lia.
Qed.

Lemma peek_all_app a n1 n2 w :
  peek_all a (n1 + n2) w = peek_all a n1 w ++ peek_all (a + Z.of_nat n1) n2 w.
Proof.
  revert a. induction n1 as [|n1 IH]; intros a; cbn [peek_all app Nat.add].
  - f_equal. lia.
  - rewrite IH. by replace (a + 1 + Z.of_nat n1) with (a + Z.of_nat (S n1)) by lia.
Qed.

(** memory agrees on [n] bytes from [a] *)
Lemma peek_all_ext a n w w' :
  (forall i, a <= i < a + Z.of_nat n -> peek w' i = peek w i) -> peek_all a n w' = peek_all a n w.
Proof.
  revert a. induction n as [|n IH]; intros a Hw; cbn [peek_all]; [done|].
  rewrite Hw, IH by lia || (intros i Hi; apply Hw; lia). done.
Qed.

Lemma load_ext a n w w' :
  (forall i, a <= i < a + Z.of_nat n -> peek w' i = peek w i) -> load n a w' = load n a w.
Proof. intros Hw. unfold load. by rewrite (peek_all_ext a n w w' Hw). Qed.

Lemma rd_peek_all a n w i : 0 <= i < Z.of_nat n -> rd (peek_all a n w) i = peek w (a + i).
Proof.
  revert a i. induction n as [|n IH]; intros a i Hi; [lia|]. cbn [peek_all].
  destruct (decide (i = 0)) as [->|Hne].
  - change (rd (?x :: _) 0) with x. f_equal. lia.
  - change (peek w a :: peek_all (a + 1) n w) with ([peek w a] ++ peek_all (a + 1) n w).
    rewrite rd_app_r by (change (zlen [_]) with 1; lia). change (zlen [_]) with 1.
    rewrite IH by lia. f_equal. lia.
Qed.

Lemma poke_all_app a l1 l2 w : poke_all a (l1 ++ l2) w = poke_all (a + zlen l1) l2 (poke_all a l1 w).
Proof.
  revert a w. induction l1 as [|b t IH]; intros a w; cbn [poke_all app].
  - change (zlen []) with 0. by rewrite Z.add_0_r.
  - rewrite IH, zlen_cons. by replace (a + 1 + zlen t) with (a + (1 + zlen t)) by lia.
Qed.

Context `{!MachineLaws W}.

Lemma peek_all_bytes a n w : Forall is_byte (peek_all a n w).
Proof. revert a. induction n; intros a; cbn [peek_all]; constructor; [apply peek_byte|done]. Qed.

Lemma load_range n a w : 0 <= load n a w < 256 ^ Z.of_nat n.
Proof.
  unfold load. pose proof (le_val_range _ (peek_all_bytes a n w)) as Hr.
  unfold zlen in Hr. by rewrite length_peek_all in Hr.
Qed.

Lemma peek_poke_all bs : forall a w i,
  peek (poke_all a bs w) i = if (a <=? i) && (i <? a + zlen bs) then u8 (rd bs (i - a)) else peek w i.
Proof.
  induction bs as [|b t IH]; intros a w i; cbn [poke_all].
  { change (zlen (@nil Z)) with 0. zcases; cbn [andb]; lia || done. }
  rewrite IH, zlen_cons, peek_poke. pose proof (zlen_nonneg t).
  change (b :: t) with ([b] ++ t).
  destruct (Z.leb_spec (a + 1) i); cbn [andb].
  - rewrite (proj2 (Z.leb_le a i)), (proj2 (Z.eqb_neq i a)) by lia. cbn [andb].
    replace (a + 1 + zlen t) with (a + (1 + zlen t)) by lia.
    rewrite rd_app_r by (change (zlen [b]) with 1; lia). change (zlen [b]) with 1.
    by replace (i - a - 1) with (i - (a + 1)) by lia.
  - destruct (Z.eqb_spec i a) as [->|Hne].
    + rewrite Z.leb_refl, (proj2 (Z.ltb_lt a _)) by lia. cbn [andb]. by rewrite Z.sub_diag.
    + by rewrite (proj2 (Z.leb_gt a i)) by lia.
Qed.

(** bytes outside of what is written stay *)
Lemma peek_poke_other a bs w i : i < a \/ a + zlen bs <= i -> peek (poke_all a bs w) i = peek w i.
Proof. intros Hi. rewrite peek_poke_all. zcases; cbn [andb]; done || lia. Qed.

Lemma peek_all_poke_same a bs w :
  Forall is_byte bs -> peek_all a (length bs) (poke_all a bs w) = bs.
Proof.
  intros Hb. apply buf_ext.
  { unfold zlen. by rewrite length_peek_all. }
  unfold zlen. rewrite length_peek_all. intros i Hi. rewrite rd_peek_all by done.
  rewrite peek_poke_all. rewrite (proj2 (Z.leb_le _ _)), (proj2 (Z.ltb_lt _ _)) by (unfold zlen; lia).
  cbn [andb]. replace (a + i - a) with i by lia. apply u8_small.
  apply (Forall_rd is_byte); [done|unfold zlen; lia].
Qed.

Lemma peek_all_poke_other a bs w b n :
  b + Z.of_nat n <= a \/ a + zlen bs <= b -> peek_all b n (poke_all a bs w) = peek_all b n w.
Proof. intros Hd. apply peek_all_ext. intros i Hi. apply peek_poke_other. lia. Qed.

Lemma load_store_same n a v w : 0 <= v < 256 ^ Z.of_nat n -> load n a (store_at n a v w) = v.
Proof.
  intros Hv. unfold load, store_at. rewrite <- (length_le_bytes n v) at 1.
  rewrite peek_all_poke_same by apply le_bytes_range. by apply le_val_bytes.
Qed.

Lemma load_store_other n a v w m b :
  b + Z.of_nat m <= a \/ a + Z.of_nat n <= b -> load m b (store_at n a v w) = load m b w.
Proof. intros Hd. unfold load, store_at. rewrite peek_all_poke_other; [done|]. rewrite zlen_le_bytes. lia. Qed.

Lemma peek_store_other n a v w i :
  i < a \/ a + Z.of_nat n <= i -> peek (store_at n a v w) i = peek w i.
Proof. intros Hd. unfold store_at. rewrite peek_poke_other; [done|]. rewrite zlen_le_bytes. lia. Qed.
End Memory.

(** ** What every driver shares *)

(** [drv] is the state of the driver at hand *)
Record Host (W M X : Type) := mkHost { mach : W; pool : M; drv : X; out : list kevent }.
Arguments mkHost {W M X}.
Arguments mach {W M X}.
Arguments pool {W M X}.
Arguments drv {W M X}.
Arguments out {W M X}.

Section Host.
Context {W M X : Type} `{Machine W} `{FrameAllocator M}.
Local Abbreviation Hst := (Host W M X).
Local Abbreviation HR := (fun A => Hst -> Run Hst A).
Implicit Types s : Hst.

Definition with_mach s w : Hst := mkHost w (pool s) (drv s) (out s).
Definition with_pool s m : Hst := mkHost (mach s) m (drv s) (out s).
Definition with_drv s x : Hst := mkHost (mach s) (pool s) x (out s).

Definition act (f : W -> W) : HR unit := fun s => Ret tt (with_mach s (f (mach s))).
Definition ask (f : W -> Z * W) : HR Z := fun s =>
  let '(v, w) := f (mach s) in Ret v (with_mach s w).
Definition say (fmt : string) (args : list karg) : HR unit := fun s =>
  Ret tt (mkHost (mach s) (pool s) (drv s) (out s ++ [KP (c_lit fmt) args])).
Definition alloc (size align : Z) : HR Z := fun s =>
  let '(p, m) := Allocate size align (pool s) in Ret p (with_pool s m).
Definition free (p size : Z) : HR unit := fun s => Ret tt (with_pool s (Free p size (pool s))).

(** volatile accesses of a structure in memory *)
Definition look (n : nat) (a : Z) : HR Z := fun s => Ret (load n a (mach s)) s.
Definition put (n : nat) (a v : Z) : HR unit := act (store_at n a v).
(** a bit field of [width] bits from bit [lo] of the word of [n] bytes at [a] *)
Definition put_bits (n : nat) (a lo width v : Z) : HR unit := fun s =>
  let old := load n a (mach s) in
  put n a (Z.lor (Z.ldiff old (Z.shiftl (Z.ones width) lo)) (Z.shiftl (Z.land v (Z.ones width)) lo)) s.
(** [for (i = 0; i < n; ++i) p[i] = 0;] on bytes, and memset to zero *)
Definition clear (a n : Z) : HR unit := act (poke_all a (replicate (Z.to_nat n) 0)).
End Host.
Arguments say {W M X} _%_string _ _.

(** ** kernel/io.hpp *)

Section Ports.
Context {W : Type} `{Machine W}.

Definition IoIn8 (port : Z) (w : W) : Z * W := let '(v, w') := port_in 8 port w in (u8 v, w').
Definition IoOut8 (port data : Z) (w : W) : W := port_out 8 port (u8 data) w.
Definition IoIn32 (port : Z) (w : W) : Z * W := let '(v, w') := port_in 32 port w in (u32 v, w').
Definition IoOut32 (port data : Z) (w : W) : W := port_out 32 port (u32 data) w.
End Ports.

(** ** kernel/new.cpp, with the size word in memory *)

Section New.
Context {W M X : Type} `{Machine W} `{FrameAllocator M}.
Local Abbreviation HR := (fun A => Host W M X -> Run (Host W M X) A).
#[local] Open Scope run_scope.

Definition new_object (size : Z) : HR Z :=
  let total_size := u64 (size + New.kHeaderSize) in
  ptr <-- alloc total_size 16 ;;
  if ptr =? 0 then ret 0
  else put 8 ptr total_size ;;; ret (u64 (ptr + New.kHeaderSize)).

Definition delete_object (ptr : Z) : HR unit :=
  if ptr =? 0 then ret tt
  else
    let real_ptr := u64 (ptr - New.kHeaderSize) in
    total_size <-- look 8 real_ptr ;;
    free real_ptr total_size.
End New.

(** ** Memory without devices *)

Module Ram.
Definition t := gmap Z Z.

#[global] Instance machine : Machine t := {
  peek w a := u8 (default 0 (w !! a));
  poke a v w := <[a := v]> w;
  reg_read a w := (0, w);
  reg_write a v w := w;
  port_in n p w := (0, w);
  port_out n p v w := w;
  cpu_pause w := w;
  cpu_wbinvd w := w
}.

#[global] Instance laws : MachineLaws t.
Proof.
  split.
  - intros w a. cbn [peek machine]. apply u8_range.
  - intros w a v b. cbn [peek poke machine]. destruct (Z.eqb_spec b a) as [->|Hne].
    + by rewrite (lookup_insert_eq w).
    + by rewrite (lookup_insert_ne w) by lia.
Qed.
End Ram.
