(* ===== verification/Boot.v ===== *)
(** * The boot loader (bootloader/main.c, uefi/uefi.h)

    EfiMain: the screen, the kernel file, its segments in memory, the memory map, and
    the jump to the kernel.  [Class Firmware] holds the UEFI calls it makes, which are
    not part of the repository; [Class FirmwareLaws] says of them what their
    specification promises. *)
From S2P Require Import Prelude Run CStr Machine.
#[local] Open Scope run_scope.

(** ** uefi.h *)

Definition EFI_SUCCESS : Z := 0.
Definition PT_LOAD : Z := 1.

Record EFI_GUID := mkGuid { Data1 : Z; Data2 : Z; Data3 : Z; Data4 : list Z }.

Definition gEfiGraphicsOutputProtocolGuid : EFI_GUID :=
  mkGuid 0x9042A9DE 0x23DC 0x4A38 [0x96; 0xFB; 0x7A; 0xDE; 0xD0; 0x80; 0x51; 0x6A].
Definition gEfiLoadedImageProtocolGuid : EFI_GUID :=
  mkGuid 0x5B1B31A1 0x9562 0x11D2 [0x8E; 0x3F; 0x00; 0xA0; 0xC9; 0x69; 0x72; 0x3B].
Definition gEfiSimpleFileSystemProtocolGuid : EFI_GUID :=
  mkGuid 0x0964E5B22 0x6459 0x11D2 [0x8E; 0x39; 0x00; 0xA0; 0xC9; 0x69; 0x72; 0x3B].
Definition gEfiFileInfoGuid : EFI_GUID :=
  mkGuid 0x09576E92 0x6D3F 0x11D2 [0x8E; 0x39; 0x00; 0xA0; 0xC9; 0x69; 0x72; 0x3B].

Inductive EFI_MEMORY_TYPE :=
  | EfiReservedMemoryType | EfiLoaderCode | EfiLoaderData | EfiBootServicesCode
  | EfiBootServicesData | EfiRuntimeServicesCode | EfiRuntimeServicesData
  | EfiConventionalMemory | EfiUnusableMemory | EfiACPIReclaimMemory | EfiACPIMemoryNVS
  | EfiMemoryMappedIO | EfiMemoryMappedIOPortSpace | EfiPalCode | EfiPersistentMemory
  | EfiMaxMemoryType.

Inductive EFI_ALLOCATE_TYPE := AllocateAnyPages | AllocateMaxAddress | AllocateAddress | MaxAllocateType.

Record FrameBufferConfig := mkConfig {
  FrameBufferBase : Z; FrameBufferSize : Z; HorizontalResolution : Z; VerticalResolution : Z;
  PixelsPerScanLine : Z }.

(** struct MemoryMap *)
Record MemoryMap := mkMemoryMap {
  buffer_size : Z; buffer : Z; map_size : Z; map_key : Z; descriptor_size : Z;
  descriptor_version : Z }.

Record Elf64_Phdr := mkPhdr { p_type : Z; p_offset : Z; p_vaddr : Z; p_filesz : Z; p_memsz : Z }.
Definition sizeof_Elf64_Phdr : Z := 56.

(** what GetMemoryMap leaves behind its pointers *)
Record MapCall := mkMapCall {
  mc_status : Z; MemoryMapSize : Z; MapKey : Z; DescriptorSize : Z; DescriptorVersion : Z }.

Definition EFI_FILE_MODE_READ : Z := 1.
(** sizeof(EFI_FILE_INFO) + sizeof(CHAR16) * 128 *)
Definition sizeof_EFI_FILE_INFO : Z := 80.

(** The calls.  A result holds the status and what is behind the pointers afterwards,
    whatever the status. *)
Class Firmware (W : Type) := {
  OutputString : list Z -> W -> W;
  LocateProtocol : EFI_GUID -> W -> Z * Z * W;
  HandleProtocol : Z -> EFI_GUID -> W -> Z * Z * W;
  (** size and address of the buffer *)
  GetMemoryMap : Z -> Z -> W -> MapCall * W;
  AllocatePool : EFI_MEMORY_TYPE -> Z -> W -> Z * Z * W;
  FreePool : Z -> W -> W;
  AllocatePages : EFI_ALLOCATE_TYPE -> EFI_MEMORY_TYPE -> Z -> Z -> W -> Z * Z * W;
  ExitBootServices : Z -> Z -> W -> Z * W;
  OpenVolume : Z -> W -> Z * Z * W;
  Open : Z -> list Z -> Z -> Z -> W -> Z * Z * W;
  Read : Z -> Z -> Z -> W -> Z * Z * W;
  SetPosition : Z -> Z -> W -> Z * W;
  GetInfo : Z -> EFI_GUID -> Z -> Z -> W -> Z * Z * W
}.

Section EfiMain.
Context {W : Type} `{Machine W} `{Firmware W}.
Local Abbreviation FR := (fun A => W -> Run W A).

Definition print (text : list Z) : FR unit := modify (OutputString (text ++ [13; 10])).
(** a message and [while (1) hlt] *)
Definition fail {A} (text : list Z) : FR A := print text ;;; halt.
(** a call with a status and one more result *)
Definition call (f : W -> Z * Z * W) : FR (Z * Z)%type := fun w => let '(st, v, w') := f w in Ret (st, v) w'.
Definition load_ (n : nat) (a : Z) : FR Z := get (load n a).
Definition get_map (size buf : Z) : FR MapCall := fun w => let '(r, w') := GetMemoryMap size buf w in Ret r w'.

(** ** The screen *)

(** Gop->Mode and its Info *)
Definition gop_mode (gop : Z) (w : W) : FrameBufferConfig :=
  let Mode := load 8 (gop + 24) w in
  let Info := load 8 (Mode + 8) w in
  mkConfig (load 8 (Mode + 24) w) (load 8 (Mode + 32) w) (load 4 (Info + 4) w) (load 4 (Info + 8) w)
    (load 4 (Info + 32) w).

Definition find_screen : FR Z :=
  let** (Status, Gop) := call (LocateProtocol gEfiGraphicsOutputProtocolGuid) in
  if negb (Status =? EFI_SUCCESS) then fail (c_lit "Error: GOP not found!") else ret Gop.

Definition fill_screen (Gop : Z) : FR unit :=
  mode <-- get (gop_mode Gop) ;;
  run_for (Z.to_nat (u32 (VerticalResolution mode * HorizontalResolution mode))) 0 (fun i =>
    modify (store_at 4 (FrameBufferBase mode + 4 * i) 0xFFFF8000)).

(** ** The memory map *)

(** the first loop; the result is the buffer *)
Fixpoint first_map (fuel : nat) (MemoryMapSize_ : Z) : FR Z :=
  match fuel with
  | O => fun _ => NoFuel
  | S n =>
      let size := u64 (MemoryMapSize_ + 4096) in
      let** (Status, buf) := call (AllocatePool EfiLoaderData size) in
      if negb (Status =? EFI_SUCCESS) then fail (c_lit "AllocatePool Failed!")
      else
        r <-- get_map size buf ;;
        if mc_status r =? EFI_SUCCESS then ret buf
        else if mc_status r =? 0x80000005 then modify (FreePool buf) ;;; first_map n (MemoryMapSize r)
        else fail (c_lit "GetMemoryMap Failed!")
  end.

Definition GetMap (fuel : nat) : FR Z :=
  modify (OutputString ([13; 10] ++ c_lit "Getting Memory Map (Dynamic)..." ++ [13; 10])) ;;;
  r <-- get_map 0 0 ;;
  first_map fuel (MemoryMapSize r).

(** the last loop; the result is the buffer, its size and the answer of the firmware *)
Fixpoint last_map (fuel : nat) (BufferSize : Z) : FR (Z * Z * MapCall)%type :=
  match fuel with
  | O => fun _ => NoFuel
  | S n =>
      let BufferSize := u64 (BufferSize + 4096) in
      let** (Status, buf) := call (AllocatePool EfiLoaderData BufferSize) in
      if negb (Status =? EFI_SUCCESS) then fail (c_lit "AllocatePool Failed at Exit")
      else
        r <-- get_map BufferSize buf ;;
        if mc_status r =? EFI_SUCCESS then ret (buf, BufferSize, r)
        else modify (FreePool buf) ;;; last_map n BufferSize
  end.

(** ** The file *)

Definition open_kernel (ImageHandle : Z) : FR Z :=
  let** (Status, LoadedImage) := call (HandleProtocol ImageHandle gEfiLoadedImageProtocolGuid) in
  if negb (Status =? EFI_SUCCESS) then fail (c_lit "Error: LoadedImage not found")
  else
    DeviceHandle <-- load_ 8 (LoadedImage + 24) ;;
    let** (Status, FileSystem) := call (HandleProtocol DeviceHandle gEfiSimpleFileSystemProtocolGuid) in
    if negb (Status =? EFI_SUCCESS) then fail (c_lit "Error: FileSystem not found")
    else
      let** (_, Root) := call (OpenVolume FileSystem) in
      let** (Status, KernelFile) := call (Open Root (c_lit "kernel.elf") EFI_FILE_MODE_READ 0) in
      if negb (Status =? EFI_SUCCESS) then fail (c_lit "Error: kernel.elf not found!")
      else ret KernelFile.

Definition read_phdr (a : Z) (w : W) : Elf64_Phdr :=
  mkPhdr (load 4 a w) (load 8 (a + 8) w) (load 8 (a + 16) w) (load 8 (a + 32) w) (load 8 (a + 40) w).

Definition e_entry (Ehdr : Z) (w : W) : Z := load 8 (Ehdr + 24) w.
Definition e_phoff (Ehdr : Z) (w : W) : Z := load 8 (Ehdr + 32) w.
Definition e_phnum (Ehdr : Z) (w : W) : Z := load 2 (Ehdr + 56) w.

(** the pointer [Phdr], and [Phdr[i]] *)
Definition Phdr_of (Ehdr : Z) (w : W) : Z := u64 (Ehdr + e_phoff Ehdr w).
Definition phdr (Phdr i : Z) (w : W) : Elf64_Phdr := read_phdr (Phdr + sizeof_Elf64_Phdr * i) w.

(** KernelFirst and KernelLast *)
Fixpoint kernel_range (n : nat) (Phdr i first last : Z) (w : W) : Z * Z :=
  match n with
  | O => (first, last)
  | S n' =>
      let ph := phdr Phdr i w in
      if p_type ph =? PT_LOAD then
        let first := if p_vaddr ph <? first then p_vaddr ph else first in
        let EndAddr := u64 (p_vaddr ph + p_memsz ph) in
        let last := if last <? EndAddr then EndAddr else last in
        kernel_range n' Phdr (i + 1) first last w
      else kernel_range n' Phdr (i + 1) first last w
  end.

(** the header decides where the kernel goes; its pages are allocated there *)
Definition allocate_kernel (KernelFile : Z) : FR unit :=
  let** (_, HeaderBuffer) := call (AllocatePool EfiLoaderData 4096) in
  let** _ := call (Read KernelFile 4096 HeaderBuffer) in
  magic <-- get (peek_all HeaderBuffer 4) ;;
  if negb (bool_decide (magic = [0x7F; 0x45; 0x4C; 0x46])) then fail (c_lit "Error: Not a valid ELF file!")
  else
    n <-- get (e_phnum HeaderBuffer) ;;
    let** (KernelFirst, KernelLast) := get (fun w => kernel_range (Z.to_nat n) (Phdr_of HeaderBuffer w) 0 0xFFFFFFFFFFFFFFFF 0 w) in
    let NumPages := u64 (u64 (KernelLast - KernelFirst) + 0xFFF) / 0x1000 in
    let** (Status, _) := call (AllocatePages AllocateAddress EfiLoaderData NumPages KernelFirst) in
    if negb (Status =? EFI_SUCCESS) then fail (c_lit "Error: Failed to allocate kernel memory at 0x100000.")
    else modify (FreePool HeaderBuffer).

(** the whole file in a buffer; [FileInfoBuffer] is an array on the stack *)
Definition read_kernel (FileInfoBuffer KernelFile : Z) : FR Z :=
  let** _ := call (GetInfo KernelFile gEfiFileInfoGuid (sizeof_EFI_FILE_INFO + 2 * 128) FileInfoBuffer) in
  FileSize <-- load_ 8 (FileInfoBuffer + 8) ;;
  let** (Status, KernelBuffer) := call (AllocatePool EfiLoaderData FileSize) in
  if negb (Status =? EFI_SUCCESS) then fail (c_lit "Error: Failed to allocate file buffer.")
  else
    (fun w => Ret tt (SetPosition KernelFile 0 w).2) ;;;
    ReadSize <-- load_ 8 (FileInfoBuffer + 8) ;;
    let** (Status, _) := call (Read KernelFile ReadSize KernelBuffer) in
    if negb (Status =? EFI_SUCCESS) then fail (c_lit "Error: Read failed") else ret KernelBuffer.

(** ** The segments *)

(** [for (i = 0; i < Size; i++) d[i] = s[i];] *)
Fixpoint copy_loop (n : nat) (d s : Z) (w : W) : W :=
  match n with
  | O => w
  | S n' => copy_loop n' (d + 1) (s + 1) (poke d (peek w s) w)
  end.
Definition CopyMem (Dest Src Size : Z) (w : W) : W := copy_loop (Z.to_nat Size) Dest Src w.
Definition SetMem (Dest Size Value : Z) (w : W) : W := poke_all Dest (replicate (Z.to_nat Size) (u8 Value)) w.

Definition load_segment (Ehdr : Z) (ph : Elf64_Phdr) (w : W) : W :=
  let w := CopyMem (p_vaddr ph) (u64 (Ehdr + p_offset ph)) (p_filesz ph) w in
  let RemainBytes := u64 (p_memsz ph - p_filesz ph) in
  if 0 <? RemainBytes then SetMem (u64 (p_vaddr ph + p_filesz ph)) RemainBytes 0 w else w.

(** the loop reads the number of headers, 16 bits, again in every round *)
Fixpoint load_segments (fuel : nat) (Ehdr Phdr i : Z) (w : W) : W :=
  match fuel with
  | O => w
  | S n =>
      if i <? e_phnum Ehdr w then
        let ph := phdr Phdr i w in
        load_segments n Ehdr Phdr (i + 1) (if p_type ph =? PT_LOAD then load_segment Ehdr ph w else w)
      else w
  end.
Definition max_headers : nat := Z.to_nat 0x10000.

(** ** The end of the boot services *)

Definition exit_services (ImageHandle : Z) (fuel : nat) (MemoryMap_ : Z) : FR (Z * MapCall)%type :=
  (if MemoryMap_ =? 0 then ret tt else modify (FreePool MemoryMap_)) ;;;
  r <-- get_map 0 0 ;;
  let** (buf, BufferSize, r) := last_map fuel (u64 (MemoryMapSize r + 4096)) in
  Status <-- (fun w => let '(st, w') := ExitBootServices ImageHandle (MapKey r) w in Ret st w') ;;
  if Status =? EFI_SUCCESS then ret (buf, r)
  else
    r <-- get_map BufferSize buf ;;
    if negb (mc_status r =? EFI_SUCCESS) then fail (c_lit "Final GetMemoryMap Failed!")
    else
      (fun w => Ret tt (ExitBootServices ImageHandle (MapKey r) w).2) ;;;
      ret (buf, r).

(** ** EfiMain, up to the jump to the kernel: the entry point and the two arguments *)

Record KernelStart := mkStart { entry : Z; config : FrameBufferConfig; memmap_arg : MemoryMap }.

(** the first memory map and the kernel's file: where both are *)
Definition load_file (fuel : nat) (FileInfoBuffer ImageHandle : Z) : FR (Z * Z)%type :=
  MemoryMap_ <-- GetMap fuel ;;
  print (c_lit "Memory Map Get: SUCCESS with AllocatePool!") ;;;
  modify (OutputString ([13; 10] ++ c_lit "Loading kernel.elf..." ++ [13; 10])) ;;;
  KernelFile <-- open_kernel ImageHandle ;;
  allocate_kernel KernelFile ;;;
  Ehdr <-- read_kernel FileInfoBuffer KernelFile ;;
  ret (MemoryMap_, Ehdr).

Definition start_kernel (fuel : nat) (ImageHandle Gop MemoryMap_ Ehdr : Z) : FR KernelStart :=
  print (c_lit "Kernel Read Success. Loading Segments...") ;;;
  modify (fun w => load_segments max_headers Ehdr (Phdr_of Ehdr w) 0 w) ;;;
  print (c_lit "Segments Loaded. Exiting Boot Services...") ;;;
  Config <-- get (gop_mode Gop) ;;
  let** (buf, r) := exit_services ImageHandle fuel MemoryMap_ in
  entry_point <-- get (e_entry Ehdr) ;;
  ret (mkStart entry_point Config
    (mkMemoryMap (MemoryMapSize r) buf (MemoryMapSize r) (MapKey r) (DescriptorSize r) (DescriptorVersion r))).

Definition EfiMain (fuel : nat) (FileInfoBuffer ImageHandle : Z) : FR KernelStart :=
  Gop <-- find_screen ;;
  fill_screen Gop ;;;
  let** (MemoryMap_, Ehdr) := load_file fuel FileInfoBuffer ImageHandle in
  start_kernel fuel ImageHandle Gop MemoryMap_ Ehdr.
End EfiMain.

(** ** What the firmware promises *)

(** What a caller may know of the firmware's state: the bytes that are the caller's
    own, the blocks of its pool requests, the file that is open with the position in
    it, how many bytes requests may still ask for, whether ExitBootServices was tried,
    and the memory map with its key. *)
Class Observed (W : Type) := {
  mine : W -> Z -> Prop;
  blocks : W -> gmap Z Z;
  opened : W -> option (Z * Z);
  left_ : W -> Z;
  exiting : W -> bool;
  memory_map : W -> list Z;
  key_of : W -> Z;
  (** where the description of the screen mode is, and where pool requests are not served *)
  mode_memory : Z -> Prop;
  reserved : Z -> Prop;
  is_fs : Z -> Prop;
  is_root : Z -> Prop;
  is_screen : Z -> W -> Prop
}.

Definition in_block (a n i : Z) : Prop := a <= i < a + n.

Section Effects.
Context {W : Type} `{Machine W} `{Observed W}.
Implicit Types w : W.

Definition protected w (a : Z) : Prop := mine w a \/ mode_memory a.

(** nothing but memory is different *)
Record same_firmware w w' : Prop := {
  sf_mine a : mine w' a <-> mine w a;
  sf_blocks : blocks w' = blocks w;
  sf_opened : opened w' = opened w;
  sf_exiting : exiting w' = exiting w;
  sf_left : left_ w <= left_ w'
}.

(** the memory the firmware must leave alone, but for [bs] put at [buf] *)
Definition wrote w w' (buf : Z) (bs : list Z) : Prop := forall a, protected w a ->
  peek w' a = if (buf <=? a) && (a <? buf + zlen bs) then rd bs (a - buf) else peek w a.

Definition quiet w w' : Prop := same_firmware w w' /\ wrote w w' 0 [].
End Effects.

Class FirmwareLaws (W : Type) `{Machine W} `{!Firmware W} `{!Observed W} (kernel_elf : list Z) (map_limit : Z) := {
  mode_not_mine (w : W) a : mode_memory a -> ~ mine w a;
  poke_mine (w : W) a v : mine w a -> same_firmware w (poke a v w);
  map_bounded (w : W) : zlen (memory_map w) <= map_limit;
  screen_memory gop (w : W) i : is_screen gop w ->
    in_block (gop + 24) 8 i \/ in_block (load 8 (gop + 24) w + 8) 8 i \/ in_block (load 8 (gop + 24) w + 24) 16 i
    \/ in_block (load 8 (load 8 (gop + 24) w + 8) w + 4) 32 i -> mode_memory i;
  OutputString_ok text (w : W) : quiet w (OutputString text w);
  LocateProtocol_ok gop (w : W) : is_screen gop w -> exists w',
    LocateProtocol gEfiGraphicsOutputProtocolGuid w = (0, gop, w') /\ is_screen gop w' /\ quiet w w';
  HandleProtocol_image h (w : W) : exists image w',
    HandleProtocol h gEfiLoadedImageProtocolGuid w = (0, image, w') /\ quiet w w';
  HandleProtocol_fs h (w : W) : exists fs w',
    HandleProtocol h gEfiSimpleFileSystemProtocolGuid w = (0, fs, w') /\ is_fs fs /\ quiet w w';
  OpenVolume_ok fs (w : W) : is_fs fs -> exists root w',
    OpenVolume fs w = (0, root, w') /\ is_root root /\ quiet w w';
  Open_ok root (w : W) : is_root root -> exists file w',
    Open root (c_lit "kernel.elf") EFI_FILE_MODE_READ 0 w = (0, file, w')
    /\ (forall a, mine w' a <-> mine w a) /\ blocks w' = blocks w /\ opened w' = Some (file, 0)
    /\ exiting w' = exiting w /\ left_ w <= left_ w' /\ wrote w w' 0 [];
  Read_ok file pos size buf (w : W) :
    opened w = Some (file, pos) -> 0 <= pos -> 0 <= size -> (forall i, in_block buf size i -> mine w i) ->
    exists w', Read file size buf w = (0, zlen (slice kernel_elf pos size), w')
      /\ (forall a, mine w' a <-> mine w a) /\ blocks w' = blocks w
      /\ opened w' = Some (file, pos + zlen (slice kernel_elf pos size))
      /\ exiting w' = exiting w /\ left_ w <= left_ w' /\ wrote w w' buf (slice kernel_elf pos size);
  SetPosition_ok file pos p (w : W) : opened w = Some (file, pos) -> 0 <= p ->
    exists w', SetPosition file p w = (0, w')
      /\ (forall a, mine w' a <-> mine w a) /\ blocks w' = blocks w /\ opened w' = Some (file, p)
      /\ exiting w' = exiting w /\ left_ w <= left_ w' /\ wrote w w' 0 [];
  (** 102 bytes hold the information with the name kernel.elf *)
  GetInfo_ok file pos size buf (w : W) :
    opened w = Some (file, pos) -> 102 <= size -> (forall i, in_block buf 102 i -> mine w i) ->
    exists w' info, GetInfo file gEfiFileInfoGuid size buf w = (0, 102, w') /\ same_firmware w w'
      /\ wrote w w' buf info /\ zlen info = 102 /\ slice info 8 8 = le_bytes 8 (zlen kernel_elf);
  AllocatePool_ok n (w : W) : 0 < n <= left_ w -> exists p w',
    AllocatePool EfiLoaderData n w = (0, p, w') /\ 0 < p /\ p + n < 2 ^ 64
    /\ (forall i, in_block p n i -> ~ mine w i /\ ~ mode_memory i /\ ~ reserved i)
    /\ (forall a, mine w' a <-> mine w a \/ in_block p n a) /\ blocks w' = <[p := n]> (blocks w)
    /\ opened w' = opened w /\ exiting w' = exiting w /\ left_ w - n <= left_ w'
    /\ zlen (memory_map w') <= zlen (memory_map w) + 4096 /\ wrote w w' 0 [];
  FreePool_ok p n (w : W) : blocks w !! p = Some n ->
    let w' := FreePool p w in
    (forall a, mine w' a <-> mine w a /\ ~ in_block p n a) /\ blocks w' = delete p (blocks w)
    /\ opened w' = opened w /\ exiting w' = exiting w /\ left_ w <= left_ w' /\ wrote w w' 0 [];
  AllocatePages_ok pages a (w : W) : a mod 4096 = 0 -> 0 < pages ->
    (forall i, in_block a (pages * 4096) i -> reserved i /\ ~ mine w i) ->
    exists w', AllocatePages AllocateAddress EfiLoaderData pages a w = (0, a, w')
    /\ (forall i, mine w' i <-> mine w i \/ in_block a (pages * 4096) i) /\ blocks w' = blocks w
    /\ opened w' = opened w /\ exiting w' = exiting w /\ left_ w <= left_ w' /\ wrote w w' 0 [];
  (** with too small a buffer only the size is set *)
  GetMemoryMap_small size buf (w : W) : size < zlen (memory_map w) -> exists r w',
    GetMemoryMap size buf w = (r, w') /\ mc_status r <> 0 /\ MemoryMapSize r = zlen (memory_map w)
    /\ quiet w w' /\ memory_map w' = memory_map w;
  GetMemoryMap_ok size buf (w : W) : zlen (memory_map w) <= size -> (forall i, in_block buf size i -> mine w i) ->
    exists r w', GetMemoryMap size buf w = (r, w') /\ mc_status r = 0 /\ MemoryMapSize r = zlen (memory_map w)
    /\ MapKey r = key_of w' /\ memory_map w' = memory_map w
    /\ same_firmware w w' /\ wrote w w' buf (memory_map w);
  (** the first attempt may fail with a new key; after it the next one succeeds *)
  ExitBootServices_ok image (w : W) : exists st w', ExitBootServices image (key_of w) w = (st, w')
    /\ (st = 0 \/ (exiting w = false /\ exiting w' = true /\ zlen (memory_map w') <= zlen (memory_map w) + 4096))
    /\ (forall a, mine w' a <-> mine w a) /\ blocks w' = blocks w /\ wrote w w' 0 []
}.

(** ** What stays while the loader works *)

Section Loader.
Context {W : Type} `{MachineLaws W} `{!Firmware W} `{!Observed W}.
Context (kernel_elf : list Z) (map_limit : Z) `{!FirmwareLaws W kernel_elf map_limit}.
Implicit Types (w : W) (X : Z -> Prop).

(** a block of a pool request the loader may free *)
Definition own_block w (p n : Z) : Prop :=
  blocks w !! p = Some n /\ 0 < n /\ forall i, in_block p n i -> mine w i.

(** what the loader owned it still owns, with the same contents but for [X] *)
Record later X w w' : Prop := {
  lt_mine a : mine w a -> mine w' a;
  lt_peek a : mine w a -> ~ X a -> peek w' a = peek w a;
  lt_mode a : mode_memory a -> peek w' a = peek w a;
  lt_block p n : own_block w p n -> own_block w' p n
}.

Definition nothing : Z -> Prop := fun _ => False.
(** no new memory is among the reserved one *)
Definition pool_only w w' : Prop := forall a, reserved a -> mine w' a -> mine w a.

Lemma later_refl X w : later X w w.
Proof. by split. Qed.

Lemma later_trans X w1 w2 w3 : later X w1 w2 -> later X w2 w3 -> later X w1 w3.
Proof.
  intros [Hm Hp Ho Hb] [Hm' Hp' Ho' Hb']. split; [by auto| | |by auto].
  - intros a Ha Hx. rewrite Hp', Hp by auto. done.
  - intros a Ha. rewrite Ho', Ho by auto. done.
Qed.

Lemma later_weaken X w w' : later nothing w w' -> later X w w'.
Proof. intros [Hm Hp Ho Hb]. split; [done| |done|done]. intros a Ha _. apply Hp; [done|by intros []]. Qed.

Lemma pool_only_trans w1 w2 w3 : pool_only w1 w2 -> pool_only w2 w3 -> pool_only w1 w3.
Proof. intros H1 H2 a Ha Hm. apply H1, H2; done. Qed.

(** [bs] written over memory that is all in [X], or is not the loader's *)
Lemma wrote_later X w w' buf bs :
  (forall a, mine w a -> mine w' a) -> (forall p n, own_block w p n -> blocks w' !! p = Some n) -> wrote w w' buf bs ->
  (forall i, in_block buf (zlen bs) i -> mine w i -> X i) -> (forall i, in_block buf (zlen bs) i -> ~ mode_memory i) ->
  later X w w'.
Proof.
  intros Hm Hb Hw Hx Hmode.
  assert (Hout : forall a, protected w a -> ~ in_block buf (zlen bs) a -> peek w' a = peek w a).
  { intros a Ha Hn. rewrite Hw by done. unfold in_block in Hn. zcases; cbn [andb]; done || lia. }
  split; [done| | |].
  - intros a Ha Hxa. apply Hout; [by left|]. intros Hi. by apply Hxa, Hx.
  - intros a Ha. apply Hout; [by right|]. intros Hi. by apply (Hmode a).
  - intros p n (Hp & Hn & Hi). split; [by apply Hb|]. split; [done|]. intros i Hi'. by apply Hm, Hi.
Qed.

Lemma in_block_nil buf i : ~ in_block buf (zlen (@nil Z)) i.
Proof. unfold in_block, zlen. cbn [length]. lia. Qed.

Lemma same_later X w w' buf bs :
  same_firmware w w' -> wrote w w' buf bs -> (forall i, in_block buf (zlen bs) i -> mine w i /\ X i) -> later X w w'.
Proof.
  intros [Hm Hb _ _ _] Hw Hx. eapply wrote_later; [intros a; apply Hm| |exact Hw| |].
  - intros p n (Hp & _). by rewrite Hb.
  - intros i Hi _. by apply Hx.
  - intros i Hi Hmode. by apply (mode_not_mine w i Hmode), Hx.
Qed.

Lemma quiet_later w w' : quiet w w' -> later nothing w w'.
Proof. intros [Hs Hw]. eapply same_later; [exact Hs|exact Hw|]. intros i Hi. by apply in_block_nil in Hi. Qed.

Lemma same_pool_only w w' : (forall a, mine w' a <-> mine w a) -> pool_only w w'.
Proof. intros Hm a _ Ha. by apply Hm. Qed.

(** what a step leaves of the amount of memory and of the open file *)
Record step_ok (spend : Z) w w' : Prop := {
  so_later : later nothing w w';
  so_pool : pool_only w w';
  so_left : left_ w - spend <= left_ w'
}.

Lemma step_ok_trans s1 s2 w1 w2 w3 : step_ok s1 w1 w2 -> step_ok s2 w2 w3 -> step_ok (s1 + s2) w1 w3.
Proof.
  intros [L1 P1 S1] [L2 P2 S2]. split; [by eapply later_trans|by eapply pool_only_trans|lia].
Qed.

Lemma step_ok_le s s' w w' : step_ok s w w' -> s <= s' -> step_ok s' w w'.
Proof. intros [L P S] Hs. split; [done|done|lia]. Qed.

Lemma quiet_ok w w' : quiet w w' -> step_ok 0 w w' /\ opened w' = opened w.
Proof.
  intros Hq. split; [split; [by apply quiet_later| |]|]; destruct Hq as [[Hm Hb Ho He Hl] _]; [by apply same_pool_only|lia|done].
Qed.

(** a call that only changes the file position *)
Lemma file_ok w w' :
  (forall a, mine w' a <-> mine w a) -> blocks w' = blocks w -> left_ w <= left_ w' -> wrote w w' 0 [] -> step_ok 0 w w'.
Proof.
  intros Hm Hb Hl Hw. split; [|by apply same_pool_only|lia].
  eapply wrote_later; [intros a; apply Hm|intros p n (Hp & _); by rewrite Hb|exact Hw| |]; intros i Hi; by apply in_block_nil in Hi.
Qed.

(** ** Requests *)

(** a new block: memory that was not the loader's *)
Definition fresh_block w w' (p n : Z) : Prop :=
  own_block w' p n /\ 0 < p /\ p + n < 2 ^ 64 /\ forall i, in_block p n i -> ~ mine w i /\ ~ mode_memory i.

Lemma alloc_ok n w : 0 < n <= left_ w -> exists p w',
  AllocatePool EfiLoaderData n w = (0, p, w') /\ step_ok n w w' /\ fresh_block w w' p n /\ opened w' = opened w
  /\ zlen (memory_map w') <= zlen (memory_map w) + 4096.
Proof.
  intros Hn. destruct (AllocatePool_ok n w Hn) as (p & w' & HA & Hp & Hpn & Hf & Hm & Hb & Ho & _ & Hl & Hmap & Hw).
  exists p, w'. split; [done|]. split; [split| split; [|done]].
  - eapply wrote_later; [intros a Ha; apply Hm; by left| |exact Hw| |]; [|intros i Hi; by apply in_block_nil in Hi..].
    intros q m (Hq & Hm0 & Hi). rewrite Hb, lookup_insert_ne; [done|]. intros ->.
    destruct (Hf q) as [Hno _]; [unfold in_block; lia|]. apply Hno, Hi. unfold in_block. lia.
  - intros a Ha Hma. apply Hm in Hma as [|Hi]; [done|]. by apply Hf in Hi as (_ & _ & []).
  - done.
  - split; [|split; [done|split; [done|]]].
    + split; [by rewrite Hb, lookup_insert_eq|]. split; [lia|]. intros i Hi. apply Hm. by right.
    + intros i Hi. destruct (Hf i Hi) as (H1 & H2 & _). done.
Qed.

(** memory that came after [w0] is given back *)
Lemma free_ok w0 w p n :
  later nothing w0 w -> own_block w p n -> (forall i, in_block p n i -> ~ mine w0 i) ->
  later nothing w0 (FreePool p w) /\ pool_only w (FreePool p w) /\ left_ w <= left_ (FreePool p w)
  /\ opened (FreePool p w) = opened w.
Proof.
  intros [Hm0 Hp0 Ho0 Hb0] (Hb & Hn & Hmine) Hnot.
  destruct (FreePool_ok p n w Hb) as (Hm & Hbs & Ho & _ & Hl & Hw).
  assert (Hpk : forall a, protected w a -> peek (FreePool p w) a = peek w a).
  { intros a Ha. rewrite Hw by done. zcases; cbn [andb]; done || (unfold zlen in *; cbn [length] in *; lia). }
  assert (Hkeep : forall a, mine w0 a -> mine (FreePool p w) a).
  { intros a Ha. apply Hm. split; [by apply Hm0|]. intros Hi. by apply (Hnot a). }
  split; [split; [done| | |]|split; [intros a _ Ha; by apply Hm in Ha as [Ha _]|by split]].
  - intros a Ha Hx. rewrite Hpk by (left; by apply Hm0). by apply Hp0.
  - intros a Ha. rewrite Hpk by (by right). by apply Ho0.
  - intros q m Hq. pose proof (Hb0 q m Hq) as (Hbq & _). destruct Hq as (Hq0 & Hm' & Hi).
    split; [|split; [done|intros i Hii; by apply Hkeep, Hi]]. rewrite Hbs, lookup_delete_ne; [done|]. intros ->.
    apply (Hnot q); [unfold in_block; lia|]. apply Hi. unfold in_block. lia.
Qed.

(** memory that came after [w0] is written *)
Lemma fresh_wrote_later X w0 w w' buf bs :
  later X w0 w -> (forall a, mine w' a <-> mine w a) -> blocks w' = blocks w -> wrote w w' buf bs ->
  (forall i, in_block buf (zlen bs) i -> ~ mine w0 i /\ ~ mode_memory i) -> later X w0 w'.
Proof.
  intros [Hm0 Hp0 Ho0 Hb0] Hm Hb Hw Hnot.
  assert (Hout : forall a, protected w a -> ~ in_block buf (zlen bs) a -> peek w' a = peek w a).
  { intros a Ha Hn. rewrite Hw by done. unfold in_block in Hn. zcases; cbn [andb]; done || lia. }
  split.
  - intros a Ha. by apply Hm, Hm0.
  - intros a Ha Hx. rewrite Hout; [by apply Hp0|left; by apply Hm0|]. intros Hi. by destruct (Hnot a Hi).
  - intros a Ha. rewrite Hout; [by apply Ho0|by right|]. intros Hi. by destruct (Hnot a Hi).
  - intros p n (Hbl & Hn & Hi)%Hb0. split; [by rewrite Hb|]. split; [done|]. intros i Hii. by apply Hm, Hi.
Qed.

Lemma call_Ret (f : W -> Z * Z * W) w st v w' : f w = (st, v, w') -> call f w = Ret (st, v) w'.
Proof. intros E. unfold call. by rewrite E. Qed.

Lemma get_map_Ret size buf w r w' : GetMemoryMap size buf w = (r, w') -> get_map size buf w = Ret r w'.
Proof. intros E. unfold get_map. by rewrite E. Qed.

Lemma print_ok text w : quiet w (OutputString (text ++ [13; 10]) w).
Proof. apply OutputString_ok. Qed.

(** ** The memory map *)

Lemma query_ok w : exists r w', get_map 0 0 w = Ret r w' /\ MemoryMapSize r = zlen (memory_map w)
  /\ memory_map w' = memory_map w /\ quiet w w'.
Proof.
  destruct (decide (zlen (memory_map w) <= 0)) as [Hz|Hz].
  - destruct (GetMemoryMap_ok 0 0 w) as (r & w' & HG & _ & Hs & _ & Hmm & Hsf & Hw); [lia|unfold in_block; lia|].
    exists r, w'. split; [by apply get_map_Ret|]. split; [done|]. split; [done|]. split; [done|].
    replace (memory_map w) with (@nil Z) in Hw; [done|]. destruct (memory_map w); [done|]. rewrite zlen_cons in Hz.
    pose proof (zlen_nonneg l). lia.
  - destruct (GetMemoryMap_small 0 0 w) as (r & w' & HG & _ & Hs & Hq & Hmm); [lia|].
    exists r, w'. split; [by apply get_map_Ret|]. done.
Qed.

(** a buffer large enough gets the map *)
Lemma map_in_block size w : 0 < size <= left_ w -> zlen (memory_map w) + 4096 <= size ->
  exists p w1 r w', AllocatePool EfiLoaderData size w = (0, p, w1) /\ get_map size p w1 = Ret r w'
  /\ mc_status r = 0 /\ MemoryMapSize r = zlen (memory_map w1) /\ memory_map w' = memory_map w1
  /\ MapKey r = key_of w' /\ zlen (memory_map w1) <= zlen (memory_map w) + 4096
  /\ step_ok size w w' /\ fresh_block w w' p size /\ opened w' = opened w
  /\ (forall i, 0 <= i < zlen (memory_map w') -> peek w' (p + i) = rd (memory_map w') i).
Proof.
  intros Hl Hs. destruct (alloc_ok size w Hl) as (p & w1 & HA & [L1 P1 S1] & Hf & Ho & Hmap).
  destruct Hf as (Hown & Hp & Hp2 & Hfresh).
  destruct (GetMemoryMap_ok size p w1) as (r & w' & HG & Hst & Hsz & Hk & Hmm & Hsf & Hw); [lia|apply Hown|].
  exists p, w1, r, w'. split; [done|]. split; [by apply get_map_Ret|]. split; [done|]. split; [done|].
  split; [done|]. split; [done|]. split; [lia|]. pose proof Hsf as [Hm Hb Ho' _ Hl'].
  assert (Hin : forall i, in_block p (zlen (memory_map w1)) i -> in_block p size i) by (unfold in_block; lia).
  split; [split; [|intros a Ha Hma; apply P1; [done|by apply Hm]|lia]|].
  { eapply fresh_wrote_later; [exact L1|exact Hm|exact Hb|exact Hw|]. intros i Hi. by apply Hfresh, Hin. }
  destruct Hown as (Hbl & Hn & Hi). split; [split; [split; [by rewrite Hb|split; [done|intros i Hii; by apply Hm, Hi]]|done]|].
  split; [congruence|]. intros i Hi'. rewrite Hmm in Hi' |- *.
  rewrite Hw by (left; apply Hi; unfold in_block; lia).
  rewrite (proj2 (Z.leb_le p _)), (proj2 (Z.ltb_lt _ _)) by lia. cbn [andb]. f_equal. lia.
Qed.

Lemma GetMap_ok fuel w : (0 < fuel)%nat -> map_limit + 4096 <= left_ w -> map_limit + 4096 < 2 ^ 64 ->
  exists p n w', GetMap fuel w = Ret p w' /\ own_block w' p n /\ 0 < p
  /\ step_ok (map_limit + 4096) w w'.
Proof.
  intros Hf Hl Hlim. destruct fuel as [|fuel]; [lia|]. unfold GetMap, modify. cbn [bind].
  set (w1 := OutputString _ w). assert (Q1 : quiet w w1) by apply OutputString_ok. clearbody w1.
  destruct (query_ok w1) as (r & w2 & HG & Hs & Hmm & Q2). rewrite (bind_Ret _ _ _ _ _ HG).
  pose proof (map_bounded w1). pose proof (zlen_nonneg (memory_map w1)).
  pose proof (quiet_ok w w1 Q1) as [[L1 P1 S1] _]. pose proof (quiet_ok w1 w2 Q2) as [[L2 P2 S2] _].
  cbn [first_map]. rewrite u64_small by lia.
  destruct (map_in_block (MemoryMapSize r + 4096) w2) as (p & w3 & r' & w' & HA & HG' & Hst & _ & _ & _ & _ & S3 & (Hown & Hp & _) & _);
    [lia|rewrite Hmm; lia|].
  rewrite (bind_Ret _ _ _ _ _ (call_Ret _ _ _ _ _ HA)). cbn [negb Z.eqb EFI_SUCCESS].
  change (negb (0 =? EFI_SUCCESS)) with false. cbv iota. rewrite (bind_Ret _ _ _ _ _ HG'), Hst.
  exists p, (MemoryMapSize r + 4096), w'. split; [done|]. split; [done|]. split; [done|].
  eapply step_ok_le; [eapply step_ok_trans; [split; [exact L1|exact P1|exact S1]|eapply step_ok_trans; [split; [exact L2|exact P2|exact S2]|exact S3]]|lia].
Qed.

(** ** The kernel file *)

Lemma open_kernel_ok image w : exists file w', open_kernel image w = Ret file w'
  /\ opened w' = Some (file, 0) /\ step_ok 0 w w'.
Proof.
  unfold open_kernel.
  destruct (HandleProtocol_image image w) as (img & w1 & E1 & Q1).
  rewrite (bind_Ret _ _ _ _ _ (call_Ret _ _ _ _ _ E1)). change (negb (0 =? EFI_SUCCESS)) with false. cbv iota.
  unfold load_, get at 1. cbn [bind].
  destruct (HandleProtocol_fs (load 8 (img + 24) w1) w1) as (fs & w2 & E2 & Hfs & Q2).
  rewrite (bind_Ret _ _ _ _ _ (call_Ret _ _ _ _ _ E2)). change (negb (0 =? EFI_SUCCESS)) with false. cbv iota.
  destruct (OpenVolume_ok fs w2 Hfs) as (root & w3 & E3 & Hroot & Q3). rewrite (bind_Ret _ _ _ _ _ (call_Ret _ _ _ _ _ E3)).
  destruct (Open_ok root w3 Hroot) as (file & w4 & E4 & Hm & Hb & Ho & _ & Hl & Hw).
  rewrite (bind_Ret _ _ _ _ _ (call_Ret _ _ _ _ _ E4)). change (negb (0 =? EFI_SUCCESS)) with false. cbv iota.
  exists file, w4. split; [done|]. split; [done|].
  apply quiet_ok in Q1 as [Q1 _], Q2 as [Q2 _], Q3 as [Q3 _].
  apply (step_ok_le (0 + (0 + (0 + 0)))); [|lia].
  eapply step_ok_trans; [exact Q1|]. eapply step_ok_trans; [exact Q2|]. eapply step_ok_trans; [exact Q3|]. by apply file_ok.
Qed.

(** [bs] is in the loader's memory at [a] *)
Definition holds w (a : Z) (bs : list Z) : Prop :=
  forall i, 0 <= i < zlen bs -> mine w (a + i) /\ peek w (a + i) = rd bs i.

Lemma holds_later X w w' a bs :
  holds w a bs -> later X w w' -> (forall i, in_block a (zlen bs) i -> ~ X i) -> holds w' a bs.
Proof.
  intros Hh [Hm Hp _ _] Hx i Hi. destruct (Hh i Hi) as [H1 H2]. split; [by apply Hm|].
  rewrite Hp; [done..|]. apply Hx. unfold in_block. lia.
Qed.

(** a little-endian value of the file *)
Definition value_at (file : list Z) (off n : Z) : Z := le_val (slice file off n).

Lemma load_holds w a bs off n :
  holds w a bs -> 0 <= off -> off + Z.of_nat n <= zlen bs -> load n (a + off) w = value_at bs off (Z.of_nat n).
Proof.
  intros Hh Ho Hn. unfold load, value_at. f_equal. apply buf_ext.
  { rewrite zlen_slice by lia. unfold zlen. by rewrite length_peek_all. }
  unfold zlen at 1. rewrite length_peek_all. intros i Hi.
  rewrite rd_peek_all, rd_slice by lia. rewrite <- Z.add_assoc. by apply Hh; lia.
Qed.

Lemma peek_all_holds w a bs n :
  holds w a bs -> Z.of_nat n <= zlen bs -> peek_all a n w = slice bs 0 (Z.of_nat n).
Proof.
  intros Hh Hn. apply buf_ext.
  { rewrite zlen_slice by lia. unfold zlen. by rewrite length_peek_all. }
  unfold zlen at 1. rewrite length_peek_all. intros i Hi. rewrite rd_peek_all, rd_slice by lia. by apply Hh; lia.
Qed.

Lemma zlen_prefix (l : list Z) n : 0 <= n -> zlen (slice l 0 n) = n `min` zlen l.
Proof. intros Hn. unfold slice, zlen. change (Z.to_nat 0) with 0%nat. rewrite drop_0, length_take. lia. Qed.

(** ** The headers of the file *)

Definition f_entry (file : list Z) : Z := value_at file 24 8.
Definition f_phoff (file : list Z) : Z := value_at file 32 8.
Definition f_phnum (file : list Z) : Z := value_at file 56 2.
Definition f_phdr (file : list Z) (i : Z) : Elf64_Phdr :=
  let a := f_phoff file + 56 * i in
  mkPhdr (value_at file a 4) (value_at file (a + 8) 8) (value_at file (a + 16) 8) (value_at file (a + 32) 8)
    (value_at file (a + 40) 8).

Lemma value_at_prefix file m off n : 0 <= off -> 0 <= n -> off + n <= m -> value_at (slice file 0 m) off n = value_at file off n.
Proof. intros Ho Hn Hm. unfold value_at. by rewrite slice_slice, Z.add_0_l by lia. Qed.

Lemma value_at_range off n : Forall is_byte kernel_elf -> 0 <= n -> 0 <= off -> off + n <= zlen kernel_elf ->
  0 <= value_at kernel_elf off n < 256 ^ n.
Proof.
  intros Hb Hn Ho Hz. unfold value_at.
  pose proof (le_val_range (slice kernel_elf off n)) as Hr. rewrite zlen_slice in Hr by lia. apply Hr.
  unfold slice. by apply Forall_take, Forall_drop.
Qed.

(** a file the loader can work with: its headers lie in the first page, its segments
    in the file, and they do not overlap in memory *)
Record good_kernel : Prop := {
  gk_bytes : Forall is_byte kernel_elf;
  gk_magic : slice kernel_elf 0 4 = [0x7F; 0x45; 0x4C; 0x46];
  gk_size : 64 <= zlen kernel_elf < 2 ^ 63;
  gk_headers : f_phoff kernel_elf + 56 * f_phnum kernel_elf <= zlen kernel_elf `min` 4096;
  gk_segment i : 0 <= i < f_phnum kernel_elf -> p_type (f_phdr kernel_elf i) = PT_LOAD ->
    let ph := f_phdr kernel_elf i in
    p_filesz ph <= p_memsz ph /\ p_offset ph + p_filesz ph <= zlen kernel_elf /\ p_vaddr ph + p_memsz ph < 2 ^ 64;
  gk_apart i j : 0 <= i < j -> j < f_phnum kernel_elf ->
    p_type (f_phdr kernel_elf i) = PT_LOAD -> p_type (f_phdr kernel_elf j) = PT_LOAD ->
    let p := f_phdr kernel_elf i in let q := f_phdr kernel_elf j in
    p_vaddr p + p_memsz p <= p_vaddr q \/ p_vaddr q + p_memsz q <= p_vaddr p
}.

Context (Hgk : good_kernel).

Lemma header_fields w a n : holds w a (slice kernel_elf 0 n) -> 64 <= n ->
  e_entry a w = f_entry kernel_elf /\ e_phoff a w = f_phoff kernel_elf /\ e_phnum a w = f_phnum kernel_elf
  /\ 0 <= f_phoff kernel_elf < 2 ^ 64 /\ 0 <= f_phnum kernel_elf < 2 ^ 16.
Proof.
  intros Hh Hn. destruct Hgk as [Hb _ Hz _ _ _].
  pose proof (zlen_prefix kernel_elf n ltac:(lia)) as Hzn.
  unfold e_entry, e_phoff, e_phnum, f_entry, f_phoff, f_phnum.
  rewrite !(load_holds w a (slice kernel_elf 0 n)) by (done || lia).
  change (Z.of_nat 8) with 8. change (Z.of_nat 2) with 2. rewrite !value_at_prefix by lia.
  pose proof (value_at_range 32 8 Hb). pose proof (value_at_range 56 2 Hb). lia.
Qed.

(** the pointer [Phdr] and what [Phdr[i]] reads *)
Lemma phdr_holds w a n i : holds w a (slice kernel_elf 0 n) -> 64 <= n ->
  f_phoff kernel_elf + 56 * f_phnum kernel_elf <= n -> 0 <= a -> a + n < 2 ^ 64 ->
  Phdr_of a w = a + f_phoff kernel_elf
  /\ (0 <= i < f_phnum kernel_elf -> phdr (a + f_phoff kernel_elf) i w = f_phdr kernel_elf i).
Proof.
  intros Hh Hn Hend Ha Haz. destruct (header_fields w a n Hh Hn) as (_ & Ep & _ & Hp & Hk).
  pose proof Hgk as [Hb _ Hz Hhd _ _].
  pose proof (zlen_prefix kernel_elf n ltac:(lia)) as Hzn.
  split. { unfold Phdr_of. rewrite Ep. apply u64_small. lia. }
  intros Hi. unfold phdr, read_phdr, f_phdr, sizeof_Elf64_Phdr. cbv zeta. rewrite <- !Z.add_assoc.
  rewrite !(load_holds w a (slice kernel_elf 0 n)) by (done || lia).
  change (Z.of_nat 8) with 8. change (Z.of_nat 4) with 4. by rewrite !value_at_prefix by lia.
Qed.

Lemma phdr_range i : 0 <= i < f_phnum kernel_elf -> let ph := f_phdr kernel_elf i in
  0 <= p_offset ph /\ 0 <= p_vaddr ph < 2 ^ 64 /\ 0 <= p_filesz ph /\ 0 <= p_memsz ph < 2 ^ 64.
Proof.
  intros Hi. destruct Hgk as [Hb _ Hz Hhd _ _]. unfold f_phdr. cbv zeta. cbn [p_offset p_vaddr p_filesz p_memsz].
  assert (Hp0 : 0 <= f_phoff kernel_elf) by (apply (value_at_range 32 8 Hb); lia).
  pose proof (value_at_range (f_phoff kernel_elf + 56 * i + 8) 8 Hb).
  pose proof (value_at_range (f_phoff kernel_elf + 56 * i + 16) 8 Hb).
  pose proof (value_at_range (f_phoff kernel_elf + 56 * i + 32) 8 Hb).
  pose proof (value_at_range (f_phoff kernel_elf + 56 * i + 40) 8 Hb). lia.
Qed.

(** ** Where the kernel goes *)

(** the bytes from the lowest to the highest of the segments from header [i] on *)
Fixpoint extent (n : nat) (i first last : Z) : Z * Z :=
  match n with
  | O => (first, last)
  | S n' =>
      let ph := f_phdr kernel_elf i in
      if p_type ph =? PT_LOAD then
        extent n' (i + 1) (p_vaddr ph `min` first) ((p_vaddr ph + p_memsz ph) `max` last)
      else extent n' (i + 1) first last
  end.
Definition kernel_extent : Z * Z := extent (Z.to_nat (f_phnum kernel_elf)) 0 (2 ^ 64 - 1) 0.

Lemma kernel_range_extent w Phdr : forall n i first last,
  (forall j, i <= j < i + Z.of_nat n -> phdr Phdr j w = f_phdr kernel_elf j) ->
  0 <= i -> i + Z.of_nat n <= f_phnum kernel_elf ->
  kernel_range n Phdr i first last w = extent n i first last.
Proof.
  induction n as [|n IH]; intros i first last Hj Hi Hn; [done|]. cbn [kernel_range extent].
  rewrite (Hj i) by lia. destruct (Z.eqb_spec (p_type (f_phdr kernel_elf i)) PT_LOAD) as [Hl|_].
  - destruct (gk_segment Hgk i ltac:(lia) Hl) as (_ & _ & Hv). destruct (phdr_range i ltac:(lia)) as (_ & Hv0 & _ & Hm0).
    rewrite u64_small by lia. rewrite IH by (intros; apply Hj; lia) || lia.
    f_equal; zcases; lia.
  - apply IH; [intros; apply Hj; lia|lia..].
Qed.

Lemma extent_spec : forall n i first last, let '(f, l) := extent n i first last in
  f <= first /\ last <= l
  /\ forall j, i <= j < i + Z.of_nat n -> p_type (f_phdr kernel_elf j) = PT_LOAD ->
       f <= p_vaddr (f_phdr kernel_elf j) /\ p_vaddr (f_phdr kernel_elf j) + p_memsz (f_phdr kernel_elf j) <= l.
Proof.
  induction n as [|n IH]; intros i first last; cbn [extent]; [repeat split; lia|].
  destruct (Z.eqb_spec (p_type (f_phdr kernel_elf i)) PT_LOAD) as [Hl|Hl]; cbv zeta.
  - specialize (IH (i + 1) (p_vaddr (f_phdr kernel_elf i) `min` first)
      ((p_vaddr (f_phdr kernel_elf i) + p_memsz (f_phdr kernel_elf i)) `max` last)).
    destruct (extent n _ _ _) as [f l]. destruct IH as (H1 & H2 & H3). split; [lia|]. split; [lia|].
    intros j Hj Hlj. destruct (decide (j = i)) as [->|]; [lia|]. apply H3; [lia|done].
  - specialize (IH (i + 1) first last). destruct (extent n _ _ _) as [f l]. destruct IH as (H1 & H2 & H3).
    split; [lia|]. split; [lia|]. intros j Hj Hlj. destruct (decide (j = i)) as [->|]; [done|]. apply H3; [lia|done].
Qed.

(** the pages for it are whole, and free *)
Record room_for_kernel w : Prop := {
  rk_extent : 0 <= kernel_extent.1 < kernel_extent.2 /\ kernel_extent.2 + 0x1000 < 2 ^ 64;
  rk_aligned : kernel_extent.1 mod 4096 = 0;
  rk_free i : in_block kernel_extent.1 ((kernel_extent.2 - kernel_extent.1 + 0xFFF) / 4096 * 4096) i ->
    reserved i /\ ~ mine w i
}.

Definition kernel_memory (i : Z) : Prop :=
  in_block kernel_extent.1 ((kernel_extent.2 - kernel_extent.1 + 0xFFF) / 4096 * 4096) i.

Lemma segment_in_kernel j k w : room_for_kernel w ->
  0 <= j < f_phnum kernel_elf -> p_type (f_phdr kernel_elf j) = PT_LOAD ->
  0 <= k < p_memsz (f_phdr kernel_elf j) -> kernel_memory (p_vaddr (f_phdr kernel_elf j) + k).
Proof.
  intros _ Hj Hl Hk. unfold kernel_memory, kernel_extent, in_block.
  pose proof (extent_spec (Z.to_nat (f_phnum kernel_elf)) 0 (2 ^ 64 - 1) 0) as He.
  destruct (extent _ _ _ _) as [f l]. cbn [fst snd]. destruct He as (_ & _ & He).
  specialize (He j ltac:(lia) Hl). zlia.
Qed.

Lemma Read_fresh w0 file size p w : opened w = Some (file, 0) -> 0 <= size ->
  fresh_block w0 w p size -> later nothing w0 w ->
  exists w', call (Read file size p) w = Ret (0, zlen (slice kernel_elf 0 size)) w'
  /\ later nothing w0 w' /\ fresh_block w0 w' p size /\ (forall a, mine w' a <-> mine w a)
  /\ left_ w <= left_ w' /\ opened w' = Some (file, zlen (slice kernel_elf 0 size))
  /\ holds w' p (slice kernel_elf 0 size).
Proof.
  intros Ho Hs ((Hb & Hn & Hi) & Hp & Hp2 & Hnot) HL.
  destruct (Read_ok file 0 size p w Ho ltac:(lia) Hs Hi) as (w' & E & Hm & Hbl & Ho' & _ & Hl & Hw).
  pose proof (zlen_prefix kernel_elf size Hs) as Hz. pose proof (zlen_nonneg kernel_elf).
  assert (Hin : forall i, in_block p (zlen (slice kernel_elf 0 size)) i -> in_block p size i) by (unfold in_block; lia).
  exists w'. split; [by apply call_Ret|]. split; [|split; [|split; [done|split; [done|split; [done|]]]]].
  - eapply fresh_wrote_later; [exact HL|exact Hm|exact Hbl|exact Hw|]. intros i Hii. by apply Hnot, Hin.
  - split; [split; [by rewrite Hbl|split; [done|intros i Hii; by apply Hm, Hi]]|done].
  - intros i Hii. assert (Hmi : mine w (p + i)) by (apply Hi; unfold in_block; lia). split; [by apply Hm|].
    rewrite Hw by (by left). rewrite (proj2 (Z.leb_le p _)), (proj2 (Z.ltb_lt _ _)) by lia. cbn [andb]. f_equal. lia.
Qed.

Lemma allocate_kernel_ok file w : opened w = Some (file, 0) -> 4096 <= left_ w -> room_for_kernel w ->
  exists w' pos, allocate_kernel file w = Ret tt w' /\ later nothing w w' /\ left_ w - 4096 <= left_ w'
  /\ (forall i, kernel_memory i -> mine w' i) /\ opened w' = Some (file, pos).
Proof.
  intros Ho Hl Hroom. unfold allocate_kernel.
  destruct (alloc_ok 4096 w ltac:(lia)) as (p & w1 & E1 & [L1 P1 S1] & F1 & Ho1 & _).
  rewrite (bind_Ret _ _ _ _ _ (call_Ret _ _ _ _ _ E1)).
  destruct (Read_fresh w file 4096 p w1 ltac:(congruence) ltac:(lia) F1 L1) as (w2 & E2 & L2 & F2 & Hm2 & Hl2 & Ho2 & Hh).
  rewrite (bind_Ret _ _ _ _ _ E2). destruct F2 as (Hown & Hp & Hp2 & Hnot). pose proof Hgk as [Hbytes Hmagic Hsz Hhd _ _].
  pose proof (zlen_prefix kernel_elf 4096 ltac:(lia)) as Hz.
  destruct (header_fields w2 p 4096 Hh ltac:(lia)) as (_ & _ & En & Hpo & Hpn).
  unfold get at 1. cbn [bind]. rewrite (peek_all_holds _ _ _ 4 Hh), slice_slice, Z.add_0_l by (cbn; lia).
  change (Z.of_nat 4) with 4. rewrite Hmagic. rewrite bool_decide_true by done. cbn [negb].
  unfold get at 1. cbn [bind]. rewrite En. unfold get at 1. cbn [bind].
  destruct (phdr_holds w2 p 4096 0 Hh) as [EP _]; [lia..|]. rewrite EP.
  rewrite (kernel_range_extent w2) by (lia || (intros j Hj; apply (phdr_holds w2 p 4096 j Hh); lia)).
  change 0xFFFFFFFFFFFFFFFF with (2 ^ 64 - 1). fold kernel_extent.
  destruct Hroom as [[Hf1 Hf2] Hal Hfree]. unfold kernel_memory.
  destruct kernel_extent as [first last]. cbn [fst snd] in *. rewrite !u64_small by (rewrite ?u64_small; lia).
  change 0x1000 with 4096. set (pages := (last - first + 0xFFF) / 4096) in *.
  assert (Hpg : 0 < pages) by (unfold pages; zlia).
  destruct (AllocatePages_ok pages first w2 Hal Hpg) as (w3 & E3 & Hm3 & Hb3 & Ho3 & _ & Hl3 & Hw3).
  { intros i Hi. destruct (Hfree i Hi) as [Hr Hn]. split; [done|]. intros Hmi. apply Hn, P1; [done|]. by apply Hm2. }
  rewrite (bind_Ret _ _ _ _ _ (call_Ret _ _ _ _ _ E3)). change (negb (0 =? EFI_SUCCESS)) with false. cbv iota.
  assert (L3 : later nothing w w3).
  { eapply later_trans; [exact L2|]. eapply wrote_later; [intros a Ha; apply Hm3; by left|intros q m (Hq & _); by rewrite Hb3|exact Hw3| |];
      intros i Hi; by apply in_block_nil in Hi. }
  assert (Hown3 : own_block w3 p 4096).
  { destruct Hown as (Hb & Hn & Hi). split; [by rewrite Hb3|]. split; [done|]. intros i Hii. apply Hm3. left. by apply Hi. }
  destruct (free_ok w w3 p 4096 L3 Hown3) as (L4 & _ & Hl4 & Ho4); [intros i Hi; by apply Hnot|].
  exists (FreePool p w3), (zlen (slice kernel_elf 0 4096)). split; [done|]. split; [done|]. split; [lia|].
  split; [|congruence]. intros i Hi. destruct (FreePool_ok p 4096 w3 (proj1 Hown3)) as (Hm4 & _). apply Hm4.
  split; [apply Hm3; by right|]. intros Hip. destruct (Hfree i Hi) as [Hr Hn].
  apply (proj1 (Hnot i Hip)), P1; [done|]. apply Hm2, Hown. done.
Qed.

(** ** The file in memory *)

Lemma read_kernel_ok fib file pos w :
  opened w = Some (file, pos) -> zlen kernel_elf <= left_ w -> (forall i, in_block fib 256 i -> mine w i) ->
  exists Ehdr w', read_kernel fib file w = Ret Ehdr w' /\ later (in_block fib 256) w w'
  /\ left_ w - zlen kernel_elf <= left_ w' /\ holds w' Ehdr kernel_elf /\ 0 < Ehdr
  /\ Ehdr + zlen kernel_elf < 2 ^ 64 /\ forall i, in_block Ehdr (zlen kernel_elf) i -> ~ mine w i.
Proof.
  intros Ho Hl Hfib. unfold read_kernel. pose proof Hgk as [_ _ Hsz _ _ _].
  destruct (GetInfo_ok file pos 336 fib w Ho) as (w1 & info & E1 & S1 & Hw1 & Hzi & Hinfo); [lia| |].
  { intros i Hi. apply Hfib. unfold in_block in *. lia. }
  rewrite (bind_Ret _ _ _ _ _ (call_Ret _ _ _ _ _ E1)).
  assert (L1 : later (in_block fib 256) w w1).
  { eapply same_later; [exact S1|exact Hw1|]. intros i Hi. rewrite Hzi in Hi.
    split; [apply Hfib|]; unfold in_block in *; lia. }
  assert (Hsize : forall w2, later nothing w1 w2 -> load 8 (fib + 8) w2 = zlen kernel_elf).
  { intros w2 [Hm2 Hp2 _ _]. rewrite (load_ext _ 8 w1) by (intros i Hi; apply Hp2; [apply S1, Hfib; unfold in_block; lia|by intros []]).
    unfold load. replace (peek_all (fib + 8) 8 w1) with (slice info 8 8); [rewrite Hinfo; apply le_val_bytes; lia|].
    apply buf_ext; [rewrite zlen_slice by lia; unfold zlen; by rewrite length_peek_all|].
    rewrite zlen_slice by lia. intros i Hi. rewrite rd_slice, rd_peek_all by lia.
    rewrite Hw1 by (left; apply Hfib; unfold in_block; lia).
    rewrite (proj2 (Z.leb_le fib _)), (proj2 (Z.ltb_lt _ _)) by lia. cbn [andb]. f_equal. lia. }
  unfold load_, get at 1. cbn [bind]. rewrite (Hsize w1) by apply later_refl. pose proof S1 as [Hm1 _ Ho1 _ Hl1].
  destruct (alloc_ok (zlen kernel_elf) w1 ltac:(lia)) as (p & w2 & E2 & [L2 P2 Sp2] & F2 & Ho2 & _).
  rewrite (bind_Ret _ _ _ _ _ (call_Ret _ _ _ _ _ E2)). change (negb (0 =? EFI_SUCCESS)) with false. cbv iota.
  destruct (SetPosition_ok file pos 0 w2 ltac:(by rewrite Ho2, Ho1) ltac:(lia)) as (w3 & E3 & Hm3 & Hb3 & Ho3 & _ & Hl3 & Hw3).
  unfold bind at 1. rewrite E3. cbn [snd].
  pose proof (file_ok w2 w3 Hm3 Hb3 Hl3 Hw3) as [L3 _ _]. pose proof (later_trans _ _ _ _ L2 L3) as L13.
  unfold get at 1. cbn [bind]. rewrite (Hsize w3) by done.
  assert (F3 : fresh_block w1 w3 p (zlen kernel_elf)).
  { destruct F2 as ((Hb & Hn & Hi) & Hrest). split; [split; [by rewrite Hb3|split; [done|intros i Hii; by apply Hm3, Hi]]|done]. }
  destruct (Read_fresh w1 file (zlen kernel_elf) p w3 Ho3 ltac:(lia) F3 L13) as (w4 & E4 & L4 & F4 & _ & Hl4 & _ & Hh).
  rewrite (bind_Ret _ _ _ _ _ E4). change (negb (0 =? EFI_SUCCESS)) with false. cbv iota.
  destruct F4 as (_ & Hp & Hp2 & Hnot). exists p, w4. split; [done|].
  split; [eapply later_trans; [exact L1|by apply later_weaken]|]. split; [lia|].
  split; [|split; [done|split; [done|intros i Hi Hmi; destruct (Hnot i Hi) as [Hno _]; by apply Hno, Hm1]]].
  by rewrite slice_all in Hh.
Qed.

(** ** The segments *)

Lemma same_firmware_trans w1 w2 w3 : same_firmware w1 w2 -> same_firmware w2 w3 -> same_firmware w1 w3.
Proof.
  intros [M1 B1 O1 E1 L1] [M2 B2 O2 E2 L2]. split; [|congruence..|lia]. intros a. by rewrite M2, M1.
Qed.

Lemma poke_all_mine bs : forall a w, (forall i, in_block a (zlen bs) i -> mine w i) -> same_firmware w (poke_all a bs w).
Proof.
  induction bs as [|b bs IH]; intros a w Hm; [by split|]. rewrite zlen_cons in Hm. cbn [poke_all].
  pose proof (zlen_nonneg bs). assert (S1 : same_firmware w (poke a b w)) by (apply poke_mine, Hm; unfold in_block; lia).
  eapply same_firmware_trans; [exact S1|]. apply IH. intros i Hi. apply S1, Hm. unfold in_block in *. lia.
Qed.

(** a copy between places that do not overlap *)
Lemma copy_loop_poke_all n : forall d s w, d + Z.of_nat n <= s \/ s + Z.of_nat n <= d ->
  copy_loop n d s w = poke_all d (peek_all s n w) w.
Proof.
  induction n as [|n IH]; intros d s w Hd; [done|]. cbn [copy_loop peek_all poke_all]. rewrite IH by lia.
  f_equal. apply peek_all_ext. intros i Hi. rewrite peek_poke. by rewrite (proj2 (Z.eqb_neq i d)) by lia.
Qed.

(** the bytes of a segment in memory *)
Definition segment_bytes (ph : Elf64_Phdr) : list Z :=
  slice kernel_elf (p_offset ph) (p_filesz ph) ++ replicate (Z.to_nat (p_memsz ph - p_filesz ph)) 0.

Lemma load_segment_ok Ehdr i w : holds w Ehdr kernel_elf -> 0 < Ehdr -> Ehdr + zlen kernel_elf < 2 ^ 64 ->
  0 <= i < f_phnum kernel_elf -> p_type (f_phdr kernel_elf i) = PT_LOAD ->
  (forall k, kernel_memory k -> ~ in_block Ehdr (zlen kernel_elf) k) ->
  let ph := f_phdr kernel_elf i in
  (forall k, in_block (p_vaddr ph) (p_memsz ph) k -> kernel_memory k) ->
  load_segment Ehdr ph w = poke_all (p_vaddr ph) (segment_bytes ph) w.
Proof.
  intros Hh HE Hend Hi Hl Hapart ph Hin.
  destruct (gk_segment Hgk i Hi Hl) as (Hfm & Hof & Hv). destruct (phdr_range i Hi) as (Ho & Hv0 & Hf & Hm).
  fold ph in Hfm, Hof, Hv, Ho, Hv0, Hf, Hm.
  assert (Hsrc : peek_all (Ehdr + p_offset ph) (Z.to_nat (p_filesz ph)) w = slice kernel_elf (p_offset ph) (p_filesz ph)).
  { apply buf_ext; [rewrite zlen_slice by lia; unfold zlen; rewrite length_peek_all; lia|].
    unfold zlen at 1. rewrite length_peek_all. intros k Hk. rewrite rd_peek_all, rd_slice by lia.
    rewrite <- Z.add_assoc. by apply Hh; lia. }
  unfold load_segment, CopyMem, SetMem. rewrite (u64_small (Ehdr + p_offset ph)) by lia.
  rewrite copy_loop_poke_all.
  2:{ rewrite Z2Nat.id by lia. destruct (decide (p_filesz ph = 0)) as [->|Hne]; [lia|].
      destruct (decide (p_vaddr ph + p_filesz ph <= Ehdr + p_offset ph)); [lia|].
      destruct (decide (Ehdr + p_offset ph + p_filesz ph <= p_vaddr ph)); [lia|]. exfalso.
      set (k := Z.max (p_vaddr ph) (Ehdr + p_offset ph)).
      apply (Hapart k); [apply Hin|]; unfold in_block, k; lia. }
  rewrite Hsrc. unfold segment_bytes. rewrite poke_all_app, zlen_slice by lia. rewrite !u64_small by lia.
  destruct (Z.ltb_spec 0 (p_memsz ph - p_filesz ph)); [done|].
  by replace (Z.to_nat (p_memsz ph - p_filesz ph)) with 0%nat by lia.
Qed.

(** the segments of the first [n] headers are in place *)
Definition loaded (n : Z) w : Prop := forall j, 0 <= j < n -> p_type (f_phdr kernel_elf j) = PT_LOAD ->
  let ph := f_phdr kernel_elf j in
  forall k, 0 <= k < p_memsz ph ->
  peek w (p_vaddr ph + k) = if k <? p_filesz ph then rd kernel_elf (p_offset ph + k) else 0.

Lemma segment_bytes_at i k : 0 <= i < f_phnum kernel_elf -> p_type (f_phdr kernel_elf i) = PT_LOAD ->
  let ph := f_phdr kernel_elf i in
  zlen (segment_bytes ph) = p_memsz ph
  /\ (0 <= k < p_memsz ph -> u8 (rd (segment_bytes ph) k) = if k <? p_filesz ph then rd kernel_elf (p_offset ph + k) else 0).
Proof.
  intros Hi Hl ph. destruct (gk_segment Hgk i Hi Hl) as (Hfm & Hof & Hv).
  destruct (phdr_range i Hi) as (Ho & Hv0 & Hf & Hm). fold ph in Hfm, Hof, Hv, Ho, Hv0, Hf, Hm.
  unfold segment_bytes. split; [rewrite zlen_app, zlen_slice, zlen_zeros by lia; lia|]. intros Hk.
  destruct (Z.ltb_spec k (p_filesz ph)).
  - rewrite rd_app_l by (rewrite zlen_slice; lia). rewrite rd_slice by lia. apply u8_small.
    apply (Forall_rd is_byte); [apply Hgk|lia].
  - rewrite rd_app_r by (rewrite zlen_slice; lia). rewrite zlen_slice by lia. rewrite rd_replicate by lia. done.
Qed.

Lemma load_segments_ok w0 Ehdr w : room_for_kernel w0 ->
  (forall k, kernel_memory k -> ~ in_block Ehdr (zlen kernel_elf) k) -> 0 < Ehdr -> Ehdr + zlen kernel_elf < 2 ^ 64 ->
  forall n i w1, i + Z.of_nat n >= f_phnum kernel_elf -> 0 <= i <= f_phnum kernel_elf ->
  (forall k, kernel_memory k -> mine w1 k) -> holds w1 Ehdr kernel_elf -> same_firmware w w1 -> later kernel_memory w w1 -> loaded i w1 ->
  let w' := load_segments n Ehdr (Ehdr + f_phoff kernel_elf) i w1 in
  same_firmware w w' /\ later kernel_memory w w' /\ loaded (f_phnum kernel_elf) w'.
Proof.
  intros Hroom Hapart HE Hend. pose proof Hgk as [_ _ Hsz Hhd _ _].
  pose proof (slice_all kernel_elf) as Hall.
  induction n as [|n IH]; intros i w1 Hn Hi Hkm Hh Hs HL Hld; cbn [load_segments].
  { split; [done|]. split; [done|]. by replace (f_phnum kernel_elf) with i by lia. }
  assert (Hh' : holds w1 Ehdr (slice kernel_elf 0 (zlen kernel_elf))) by by rewrite Hall.
  destruct (header_fields w1 Ehdr _ Hh') as (_ & _ & -> & _); [lia|].
  destruct (Z.ltb_spec i (f_phnum kernel_elf)); [|split; [done|split; [done|by replace (f_phnum kernel_elf) with i by lia]]].
  destruct (phdr_holds w1 Ehdr _ i Hh') as [_ Hph]; [lia..|]. rewrite Hph by lia. cbv zeta.
  destruct (Z.eqb_spec (p_type (f_phdr kernel_elf i)) PT_LOAD) as [Hl|Hl].
  2:{ apply IH; [lia|lia|done..|]. intros j Hj Hlj. destruct (decide (j = i)) as [->|]; [done|]. apply Hld; [lia|done]. }
  assert (Hin : forall k, in_block (p_vaddr (f_phdr kernel_elf i)) (p_memsz (f_phdr kernel_elf i)) k -> kernel_memory k).
  { intros k Hk. replace k with (p_vaddr (f_phdr kernel_elf i) + (k - p_vaddr (f_phdr kernel_elf i))) by lia.
    eapply segment_in_kernel; [exact Hroom|lia|done|unfold in_block in Hk; lia]. }
  rewrite (load_segment_ok Ehdr i w1) by (done || lia).
  destruct (segment_bytes_at i 0 ltac:(lia) Hl) as [Hzs _].
  set (w2 := poke_all _ _ w1).
  assert (S2 : same_firmware w1 w2) by (apply poke_all_mine; rewrite Hzs; intros k Hk; by apply Hkm, Hin).
  assert (P2 : forall k, ~ in_block (p_vaddr (f_phdr kernel_elf i)) (p_memsz (f_phdr kernel_elf i)) k -> peek w2 k = peek w1 k).
  { intros k Hk. unfold w2. rewrite peek_poke_other; [done|]. rewrite Hzs. unfold in_block in Hk. lia. }
  assert (L2 : later kernel_memory w1 w2).
  { split; [intros a; apply S2| | |].
    - intros a Ha Hx. apply P2. intros Hk. by apply Hx, Hin.
    - intros a Ha. apply P2. intros Hk. by apply (mode_not_mine w1 a Ha), Hkm, Hin.
    - intros p m (Hp & Hm & Hi'). split; [by rewrite (sf_blocks _ _ S2)|]. split; [done|]. intros k Hk. by apply S2, Hi'. }
  apply IH; [lia|lia|intros k Hk; by apply S2, Hkm| | | |].
  - eapply holds_later; [exact Hh|exact L2|]. intros k Hk Hx. by apply (Hapart k).
  - by eapply same_firmware_trans.
  - by eapply later_trans.
  - intros j Hj Hlj ph k Hk. destruct (decide (j = i)) as [->|Hne].
    + destruct (segment_bytes_at i k ltac:(lia) Hl) as [_ Hb]. fold ph in Hb. rewrite <- Hb by done. unfold w2.
      rewrite peek_poke_all, Hzs. fold ph. rewrite (proj2 (Z.leb_le _ _)), (proj2 (Z.ltb_lt _ _)) by lia. cbn [andb].
      by replace (p_vaddr ph + k - p_vaddr ph) with k by lia.
    + rewrite P2; [apply Hld; [lia|done|done]|]. pose proof (gk_apart Hgk j i ltac:(lia) ltac:(lia) Hlj Hl) as Hap.
      cbv zeta in Hap. fold ph in Hap. unfold in_block. lia.
Qed.

(** ** The end of the boot services *)

(** the map at [buf] is the one whose key was accepted *)
Definition accepted image buf (r : MapCall) w' : Prop := exists wx,
  ExitBootServices image (MapKey r) wx = (0, w') /\ MapKey r = key_of wx
  /\ MemoryMapSize r = zlen (memory_map wx)
  /\ forall i, 0 <= i < zlen (memory_map wx) -> peek w' (buf + i) = rd (memory_map wx) i.

(** an attempt with the map at [buf] in a block of [size] bytes, which came after [w0] *)
Lemma exit_ok image w0 w buf size r :
  later nothing w0 w -> fresh_block w0 w buf size -> MapKey r = key_of w ->
  MemoryMapSize r = zlen (memory_map w) -> zlen (memory_map w) <= size ->
  (forall i, 0 <= i < zlen (memory_map w) -> peek w (buf + i) = rd (memory_map w) i) ->
  exists st w', ExitBootServices image (MapKey r) w = (st, w') /\ later nothing w0 w' /\ fresh_block w0 w' buf size
  /\ (st = 0 -> accepted image buf r w')
  /\ (st <> 0 -> exiting w = false /\ exiting w' = true /\ zlen (memory_map w') <= zlen (memory_map w) + 4096).
Proof.
  intros HL ((Hb & Hn & Hi) & Hf) Hk Hs Hle Hmap.
  destruct (ExitBootServices_ok image w) as (st & w' & E & Hst & Hm & Hbl & Hw). rewrite <- Hk in E.
  exists st, w'. split; [done|]. split; [|split; [|split]].
  - eapply fresh_wrote_later; [exact HL|exact Hm|exact Hbl|exact Hw|]. intros i Hi'. by apply in_block_nil in Hi'.
  - split; [|done]. split; [by rewrite Hbl|]. split; [done|]. intros i Hii. by apply Hm, Hi.
  - intros ->. exists w. split; [done|]. split; [done|]. split; [done|]. intros i Hii.
    rewrite Hw by (left; apply Hi; unfold in_block; lia).
    replace ((0 <=? buf + i) && (buf + i <? 0 + zlen (@nil Z))) with false; [by apply Hmap|].
    change (zlen (@nil Z)) with 0. zcases; cbn [andb]; done || lia.
  - intros Hne. by destruct Hst as [|].
Qed.

(** the map again, into the buffer that is there *)
Lemma map_again w0 w buf size : later nothing w0 w -> fresh_block w0 w buf size -> zlen (memory_map w) <= size ->
  exists r w', get_map size buf w = Ret r w' /\ mc_status r = 0 /\ later nothing w0 w' /\ fresh_block w0 w' buf size
  /\ MapKey r = key_of w' /\ MemoryMapSize r = zlen (memory_map w') /\ zlen (memory_map w') <= size
  /\ exiting w' = exiting w /\ (forall i, 0 <= i < zlen (memory_map w') -> peek w' (buf + i) = rd (memory_map w') i).
Proof.
  intros HL ((Hb & Hn & Hi) & Hp & Hp2 & Hf) Hle.
  destruct (GetMemoryMap_ok size buf w Hle Hi) as (r & w' & E & Hst & Hs & Hk & Hmm & [Hm Hbl _ He _] & Hw).
  exists r, w'. split; [by apply get_map_Ret|]. split; [done|]. split; [|split].
  - eapply fresh_wrote_later; [exact HL|exact Hm|exact Hbl|exact Hw|]. intros i Hii. apply Hf. unfold in_block in *. lia.
  - split; [|done]. split; [by rewrite Hbl|]. split; [done|]. intros i Hii. by apply Hm, Hi.
  - split; [done|]. split; [by rewrite Hmm|]. split; [by rewrite Hmm|]. split; [done|].
    intros i Hii. rewrite Hmm in Hii |- *. rewrite Hw by (left; apply Hi; unfold in_block; lia).
    rewrite (proj2 (Z.leb_le buf _)), (proj2 (Z.ltb_lt _ _)) by lia. cbn [andb]. f_equal. lia.
Qed.

(** the first request is large enough *)
Lemma last_map_ok fuel w0 size w : (0 < fuel)%nat -> later nothing w0 w -> zlen (memory_map w) <= size ->
  0 <= size -> size + 4096 <= left_ w -> size + 4096 < 2 ^ 64 -> pool_only w0 w ->
  exists buf r w', last_map fuel size w = Ret (buf, size + 4096, r) w'
  /\ later nothing w0 w' /\ fresh_block w0 w' buf (size + 4096) /\ MapKey r = key_of w'
  /\ MemoryMapSize r = zlen (memory_map w') /\ zlen (memory_map w') <= zlen (memory_map w) + 4096
  /\ forall i, 0 <= i < zlen (memory_map w') -> peek w' (buf + i) = rd (memory_map w') i.
Proof.
  intros Hf HL Hs Hs0 Hl H64 HP. destruct fuel as [|fuel]; [lia|]. cbn [last_map]. rewrite u64_small by lia.
  destruct (map_in_block (size + 4096) w) as (buf & w1 & r & w2 & EA & EG & Hst & Hsz & Hmm & Hk & Hgrow & [L P S] & (Hown & Hb & Hb2 & Hfr) & _ & Hpk); [lia..|].
  rewrite (bind_Ret _ _ _ _ _ (call_Ret _ _ _ _ _ EA)). change (negb (0 =? EFI_SUCCESS)) with false. cbv iota.
  rewrite (bind_Ret _ _ _ _ _ EG), Hst. exists buf, r, w2. split; [done|].
  split; [by eapply later_trans|]. split; [split; [done|split; [done|split; [done|]]]|].
  { intros i Hi. destruct (Hfr i Hi) as [Hno Hmode]. split; [|done]. intros Hm. by apply Hno, (lt_mine _ _ _ HL). }
  split; [done|]. split; [by rewrite Hmm|]. split; [by rewrite Hmm|done].
Qed.

Lemma exit_services_ok image fuel p n w : (0 < fuel)%nat -> own_block w p n -> 0 < p ->
  map_limit + 8192 <= left_ w -> map_limit + 8192 < 2 ^ 64 ->
  exists buf r w', exit_services image fuel p w = Ret (buf, r) w'
  /\ later nothing (FreePool p w) w' /\ accepted image buf r w'.
Proof.
  intros Hfuel Hown Hp Hl Hlim. unfold exit_services.
  rewrite (proj2 (Z.eqb_neq p 0)) by lia. unfold modify at 1. cbn [bind].
  destruct (FreePool_ok p n w (proj1 Hown)) as (_ & _ & _ & _ & Hl1 & _). set (w1 := FreePool p w) in *. clearbody w1.
  destruct (query_ok w1) as (r0 & w2 & E2 & Hs & Hmm & Q2). rewrite (bind_Ret _ _ _ _ _ E2).
  pose proof (map_bounded w1). pose proof (zlen_nonneg (memory_map w1)). pose proof (quiet_ok w1 w2 Q2) as [[L2 P2 S2] _].
  rewrite u64_small by lia.
  destruct (last_map_ok fuel w1 (MemoryMapSize r0 + 4096) w2) as (buf & r & w3 & E3 & L3 & F3 & Hk & Hsz & Hgrow & Hpk);
    [done|done|rewrite Hmm; lia|lia..|done|].
  rewrite Hmm in Hgrow. rewrite (bind_Ret _ _ _ _ _ E3). cbv beta iota.
  destruct (exit_ok image w1 w3 buf _ r L3 F3 Hk Hsz) as (st & w4 & E4 & L4 & F4 & Hok & Hno); [lia|done|].
  unfold bind at 1. rewrite E4. destruct (Z.eqb_spec st EFI_SUCCESS) as [Hst|Hst].
  { exists buf, r, w4. split; [done|]. split; [done|by apply Hok]. }
  destruct (Hno Hst) as (_ & Hex & Hgrow4).
  destruct (map_again w1 w4 buf _ L4 F4) as (r' & w5 & E5 & Hst5 & L5 & F5 & Hk5 & Hsz5 & Hle5 & Hex5 & Hpk5); [lia|].
  rewrite (bind_Ret _ _ _ _ _ E5), Hst5. change (negb (0 =? EFI_SUCCESS)) with false. cbv iota.
  destruct (exit_ok image w1 w5 buf _ r' L5 F5 Hk5 Hsz5 Hle5 Hpk5) as (st' & w6 & E6 & L6 & _ & Hok6 & Hno6).
  unfold bind at 1. rewrite E6. cbn [snd]. exists buf, r', w6. split; [done|]. split; [done|]. apply Hok6.
  destruct (decide (st' = 0)) as [|Hne]; [done|]. destruct (Hno6 Hne) as [Hex6 _]. congruence.
Qed.

(** ** The screen *)

Definition same_mode w w' : Prop := forall a, mode_memory a -> peek w' a = peek w a.

Lemma same_mode_trans w1 w2 w3 : same_mode w1 w2 -> same_mode w2 w3 -> same_mode w1 w3.
Proof. intros H1 H2 a Ha. by rewrite H2, H1. Qed.

Lemma gop_mode_same gop w w' : is_screen gop w -> same_mode w w' -> gop_mode gop w' = gop_mode gop w.
Proof.
  intros Hg Hm. pose proof (screen_memory gop w) as Hs.
  assert (E0 : load 8 (gop + 24) w' = load 8 (gop + 24) w).
  { apply load_ext. intros i Hi. apply Hm, (Hs i Hg). left. unfold in_block. lia. }
  assert (E1 : load 8 (load 8 (gop + 24) w + 8) w' = load 8 (load 8 (gop + 24) w + 8) w).
  { apply load_ext. intros i Hi. apply Hm, (Hs i Hg). right. left. unfold in_block. lia. }
  unfold gop_mode. rewrite E0. cbv zeta. rewrite E1.
  f_equal; apply load_ext; intros i Hi; apply Hm, (Hs i Hg); unfold in_block; lia.
Qed.

(** the pixels EfiMain colours *)
Definition screen_bytes (mode : FrameBufferConfig) (i : Z) : Prop :=
  in_block (FrameBufferBase mode) (4 * u32 (VerticalResolution mode * HorizontalResolution mode)) i.

Lemma fill_screen_ok gop w : (forall i, screen_bytes (gop_mode gop w) i -> mine w i) ->
  exists w', fill_screen gop w = Ret tt w' /\ same_firmware w w' /\ later (screen_bytes (gop_mode gop w)) w w'.
Proof.
  intros Hm. unfold fill_screen, get. cbn [bind]. set (mode := gop_mode gop w) in *. unfold screen_bytes in *.
  set (n := u32 _) in *. set (base := FrameBufferBase mode) in *.
  destruct (run_for_inv (fun _ w' => same_firmware w w' /\ later (in_block base (4 * n)) w w') (Z.to_nat n) 0
    (fun i => modify (store_at 4 (base + 4 * i) 0xFFFF8000)) w) as (w' & E & HS & HL).
  - split; [by split|apply later_refl].
  - intros j w1 Hj [S1 L1]. eexists. split; [reflexivity|].
    assert (Hin : forall i, in_block (base + 4 * j) (zlen (le_bytes 4 0xFFFF8000)) i -> in_block base (4 * n) i)
      by (change (zlen (le_bytes 4 0xFFFF8000)) with 4; unfold in_block; lia).
    assert (S2 : same_firmware w1 (store_at 4 (base + 4 * j) 0xFFFF8000 w1))
      by (apply poke_all_mine; intros i Hi; by apply S1, Hm, Hin).
    split; [by eapply same_firmware_trans|]. eapply later_trans; [exact L1|].
    eapply (same_later _ _ _ (base + 4 * j) (le_bytes 4 0xFFFF8000)); [exact S2| |intros i Hi; split; [by apply S1, Hm, Hin|by apply Hin]].
    intros a _. unfold store_at. rewrite peek_poke_all. destruct (_ && _) eqn:Ea; [|done]. apply u8_small.
    apply (Forall_rd is_byte); [apply le_bytes_range|]. apply andb_prop in Ea as [Ea1 Ea2]. lia.
  - exists w'. done.
Qed.

(** ** The boot *)

(** the firmware has memory for the requests, the screen and the array on the stack are
    the loader's, and the kernel's place is free *)
Record bootable (fib : Z) w : Prop := {
  bo_left : 2 * map_limit + zlen kernel_elf + 20480 <= left_ w;
  bo_limit : map_limit + 8192 < 2 ^ 64;
  bo_stack i : in_block fib 256 i -> mine w i;
  bo_gop : exists gop, is_screen gop w;
  bo_screen gop w' : LocateProtocol gEfiGraphicsOutputProtocolGuid w = (0, gop, w') ->
    forall i, screen_bytes (gop_mode gop w') i -> mine w i;
  bo_kernel : room_for_kernel w
}.

Lemma room_later w w' : room_for_kernel w -> pool_only w w' -> room_for_kernel w'.
Proof.
  intros [He Ha Hf] HP. split; [done|done|]. intros i Hi. destruct (Hf i Hi) as [Hr Hn]. split; [done|].
  intros Hm. by apply Hn, HP.
Qed.

Lemma find_screen_ok gop w : is_screen gop w -> exists w', find_screen w = Ret gop w'
  /\ LocateProtocol gEfiGraphicsOutputProtocolGuid w = (0, gop, w') /\ is_screen gop w' /\ quiet w w'.
Proof.
  intros Hg. destruct (LocateProtocol_ok gop w Hg) as (w' & E & Hs & Hq). exists w'. unfold find_screen.
  rewrite (bind_Ret _ _ _ _ _ (call_Ret _ _ _ _ _ E)). by change (negb (0 =? EFI_SUCCESS)) with false.
Qed.

Lemma modify_Ret {A} f (k : unit -> W -> Run W A) w : bind (modify f) k w = k tt (f w).
Proof. done. Qed.

(** what is known when the file is in memory: the map is in the block [p], the file at
    [Ehdr], and neither is in the kernel's place, which is the loader's *)
Record file_ready (p n Ehdr : Z) w : Prop := {
  fr_map : own_block w p n /\ 0 < p;
  fr_file : holds w Ehdr kernel_elf /\ 0 < Ehdr /\ Ehdr + zlen kernel_elf < 2 ^ 64;
  fr_kernel i : kernel_memory i -> mine w i /\ ~ in_block Ehdr (zlen kernel_elf) i /\ ~ in_block p n i;
  fr_apart i : in_block Ehdr (zlen kernel_elf) i -> ~ in_block p n i
}.

Lemma load_file_ok fuel fib image w :
  (0 < fuel)%nat -> map_limit + zlen kernel_elf + 8192 <= left_ w -> map_limit + 4096 < 2 ^ 64 ->
  (forall i, in_block fib 256 i -> mine w i) -> room_for_kernel w ->
  exists p n Ehdr w', load_file fuel fib image w = Ret (p, Ehdr) w' /\ file_ready p n Ehdr w'
  /\ later (in_block fib 256) w w' /\ left_ w - (map_limit + zlen kernel_elf + 8192) <= left_ w'.
Proof.
  intros Hfuel Hleft Hlim Hstack Hroom. pose proof (zlen_nonneg kernel_elf) as Hz. unfold load_file.
  destruct (GetMap_ok fuel w Hfuel) as (p & n & w3 & E3 & Hp3 & Hp & Q3); [lia..|].
  rewrite (bind_Ret _ _ _ _ _ E3). unfold print at 1. rewrite !modify_Ret. set (w4 := OutputString _ (OutputString _ w3)).
  assert (Q4 : step_ok 0 w3 w4).
  { unfold w4. apply (step_ok_le (0 + 0)); [|lia]. eapply step_ok_trans; apply quiet_ok, OutputString_ok. }
  clearbody w4. destruct (open_kernel_ok image w4) as (file & w5 & E5 & Ho5 & Q5). rewrite (bind_Ret _ _ _ _ _ E5).
  pose proof (step_ok_trans _ _ _ _ _ Q3 (step_ok_trans _ _ _ _ _ Q4 Q5)) as [L35 P35 S35].
  pose proof (so_later _ _ _ (step_ok_trans _ _ _ _ _ Q4 Q5)) as L45.
  pose proof (room_later _ _ Hroom P35) as Hroom5.
  destruct (allocate_kernel_ok file w5 Ho5) as (w6 & pos & E6 & L6 & S6 & Hk6 & Ho6); [lia|done|].
  rewrite (bind_Ret _ _ _ _ _ E6).
  destruct (read_kernel_ok fib file pos w6 Ho6) as (Ehdr & w7 & E7 & L7 & S7 & Hh & HE & HE2 & Hfr); [lia| |].
  { intros i Hi. by apply (lt_mine _ _ _ L6), (lt_mine _ _ _ L35), Hstack. }
  rewrite (bind_Ret _ _ _ _ _ E7). exists p, n, Ehdr, w7. split; [done|].
  assert (Hp5 : own_block w5 p n) by by apply (lt_block _ _ _ L45).
  assert (Hp6 : own_block w6 p n) by by apply (lt_block _ _ _ L6).
  split; [split|split; [|lia]].
  - split; [by apply (lt_block _ _ _ L7)|done].
  - done.
  - intros i Hi. split; [by apply (lt_mine _ _ _ L7), Hk6|]. split; [intros Hb; by apply (Hfr i Hb), Hk6|].
    intros Hb. destruct (rk_free _ Hroom5 i Hi) as [_ Hno]. by apply Hno, Hp5.
  - intros i Hi Hb. by apply (Hfr i Hi), Hp6.
  - eapply later_trans; [|exact L7]. apply later_weaken. by eapply later_trans.
Qed.

(** the kernel runs with this *)
Definition started image (start : KernelStart) (screen : FrameBufferConfig) w' : Prop :=
  entry start = f_entry kernel_elf /\ config start = screen /\ loaded (f_phnum kernel_elf) w'
  /\ exists wx, ExitBootServices image (map_key (memmap_arg start)) wx = (0, w')
     /\ map_key (memmap_arg start) = key_of wx /\ map_size (memmap_arg start) = zlen (memory_map wx)
     /\ forall i, 0 <= i < zlen (memory_map wx) -> peek w' (buffer (memmap_arg start) + i) = rd (memory_map wx) i.

(** memory outside of the block that is given back *)
Lemma after_free w p n w' a : own_block w p n -> later nothing (FreePool p w) w' -> mine w a -> ~ in_block p n a ->
  peek w' a = peek w a.
Proof.
  intros Hp HL Ha Hn. destruct (FreePool_ok p n w (proj1 Hp)) as (Hm & _ & _ & _ & _ & Hw).
  rewrite (lt_peek _ _ _ HL); [|by apply Hm|by intros []]. rewrite Hw by (by left).
  change (zlen (@nil Z)) with 0. zcases; cbn [andb]; done || lia.
Qed.

Lemma start_kernel_ok fuel image gop p n Ehdr w1 w w0 : (0 < fuel)%nat -> file_ready p n Ehdr w ->
  is_screen gop w1 -> same_mode w1 w ->
  map_limit + 8192 <= left_ w -> map_limit + 8192 < 2 ^ 64 -> room_for_kernel w0 ->
  exists start w', start_kernel fuel image gop p Ehdr w = Ret start w' /\ started image start (gop_mode gop w1) w'.
Proof.
  intros Hfuel [[Hp Hp0] (Hh & HE & HE2) Hk Hap] Hg Hmode Hl Hlim Hroom. unfold start_kernel, print. rewrite !modify_Ret.
  pose proof Hgk as [_ _ Hsz Hhd _ _].
  assert (Hall : forall a, holds a Ehdr kernel_elf -> holds a Ehdr (slice kernel_elf 0 (zlen kernel_elf))).
  { intros a. by rewrite slice_all. }
  set (w2 := OutputString _ w). assert (Q2 : quiet w w2) by apply OutputString_ok. clearbody w2.
  pose proof (quiet_later w w2 Q2) as L2. destruct (quiet_ok w w2 Q2) as [[_ _ Sl2] _].
  assert (Hh2 : holds w2 Ehdr kernel_elf) by (eapply holds_later; [exact Hh|exact L2|by intros i _ []]).
  destruct (phdr_holds w2 Ehdr (zlen kernel_elf) 0 (Hall w2 Hh2)) as [EP _]; [lia..|]. rewrite EP.
  destruct (header_fields w2 Ehdr (zlen kernel_elf) (Hall w2 Hh2)) as (_ & _ & _ & _ & Hpn); [lia|].
  destruct (load_segments_ok w0 Ehdr w2 Hroom (fun k Hkk => proj1 (proj2 (Hk k Hkk))) HE HE2 max_headers 0 w2) as (SF3 & L3 & Hld);
    [unfold max_headers; lia|lia|intros k Hkk; by apply L2, Hk|done|by split|apply later_refl|intros j Hj; lia|].
  set (w3 := load_segments _ _ _ _ _) in *. clearbody w3.
  set (w4 := OutputString _ w3). assert (Q4 : quiet w3 w4) by apply OutputString_ok. clearbody w4.
  pose proof (quiet_later w3 w4 Q4) as L4. destruct (quiet_ok w3 w4 Q4) as [[_ _ Sl4] _].
  assert (Hp4 : own_block w4 p n) by (apply (lt_block _ _ _ L4), (lt_block _ _ _ L3), (lt_block _ _ _ L2), Hp).
  destruct (exit_services_ok image fuel p n w4 Hfuel Hp4 Hp0) as (buf & r & w5 & E5 & L5 & wx & Hacc); [pose proof (sf_left _ _ SF3); lia|done|].
  unfold get at 1. cbn [bind]. rewrite (bind_Ret _ _ _ _ _ E5). unfold get at 1. cbn [bind].
  pose proof (fun a => after_free w4 p n w5 a Hp4 L5) as Hfin.
  assert (Hh4 : holds w4 Ehdr kernel_elf).
  { eapply holds_later; [|exact L4|by intros i _ []]. eapply holds_later; [exact Hh2|exact L3|]. intros i Hi Hki. by destruct (Hk i Hki) as (_ & Hno & _). }
  eexists _, w5. split; [done|]. split; [|split; [|split; [|exists wx; exact Hacc]]]; cbn [entry config memmap_arg].
  - enough (Hh5 : e_entry Ehdr w5 = e_entry Ehdr w4).
    { rewrite Hh5. by destruct (header_fields w4 Ehdr _ (Hall w4 Hh4)) as [-> _]; [lia|]. }
    apply load_ext. intros i Hi. replace i with (Ehdr + (i - Ehdr)) by lia. apply Hfin; [apply Hh4; lia|].
    apply Hap. unfold in_block. lia.
  - apply gop_mode_same; [done|]. eapply same_mode_trans; [exact Hmode|]. intros a Ha.
    by rewrite (lt_mode _ _ _ L4), (lt_mode _ _ _ L3), (lt_mode _ _ _ L2).
  - intros j Hj Hlj ph k Hkk. pose proof (Hld j Hj Hlj k Hkk) as Hseg. cbv zeta in Hseg. fold ph in Hseg. rewrite <- Hseg.
    assert (Hkm : kernel_memory (p_vaddr ph + k)) by by eapply segment_in_kernel.
    destruct (Hk _ Hkm) as (Hm & _ & Hnp). rewrite Hfin; [|by apply L4, L3, L2|done].
    apply (lt_peek _ _ _ L4); [by apply L3, L2|by intros []].
Qed.

(** C8: EfiMain copies the kernel to its place, gives the boot services back with the map
    they accept, and jumps to the entry point. *)
Theorem EfiMain_starts fuel fib image w : (0 < fuel)%nat -> bootable fib w ->
  exists gop w1 start w', EfiMain fuel fib image w = Ret start w'
  /\ LocateProtocol gEfiGraphicsOutputProtocolGuid w = (0, gop, w1) /\ started image start (gop_mode gop w1) w'.
Proof.
  intros Hfuel [Hleft Hlim Hstack [gop Hg0] Hscreen Hroom].
  assert (Hlim0 : 0 <= map_limit) by (pose proof (map_bounded w); pose proof (zlen_nonneg (memory_map w)); lia).
  unfold EfiMain.
  destruct (find_screen_ok gop w Hg0) as (w1 & E1 & ELP & Hg & Q1). rewrite (bind_Ret _ _ _ _ _ E1).
  destruct (quiet_ok w w1 Q1) as [[L1 P1 S1] _].
  destruct (fill_screen_ok gop w1) as (w2 & E2 & [M2 _ _ _ S2] & L2); [intros i Hi; by apply L1, (Hscreen gop w1)|].
  rewrite (bind_Ret _ _ _ _ _ E2).
  destruct (load_file_ok fuel fib image w2 Hfuel) as (p & n & Ehdr & w3 & E3 & F3 & L3 & S3); [lia..| | |].
  { intros i Hi. by apply M2, L1, Hstack. }
  { apply (room_later w); [done|]. eapply pool_only_trans; [exact P1|by apply same_pool_only]. }
  rewrite (bind_Ret _ _ _ _ _ E3).
  destruct (start_kernel_ok fuel image gop p n Ehdr w1 w3 w Hfuel F3 Hg) as (start & w4 & E4 & HS); [|lia..|done|].
  { eapply same_mode_trans; [exact (lt_mode _ _ _ L2)|exact (lt_mode _ _ _ L3)]. }
  by exists gop, w1, start, w4.
Qed.
End Loader.

(** ** A firmware, and a kernel of one segment *)

Module FirmwareSim.
(** [top]: the end of the memory in use *)
Record t := mk { ram : gmap Z Z; own : Z -> Prop; top : Z; blk : gmap Z Z; file : option (Z * Z); key : Z; tried : bool }.

#[global] Instance machine : Machine t := {
  peek w a := u8 (default 0 (ram w !! a));
  poke a v w := mk (<[a := v]> (ram w)) (own w) (top w) (blk w) (file w) (key w) (tried w);
  reg_read a w := (0, w);
  reg_write a v w := w;
  port_in n p w := (0, w);
  port_out n p v w := w;
  cpu_pause w := w;
  cpu_wbinvd w := w
}.

#[global] Instance laws : MachineLaws t.
Proof.
  split.
  - intros w a. cbn [peek machine]. apply u8_range.
  - intros w a v b. cbn [peek poke machine ram]. destruct (Z.eqb_spec b a) as [->|Hne].
    + by rewrite (lookup_insert_eq (ram w)).
    + by rewrite (lookup_insert_ne (ram w)) by lia.
Qed.

(** the screen's description is in the page at 0x1000 *)
Definition in_mode (a : Z) : Prop := 0x1000 <= a < 0x2000.
Definition mine_ (w : t) (a : Z) : Prop := own w a /\ a < top w /\ ~ in_mode a.
Definition pool_base : Z := 2 ^ 40.

(** one descriptor: 256 MiB of conventional memory from 0x100000 on *)
Definition map_bytes : list Z :=
  le_bytes 4 7 ++ replicate 4 0 ++ le_bytes 8 0x100000 ++ replicate 8 0 ++ le_bytes 8 65536 ++ replicate 16 0.

Definition elf : list Z :=
  [0x7F; 0x45; 0x4C; 0x46] ++ replicate 20 0 ++ le_bytes 8 0x100000 ++ le_bytes 8 64 ++ replicate 16 0
  ++ le_bytes 2 1 ++ replicate 6 0
  ++ le_bytes 4 1 ++ replicate 4 0 ++ le_bytes 8 120 ++ le_bytes 8 0x100000 ++ replicate 8 0
  ++ le_bytes 8 4 ++ le_bytes 8 8 ++ replicate 8 0
  ++ [0xDE; 0xAD; 0xBE; 0xEF].

Definition with_file (w : t) (f : option (Z * Z)) : t := mk (ram w) (own w) (top w) (blk w) f (key w) (tried w).

Definition info : list Z := replicate 8 0 ++ le_bytes 8 (zlen elf) ++ replicate 86 0.

#[global] Instance firmware : Firmware t := {
  OutputString text w := w;
  LocateProtocol guid w := (0, 0x1000, w);
  HandleProtocol h guid w := (0, 0x500, w);
  GetMemoryMap size buf w :=
    if size <? zlen map_bytes then (mkMapCall 0x8000000000000005 (zlen map_bytes) 0 0 0, w)
    else (mkMapCall 0 (zlen map_bytes) (key w) 48 1, poke_all buf map_bytes w);
  AllocatePool ty n w :=
    let p := Z.max pool_base (top w) in
    (0, p, mk (ram w) (fun a => mine_ w a \/ in_block p n a) (p + n) (<[p := n]> (blk w)) (file w) (key w + 1) (tried w));
  FreePool p w :=
    mk (ram w) (fun a => mine_ w a /\ forall n, blk w !! p = Some n -> ~ in_block p n a) (top w) (delete p (blk w))
      (file w) (key w + 1) (tried w);
  AllocatePages kind ty pages a w :=
    (0, a, mk (ram w) (fun i => mine_ w i \/ in_block a (pages * 4096) i) (Z.max (top w) (a + pages * 4096)) (blk w)
      (file w) (key w + 1) (tried w));
  ExitBootServices image k w := if k =? key w then (0, w) else (0x8000000000000002, w);
  OpenVolume fs w := (0, 0x600, w);
  Open root name mode attributes w := (0, 0x700, with_file w (Some (0x700, 0)));
  Read f size buf w :=
    match file w with
    | Some (h, pos) =>
        let bs := slice elf pos size in (0, zlen bs, with_file (poke_all buf bs w) (Some (h, pos + zlen bs)))
    | None => (0x8000000000000003, 0, w)
    end;
  SetPosition f p w := (0, with_file w (match file w with Some (h, _) => Some (h, p) | None => None end));
  GetInfo f guid size buf w := (0, 102, poke_all buf info w)
}.

#[global] Instance observed : Observed t := {
  mine := mine_;
  blocks := blk;
  opened := file;
  left_ w := 2 ^ 63 - Z.max pool_base (top w);
  exiting := tried;
  memory_map w := map_bytes;
  key_of := key;
  mode_memory := in_mode;
  reserved a := 0x100000 <= a < pool_base;
  is_fs fs := True;
  is_root root := True;
  is_screen gop w := gop = 0x1000 /\ load 8 0x1018 w = 0x1100 /\ load 8 0x1108 w = 0x1200
}.

Lemma poke_all_rest bs : forall a w, exists r, poke_all a bs w = mk r (own w) (top w) (blk w) (file w) (key w) (tried w).
Proof.
  induction bs as [|b bs IH]; intros a w; [exists (ram w); by destruct w|]. cbn [poke_all].
  destruct (IH (a + 1) (poke a b w)) as [r ->]. by exists r.
Qed.

Lemma poke_all_wrote a bs w f : Forall is_byte bs -> wrote w (with_file (poke_all a bs w) f) a bs.
Proof.
  intros Hb i _. change (peek (with_file (poke_all a bs w) f) i) with (peek (poke_all a bs w) i). rewrite peek_poke_all.
  destruct (_ && _) eqn:E; [|done]. apply andb_prop in E as [E1 E2]. apply u8_small, (Forall_rd is_byte); [done|lia].
Qed.

Lemma poke_all_same a bs w f : same_firmware w (with_file (poke_all a bs w) (file w))
  /\ (forall i, mine (with_file (poke_all a bs w) f) i <-> mine w i) /\ blocks (with_file (poke_all a bs w) f) = blocks w
  /\ left_ (with_file (poke_all a bs w) f) = left_ w.
Proof. destruct (poke_all_rest bs a w) as [r ->]. split; [by split|]. done. Qed.

Lemma quiet_self w : quiet w w.
Proof. split; [by split|]. intros a _. change (zlen (@nil Z)) with 0. zcases; cbn [andb]; done || lia. Qed.

Lemma wrote_nothing (w w' : t) : ram w' = ram w -> wrote w w' 0 [].
Proof.
  intros E a _. change (zlen (@nil Z)) with 0. replace ((0 <=? a) && (a <? 0 + 0)) with false by (zcases; cbn [andb]; done || lia).
  cbn [peek machine]. by rewrite E.
Qed.

Lemma bytes_ok : Forall is_byte map_bytes /\ Forall is_byte elf /\ Forall is_byte info.
Proof. split_and!; apply (bool_decide_unpack _); vm_compute; exact I. Qed.

Lemma with_file_same w : with_file w (file w) = w.
Proof. by destruct w. Qed.

#[global] Instance firmware_laws : FirmwareLaws t elf 48.
Proof.
  destruct bytes_ok as (Hbm & Hbe & Hbi). split.
  - intros w a Hm Hmine. by apply Hmine.
  - intros w a v _. by split.
  - intros w. vm_compute. discriminate.
  - intros gop w i (-> & H1 & H2) Hi. change (0x1000 + 24) with 0x1018 in Hi. rewrite H1 in Hi.
    change (0x1100 + 8) with 0x1108 in Hi. rewrite H2 in Hi. cbn [mode_memory observed]. unfold in_mode, in_block in *. lia.
  - intros text w. apply quiet_self.
  - intros gop w Hg. exists w. pose proof Hg as [-> _]. split; [done|]. split; [done|apply quiet_self].
  - intros h w. exists 0x500, w. split; [done|apply quiet_self].
  - intros h w. exists 0x500, w. split; [done|]. split; [done|apply quiet_self].
  - intros fs w _. exists 0x600, w. split; [done|]. split; [done|apply quiet_self].
  - intros root w _. exists 0x700, (with_file w (Some (0x700, 0))). repeat (split; [done|]). by apply wrote_nothing.
  - intros f pos size buf w Ho Hp Hs Hm. cbn [opened observed] in Ho. cbn [Read firmware]. rewrite Ho.
    eexists. split; [reflexivity|]. destruct (poke_all_same buf (slice elf pos size) w (Some (f, pos + zlen (slice elf pos size)))) as (Hsf & Hmi & Hb & Hl).
    split; [done|]. split; [done|]. split; [done|]. split; [by destruct (poke_all_rest (slice elf pos size) buf w) as [r ->]|].
    split; [by rewrite Hl|]. apply poke_all_wrote. unfold slice. by apply Forall_take, Forall_drop.
  - intros f pos p w Ho Hp. cbn [opened observed] in Ho. cbn [SetPosition firmware]. rewrite Ho. eexists. split; [reflexivity|].
    repeat (split; [done|]). by apply wrote_nothing.
  - intros f pos size buf w Ho Hs Hm. exists (poke_all buf info w), info. split; [done|].
    destruct (poke_all_same buf info w None) as (Hsf & _).
    assert (E : with_file (poke_all buf info w) (file w) = poke_all buf info w) by by destruct (poke_all_rest info buf w) as [r ->].
    pose proof (poke_all_wrote buf info w (file w) Hbi) as Hw. rewrite E in Hsf, Hw. by split.
  - intros n w Hn. exists (Z.max pool_base (top w)). eexists. split; [reflexivity|]. cbn [left_ observed] in Hn.
    unfold pool_base in *. split; [lia|]. split; [lia|]. split.
    { intros i Hi. unfold mine, mode_memory, reserved, observed, mine_, in_mode, in_block, pool_base in *. lia. }
    split. { intros a. unfold mine, observed, mine_ at 1. cbn [own top]. split; [tauto|]. unfold in_block, in_mode, pool_base.
      intros [Hi|Hi]; [pose proof Hi as (_ & H2 & H3); split; [by left|split; [lia|done]]|split; [by right|lia]]. }
    split; [done|]. split; [done|]. split; [done|]. split; [cbn [left_ observed top]; unfold pool_base; lia|]. split; [cbn [memory_map observed]; lia|]. by apply wrote_nothing.
  - intros p n w Hb w'. split.
    { intros a. unfold w', mine, observed, FreePool, firmware, mine_ at 1. cbn [own top]. split.
      - intros ((Hm & Hno) & _). split; [done|]. by apply Hno.
      - intros [Hm Hno]. split; [|by destruct Hm]. split; [done|]. intros m Hm'. cbn [blocks observed] in Hb. congruence. }
    repeat (split; [done|]). by apply wrote_nothing.
  - intros pages a w Ha Hp Hr. eexists. split; [reflexivity|]. unfold mine, reserved, observed in *.
    assert (Hend : a + pages * 4096 <= pool_base) by (destruct (Hr (a + pages * 4096 - 1)); unfold in_block; lia).
    split. { intros i. unfold mine_ at 1. cbn [own top]. split; [tauto|]. intros [Hi|Hi]; [destruct Hi as (H1 & H2 & H3); split; [by left|split; [lia|done]]|].
      destruct (Hr i Hi) as [Hri _]. split; [by right|]. unfold in_mode, in_block in *. lia. }
    split; [done|]. split; [done|]. split; [done|]. split; [cbn [left_ observed top]; lia|]. by apply wrote_nothing.
  - intros size buf w Hs. cbn [GetMemoryMap firmware]. cbn [memory_map observed] in Hs. rewrite (proj2 (Z.ltb_lt _ _) Hs).
    eexists _, w. split; [reflexivity|]. split; [done|]. split; [done|]. split; [apply quiet_self|done].
  - intros size buf w Hs Hm. cbn [GetMemoryMap firmware]. cbn [memory_map observed] in Hs. rewrite (proj2 (Z.ltb_ge _ _) Hs).
    eexists _, _. split; [reflexivity|]. destruct (poke_all_same buf map_bytes w None) as (Hsf & _).
    assert (E : with_file (poke_all buf map_bytes w) (file w) = poke_all buf map_bytes w) by by destruct (poke_all_rest map_bytes buf w) as [r ->].
    pose proof (poke_all_wrote buf map_bytes w (file w) Hbm) as Hw. rewrite E in Hsf, Hw.
    split; [done|]. split; [done|]. split; [by destruct (poke_all_rest map_bytes buf w) as [r ->]|]. by split.
  - intros image w. exists 0, w. cbn [ExitBootServices firmware key_of observed]. rewrite Z.eqb_refl. split; [done|]. split; [by left|].
    repeat (split; [done|]). by apply wrote_nothing.
Qed.
End FirmwareSim.

Definition bootable_machine : FirmwareSim.t :=
  let w := FirmwareSim.mk ∅ (fun a => in_block 0x3000 256 a \/ in_block 0x8000 16 a) 0x9000 ∅ None 1 false in
  store_at 4 0x1220 2 (store_at 4 0x1208 2 (store_at 4 0x1204 2 (store_at 8 0x1120 16 (store_at 8 0x1118 0x8000
    (store_at 8 0x1108 0x1200 (store_at 8 0x1018 0x1100 w)))))).

Lemma elf_good : good_kernel FirmwareSim.elf.
Proof.
  assert (En : f_phnum FirmwareSim.elf = 1) by (vm_compute; reflexivity).
  split.
  - by apply FirmwareSim.bytes_ok.
  - by vm_compute.
  - by vm_compute.
  - by vm_compute.
  - intros i Hi _. rewrite En in Hi. replace i with 0 by lia. by vm_compute.
  - intros i j Hi Hj. rewrite En in Hj. lia.
Qed.

Lemma bootable_ok : bootable FirmwareSim.elf 48 0x3000 bootable_machine.
Proof.
  assert (Hmine : forall a, in_block 0x3000 256 a \/ in_block 0x8000 16 a -> mine bootable_machine a).
  { intros a Ha. split; [done|]. unfold in_block in Ha. change (FirmwareSim.top bootable_machine) with 0x9000.
    unfold FirmwareSim.in_mode. lia. }
  split.
  - by vm_compute.
  - by vm_compute.
  - intros i Hi. apply Hmine. by left.
  - exists 0x1000. by vm_compute.
  - intros gop w' E i Hi. cbn [LocateProtocol FirmwareSim.firmware] in E. injection E as <- <-. apply Hmine. right.
    replace (gop_mode 0x1000 bootable_machine) with (mkConfig 0x8000 16 2 2 2) in Hi by by vm_compute. exact Hi.
  - assert (E : kernel_extent FirmwareSim.elf = (0x100000, 0x100008)) by by vm_compute.
    split; rewrite E; cbn [fst snd]; [lia|done|]. change ((0x100008 - 0x100000 + 0xFFF) / 4096 * 4096) with 4096.
    unfold in_block, reserved, FirmwareSim.observed, FirmwareSim.pool_base. intros i Hi. split; [lia|]. intros (_ & Ht & _).
    change (FirmwareSim.top bootable_machine) with 0x9000 in Ht. lia.
Qed.

Lemma EfiMain_starts_witness : exists gop w1 start w',
  EfiMain 1 0x3000 1 bootable_machine = Ret start w'
  /\ LocateProtocol gEfiGraphicsOutputProtocolGuid bootable_machine = (0, gop, w1)
  /\ started FirmwareSim.elf 1 start (gop_mode gop w1) w'.
Proof.
  apply (EfiMain_starts FirmwareSim.elf 48 elf_good 1 0x3000 1 bootable_machine); [apply Nat.lt_0_succ|exact bootable_ok].
Defined.
