(* ===== verification/Layouts.v ===== *)
(** * Keyboard layouts and the version (keyboard_layout.cpp, sys/sys.cpp)

    The tables from scan codes to characters, and the text the shell shows about the
    system. *)
From S2P Require Import Prelude CStr.

(** ** keyboard_layout.cpp *)

Inductive KeyboardLayout := US_Standard | JP_Standard.

Definition kKeyMapSize : Z := 0x7d + 1.

(** an initialiser shorter than the array leaves zeros *)
Definition key_map (l : list Z) : list Z := l ++ replicate (Z.to_nat (kKeyMapSize - zlen l)) 0.

Definition kKeyMapUS : list Z := key_map
  ([0; 0] ++ c_lit "1234567890-=" ++ [0; 0] ++ c_lit "qwertyuiop[]" ++ [10; 0] ++ c_lit "asdfghjkl;'`"
   ++ [0] ++ c_lit "\zxcvbnm,./" ++ [0; 42; 0; 32; 0]).
Definition kKeyMapUS_Shift : list Z := key_map
  ([0; 0] ++ c_lit "!@#$%^&*()_+" ++ [0; 0] ++ c_lit "QWERTYUIOP{}" ++ [10; 0] ++ c_lit "ASDFGHJKL:" ++ [34] ++ c_lit "~"
   ++ [0] ++ c_lit "|ZXCVBNM<>?" ++ [0; 42; 0; 32; 0]).
Definition kKeyMapJP : list Z := key_map
  ([0; 0] ++ c_lit "1234567890-^" ++ [0; 0] ++ c_lit "qwertyuiop@[" ++ [10; 0] ++ c_lit "asdfghjkl;:" ++ [0]
   ++ [0] ++ c_lit "]zxcvbnm,./" ++ [0; 42; 0; 32; 0] ++ replicate 53 0 ++ [0; 0; 0; 92] ++ replicate 9 0 ++ [92]).
Definition kKeyMapJP_Shift : list Z := key_map
  ([0; 0] ++ c_lit "!" ++ [34] ++ c_lit "#$%&'()" ++ [0] ++ c_lit "=~" ++ [0; 0] ++ c_lit "QWERTYUIOP`{" ++ [10; 0]
   ++ c_lit "ASDFGHJKL+*" ++ [0] ++ [0] ++ c_lit "}ZXCVBNM<>?" ++ [0; 42; 0; 32; 0] ++ replicate 53 0
   ++ [0; 0; 0; 95] ++ replicate 9 0 ++ [124]).

Definition ConvertScanCodeToAscii (scancode : Z) (shift : bool) (layout : KeyboardLayout) : Z :=
  if kKeyMapSize <=? scancode then 0
  else
    match layout with
    | US_Standard => if shift then rd kKeyMapUS_Shift scancode else rd kKeyMapUS scancode
    | JP_Standard => if shift then rd kKeyMapJP_Shift scancode else rd kKeyMapJP scancode
    end.

Example layout_keys :
  ConvertScanCodeToAscii 0x1E false US_Standard = 97 /\ ConvertScanCodeToAscii 0x1A false JP_Standard = 64
  /\ ConvertScanCodeToAscii 0x73 true JP_Standard = 95 /\ ConvertScanCodeToAscii 0x7D false JP_Standard = 92
  /\ zlen kKeyMapUS = kKeyMapSize /\ zlen kKeyMapUS_Shift = kKeyMapSize
  /\ zlen kKeyMapJP = kKeyMapSize /\ zlen kKeyMapJP_Shift = kKeyMapSize.
Proof. split_and!; vm_compute; reflexivity. Qed.

(** Shift turns the letters of both layouts into capitals, on every key that has one. *)
Lemma shift_capitals scancode layout :
  97 <= ConvertScanCodeToAscii scancode false layout <= 122 ->
  ConvertScanCodeToAscii scancode true layout = ConvertScanCodeToAscii scancode false layout - 32.
Proof.
  unfold ConvertScanCodeToAscii. destruct (Z.leb_spec kKeyMapSize scancode) as [|Hs]; [lia|].
  assert (Hall : forallb (fun k => forallb (fun m => negb ((97 <=? rd m.1 k) && (rd m.1 k <=? 122))
      || (rd m.2 k =? rd m.1 k - 32)) [(kKeyMapUS, kKeyMapUS_Shift); (kKeyMapJP, kKeyMapJP_Shift)]) (seqZ 0 126) = true)
    by (vm_compute; reflexivity).
  rewrite forallb_forall in Hall. specialize (Hall scancode). rewrite <- list_elem_of_In, elem_of_seqZ in Hall.
  change kKeyMapSize with 126 in Hs. cbn [forallb fst snd] in Hall.
  assert (Hneg : forall m, scancode < 0 -> rd m scancode = 0)
    by (intros m Hn; unfold rd; by rewrite (proj2 (Z.ltb_lt scancode 0))).
  destruct (decide (0 <= scancode)) as [H0|H0]; [|destruct layout; rewrite !Hneg by lia; lia].
  specialize (Hall ltac:(lia)). rewrite !andb_true_iff in Hall. destruct Hall as (HU & HJ & _).
  destruct layout; intros Hc.
  - rewrite (proj2 (Z.leb_le 97 _)), (proj2 (Z.leb_le _ 122)) in HU by lia. cbn [andb negb orb] in HU. lia.
  - rewrite (proj2 (Z.leb_le 97 _)), (proj2 (Z.leb_le _ 122)) in HJ by lia. cbn [andb negb orb] in HJ. lia.
Qed.

(** ** sys.hpp *)

Module System.
Record Version_t := mkVersion { Major : Z; Minor : Z; Patch : Z; Revision : Z }.
Definition Version : Version_t := mkVersion 0 5 8 3.
Record Date_t := mkDate { Year : Z; Month : Z; Day : Z }.
Definition Date : Date_t := mkDate 2025 12 28.
Definition ReleaseType : Z := 3.

Definition ReleaseTypeToString : list Z :=
  if ReleaseType =? 0 then c_lit "release"
  else if ReleaseType =? 1 then c_lit "pre"
  else if ReleaseType =? 2 then c_lit "beta"
  else if ReleaseType =? 3 then c_lit "alpha"
  else c_lit "unknown".
End System.
