(* ===== verification/Cpu.v ===== *)
(** * The processor's descriptor tables (kernel/segmentation.cpp, x86_descriptor.hpp)

    What the processor keeps about segments, interrupts and system calls, the
    instructions that load it (asmfunc.asm), and the set-up of the descriptor table.
    A selector is checked when it is loaded, as the processor does; a check that fails
    would raise an exception nothing handles yet, so the run ends. *)
From S2P Require Import Prelude Run Memory Machine.
#[local] Open Scope run_scope.

(** ** Segment descriptors *)

(** [n] bits of [d] from bit [lo] *)
Definition bits_at (d lo n : Z) : Z := Z.land (Z.shiftr d lo) (Z.ones n).

(** the bit fields of x86_descriptor.hpp *)
Record SegmentDescriptor := mkSegmentDescriptor {
  limit_low : Z; base_low : Z; base_middle : Z; type : Z; system_segment : Z;
  descriptor_privilege_level : Z; present : Z; limit_high : Z; available : Z; long_mode : Z;
  default_operation_size : Z; granularity : Z; base_high : Z }.

Definition segment_bits (data : Z) : SegmentDescriptor :=
  mkSegmentDescriptor (bits_at data 0 16) (bits_at data 16 16) (bits_at data 32 8) (bits_at data 40 4)
    (bits_at data 44 1) (bits_at data 45 2) (bits_at data 47 1) (bits_at data 48 4)
    (bits_at data 52 1) (bits_at data 53 1) (bits_at data 54 1) (bits_at data 55 1)
    (bits_at data 56 8).

(** a 64-bit code segment: present, readable or not, with L set and D clear *)
Definition code_segment (d dpl : Z) : bool :=
  let s := segment_bits d in
  (present s =? 1) && (system_segment s =? 1) && Z.testbit (type s) 3
  && (long_mode s =? 1) && (default_operation_size s =? 0) && (descriptor_privilege_level s =? dpl).

(** a data segment that can be written *)
Definition writable_segment (d dpl : Z) : bool :=
  let s := segment_bits d in
  (present s =? 1) && (system_segment s =? 1) && negb (Z.testbit (type s) 3) && Z.testbit (type s) 1
  && (descriptor_privilege_level s =? dpl).

(** the 16 bytes of a task state segment descriptor *)
Definition tss_available (low : Z) : bool :=
  let s := segment_bits low in (present s =? 1) && (system_segment s =? 0) && (type s =? 9).
Definition tss_base (low high : Z) : Z :=
  let s := segment_bits low in
  base_low s + Z.shiftl (base_middle s) 16 + Z.shiftl (base_high s) 24 + Z.shiftl (bits_at high 0 32) 32.
Definition tss_limit (low : Z) : Z :=
  let s := segment_bits low in limit_low s + Z.shiftl (limit_high s) 16.

(** ** segmentation.hpp *)

Definition kKernelCS : Z := 8.
Definition kKernelDS : Z := 16.
Definition kUserDS : Z := 0x23.
Definition kUserCS : Z := 0x2B.
Definition kTSS : Z := 0x30.

(** struct TSS64: where its fields are *)
Definition sizeof_TSS64 : Z := 104.
Definition off_rsp0 : Z := 4.
Definition off_iomap_base : Z := 102.

(** ** The processor *)

Record Cpu := mkCpu {
  gdtr_limit : Z; gdtr_base : Z;
  idtr_limit : Z; idtr_base : Z;
  cs : Z; ds : Z; ss : Z (** [ds] stands for DS, ES, FS and GS *);
  tr : Z; tr_base : Z; tr_limit : Z (** as loaded from the descriptor *);
  cr0 : Z; cr4 : Z;
  msrs : gmap Z Z
}.

Definition set_gdtr (limit base : Z) (c : Cpu) : Cpu :=
  mkCpu limit base (idtr_limit c) (idtr_base c) (cs c) (ds c) (ss c) (tr c) (tr_base c) (tr_limit c)
    (cr0 c) (cr4 c) (msrs c).
Definition set_idtr (limit base : Z) (c : Cpu) : Cpu :=
  mkCpu (gdtr_limit c) (gdtr_base c) limit base (cs c) (ds c) (ss c) (tr c) (tr_base c) (tr_limit c)
    (cr0 c) (cr4 c) (msrs c).
Definition set_cs (sel : Z) (c : Cpu) : Cpu :=
  mkCpu (gdtr_limit c) (gdtr_base c) (idtr_limit c) (idtr_base c) sel (ds c) (ss c) (tr c) (tr_base c)
    (tr_limit c) (cr0 c) (cr4 c) (msrs c).
Definition set_ds_ss (sel : Z) (c : Cpu) : Cpu :=
  mkCpu (gdtr_limit c) (gdtr_base c) (idtr_limit c) (idtr_base c) (cs c) sel sel (tr c) (tr_base c)
    (tr_limit c) (cr0 c) (cr4 c) (msrs c).
Definition set_tr (sel base limit : Z) (c : Cpu) : Cpu :=
  mkCpu (gdtr_limit c) (gdtr_base c) (idtr_limit c) (idtr_base c) (cs c) (ds c) (ss c) sel base limit
    (cr0 c) (cr4 c) (msrs c).
Definition set_cr (v0 v4 : Z) (c : Cpu) : Cpu :=
  mkCpu (gdtr_limit c) (gdtr_base c) (idtr_limit c) (idtr_base c) (cs c) (ds c) (ss c) (tr c)
    (tr_base c) (tr_limit c) v0 v4 (msrs c).
Definition set_msr (msr v : Z) (c : Cpu) : Cpu :=
  mkCpu (gdtr_limit c) (gdtr_base c) (idtr_limit c) (idtr_base c) (cs c) (ds c) (ss c) (tr c)
    (tr_base c) (tr_limit c) (cr0 c) (cr4 c) (<[msr := v]> (msrs c)).

Definition msr_of (msr : Z) (c : Cpu) : Z := default 0 (msrs c !! msr).

(** the parts of a selector *)
Definition sel_index (sel : Z) : Z := Z.shiftr sel 3.
Definition sel_ldt (sel : Z) : bool := Z.testbit sel 2.
Definition sel_rpl (sel : Z) : Z := Z.land sel 3.
Definition sel_null (sel : Z) : bool := Z.land sel 0xFFFC =? 0.

Section Cpu.
Context {W M : Type} `{Machine W} `{FrameAllocator M}.
Local Abbreviation HR := (fun A => Host W M Cpu -> Run (Host W M Cpu) A).
Implicit Types (w : W) (c : Cpu).

(** the descriptor of a selector: no local table is in use, and the limit is the last
    byte of the table *)
Definition descriptor c w (sel : Z) : option Z :=
  if sel_ldt sel || sel_null sel then None
  else if 8 * sel_index sel + 7 <=? gdtr_limit c
  then Some (load 8 (gdtr_base c + 8 * sel_index sel) w) else None.

Definition is_code c w (sel dpl : Z) : bool :=
  match descriptor c w sel with Some d => code_segment d dpl | None => false end.
Definition is_data c w (sel dpl : Z) : bool :=
  match descriptor c w sel with Some d => writable_segment d dpl | None => false end.

Definition with_cpu (c : Cpu) (s : Host W M Cpu) : Host W M Cpu := with_drv s c.
Definition change (f : Cpu -> Cpu) : HR unit := fun s => Ret tt (with_cpu (f (drv s)) s).
Definition my {A} (f : Cpu -> A) : HR A := fun s => Ret (f (drv s)) s.
Definition require (ok : Cpu -> W -> bool) : HR unit := fun s =>
  if ok (drv s) (mach s) then Ret tt s else Halted s.

(** *** asmfunc.asm *)

(** lgdt, then a far return to the code segment 0x08 *)
Definition LoadGDT (limit offset : Z) : HR unit :=
  change (set_gdtr limit offset) ;;;
  require (fun c w => is_code c w 0x08 0) ;;;
  change (set_cs 0x08).

(** a null selector may be loaded into every data segment register of the kernel *)
Definition SetDSAll (value : Z) : HR unit :=
  require (fun c w => sel_null value || is_data c w value 0) ;;;
  change (set_ds_ss value).

(** ltr checks the descriptor, marks it busy in the table and keeps base and limit *)
Definition LoadTR (sel : Z) : HR unit :=
  require (fun c w => match descriptor c w sel with Some low => tss_available low | None => false end) ;;;
  at_ <-- my (fun c => gdtr_base c + 8 * sel_index sel) ;;
  low <-- look 8 at_ ;;
  high <-- look 8 (at_ + 8) ;;
  put 8 at_ (Z.lor low (Z.shiftl 2 40)) ;;;
  change (set_tr sel (tss_base low high) (tss_limit low)).

(** CR0.EM is cleared and CR0.MP set, CR4.OSFXSR and CR4.OSXMMEXCPT set *)
Definition EnableSSE : HR unit :=
  change (fun c => set_cr (Z.lor (Z.land (cr0 c) 0xFFFFFFFFFFFFFFFB) 0x0002)
                          (Z.lor (cr4 c) (Z.shiftl 3 9)) c).

Definition ReadMSR (msr : Z) : HR Z := my (msr_of msr).
Definition WriteMSR (msr value : Z) : HR unit := change (set_msr msr (u64 value)).

(** ** segmentation.cpp *)

(** where the linker put the two variables *)
Variables (gdt tss : Z).

Definition MakeSegmentDescriptor (type descriptor_privilege_level : Z) : Z :=
  let desc := 0 in
  let desc := Z.lor desc (Z.shiftl type 40) in
  let desc := Z.lor desc (Z.shiftl descriptor_privilege_level 45) in
  let desc := Z.lor desc (Z.shiftl 1 47) in
  let desc := Z.lor desc (Z.shiftl 1 44) in
  Z.lor desc (Z.shiftl 1 53).

Definition MakeDataSegmentDescriptor (descriptor_privilege_level : Z) : Z :=
  let desc := 0 in
  let desc := Z.lor desc 0xFFFF in
  let desc := Z.lor desc (Z.shiftl 2 40) in
  let desc := Z.lor desc (Z.shiftl descriptor_privilege_level 45) in
  let desc := Z.lor desc (Z.shiftl 1 47) in
  let desc := Z.lor desc (Z.shiftl 1 44) in
  let desc := Z.lor desc (Z.shiftl 0xF 48) in
  Z.lor desc (Z.shiftl 1 55).

(** [gdt[index] = v] *)
Definition set_gdt (index v : Z) : HR unit := put 8 (gdt + 8 * index) v.

Definition tss_low (base limit : Z) : Z :=
  let low := 0 in
  let low := Z.lor low (Z.land limit 0xFFFF) in
  let low := Z.lor low (Z.shiftl (Z.land base 0xFFFF) 16) in
  let low := Z.lor low (Z.shiftl (Z.land (Z.shiftr base 16) 0xFF) 32) in
  let low := Z.lor low (Z.shiftl 9 40) in
  let low := Z.lor low (Z.shiftl 0 44) in
  let low := Z.lor low (Z.shiftl 0 45) in
  let low := Z.lor low (Z.shiftl 1 47) in
  let low := Z.lor low (Z.shiftl (Z.land (Z.shiftr limit 16) 0xF) 48) in
  Z.lor low (Z.shiftl (Z.land (Z.shiftr base 24) 0xFF) 56).

Definition SetTSSDescriptor (index base limit : Z) : HR unit :=
  let low := tss_low base limit in
  let high := 0 in
  let high := Z.lor high (Z.shiftr base 32) in
  set_gdt index low ;;;
  set_gdt (index + 1) high.

Definition SetupSegments : HR unit :=
  set_gdt 0 0 ;;;
  set_gdt 1 (MakeSegmentDescriptor 10 0) ;;;
  set_gdt 2 (MakeDataSegmentDescriptor 0) ;;;
  set_gdt 3 0x00cffa000000ffff ;;;
  set_gdt 4 (MakeDataSegmentDescriptor 3) ;;;
  set_gdt 5 (MakeSegmentDescriptor 10 3) ;;;
  clear tss sizeof_TSS64 ;;;
  put 2 (tss + off_iomap_base) sizeof_TSS64 ;;;
  SetTSSDescriptor 6 tss (sizeof_TSS64 - 1) ;;;
  LoadGDT (64 - 1) gdt ;;;
  SetDSAll 0 ;;;
  LoadTR kTSS.

Definition SetKernelStack (stack_addr : Z) : HR unit := put 8 (tss + off_rsp0) stack_addr.
End Cpu.

(** ** Bit fields *)

Lemma bits_at_mod d lo n : 0 <= lo -> 0 <= n -> bits_at d lo n = d / 2 ^ lo mod 2 ^ n.
Proof. intros Hlo Hn. by apply shiftr_land. Qed.

Lemma bits_at_lor a b lo n : bits_at (Z.lor a b) lo n = Z.lor (bits_at a lo n) (bits_at b lo n).
Proof. unfold bits_at. by rewrite Z.shiftr_lor, Z.land_lor_distr_l. Qed.

Lemma bits_at_range d lo n : 0 <= lo -> 0 <= n -> 0 <= bits_at d lo n < 2 ^ n.
Proof. intros Hlo Hn. rewrite bits_at_mod by done. apply Z.mod_pos_bound. lia. Qed.

(** a field written by a shift: read back, below it, above it *)
Lemma bits_at_same x k n : 0 <= k -> 0 <= x < 2 ^ n -> 0 <= n -> bits_at (Z.shiftl x k) k n = x.
Proof.
  intros Hk Hx Hn. rewrite bits_at_mod, Z.shiftl_mul_pow2, Z.div_mul by lia. by apply Z.mod_small.
Qed.

Lemma bits_at_below x k lo n : 0 <= lo -> 0 <= n -> lo + n <= k -> bits_at (Z.shiftl x k) lo n = 0.
Proof.
  intros Hlo Hn Hk. unfold bits_at. apply Z.bits_inj'. intros i Hi.
  rewrite Z.land_spec, Z.shiftr_spec, Z.bits_0 by lia. destruct (Z.ltb_spec i n) as [Hin|Hin].
  - rewrite Z.shiftl_spec_low by lia. done.
  - rewrite Z.ones_spec_high by lia. apply andb_false_r.
Qed.

Lemma bits_at_above x k m lo n :
  0 <= k -> 0 <= n -> 0 <= m -> 0 <= x < 2 ^ m -> k + m <= lo -> bits_at (Z.shiftl x k) lo n = 0.
Proof.
  intros Hk Hn Hm Hx Hlo. rewrite bits_at_mod, Z.shiftl_mul_pow2 by lia.
  rewrite Z.div_small; [by apply Z.mod_0_l; lia|].
  assert (2 ^ (k + m) <= 2 ^ lo) by (apply Z.pow_le_mono_r; lia). rewrite Z.pow_add_r in * by lia. nia.
Qed.

Lemma bits_at_low x n lo n' :
  0 <= n <= lo -> 0 <= n' -> 0 <= x < 2 ^ n -> bits_at x lo n' = 0.
Proof. intros Hn Hn' Hx. rewrite <- (Z.shiftl_0_r x). apply (bits_at_above x 0 n); lia. Qed.

Lemma bits_at_id x n : 0 <= n -> 0 <= x < 2 ^ n -> bits_at x 0 n = x.
Proof. intros Hn Hx. rewrite bits_at_mod, Z.div_1_r by lia. by apply Z.mod_small. Qed.

Lemma bits_at_parts d lo n m : 0 <= lo -> 0 <= n -> 0 <= m ->
  bits_at d lo (n + m) = bits_at d lo n + Z.shiftl (bits_at d (lo + n) m) n.
Proof.
  intros Hlo Hn Hm. rewrite !bits_at_mod, Z.shiftl_mul_pow2 by lia. rewrite !Z.pow_add_r by lia.
  rewrite Z.rem_mul_r by lia. rewrite Z.div_div by lia. lia.
Qed.

(** reads a field of a word that is a disjunction of shifted fields *)
Ltac word_fields :=
  repeat first
    [ rewrite bits_at_lor
    | rewrite bits_at_same by lia
    | rewrite bits_at_id by lia
    | rewrite bits_at_below by lia
    | rewrite bits_at_above with (m := 16) by lia
    | rewrite bits_at_above with (m := 8) by lia
    | rewrite bits_at_above with (m := 4) by lia
    | rewrite bits_at_above with (m := 1) by lia
    | rewrite bits_at_low with (n := 16) by lia ].

(** the task state segment descriptor: what the code packs is what the processor reads *)
Lemma tss_low_fields base limit :
  0 <= base -> 0 <= limit < 2 ^ 20 ->
  let s := segment_bits (tss_low base limit) in
  limit_low s = bits_at limit 0 16 /\ base_low s = bits_at base 0 16
  /\ base_middle s = bits_at base 16 8 /\ type s = 9 /\ system_segment s = 0 /\ present s = 1
  /\ limit_high s = bits_at limit 16 4 /\ base_high s = bits_at base 24 8.
Proof.
  intros Hb Hl. unfold tss_low, segment_bits. cbn [limit_low base_low base_middle type system_segment present limit_high base_high].
  assert (Hf : forall d lo n, 0 <= lo -> 0 <= n -> 0 <= bits_at d lo n < 2 ^ n) by (intros; by apply bits_at_range).
  change (Z.land limit 0xFFFF) with (bits_at limit 0 16). change (Z.land base 0xFFFF) with (bits_at base 0 16).
  change (Z.land (Z.shiftr base 16) 0xFF) with (bits_at base 16 8).
  change (Z.land (Z.shiftr base 24) 0xFF) with (bits_at base 24 8).
  change (Z.land (Z.shiftr limit 16) 0xF) with (bits_at limit 16 4).
  pose proof (Hf limit 0 16). pose proof (Hf limit 16 4). pose proof (Hf base 0 16). pose proof (Hf base 16 8). pose proof (Hf base 24 8).
  rewrite !Z.shiftl_0_l, !Z.lor_0_r, !Z.lor_0_l.
  repeat split; word_fields; rewrite ?Z.lor_0_r, ?Z.lor_0_l; try done.
Qed.

(** a base of 64 bits is found again in the two words *)
Lemma tss_base_packed base limit :
  0 <= base < 2 ^ 64 -> 0 <= limit < 2 ^ 20 -> tss_base (tss_low base limit) (Z.shiftr base 32) = base.
Proof.
  intros Hb Hl. destruct (tss_low_fields base limit ltac:(lia) Hl) as (_ & E1 & E2 & _ & _ & _ & _ & E3).
  unfold tss_base. rewrite E1, E2, E3. unfold bits_at at 4.
  rewrite Z.shiftr_0_r, Z.land_ones, (Z.mod_small (Z.shiftr base 32)) by
    ((rewrite ?Z.shiftr_div_pow2 by lia; split; [apply Z.div_pos; lia|apply Z.div_lt_upper_bound; lia]) || lia).
  pose proof (bits_at_parts base 0 16 8 ltac:(lia) ltac:(lia) ltac:(lia)) as P1.
  pose proof (bits_at_parts base 0 24 8 ltac:(lia) ltac:(lia) ltac:(lia)) as P2.
  cbn [Z.add] in P1, P2. unfold bits_at in *. rewrite Z.shiftr_0_r in *.
  pose proof (u32_parts base Hb) as P3. change (Z.ones (16 + 8)) with (Z.ones 24) in *.
  change (Z.ones (24 + 8)) with 0xFFFFFFFF in *. change (0 + 16) with 16 in *. change (0 + 24) with 24 in *.
  rewrite !Z.shiftl_mul_pow2 in * by lia. lia.
Qed.

Lemma tss_limit_packed base limit :
  0 <= base -> 0 <= limit < 2 ^ 20 -> tss_limit (tss_low base limit) = limit.
Proof.
  intros Hb Hl. destruct (tss_low_fields base limit Hb Hl) as (E1 & _ & _ & _ & _ & _ & E2 & _).
  unfold tss_limit. rewrite E1, E2.
  pose proof (bits_at_parts limit 0 16 4 ltac:(lia) ltac:(lia) ltac:(lia)) as P1.
  change (0 + 16) with 16 in P1. rewrite <- P1. by apply bits_at_id.
Qed.

Lemma tss_low_available base limit :
  0 <= base -> 0 <= limit < 2 ^ 20 -> tss_available (tss_low base limit) = true.
Proof.
  intros Hb Hl. destruct (tss_low_fields base limit Hb Hl) as (_ & _ & _ & E1 & E2 & E3 & _ & _).
  unfold tss_available. by rewrite E1, E2, E3.
Qed.

Lemma tss_low_range base limit : 0 <= base -> 0 <= limit < 2 ^ 20 -> 0 <= tss_low base limit < 2 ^ 64.
Proof.
  intros Hb Hl. assert (Hbit : forall i, 64 <= i -> Z.testbit (tss_low base limit) i = false).
  { intros i Hi. unfold tss_low. rewrite !Z.lor_spec, !Z.shiftl_spec, !Z.land_spec by lia.
    rewrite !(Z.bits_above_log2 0xFFFF), !(Z.bits_above_log2 0xFF), !(Z.bits_above_log2 0xF),
      !(Z.bits_above_log2 9), !(Z.bits_above_log2 1), !Z.bits_0 by (cbn; lia).
    by rewrite !andb_false_r. }
  assert (Hp : 0 <= tss_low base limit).
  { unfold tss_low. rewrite !Z.lor_nonneg, !Z.shiftl_nonneg, !Z.land_nonneg. repeat split; lia || auto with zarith. }
  split; [done|]. destruct (Z.lt_ge_cases (tss_low base limit) (2 ^ 64)) as [|Hge]; [done|].
  assert (Hlog : 64 <= Z.log2 (tss_low base limit)) by (apply Z.log2_le_pow2; lia).
  pose proof (Z.bit_log2 (tss_low base limit) ltac:(lia)) as Hb1. rewrite Hbit in Hb1 by done. done.
Qed.

(** ** SetupSegments *)

Section Segments.
Context {W M : Type} `{MachineLaws W} `{FrameAllocator M}.
Variables (gdt tss : Z).
Implicit Types (w : W) (c : Cpu) (s : Host W M Cpu).

Lemma load_gdt_set i j v w : 0 <= v < 2 ^ 64 ->
  load 8 (gdt + 8 * i) (store_at 8 (gdt + 8 * j) v w) = if i =? j then v else load 8 (gdt + 8 * i) w.
Proof.
  intros Hv. destruct (Z.eqb_spec i j) as [->|Hne].
  - apply load_store_same. done.
  - apply load_store_other. lia.
Qed.

(** the table as SetupSegments fills it; the processor marks the task state segment busy *)
Definition gdt_word (i : Z) : Z :=
  if i =? 1 then MakeSegmentDescriptor 10 0
  else if i =? 2 then MakeDataSegmentDescriptor 0
  else if i =? 3 then 0x00cffa000000ffff
  else if i =? 4 then MakeDataSegmentDescriptor 3
  else if i =? 5 then MakeSegmentDescriptor 10 3
  else if i =? 6 then tss_low tss (sizeof_TSS64 - 1)
  else if i =? 7 then Z.shiftr tss 32
  else 0.

Definition segments_mem w : W :=
  let w := store_at 8 (gdt + 8 * 0) 0 w in
  let w := store_at 8 (gdt + 8 * 1) (MakeSegmentDescriptor 10 0) w in
  let w := store_at 8 (gdt + 8 * 2) (MakeDataSegmentDescriptor 0) w in
  let w := store_at 8 (gdt + 8 * 3) 0x00cffa000000ffff w in
  let w := store_at 8 (gdt + 8 * 4) (MakeDataSegmentDescriptor 3) w in
  let w := store_at 8 (gdt + 8 * 5) (MakeSegmentDescriptor 10 3) w in
  let w := poke_all tss (replicate (Z.to_nat sizeof_TSS64) 0) w in
  let w := store_at 2 (tss + off_iomap_base) sizeof_TSS64 w in
  let w := store_at 8 (gdt + 8 * 6) (tss_low tss (sizeof_TSS64 - 1)) w in
  store_at 8 (gdt + 8 * 7) (Z.shiftr tss 32) w.

(** the variables do not overlap *)
Hypothesis Htss : 0 <= tss < 2 ^ 64.
Hypothesis Hsep : gdt + 64 <= tss \/ tss + sizeof_TSS64 <= gdt.

Lemma shiftr32_range : 0 <= Z.shiftr tss 32 < 2 ^ 64.
Proof. rewrite Z.shiftr_div_pow2 by lia. split; [apply Z.div_pos; lia|apply Z.div_lt_upper_bound; lia]. Qed.

Lemma segments_mem_word w i : 0 <= i < 8 -> load 8 (gdt + 8 * i) (segments_mem w) = gdt_word i.
Proof.
  intros Hi. pose proof shiftr32_range. pose proof (tss_low_range tss (sizeof_TSS64 - 1) ltac:(lia) ltac:(unfold sizeof_TSS64; lia)).
  unfold segments_mem. cbv zeta. rewrite !load_gdt_set by done.
  unfold sizeof_TSS64, off_iomap_base in *. rewrite load_store_other by lia.
  assert (Hclr : forall w0, load 8 (gdt + 8 * i) (poke_all tss (replicate (Z.to_nat 104) 0) w0) = load 8 (gdt + 8 * i) w0).
  { intros w0. apply load_ext. intros a Ha. rewrite peek_poke_other; [done|]. rewrite zlen_zeros. lia. }
  rewrite Hclr, !load_gdt_set by (vm_compute; intuition discriminate).
  unfold gdt_word. repeat (case Z.eqb_spec; intros; try lia; try done).
Qed.

Lemma segments_mem_iomap w : load 2 (tss + off_iomap_base) (segments_mem w) = sizeof_TSS64.
Proof.
  unfold segments_mem. cbv zeta. unfold sizeof_TSS64, off_iomap_base in *.
  rewrite !load_store_other by lia. by rewrite load_store_same by (cbn; lia).
Qed.

Lemma segments_mem_other w a :
  (a < gdt \/ gdt + 64 <= a) -> (a < tss \/ tss + sizeof_TSS64 <= a) -> peek (segments_mem w) a = peek w a.
Proof.
  intros Hg Ht. unfold segments_mem. cbv zeta. unfold sizeof_TSS64, off_iomap_base in *.
  rewrite !peek_store_other by lia. rewrite peek_poke_other by (rewrite zlen_zeros; lia).
  by rewrite !peek_store_other by lia.
Qed.

(** every selector the kernel uses names a descriptor of the kind and the privilege
    level that its use asks for *)
Record segments_ok c w : Prop := {
  sg_gdtr : gdtr_base c = gdt /\ gdtr_limit c = 63;
  sg_cs : cs c = kKernelCS;
  sg_data : ds c = 0 /\ ss c = 0;
  sg_tr : tr c = kTSS /\ tr_base c = tss /\ tr_limit c = sizeof_TSS64 - 1;
  sg_kernel_code : is_code c w kKernelCS 0 = true;
  sg_kernel_data : is_data c w kKernelDS 0 = true;
  sg_user_code : is_code c w kUserCS 3 = true;
  sg_user_data : is_data c w kUserDS 3 = true;
  sg_no_ports : tr_limit c < load 2 (tss + off_iomap_base) w (** no port is open to user code *)
}.

(** only the table, the port bitmap's offset and the registers matter *)
Lemma segments_ok_ext c w c' w' :
  segments_ok c w ->
  (forall a, gdt <= a < gdt + 64 -> peek w' a = peek w a) ->
  load 2 (tss + off_iomap_base) w' = load 2 (tss + off_iomap_base) w ->
  gdtr_base c' = gdtr_base c -> gdtr_limit c' = gdtr_limit c -> cs c' = cs c -> ds c' = ds c -> ss c' = ss c ->
  tr c' = tr c -> tr_base c' = tr_base c -> tr_limit c' = tr_limit c ->
  segments_ok c' w'.
Proof.
  intros [A1 A2 A3 A4 A5 A6 A7 A8 A9] Hw Hio E1 E2 E3 E4 E5 E6 E7 E8.
  assert (Hd : forall sel, 0 <= sel_index sel -> descriptor c' w' sel = descriptor c w sel).
  { intros sel Hi. unfold descriptor. rewrite E1, E2. destruct A1 as [-> ->].
    destruct (sel_ldt sel || sel_null sel); [done|]. case_match; [|done]. f_equal. apply load_ext.
    intros a Ha. apply Hw. lia. }
  unfold is_code, is_data in *. split; rewrite ?E1, ?E2, ?E3, ?E4, ?E5, ?E6, ?E7, ?E8, ?Hio; try done;
    unfold is_code, is_data; rewrite Hd by (vm_compute; discriminate); done.
Qed.

(** once the processor has marked the task state segment as busy *)
Definition segments_done w : W :=
  store_at 8 (gdt + 8 * 6) (Z.lor (tss_low tss (sizeof_TSS64 - 1)) (Z.shiftl 2 40)) (segments_mem w).

Lemma segments_mem_descriptor w sel c :
  gdtr_base c = gdt -> gdtr_limit c = 63 -> sel_ldt sel = false -> sel_null sel = false ->
  0 <= sel_index sel < 8 ->
  descriptor c (segments_mem w) sel = Some (gdt_word (sel_index sel))
  /\ (sel_index sel <> 6 -> descriptor c (segments_done w) sel = Some (gdt_word (sel_index sel))).
Proof.
  intros E1 E2 Hl Hn Hi. unfold descriptor. rewrite Hl, Hn, E1, E2. cbn [orb].
  rewrite (proj2 (Z.leb_le _ _)) by lia. unfold segments_done. split; [|intros Hne; rewrite load_store_other by lia];
    by rewrite segments_mem_word.
Qed.

Lemma bind_require {A} ok (k : unit -> Host W M Cpu -> Run (Host W M Cpu) A) s :
  ok (drv s) (mach s) = true -> bind (require ok) k s = k tt s.
Proof. intros E. unfold bind, require. by rewrite E. Qed.

(** the state when the table is filled, and when it is loaded *)
Definition filled s : Host W M Cpu := with_mach s (segments_mem (mach s)).
Definition loaded s : Host W M Cpu := with_cpu (set_cs 8 (set_gdtr 63 gdt (drv s))) (filled s).

Lemma LoadGDT_filled s : LoadGDT (64 - 1) gdt (filled s) = Ret tt (loaded s).
Proof.
  unfold LoadGDT, change at 1, bind at 1. change (64 - 1) with 63. rewrite bind_require; [done|].
  unfold is_code. destruct (segments_mem_descriptor (mach s) 8 (set_gdtr 63 gdt (drv s))) as [E _];
    [done..|vm_compute; intuition discriminate|].
  cbn [drv mach with_cpu with_drv filled with_mach]. rewrite E. vm_compute. done.
Qed.

Lemma LoadTR_loaded s :
  LoadTR kTSS (with_cpu (set_ds_ss 0 (drv (loaded s))) (loaded s))
  = Ret tt (with_cpu (set_tr kTSS tss 103 (set_ds_ss 0 (set_cs 8 (set_gdtr 63 gdt (drv s)))))
              (with_mach s (segments_done (mach s)))).
Proof.
  unfold LoadTR. set (s2 := with_cpu _ _).
  destruct (segments_mem_descriptor (mach s) kTSS (drv s2)) as [E _]; [done..|vm_compute; intuition discriminate|].
  rewrite bind_require.
  2: { change (mach s2) with (segments_mem (mach s)). rewrite E. apply tss_low_available; unfold sizeof_TSS64; lia. }
  unfold my, look, put, act, change, bind. cbn [drv mach with_cpu with_drv with_mach].
  change (gdtr_base (drv s2) + 8 * sel_index kTSS) with (gdt + 8 * 6). change (mach s2) with (segments_mem (mach s)).
  replace (gdt + 8 * 6 + 8) with (gdt + 8 * 7) by lia. rewrite !segments_mem_word by lia.
  change (gdt_word 6) with (tss_low tss (sizeof_TSS64 - 1)). change (gdt_word 7) with (Z.shiftr tss 32).
  by rewrite tss_base_packed, tss_limit_packed by (unfold sizeof_TSS64; lia).
Qed.

Lemma SetupSegments_run s :
  SetupSegments gdt tss s
  = Ret tt (with_cpu (set_tr kTSS tss 103 (set_ds_ss 0 (set_cs 8 (set_gdtr 63 gdt (drv s)))))
              (with_mach s (segments_done (mach s)))).
Proof.
  rewrite <- LoadTR_loaded. transitivity ((LoadGDT (64 - 1) gdt ;;; SetDSAll 0 ;;; LoadTR kTSS) (filled s)); [reflexivity|].
  by rewrite (bind_Ret _ _ _ _ _ (LoadGDT_filled s)).
Qed.

(** the processor after SetupSegments *)
Definition segments_cpu c : Cpu := set_tr kTSS tss 103 (set_ds_ss 0 (set_cs 8 (set_gdtr 63 gdt c))).

Lemma segments_done_ok c w : segments_ok (segments_cpu c) (segments_done w).
Proof.
  assert (Hio : load 2 (tss + off_iomap_base) (segments_done w) = sizeof_TSS64).
  { unfold segments_done. rewrite load_store_other by (unfold off_iomap_base, sizeof_TSS64 in *; lia). by apply segments_mem_iomap. }
  assert (Hd : forall sel, sel_ldt sel = false -> sel_null sel = false -> 0 <= sel_index sel < 8 -> sel_index sel <> 6 ->
    descriptor (segments_cpu c) (segments_done w) sel = Some (gdt_word (sel_index sel))).
  { intros sel Hl Hn Hi Hne. by apply segments_mem_descriptor. }
  split; try done; try (rewrite Hio; done); unfold is_code, is_data;
    rewrite Hd by (vm_compute; intuition discriminate); vm_compute; done.
Qed.

Lemma segments_done_other w a :
  a < gdt \/ gdt + 64 <= a -> a < tss \/ tss + sizeof_TSS64 <= a -> peek (segments_done w) a = peek w a.
Proof.
  intros Hg Ht. unfold segments_done. rewrite peek_store_other by lia. by apply segments_mem_other.
Qed.

(** C12: After SetupSegments every selector the kernel uses (0x08 and 0x10, 0x23 and 0x2B
    for user code, 0x30 for the task register) names a descriptor of the right kind and
    privilege level, no check of the processor fails on the way, the task register holds
    the 64-bit address of tss wherever the linker put it, its limit leaves no port open to
    user code, and no other memory is written. *)
Theorem SetupSegments_typed s :
  exists s', SetupSegments gdt tss s = Ret tt s' /\ segments_ok (drv s') (mach s')
  /\ out s' = out s
  /\ (forall a, a < gdt \/ gdt + 64 <= a -> a < tss \/ tss + sizeof_TSS64 <= a ->
       peek (mach s') a = peek (mach s) a).
Proof.
  rewrite SetupSegments_run. eexists. split; [done|]. split; [apply segments_done_ok|]. split; [done|].
  intros a. apply segments_done_other.
Qed.

(** the stack an interrupt from user mode switches to *)
Definition ring0_stack c w : Z := load 8 (tr_base c + off_rsp0) w.

Lemma SetKernelStack_sets a s :
  0 <= a < 2 ^ 64 -> segments_ok (drv s) (mach s) ->
  exists s', SetKernelStack tss a s = Ret tt s' /\ segments_ok (drv s') (mach s') /\ drv s' = drv s
  /\ ring0_stack (drv s') (mach s') = a.
Proof.
  intros Ha Hok. eexists. split; [reflexivity|]. cbn [drv mach with_mach].
  unfold sizeof_TSS64, off_iomap_base, off_rsp0 in *. split; [|split; [done|]].
  - eapply segments_ok_ext; [exact Hok|..]; try done.
    + intros i Hi. apply peek_store_other. lia.
    + apply load_store_other. unfold off_iomap_base. lia.
  - unfold ring0_stack. destruct (sg_tr _ _ Hok) as (_ & -> & _). by apply load_store_same.
Qed.
End Segments.

(** ** A processor at the boot *)

Module CpuSim.
Definition cpu0 : Cpu := mkCpu 0 0 0 0 0 0 0 0 0 0 0 0 ∅.
Definition boot : Host Ram.t unit Cpu := mkHost (∅ : Ram.t) tt cpu0 [].
End CpuSim.

Lemma SetupSegments_typed_witness : exists s',
  SetupSegments 0x1000 0x123456789000 CpuSim.boot = Ret tt s' /\ is_code (drv s') (mach s') kUserCS 3 = true
  /\ tr_base (drv s') = 0x123456789000.
Proof.
  destruct (SetupSegments_typed 0x1000 0x123456789000 ltac:(lia) ltac:(left; unfold sizeof_TSS64; lia) CpuSim.boot) as (s' & R & Hok & _).
  exists s'. split; [exact R|]. split; [exact (sg_user_code _ _ _ _ Hok)|exact (proj1 (proj2 (sg_tr _ _ _ _ Hok)))].
Defined.
