(* ===== verification/Idt.v ===== *)
(** * The interrupt descriptor table (kernel/interrupt.cpp, interrupt.hpp)

    SetIDTEntry and SetupInterrupts, and what the processor makes of the table: the
    gate it finds for a vector, the checks it does, and the handler that runs. *)
From S2P Require Import Prelude Run Memory Machine Cpu.
#[local] Open Scope run_scope.

(** the functions a gate can lead to *)
Inductive Handler :=
  | DivideErrorHandler | InvalidOpcodeHandler | DoubleFaultHandler | GPFaultHandler
  | PageFaultHandler | TimerHandler | UsbInterruptHandler.

#[export] Instance Handler_eq_dec : EqDecision Handler.
Proof. solve_decision. Defined.

(** whether the function has the parameter [error_code] *)
Definition takes_error_code (h : Handler) : bool :=
  match h with
  | DoubleFaultHandler | GPFaultHandler | PageFaultHandler => true
  | DivideErrorHandler | InvalidOpcodeHandler | TimerHandler | UsbInterruptHandler => false
  end.

Definition IDT_TYPE_INTERRUPT_GATE : Z := 0xE.
Definition sizeof_InterruptDescriptor : Z := 16.

Section Idt.
Context {W M : Type} `{Machine W} `{FrameAllocator M}.
Local Abbreviation HR := (fun A => Host W M Cpu -> Run (Host W M Cpu) A).
Implicit Types (w : W) (c : Cpu).

(** ** The processor *)

(** what it reads from a gate *)
Record Gate := mkGate {
  offset : Z; segment_selector : Z; ist : Z; gate_type : Z; gate_system : Z; gate_present : Z }.

Definition read_gate (e : Z) w : Gate :=
  let flags := load 2 (e + 4) w in
  mkGate (load 2 e w + Z.shiftl (load 2 (e + 6) w) 16 + Z.shiftl (load 4 (e + 8) w) 32)
    (load 2 (e + 2) w) (bits_at flags 0 3) (bits_at flags 8 4) (bits_at flags 12 1) (bits_at flags 15 1).

(** where execution goes on; [stack] is set when the stack is switched *)
Record Entry := mkEntry { e_rip : Z; e_cs : Z; e_stack : option Z; masked : bool }.

Definition ist_stack c w (n : Z) : Z := load 8 (tr_base c + 36 + 8 * (n - 1)) w.

(** an interrupt or an exception of vector [v] while code of level [cpl] runs; [None]:
    a check failed *)
Definition deliver c w (cpl v : Z) : option Entry :=
  if 16 * v + 15 <=? idtr_limit c then
    let g := read_gate (idtr_base c + 16 * v) w in
    if ((gate_type g =? 14) || (gate_type g =? 15)) && (gate_system g =? 0) && (gate_present g =? 1) then
      d ← descriptor c w (segment_selector g);
      let dpl := descriptor_privilege_level (segment_bits d) in
      if code_segment d dpl && (dpl <=? cpl) then
        Some (mkEntry (offset g) (segment_selector g)
          (if negb (ist g =? 0) then Some (ist_stack c w (ist g))
           else if dpl <? cpl then Some (ring0_stack c w) else None)
          (gate_type g =? 14))
      else None
    else None
  else None.

(** the exceptions that turn a second exception into a double fault *)
Definition contributory (v : Z) : bool := existsb (Z.eqb v) [0; 10; 11; 12; 13; 14].

(** a check that fails is a general protection fault, or a double fault when it
    happens on the way to a contributory exception *)
Definition taken c w (cpl v : Z) : Z :=
  match deliver c w cpl v with
  | Some _ => v
  | None => if contributory v then 8 else 13
  end.
Definition interrupt c w (cpl v : Z) : option Entry := deliver c w cpl (taken c w cpl v).

(** the vectors for which the processor pushes an error code *)
Definition pushes_error_code (v : Z) : bool := existsb (Z.eqb v) [8; 10; 11; 12; 13; 14; 17; 21; 29; 30].

(** ** interrupt.cpp *)

(** where the linker put the table and the functions *)
Variables (idt : Z) (address : Handler -> Z).

(** the bit fields of the halfword at [a]: ist, type, dpl, present, and the reserved ones *)
Definition put_flags (a type : Z) : HR unit :=
  put_bits 2 a 0 3 0 ;;; put_bits 2 a 8 4 type ;;; put_bits 2 a 13 2 0 ;;; put_bits 2 a 15 1 1 ;;;
  put_bits 2 a 3 5 0 ;;; put_bits 2 a 12 1 0.

Definition SetIDTEntry (index offset selector type : Z) : HR unit :=
  let e := idt + sizeof_InterruptDescriptor * index in
  put 2 e (Z.land offset 0xFFFF) ;;;
  put 2 (e + 6) (Z.land (Z.shiftr offset 16) 0xFFFF) ;;;
  put 4 (e + 8) (Z.land (Z.shiftr offset 32) 0xFFFFFFFF) ;;;
  put 2 (e + 2) selector ;;;
  put_flags (e + 4) type ;;;
  put 4 (e + 12) 0.

Definition LoadIDT (limit base : Z) : HR unit := change (set_idtr limit base).

Definition SetupInterrupts : HR unit :=
  SetIDTEntry 0 (address DivideErrorHandler) 0x08 IDT_TYPE_INTERRUPT_GATE ;;;
  SetIDTEntry 6 (address InvalidOpcodeHandler) 0x08 IDT_TYPE_INTERRUPT_GATE ;;;
  SetIDTEntry 8 (address DoubleFaultHandler) 0x08 IDT_TYPE_INTERRUPT_GATE ;;;
  SetIDTEntry 13 (address GPFaultHandler) 0x08 IDT_TYPE_INTERRUPT_GATE ;;;
  SetIDTEntry 14 (address PageFaultHandler) 0x08 IDT_TYPE_INTERRUPT_GATE ;;;
  SetIDTEntry 0x20 (address TimerHandler) 0x08 IDT_TYPE_INTERRUPT_GATE ;;;
  SetIDTEntry 0x50 (address UsbInterruptHandler) 0x08 IDT_TYPE_INTERRUPT_GATE ;;;
  LoadIDT (sizeof_InterruptDescriptor * 256 - 1) idt.
End Idt.

(** ** Bit fields of a halfword *)

Definition field_put (lo width v h : Z) : Z :=
  Z.lor (Z.ldiff h (Z.shiftl (Z.ones width) lo)) (Z.shiftl (Z.land v (Z.ones width)) lo).

Lemma field_put_testbit lo width v h i : 0 <= lo -> 0 <= width -> 0 <= i ->
  Z.testbit (field_put lo width v h) i
  = if (lo <=? i) && (i <? lo + width) then Z.testbit v (i - lo) else Z.testbit h i.
Proof.
  intros Hlo Hw Hi. unfold field_put.
  rewrite Z.lor_spec, Z.ldiff_spec, !Z.shiftl_spec, Z.land_spec by lia.
  destruct (Z.leb_spec lo i) as [Hle|Hlt]; cbn [andb].
  - destruct (Z.ltb_spec i (lo + width)) as [Hin|Hout].
    + rewrite Z.ones_spec_low by lia. by rewrite andb_true_r, andb_false_r.
    + rewrite Z.ones_spec_high by lia. by rewrite andb_false_r, orb_false_r, andb_true_r.
  - rewrite !(Z.testbit_neg_r _ (i - lo)) by lia. by rewrite andb_true_r, orb_false_r.
Qed.

Lemma field_put_range lo width v h : 0 <= lo -> 0 <= width -> lo + width <= 16 ->
  0 <= h < 2 ^ 16 -> 0 <= field_put lo width v h < 2 ^ 16.
Proof.
  intros Hlo Hw Hs Hh. assert (Hm : field_put lo width v h = field_put lo width v h mod 2 ^ 16).
  { apply Z.bits_inj'. intros i Hi. destruct (Z.ltb_spec i 16) as [Hlt|Hge].
    - by rewrite Z.mod_pow2_bits_low.
    - rewrite Z.mod_pow2_bits_high by lia. rewrite field_put_testbit by lia.
      rewrite (proj2 (Z.ltb_ge _ _)) by lia. rewrite andb_false_r.
      destruct (Z.eq_dec h 0) as [->|Hne]; [apply Z.bits_0|].
      apply Z.bits_above_log2; [lia|]. apply Z.log2_lt_pow2; [lia|].
      assert (2 ^ 16 <= 2 ^ i) by (apply Z.pow_le_mono_r; lia). lia. }
  rewrite Hm. apply Z.mod_pos_bound. lia.
Qed.

(** together the fields are the whole halfword *)
Definition gate_flags (h : Z) : Z :=
  field_put 12 1 0 (field_put 3 5 0 (field_put 15 1 1 (field_put 13 2 0 (field_put 8 4 14 (field_put 0 3 0 h))))).

Lemma gate_flags_value h : 0 <= h < 2 ^ 16 -> gate_flags h = 0x8E00.
Proof.
  intros Hh. assert (Hr : 0 <= gate_flags h < 2 ^ 16).
  { unfold gate_flags. repeat (apply field_put_range; [lia..|]). done. }
  rewrite <- (Z.mod_small (gate_flags h) (2 ^ 16)) by done. rewrite <- (Z.mod_small 0x8E00 (2 ^ 16)) by lia.
  apply Z.bits_inj'. intros i Hi. destruct (Z.ltb_spec i 16) as [Hlt|Hge].
  2: { by rewrite !Z.mod_pow2_bits_high by lia. }
  rewrite !Z.mod_pow2_bits_low by lia. unfold gate_flags. rewrite !field_put_testbit by lia.
  assert (Hc : In i [0;1;2;3;4;5;6;7;8;9;10;11;12;13;14;15]) by (cbn; lia).
  cbn in Hc. decompose [or] Hc; subst; (reflexivity || done).
Qed.

(** ** What a gate holds *)

Section Table.
Context {W M : Type} `{MachineLaws W} `{FrameAllocator M}.
Variables (idt : Z) (address : Handler -> Z).
Hypothesis Haddress : forall h, 0 <= address h < 2 ^ 64.
Implicit Types (w : W) (c : Cpu) (s : Host W M Cpu).

Lemma put_bits_field a lo width v s :
  put_bits 2 a lo width v s = Ret tt (with_mach s (store_at 2 a (field_put lo width v (load 2 a (mach s))) (mach s))).
Proof. reflexivity. Qed.

(** only the halfword at [a] differs from [s], and it holds [h] *)
Definition half_at (a : Z) s (h : Z) (s' : Host W M Cpu) : Prop :=
  load 2 a (mach s') = h /\ 0 <= h < 2 ^ 16 /\ s' = with_mach s (mach s')
  /\ (forall i, i < a \/ a + 2 <= i -> peek (mach s') i = peek (mach s) i).

Lemma put_bits_half a lo width v s h s1 :
  half_at a s h s1 -> 0 <= lo -> 0 <= width -> lo + width <= 16 ->
  exists s2, put_bits 2 a lo width v s1 = Ret tt s2 /\ half_at a s (field_put lo width v h) s2.
Proof.
  intros (Hh & Hr & E & Hp) Hlo Hw Hs. eexists. rewrite put_bits_field, Hh. split; [done|].
  pose proof (field_put_range lo width v h Hlo Hw Hs Hr) as Hr'.
  split; [apply load_store_same; exact Hr'|]. split; [done|]. split; [by rewrite E|].
  intros i Hi. cbn [mach with_mach]. by rewrite peek_store_other, Hp by lia.
Qed.

(** the 16 bytes of a gate: an interrupt gate to [o], or nothing *)
Definition gate_holds w (v : Z) (o : option Z) : Prop :=
  match o with
  | Some o => read_gate (idt + 16 * v) w = mkGate o 8 0 14 0 1
  | None => load 2 (idt + 16 * v + 4) w = 0
  end.

Lemma gate_holds_ext w w' v o :
  (forall a, idt + 16 * v <= a < idt + 16 * v + 16 -> peek w' a = peek w a) -> gate_holds w v o -> gate_holds w' v o.
Proof.
  intros Hw. assert (Hl : forall n k, 0 <= k -> k + Z.of_nat n <= 16 -> load n (idt + 16 * v + k) w' = load n (idt + 16 * v + k) w).
  { intros n k Hk Hn. apply load_ext. intros i Hi. apply Hw. lia. }
  pose proof (Hl 2%nat 0) as H0'. rewrite Z.add_0_r in H0'. unfold gate_holds, read_gate.
  destruct o; rewrite ?Hl, ?H0' by lia; done.
Qed.

Lemma offset_parts o : 0 <= o < 2 ^ 64 ->
  Z.land o 0xFFFF + Z.shiftl (Z.land (Z.shiftr o 16) 0xFFFF) 16 + Z.shiftl (Z.land (Z.shiftr o 32) 0xFFFFFFFF) 32 = o.
Proof.
  intros Ho. rewrite !land_half, land_word, !Z.shiftl_mul_pow2, !Z.shiftr_div_pow2 by lia.
  rewrite (Z.mod_small (o / 2 ^ 32)) by (split; [apply Z.div_pos; lia|apply Z.div_lt_upper_bound; lia]).
  change 65536 with (2 ^ 16). pose proof (Z.div_mod o (2 ^ 16)). pose proof (Z.div_mod (o / 2 ^ 16) (2 ^ 16)).
  rewrite Z.div_div in * by lia. change (2 ^ 16 * 2 ^ 16) with (2 ^ 32) in *. lia.
Qed.

Lemma put_flags_value a s :
  exists s', put_flags a IDT_TYPE_INTERRUPT_GATE s = Ret tt s' /\ half_at a s 0x8E00 s'.
Proof.
  pose proof (load_range 2 a (mach s)) as Hr. change (256 ^ Z.of_nat 2) with (2 ^ 16) in Hr.
  assert (F : half_at a s (load 2 a (mach s)) s) by (split; [done|split; [done|split; [by destruct s|done]]]).
  unfold put_flags. rewrite <- (gate_flags_value _ Hr). unfold gate_flags.
  repeat match goal with
  | |- context [bind (put_bits 2 a ?lo ?width ?v) _] =>
      destruct (put_bits_half a lo width v s _ _ F ltac:(lia) ltac:(lia) ltac:(lia)) as (? & R & F');
      rewrite (bind_Ret _ _ _ _ _ R); clear R F; rename F' into F
  end.
  by apply (put_bits_half a 12 1 0 s _ _ F); lia.
Qed.

Lemma SetIDTEntry_gate v o s : 0 <= o < 2 ^ 64 ->
  exists s', SetIDTEntry idt v o 0x08 IDT_TYPE_INTERRUPT_GATE s = Ret tt s'
  /\ s' = with_mach s (mach s') /\ gate_holds (mach s') v (Some o)
  /\ (forall a, a < idt + 16 * v \/ idt + 16 * v + 16 <= a -> peek (mach s') a = peek (mach s) a).
Proof.
  intros Ho. unfold SetIDTEntry, sizeof_InterruptDescriptor. set (e := idt + 16 * v).
  set (w1 := store_at 2 (e + 2) 8 (store_at 4 (e + 8) (Z.land (Z.shiftr o 32) 0xFFFFFFFF)
    (store_at 2 (e + 6) (Z.land (Z.shiftr o 16) 0xFFFF) (store_at 2 e (Z.land o 0xFFFF) (mach s))))).
  destruct (put_flags_value (e + 4) (with_mach s w1)) as (s2 & R & L & _ & E & P).
  exists (with_mach s (store_at 4 (e + 12) 0 (mach s2))). split; [|split; [done|split]].
  - transitivity ((put_flags (e + 4) IDT_TYPE_INTERRUPT_GATE ;;; put 4 (e + 12) 0) (with_mach s w1)); [reflexivity|].
    rewrite (bind_Ret _ _ _ _ _ R), E. done.
  - assert (Hl : forall n k, (k + Z.of_nat n <= 4 \/ 6 <= k) -> k + Z.of_nat n <= 12 ->
      load n (e + k) (store_at 4 (e + 12) 0 (mach s2)) = load n (e + k) w1).
    { intros n k Hk Hn. rewrite load_store_other by lia. apply load_ext. intros i Hi. rewrite P by lia. done. }
    cbn [mach with_mach gate_holds]. fold e. unfold read_gate.
    pose proof (Hl 2%nat 0 ltac:(lia) ltac:(lia)) as Hl0. rewrite Z.add_0_r in Hl0.
    rewrite Hl0, !Hl, load_store_other, L by lia. unfold w1.
    pose proof (land_half o). pose proof (land_half (Z.shiftr o 16)). pose proof (land_word (Z.shiftr o 32)).
    pose proof (Z.mod_pos_bound o 65536). pose proof (Z.mod_pos_bound (Z.shiftr o 16) 65536).
    pose proof (Z.mod_pos_bound (Z.shiftr o 32) (2 ^ 32)).
    repeat first [rewrite load_store_same by (cbn; lia) | rewrite load_store_other by lia].
    by rewrite offset_parts.
  - intros a Ha. cbn [mach with_mach]. rewrite peek_store_other, P by lia. cbn [mach with_mach].
    unfold w1. by rewrite !peek_store_other by lia.
Qed.

(** *** The whole table *)

(** what every vector leads to *)
Definition vectors_hold w (t : Z -> option Z) : Prop := forall v, 0 <= v < 256 -> gate_holds w v (t v).

Definition add_vector (v o : Z) (t : Z -> option Z) : Z -> option Z := fun u => if u =? v then Some o else t u.

(** only the table differs from [s], and it holds [t] *)
Definition table_at s (t : Z -> option Z) (s' : Host W M Cpu) : Prop :=
  s' = with_mach s (mach s') /\ vectors_hold (mach s') t
  /\ (forall a, a < idt \/ idt + 4096 <= a -> peek (mach s') a = peek (mach s) a).

Lemma SetIDTEntry_table v o t s s1 : 0 <= v < 256 -> 0 <= o < 2 ^ 64 -> table_at s t s1 ->
  exists s2, SetIDTEntry idt v o 0x08 IDT_TYPE_INTERRUPT_GATE s1 = Ret tt s2 /\ table_at s (add_vector v o t) s2.
Proof.
  intros Hv Ho (E & Ht & P). destruct (SetIDTEntry_gate v o s1 Ho) as (s2 & R & E' & G & P'). exists s2.
  split; [done|]. split; [by rewrite E', E|]. split; [|intros a Ha; rewrite P', P by lia; done].
  intros u Hu. unfold add_vector. destruct (Z.eqb_spec u v) as [->|Hne]; [done|].
  apply (gate_holds_ext (mach s1)); [|by apply Ht]. intros a Ha. apply P'. lia.
Qed.

(** the vectors that have a gate *)
Definition handler_at (v : Z) : option Handler :=
  if v =? 0 then Some DivideErrorHandler
  else if v =? 6 then Some InvalidOpcodeHandler
  else if v =? 8 then Some DoubleFaultHandler
  else if v =? 13 then Some GPFaultHandler
  else if v =? 14 then Some PageFaultHandler
  else if v =? 0x20 then Some TimerHandler
  else if v =? 0x50 then Some UsbInterruptHandler
  else None.

(** SetupInterrupts fills the table, loads its address and writes nothing else *)
Lemma SetupInterrupts_table s :
  vectors_hold (mach s) (fun _ => None) ->
  exists s', SetupInterrupts idt address s = Ret tt s'
  /\ drv s' = set_idtr 4095 idt (drv s) /\ (out s' = out s /\ Machine.pool s' = Machine.pool s)
  /\ vectors_hold (mach s') (fun v => address <$> handler_at v)
  /\ (forall a, a < idt \/ idt + 4096 <= a -> peek (mach s') a = peek (mach s) a).
Proof.
  intros G. assert (F : table_at s (fun _ => None) s) by (split; [by destruct s|done]).
  unfold SetupInterrupts.
  repeat match goal with
  | |- context [bind (SetIDTEntry idt ?v (address ?h) _ _) _] =>
      destruct (SetIDTEntry_table v (address h) _ s _ ltac:(lia) (Haddress h) F) as (? & R & F');
      rewrite (bind_Ret _ _ _ _ _ R); clear R F; rename F' into F
  end.
  destruct F as (E & F & P). eexists. split; [reflexivity|]. rewrite E. cbn [drv out mach Machine.pool with_mach with_cpu with_drv].
  split; [done|]. split; [done|]. split; [|done]. intros v Hv. specialize (F v Hv).
  unfold handler_at. unfold add_vector in F.
  repeat match goal with |- context [v =? ?k] =>
    destruct (Z.eqb_spec v k) as [Ev|_]; [rewrite Ev in F |- *; exact F|] end.
  exact F.
Qed.

(** *** Delivery *)

(** which function runs for a vector *)
Definition handler_of (v : Z) : Handler :=
  match handler_at v with
  | Some h => h
  | None => if contributory v then DoubleFaultHandler else GPFaultHandler
  end.

Variables (gdt tss : Z).

Lemma deliver_gate c w cpl v h :
  segments_ok gdt tss c w -> vectors_hold w (fun v => address <$> handler_at v) ->
  idtr_base c = idt -> idtr_limit c = 4095 -> 0 <= cpl -> 0 <= v < 256 -> handler_at v = Some h ->
  deliver c w cpl v
  = Some (mkEntry (address h) kKernelCS (if 0 <? cpl then Some (ring0_stack c w) else None) true).
Proof.
  intros Hok Ht Hb Hl Hc Hv Hh. specialize (Ht v Hv). cbv beta in Ht. rewrite Hh in Ht. cbn [fmap option_fmap option_map gate_holds] in Ht.
  unfold deliver. rewrite Hl, Hb, Ht, (proj2 (Z.leb_le _ _)) by lia.
  cbn [gate_type gate_system gate_present segment_selector offset ist]. cbn [Z.eqb Pos.eqb orb andb negb].
  pose proof (sg_kernel_code _ _ _ _ Hok) as Hk. unfold is_code in Hk. change kKernelCS with 8 in Hk.
  destruct (descriptor c w 8) as [d|]; [|done]. cbn [mbind option_bind].
  assert (Hd : descriptor_privilege_level (segment_bits d) = 0).
  { unfold code_segment in Hk. rewrite !andb_true_iff in Hk. destruct Hk as [_ Hk]. by apply Z.eqb_eq. }
  rewrite Hd, Hk, (proj2 (Z.leb_le 0 cpl)) by lia. done.
Qed.

Lemma deliver_none c w cpl v :
  vectors_hold w (fun v => address <$> handler_at v) -> idtr_base c = idt -> idtr_limit c = 4095 ->
  0 <= v < 256 -> handler_at v = None -> deliver c w cpl v = None.
Proof.
  intros Ht Hb Hl Hv Hh. specialize (Ht v Hv). cbv beta in Ht. rewrite Hh in Ht. cbn [fmap option_fmap option_map gate_holds] in Ht.
  unfold deliver, read_gate. rewrite Hl, Hb, Ht, (proj2 (Z.leb_le _ _)) by lia. done.
Qed.

(** what a processor with these tables does for every vector *)
Definition all_delivered c w : Prop := forall v cpl, 0 <= v < 256 -> 0 <= cpl ->
  interrupt c w cpl v
  = Some (mkEntry (address (handler_of v)) kKernelCS (if 0 <? cpl then Some (ring0_stack c w) else None) true)
  /\ takes_error_code (handler_of v) = pushes_error_code (taken c w cpl v).

Lemma tables_deliver c w : segments_ok gdt tss c w -> vectors_hold w (fun v => address <$> handler_at v) ->
  idtr_base c = idt -> idtr_limit c = 4095 -> all_delivered c w.
Proof.
  intros Hok F Eb El v cpl Hv Hc.
  assert (D : forall u h, 0 <= u < 256 -> handler_at u = Some h -> deliver c w cpl u
    = Some (mkEntry (address h) kKernelCS (if 0 <? cpl then Some (ring0_stack c w) else None) true))
    by (intros u h Hu; apply (deliver_gate _ _ _ _ _ Hok F Eb El Hc Hu)).
  unfold interrupt, taken, handler_of. destruct (handler_at v) as [h|] eqn:Hh.
  - rewrite (D v h Hv Hh), (D v h Hv Hh). split; [reflexivity|]. unfold handler_at in Hh.
    repeat match type of Hh with context [v =? ?k] => destruct (Z.eqb_spec v k) as [Ev|_]; [injection Hh as <-; by rewrite Ev|] end.
    discriminate.
  - rewrite (deliver_none _ _ _ _ F Eb El Hv Hh).
    destruct (contributory v); (split; [|reflexivity]).
    + rewrite (D 8 DoubleFaultHandler ltac:(lia) eq_refl). reflexivity.
    + rewrite (D 13 GPFaultHandler ltac:(lia) eq_refl). reflexivity.
Qed.

(** C11: After SetupInterrupts every one of the 256 vectors, raised in the kernel or in a user
    program, enters one of the seven handlers with interrupts masked, in the kernel's
    code segment and, from user mode, on the stack of the task state segment: its own
    handler where SetupInterrupts set one, else the handler of the fault that its missing
    gate raises; and the handler takes an error code exactly when the processor pushes
    one. *)
Theorem SetupInterrupts_delivers s :
  segments_ok gdt tss (drv s) (mach s) ->
  (idt + 4096 <= gdt \/ gdt + 64 <= idt) -> (idt + 4096 <= tss \/ tss + sizeof_TSS64 <= idt) ->
  (forall a, idt <= a < idt + 4096 -> peek (mach s) a = 0) ->
  exists s', SetupInterrupts idt address s = Ret tt s' /\ segments_ok gdt tss (drv s') (mach s')
  /\ all_delivered (drv s') (mach s').
Proof.
  intros Hok Hg Ht Hz.
  assert (G : vectors_hold (mach s) (fun _ => None)).
  { intros v Hv. cbn [gate_holds]. unfold load. cbn [peek_all]. rewrite !Hz by lia. done. }
  destruct (SetupInterrupts_table s G) as (s' & R & E & _ & F & P). exists s'. split; [done|].
  assert (Hok' : segments_ok gdt tss (drv s') (mach s')).
  { unfold sizeof_TSS64, off_iomap_base in *. eapply segments_ok_ext; [exact Hok|..]; try (by rewrite E).
    - intros a Ha. apply P. lia.
    - apply load_ext. intros a Ha. apply P. unfold off_iomap_base in Ha. lia. }
  split; [done|]. apply tables_deliver; [done|done|by rewrite E|by rewrite E].
Qed.
End Table.

Module IdtSim.
(** the seven functions, 16 bytes apart *)
Definition address (h : Handler) : Z :=
  match h with
  | DivideErrorHandler => 0x100000 | InvalidOpcodeHandler => 0x100010 | DoubleFaultHandler => 0x100020
  | GPFaultHandler => 0x100030 | PageFaultHandler => 0x100040 | TimerHandler => 0x100050
  | UsbInterruptHandler => 0x100060
  end.
End IdtSim.

(** the vector that IOAPIC::Enable gives to the keyboard's line, and the spurious vector,
    have no gate: both end in the general protection handler *)
Lemma SetupInterrupts_delivers_witness : exists s1 s' : Host Ram.t unit Cpu,
  SetupSegments 0x1000 0x2000 CpuSim.boot = Ret tt s1 /\ SetupInterrupts 0x8000 IdtSim.address s1 = Ret tt s'
  /\ e_rip <$> interrupt (drv s') (mach s') 3 0x20 = Some 0x100050
  /\ e_rip <$> interrupt (drv s') (mach s') 0 0x40 = Some 0x100030
  /\ e_rip <$> interrupt (drv s') (mach s') 0 0xFF = Some 0x100030.
Proof.
  pose proof (SetupSegments_run 0x1000 0x2000 ltac:(lia) ltac:(left; unfold sizeof_TSS64; lia) CpuSim.boot) as R1.
  set (s1 := with_cpu _ _) in R1.
  assert (Hok : segments_ok 0x1000 0x2000 (drv s1) (mach s1))
    by (apply (segments_done_ok 0x1000 0x2000); [lia|left; unfold sizeof_TSS64; lia]).
  assert (Ha : forall h, 0 <= IdtSim.address h < 2 ^ 64) by (intros h; destruct h; cbn; lia).
  assert (Hz : forall a, 0x8000 <= a < 0x8000 + 4096 -> peek (mach s1) a = 0)
    by (intros a Hb; cbn [s1 mach with_mach with_cpu with_drv];
        rewrite (segments_done_other 0x1000 0x2000) by (left + right; unfold sizeof_TSS64; lia); reflexivity).
  destruct (SetupInterrupts_delivers 0x8000 IdtSim.address Ha 0x1000 0x2000 s1 Hok ltac:(right; lia)
    ltac:(right; unfold sizeof_TSS64; lia) Hz) as (s' & R & _ & D).
  exists s1, s'. split; [exact R1|]. split; [exact R|]. split; [|split].
  - rewrite (proj1 (D 0x20 3 ltac:(lia) ltac:(lia))). reflexivity.
  - rewrite (proj1 (D 0x40 0 ltac:(lia) ltac:(lia))). reflexivity.
  - rewrite (proj1 (D 0xFF 0 ltac:(lia) ltac:(lia))). reflexivity.
Defined.
