(* ===== verification/UserMode.v ===== *)
(** * User mode and system calls (kernel/asmfunc.asm, sys/syscall.hpp, InitializeSyscall)

    The general registers, the instructions that change between user mode and the
    kernel, and the code around them: InitializeSyscall, EnterUserMode and
    SyscallEntry.  SyscallHandler is an argument: Syscall.v has the calls. *)
From stdpp Require Import functions.
From S2P Require Import Prelude Run Memory Machine Cpu.
#[local] Open Scope run_scope.

(** ** Registers *)

Inductive reg :=
  | RAX | RBX | RCX | RDX | RSI | RDI | RBP | RSP | R8 | R9 | R10 | R11 | R12 | R13 | R14 | R15
  | RIP | RFLAGS | CS | SS | DS (** DS, ES, FS and GS *).

#[export] Instance reg_eq_dec : EqDecision reg.
Proof. solve_decision. Defined.

(** the registers of the processor, its system registers, and the kernel's variable
    [g_kernel_rsp_save] *)
Record Core := mkCore { regs : reg -> Z; sys : Cpu; g_kernel_rsp_save : Z }.

Definition set_regs (f : (reg -> Z) -> reg -> Z) (c : Core) : Core :=
  mkCore (f (regs c)) (sys c) (g_kernel_rsp_save c).
Definition set_sys (f : Cpu -> Cpu) (c : Core) : Core := mkCore (regs c) (f (sys c)) (g_kernel_rsp_save c).
Definition set_rsp_save (v : Z) (c : Core) : Core := mkCore (regs c) (sys c) v.

(** ** Model-specific registers *)
Definition kMSR_EFER : Z := 0xC0000080.
Definition kMSR_STAR : Z := 0xC0000081.
Definition kMSR_LSTAR : Z := 0xC0000082.
Definition kMSR_FMASK : Z := 0xC0000084.
Definition kMSR_GS_BASE : Z := 0xC0000101.
Definition kMSR_KERNEL_GS_BASE : Z := 0xC0000102.

(** struct SyscallContext *)
Definition sizeof_SyscallContext : Z := 16.
Definition off_kernel_stack_ptr : Z := 0.
Definition off_user_stack_ptr : Z := 8.

(** ** InitializeSyscall *)

Section Initialize.
Context {W M : Type} `{Machine W} `{FrameAllocator M}.

(** [SyscallEntry] is the address of the entry code; the result is g_syscall_context *)
Definition InitializeSyscall (SyscallEntry : Z) : Host W M Cpu -> Run (Host W M Cpu) Z :=
  g_syscall_context <-- new_object sizeof_SyscallContext ;;
  clear g_syscall_context sizeof_SyscallContext ;;;
  efer <-- ReadMSR kMSR_EFER ;;
  let efer := Z.lor efer 1 in
  WriteMSR kMSR_EFER efer ;;;
  let kStackSize := 16 * 1024 in
  stack_mem <-- alloc kStackSize 16 ;;
  put 8 (g_syscall_context + off_kernel_stack_ptr) (u64 (stack_mem + kStackSize)) ;;;
  let star := Z.lor (Z.shiftl 0x08 32) (Z.shiftl 0x18 48) in
  WriteMSR kMSR_STAR star ;;;
  WriteMSR kMSR_LSTAR SyscallEntry ;;;
  WriteMSR kMSR_FMASK 0x200 ;;;
  WriteMSR kMSR_GS_BASE g_syscall_context ;;;
  WriteMSR kMSR_KERNEL_GS_BASE 0 ;;;
  say "[Syscall] Initialized. Context at %lx\n" [KInt g_syscall_context] ;;;
  current_star <-- ReadMSR kMSR_STAR ;;
  say "[Syscall] MSR_STAR set to: %lx\n" [KInt current_star] ;;;
  ret g_syscall_context.
End Initialize.

Lemma msr_of_set m v c m' : msr_of m' (set_msr m v c) = if m' =? m then v else msr_of m' c.
Proof.
  unfold msr_of, set_msr. cbn [msrs]. destruct (Z.eqb_spec m' m) as [->|Hne].
  - by rewrite lookup_insert_eq.
  - by rewrite lookup_insert_ne by done.
Qed.

(** what it leaves in the registers that a system call reads *)
Lemma InitializeSyscall_msrs {W M} `{Machine W} `{FrameAllocator M} entry (s : Host W M Cpu) :
  0 <= entry < 2 ^ 64 ->
  exists ctx s', InitializeSyscall entry s = Ret ctx s'
  /\ Z.testbit (msr_of kMSR_EFER (drv s')) 0 = true /\ msr_of kMSR_STAR (drv s') = 0x0018000800000000
  /\ msr_of kMSR_LSTAR (drv s') = entry /\ msr_of kMSR_FMASK (drv s') = 0x200.
Proof.
  intros He. unfold InitializeSyscall.
  assert (Hn : exists ctx s1, new_object sizeof_SyscallContext s = Ret ctx s1 /\ drv s1 = drv s).
  { unfold new_object, alloc, bind, put, act, ret. destruct (Allocate _ _ _) as [p m]. destruct (p =? 0); by eexists _, _. }
  destruct Hn as (ctx & s1 & R1 & D1). rewrite (bind_Ret _ _ _ _ _ R1).
  unfold clear, act, bind, ReadMSR, WriteMSR, my, change, alloc, put, say, ret. cbn [mach pool drv out with_mach with_cpu with_drv].
  unfold act. cbn [mach pool drv out with_mach with_cpu with_drv].
  destruct (Allocate _ _ _) as [p m]. cbn [mach pool drv out with_mach with_cpu with_drv with_pool].
  eexists _, _. split; [reflexivity|]. cbn [drv]. rewrite !msr_of_set. cbn [Z.eqb Pos.eqb kMSR_EFER kMSR_STAR kMSR_LSTAR kMSR_FMASK kMSR_GS_BASE kMSR_KERNEL_GS_BASE].
  split; [|split; [reflexivity|split; [|reflexivity]]].
  - etransitivity; [apply (Z.mod_pow2_bits_low _ 64 0); lia|]. rewrite Z.lor_spec. apply orb_true_r.
  - by apply u64_small.
Qed.

(** ** Instructions and entry code *)

Section UserMode.
Context {W M : Type} `{Machine W}.
Local Abbreviation HR := (fun A => Host W M Core -> Run (Host W M Core) A).
Implicit Types s : Host W M Core.

Definition on_core (f : Core -> Core) : HR unit := fun s => Ret tt (with_drv s (f (drv s))).
Definition get_reg (r : reg) : HR Z := fun s => Ret (regs (drv s) r) s.
Definition set_reg (r : reg) (v : Z) : HR unit := on_core (set_regs (fun f => <[r := v]> f)).
Definition mov (dst src : reg) : HR unit := v <-- get_reg src ;; set_reg dst v.
Definition get_msr (m : Z) : HR Z := fun s => Ret (msr_of m (sys (drv s))) s.

Definition push_value (v : Z) : HR unit :=
  sp <-- get_reg RSP ;; set_reg RSP (u64 (sp - 8)) ;;; put 8 (u64 (sp - 8)) v.
Definition push (r : reg) : HR unit := v <-- get_reg r ;; push_value v.
Definition pop_value : HR Z :=
  sp <-- get_reg RSP ;; v <-- look 8 sp ;; set_reg RSP (u64 (sp + 8)) ;;; ret v.
Definition pop (r : reg) : HR unit := v <-- pop_value ;; set_reg r v.

Fixpoint push_all (rs : list reg) : HR unit :=
  match rs with [] => ret tt | r :: rest => push r ;;; push_all rest end.
Fixpoint pop_all (rs : list reg) : HR unit :=
  match rs with [] => ret tt | r :: rest => pop r ;;; pop_all rest end.

Definition interrupt_flag : Z := 0x200.
Definition cli : HR unit := v <-- get_reg RFLAGS ;; set_reg RFLAGS (Z.ldiff v interrupt_flag).
Definition sti : HR unit := v <-- get_reg RFLAGS ;; set_reg RFLAGS (Z.lor v interrupt_flag).

(** the processor, in a user program at a [syscall] instruction; RIP is the address
    after it.  Without EFER.SCE the instruction is invalid. *)
Definition syscall : HR unit :=
  efer <-- get_msr kMSR_EFER ;;
  if Z.testbit efer 0 then
    mov RCX RIP ;;; mov R11 RFLAGS ;;;
    star <-- get_msr kMSR_STAR ;; lstar <-- get_msr kMSR_LSTAR ;; fmask <-- get_msr kMSR_FMASK ;;
    flags <-- get_reg RFLAGS ;;
    let sel := bits_at star 32 16 in
    set_reg RIP lstar ;;; set_reg RFLAGS (Z.ldiff flags fmask) ;;;
    set_reg CS (Z.land sel 0xFFFC) ;;; set_reg SS (sel + 8)
  else halt.

(** the bits of RFLAGS that sysret takes from R11 *)
Definition sysret_flags (v : Z) : Z := Z.lor (Z.land v 0x3C7FD7) 2.

Definition sysretq : HR unit :=
  mov RIP RCX ;;; r11 <-- get_reg R11 ;; set_reg RFLAGS (sysret_flags r11) ;;;
  star <-- get_msr kMSR_STAR ;;
  let sel := bits_at star 48 16 in
  set_reg CS (Z.lor (sel + 16) 3) ;;; set_reg SS (Z.lor (sel + 8) 3).

Definition swapgs : HR unit := on_core (set_sys (fun c =>
  set_msr kMSR_KERNEL_GS_BASE (msr_of kMSR_GS_BASE c)
    (set_msr kMSR_GS_BASE (msr_of kMSR_KERNEL_GS_BASE c) c))).

(** iretq to the frame on the stack; the selectors loaded must be those of user code
    and data *)
Definition iretq (gdt_ok : Cpu -> W -> bool) : HR unit :=
  rip <-- pop_value ;; cs <-- pop_value ;; flags <-- pop_value ;; rsp <-- pop_value ;; ss <-- pop_value ;;
  ok <-- (fun s => Ret (gdt_ok (sys (drv s)) (mach s)) s) ;;
  if (ok : bool) && (cs =? kUserCS) && (ss =? kUserDS) then
    set_reg RIP rip ;;; set_reg CS cs ;;; set_reg RFLAGS flags ;;; set_reg RSP rsp ;;; set_reg SS ss
  else halt.

(** *** asmfunc.asm *)

Definition user_segments_ok (c : Cpu) (w : W) : bool := is_code c w kUserCS 3 && is_data c w kUserDS 3.

(** called with the four arguments; what it saves is for ExitApp.  Loading GS with a
    segment whose base is 0 also clears the base in the MSR. *)
Definition EnterUserMode (entry_point user_stack_top argc argv_ptr : Z) : HR unit :=
  push_all [RBP; RBX; R12; R13; R14; R15] ;;;
  sp <-- get_reg RSP ;; on_core (set_rsp_save sp) ;;;
  cli ;;;
  push_value 0x23 ;;; push_value user_stack_top ;;;
  flags <-- get_reg RFLAGS ;; push_value (Z.lor flags 0x200) ;;;
  push_value 0x2B ;;; push_value entry_point ;;;
  set_reg RDI argc ;;; set_reg RSI argv_ptr ;;;
  set_reg RAX 0x23 ;;; set_reg DS 0x23 ;;; on_core (set_sys (set_msr kMSR_GS_BASE 0)) ;;;
  iretq user_segments_ok.

Definition saved_regs : list reg := [R11; RCX; RBP; RBX; R12; R13; R14; R15; RDI; RSI; RDX; R10; R8; R9].

(** up to the call of SyscallHandler *)
Definition SyscallEntry_enter : HR unit :=
  swapgs ;;;
  gs <-- get_msr kMSR_GS_BASE ;; sp <-- get_reg RSP ;;
  put 8 (gs + off_user_stack_ptr) sp ;;;
  ksp <-- look 8 (gs + off_kernel_stack_ptr) ;; set_reg RSP ksp ;;;
  push_all saved_regs ;;;
  mov R9 RCX ;;; mov R8 R10 ;;; mov RCX RDX ;;; mov RDX RSI ;;; mov RSI RDI ;;; mov RDI RAX ;;;
  sti.

(** from its return on *)
Definition SyscallEntry_leave : HR unit :=
  cli ;;;
  pop_all (rev saved_regs) ;;;
  gs <-- get_msr kMSR_GS_BASE ;;
  sp <-- look 8 (gs + off_user_stack_ptr) ;; set_reg RSP sp ;;;
  swapgs ;;;
  sysretq.

(** [SyscallHandler] gets the number and the five other arguments *)
Definition SyscallEntry (SyscallHandler : Z -> Z -> Z -> Z -> Z -> Z -> HR Z) : HR unit :=
  SyscallEntry_enter ;;;
  syscall_number <-- get_reg RDI ;; arg1 <-- get_reg RSI ;; arg2 <-- get_reg RDX ;;
  arg3 <-- get_reg RCX ;; arg4 <-- get_reg R8 ;; return_rip <-- get_reg R9 ;;
  result <-- SyscallHandler syscall_number arg1 arg2 arg3 arg4 return_rip ;;
  set_reg RAX result ;;;
  SyscallEntry_leave.
End UserMode.

(** ** The stack *)

Section Stack.
Context {W M : Type} `{MachineLaws W}.
Implicit Types s : Host W M Core.

Definition rsp s : Z := regs (drv s) RSP.

(** [vs] are the words from the stack pointer on *)
Definition stack_holds (a : Z) (vs : list Z) (w : W) : Prop :=
  forall k v, vs !! k = Some v -> load 8 (a + 8 * Z.of_nat k) w = v.

Lemma stack_holds_ext a vs w w' :
  (forall i, a <= i < a + 8 * zlen vs -> peek w' i = peek w i) -> stack_holds a vs w -> stack_holds a vs w'.
Proof.
  intros Hw Hs k v Hk. rewrite <- (Hs k v Hk). apply load_ext. intros i Hi. apply Hw.
  pose proof (lookup_lt_Some _ _ _ Hk). unfold zlen. lia.
Qed.

(** nothing but general registers and memory differs *)
Record same_system s s' : Prop := {
  ss_sys : sys (drv s') = sys (drv s);
  ss_save : g_kernel_rsp_save (drv s') = g_kernel_rsp_save (drv s);
  ss_pool : pool s' = pool s;
  ss_out : out s' = out s
}.

Lemma same_system_trans s1 s2 s3 : same_system s1 s2 -> same_system s2 s3 -> same_system s1 s3.
Proof. intros [A1 A2 A3 A4] [B1 B2 B3 B4]. split; congruence. Qed.

Lemma push_run r s : r <> RSP -> 8 <= rsp s < 2 ^ 64 -> (forall q, 0 <= regs (drv s) q < 2 ^ 64) ->
  exists s', push r s = Ret tt s' /\ rsp s' = rsp s - 8 /\ same_system s s'
  /\ (forall q, q <> RSP -> regs (drv s') q = regs (drv s) q)
  /\ load 8 (rsp s - 8) (mach s') = regs (drv s) r
  /\ (forall a, a < rsp s - 8 \/ rsp s <= a -> peek (mach s') a = peek (mach s) a).
Proof.
  intros Hr Hsp Hb. eexists. split; [reflexivity|]. unfold rsp in *.
  cbn [drv mach out pool with_mach with_drv regs sys g_kernel_rsp_save set_regs].
  rewrite u64_small, fn_lookup_insert by lia. split; [done|]. split; [done|].
  split; [intros q Hq; by rewrite fn_lookup_insert_ne|]. split.
  - apply load_store_same. apply Hb.
  - intros a Ha. apply peek_store_other. lia.
Qed.

Lemma pop_run r s : r <> RSP -> 0 <= rsp s -> rsp s + 8 < 2 ^ 64 ->
  exists s', pop r s = Ret tt s' /\ rsp s' = rsp s + 8 /\ same_system s s'
  /\ regs (drv s') r = load 8 (rsp s) (mach s) /\ (forall q, q <> RSP -> q <> r -> regs (drv s') q = regs (drv s) q)
  /\ mach s' = mach s.
Proof.
  intros Hr Hlo Hsp. eexists. split; [reflexivity|]. unfold rsp in *.
  cbn [drv mach out pool with_mach with_drv regs sys g_kernel_rsp_save set_regs].
  rewrite fn_lookup_insert_ne, !fn_lookup_insert, u64_small by (done || lia). split; [done|]. split; [done|].
  split; [done|]. split; [|done]. intros q Hq Hqr. by rewrite !fn_lookup_insert_ne.
Qed.

Lemma push_all_run rs : forall s, ~ In RSP rs -> 8 * zlen rs <= rsp s < 2 ^ 64 ->
  (forall q, 0 <= regs (drv s) q < 2 ^ 64) ->
  exists s', push_all rs s = Ret tt s' /\ rsp s' = rsp s - 8 * zlen rs /\ same_system s s'
  /\ (forall q, q <> RSP -> regs (drv s') q = regs (drv s) q)
  /\ stack_holds (rsp s') (rev (map (regs (drv s)) rs)) (mach s')
  /\ (forall a, a < rsp s' \/ rsp s <= a -> peek (mach s') a = peek (mach s) a).
Proof.
  induction rs as [|r rs IH]; intros s Hn Hsp Hb.
  { exists s. change (zlen (@nil reg)) with 0. split_and!; (done || lia). }
  rewrite zlen_cons in *. pose proof (zlen_nonneg rs). cbn [In] in Hn.
  destruct (push_run r s ltac:(tauto) ltac:(lia) Hb) as (s1 & R1 & E1 & S1 & Q1 & L1 & P1).
  destruct (IH s1) as (s2 & R2 & E2 & S2 & Q2 & L2 & P2); [tauto|lia| |].
  { intros q. destruct (decide (q = RSP)) as [->|Hq]; [unfold rsp in *; lia|]. by rewrite Q1. }
  exists s2. cbn [push_all]. rewrite (bind_Ret _ _ _ _ _ R1). split; [done|]. split; [lia|].
  split; [by eapply same_system_trans|]. split; [intros q Hq; by rewrite Q2, Q1|]. split.
  - assert (Hm : map (regs (drv s1)) rs = map (regs (drv s)) rs).
    { apply map_ext_in. intros q Hq. apply Q1. intros ->. tauto. }
    rewrite Hm in L2. cbn [map rev]. intros k v Hk.
    apply lookup_app_Some in Hk. destruct Hk as [Hk|[Hge Hk]]; [by apply L2|].
    rewrite length_rev, length_map in *. apply list_lookup_singleton_Some in Hk. destruct Hk as [Hk <-].
    assert (Hka : rsp s2 + 8 * Z.of_nat k = rsp s - 8) by (unfold zlen in *; lia).
    rewrite Hka, <- L1. apply load_ext. intros i Hi. apply P2. lia.
  - intros a Ha. rewrite P2 by lia. apply P1. lia.
Qed.

Lemma pop_all_run rs : forall s vs, ~ In RSP rs -> NoDup rs -> length vs = length rs ->
  0 <= rsp s -> rsp s + 8 * zlen rs < 2 ^ 64 -> stack_holds (rsp s) vs (mach s) ->
  exists s', pop_all rs s = Ret tt s' /\ rsp s' = rsp s + 8 * zlen rs /\ same_system s s'
  /\ map (regs (drv s')) rs = vs /\ (forall q, q <> RSP -> ~ In q rs -> regs (drv s') q = regs (drv s) q)
  /\ mach s' = mach s.
Proof.
  induction rs as [|r rs IH]; intros s vs Hn Hnd Hl Hlo Hsp Hs.
  { exists s. change (zlen (@nil reg)) with 0 in *. destruct vs; [|done]. split_and!; try done; lia. }
  rewrite zlen_cons in *. pose proof (zlen_nonneg rs). cbn [In] in Hn. destruct vs as [|v vs]; [done|].
  apply NoDup_cons in Hnd. destruct Hnd as [Hnr Hnd]. rewrite list_elem_of_In in Hnr.
  destruct (pop_run r s ltac:(tauto) Hlo ltac:(lia)) as (s1 & R1 & E1 & S1 & L1 & Q1 & M1).
  destruct (IH s1 vs) as (s2 & R2 & E2 & S2 & Q2 & O2 & M2); [tauto|done|cbn in Hl; lia|lia|lia| |].
  { rewrite E1, M1. intros k x Hk. rewrite <- (Hs (S k) x Hk). f_equal. lia. }
  exists s2. cbn [pop_all]. rewrite (bind_Ret _ _ _ _ _ R1). split; [done|]. split; [lia|].
  split; [by eapply same_system_trans|]. split; [|split; [|by rewrite M2]].
  - cbn [map]. rewrite Q2. f_equal. rewrite O2 by tauto. rewrite L1. rewrite <- (Hs 0%nat v eq_refl). f_equal. lia.
  - intros q Hq Hnq. cbn [In] in Hnq. rewrite O2 by tauto. apply Q1; [done|]. intros ->. tauto.
Qed.
End Stack.

(** ** EnterUserMode *)

Section Enter.
Context {W M : Type} `{MachineLaws W}.
Implicit Types s : Host W M Core.

Definition regs_ok s : Prop := forall q, 0 <= regs (drv s) q < 2 ^ 64.

(** [vs] have been pushed, the first one last *)
Record pushed s (vs : list Z) s' : Prop := {
  pd_rsp : rsp s' = rsp s - 8 * zlen vs;
  pd_sys : same_system s s';
  pd_regs q : q <> RSP -> regs (drv s') q = regs (drv s) q;
  pd_holds : stack_holds (rsp s') vs (mach s');
  pd_other a : a < rsp s' \/ rsp s <= a -> peek (mach s') a = peek (mach s) a
}.

Lemma push_value_pushed s vs s1 v :
  pushed s vs s1 -> 0 <= v < 2 ^ 64 -> rsp s < 2 ^ 64 -> 8 * (1 + zlen vs) <= rsp s ->
  exists s2, push_value v s1 = Ret tt s2 /\ pushed s (v :: vs) s2.
Proof.
  intros [A B C E F] Hv Hs Hl. pose proof (zlen_nonneg vs) as Hz.
  assert (Ea : u64 (rsp s1 - 8) = rsp s - 8 * (1 + zlen vs)) by (rewrite u64_small; lia).
  set (a := rsp s - 8 * (1 + zlen vs)) in *.
  set (s2 := with_mach (with_drv s1 (set_regs (fun f => <[RSP := a]> f) (drv s1))) (store_at 8 a v (mach s1))).
  assert (Er : rsp s2 = a) by (apply fn_lookup_insert).
  exists s2. split; [unfold push_value, bind, get_reg, set_reg, on_core, put, act; fold (rsp s1); by rewrite Ea|].
  split; rewrite ?Er, ?zlen_cons.
  - done.
  - destruct B as [B1 B2 B3 B4]. by split.
  - intros q Hq. unfold s2. cbn [drv with_mach with_drv set_regs regs]. rewrite fn_lookup_insert_ne by done. by apply C.
  - intros k x Hk. change (mach s2) with (store_at 8 a v (mach s1)). destruct k as [|k]; cbn in Hk.
    + injection Hk as <-. rewrite Z.add_0_r. by apply load_store_same.
    + rewrite load_store_other by lia. rewrite <- (E k x Hk). f_equal. unfold a in *. lia.
  - intros b Hb. change (mach s2) with (store_at 8 a v (mach s1)). rewrite peek_store_other by (unfold a in *; lia).
    apply F. unfold a in *. lia.
Qed.

Lemma pushed_start s : pushed s [] s.
Proof. split; [change (zlen []) with 0; lia|by split|done|intros k v Hk; done|done]. Qed.

(** a word comes off the stack *)
Lemma pop_value_run a v vs s : rsp s = a -> 0 <= a -> a + 8 < 2 ^ 64 -> stack_holds a (v :: vs) (mach s) ->
  exists s', pop_value s = Ret v s' /\ rsp s' = a + 8 /\ same_system s s' /\ mach s' = mach s
  /\ stack_holds (a + 8) vs (mach s') /\ (forall q, q <> RSP -> regs (drv s') q = regs (drv s) q).
Proof.
  intros <- Ha Hb Hs. eexists. split.
  { unfold pop_value, bind, get_reg, look, set_reg, on_core, ret. fold (rsp s).
    pose proof (Hs 0%nat v eq_refl) as Hv. rewrite Z.add_0_r in Hv. rewrite Hv. reflexivity. }
  unfold rsp in *. cbn [drv mach with_drv set_regs regs]. rewrite u64_small, fn_lookup_insert by lia.
  split; [done|]. split; [by split|]. split; [done|]. split; [|intros q Hq; by rewrite fn_lookup_insert_ne].
  intros k x Hk. rewrite <- (Hs (S k) x Hk). f_equal. lia.
Qed.

Lemma ldiff_range v k n : 0 <= n -> 0 <= v < 2 ^ n -> 0 <= Z.ldiff v k < 2 ^ n.
Proof.
  intros Hn Hv. assert (E : Z.ldiff v k mod 2 ^ n = Z.ldiff v k).
  { apply Z.bits_inj'. intros i Hi. rewrite <- (Z.mod_small v (2 ^ n)) at 2 by lia.
    destruct (Z.ltb_spec i n); [rewrite Z.mod_pow2_bits_low by lia|rewrite Z.mod_pow2_bits_high by lia];
      rewrite !Z.ldiff_spec; [by rewrite Z.mod_pow2_bits_low by lia|by rewrite Z.mod_pow2_bits_high by lia]. }
  rewrite <- E. apply Z.mod_pos_bound. lia.
Qed.

Lemma lor_range u v n : 0 <= n -> 0 <= u < 2 ^ n -> 0 <= v < 2 ^ n -> 0 <= Z.lor u v < 2 ^ n.
Proof.
  intros Hn Hu Hv. assert (E : Z.lor u v mod 2 ^ n = Z.lor u v).
  { apply Z.bits_inj'. intros i Hi. rewrite <- (Z.mod_small u (2 ^ n)) at 2 by lia. rewrite <- (Z.mod_small v (2 ^ n)) at 2 by lia.
    destruct (Z.ltb_spec i n); [rewrite Z.mod_pow2_bits_low by lia|rewrite Z.mod_pow2_bits_high by lia];
      rewrite !Z.lor_spec; [by rewrite !Z.mod_pow2_bits_low by lia|by rewrite !Z.mod_pow2_bits_high by lia]. }
  rewrite <- E. apply Z.mod_pos_bound. lia.
Qed.

(** iretq to the frame on the stack *)
Lemma iretq_run ok a e flags sp s :
  rsp s = a -> 0 <= a -> a + 40 < 2 ^ 64 -> stack_holds a [e; kUserCS; flags; sp; kUserDS] (mach s) ->
  ok (sys (drv s)) (mach s) = true ->
  exists s', iretq ok s = Ret tt s' /\ mach s' = mach s /\ same_system s s'
  /\ regs (drv s') RIP = e /\ rsp s' = sp /\ regs (drv s') RFLAGS = flags
  /\ regs (drv s') CS = kUserCS /\ regs (drv s') SS = kUserDS
  /\ forall q, ~ In q [RIP; RSP; RFLAGS; CS; SS] -> regs (drv s') q = regs (drv s) q.
Proof.
  intros Ha H0a Hb Hs Hok.
  destruct (pop_value_run a _ _ s Ha ltac:(lia) ltac:(lia) Hs) as (s1 & R1 & E1 & S1 & M1 & K1 & Q1).
  destruct (pop_value_run _ _ _ s1 E1 ltac:(lia) ltac:(lia) K1) as (s2 & R2 & E2 & S2 & M2 & K2 & Q2).
  destruct (pop_value_run _ _ _ s2 E2 ltac:(lia) ltac:(lia) K2) as (s3 & R3 & E3 & S3 & M3 & K3 & Q3).
  destruct (pop_value_run _ _ _ s3 E3 ltac:(lia) ltac:(lia) K3) as (s4 & R4 & E4 & S4 & M4 & K4 & Q4).
  destruct (pop_value_run _ _ _ s4 E4 ltac:(lia) ltac:(lia) K4) as (s5 & R5 & E5 & S5 & M5 & _ & Q5).
  assert (S : same_system s s5) by (do 4 (eapply same_system_trans; [eassumption|]); exact S5).
  assert (Hok5 : ok (sys (drv s5)) (mach s5) = true) by (rewrite (ss_sys _ _ S), M5, M4, M3, M2, M1; exact Hok).
  eexists. split.
  - unfold iretq. rewrite (bind_Ret _ _ _ _ _ R1), (bind_Ret _ _ _ _ _ R2), (bind_Ret _ _ _ _ _ R3), (bind_Ret _ _ _ _ _ R4), (bind_Ret _ _ _ _ _ R5).
    unfold bind at 1. rewrite Hok5. reflexivity.
  - cbn [drv mach out pool with_drv set_regs regs sys g_kernel_rsp_save]. split; [by rewrite M5, M4, M3, M2, M1|].
    split; [destruct S; by split|]. split; [reflexivity|]. split; [reflexivity|]. split; [reflexivity|]. split; [reflexivity|].
    split; [reflexivity|]. intros q Hq. cbn [In] in Hq. rewrite !fn_lookup_insert_ne by (intros <-; tauto).
    by rewrite Q5, Q4, Q3, Q2, Q1 by (intros ->; tauto).
Qed.

(** the program runs, with its arguments in RDI and RSI *)
Record in_user (e sp argc av : Z) s s' : Prop := {
  iu_rip : regs (drv s') RIP = e;
  iu_rsp : rsp s' = sp;
  iu_rdi : regs (drv s') RDI = argc;
  iu_rsi : regs (drv s') RSI = av;
  iu_cs : regs (drv s') CS = kUserCS;
  iu_ss : regs (drv s') SS = kUserDS;
  iu_on : Z.testbit (regs (drv s') RFLAGS) 9 = true;
  iu_sys : sys (drv s') = set_msr kMSR_GS_BASE 0 (sys (drv s));
  iu_save : g_kernel_rsp_save (drv s') = rsp s - 48;
  iu_state : pool s' = pool s /\ out s' = out s;
  iu_other a : a < rsp s - 88 \/ rsp s <= a -> peek (mach s') a = peek (mach s) a
}.

Lemma EnterUserMode_run e sp argc av s :
  regs_ok s -> 88 <= rsp s -> 0 <= e < 2 ^ 64 -> 0 <= sp < 2 ^ 64 ->
  (forall w, (forall a, a < rsp s - 88 \/ rsp s <= a -> peek w a = peek (mach s) a) ->
     user_segments_ok (set_msr kMSR_GS_BASE 0 (sys (drv s))) w = true) ->
  exists s', EnterUserMode e sp argc av s = Ret tt s' /\ in_user e sp argc av s s'.
Proof.
  intros Hb Hsp He Hu Hok. pose proof (Hb RSP) as Hr. fold (rsp s) in Hr.
  destruct (push_all_run [RBP; RBX; R12; R13; R14; R15] s) as (s1 & R1 & E1 & S1 & Q1 & _ & P1);
    [cbn; intuition discriminate|change (zlen _) with 6; lia|exact Hb|]. change (zlen _) with 6 in E1.
  set (fl := Z.ldiff (regs (drv s1) RFLAGS) interrupt_flag).
  set (s2 := with_drv s1 (set_regs (fun f => <[RFLAGS := fl]> f) (set_rsp_save (rsp s1) (drv s1)))).
  assert (Hfl : 0 <= fl < 2 ^ 64) by (apply ldiff_range; [lia|]; rewrite Q1 by done; apply Hb).
  assert (E2 : rsp s2 = rsp s - 48) by (change (rsp s2) with (rsp s1); lia).
  destruct (push_value_pushed s2 [] s2 0x23 (pushed_start s2) ltac:(lia) ltac:(lia)) as (t1 & T1 & D1); [change (zlen _) with 0; lia|].
  destruct (push_value_pushed s2 _ t1 sp D1 Hu ltac:(lia)) as (t2 & T2 & D2); [change (zlen _) with 1; lia|].
  assert (Hfl2 : 0 <= Z.lor fl 0x200 < 2 ^ 64) by (apply lor_range; lia).
  destruct (push_value_pushed s2 _ t2 (Z.lor fl 0x200) D2 Hfl2 ltac:(lia)) as (t3 & T3 & D3); [change (zlen _) with 2; lia|].
  destruct (push_value_pushed s2 _ t3 0x2B D3 ltac:(lia) ltac:(lia)) as (t4 & T4 & D4); [change (zlen _) with 3; lia|].
  destruct (push_value_pushed s2 _ t4 e D4 He ltac:(lia)) as (t5 & T5 & [A5 S5 Q5 K5 F5]); [change (zlen _) with 4; lia|].
  change (zlen _) with 5 in A5.
  set (s3 := with_drv t5 (set_sys (set_msr kMSR_GS_BASE 0) (set_regs (fun f => <[DS := 0x23]> (<[RAX := 0x23]> (<[RSI := av]> (<[RDI := argc]> f)))) (drv t5)))).
  assert (Hw : forall a, a < rsp s - 88 \/ rsp s <= a -> peek (mach t5) a = peek (mach s) a).
  { intros a Ha. rewrite F5 by lia. apply P1. lia. }
  assert (Y : sys (drv s3) = set_msr kMSR_GS_BASE 0 (sys (drv s))).
  { change (sys (drv s3)) with (set_msr kMSR_GS_BASE 0 (sys (drv t5))). rewrite (ss_sys _ _ S5).
    change (sys (drv s2)) with (sys (drv s1)). by rewrite (ss_sys _ _ S1). }
  destruct (iretq_run user_segments_ok (rsp t5) e (Z.lor fl 0x200) sp s3) as (s' & R' & M' & S' & I1 & I2 & I3 & I4 & I5 & O');
    [reflexivity|lia|lia|exact K5|rewrite Y; by apply Hok|].
  exists s'. split.
  - unfold EnterUserMode. rewrite (bind_Ret _ _ _ _ _ R1).
    transitivity ((push_value 0x23 ;;; push_value sp ;;;
      flags <-- get_reg RFLAGS ;; push_value (Z.lor flags 0x200) ;;; push_value 0x2B ;;; push_value e ;;;
      set_reg RDI argc ;;; set_reg RSI av ;;; set_reg RAX 0x23 ;;; set_reg DS 0x23 ;;;
      on_core (set_sys (set_msr kMSR_GS_BASE 0)) ;;; iretq user_segments_ok) s2); [reflexivity|].
    rewrite (bind_Ret _ _ _ _ _ T1), (bind_Ret _ _ _ _ _ T2). unfold bind at 1, get_reg.
    rewrite (pd_regs _ _ _ D2) by discriminate. change (regs (drv s2) RFLAGS) with fl.
    rewrite (bind_Ret _ _ _ _ _ T3), (bind_Ret _ _ _ _ _ T4), (bind_Ret _ _ _ _ _ T5). exact R'.
  - destruct S' as [Y1 Y2 Y3 Y4]. split; try assumption.
    + rewrite O' by (cbn; intuition discriminate). reflexivity.
    + rewrite O' by (cbn; intuition discriminate). reflexivity.
    + rewrite I3, Z.lor_spec. apply orb_true_r.
    + by rewrite Y1.
    + rewrite Y2. change (g_kernel_rsp_save (drv s3)) with (g_kernel_rsp_save (drv t5)). rewrite (ss_save _ _ S5). exact E2.
    + rewrite Y3, Y4. change (pool s3) with (pool t5). change (out s3) with (out t5).
      rewrite (ss_pool _ _ S5), (ss_out _ _ S5). change (pool s2) with (pool s1). change (out s2) with (out s1).
      by rewrite (ss_pool _ _ S1), (ss_out _ _ S1).
    + intros a Ha. rewrite M'. by apply Hw.
Qed.
End Enter.

(** ** A system call *)

Section Calls.
Context {W M : Type} `{MachineLaws W}.
Local Abbreviation HR := (fun A => Host W M Core -> Run (Host W M Core) A).
Implicit Types s : Host W M Core.

(** the program's side: the instruction, and the code at the address it jumps to *)
Definition system_call (SyscallEntry_at : Z) (SyscallHandler : Z -> Z -> Z -> Z -> Z -> Z -> HR Z) : HR unit :=
  syscall ;;;
  rip <-- get_reg RIP ;;
  if rip =? SyscallEntry_at then SyscallEntry SyscallHandler else halt.

(** what InitializeSyscall and AppTaskEntry have set up when a program runs *)
Record call_ready (entry ctx top : Z) s : Prop := {
  cr_efer : Z.testbit (msr_of kMSR_EFER (sys (drv s))) 0 = true;
  cr_star : msr_of kMSR_STAR (sys (drv s)) = 0x0018000800000000;
  cr_lstar : msr_of kMSR_LSTAR (sys (drv s)) = entry;
  cr_fmask : msr_of kMSR_FMASK (sys (drv s)) = 0x200;
  cr_gs : msr_of kMSR_KERNEL_GS_BASE (sys (drv s)) = ctx;
  cr_stack : load 8 (ctx + off_kernel_stack_ptr) (mach s) = top
}.

(** the words that SyscallEntry keeps on the kernel stack *)
Definition frame_size : Z := 8 * zlen saved_regs.
Definition frame_of (f : reg -> Z) : list Z := rev (map f saved_regs).

Lemma swapgs_sys (s : Host W M Core) :
  exists s', swapgs s = Ret tt s' /\ regs (drv s') = regs (drv s) /\ mach s' = mach s /\ pool s' = pool s /\ out s' = out s
  /\ msr_of kMSR_GS_BASE (sys (drv s')) = msr_of kMSR_KERNEL_GS_BASE (sys (drv s))
  /\ msr_of kMSR_KERNEL_GS_BASE (sys (drv s')) = msr_of kMSR_GS_BASE (sys (drv s))
  /\ (forall m, m <> kMSR_GS_BASE -> m <> kMSR_KERNEL_GS_BASE -> msr_of m (sys (drv s')) = msr_of m (sys (drv s))).
Proof.
  eexists. split; [reflexivity|]. cbn [drv mach pool out with_drv set_sys regs sys]. split_and!; try done.
  - unfold msr_of, set_msr. cbn [msrs]. rewrite lookup_insert_ne, lookup_insert_eq by done. done.
  - unfold msr_of, set_msr. cbn [msrs]. by rewrite lookup_insert_eq.
  - intros m H1 H2. unfold msr_of, set_msr. cbn [msrs]. by rewrite !lookup_insert_ne by done.
Qed.

Lemma frame_size_value : frame_size = 112.
Proof. reflexivity. Qed.

(** *** Entering *)

(** the kernel's stack and the context do not overlap *)
Definition call_space (ctx top : Z) : Prop :=
  0 <= ctx /\ frame_size <= top < 2 ^ 64 /\ (ctx + sizeof_SyscallContext <= top - frame_size \/ top <= ctx).

Record entered (ctx top : Z) s s1 : Prop := {
  en_rsp : rsp s1 = top - frame_size;
  en_frame : stack_holds (top - frame_size) (frame_of (regs (drv s))) (mach s1);
  en_user : load 8 (ctx + off_user_stack_ptr) (mach s1) = rsp s;
  en_top : load 8 (ctx + off_kernel_stack_ptr) (mach s1) = top;
  en_args : map (regs (drv s1)) [RDI; RSI; RDX; RCX; R8; R9] = map (regs (drv s)) [RAX; RDI; RSI; RDX; R10; RCX];
  en_on : Z.testbit (regs (drv s1) RFLAGS) 9 = true;
  en_gs : msr_of kMSR_GS_BASE (sys (drv s1)) = ctx;
  en_msrs m : m <> kMSR_GS_BASE -> m <> kMSR_KERNEL_GS_BASE -> msr_of m (sys (drv s1)) = msr_of m (sys (drv s));
  en_other a : a < top - frame_size \/ top <= a -> a < ctx \/ ctx + sizeof_SyscallContext <= a ->
    peek (mach s1) a = peek (mach s) a
}.

(** the moves of the arguments, and sti *)
Lemma arguments_run s :
  exists s1, (mov R9 RCX ;;; mov R8 R10 ;;; mov RCX RDX ;;; mov RDX RSI ;;; mov RSI RDI ;;; mov RDI RAX ;;; sti) s = Ret tt s1
  /\ rsp s1 = rsp s /\ mach s1 = mach s /\ sys (drv s1) = sys (drv s)
  /\ map (regs (drv s1)) [RDI; RSI; RDX; RCX; R8; R9] = map (regs (drv s)) [RAX; RDI; RSI; RDX; R10; RCX]
  /\ regs (drv s1) RFLAGS = Z.lor (regs (drv s) RFLAGS) interrupt_flag.
Proof. eexists. split; [reflexivity|]. split_and!; reflexivity. Qed.

Lemma enter_run ctx top s :
  msr_of kMSR_KERNEL_GS_BASE (sys (drv s)) = ctx -> load 8 (ctx + off_kernel_stack_ptr) (mach s) = top ->
  call_space ctx top -> regs_ok s ->
  exists s1, SyscallEntry_enter s = Ret tt s1 /\ entered ctx top s s1.
Proof.
  intros Hgs Htop (Hctx & Hsp & Hsep) Hb. rewrite frame_size_value in *. unfold sizeof_SyscallContext, off_kernel_stack_ptr in *.
  destruct (swapgs_sys s) as (s1 & R1 & E1 & M1 & _ & _ & G1 & _ & O1). rewrite Hgs in G1.
  set (s2 := with_mach (with_drv s1 (set_regs (fun f => <[RSP := top]> f) (drv s1)))
               (store_at 8 (ctx + 8) (rsp s) (mach s1))).
  assert (Hl : load 8 (ctx + 0) (store_at 8 (ctx + 8) (rsp s) (mach s1)) = top) by (rewrite load_store_other, M1 by lia; done).
  assert (Hr2 : forall q, q <> RSP -> regs (drv s2) q = regs (drv s) q).
  { intros q Hq. unfold s2. cbn [drv with_mach with_drv set_regs regs]. by rewrite fn_lookup_insert_ne, E1 by done. }
  destruct (push_all_run saved_regs s2) as (s3 & R3 & E3 & [S3 _ _ _] & Q3 & F3 & P3).
  { cbn. intuition discriminate. }
  { change (rsp s2) with top. change (zlen saved_regs) with 14. lia. }
  { intros q. destruct (decide (q = RSP)) as [->|Hq]; [change (regs (drv s2) RSP) with top; lia|]. rewrite Hr2 by done. apply Hb. }
  change (rsp s2) with top in *. change (zlen saved_regs) with 14 in *.
  destruct (arguments_run s3) as (s4 & R4 & E4 & M4 & S4 & A4 & I4).
  exists s4. split.
  - unfold SyscallEntry_enter. rewrite (bind_Ret _ _ _ _ _ R1).
    transitivity ((push_all saved_regs ;;; mov R9 RCX ;;; mov R8 R10 ;;; mov RCX RDX ;;; mov RDX RSI ;;; mov RSI RDI ;;; mov RDI RAX ;;; sti) s2).
    + unfold bind at 1 2 3 4 5, get_msr, get_reg, put, act, look, set_reg, on_core. rewrite G1.
      cbn [drv mach with_mach with_drv]. unfold off_user_stack_ptr, off_kernel_stack_ptr. fold (rsp s1).
      replace (rsp s1) with (rsp s) by (unfold rsp; by rewrite E1). rewrite Hl. reflexivity.
    + by rewrite (bind_Ret _ _ _ _ _ R3).
  - assert (Hm : map (regs (drv s2)) saved_regs = map (regs (drv s)) saved_regs).
    { apply map_ext_in. intros q Hq. apply Hr2. intros ->. cbn in Hq. intuition discriminate. }
    split.
    + by rewrite E4, E3.
    + rewrite M4, frame_size_value. unfold frame_of. rewrite <- Hm. replace (top - 112) with (rsp s3) by lia. exact F3.
    + rewrite M4. transitivity (load 8 (ctx + 8) (mach s2)); [|apply load_store_same; apply Hb].
      apply load_ext. intros i Hi. unfold off_user_stack_ptr in Hi. apply P3. lia.
    + rewrite M4. transitivity (load 8 (ctx + 0) (mach s2)); [|exact Hl].
      apply load_ext. intros i Hi. unfold off_kernel_stack_ptr in Hi. apply P3. lia.
    + rewrite A4. cbn [map]. by rewrite !Q3, !Hr2 by done.
    + rewrite I4, Z.lor_spec. apply orb_true_r.
    + rewrite S4, S3. exact G1.
    + intros m Hm1 Hm2. rewrite S4, S3. by apply O1.
    + rewrite frame_size_value. unfold sizeof_SyscallContext. intros a Ha Hc. rewrite M4, P3 by lia.
      unfold s2. cbn [mach with_mach]. rewrite peek_store_other by lia. by rewrite M1.
Qed.

(** *** Leaving *)

Definition kept_regs : list reg := [RBX; RDX; RSI; RDI; RBP; R8; R9; R10; R12; R13; R14; R15].

Record left_to (ctx : Z) (f : reg -> Z) (usp : Z) s2 s' : Prop := {
  lv_regs q : In q kept_regs -> regs (drv s') q = f q;
  lv_rip : regs (drv s') RIP = f RCX;
  lv_flags : regs (drv s') RFLAGS = sysret_flags (f R11);
  lv_rax : regs (drv s') RAX = regs (drv s2) RAX;
  lv_rsp : rsp s' = usp;
  lv_cs : regs (drv s') CS = kUserCS;
  lv_ss : regs (drv s') SS = kUserDS;
  lv_mach : mach s' = mach s2;
  lv_gs : msr_of kMSR_KERNEL_GS_BASE (sys (drv s')) = ctx;
  lv_msrs m : m <> kMSR_GS_BASE -> m <> kMSR_KERNEL_GS_BASE -> msr_of m (sys (drv s')) = msr_of m (sys (drv s2))
}.

(** sysretq with the selectors of InitializeSyscall *)
Lemma sysretq_run s :
  msr_of kMSR_STAR (sys (drv s)) = 0x0018000800000000 ->
  exists s', sysretq s = Ret tt s' /\ mach s' = mach s /\ sys (drv s') = sys (drv s)
  /\ regs (drv s') RIP = regs (drv s) RCX /\ regs (drv s') RFLAGS = sysret_flags (regs (drv s) R11)
  /\ regs (drv s') CS = kUserCS /\ regs (drv s') SS = kUserDS
  /\ forall q, ~ In q [RIP; RFLAGS; CS; SS] -> regs (drv s') q = regs (drv s) q.
Proof.
  intros Hstar. unfold sysretq, bind, mov, get_reg, get_msr, set_reg, on_core.
  cbn [drv with_drv mach set_regs sys regs]. unfold bind. cbn [drv with_drv mach set_regs sys regs].
  rewrite Hstar. eexists. split; [reflexivity|]. cbn [drv with_drv mach set_regs sys regs].
  split_and!; try reflexivity. intros q Hq. cbn [In] in Hq.
  rewrite !fn_lookup_insert_ne by (intros <-; tauto). done.
Qed.

Lemma kept_saved q : In q kept_regs -> In q saved_regs /\ q <> RSP /\ ~ In q [RIP; RFLAGS; CS; SS].
Proof. destruct q; cbn; intuition discriminate. Qed.

Lemma leave_run ctx top f usp s2 :
  rsp s2 = top - frame_size -> stack_holds (top - frame_size) (frame_of f) (mach s2) -> call_space ctx top ->
  msr_of kMSR_GS_BASE (sys (drv s2)) = ctx -> msr_of kMSR_STAR (sys (drv s2)) = 0x0018000800000000 ->
  load 8 (ctx + off_user_stack_ptr) (mach s2) = usp ->
  exists s', SyscallEntry_leave s2 = Ret tt s' /\ left_to ctx f usp s2 s'.
Proof.
  intros Hsp Hf (Hctx & Htop & Hsep) Hgs Hstar Husp. rewrite frame_size_value in *.
  set (s3 := with_drv s2 (set_regs (fun g => <[RFLAGS := Z.ldiff (regs (drv s2) RFLAGS) interrupt_flag]> g) (drv s2))).
  assert (Hn : ~ In RSP (rev saved_regs)) by (cbn; intuition discriminate).
  assert (Hnd : NoDup (rev saved_regs)) by (apply (bool_decide_unpack _); vm_compute; exact I).
  destruct (pop_all_run (rev saved_regs) s3 (frame_of f) Hn Hnd eq_refl) as (s4 & R4 & E4 & [S4 _ _ _] & Q4 & O4 & M4).
  { change (rsp s3) with (rsp s2). lia. }
  { change (rsp s3) with (rsp s2). change (zlen (rev saved_regs)) with 14. lia. }
  { change (rsp s3) with (rsp s2). by rewrite Hsp. }
  assert (G4 : msr_of kMSR_GS_BASE (sys (drv s4)) = ctx) by (by rewrite S4).
  assert (U4 : load 8 (ctx + off_user_stack_ptr) (mach s4) = usp) by (by rewrite M4).
  set (s5 := with_drv s4 (set_regs (fun g => <[RSP := usp]> g) (drv s4))).
  destruct (swapgs_sys s5) as (s6 & R6 & E6 & M6 & _ & _ & _ & K6 & O6).
  destruct (sysretq_run s6) as (s7 & R7 & M7 & S7 & I7 & F7 & C7 & D7 & O7).
  { rewrite O6 by done. change (sys (drv s5)) with (sys (drv s4)). by rewrite S4. }
  assert (Hall : forall q, In q saved_regs -> regs (drv s4) q = f q).
  { unfold frame_of in Q4. rewrite <- map_rev in Q4. intros q Hq. apply in_rev in Hq.
    revert Q4 Hq. generalize (rev saved_regs). clear. induction l as [|x l IH]; [done|]. cbn [map In].
    intros [= E1 E2] [<-|Hq]; [done|by apply IH]. }
  exists s7. split.
  - transitivity ((pop_all (rev saved_regs) ;;; gs <-- get_msr kMSR_GS_BASE ;;
      sp <-- look 8 (gs + off_user_stack_ptr) ;; set_reg RSP sp ;;; swapgs ;;; sysretq) s3); [reflexivity|].
    rewrite (bind_Ret _ _ _ _ _ R4). unfold bind at 1 2 3, get_msr, look, set_reg, on_core.
    rewrite G4, U4. fold s5. by rewrite (bind_Ret _ _ _ _ _ R6).
  - assert (H6 : forall q, q <> RSP -> regs (drv s6) q = regs (drv s4) q).
    { intros q Hq. rewrite E6. cbn [s5 drv with_drv set_regs regs]. by rewrite fn_lookup_insert_ne. }
    split.
    + intros q Hq. destruct (kept_saved q Hq) as (K1 & K2 & K3). by rewrite (O7 q K3), (H6 q K2), (Hall q K1).
    + rewrite I7, H6 by discriminate. apply Hall. cbn. tauto.
    + rewrite F7, H6 by discriminate. f_equal. apply Hall. cbn. tauto.
    + rewrite O7, H6 by (cbn; intuition discriminate). rewrite O4 by (cbn; intuition discriminate). reflexivity.
    + unfold rsp. rewrite O7, E6 by (cbn; intuition discriminate). reflexivity.
    + exact C7.
    + exact D7.
    + by rewrite M7, M6.
    + by rewrite S7, K6.
    + intros m Hm1 Hm2. rewrite S7, O6 by done. change (sys (drv s5)) with (sys (drv s4)). by rewrite S4.
Qed.

(** *** The whole call *)

(** the syscall instruction: the kernel's selectors, interrupts off, the program's
    address and flags in RCX and R11 *)
Record trapped (entry : Z) s s1 : Prop := {
  tp_mach : mach s1 = mach s;
  tp_sys : sys (drv s1) = sys (drv s);
  tp_rip : regs (drv s1) RIP = entry;
  tp_rcx : regs (drv s1) RCX = regs (drv s) RIP;
  tp_r11 : regs (drv s1) R11 = regs (drv s) RFLAGS;
  tp_flags : regs (drv s1) RFLAGS = Z.ldiff (regs (drv s) RFLAGS) 0x200;
  tp_cs : regs (drv s1) CS = kKernelCS;
  tp_ss : regs (drv s1) SS = kKernelDS;
  tp_regs q : ~ In q [RIP; RCX; R11; RFLAGS; CS; SS] -> regs (drv s1) q = regs (drv s) q
}.

Lemma syscall_run entry ctx top s :
  call_ready entry ctx top s -> exists s1, syscall s = Ret tt s1 /\ trapped entry s s1.
Proof.
  intros [C1 C2 C3 C4 _ _]. unfold syscall, bind, mov, get_reg, get_msr, set_reg, on_core.
  rewrite C1. unfold bind. cbn [drv with_drv mach set_regs sys regs]. rewrite C2, C3, C4.
  eexists. split; [reflexivity|]. split; cbn [drv with_drv mach set_regs sys regs]; try reflexivity.
  intros q Hq. cbn [In] in Hq. rewrite !fn_lookup_insert_ne by (intros <-; tauto). done.
Qed.

(** the program traps and the entry code runs up to the call of the handler *)
Definition enter_call (entry : Z) : HR unit :=
  syscall ;;; rip <-- get_reg RIP ;; if rip =? entry then SyscallEntry_enter else halt.

Lemma enter_call_run entry ctx top s :
  call_ready entry ctx top s -> call_space ctx top -> regs_ok s -> 0 <= entry < 2 ^ 64 ->
  exists s0 s1, enter_call entry s = Ret tt s1 /\ trapped entry s s0 /\ entered ctx top s0 s1.
Proof.
  intros Hr Hs Hb He. destruct (syscall_run _ _ _ _ Hr) as (s0 & R0 & T). destruct Hr as [_ _ _ _ Hgs Htop].
  assert (Hb0 : regs_ok s0).
  { intros q. destruct (decide (In q [RIP; RCX; R11; RFLAGS; CS; SS])) as [Hq|Hq]; [|rewrite (tp_regs _ _ _ T q Hq); apply Hb].
    cbn [In] in Hq. destruct Hq as [<-|[<-|[<-|[<-|[<-|[<-|[]]]]]]].
    - rewrite (tp_rip _ _ _ T). exact He.
    - rewrite (tp_rcx _ _ _ T). apply Hb.
    - rewrite (tp_r11 _ _ _ T). apply Hb.
    - rewrite (tp_flags _ _ _ T). apply ldiff_range; [lia|apply Hb].
    - rewrite (tp_cs _ _ _ T). unfold kKernelCS. lia.
    - rewrite (tp_ss _ _ _ T). unfold kKernelDS. lia. }
  destruct (enter_run ctx top s0) as (s1 & R1 & E1); [by rewrite (tp_sys _ _ _ T)|by rewrite (tp_mach _ _ _ T)|done|done|].
  exists s0, s1. split; [|exact (conj T E1)]. unfold enter_call. rewrite (bind_Ret _ _ _ _ _ R0). unfold bind, get_reg.
  rewrite (tp_rip _ _ _ T), Z.eqb_refl. exact R1.
Qed.

(** what C code called with the frame on the stack leaves alone *)
Definition keeps_frame (ctx top : Z) s1 s2 : Prop :=
  rsp s2 = rsp s1 /\ sys (drv s2) = sys (drv s1)
  /\ forall a, top - frame_size <= a < top \/ ctx <= a < ctx + sizeof_SyscallContext -> peek (mach s2) a = peek (mach s1) a.

(** the registers that come back, and the others *)
Record returned (entry ctx top : Z) s v s2 s' : Prop := {
  rt_regs q : In q kept_regs -> regs (drv s') q = regs (drv s) q;
  rt_rsp : rsp s' = rsp s;
  rt_rip : regs (drv s') RIP = regs (drv s) RIP;
  rt_flags : regs (drv s') RFLAGS = sysret_flags (regs (drv s) RFLAGS);
  rt_rax : regs (drv s') RAX = v;
  rt_user : regs (drv s') CS = kUserCS /\ regs (drv s') SS = kUserDS;
  rt_mach : mach s' = mach s2;
  rt_ready : call_ready entry ctx top s'
}.

(** a frame that nothing has written to *)
Lemma frame_kept ctx top f w w' :
  (forall a, top - frame_size <= a < top \/ ctx <= a < ctx + sizeof_SyscallContext -> peek w' a = peek w a) ->
  stack_holds (top - frame_size) (frame_of f) w ->
  stack_holds (top - frame_size) (frame_of f) w'
  /\ load 8 (ctx + off_user_stack_ptr) w' = load 8 (ctx + off_user_stack_ptr) w
  /\ load 8 (ctx + off_kernel_stack_ptr) w' = load 8 (ctx + off_kernel_stack_ptr) w.
Proof.
  intros Hw Hf. rewrite frame_size_value in *. unfold sizeof_SyscallContext, off_user_stack_ptr, off_kernel_stack_ptr in *.
  split; [|split; apply load_ext; intros a Ha; apply Hw; lia].
  eapply stack_holds_ext; [|exact Hf]. intros a Ha. apply Hw. change (zlen (frame_of f)) with 14 in Ha. lia.
Qed.

(** C7: A system call gives the handler the number and the arguments of the program, on
    the kernel's stack with interrupts on, and the program goes on behind the
    instruction with its own stack, flags and registers; only RAX, which holds the
    result, RCX and R11 differ, and the next call finds everything as this one did. *)
Theorem system_call_returns entry ctx top handler s :
  call_ready entry ctx top s -> call_space ctx top -> regs_ok s -> 0 <= entry < 2 ^ 64 ->
  (forall n a b c d e s1, rsp s1 = top - frame_size -> Z.testbit (regs (drv s1) RFLAGS) 9 = true ->
     exists v s2, handler n a b c d e s1 = Ret v s2 /\ keeps_frame ctx top s1 s2) ->
  let f := regs (drv s) in
  exists s1 v s2 s',
    handler (f RAX) (f RDI) (f RSI) (f RDX) (f R10) (f RIP) s1 = Ret v s2
    /\ system_call entry handler s = Ret tt s' /\ returned entry ctx top s v s2 s'.
Proof.
  intros Hr Hs Hb He Hh f. destruct (enter_call_run entry ctx top s Hr Hs Hb He) as (s0 & s1 & R1 & T & E).
  pose proof (en_args _ _ _ _ E) as Ha. cbn [map] in Ha.
  injection Ha as A1 A2 A3 A4 A5 A6.
  rewrite !(tp_regs _ _ _ T) in A1, A2, A3, A4, A5 by (cbn; intuition discriminate). rewrite (tp_rcx _ _ _ T) in A6.
  destruct (Hh (f RAX) (f RDI) (f RSI) (f RDX) (f R10) (f RIP) s1 (en_rsp _ _ _ _ E) (en_on _ _ _ _ E)) as (v & s2 & Rh & K1 & K2 & K3).
  set (s3 := with_drv s2 (set_regs (fun g => <[RAX := v]> g) (drv s2))).
  destruct (frame_kept ctx top _ _ _ K3 (en_frame _ _ _ _ E)) as (F2 & U2 & T2).
  rewrite (en_user _ _ _ _ E) in U2. rewrite (en_top _ _ _ _ E) in T2.
  assert (M3 : forall m, m <> kMSR_GS_BASE -> m <> kMSR_KERNEL_GS_BASE -> msr_of m (sys (drv s3)) = msr_of m (sys (drv s))).
  { intros m Hm1 Hm2. change (sys (drv s3)) with (sys (drv s2)). by rewrite K2, (en_msrs _ _ _ _ E), (tp_sys _ _ _ T). }
  destruct (leave_run ctx top (regs (drv s0)) (rsp s0) s3) as (s' & R' & L);
    [by change (rsp s3) with (rsp s2); rewrite K1, (en_rsp _ _ _ _ E)|exact F2|exact Hs
    |change (sys (drv s3)) with (sys (drv s2)); rewrite K2; exact (en_gs _ _ _ _ E)
    |rewrite M3 by discriminate; exact (cr_star _ _ _ _ Hr)|exact U2|].
  exists s1, v, s2, s'. split; [exact Rh|]. split.
  - transitivity ((enter_call entry ;;;
      syscall_number <-- get_reg RDI ;; arg1 <-- get_reg RSI ;; arg2 <-- get_reg RDX ;;
      arg3 <-- get_reg RCX ;; arg4 <-- get_reg R8 ;; return_rip <-- get_reg R9 ;;
      result <-- handler syscall_number arg1 arg2 arg3 arg4 return_rip ;;
      set_reg RAX result ;;; SyscallEntry_leave) s).
    + unfold system_call, enter_call, SyscallEntry, bind. destruct (syscall s) as [u t|t|]; [|done|done].
      cbn [get_reg]. destruct (regs (drv t) RIP =? entry); done.
    + rewrite (bind_Ret _ _ _ _ _ R1). unfold bind at 1 2 3 4 5 6, get_reg.
      unfold f in Rh. rewrite A1, A2, A3, A4, A5, A6, (bind_Ret _ _ _ _ _ Rh). exact R'.
  - assert (Hk : forall q, In q kept_regs -> ~ In q [RIP; RCX; R11; RFLAGS; CS; SS]) by (intros q; destruct q; cbn; intuition discriminate).
    split.
    + intros q Hq. rewrite (lv_regs _ _ _ _ _ L q Hq). exact (tp_regs _ _ _ T q (Hk q Hq)).
    + rewrite (lv_rsp _ _ _ _ _ L). apply (tp_regs _ _ _ T). cbn. intuition discriminate.
    + by rewrite (lv_rip _ _ _ _ _ L), (tp_rcx _ _ _ T).
    + by rewrite (lv_flags _ _ _ _ _ L), (tp_r11 _ _ _ T).
    + by rewrite (lv_rax _ _ _ _ _ L).
    + exact (conj (lv_cs _ _ _ _ _ L) (lv_ss _ _ _ _ _ L)).
    + exact (lv_mach _ _ _ _ _ L).
    + destruct Hr. split; rewrite ?(lv_mach _ _ _ _ _ L), ?(lv_gs _ _ _ _ _ L); rewrite ?(lv_msrs _ _ _ _ _ L), ?M3 by discriminate;
        first [assumption|reflexivity|exact T2].
Qed.

(** C40: Two programs in system calls at once: when the first one's call, entered on its own
    kernel stack, waits while another program enters a call on another kernel stack, the
    first program comes back with its registers but on the user stack of the second, and
    its next call starts on the second program's kernel stack: the context that holds
    both pointers belongs to the processor, not to the task. *)
Theorem other_call_takes_stack entry ctx topA topB sA s1 sB s2 s3 :
  call_ready entry ctx topA sA -> call_space ctx topA -> regs_ok sA -> 0 <= entry < 2 ^ 64 ->
  enter_call entry sA = Ret tt s1 ->
  (* the second program runs, and enters a call *)
  call_ready entry ctx topB sB -> call_space ctx topB -> regs_ok sB ->
  (topA <= topB - frame_size \/ topB <= topA - frame_size) ->
  (forall a, topA - frame_size <= a < topA -> peek (mach sB) a = peek (mach s1) a) ->
  enter_call entry sB = Ret tt s2 ->
  (* the first one is switched to, where it waited *)
  rsp s3 = rsp s1 -> sys (drv s3) = sys (drv s2) -> mach s3 = mach s2 ->
  exists s', SyscallEntry_leave s3 = Ret tt s'
  /\ (forall q, In q kept_regs -> regs (drv s') q = regs (drv sA) q) /\ regs (drv s') RIP = regs (drv sA) RIP
  /\ rsp s' = rsp sB /\ call_ready entry ctx topB s'.
Proof.
  intros HrA HsA HbA He RA HrB HsB HbB Hsep HAB RB Hrsp Hsys Hm.
  destruct (enter_call_run entry ctx topA sA HrA HsA HbA He) as (s0 & s1' & RA' & TA & EA).
  rewrite RA in RA'. injection RA' as <-.
  destruct (enter_call_run entry ctx topB sB HrB HsB HbB He) as (sB0 & s2' & RB' & TB & EB).
  rewrite RB in RB'. injection RB' as <-.
  assert (Hf : stack_holds (topA - frame_size) (frame_of (regs (drv s0))) (mach s3)).
  { eapply stack_holds_ext; [|exact (en_frame _ _ _ _ EA)]. intros a Ha.
    change (8 * zlen (frame_of (regs (drv s0)))) with frame_size in Ha. destruct HsA as (_ & _ & HsA).
    rewrite Hm, (en_other _ _ _ _ EB a), (tp_mach _ _ _ TB), HAB by lia. done. }
  assert (M2 : forall m, m <> kMSR_GS_BASE -> m <> kMSR_KERNEL_GS_BASE -> msr_of m (sys (drv s3)) = msr_of m (sys (drv sB))).
  { intros m Hm1 Hm2. by rewrite Hsys, (en_msrs _ _ _ _ EB), (tp_sys _ _ _ TB). }
  destruct (leave_run ctx topA (regs (drv s0)) (rsp sB0) s3) as (s' & R' & L);
    [by rewrite Hrsp, (en_rsp _ _ _ _ EA)|exact Hf|exact HsA|rewrite Hsys; exact (en_gs _ _ _ _ EB)
    |rewrite M2 by discriminate; exact (cr_star _ _ _ _ HrB)|rewrite Hm; exact (en_user _ _ _ _ EB)|].
  exists s'. split; [exact R'|].
  assert (Hk : forall q, In q kept_regs -> ~ In q [RIP; RCX; R11; RFLAGS; CS; SS]) by (intros q; destruct q; cbn; intuition discriminate).
  split; [intros q Hq; rewrite (lv_regs _ _ _ _ _ L q Hq); exact (tp_regs _ _ _ TA q (Hk q Hq))|].
  split; [by rewrite (lv_rip _ _ _ _ _ L), (tp_rcx _ _ _ TA)|].
  split; [rewrite (lv_rsp _ _ _ _ _ L); apply (tp_regs _ _ _ TB); cbn; intuition discriminate|].
  pose proof (en_top _ _ _ _ EB) as T2. rewrite <- Hm, <- (lv_mach _ _ _ _ _ L) in T2.
  destruct HrB. split; rewrite ?(lv_gs _ _ _ _ _ L); rewrite ?(lv_msrs _ _ _ _ _ L), ?M2 by discriminate; assumption || reflexivity.
Qed.

End Calls.

(** ** Two programs in a small memory *)

Module CallSim.
Definition state : Type := Host Ram.t unit Core.

Definition cpu (ctx : Z) : Cpu :=
  set_msr kMSR_KERNEL_GS_BASE ctx (set_msr kMSR_GS_BASE 0 (set_msr kMSR_FMASK 0x200 (set_msr kMSR_LSTAR 0x9000
    (set_msr kMSR_STAR 0x0018000800000000 (set_msr kMSR_EFER 1 (mkCpu 63 0x100 0 0 8 0 0 0x30 0x200 103 0 0 ∅)))))).

(** user registers with the stack pointer [sp], and [n] in the others *)
Definition registers (sp n : Z) (r : reg) : Z := match r with RSP => sp | RFLAGS => 0x202 | _ => n end.

Definition start (sp n : Z) (w : Ram.t) : state := mkHost w tt (mkCore (registers sp n) (cpu 0x1000) 0) [].

Definition program_a : state := start 0x5000 7 (store_at 8 0x1000 0x3000 (∅ : Ram.t)).

(** the handler that adds one to the number *)
Definition handler (n a b c d e : Z) (s : state) : Run state Z := Ret (n + 1) s.

Lemma start_ready sp n w top : load 8 (0x1000 + off_kernel_stack_ptr) w = top -> call_ready 0x9000 0x1000 top (start sp n w).
Proof. intros Hw. split; [vm_compute; reflexivity..|exact Hw]. Qed.

Lemma start_regs sp n w : 0 <= sp < 2 ^ 64 -> 0 <= n < 2 ^ 64 -> regs_ok (start sp n w).
Proof. intros Hs Hn q. destruct q; cbn; lia. Qed.

(** the second program in the memory [w], on a kernel stack of its own *)
Definition program_b (w : Ram.t) : state := start 0x6000 9 (store_at 8 0x1000 0x4000 w).
(** a state of the first program, switched to when the processor's state is that of [s2] *)
Definition resumed (s1 s2 : state) : state := with_drv s2 (mkCore (regs (drv s1)) (sys (drv s2)) 0).
End CallSim.

Lemma system_call_returns_witness : exists s',
  system_call 0x9000 CallSim.handler CallSim.program_a = Ret tt s'
  /\ regs (drv s') RAX = 8 /\ regs (drv s') RSP = 0x5000 /\ regs (drv s') CS = kUserCS.
Proof.
  destruct (system_call_returns 0x9000 0x1000 0x3000 CallSim.handler CallSim.program_a) as (s1 & v & s2 & s' & Hh & Hc & Hret).
  - apply CallSim.start_ready. vm_compute. reflexivity.
  - vm_compute. intuition discriminate.
  - apply CallSim.start_regs; lia.
  - lia.
  - intros n a b c d e s1 _ _. exists (n + 1), s1. split; [reflexivity|]. split; [reflexivity|split; reflexivity].
  - exists s'. split; [exact Hc|]. injection Hh as Hv _. split; [|split].
    + transitivity v; [exact (rt_rax _ _ _ _ _ _ _ Hret)|symmetry; exact Hv].
    + exact (rt_rsp _ _ _ _ _ _ _ Hret).
    + exact (proj1 (rt_user _ _ _ _ _ _ _ Hret)).
Defined.

Lemma other_call_takes_stack_witness : exists s1 s2 s' : CallSim.state,
  enter_call 0x9000 CallSim.program_a = Ret tt s1 /\ enter_call 0x9000 (CallSim.program_b (mach s1)) = Ret tt s2
  /\ SyscallEntry_leave (CallSim.resumed s1 s2) = Ret tt s' /\ rsp s' = 0x6000 /\ rsp CallSim.program_a = 0x5000.
Proof.
  assert (Ca : call_ready 0x9000 0x1000 0x3000 CallSim.program_a) by (apply CallSim.start_ready; vm_compute; reflexivity).
  assert (Sa : call_space 0x1000 0x3000) by (vm_compute; intuition discriminate).
  assert (Sb : call_space 0x1000 0x4000) by (vm_compute; intuition discriminate).
  assert (Ra : regs_ok CallSim.program_a) by (apply CallSim.start_regs; lia).
  destruct (enter_call_run 0x9000 0x1000 0x3000 CallSim.program_a Ca Sa Ra ltac:(lia)) as (_ & s1 & E1 & _ & _).
  assert (Cb : call_ready 0x9000 0x1000 0x4000 (CallSim.program_b (mach s1)))
    by (apply CallSim.start_ready; apply load_store_same; cbn; lia).
  assert (Rb : regs_ok (CallSim.program_b (mach s1))) by (apply CallSim.start_regs; lia).
  destruct (enter_call_run 0x9000 0x1000 0x4000 (CallSim.program_b (mach s1)) Cb Sb Rb ltac:(lia)) as (_ & s2 & E2 & _ & _).
  destruct (other_call_takes_stack 0x9000 0x1000 0x3000 0x4000 CallSim.program_a s1 (CallSim.program_b (mach s1)) s2 (CallSim.resumed s1 s2))
    as (s' & R & _ & _ & E & _); try assumption; try reflexivity; try lia.
  - left. vm_compute. discriminate.
  - intros a Ha. unfold CallSim.program_b, CallSim.start. cbn [mach]. apply (peek_store_other 8). rewrite frame_size_value in Ha. lia.
  - exists s1, s2, s'. split; [exact E1|]. split; [exact E2|]. split; [exact R|]. split; [exact E|reflexivity].
Defined.
