(* ===== verification/Pci.v ===== *)
(** * PCI configuration (pci/pci.cpp)

    Configuration registers through the ports 0xCF8 and 0xCFC, the scan of the bus
    and the set-up of message signalled interrupts.  [Class PciBusLaws] is the
    configuration mechanism of the host bridge. *)
From S2P Require Import Prelude Run Memory Machine.
#[local] Open Scope run_scope.

Definition kConfigAddress : Z := 0x0CF8.
Definition kConfigData : Z := 0x0CFC.

Record Device := mkDevice {
  bus : Z; device : Z; function : Z; vendor_id : Z; device_id : Z;
  base_class : Z; sub_class : Z; prog_if : Z
}.

Definition MakeAddress (b d f reg_addr : Z) : Z :=
  Z.lor (Z.lor (Z.lor (Z.lor (Z.shiftl 1 31) (u32 (Z.shiftl b 16))) (u32 (Z.shiftl d 11)))
    (u32 (Z.shiftl f 8))) (Z.land reg_addr 0xFC).

Section Pci.
Context {W M X : Type} `{Machine W} `{FrameAllocator M}.
Local Abbreviation HR := (fun A => Host W M X -> Run (Host W M X) A).

(** [reg_addr] is 8 bits wide *)
Definition ReadConfReg (dev : Device) (reg_addr : Z) : HR Z :=
  act (IoOut32 kConfigAddress (MakeAddress (bus dev) (device dev) (function dev) (u8 reg_addr))) ;;;
  ask (IoIn32 kConfigData).

Definition WriteConfReg (dev : Device) (reg_addr value : Z) : HR unit :=
  act (IoOut32 kConfigAddress (MakeAddress (bus dev) (device dev) (function dev) (u8 reg_addr))) ;;;
  act (IoOut32 kConfigData value).

Definition ReadBar0 (dev : Device) : HR Z :=
  bar0 <-- ReadConfReg dev 0x10 ;;
  let type := Z.land (Z.shiftr bar0 1) 3 in
  if type =? 2 then
    bar1 <-- ReadConfReg dev 0x14 ;;
    ret (Z.lor (Z.shiftl bar1 32) (Z.ldiff bar0 0xF))
  else ret (Z.ldiff bar0 0xF).

Definition AddDevice (b d f vid : Z) : HR unit :=
  let dev := mkDevice b d f vid 0 0 0 0 in
  reg0 <-- ReadConfReg dev 0x00 ;;
  let did := Z.shiftr reg0 16 in
  reg8 <-- ReadConfReg dev 0x08 ;;
  let base := Z.land (Z.shiftr reg8 24) 0xFF in
  let sub := Z.land (Z.shiftr reg8 16) 0xFF in
  say "PCI %d:%d.%d : Vend=%x Dev=%x Class=%x Sub=%x"
    [KInt b; KInt d; KInt f; KInt vid; KInt did; KInt base; KInt sub] ;;;
  (if (base =? 1) && (sub =? 8) then say " [NVMe Controller]" []
   else if (base =? 0x0C) && (sub =? 3) then say " [USB Controller]" []
   else if base =? 3 then say " [Graphics]" []
   else if base =? 2 then say " [Network]" []
   else ret tt) ;;;
  say "\n" [].

Definition at_slot (b d f : Z) : Device := mkDevice b d f 0 0 0 0 0.

(** the three nested loops of ScanAllBus and SetupPCI *)
Definition for_each_function (body : Z -> Z -> Z -> HR unit) : HR unit :=
  run_for 256 0 (fun b => run_for 32 0 (fun d => run_for 8 0 (fun f => body b d f))).

Definition ScanAllBus : HR unit :=
  say "Scanning PCI Bus...\n" [] ;;;
  for_each_function (fun b d f =>
    reg0 <-- ReadConfReg (at_slot b d f) 0x00 ;;
    let vid := Z.land reg0 0xFFFF in
    if negb (vid =? 0xFFFF) then AddDevice b d f vid else ret tt) ;;;
  say "PCI Scan Done.\n" [].

(** the word with the message control in its upper half: that control with bits set and cleared *)
Definition with_control (cap_reg msg_ctrl : Z) : Z :=
  Z.lor (Z.land cap_reg 0xFFFF) (u32 (Z.shiftl msg_ctrl 16)).

(** the capability list, one entry a round *)
Fixpoint find_msi (fuel : nat) (dev : Device) (vector cap_ptr : Z) : HR bool :=
  if cap_ptr =? 0 then
    say "[PCI MSI] No MSI or MSI-X capability found\n" [] ;;; ret false
  else match fuel with
  | O => fun _ => NoFuel
  | S fuel' =>
      cap_reg <-- ReadConfReg dev cap_ptr ;;
      let cap_id := Z.land cap_reg 0xFF in
      let next_ptr := Z.land (Z.shiftr cap_reg 8) 0xFF in
      if cap_id =? 0x11 then
        say "[PCI MSI] Found MSI-X capability at offset 0x%x\n" [KInt cap_ptr] ;;;
        msg_ctrl_reg <-- ReadConfReg dev cap_ptr ;;
        let msg_ctrl := Z.land (Z.shiftr msg_ctrl_reg 16) 0xFFFF in
        let msg_ctrl := Z.ldiff (Z.lor msg_ctrl (Z.shiftl 1 15)) (Z.shiftl 1 14) in
        WriteConfReg dev cap_ptr (with_control cap_reg msg_ctrl) ;;;
        say "[PCI MSI] MSI-X enabled successfully (simplified setup)\n" [] ;;;
        ret true
      else if cap_id =? 0x05 then
        say "[PCI MSI] Found MSI capability at offset 0x%x\n" [KInt cap_ptr] ;;;
        msg_ctrl_reg <-- ReadConfReg dev cap_ptr ;;
        let msg_ctrl := Z.land (Z.shiftr msg_ctrl_reg 16) 0xFFFF in
        let is_64bit := negb (Z.land msg_ctrl (Z.shiftl 1 7) =? 0) in
        say "[PCI MSI] MSI is %s\n" [KStr (c_lit (if is_64bit then "64-bit" else "32-bit"))] ;;;
        WriteConfReg dev (cap_ptr + 0x04) 0xFEE00000 ;;;
        (if is_64bit then
           WriteConfReg dev (cap_ptr + 0x08) 0 ;;;
           WriteConfReg dev (cap_ptr + 0x0C) vector
         else WriteConfReg dev (cap_ptr + 0x08) vector) ;;;
        let msg_ctrl := Z.lor msg_ctrl 1 in
        WriteConfReg dev cap_ptr (with_control cap_reg msg_ctrl) ;;;
        say "[PCI MSI] MSI enabled successfully with vector 0x%x\n" [KInt vector] ;;;
        ret true
      else find_msi fuel' dev vector next_ptr
  end.

Definition SetupMSI (fuel : nat) (dev : Device) (vector : Z) : HR bool :=
  say "[PCI MSI] Setting up MSI for device %d:%d.%d with vector 0x%x\n"
    [KInt (bus dev); KInt (device dev); KInt (function dev); KInt vector] ;;;
  status_cmd <-- ReadConfReg dev 0x04 ;;
  let status := Z.land (Z.shiftr status_cmd 16) 0xFFFF in
  if Z.land status (Z.shiftl 1 4) =? 0 then
    say "[PCI MSI] Device does not support Capabilities List\n" [] ;;; ret false
  else
    cap_ptr_reg <-- ReadConfReg dev 0x34 ;;
    find_msi fuel dev vector (Z.land cap_ptr_reg 0xFF).
End Pci.

(** ** The configuration mechanism of the host bridge

    An address written to 0xCF8 with bit 31 set selects the function and the
    register that the port 0xCFC then stands for; a write changes the bits of the
    register that are writable. *)

Class PciBusLaws (W : Type) `{Machine W} := {
  conf : W -> Z -> Z -> Z -> Z -> Z;
  writable : Z -> Z -> Z -> Z -> Z;
  conf_word w b d f r : is_u32 (conf w b d f r);
  conf_read w a :
    2 ^ 31 <= a < 2 ^ 32 ->
    exists w', port_in 32 0xCFC (port_out 32 0xCF8 a w)
               = (conf w (a / 2 ^ 16 mod 256) (a / 2 ^ 11 mod 32) (a / 2 ^ 8 mod 8) (a mod 256), w')
      /\ forall b d f r, conf w' b d f r = conf w b d f r;
  conf_write w a v :
    2 ^ 31 <= a < 2 ^ 32 -> is_u32 v ->
    let w' := port_out 32 0xCFC v (port_out 32 0xCF8 a w) in
    forall b d f r, 0 <= b < 256 -> 0 <= d < 32 -> 0 <= f < 8 -> 0 <= r < 256 -> r mod 4 = 0 ->
      conf w' b d f r
      = if decide (a = 2 ^ 31 + b * 2 ^ 16 + d * 2 ^ 11 + f * 2 ^ 8 + r)
        then Z.lor (Z.ldiff (conf w b d f r) (writable b d f r)) (Z.land v (writable b d f r))
        else conf w b d f r
}.

(** a function of the bus: its numbers in range *)
Definition on_bus (dev : Device) : Prop :=
  0 <= bus dev < 256 /\ 0 <= device dev < 32 /\ 0 <= function dev < 8.

Lemma land_FC r : 0 <= r < 256 -> Z.land r 0xFC = r - r mod 4.
Proof.
  intros Hr. change 0xFC with (Z.ldiff (Z.ones 8) (Z.ones 2)).
  assert (Z.land r (Z.ldiff (Z.ones 8) (Z.ones 2)) = Z.ldiff (Z.land r (Z.ones 8)) (Z.ones 2)) as ->.
  { apply Z.bits_inj'. intros i Hi. rewrite !Z.land_spec, !Z.ldiff_spec, Z.land_spec. by rewrite andb_assoc. }
  rewrite Z.land_ones by lia. rewrite Z.mod_small by (change (2 ^ 8) with 256; lia).
  rewrite Z.ldiff_ones_r, Z.shiftl_mul_pow2, Z.shiftr_div_pow2 by lia. change (2 ^ 2) with 4. zlia.
Qed.

(** the fields do not overlap *)
Lemma MakeAddress_sum dev r :
  on_bus dev -> 0 <= r < 256 ->
  MakeAddress (bus dev) (device dev) (function dev) r
  = 2 ^ 31 + bus dev * 2 ^ 16 + device dev * 2 ^ 11 + function dev * 2 ^ 8 + (r - r mod 4).
Proof.
  intros (Hb & Hd & Hf) Hr. unfold MakeAddress. rewrite land_FC by done.
  rewrite !Z.shiftl_mul_pow2 by lia. rewrite !u32_small by lia.
  rewrite (lor_above (1 * 2 ^ 31) (bus dev * 2 ^ 16) 31) by zlia.
  rewrite (lor_above _ (device dev * 2 ^ 11) 16) by zlia.
  rewrite (lor_above _ (function dev * 2 ^ 8) 11) by zlia.
  rewrite (lor_above _ _ 8) by zlia. lia.
Qed.

Section Msi.
Context {W M X : Type} `{PciBusLaws W} `{FrameAllocator M}.
Local Abbreviation Hst := (Host W M X).
Implicit Types (s : Hst) (dev : Device).

(** the configuration registers of [dev] *)
Definition cfg dev (w : W) (r : Z) : Z := conf w (bus dev) (device dev) (function dev) r.

(** what a write leaves of the register's word [old] *)
Definition written (old mask v : Z) : Z := Z.lor (Z.ldiff old mask) (Z.land v mask).

Definition apply_writes dev (l : list (Z * Z)) (r old : Z) : Z :=
  foldl (fun c x => if decide (fst x = r)
                    then written c (writable (bus dev) (device dev) (function dev) r) (snd x) else c) old l.

Definition same_slot dev dev' : Prop :=
  bus dev' = bus dev /\ device dev' = device dev /\ function dev' = function dev.
#[local] Instance same_slot_dec dev dev' : Decision (same_slot dev dev').
Proof. unfold same_slot. apply _. Defined.

(** from [s] to [s'] the words [l] were written to registers of [dev], and nothing
    else changed but the console *)
Definition wrote dev (l : list (Z * Z)) s s' : Prop :=
  pool s' = pool s /\ drv s' = drv s
  /\ forall dev' r, on_bus dev' -> 0 <= r < 256 -> r mod 4 = 0 ->
       cfg dev' (mach s') r
       = if decide (same_slot dev dev') then apply_writes dev l r (cfg dev (mach s) r) else cfg dev' (mach s) r.

Lemma same_cfg dev dev' w r : same_slot dev dev' -> cfg dev' w r = cfg dev w r.
Proof. intros (E1 & E2 & E3). unfold cfg. by rewrite E1, E2, E3. Qed.

Lemma wrote_refl dev s o : wrote dev [] s (mkHost (mach s) (pool s) (drv s) o).
Proof.
  split_and!; [done..|]. intros dev' r _ _ _. cbn [mach]. case_decide as Hs; [|done].
  by rewrite (same_cfg dev dev').
Qed.

Lemma wrote_trans dev l1 l2 s1 s2 s3 :
  on_bus dev -> wrote dev l1 s1 s2 -> wrote dev l2 s2 s3 -> wrote dev (l1 ++ l2) s1 s3.
Proof.
  intros Hdev (P1 & D1 & C1) (P2 & D2 & C2). split_and!; [congruence..|].
  intros dev' r Hd Hr Hm. rewrite C2 by done. case_decide as Hs; [|rewrite C1 by done; by rewrite decide_False].
  rewrite C1 by done. rewrite decide_True by done. unfold apply_writes. by rewrite foldl_app.
Qed.

Lemma ReadConfReg_spec dev r s :
  on_bus dev -> 0 <= r < 256 ->
  exists s', ReadConfReg dev r s = Ret (cfg dev (mach s) (r - r mod 4)) s' /\ wrote dev [] s s'.
Proof.
  intros Hdev Hr. unfold ReadConfReg, IoOut32, kConfigAddress, kConfigData. rewrite (u8_small r) by done.
  pose proof (MakeAddress_sum dev r Hdev Hr) as HA. destruct Hdev as (Hb & Hd & Hf).
  set (a := MakeAddress _ _ _ _) in *.
  rewrite (u32_small a) by zlia.
  destruct (conf_read (mach s) a) as (w' & Hread & Hsame); [zlia|].
  exists (with_mach s w'). unfold bind, act, ask, IoIn32. cbn [mach with_mach].
  rewrite Hread. split.
  - f_equal. unfold cfg. rewrite u32_small by apply conf_word. f_equal; zlia.
  - split_and!; [done..|]. intros dev' r' _ _ _. cbn [mach with_mach]. unfold cfg at 1. rewrite Hsame.
    case_decide as Hs; [|done]. exact (same_cfg dev dev' _ _ Hs).
Qed.

Lemma WriteConfReg_spec dev r v s :
  on_bus dev -> 0 <= r < 256 -> r mod 4 = 0 -> is_u32 v ->
  exists s', WriteConfReg dev r v s = Ret tt s' /\ wrote dev [(r, v)] s s'.
Proof.
  intros Hdev Hr Hm Hv. unfold WriteConfReg, IoOut32, kConfigAddress, kConfigData. rewrite (u8_small r) by done.
  pose proof (MakeAddress_sum dev r Hdev Hr) as HA. pose proof Hdev as (Hb & Hd & Hf).
  set (a := MakeAddress _ _ _ _) in *. rewrite (u32_small a) by zlia.
  unfold bind, act. cbn [mach with_mach]. rewrite (u32_small v) by exact Hv. eexists. split; [reflexivity|].
  split_and!; [done..|]. intros dev' r' (Hb' & Hd' & Hf') Hr' Hm'. cbn [mach with_mach]. unfold cfg at 1.
  rewrite (conf_write (mach s) a v) by (done || zlia).
  case_decide as Ha; case_decide as Hs.
  - assert (r' = r) as -> by (destruct Hs as (E1 & E2 & E3); rewrite ?E1, ?E2, ?E3 in *; lia).
    unfold apply_writes. cbn [foldl fst snd]. rewrite decide_True by done. unfold written.
    destruct Hs as (E1 & E2 & E3). unfold cfg. by rewrite E1, E2, E3.
  - exfalso. apply Hs. unfold same_slot. lia.
  - unfold apply_writes. cbn [foldl fst snd]. rewrite decide_False.
    + exact (same_cfg dev dev' _ _ Hs).
    + intros ->. apply Ha. destruct Hs as (E1 & E2 & E3). rewrite ?E1, ?E2, ?E3. lia.
  - done.
Qed.

(** the capability list leads from [ptr] to [p] in [n] steps, past capabilities that
    are neither MSI nor MSI-X *)
Inductive leads (c : Z -> Z) : Z -> Z -> nat -> Prop :=
  | leads_here p : leads c p p 0
  | leads_next ptr p n :
      ptr <> 0 -> 0 <= ptr < 256 -> Z.land (c (ptr - ptr mod 4)) 0xFF <> 0x11 ->
      Z.land (c (ptr - ptr mod 4)) 0xFF <> 0x05 ->
      leads c (Z.land (Z.shiftr (c (ptr - ptr mod 4)) 8) 0xFF) p n -> leads c ptr p (S n).

Lemma leads_ext c c' ptr p n :
  (forall r, 0 <= r < 256 -> r mod 4 = 0 -> c' r = c r) -> leads c ptr p n -> leads c' ptr p n.
Proof.
  intros Hc. induction 1; [constructor|].
  constructor; rewrite ?Hc by zlia; done.
Qed.

(** [m] returns [a] from [s] and has written [l] *)
Definition does {A} dev (m : Hst -> Run Hst A) s (a : A) (l : list (Z * Z)) : Prop :=
  exists s', m s = Ret a s' /\ wrote dev l s s'.

Lemma does_ret {A} dev (a : A) s : does dev (ret a) s a [].
Proof. exists s. split; [done|]. destruct s. apply wrote_refl. Qed.

Lemma does_say dev fmt args s : does dev (say fmt args) s tt [].
Proof. eexists. split; [reflexivity|]. apply wrote_refl. Qed.

Lemma does_bind {A B} dev (m : Hst -> Run Hst A) (k : A -> Hst -> Run Hst B) s a b l1 l2 :
  on_bus dev -> does dev m s a l1 -> (forall s', wrote dev l1 s s' -> does dev (k a) s' b l2) ->
  does dev (bind m k) s b (l1 ++ l2).
Proof.
  intros Hdev (s1 & Hm & Hw1) Hk. destruct (Hk s1 Hw1) as (s2 & Hk2 & Hw2).
  exists s2. split; [by rewrite (bind_Ret _ _ _ _ _ Hm)|]. by eapply wrote_trans.
Qed.

Lemma does_say_bind {B} dev fmt args (k : unit -> Hst -> Run Hst B) s b l :
  on_bus dev -> (forall s', wrote dev [] s s' -> does dev (k tt) s' b l) -> does dev (bind (say fmt args) k) s b l.
Proof. intros Hdev Hk. exact (does_bind dev _ k s tt b [] l Hdev (does_say dev fmt args s) Hk). Qed.

(** reads change nothing *)
Lemma wrote_nil_cfg dev s s' r :
  on_bus dev -> 0 <= r < 256 -> r mod 4 = 0 -> wrote dev [] s s' -> cfg dev (mach s') r = cfg dev (mach s) r.
Proof. intros Hdev Hr Hm (_ & _ & Hc). rewrite Hc by done. case_decide; done. Qed.

Lemma does_read_bind {B} dev r (k : Z -> Hst -> Run Hst B) s b l :
  on_bus dev -> 0 <= r < 256 ->
  (forall s', wrote dev [] s s' -> does dev (k (cfg dev (mach s) (r - r mod 4))) s' b l) ->
  does dev (bind (ReadConfReg dev r) k) s b l.
Proof. intros Hdev Hr Hk. exact (does_bind dev _ k s _ b [] l Hdev (ReadConfReg_spec dev r s Hdev Hr) Hk). Qed.

Lemma does_write_bind {B} dev r v (k : unit -> Hst -> Run Hst B) s b l :
  on_bus dev -> 0 <= r < 256 -> r mod 4 = 0 -> is_u32 v ->
  (forall s', does dev (k tt) s' b l) ->
  does dev (bind (WriteConfReg dev r v) k) s b ((r, v) :: l).
Proof.
  intros Hdev Hr Hm Hv Hk.
  exact (does_bind dev _ k s tt b [(r, v)] l Hdev (WriteConfReg_spec dev r v s Hdev Hr Hm Hv) (fun s' _ => Hk s')).
Qed.

(** what is written for an MSI capability at [p] whose first word is [cap] *)
Definition msi_64bit (cap : Z) : bool := Z.testbit cap 23.

Definition msi_writes (p cap vector : Z) : list (Z * Z) :=
  (p + 4, 0xFEE00000)
  :: (if msi_64bit cap then [(p + 8, 0); (p + 12, vector)] else [(p + 8, vector)])
  ++ [(p, Z.lor cap (2 ^ 16))].

Lemma control_word cap :
  is_u32 cap -> with_control cap (Z.lor (Z.land (Z.shiftr cap 16) 0xFFFF) 1) = Z.lor cap (2 ^ 16).
Proof.
  intros Hc. unfold with_control, u32. rewrite <- Z.land_ones by lia. change 0xFFFF with (Z.ones 16).
  apply Z.bits_inj'. intros i Hi.
  rewrite !Z.lor_spec, !Z.land_spec, Z.shiftl_spec by lia.
  rewrite <- (Z.mod_small cap (2 ^ 32)) at 3 by exact Hc. rewrite <- (Z.land_ones cap 32), Z.land_spec by lia.
  destruct (Z.ltb_spec i 16) as [H16|H16].
  - rewrite (Z.testbit_neg_r _ (i - 16)) by lia. rewrite !Z.ones_spec_low by lia.
    rewrite (Z.pow2_bits_false 16 i) by lia. by destruct (Z.testbit cap i).
  - rewrite (Z.ones_spec_high 16 i) by lia. rewrite Z.lor_spec, Z.land_spec, Z.shiftr_spec by lia.
    replace (i - 16 + 16) with i by lia. rewrite andb_false_r. cbn [orb].
    destruct (Z.ltb_spec i 32) as [H32|H32].
    + rewrite !Z.ones_spec_low by lia. rewrite !andb_true_r. f_equal.
      destruct (decide (i = 16)) as [->|Hne]; [done|].
      rewrite (Z.pow2_bits_false 16 i) by lia. change 1 with (2 ^ 0). apply Z.pow2_bits_false. lia.
    + rewrite (Z.ones_spec_high 32 i) by lia. rewrite !andb_false_r.
      by rewrite (Z.pow2_bits_false 16 i) by lia.
Qed.

Lemma bit7_of_control cap :
  0 <= cap -> negb (Z.land (Z.land (Z.shiftr cap 16) 0xFFFF) (Z.shiftl 1 7) =? 0) = msi_64bit cap.
Proof.
  intros Hc. unfold msi_64bit. replace (Z.testbit cap 23) with (Z.testbit (Z.land (Z.shiftr cap 16) 0xFFFF) 7).
  - set (x := Z.land (Z.shiftr cap 16) 0xFFFF). change (Z.shiftl 1 7) with (2 ^ 7).
    destruct (Z.testbit x 7) eqn:Hx.
    + apply negb_true_iff, Z.eqb_neq. intros Hz.
      assert (Hb : Z.testbit (Z.land x (2 ^ 7)) 7 = true) by (rewrite Z.land_spec, Hx; done).
      by rewrite Hz in Hb.
    + apply negb_false_iff, Z.eqb_eq, Z.bits_inj'. intros i Hi. rewrite Z.land_spec, Z.bits_0.
      destruct (decide (i = 7)) as [->|Hne]; [by rewrite Hx|].
      rewrite Z.pow2_bits_false by lia. apply andb_false_r.
  - change 0xFFFF with (Z.ones 16). by rewrite Z.land_spec, Z.ones_spec_low, Z.shiftr_spec, andb_true_r by lia.
Qed.

Lemma find_msi_writes dev vector p n : forall ptr s fuel,
  on_bus dev -> 0 <= vector < 256 -> leads (cfg dev (mach s)) ptr p n -> (n < fuel)%nat ->
  0 < p -> p + 16 <= 256 -> p mod 4 = 0 -> Z.land (cfg dev (mach s) p) 0xFF = 0x05 ->
  does dev (find_msi fuel dev vector ptr) s true (msi_writes p (cfg dev (mach s) p) vector).
Proof.
  intros ptr s fuel Hdev Hv Hl. revert ptr s fuel Hl.
  induction n as [|n IH]; intros ptr s fuel Hl Hf Hp0 Hp Hpm Hid; (destruct fuel as [|fuel]; [lia|]); inversion Hl; subst.
  - cbn [find_msi]. rewrite (proj2 (Z.eqb_neq p 0)) by lia.
    apply does_read_bind; [done|lia|]. intros s1 Hw1. rewrite Hpm, Z.sub_0_r. cbv zeta. rewrite Hid. cbn [Z.eqb Pos.eqb].
    apply does_say_bind; [done|]. intros s2 Hw2. apply does_read_bind; [done|lia|]. intros s3 _.
    rewrite Hpm, Z.sub_0_r. rewrite (wrote_nil_cfg dev s1 s2), (wrote_nil_cfg dev s s1) by (done || lia).
    set (cap := cfg dev (mach s) p). assert (Hcap : is_u32 cap) by apply conf_word.
    rewrite bit7_of_control by (unfold is_u32 in Hcap; lia).
    rewrite control_word by done. apply does_say_bind; [done|]. intros s4 _. unfold msi_writes.
    apply does_write_bind; [done|lia|zlia|done|]. intros s5.
    assert (Hend : forall s6, does dev (WriteConfReg dev p (Z.lor cap (2 ^ 16)) ;;;
        say "[PCI MSI] MSI enabled successfully with vector 0x%x\n" [KInt vector] ;;; ret true) s6 true [(p, Z.lor cap (2 ^ 16))]).
    { intros s6. apply does_write_bind; [done|lia|done| |].
      - unfold is_u32 in *. split; [apply Z.lor_nonneg; lia|].
        destruct (decide (Z.lor cap (2 ^ 16) = 0)) as [->|]; [lia|].
        apply Z.log2_lt_pow2; [assert (0 <= Z.lor cap (2 ^ 16)) by (apply Z.lor_nonneg; lia); lia|].
        rewrite Z.log2_lor by lia. apply Z.max_lub_lt; [|done].
        destruct (decide (cap = 0)) as [->|]; [done|]. apply Z.log2_lt_pow2; lia.
      - intros s7. apply does_say_bind; [done|]. intros s8 _. apply does_ret. }
    apply does_bind with (a := tt); [done| |intros s6 _; apply Hend].
    destruct (msi_64bit cap).
    + apply does_write_bind; [done|lia|zlia|done|]. intros s6. apply WriteConfReg_spec; [done|lia|zlia|unfold is_u32; lia].
    + apply WriteConfReg_spec; [done|lia|zlia|unfold is_u32; lia].
  - cbn [find_msi]. rewrite (proj2 (Z.eqb_neq ptr 0)) by done.
    apply does_read_bind; [done|done|]. intros s1 Hw1. cbv zeta.
    rewrite (proj2 (Z.eqb_neq _ 0x11)), (proj2 (Z.eqb_neq _ 0x05)) by done.
    rewrite <- (wrote_nil_cfg dev s s1 p) by (done || lia).
    apply IH; [|lia|done..|by rewrite (wrote_nil_cfg dev s s1) by (done || lia)].
    eapply leads_ext; [|done]. intros r Hr Hm. by apply wrote_nil_cfg.
Qed.

Lemma written_bit old m v i : 0 <= i ->
  Z.testbit (written old m v) i = if Z.testbit m i then Z.testbit v i else Z.testbit old i.
Proof.
  intros Hi. unfold written. rewrite Z.lor_spec, Z.ldiff_spec, Z.land_spec.
  destruct (Z.testbit m i), (Z.testbit v i), (Z.testbit old i); done.
Qed.

(** under a mask whose bits are all writable the word written is read back *)
Lemma written_all old m v k : Z.land m k = k -> Z.land (written old m v) k = Z.land v k.
Proof.
  intros Hk. apply Z.bits_inj'. intros i Hi. rewrite !Z.land_spec, written_bit by done.
  assert (Hki : Z.testbit k i = Z.testbit m i && Z.testbit k i) by (by rewrite <- Z.land_spec, Hk).
  destruct (Z.testbit m i); [done|]. cbn [andb] in Hki. by rewrite Hki, !andb_false_r.
Qed.

(** and under one whose bits are read-only the old one *)
Lemma written_none old m v k : Z.land m k = 0 -> Z.land (written old m v) k = Z.land old k.
Proof.
  intros Hk. apply Z.bits_inj'. intros i Hi. rewrite !Z.land_spec, written_bit by done.
  assert (Hki : Z.testbit m i && Z.testbit k i = false) by (by rewrite <- Z.land_spec, Hk, Z.bits_0).
  destruct (Z.testbit m i); [|done]. cbn [andb] in Hki. by rewrite Hki, !andb_false_r.
Qed.

(** the registers of an MSI capability at [p]: the enable bit of the control can be
    written, the header can not; the address but for its two low bits; the data *)
Record msi_capability dev (c : Z -> Z) (p : Z) : Prop := {
  mc_id : Z.land (c p) 0xFF = 0x05;
  mc_place : 0 < p /\ p + 16 <= 256 /\ p mod 4 = 0;
  mc_enable : Z.testbit (writable (bus dev) (device dev) (function dev) p) 16 = true;
  mc_header : Z.land (writable (bus dev) (device dev) (function dev) p) 0xFFFF = 0;
  mc_address : writable (bus dev) (device dev) (function dev) (p + 4) = 0xFFFFFFFC;
  mc_data : let data := p + (if msi_64bit (c p) then 12 else 8) in
    Z.land (writable (bus dev) (device dev) (function dev) data) 0xFFFF = 0xFFFF
}.

(** C29: When a function has an MSI capability that its capability list reaches before
    any MSI-X one, SetupMSI returns true within the length of the list; the capability
    then holds the address of the local APIC and the vector, in the registers of its
    32-bit or 64-bit layout, is enabled and still linked, and no register outside of
    it has changed, on any function of the bus. *)
Theorem SetupMSI_programs fuel dev vector p n s :
  on_bus dev -> 0 <= vector < 256 -> Z.testbit (cfg dev (mach s) 0x04) 20 = true ->
  leads (cfg dev (mach s)) (Z.land (cfg dev (mach s) 0x34) 0xFF) p n -> (n < fuel)%nat ->
  msi_capability dev (cfg dev (mach s)) p ->
  exists s', SetupMSI fuel dev vector s = Ret true s'
    /\ (let data := p + (if msi_64bit (cfg dev (mach s) p) then 12 else 8) in
        Z.land (cfg dev (mach s') (p + 4)) 0xFFFFFFFC = 0xFEE00000
        /\ Z.land (cfg dev (mach s') data) 0xFFFF = vector
        /\ Z.testbit (cfg dev (mach s') p) 16 = true
        /\ Z.land (cfg dev (mach s') p) 0xFFFF = Z.land (cfg dev (mach s) p) 0xFFFF)
    /\ (forall dev' r, on_bus dev' -> 0 <= r < 256 -> r mod 4 = 0 ->
         ~ (same_slot dev dev' /\ p <= r < p + 16) -> cfg dev' (mach s') r = cfg dev' (mach s) r).
Proof.
  intros Hdev Hv Hst Hl Hf [Hid (Hp0 & Hp & Hpm) Hen Hhd Had Hda].
  assert (Hrun : does dev (SetupMSI fuel dev vector) s true (msi_writes p (cfg dev (mach s) p) vector)).
  { unfold SetupMSI. apply does_say_bind; [done|]. intros s1 Hw1.
    apply does_read_bind; [done|lia|]. intros s2 Hw2. change (4 - 4 mod 4) with 4.
    rewrite (wrote_nil_cfg dev s s1 4) by (done || lia).
    assert ((Z.land (Z.land (Z.shiftr (cfg dev (mach s) 4) 16) 0xFFFF) (Z.shiftl 1 4) =? 0) = false) as ->.
    { apply Z.eqb_neq. intros Hz. apply (f_equal (fun x => Z.testbit x 4)) in Hz. change 0xFFFF with (Z.ones 16) in Hz.
      rewrite !Z.land_spec, Z.ones_spec_low, Z.shiftr_spec in Hz by lia. change (4 + 16) with 20 in Hz.
      by rewrite Hst in Hz. }
    apply does_read_bind; [done|lia|]. intros s3 Hw3. change (52 - 52 mod 4) with 0x34.
    assert (Hs : forall r, 0 <= r < 256 -> r mod 4 = 0 -> cfg dev (mach s3) r = cfg dev (mach s) r).
    { intros r Hr Hm. rewrite (wrote_nil_cfg dev s2 s3), (wrote_nil_cfg dev s1 s2), (wrote_nil_cfg dev s s1) by done.
      done. }
    rewrite (wrote_nil_cfg dev s1 s2), (wrote_nil_cfg dev s s1) by (done || lia).
    rewrite <- (Hs p) by lia. apply find_msi_writes with (n := n); try done; [|by rewrite Hs by lia].
    eapply leads_ext; [exact Hs|exact Hl]. }
  destruct Hrun as (s' & HR & (_ & _ & Hc)). exists s'. split; [exact HR|].
  assert (Hcfg : forall r, 0 <= r < 256 -> r mod 4 = 0 -> cfg dev (mach s') r
    = apply_writes dev (msi_writes p (cfg dev (mach s) p) vector) r (cfg dev (mach s) r)).
  { intros r Hr Hm. rewrite Hc by done. by rewrite decide_True by done. }
  unfold apply_writes, msi_writes in Hcfg. split.
  - assert (Hvec : Z.land vector 0xFFFF = vector) by (rewrite land_half; apply Z.mod_small; lia).
    destruct (msi_64bit (cfg dev (mach s) p)); cbn [app] in Hcfg; cbv zeta iota in Hda |- *; split_and!;
      rewrite Hcfg by zlia; cbn [foldl fst snd]; repeat case_decide; try lia;
      first [ rewrite Had, written_all by done; done | rewrite written_all by done; done
            | rewrite written_none by done; done
            | rewrite written_bit, Hen, Z.lor_spec by lia; apply orb_true_r ].
  - intros dev' r Hd' Hr Hm Hout. rewrite Hc by done. case_decide as Hs; [|done].
    assert (~ p <= r < p + 16) by tauto. rewrite (same_cfg dev dev' _ _ Hs).
    unfold apply_writes, msi_writes. destruct (msi_64bit _); cbn [app foldl fst snd]; repeat (case_decide; [lia|]); done.
Qed.
End Msi.

(** ** A bus with one function *)

Module PciSim.
(** the selected address and the registers, by that address *)
Record t := mk { latch : Z; regs : gmap Z Z }.

Definition key (b d f r : Z) : Z := 2 ^ 31 + b * 2 ^ 16 + d * 2 ^ 11 + f * 2 ^ 8 + r.
Definition word (w : t) (k : Z) : Z := u32 (default (2 ^ 32 - 1) (regs w !! k)).
(** registers 0x50 to 0x5C hold an MSI capability, the others cannot be written *)
Definition mask (r : Z) : Z :=
  if r =? 0x50 then 0x710000 else if r =? 0x54 then 0xFFFFFFFC else if r =? 0x58 then 0xFFFFFFFF
  else if r =? 0x5C then 0xFFFF else 0.

#[global] Instance machine : Machine t := {
  peek w a := 0;
  poke a v w := w;
  reg_read a w := (0, w);
  reg_write a v w := w;
  port_in n p w := (word w (key (latch w / 2 ^ 16 mod 256) (latch w / 2 ^ 11 mod 32) (latch w / 2 ^ 8 mod 8)
                              (latch w mod 256)), w);
  port_out n p v w :=
    if p =? 0xCF8 then mk v (regs w)
    else let m := mask (latch w mod 256) in
         mk (latch w) (<[latch w := Z.lor (Z.ldiff (word w (latch w)) m) (Z.land v m)]> (regs w));
  cpu_pause w := w;
  cpu_wbinvd w := w
}.

#[global] Program Instance bus_laws : PciBusLaws t := {
  conf w b d f r := word w (key b d f r);
  writable b d f r := mask r
}.
Next Obligation. intros w b d f r. apply u32_range. Qed.
Next Obligation. intros w a Ha. exists (mk a (regs w)). split; done. Qed.
Next Obligation.
  intros w a v Ha Hv w' b d f r Hb Hd Hf Hr Hm. unfold w'. cbn [port_out machine Z.eqb Pos.eqb latch regs].
  unfold word at 1. cbn [regs]. fold (key b d f r). case_decide as Hk.
  - rewrite <- Hk, lookup_insert_eq. cbn [default]. unfold id, word. cbn [regs].
    assert (a mod 256 = r) as -> by (unfold key in Hk; zlia).
    apply Z.mod_small. set (x := u32 _). assert (0 <= x < 2 ^ 32) by apply u32_range.
    assert (0 <= mask r < 2 ^ 32) by (unfold mask; zcases; lia).
    assert (Hx : forall i, 32 <= i -> Z.testbit x i = false /\ Z.testbit v i = false).
    { intros i Hi. split; [rewrite <- (Z.mod_small x (2 ^ 32)) by lia|rewrite <- (Z.mod_small v (2 ^ 32)) by exact Hv];
        apply Z.mod_pow2_bits_high; lia. }
    assert (Hy : Z.lor (Z.ldiff x (mask r)) (Z.land v (mask r)) = Z.lor (Z.ldiff x (mask r)) (Z.land v (mask r)) mod 2 ^ 32).
    { apply Z.bits_inj'. intros i Hi. destruct (Z.ltb_spec i 32) as [H32|H32].
      - by rewrite Z.mod_pow2_bits_low by lia.
      - rewrite Z.mod_pow2_bits_high by lia. rewrite Z.lor_spec, Z.ldiff_spec, Z.land_spec.
        destruct (Hx i ltac:(lia)) as [-> ->]. done. }
    rewrite Hy. apply Z.mod_pos_bound. lia.
  - rewrite lookup_insert_ne; [done|]. exact Hk.
Qed.

(** function 0:3.0: a capability list through 0x40 (power management) to 0x50 (64-bit MSI) *)
Definition dev : Device := at_slot 0 3 0.
Definition start : t :=
  mk 0 (list_to_map [ (key 0 3 0 0x04, 0x100006); (key 0 3 0 0x34, 0x40); (key 0 3 0 0x40, 0x5001);
                      (key 0 3 0 0x50, 0x800005); (key 0 3 0 0x54, 0); (key 0 3 0 0x58, 0); (key 0 3 0 0x5C, 0) ]).
End PciSim.

Lemma SetupMSI_programs_witness :
  let s : Host PciSim.t MemoryManager.t unit := mkHost PciSim.start sample tt [] in
  exists s', SetupMSI 2 PciSim.dev 0x50 s = Ret true s'
    /\ Z.land (cfg PciSim.dev (mach s') 0x5C) 0xFFFF = 0x50 /\ Z.testbit (cfg PciSim.dev (mach s') 0x50) 16 = true.
Proof.
  intros s. destruct (SetupMSI_programs 2 PciSim.dev 0x50 0x50 1 s) as (s' & H1 & (_ & H2 & H3 & _) & _).
  - cbn; unfold on_bus; cbn; lia.
  - lia.
  - vm_compute; reflexivity.
  - apply leads_next; [vm_compute; discriminate|vm_compute; split; [discriminate|reflexivity]
      |vm_compute; discriminate|vm_compute; discriminate|]. apply leads_here.
  - lia.
  - split; [vm_compute; reflexivity|zlia|vm_compute; reflexivity..].
  - exists s'. split; [exact H1|split; [exact H2|exact H3]].
Defined.
