(* ===== verification/CycleRing.v ===== *)
(** * Rings with cycle bits

    A ring of [n] entries shared by a producer and a consumer that tell new entries
    from old ones by a bit in the entry: the producer writes it with its cycle
    state, which both sides complement when they pass the end of the ring.  The
    state is what the consumer knows, its position [p] and cycle state [c], and the
    entries [q] waiting for it. *)
From S2P Require Import Prelude.

Section CycleRing.
Context {E : Type}.
Variable n : Z.
Hypothesis n_pos : 0 < n.
Implicit Types (p c k : Z) (q : list E) (cyc : Z -> Z) (ent : Z -> E).

(** the [i]-th entry from position [p], and the cycle state of the lap it is in *)
Definition slot p (i : Z) : Z := if p + i <? n then p + i else p + i - n.
Definition lap p c (i : Z) : Z := if p + i <? n then c else 1 - c.

Record waiting p c q cyc ent : Prop := {
  wt_pos : 0 <= p < n;
  wt_cycle : c = 0 \/ c = 1;
  wt_len : zlen q <= n;
  wt_bits : forall i, 0 <= i < n -> cyc (slot p i) = if i <? zlen q then lap p c i else 1 - lap p c i;
  wt_entries : forall i e, q !! i = Some e -> ent (slot p (Z.of_nat i)) = e
}.

Lemma slot_range p i : 0 <= p < n -> 0 <= i < n -> 0 <= slot p i < n.
Proof. intros Hp Hi. unfold slot. zcases; lia. Qed.

Lemma slot_inj p i j : 0 <= p < n -> 0 <= i < n -> 0 <= j < n -> slot p i = slot p j -> i = j.
Proof. intros Hp Hi Hj. unfold slot. zcases; lia. Qed.

Lemma slot_0 p : 0 <= p < n -> slot p 0 = p.
Proof. intros Hp. unfold slot. zcases; lia. Qed.

Lemma slot_S p i : 0 <= p < n -> 0 <= i < n - 1 -> slot (slot p 1) i = slot p (i + 1).
Proof. intros Hp Hi. unfold slot. zcases; lia. Qed.

Lemma lap_S p c i : 0 <= p < n -> 0 <= i < n - 1 -> lap (slot p 1) (lap p c 1) i = lap p c (i + 1).
Proof. intros Hp Hi. unfold lap, slot. zcases; lia. Qed.

(** a zeroed ring and a consumer that expects ones *)
Lemma waiting_fresh cyc ent : (forall i, 0 <= i < n -> cyc i = 0) -> waiting 0 1 [] cyc ent.
Proof.
  intros Hc. split; [lia|auto|unfold zlen; cbn; lia| |done].
  intros i Hi. rewrite Hc by (apply slot_range; lia). change (zlen []) with 0.
  rewrite (proj2 (Z.ltb_ge i 0)) by lia. unfold lap. zcases; lia.
Qed.

(** nothing waits: the entry at the consumer's position is an old one *)
Lemma waiting_none p c cyc ent : waiting p c [] cyc ent -> cyc p = 1 - c.
Proof.
  intros [Hp Hc _ Hb _]. specialize (Hb 0 ltac:(lia)). rewrite slot_0 in Hb by done.
  rewrite Hb. change (0 <? zlen []) with false. cbn match. unfold lap. clear Hb. zcases; lia.
Qed.

Lemma waiting_head p c e q cyc ent : waiting p c (e :: q) cyc ent -> cyc p = c /\ ent p = e.
Proof.
  intros [Hp Hc _ Hb He]. specialize (Hb 0 ltac:(lia)). specialize (He 0%nat e eq_refl).
  change (Z.of_nat 0) with 0 in He. rewrite slot_0 in Hb, He by done. split; [|done].
  rewrite Hb. pose proof (zlen_nonneg q). rewrite zlen_cons, (proj2 (Z.ltb_lt 0 _)) by lia.
  unfold lap. by rewrite (proj2 (Z.ltb_lt _ _)) by lia.
Qed.

(** the consumer takes the first *)
Lemma waiting_take p c e q cyc ent :
  waiting p c (e :: q) cyc ent -> waiting (slot p 1) (lap p c 1) q cyc ent.
Proof.
  intros [Hp Hc Hl Hb He]. rewrite zlen_cons in Hl. pose proof (zlen_nonneg q) as Hq.
  assert (Hn : 1 < n \/ n = 1) by lia. split.
  - unfold slot. clear Hb He. zcases; lia.
  - unfold lap. by destruct Hc as [-> | ->]; case_match; auto.
  - lia.
  - intros i Hi. destruct (decide (i < n - 1)) as [Hi'|Hi'].
    + rewrite slot_S, lap_S by lia. rewrite Hb by lia. rewrite zlen_cons.
      assert ((i + 1 <? 1 + zlen q) = (i <? zlen q)) as -> by (clear; zcases; lia). done.
    + assert (i = n - 1) as -> by lia.
      assert (slot (slot p 1) (n - 1) = slot p 0) as ->.
      { unfold slot. clear Hb He. zcases; lia. }
      rewrite Hb by lia. rewrite zlen_cons, (proj2 (Z.ltb_lt 0 _)), (proj2 (Z.ltb_ge (n - 1) _)) by lia.
      unfold lap, slot. clear Hb He. zcases; lia.
  - intros i e' Hi. assert (Z.of_nat i < zlen q) by (apply lookup_lt_Some in Hi; unfold zlen; lia).
    rewrite slot_S by lia. replace (Z.of_nat i + 1) with (Z.of_nat (S i)) by lia. by apply He.
Qed.

(** the producer adds one after the last *)
Lemma waiting_put p c q cyc ent e cyc' ent' :
  waiting p c q cyc ent -> zlen q < n ->
  cyc' (slot p (zlen q)) = lap p c (zlen q) -> ent' (slot p (zlen q)) = e ->
  (forall j, 0 <= j < n -> j <> slot p (zlen q) -> cyc' j = cyc j /\ ent' j = ent j) ->
  waiting p c (q ++ [e]) cyc' ent'.
Proof.
  intros [Hp Hc Hl Hb He] Hlt Hc' He' Hsame. pose proof (zlen_nonneg q) as Hq.
  assert (Hne : forall i, 0 <= i < n -> i <> zlen q -> slot p i <> slot p (zlen q)).
  { intros i Hi Hne Heq. apply Hne. apply (slot_inj p); done || lia. }
  split; [done|done| | |].
  - rewrite zlen_app. change (zlen [e]) with 1. lia.
  - intros i Hi. rewrite zlen_app. change (zlen [e]) with 1. destruct (decide (i = zlen q)) as [->|Hi'].
    + rewrite Hc', (proj2 (Z.ltb_lt _ _)) by lia. done.
    + destruct (Hsame (slot p i) (slot_range p i Hp Hi) (Hne i Hi Hi')) as [-> _]. rewrite Hb by done.
      assert ((i <? zlen q + 1) = (i <? zlen q)) as -> by (clear - Hi'; zcases; lia). done.
  - intros i e' Hi. apply lookup_app_Some in Hi as [Hi|[Hi1 Hi2]].
    + pose proof (lookup_lt_Some _ _ _ Hi) as Hlen. unfold zlen in *.
      destruct (Hsame (slot p (Z.of_nat i))) as [_ ->]; [apply slot_range; lia|apply Hne; lia|]. by apply He.
    + apply list_lookup_singleton_Some in Hi2 as [Hi2 <-]. rewrite <- He'. f_equal. unfold zlen. f_equal. lia.
Qed.

(** only what the ring holds matters *)
Lemma waiting_ext p c q cyc ent cyc' ent' :
  (forall i, 0 <= i < n -> cyc' i = cyc i /\ ent' i = ent i) -> waiting p c q cyc ent -> waiting p c q cyc' ent'.
Proof.
  intros Hs [Hp Hc Hl Hb He]. split; [done..| |].
  - intros i Hi. destruct (Hs (slot p i) (slot_range p i Hp Hi)) as [-> _]. by apply Hb.
  - intros i e Hi. assert (Z.of_nat i < zlen q) by (apply lookup_lt_Some in Hi; unfold zlen; lia).
    destruct (Hs (slot p (Z.of_nat i))) as [_ ->]; [apply slot_range; lia|]. by apply He.
Qed.
End CycleRing.
