(* ===== verification/Xhci.v ===== *)
(** * The USB host controller (driver/usb/xhci.hpp, xhci.cpp)

    Rings of transfer request blocks in memory, shared with the controller through
    cycle bits; registers at the four bases.  The driver's members are
    [Controller]; [transfer_rings_], [ring_cycle_state_] and [ring_index_] are maps
    from slot and endpoint to the values that differ from the constructor's.
    Polling loops take the number of rounds allowed as [fuel]; their own timeouts
    are counted as the code counts them. *)
From S2P Require Import Prelude Run Memory Machine Pci.
#[local] Open Scope run_scope.

(** ** driver/usb/xhci.hpp *)

Definition TRB_ENABLE_SLOT : Z := 9.
Definition TRB_ADDRESS_DEVICE : Z := 11.
Definition TRB_NO_OP : Z := 23.
Definition TRB_COMMAND_COMPLETION : Z := 32.
Definition TRB_PORT_STATUS_CHANGE : Z := 34.

Definition sizeof_TRB : Z := 16.
(** 20 bytes of members, aligned to 8 *)
Definition sizeof_EventRingSegmentTableEntry : Z := 24.
Definition sizeof_EndpointContext : Z := 32.
Definition sizeof_DeviceContext : Z := 1024.
Definition sizeof_InputContext : Z := 1056.
(** offsets in an InputContext *)
Definition off_add_context_flags : Z := 4.
Definition off_slot_context : Z := 32.
Definition off_ep_contexts : Z := 64.

Record Controller := mkController {
  pci_dev_ : Device;
  mmio_base_ : Z;
  op_regs_base_ : Z;
  rt_regs_base_ : Z;
  db_regs_base_ : Z;
  max_slots_ : Z;
  dcbaa_ : Z;
  command_ring_ : Z;
  event_ring_ : Z;
  erst_ : Z;
  dcs_ : Z;
  pcs_ : Z;
  cmd_ring_index_ : Z;
  event_ring_index_ : Z;
  transfer_rings_ : gmap (Z * Z) Z;
  ring_cycle_state_ : gmap (Z * Z) Z;
  ring_index_ : gmap (Z * Z) Z
}.

(** the constructor; the members it leaves alone are 0 *)
Definition new_Controller (dev : Device) : Controller :=
  mkController dev 0 0 0 0 0 0 0 0 0 1 1 0 0 ∅ ∅ ∅.

Definition ring_of (slot dci : Z) (x : Controller) : Z := default 0 (transfer_rings_ x !! (slot, dci)).
Definition cycle_of (slot dci : Z) (x : Controller) : Z := default 1 (ring_cycle_state_ x !! (slot, dci)).
Definition index_of (slot dci : Z) (x : Controller) : Z := default 0 (ring_index_ x !! (slot, dci)).

Definition set_bases (mmio op rt db : Z) (x : Controller) : Controller :=
  mkController (pci_dev_ x) mmio op rt db (max_slots_ x) (dcbaa_ x) (command_ring_ x) (event_ring_ x) (erst_ x)
    (dcs_ x) (pcs_ x) (cmd_ring_index_ x) (event_ring_index_ x) (transfer_rings_ x) (ring_cycle_state_ x) (ring_index_ x).
Definition set_structures (slots dcbaa cmd ev erst : Z) (x : Controller) : Controller :=
  mkController (pci_dev_ x) (mmio_base_ x) (op_regs_base_ x) (rt_regs_base_ x) (db_regs_base_ x) slots dcbaa cmd ev erst
    (dcs_ x) (pcs_ x) (cmd_ring_index_ x) (event_ring_index_ x) (transfer_rings_ x) (ring_cycle_state_ x) (ring_index_ x).
Definition set_event (index dcs : Z) (x : Controller) : Controller :=
  mkController (pci_dev_ x) (mmio_base_ x) (op_regs_base_ x) (rt_regs_base_ x) (db_regs_base_ x) (max_slots_ x) (dcbaa_ x)
    (command_ring_ x) (event_ring_ x) (erst_ x)
    dcs (pcs_ x) (cmd_ring_index_ x) index (transfer_rings_ x) (ring_cycle_state_ x) (ring_index_ x).
Definition set_cmd_index (index : Z) (x : Controller) : Controller :=
  mkController (pci_dev_ x) (mmio_base_ x) (op_regs_base_ x) (rt_regs_base_ x) (db_regs_base_ x) (max_slots_ x) (dcbaa_ x)
    (command_ring_ x) (event_ring_ x) (erst_ x)
    (dcs_ x) (pcs_ x) index (event_ring_index_ x) (transfer_rings_ x) (ring_cycle_state_ x) (ring_index_ x).
Definition set_ring (slot dci ring : Z) (x : Controller) : Controller :=
  mkController (pci_dev_ x) (mmio_base_ x) (op_regs_base_ x) (rt_regs_base_ x) (db_regs_base_ x) (max_slots_ x) (dcbaa_ x)
    (command_ring_ x) (event_ring_ x) (erst_ x) (dcs_ x) (pcs_ x) (cmd_ring_index_ x) (event_ring_index_ x)
    (<[(slot, dci) := ring]> (transfer_rings_ x)) (ring_cycle_state_ x) (ring_index_ x).
Definition set_position (slot dci cycle index : Z) (x : Controller) : Controller :=
  mkController (pci_dev_ x) (mmio_base_ x) (op_regs_base_ x) (rt_regs_base_ x) (db_regs_base_ x) (max_slots_ x) (dcbaa_ x)
    (command_ring_ x) (event_ring_ x) (erst_ x) (dcs_ x) (pcs_ x) (cmd_ring_index_ x) (event_ring_index_ x)
    (transfer_rings_ x) (<[(slot, dci) := cycle]> (ring_cycle_state_ x)) (<[(slot, dci) := index]> (ring_index_ x)).

Definition AddressToDCI (ep_addr : Z) : Z :=
  if ep_addr =? 0 then 1
  else
    let ep_num := Z.land ep_addr 0xF in
    let is_in := negb (Z.land ep_addr 0x80 =? 0) in
    u8 (2 * ep_num + (if is_in then 1 else 0)).

Section Xhci.
Context {W M : Type} `{Machine W} `{FrameAllocator M}.
Local Abbreviation Hst := (Host W M Controller).
Local Abbreviation HR := (fun A => Hst -> Run Hst A).
Implicit Types (s : Hst).

Definition change (f : Controller -> Controller) : HR unit := fun s => Ret tt (with_drv s (f (drv s))).
Definition my {A} (f : Controller -> A) : HR A := fun s => Ret (f (drv s)) s.

(** ** Registers *)

Definition Read32 (offset : Z) : HR Z := base <-- my mmio_base_ ;; ask (reg_read (base + offset)).
Definition Write32 (offset value : Z) : HR unit := base <-- my mmio_base_ ;; act (reg_write (base + offset) value).
Definition ReadOpReg (offset : Z) : HR Z := base <-- my op_regs_base_ ;; ask (reg_read (base + offset)).
Definition WriteOpReg (offset value : Z) : HR unit := base <-- my op_regs_base_ ;; act (reg_write (base + offset) value).
Definition ReadRtReg (offset : Z) : HR Z := base <-- my rt_regs_base_ ;; ask (reg_read (base + offset)).
Definition WriteRtReg (offset value : Z) : HR unit := base <-- my rt_regs_base_ ;; act (reg_write (base + offset) value).
Definition RingDoorbell (target value : Z) : HR unit :=
  base <-- my db_regs_base_ ;; act (reg_write (base + 4 * target) value).

(** ** Structures in memory *)

Definition trb_at (ring index : Z) : Z := ring + sizeof_TRB * index.

Definition write_trb (a parameter status control : Z) : HR unit :=
  put 8 a parameter ;;; put 4 (a + 8) status ;;; put 4 (a + 12) control.

(** the fields of a SlotContext and of an EndpointContext at [c] *)
Definition put_context_entries (c v : Z) : HR unit := put_bits 4 c 27 5 v.
Definition put_route_string (c v : Z) : HR unit := put_bits 4 c 0 20 v.
Definition put_speed (c v : Z) : HR unit := put_bits 4 c 20 4 v.
Definition put_root_hub_port_num (c v : Z) : HR unit := put_bits 4 (c + 4) 16 8 v.
Definition put_interval (c v : Z) : HR unit := put_bits 4 c 16 8 v.
Definition put_error_count (c v : Z) : HR unit := put_bits 4 (c + 4) 1 2 v.
Definition put_ep_type (c v : Z) : HR unit := put_bits 4 (c + 4) 3 3 v.
Definition put_max_burst_size (c v : Z) : HR unit := put_bits 4 (c + 4) 8 8 v.
Definition put_max_packet_size (c v : Z) : HR unit := put_bits 4 (c + 4) 16 16 v.
Definition put_dequeue_pointer (c v : Z) : HR unit := put 8 (c + 8) v.
Definition put_average_trb_length (c v : Z) : HR unit := put_bits 4 (c + 16) 0 16 v.

(** a zeroed ring of 32 blocks, and a zeroed structure *)
Definition alloc_cleared (size : Z) : HR Z :=
  p <-- alloc size 64 ;; clear p size ;;; ret p.

(** ** The event ring *)

(** the control word of the event at the read position, and whether it is ours *)
Definition next_event : HR (Z * Z)%type :=
  x <-- my id ;;
  let a := trb_at (event_ring_ x) (event_ring_index_ x) in
  control <-- look 4 (a + 12) ;; ret (a, control).

(** [event_ring_index_++] *)
Definition skip_event : HR unit := change (fun x => set_event (u32 (event_ring_index_ x + 1)) (dcs_ x) x).

Definition trb_type (control : Z) : Z := Z.land (Z.shiftr control 10) 0x3F.
Definition completion_code (status : Z) : Z := Z.land (Z.shiftr status 24) 0xFF.

(** the loop of ConfigureEndpoint and AddressDevice: the completion code of the
    command at [command_trb_ptr], or nothing after [timeout] rounds without event *)
Fixpoint wait_command (fuel : nat) (timeout command_trb_ptr : Z) : HR (option Z) :=
  if timeout <=? 0 then ret None
  else match fuel with
  | O => fun _ => NoFuel
  | S f =>
      act cpu_wbinvd ;;;
      ev <-- next_event ;;
      dcs <-- my dcs_ ;;
      let '(a, control) := ev in
      if Z.land control 1 =? dcs then
        skip_event ;;;
        param <-- look 8 a ;;
        if ((trb_type control =? TRB_COMMAND_COMPLETION) || (trb_type control =? 33)) && (param =? command_trb_ptr) then
          status <-- look 4 (a + 8) ;; ret (Some (completion_code status))
        else wait_command f timeout command_trb_ptr
      else act cpu_pause ;;; wait_command f (timeout - 1) command_trb_ptr
  end.

(** a command at the write position of the command ring, and its address *)
Definition post_command (parameter control : Z) : HR Z :=
  x <-- my id ;;
  let a := trb_at (command_ring_ x) (cmd_ring_index_ x) in
  write_trb a parameter 0 (u32 (Z.lor (Z.land (pcs_ x) 1) control)) ;;;
  ret a.

Definition next_command : HR unit := change (fun x => set_cmd_index (u32 (cmd_ring_index_ x + 1)) x).

(** ** Commands *)

Definition ConfigureEndpoint (fuel : nat) (slot_id ep_addr max_packet_size interval type : Z) : HR bool :=
  let dci := AddressToDCI ep_addr in
  say "[xHCI] Configuring Endpoint %x (DCI=%d)...\n" [KInt ep_addr; KInt dci] ;;;
  ring0 <-- my (ring_of slot_id dci) ;;
  (if ring0 =? 0 then
     ring <-- alloc (sizeof_TRB * 32) 64 ;;
     change (set_ring slot_id dci ring) ;;;
     clear ring (sizeof_TRB * 32) ;;;
     change (set_position slot_id dci 1 0)
   else ret tt) ;;;
  input_ctx <-- alloc_cleared sizeof_InputContext ;;
  put 4 (input_ctx + off_add_context_flags) (Z.lor (Z.shiftl 1 0) (Z.shiftl 1 dci)) ;;;
  put_context_entries (input_ctx + off_slot_context) 31 ;;;
  let ep_ctx := input_ctx + off_ep_contexts + sizeof_EndpointContext * (dci - 1) in
  let is_in := negb (Z.land ep_addr 0x80 =? 0) in
  put_ep_type ep_ctx (if type =? 2 then (if is_in then 6 else 2) else (if is_in then 7 else 3)) ;;;
  put_max_packet_size ep_ctx max_packet_size ;;;
  put_interval ep_ctx interval ;;;
  put_average_trb_length ep_ctx 1 ;;;
  put_error_count ep_ctx 3 ;;;
  put_max_burst_size ep_ctx 0 ;;;
  ring_base <-- my (ring_of slot_id dci) ;;
  put_dequeue_pointer ep_ctx (Z.lor ring_base 1) ;;;
  command_trb_ptr <-- post_command input_ctx (Z.lor (Z.shiftl 12 10) (Z.shiftl slot_id 24)) ;;
  act cpu_wbinvd ;;;
  next_command ;;;
  RingDoorbell 0 0 ;;;
  r <-- wait_command fuel 1000000 command_trb_ptr ;;
  free input_ctx sizeof_InputContext ;;;
  match r with
  | Some code =>
      if code =? 1 then say "[xHCI] Endpoint %x Configured!\n" [KInt ep_addr] ;;; ret true
      else say "[xHCI] Configure Endpoint Failed. Code=%d\n" [KInt code] ;;; ret false
  | None => say "[xHCI] Configure Endpoint Timeout.\n" [] ;;; ret false
  end.

Definition AddressDevice (fuel : nat) (slot_id port_id speed : Z) : HR bool :=
  out_ctx <-- alloc_cleared sizeof_DeviceContext ;;
  dcbaa <-- my dcbaa_ ;;
  put 8 (dcbaa + 8 * slot_id) out_ctx ;;;
  input_ctx <-- alloc_cleared sizeof_InputContext ;;
  put 4 (input_ctx + off_add_context_flags) (Z.lor (Z.shiftl 1 0) (Z.shiftl 1 1)) ;;;
  let slot_ctx := input_ctx + off_slot_context in
  put_root_hub_port_num slot_ctx port_id ;;;
  put_route_string slot_ctx 0 ;;;
  put_context_entries slot_ctx 1 ;;;
  put_speed slot_ctx speed ;;;
  let ep0 := input_ctx + off_ep_contexts in
  put_ep_type ep0 4 ;;;
  tr_phys <-- alloc (sizeof_TRB * 32) 64 ;;
  change (set_ring slot_id 1 tr_phys) ;;;
  clear tr_phys (sizeof_TRB * 32) ;;;
  put_max_packet_size ep0 (if speed =? 4 then 512 else if speed =? 3 then 64 else 8) ;;;
  put_max_burst_size ep0 0 ;;;
  put_dequeue_pointer ep0 tr_phys ;;;
  old <-- look 8 (ep0 + 8) ;;
  put_dequeue_pointer ep0 (Z.lor old 1) ;;;
  put_interval ep0 0 ;;;
  put_average_trb_length ep0 8 ;;;
  put_error_count ep0 3 ;;;
  command_trb_ptr <-- post_command input_ctx (Z.lor (Z.shiftl TRB_ADDRESS_DEVICE 10) (Z.shiftl slot_id 24)) ;;
  act cpu_wbinvd ;;;
  next_command ;;;
  RingDoorbell 0 0 ;;;
  say "[xHCI] Sent Address Device Command (Slot %d, Speed %d). Waiting...\n" [KInt slot_id; KInt speed] ;;;
  r <-- wait_command fuel 1000000 command_trb_ptr ;;
  match r with
  | Some code =>
      if code =? 1 then say "[xHCI] Address Device Successful! Slot %d is active.\n" [KInt slot_id] ;;; ret true
      else say "[xHCI] Address Device Failed. Code: %d\n" [KInt code] ;;; ret false
  | None => say "[xHCI] TIMEOUT: Address Device Command ignored.\n" [] ;;; ret false
  end.

(** the loop of EnableSlot: every round counts; [None]: the time is up *)
Fixpoint wait_slot (fuel : nat) (timeout command_trb_ptr : Z) : HR (option Z) :=
  if timeout <=? 0 then ret None
  else match fuel with
  | O => fun _ => NoFuel
  | S f =>
      usbsts <-- ReadOpReg 0x04 ;;
      if negb (Z.land usbsts (Z.shiftl 1 2) =? 0) then
        say "\n[xHCI] FATAL ERROR: Host System Error detected! (USBSTS=%x)\n" [KInt usbsts] ;;; halt
      else
        ev <-- next_event ;;
        dcs <-- my dcs_ ;;
        let '(a, control) := ev in
        if negb (Z.land control 1 =? dcs) then
          act cpu_pause ;;; wait_slot f (timeout - 1) command_trb_ptr
        else
          skip_event ;;;
          param <-- look 8 a ;;
          if ((trb_type control =? TRB_COMMAND_COMPLETION) || (trb_type control =? 33)) && (param =? command_trb_ptr) then
            status <-- look 4 (a + 8) ;;
            let comp_code := completion_code status in
            if comp_code =? 1 then
              let slot_id := Z.land (Z.shiftr control 24) 0xFF in
              say "[xHCI] Slot ID %d assigned successfully!\n" [KInt slot_id] ;;; ret (Some slot_id)
            else say "[xHCI] Enable Slot Failed. Code: %d\n" [KInt comp_code] ;;; ret (Some 0)
          else act cpu_pause ;;; wait_slot f (timeout - 1) command_trb_ptr
  end.

Definition EnableSlot (fuel : nat) : HR Z :=
  command_trb_ptr <-- post_command 0 (Z.shiftl TRB_ENABLE_SLOT 10) ;;
  next_command ;;;
  act cpu_wbinvd ;;;
  RingDoorbell 0 0 ;;;
  say "[xHCI] Sent Enable Slot Command. Waiting for completion...\n" [] ;;;
  r <-- wait_slot fuel 10000000 command_trb_ptr ;;
  match r with
  | Some slot_id => ret slot_id
  | None =>
      say "[xHCI] TIMEOUT: Enable Slot Command ignored.\n" [] ;;;
      crcr_low <-- ReadOpReg 0x18 ;;
      crcr_high <-- ReadOpReg 0x1C ;;
      say "Debug CRCR: %x %x\n" [KInt crcr_high; KInt crcr_low] ;;;
      usbsts <-- ReadOpReg 0x04 ;;
      say "Debug USBSTS: %x\n" [KInt usbsts] ;;;
      ret 0
  end.

(** ** Transfers *)

(** [transfer_rings_[slot_id][1][ring_index_[slot_id][1]++]] *)
Definition next_control_trb (slot_id : Z) : HR Z :=
  x <-- my id ;;
  change (set_position slot_id 1 (cycle_of slot_id 1 x) (u32 (index_of slot_id 1 x + 1))) ;;;
  ret (trb_at (ring_of slot_id 1 x) (index_of slot_id 1 x)).

(** the loop of ControlIn: any transfer event ends it *)
Fixpoint wait_control (fuel : nat) (timeout : Z) : HR bool :=
  if timeout <=? 0 then say "[xHCI] ControlIn Timeout.\n" [] ;;; ret false
  else match fuel with
  | O => fun _ => NoFuel
  | S f =>
      act cpu_wbinvd ;;;
      ev <-- next_event ;;
      dcs <-- my dcs_ ;;
      let '(a, control) := ev in
      if Z.land control 1 =? dcs then
        skip_event ;;;
        if trb_type control =? 32 then
          status <-- look 4 (a + 8) ;;
          let comp_code := completion_code status in
          if (comp_code =? 1) || (comp_code =? 13) then ret true
          else say "[xHCI] ControlIn Failed. Code=%d\n" [KInt comp_code] ;;; ret false
        else wait_control f timeout
      else act cpu_pause ;;; wait_control f (timeout - 1)
  end.

Definition setup_packet (req_type request value index length : Z) : Z :=
  Z.lor (Z.lor (Z.lor (Z.lor (Z.shiftl length 48) (Z.shiftl index 32)) (Z.shiftl value 16)) (Z.shiftl request 8)) req_type.

Definition ControlIn (fuel : nat) (slot_id req_type request value index length buffer : Z) : HR bool :=
  setup_trb <-- next_control_trb slot_id ;;
  cycle <-- my (cycle_of slot_id 1) ;;
  let cycle := Z.land cycle 1 in
  write_trb setup_trb (setup_packet req_type request value index length) 8
    (Z.lor (Z.lor (Z.lor cycle (Z.shiftl 2 10)) (Z.shiftl 1 6)) (Z.shiftl 3 16)) ;;;
  (if 0 <? length then
     data_trb <-- next_control_trb slot_id ;;
     write_trb data_trb buffer length
       (Z.lor (Z.lor (Z.lor cycle (Z.shiftl 3 10)) (Z.shiftl 1 16)) (Z.shiftl 1 5))
   else ret tt) ;;;
  status_trb <-- next_control_trb slot_id ;;
  write_trb status_trb 0 0 (Z.lor (Z.lor cycle (Z.shiftl 4 10)) (Z.shiftl 1 1)) ;;;
  RingDoorbell slot_id 1 ;;;
  wait_control fuel 1000000.

(** the read position moves on, and the controller is told *)
Definition advance_event_ring : HR unit :=
  change (fun x =>
    let index := u32 (event_ring_index_ x + 1) in
    if index =? 32 then set_event 0 (Z.lxor (dcs_ x) 1) x else set_event index (dcs_ x) x) ;;;
  x <-- my id ;;
  let erdp := trb_at (event_ring_ x) (event_ring_index_ x) in
  WriteRtReg (0x20 + 0x18) (Z.lor (Z.land erdp 0xFFFFFFFF) (Z.shiftl 1 3)) ;;;
  WriteRtReg (0x20 + 0x1C) (Z.shiftr erdp 32).

Definition PollEndpoint (slot_id ep_addr : Z) : HR Z :=
  x <-- my id ;;
  let event := trb_at (event_ring_ x) (event_ring_index_ x) in
  status <-- look 4 (event + 8) ;;
  control <-- look 4 (event + 12) ;;
  if Z.land control 1 =? dcs_ x then
    let ret_code :=
      if trb_type control =? 32 then
        let event_slot := Z.land (Z.shiftr control 24) 0xFF in
        let event_dci := Z.land (Z.shiftr control 16) 0x1F in
        if (event_slot =? slot_id) && (event_dci =? AddressToDCI ep_addr) then completion_code status else -1
      else -1 in
    advance_event_ring ;;;
    ret ret_code
  else ret (-1).

Definition SendNormalTRB (slot_id ep_addr data_buf len : Z) : HR bool :=
  let dci := AddressToDCI ep_addr in
  ring <-- my (ring_of slot_id dci) ;;
  if ring =? 0 then ret false
  else
    idx <-- my (index_of slot_id dci) ;;
    pcs <-- my (cycle_of slot_id dci) ;;
    write_trb (trb_at ring idx) data_buf len
      (Z.lor (Z.lor (Z.lor (Z.land pcs 1) (Z.shiftl 1 10)) (Z.shiftl 1 5)) (Z.shiftl 1 2)) ;;;
    change (set_position slot_id dci pcs (u32 (idx + 1))) ;;;
    (if u32 (idx + 1) =? 31 then
       write_trb (trb_at ring 31) ring 0 (Z.lor (Z.lor (Z.land pcs 1) (Z.shiftl 6 10)) (Z.shiftl 1 1)) ;;;
       change (set_position slot_id dci (Z.lxor pcs 1) 0)
     else ret tt) ;;;
    act cpu_wbinvd ;;;
    RingDoorbell slot_id dci ;;;
    ret true.

(** ProcessInterrupt up to the call of the keyboard's Update *)
Definition ProcessInterrupt_event : HR unit :=
  say "[xHCI] ProcessInterrupt()\\n" [] ;;;
  ev <-- next_event ;;
  dcs <-- my dcs_ ;;
  if Z.land (snd ev) 1 =? dcs then advance_event_ring else ret tt.

(** ** Resets and hand-over *)

(** [while (cond) pause;] on the value of a register *)
Fixpoint wait_register (fuel : nat) (read : HR Z) (go_on : Z -> bool) : HR unit :=
  v <-- read ;;
  if go_on v then
    match fuel with
    | O => fun _ => NoFuel
    | S f => act cpu_pause ;;; wait_register f read go_on
    end
  else ret tt.

(** the wait for the firmware, [timeout] rounds *)
Fixpoint wait_bios (fuel : nat) (timeout offset : Z) : HR unit :=
  val <-- Read32 offset ;;
  if (Z.land val (Z.shiftl 1 16) =? 0) && negb (Z.land val (Z.shiftl 1 24) =? 0) then ret tt
  else if timeout - 1 =? 0 then say " Timeout!\n" []
  else match fuel with
  | O => fun _ => NoFuel
  | S f => act cpu_pause ;;; wait_bios f (timeout - 1) offset
  end.

Definition kCapIdLegacySupport : Z := 1.

(** the list of extended capabilities; [polls] bounds the wait *)
Fixpoint find_legacy (fuel polls : nat) (current_offset : Z) : HR unit :=
  match fuel with
  | O => fun _ => NoFuel
  | S f =>
      reg <-- Read32 current_offset ;;
      if Z.land reg 0xFF =? kCapIdLegacySupport then
        say "[xHCI] Found USB Legacy Support at offset %x\n" [KInt current_offset] ;;;
        if negb (Z.land reg (Z.shiftl 1 16) =? 0) then
          say "[xHCI] Requesting OS Ownership...\n" [] ;;;
          Write32 current_offset (Z.lor reg (Z.shiftl 1 24)) ;;;
          say "[xHCI] Waiting for BIOS handoff..." [] ;;;
          wait_bios polls 1000000 current_offset ;;;
          say " Done.\n" []
        else ret tt
      else
        let next := Z.land (Z.shiftr reg 8) 0xFF in
        if next =? 0 then ret tt else find_legacy f polls (u32 (current_offset + Z.shiftl next 2))
  end.

Definition BiosHandoff (fuel polls : nat) : HR unit :=
  hccparams1 <-- Read32 0x10 ;;
  let xecp_offset := Z.land (Z.shiftr hccparams1 16) 0xFFFF in
  if xecp_offset =? 0 then say "[xHCI] No Extended Capabilities found.\n" []
  else find_legacy fuel polls (Z.shiftl xecp_offset 2).

Definition ResetController (fuel : nat) : HR unit :=
  cap <-- Read32 0x00 ;;
  let cap_length := Z.land cap 0xFF in
  let usbcmd_offset := cap_length in
  let usbsts_offset := cap_length + 4 in
  usbcmd <-- Read32 usbcmd_offset ;;
  Write32 usbcmd_offset (Z.ldiff usbcmd 1) ;;;
  wait_register fuel (Read32 usbsts_offset) (fun v => Z.land v 1 =? 0) ;;;
  usbcmd <-- Read32 usbcmd_offset ;;
  Write32 usbcmd_offset (Z.lor usbcmd (Z.shiftl 1 1)) ;;;
  wait_register fuel (Read32 usbcmd_offset) (fun v => negb (Z.land v (Z.shiftl 1 1) =? 0)) ;;;
  wait_register fuel (Read32 usbsts_offset) (fun v => negb (Z.land v (Z.shiftl 1 11) =? 0)).

Definition portsc_offset (port_id : Z) : Z := 0x400 + 0x10 * (port_id - 1).

(** the wait for Port Reset Change, which it then clears *)
Fixpoint wait_port (fuel : nat) (offset : Z) : HR unit :=
  val <-- ReadOpReg offset ;;
  if negb (Z.land val (Z.shiftl 1 21) =? 0) then
    WriteOpReg offset (Z.lor (Z.land val 0x0E00C3E0) (Z.shiftl 1 21))
  else match fuel with
  | O => fun _ => NoFuel
  | S f => act cpu_pause ;;; wait_port f offset
  end.

Definition ResetPort (fuel : nat) (port_id : Z) : HR unit :=
  let offset := portsc_offset port_id in
  portsc <-- ReadOpReg offset ;;
  if Z.land portsc 1 =? 0 then ret tt
  else
    say "[xHCI] Resetting Port %d...\n" [KInt port_id] ;;;
    WriteOpReg offset (Z.lor (Z.land portsc 0x0E00C3E0) (Z.shiftl 1 4)) ;;;
    wait_port fuel offset ;;;
    say "[xHCI] Port %d Reset Complete. Checking status...\n" [KInt port_id] ;;;
    after <-- ReadOpReg offset ;;
    if negb (Z.land after (Z.shiftl 1 1) =? 0) then say "[xHCI] Port %d is Enabled!\n" [KInt port_id]
    else say "[xHCI] Port %d Reset Failed (Not Enabled).\n" [KInt port_id].

Definition DebugDump : HR unit :=
  x <-- my id ;;
  say "[xHCI Debug] event_ring_ addr: %lx\n" [KInt (event_ring_ x)] ;;;
  say "[xHCI Debug] event_ring_index_: %d, dcs_: %d\n" [KInt (event_ring_index_ x); KInt (dcs_ x)] ;;;
  let event := trb_at (event_ring_ x) (event_ring_index_ x) in
  control <-- look 4 (event + 12) ;;
  control' <-- look 4 (event + 12) ;;
  say "[xHCI Debug] event.control: %x (cycle bit: %d, expected dcs_: %d)\n"
    [KInt control; KInt (Z.land control' 1); KInt (dcs_ x)] ;;;
  parameter <-- look 8 event ;;
  say "[xHCI Debug] event.parameter: %lx\n" [KInt parameter] ;;;
  status <-- look 4 (event + 8) ;;
  say "[xHCI Debug] event.status: %x\n" [KInt status] ;;;
  usbsts <-- ReadOpReg 0x04 ;;
  say "[xHCI Debug] USBSTS: %x (HCH=%d, HSE=%d, EINT=%d)\n"
    [KInt usbsts; KInt (Z.land usbsts 1); KInt (Z.land (Z.shiftr usbsts 2) 1); KInt (Z.land (Z.shiftr usbsts 3) 1)] ;;;
  erdp_low <-- ReadRtReg (0x20 + 0x18) ;;
  erdp_high <-- ReadRtReg (0x20 + 0x1C) ;;
  say "[xHCI Debug] ERDP: %x %x\n" [KInt erdp_high; KInt erdp_low].

(** ** Initialize, up to the ports *)

(** [buf = AllocateFrame()] for every scratchpad buffer *)
Definition scratchpads (max_scratchpads dcbaa : Z) : HR unit :=
  if 0 <? max_scratchpads then
    scratchpad_array <-- alloc (max_scratchpads * 8) 64 ;;
    run_for (Z.to_nat max_scratchpads) 0 (fun i =>
      buf <-- alloc 4096 4096 ;; put 8 (scratchpad_array + 8 * i) buf) ;;;
    put 8 dcbaa scratchpad_array
  else ret tt.

(** the rings and tables of the controller, and the registers that point to them *)
Definition SetupStructures (max_slots : Z) : HR unit :=
  hcsparams2 <-- Read32 0x08 ;;
  let max_scratchpads :=
    Z.lor (Z.land (Z.shiftr hcsparams2 21) 0x1F) (Z.shiftl (Z.land (Z.shiftr hcsparams2 27) 0x1F) 5) in
  say "[xHCI] Max Scratchpads: %d\n" [KInt max_scratchpads] ;;;
  dcbaa <-- alloc ((max_slots + 1) * 8) 64 ;;
  run_for (Z.to_nat (max_slots + 1)) 0 (fun i => put 8 (dcbaa + 8 * i) 0) ;;;
  scratchpads max_scratchpads dcbaa ;;;
  WriteOpReg 0x30 (Z.land dcbaa 0xFFFFFFFF) ;;;
  WriteOpReg 0x34 (Z.shiftr dcbaa 32) ;;;
  config <-- ReadOpReg 0x38 ;;
  WriteOpReg 0x38 (Z.lor (Z.ldiff config 0xFF) max_slots) ;;;
  command_ring <-- alloc_cleared (sizeof_TRB * 32) ;;
  write_trb (trb_at command_ring 31) command_ring 0 (Z.lor (Z.shiftl 6 10) 2) ;;;
  WriteOpReg 0x18 (Z.lor (Z.land command_ring 0xFFFFFFFF) 1) ;;;
  WriteOpReg 0x1C (Z.shiftr command_ring 32) ;;;
  event_ring <-- alloc_cleared (sizeof_TRB * 32) ;;
  erst <-- alloc sizeof_EventRingSegmentTableEntry 64 ;;
  put 8 erst event_ring ;;;
  put 4 (erst + 8) 32 ;;;
  put 4 (erst + 12) 0 ;;;
  put 4 (erst + 16) 0 ;;;
  change (set_structures max_slots dcbaa command_ring event_ring erst) ;;;
  let int0_offset := 0x20 in
  WriteRtReg (int0_offset + 0x08) 1 ;;;
  WriteRtReg (int0_offset + 0x18) (Z.land event_ring 0xFFFFFFFF) ;;;
  WriteRtReg (int0_offset + 0x1C) (Z.shiftr event_ring 32) ;;;
  WriteRtReg (int0_offset + 0x10) (Z.land erst 0xFFFFFFFF) ;;;
  WriteRtReg (int0_offset + 0x14) (Z.shiftr erst 32) ;;;
  iman <-- ReadRtReg int0_offset ;;
  WriteRtReg int0_offset (Z.lor iman 2).

Definition InitializeController (fuel polls : nat) : HR unit :=
  say "[xHCI] Initializing...\n" [] ;;;
  dev <-- my pci_dev_ ;;
  reg0 <-- ReadConfReg dev 0x00 ;;
  let vendor := Z.land reg0 0xFFFF in
  say "[xHCI] Vendor ID: %x\n" [KInt vendor] ;;;
  if vendor =? 0xFFFF then
    say "[xHCI] CRITICAL ERROR: Device not found or invalid PCI address!\n" [] ;;; halt
  else
    mmio <-- ReadBar0 dev ;;
    say "[xHCI] MMIO Base: %lx\n" [KInt mmio] ;;;
    cmd_reg <-- ReadConfReg dev 0x04 ;;
    say "[xHCI] Old Command Reg: %x\n" [KInt cmd_reg] ;;;
    WriteConfReg dev 0x04 (Z.lor (Z.lor cmd_reg (Z.shiftl 1 2)) (Z.shiftl 1 1)) ;;;
    new_cmd <-- ReadConfReg dev 0x04 ;;
    say "[xHCI] New Command Reg: %x\n" [KInt new_cmd] ;;;
    change (set_bases mmio 0 0 0) ;;;
    cap <-- Read32 0x00 ;;
    let cap_length := Z.land cap 0xFF in
    rts <-- Read32 0x18 ;;
    db <-- Read32 0x14 ;;
    change (set_bases mmio (mmio + cap_length) (mmio + Z.ldiff rts 0x1F) (mmio + Z.ldiff db 0x3)) ;;;
    BiosHandoff fuel polls ;;;
    ResetController polls ;;;
    say "[xHCI] Controller Reset Complete.\n" [] ;;;
    hcsparams1 <-- Read32 0x04 ;;
    let max_slots := Z.land hcsparams1 0xFF in
    say "[xHCI] Max Slots: %d\n" [KInt max_slots] ;;;
    SetupStructures max_slots ;;;
    say "[xHCI] Memory Structures Allocated & Registers Set.\n" [] ;;;
    say "[xHCI] Setting up MSI/MSI-X interrupts...\n" [] ;;;
    ok <-- SetupMSI fuel dev 0x50 ;;
    (if (ok : bool) then say "[xHCI] MSI/MSI-X setup successful.\n" []
     else say "[xHCI] Warning: MSI/MSI-X setup failed, interrupts may not work.\n" []) ;;;
    usbcmd <-- ReadOpReg 0x00 ;;
    WriteOpReg 0x00 (Z.lor usbcmd 1) ;;;
    say "[xHCI] Starting Controller..." [] ;;;
    wait_register polls (ReadOpReg 0x04) (fun v => negb (Z.land v 1 =? 0)) ;;;
    say " Running!\n" [].
End Xhci.
