(* ===== verification/XhciRings.v ===== *)
(** * The rings of the USB host controller

    The transfer ring of an endpoint, written by SendNormalTRB and read by the
    controller, and the event ring, written by the controller and read by
    PollEndpoint, as queues.  The other side of each ring is the controller of the
    xHCI specification: [fetch] (4.9.2) and [posted] (4.9.4). *)
From S2P Require Import Prelude Run Memory Machine Pci CycleRing Xhci.
#[local] Open Scope run_scope.

(** ** A transfer request block in memory *)

Record Trb := mkTrb { trb_parameter : Z; trb_status : Z; trb_control : Z }.

Section Trbs.
Context {W : Type} `{MachineLaws W}.
Implicit Types w : W.

Definition read_trb w (a : Z) : Trb := mkTrb (load 8 a w) (load 4 (a + 8) w) (load 4 (a + 12) w).
Definition store_trb (a : Z) (t : Trb) w : W :=
  store_at 4 (a + 12) (trb_control t) (store_at 4 (a + 8) (trb_status t) (store_at 8 a (trb_parameter t) w)).

(** the fields fit *)
Definition trb_ok (t : Trb) : Prop :=
  0 <= trb_parameter t < 2 ^ 64 /\ 0 <= trb_status t < 2 ^ 32 /\ 0 <= trb_control t < 2 ^ 32.

Lemma read_store_same a t w : trb_ok t -> read_trb (store_trb a t w) a = t.
Proof.
  intros (H1 & H2 & H3). unfold read_trb, store_trb. destruct t as [x y z]. cbn [trb_parameter trb_status trb_control] in *.
  f_equal.
  - rewrite !load_store_other by lia. by apply load_store_same.
  - rewrite load_store_other by lia. by apply load_store_same.
  - by apply load_store_same.
Qed.

Lemma read_store_other a t w b : b + 16 <= a \/ a + 16 <= b -> read_trb (store_trb a t w) b = read_trb w b.
Proof. intros Hd. unfold read_trb, store_trb. by rewrite !load_store_other by lia. Qed.

Lemma peek_store_trb a t w i : i < a \/ a + 16 <= i -> peek (store_trb a t w) i = peek w i.
Proof. intros Hd. unfold store_trb. by rewrite !peek_store_other by lia. Qed.

Lemma read_trb_ext a w w' : (forall i, a <= i < a + 16 -> peek w' i = peek w i) -> read_trb w' a = read_trb w a.
Proof. intros Hw. unfold read_trb. f_equal; apply load_ext; intros i Hi; apply Hw; lia. Qed.

Lemma read_trb_zero a w : (forall i, a <= i < a + 16 -> peek w i = 0) -> read_trb w a = mkTrb 0 0 0.
Proof.
  intros Hz. unfold read_trb, load.
  assert (Hl : forall n b, a <= b -> b + Z.of_nat n <= a + 16 -> le_val (peek_all b n w) = 0).
  { intros n. induction n as [|n IH]; intros b Hb He; [done|]. cbn [peek_all le_val]. rewrite Hz, IH by lia. lia. }
  f_equal; apply Hl; lia.
Qed.

(** the cycle bit, and the rest of the block *)
Definition cycle_bit (t : Trb) : Z := trb_control t mod 2.
Definition payload (t : Trb) : Trb := mkTrb (trb_parameter t) (trb_status t) (trb_control t - trb_control t mod 2).

Lemma with_cycle x y z c :
  z mod 2 = 0 -> c = 0 \/ c = 1 ->
  cycle_bit (mkTrb x y (z + c)) = c /\ payload (mkTrb x y (z + c)) = mkTrb x y z.
Proof. intros Hz Hc. unfold cycle_bit, payload. cbn [trb_parameter trb_status trb_control]. split; [|f_equal]; zlia. Qed.
End Trbs.

(** ** The controller's side of a transfer ring *)

Section Fetch.
Context {W : Type} `{Machine W}.

(** dequeue pointer and consumer cycle state *)
Definition consumer : Type := Z * Z.

(** the block at the dequeue pointer, if its cycle bit is the consumer's; a link block
    sends the pointer to its parameter and, with its toggle bit, complements the state *)
Definition fetch (c : consumer) (w : W) : option (Trb * consumer) :=
  let '(ptr, ccs) := c in
  let t := read_trb w ptr in
  if negb (cycle_bit t =? ccs) then None
  else if trb_type (trb_control t) =? 6 then
    let ptr' := trb_parameter t in
    let ccs' := if Z.testbit (trb_control t) 1 then 1 - ccs else ccs in
    let t' := read_trb w ptr' in
    if cycle_bit t' =? ccs' then Some (t', (ptr' + 16, ccs')) else None
  else Some (t, (ptr + 16, ccs)).
End Fetch.

(** the machine's devices do not write the 512 bytes from [ring] *)
Class DriverOwned (W : Type) `{Machine W} (ring : Z) := {
  owned_reg r v w a : ring <= a < ring + 512 -> peek (reg_write r v w) a = peek w a;
  owned_wbinvd w a : ring <= a < ring + 512 -> peek (cpu_wbinvd w) a = peek w a
}.

Section TransferRing.
Context {W M : Type} `{MachineLaws W} `{FrameAllocator M}.
Variables (slot_id ep_addr ring : Z).
Context `{!DriverOwned W ring}.
Hypothesis ring_place : 0 < ring /\ ring + 512 < 2 ^ 64.
Local Abbreviation Hst := (Host W M Controller).
Implicit Types s : Hst.

(** a transfer of [len] bytes at [buf] *)
Definition transfer : Type := Z * Z.
Definition transfer_ok (x : transfer) : Prop := 0 <= fst x < 2 ^ 64 /\ 0 <= snd x < 2 ^ 32.
(** a Normal block that interrupts on completion and on a short packet *)
Definition normal_trb (x : transfer) : Trb := mkTrb (fst x) (snd x) 0x424.

Local Abbreviation dci := (AddressToDCI ep_addr).
Definition ring_cyc (w : W) (i : Z) : Z := cycle_bit (read_trb w (trb_at ring i)).
Definition ring_ent (w : W) (i : Z) : Trb := payload (read_trb w (trb_at ring i)).

Definition link_trb (c : Z) : Trb := mkTrb ring 0 (0x1802 + c).

(** the consumer is at entry [p], or at the link block that leads to entry 0 *)
Inductive consumer_at (w : W) (p c k : Z) : consumer -> Prop :=
  | at_entry : (31 <= p + k -> read_trb w (trb_at ring 31) = link_trb c) -> consumer_at w p c k (trb_at ring p, c)
  | at_link : p = 0 -> read_trb w (trb_at ring 31) = link_trb (1 - c) ->
      consumer_at w p c k (trb_at ring 31, 1 - c).

(** the transfers [q] wait in the ring of the endpoint *)
Record ring_queue s (cons : consumer) (q : list transfer) : Prop := {
  rq_ring : ring_of slot_id dci (drv s) = ring;
  rq_room : zlen q <= 30;
  rq_ok : exists p c,
    waiting 31 p c (normal_trb <$> q) (ring_cyc (mach s)) (ring_ent (mach s))
    /\ index_of slot_id dci (drv s) = slot 31 p (zlen q)
    /\ cycle_of slot_id dci (drv s) = lap 31 p c (zlen q)
    /\ consumer_at (mach s) p c (zlen q) cons
}.

Lemma ring_cyc_bit w i : ring_cyc w i = 0 \/ ring_cyc w i = 1.
Proof. unfold ring_cyc, cycle_bit. zlia. Qed.

(** the same bytes, the same queue *)
Lemma ring_queue_ext s s' cons q :
  (forall a, ring <= a < ring + 512 -> peek (mach s') a = peek (mach s) a) ->
  ring_of slot_id dci (drv s') = ring_of slot_id dci (drv s) ->
  index_of slot_id dci (drv s') = index_of slot_id dci (drv s) ->
  cycle_of slot_id dci (drv s') = cycle_of slot_id dci (drv s) ->
  ring_queue s cons q -> ring_queue s' cons q.
Proof.
  intros Hmem Hr Hi Hc [R1 R2 (p & c & Hw & Hix & Hcy & Hcons)].
  assert (Htrb : forall i, 0 <= i < 32 -> read_trb (mach s') (trb_at ring i) = read_trb (mach s) (trb_at ring i)).
  { intros i Hir. apply read_trb_ext. intros a Ha. apply Hmem. unfold trb_at, sizeof_TRB in Ha. lia. }
  split; [congruence|done|]. exists p, c. split_and!; [|congruence..|].
  - eapply waiting_ext; [|exact Hw]. intros i Hir. unfold ring_cyc, ring_ent. by rewrite Htrb by lia.
  - destruct Hcons as [Hl|Hp Hl]; constructor; rewrite ?Htrb by lia; done.
Qed.

(** what the controller fetches *)
Lemma fetch_spec s cons q :
  ring_queue s cons q ->
  match q with
  | [] => fetch cons (mach s) = None
  | x :: q' => exists t cons', fetch cons (mach s) = Some (t, cons') /\ payload t = normal_trb x /\ ring_queue s cons' q'
  end.
Proof.
  intros [R1 R2 (p & c & Hw & Hix & Hcy & Hcons)].
  pose proof (wt_pos _ _ _ _ _ _ Hw) as Hp. pose proof (wt_cycle _ _ _ _ _ _ Hw) as Hc.
  assert (Hlink : trb_type (0x1802 + c) = 6 /\ Z.testbit (0x1802 + c) 1 = true /\ trb_type (0x1802 + (1 - c)) = 6
    /\ Z.testbit (0x1802 + (1 - c)) 1 = true) by (destruct Hc as [-> | ->]; done).
  destruct Hlink as (L1 & L2 & L3 & L4).
  assert (Er0 : trb_at ring 0 = ring) by (unfold trb_at, sizeof_TRB; lia).
  destruct q as [|x q'].
  - pose proof (waiting_none 31 ltac:(lia) _ _ _ _ Hw) as Hn. unfold ring_cyc in Hn. unfold fetch.
    destruct Hcons as [_ | -> Hl].
    + by rewrite (proj2 (Z.eqb_neq _ c)) by lia.
    + rewrite Hl. unfold link_trb, cycle_bit at 1. cbn [trb_control trb_parameter].
      rewrite (proj2 (Z.eqb_eq _ (1 - c))) by zlia. cbn [negb]. rewrite L3, L4. cbn [Z.eqb Pos.eqb].
      rewrite Er0 in Hn. by rewrite (proj2 (Z.eqb_neq _ _)) by lia.
  - assert (Hq' : zlen q' <= 29) by (rewrite zlen_cons in R2; lia). pose proof (zlen_nonneg q') as Hq0.
    cbn [fmap list_fmap] in Hw. destruct (waiting_head 31 ltac:(lia) _ _ _ _ _ _ Hw) as [Hcyc Hent].
    pose proof (waiting_take 31 ltac:(lia) _ _ _ _ _ _ Hw) as Hw'. unfold ring_cyc in Hcyc. unfold ring_ent in Hent.
    rewrite zlen_cons in Hix, Hcy, Hcons.
    assert (Hq : forall cons', consumer_at (mach s) (slot 31 p 1) (lap 31 p c 1) (zlen q') cons' -> ring_queue s cons' q').
    { intros cons' Hcons'. split; [done|lia|]. exists (slot 31 p 1), (lap 31 p c 1). split_and!; [done| | |done].
      - rewrite Hix. unfold slot. zcases; lia.
      - rewrite Hcy. unfold lap, slot. zcases; lia. }
    assert (Htype : trb_type (trb_control (read_trb (mach s) (trb_at ring p))) = 1).
    { pose proof (f_equal trb_control Hent) as Hctl. unfold payload in Hctl. cbn [trb_control normal_trb] in Hctl.
      unfold cycle_bit in Hcyc. set (z := trb_control _) in *. replace z with (0x424 + c) by lia.
      by destruct Hc as [-> | ->]. }
    destruct Hcons as [Hl | -> Hl]; unfold fetch.
    + rewrite Hcyc, Z.eqb_refl. cbn [negb]. rewrite Htype. cbn [Z.eqb].
      eexists _, _. split; [reflexivity|]. split; [exact Hent|]. apply Hq.
      destruct (decide (p = 30)) as [->|Hp30].
      * replace (trb_at ring 30 + 16) with (trb_at ring 31) by (unfold trb_at, sizeof_TRB; lia).
        change (slot 31 30 1) with 0. change (lap 31 30 c 1) with (1 - c).
        replace c with (1 - (1 - c)) at 2 by lia. apply at_link; [done|]. rewrite Hl by lia. f_equal. lia.
      * assert (Hs : slot 31 p 1 = p + 1 /\ lap 31 p c 1 = c) by (unfold slot, lap; zcases; lia).
        destruct Hs as [-> ->].
        replace (trb_at ring p + 16) with (trb_at ring (p + 1)) by (unfold trb_at, sizeof_TRB; lia).
        apply at_entry. intros Hle. apply Hl. lia.
    + rewrite Hl. unfold link_trb, cycle_bit at 1. cbn [trb_control trb_parameter].
      rewrite (proj2 (Z.eqb_eq _ (1 - c))) by zlia. cbn [negb]. rewrite L3, L4. cbn [Z.eqb Pos.eqb].
      rewrite Er0 in Hcyc, Hent. replace (1 - (1 - c)) with c by lia. rewrite Hcyc, Z.eqb_refl.
      eexists _, _. split; [reflexivity|]. split; [exact Hent|]. apply Hq.
      change (slot 31 0 1) with 1. change (lap 31 0 c 1) with c.
      replace (ring + 16) with (trb_at ring 1) by (unfold trb_at, sizeof_TRB; lia).
      apply at_entry. lia.
Qed.

Lemma write_trb_run a x y z s :
  write_trb a x y z s = Ret tt (with_mach s (store_trb a (mkTrb x y z) (mach s))).
Proof. done. Qed.

(** memory after the block [x] of entry [idx], with the link block when it was the last *)
Definition sent_memory (x : transfer) (idx pcs : Z) (w : W) : W :=
  let w1 := store_trb (trb_at ring idx) (mkTrb (fst x) (snd x) (0x424 + pcs)) w in
  if idx =? 30 then store_trb (trb_at ring 31) (link_trb pcs) w1 else w1.

Lemma SendNormalTRB_run x s :
  let idx := index_of slot_id dci (drv s) in
  let pcs := cycle_of slot_id dci (drv s) in
  ring_of slot_id dci (drv s) = ring -> 0 <= idx <= 30 -> pcs = 0 \/ pcs = 1 ->
  exists s', SendNormalTRB slot_id ep_addr (fst x) (snd x) s = Ret true s'
    /\ (forall a, ring <= a < ring + 512 -> peek (mach s') a = peek (sent_memory x idx pcs (mach s)) a)
    /\ ring_of slot_id dci (drv s') = ring
    /\ index_of slot_id dci (drv s') = (if idx =? 30 then 0 else idx + 1)
    /\ cycle_of slot_id dci (drv s') = (if idx =? 30 then 1 - pcs else pcs)
    /\ pool s' = pool s /\ out s' = out s
    /\ event_ring_index_ (drv s') = event_ring_index_ (drv s) /\ dcs_ (drv s') = dcs_ (drv s).
Proof.
  intros idx pcs Hring Hidx Hpcs. unfold SendNormalTRB, bind, my. rewrite Hring.
  rewrite (proj2 (Z.eqb_neq ring 0)) by lia. cbn match. fold idx pcs.
  rewrite write_trb_run. rewrite (u32_small (idx + 1)) by lia.
  assert (E1 : Z.lor (Z.lor (Z.lor (Z.land pcs 1) (Z.shiftl 1 10)) (Z.shiftl 1 5)) (Z.shiftl 1 2) = 0x424 + pcs)
    by (by destruct Hpcs as [-> | ->]).
  assert (E2 : Z.lor (Z.lor (Z.land pcs 1) (Z.shiftl 6 10)) (Z.shiftl 1 1) = 0x1802 + pcs)
    by (by destruct Hpcs as [-> | ->]).
  assert (E3 : Z.lxor pcs 1 = 1 - pcs) by (by destruct Hpcs as [-> | ->]).
  rewrite E1, E2, E3. cbn [change with_drv with_mach mach drv].
  assert ((idx + 1 =? 31) = (idx =? 30)) as -> by (clear; zcases; lia).
  unfold sent_memory. destruct (idx =? 30); cbn [ret]; eexists; (split; [reflexivity|]); cbn [mach drv pool out with_mach with_drv];
    (split; [intros a Ha; by rewrite owned_reg, owned_wbinvd by done|]).
  - unfold ring_of, index_of, cycle_of. cbn [transfer_rings_ ring_index_ ring_cycle_state_ set_position
      event_ring_index_ dcs_]. by rewrite !lookup_insert_eq.
  - unfold ring_of, index_of, cycle_of. cbn [transfer_rings_ ring_index_ ring_cycle_state_ set_position
      event_ring_index_ dcs_]. by rewrite !lookup_insert_eq.
Qed.

(** the blocks of the ring after that *)
Lemma sent_memory_trb x idx pcs w i :
  transfer_ok x -> 0 <= idx <= 30 -> pcs = 0 \/ pcs = 1 -> 0 <= i < 32 ->
  read_trb (sent_memory x idx pcs w) (trb_at ring i)
  = if i =? idx then mkTrb (fst x) (snd x) (0x424 + pcs)
    else if (i =? 31) && (idx =? 30) then link_trb pcs else read_trb w (trb_at ring i).
Proof.
  intros [Hx1 Hx2] Hidx Hpcs Hi. unfold sent_memory.
  assert (Hok : trb_ok (mkTrb (fst x) (snd x) (0x424 + pcs)) /\ trb_ok (link_trb pcs)).
  { unfold trb_ok, link_trb. cbn [trb_parameter trb_status trb_control]. lia. }
  destruct Hok as [Ok1 Ok2].
  assert (Hsame : forall j t w', i <> j -> read_trb (store_trb (trb_at ring j) t w') (trb_at ring i) = read_trb w' (trb_at ring i)).
  { intros j t w' Hj. apply read_store_other. unfold trb_at, sizeof_TRB. lia. }
  destruct (Z.eqb_spec i idx) as [->|Hne].
  - destruct (Z.eqb_spec idx 30); [rewrite Hsame by lia|]; by rewrite read_store_same.
  - destruct (Z.eqb_spec idx 30); [|rewrite andb_false_r; by apply Hsame].
    destruct (Z.eqb_spec i 31) as [->|]; cbn [andb]; [by rewrite read_store_same|]. by rewrite !Hsame by lia.
Qed.

(** what the driver sends is added at the end *)
Lemma SendNormalTRB_spec x s cons q :
  ring_queue s cons q -> transfer_ok x -> zlen q < 30 ->
  exists s', SendNormalTRB slot_id ep_addr (fst x) (snd x) s = Ret true s' /\ ring_queue s' cons (q ++ [x])
    /\ pool s' = pool s.
Proof.
  intros [R1 R2 (p & c & Hw & Hix & Hcy & Hcons)] Hx Hlt.
  pose proof (wt_pos _ _ _ _ _ _ Hw) as Hp. pose proof (wt_cycle _ _ _ _ _ _ Hw) as Hc.
  pose proof (zlen_nonneg q) as Hq0. set (k := zlen q) in *.
  assert (Hk : zlen (normal_trb <$> q) = k) by (unfold zlen; by rewrite length_fmap).
  assert (Hidx : 0 <= slot 31 p k <= 30) by (unfold slot; zcases; lia).
  assert (Hpcs : lap 31 p c k = 0 \/ lap 31 p c k = 1) by (unfold lap; zcases; lia).
  pose proof (SendNormalTRB_run x s) as HR. cbv zeta in HR. rewrite Hix, Hcy in HR.
  destruct (HR R1 Hidx Hpcs) as (s' & Hrun & Hmem & Hring & Hidx' & Hcyc' & Hpool & _). clear HR.
  exists s'. split; [done|]. split; [|done].
  assert (Htrb : forall i, 0 <= i < 32 -> read_trb (mach s') (trb_at ring i)
    = if i =? slot 31 p k then mkTrb (fst x) (snd x) (0x424 + lap 31 p c k)
      else if (i =? 31) && (slot 31 p k =? 30) then link_trb (lap 31 p c k) else read_trb (mach s) (trb_at ring i)).
  { intros i Hi. rewrite <- (sent_memory_trb x) by done. apply read_trb_ext.
    intros a Ha. apply Hmem. unfold trb_at, sizeof_TRB in Ha. lia. }
  split; [done|rewrite zlen_app; change (zlen [x]) with 1; lia|].
  exists p, c. rewrite zlen_app. change (zlen [x]) with 1. fold k. split_and!.
  - rewrite fmap_app. cbn [fmap list_fmap]. destruct (with_cycle (fst x) (snd x) 0x424 (lap 31 p c k)) as [Wc Wp]; [done|done|].
    apply (waiting_put 31 p c (normal_trb <$> q) (ring_cyc (mach s)) (ring_ent (mach s))); rewrite ?Hk;
      unfold ring_cyc, ring_ent.
    + exact Hw.
    + lia.
    + by rewrite Htrb, Z.eqb_refl by lia.
    + by rewrite Htrb, Z.eqb_refl by lia.
    + intros j Hj Hne. rewrite Htrb by lia. by rewrite (proj2 (Z.eqb_neq _ _) Hne), (proj2 (Z.eqb_neq j 31)) by lia.
  - rewrite Hidx'. unfold slot in *. clear - Hp Hlt Hq0. zcases; lia.
  - rewrite Hcyc'. unfold slot, lap in *. clear - Hp Hlt Hq0. zcases; lia.
  - assert (Hl31 : read_trb (mach s') (trb_at ring 31)
      = if slot 31 p k =? 30 then link_trb (lap 31 p c k) else read_trb (mach s) (trb_at ring 31)).
    { rewrite Htrb by lia. by rewrite (proj2 (Z.eqb_neq 31 _)) by lia. }
    destruct Hcons as [Hl | -> Hl]; constructor; [|done|].
    + intros Hle. rewrite Hl31. destruct (Z.eqb_spec (slot 31 p k) 30) as [He|He].
      * f_equal. unfold slot, lap in *. clear - He Hp Hlt Hq0. zcases; lia.
      * apply Hl. unfold slot in He. clear - He Hle Hp. zcases; lia.
    + rewrite Hl31. rewrite (proj2 (Z.eqb_neq _ 30)); [done|]. unfold slot. clear - Hlt Hq0. zcases; lia.
Qed.

(** what the rings start as: zeroed, the driver at entry 0, the controller told
    [ring | 1] as dequeue pointer with its cycle state *)
Record fresh_ring s : Prop := {
  fr_ring : ring_of slot_id dci (drv s) = ring;
  fr_index : index_of slot_id dci (drv s) = 0;
  fr_cycle : cycle_of slot_id dci (drv s) = 1;
  fr_zero : forall a, ring <= a < ring + 512 -> peek (mach s) a = 0
}.

Lemma fresh_ring_queue s : fresh_ring s -> ring_queue s (ring, 1) [].
Proof.
  intros [F1 F2 F3 F4].
  assert (Hz : forall i, 0 <= i < 32 -> read_trb (mach s) (trb_at ring i) = mkTrb 0 0 0).
  { intros i Hi. apply read_trb_zero. intros a Ha. apply F4. unfold trb_at, sizeof_TRB in Ha. lia. }
  split; [done|unfold zlen; cbn; lia|]. exists 0, 1. split_and!.
  - apply waiting_fresh; [lia|]. intros i Hi. unfold ring_cyc. by rewrite Hz by lia.
  - by rewrite F2.
  - by rewrite F3.
  - replace ring with (trb_at ring 0) at 1 by (unfold trb_at, sizeof_TRB; lia). apply at_entry.
    change (zlen (@nil transfer)) with 0. lia.
Qed.

(** any exchange over the ring: the driver sends, the controller fetches, and in
    between the machine does other things; [sent] and [got] are the histories *)
Inductive exchange (s0 : Hst) : Hst -> consumer -> list transfer -> list Trb -> Prop :=
  | ex_start : fresh_ring s0 -> exchange s0 s0 (ring, 1) [] []
  | ex_send s cons sent got x s' :
      exchange s0 s cons sent got -> transfer_ok x -> zlen sent < zlen got + 30 ->
      SendNormalTRB slot_id ep_addr (fst x) (snd x) s = Ret true s' ->
      exchange s0 s' cons (sent ++ [x]) got
  | ex_fetch s cons sent got t cons' :
      exchange s0 s cons sent got -> fetch cons (mach s) = Some (t, cons') ->
      exchange s0 s cons' sent (got ++ [t])
  | ex_other s cons sent got s' :
      exchange s0 s cons sent got ->
      (forall a, ring <= a < ring + 512 -> peek (mach s') a = peek (mach s) a) ->
      ring_of slot_id dci (drv s') = ring_of slot_id dci (drv s) ->
      index_of slot_id dci (drv s') = index_of slot_id dci (drv s) ->
      cycle_of slot_id dci (drv s') = cycle_of slot_id dci (drv s) ->
      exchange s0 s' cons sent got.

Lemma exchange_queue s0 s cons sent got :
  exchange s0 s cons sent got ->
  exists q, ring_queue s cons q /\ normal_trb <$> sent = (payload <$> got) ++ (normal_trb <$> q).
Proof.
  induction 1 as [Hf|s cons sent got x s' _ (q & Hq & Heq) Hx Hlt Hrun|s cons sent got t cons' _ (q & Hq & Heq) Hfetch
    |s cons sent got s' _ (q & Hq & Heq) Hmem Hr Hi Hc].
  - exists []. split; [by apply fresh_ring_queue|done].
  - assert (Hlen : zlen q < 30).
    { apply (f_equal length) in Heq. rewrite length_app, !length_fmap in Heq. unfold zlen in *. lia. }
    destruct (SendNormalTRB_spec x s cons q Hq Hx Hlen) as (s1 & Hrun1 & Hq1 & _).
    exists (q ++ [x]). split; [congruence|]. by rewrite !fmap_app, Heq, app_assoc.
  - pose proof (fetch_spec s cons q Hq) as Hf. destruct q as [|x q]; [congruence|].
    destruct Hf as (t' & cons1 & Hf & Ht & Hq'). rewrite Hfetch in Hf. injection Hf as <- <-.
    exists q. split; [done|]. rewrite Heq, fmap_app, <- app_assoc. cbn. by rewrite Ht.
  - exists q. split; [|done]. by eapply ring_queue_ext.
Qed.

(** C18: Over any interleaving of the driver and the controller with at most 30
    transfers outstanding, so across every wrap of the ring and of the cycle bits, the
    controller fetches exactly the transfers sent, in order and once; it finds the ring
    empty exactly when nothing is outstanding; and SendNormalTRB always succeeds while
    fewer than 30 are. *)
Theorem transfer_ring_fifo s0 s cons sent got :
  exchange s0 s cons sent got ->
  exists q, normal_trb <$> sent = (payload <$> got) ++ (normal_trb <$> q)
    /\ match q with
       | [] => fetch cons (mach s) = None
       | x :: _ => exists t cons', fetch cons (mach s) = Some (t, cons') /\ payload t = normal_trb x
       end
    /\ forall x, transfer_ok x -> zlen q < 30 ->
        exists s', SendNormalTRB slot_id ep_addr (fst x) (snd x) s = Ret true s' /\ pool s' = pool s.
Proof.
  intros Hex. destruct (exchange_queue s0 s cons sent got Hex) as (q & Hq & Heq). exists q. split_and!.
  - done.
  - pose proof (fetch_spec s cons q Hq) as Hf. destruct q as [|x q]; [done|]. destruct Hf as (t & cons' & Hf & Ht & _).
    by exists t, cons'.
  - intros x Hx Hlt. destruct (SendNormalTRB_spec x s cons q Hq Hx Hlt) as (s' & Hrun & _ & Hp). by exists s'.
Qed.
End TransferRing.

(** ** The event ring *)

Section EventRing.
Context {W M : Type} `{MachineLaws W} `{FrameAllocator M}.
Variable ring : Z.
Local Abbreviation Hst := (Host W M Controller).
Implicit Types (s : Hst) (h q es : list Trb).

(** an event as the controller makes it: the cycle bit is added when it is posted *)
Definition event_ok (e : Trb) : Prop := trb_ok e /\ trb_control e mod 2 = 0.
Definition marked (e : Trb) (c : Z) : Trb := mkTrb (trb_parameter e) (trb_status e) (trb_control e + c).

(** the controller's enqueue position and producer cycle state *)
Definition producer : Type := Z * Z.
Definition next_entry (pr : producer) : producer :=
  let '(i, c) := pr in if i + 1 =? 32 then (0, 1 - c) else (i + 1, c).

Definition entries (w : W) (i : Z) : Trb := read_trb w (trb_at ring i).

(** the ring after the events [es] were posted *)
Fixpoint posted (pr : producer) es (f : Z -> Trb) : producer * (Z -> Trb) :=
  match es with
  | [] => (pr, f)
  | e :: es' => posted (next_entry pr) es' (fun j => if j =? fst pr then marked e (snd pr) else f j)
  end.

(** from [w] to [w'] the controller posts [es] and leaves the other entries *)
Definition posts (pr : producer) es (w w' : W) (pr' : producer) : Prop :=
  Forall event_ok es
  /\ let '(pr1, f) := posted pr es (entries w) in
     pr' = pr1 /\ forall j, 0 <= j < 32 -> entries w' j = f j.

Definition at_producer (p c : Z) q (pr : producer) : Prop := pr = (slot 32 p (zlen q), lap 32 p c (zlen q)).

(** the events [q] wait; the driver reads at [p] with state [c] *)
Definition ev_waiting (p c : Z) q (f : Z -> Trb) : Prop :=
  waiting 32 p c q (fun i => cycle_bit (f i)) (fun i => payload (f i)).

Lemma posted_waiting es : forall p c q pr f,
  Forall event_ok es -> ev_waiting p c q f -> at_producer p c q pr -> zlen q + zlen es <= 32 ->
  let '(pr', f') := posted pr es f in ev_waiting p c (q ++ es) f' /\ at_producer p c (q ++ es) pr'.
Proof.
  induction es as [|e es IH]; intros p c q pr f Hok Hw Hpr Hlen; cbn [posted].
  { by rewrite app_nil_r. }
  apply Forall_cons in Hok as [[_ Heven] Hok]. rewrite zlen_cons in Hlen. pose proof (zlen_nonneg es) as He0.
  pose proof (zlen_nonneg q) as Hq0. pose proof (wt_pos _ _ _ _ _ _ Hw) as Hp. pose proof (wt_cycle _ _ _ _ _ _ Hw) as Hc.
  unfold at_producer in Hpr. subst pr. cbn [fst snd].
  assert (Hlap : lap 32 p c (zlen q) = 0 \/ lap 32 p c (zlen q) = 1) by (unfold lap; zcases; lia).
  replace (q ++ e :: es) with ((q ++ [e]) ++ es) by (by rewrite <- app_assoc).
  apply IH; [done| | |rewrite zlen_app; change (zlen [e]) with 1; lia].
  - destruct (with_cycle (trb_parameter e) (trb_status e) (trb_control e) _ Heven Hlap) as [Wc Wp].
    eapply (waiting_put 32 p c q); [exact Hw|lia| | |]; cbv beta; rewrite ?Z.eqb_refl.
    + exact Wc.
    + destruct e. exact Wp.
    + intros j Hj Hne. by rewrite (proj2 (Z.eqb_neq _ _) Hne).
  - unfold at_producer. rewrite zlen_app. change (zlen [e]) with 1. cbn [next_entry].
    unfold slot, lap in *. clear - Hp Hlen He0 Hq0. zcases; f_equal; lia.
Qed.

(** what a poll of [slot_id] and [ep_addr] makes of an event *)
Definition event_code (slot_id ep_addr : Z) (e : Trb) : Z :=
  if (trb_type (trb_control e) =? 32)
     && ((Z.land (Z.shiftr (trb_control e) 24) 0xFF =? slot_id)
         && (Z.land (Z.shiftr (trb_control e) 16) 0x1F =? AddressToDCI ep_addr))
  then completion_code (trb_status e) else -1.

(** the cycle bit is not part of the fields *)
Lemma fields_marked z c k n : 0 < k -> z mod 2 = 0 -> c = 0 \/ c = 1 ->
  Z.land (Z.shiftr (z + c) k) (Z.ones n) = Z.land (Z.shiftr z k) (Z.ones n).
Proof.
  intros Hk Hz Hc. f_equal. rewrite !Z.shiftr_div_pow2 by lia.
  replace (2 ^ k) with (2 * 2 ^ (k - 1)) by (rewrite <- Z.pow_succ_r by lia; f_equal; lia).
  rewrite <- !Z.div_div by lia. f_equal. zlia.
Qed.

Lemma event_code_payload slot_id ep_addr t : event_code slot_id ep_addr (payload t) = event_code slot_id ep_addr t.
Proof.
  unfold event_code, payload, trb_type. cbn [trb_control trb_status].
  set (z := trb_control t - trb_control t mod 2).
  assert (Hz : trb_control t = z + trb_control t mod 2) by (unfold z; lia).
  assert (Hm : z mod 2 = 0) by (unfold z; zlia). assert (Hc : trb_control t mod 2 = 0 \/ trb_control t mod 2 = 1) by zlia.
  pose proof (fun k n Hk => fields_marked z _ k n Hk Hm Hc) as Hf. rewrite <- Hz in Hf.
  change 0x3F with (Z.ones 6). change 0xFF with (Z.ones 8). change 0x1F with (Z.ones 5).
  by rewrite !Hf by lia.
Qed.

Record event_queue s (pr : producer) q : Prop := {
  eq_ring : event_ring_ (drv s) = ring;
  eq_waiting : ev_waiting (event_ring_index_ (drv s)) (dcs_ (drv s)) q (entries (mach s));
  eq_producer : at_producer (event_ring_index_ (drv s)) (dcs_ (drv s)) q pr
}.

Lemma event_queue_posts s s' pr q es pr' :
  event_ring_ (drv s') = ring -> event_ring_index_ (drv s') = event_ring_index_ (drv s) -> dcs_ (drv s') = dcs_ (drv s) ->
  posts pr es (mach s) (mach s') pr' -> zlen q + zlen es <= 32 ->
  event_queue s pr q -> event_queue s' pr' (q ++ es).
Proof.
  intros Hr Hi Hd [Hok Hposts] Hlen [Q1 Q2 Q3].
  pose proof (posted_waiting es _ _ q pr (entries (mach s)) Hok Q2 Q3 Hlen) as HP.
  destruct (posted pr es (entries (mach s))) as [pr1 f]. destruct Hposts as [-> Hf]. destruct HP as [HP1 HP2].
  split; rewrite ?Hi, ?Hd; [done| |done].
  eapply waiting_ext; [|exact HP1]. intros i Hir. cbv beta. by rewrite Hf.
Qed.

(** the driver's members, and the registers that tell the controller, after an event *)
Definition told (x : Controller) (w : W) : W :=
  let erdp := trb_at (event_ring_ x) (event_ring_index_ x) in
  reg_write (rt_regs_base_ x + 0x3C) (Z.shiftr erdp 32)
    (reg_write (rt_regs_base_ x + 0x38) (Z.lor (Z.land erdp 0xFFFFFFFF) 8) w).

Definition advanced (x : Controller) : Controller :=
  let index := u32 (event_ring_index_ x + 1) in
  if index =? 32 then set_event 0 (Z.lxor (dcs_ x) 1) x else set_event index (dcs_ x) x.

Lemma advance_event_ring_run s :
  advance_event_ring s = Ret tt (with_mach (with_drv s (advanced (drv s))) (told (advanced (drv s)) (mach s))).
Proof. done. Qed.

Lemma PollEndpoint_run slot_id ep_addr s :
  let t := entries (mach s) (event_ring_index_ (drv s)) in
  event_ring_ (drv s) = ring ->
  PollEndpoint slot_id ep_addr s
  = if cycle_bit t =? dcs_ (drv s)
    then Ret (event_code slot_id ep_addr t)
           (with_mach (with_drv s (advanced (drv s))) (told (advanced (drv s)) (mach s)))
    else Ret (-1) s.
Proof.
  intros t Hring. unfold PollEndpoint, bind, my, id, look. rewrite Hring. unfold t, entries, cycle_bit, event_code.
  cbn [read_trb trb_control trb_status]. rewrite land_bit0. set (z := load 4 _ _ mod 2).
  destruct (z =? dcs_ (drv s)); [|done]. rewrite advance_event_ring_run. unfold ret.
  destruct (trb_type _ =? 32); done.
Qed.

Lemma ProcessInterrupt_run s :
  event_ring_ (drv s) = ring ->
  exists o, ProcessInterrupt_event s
  = if cycle_bit (entries (mach s) (event_ring_index_ (drv s))) =? dcs_ (drv s)
    then Ret tt (mkHost (told (advanced (drv s)) (mach s)) (pool s) (advanced (drv s)) o)
    else Ret tt (mkHost (mach s) (pool s) (drv s) o).
Proof.
  intros Hring. exists (out s ++ [KP (c_lit "[xHCI] ProcessInterrupt()\\n") []]).
  unfold ProcessInterrupt_event, bind, say, next_event, my, id, look, bind, ret. cbn [drv mach snd].
  rewrite Hring, land_bit0. unfold entries, cycle_bit. cbn [read_trb trb_control].
  destruct (_ mod 2 =? _); [|done]. by rewrite advance_event_ring_run.
Qed.

(** the position after an event *)
Lemma advanced_position x :
  0 <= event_ring_index_ x < 32 -> dcs_ x = 0 \/ dcs_ x = 1 ->
  event_ring_ (advanced x) = event_ring_ x
  /\ event_ring_index_ (advanced x) = slot 32 (event_ring_index_ x) 1
  /\ dcs_ (advanced x) = lap 32 (event_ring_index_ x) (dcs_ x) 1.
Proof.
  intros Hi Hd. unfold advanced, slot, lap. rewrite u32_small by lia.
  assert (Z.lxor (dcs_ x) 1 = 1 - dcs_ x) by (by destruct Hd as [-> | ->]).
  destruct (Z.eqb_spec (event_ring_index_ x + 1) 32); cbn [event_ring_ event_ring_index_ dcs_ set_event];
    split_and!; try done; zcases; lia.
Qed.

(** what is left after the first event was taken, before the controller acts again *)
Lemma advanced_queue s pr e q :
  event_queue s pr (e :: q) ->
  let x := advanced (drv s) in
  event_ring_ x = ring /\ ev_waiting (event_ring_index_ x) (dcs_ x) q (entries (mach s))
  /\ at_producer (event_ring_index_ x) (dcs_ x) q pr.
Proof.
  intros [Q1 Q2 Q3] x. pose proof (wt_pos _ _ _ _ _ _ Q2) as Hp. pose proof (wt_cycle _ _ _ _ _ _ Q2) as Hc.
  pose proof (wt_len _ _ _ _ _ _ Q2) as Hl. rewrite zlen_cons in Hl. pose proof (zlen_nonneg q) as Hq0.
  destruct (advanced_position (drv s) Hp Hc) as (A1 & A2 & A3). unfold x.
  split; [congruence|]. rewrite A2, A3. split.
  - exact (waiting_take 32 ltac:(lia) _ _ _ _ _ _ Q2).
  - unfold at_producer in *. rewrite Q3, zlen_cons. unfold slot, lap. clear - Hp Hl Hq0. zcases; f_equal; lia.
Qed.

Record fresh_event_ring s : Prop := {
  fe_ring : event_ring_ (drv s) = ring;
  fe_index : event_ring_index_ (drv s) = 0;
  fe_dcs : dcs_ (drv s) = 1;
  fe_zero : forall a, ring <= a < ring + 512 -> peek (mach s) a = 0
}.

Lemma fresh_event_queue s : fresh_event_ring s -> event_queue s (0, 1) [].
Proof.
  intros [F1 F2 F3 F4]. split; rewrite ?F2, ?F3; [done| |done].
  apply waiting_fresh; [lia|]. intros i Hi. cbv beta. unfold entries.
  rewrite read_trb_zero; [done|]. intros a Ha. apply F4. unfold trb_at, sizeof_TRB in Ha. lia.
Qed.

(** the driver takes an event, if there is one *)
Definition takes s s' : Prop :=
  (exists slot_id ep_addr r, PollEndpoint slot_id ep_addr s = Ret r s') \/ ProcessInterrupt_event s = Ret tt s'.

(** any run of polls and interrupts with a controller that posts events [h] in order
    and never more than the 32 entries it was told are free; [n] were taken *)
Inductive polling (s0 : Hst) : Hst -> producer -> list Trb -> nat -> Prop :=
  | po_start : fresh_event_ring s0 -> polling s0 s0 (0, 1) [] 0
  | po_take s pr h n s' es pr' (n' := if (n <? length h)%nat then S n else n) :
      polling s0 s pr h n -> takes s s' ->
      posts pr es (mach s) (mach s') pr' -> (length (h ++ es) <= n' + 32)%nat ->
      polling s0 s' pr' (h ++ es) n'
  | po_other s pr h n s' es pr' :
      polling s0 s pr h n ->
      event_ring_ (drv s') = event_ring_ (drv s) -> event_ring_index_ (drv s') = event_ring_index_ (drv s) ->
      dcs_ (drv s') = dcs_ (drv s) ->
      posts pr es (mach s) (mach s') pr' -> (length (h ++ es) <= n + 32)%nat ->
      polling s0 s' pr' (h ++ es) n.

(** what a step of the driver does to its members *)
Lemma takes_drv s s' pr q :
  event_queue s pr q -> takes s s' -> drv s' = match q with [] => drv s | _ :: _ => advanced (drv s) end.
Proof.
  intros [Q1 Q2 Q3] Ht. set (t := entries (mach s) (event_ring_index_ (drv s))).
  assert (Hcyc : (cycle_bit t =? dcs_ (drv s)) = match q with [] => false | _ :: _ => true end).
  { pose proof (wt_cycle _ _ _ _ _ _ Q2) as Hc. destruct q as [|e q].
    - pose proof (waiting_none 32 ltac:(lia) _ _ _ _ Q2) as Hn. cbv beta in Hn. fold t in Hn.
      apply Z.eqb_neq. lia.
    - destruct (waiting_head 32 ltac:(lia) _ _ _ _ _ _ Q2) as [Hn _]. cbv beta in Hn. fold t in Hn. lia. }
  destruct Ht as [(slot_id & ep_addr & r & Ht)|Ht].
  - rewrite (PollEndpoint_run slot_id ep_addr s Q1) in Ht. fold t in Ht. rewrite Hcyc in Ht.
    destruct q; injection Ht as _ <-; done.
  - destruct (ProcessInterrupt_run s Q1) as [o Ho]. rewrite Ho in Ht. fold t in Ht. rewrite Hcyc in Ht.
    destruct q; injection Ht as <-; done.
Qed.

Lemma polling_queue s0 s pr h n :
  polling s0 s pr h n ->
  (n <= length h)%nat /\ event_queue s pr (drop n h) /\ event_ring_index_ (drv s) = Z.of_nat n mod 32.
Proof.
  induction 1 as [Hf|s pr h n s' es pr' n' _ (Hn & Hq & Hi) Ht Hpost Hlen|s pr h n s' es pr' _ (Hn & Hq & Hi) Er Ei Ed Hpost Hlen].
  - split; [done|]. split; [by apply fresh_event_queue|]. by rewrite (fe_index _ Hf).
  - pose proof (takes_drv s s' pr _ Hq Ht) as Hdrv. unfold n' in *. clear n'.
    rewrite length_app in *. destruct (Nat.ltb_spec n (length h)) as [Hlt|Hge].
    + rewrite (drop_S h (default (mkTrb 0 0 0) (h !! n)) n) in Hq, Hdrv
        by (destruct (lookup_lt_is_Some_2 h n Hlt) as [e He]; by rewrite He).
      destruct (advanced_queue s pr _ _ Hq) as (A1 & A2 & A3).
      destruct (advanced_position (drv s)) as (_ & A4 & _);
        [exact (wt_pos _ _ _ _ _ _ (eq_waiting _ _ _ Hq))|exact (wt_cycle _ _ _ _ _ _ (eq_waiting _ _ _ Hq))|].
      split; [lia|]. split.
      * rewrite drop_app_le by lia.
        apply (event_queue_posts (with_drv s (advanced (drv s))) s' pr (drop (S n) h) es pr');
          cbn [drv with_drv mach]; rewrite ?Hdrv; try done.
        unfold zlen. rewrite length_drop. lia.
      * rewrite Hdrv, A4, Hi. unfold slot. zcases; zlia.
    + rewrite (drop_ge h n) in Hq, Hdrv by lia. split; [lia|]. split; [|by rewrite Hdrv].
      rewrite drop_app_le by lia. rewrite (drop_ge h n) by lia.
      apply (event_queue_posts s s' pr [] es pr'); rewrite ?Hdrv; try done; [apply (eq_ring _ _ _ Hq)|].
      change (zlen []) with 0. unfold zlen. lia.
  - split; [rewrite length_app; lia|]. rewrite Ei. split; [|done]. rewrite drop_app_le by lia.
    eapply event_queue_posts; [by rewrite Er, (eq_ring _ _ _ Hq)|done|done|exact Hpost| |exact Hq].
    rewrite length_app in Hlen. unfold zlen. rewrite length_drop. lia.
Qed.

(** C19: Whatever events the controller has posted and however polls and interrupts were
    interleaved with it, so across every wrap of the event ring, the next poll looks at
    the first event not yet taken: it returns the completion code when that is a
    transfer event of the endpoint asked about, and -1 when it is another event or
    there is none; an event is taken by exactly one poll or interrupt, after which the
    controller is told the place of the next one. *)
Theorem event_ring_fifo s0 s pr h n :
  polling s0 s pr h n ->
  (n <= length h)%nat /\ forall slot_id ep_addr, exists s',
    PollEndpoint slot_id ep_addr s = Ret (match h !! n with Some e => event_code slot_id ep_addr e | None => -1 end) s'
    /\ match h !! n with
       | Some _ => event_ring_index_ (drv s') = (Z.of_nat n + 1) mod 32 /\ mach s' = told (drv s') (mach s)
       | None => s' = s
       end.
Proof.
  intros Hpol. destruct (polling_queue s0 s pr h n Hpol) as (Hn & Hq & Hi). split; [done|].
  intros slot_id ep_addr. pose proof Hq as [Q1 Q2 _].
  pose proof (wt_pos _ _ _ _ _ _ Q2) as Hp. pose proof (wt_cycle _ _ _ _ _ _ Q2) as Hc.
  rewrite (PollEndpoint_run slot_id ep_addr s Q1). destruct (h !! n) as [e|] eqn:He.
  - rewrite (drop_S h e n He) in Q2.
    destruct (waiting_head 32 ltac:(lia) _ _ _ _ _ _ Q2) as [Hcyc Hent]. cbv beta in Hcyc, Hent.
    rewrite Hcyc, Z.eqb_refl. eexists. rewrite <- Hent at 1. rewrite event_code_payload. split; [reflexivity|].
    cbn [drv mach with_mach with_drv]. destruct (advanced_position (drv s) Hp Hc) as (_ & A2 & _).
    split; [|done]. rewrite A2, Hi. unfold slot. zcases; zlia.
  - apply lookup_ge_None_1 in He. rewrite drop_ge in Q2 by lia.
    pose proof (waiting_none 32 ltac:(lia) _ _ _ _ Q2) as Hcyc. cbv beta in Hcyc.
    rewrite (proj2 (Z.eqb_neq _ _)) by lia. by exists s.
Qed.
End EventRing.

(** ** Concrete rings *)

#[export] Instance Ram_owned ring : DriverOwned Ram.t ring.
Proof. by split. Qed.

(** endpoint 0x81 of slot 1 with its ring at 4096, the event ring at 8192 *)
Definition sample_host : Host Ram.t MemoryManager.t Controller :=
  mkHost ∅ sample (set_position 1 3 1 0 (set_ring 1 3 4096 (set_structures 8 0 0 8192 0 (new_Controller (at_slot 0 0 0))))) [].

(** after a transfer was sent, and what the controller then fetches *)
Definition sample_sent : Host Ram.t MemoryManager.t Controller :=
  match SendNormalTRB 1 0x81 65536 8 sample_host with Ret _ s => s | _ => sample_host end.
Definition sample_fetched : Trb := mkTrb 65536 8 0x425.

Lemma transfer_ring_fifo_witness :
  exchange 1 0x81 4096 sample_host sample_sent (4112, 1) [(65536, 8)] [sample_fetched]
  /\ exists q, [mkTrb 65536 8 0x424] = [payload sample_fetched] ++ (normal_trb <$> q).
Proof.
  assert (Hplace : 0 < 4096 /\ 4096 + 512 < 2 ^ 64) by lia.
  assert (Hfresh : fresh_ring 1 0x81 4096 sample_host).
  { split; [reflexivity..|]. intros a _. reflexivity. }
  assert (Hsend : SendNormalTRB 1 0x81 65536 8 sample_host = Ret true sample_sent) by (vm_compute; reflexivity).
  assert (Hfetch : fetch (4096, 1) (mach sample_sent) = Some (sample_fetched, (4112, 1))) by (vm_compute; reflexivity).
  assert (Hok : transfer_ok (65536, 8)) by (split; cbn; lia).
  pose proof (ex_start 1 0x81 4096 sample_host Hfresh) as Hex0.
  pose proof (ex_send 1 0x81 4096 _ _ _ _ _ (65536, 8) _ Hex0 Hok eq_refl Hsend) as Hex1.
  pose proof (ex_fetch 1 0x81 4096 _ _ _ _ _ _ _ Hex1 Hfetch) as Hex2.
  destruct (transfer_ring_fifo 1 0x81 4096 Hplace _ _ _ _ _ Hex2) as (q & Heq & _).
  split; [exact Hex2|]. exists q. exact Heq.
Defined.

(** the completion, with code 1, of a transfer on endpoint 0x81 of slot 1 *)
Definition sample_event : Trb := mkTrb 4096 0x01000000 0x01038000.

Lemma event_ring_fifo_witness : exists s pr,
  polling 8192 sample_host s pr [sample_event] 0
  /\ (exists s', PollEndpoint 1 0x81 s = Ret 1 s') /\ (exists s', PollEndpoint 1 0x82 s = Ret (-1) s').
Proof.
  assert (Hfresh : fresh_event_ring 8192 sample_host).
  { split; [reflexivity..|]. intros a _. reflexivity. }
  pose proof (po_start 8192 sample_host Hfresh) as Hpol.
  eapply (po_other 8192 _ _ _ _ _ (with_mach sample_host (store_trb 8192 (marked sample_event 1) ∅)) [sample_event]) in Hpol;
    [|reflexivity..| |cbn; lia].
  2: { split.
       - constructor; [|constructor]. vm_compute. intuition discriminate.
       - cbn [posted next_entry fst snd]. split; [reflexivity|]. intros j Hj. destruct (Z.eqb_spec j 0) as [->|Hne].
         + apply (read_store_same 8192). vm_compute. intuition discriminate.
         + unfold entries, trb_at, sizeof_TRB. cbn [mach with_mach]. apply read_store_other. lia. }
  destruct (event_ring_fifo 8192 _ _ _ _ _ Hpol) as [_ Hall].
  eexists _, _. split; [exact Hpol|].
  destruct (Hall 1 0x81) as (s1 & HR1 & _). destruct (Hall 1 0x82) as (s2 & HR2 & _).
  split; [exists s1; exact HR1|exists s2; exact HR2].
Defined.
