(* ===== verification/Usb.v ===== *)
(** * The USB drivers' view of the controller (driver/usb/usb.hpp)

    [Class UsbController] is what the keyboard and the mass storage driver call on
    their [controller_]; the rest is the layout of descriptors in memory and the
    loop over a configuration that both drivers have. *)
From S2P Require Import Prelude Run Memory Machine.
#[local] Open Scope run_scope.

(** the methods of XHCI::Controller that drivers use; the arguments are those of the
    methods, in order *)
Class UsbController (W M X : Type) := {
  ControlIn : Z -> Z -> Z -> Z -> Z -> Z -> Z -> Host W M X -> Run (Host W M X) bool;
  ConfigureEndpoint : Z -> Z -> Z -> Z -> Z -> Host W M X -> Run (Host W M X) bool;
  PollEndpoint : Z -> Z -> Host W M X -> Run (Host W M X) Z;
  SendNormalTRB : Z -> Z -> Z -> Z -> Host W M X -> Run (Host W M X) bool
}.

Section Descriptors.
Context {W M X : Type} `{Machine W}.
Local Abbreviation HR := (fun A => Host W M X -> Run (Host W M X) A).

(** packed structures: the fields by their offsets *)
Definition sizeof_DeviceDescriptor : Z := 18.
Definition cd_total_length (cd : Z) : HR Z := look 2 (cd + 2).
Definition desc_length (p : Z) : HR Z := look 1 p.
Definition desc_type (p : Z) : HR Z := look 1 (p + 1).
Definition id_interface_class (p : Z) : HR Z := look 1 (p + 5).
Definition id_interface_sub_class (p : Z) : HR Z := look 1 (p + 6).
Definition id_interface_protocol (p : Z) : HR Z := look 1 (p + 7).
Definition ed_endpoint_address (p : Z) : HR Z := look 1 (p + 2).
Definition ed_attributes (p : Z) : HR Z := look 1 (p + 3).

(** the interface at [p] has this class, subclass and protocol *)
Definition interface_matches (p class sub protocol : Z) : HR bool :=
  c <-- id_interface_class p ;;
  s <-- id_interface_sub_class p ;;
  r <-- id_interface_protocol p ;;
  ret ((c =? class) && (s =? sub) && (r =? protocol)).

(** memcpy between buffers that do not overlap *)
Definition copy_bytes (dest src n : Z) : HR unit := fun s =>
  Ret tt (with_mach s (poke_all dest (peek_all src (Z.to_nat n) (mach s)) (mach s))).
End Descriptors.

