(* ===== verification/UsbKeyboard.v ===== *)
(** * The USB keyboard (driver/usb/keyboard)

    Boot protocol reports of eight bytes arrive in [buf_]; the keys that were not in
    the report before, [prev_buf_], are looked up in two tables and go to the
    KeyboardFD of standard input. *)
From S2P Require Import Prelude Run Memory Machine Rings Usb.
#[local] Open Scope run_scope.

(** the object: its address and the members that are not in buffers *)
Record Keyboard := mkKeyboard { this : Z; slot_id_ : Z; ep_interrupt_in_ : Z }.

Definition sizeof_Keyboard : Z := 32.
Definition buf_ (kb : Keyboard) : Z := this kb + 10.
Definition prev_buf_ (kb : Keyboard) : Z := this kb + 18.

(** the constructor *)
Definition new_Keyboard (obj slot_id : Z) : Keyboard := mkKeyboard obj slot_id 0.
Definition set_ep (kb : Keyboard) (ep : Z) : Keyboard := mkKeyboard (this kb) (slot_id_ kb) ep.

Definition kHidToAsciiMap : list Z :=
  [0; 0; 0; 0] ++ c_lit "abcdefghijklmnopqrstuvwxyz1234567890" ++ [10; 0x1B; 0x08; 0x09]
  ++ c_lit " -=[]\\#;'`,./" ++ replicate 199 0.

Definition kHidToAsciiMapShift : list Z :=
  [0; 0; 0; 0] ++ c_lit "ABCDEFGHIJKLMNOPQRSTUVWXYZ!@#$%^&*()" ++ [10; 0x1B; 0x08; 0x09]
  ++ c_lit " _+{}|~:" ++ [34] ++ c_lit "~<>?" ++ replicate 199 0.

Section Keyboard.
Context {W M X : Type} `{Machine W} `{FrameAllocator M} `{!UsbController W M X}.
Local Abbreviation HR := (fun A => Host W M X -> Run (Host W M X) A).

(** the loop over the configuration in [p .. stop); [Some]: the result of Initialize,
    reached inside the loop *)
Fixpoint find_keyboard (fuel : nat) (kb : Keyboard) (p stop : Z) (is_keyboard : bool) : HR (option bool * Keyboard)%type :=
  if p <? stop then
    match fuel with
    | O => fun _ => NoFuel
    | S f =>
        len <-- desc_length p ;;
        type <-- desc_type p ;;
        if type =? 4 then
          is_keyboard <-- interface_matches p 3 1 1 ;;
          find_keyboard f kb (p + len) stop is_keyboard
        else if (type =? 5) && is_keyboard then
          ep <-- ed_endpoint_address p ;;
          attributes <-- ed_attributes p ;;
          if negb (Z.land ep 0x80 =? 0) && (Z.land attributes 3 =? 3) then
            let kb := set_ep kb ep in
            ok <-- ConfigureEndpoint (slot_id_ kb) (ep_interrupt_in_ kb) 8 10 3 ;;
            if (ok : bool) then
              clear (buf_ kb) 8 ;;;
              clear (prev_buf_ kb) 8 ;;;
              sent <-- SendNormalTRB (slot_id_ kb) (ep_interrupt_in_ kb) (buf_ kb) 8 ;;
              ret (Some true, kb)
            else ret (Some false, kb)
          else find_keyboard f kb (p + len) stop is_keyboard
        else find_keyboard f kb (p + len) stop is_keyboard
    end
  else ret (None, kb).

(** [dev_desc] is the address of the local variable *)
Definition Initialize (fuel : nat) (dev_desc : Z) (kb : Keyboard) : HR (bool * Keyboard)%type :=
  ok <-- ControlIn (slot_id_ kb) 0x80 6 0x0100 0 18 dev_desc ;;
  if negb ok then ret (false, kb)
  else
    buf <-- alloc 256 64 ;;
    ok <-- ControlIn (slot_id_ kb) 0x80 6 0x0200 0 9 buf ;;
    if negb ok then free buf 256 ;;; ret (false, kb)
    else
      total_length <-- cd_total_length buf ;;
      ok <-- ControlIn (slot_id_ kb) 0x80 6 0x0200 0 total_length buf ;;
      if negb ok then free buf 256 ;;; ret (false, kb)
      else
        r <-- find_keyboard fuel kb buf (buf + total_length) false ;;
        match r with
        | (Some result, kb) => ret (result, kb)
        | (None, kb) => free buf 256 ;;; ret (negb (ep_interrupt_in_ kb =? 0), kb)
        end.

Definition ForceSendTRB (kb : Keyboard) : HR unit :=
  copy_bytes (prev_buf_ kb) (buf_ kb) 8 ;;;
  clear (buf_ kb) 8 ;;;
  sent <-- SendNormalTRB (slot_id_ kb) (ep_interrupt_in_ kb) (buf_ kb) 8 ;;
  ret tt.

(** the inner loop of Update *)
Definition was_pressed (kb : Keyboard) (key : Z) (w : W) : bool :=
  match for_return 6 2 (fun j => if peek w (prev_buf_ kb + j) =? key then Some tt else None) with
  | Some _ => true
  | None => false
  end.

(** the loop over the keys; standard input is [fd] when it is a KeyboardFD *)
Fixpoint update_keys (n : nat) (i : Z) (kb : Keyboard) (shift : bool) (fd : option Ring) : HR (option Ring) :=
  match n with
  | O => ret fd
  | S n' =>
      key <-- look 1 (buf_ kb + i) ;;
      if key =? 0 then update_keys n' (i + 1) kb shift fd
      else
        pressed <-- get (fun s => was_pressed kb key (mach s)) ;;
        if (pressed : bool) then update_keys n' (i + 1) kb shift fd
        else
          let ascii := if shift then rd kHidToAsciiMapShift key else rd kHidToAsciiMap key in
          update_keys n' (i + 1) kb shift
            (if negb (ascii =? 0) then (fun r => KeyboardFD.OnInput r ascii) <$> fd else fd)
  end.

Definition Update (kb : Keyboard) (fd : option Ring) : HR (option Ring) :=
  result <-- PollEndpoint (slot_id_ kb) (ep_interrupt_in_ kb) ;;
  if result =? 1 then
    modifiers <-- look 1 (buf_ kb) ;;
    let shift := negb (Z.land modifiers 0x02 =? 0) || negb (Z.land modifiers 0x20 =? 0) in
    fd <-- update_keys 6 2 kb shift fd ;;
    copy_bytes (prev_buf_ kb) (buf_ kb) 8 ;;;
    clear (buf_ kb) 8 ;;;
    sent <-- SendNormalTRB (slot_id_ kb) (ep_interrupt_in_ kb) (buf_ kb) 8 ;;
    ret fd
  else ret fd.
End Keyboard.

(** ** What is typed *)

(** the key codes of a report, and whether a shift key is held *)
Definition keys (report : list Z) : list Z := take 6 (drop 2 report).
Definition shifted (report : list Z) : bool :=
  Z.testbit (rd report 0) 1 || Z.testbit (rd report 0) 5.

(** the character of a key *)
Definition char_of (shift : bool) (key : Z) : option Z :=
  let c := rd (if shift then kHidToAsciiMapShift else kHidToAsciiMap) key in
  if c =? 0 then None else Some c.

(** the characters a report adds to the one before it: those of the keys that were
    not down *)
Definition strokes (prev report : list Z) : list Z :=
  omap (fun key => if decide (key = 0 \/ key ∈ keys prev) then None else char_of (shifted report) key) (keys report).

Fixpoint all_strokes (prev : list Z) (reports : list (list Z)) : list Z :=
  match reports with
  | [] => []
  | r :: rest => strokes prev r ++ all_strokes r rest
  end.

(** the report before the next one *)
Fixpoint latest (prev : list Z) (reports : list (list Z)) : list Z :=
  match reports with
  | [] => prev
  | r :: rest => latest r rest
  end.

Lemma latest_snoc reports : forall prev r, latest prev (reports ++ [r]) = r.
Proof. induction reports as [|r0 rest IH]; intros prev r; [done|]. apply IH. Qed.

Lemma all_strokes_snoc reports : forall prev r,
  all_strokes prev (reports ++ [r]) = all_strokes prev reports ++ strokes (latest prev reports) r.
Proof.
  induction reports as [|r0 rest IH]; intros prev r; cbn [all_strokes app latest].
  - by rewrite app_nil_r.
  - by rewrite IH, app_assoc.
Qed.

(** the tables have an entry for every key code *)
Lemma tables_length : zlen kHidToAsciiMap = 256 /\ zlen kHidToAsciiMapShift = 256.
Proof. split; vm_compute; reflexivity. Qed.

Lemma for_return_existsb {A} (l : list Z) (v : A) (f : Z -> bool) (g : Z -> Z) n : forall i,
  l = (fun j => g (i + Z.of_nat j)) <$> seq 0 n ->
  for_return n i (fun j => if f (g j) then Some v else None) = if existsb f l then Some v else None.
Proof.
  revert l. induction n as [|n IH]; intros l i ->; [done|]. cbn [for_return seq fmap list_fmap existsb].
  rewrite Z.add_0_r. destruct (f (g i)); [done|]. cbn [orb]. apply IH.
  rewrite <- (fmap_S_seq 0 n), <- list_fmap_compose. apply list_fmap_ext. intros k x _. cbn. f_equal. lia.
Qed.

Section Typing.
Context {W M X : Type} `{MachineLaws W} `{FrameAllocator M} `{!UsbController W M X}.
Local Abbreviation Hst := (Host W M X).
Implicit Types (s : Hst) (fd : Ring) (kb : Keyboard).

Definition report_at (a : Z) (w : W) : list Z := peek_all a 8 w.

Lemma keys_report a w : keys (report_at a w) = peek_all (a + 2) 6 w.
Proof. unfold keys, report_at. change 8%nat with (2 + 6)%nat. rewrite peek_all_app. done. Qed.

Lemma was_pressed_spec kb key w : was_pressed kb key w = bool_decide (key ∈ keys (report_at (prev_buf_ kb) w)).
Proof.
  unfold was_pressed. rewrite keys_report. set (l := peek_all _ _ _).
  rewrite (for_return_existsb l tt (fun x => x =? key) (fun j => peek w (prev_buf_ kb + j))).
  - assert (Heq : existsb (fun x => x =? key) l = bool_decide (key ∈ l)).
    { apply eq_bool_prop_intro. rewrite Is_true_true, Is_true_true, existsb_exists, bool_decide_eq_true.
      setoid_rewrite Z.eqb_eq. split; [intros (x & Hx & <-)|intros Hx; exists key]; by rewrite ?list_elem_of_In in *. }
    rewrite Heq. by case_bool_decide.
  - unfold l. rewrite peek_all_seq. apply list_fmap_ext. intros k x _. f_equal. lia.
Qed.

Lemma shift_bits b : negb (Z.land b 0x02 =? 0) || negb (Z.land b 0x20 =? 0) = Z.testbit b 1 || Z.testbit b 5.
Proof.
  assert (Hbit : forall n, 0 <= n -> negb (Z.land b (2 ^ n) =? 0) = Z.testbit b n).
  { intros n Hn. destruct (Z.testbit b n) eqn:Hb.
    - apply negb_true_iff, Z.eqb_neq. intros Hz.
      assert (Hx : Z.testbit (Z.land b (2 ^ n)) n = true) by (rewrite Z.land_spec, Hb, Z.pow2_bits_true; done).
      by rewrite Hz, Z.bits_0 in Hx.
    - apply negb_false_iff, Z.eqb_eq, Z.bits_inj'. intros i Hi. rewrite Z.land_spec, Z.bits_0.
      destruct (decide (i = n)) as [->|Hne]; [by rewrite Hb|]. rewrite Z.pow2_bits_false by lia. apply andb_false_r. }
  change 0x02 with (2 ^ 1). change 0x20 with (2 ^ 5). by rewrite !Hbit by lia.
Qed.

Lemma update_keys_spec kb shift n : forall i fd s,
  update_keys n i kb shift (Some fd) s
  = Ret (Some (fold_left KeyboardFD.OnInput
      (omap (fun key => if decide (key = 0 \/ key ∈ keys (report_at (prev_buf_ kb) (mach s))) then None else char_of shift key)
         (peek_all (buf_ kb + i) n (mach s))) fd)) s.
Proof.
  induction n as [|n IH]; intros i fd s; [done|]. cbn [update_keys peek_all].
  unfold bind, look, get.
  assert (Hkey : load 1 (buf_ kb + i) (mach s) = peek (mach s) (buf_ kb + i)).
  { unfold load. cbn [peek_all le_val]. lia. }
  rewrite Hkey. set (key := peek (mach s) (buf_ kb + i)). rewrite <- (Z.add_assoc (buf_ kb) i 1).
  cbn [omap list_omap].
  destruct (Z.eqb_spec key 0) as [->|Hne].
  - rewrite IH. by rewrite decide_True by auto.
  - rewrite was_pressed_spec. case_bool_decide as Hin.
    + rewrite IH. by rewrite decide_True by auto.
    + rewrite decide_False by tauto. unfold char_of at 1.
      assert (Hif : (if shift then rd kHidToAsciiMapShift key else rd kHidToAsciiMap key)
        = rd (if shift then kHidToAsciiMapShift else kHidToAsciiMap) key) by (by destruct shift).
      rewrite Hif. set (c := rd _ key). destruct (c =? 0); apply IH.
Qed.

(** what the driver relies on: the controller leaves the report before alone, and
    takes the new transfer *)
Class PrevKept (kb : Keyboard) := {
  kept_poll s r s1 : PollEndpoint (slot_id_ kb) (ep_interrupt_in_ kb) s = Ret r s1 ->
    report_at (prev_buf_ kb) (mach s1) = report_at (prev_buf_ kb) (mach s);
  kept_send s : exists r s1, SendNormalTRB (slot_id_ kb) (ep_interrupt_in_ kb) (buf_ kb) 8 s = Ret r s1
    /\ report_at (prev_buf_ kb) (mach s1) = report_at (prev_buf_ kb) (mach s)
}.

Lemma copy_report dest src s :
  dest + 8 <= src \/ src + 8 <= dest ->
  exists w, copy_bytes dest src 8 s = Ret tt (with_mach s w) /\ report_at dest w = report_at src (mach s).
Proof.
  intros Hd. eexists. split; [reflexivity|]. unfold report_at. change (Z.to_nat 8) with 8%nat.
  pose proof (peek_all_poke_same dest (peek_all src 8 (mach s)) (mach s) (peek_all_bytes src 8 (mach s))) as Hp.
  by rewrite length_peek_all in Hp.
Qed.

(** a poll that completes: the new keys' characters go to standard input, in the order
    of the report, and the report becomes the previous one *)
Lemma Update_report kb `{!PrevKept kb} fd s s1 :
  PollEndpoint (slot_id_ kb) (ep_interrupt_in_ kb) s = Ret 1 s1 ->
  let report := report_at (buf_ kb) (mach s1) in
  exists s', Update kb (Some fd) s
    = Ret (Some (fold_left KeyboardFD.OnInput (strokes (report_at (prev_buf_ kb) (mach s)) report) fd)) s'
    /\ report_at (prev_buf_ kb) (mach s') = report.
Proof.
  intros Hpoll report. unfold Update. rewrite (bind_Ret _ _ _ _ _ Hpoll). cbv beta. change (1 =? 1) with true. cbv iota.
  rewrite (bind_Ret (look 1 (buf_ kb)) _ s1 _ s1 eq_refl). cbv beta zeta. rewrite shift_bits.
  assert (Hshift : Z.testbit (load 1 (buf_ kb) (mach s1)) 1 || Z.testbit (load 1 (buf_ kb) (mach s1)) 5 = shifted report).
  { unfold shifted, report, report_at. rewrite rd_peek_all by lia. unfold load. cbn [peek_all le_val].
    by rewrite Z.mul_0_r, !Z.add_0_r. }
  rewrite Hshift. rewrite (bind_Ret _ _ _ _ _ (update_keys_spec kb _ 6 2 fd s1)).
  assert (Happart : prev_buf_ kb + 8 <= buf_ kb \/ buf_ kb + 8 <= prev_buf_ kb) by (unfold buf_, prev_buf_; lia).
  destruct (copy_report (prev_buf_ kb) (buf_ kb) s1 Happart) as (w & Hcopy & Hprev).
  rewrite (bind_Ret _ _ _ _ _ Hcopy). unfold bind at 1, clear, act. cbn [mach with_mach].
  set (s2 := with_mach _ _). destruct (kept_send s2) as (r & s3 & Hsend & Hkeep).
  rewrite (bind_Ret _ _ _ _ _ Hsend). exists s3. split.
  - unfold ret. rewrite <- (kept_poll s 1 s1 Hpoll). unfold strokes, report. by rewrite (keys_report (buf_ kb) (mach s1)).
  - rewrite Hkeep. subst s2. cbn [mach with_mach]. unfold report. rewrite <- Hprev. apply peek_all_poke_other.
    unfold zlen. rewrite length_replicate. lia.
Qed.

(** any run of Update with other code in between that leaves the keyboard's previous
    report alone; [reports] are those of the polls that completed *)
Inductive session kb (s0 : Hst) (fd0 : Ring) : Hst -> Ring -> list (list Z) -> Prop :=
  | se_start : report_at (prev_buf_ kb) (mach s0) = replicate 8 0 -> session kb s0 fd0 s0 fd0 []
  | se_update s fd reports s1 r fd' s' :
      session kb s0 fd0 s fd reports ->
      PollEndpoint (slot_id_ kb) (ep_interrupt_in_ kb) s = Ret r s1 -> Update kb (Some fd) s = Ret (Some fd') s' ->
      session kb s0 fd0 s' fd' (if r =? 1 then reports ++ [report_at (buf_ kb) (mach s1)] else reports)
  | se_other s fd reports s' :
      session kb s0 fd0 s fd reports -> report_at (prev_buf_ kb) (mach s') = report_at (prev_buf_ kb) (mach s) ->
      session kb s0 fd0 s' fd reports.

(** C20: Standard input receives, for the reports of a whole session, exactly the
    characters of the keys that went down, each once however long it is held, in the
    order of the reports and within a report in its order, shifted when the report says
    so; whatever else runs between the updates and however often nothing has arrived. *)
Theorem keyboard_types kb `{!PrevKept kb} s0 fd0 s fd reports :
  session kb s0 fd0 s fd reports ->
  fd = fold_left KeyboardFD.OnInput (all_strokes (replicate 8 0) reports) fd0
  /\ report_at (prev_buf_ kb) (mach s) = latest (replicate 8 0) reports.
Proof.
  induction 1 as [Hz|s fd reports s1 r fd' s' _ [IH1 IH2] Hpoll Hup|s fd reports s' _ [IH1 IH2] Hkeep].
  - done.
  - destruct (Z.eqb_spec r 1) as [->|Hr].
    + destruct (Update_report kb fd s s1 Hpoll) as (s2 & Hup2 & Hprev). rewrite Hup in Hup2.
      injection Hup2 as -> <-. rewrite all_strokes_snoc, fold_left_app, <- IH1, <- IH2. split; [done|].
      by rewrite latest_snoc.
    + unfold Update in Hup. rewrite (bind_Ret _ _ _ _ _ Hpoll), (proj2 (Z.eqb_neq r 1) Hr) in Hup.
      unfold ret in Hup. injection Hup as <- <-. split; [done|]. by rewrite (kept_poll s r s1 Hpoll).
  - split; [done|]. by rewrite Hkeep.
Qed.
End Typing.

(** ** A keyboard with reports to deliver *)

Module KeyboardSim.
(** the reports still to come *)
Definition X : Type := list (list Z).
Definition kb : Keyboard := mkKeyboard 4096 1 0x81.
Local Abbreviation Hst := (Host Ram.t MemoryManager.t X).

#[global] Instance controller : UsbController Ram.t MemoryManager.t X := {
  ControlIn slot t r v i l buffer := ret true;
  ConfigureEndpoint slot ep m i t := ret true;
  PollEndpoint slot ep := fun s =>
    match drv s with
    | [] => Ret (-1) s
    | r :: rest => Ret 1 (mkHost (poke_all (buf_ kb) (take 8 r) (mach s)) (pool s) rest (out s))
    end;
  SendNormalTRB slot ep buffer len := ret true
}.

#[global] Instance kept : PrevKept kb.
Proof.
  split.
  - intros s r s1. cbn [PollEndpoint controller]. destruct (drv s) as [|x rest]; intros Hp; [by injection Hp as _ <-|].
    injection Hp as _ <-. cbn [mach]. apply peek_all_poke_other. unfold zlen, buf_, prev_buf_.
    rewrite length_take. lia.
  - intros s. exists true, s. split; reflexivity.
Qed.

(** shift and A; then A still down and B *)
Definition reports : X := [[2; 0; 4; 0; 0; 0; 0; 0]; [0; 0; 4; 5; 0; 0; 0; 0]].
Definition start : Hst := mkHost ∅ sample reports [].
Definition fd : Ring := KeyboardFD.new (replicate 1024 0).
Definition after (r : Ring) (s : Hst) : Ring * Hst :=
  match Update kb (Some r) s with Ret (Some r') s' => (r', s') | _ => (r, s) end.
End KeyboardSim.

Lemma keyboard_types_witness :
  let s0 := KeyboardSim.start in
  let fd1 := fst (KeyboardSim.after KeyboardSim.fd s0) in
  let s1 := snd (KeyboardSim.after KeyboardSim.fd s0) in
  let fd2 := fst (KeyboardSim.after fd1 s1) in
  fd2 = fold_left KeyboardFD.OnInput (c_lit "Ab") KeyboardSim.fd.
Proof.
  intros s0 fd1 s1 fd2. set (s2 := snd (KeyboardSim.after fd1 s1)).
  assert (Hup1 : Update KeyboardSim.kb (Some KeyboardSim.fd) s0 = Ret (Some fd1) s1) by (vm_compute; reflexivity).
  assert (Hup2 : Update KeyboardSim.kb (Some fd1) s1 = Ret (Some fd2) s2) by (vm_compute; reflexivity).
  assert (Hzero : report_at (prev_buf_ KeyboardSim.kb) (mach s0) = replicate 8 0) by (vm_compute; reflexivity).
  pose proof (se_start KeyboardSim.kb s0 KeyboardSim.fd Hzero) as Hs0.
  pose proof (se_update _ _ _ _ _ _ _ _ _ _ Hs0 eq_refl Hup1) as Hs1.
  assert (Hpoll2 : exists s', PollEndpoint 1 0x81 s1 = Ret 1 s'
    /\ report_at (buf_ KeyboardSim.kb) (mach s') = [0; 0; 4; 5; 0; 0; 0; 0]).
  { eexists. split; vm_compute; reflexivity. }
  destruct Hpoll2 as (s' & Hpoll2 & Hrep2).
  pose proof (se_update _ _ _ _ _ _ _ _ _ _ Hs1 Hpoll2 Hup2) as Hs2.
  destruct (keyboard_types KeyboardSim.kb _ _ _ _ _ Hs2) as [Hfd _].
  rewrite Hfd. cbn [Z.eqb Pos.eqb app]. rewrite Hrep2. reflexivity.
Defined.
