(* ===== verification/MassStorage.v ===== *)
(** * The USB mass storage driver (driver/usb/mass_storage)

    SCSI commands over the bulk-only transport: a command block goes out, data comes
    in, a status block comes in, each a transfer that the driver polls for. *)
From S2P Require Import Prelude Run Memory Machine Usb.
#[local] Open Scope run_scope.

(** the members *)
Record MassStorage := mkMassStorage {
  slot_id_ : Z; ep_bulk_in_ : Z; ep_bulk_out_ : Z; total_blocks_ : Z; block_size_ : Z
}.

Definition sizeof_MassStorage : Z := 40.
Definition sizeof_CommandBlockWrapper : Z := 31.
Definition sizeof_CommandStatusWrapper : Z := 13.

(** the constructor *)
Definition new_MassStorage (slot_id : Z) : MassStorage := mkMassStorage slot_id 0 0 0 0.
Definition set_in (ms : MassStorage) (ep : Z) : MassStorage :=
  mkMassStorage (slot_id_ ms) ep (ep_bulk_out_ ms) (total_blocks_ ms) (block_size_ ms).
Definition set_out (ms : MassStorage) (ep : Z) : MassStorage :=
  mkMassStorage (slot_id_ ms) (ep_bulk_in_ ms) ep (total_blocks_ ms) (block_size_ ms).
Definition set_capacity (ms : MassStorage) (blocks size : Z) : MassStorage :=
  mkMassStorage (slot_id_ ms) (ep_bulk_in_ ms) (ep_bulk_out_ ms) blocks size.

Section MassStorage.
Context {W M X : Type} `{Machine W} `{FrameAllocator M} `{!UsbController W M X}.
Local Abbreviation HR := (fun A => Host W M X -> Run (Host W M X) A).
Implicit Types ms : MassStorage.

(** [while (controller_->PollEndpoint(slot_id_, ep) == -1);] *)
Fixpoint wait_transfer (fuel : nat) (slot ep : Z) : HR unit :=
  r <-- PollEndpoint slot ep ;;
  if r =? -1 then
    match fuel with
    | O => fun _ => NoFuel
    | S f => wait_transfer f slot ep
    end
  else ret tt.

(** a CommandBlockWrapper at [cbw] *)
Definition fill_cbw (cbw tag data_len flags lun cmd_len : Z) (cmd : list Z) : HR unit :=
  put 4 cbw 0x43425355 ;;;
  put 4 (cbw + 4) tag ;;;
  put 4 (cbw + 8) data_len ;;;
  put 1 (cbw + 12) flags ;;;
  put 1 (cbw + 13) lun ;;;
  put 1 (cbw + 14) cmd_len ;;;
  run_for 16 0 (fun i => put 1 (cbw + 15 + i) (if i <? cmd_len then rd cmd i else 0)).

Definition SendCBW (fuel : nat) ms (tag data_len flags lun cmd_len : Z) (cmd : list Z) : HR bool :=
  cbw <-- alloc sizeof_CommandBlockWrapper 64 ;;
  fill_cbw cbw tag data_len flags lun cmd_len cmd ;;;
  sent <-- SendNormalTRB (slot_id_ ms) (ep_bulk_out_ ms) cbw 31 ;;
  wait_transfer fuel (slot_id_ ms) (ep_bulk_out_ ms) ;;;
  free cbw sizeof_CommandBlockWrapper ;;;
  ret sent.

Definition TransferData (fuel : nat) ms (buffer len : Z) (is_in : bool) : HR bool :=
  let ep := if is_in then ep_bulk_in_ ms else ep_bulk_out_ ms in
  sent <-- SendNormalTRB (slot_id_ ms) ep buffer len ;;
  wait_transfer fuel (slot_id_ ms) ep ;;;
  ret sent.

Definition ReceiveCSW (fuel : nat) ms (tag : Z) : HR bool :=
  csw <-- alloc sizeof_CommandStatusWrapper 64 ;;
  sent <-- SendNormalTRB (slot_id_ ms) (ep_bulk_in_ ms) csw 13 ;;
  wait_transfer fuel (slot_id_ ms) (ep_bulk_in_ ms) ;;;
  signature <-- look 4 csw ;;
  csw_tag <-- look 4 (csw + 4) ;;
  status <-- look 1 (csw + 12) ;;
  (if negb (signature =? 0x53425355) || negb (csw_tag =? tag) || negb (status =? 0) then
     say "[MSC] CSW Error. Status=%d\n" [KInt status] ;;;
     free csw sizeof_CommandStatusWrapper ;;;
     ret false
   else
     free csw sizeof_CommandStatusWrapper ;;;
     ret sent).

(** the command of READ (10) *)
Definition read10 (lba num_sectors : Z) : list Z :=
  [ 0x28; 0;
    Z.land (Z.shiftr lba 24) 0xFF; Z.land (Z.shiftr lba 16) 0xFF; Z.land (Z.shiftr lba 8) 0xFF; Z.land lba 0xFF;
    0; Z.land (Z.shiftr num_sectors 8) 0xFF; Z.land num_sectors 0xFF; 0; 0; 0; 0; 0; 0; 0 ].

Definition ReadSectors (fuel : nat) ms (lba num_sectors buffer : Z) : HR bool :=
  let bytes_len := u32 (num_sectors * block_size_ ms) in
  ok <-- SendCBW fuel ms 2 bytes_len 0x80 0 10 (read10 lba num_sectors) ;;
  if negb ok then ret false
  else
    ok <-- TransferData fuel ms buffer bytes_len true ;;
    if negb ok then ret false
    else
      ok <-- ReceiveCSW fuel ms 2 ;;
      if negb ok then ret false else ret true.

(** the methods of BlockDevice *)
Definition Read (fuel : nat) ms (lba buffer count : Z) : HR bool := ReadSectors fuel ms lba count buffer.
Definition Write ms (lba buffer count : Z) : HR bool := ret false.
Definition GetBlockSize ms : Z := block_size_ ms.

(** four bytes at [a], the first the most significant *)
Definition look_be (a : Z) : HR Z :=
  b0 <-- look 1 a ;; b1 <-- look 1 (a + 1) ;; b2 <-- look 1 (a + 2) ;; b3 <-- look 1 (a + 3) ;;
  ret (u32 (Z.lor (Z.lor (Z.lor (Z.shiftl b0 24) (Z.shiftl b1 16)) (Z.shiftl b2 8)) b3)).

Definition ScsiReadCapacity (fuel : nat) ms : HR (bool * MassStorage)%type :=
  data <-- alloc 8 64 ;;
  ok <-- SendCBW fuel ms 1 8 0x80 0 10 (0x25 :: replicate 15 0) ;;
  if negb ok then ret (false, ms)
  else
    ok <-- TransferData fuel ms data 8 true ;;
    if negb ok then ret (false, ms)
    else
      ok <-- ReceiveCSW fuel ms 1 ;;
      if negb ok then ret (false, ms)
      else
        last_lba <-- look_be data ;;
        blk_sz <-- look_be (data + 4) ;;
        free data 8 ;;;
        ret (true, set_capacity ms (u32 (last_lba + 1)) blk_sz).

(** the loop over the configuration in [p .. stop) *)
Fixpoint find_endpoints (fuel : nat) ms (p stop : Z) (found_interface : bool) : HR MassStorage :=
  if p <? stop then
    match fuel with
    | O => fun _ => NoFuel
    | S f =>
        len <-- desc_length p ;;
        type <-- desc_type p ;;
        if type =? 4 then
          found <-- interface_matches p 0x08 0x06 0x50 ;;
          find_endpoints f ms (p + len) stop found
        else if (type =? 5) && found_interface then
          addr <-- ed_endpoint_address p ;;
          attributes <-- ed_attributes p ;;
          let ms :=
            if Z.land attributes 3 =? 2 then
              if negb (Z.land addr 0x80 =? 0) then set_in ms addr else set_out ms addr
            else ms in
          find_endpoints f ms (p + len) stop found_interface
        else find_endpoints f ms (p + len) stop found_interface
    end
  else ret ms.

Definition Initialize (fuel : nat) ms : HR (bool * MassStorage)%type :=
  say "[MSC] Initializing Slot %d...\n" [KInt (slot_id_ ms)] ;;;
  buf <-- alloc 1024 64 ;;
  ok <-- ControlIn (slot_id_ ms) 0x80 6 0x0200 0 9 buf ;;
  if negb ok then free buf 1024 ;;; ret (false, ms)
  else
    total_len <-- cd_total_length buf ;;
    ok <-- ControlIn (slot_id_ ms) 0x80 6 0x0200 0 total_len buf ;;
    if negb ok then free buf 1024 ;;; ret (false, ms)
    else
      ms <-- find_endpoints fuel ms buf (buf + total_len) false ;;
      free buf 1024 ;;;
      if (ep_bulk_in_ ms =? 0) || (ep_bulk_out_ ms =? 0) then
        say "[MSC] Failed to find Bulk Endpoints.\n" [] ;;; ret (false, ms)
      else
        say "[MSC] Bulk IN: %x, Bulk OUT: %x\n" [KInt (ep_bulk_in_ ms); KInt (ep_bulk_out_ ms)] ;;;
        ok <-- ConfigureEndpoint (slot_id_ ms) (ep_bulk_in_ ms) 512 0 2 ;;
        if negb ok then ret (false, ms)
        else
          ok <-- ConfigureEndpoint (slot_id_ ms) (ep_bulk_out_ ms) 512 0 2 ;;
          if negb ok then ret (false, ms)
          else
            let** (ok, ms) := ScsiReadCapacity fuel ms in
            if negb ok then say "[MSC] READ CAPACITY failed.\n" [] ;;; ret (false, ms)
            else
              say "[MSC] Initialization Complete. Size: %lu MB\n"
                [KInt (u64 (total_blocks_ ms * block_size_ ms) / 1024 / 1024)] ;;;
              ret (true, ms).
End MassStorage.

(** ** A bulk-only device

    A device of the class specification: a command block selects what the next
    transfers mean. *)

Record Disk := mkDisk { dk_blocks : Z; dk_block_size : Z; dk_sector : Z -> list Z }.

(** what the device expects next *)
Inductive phase :=
  | Idle
  | DataIn (tag : Z) (data : list Z)
  | Status (tag : Z).

Definition be_val (bs : list Z) : Z := fold_left (fun a b => a * 256 + b) bs 0.
Definition be_bytes (v : Z) : list Z := rev (le_bytes 4 v).

(** [n] blocks from [lba] on *)
Definition blocks (dk : Disk) (lba : Z) (n : nat) : list Z := mjoin (dk_sector dk <$> seqZ lba (Z.of_nat n)).

(** READ CAPACITY and READ (10) on logical unit 0, data to the host *)
Definition bot_command (dk : Disk) (cbw : list Z) : option phase :=
  let tag := get32 cbw 4 in
  let len := get32 cbw 8 in
  let lba := be_val (slice cbw 17 4) in
  let n := be_val (slice cbw 22 2) in
  if (zlen cbw =? 31) && (get32 cbw 0 =? 0x43425355) && (rd cbw 12 =? 0x80) && (rd cbw 13 =? 0) && (rd cbw 14 =? 10) then
    if (rd cbw 15 =? 0x25) && (len =? 8) then
      Some (DataIn tag (be_bytes (dk_blocks dk - 1) ++ be_bytes (dk_block_size dk)))
    else if (rd cbw 15 =? 0x28) && (lba + n <=? dk_blocks dk) && (len =? n * dk_block_size dk) then
      Some (DataIn tag (blocks dk lba (Z.to_nat n)))
    else None
  else None.

(** a transfer of [len] bytes to the host: the bytes, and the phase after them *)
Definition bot_in (ph : phase) (len : Z) : option (list Z * phase) :=
  match ph with
  | Idle => None
  | DataIn tag data => if zlen data =? len then Some (data, Status tag) else None
  | Status tag => if len =? 13 then Some (le_bytes 4 0x53425355 ++ le_bytes 4 tag ++ le_bytes 4 0 ++ [0], Idle) else None
  end.

Section Protocol.
Context {W M X : Type} `{MachineLaws W} `{FrameAllocatorLaws M} `{!UsbController W M X}.
Local Abbreviation Hst := (Host W M X).
Implicit Types (s : Hst) (ms : MassStorage).

(** [n] polls that find nothing *)
Inductive polls (slot ep : Z) : nat -> Hst -> Hst -> Prop :=
  | polls_none s : polls slot ep 0 s s
  | polls_more n s s1 s' : PollEndpoint slot ep s = Ret (-1) s1 -> polls slot ep n s1 s' -> polls slot ep (S n) s s'.

(** the controller takes a transfer and, some time later, reports its completion *)
Definition completes (slot ep buf len : Z) s (P : Hst -> Prop) : Prop :=
  exists s1 n s2 code s', SendNormalTRB slot ep buf len s = Ret true s1
    /\ polls slot ep n s1 s2 /\ PollEndpoint slot ep s2 = Ret code s' /\ code <> -1
    /\ pool s' = pool s /\ P s'.

(** a controller with the device [dk] behind the endpoints of [ms].  [usable]: memory
    that does not belong to the controller's rings and tables. *)
Class BulkOnly (ms : MassStorage) (dk : Disk) := {
  bot_phase : Hst -> phase;
  usable : Z -> Prop;
  bot_host s a v m o : usable a -> bot_phase (mkHost (poke a v (mach s)) m (drv s) o) = bot_phase s;
  bot_pool s m o : bot_phase (mkHost (mach s) m (drv s) o) = bot_phase s;
  bot_out_law s buf ph :
    bot_phase s = Idle -> bot_command dk (peek_all buf 31 (mach s)) = Some ph ->
    completes (slot_id_ ms) (ep_bulk_out_ ms) buf 31 s (fun s' =>
      bot_phase s' = ph /\ forall a, usable a -> peek (mach s') a = peek (mach s) a);
  bot_in_law s buf len data ph :
    bot_in (bot_phase s) len = Some (data, ph) -> Forall is_byte data -> (forall a, buf <= a < buf + len -> usable a) ->
    completes (slot_id_ ms) (ep_bulk_in_ ms) buf len s (fun s' =>
      bot_phase s' = ph /\ peek_all buf (length data) (mach s') = data
      /\ forall a, usable a -> ~ buf <= a < buf + len -> peek (mach s') a = peek (mach s) a)
}.

Lemma wait_transfer_ends slot ep n s s2 code s' :
  polls slot ep n s s2 -> PollEndpoint slot ep s2 = Ret code s' -> code <> -1 ->
  forall fuel, (n <= fuel)%nat -> wait_transfer fuel slot ep s = Ret tt s'.
Proof.
  intros Hp Hlast Hcode. induction Hp as [s|n s s1 s2 Hnone Hp IH]; intros fuel Hf.
  - destruct fuel; cbn [wait_transfer]; rewrite (bind_Ret _ _ _ _ _ Hlast); by rewrite (proj2 (Z.eqb_neq _ _)) by done.
  - destruct fuel as [|fuel]; [lia|]. cbn [wait_transfer]. rewrite (bind_Ret _ _ _ _ _ Hnone).
    apply IH; [done|lia].
Qed.

(** the two steps of every transfer *)
Lemma transfer_run slot ep buf len s P :
  completes slot ep buf len s P ->
  exists n s', pool s' = pool s /\ P s' /\ forall fuel A (k : bool -> Hst -> Run Hst A), (n <= fuel)%nat ->
    (sent <-- SendNormalTRB slot ep buf len ;; wait_transfer fuel slot ep ;;; k sent) s = k true s'.
Proof.
  intros (s1 & n & s2 & code & s' & Hsend & Hp & Hlast & Hcode & Hpool & HP). exists n, s'.
  split; [done|]. split; [done|]. intros fuel A k Hf. rewrite (bind_Ret _ _ _ _ _ Hsend).
  by rewrite (bind_Ret _ _ _ _ _ (wait_transfer_ends slot ep n s1 s2 code s' Hp Hlast Hcode fuel Hf)).
Qed.

(** the 31 bytes of a command block *)
Definition cbw_bytes (tag data_len flags lun cmd_len : Z) (cmd : list Z) : list Z :=
  le_bytes 4 0x43425355 ++ le_bytes 4 tag ++ le_bytes 4 data_len ++ le_bytes 1 flags ++ le_bytes 1 lun
  ++ le_bytes 1 cmd_len ++ mjoin ((fun i => le_bytes 1 (if i <? cmd_len then rd cmd i else 0)) <$> seqZ 0 16).

Lemma put_bytes_run (f : Z -> Z) a n : forall i s,
  run_for n i (fun j => put 1 (a + j) (f j)) s
  = Ret tt (with_mach s (poke_all (a + i) (mjoin ((fun j => le_bytes 1 (f j)) <$> seqZ i (Z.of_nat n))) (mach s))).
Proof.
  induction n as [|n IH]; intros i s; cbn [run_for].
  { rewrite seqZ_nil by lia. by destruct s. }
  rewrite seqZ_cons by lia. cbn [fmap list_fmap mjoin list_join]. rewrite poke_all_app, zlen_le_bytes.
  rewrite (bind_Ret (put 1 (a + i) (f i)) _ s tt (with_mach s (poke_all (a + i) (le_bytes 1 (f i)) (mach s))) eq_refl).
  rewrite IH. cbn [mach with_mach pool drv out]. unfold with_mach at 1 3. cbn [pool drv out mach].
  do 3 f_equal; [lia|]. by replace (Z.pred (Z.of_nat (S n))) with (Z.of_nat n) by lia.
Qed.

Lemma fill_cbw_run cbw tag data_len flags lun cmd_len cmd s :
  fill_cbw cbw tag data_len flags lun cmd_len cmd s
  = Ret tt (with_mach s (poke_all cbw (cbw_bytes tag data_len flags lun cmd_len cmd) (mach s))).
Proof.
  unfold cbw_bytes. rewrite !poke_all_app, !zlen_le_bytes.
  unfold fill_cbw. do 6 (erewrite bind_Ret; [|reflexivity]). rewrite put_bytes_run.
  f_equal. unfold with_mach. cbn [mach pool drv out]. f_equal. unfold store_at. change (Z.of_nat 16) with 16.
  repeat match goal with
  | |- poke_all ?a ?l _ = poke_all ?b ?l _ => replace a with b by lia; apply (f_equal (poke_all b l))
  end; reflexivity.
Qed.

(** memory written where drivers may write *)
Lemma bot_poke_all ms dk `{!BulkOnly ms dk} bs : forall a s,
  (forall i, a <= i < a + zlen bs -> usable i) ->
  bot_phase (with_mach s (poke_all a bs (mach s))) = bot_phase s.
Proof.
  induction bs as [|b t IH]; intros a s Hu; cbn [poke_all]; [by destruct s|].
  rewrite zlen_cons in Hu. pose proof (zlen_nonneg t).
  etrans; [apply (IH (a + 1) (with_mach s (poke a b (mach s)))); intros i Hi; apply Hu; lia|].
  apply (bot_host s a b (pool s) (out s)). apply Hu. lia.
Qed.

(** a place for a block of [n] bytes, apart from the [len] bytes at [buffer] *)
Definition has_room (ms : MassStorage) (dk : Disk) `{!BulkOnly ms dk} (n buffer len : Z) s : Prop :=
  let p := fst (Allocate n 64 (pool s)) in
  p <> 0 /\ forall a, p <= a < p + n -> usable a /\ ~ buffer <= a < buffer + len.

Lemma zlen_cbw_bytes tag data_len flags lun cmd_len cmd : zlen (cbw_bytes tag data_len flags lun cmd_len cmd) = 31.
Proof.
  unfold cbw_bytes. change (seqZ 0 16) with (map Z.of_nat (seq 0 16)). cbn [seq map fmap list_fmap mjoin list_join].
  rewrite !zlen_app, !zlen_le_bytes. done.
Qed.

Lemma cbw_bytes_bytes tag data_len flags lun cmd_len cmd : Forall is_byte (cbw_bytes tag data_len flags lun cmd_len cmd).
Proof.
  unfold cbw_bytes. rewrite !Forall_app. split_and!; try apply le_bytes_range.
  apply Forall_join, Forall_fmap, Forall_true. intros i. apply le_bytes_range.
Qed.

(** a command that the device understands *)
Lemma SendCBW_spec ms dk `{!BulkOnly ms dk} tag data_len flags lun cmd_len cmd ph buffer len s :
  alloc_inv (pool s) -> bot_phase s = Idle -> has_room ms dk 31 buffer len s ->
  bot_command dk (cbw_bytes tag data_len flags lun cmd_len cmd) = Some ph ->
  exists n s', (forall fuel, (n <= fuel)%nat -> SendCBW fuel ms tag data_len flags lun cmd_len cmd s = Ret true s')
    /\ bot_phase s' = ph /\ pool s' = pool s.
Proof.
  intros Hinv Hph [Hp Hroom] Hcmd. unfold SendCBW, sizeof_CommandBlockWrapper. cbv zeta in Hroom.
  unfold bind at 1, alloc. destruct (Allocate 31 64 (pool s)) as [p m] eqn:HA. cbn [fst] in *.
  set (s0 := with_pool s m). set (bs := cbw_bytes tag data_len flags lun cmd_len cmd) in *.
  set (s1 := with_mach s0 (poke_all p bs (mach s0))).
  assert (Hlen : zlen bs = 31) by apply zlen_cbw_bytes.
  assert (Hph1 : bot_phase s1 = Idle).
  { unfold s1. rewrite bot_poke_all by (intros i Hi; apply Hroom; lia).
    etrans; [apply (bot_pool s m (out s))|done]. }
  assert (Hmem : peek_all p 31 (mach s1) = bs).
  { unfold s1. cbn [mach with_mach]. replace 31%nat with (length bs) by (unfold zlen in Hlen; lia).
    apply peek_all_poke_same, cbw_bytes_bytes. }
  rewrite <- Hmem in Hcmd. pose proof (bot_out_law s1 p ph Hph1 Hcmd) as Hdone.
  destruct (transfer_run (slot_id_ ms) (ep_bulk_out_ ms) p 31 s1 _ Hdone) as (n & s2 & Hpool & [Hph2 Hkeep] & Hrun).
  exists n, (with_pool s2 (Free p 31 (pool s2))). split; [|split].
  - intros fuel Hf. rewrite (bind_Ret _ _ _ _ _ (fill_cbw_run p tag data_len flags lun cmd_len cmd s0)). by apply Hrun.
  - rewrite <- Hph2. exact (bot_pool s2 (Free p 31 (pool s2)) (out s2)).
  - cbn [pool with_pool]. rewrite Hpool. change (pool s1) with m.
    eapply Allocate_Free; [exact Hinv| |exact HA|exact Hp]. lia.
Qed.

Lemma TransferData_spec ms dk `{!BulkOnly ms dk} tag data buffer len s :
  bot_phase s = DataIn tag data -> zlen data = len -> Forall is_byte data -> (forall a, buffer <= a < buffer + len -> usable a) ->
  exists n s', (forall fuel, (n <= fuel)%nat -> TransferData fuel ms buffer len true s = Ret true s')
    /\ bot_phase s' = Status tag /\ pool s' = pool s /\ peek_all buffer (length data) (mach s') = data.
Proof.
  intros Hph Hlen Hbytes Hu. assert (Hin : bot_in (bot_phase s) len = Some (data, Status tag)).
  { rewrite Hph. cbn [bot_in]. by rewrite Hlen, Z.eqb_refl. }
  destruct (transfer_run (slot_id_ ms) (ep_bulk_in_ ms) buffer len s _
    (bot_in_law s buffer len data (Status tag) Hin Hbytes Hu)) as (n & s' & Hpool & (Hph' & Hdata & _) & Hrun).
  exists n, s'. split_and!; [|done..]. intros fuel Hf. unfold TransferData. by rewrite Hrun.
Qed.

(** the status block says that all went well; memory outside of it stays *)
Lemma ReceiveCSW_spec ms dk `{!BulkOnly ms dk} tag buffer len s :
  0 <= tag < 2 ^ 32 -> alloc_inv (pool s) -> bot_phase s = Status tag -> has_room ms dk 13 buffer len s ->
  (forall a, buffer <= a < buffer + len -> usable a) ->
  exists n s', (forall fuel, (n <= fuel)%nat -> ReceiveCSW fuel ms tag s = Ret true s')
    /\ bot_phase s' = Idle /\ pool s' = pool s
    /\ forall a, buffer <= a < buffer + len -> peek (mach s') a = peek (mach s) a.
Proof.
  intros Htag Hinv Hph [Hp Hroom] Hu. unfold ReceiveCSW, sizeof_CommandStatusWrapper. cbv zeta in Hroom.
  unfold bind at 1, alloc. destruct (Allocate 13 64 (pool s)) as [p m] eqn:HA. cbn [fst] in *.
  set (s0 := with_pool s m). set (csw := le_bytes 4 0x53425355 ++ le_bytes 4 tag ++ le_bytes 4 0 ++ [0]).
  assert (Hin : bot_in (bot_phase s0) 13 = Some (csw, Idle)).
  { unfold s0. etrans; [apply (f_equal (fun x => bot_in x 13)), (bot_pool s m (out s))|]. by rewrite Hph. }
  assert (Hbytes : Forall is_byte csw).
  { unfold csw. rewrite !Forall_app. split_and!; try apply le_bytes_range. by repeat constructor. }
  destruct (transfer_run (slot_id_ ms) (ep_bulk_in_ ms) p 13 s0 _
    (bot_in_law s0 p 13 csw Idle Hin Hbytes (fun a Ha => proj1 (Hroom a Ha)))) as (n & s1 & Hpool & (Hph1 & Hcsw & Hkeep) & Hrun).
  exists n, (with_pool s1 (Free p 13 (pool s1))). split_and!.
  - intros fuel Hf. rewrite (Hrun fuel _ _ Hf). unfold bind, look.
    assert (Hload : forall k off, 0 <= off -> off + Z.of_nat k <= 13 ->
      load k (p + off) (mach s1) = le_val (slice csw off (Z.of_nat k))).
    { intros k off Ho Hk. unfold load. f_equal. rewrite <- Hcsw. apply buf_ext.
      - rewrite zlen_slice; unfold zlen; rewrite ?length_peek_all; change (length csw) with 13%nat; lia.
      - unfold zlen. rewrite length_peek_all. intros i Hi. rewrite rd_slice by lia.
        rewrite !rd_peek_all by (change (length csw) with 13%nat; lia). f_equal. lia. }
    pose proof (Hload 4%nat 0 ltac:(lia) ltac:(lia)) as Hl1. rewrite Z.add_0_r in Hl1.
    rewrite Hl1, (Hload 4%nat 4), (Hload 1%nat 12) by lia.
    change (slice csw 0 (Z.of_nat 4)) with (le_bytes 4 0x53425355).
    change (slice csw 4 (Z.of_nat 4)) with (le_bytes 4 tag). change (slice csw 12 (Z.of_nat 1)) with [0].
    rewrite (le_val_bytes 4 tag) by lia. rewrite !Z.eqb_refl. reflexivity.
  - rewrite <- Hph1. exact (bot_pool s1 (Free p 13 (pool s1)) (out s1)).
  - cbn [pool with_pool]. rewrite Hpool. change (pool s0) with m.
    eapply Allocate_Free; [exact Hinv| |exact HA|exact Hp]. lia.
  - intros a Ha. cbn [mach with_pool]. rewrite Hkeep; [done|by apply Hu|].
    intros Hin'. by destruct (Hroom a Hin').
Qed.

(** what the device reads from a READ (10) *)
Lemma read10_command dk lba n :
  0 <= lba -> 0 <= n < 2 ^ 16 -> lba + n <= dk_blocks dk -> dk_blocks dk <= 2 ^ 32 ->
  0 <= n * dk_block_size dk < 2 ^ 32 -> lba < 2 ^ 32 ->
  bot_command dk (cbw_bytes 2 (n * dk_block_size dk) 0x80 0 10 (read10 lba n))
  = Some (DataIn 2 (blocks dk lba (Z.to_nat n))).
Proof.
  intros Hl Hn Hend Hb Hlen Hl32. set (len := n * dk_block_size dk) in *. unfold bot_command. rewrite zlen_cbw_bytes.
  set (B := cbw_bytes _ _ _ _ _ _).
  change (get32 B 0) with (le_val (le_bytes 4 0x43425355)). change (get32 B 4) with (le_val (le_bytes 4 2)).
  change (get32 B 8) with (le_val (le_bytes 4 len)). change (rd B 12) with 0x80. change (rd B 13) with 0.
  change (rd B 14) with 10. change (rd B 15) with 0x28.
  change (slice B 17 4) with [ Z.land (Z.shiftr lba 24) 0xFF mod 256; Z.land (Z.shiftr lba 16) 0xFF mod 256;
    Z.land (Z.shiftr lba 8) 0xFF mod 256; Z.land lba 0xFF mod 256 ].
  change (slice B 22 2) with [ Z.land (Z.shiftr n 8) 0xFF mod 256; Z.land n 0xFF mod 256 ].
  rewrite (le_val_bytes 4 len), !land_byte, !Z.shiftr_div_pow2 by lia.
  change (2 ^ 24) with 16777216. change (2 ^ 16) with 65536 in *. change (2 ^ 8) with 256. change (2 ^ 32) with 4294967296 in *.
  unfold be_val. cbn [fold_left].
  replace (((_ * 256 + _) * 256 + _) * 256 + _) with lba by zlia.
  replace ((0 * 256 + _) * 256 + _) with n by zlia.
  change (31 =? 31) with true. change (0x80 =? 0x80) with true. change (0 =? 0) with true. change (10 =? 10) with true.
  change (0x28 =? 0x25) with false. change (0x28 =? 0x28) with true.
  change (le_val (le_bytes 4 0x43425355) =? 0x43425355) with true. cbn [andb]. fold len.
  rewrite Z.eqb_refl, (proj2 (Z.leb_le _ _)) by lia. reflexivity.
Qed.

Lemma capacity_command dk :
  bot_command dk (cbw_bytes 1 8 0x80 0 10 (0x25 :: replicate 15 0))
  = Some (DataIn 1 (be_bytes (dk_blocks dk - 1) ++ be_bytes (dk_block_size dk))).
Proof. reflexivity. Qed.

Lemma length_blocks dk lba n :
  (forall l, zlen (dk_sector dk l) = dk_block_size dk) -> zlen (blocks dk lba n) = Z.of_nat n * dk_block_size dk.
Proof.
  intros Hs. unfold blocks. revert lba. induction n as [|n IH]; intros lba.
  - rewrite seqZ_nil by lia. change (zlen (mjoin (dk_sector dk <$> []))) with 0. lia.
  - rewrite seqZ_cons by lia. cbn [fmap list_fmap mjoin list_join]. rewrite zlen_app, Hs.
    replace (Z.pred (Z.of_nat (S n))) with (Z.of_nat n) by lia. rewrite IH. lia.
Qed.

(** the device is ready and the allocator can place the two blocks *)
Record at_rest ms dk `{!BulkOnly ms dk} (buffer len : Z) s : Prop := {
  ar_inv : alloc_inv (pool s);
  ar_idle : bot_phase s = Idle;
  ar_cbw : has_room ms dk 31 buffer len s;
  ar_csw : has_room ms dk 13 buffer len s;
  ar_buffer : forall a, buffer <= a < buffer + len -> usable a
}.

Lemma has_room_pool ms dk `{!BulkOnly ms dk} n buffer len s s' :
  pool s' = pool s -> has_room ms dk n buffer len s -> has_room ms dk n buffer len s'.
Proof. intros Hp. unfold has_room. by rewrite Hp. Qed.

(** the three stages of a command that reads [data] *)
Lemma command_reads ms dk `{!BulkOnly ms dk} tag len cmd data buffer s :
  0 <= tag < 2 ^ 32 -> at_rest ms dk buffer len s -> zlen data = len -> Forall is_byte data ->
  bot_command dk (cbw_bytes tag len 0x80 0 10 cmd) = Some (DataIn tag data) ->
  exists n s1 s2 s3,
    (forall fuel, (n <= fuel)%nat -> SendCBW fuel ms tag len 0x80 0 10 cmd s = Ret true s1
      /\ TransferData fuel ms buffer len true s1 = Ret true s2 /\ ReceiveCSW fuel ms tag s2 = Ret true s3)
    /\ peek_all buffer (length data) (mach s3) = data /\ at_rest ms dk buffer len s3 /\ pool s3 = pool s.
Proof.
  intros Htag [A1 A2 A3 A4 A5] Hlen Hbytes Hcmd.
  destruct (SendCBW_spec ms dk tag len 0x80 0 10 cmd _ buffer len s A1 A2 A3 Hcmd) as (n1 & s1 & Hrun1 & Hph1 & Hp1).
  destruct (TransferData_spec ms dk tag data buffer len s1 Hph1 Hlen Hbytes A5) as (n2 & s2 & Hrun2 & Hph2 & Hp2 & Hdata).
  rewrite Hp1 in Hp2. pose proof (has_room_pool ms dk 13 buffer len s s2 Hp2 A4) as Hroom.
  rewrite <- Hp2 in A1.
  destruct (ReceiveCSW_spec ms dk tag buffer len s2 Htag A1 Hph2 Hroom A5) as (n3 & s3 & Hrun3 & Hph3 & Hp3 & Hkeep).
  rewrite Hp2 in Hp3.
  exists (n1 + n2 + n3)%nat, s1, s2, s3. split; [|split; [|split; [|done]]].
  - intros fuel Hf. split_and!; [apply Hrun1|apply Hrun2|apply Hrun3]; lia.
  - rewrite <- Hdata at 2. apply peek_all_ext. intros a Ha. apply Hkeep. unfold zlen in Hlen. lia.
  - split; [by rewrite Hp3, <- Hp2|done|by apply (has_room_pool ms dk 31 buffer len s)
      |by apply (has_room_pool ms dk 13 buffer len s)|done].
Qed.

(** a read of [rd_count] blocks from [rd_lba] *)
Definition read_ok dk (lba n : Z) : Prop :=
  0 <= lba /\ 0 < n < 2 ^ 16 /\ lba + n <= dk_blocks dk /\ n * dk_block_size dk < 2 ^ 32.

(** C5: From a device that keeps the bulk-only protocol, with a controller that
    completes each transfer after any number of polls, ReadSectors returns true and
    leaves exactly the blocks asked for in the buffer; the device is ready for the next
    command and the memory of the command and status blocks is given back. *)
Theorem ReadSectors_reads ms dk `{!BulkOnly ms dk} lba n buffer s :
  block_size_ ms = dk_block_size dk -> 0 <= dk_block_size dk -> dk_blocks dk <= 2 ^ 32 ->
  (forall l, zlen (dk_sector dk l) = dk_block_size dk /\ Forall is_byte (dk_sector dk l)) -> read_ok dk lba n ->
  at_rest ms dk buffer (n * dk_block_size dk) s ->
  exists m s', (forall fuel, (m <= fuel)%nat -> ReadSectors fuel ms lba n buffer s = Ret true s')
    /\ peek_all buffer (Z.to_nat (n * dk_block_size dk)) (mach s') = blocks dk lba (Z.to_nat n)
    /\ at_rest ms dk buffer (n * dk_block_size dk) s' /\ pool s' = pool s.
Proof.
  intros Hbs Hbs0 Hdk Hsec (Hl & Hn & Hend & Hlen) Hrest. set (len := n * dk_block_size dk) in *.
  assert (Hz : zlen (blocks dk lba (Z.to_nat n)) = len) by (rewrite length_blocks, Z2Nat.id by (lia || apply Hsec); done).
  assert (Hbytes : Forall is_byte (blocks dk lba (Z.to_nat n))).
  { unfold blocks. apply Forall_join, Forall_fmap, Forall_true. intros l. apply Hsec. }
  assert (Hlen0 : 0 <= len) by (unfold len; nia).
  pose proof (read10_command dk lba n Hl ltac:(lia) Hend Hdk ltac:(fold len; lia) ltac:(lia)) as Hcmd. fold len in Hcmd.
  destruct (command_reads ms dk 2 len (read10 lba n) _ buffer s ltac:(lia) Hrest Hz Hbytes Hcmd)
    as (m & s1 & s2 & s3 & Hrun & Hdata & Hrest3 & Hpool).
  exists m, s3. split_and!; [|by rewrite <- Hz; unfold zlen in *; rewrite Nat2Z.id|done|done].
  intros fuel Hf. destruct (Hrun fuel Hf) as (R1 & R2 & R3). unfold ReadSectors. rewrite Hbs. fold len.
  cbv zeta. rewrite u32_small by lia. rewrite (bind_Ret _ _ _ _ _ R1). cbv beta iota delta [negb].
  rewrite (bind_Ret _ _ _ _ _ R2). cbv beta iota. by rewrite (bind_Ret _ _ _ _ _ R3).
Qed.

Lemma look_be_run p v s :
  0 <= v < 2 ^ 32 -> peek_all p 4 (mach s) = be_bytes v -> look_be p s = Ret v s.
Proof.
  intros Hv Hb. unfold look_be, bind, look, ret. f_equal. change (2 ^ 32) with 4294967296 in Hv.
  assert (H1b : forall a, load 1 a (mach s) = peek (mach s) a).
  { intros a. unfold load. cbn [peek_all le_val]. lia. }
  rewrite !H1b. cbn [peek_all] in Hb. unfold be_bytes in Hb. cbn [le_bytes rev app] in Hb.
  injection Hb as E0 E1 E2 E3. rewrite <- !Z.add_assoc in *. change (1 + (1 + 1)) with 3 in E3. change (1 + 1) with 2 in E2.
  rewrite E0, E1, E2, E3. rewrite !Z.shiftl_mul_pow2 by lia.
  change (2 ^ 24) with 16777216. change (2 ^ 16) with 65536. change (2 ^ 8) with 256.
  rewrite (lor_above (_ * 16777216) (_ * 65536) 24) by zlia. rewrite (lor_above (_ + _) (_ * 256) 16) by zlia.
  rewrite (lor_above _ _ 8) by zlia.
  rewrite u32_small by zlia. zlia.
Qed.

(** READ CAPACITY tells the driver the size of the device, in blocks of the device's size *)
Lemma ScsiReadCapacity_spec ms dk `{!BulkOnly ms dk} s :
  0 < dk_blocks dk <= 2 ^ 32 -> 0 <= dk_block_size dk < 2 ^ 32 -> alloc_inv (pool s) ->
  let '(p, m) := Allocate 8 64 (pool s) in
  p <> 0 -> at_rest ms dk p 8 (with_pool s m) ->
  exists k s', (forall fuel, (k <= fuel)%nat ->
      ScsiReadCapacity fuel ms s = Ret (true, set_capacity ms (u32 (dk_blocks dk)) (dk_block_size dk)) s')
    /\ bot_phase s' = Idle /\ pool s' = pool s.
Proof.
  intros Hn Hb Hinv. destruct (Allocate 8 64 (pool s)) as [p m] eqn:HA. intros Hp Hrest.
  set (data := be_bytes (dk_blocks dk - 1) ++ be_bytes (dk_block_size dk)).
  assert (Hbytes : Forall is_byte data).
  { unfold data, be_bytes. apply Forall_app. split; apply Forall_rev, le_bytes_range. }
  destruct (command_reads ms dk 1 8 (0x25 :: replicate 15 0) data p (with_pool s m) ltac:(lia) Hrest eq_refl Hbytes (capacity_command dk))
    as (k & s1 & s2 & s3 & Hrun & Hdata & Hrest3 & Hpool). cbn [pool with_pool] in Hpool.
  exists k, (with_pool s3 (Free p 8 (pool s3))). split; [|split].
  - intros fuel Hf. destruct (Hrun fuel Hf) as (R1 & R2 & R3). unfold ScsiReadCapacity.
    unfold bind at 1, alloc. rewrite HA. rewrite (bind_Ret _ _ _ _ _ R1). cbv beta iota delta [negb].
    rewrite (bind_Ret _ _ _ _ _ R2). cbv beta iota. rewrite (bind_Ret _ _ _ _ _ R3). cbv beta iota.
    change (length data) with (4 + 4)%nat in Hdata. rewrite peek_all_app in Hdata. unfold data in Hdata.
    apply app_inj_1 in Hdata as [D1 D2]; [|by rewrite length_peek_all].
    rewrite (bind_Ret _ _ _ _ _ (look_be_run p (dk_blocks dk - 1) s3 ltac:(lia) D1)).
    rewrite (bind_Ret _ _ _ _ _ (look_be_run (p + 4) (dk_block_size dk) s3 ltac:(lia) D2)).
    unfold bind, free, ret. by replace (dk_blocks dk - 1 + 1) with (dk_blocks dk) by lia.
  - rewrite <- (ar_idle _ _ _ _ _ Hrest3). exact (bot_pool s3 (Free p 8 (pool s3)) (out s3)).
  - cbn [pool with_pool]. rewrite Hpool. eapply Allocate_Free; [exact Hinv| |exact HA|exact Hp]. lia.
Qed.

(** only the low 32 bits of the address and the low 16 of the count are sent *)
Lemma read10_truncates lba n : 0 <= lba -> 0 <= n -> read10 (lba mod 2 ^ 32) (n mod 2 ^ 16) = read10 lba n.
Proof.
  intros Hl Hn. unfold read10. rewrite !land_byte, !Z.shiftr_div_pow2 by lia.
  change (2 ^ 32) with 4294967296. change (2 ^ 16) with 65536. change (2 ^ 24) with 16777216. change (2 ^ 8) with 256.
  repeat (apply (f_equal2 cons); [zlia|]). done.
Qed.
End Protocol.

(** ** A stick of four blocks of eight bytes *)

Module StickSim.
Definition disk : Disk := mkDisk 4 8 (fun l => replicate 8 (u8 (65 + l))).
Definition ms : MassStorage := mkMassStorage 1 0x81 0x02 4 8.
Local Abbreviation Hst := (Host Ram.t MemoryManager.t phase).

#[global] Instance controller : UsbController Ram.t MemoryManager.t phase := {
  ControlIn slot t r v i l buffer := ret true;
  ConfigureEndpoint slot ep m i t := ret true;
  PollEndpoint slot ep := ret 1;
  SendNormalTRB slot ep buffer len := fun s =>
    if ep =? 0x02 then
      Ret true (with_drv s (default Idle (bot_command disk (peek_all buffer 31 (mach s)))))
    else
      match bot_in (drv s) len with
      | Some (data, ph) => Ret true (with_drv (with_mach s (poke_all buffer data (mach s))) ph)
      | None => Ret true s
      end
}.

#[global] Instance stick : BulkOnly ms disk.
Proof.
  refine {| bot_phase s := drv s; usable a := True |}; [done|done| |].
  - intros s buf ph Hph Hcmd. exists (with_drv s ph), 0%nat, (with_drv s ph), 1, (with_drv s ph).
    split_and!; try done; [|constructor]. cbn [SendNormalTRB controller Z.eqb Pos.eqb ep_bulk_out_ ms].
    by rewrite Hcmd.
  - intros s buf len data ph Hin Hbytes _. set (s' := with_drv (with_mach s (poke_all buf data (mach s))) ph).
    exists s', 0%nat, s', 1, s'. split_and!; try done; [|constructor| |].
    + cbn [SendNormalTRB controller Z.eqb Pos.eqb ep_bulk_in_ ms]. by rewrite Hin.
    + by apply peek_all_poke_same.
    + intros a _ Ha. apply peek_poke_other.
      assert (Hlen : zlen data = len); [|lia].
      destruct (drv s) as [|tag d|tag]; cbn [bot_in] in Hin; [done| |].
      * destruct (Z.eqb_spec (zlen d) len); [|done]. by injection Hin as <- <-.
      * destruct (Z.eqb_spec len 13) as [->|]; [|done]. by injection Hin as <- <-.
Defined.

Definition start : Hst := mkHost ∅ sample Idle [].
End StickSim.

Lemma ReadSectors_reads_witness : exists m s',
  (forall fuel, (m <= fuel)%nat -> ReadSectors fuel StickSim.ms 1 2 0x9000 StickSim.start = Ret true s')
  /\ peek_all 0x9000 16 (mach s') = c_lit "BBBBBBBBCCCCCCCC".
Proof.
  destruct (ReadSectors_reads StickSim.ms StickSim.disk 1 2 0x9000 StickSim.start) as (m & s' & Hrun & Hdata & _).
  - reflexivity.
  - cbn; lia.
  - cbn; lia.
  - intros l. split; [reflexivity|]. cbn [dk_sector StickSim.disk]. apply Forall_replicate, u8_range.
  - unfold read_ok. cbn. lia.
  - split; [exact sample_inv|reflexivity| | |done]; (split; [vm_compute; discriminate|]);
      intros a; vm_compute (fst _); cbn [dk_block_size StickSim.disk]; intros Ha; (split; [exact I|lia]).
  - exists m, s'. split; [exact Hrun|exact Hdata].
Defined.
