(* ===== verification/UsbPorts.v ===== *)
(** * Bringing up the bus: Controller::Initialize, interrupts, SetupPCI

    The controller of [Xhci] behind the interface of the USB drivers, and the code
    that calls both sides: the loop over the ports, the interrupt handlers and the
    scan that finds the controllers. *)
From S2P Require Import Prelude Run Memory Machine Rings Pci CycleRing Xhci XhciRings Usb UsbKeyboard MassStorage.
#[local] Open Scope run_scope.

(** the globals g_usb_keyboard and g_mass_storage *)
Record Drivers := mkDrivers { g_usb_keyboard : option Keyboard; g_mass_storage : option MassStorage }.

Section Ports.
Context {W M : Type} `{Machine W} `{FrameAllocator M}.
Local Abbreviation HR := (fun A => Host W M Controller -> Run (Host W M Controller) A).

(** the rounds of the polling loops and of the loops over descriptors *)
Variables (fuel polls : nat).

#[local] Instance Xhci_controller : UsbController W M Controller := {
  Usb.ControlIn := Xhci.ControlIn fuel;
  Usb.ConfigureEndpoint := Xhci.ConfigureEndpoint fuel;
  Usb.PollEndpoint := Xhci.PollEndpoint;
  Usb.SendNormalTRB := Xhci.SendNormalTRB
}.

(** the device of a port, addressed as [slot_id]: keyboard or mass storage *)
Definition start_device (dev_desc slot_id : Z) (d : Drivers) : HR Drivers :=
  obj <-- new_object sizeof_Keyboard ;;
  let** (ok, kb) := UsbKeyboard.Initialize fuel dev_desc (new_Keyboard obj slot_id) in
  if (ok : bool) then
    say "[xHCI - kbd] Keyboard initialized.\n" [] ;;;
    ret (mkDrivers (Some kb) (g_mass_storage d))
  else
    delete_object obj ;;;
    obj_ms <-- new_object sizeof_MassStorage ;;
    let** (ok, ms) := MassStorage.Initialize fuel (new_MassStorage slot_id) in
    (if (ok : bool) then
       say "[xHCI - ms] Mass Storage initialized!\n" [] ;;;
       sec0 <-- alloc 512 64 ;;
       ok <-- ReadSectors fuel ms 0 1 sec0 ;;
       if (ok : bool) then
         b0 <-- look 1 sec0 ;;
         b1 <-- look 1 (sec0 + 1) ;;
         say "Sector 0 Dump: %x %x ...\n" [KInt b0; KInt b1]
       else ret tt
     else ret tt) ;;;
    ret (mkDrivers None (Some ms)).

(** a port; the descriptors of the two drivers are read into locals *)
Definition init_port (dev_desc port : Z) (d : Drivers) : HR Drivers :=
  portsc <-- ReadOpReg (portsc_offset port) ;;
  if Z.land portsc 1 =? 0 then ret d
  else
    say "[xHCI] Device found at Port %d. Resetting...\n" [KInt port] ;;;
    ResetPort polls port ;;;
    portsc_after <-- ReadOpReg (portsc_offset port) ;;
    let speed := Z.land (Z.shiftr portsc_after 10) 0x0F in
    say "[xHCI] Port Speed ID: %d\n" [KInt speed] ;;;
    slot_id <-- EnableSlot fuel ;;
    if 0 <? slot_id then
      addressed <-- AddressDevice fuel slot_id port speed ;;
      if (addressed : bool) then
        ok <-- Xhci.ControlIn fuel slot_id 0x80 6 0x0100 0 18 dev_desc ;;
        if (ok : bool) then start_device dev_desc slot_id d else ret d
      else ret d
    else ret d.

(** [for (i = 1; i <= max_slots_ && i <= 16; ++i)] *)
Fixpoint init_ports (n : nat) (port dev_desc : Z) (d : Drivers) : HR Drivers :=
  match n with
  | O => ret d
  | S n' => d <-- init_port dev_desc port d ;; init_ports n' (port + 1) dev_desc d
  end.

Definition Initialize (dev_desc : Z) (d : Drivers) : HR Drivers :=
  InitializeController fuel polls ;;;
  max_slots <-- my max_slots_ ;;
  init_ports (Z.to_nat (Z.min max_slots 16)) 1 dev_desc d.

(** ** Interrupts *)

(** what the interrupt does about the keyboard; [fd] is standard input when it is a
    KeyboardFD *)
Definition update_keyboard (d : Drivers) (fd : option Ring) : HR (option Ring) :=
  match g_usb_keyboard d with
  | Some kb => Update kb fd
  | None => ret fd
  end.

Definition ProcessInterrupt (d : Drivers) (fd : option Ring) : HR (option Ring) :=
  ProcessInterrupt_event ;;;
  update_keyboard d fd.
End Ports.

(** ** PCI::SetupPCI

    [start_xhci] is [new Controller(dev)] and Initialize, [start_nvme] the four calls on
    a new NVMe driver. *)

Section SetupPCI.
Context {W M X : Type} `{Machine W} `{FrameAllocator M}.
Local Abbreviation HR := (fun A => Host W M X -> Run (Host W M X) A).
Variables (start_xhci : Device -> HR unit) (start_nvme : Z -> HR unit).

Definition SetupPCI : HR unit :=
  say "Setting up PCI...\n" [] ;;;
  for_each_function (fun b d f =>
    let dev := at_slot b d f in
    reg0 <-- ReadConfReg dev 0x00 ;;
    if Z.land reg0 0xFFFF =? 0xFFFF then ret tt
    else
      reg8 <-- ReadConfReg dev 0x08 ;;
      let base := Z.land (Z.shiftr reg8 24) 0xFF in
      let sub := Z.land (Z.shiftr reg8 16) 0xFF in
      let prog := Z.land (Z.shiftr reg8 8) 0xFF in
      (if (base =? 0x0C) && (sub =? 0x03) && (prog =? 0x30) then
         say "Found xHCI Controller at %d:%d.%d\n" [KInt b; KInt d; KInt f] ;;; start_xhci dev
       else ret tt) ;;;
      (if (base =? 0x01) && (sub =? 0x08) then
         say "Found NVMe Controller at %d:%d.%d\n" [KInt b; KInt d; KInt f] ;;;
         bar0 <-- ReadBar0 dev ;; start_nvme bar0
       else ret tt)) ;;;
  say "PCI Setup Complete.\n" [].
End SetupPCI.

(** ** The interrupt and the keyboard *)

Section Interrupt.
Context {W M : Type} `{MachineLaws W} `{FrameAllocator M}.
Variables (fuel : nat) (ring : Z).
Context `{!DriverOwned W ring}.
Implicit Types s : Host W M Controller.

(** writing the registers leaves the ring *)
Lemma entries_told x w i : 0 <= i < 32 -> entries ring (told x w) i = entries ring w i.
Proof.
  intros Hi. apply read_trb_ext. intros a Ha. unfold told. unfold trb_at, sizeof_TRB in Ha.
  by rewrite !owned_reg by lia.
Qed.

(** C39: When the completion of a key report is the event that raises the interrupt,
    ProcessInterrupt takes it off the ring itself, so that the keyboard's Update, called
    right after, finds nothing: no character is delivered, whatever was typed. *)
Theorem interrupt_takes_report s pr e d kb fd :
  event_queue ring s pr [e] -> g_usb_keyboard d = Some kb ->
  exists s', ProcessInterrupt fuel d (Some fd) s = Ret (Some fd) s' /\ event_queue ring s' pr [].
Proof.
  intros Hq Hkb. destruct (ProcessInterrupt_run ring s (eq_ring _ _ _ _ Hq)) as [o Hint].
  pose proof (eq_waiting _ _ _ _ Hq) as Hw.
  destruct (waiting_head 32 ltac:(lia) _ _ _ _ _ _ Hw) as [Hcyc _]. cbv beta in Hcyc.
  rewrite Hcyc, Z.eqb_refl in Hint.
  destruct (advanced_queue ring s pr e [] Hq) as (A1 & A2 & A3).
  set (s1 := mkHost _ _ _ _) in Hint. exists s1.
  assert (Hq1 : event_queue ring s1 pr []).
  { split; [exact A1| |exact A3]. eapply waiting_ext; [|exact A2]. intros i Hi. cbv beta.
    unfold s1. cbn [mach]. by rewrite entries_told. }
  split; [|done]. unfold ProcessInterrupt, update_keyboard. rewrite (bind_Ret _ _ _ _ _ Hint), Hkb.
  unfold Update. pose proof (waiting_none 32 ltac:(lia) _ _ _ _ (eq_waiting _ _ _ _ Hq1)) as Hnone. cbv beta in Hnone.
  pose proof (PollEndpoint_run ring (UsbKeyboard.slot_id_ kb) (ep_interrupt_in_ kb) s1 (eq_ring _ _ _ _ Hq1)) as Hpoll.
  pose proof (wt_cycle _ _ _ _ _ _ (eq_waiting _ _ _ _ Hq1)) as Hc.
  cbv zeta in Hpoll. rewrite (proj2 (Z.eqb_neq _ (dcs_ (drv s1)))) in Hpoll by lia.
  by rewrite (bind_Ret _ _ _ _ _ Hpoll).
Qed.
End Interrupt.

Lemma interrupt_takes_report_witness : exists s s' : Host Ram.t MemoryManager.t Controller,
  entries 8192 (mach s) 0 = marked sample_event 1
  /\ ProcessInterrupt 0 (mkDrivers (Some (mkKeyboard 4096 1 0x81)) None) (Some KeyboardSim.fd) s = Ret (Some KeyboardSim.fd) s'.
Proof.
  set (w := store_trb 8192 (marked sample_event 1) (∅ : Ram.t)). set (s := with_mach sample_host w).
  assert (Hq : event_queue 8192 s (1, 1) [sample_event]).
  { assert (Hpost : posts 8192 (0, 1) [sample_event] (mach sample_host) (mach s) (1, 1)).
    { split; [constructor; [vm_compute; intuition discriminate|constructor]|]. cbn [posted next_entry fst snd].
      split; [reflexivity|]. intros j Hj. destruct (Z.eqb_spec j 0) as [->|Hne].
      - apply (read_store_same 8192). vm_compute. intuition discriminate.
      - apply read_store_other. unfold trb_at, sizeof_TRB. lia. }
    eapply (event_queue_posts 8192 sample_host s (0, 1) [] [sample_event]); [reflexivity..|exact Hpost|vm_compute; discriminate|].
    apply fresh_event_queue. split; [reflexivity..|]. intros a _. reflexivity. }
  destruct (interrupt_takes_report 0 8192 s (1, 1) sample_event (mkDrivers (Some (mkKeyboard 4096 1 0x81)) None)
    (mkKeyboard 4096 1 0x81) KeyboardSim.fd Hq eq_refl) as (s' & Hrun & _).
  exists s, s'. split; [apply (read_store_same 8192); vm_compute; intuition discriminate|exact Hrun].
Defined.
