(* ===== verification/Interrupts.v ===== *)
(** * Interrupts (kernel/interrupt.cpp, apic.cpp, ioapic.cpp, pic.cpp)

    What the exception handlers show, and the interrupt controllers; the descriptor
    table is in Idt.v, the handlers of devices in UsbPorts.v. *)
From S2P Require Import Prelude Run Memory Machine Cpu Printk Font Graphics Console Rings Paging Tasks TaskQueue Scheduler CycleRing Xhci XhciRings Usb UsbKeyboard MassStorage UsbPorts.
#[local] Open Scope run_scope.

(** ** What an exception handler shows *)

(** struct InterruptFrame *)
Record InterruptFrame := mkFrame { f_rip : Z; f_cs : Z; f_rflags : Z; f_rsp : Z; f_ss : Z }.

Definition kBsodBgColor : Z := 0xFF0000AA.
Definition kWhiteColor : Z := 0xFFFFFFFF.
Definition kYellowColor : Z := 0xFFFFFF00.
Definition kRedColor : Z := 0xFFFF0000.

(** a call of SetColor or of kprintf; without a console neither does anything *)
Inductive shown := Colour (fg bg : Z) | Text (fmt : string) (args : list karg).
Arguments Text _%_string _.

Definition show_on (g_console : option Console.Console) (x : shown) : option Console.Console :=
  c ← g_console;
  match x with
  | Colour fg bg => Some (SetColor c fg bg)
  | Text fmt args =>
      '(strings, _) ← Printk.kprintf true (c_lit fmt) args;
      Some (fold_left PutString strings c)
  end.

(** the handler prints and stops the processor for good *)
Definition stop_with (text : list shown) (g_console : option Console.Console)
    : Run (option Console.Console) unit :=
  Halted (fold_left show_on text g_console).

Definition title (fg : Z) (name : string) : list shown :=
  [Colour fg kBsodBgColor;
   Text "\n========================================\n" [];
   Text name [];
   Text "========================================\n\n" [];
   Colour kWhiteColor kBsodBgColor].

Definition DivideErrorHandler (frame : InterruptFrame) : list shown :=
  title kRedColor "      DIVIDE ERROR EXCEPTION (#DE)      \n" ++
  [Text "The kernel attempted to divide a number by zero.\n\n" [];
   Text "RIP: %lx  CS: %lx\n" [KInt (f_rip frame); KInt (f_cs frame)];
   Text "RFLAGS: %lx\n" [KInt (f_rflags frame)];
   Text "\nSystem Halted.\n" []].

Definition InvalidOpcodeHandler (frame : InterruptFrame) : list shown :=
  title kRedColor "      INVALID OPCODE EXCEPTION (#UD)    \n" ++
  [Text "The processor encountered an invalid instruction.\n" [];
   Text "This usually means the Instruction Pointer (RIP) is corrupt\n" [];
   Text "or pointing to data instead of code.\n\n" [];
   Text "RIP: %lx  CS: %lx\n" [KInt (f_rip frame); KInt (f_cs frame)];
   Text "RFLAGS: %lx\n" [KInt (f_rflags frame)];
   Text "\nSystem Halted.\n" []].

Definition DoubleFaultHandler (frame : InterruptFrame) (error_code : Z) : list shown :=
  title kRedColor "    CRITICAL DOUBLE FAULT (#DF)         \n" ++
  [Text "The processor failed to handle an exception.\n" [];
   Text "This is a critical system failure.\n\n" [];
   Text "RIP: %lx  CS: %lx\n" [KInt (f_rip frame); KInt (f_cs frame)];
   Text "RFLAGS: %lx\n" [KInt (f_rflags frame)];
   Text "Error Code: %lx\n" [KInt error_code];
   Text "\nSystem Halted.\n" []].

Definition GPFaultHandler (frame : InterruptFrame) (error_code : Z) : list shown :=
  title kRedColor "   GENERAL PROTECTION FAULT (#GP)   \n" ++
  [Text "A fatal exception has occurred at:\n" [];
   Text "RIP   : %lx\n" [KInt (f_rip frame)];
   Text "CS    :  %lx\n" [KInt (f_cs frame)];
   Text "RFLAGS: %lx\n" [KInt (f_rflags frame)];
   Text "RSP   : %lx\n" [KInt (f_rsp frame)];
   Text "SS    :  %lx\n" [KInt (f_ss frame)];
   Text "Error Code: %lx\n" [KInt error_code];
   Text "System Halted. Please reset the machine.\n" []].

Definition PageFaultHandler (cr2 : Z) (frame : InterruptFrame) (error_code : Z) : list shown :=
  title kYellowColor "         PAGE FAULT DETECTED!         \n" ++
  [Text "The kernel tried to access an invalid memory address.\n\n" [];
   Text "Accessed Address (CR2): %lx\n" [KInt cr2];
   Text "Instruction Pointer (RIP): %lx\n" [KInt (f_rip frame)];
   Text "Error Code: %lx\n" [KInt error_code];
   Text "\nReason Analysis:\n" [];
   Text "  - " [];
   (if Z.land error_code 1 =? 0 then Text "Page Not Present (Invalid Address)" []
    else Text "Protection Violation (Access Rights)" []);
   Text "\n  - " [];
   (if negb (Z.land error_code 2 =? 0) then Text "Write Operation" [] else Text "Read Operation" []);
   Text "\n  - " [];
   (if negb (Z.land error_code 4 =? 0) then Text "User Mode Cause" [] else Text "Kernel Mode Cause" []);
   Text "\n\n" [];
   Text "System Halted.\n" []].

(** ** Interrupt controllers *)

Section Controllers.
Context {W M X : Type} `{Machine W} `{FrameAllocator M}.
Local Abbreviation HR := (fun A => Host W M X -> Run (Host W M X) A).

(** *** apic.cpp *)
Definition kLocalApicBase : Z := 0xFEE00000.
Definition LAPIC_ID : Z := 0x020.
Definition LAPIC_EOI : Z := 0x0B0.
Definition LAPIC_SVR : Z := 0x0F0.
Definition LAPIC_LVT_TIMER : Z := 0x320.
Definition LAPIC_TIMER_INIT : Z := 0x380.
Definition LAPIC_TIMER_DIV : Z := 0x3E0.

Definition LapicRead (register_offset : Z) : HR Z := ask (reg_read (kLocalApicBase + register_offset)).
Definition LapicWrite (register_offset value : Z) : HR unit :=
  act (reg_write (kLocalApicBase + register_offset) (u32 value)).

Definition StartTimer (interval_ms vector : Z) : HR unit :=
  LapicWrite LAPIC_TIMER_DIV 0x03 ;;;
  LapicWrite LAPIC_LVT_TIMER (Z.lor (Z.shiftl 1 17) vector) ;;;
  LapicWrite LAPIC_TIMER_INIT (u32 (62500 * interval_ms)).

Definition LapicEnable : HR unit := LapicWrite LAPIC_SVR (Z.lor 0x100 0xFF).
Definition EndOfInterrupt : HR unit := LapicWrite LAPIC_EOI 0.
Definition GetID : HR Z := id <-- LapicRead LAPIC_ID ;; ret (Z.shiftr id 24).

(** *** ioapic.cpp *)
Definition kIOAPICBase : Z := 0xFEC00000.
Definition IOREDTBL : Z := 0x10.

Definition IoapicRead (index : Z) : HR Z :=
  act (reg_write kIOAPICBase (u32 index)) ;;; ask (reg_read (kIOAPICBase + 0x10)).
Definition IoapicWrite (index data : Z) : HR unit :=
  act (reg_write kIOAPICBase (u32 index)) ;;; act (reg_write (kIOAPICBase + 0x10) (u32 data)).

Definition IoapicEnable (irq vector dest_id : Z) : HR unit :=
  let index := u32 (IOREDTBL + 2 * irq) in
  let low := u32 vector in
  let high := u32 (Z.shiftl dest_id 24) in
  IoapicWrite (index + 1) high ;;;
  IoapicWrite index low.

(** *** pic.cpp *)
Definition DisablePIC : HR unit :=
  act (IoOut8 0xA1 0xFF) ;;;
  act (IoOut8 0x21 0xFF).
End Controllers.

(** ** The handlers that return *)

Section Handlers.
Context {W M : Type} `{Machine W} `{FrameAllocator M} `{FramePool M}.
Local Abbreviation HR := (fun A => Host W M Controller -> Run (Host W M Controller) A).
Variable fuel : nat.

(** [xhci], [lapic]: whether g_xhci and g_lapic are set *)
Definition UsbInterruptHandler (xhci lapic : bool) (d : Drivers) (fd : option Ring) : HR (option Ring) :=
  say "[IRQ] USB Interrupt!\\n" [] ;;;
  fd <-- (if xhci then ProcessInterrupt fuel d fd else ret fd) ;;
  (if lapic then EndOfInterrupt else ret tt) ;;;
  ret fd.

Definition timer_devices (lapic : bool) (d : Drivers) (fd : option Ring) : HR (option Ring) :=
  (if lapic then EndOfInterrupt else ret tt) ;;;
  update_keyboard fuel d fd.

(** the switch to another task is the last thing; the interrupted task goes on here
    when it is switched to again *)
Definition TimerHandler (lapic : bool) (d : Drivers) (fd : option Ring) (s : Host W M Controller)
    (sched : Sched M) : option (option Ring * Host W M Controller * Sched M) :=
  match timer_devices lapic d fd s with
  | Ret fd' s' => sched' ← Schedule false sched; Some (fd', s', sched')
  | _ => None
  end.
End Handlers.
