(* ===== verification/Apic.v ===== *)
(** * The interrupt controllers (kernel/apic.cpp, kernel/ioapic.cpp)

    What a local APIC and an I/O APIC do with the accesses to their registers, as their
    manuals describe it and apart from the code; [Class ApicLaws] is a machine that has
    them.  The lemmas say what the functions of [Interrupts] leave in the controllers. *)
From S2P Require Import Prelude Run Memory Machine Interrupts.
#[local] Open Scope run_scope.

(** ** The controllers *)

(** the local APIC: the spurious vector register with the software enable, the timer, and
    the vectors in service, the newest first; the I/O APIC: the selected register and the
    redirection table, low and high words *)
Record Apic := mkApic {
  local_id : Z;
  spurious : Z;
  lvt_timer : Z;
  divide : Z;
  initial_count : Z;
  isr_vectors : list Z;
  selected : Z;
  redirection : Z -> Z
}.

(** bits that can be written; the others are reserved or report a state *)
Definition spurious_bits : Z := 0x13FF.
Definition timer_bits : Z := 0x700FF.
Definition divide_bits : Z := 0xB.
Definition route_low_bits : Z := 0x1AFFF.
Definition route_high_bits : Z := 0xFF000000.

Definition software_enabled (x : Apic) : bool := Z.testbit (spurious x) 8.
Definition mask_bit : Z := 0x10000.

(** a write of [v] at the address [a].  While the APIC is disabled by software, the timer
    is masked and its mask cannot be cleared. *)
Definition apic_write (a v : Z) (x : Apic) : Apic :=
  let '(mkApic id svr lvt div init isr sel red) := x in
  if a =? 0xFEE000F0 then
    let svr := Z.land v spurious_bits in
    mkApic id svr (if Z.testbit svr 8 then lvt else Z.lor lvt mask_bit) div init isr sel red
  else if a =? 0xFEE00320 then
    let lvt := Z.land v timer_bits in
    mkApic id svr (if Z.testbit svr 8 then lvt else Z.lor lvt mask_bit) div init isr sel red
  else if a =? 0xFEE003E0 then mkApic id svr lvt (Z.land v divide_bits) init isr sel red
  else if a =? 0xFEE00380 then mkApic id svr lvt div v isr sel red
  else if a =? 0xFEE000B0 then mkApic id svr lvt div init (tail isr) sel red
  else if a =? 0xFEC00000 then mkApic id svr lvt div init isr (Z.land v 0xFF) red
  else if a =? 0xFEC00010 then
    mkApic id svr lvt div init isr sel
      (fun i => if i =? sel then Z.land v (if Z.even sel then route_low_bits else route_high_bits) else red i)
  else x.

(** a machine with these controllers; reading a register changes neither *)
Class ApicLaws (W : Type) `{Machine W} := {
  apic : W -> Apic;
  apic_reg_write a v w : apic (reg_write a v w) = apic_write a v (apic w);
  apic_reg_read a w : apic (snd (reg_read a w)) = apic w;
  apic_id_read w : fst (reg_read 0xFEE00020 w) = Z.shiftl (local_id (apic w)) 24;
  apic_id_range w : 0 <= local_id (apic w) < 256
}.

(** ** What the registers mean *)

(** the divisor of the timer's clock *)
Definition divisor (x : Apic) : Z :=
  match divide x with
  | 0 => 2 | 1 => 4 | 2 => 8 | 3 => 16 | 8 => 32 | 9 => 64 | 10 => 128 | _ => 1
  end.

Definition timer_vector (x : Apic) : Z := Z.land (lvt_timer x) 0xFF.
Definition timer_masked (x : Apic) : bool := Z.testbit (lvt_timer x) 16.
Definition timer_periodic (x : Apic) : bool := Z.land (Z.shiftr (lvt_timer x) 17) 3 =? 1.

(** the timer counts down from [count] again and again and asks for [vector] each time *)
Record ticking (x : Apic) (vector count : Z) : Prop := {
  tk_enabled : software_enabled x = true;
  tk_vector : timer_vector x = vector;
  tk_unmasked : timer_masked x = false;
  tk_periodic : timer_periodic x = true;
  tk_count : initial_count x = count /\ 0 < count
}.

(** an edge on the line [irq] goes to the processor [dest] as [vector]: fixed delivery,
    physical destination, active high, edge triggered, not masked *)
Record routed (x : Apic) (irq vector dest : Z) : Prop := {
  rt_vector : Z.land (redirection x (0x10 + 2 * irq)) 0xFF = vector;
  rt_fixed : Z.land (Z.shiftr (redirection x (0x10 + 2 * irq)) 8) 7 = 0;
  rt_physical : Z.testbit (redirection x (0x10 + 2 * irq)) 11 = false;
  rt_high : Z.testbit (redirection x (0x10 + 2 * irq)) 13 = false;
  rt_edge : Z.testbit (redirection x (0x10 + 2 * irq)) 15 = false;
  rt_unmasked : Z.testbit (redirection x (0x10 + 2 * irq)) 16 = false;
  rt_dest : Z.shiftr (redirection x (0x10 + 2 * irq + 1)) 24 = dest
}.

(** the timer's interrupt is taken: its vector is in service *)
Definition timer_fires (x : Apic) : option Apic :=
  let '(mkApic id svr lvt div init isr sel red) := x in
  if software_enabled x && negb (timer_masked x) && (0 <? init)
  then Some (mkApic id svr lvt div init (timer_vector x :: isr) sel red)
  else None.

Lemma ticking_fires x vector count : ticking x vector count ->
  exists x', timer_fires x = Some x' /\ isr_vectors x' = vector :: isr_vectors x.
Proof.
  intros [He Hv Hm Hp [Hc Hpos]]. destruct x as [id svr lvt div init isr sel red]. unfold timer_fires.
  cbn [initial_count] in Hc. subst init. rewrite He, Hm, (proj2 (Z.ltb_lt _ _) Hpos). cbn [negb andb].
  eexists. split; [reflexivity|]. cbn [isr_vectors]. by rewrite Hv.
Qed.

(** the end of the interrupt gives back what taking it changed *)
Lemma timer_fires_eoi x x' : timer_fires x = Some x' -> apic_write 0xFEE000B0 0 x' = x.
Proof.
  destruct x as [id svr lvt div init isr sel red]. unfold timer_fires. destruct (_ && _ && _); [|discriminate].
  by intros [= <-].
Qed.

(** ** Code that only accesses registers *)

Section Accesses.
Context {W M X : Type} `{Machine W} `{FrameAllocator M}.
Local Abbreviation HR := (fun A => Host W M X -> Run (Host W M X) A).

(** it returns the value and leaves the machine that [f] tells, and nothing else changes *)
Definition runs {A} (m : HR A) (f : W -> A * W) : Prop := forall h,
  m h = Ret (fst (f (mach h))) (with_mach h (snd (f (mach h)))).

Lemma runs_act g : runs (act g) (fun w => (tt, g w)).
Proof. done. Qed.
Lemma runs_then {A B} (m : HR A) (k : HR B) f g :
  runs m f -> runs k g -> runs (bind m (fun _ => k)) (fun w => g (snd (f w))).
Proof. intros Hm Hk h. rewrite (bind_Ret _ _ _ _ _ (Hm h)). apply Hk. Qed.
End Accesses.

Section Effects.
Context {W M X : Type} `{ApicLaws W} `{FrameAllocator M}.
Local Abbreviation HR := (fun A => Host W M X -> Run (Host W M X) A).
Implicit Types w : W.

(** [P] holds of the controllers before and after *)
Definition effect {A} (m : HR A) (P : Apic -> Apic -> Prop) : Prop := exists f,
  runs m f /\ forall w, P (apic w) (apic (snd (f w))).

Lemma LapicEnable_effect : effect LapicEnable (fun x x' => x' = apic_write 0xFEE000F0 0x1FF x).
Proof. eexists. split; [apply runs_act|]. intros w. apply apic_reg_write. Qed.

Lemma EndOfInterrupt_effect : effect EndOfInterrupt (fun x x' => x' = apic_write 0xFEE000B0 0 x).
Proof. eexists. split; [apply runs_act|]. intros w. apply apic_reg_write. Qed.

Lemma StartTimer_effect interval_ms vector : effect (StartTimer interval_ms vector) (fun x x' => x' =
  apic_write 0xFEE00380 (u32 (62500 * interval_ms))
    (apic_write 0xFEE00320 (u32 (Z.lor 0x20000 vector)) (apic_write 0xFEE003E0 3 x))).
Proof.
  eexists. split.
  - do 2 (apply runs_then; [apply runs_act|]). apply runs_act.
  - intros w. cbn [fst snd]. rewrite !apic_reg_write. f_equal.
    apply (Z.mod_small (u32 (62500 * interval_ms))), u32_range.
Qed.

Lemma route_effect irq vector :
  effect (id <-- GetID ;; IoapicEnable irq vector id) (fun x x' => x' =
    (let index := u32 (0x10 + 2 * irq) in
     apic_write 0xFEC00010 (u32 (u32 vector)) (apic_write 0xFEC00000 (u32 index)
       (apic_write 0xFEC00010 (u32 (u32 (Z.shiftl (local_id x) 24))) (apic_write 0xFEC00000 (u32 (index + 1)) x))))).
Proof.
  exists (fun w => let v := fst (reg_read (kLocalApicBase + LAPIC_ID) w) in
    let w := snd (reg_read (kLocalApicBase + LAPIC_ID) w) in
    let index := u32 (IOREDTBL + 2 * irq) in
    (tt, reg_write (kIOAPICBase + 0x10) (u32 (u32 vector)) (reg_write kIOAPICBase (u32 index)
      (reg_write (kIOAPICBase + 0x10) (u32 (u32 (Z.shiftl (Z.shiftr v 24) 24)))
        (reg_write kIOAPICBase (u32 (index + 1)) w))))). split.
  - intros h. unfold GetID, LapicRead, ask. do 2 unfold bind at 1.
    destruct (reg_read (kLocalApicBase + LAPIC_ID) (mach h)) as [v w]. reflexivity.
  - intros w. cbn [fst snd]. rewrite !apic_reg_write.
    change (kLocalApicBase + LAPIC_ID) with 0xFEE00020. rewrite apic_reg_read, apic_id_read.
    rewrite Z.shiftr_shiftl_r by lia. by rewrite Z.shiftr_0_r.
Qed.
End Effects.

(** ** What the steps of KernelMain make of any controllers *)

Lemma local_id_write a v x : local_id (apic_write a v x) = local_id x.
Proof. destruct x. unfold apic_write. by repeat case_match. Qed.

(** LapicEnable, IoapicEnable 1 0x40 and StartTimer 10 0x20, in this order *)
Definition programmed (x : Apic) : Apic :=
  apic_write 0xFEE00380 625000 (apic_write 0xFEE00320 0x20020 (apic_write 0xFEE003E0 3
    (apic_write 0xFEC00010 0x40 (apic_write 0xFEC00000 0x12
      (apic_write 0xFEC00010 (Z.shiftl (local_id x) 24) (apic_write 0xFEC00000 0x13
        (apic_write 0xFEE000F0 0x1FF x))))))).

Lemma programmed_ok x : 0 <= local_id x < 256 ->
  ticking (programmed x) 0x20 625000 /\ divisor (programmed x) = 16 /\ routed (programmed x) 1 0x40 (local_id x)
  /\ isr_vectors (programmed x) = isr_vectors x.
Proof.
  intros Hid. destruct x as [id svr lvt div init isr sel red]. cbn [local_id] in Hid.
  split; [by split|]. split; [done|]. split; [|done]. split; try done.
  change (Z.shiftr (Z.land (Z.shiftl id 24) (Z.shiftl (Z.ones 8) 24)) 24 = id).
  rewrite <- Z.shiftl_land, Z.shiftr_shiftl_r, Z.shiftr_0_r by lia. rewrite Z.land_ones by lia.
  apply Z.mod_small. exact Hid.
Qed.

(** ** A machine with memory and the two controllers *)

Module ApicSim.
Definition t : Type := (Ram.t * Apic)%type.

#[global] Instance machine : Machine t := {
  peek w a := peek w.1 a;
  poke a v w := (poke a v w.1, w.2);
  reg_read a w := (if a =? 0xFEE00020 then Z.shiftl (local_id w.2 mod 256) 24 else 0, w);
  reg_write a v w := (w.1, apic_write a v w.2);
  port_in n port w := (0, w);
  port_out n port v w := w;
  cpu_pause w := w;
  cpu_wbinvd w := w
}.

(** the state with an identifier of eight bits *)
Definition view (x : Apic) : Apic :=
  mkApic (local_id x mod 256) (spurious x) (lvt_timer x) (divide x) (initial_count x) (isr_vectors x)
    (selected x) (redirection x).

Lemma view_write a v x : view (apic_write a v x) = apic_write a v (view x).
Proof.
  destruct x as [id svr lvt div init isr sel red]. unfold apic_write, view.
  cbn [local_id spurious lvt_timer divide initial_count isr_vectors selected redirection].
  repeat case_match; reflexivity.
Qed.

Lemma view_fires x : timer_fires (view x) = view <$> timer_fires x.
Proof. destruct x as [id svr lvt div init isr sel red]. unfold timer_fires, view. cbn. by destruct (_ && _ && _). Qed.

#[global] Program Instance laws : ApicLaws t := { apic w := view w.2 }.
Next Obligation. intros a v w. apply view_write. Qed.
Next Obligation. done. Qed.
Next Obligation. done. Qed.
Next Obligation. intros w. apply Z.mod_pos_bound. lia. Qed.

(** the machine when the timer's interrupt is taken *)
Definition fired (w : t) : t := (w.1, default w.2 (timer_fires w.2)).

Lemma fired_ok w : is_Some (timer_fires (apic w)) -> timer_fires (apic w) = Some (apic (fired w)).
Proof.
  unfold apic, laws, fired. cbn [snd]. rewrite view_fires. destruct (timer_fires w.2) as [x|]; [done|by intros []].
Qed.

(** after reset: disabled, everything masked *)
Definition reset : Apic := mkApic 3 0xFF mask_bit 0 0 [] 0 (fun i => if Z.even i then mask_bit else 0).
End ApicSim.
