(* ===== verification/Init.v ===== *)
(** * The start of the kernel (InitializeCore of sys/init/init.cpp)

    InitializeCore brings up the processor's tables, the memory manager, paging and the
    system calls in one state.  The theorem is about what all steps leave together: the
    tables that the first steps fill are in the kernel image, whose frames the memory
    manager never hands out, so that all later steps leave them alone; the identity map of
    the memory; and the registers, the context and the stack of system calls. *)
From S2P Require Import Prelude Run Memory Machine Cpu Idt UserMode Paging PagingMap PagingBoot Interrupts.
#[local] Open Scope run_scope.

(** ** InitializeCore *)

Section InitializeCore.
Context {W : Type} `{Machine W}.
Local Abbreviation MM := MemoryManager.t.
(** the processor and the page manager, whose frames are those of the host's pool *)
Local Abbreviation Hst := (Host W MM (Cpu * PM MM)).
Local Abbreviation HR := (fun A => Hst -> Run Hst A).
Implicit Types s : Hst.

(** code that works on the processor, memory and the allocator *)
Definition on_cpu {A} (m : Host W MM Cpu -> Run (Host W MM Cpu) A) : HR A := fun s =>
  match m (mkHost (mach s) (Machine.pool s) (drv s).1 (out s)) with
  | Ret a h => Ret a (mkHost (mach h) (Machine.pool h) (drv h, (drv s).2) (out h))
  | Halted h => Halted (mkHost (mach h) (Machine.pool h) (drv h, (drv s).2) (out h))
  | NoFuel => NoFuel
  end.

(** MemoryManager::Initialize; the linker's symbols bound the kernel image *)
Definition initialize_memory (memmap : MemoryMap) (kernel_start kernel_end : Z) : HR unit := fun s =>
  match MemoryManager.Initialize memmap kernel_start kernel_end (Machine.pool s) with
  | Some m => Ret tt (Machine.with_pool s m)
  | None => (say "Error: No suitable memory region found for bitmap.\n" [] ;;; halt) s
  end.

(** PageManager::Initialize *)
Definition initialize_paging : HR unit := fun s =>
  let pm := (drv s).2 in
  match Paging.Initialize (mkPM (pml4_table_ pm) (cr3 pm) (tables pm) (Machine.pool s) (invalidated pm) []) with
  | Some pm' => Ret tt (mkHost (mach s) (Paging.pool pm') ((drv s).1, pm') (out s ++ pm_out pm'))
  | None => Halted s
  end.

Definition kKernelStackSize : Z := 1024 * 16.

(** addresses of static variables and of functions *)
Variables (gdt tss idt : Z) (address : Handler -> Z) (SyscallEntry kernel_start kernel_end : Z).

(** the result is g_syscall_context *)
Definition InitializeCore (memmap : MemoryMap) : HR Z :=
  on_cpu (SetupSegments gdt tss) ;;;
  on_cpu (SetupInterrupts idt address) ;;;
  DisablePIC ;;;
  on_cpu EnableSSE ;;;
  initialize_memory memmap kernel_start kernel_end ;;;
  kernel_stack <-- alloc kKernelStackSize 16 ;;
  let kernel_stack_end := u64 (kernel_stack + kKernelStackSize) in
  on_cpu (SetKernelStack tss kernel_stack_end) ;;;
  say "Kernel Stack setup complete at %lx\n" [KInt kernel_stack_end] ;;;
  initialize_paging ;;;
  on_cpu (InitializeSyscall SyscallEntry).
End InitializeCore.

(** ** Frames that stay in use *)

Section Frames.
Implicit Types m : MemoryManager.t.
Abbreviation inv := MemoryManager.inv.

(** the byte at [a] is in a frame that is in use *)
Definition used m (a : Z) : Prop := Bitmap.Get (MemoryManager.bitmap_ m) (a / 4096) = true.

(** the allocator has given away frames and taken none back *)
Definition gives m m' : Prop := inv m' /\ (forall a, 0 <= a -> used m a -> used m' a)
  /\ MemoryManager.total_frames m' = MemoryManager.total_frames m.

Lemma gives_refl m : inv m -> gives m m.
Proof. by split. Qed.

Lemma gives_trans m1 m2 m3 : gives m1 m2 -> gives m2 m3 -> gives m1 m3.
Proof.
  intros (_ & U1 & T1) (I2 & U2 & T2). split; [done|]. split; [|congruence]. intros a Ha Hu. by apply U2, U1.
Qed.

Lemma Allocate_total m size al p m' : inv m -> 0 < size <= 2 ^ 64 - 4096 ->
  MemoryManager.Allocate size al m = (p, m') -> MemoryManager.total_frames m' = MemoryManager.total_frames m.
Proof.
  intros Hi Hs HA. destruct (MemoryManager.Allocate_cases m size al Hi Hs) as [[HN _]|(f & _ & _ & _ & HS)].
  - rewrite HN in HA. by injection HA as _ <-.
  - rewrite HS in HA. by injection HA as _ <-.
Qed.

Lemma Allocate_gives m size al p m' : inv m -> 0 < size <= 2 ^ 64 - 4096 -> MemoryManager.Allocate size al m = (p, m') ->
  gives m m' /\ (p = 0 \/ 0 < p /\ p + size < 2 ^ 64 /\ forall a, p <= a < p + size -> ~ used m a /\ used m' a).
Proof.
  intros Hi Hs HA. destruct (MemoryManager.Allocate_spec m size al p m' Hi Hs HA) as (Hi' & _ & H0 & Hn).
  destruct (decide (p = 0)) as [->|Hp].
  { rewrite (H0 eq_refl). split; [by apply gives_refl|by left]. }
  destruct (Hn Hp) as (f & -> & Hf & Hrun & _ & HG).
  unfold MemoryManager.num_frames in *. split.
  - split; [done|]. split; [|exact (Allocate_total m size al _ m' Hi Hs HA)]. intros a Ha Hu. unfold used in *. rewrite HG by (apply Z.div_pos; lia). rewrite Hu. apply orb_true_r.
  - right. split; [lia|]. destruct (Hrun (f + (size + 4095) / 4096 - 1)) as [Hend _]; [zlia|].
    pose proof (MemoryManager.inv_bound _ Hi) as Hb. unfold MemoryManager.total_frames, MemoryManager.kFrameSize in Hend.
    split; [zlia|]. intros a Ha. assert (Hr : f <= a / 4096 < f + (size + 4095) / 4096) by zlia.
    destruct (Hrun (a / 4096) Hr) as [_ Hfree]. unfold used. rewrite Hfree, HG by lia.
    rewrite (proj2 (Z.leb_le _ _)), (proj2 (Z.ltb_lt _ _)) by lia. done.
Qed.

Lemma AllocateFrame_total m p m' :
  MemoryManager.AllocateFrame m = (p, m') -> MemoryManager.total_frames m' = MemoryManager.total_frames m.
Proof. unfold MemoryManager.AllocateFrame. destruct (_ <? 0); by intros [= _ <-]. Qed.

(** *** The page tables *)

Implicit Types s : PM MemoryManager.t.

Definition pm_gives s s' : Prop := inv (pool s) -> gives (pool s) (pool s').

Lemma pm_gives_pool s s' : pool s' = pool s -> pm_gives s s'.
Proof. intros E Hi. rewrite E. by apply gives_refl. Qed.

Lemma pm_gives_refl s : pm_gives s s.
Proof. by apply pm_gives_pool. Qed.

Lemma pm_gives_trans s1 s2 s3 : pm_gives s1 s2 -> pm_gives s2 s3 -> pm_gives s1 s3.
Proof. intros H1 H2 Hi. pose proof (H1 Hi) as G1. eapply gives_trans; [exact G1|]. apply H2, G1. Qed.

Lemma AllocateTable_gives s : pm_gives s (AllocateTable s).2.
Proof.
  intros Hi. unfold AllocateTable. destruct (AllocateFrame (pool s)) as [p m] eqn:HA.
  assert (Hg : gives (pool s) m).
  { destruct (@AllocateFrame_spec MemoryManager.t MemoryManager_pool MemoryManager_pool_laws (pool s) p m Hi HA) as [[-> ->]|(f & -> & Hf & _ & _ & Hi' & Hfree & _)]; [by apply gives_refl|].
    split; [done|]. split; [|exact (AllocateFrame_total (pool s) _ m HA)]. intros a Ha Hu. unfold used in *. specialize (Hfree (a / 4096)). cbn [frame_free MemoryManager_pool] in Hfree.
    rewrite (proj2 (Z.leb_le 0 _)), Hu in Hfree by (apply Z.div_pos; lia). cbn [andb negb] in Hfree.
    by destruct (Bitmap.Get (MemoryManager.bitmap_ m) (a / 4096)). }
  by destruct (p =? 0).
Qed.

Lemma for_loop_gives n : forall i (body : Z -> PM MemoryManager.t -> PM MemoryManager.t) s,
  (forall j s, pm_gives s (body j s)) -> pm_gives s (for_loop n i body s).
Proof.
  induction n as [|n IH]; intros i body s Hb; [apply pm_gives_refl|]. cbn [for_loop].
  eapply pm_gives_trans; [apply Hb|by apply IH].
Qed.

Lemma identity_pdp_gives pdp s : pm_gives s (identity_pdp pdp s).
Proof.
  unfold identity_pdp. apply for_loop_gives. intros j s3. pose proof (AllocateTable_gives s3) as G3.
  destruct (AllocateTable s3) as [pd s4]. cbn [snd] in G3. eapply pm_gives_trans; [exact G3|].
  unfold identity_pd. set (s5 := set_entry pdp _ _ s4). assert (G5 : pm_gives s4 s5) by by apply pm_gives_pool. clearbody s5.
  eapply pm_gives_trans; [exact G5|]. apply for_loop_gives. intros k s6. by apply pm_gives_pool.
Qed.

(** Initialize for any way of filling the directories *)
Lemma initialize_gives_any (fill : Z -> PM MemoryManager.t -> PM MemoryManager.t) s s' :
  (forall pdp s, pm_gives s (fill pdp s)) ->
  (let s := print "[Paging] Initializing with 2MB Huge Pages...\n" s in
   let '(pml4, s) := AllocateTable s in
   let s := with_pml4 s pml4 in
   if pml4 =? 0 then None
   else
     let '(pdp_table, s) := AllocateTable s in
     let s := set_entry pml4 0 (table_entry pdp_table (entry s pml4 0)) s in
     let s := fill pdp_table s in
     let s := print "[Paging] Identity Mapping (0-64GB) Created.\n" s in
     let s := LoadCR3 (pml4_table_ s) s in
     Some (print "[Paging] CR3 Loaded. Paging is active!\n" s)) = Some s' ->
  pm_gives s s'.
Proof.
  intros Hfill. set (s0 := print _ s). assert (G0 : pm_gives s s0) by by apply pm_gives_pool. clearbody s0. cbv zeta.
  pose proof (AllocateTable_gives s0) as G1. destruct (AllocateTable s0) as [pml4 s1]. cbn [snd] in G1.
  destruct (pml4 =? 0); [discriminate|].
  set (s2 := with_pml4 s1 pml4). assert (G2 : pm_gives s1 s2) by by apply pm_gives_pool. clearbody s2.
  pose proof (AllocateTable_gives s2) as G3. destruct (AllocateTable s2) as [pdp s3]. cbn [snd] in G3.
  set (s4 := set_entry pml4 0 _ s3). assert (G4 : pm_gives s3 s4) by by apply pm_gives_pool. clearbody s4.
  pose proof (Hfill pdp s4) as G5. set (s5 := fill pdp s4) in *. clearbody s5.
  intros E. injection E as <-. eapply pm_gives_trans; [exact G0|]. eapply pm_gives_trans; [exact G1|].
  eapply pm_gives_trans; [exact G2|]. eapply pm_gives_trans; [exact G3|]. eapply pm_gives_trans; [exact G4|].
  eapply pm_gives_trans; [exact G5|]. by apply pm_gives_pool.
Qed.

Lemma initialize_None_any (fill : Z -> PM MemoryManager.t -> PM MemoryManager.t) s :
  (let s := print "[Paging] Initializing with 2MB Huge Pages...\n" s in
   let '(pml4, s) := AllocateTable s in
   let s := with_pml4 s pml4 in
   if pml4 =? 0 then None
   else
     let '(pdp_table, s) := AllocateTable s in
     let s := set_entry pml4 0 (table_entry pdp_table (entry s pml4 0)) s in
     let s := fill pdp_table s in
     let s := print "[Paging] Identity Mapping (0-64GB) Created.\n" s in
     let s := LoadCR3 (pml4_table_ s) s in
     Some (print "[Paging] CR3 Loaded. Paging is active!\n" s)) = None ->
  fst (AllocateFrame (pool s)) = 0.
Proof.
  set (s0 := print _ s). change (pool s) with (pool s0). clearbody s0. cbv zeta. unfold AllocateTable at 1.
  destruct (AllocateFrame (pool s0)) as [p m]. cbn [fst]. destruct (Z.eqb_spec p 0) as [->|Hne]; [done|].
  rewrite (proj2 (Z.eqb_neq p 0)) by done. destruct (AllocateTable _). discriminate.
Qed.

Lemma Initialize_None s : Paging.Initialize s = None -> fst (AllocateFrame (pool s)) = 0.
Proof. exact (initialize_None_any identity_pdp s). Qed.

Lemma Initialize_gives s s' : Paging.Initialize s = Some s' -> pm_gives s s'.
Proof. exact (initialize_gives_any identity_pdp s s' identity_pdp_gives). Qed.
End Frames.

(** ** The steps together *)

Section Ready.
Context {W : Type} `{MachineLaws W}.
Abbreviation MM := MemoryManager.t.
Abbreviation inv := MemoryManager.inv.
Implicit Types (c : Cpu) (w : W).

(** the registers that name the tables *)
Record same_tables c c' : Prop := {
  st_gdtr : gdtr_base c' = gdtr_base c /\ gdtr_limit c' = gdtr_limit c;
  st_idtr : idtr_base c' = idtr_base c /\ idtr_limit c' = idtr_limit c;
  st_segments : cs c' = cs c /\ ds c' = ds c /\ ss c' = ss c;
  st_tr : tr c' = tr c /\ tr_base c' = tr_base c /\ tr_limit c' = tr_limit c
}.

Lemma same_tables_msr c m v : same_tables c (set_msr m v c).
Proof. by split. Qed.

Lemma same_tables_trans c1 c2 c3 : same_tables c1 c2 -> same_tables c2 c3 -> same_tables c1 c3.
Proof. intros [A1 A2 A3 A4] [B1 B2 B3 B4]. split; intuition congruence. Qed.

(** memory in use is not written *)
Definition spares (m : MM) w w' : Prop := forall a, 4096 <= a -> used m a -> peek w' a = peek w a.

Lemma new_object_spares size (s : Host W MM Cpu) : inv (Machine.pool s) -> 0 < size < 2 ^ 32 ->
  exists ctx s', new_object size s = Ret ctx s' /\ drv s' = drv s /\ gives (Machine.pool s) (Machine.pool s')
  /\ spares (Machine.pool s) (mach s) (mach s')
  /\ 0 <= ctx < 2 ^ 64 - size
  /\ (ctx = 0 \/ forall a, ctx <= a < ctx + size -> ~ used (Machine.pool s) a /\ used (Machine.pool s') a).
Proof.
  intros Hi Hs. unfold new_object, alloc, bind at 1. cbn [Allocate MemoryManager_allocator].
  unfold New.kHeaderSize. rewrite u64_small by lia.
  destruct (MemoryManager.Allocate (size + 16) 16 (Machine.pool s)) as [p m] eqn:HA.
  destruct (Allocate_gives (Machine.pool s) (size + 16) 16 p m Hi ltac:(lia) HA) as [Hg Hp]. destruct (Z.eqb_spec p 0) as [->|Hne].
  { exists 0. eexists. split; [reflexivity|]. split; [done|]. split; [done|]. split; [done|]. split; [lia|by left]. }
  destruct Hp as [|(Hp & Hend & Hfree)]; [done|]. eexists _, _. split; [reflexivity|]. split; [done|]. split; [done|].
  cbn [mach with_mach Machine.with_pool]. split.
  - intros a Ha Hu. apply peek_store_other. destruct (decide (p <= a < p + 8)) as [Hin|]; [|lia].
    exfalso. by apply (Hfree a); [lia|].
  - rewrite u64_small by lia. split; [lia|]. right. intros a Ha. apply Hfree. lia.
Qed.

(** memory that was free in [m] and is in use in [m'], or the null pointer *)
Definition taken (m m' : MM) (p n : Z) : Prop :=
  p = 0 \/ forall a, p <= a < p + n -> ~ used m a /\ used m' a.

(** two blocks do not overlap *)
Definition apart (p n q k : Z) : Prop := p = 0 \/ q = 0 \/ p + n <= q \/ q + k <= p.

Lemma apart_used (m : MM) p n q k : 0 < n -> 0 < k ->
  (p = 0 \/ forall a, p <= a < p + n -> used m a) -> (q = 0 \/ forall a, q <= a < q + k -> ~ used m a) ->
  apart p n q k.
Proof.
  intros Hn Hk Hp Hq. unfold apart. destruct Hp as [|Hp]; [by left|]. destruct Hq as [|Hq]; [by right; left|].
  do 2 right. destruct (decide (p + n <= q \/ q + k <= p)) as [|Ho]; [done|].
  exfalso. apply (Hq (Z.max p q)); [lia|]. apply Hp. lia.
Qed.

(** the processor and the context are set up for system calls: the instruction is on, goes
    to the entry code with interrupts off and with the selectors of user and kernel code,
    and GS leads to a context with the top of a stack of its own *)
Record calls_ready (entry ctx stack : Z) c w : Prop := {
  cl_efer : Z.testbit (msr_of kMSR_EFER c) 0 = true;
  cl_star : msr_of kMSR_STAR c = 0x0018000800000000;
  cl_lstar : msr_of kMSR_LSTAR c = u64 entry;
  cl_fmask : msr_of kMSR_FMASK c = 0x200;
  cl_gs : msr_of kMSR_GS_BASE c = ctx /\ msr_of kMSR_KERNEL_GS_BASE c = 0;
  cl_stack : load 8 (ctx + off_kernel_stack_ptr) w = u64 (stack + 16 * 1024);
  cl_user : load 8 (ctx + off_user_stack_ptr) w = 0
}.

Lemma InitializeSyscall_ready entry (s : Host W MM Cpu) : inv (Machine.pool s) ->
  exists ctx stack s', InitializeSyscall entry s = Ret ctx s' /\ same_tables (drv s) (drv s')
  /\ gives (Machine.pool s) (Machine.pool s') /\ spares (Machine.pool s) (mach s) (mach s')
  /\ calls_ready entry ctx stack (drv s') (mach s')
  /\ taken (Machine.pool s) (Machine.pool s') ctx sizeof_SyscallContext
  /\ taken (Machine.pool s) (Machine.pool s') stack (16 * 1024)
  /\ apart ctx sizeof_SyscallContext stack (16 * 1024).
Proof.
  intros Hi. unfold InitializeSyscall.
  destruct (new_object_spares sizeof_SyscallContext s Hi ltac:(unfold sizeof_SyscallContext; lia)) as (ctx & s1 & R1 & D1 & G1 & P1 & Hr & Hctx).
  rewrite (bind_Ret _ _ _ _ _ R1).
  unfold clear, act, bind, ReadMSR, WriteMSR, my, change, alloc, put, say, ret. cbn [mach Machine.pool drv out with_mach with_cpu with_drv].
  unfold act. cbn [mach Machine.pool drv out with_mach with_cpu with_drv]. cbn [Allocate MemoryManager_allocator].
  destruct (MemoryManager.Allocate (16 * 1024) 16 (Machine.pool s1)) as [q m] eqn:HA.
  cbn [mach Machine.pool drv out with_mach with_cpu with_drv Machine.with_pool].
  destruct (Allocate_gives (Machine.pool s1) (16 * 1024) 16 q m (proj1 G1) ltac:(lia) HA) as [G2 Hq].
  change sizeof_SyscallContext with 16 in *. unfold off_kernel_stack_ptr, off_user_stack_ptr.
  eexists ctx, q, _. split; [reflexivity|]. cbn [drv Machine.pool mach]. split; [|split; [|split; [|split; [|split; [|split]]]]].
  - rewrite D1. repeat (eapply same_tables_trans; [|apply same_tables_msr]). by split.
  - by eapply gives_trans.
  - intros a Ha Hu.
    assert (Hout : a < ctx \/ ctx + 16 <= a).
    { destruct Hctx as [->|Hf]; [lia|]. destruct (decide (ctx <= a < ctx + 16)) as [Hin|]; [|lia]. by destruct (Hf a Hin). }
    rewrite peek_store_other by lia.
    rewrite peek_poke_other by (rewrite zlen_zeros; lia). by apply P1.
  - split; rewrite ?msr_of_set; cbn [Z.eqb Pos.eqb kMSR_EFER kMSR_STAR kMSR_LSTAR kMSR_FMASK kMSR_GS_BASE kMSR_KERNEL_GS_BASE]; try done.
    + etransitivity; [apply (Z.mod_pow2_bits_low _ 64 0); lia|]. rewrite Z.lor_spec. apply orb_true_r.
    + split; [apply u64_small; lia|done].
    + apply load_store_same. apply u64_range.
    + unfold off_user_stack_ptr. rewrite load_store_other by lia.
      change (replicate (Z.to_nat 16) 0) with (replicate 8 0 ++ replicate 8 0)%list.
      rewrite poke_all_app. change (zlen (replicate 8 0)) with 8.
      exact (load_store_same 8 (ctx + 8) 0 _ ltac:(lia)).
  - destruct Hctx as [->|Hf]; [by left|right]. intros a Ha. destruct (Hf a Ha) as [Hn Hu].
    split; [done|]. apply G2; [lia|done].
  - destruct Hq as [->|(Hp & Hend & Hf)]; [by left|right]. intros a Ha. destruct (Hf a Ha) as [Hn Hu].
    split; [|done]. intros Hb. apply Hn. apply G1; [lia|done].
  - apply (apart_used (Machine.pool s1)); [lia|lia|..].
    + destruct Hctx as [->|Hf]; [by left|right]. intros a Ha. by apply Hf.
    + destruct Hq as [->|(Hp & Hend & Hf)]; [by left|right]. intros a Ha. by apply Hf.
Qed.

(** the page manager's tables stay in order while frames are only given away *)
Lemma good_gives (pm : PM MM) m' : good pm -> gives (Paging.pool pm) m' -> good (Paging.with_pool pm m').
Proof.
  intros [Gp Gs [Wi Wn Wu]] (Hi & Hu & Ht). split; cbn [Paging.pool Paging.with_pool tables pml4_table_].
  - exact Hi.
  - intros f Hf. apply Gs. cbn [frame_managed MemoryManager_pool] in *. by rewrite <- Ht.
  - split; [exact Wi| |exact Wu]. intros p t Hp Hl Hn. destruct (Wn p t Hp Hl Hn) as (f & -> & Hf & Hm & Hfr & Hz).
    exists f. split; [done|]. split; [done|]. cbn [frame_managed frame_free MemoryManager_pool] in *.
    rewrite Ht. split; [done|]. split; [|done]. rewrite (proj2 (Z.leb_le 0 f)) in * by lia. cbn [andb] in *.
    apply negb_false_iff in Hfr. specialize (Hu (f * 4096) ltac:(lia)). unfold used in Hu.
    rewrite Z.div_mul in Hu by lia. by rewrite Hu.
Qed.

Lemma on_cpu_Ret {A} (m : Host W MM Cpu -> Run (Host W MM Cpu) A) (s : Host W MM (Cpu * PM MM)) a h :
  m (mkHost (mach s) (Machine.pool s) (drv s).1 (out s)) = Ret a h ->
  on_cpu m s = Ret a (mkHost (mach h) (Machine.pool h) (drv h, (drv s).2) (out h)).
Proof. intros E. unfold on_cpu. by rewrite E. Qed.

(** the static tables are in the kernel image and do not overlap *)
Record layout (gdt tss idt kernel_start kernel_end : Z) : Prop := {
  ly_image : 4096 <= kernel_start <= kernel_end /\ kernel_end + 4096 < 2 ^ 64;
  ly_gdt : kernel_start <= gdt /\ gdt + 64 <= kernel_end;
  ly_tss : kernel_start <= tss /\ tss + sizeof_TSS64 <= kernel_end;
  ly_idt : kernel_start <= idt /\ idt + 4096 <= kernel_end;
  ly_gdt_tss : gdt + 64 <= tss \/ tss + sizeof_TSS64 <= gdt;
  ly_idt_gdt : idt + 4096 <= gdt \/ gdt + 64 <= idt;
  ly_idt_tss : idt + 4096 <= tss \/ tss + sizeof_TSS64 <= idt
}.

Context (gdt tss idt : Z) (address : Handler -> Z) (SyscallEntry kernel_start kernel_end : Z).
Context (Hlay : layout gdt tss idt kernel_start kernel_end) (Haddress : forall h, 0 <= address h < 2 ^ 64).
(** the interrupt controllers do not write memory *)
Context (Hpic : forall port v w a, port = 0x21 \/ port = 0xA1 -> peek (port_out 8 port v w) a = peek w a).

(** the tables work *)
Definition tables_ok c w : Prop :=
  segments_ok gdt tss c w /\ vectors_hold idt w (fun v => address <$> handler_at v)
  /\ idtr_base c = idt /\ idtr_limit c = 4095.

Definition in_image (a : Z) : Prop := kernel_start <= a < kernel_end.

(** they go on working while the image is left alone, but for the words of the task
    state segment before the port bitmap *)
Lemma tables_ok_ext c w c' w' : tables_ok c w -> same_tables c c' ->
  (forall a, in_image a -> (a < tss + off_rsp0 \/ tss + off_rsp0 + 8 <= a) -> peek w' a = peek w a) -> tables_ok c' w'.
Proof.
  intros (Hs & Hv & Hb & Hl) [[E1 E2] [E3 E4] (E5 & E6 & E7) (E8 & E9 & E10)] Hw. destruct Hlay as [L1 L2 L3 L4 L5 L6 L7].
  unfold in_image, off_rsp0, sizeof_TSS64 in *. split; [|split; [|split; congruence]].
  - eapply segments_ok_ext; [exact Hs|..]; try done.
    + intros a Ha. apply Hw; lia.
    + apply load_ext. intros a Ha. unfold off_iomap_base in Ha. apply Hw; lia.
  - intros v Hr. eapply gate_holds_ext; [|by apply Hv]. intros a Ha. apply Hw; unfold sizeof_InterruptDescriptor in Ha; lia.
Qed.

Local Abbreviation Hst := (Host W MM (Cpu * PM MM)).
Implicit Types s : Hst.

(** the tables, and the steps that do not use memory *)
Lemma tables_steps s : (forall a, idt <= a < idt + 4096 -> peek (mach s) a = 0) ->
  exists s', (forall A (k : unit -> Hst -> Run Hst A),
     bind (on_cpu (SetupSegments gdt tss)) (fun _ => bind (on_cpu (SetupInterrupts idt address)) (fun _ =>
       bind DisablePIC (fun _ => bind (on_cpu EnableSSE) k))) s = k tt s')
  /\ tables_ok (drv s').1 (mach s') /\ Machine.pool s' = Machine.pool s /\ (drv s').2 = (drv s).2.
Proof.
  intros Hz. pose proof Hlay as [L1 L2 L3 L4 L5 L6 L7].
  assert (Htss : 0 <= tss < 2 ^ 64) by (unfold sizeof_TSS64 in *; lia).
  assert (Hsep : gdt + 64 <= tss \/ tss + sizeof_TSS64 <= gdt) by done.
  set (h0 := mkHost (mach s) (Machine.pool s) (drv s).1 (out s)).
  pose proof (SetupSegments_run gdt tss Htss Hsep h0) as R1.
  set (h1 := with_cpu _ _) in R1.
  assert (Hok1 : segments_ok gdt tss (drv h1) (mach h1)) by (by apply (segments_done_ok gdt tss)).
  assert (G : vectors_hold idt (mach h1) (fun _ => None)).
  { intros v Hv. cbn [gate_holds]. unfold load. change (mach h1) with (segments_done gdt tss (mach s)). cbn [peek_all].
    rewrite !(segments_done_other gdt tss) by (unfold sizeof_TSS64 in *; lia). by rewrite !Hz by lia. }
  destruct (SetupInterrupts_table idt address Haddress h1 G) as (h2 & R2 & D2 & [_ Hpool] & F2 & P2).
  set (w4 := IoOut8 0x21 0xFF (IoOut8 0xA1 0xFF (mach h2))).
  set (c5 := set_cr (Z.lor (Z.land (cr0 (drv h2)) 0xFFFFFFFFFFFFFFFB) 0x0002) (Z.lor (cr4 (drv h2)) (Z.shiftl 3 9)) (drv h2)).
  exists (mkHost w4 (Machine.pool h2) (c5, (drv s).2) (out h2)). split.
  { intros A k. rewrite (bind_Ret _ _ _ _ _ (on_cpu_Ret _ s tt h1 R1)).
    rewrite (bind_Ret _ _ _ tt (mkHost (mach h2) (Machine.pool h2) (drv h2, (drv s).2) (out h2)));
      [|exact (on_cpu_Ret (SetupInterrupts idt address) (mkHost (mach h1) (Machine.pool h1) (drv h1, (drv s).2) (out h1)) tt h2 R2)].
    rewrite (bind_Ret _ _ _ tt (mkHost w4 (Machine.pool h2) (drv h2, (drv s).2) (out h2))); [|reflexivity].
    apply bind_Ret. exact (on_cpu_Ret EnableSSE (mkHost w4 (Machine.pool h2) (drv h2, (drv s).2) (out h2)) tt (mkHost w4 (Machine.pool h2) c5 (out h2)) eq_refl). }
  cbn [mach Machine.pool drv fst snd]. split; [|split; [exact Hpool|exact eq_refl]].
  apply (tables_ok_ext (drv h2) (mach h2)).
  - split; [|split; [exact F2|rewrite D2; split; reflexivity]]. rewrite D2.
    eapply segments_ok_ext; [exact Hok1|..]; try reflexivity.
    + intros a Ha. apply P2. lia.
    + apply load_ext. intros a Ha. apply P2. unfold off_iomap_base, sizeof_TSS64 in *. lia.
  - repeat split.
  - intros a _ _. unfold w4, IoOut8. rewrite !Hpic by lia. reflexivity.
Qed.

(** memory in use outside the kernel's image, or the null pointer *)
Definition owned (s' : Hst) (p n : Z) : Prop :=
  p = 0 \/ forall a, p <= a < p + n -> used (Machine.pool s') a /\ ~ in_image a.

(** what holds when InitializeCore returns: the tables work; the allocator keeps its
    invariant and the image out of what it gives away; interrupts from user mode come in at
    the top of the block asked for as the kernel's stack, system calls are set up with the
    context [ctx] and a stack of their own, and these three blocks do not overlap *)
Record core_ready (ctx : Z) (s' : Hst) : Prop := {
  cr_segments : segments_ok gdt tss (drv s').1 (mach s');
  cr_interrupts : all_delivered address (drv s').1 (mach s');
  cr_pool : inv (Machine.pool s');
  cr_image a : in_image a -> used (Machine.pool s') a;
  cr_stacks : exists stack call_stack,
    ring0_stack (drv s').1 (mach s') = u64 (stack + kKernelStackSize)
    /\ calls_ready SyscallEntry ctx call_stack (drv s').1 (mach s')
    /\ owned s' stack kKernelStackSize /\ owned s' ctx sizeof_SyscallContext /\ owned s' call_stack (16 * 1024)
    /\ apart stack kKernelStackSize ctx sizeof_SyscallContext
    /\ apart stack kKernelStackSize call_stack (16 * 1024)
    /\ apart ctx sizeof_SyscallContext call_stack (16 * 1024)
}.

(** the processor uses the identity tables: CR3 holds the root of a well-formed hierarchy,
    in frames the allocator counts as used, that translates each address below 64 GiB to
    itself and no other *)
Record paging_on (s' : Hst) : Prop := {
  po_good : good (Paging.with_pool (drv s').2 (Machine.pool s'));
  po_cr3 : cr3 (drv s').2 = pml4_table_ (drv s').2;
  po_identity a : 0 <= a < 2 ^ 48 ->
    translate (tables (drv s').2) (cr3 (drv s').2) a = if a <? 64 * 2 ^ 30 then Some (a, true, true) else None
}.

(** the frames of the 66 tables can be taken, and their addresses fit an entry *)
Definition room_for_tables (m : MM) : Prop :=
  small_frames m /\ available 66 (snd (Allocate kKernelStackSize 16 m)).

(** from the memory manager on *)
Lemma memory_steps s m : tables_ok (drv s).1 (mach s) -> inv m -> (forall a, in_image a -> used m a) ->
  Machine.pool s = m ->
  match (kernel_stack <-- alloc kKernelStackSize 16 ;;
    let kernel_stack_end := u64 (kernel_stack + kKernelStackSize) in
    on_cpu (SetKernelStack tss kernel_stack_end) ;;;
    say "Kernel Stack setup complete at %lx\n" [KInt kernel_stack_end] ;;;
    initialize_paging ;;;
    on_cpu (InitializeSyscall SyscallEntry)) s with
  | Ret ctx s' => core_ready ctx s' /\ (room_for_tables m -> paging_on s')
  | Halted _ => fst (AllocateFrame (snd (Allocate kKernelStackSize 16 m))) = 0
  | NoFuel => False
  end.
Proof.
  intros Htab Hi Himg Hpool. unfold alloc, bind at 1. rewrite Hpool. cbn [Allocate MemoryManager_allocator].
  destruct (MemoryManager.Allocate kKernelStackSize 16 m) as [stack m1] eqn:HA. cbn [snd].
  destruct (Allocate_gives m kKernelStackSize 16 stack m1 Hi ltac:(unfold kKernelStackSize; lia) HA) as [G1 Hstack].
  cbv zeta. set (top := u64 (stack + kKernelStackSize)).
  set (w1 := store_at 8 (tss + off_rsp0) top (mach s)).
  rewrite (bind_Ret _ _ _ tt (mkHost w1 m1 (drv s) (out s))).
  2:{ rewrite (on_cpu_Ret _ _ tt (mkHost w1 m1 (drv s).1 (out s))) by reflexivity. cbn [mach Machine.pool drv out fst snd].
      by destruct s as [? ? [] ?]. }
  unfold say, bind at 1. cbn [mach Machine.pool drv out]. set (o := (out s ++ _)%list). clearbody o.
  unfold initialize_paging, bind at 1. cbn [mach Machine.pool drv out]. set (pm := mkPM _ _ _ _ _ _).
  pose proof (Initialize_None pm) as Hnone. pose proof (Initialize_gives pm) as Hsome.
  assert (Hmap : room_for_tables m -> exists pm' pdp, Paging.Initialize pm = Some pm'
      /\ booted 0 (pml4_table_ pm') pdp 64 pm' /\ cr3 pm' = pml4_table_ pm').
  { intros [Hsm Hav]. cbn [Allocate MemoryManager_allocator] in Hav. rewrite HA in Hav.
    apply (Initialize_booted 0 pm); [exact (proj1 G1)| |exact Hav].
    intros f Hf. apply Hsm. cbn [frame_managed MemoryManager_pool] in *. by rewrite <- (proj2 (proj2 G1)). }
  destruct (Paging.Initialize pm) as [pm'|]; [|by apply Hnone].
  pose proof (Hsome pm' eq_refl (proj1 G1)) as G2. change (pool pm) with m1 in G2. clear Hnone Hsome. clearbody pm.
  set (h := mkHost w1 (Paging.pool pm') (drv s).1 (o ++ pm_out pm')).
  destruct (InitializeSyscall_ready SyscallEntry h (proj1 G2)) as (ctx & call_stack & h' & R & T & G3 & P3 & Hc & Tc & Ts & Hcs).
  cbn [Machine.pool mach drv h] in T, G3, P3, Tc, Ts.
  rewrite (on_cpu_Ret (InitializeSyscall SyscallEntry) (mkHost w1 (Paging.pool pm') ((drv s).1, pm') (o ++ pm_out pm')%list) ctx h' R). destruct Hlay as [L1 L2 L3 L4 L5 L6 L7].
  assert (G13 : gives m (Machine.pool h')) by (eapply gives_trans; [exact G1|]; eapply gives_trans; [exact G2|exact G3]).
  assert (Hkeep : forall a, in_image a -> peek (mach h') a = peek w1 a).
  { intros a Ha. apply P3; [unfold in_image in Ha; lia|]. unfold in_image in Ha. apply G2; [lia|]. apply G1; [lia|]. by apply Himg. }
  assert (Hfin : tables_ok (drv h') (mach h')).
  { apply (tables_ok_ext (drv s).1 (mach s)); [exact Htab|exact T|]. intros a Ha Hout. rewrite Hkeep by done.
    unfold w1. apply peek_store_other. lia. }
  destruct Hfin as (Hs & Hv & Hb & Hl). split.
  2:{ intros Hroom. destruct (Hmap Hroom) as (pm2 & pdp & E & [Bg _ _ _ _ Bw _ _ _] & Hcr). injection E as <-.
      split; cbn [drv snd Machine.pool]; [by apply good_gives|exact Hcr|].
      intros a Ha. unfold translate. destruct (indices_ok a) as [Hok Hlen]. rewrite Hcr, Bw by done. by apply ident_translate. }
  split; cbn [drv mach Machine.pool fst].
  - exact Hs.
  - by apply (tables_deliver idt address gdt tss).
  - apply G13.
  - intros a Ha. apply G13; [unfold in_image in Ha; lia|by apply Himg].
  - assert (Hst : stack = 0 \/ forall a, stack <= a < stack + kKernelStackSize -> used (Paging.pool pm') a).
    { destruct Hstack as [->|(Hp & Hend & Hfree)]; [by left|right]. intros a Ha. apply G2; [lia|]. by apply Hfree. }
    assert (Hown : forall p n, taken (Paging.pool pm') (Machine.pool h') p n ->
      p = 0 \/ forall a, p <= a < p + n -> used (Machine.pool h') a /\ ~ in_image a).
    { intros p n [->|Ht]; [by left|right]. intros a Ha. destruct (Ht a Ha) as [Hn Hu]. split; [done|]. intros Hin.
      apply Hn. unfold in_image in Hin. apply G2; [lia|]. apply G1; [lia|]. by apply Himg. }
    assert (Hfree : forall p n, taken (Paging.pool pm') (Machine.pool h') p n ->
      p = 0 \/ forall a, p <= a < p + n -> ~ used (Paging.pool pm') a).
    { intros p n [->|Ht]; [by left|right]. intros a Ha. by apply Ht. }
    exists stack, call_stack. split_and!; [|exact Hc| |by apply Hown|by apply Hown|..|exact Hcs].
    + unfold ring0_stack. destruct (sg_tr _ _ _ _ Hs) as (_ & -> & _). unfold sizeof_TSS64, off_rsp0 in *.
      rewrite (load_ext _ _ w1) by (intros a Ha; apply Hkeep; unfold in_image; lia).
      unfold w1. apply load_store_same. apply u64_range.
    + destruct Hstack as [->|(Hp & Hend & Hf)]; [by left|]. right. intros a Ha. destruct (Hf a Ha) as [Hn Hu].
      split; [apply G3; [lia|]; apply G2; [lia|done]|]. intros Hin. by apply Hn, Himg.
    + apply (apart_used (Paging.pool pm')); [done|done|exact Hst|by apply Hfree].
    + apply (apart_used (Paging.pool pm')); [done|done|exact Hst|by apply Hfree].
Qed.

End Ready.

(** ** A machine with two megabytes *)

Definition start_map : MemoryMap := [Build_MemoryDescriptor 7 0x1000 0 511 0].
Definition start_host : Host Ram.t MemoryManager.t (Cpu * PM MemoryManager.t) :=
  mkHost (∅ : Ram.t) MemoryManager.initial
    (mkCpu 0 0 0 0 0x38 0x30 0x30 0 0 0 0x80000011 0x668 ∅, mkPM 0 0 ∅ MemoryManager.initial [] []) [].

Lemma start_layout : layout 0x100000 0x101000 0x102000 0x100000 0x110000.
Proof. split; unfold sizeof_TSS64; lia. Qed.

(** in which the page tables fit *)
Lemma start_room m :
  MemoryManager.Initialize start_map 0x100000 0x110000 MemoryManager.initial = Some m -> room_for_tables m.
Proof.
  intros Hi. assert (Hb : match MemoryManager.Initialize start_map 0x100000 0x110000 MemoryManager.initial with
    | Some m => (MemoryManager.total_frames m <=? 2 ^ 40) && availableb 66 (snd (Allocate kKernelStackSize 16 m))
    | None => false end = true) by (vm_compute; reflexivity).
  rewrite Hi in Hb. apply andb_true_iff in Hb as [Hs Ha]. apply Z.leb_le in Hs. split.
  - intros f Hf. cbn [frame_managed MemoryManager_pool] in Hf. lia.
  - by apply availableb_spec.
Qed.

