(* ===== verification/Process.v ===== *)
(** * Programs as tasks (kernel/app/elf/, the calls Spawn, TaskExit and Exit, idle_task.cpp)

    Loading a program, the task made for it, and how it starts with its arguments on
    its stack.  Memory is physical; an access goes through the tables of the current
    CR3, as [translate] of PagingMap.v reads them.  Strings and arrays of arguments in
    the kernel are those of the task manager's state. *)
From stdpp Require Import functions.
From S2P Require Import Prelude Run Memory CStr Machine Cpu UserMode Device Fat32Names Fat32 Paging PagingMap Tasks TaskQueue Scheduler.
#[local] Open Scope run_scope.

(** the scheduler with the tasks, the processor, g_app_running, and whether standard
    input is a KeyboardFD, with the number of times it was flushed *)
Record App (M : Type) := mkApp { sched : Sched M; core : Core; g_app_running : bool; flushed : Z }.
Arguments mkApp {M}.
Arguments sched {M}.
Arguments core {M}.
Arguments g_app_running {M}.
Arguments flushed {M}.

Section App.
Context {W D M : Type} `{Machine W} `{BlockDevice D} `{FrameAllocator M} `{FramePool M}.
(** the disk is where [Host] has a frame allocator: that one is in the page manager *)
Local Abbreviation St := (Host W D (App M)).
Local Abbreviation HR := (fun A => St -> Run St A).
Implicit Types s : St.

Definition tasks s : TM M := tm (sched (drv s)).
Definition paging s : PM M := pages (tasks s).
Definition with_app s (x : App M) : St := with_drv s x.
Definition with_sched s (x : Sched M) : St :=
  with_app s (mkApp x (core (drv s)) (g_app_running (drv s)) (flushed (drv s))).
Definition with_tasks s (t : TM M) : St := with_sched s (with_tm t (sched (drv s))).
Definition with_running s (b : bool) : St :=
  with_app s (mkApp (sched (drv s)) (core (drv s)) b (flushed (drv s))).

(** steps of the other components.  [NoFuel] also stands for what the code leaves
    undefined: a null or dangling pointer followed, an array left. *)
Definition undefined {A} : HR A := fun _ => NoFuel.
Definition on_tasks (f : TM M -> TM M) : HR unit := fun s => Ret tt (with_tasks s (f (tasks s))).
Definition try_tasks {A} (f : TM M -> option (A * TM M)) : HR A := fun s =>
  match f (tasks s) with Some (a, t) => Ret a (with_tasks s t) | None => NoFuel end.
Definition try_tasks_ (f : TM M -> option (TM M)) : HR unit :=
  try_tasks (fun t => t ← f t; Some (tt, t)).
Definition on_paging {A} (f : PM M -> A * PM M) : HR A := fun s =>
  let '(a, p) := f (paging s) in Ret a (with_tasks s (with_pages p (tasks s))).
Definition try_sched (f : Sched M -> option (Sched M)) : HR unit := fun s =>
  match f (sched (drv s)) with Some x => Ret tt (with_sched s x) | None => NoFuel end.
Definition ask_state {A} (f : St -> A) : HR A := fun s => Ret (f s) s.
(** code that works on the processor and on memory only *)
Definition on_processor (m : Host W unit Core -> Run (Host W unit Core) unit) : HR unit := fun s =>
  match m (mkHost (mach s) tt (core (drv s)) (out s)) with
  | Ret a s' => Ret tt (mkHost (mach s') (Machine.pool s) (mkApp (sched (drv s)) (drv s') (g_app_running (drv s)) (flushed (drv s))) (out s'))
  | Halted s' => Halted (mkHost (mach s') (Machine.pool s) (mkApp (sched (drv s)) (drv s') (g_app_running (drv s)) (flushed (drv s))) (out s'))
  | NoFuel => NoFuel
  end.
Definition on_system (m : Host W unit Cpu -> Run (Host W unit Cpu) unit) : HR unit :=
  on_processor (fun h =>
    match m (mkHost (mach h) tt (sys (drv h)) (out h)) with
    | Ret a h' => Ret a (mkHost (mach h') tt (set_sys (fun _ => drv h') (drv h)) (out h'))
    | Halted h' => Halted (mkHost (mach h') tt (set_sys (fun _ => drv h') (drv h)) (out h'))
    | NoFuel => NoFuel
    end).

Definition kprintf (fmt : string) (args : list karg) : HR unit := on_tasks (tprintf fmt args).
Definition Allocate_ (size : Z) : HR Z := fun s =>
  let '(p, m) := Allocate size 16 (Paging.pool (paging s)) in Ret p (with_tasks s (with_mm m (tasks s))).
Definition Free_ (p size : Z) : HR unit := on_tasks (kfree p size).

(** ** Memory behind the page tables *)

Definition physical s (a : Z) : option Z :=
  match translate (tables (paging s)) (cr3 (paging s)) a with Some (p, _, _) => Some p | None => None end.

(** a byte written by the kernel; a page that is not mapped raises the page fault, whose
    handler stops the machine.  A page that is only readable is written as well: the kernel
    writes through pages it mapped with the right to write, and the write protection of the
    kernel (CR0.WP) is not modelled. *)
Definition vpoke (a v : Z) : HR unit := fun s =>
  match physical s a with
  | Some p => Ret tt (with_mach s (poke p v (mach s)))
  | None => Halted s
  end.
Definition vpeek (a : Z) s : option Z := p ← physical s a; Some (peek (mach s) p).

Fixpoint vpoke_all (a : Z) (bs : list Z) : HR unit :=
  match bs with [] => ret tt | b :: rest => vpoke a b ;;; vpoke_all (a + 1) rest end.
(** [*(uint64_t * )a = v] *)
Definition vput8 (a v : Z) : HR unit := vpoke_all a (le_bytes 8 v).

(** ** The ELF file, as the bytes of the buffer it was read into *)

Definition PT_LOAD : Z := 1.
Definition sizeof_Elf64_Ehdr : Z := 64.
Definition sizeof_Elf64_Phdr : Z := 56.

Definition file_bytes (file : list Z) (off n : Z) : HR (list Z) :=
  if (0 <=? off) && (off + n <=? zlen file) then ret (slice file off n) else undefined.
Definition file_field (file : list Z) (off n : Z) : HR Z := bs <-- file_bytes file off n ;; ret (le_val bs).

Definition e_entry (file : list Z) : HR Z := file_field file 24 8.
Definition e_phoff (file : list Z) : HR Z := file_field file 32 8.
Definition e_phnum (file : list Z) : HR Z := file_field file 56 2.

(** the magic number, and a whole header *)
Definition is_elf (file : list Z) (file_size : Z) : bool :=
  negb (file_size <? sizeof_Elf64_Ehdr) && bool_decide (slice file 0 4 = [0x7F; 0x45; 0x4C; 0x46]).

Record Elf64_Phdr := mkPhdr { p_type : Z; p_offset : Z; p_vaddr : Z; p_filesz : Z; p_memsz : Z }.

Definition read_phdr (file : list Z) (at_ : Z) : HR Elf64_Phdr :=
  p_type <-- file_field file at_ 4 ;; p_offset <-- file_field file (at_ + 8) 8 ;;
  p_vaddr <-- file_field file (at_ + 16) 8 ;; p_filesz <-- file_field file (at_ + 32) 8 ;;
  p_memsz <-- file_field file (at_ + 40) 8 ;;
  ret (mkPhdr p_type p_offset p_vaddr p_filesz p_memsz).

Definition user_flags : Z := Z.lor kPresent (Z.lor kWritable kUser).

(** the pages of a segment, and its bytes with zeros after them *)
Definition start_page (ph : Elf64_Phdr) : Z := Z.ldiff (p_vaddr ph) 0xFFF.
Definition alloc_size (ph : Elf64_Phdr) : Z :=
  u64 (Z.ldiff (u64 (p_vaddr ph + p_memsz ph + 0xFFF)) 0xFFF - start_page ph).

(** what CreateProcess prints on the way, and LoadAndRun does not *)
Definition debug (legacy : bool) (fmt : string) (args : list karg) : HR unit :=
  if legacy then ret tt else kprintf fmt args.
Fixpoint dump (bs : list Z) : HR unit :=
  match bs with [] => ret tt | b :: rest => kprintf "%02x " [KInt b] ;;; dump rest end.
Definition dump_16 (legacy : bool) (title : string) (bs : HR (list Z)) (n : Z) : HR unit :=
  if legacy || (n <? 16) then ret tt
  else kprintf title [] ;;; bs <-- bs ;; dump bs ;;; kprintf "\n" [].
Definition vpeek_all (a n : Z) : HR (list Z) := fun s =>
  match mapM (fun i => vpeek (a + i) s) (seqZ 0 n) with Some bs => Ret bs s | None => Halted s end.

Definition copy_segment (file : list Z) (ph : Elf64_Phdr) (legacy : bool) : HR unit :=
  dump_16 legacy "[C++ELF] src bytes: " (file_bytes file (p_offset ph) 16) (p_filesz ph) ;;;
  src <-- file_bytes file (p_offset ph) (p_filesz ph) ;;
  vpoke_all (p_vaddr ph) src ;;;
  dump_16 legacy "[C++ELF] dst bytes: " (vpeek_all (p_vaddr ph) 16) (p_filesz ph) ;;;
  if p_filesz ph <? p_memsz ph then
    vpoke_all (p_vaddr ph + p_filesz ph) (replicate (Z.to_nat (p_memsz ph - p_filesz ph)) 0) ;;;
    debug legacy "[C++ELF] BSS cleared=%lu\n" [KInt (p_memsz ph - p_filesz ph)]
  else ret tt.

Definition load_segment (file : list Z) (ph : Elf64_Phdr) (legacy : bool) : HR bool :=
  debug legacy "[C++ELF] Seg vaddr=0x%lx\n" [KInt (p_vaddr ph)] ;;;
  debug legacy "[C++ELF] Seg offset=0x%lx\n" [KInt (p_offset ph)] ;;;
  debug legacy "[C++ELF] Seg filesz=0x%lx\n" [KInt (p_filesz ph)] ;;;
  debug legacy "[C++ELF] Seg memsz=0x%lx\n" [KInt (p_memsz ph)] ;;;
  if legacy && (0x100000 <=? p_vaddr ph) && (p_vaddr ph <? 0x400000) then
    kprintf "Error: ELF segment overlaps with Kernel Memory! (%lx)\n" [KInt (p_vaddr ph)] ;;; ret false
  else
    debug legacy "[C++ELF] alloc start=0x%lx\n" [KInt (start_page ph)] ;;;
    debug legacy "[C++ELF] alloc size=0x%lx\n" [KInt (alloc_size ph)] ;;;
    ok <-- on_paging (AllocateVirtual (start_page ph) (alloc_size ph) user_flags) ;;
    if (ok : bool) then
      debug legacy "[C++ELF] alloc OK, copying...\n" [] ;;;
      copy_segment file ph legacy ;;;
      debug legacy "[C++ELF] Segment loaded OK\n" [] ;;;
      ret true
    else
      (if legacy then kprintf "Memory allocation failed at %lx\n" [KInt (p_vaddr ph)]
       else kprintf "[C++ELF] ERROR: alloc failed at %lx\n" [KInt (p_vaddr ph)]) ;;;
      ret false.

(** the loop over the program headers, and how many segments it met; [legacy]: in
    LoadElf and LoadAndRun, where segments below 4 MiB are refused *)
Fixpoint load_segments (n : nat) (file : list Z) (at_ count : Z) (legacy : bool) : HR (bool * Z)%type :=
  match n with
  | O => ret (true, count)
  | S n' =>
      ph <-- read_phdr file at_ ;;
      if p_type ph =? PT_LOAD then
        ok <-- load_segment file ph legacy ;;
        if (ok : bool) then load_segments n' file (at_ + sizeof_Elf64_Phdr) (count + 1) legacy
        else ret (false, count + 1)
      else load_segments n' file (at_ + sizeof_Elf64_Phdr) count legacy
  end.

Definition buf_size : Z := 1024 * 1024.

(** g_system_fs, [None] for null, and the fuel for its chains of clusters *)
Variables (fuel : nat) (g_system_fs : option FAT32Driver).

(** fs->ReadFile: the number of bytes and the buffer, whose old contents count as zeros *)
Definition fs_ReadFile (fs : FAT32Driver) (filename : list Z) (size : Z) : HR (Z * list Z)%type := fun s =>
  let p := paging s in
  match ReadFile fuel fs filename (replicate (Z.to_nat size) 0) size 0 (mkWorld (Machine.pool s) (Paging.pool p) []) with
  | Done r w =>
      let p' := mkPM (pml4_table_ p) (cr3 p) (tables p) (w_mm w) (invalidated p) (pm_out p ++ w_out w) in
      Ret r (with_tasks (mkHost (mach s) (w_dev w) (drv s) (out s)) (with_pages p' (tasks s)))
  | NullBuffer | OutOfFuel => NoFuel
  end.

(** the Rust part of the kernel: the entry point *)
Variables (rust_elf_load : list Z -> HR (option Z))
  (rust_elf_load_from_buffer : list Z -> Z -> HR (option Z)).

(** [USE_RUST_ELF_LOADER] *)
Variable use_rust : bool.

(** ** Starting a program in the current task: LoadAndRun and LoadElf *)

(** what LoadElf and LoadAndRun do with the file; the result is the entry point *)
Definition load_file (filename : list Z) : HR (option Z) :=
  match g_system_fs with
  | None => kprintf "System File System not ready.\n" [] ;;; ret None
  | Some fs =>
      file_buf <-- Allocate_ buf_size ;;
      let** (file_size, file) := fs_ReadFile fs filename buf_size in
      if file_size =? 0 then
        kprintf "Failed to load file: %s (Not found or empty)\n" [KStr filename] ;;;
        Free_ file_buf buf_size ;;; ret None
      else if negb (is_elf file file_size) then
        kprintf "Not an ELF file: %s\n" [KStr filename] ;;; Free_ file_buf buf_size ;;; ret None
      else
        phoff <-- e_phoff file ;; phnum <-- e_phnum file ;;
        let** (ok, _) := load_segments (Z.to_nat phnum) file phoff 0 true in
        if (ok : bool) then
          entry_point <-- e_entry file ;; Free_ file_buf buf_size ;;; ret (Some entry_point)
        else Free_ file_buf buf_size ;;; ret None
  end.

Definition LoadElf (filename : list Z) : HR (option Z) :=
  if use_rust then
    kprintf "[ElfLoader] Using Rust implementation for: %s\n" [KStr filename] ;;;
    r <-- rust_elf_load filename ;;
    (match r with
     | None => kprintf "[ElfLoader] Rust loader failed for: %s\n" [KStr filename]
     | Some _ => ret tt
     end) ;;;
    ret r
  else
    kprintf "[ElfLoader] Using C++ implementation for: %s\n" [KStr filename] ;;;
    load_file filename.

(** ** The arguments on the user stack *)

(** the strings, first argument highest, and where each one is; [user_argv_ptrs] has 32
    places, [i] are filled *)
Fixpoint push_strings (args : list Z) (i sp : Z) : HR (Z * list Z)%type :=
  match args with
  | [] => ret (sp, [])
  | p :: rest =>
      str <-- ask_state (fun s => strings (tasks s) !! p) ;;
      match str with
      | None => undefined
      | Some str =>
          let sp := u64 (sp - (strlen str + 1)) in
          vpoke_all sp (str ++ [0]) ;;;
          if 32 <=? i then undefined
          else
            let** (sp', ptrs) := push_strings rest (i + 1) sp in
            ret (sp', sp :: ptrs)
      end
  end.

(** the pointers from the last to the first *)
Fixpoint push_pointers (ptrs : list Z) (sp : Z) : HR Z :=
  match ptrs with
  | [] => ret sp
  | p :: rest => sp' <-- push_pointers rest sp ;; vput8 (u64 (sp' - 8)) p ;;; ret (u64 (sp' - 8))
  end.

Definition push_arguments (args : list Z) (sp : Z) : HR Z :=
  let** (sp, ptrs) := push_strings args 0 sp in
  let sp := Z.ldiff sp 0xF in
  let sp := u64 (sp - 8) in
  vput8 sp 0 ;;;
  push_pointers ptrs sp.

(** the first [argc] pointers at [argv] *)
Definition arguments (argv argc : Z) : HR (list Z) :=
  if argc <=? 0 then ret []
  else
    args <-- ask_state (fun s => arrays (tasks s) !! argv) ;;
    match args with
    | Some args => if argc <=? zlen args then ret (take (Z.to_nat argc) args) else undefined
    | None => undefined
    end.

(** up to the first instruction of the program; [false]: it was not started *)
Definition LoadAndRun (filename : list Z) (argc argv : Z) : HR bool :=
  (fun s => Ret tt (with_running s true)) ;;;
  entry <-- load_file filename ;;
  match entry with
  | None => ret false
  | Some entry_point =>
      let stack_addr := 0x70000000 in
      let stack_size := 16 * 4096 in
      ok <-- on_paging (AllocateVirtual (stack_addr - stack_size) stack_size user_flags) ;;
      if negb (ok : bool) then kprintf "Failed to allocate user stack.\n" [] ;;; ret false
      else
        args <-- arguments argv argc ;;
        sp <-- push_arguments args stack_addr ;;
        kprintf "Starting App at %lx with argc=%d\n" [KInt entry_point; KInt argc] ;;;
        kprintf "  SP: %lx, argv_ptr: %lx\n" [KInt sp; KInt sp] ;;;
        on_processor (EnterUserMode entry_point sp argc sp) ;;;
        ret true
  end.
(** what it does when ExitApp has brought it back *)
Definition LoadAndRun_return : HR bool :=
  (fun s => Ret tt (with_running s false)) ;;; on_processor sti ;;; ret true.

(** ** A program as a task of its own: CreateProcess *)

(** [AppTaskEntry] is the address of the function *)
Variable AppTaskEntry_at : Z.

(** the first 255 characters *)
Definition filename_copy (filename : list Z) : list Z :=
  take (Z.to_nat (Z.min (strlen filename) 255)) filename.

(** a copy of the caller's [argv] ([None]: a null pointer) in memory of the kernel *)
Fixpoint copy_strings (argv : list (option (list Z))) : HR (list Z) :=
  match argv with
  | [] => ret []
  | None :: _ => undefined
  | Some str :: rest =>
      p <-- Allocate_ (strlen str + 1) ;;
      if p =? 0 then undefined
      else
        on_tasks (fun t => with_strings (<[p := str]> (strings t)) t) ;;;
        ptrs <-- copy_strings rest ;; ret (p :: ptrs)
  end.

Definition copy_argv (argc : Z) (argv : option (list (option (list Z)))) : HR Z :=
  match argv with
  | Some argv =>
      if 0 <? argc then
        if argc <=? zlen argv then
          array <-- Allocate_ (8 * (argc + 1)) ;;
          if array =? 0 then undefined
          else
            ptrs <-- copy_strings (take (Z.to_nat argc) argv) ;;
            on_tasks (fun t => with_arrays (<[array := ptrs ++ [0]]> (arrays t)) t) ;;;
            ret array
        else undefined
      else ret 0
  | None => ret 0
  end.

(** the first 31 characters in the zeroed array of the structure *)
Definition task_name (filename : list Z) (old : list Z) : list Z :=
  let name := take (Z.to_nat (Z.min (strlen filename) 31)) filename in
  splice old 0 (name ++ [0]).

(** the end, common to both loaders *)
Definition finish_process (task : Z) (filename : list Z) (argc : Z) (argv : option (list (option (list Z))))
    (entry_point : Z) : HR Z :=
  try_tasks_ (modify task (set_entry_argc entry_point argc)) ;;;
  array <-- copy_argv argc argv ;;
  try_tasks_ (modify task (set_argv array)) ;;;
  try_tasks_ (modify task (fun t => set_name (task_name filename (name t)) t)) ;;;
  try_tasks_ (AddToReadyQueue task) ;;;
  t <-- ask_state (fun s => heap (tasks s) !! task) ;;
  match t with
  | Some t =>
      kprintf "[ElfLoader] Created process '%s' (ID=%lu, Entry=%lx, CR3=%lx)\n"
        [KStr filename; KInt (task_id t); KInt entry_point; KInt (ctx_cr3 (context t))] ;;;
      ret task
  | None => undefined
  end.

(** the file goes into the tables of the new task; the entry point when that succeeds *)
Definition load_into (cr3_value : Z) (load : HR (option Z)) : HR (option Z) :=
  caller_cr3 <-- ask_state (fun s => cr3 (paging s)) ;;
  on_paging (fun p => (tt, SwitchPageTable cr3_value p)) ;;;
  r <-- load ;;
  on_paging (fun p => (tt, SwitchPageTable caller_cr3 p)) ;;;
  ret r.

Definition load_buffer (file : list Z) (file_size : Z) : HR (option Z) :=
  if use_rust then rust_elf_load_from_buffer file file_size
  else
    entry_point <-- e_entry file ;; phoff <-- e_phoff file ;;
    kprintf "[C++ELF] === load_segments START ===\n" [] ;;;
    phnum <-- e_phnum file ;;
    let** (ok, segment_count) := load_segments (Z.to_nat phnum) file phoff 0 false in
    kprintf "[C++ELF] Total segments=%d\n" [KInt segment_count] ;;;
    kprintf "[C++ELF] === load_segments END ===\n" [] ;;;
    ret (if (ok : bool) then Some entry_point else None).

(** the task, 0 for nullptr *)
Definition CreateProcess (filename : list Z) (argc : Z) (argv : option (list (option (list Z)))) : HR Z :=
  let filename := filename_copy filename in
  (if use_rust then kprintf "[ElfLoader] CreateProcess (Rust): %s\n" [KStr filename]
   else kprintf "[ElfLoader] CreateProcess (C++): %s\n" [KStr filename]) ;;;
  match g_system_fs with
  | None => kprintf "[ElfLoader] File system not ready\n" [] ;;; ret 0
  | Some fs =>
      file_buf <-- Allocate_ buf_size ;;
      if file_buf =? 0 then kprintf "[ElfLoader] Failed to allocate file buffer\n" [] ;;; ret 0
      else
        let** (file_size, file) := fs_ReadFile fs filename buf_size in
        if file_size =? 0 then
          kprintf "[ElfLoader] Failed to read file: %s\n" [KStr filename] ;;; Free_ file_buf buf_size ;;; ret 0
        else
          (if use_rust then kprintf "[ElfLoader] Read %u bytes from %s\n" [KInt file_size; KStr filename] else ret tt) ;;;
          if negb use_rust && negb (is_elf file file_size) then
            kprintf "[ElfLoader] Not an ELF file: %s\n" [KStr filename] ;;; Free_ file_buf buf_size ;;; ret 0
          else
            task <-- try_tasks (CreateAppTask AppTaskEntry_at 0) ;;
            if task =? 0 then
              kprintf "[ElfLoader] Failed to create app task\n" [] ;;; Free_ file_buf buf_size ;;; ret 0
            else
              t <-- ask_state (fun s => heap (tasks s) !! task) ;;
              entry <-- load_into (default 0 (ctx_cr3 ∘ context <$> t)) (load_buffer file file_size) ;;
              Free_ file_buf buf_size ;;;
              match entry with
              | None =>
                  (if use_rust then kprintf "[ElfLoader] Failed to load ELF segments: %s\n" [KStr filename]
                   else kprintf "[ElfLoader] Failed to load ELF: %s\n" [KStr filename]) ;;;
                  try_tasks_ (TerminateTask task) ;;; ret 0
              | Some entry_point => finish_process task filename argc argv entry_point
              end
  end.

(** ** The task's first steps: AppTaskEntry *)

(** the kernel's variables: [tss], and g_syscall_context *)
Variables (tss g_syscall_context : Z).

(** the current task is no program: it ends itself *)
Definition not_an_app (current : Z) : HR unit :=
  kprintf "[AppTask] Error: Not an app task!\n" [] ;;;
  try_tasks_ (TerminateTask current) ;;;
  on_tasks (SetCurrentTask 0) ;;;
  try_sched (Schedule false).

Definition AppTaskEntry : HR unit :=
  current <-- ask_state (fun s => GetCurrentTask (tasks s)) ;;
  task <-- ask_state (fun s => heap (tasks s) !! current) ;;
  match task with
  | None => if current =? 0 then not_an_app 0 else undefined
  | Some t =>
      if negb (is_app t) then not_an_app current
      else
        kprintf "[AppTask] Starting '%s' (ID=%lu) in Ring 3\n" [KStr (name t); KInt (task_id t)] ;;;
        on_paging (fun p => (tt, SwitchPageTable (ctx_cr3 (context t)) p)) ;;;
        args <-- arguments (argv t) (argc t) ;;
        sp <-- push_arguments args (user_stack_top t) ;;
        kprintf "[AppTask] Entering user mode: Entry=%lx, SP=%lx, argc=%d\n" [KInt (entry_point t); KInt sp; KInt (argc t)] ;;;
        kprintf "[AppTask] argv_ptr=%lx, CR3=%lx\n" [KInt sp; KInt (ctx_cr3 (context t))] ;;;
        (fun s => Ret tt (with_running s true)) ;;;
        kprintf "[AppTask] About to call EnterUserMode NOW!\n" [] ;;;
        let kernel_stack_top := u64 (kernel_stack t + kernel_stack_size t) in
        on_system (SetKernelStack tss kernel_stack_top) ;;;
        on_processor (put 8 (g_syscall_context + off_kernel_stack_ptr) kernel_stack_top) ;;;
        on_system (WriteMSR kMSR_GS_BASE 0) ;;;
        on_system (WriteMSR kMSR_KERNEL_GS_BASE g_syscall_context) ;;;
        on_processor (EnterUserMode (entry_point t) sp (argc t) sp)
  end.

(** ** System calls on tasks *)

(** case 11: TaskExit; the result is for a caller that no longer exists *)
Definition sys_TaskExit : HR Z :=
  current <-- ask_state (fun s => GetCurrentTask (tasks s)) ;;
  if current =? 0 then ret 0
  else
    try_tasks_ (TerminateTask current) ;;;
    on_tasks (SetCurrentTask 0) ;;;
    try_sched (Schedule false) ;;;
    ret 0.

(** case 2: Exit.  ExitApp goes back to the stack EnterUserMode saved. *)
Definition ExitApp : HR unit := on_processor (
  sp <-- (fun h => Ret (g_kernel_rsp_save (drv h)) h) ;; set_reg RSP sp ;;;
  pop_all [R15; R14; R13; R12; RBX; RBP] ;;;
  sti ;;;
  pop RIP).

(** [keyboard]: standard input is a KeyboardFD, whose ring is emptied *)
Definition sys_Exit (keyboard : bool) : HR unit :=
  kprintf "\n[Kernel] App Exited via Syscall.\n" [] ;;;
  (fun s => Ret tt (with_running s false)) ;;;
  (if keyboard then fun s => Ret tt (with_app s (mkApp (sched (drv s)) (core (drv s)) (g_app_running (drv s)) (flushed (drv s) + 1)))
   else ret tt) ;;;
  current <-- ask_state (fun s => GetCurrentTask (tasks s)) ;;
  t <-- ask_state (fun s => heap (tasks s) !! current) ;;
  (match t with
   | Some t =>
       if is_app t && negb (current =? 0) then
         on_processor cli ;;;
         on_paging (fun p => (tt, SwitchPageTable (GetKernelCR3 p) p)) ;;;
         try_tasks_ (RemoveFromReadyQueue current) ;;;
         try_tasks_ (modify current (set_state TERMINATED)) ;;;
         on_tasks (SetCurrentTask 0) ;;;
         kernel_cr3 <-- ask_state (fun s => GetKernelCR3 (paging s)) ;;
         let task_cr3 := ctx_cr3 (context t) in
         (if negb (task_cr3 =? 0) && negb (task_cr3 =? kernel_cr3)
          then on_paging (fun p => (tt, FreeProcessPageTable task_cr3 p)) else ret tt) ;;;
         try_tasks_ (free_argv (argv t) (argc t))
       else ret tt
   | None => if current =? 0 then ret tt else undefined
   end) ;;;
  ExitApp.

(** case 20: Spawn.  The strings of the caller are copied to 256 places each, of which
    the code fills as many as it finds. *)
Definition short (str : list Z) : HR unit := if strlen str <=? 255 then ret tt else undefined.
Fixpoint short_all (argv : list (option (list Z))) : HR unit :=
  match argv with
  | [] => ret tt
  | None :: rest => short_all rest
  | Some str :: rest => short str ;;; short_all rest
  end.

(** [kernel_argv_at] is the address of the array, for the message *)
Definition sys_Spawn (kernel_argv_at : Z) (path : list Z) (arg2 : Z) (user_argv : list (option (list Z))) : HR Z :=
  let argc := i32 arg2 in
  short path ;;;
  let argc := if 32 <? argc then 32 else argc in
  let kernel_argv := take (Z.to_nat argc) user_argv in
  short_all kernel_argv ;;;
  kprintf "[Syscall] Spawn: %s %d %p\n" [KStr path; KInt argc; KPtr kernel_argv_at] ;;;
  task <-- CreateProcess path argc (Some kernel_argv) ;;
  if task =? 0 then ret 0
  else
    t <-- ask_state (fun s => heap (tasks s) !! task) ;;
    match t with Some t => ret (task_id t) | None => undefined end.

(** ** What the Rust loader may call (rust_ffi.cpp) *)

Definition memory_allocate (size : Z) : HR Z := Allocate_ size.
Definition memory_free (ptr size : Z) : HR unit := Free_ ptr size.
Definition page_allocate_virtual (vaddr size flags : Z) : HR bool := on_paging (AllocateVirtual vaddr size flags).
Definition fs_read_file (filename : list Z) (size : Z) : HR (Z * list Z)%type :=
  match g_system_fs with
  | None => ret (0, [])
  | Some fs => fs_ReadFile fs filename size
  end.
Definition kprintf_rust (msg : list Z) : HR unit := kprintf "%s" [KStr msg].

(** ** The idle task (task/idle_task.cpp) *)

(** an entry of [processes], and whether its warning was given *)
Record EssentialProcess := mkEssential { path : list Z; started : bool; essential_id : Z; warned : bool }.
Definition processes : list EssentialProcess := [mkEssential (c_lit "/sys/bin/shell.elf") false 0 false].

(** g_event_logger->Info for the kernel's log, see Logger.v *)
Variable Info : list Z -> HR unit.

Definition check_process (p : EssentialProcess) : HR EssentialProcess :=
  if started p then ret p
  else
    task <-- CreateProcess (path p) 1 (Some [Some (path p); None]) ;;
    if negb (task =? 0) then
      t <-- ask_state (fun s => heap (tasks s) !! task) ;;
      match t with
      | None => undefined
      | Some t =>
          kprintf "[EssentialProc] Started: %s (ID=%lu)\n" [KStr (path p); KInt (task_id t)] ;;;
          Info (c_lit "Essential process started: shell") ;;;
          ret (mkEssential (path p) true (task_id t) (warned p))
      end
    else if negb (warned p) then
      kprintf "[EssentialProc] WARNING: Failed to start %s\n" [KStr (path p)] ;;;
      ret (mkEssential (path p) false (essential_id p) true)
    else ret p.

Fixpoint CheckAndStartProcesses (ps : list EssentialProcess) : HR (list EssentialProcess) :=
  match ps with
  | [] => ret []
  | p :: rest => p <-- check_process p ;; rest <-- CheckAndStartProcesses rest ;; ret (p :: rest)
  end.

Definition Initialize (initialized : bool) : HR bool :=
  if initialized then ret true
  else kprintf "[EssentialProc] Initialized with %d processes.\n" [KInt (zlen processes)] ;;; ret true.

(** [turns] turns of the endless loop, one for each interrupt that wakes the task *)
Fixpoint idle_loop (turns : nat) (ps : list EssentialProcess) : HR (list EssentialProcess) :=
  match turns with
  | O => ret ps
  | S n => ps <-- CheckAndStartProcesses ps ;; idle_loop n ps
  end.

Definition IdleTaskEntry (turns : nat) : HR (list EssentialProcess) :=
  kprintf "[IdleTask] *** TASK STARTED! ***\n" [] ;;;
  Initialize false ;;;
  idle_loop turns processes.

(** the result is g_idle_task *)
Definition InitializeIdleTask (IdleTaskEntry_at : Z) : HR Z :=
  g_idle_task <-- try_tasks (fun t => Some (CreateTask IdleTaskEntry_at t)) ;;
  (if negb (g_idle_task =? 0) then
     try_tasks_ (AddToReadyQueue g_idle_task) ;;;
     kprintf "[IdleTask] Created and added to ready queue.\n" []
   else kprintf "[IdleTask] Failed to create idle task!\n" []) ;;;
  ret g_idle_task.
End App.
