(* ===== verification/ProcessStart.v ===== *)
(** * A program finds its arguments (kernel/app/elf/app_wrapper.cpp)

    The argument block that AppTaskEntry and LoadAndRun build, read back through the
    page tables. *)
From stdpp Require Import functions.
From S2P Require Import Prelude Run Memory CStr Machine Cpu UserMode Device Fat32 Paging PagingMap Tasks TaskQueue Scheduler Process.
#[local] Open Scope run_scope.

(** bytes in a flat memory *)
Definition bytes_at (v : Z -> Z) (a : Z) (bs : list Z) : Prop := forall k b, bs !! k = Some b -> v (a + Z.of_nat k) = b.
Definition string_at (v : Z -> Z) (a : Z) (str : list Z) : Prop := bytes_at v a (str ++ [0]).
Definition word_at (v : Z -> Z) (a x : Z) : Prop := bytes_at v a (le_bytes 8 x).
(** [xs] are consecutive words *)
Definition words_at (v : Z -> Z) (a : Z) (xs : list Z) : Prop := forall k x, xs !! k = Some x -> word_at v (a + 8 * Z.of_nat k) x.

Lemma bytes_at_ext v v' a bs : (forall b, a <= b < a + zlen bs -> v' b = v b) -> bytes_at v a bs -> bytes_at v' a bs.
Proof.
  intros Hv Hb k b Hk. rewrite Hv; [by apply Hb|]. pose proof (lookup_lt_Some _ _ _ Hk). unfold zlen. lia.
Qed.

Lemma words_at_ext v v' a xs : (forall b, a <= b < a + 8 * zlen xs -> v' b = v b) -> words_at v a xs -> words_at v' a xs.
Proof.
  intros Hv Hw k x Hk. eapply bytes_at_ext; [|by apply Hw]. intros b Hb. apply Hv.
  rewrite zlen_le_bytes in Hb. pose proof (lookup_lt_Some _ _ _ Hk). unfold zlen. lia.
Qed.

Section Start.
Context {W D M : Type} `{MachineLaws W} `{BlockDevice D} `{FrameAllocator M} `{FramePool M}.
Local Abbreviation St := (Host W D (App M)).
Implicit Types s : St.

(** the virtual addresses from [lo] to [hi] have physical addresses [phi] of their own *)
Record mapped s (lo hi : Z) (phi : Z -> Z) : Prop := {
  mp_range : 0 <= lo /\ hi <= 2 ^ 63;
  mp_phys a : lo <= a < hi -> physical s a = Some (phi a);
  mp_inj a b : lo <= a < hi -> lo <= b < hi -> phi a = phi b -> a = b
}.

(** the bytes there *)
Definition view s (phi : Z -> Z) (a : Z) : Z := peek (mach s) (phi a).

Lemma vpeek_view s lo hi phi a : mapped s lo hi phi -> lo <= a < hi -> vpeek a s = Some (view s phi a).
Proof. intros Hm Ha. unfold vpeek. by rewrite (mp_phys _ _ _ _ Hm a Ha). Qed.

(** [s'] differs from [s] in the bytes from [lo] to [hi] only *)
Record wrote s s' (lo hi : Z) (bot top : Z) (phi : Z -> Z) : Prop := {
  wr_state : s' = with_mach s (mach s');
  wr_view b : bot <= b < top -> b < lo \/ hi <= b -> view s' phi b = view s phi b;
  wr_other p : (forall b, lo <= b < hi -> p <> phi b) -> peek (mach s') p = peek (mach s) p
}.

Lemma mapped_wrote s s' lo hi bot top phi : wrote s s' lo hi bot top phi -> mapped s bot top phi -> mapped s' bot top phi.
Proof. intros [E _ _] [A B C]. split; [done| |done]. rewrite E. exact B. Qed.

Lemma stack_wrote_refl s lo bot top phi : wrote s s lo lo bot top phi.
Proof. split; [by destruct s|done|done]. Qed.

Lemma stack_wrote_trans s1 s2 s3 a b c d lo hi bot top phi :
  wrote s1 s2 a b bot top phi -> wrote s2 s3 c d bot top phi -> lo <= a -> b <= hi -> lo <= c -> d <= hi ->
  wrote s1 s3 lo hi bot top phi.
Proof.
  intros [E1 V1 O1] [E2 V2 O2] Ha Hb Hc Hd. split.
  - by rewrite E2, E1.
  - intros x Hx Hout. rewrite V2, V1 by lia. done.
  - intros p Hp. rewrite O2, O1; [done| |]; intros x Hx; apply Hp; lia.
Qed.

Lemma vpoke_all_run bot top phi bs : forall a s,
  mapped s bot top phi -> bot <= a -> a + zlen bs <= top -> Forall is_byte bs ->
  exists s', vpoke_all a bs s = Ret tt s' /\ wrote s s' a (a + zlen bs) bot top phi /\ bytes_at (view s' phi) a bs.
Proof.
  induction bs as [|x bs IH]; intros a s Hm Ha Hb Hx.
  { exists s. split; [done|]. change (zlen (@nil Z)) with 0. rewrite Z.add_0_r. split; [apply stack_wrote_refl|done]. }
  rewrite zlen_cons in *. pose proof (zlen_nonneg bs). apply Forall_cons in Hx. destruct Hx as [Hx0 Hx].
  set (s1 := with_mach s (poke (phi a) x (mach s))).
  assert (R1 : vpoke a x s = Ret tt s1) by (unfold vpoke; by rewrite (mp_phys _ _ _ _ Hm a) by lia).
  assert (W1 : wrote s s1 a (a + 1) bot top phi).
  { split; [done| |].
    - intros b Hbr Hout. unfold view, s1. cbn [mach with_mach]. rewrite peek_poke.
      destruct (Z.eqb_spec (phi b) (phi a)) as [Hp|]; [|done]. apply (mp_inj _ _ _ _ Hm) in Hp; lia.
    - intros p Hp. unfold s1. cbn [mach with_mach]. rewrite peek_poke.
      rewrite (proj2 (Z.eqb_neq p (phi a))); [done|]. apply Hp. lia. }
  destruct (IH (a + 1) s1 (mapped_wrote _ _ _ _ _ _ _ W1 Hm) ltac:(lia) ltac:(lia) Hx) as (s2 & R2 & W2 & B2).
  exists s2. cbn [vpoke_all]. rewrite (bind_Ret _ _ _ _ _ R1). split; [done|]. split.
  - eapply stack_wrote_trans; [exact W1|exact W2|lia..].
  - intros k b Hk. destruct k as [|k]; cbn in Hk.
    + injection Hk as <-. rewrite Z.add_0_r. rewrite (wr_view _ _ _ _ _ _ _ W2 a) by lia.
      unfold view, s1. cbn [mach with_mach]. rewrite peek_poke, Z.eqb_refl. by apply u8_small.
    + rewrite <- (B2 k b Hk). f_equal. lia.
Qed.

(** *** The strings *)

(** the bytes the strings take with their terminators *)
Definition strings_size (strs : list (list Z)) : Z := foldr (fun str n => zlen str + 1 + n) 0 strs.

Lemma strings_size_nonneg strs : 0 <= strings_size strs.
Proof. induction strs as [|str strs IH]; cbn [strings_size foldr]; [lia|]. pose proof (zlen_nonneg str). unfold strings_size in IH. lia. Qed.

(** the pointers of the kernel and what they point to *)
Definition points_to s (args : list Z) (strs : list (list Z)) : Prop :=
  Forall2 (fun p str => strings (tasks s) !! p = Some str /\ is_cstr str) args strs.

(** every string is where its pointer says, between [lo] and [hi] *)
Definition strings_between (v : Z -> Z) (lo hi : Z) (ptrs : list Z) (strs : list (list Z)) : Prop :=
  Forall2 (fun q str => lo <= q /\ q + zlen str + 1 <= hi /\ string_at v q str) ptrs strs.

Lemma strings_between_ext v v' lo hi lo' ptrs strs :
  lo' <= lo -> (forall b, lo <= b < hi -> v' b = v b) -> strings_between v lo hi ptrs strs -> strings_between v' lo' hi ptrs strs.
Proof.
  intros Hlo Hv Hs. eapply Forall2_impl; [exact Hs|]. intros q str (Q1 & Q2 & Q3). split; [lia|]. split; [done|].
  eapply bytes_at_ext; [|exact Q3]. intros b Hb. apply Hv. rewrite zlen_app in Hb. change (zlen [0]) with 1 in Hb. lia.
Qed.

Lemma points_to_wrote s s' lo hi bot top phi args strs :
  wrote s s' lo hi bot top phi -> points_to s args strs -> points_to s' args strs.
Proof. intros [E _ _] Hp. unfold points_to. by rewrite E. Qed.

Lemma push_strings_run bot top phi strs : forall args i sp s,
  mapped s bot top phi -> points_to s args strs -> sp <= top -> bot <= sp - strings_size strs -> 0 <= i -> i + zlen args <= 32 ->
  exists ptrs s', push_strings args i sp s = Ret (sp - strings_size strs, ptrs) s'
  /\ wrote s s' (sp - strings_size strs) sp bot top phi
  /\ strings_between (view s' phi) (sp - strings_size strs) sp ptrs strs.
Proof.
  induction strs as [|str strs IH]; intros args i sp s Hm Hp Htop Hbot Hi Hlen; apply Forall2_cons_inv_r in Hp || apply Forall2_nil_inv_r in Hp.
  { subst args. exists [], s. cbn [push_strings strings_size foldr]. rewrite Z.sub_0_r. split; [done|]. split; [apply stack_wrote_refl|constructor]. }
  destruct Hp as (p & args' & [Hstr Hc] & Hp & ->).
  change (strings_size (str :: strs)) with (zlen str + 1 + strings_size strs) in *.
  pose proof (strings_size_nonneg strs) as Hnn. pose proof (zlen_nonneg str) as Hns. pose proof (mp_range _ _ _ _ Hm) as Hr.
  set (sp1 := sp - (zlen str + 1)).
  assert (Hsp1 : u64 (sp - (strlen str + 1)) = sp1) by (unfold strlen, sp1; apply u64_small; lia).
  destruct (vpoke_all_run bot top phi (str ++ [0]) sp1 s Hm ltac:(unfold sp1; lia)) as (s1 & R1 & W1 & B1).
  { rewrite zlen_app. change (zlen [0]) with 1. unfold sp1. lia. }
  { apply Forall_app. split; [|constructor; [unfold is_byte; lia|done]]. eapply Forall_impl; [exact Hc|]. unfold is_byte. intros; lia. }
  assert (Hend : sp1 + zlen (str ++ [0]) = sp) by (rewrite zlen_app; change (zlen [0]) with 1; unfold sp1; lia).
  rewrite Hend in W1. rewrite zlen_cons in Hlen. pose proof (zlen_nonneg args') as Hna.
  destruct (IH args' (i + 1) sp1 s1 (mapped_wrote _ _ _ _ _ _ _ W1 Hm) (points_to_wrote _ _ _ _ _ _ _ _ _ W1 Hp))
    as (ptrs & s2 & R2 & W2 & B2); [unfold sp1; lia..|].
  assert (Hsz : sp - (zlen str + 1 + strings_size strs) = sp1 - strings_size strs) by (unfold sp1; lia).
  exists (sp1 :: ptrs), s2. rewrite Hsz. split; [|split].
  - cbn [push_strings]. unfold ask_state, bind at 1. rewrite Hstr, Hsp1, (bind_Ret _ _ _ _ _ R1).
    rewrite (proj2 (Z.leb_gt 32 i)) by lia. by rewrite (bind_Ret _ _ _ _ _ R2).
  - eapply stack_wrote_trans; [exact W1|exact W2|unfold sp1; lia..].
  - constructor.
    + split; [lia|]. split; [unfold sp1; lia|]. eapply bytes_at_ext; [|exact B1].
      intros b Hb. rewrite Hend in Hb. apply (wr_view _ _ _ _ _ _ _ W2); unfold sp1 in *; lia.
    + eapply Forall2_impl; [exact B2|]. intros q str' (Q1 & Q2 & Q3). split; [done|]. split; [unfold sp1 in *; lia|done].
Qed.

(** *** The pointers *)

Lemma push_pointers_run bot top phi ptrs : forall sp s,
  mapped s bot top phi -> sp <= top -> bot <= sp - 8 * zlen ptrs -> Forall (fun q => 0 <= q < 2 ^ 64) ptrs ->
  exists s', push_pointers ptrs sp s = Ret (sp - 8 * zlen ptrs) s'
  /\ wrote s s' (sp - 8 * zlen ptrs) sp bot top phi /\ words_at (view s' phi) (sp - 8 * zlen ptrs) ptrs.
Proof.
  induction ptrs as [|q ptrs IH]; intros sp s Hm Htop Hbot Hq.
  { exists s. change (zlen (@nil Z)) with 0. rewrite Z.mul_0_r, Z.sub_0_r. split; [done|]. split; [apply stack_wrote_refl|done]. }
  rewrite zlen_cons in *. pose proof (zlen_nonneg ptrs) as Hnn. pose proof (mp_range _ _ _ _ Hm) as Hr.
  apply Forall_cons in Hq. destruct Hq as [Hq0 Hq].
  destruct (IH sp s Hm Htop ltac:(lia) Hq) as (s1 & R1 & W1 & B1).
  set (a := sp - 8 * (1 + zlen ptrs)).
  destruct (vpoke_all_run bot top phi (le_bytes 8 q) a s1 (mapped_wrote _ _ _ _ _ _ _ W1 Hm)) as (s2 & R2 & W2 & B2);
    [unfold a; lia|rewrite zlen_le_bytes; unfold a; lia|apply le_bytes_range|].
  rewrite zlen_le_bytes in W2. change (Z.of_nat 8) with 8 in W2.
  assert (Ea : u64 (sp - 8 * zlen ptrs - 8) = a) by (unfold a; rewrite u64_small by lia; lia).
  exists s2. split; [|split].
  - cbn [push_pointers]. rewrite (bind_Ret _ _ _ _ _ R1). unfold vput8. rewrite Ea, (bind_Ret _ _ _ _ _ R2). done.
  - eapply stack_wrote_trans; [exact W1|exact W2|unfold a; lia..].
  - intros k x Hk. destruct k as [|k]; cbn in Hk.
    + injection Hk as <-. rewrite Z.add_0_r. exact B2.
    + assert (Hkl := lookup_lt_Some _ _ _ Hk).
      replace (a + 8 * Z.of_nat (S k)) with (sp - 8 * zlen ptrs + 8 * Z.of_nat k) by (unfold a; lia).
      eapply bytes_at_ext; [|apply (B1 k x Hk)]. intros b Hb. rewrite zlen_le_bytes in Hb.
      apply (wr_view _ _ _ _ _ _ _ W2); unfold a, zlen in *; lia.
Qed.

(** *** The block *)

(** what is needed below the stack's top: the strings, at most 15 bytes to the
    alignment, and a pointer for each argument with the null behind *)
Definition block_size (strs : list (list Z)) : Z := strings_size strs + 15 + 8 * (zlen strs + 1).

(** argc strings, and the array of their addresses that ends with a null *)
Record argument_block (v : Z -> Z) (argv_ptr top : Z) (strs : list (list Z)) : Prop := {
  ab_aligned : argv_ptr mod 8 = 0;
  ab_room : argv_ptr + 8 * (zlen strs + 1) <= top;
  ab_block : exists ptrs, words_at v argv_ptr (ptrs ++ [0]) /\ strings_between v (argv_ptr + 8 * (zlen strs + 1)) top ptrs strs
}.

Lemma ldiff_15 a : 0 <= a -> Z.ldiff a 0xF = a - a mod 16.
Proof.
  intros Ha. change 0xF with (Z.ones 4). rewrite Z.ldiff_ones_r by lia.
  rewrite Z.shiftl_mul_pow2, Z.shiftr_div_pow2 by lia. change (2 ^ 4) with 16. pose proof (Z.div_mod a 16). lia.
Qed.

Lemma words_at_app v a xs ys : words_at v a xs -> words_at v (a + 8 * zlen xs) ys -> words_at v a (xs ++ ys).
Proof.
  intros Hx Hy k x Hk. apply lookup_app_Some in Hk. destruct Hk as [Hk|[Hge Hk]]; [by apply Hx|].
  replace (a + 8 * Z.of_nat k) with (a + 8 * zlen xs + 8 * Z.of_nat (k - length xs)) by (unfold zlen; lia). by apply Hy.
Qed.

Lemma push_arguments_run bot top phi args strs s :
  mapped s bot top phi -> points_to s args strs -> bot <= top - block_size strs -> zlen args <= 32 ->
  exists sp s', push_arguments args top s = Ret sp s' /\ wrote s s' sp top bot top phi
  /\ top - block_size strs <= sp <= top /\ argument_block (view s' phi) sp top strs.
Proof.
  intros Hm Hp Hbot Hlen. unfold block_size in *. pose proof (strings_size_nonneg strs) as Hns. pose proof (zlen_nonneg strs) as Hz.
  pose proof (mp_range _ _ _ _ Hm) as Hr.
  destruct (push_strings_run bot top phi strs args 0 top s Hm Hp) as (ptrs & s1 & R1 & W1 & B1); [lia..|].
  set (a := top - strings_size strs) in *. set (b := a - a mod 16 - 8).
  pose proof (Z.mod_pos_bound a 16 ltac:(lia)) as Hmod.
  assert (Hlp : zlen ptrs = zlen strs) by (unfold zlen; f_equal; by apply Forall2_length in B1).
  assert (Hb : u64 (Z.ldiff a 0xF - 8) = b) by (rewrite ldiff_15 by (unfold a; lia); apply u64_small; unfold a in *; lia).
  pose proof (mapped_wrote _ _ _ _ _ _ _ W1 Hm) as Hm1.
  destruct (vpoke_all_run bot top phi (le_bytes 8 0) b s1 Hm1) as (s2 & R2 & W2 & B2);
    [unfold b, a in *; lia|rewrite zlen_le_bytes; unfold b, a in *; lia|apply le_bytes_range|].
  rewrite zlen_le_bytes in W2. change (Z.of_nat 8) with 8 in W2.
  assert (Hq : Forall (fun q => 0 <= q < 2 ^ 64) ptrs).
  { apply Forall_lookup. intros k q Hk. destruct (Forall2_lookup_l _ _ _ _ _ B1 Hk) as (str & _ & Q1 & Q2 & _).
    pose proof (zlen_nonneg str). unfold a in *. lia. }
  destruct (push_pointers_run bot top phi ptrs b s2 (mapped_wrote _ _ _ _ _ _ _ W2 Hm1)) as (s3 & R3 & W3 & B3);
    [unfold b, a in *; lia|unfold b, a in *; lia|exact Hq|].
  rewrite Hlp in *. exists (b - 8 * zlen strs), s3. split; [|split; [|split]].
  - unfold push_arguments. rewrite (bind_Ret _ _ _ _ _ R1). cbv beta iota zeta. unfold vput8. by rewrite Hb, (bind_Ret _ _ _ _ _ R2).
  - assert (W12 : wrote s s2 b top bot top phi) by (eapply stack_wrote_trans; [exact W1|exact W2|unfold b, a in *; lia..]).
    eapply stack_wrote_trans; [exact W12|exact W3|unfold b, a in *; lia..].
  - unfold b, a in *. lia.
  - split.
    + assert (He : exists k, a = 16 * k + a mod 16) by (exists (a / 16); apply Z.div_mod; lia). destruct He as [k He].
      replace (b - 8 * zlen strs) with ((2 * k - 1 - zlen strs) * 8) by (unfold b; lia). apply Z.mod_mul. lia.
    + unfold b, a in *. lia.
    + exists ptrs. split.
      * apply words_at_app; [exact B3|]. rewrite Hlp. intros k x Hk. apply list_lookup_singleton_Some in Hk. destruct Hk as [-> <-].
        eapply bytes_at_ext; [|replace (b - 8 * zlen strs + 8 * zlen strs + 8 * Z.of_nat 0) with b by lia; exact B2].
        intros c Hc. rewrite zlen_le_bytes in Hc. apply (wr_view _ _ _ _ _ _ _ W3); unfold b, a in *; lia.
      * eapply strings_between_ext; [|intros c Hc|exact B1].
        { unfold b, a in *. lia. }
        rewrite (wr_view _ _ _ _ _ _ _ W3), (wr_view _ _ _ _ _ _ _ W2); [done|unfold b, a in *; lia..].
Qed.

(** ** AppTaskEntry *)

Variables (gdt tss ctx : Z).

(** memory of the kernel that the start of a program reads or writes: the descriptor
    table, the task state segment, the context of system calls, and the part of the
    stack EnterUserMode uses *)
Definition kernel_area (ksp p : Z) : Prop :=
  gdt <= p < gdt + 64 \/ tss <= p < tss + sizeof_TSS64 \/ ctx <= p < ctx + sizeof_SyscallContext \/ ksp - 88 <= p < ksp.

Definition disjoint_areas (ksp : Z) : Prop :=
  (gdt + 64 <= tss \/ tss + sizeof_TSS64 <= gdt) /\ (gdt + 64 <= ctx \/ ctx + sizeof_SyscallContext <= gdt)
  /\ (tss + sizeof_TSS64 <= ctx \/ ctx + sizeof_SyscallContext <= tss)
  /\ (gdt + 64 <= ksp - 88 \/ ksp <= gdt) /\ (tss + sizeof_TSS64 <= ksp - 88 \/ ksp <= tss)
  /\ (ctx + sizeof_SyscallContext <= ksp - 88 \/ ksp <= ctx).

Definition kernel_sp s : Z := regs (core (drv s)) RSP.

(** a task that CreateProcess has made runs for the first time *)
Record launchable s (t : Task) (strs : list (list Z)) (bot : Z) (phi : Z -> Z) : Prop := {
  la_task : heap (tasks s) !! current_task_ (tasks s) = Some t;
  la_app : is_app t = true;
  la_cr3 : ctx_cr3 (context t) <> 0;
  la_argc : argc t = zlen strs /\ zlen strs <= 32;
  la_argv : strs <> [] -> exists arr, arrays (tasks s) !! argv t = Some arr /\ zlen strs <= zlen arr
            /\ points_to s (take (length strs) arr) strs;
  la_range : 0 <= bot /\ user_stack_top t <= 2 ^ 63 /\ bot <= user_stack_top t - block_size strs;
  la_pages a : bot <= a < user_stack_top t ->
    exists w u, translate (tables (paging s)) (ctx_cr3 (context t)) a = Some (phi a, w, u);
  la_inj a b : bot <= a < user_stack_top t -> bot <= b < user_stack_top t -> phi a = phi b -> a = b;
  la_apart a : bot <= a < user_stack_top t -> ~ kernel_area (kernel_sp s) (phi a);
  la_entry : 0 <= entry_point t < 2 ^ 64;
  la_segments : segments_ok gdt tss (sys (core (drv s))) (mach s);
  la_regs : (forall q, 0 <= regs (core (drv s)) q < 2 ^ 64) /\ 88 <= kernel_sp s;
  la_areas : disjoint_areas (kernel_sp s)
}.

Definition switched s (P : Z) : St := with_tasks s (with_pages (LoadCR3 P (paging s)) (tasks s)).

Lemma launchable_arguments s t strs bot phi (s1 : St) :
  launchable s t strs bot phi -> arrays (tasks s1) = arrays (tasks s) -> strings (tasks s1) = strings (tasks s) ->
  exists args, arguments (argv t) (argc t) s1 = Ret args s1 /\ points_to s1 args strs /\ zlen args <= 32.
Proof.
  intros La Ea Es. destruct (la_argc _ _ _ _ _ La) as [-> Hlen]. unfold arguments.
  destruct strs as [|str strs].
  - exists []. split; [done|]. split; [constructor|done].
  - destruct (la_argv _ _ _ _ _ La) as (arr & Harr & Hle & Hp); [done|].
    rewrite (proj2 (Z.leb_gt _ _)) by (rewrite zlen_cons; pose proof (zlen_nonneg strs); lia).
    exists (take (length (str :: strs)) arr). unfold ask_state, bind. rewrite Ea, Harr, (proj2 (Z.leb_le _ _)) by done.
    split; [by unfold zlen; rewrite Nat2Z.id|]. split.
    + unfold points_to. by rewrite Es.
    + pose proof (Forall2_length _ _ _ Hp) as Hl. unfold zlen in *. lia.
Qed.

(** the stores to kernel memory on the way, and what they leave alone *)
Lemma launch_memory ksp w v phi_a : disjoint_areas ksp -> ~ kernel_area ksp phi_a ->
  let w' := store_at 8 (ctx + off_kernel_stack_ptr) v (store_at 8 (tss + off_rsp0) v w) in
  peek w' phi_a = peek w phi_a /\ (forall a, gdt <= a < gdt + 64 -> peek w' a = peek w a)
  /\ load 2 (tss + off_iomap_base) w' = load 2 (tss + off_iomap_base) w.
Proof.
  unfold disjoint_areas, kernel_area, sizeof_TSS64, sizeof_SyscallContext, off_rsp0, off_iomap_base, off_kernel_stack_ptr.
  intros Hd Ha. cbv zeta. split; [|split].
  - by rewrite !peek_store_other by lia.
  - intros a Hg. by rewrite !peek_store_other by lia.
  - by rewrite !load_store_other by lia.
Qed.

Lemma argument_block_ext v v' sp top strs :
  (forall b, sp <= b < top -> v' b = v b) -> argument_block v sp top strs -> argument_block v' sp top strs.
Proof.
  intros Hv [A R (ptrs & Hw & Hs)]. pose proof (zlen_nonneg strs) as Hz. split; [done|done|]. exists ptrs.
  assert (Hl : zlen (ptrs ++ [0]) = zlen strs + 1).
  { rewrite zlen_app. change (zlen [0]) with 1. unfold zlen. by rewrite (Forall2_length _ _ _ Hs). }
  split.
  - eapply words_at_ext; [|exact Hw]. intros b Hb. apply Hv. lia.
  - eapply strings_between_ext; [|intros b Hb; apply Hv|exact Hs]; lia.
Qed.

(** the parts of a state that the start of a program goes by *)
Record shows s (m : W) (c : Core) (o : list kevent) (P : Z) (ts : gmap Z (list Z)) (b : bool) : Prop := {
  sh_mach : mach s = m;
  sh_core : core (drv s) = c;
  sh_out : out s = o;
  sh_cr3 : cr3 (paging s) = P;
  sh_tables : tables (paging s) = ts;
  sh_running : g_app_running (drv s) = b
}.

Lemma kprintf_shows fmt args s m c o P ts b : shows s m c o P ts b ->
  exists s', kprintf fmt args s = Ret tt s' /\ shows s' m c o P ts b.
Proof. intros [<- <- <- <- <- <-]. eexists. split; [reflexivity|]. split; reflexivity. Qed.

Lemma running_shows x s m c o P ts b : shows s m c o P ts b -> shows (with_running s x) m c o P ts x.
Proof. intros [<- <- <- <- <- <-]. split; reflexivity. Qed.

Lemma on_processor_shows (prog : Host W unit Core -> Run (Host W unit Core) unit) s m c o P ts b h : shows s m c o P ts b ->
  prog (mkHost m tt c o) = Ret tt h ->
  exists s', on_processor prog s = Ret tt s' /\ shows s' (mach h) (drv h) (out h) P ts b.
Proof.
  intros [<- <- <- <- <- <-] R. unfold on_processor. rewrite R. eexists. split; [reflexivity|]. split; reflexivity.
Qed.

Lemma on_system_shows (prog : Host W unit Cpu -> Run (Host W unit Cpu) unit) s m c o P ts b h : shows s m c o P ts b ->
  prog (mkHost m tt (sys c) o) = Ret tt h ->
  exists s', on_system prog s = Ret tt s' /\ shows s' (mach h) (mkCore (regs c) (drv h) (g_kernel_rsp_save c)) (out h) P ts b.
Proof.
  intros Hs R. unfold on_system.
  destruct (on_processor_shows (fun h0 => match prog (mkHost (mach h0) tt (sys (drv h0)) (out h0)) with
    | Ret a h' => Ret a (mkHost (mach h') tt (set_sys (fun _ => drv h') (drv h0)) (out h'))
    | Halted h' => Halted (mkHost (mach h') tt (set_sys (fun _ => drv h') (drv h0)) (out h'))
    | NoFuel => NoFuel end) s m c o P ts b (mkHost (mach h) tt (mkCore (regs c) (drv h) (g_kernel_rsp_save c)) (out h)) Hs)
    as (s' & R' & S').
  - cbn [mach drv out]. by rewrite R.
  - exists s'. split; [exact R'|exact S'].
Qed.

(** the state in which EnterUserMode is called, [m2] being memory with the arguments *)
Definition launch_host (c : Core) (t : Task) (m2 : W) (o : list kevent) : Host W unit Core :=
  let kst := u64 (kernel_stack t + kernel_stack_size t) in
  mkHost (store_at 8 (ctx + off_kernel_stack_ptr) kst (store_at 8 (tss + off_rsp0) kst m2)) tt
    (mkCore (regs c) (set_msr kMSR_KERNEL_GS_BASE (u64 ctx) (set_msr kMSR_GS_BASE (u64 0) (sys c))) (g_kernel_rsp_save c)) o.

(** AppTaskEntry from the state with the arguments on the stack *)
Definition launch_end (t : Task) (sp : Z) : St -> Run St unit :=
  kprintf "[AppTask] Entering user mode: Entry=%lx, SP=%lx, argc=%d\n" [KInt (entry_point t); KInt sp; KInt (argc t)] ;;;
  kprintf "[AppTask] argv_ptr=%lx, CR3=%lx\n" [KInt sp; KInt (ctx_cr3 (context t))] ;;;
  (fun s => Ret tt (with_running s true)) ;;;
  kprintf "[AppTask] About to call EnterUserMode NOW!\n" [] ;;;
  on_system (SetKernelStack tss (u64 (kernel_stack t + kernel_stack_size t))) ;;;
  on_processor (put 8 (ctx + off_kernel_stack_ptr) (u64 (kernel_stack t + kernel_stack_size t))) ;;;
  on_system (WriteMSR kMSR_GS_BASE 0) ;;;
  on_system (WriteMSR kMSR_KERNEL_GS_BASE ctx) ;;;
  on_processor (EnterUserMode (entry_point t) sp (argc t) sp).

Lemma launch_end_run t sp s m c o P ts b h : shows s m c o P ts b ->
  EnterUserMode (entry_point t) sp (argc t) sp (launch_host c t m o) = Ret tt h ->
  exists s', launch_end t sp s = Ret tt s' /\ shows s' (mach h) (drv h) (out h) P ts true.
Proof.
  intros S0 Ru. unfold launch_end.
  edestruct kprintf_shows as (s1 & R1 & S1); [exact S0|]. rewrite (bind_Ret _ _ _ _ _ R1).
  edestruct kprintf_shows as (s2 & R2 & S2); [exact S1|]. rewrite (bind_Ret _ _ _ _ _ R2).
  rewrite (bind_Ret _ _ s2 tt (with_running s2 true)) by reflexivity. apply (running_shows true) in S2.
  edestruct kprintf_shows as (s4 & R4 & S4); [exact S2|]. rewrite (bind_Ret _ _ _ _ _ R4).
  edestruct (on_system_shows (SetKernelStack tss (u64 (kernel_stack t + kernel_stack_size t)))) as (s5 & R5 & S5); [exact S4|reflexivity|]. rewrite (bind_Ret _ _ _ _ _ R5). cbn [mach drv out with_mach with_drv Cpu.with_cpu sys regs g_kernel_rsp_save] in S5.
  edestruct (on_processor_shows (put 8 (ctx + off_kernel_stack_ptr) (u64 (kernel_stack t + kernel_stack_size t)))) as (s6 & R6 & S6); [exact S5|reflexivity|]. rewrite (bind_Ret _ _ _ _ _ R6). cbn [mach drv out with_mach with_drv Cpu.with_cpu sys regs g_kernel_rsp_save] in S6.
  edestruct (on_system_shows (WriteMSR kMSR_GS_BASE 0)) as (s7 & R7 & S7); [exact S6|reflexivity|]. rewrite (bind_Ret _ _ _ _ _ R7). cbn [mach drv out with_mach with_drv Cpu.with_cpu sys regs g_kernel_rsp_save] in S7.
  edestruct (on_system_shows (WriteMSR kMSR_KERNEL_GS_BASE ctx)) as (s8 & R8 & S8); [exact S7|reflexivity|]. rewrite (bind_Ret _ _ _ _ _ R8). cbn [mach drv out with_mach with_drv Cpu.with_cpu sys regs g_kernel_rsp_save] in S8.
  assert (S : shows s8 (mach (launch_host c t m o)) (drv (launch_host c t m o)) o P ts true) by (unfold launch_host; cbn [mach drv]; exact S8).
  destruct (on_processor_shows (EnterUserMode (entry_point t) sp (argc t) sp) s8 _ _ _ _ _ _ h S Ru) as (s9 & R9 & S9).
  exists s9. split; [exact R9|exact S9].
Qed.

(** the state of the task when its arguments are pushed *)
Definition launch_state s (t : Task) : St :=
  switched (with_tasks s (tprintf "[AppTask] Starting '%s' (ID=%lu) in Ring 3\n" [KStr (name t); KInt (task_id t)] (tasks s)))
    (ctx_cr3 (context t)).

Lemma switch_run P s : P <> 0 -> on_paging (fun p => (tt, SwitchPageTable P p)) s = Ret tt (switched s P).
Proof. intros HP. unfold on_paging, SwitchPageTable. by rewrite (proj2 (Z.eqb_neq _ 0) HP). Qed.

Lemma AppTaskEntry_begin s t strs bot phi : launchable s t strs bot phi ->
  AppTaskEntry tss ctx s
  = (args <-- arguments (argv t) (argc t) ;; sp <-- push_arguments args (user_stack_top t) ;; launch_end t sp) (launch_state s t).
Proof.
  intros La. unfold AppTaskEntry, bind at 1 2, ask_state. unfold GetCurrentTask.
  rewrite (la_task _ _ _ _ _ La), (la_app _ _ _ _ _ La). cbn [negb]. unfold launch_state.
  rewrite (bind_Ret (kprintf _ _) _ s tt (with_tasks s (tprintf "[AppTask] Starting '%s' (ID=%lu) in Ring 3\n"
    [KStr (name t); KInt (task_id t)] (tasks s)))) by reflexivity.
  rewrite (bind_Ret _ _ _ _ _ (switch_run _ _ (la_cr3 _ _ _ _ _ La))). unfold launch_end. cbv zeta. reflexivity.
Qed.

Lemma launch_state_mapped s t strs bot phi :
  launchable s t strs bot phi -> mapped (launch_state s t) bot (user_stack_top t) phi.
Proof.
  intros La. pose proof (la_range _ _ _ _ _ La) as (Hbot & Htop & _). split; [done| |apply (la_inj _ _ _ _ _ La)].
  intros a Ha. unfold physical. destruct (la_pages _ _ _ _ _ La a Ha) as (w & u & E).
  change (tables (paging (launch_state s t))) with (tables (paging s)).
  change (cr3 (paging (launch_state s t))) with (ctx_cr3 (context t)). by rewrite E.
Qed.

(** the arguments are written outside of the kernel's memory *)
Lemma launch_kernel s t strs bot phi sp m2 p :
  launchable s t strs bot phi -> bot <= sp -> wrote (launch_state s t) (with_mach (launch_state s t) m2) sp (user_stack_top t) bot (user_stack_top t) phi ->
  kernel_area (kernel_sp s) p -> peek m2 p = peek (mach s) p.
Proof.
  intros La Hsp [_ _ O] Hp. apply (O p). intros b Hb ->. apply (la_apart _ _ _ _ _ La b); [lia|done].
Qed.

(** EnterUserMode runs: the descriptors it needs are where SetupSegments put them *)
Lemma launch_enters s t strs bot phi sp m2 :
  launchable s t strs bot phi -> 0 <= sp < 2 ^ 64 ->
  (forall p, kernel_area (kernel_sp s) p -> peek m2 p = peek (mach s) p) ->
  let h := launch_host (core (drv s)) t m2 (out s) in
  exists h', EnterUserMode (entry_point t) sp (argc t) sp h = Ret tt h' /\ in_user (entry_point t) sp (argc t) sp h h'.
Proof.
  intros La Hsp Hk h. pose proof (la_regs _ _ _ _ _ La) as [Hb Hr]. pose proof (la_areas _ _ _ _ _ La) as Hd.
  apply EnterUserMode_run; [exact Hb|exact Hr|exact (la_entry _ _ _ _ _ La)|exact Hsp|].
  change (rsp h) with (kernel_sp s). intros w Hw. pose proof (la_segments _ _ _ _ _ La) as Hok.
  assert (Hok' : segments_ok gdt tss (set_msr kMSR_GS_BASE 0 (sys (drv h))) w).
  { unfold disjoint_areas, sizeof_TSS64, sizeof_SyscallContext in Hd.
    assert (Hmem : forall p, (gdt <= p < gdt + 64 \/ tss + off_iomap_base <= p < tss + off_iomap_base + 2) -> peek w p = peek (mach s) p).
    { unfold off_iomap_base. intros p Hp. rewrite Hw by lia. unfold h, launch_host. cbn [mach].
      unfold off_rsp0, off_kernel_stack_ptr. rewrite !peek_store_other by lia. apply Hk.
      unfold kernel_area, sizeof_TSS64, sizeof_SyscallContext. lia. }
    eapply segments_ok_ext; [exact Hok|..]; try reflexivity.
    - intros a Ha. apply Hmem. lia.
    - apply load_ext. intros a Ha. apply Hmem. lia. }
  unfold user_segments_ok. by rewrite (sg_user_code _ _ _ _ Hok'), (sg_user_data _ _ _ _ Hok').
Qed.

(** C6: A task that CreateProcess made begins its program at the entry point, in user mode,
    with argc in RDI and in RSI, read through the page tables of the task, an aligned
    array of argc pointers to exactly the strings of the kernel's copy and a null
    pointer behind; the stack for interrupts and that for system calls are the task's
    own. *)
Theorem AppTaskEntry_starts s t strs bot phi :
  launchable s t strs bot phi ->
  let kst := u64 (kernel_stack t + kernel_stack_size t) in
  exists sp s', AppTaskEntry tss ctx s = Ret tt s'
  /\ map (regs (core (drv s'))) [RIP; RSP; RDI; RSI; CS; SS] = [entry_point t; sp; argc t; sp; kUserCS; kUserDS]
  /\ cr3 (paging s') = ctx_cr3 (context t) /\ tables (paging s') = tables (paging s)
  /\ argument_block (view s' phi) sp (user_stack_top t) strs
  /\ load 8 (tss + off_rsp0) (mach s') = kst /\ load 8 (ctx + off_kernel_stack_ptr) (mach s') = kst
  /\ msr_of kMSR_GS_BASE (sys (core (drv s'))) = 0 /\ msr_of kMSR_KERNEL_GS_BASE (sys (core (drv s'))) = u64 ctx
  /\ g_app_running (drv s') = true.
Proof.
  intros La kst. pose proof (la_range _ _ _ _ _ La) as (Hbot & Htop & Hroom).
  set (s1 := launch_state s t). pose proof (launch_state_mapped _ _ _ _ _ La) as Hm. fold s1 in Hm.
  destruct (launchable_arguments s t strs bot phi s1 La eq_refl eq_refl) as (args & Rargs & Hp & Hn).
  destruct (push_arguments_run bot (user_stack_top t) phi args strs s1 Hm Hp Hroom Hn) as (sp & s2 & R2 & W2 & Hsp & B2).
  pose proof (wr_state _ _ _ _ _ _ _ W2) as E2. set (m2 := mach s2) in *. rewrite E2 in R2, W2.
  pose proof (launch_kernel s t strs bot phi sp m2) as Hk.
  specialize (fun p => Hk p La ltac:(lia) W2). pose proof (la_areas _ _ _ _ _ La) as Hd.
  destruct (launch_enters s t strs bot phi sp m2 La ltac:(lia) Hk) as (h & Rh & U).
  assert (S1 : shows (with_mach s1 m2) m2 (core (drv s)) (out s) (ctx_cr3 (context t)) (tables (paging s)) (g_app_running (drv s)))
    by (split; reflexivity).
  destruct (launch_end_run t sp _ _ _ _ _ _ _ h S1 Rh) as (s' & R' & [Em Ec _ Ep Et Eb]).
  exists sp, s'. split.
  { rewrite (AppTaskEntry_begin s t strs bot phi La). fold s1. by rewrite (bind_Ret _ _ _ _ _ Rargs), (bind_Ret _ _ _ _ _ R2). }
  assert (Hr := iu_other _ _ _ _ _ _ U). change (rsp (launch_host (core (drv s)) t m2 (out s))) with (kernel_sp s) in Hr.
  cbn [mach launch_host] in Hr. fold kst in Hr. rewrite Ec, Ep, Et, Eb, Em.
  unfold disjoint_areas, sizeof_TSS64, sizeof_SyscallContext in Hd.
  assert (Hst : 0 <= kst < 2 ^ 64) by apply u64_range.
  split; [|split; [done|split; [done|split; [|split; [|split; [|split; [|split; [|done]]]]]]]].
  - cbn [map]. rewrite (iu_rip _ _ _ _ _ _ U), (iu_rdi _ _ _ _ _ _ U), (iu_rsi _ _ _ _ _ _ U), (iu_cs _ _ _ _ _ _ U), (iu_ss _ _ _ _ _ _ U).
    pose proof (iu_rsp _ _ _ _ _ _ U) as Hs. unfold rsp in Hs. by rewrite Hs.
  - eapply argument_block_ext; [|exact B2]. intros b Hb. unfold view. rewrite Em.
    assert (Ha : ~ kernel_area (kernel_sp s) (phi b)) by (apply (la_apart _ _ _ _ _ La); lia).
    unfold kernel_area, sizeof_TSS64, sizeof_SyscallContext in Ha. rewrite Hr by lia.
    unfold off_rsp0, off_kernel_stack_ptr. by rewrite !peek_store_other by lia.
  - unfold off_rsp0, off_kernel_stack_ptr in *. erewrite load_ext; [|intros i Hi; apply Hr; lia].
    rewrite load_store_other by lia. by apply load_store_same.
  - unfold off_rsp0, off_kernel_stack_ptr in *. erewrite load_ext; [|intros i Hi; apply Hr; lia]. by apply load_store_same.
  - rewrite (iu_sys _ _ _ _ _ _ U), msr_of_set. reflexivity.
  - rewrite (iu_sys _ _ _ _ _ _ U). unfold launch_host. cbn [drv sys]. by rewrite !msr_of_set.
Qed.
End Start.

(** ** A task with two arguments and one page of stack *)

Module StartSim.
Definition stack_phi (a : Z) : Z := 0x9000 + a mod 4096.

Definition one_entry (i e : Z) : list Z := <[Z.to_nat i := e]> (replicate 512 0).
(** the page below 0x70000000 is the frame 0x9000 *)
Definition page_tables : gmap Z (list Z) :=
  <[0x1000 := one_entry (index 4 0x6FFFF000) 0x2007]> (<[0x2000 := one_entry (index 3 0x6FFFF000) 0x3007]>
    (<[0x3000 := one_entry (index 2 0x6FFFF000) 0x4007]> (<[0x4000 := one_entry (index 1 0x6FFFF000) 0x9007]> ∅))).

Definition args : list (list Z) := [c_lit "ls"; c_lit "-l"].

Definition task : Task :=
  mkTask 3 RUNNING (initial_context 0x23000 0x100000 0x1000) 0x20000 kKernelStackSize 0 0 (c_lit "ls")
    0x400000 2 0x500 true kUserStackBase kUserStackSize kUserStackTop [] 0.

Definition tasks_of (mm : MemoryManager.t) : TM MemoryManager.t :=
  mkTM (<[0x700 := task]> ∅) 0x700 0 0 4 1 ∅ (<[0x500 := [0x600; 0x608; 0]]> ∅)
    (<[0x600 := c_lit "ls"]> (<[0x608 := c_lit "-l"]> ∅)) (mkPM 0x1000 0 page_tables mm [] []).

Definition state (mm : MemoryManager.t) (w : Ram.t) (c : Cpu) : Host Ram.t unit (App MemoryManager.t) :=
  mkHost w tt (mkApp (mkSched (tasks_of mm) true 0 zero_context zero_context false)
    (mkCore (fun r => match r with RSP => 0x34000 | _ => 2 end) c 0) false 0) [].

Lemma translate_stack a : 0x6FFFF000 <= a < kUserStackTop -> translate page_tables 0x1000 a = Some (stack_phi a, true, true).
Proof.
  intros Ha. unfold kUserStackTop in Ha. unfold translate. rewrite (indices_same a 0x6FFFF000) by zlia.
  assert (E : walk page_tables 0x1000 (indices 0x6FFFF000) = Some (0x9000, true, true)) by (vm_compute; reflexivity).
  by rewrite E.
Qed.

Lemma launchable_state mm w c : segments_ok 0x20000 0x21000 c w ->
  launchable 0x20000 0x21000 0x22000 (state mm w c) task args 0x6FFFF000 stack_phi.
Proof.
  intros Hok. split.
  - reflexivity.
  - reflexivity.
  - discriminate.
  - split; [reflexivity|discriminate].
  - intros _. exists [0x600; 0x608; 0]. split; [vm_compute; reflexivity|]. split; [vm_compute; discriminate|].
    constructor; [|constructor; [|constructor]]; (split; [vm_compute; reflexivity|apply (bool_decide_unpack _); vm_compute; exact I]).
  - split; [discriminate|]. split; vm_compute; discriminate.
  - intros a Ha. exists true, true. by apply translate_stack.
  - intros a b. unfold stack_phi. cbn [user_stack_top task]. unfold kUserStackTop. intros Ha Hb. zlia.
  - intros a Ha. unfold kernel_area, stack_phi, sizeof_TSS64, sizeof_SyscallContext. change (kernel_sp (state mm w c)) with 0x34000.
    pose proof (Z.mod_pos_bound a 4096). lia.
  - cbn [entry_point task]. lia.
  - exact Hok.
  - split; [|change (88 <= 0x34000); lia]. intros q.
    change (0 <= match q with RSP => 0x34000 | _ => 2 end < 2 ^ 64). destruct q; lia.
  - unfold disjoint_areas, sizeof_TSS64, sizeof_SyscallContext. change (kernel_sp (state mm w c)) with 0x34000. lia.
Qed.
End StartSim.

Lemma AppTaskEntry_starts_witness : exists w c sp s',
  AppTaskEntry 0x21000 0x22000 (StartSim.state sample_pool w c) = Ret tt s'
  /\ regs (core (drv s')) RDI = 2 /\ regs (core (drv s')) RSI = sp
  /\ argument_block (view s' StartSim.stack_phi) sp 0x70000000 [c_lit "ls"; c_lit "-l"].
Proof.
  assert (Hok : segments_ok 0x20000 0x21000 (segments_cpu 0x20000 0x21000 CpuSim.cpu0) (segments_done 0x20000 0x21000 (∅ : Ram.t)))
    by (apply (segments_done_ok 0x20000 0x21000); [lia|left; unfold sizeof_TSS64; lia]).
  destruct (AppTaskEntry_starts 0x20000 0x21000 0x22000 _ _ _ _ _ (StartSim.launchable_state sample_pool _ _ Hok))
    as (sp & s' & R & Hr & _ & _ & B & _).
  eexists _, _, sp, s'. split; [exact R|]. cbn [map] in Hr. injection Hr as _ _ Hr1 Hr2 _ _.
  split; [exact Hr1|]. split; [exact Hr2|exact B].
Defined.
