(* ===== verification/Nvme.v ===== *)
(** * The NVMe driver (driver/nvme)

    The controller, with the memory it reads and writes, is the type [C] of
    [Class NvmeController]: what the driver does to it are its operations, and
    polling a completion entry lets it run ([pause]).  The driver's own state is
    [Driver]; its loops take the number of polls allowed as [fuel]. *)
From S2P Require Import Prelude Run Memory CStr Device.

(** ** driver/nvme/nvme_queue.hpp *)

Record SubmissionQueueEntry := mkSQE {
  opcode : Z; flags : Z; command_id : Z; nsid : Z; reserved : Z; metadata_ptr : Z;
  prp1 : Z; prp2 : Z;                               (* data_ptr[2] *)
  cdw10 : Z; cdw11 : Z; cdw12 : Z; cdw13 : Z; cdw14 : Z; cdw15 : Z
}.

Definition zero_cmd : SubmissionQueueEntry := mkSQE 0 0 0 0 0 0 0 0 0 0 0 0 0 0.
#[export] Instance SQE_dflt : Dflt SubmissionQueueEntry := zero_cmd.

Definition set_prps (cmd : SubmissionQueueEntry) (p1 p2 : Z) : SubmissionQueueEntry :=
  mkSQE (opcode cmd) (flags cmd) (command_id cmd) (nsid cmd) (reserved cmd) (metadata_ptr cmd)
    p1 p2 (cdw10 cmd) (cdw11 cmd) (cdw12 cmd) (cdw13 cmd) (cdw14 cmd) (cdw15 cmd).

Definition sizeof_SQE : Z := 64.
Definition sizeof_CQE : Z := 16.

(** ** The controller and the memory it shares with the driver *)

Class NvmeController (C : Type) := {
  (** the registers CC and CSTS, and AQA, ASQ and ACQ *)
  get_cc : C -> Z;
  set_cc : Z -> C -> C;
  get_csts : C -> Z;
  set_aqa : Z -> C -> C;
  set_asq : Z -> C -> C;
  set_acq : Z -> C -> C;
  (** a byte and the status word of a completion entry, in memory *)
  ram : C -> Z -> Z;
  cq_status : C -> Z -> Z;
  (** zeros written by the driver *)
  clear : Z -> Z -> C -> C;
  (** doorbells of queue pair [q] (0: admin, 1: I/O): the tail of a submission
      queue, with its entries and the PRP lists in memory, and the head of a
      completion queue *)
  ring_sq : Z -> Z -> list SubmissionQueueEntry -> gmap Z Z -> C -> C;
  ring_cq : Z -> Z -> C -> C;
  (** time passes *)
  pause : C -> C
}.

Record Queue := mkQueue {
  sq_addr : Z;
  cq_addr : Z;
  sq : list SubmissionQueueEntry;
  sq_tail_ : Z;
  cq_head_ : Z;
  phase_ : Z
}.

Record Driver (C M : Type) := mkDriver {
  ctl : C;
  admin : Queue;
  io : Queue;
  lba_size_ : Z;
  pool : M;
  (** the 64-bit words of PRP lists, by address *)
  prp_words : gmap Z Z;
  nv_out : list kevent
}.
Arguments mkDriver {C M}.
Arguments ctl {C M}.
Arguments admin {C M}.
Arguments io {C M}.
Arguments lba_size_ {C M}.
Arguments pool {C M}.
Arguments prp_words {C M}.
Arguments nv_out {C M}.

#[local] Open Scope run_scope.

Definition queue_depth_ : Z := 32.
Definition namespace_id_ : Z := 1.

(** [i++; if (i >= queue_depth_) i = 0;] *)
Definition next_index (i : Z) : Z := if queue_depth_ <=? i + 1 then 0 else i + 1.

Section Driver.
Context {C M : Type} `{NvmeController C} `{FrameAllocator M}.
Local Abbreviation Dr := (Driver C M).
Implicit Types s : Dr.
Local Abbreviation NV := (fun A => Dr -> Run Dr A).

Definition with_ctl s c : Dr := mkDriver c (admin s) (io s) (lba_size_ s) (pool s) (prp_words s) (nv_out s).
Definition with_pool s m : Dr := mkDriver (ctl s) (admin s) (io s) (lba_size_ s) m (prp_words s) (nv_out s).
Definition with_words s w : Dr := mkDriver (ctl s) (admin s) (io s) (lba_size_ s) (pool s) w (nv_out s).
Definition with_lba_size s n : Dr := mkDriver (ctl s) (admin s) (io s) n (pool s) (prp_words s) (nv_out s).
Definition queue (q : Z) s : Queue := if q =? 0 then admin s else io s.
Definition with_queue (q : Z) s (x : Queue) : Dr :=
  if q =? 0 then mkDriver (ctl s) x (io s) (lba_size_ s) (pool s) (prp_words s) (nv_out s)
  else mkDriver (ctl s) (admin s) x (lba_size_ s) (pool s) (prp_words s) (nv_out s).

Definition act (f : C -> C) : NV unit := fun s => Ret tt (with_ctl s (f (ctl s))).
Definition nv_print (fmt : string) (args : list karg) : NV unit := fun s =>
  Ret tt (mkDriver (ctl s) (admin s) (io s) (lba_size_ s) (pool s) (prp_words s) (nv_out s ++ [KP (c_lit fmt) args])).
Definition put_queue (q : Z) (x : Queue) : NV unit := fun s => Ret tt (with_queue q s x).
Definition nv_alloc (size : Z) : NV Z := fun s =>
  let '(p, m) := Allocate size 4096 (pool s) in Ret p (with_pool s m).
Definition nv_free (p size : Z) : NV unit := fun s => Ret tt (with_pool s (Free p size (pool s))).

(** ** Sending a command and waiting for its completion *)

(** [(cqe.status & 1) == phase_] of the entry at the head *)
Definition completed (q : Z) s : bool :=
  let x := queue q s in
  Z.land (cq_status (ctl s) (cq_addr x + sizeof_CQE * cq_head_ x)) 1 =? phase_ x.

Fixpoint poll (fuel : nat) (q : Z) : NV unit := fun s =>
  if completed q s then Ret tt s
  else match fuel with
       | O => NoFuel
       | S f => poll f q (with_ctl s (pause (ctl s)))
       end.

(** the entry at the tail, then the tail *)
Definition submit (q : Z) (cmd : SubmissionQueueEntry) : NV unit := fun s =>
  let x := queue q s in
  let sq' := upd (sq x) (sq_tail_ x) cmd in
  let tail := next_index (sq_tail_ x) in
  Ret tt (with_ctl
    (with_queue q s (mkQueue (sq_addr x) (cq_addr x) sq' tail (cq_head_ x) (phase_ x)))
    (ring_sq q tail sq' (prp_words s) (ctl s))).

(** the head, and the phase when it wraps *)
Definition consume (q : Z) : NV unit := fun s =>
  let x := queue q s in
  let head := next_index (cq_head_ x) in
  let phase := if queue_depth_ <=? cq_head_ x + 1 then 1 - phase_ x else phase_ x in
  Ret tt (with_ctl
    (with_queue q s (mkQueue (sq_addr x) (cq_addr x) (sq x) (sq_tail_ x) head phase))
    (ring_cq q head (ctl s))).

(** the status of the entry consumed last *)
Definition done_status (q : Z) s : Z :=
  let x := queue q s in
  cq_status (ctl s) (cq_addr x
    + sizeof_CQE * (if cq_head_ x =? 0 then queue_depth_ - 1 else cq_head_ x - 1)).

Definition SendCommand (fuel : nat) (q : Z) (failed : string) (cmd : SubmissionQueueEntry) : NV unit :=
  submit q cmd ;;;
  poll fuel q ;;;
  consume q ;;;
  status <-- get (done_status q) ;;
  if negb (Z.shiftr status 1 =? 0) then nv_print failed [KInt status] else ret tt.

Definition SendAdminCommand (fuel : nat) : SubmissionQueueEntry -> NV unit :=
  SendCommand fuel 0 "[NVMe] Admin Command Failed! Status=%x\n".
Definition SendIOCommand (fuel : nat) : SubmissionQueueEntry -> NV unit :=
  SendCommand fuel 1 "[NVMe] I/O Command Failed! Status=%x\n".

(** ** Transfers *)

(** [for (i = 0; i < num_pages; ++i) prp_list[i] = current_page, by page] *)
Definition fill_prp_list (prp_list page : Z) (n : nat) (w : gmap Z Z) : gmap Z Z :=
  for_loop n 0 (fun i w => <[prp_list + 8 * i := u64 (page + 4096 * i)]> w) w.

Definition SetupPRPs (cmd : SubmissionQueueEntry) (addr size : Z) : NV (SubmissionQueueEntry * Z)%type :=
  let page_size := 4096 in
  let offset := Z.land addr (page_size - 1) in
  let page_capacity := page_size - offset in
  if size <=? page_capacity then ret (set_prps cmd addr 0, 0)
  else
    let remaining := size - page_capacity in
    let next_page_addr := u64 (Z.ldiff addr (page_size - 1) + page_size) in
    if remaining <=? page_size then ret (set_prps cmd addr next_page_addr, 0)
    else
      let num_pages := u32 (remaining + page_size - 1) / page_size in
      prp_list <-- nv_alloc page_size ;;
      w <-- get prp_words ;;
      (fun s => Ret tt (with_words s (fill_prp_list prp_list next_page_addr (Z.to_nat num_pages) w))) ;;;
      ret (set_prps cmd addr prp_list, prp_list).

(** ReadLBA and WriteLBA: they differ in the opcode and the warning *)
Definition transfer (fuel : nat) (op : Z) (warning : string) (lba buffer count : Z) : NV unit :=
  if count =? 0 then nv_print warning []
  else
    lba_size <-- get lba_size_ ;;
    let cmd := mkSQE op 0 0 namespace_id_ 0 0 0 0
      (Z.land lba 0xFFFFFFFF) (Z.land (Z.shiftr lba 32) 0xFFFFFFFF) (Z.land (count - 1) 0xFFFF) 0 0 0 in
    let size := u32 (count * lba_size) in
    r <-- SetupPRPs cmd buffer size ;;
    SendIOCommand fuel (fst r) ;;;
    if negb (snd r =? 0) then nv_free (snd r) 4096 else ret tt.

Definition ReadLBA (fuel : nat) : Z -> Z -> Z -> NV unit :=
  transfer fuel 2 "[NVMe] Warning: Read called with count 0. Ignored.\n".
Definition WriteLBA (fuel : nat) : Z -> Z -> Z -> NV unit :=
  transfer fuel 1 "[NVMe] Warning: Write called with count 0. Ignored.\n".

(** the methods of BlockDevice; the count becomes 16 bits wide *)
Definition Read (fuel : nat) (lba buffer count : Z) : NV bool :=
  ReadLBA fuel lba buffer (u16 count) ;;; ret true.
Definition Write (fuel : nat) (lba buffer count : Z) : NV bool :=
  WriteLBA fuel lba buffer (u16 count) ;;; ret true.

(** ** Bringing the controller up *)

Fixpoint wait_reset (fuel : nat) : NV unit := fun s =>
  if Z.land (get_csts (ctl s)) 1 =? 0 then Ret tt s
  else match fuel with
       | O => NoFuel
       | S f => wait_reset f (with_ctl s (pause (ctl s)))
       end.

Definition DisableController (fuel : nat) : NV unit :=
  cc <-- get (fun s => get_cc (ctl s)) ;;
  (if negb (Z.land cc 1 =? 0) then act (set_cc (Z.ldiff cc 1)) else ret tt) ;;;
  nv_print "[NVMe] Waiting for reset..." [] ;;;
  wait_reset fuel ;;;
  nv_print " Done.\n" [].

(** the loop of EnableController; [timeout] counts down *)
Fixpoint wait_ready (timeout : nat) : NV unit := fun s =>
  let csts := get_csts (ctl s) in
  if negb (Z.land csts 1 =? 0) then Ret tt s
  else if negb (Z.land csts 2 =? 0) then
    (nv_print "\n[NVMe] FATAL ERROR: Controller reported fatal status (CSTS=%x)\n" [KInt csts] ;;; halt) s
  else match timeout with
       | O | S O =>
           (act pause ;;; nv_print "\n[NVMe] TIMEOUT: Controller did not become ready.\n" [] ;;; halt) s
       | S t => wait_ready t (with_ctl s (pause (ctl s)))
       end.

Definition EnableController : NV unit :=
  cc <-- get (fun s => get_cc (ctl s)) ;;
  let cc := Z.lor cc 1 in
  let cc := Z.lor cc (Z.shiftl 4 20) in
  let cc := Z.lor cc (Z.shiftl 6 16) in
  act (set_cc cc) ;;;
  nv_print "[NVMe] Waiting for ready..." [] ;;;
  wait_ready (Z.to_nat 1000000) ;;;
  nv_print " Done.\n" [].

(** the constructor *)
Definition new_Driver (c : C) (m : M) : Dr :=
  let q := mkQueue 0 0 [] 0 0 1 in mkDriver c q q 512 m ∅ [].

(** fresh memory for queue [q], the entries cleared *)
Definition set_memory (q sq_a cq_a : Z) : NV unit :=
  x <-- get (queue q) ;;
  put_queue q (mkQueue sq_a cq_a (replicate 32 zero_cmd) (sq_tail_ x) (cq_head_ x) (phase_ x)) ;;;
  act (clear cq_a (sizeof_CQE * queue_depth_)).

Definition Initialize (fuel : nat) : NV unit :=
  nv_print "[NVMe] Initializing...\n" [] ;;;
  DisableController fuel ;;;
  admin_sq <-- nv_alloc (sizeof_SQE * queue_depth_) ;;
  admin_cq <-- nv_alloc (sizeof_CQE * queue_depth_) ;;
  if (admin_sq =? 0) || (admin_cq =? 0) then
    nv_print "[NVMe] Memory Allocation Failed!\n" [] ;;; halt
  else
    set_memory 0 admin_sq admin_cq ;;;
    act (set_asq admin_sq) ;;;
    act (set_acq admin_cq) ;;;
    act (set_aqa (Z.lor (Z.shiftl (queue_depth_ - 1) 16) (queue_depth_ - 1))) ;;;
    EnableController ;;;
    nv_print "[NVMe] Initialization Complete. Controller is Ready.\n" [].

(** [char model[41]] and the like: [n] bytes and a terminator, as printed *)
Definition ram_string (c : C) (addr : Z) (n : nat) : list Z :=
  cstr_of ((fun i => ram c (addr + Z.of_nat i)) <$> seq 0 n).
Definition ram_le (c : C) (addr : Z) (n : nat) : Z :=
  le_val ((fun i => ram c (addr + Z.of_nat i)) <$> seq 0 n).

(** the reference [cmd] to the entry the first command was put in is used again
    for the second *)
Definition IdentifyController (fuel : nat) : NV unit :=
  nv_print "[NVMe] Sending Identify Command...\n" [] ;;;
  identify_data <-- nv_alloc 4096 ;;
  tail <-- get (fun s => sq_tail_ (queue 0 s)) ;;
  submit 0 (mkSQE 6 0 1 0 0 0 identify_data 0 1 0 0 0 0 0) ;;;
  nv_print "[NVMe] Polling for completion..." [] ;;;
  poll fuel 0 ;;;
  nv_print " Done.\n" [] ;;;
  consume 0 ;;;
  model <-- get (fun s => ram_string (ctl s) (identify_data + 24) 40) ;;
  serial <-- get (fun s => ram_string (ctl s) (identify_data + 4) 20) ;;
  nv_print "[NVMe] Model : %s\n" [KStr model] ;;;
  nv_print "[NVMe] Serial: %s\n" [KStr serial] ;;;
  nv_free identify_data 4096 ;;;
  ns_data <-- nv_alloc 4096 ;;
  let cmd := mkSQE 6 0 0 namespace_id_ 0 0 ns_data 0 0 0 0 0 0 0 in
  x <-- get (queue 0) ;;
  put_queue 0 (mkQueue (sq_addr x) (cq_addr x) (upd (sq x) tail cmd) (sq_tail_ x) (cq_head_ x) (phase_ x)) ;;;
  SendAdminCommand fuel cmd ;;;
  flbas <-- get (fun s => ram (ctl s) (ns_data + 26)) ;;
  let lbaf_idx := Z.land flbas 15 in
  ds <-- get (fun s => ram (ctl s) (ns_data + 128 + 4 * lbaf_idx + 2)) ;;
  let lba_size := u32 (Z.shiftl 1 ds) in
  (fun s => Ret tt (with_lba_size s lba_size)) ;;;
  nsze <-- get (fun s => ram_le (ctl s) ns_data 8) ;;
  nv_print "[NVMe] LBA Size: %d bytes (Total Blocks: %lld)\n" [KInt lba_size; KInt nsze] ;;;
  nv_free ns_data 4096.

Definition CreateIOQueues (fuel : nat) : NV unit :=
  nv_print "[NVMe] Creating I/O Queues...\n" [] ;;;
  io_sq <-- nv_alloc (sizeof_SQE * queue_depth_) ;;
  io_cq <-- nv_alloc (sizeof_CQE * queue_depth_) ;;
  set_memory 1 io_sq io_cq ;;;
  let size_id := Z.lor (Z.shiftl (queue_depth_ - 1) 16) 1 in
  SendAdminCommand fuel (mkSQE 5 0 0 0 0 0 io_cq 0 size_id 1 0 0 0 0) ;;;
  SendAdminCommand fuel (mkSQE 1 0 0 0 0 0 io_sq 0 size_id (Z.lor (Z.shiftl 1 16) 1) 0 0 0 0) ;;;
  nv_print "[NVMe] I/O Queues Created (ID=1).\n" [].
End Driver.
Arguments nv_print {C M} _%_string _ _.

(** ** The bytes a transfer is about *)

(** the address of byte [i] of a transfer of [size] bytes, as the NVMe specification
    (4.1.1) has a controller find it from the two pointers of a command *)
Definition prp_address (cmd : SubmissionQueueEntry) (words : gmap Z Z) (size i : Z) : Z :=
  let first := 4096 - prp1 cmd mod 4096 in
  if i <? first then prp1 cmd + i
  else if size <=? first + 4096 then prp2 cmd + (i - first)
  else default 0 (words !! (prp2 cmd + 8 * ((i - first) / 4096))) + (i - first) mod 4096.

Definition same_command (cmd cmd' : SubmissionQueueEntry) : Prop :=
  set_prps cmd' 0 0 = set_prps cmd 0 0.

Section Transfers.
Context {C M : Type} `{NvmeController C} `{FrameAllocatorLaws M}.
Local Abbreviation Dr := (Driver C M).
Implicit Types s : Dr.

Lemma fill_prp_list_spec prp_list page n w k :
  0 <= k ->
  fill_prp_list prp_list page n w !! (prp_list + 8 * k)
  = if k <? Z.of_nat n then Some (u64 (page + 4096 * k)) else w !! (prp_list + 8 * k).
Proof.
  intros Hk. unfold fill_prp_list.
  apply (for_loop_inv (fun j w' => w' !! (prp_list + 8 * k)
    = if k <? j then Some (u64 (page + 4096 * k)) else w !! (prp_list + 8 * k)) n 0).
  - by rewrite (proj2 (Z.ltb_ge k 0)) by lia.
  - intros j w' Hj Hw'. destruct (decide (j = k)) as [->|Hne].
    + rewrite lookup_insert_eq. by rewrite (proj2 (Z.ltb_lt k (k + 1))) by lia.
    + rewrite lookup_insert_ne by lia. rewrite Hw'. zcases; done || lia.
Qed.

(** words outside the list stay *)
Lemma fill_prp_list_other prp_list page n w a :
  a < prp_list \/ prp_list + 8 * Z.of_nat n <= a -> fill_prp_list prp_list page n w !! a = w !! a.
Proof.
  intros Ha. unfold fill_prp_list.
  apply (for_loop_inv (fun j w' => w' !! a = w !! a) n 0); [done|].
  intros j w' Hj Hw'. by rewrite lookup_insert_ne by lia.
Qed.

Lemma land_page addr : Z.land addr 4095 = addr mod 4096.
Proof. change 4095 with (Z.ones 12). by rewrite Z.land_ones by lia. Qed.

Lemma ldiff_page addr : 0 <= addr -> Z.ldiff addr 4095 = addr - addr mod 4096.
Proof.
  intros Ha. change 4095 with (Z.ones 12). rewrite Z.ldiff_ones_r by lia.
  rewrite Z.shiftl_mul_pow2, Z.shiftr_div_pow2 by lia. change (2 ^ 12) with 4096. zlia.
Qed.

(** [s'] is [s] but for the pool and the words from [p] on *)
Record listed s s' (p : Z) : Prop := {
  ls_ctl : ctl s' = ctl s;
  ls_admin : admin s' = admin s;
  ls_io : io s' = io s;
  ls_lba : lba_size_ s' = lba_size_ s;
  ls_out : nv_out s' = nv_out s;
  ls_inv : alloc_inv (pool s');
  ls_pool : if p =? 0 then pool s' = pool s else Free p 4096 (pool s') = pool s;
  ls_words : forall a, a < p \/ p + 4096 <= a -> prp_words s' !! a = prp_words s !! a
}.

Lemma SetupPRPs_spec cmd addr size s :
  alloc_inv (pool s) -> room [4096] (pool s) ->
  0 <= addr -> addr + size < 2 ^ 64 -> 0 < size -> size <= 4096 - addr mod 4096 + 512 * 4096 ->
  exists cmd' p s', SetupPRPs cmd addr size s = Ret (cmd', p) s'
    /\ same_command cmd cmd' /\ listed s s' p
    /\ forall i, 0 <= i < size -> prp_address cmd' (prp_words s') size i = addr + i.
Proof.
  intros Hi [Hroom _] Ha Hend Hs0 Hsize. unfold SetupPRPs. cbv zeta.
  change (4096 - 1) with 4095. rewrite land_page, ldiff_page by done.
  pose proof (Z.mod_pos_bound addr 4096 ltac:(lia)) as Hoff. set (off := addr mod 4096) in *.
  destruct (Z.leb_spec size (4096 - off)) as [H1p|H1p].
  { exists (set_prps cmd addr 0), 0, s. split; [done|]. split; [done|]. split; [by split|].
    intros i Hir. unfold prp_address. cbn [prp1 prp2 set_prps]. fold off.
    by rewrite (proj2 (Z.ltb_lt i (4096 - off))) by lia. }
  rewrite u64_small by lia.
  destruct (Z.leb_spec (size - (4096 - off)) 4096) as [H2p|H2p].
  { exists (set_prps cmd addr (addr - off + 4096)), 0, s. split; [done|]. split; [done|]. split; [by split|].
    intros i Hir. unfold prp_address. cbn [prp1 prp2 set_prps]. fold off.
    rewrite (proj2 (Z.leb_le size (4096 - off + 4096))) by lia. zcases; lia. }
  unfold bind, nv_alloc. destruct (Allocate 4096 4096 (pool s)) as [p m] eqn:HA. cbn [fst] in Hroom.
  rewrite u32_small by lia. set (n := (size - (4096 - off) + 4096 - 1) / 4096).
  assert (Hn : 0 <= n <= 512 /\ size - (4096 - off) <= 4096 * n) by (unfold n; zlia).
  eexists (set_prps cmd addr p), p, _. split; [reflexivity|]. split; [done|]. split.
  { split; cbn [ctl admin io lba_size_ nv_out pool prp_words with_pool with_words get]; try done.
    - eapply Allocate_inv; [exact Hi| |exact HA]. lia.
    - rewrite (proj2 (Z.eqb_neq p 0)) by done.
      eapply Allocate_Free; [exact Hi| |exact HA|done]. lia.
    - intros a Hout. rewrite fill_prp_list_other; [done|]. lia. }
  intros i Hir. unfold prp_address. cbn [prp1 prp2 set_prps prp_words with_words with_pool get].
  fold off. destruct (Z.ltb_spec i (4096 - off)); [done|].
  rewrite (proj2 (Z.leb_gt size (4096 - off + 4096))) by lia.
  set (j := i - (4096 - off)).
  assert (Hj : 0 <= j / 4096 < n) by (unfold j; zlia).
  rewrite fill_prp_list_spec by lia. rewrite (proj2 (Z.ltb_lt (j / 4096) _)) by lia.
  cbn [default]. unfold id. rewrite u64_small by (unfold j in *; zlia). unfold j in *. zlia.
Qed.

(** a transfer that needs more than 512 entries writes past the page of the list *)
Lemma SetupPRPs_overflow cmd addr size s :
  0 <= addr -> addr + size < 2 ^ 64 -> 4096 - addr mod 4096 + 512 * 4096 < size -> size < 2 ^ 31 ->
  exists cmd' p s', SetupPRPs cmd addr size s = Ret (cmd', p) s'
    /\ prp_words s' !! (p + 4096) = Some (addr - addr mod 4096 + 4096 + 512 * 4096).
Proof.
  intros Ha Hend Hsize Hmax. unfold SetupPRPs. cbv zeta. change (4096 - 1) with 4095.
  rewrite land_page, ldiff_page by done.
  pose proof (Z.mod_pos_bound addr 4096 ltac:(lia)) as Hoff. set (off := addr mod 4096) in *.
  rewrite (proj2 (Z.leb_gt size (4096 - off))) by lia. rewrite u64_small by lia.
  rewrite (proj2 (Z.leb_gt (size - (4096 - off)) 4096)) by lia.
  unfold bind, nv_alloc. destruct (Allocate 4096 4096 (pool s)) as [p m] eqn:HA.
  rewrite u32_small by lia. eexists _, p, _. split; [reflexivity|]. cbn [prp_words with_words].
  replace (p + 4096) with (p + 8 * 512) by lia. rewrite fill_prp_list_spec by lia.
  rewrite (proj2 (Z.ltb_lt 512 _)) by zlia. by rewrite u64_small by lia.
Qed.
End Transfers.

(** ** A controller that keeps to the specification

    [at_rest c q a t h ph]: on queue pair [q], whose completion entries are at
    address [a], everything submitted has been executed and consumed; the next
    command is taken from entry [t], the next completion goes to entry [h] with
    phase [ph].  [executed] is the history of a queue, each command with the words
    the controller could read when it took it. *)
Class NvmeControllerLaws (C : Type) `{NvmeController C} := {
  executed : C -> Z -> list (SubmissionQueueEntry * gmap Z Z);
  at_rest : C -> Z -> Z -> Z -> Z -> Z -> Prop;
  run_command c q a t h ph entries w :
    q = 0 \/ q = 1 -> at_rest c q a t h ph -> 0 <= t < 32 -> 0 <= h < 32 -> ph = 0 \/ ph = 1 ->
    zlen entries = 32 ->
    let c0 := ring_sq q (next_index t) entries w c in
    exists n : nat,
      let c1 := Nat.iter n pause c0 in
      let c2 := ring_cq q (next_index h) c1 in
      (forall k, (k < n)%nat -> Z.land (cq_status (Nat.iter k pause c0) (a + 16 * h)) 1 <> ph)
      /\ Z.land (cq_status c1 (a + 16 * h)) 1 = ph
      /\ executed c2 q = executed c q ++ [(rd entries t, w)]
      /\ at_rest c2 q a (next_index t) (next_index h) (if queue_depth_ <=? h + 1 then 1 - ph else ph)
      /\ executed c2 (1 - q) = executed c (1 - q)
      /\ forall a' t' h' ph', at_rest c (1 - q) a' t' h' ph' -> at_rest c2 (1 - q) a' t' h' ph'
}.

Section Protocol.
Context {C M : Type} `{NvmeControllerLaws C} `{FrameAllocatorLaws M}.
Local Abbreviation Dr := (Driver C M).
Implicit Types s : Dr.

(** the driver's indices and phase of queue [q] are those of the controller *)
Record ready (q : Z) s : Prop := {
  rdy_rest : at_rest (ctl s) q (cq_addr (queue q s)) (sq_tail_ (queue q s)) (cq_head_ (queue q s)) (phase_ (queue q s));
  rdy_sq : zlen (sq (queue q s)) = 32;
  rdy_tail : 0 <= sq_tail_ (queue q s) < 32;
  rdy_head : 0 <= cq_head_ (queue q s) < 32;
  rdy_phase : phase_ (queue q s) = 0 \/ phase_ (queue q s) = 1
}.

Lemma next_index_range i : 0 <= i < 32 -> 0 <= next_index i < 32.
Proof. unfold next_index, queue_depth_. zcases; lia. Qed.

Lemma ctl_with_queue q s x : ctl (with_queue q s x) = ctl s.
Proof. unfold with_queue. by destruct (q =? 0). Qed.

Lemma queue_with_queue q s x : queue q (with_queue q s x) = x.
Proof. unfold queue, with_queue. by destruct (q =? 0). Qed.

Lemma queue_other q s x : q = 0 \/ q = 1 -> queue (1 - q) (with_queue q s x) = queue (1 - q) s.
Proof. by intros [-> | ->]. Qed.

Lemma with_ctl_id s : with_ctl s (ctl s) = s.
Proof. by destruct s. Qed.

(** the polling loop ends as soon as the controller has completed *)
Lemma poll_ends q n : forall fuel s, (n <= fuel)%nat ->
  (forall k, (k < n)%nat -> completed q (with_ctl s (Nat.iter k pause (ctl s))) = false) ->
  completed q (with_ctl s (Nat.iter n pause (ctl s))) = true ->
  poll fuel q s = Ret tt (with_ctl s (Nat.iter n pause (ctl s))).
Proof.
  induction n as [|n IH]; intros fuel s Hf Hlt Hn.
  - change (Nat.iter 0 pause (ctl s)) with (ctl s) in *. rewrite with_ctl_id in *.
    destruct fuel; cbn [poll]; rewrite Hn; done.
  - destruct fuel as [|fuel]; [lia|]. cbn [poll].
    pose proof (Hlt 0%nat ltac:(lia)) as H0'. change (Nat.iter 0 pause (ctl s)) with (ctl s) in H0'.
    rewrite with_ctl_id in H0'. rewrite H0'.
    rewrite (IH fuel (with_ctl s (pause (ctl s)))); cbn [ctl with_ctl].
    + by rewrite Nat.iter_succ_r.
    + lia.
    + intros k Hk. specialize (Hlt (S k) ltac:(lia)). by rewrite Nat.iter_succ_r in Hlt.
    + by rewrite Nat.iter_succ_r in Hn.
Qed.

(** [s'] is [s] after [cmd] went through queue [q] *)
Record sent (q : Z) s s' (cmd : SubmissionQueueEntry) : Prop := {
  st_ready : ready q s';
  st_executed : executed (ctl s') q = executed (ctl s) q ++ [(cmd, prp_words s)];
  st_other : ready (1 - q) s -> ready (1 - q) s';
  st_other_executed : executed (ctl s') (1 - q) = executed (ctl s) (1 - q);
  st_lba : lba_size_ s' = lba_size_ s;
  st_pool : pool s' = pool s;
  st_words : prp_words s' = prp_words s
}.

Definition with_out s o : Dr := mkDriver (ctl s) (admin s) (io s) (lba_size_ s) (pool s) (prp_words s) o.

Lemma ready_print q s o : ready q s -> ready q (with_out s o).
Proof. intros [R1 R2 R3 R4 R5]. constructor; assumption. Qed.

Lemma sent_print q s s' cmd o : sent q s s' cmd -> sent q s (with_out s' o) cmd.
Proof.
  intros [R E1 E2 E3 E4 E5 E6].
  constructor; [by apply ready_print|exact E1|intros Hr; by apply ready_print, E2|assumption..].
Qed.

Lemma queue_set q s x c : queue q (with_ctl (with_queue q s x) c) = x.
Proof. unfold queue, with_queue. by destruct (q =? 0) eqn:E; cbn. Qed.

Lemma set_twice q s x c x' c' :
  with_ctl (with_queue q (with_ctl (with_queue q s x) c) x') c' = with_ctl (with_queue q s x') c'.
Proof. unfold with_queue. by destruct (q =? 0). Qed.

(** the three steps of a command, given what the controller does meanwhile *)
Lemma send_steps q s cmd n fuel :
  let x := queue q s in
  let entries := upd (sq x) (sq_tail_ x) cmd in
  let x1 := mkQueue (sq_addr x) (cq_addr x) entries (next_index (sq_tail_ x)) (cq_head_ x) (phase_ x) in
  let x2 := mkQueue (sq_addr x) (cq_addr x) entries (next_index (sq_tail_ x)) (next_index (cq_head_ x))
    (if queue_depth_ <=? cq_head_ x + 1 then 1 - phase_ x else phase_ x) in
  let c0 := ring_sq q (next_index (sq_tail_ x)) entries (prp_words s) (ctl s) in
  let c1 := Nat.iter n pause c0 in
  (forall k, (k < n)%nat ->
     Z.land (cq_status (Nat.iter k pause c0) (cq_addr x + 16 * cq_head_ x)) 1 <> phase_ x) ->
  Z.land (cq_status c1 (cq_addr x + 16 * cq_head_ x)) 1 = phase_ x -> (n <= fuel)%nat ->
  (submit q cmd ;;; poll fuel q ;;; consume q) s
  = Ret tt (with_ctl (with_queue q s x2) (ring_cq q (next_index (cq_head_ x)) c1)).
Proof.
  intros x entries x1 x2 c0 c1 Hlt Hn Hf. set (s1 := with_ctl (with_queue q s x1) c0).
  assert (Hq1 : forall c, queue q (with_ctl s1 c) = x1) by (intros c; apply (queue_set q s x1 c)).
  assert (Hpoll : poll fuel q s1 = Ret tt (with_ctl s1 c1)).
  { apply (poll_ends q n fuel s1 Hf); unfold completed.
    - intros k Hk. rewrite Hq1. apply Z.eqb_neq. exact (Hlt k Hk).
    - rewrite Hq1. apply Z.eqb_eq. exact Hn. }
  unfold bind. change (submit q cmd s) with (Ret tt s1 : Run Dr unit). cbv beta iota. rewrite Hpoll.
  unfold consume. rewrite Hq1. f_equal. apply (set_twice q s x1).
Qed.

Lemma SendCommand_spec q failed cmd s :
  q = 0 \/ q = 1 -> ready q s ->
  exists n s', (forall fuel, (n <= fuel)%nat -> SendCommand fuel q failed cmd s = Ret tt s')
    /\ sent q s s' cmd.
Proof.
  intros Hq [Hrest Hsq Ht Hh Hph].
  assert (Hlen : zlen (upd (sq (queue q s)) (sq_tail_ (queue q s)) cmd) = 32) by (by rewrite zlen_upd).
  destruct (run_command (ctl s) q _ _ _ _ _ (prp_words s) Hq Hrest Ht Hh Hph Hlen)
    as (n & Hlt & Hn & Hex & Hrest' & Hex' & Hother). cbv zeta in *.
  pose proof (fun fuel => send_steps q s cmd n fuel Hlt Hn) as Hsteps. cbv zeta in Hsteps.
  set (c2 := ring_cq q _ _) in *. set (x2 := mkQueue _ _ _ _ (next_index (cq_head_ _)) _) in Hsteps.
  set (s3 := with_ctl (with_queue q s x2) c2) in Hsteps.
  assert (Hs3 : sent q s s3 cmd).
  { assert (Hqs3 : queue q s3 = x2) by apply queue_set.
    split; try (unfold s3, with_queue; by destruct (q =? 0)).
    - split; rewrite Hqs3; cbn [cq_addr sq_tail_ cq_head_ phase_ sq x2];
        [exact Hrest'|exact Hlen|by apply next_index_range..|case_match; lia].
    - change (ctl s3) with c2. by rewrite Hex, rd_upd_eq by lia.
    - intros [R1 R2 R3 R4 R5].
      assert (Hqo : queue (1 - q) s3 = queue (1 - q) s) by (by destruct Hq as [-> | ->]).
      split; rewrite Hqo; [|done..]. change (ctl s3) with c2. by apply Hother. }
  set (s4 := if negb (Z.shiftr (done_status q s3) 1 =? 0)
             then with_out s3 (nv_out s3 ++ [KP (c_lit failed) [KInt (done_status q s3)]]) else s3).
  exists n, s4. split.
  - intros fuel Hf. specialize (Hsteps fuel Hf). unfold SendCommand, bind in *.
    destruct (submit q cmd s) as [[] s1| |]; [|done..].
    destruct (poll fuel q s1) as [[] s2| |]; [|done..]. rewrite Hsteps. unfold get, s4.
    by destruct (negb _).
  - unfold s4. destruct (negb _); [exact (sent_print _ _ _ _ _ Hs3)|done].
Qed.

(** ** Requests *)

(** a read or write of [rq_count] blocks from [rq_lba], to or from [rq_buffer] *)
Record request := mkRequest { rq_write : bool; rq_lba : Z; rq_buffer : Z; rq_count : Z }.

(** the transfer fits a PRP list of one page *)
Definition request_ok (lba_size : Z) (r : request) : Prop :=
  let size := rq_count r * lba_size in
  0 <= rq_lba r < 2 ^ 64 /\ 0 < rq_count r < 2 ^ 16 /\ 0 <= rq_buffer r /\ rq_buffer r + size < 2 ^ 64
  /\ 0 < size <= 4096 - rq_buffer r mod 4096 + 512 * 4096.

Definition serve (fuel : nat) (r : request) : Dr -> Run Dr bool :=
  (if rq_write r then Write else Read) fuel (rq_lba r) (rq_buffer r) (rq_count r).

Fixpoint serve_all (fuel : nat) (rs : list request) : Dr -> Run Dr unit :=
  match rs with
  | [] => ret tt
  | r :: rest => serve fuel r ;;; serve_all fuel rest
  end.

(** the command, with the words the controller sees, asks for [r] and nothing else *)
Definition performs (lba_size : Z) (r : request) (x : SubmissionQueueEntry * gmap Z Z) : Prop :=
  let '(cmd, words) := x in
  let size := rq_count r * lba_size in
  opcode cmd = (if rq_write r then 1 else 2) /\ nsid cmd = 1
  /\ cdw10 cmd + 2 ^ 32 * cdw11 cmd = rq_lba r /\ cdw12 cmd = rq_count r - 1
  /\ forall i, 0 <= i < size -> prp_address cmd words size i = rq_buffer r + i.

Lemma lba_words lba : 0 <= lba < 2 ^ 64 ->
  Z.land lba 0xFFFFFFFF + 2 ^ 32 * Z.land (Z.shiftr lba 32) 0xFFFFFFFF = lba.
Proof.
  intros Hl. change 0xFFFFFFFF with (Z.ones 32). rewrite !Z.land_ones, Z.shiftr_div_pow2 by lia.
  rewrite (Z.mod_small (lba / 2 ^ 32)); [pose proof (Z.div_mod lba (2 ^ 32)); lia|].
  split; [apply Z.div_pos; lia|apply Z.div_lt_upper_bound; lia].
Qed.

(** both queues at rest, and an allocator that can serve a PRP list *)
Definition in_service s : Prop := ready 1 s /\ alloc_inv (pool s) /\ room [4096] (pool s).

Lemma transfer_spec op warning s lba buffer count :
  in_service s -> op = 1 \/ op = 2 ->
  let r := mkRequest (op =? 1) lba buffer count in request_ok (lba_size_ s) r ->
  exists n s' x, (forall fuel, (n <= fuel)%nat -> transfer fuel op warning lba buffer count s = Ret tt s')
      /\ in_service s' /\ pool s' = pool s /\ lba_size_ s' = lba_size_ s
      /\ executed (ctl s') 1 = executed (ctl s) 1 ++ [x] /\ performs (lba_size_ s) r x
      /\ (ready 0 s -> ready 0 s') /\ executed (ctl s') 0 = executed (ctl s) 0.
Proof.
  intros (Hrdy & Hi & Hroom) Hop r (Hlba & Hcnt & Hb & Hend & Hsize). cbn in Hlba, Hcnt, Hb, Hend, Hsize.
  unfold transfer. rewrite (proj2 (Z.eqb_neq count 0)) by lia.
  set (cmd := mkSQE op _ _ _ _ _ _ _ _ _ _ _ _ _).
  pose proof (Z.mod_pos_bound buffer 4096 ltac:(lia)).
  destruct (SetupPRPs_spec cmd buffer (count * lba_size_ s) s Hi Hroom) as (cmd' & p & s1 & HP & Hsame & HL & Haddr);
    [lia..|].
  destruct HL as [L1 L2 L3 L4 L5 L6 L7 L8].
  assert (Hrdy1 : ready 1 s1).
  { destruct Hrdy as [R1 R2 R3 R4 R5]. unfold queue in *. cbn [Z.eqb] in *.
    split; unfold queue; cbn [Z.eqb]; rewrite ?L3, ?L1; done. }
  destruct (SendCommand_spec 1 "[NVMe] I/O Command Failed! Status=%x\n" cmd' s1 (or_intror eq_refl) Hrdy1)
    as (n & s2 & HS & Hsent).
  destruct Hsent as [E1 E2 E3 E4 E5 E6 E7]. change (1 - 1) with 0 in *.
  set (s3 := if negb (p =? 0) then with_pool s2 (Free p 4096 (pool s2)) else s2).
  exists n, s3, (cmd', prp_words s1).
  assert (Hpool : pool s3 = pool s).
  { unfold s3. destruct (Z.eqb_spec p 0); cbn [negb pool with_pool]; rewrite E6; done. }
  assert (Hr3 : forall q, ready q s2 -> ready q s3).
  { intros q [R1 R2 R3 R4 R5]. unfold s3. destruct (negb _); constructor; assumption. }
  assert (Hc3 : ctl s3 = ctl s2) by (unfold s3; by destruct (negb _)).
  split; [|split; [|split; [done|split; [|split; [|split; [|split]]]]]].
  - intros fuel Hf. unfold bind, get. rewrite u32_small by lia. rewrite HP.
    unfold SendIOCommand. cbn [fst snd]. rewrite HS by done.
    unfold s3. by destruct (negb (p =? 0)).
  - split; [by apply Hr3|]. by rewrite Hpool.
  - unfold s3. destruct (negb _); cbn [lba_size_ with_pool]; congruence.
  - by rewrite Hc3, E2, L1.
  - assert (Hf' : forall (g : SubmissionQueueEntry -> Z), g (set_prps cmd' 0 0) = g (set_prps cmd 0 0))
      by (intros g; by rewrite Hsame).
    unfold performs. cbn [rq_write rq_lba rq_count rq_buffer r]. split_and!.
    + rewrite (Hf' opcode : opcode cmd' = opcode cmd). by destruct Hop as [-> | ->].
    + by rewrite (Hf' nsid : nsid cmd' = nsid cmd).
    + rewrite (Hf' cdw10 : cdw10 cmd' = cdw10 cmd), (Hf' cdw11 : cdw11 cmd' = cdw11 cmd).
      by apply lba_words.
    + rewrite (Hf' cdw12 : cdw12 cmd' = cdw12 cmd). cbn [cdw12 cmd].
      change 0xFFFF with (Z.ones 16). rewrite Z.land_ones by lia. apply Z.mod_small. lia.
    + exact Haddr.
  - intros [R1 R2 R3 R4 R5]. apply Hr3, E3. unfold queue in *. cbn [Z.eqb] in *.
    split; unfold queue; cbn [Z.eqb]; rewrite ?L2, ?L1; done.
  - by rewrite Hc3, E4, L1.
Qed.

Lemma serve_spec r s :
  in_service s -> request_ok (lba_size_ s) r ->
  exists n s' x, (forall fuel, (n <= fuel)%nat -> serve fuel r s = Ret true s') /\ in_service s' /\ pool s' = pool s
      /\ lba_size_ s' = lba_size_ s /\ executed (ctl s') 1 = executed (ctl s) 1 ++ [x]
      /\ performs (lba_size_ s) r x /\ executed (ctl s') 0 = executed (ctl s) 0.
Proof.
  intros Hs Hr. destruct r as [wr lba buffer count]. pose proof Hr as (_ & Hc & _). cbn in Hc.
  set (warning := if wr then "[NVMe] Warning: Write called with count 0. Ignored.\n"%string
                  else "[NVMe] Warning: Read called with count 0. Ignored.\n"%string).
  destruct (transfer_spec (if wr then 1 else 2) warning s lba buffer count Hs) 
    as (n & s' & x & HT & H1' & H2' & H3' & H4' & H5' & _ & H6'); [destruct wr; auto|by destruct wr|].
  exists n, s', x. split; [|split_and!; try done; by destruct wr].
  intros fuel Hf. specialize (HT fuel Hf). unfold serve. cbn [rq_write rq_lba rq_buffer rq_count]. unfold warning in HT.
  destruct wr; unfold Write, Read, WriteLBA, ReadLBA, bind; rewrite u16_small by lia; by rewrite HT.
Qed.

(** C4: Whatever the number of requests, so across every wrap of the queues and of the
    phase, and however long the controller takes, reads and writes end, the controller
    executes exactly one command for each, in their order, for the blocks and the
    bytes of memory asked for, and the pages of the PRP lists are given back. *)
Theorem requests_in_order rs : forall s,
  in_service s -> Forall (request_ok (lba_size_ s)) rs ->
  exists n s' xs, (forall fuel, (n <= fuel)%nat -> serve_all fuel rs s = Ret tt s')
    /\ in_service s' /\ pool s' = pool s
    /\ executed (ctl s') 1 = executed (ctl s) 1 ++ xs /\ Forall2 (performs (lba_size_ s)) rs xs
    /\ executed (ctl s') 0 = executed (ctl s) 0.
Proof.
  induction rs as [|r rs IH]; intros s Hs Hrs.
  { exists 0%nat, s, []. rewrite app_nil_r. split_and!; done || constructor. }
  apply Forall_cons in Hrs as [Hr Hrs].
  destruct (serve_spec r s Hs Hr) as (n & s1 & x & HT & Hs1 & Hp1 & Hl1 & He1 & Hx & Hz1).
  rewrite <- Hl1 in Hrs. destruct (IH s1 Hs1 Hrs) as (n' & s' & xs & HT' & Hs' & Hp' & He' & Hxs & Hz').
  rewrite Hl1 in Hxs. exists (n + n')%nat, s', (x :: xs). split_and!.
  - intros fuel Hf. cbn [serve_all]. unfold bind. rewrite HT by lia. apply HT'. lia.
  - done.
  - congruence.
  - rewrite He', He1. by rewrite <- app_assoc.
  - by constructor.
  - congruence.
Qed.
End Protocol.

(** ** A controller that executes a command at the first poll *)

Module Sim.
Record Queue := mkQ {
  base : Z;
  status : list Z;
  head : Z;
  tail : Z;
  phase : Z;
  pending : option (SubmissionQueueEntry * gmap Z Z);
  done_cmds : list (SubmissionQueueEntry * gmap Z Z)
}.

Record t := mk { q0 : Queue; q1 : Queue }.

Definition sel (q : Z) (c : t) : Queue := if q =? 0 then q0 c else q1 c.
Definition set_sel (q : Z) (x : Queue) (c : t) : t := if q =? 0 then mk x (q1 c) else mk (q0 c) x.

Definition complete (x : Queue) : Queue :=
  match pending x with
  | None => x
  | Some e => mkQ (base x) (upd (status x) (tail x) (phase x)) (next_index (head x)) (next_index (tail x))
                (if queue_depth_ <=? tail x + 1 then 1 - phase x else phase x) None (done_cmds x ++ [e])
  end.

Definition read_status (c : t) (a : Z) : Z :=
  if (base (q1 c) <=? a) && (a <? base (q1 c) + 512) then rd (status (q1 c)) ((a - base (q1 c)) / 16)
  else rd (status (q0 c)) ((a - base (q0 c)) / 16).

#[global] Instance controller : NvmeController t := {
  get_cc c := 0;
  set_cc v c := c;
  get_csts c := 0;
  set_aqa v c := c;
  set_asq v c := c;
  set_acq v c := c;
  ram c a := 0;
  cq_status := read_status;
  clear a n c := c;
  ring_sq q tail entries w c :=
    let x := sel q c in
    set_sel q (mkQ (base x) (status x) (head x) (Sim.tail x) (phase x) (Some (rd entries (head x), w)) (done_cmds x)) c;
  ring_cq q h c := c;
  pause c := mk (complete (q0 c)) (complete (q1 c))
}.

Record rest (c : t) (q a t h ph : Z) : Prop := {
  r_idle : pending (q0 c) = None /\ pending (q1 c) = None;
  r_base : base (sel q c) = a;
  r_head : head (sel q c) = t;
  r_tail : tail (sel q c) = h;
  r_phase : phase (sel q c) = ph;
  r_len : zlen (status (sel q c)) = 32;
  r_status : forall j, 0 <= j < 32 -> rd (status (sel q c)) j = if j <? h then ph else 1 - ph;
  r_apart : base (q0 c) + 512 <= base (q1 c) \/ base (q1 c) + 512 <= base (q0 c)
}.

Lemma read_status_sel c q j :
  q = 0 \/ q = 1 -> 0 <= j < 32 ->
  base (q0 c) + 512 <= base (q1 c) \/ base (q1 c) + 512 <= base (q0 c) ->
  read_status c (base (sel q c) + 16 * j) = rd (status (sel q c)) j.
Proof.
  intros Hq Hj Hap. unfold read_status, sel.
  destruct Hq as [-> | ->]; cbn [Z.eqb]; zcases; cbn [andb]; try lia; f_equal; zlia.
Qed.

Lemma sel_set q x c : sel q (set_sel q x c) = x.
Proof. unfold sel, set_sel. by destruct (q =? 0). Qed.

#[global] Program Instance controller_laws : NvmeControllerLaws t := {
  executed c q := done_cmds (sel q c);
  at_rest := rest
}.
Next Obligation.
  intros c q a t h ph entries w Hq [[I0 I1] Hb Hh Ht Hp Hl Hs Hap] Htr Hhr Hphr Hlen. cbv zeta.
  exists 1%nat. change (Nat.iter 1 pause ?c) with (pause c).
  set (c0 := ring_sq _ _ _ _ _). set (x0 := sel q c) in *.
  assert (Hsel0 : sel q c0 = mkQ (base x0) (status x0) (head x0) (tail x0) (phase x0)
    (Some (rd entries (head x0), w)) (done_cmds x0)) by apply sel_set.
  assert (Hsel : sel q (pause c0) = complete (sel q c0)) by (by destruct Hq as [-> | ->]).
  assert (Hoth : sel (1 - q) (pause c0) = sel (1 - q) c).
  { destruct Hq as [-> | ->]; cbn; unfold complete; by rewrite ?I0, ?I1. }
  assert (Hbase : base (q0 (pause c0)) = base (q0 c) /\ base (q1 (pause c0)) = base (q1 c)
    /\ base (q0 c0) = base (q0 c) /\ base (q1 c0) = base (q1 c)).
  { subst x0. destruct Hq as [-> | ->]; cbn; unfold complete; rewrite ?I0, ?I1; done. }
  assert (Hpend : pending (q0 (pause c0)) = None /\ pending (q1 (pause c0)) = None).
  { destruct Hq as [-> | ->]; cbn; unfold complete; rewrite ?I0, ?I1; done. }
  destruct Hbase as (B0 & B1 & B2 & B3). rewrite Hsel0 in Hsel. cbn [complete pending] in Hsel.
  split_and!.
  - intros k Hk. assert (k = 0%nat) as -> by lia. change (Nat.iter 0 pause c0) with c0.
    change (cq_status c0) with (read_status c0). rewrite <- Hb.
    replace (base x0) with (base (sel q c0)) by (by rewrite Hsel0).
    rewrite read_status_sel, Hsel0 by (done || by rewrite B2, B3). cbn [status]. rewrite Hs by done.
    rewrite Z.ltb_irrefl. destruct Hphr as [-> | ->]; done.
  - change (cq_status (pause c0)) with (read_status (pause c0)). rewrite <- Hb.
    replace (base x0) with (base (sel q (pause c0))) by (by rewrite Hsel).
    rewrite read_status_sel, Hsel by (done || by rewrite B0, B1). cbn [status].
    rewrite Ht, rd_upd_eq by lia. rewrite Hp. by destruct Hphr as [-> | ->].
  - change (ring_cq q _ (pause c0)) with (pause c0). rewrite Hsel. cbn [done_cmds]. by rewrite Hh.
  - change (ring_cq q _ (pause c0)) with (pause c0). split; rewrite ?Hsel; cbn [base status head tail phase]; try done.
    + by rewrite Hh.
    + by rewrite Ht.
    + by rewrite Ht, Hp.
    + by rewrite zlen_upd.
    + intros j Hj. rewrite Ht, Hp, rd_upd, Hs by lia. unfold next_index, queue_depth_.
      zcases; lia.
    + by rewrite B0, B1.
  - change (ring_cq q _ (pause c0)) with (pause c0). by rewrite Hoth.
  - intros a' t' h' ph' [R1 R2 R3 R4 R5 R6 R7 R8]. change (ring_cq q _ (pause c0)) with (pause c0).
    split; rewrite ?Hoth; try done. by rewrite B0, B1.
Qed.

(** at the start: all entries have phase 0 *)
Definition start (a0 a1 : Z) : t :=
  let q a := mkQ a (replicate 32 0) 0 0 1 None [] in mk (q a0) (q a1).
End Sim.

Definition sample_driver : Driver Sim.t MemoryManager.t :=
  let q sq_a cq_a := mkQueue sq_a cq_a (replicate 32 zero_cmd) 0 0 1 in
  mkDriver (Sim.start 8192 16384) (q 4096 8192) (q 12288 16384) 512 sample ∅ [].

(** a transfer of one page, one of two and one that needs a list *)
Definition sample_requests : list request :=
  [ mkRequest false 2048 65536 8; mkRequest true 1 65600 8; mkRequest true 0x123456789 69632 24 ].

Lemma requests_in_order_witness : exists n s' xs,
  (forall fuel, (n <= fuel)%nat -> serve_all fuel sample_requests sample_driver = Ret tt s')
  /\ executed (ctl s') 1 = [] ++ xs /\ Forall2 (performs 512) sample_requests xs.
Proof.
  destruct (requests_in_order sample_requests sample_driver) as (n & s' & xs & H1 & _ & _ & H2 & H3 & _).
  - split; [|split; [exact sample_inv|split; [vm_compute; discriminate|exact I]]].
    split; [|reflexivity|cbn; lia|cbn; lia|by right].
    split; try reflexivity; [by split| |cbn; lia].
    intros j Hj. change (Sim.status _) with (replicate 32 0). rewrite rd_replicate by lia.
    by rewrite (proj2 (Z.ltb_ge j _)) by (cbn; lia).
  - repeat constructor; vm_compute; congruence.
  - exists n, s', xs. split; [exact H1|split; [exact H2|exact H3]].
Defined.
