(* ===== verification/Syscall.v ===== *)
(** * File descriptors and the system calls on them (sys/std, sys/syscall.cpp)

    A call runs in the monad of Device.v on a world whose device is the disk paired
    with [Kernel]: the descriptor table, the console, the memory of the caller and
    the keys typed but not yet polled. *)
From S2P Require Import Prelude Memory Rings CStr Device Fat32Names Fat32 Fat32Table Fat32Files Font Graphics Console.

(** ** class FileFD *)

Record FileFD := mkFileFD {
  ff_object : Z;               (* where the object itself is *)
  ff_buffer : Z;               (* buffer_, 0 for null *)
  ff_content : list Z;         (* the bytes there *)
  file_size_ : Z;
  ff_read_pos : Z;
  valid_ : bool;
  path_ : list Z
}.

Definition kMaxFileSize : Z := 64 * 1024.
Definition sizeof_FileFD : Z := 160.

(** the classes derived from FileDescriptor, each with the address of the object; a
    pipe's ring is in an array of its own *)
Inductive FileDescriptor :=
  | FD_CONSOLE (obj : Z)
  | FD_KEYBOARD (obj : Z) (r : Ring)
  | FD_PIPE (obj array : Z) (r : Ring)
  | FD_FILE (f : FileFD).

Definition sizeof_ConsoleFD : Z := 8.
Definition sizeof_KeyboardFD : Z := 1048.
Definition sizeof_PipeFD : Z := 32.

Record Kernel := mkKernel {
  g_fds : list (option FileDescriptor);
  g_console : option Console;
  mem : Z -> Z;
  typed : list Z
}.

#[export] Instance fd_dflt : Dflt (option FileDescriptor) := None.

Definition set_fd (fd : Z) (x : option FileDescriptor) (k : Kernel) : Kernel :=
  mkKernel (upd (g_fds k) fd x) (g_console k) (mem k) (typed k).
Definition set_console (c : option Console) (k : Kernel) : Kernel :=
  mkKernel (g_fds k) c (mem k) (typed k).
Definition set_typed (t : list Z) (k : Kernel) : Kernel :=
  mkKernel (g_fds k) (g_console k) (mem k) t.

(** bytes of the caller's memory *)
Definition store_mem (addr : Z) (bytes : list Z) (k : Kernel) : Kernel :=
  mkKernel (g_fds k) (g_console k)
    (fun a => if (addr <=? a) && (a <? addr + zlen bytes) then rd bytes (a - addr) else mem k a)
    (typed k).
Definition load_mem (addr n : Z) (k : Kernel) : list Z := (fun i => mem k (addr + i)) <$> seqZ 0 n.

Section Calls.
Context {D M : Type} `{BlockDevice D} `{FrameAllocator M}.
Local Abbreviation FS := (FS (D * Kernel) M).
Implicit Types (f : FileFD) (k : Kernel).

Definition kget {A} (g : Kernel -> A) : FS A := fun w => Done (g (w_dev w).2) w.
Definition kset (g : Kernel -> Kernel) : FS unit := fun w =>
  Done tt (mkWorld ((w_dev w).1, g (w_dev w).2) (w_mm w) (w_out w)).

(** [FileFD(path)] in the object at [obj]; [g_fat32_driver] is [None] for null *)
Definition new_FileFD (fuel : nat) (obj : Z) (g_fat32_driver : option FAT32Driver) (path : list Z) : FS FileFD :=
  let path_ := slice path 0 (if 127 <? strlen path then 127 else strlen path) in
  match g_fat32_driver with
  | None => fs_ret (mkFileFD obj 0 [] 0 0 false path_)
  | Some drv =>
      size <- on_src (GetFileSize drv path) ;;
      if size =? 0 then fs_ret (mkFileFD obj 0 [] 0 0 false path_)
      else
        let size := if kMaxFileSize <? size then kMaxFileSize else size in
        buffer <- Allocate_ size 16 ;;
        if buffer =? 0 then fs_ret (mkFileFD obj 0 [] 0 0 false path_)
        else
          let* (read_bytes, content) :=
            on_src (ReadFile fuel drv path (replicate (Z.to_nat size) 0) size 0) in
          if 0 <? read_bytes then fs_ret (mkFileFD obj buffer content read_bytes 0 true path_)
          else
            Free_ buffer size ;;
            fs_ret (mkFileFD obj 0 [] 0 0 false path_)
  end.

(** [~FileFD()], and the block of the object *)
Definition delete_FileFD f : FS unit :=
  (if ff_buffer f =? 0 then fs_ret tt else Free_ (ff_buffer f) (file_size_ f)) ;;
  Free_ (ff_object f) (sizeof_FileFD + 16).

(** the result, the bytes put in the caller's buffer and the new state *)
Definition FileFD_Read (len : Z) f : Z * list Z * FileFD :=
  if negb (valid_ f) || (ff_buffer f =? 0) then (-1, [], f)
  else
    let remaining := u32 (file_size_ f - ff_read_pos f) in
    if remaining =? 0 then (0, [], f)
    else
      let to_read := if remaining <? len then remaining else len in
      (i32 to_read, slice (ff_content f) (ff_read_pos f) to_read,
       mkFileFD (ff_object f) (ff_buffer f) (ff_content f) (file_size_ f)
         (u32 (ff_read_pos f + to_read)) (valid_ f) (path_ f)).

(** ** Read and Write of any descriptor *)

Definition fd_Read (fd : Z) (x : FileDescriptor) (buf len : Z) : FS Z :=
  match x with
  | FD_CONSOLE _ => fs_ret 0
  | FD_KEYBOARD obj r =>
      keys <- kget typed ;;
      let '(n, out, r') := KeyboardFD.Read keys len r in
      kset (fun k => store_mem buf out (set_fd fd (Some (FD_KEYBOARD obj r')) (set_typed [] k))) ;;
      fs_ret (i32 n)
  | FD_PIPE obj array r =>
      let '(n, out, r') := PipeFD.Read len r in
      kset (fun k => store_mem buf out (set_fd fd (Some (FD_PIPE obj array r')) k)) ;;
      fs_ret (i32 n)
  | FD_FILE f =>
      let '(n, out, f') := FileFD_Read len f in
      kset (fun k => store_mem buf out (set_fd fd (Some (FD_FILE f')) k)) ;;
      fs_ret n
  end.

(** ConsoleFD::Write: [PutString] of each character, as a string of one or none *)
Definition console_write (bytes : list Z) (c : Console) : Console :=
  fold_left (fun c b => PutString c (cstr_of [b; 0])) bytes c.

Definition fd_Write (fd : Z) (x : FileDescriptor) (bytes : list Z) (len : Z) : FS Z :=
  match x with
  | FD_CONSOLE _ =>
      console <- kget g_console ;;
      match console with
      | None => fs_ret 0
      | Some c => kset (set_console (Some (console_write bytes c))) ;; fs_ret (i32 len)
      end
  | FD_KEYBOARD _ _ => fs_ret 0
  | FD_PIPE obj array r =>
      let '(n, r') := PipeFD.Write bytes len r in
      kset (set_fd fd (Some (FD_PIPE obj array r'))) ;;
      fs_ret (i32 n)
  | FD_FILE f => fs_ret (-1)
  end.

(** ** The cases of SyscallHandler; strings are given as their characters *)

Definition in_table (fd : Z) : bool := (0 <=? fd) && (fd <? 16).

(** case 1 *)
Definition sys_PutChar (arg1 : Z) : FS Z :=
  kprintf "%c" [KInt (u8 arg1)] ;; fs_ret 0.

(** case 3 *)
Definition sys_ListDirectory (fuel : nat) (drv : option FAT32Driver) (arg1 : Z) : FS Z :=
  match drv with
  | Some drv => on_src (ListDirectory fuel drv (u32 arg1)) ;; fs_ret 0
  | None => fs_ret 0
  end.

(** case 4 *)
Definition sys_ReadFile (fuel : nat) (drv : option FAT32Driver) (name : list Z) (buf arg3 : Z) : FS Z :=
  match drv with
  | Some drv =>
      let len := u32 arg3 in
      old <- kget (load_mem buf len) ;;
      let* (n, content) := on_src (ReadFile fuel drv name old len 0) in
      kset (store_mem buf content) ;;
      fs_ret n
  | None => fs_ret 0
  end.

(** case 5 *)
Definition sys_Read (arg1 buf len : Z) : FS Z :=
  let fd := i32 arg1 in
  x <- kget (fun k => if in_table fd then rd (g_fds k) fd else None) ;;
  match x with
  | Some x => r <- fd_Read fd x buf len ;; fs_ret (u64 r)
  | None => fs_ret (u64 (-1))
  end.

(** case 6: [kernel_buf] is on the stack, where [stack] was before; at most 255
    bytes are copied, but [len] are passed on *)
Definition kernel_buf (stack : Z -> Z) (buf len : Z) k : list Z :=
  (fun i => if (i <? len) && (i <? 255) then mem k (buf + i)
            else if i =? (if len <? 255 then len else 255) then 0 else stack i) <$> seqZ 0 len.

Definition sys_Write (stack : Z -> Z) (arg1 buf len : Z) : FS Z :=
  let fd := i32 arg1 in
  x <- kget (fun k => if in_table fd then rd (g_fds k) fd else None) ;;
  match x with
  | Some x =>
      bytes <- kget (kernel_buf stack buf len) ;;
      r <- fd_Write fd x bytes len ;; fs_ret (u64 r)
  | None => fs_ret (u64 (-1))
  end.

(** case 21 *)
Definition free_fd (fds : list (option FileDescriptor)) : option Z :=
  for_return 13 3 (fun fd => match rd fds fd with None => Some fd | Some _ => None end).

Definition sys_Open (fuel : nat) (drv : option FAT32Driver) (path : list Z) : FS Z :=
  slot <- kget (fun k => free_fd (g_fds k)) ;;
  match slot with
  | Some fd =>
      obj <- Buffer (sizeof_FileFD + 16) 16 ;;
      file_fd <- new_FileFD fuel obj drv path ;;
      if valid_ file_fd then kset (set_fd fd (Some (FD_FILE file_fd))) ;; fs_ret fd
      else delete_FileFD file_fd ;; fs_ret (u64 (-1))
  | None => fs_ret (u64 (-1))
  end.

(** [delete g_fds[fd]]: the destructor, then the block of the object with its header *)
Definition delete_fd (x : FileDescriptor) : FS unit :=
  match x with
  | FD_CONSOLE obj => Free_ obj (sizeof_ConsoleFD + 16)
  | FD_KEYBOARD obj _ => Free_ obj (sizeof_KeyboardFD + 16)
  | FD_PIPE obj array _ => Free_ array (PipeFD.kBufferSize + 16) ;; Free_ obj (sizeof_PipeFD + 16)
  | FD_FILE f => delete_FileFD f
  end.

(** case 22 *)
Definition sys_Close (arg1 : Z) : FS Z :=
  let fd := i32 arg1 in
  x <- kget (fun k => if (3 <=? fd) && (fd <? 16) then rd (g_fds k) fd else None) ;;
  match x with
  | Some x =>
      delete_fd x ;;
      kset (set_fd fd None) ;;
      fs_ret 0
  | None => fs_ret (u64 (-1))
  end.

(** case 23 *)
Definition sys_DeleteFile (fuel : nat) (drv : option FAT32Driver) (path : list Z) : FS Z :=
  match drv with
  | Some drv =>
      ok <- on_src (DeleteFile fuel drv path 0) ;;
      fs_ret (if (ok : bool) then 0 else u64 (-1))
  | None => fs_ret (u64 (-1))
  end.
End Calls.

(** What Write passes on: the caller's bytes, a zero in the place of byte 255, and
    from byte 256 on what lies behind the buffer on the kernel's stack. *)
Lemma kernel_buf_spec stack buf len k i : 0 <= i < len ->
  rd (kernel_buf stack buf len k) i
  = if i <? 255 then mem k (buf + i) else if i =? 255 then 0 else stack i.
Proof.
  intros Hi. assert (Hl : 0 <= len) by lia. unfold kernel_buf, rd.
  rewrite (proj2 (Z.ltb_ge i 0)) by lia. rewrite list_lookup_fmap, lookup_seqZ_lt by lia.
  cbn [fmap option_fmap option_map default]. unfold id. zcases; cbn [andb]; try done; try lia; f_equal; lia.
Qed.

(** ** Opening, reading and closing a file *)

(** the pieces successive reads deliver *)
Fixpoint pieces (data : list Z) (reqs : list (Z * Z)) : list (Z * list Z) :=
  match reqs with
  | [] => []
  | (buf, len) :: rest => (buf, slice data 0 len) :: pieces (drop (Z.to_nat len) data) rest
  end.

Definition store_pieces (ps : list (Z * list Z)) (k : Kernel) : Kernel :=
  fold_left (fun k p => store_mem p.1 p.2 k) ps k.

Section Stream.
Context {D M : Type} `{BlockDeviceLaws D} `{FrameAllocatorLaws M}.
Implicit Types (mm : M) (k : Kernel) (f : FileFD).
Local Abbreviation FS := (FS (D * Kernel) M).

(** [read(fd, buf, len)] for each buffer and length, and the results *)
Fixpoint read_each (fd : Z) (reqs : list (Z * Z)) : FS (list Z) :=
  match reqs with
  | [] => fs_ret []
  | (buf, len) :: rest =>
      n <- sys_Read fd buf len ;;
      ns <- read_each fd rest ;;
      fs_ret (n :: ns)
  end.

Lemma wp_kget {A} (g : Kernel -> A) (Q : A -> World (D * Kernel) M -> Prop) (d : D) k mm out :
  Q (g k) (mkWorld (d, k) mm out) -> wp (kget g) Q (mkWorld (d, k) mm out).
Proof. done. Qed.

Lemma wp_kset (g : Kernel -> Kernel) (Q : unit -> World (D * Kernel) M -> Prop) (d : D) k mm out :
  Q tt (mkWorld (d, g k) mm out) -> wp (kset g) Q (mkWorld (d, k) mm out).
Proof. done. Qed.

Lemma wp_on_src {A} (m : Device.FS D M A) (Q : A -> World (D * Kernel) M -> Prop) (d : D) k mm out :
  wp m (fun a w => Q a (mkWorld (w_dev w, k) (w_mm w) (w_out w))) (mkWorld d mm out) ->
  wp (on_src m) Q (mkWorld (d, k) mm out).
Proof. unfold wp, on_src. cbn [w_dev w_mm w_out fst snd]. by destruct (m _). Qed.

(** a descriptor open on [data], of which [rest] is unread *)
Record open_on f (data rest : list Z) : Prop := {
  oo_valid : valid_ f = true;
  oo_buffer : ff_buffer f <> 0;
  oo_content : ff_content f = data;
  oo_size : file_size_ f = zlen data;
  oo_small : zlen data <= kMaxFileSize;
  oo_pos : 0 <= ff_read_pos f <= zlen data;
  oo_rest : rest = drop (Z.to_nat (ff_read_pos f)) data
}.

Lemma FileFD_Read_open len f data rest :
  open_on f data rest -> 0 <= len ->
  let '(n, out, f') := FileFD_Read len f in
  out = slice rest 0 len /\ n = zlen out /\ zlen out <= kMaxFileSize
  /\ open_on f' data (drop (Z.to_nat len) rest)
  /\ ff_object f' = ff_object f /\ ff_buffer f' = ff_buffer f.
Proof.
  intros [Hv Hb Hc Hs Hsm Hp ->] Hlen. unfold FileFD_Read, kMaxFileSize in *.
  rewrite Hv, (proj2 (Z.eqb_neq _ 0) Hb). cbn [negb orb].
  assert (Hr : zlen (drop (Z.to_nat (ff_read_pos f)) data) = zlen data - ff_read_pos f).
  { unfold zlen in *. rewrite length_drop. lia. }
  rewrite u32_small by lia. destruct (Z.eqb_spec (file_size_ f - ff_read_pos f) 0) as [He|He].
  { assert (Hnil : drop (Z.to_nat (ff_read_pos f)) data = []).
    { apply nil_length_inv. unfold zlen in *. lia. }
    rewrite Hnil, drop_nil. unfold slice. rewrite drop_nil, take_nil. split_and!; try done; by split. }
  set (n := if _ <? len then _ else len).
  assert (Hn : n = Z.min len (zlen data - ff_read_pos f)) by (unfold n; zcases; lia).
  clearbody n. assert (Hout : slice (ff_content f) (ff_read_pos f) n
    = slice (drop (Z.to_nat (ff_read_pos f)) data) 0 len).
  { rewrite Hc. unfold slice. cbn [Z.to_nat drop]. unfold zlen in *.
    destruct (decide (len <= Z.of_nat (length data) - ff_read_pos f)).
    - f_equal. lia.
    - rewrite !take_ge by (rewrite length_drop; lia). done. }
  assert (Hz : zlen (slice (drop (Z.to_nat (ff_read_pos f)) data) 0 len) = n).
  { unfold slice, zlen in *. cbn [Z.to_nat drop]. rewrite length_take, length_drop. lia. }
  rewrite Hout, Hz. split_and!; try done; [unfold i32; rewrite Z.mod_small; lia|lia|].
  split; cbn [valid_ ff_buffer ff_content file_size_ ff_read_pos]; try done.
  - rewrite u32_small by lia. lia.
  - rewrite u32_small, drop_drop by lia. destruct (decide (len <= zlen data - ff_read_pos f)).
    + f_equal. lia.
    + unfold zlen in *. rewrite !drop_ge by lia. done.
Qed.

(** ** The table *)

Lemma set_fd_twice fd x y k : set_fd fd y (set_fd fd x k) = set_fd fd y k.
Proof. unfold set_fd. cbn. by rewrite upd_upd. Qed.

Lemma store_pieces_set_fd ps fd x : forall k, store_pieces ps (set_fd fd x k) = set_fd fd x (store_pieces ps k).
Proof. induction ps as [|p ps IH]; intros k; [done|]. apply (IH (store_mem p.1 p.2 k)). Qed.

Lemma store_pieces_fds ps : forall k, g_fds (store_pieces ps k) = g_fds k.
Proof. induction ps as [|p ps IH]; intros k; [done|]. apply (IH (store_mem p.1 p.2 k)). Qed.

Lemma set_fd_is fd k x : zlen (g_fds k) = 16 -> 0 <= fd < 16 -> rd (g_fds k) fd = x -> set_fd fd x k = k.
Proof.
  intros Hl Hfd Hn. destruct k as [fds c m t]. unfold set_fd. cbn in *. f_equal. apply buf_ext; [by rewrite zlen_upd|].
  intros i Hi. rewrite zlen_upd in Hi. rewrite rd_upd by lia. by destruct (Z.eqb_spec i fd) as [->|].
Qed.

(** one read of an open file *)
Lemma wp_sys_Read_open fd f data rest buf len d k mm out (Q : Z -> World (D * Kernel) M -> Prop) :
  3 <= fd < 16 -> rd (g_fds k) fd = Some (FD_FILE f) -> open_on f data rest -> 0 <= len ->
  (forall f', open_on f' data (drop (Z.to_nat len) rest) -> ff_object f' = ff_object f -> ff_buffer f' = ff_buffer f ->
     Q (zlen (slice rest 0 len))
       (mkWorld (d, set_fd fd (Some (FD_FILE f')) (store_mem buf (slice rest 0 len) k)) mm out)) ->
  wp (sys_Read fd buf len) Q (mkWorld (d, k) mm out).
Proof.
  intros Hfd Hf Ho Hlen HQ. unfold sys_Read.
  assert (E32 : i32 fd = fd) by (unfold i32; rewrite Z.mod_small; lia). rewrite E32.
  apply wp_bind, wp_kget. unfold in_table.
  rewrite (proj2 (Z.leb_le 0 fd)), (proj2 (Z.ltb_lt fd 16)) by lia. cbn [andb]. rewrite Hf.
  apply wp_bind. cbn [fd_Read]. pose proof (FileFD_Read_open len f data rest Ho Hlen) as HR.
  destruct (FileFD_Read len f) as [[n o] f1]. destruct HR as (-> & -> & Hsm & Ho1 & Hob1 & Hbu1).
  apply wp_bind, wp_kset, wp_ret, wp_ret.
  rewrite u64_small by (pose proof (zlen_nonneg (slice rest 0 len)); unfold kMaxFileSize in Hsm; lia).
  change (store_mem buf (slice rest 0 len) (set_fd fd (Some (FD_FILE f1)) k))
    with (set_fd fd (Some (FD_FILE f1)) (store_mem buf (slice rest 0 len) k)).
  by apply HQ.
Qed.

Lemma wp_read_each fd reqs : forall f data rest d k mm out (Q : list Z -> World (D * Kernel) M -> Prop),
  3 <= fd < 16 -> zlen (g_fds k) = 16 -> rd (g_fds k) fd = Some (FD_FILE f) -> open_on f data rest ->
  Forall (fun r => 0 <= r.2) reqs ->
  (forall f' rest', open_on f' data rest' -> ff_object f' = ff_object f -> ff_buffer f' = ff_buffer f ->
     Q ((fun p => zlen p.2) <$> pieces rest reqs)
       (mkWorld (d, set_fd fd (Some (FD_FILE f')) (store_pieces (pieces rest reqs) k)) mm out)) ->
  wp (read_each fd reqs) Q (mkWorld (d, k) mm out).
Proof.
  induction reqs as [|[buf len] reqs IH]; intros f data rest d k mm out Q Hfd Hk Hf Ho Hreqs HQ.
  { cbn [read_each]. apply wp_ret. specialize (HQ f rest Ho eq_refl eq_refl). cbn [pieces store_pieces fold_left] in HQ.
    by rewrite set_fd_is in HQ by (done || lia). }
  apply Forall_cons in Hreqs as [Hlen Hreqs]. cbn [snd] in Hlen.
  cbn [read_each]. eapply wp_bind, wp_sys_Read_open; [done|exact Hf|exact Ho|done|].
  intros f1 Ho1 Hob1 Hbu1. apply wp_bind.
  apply (IH f1 data (drop (Z.to_nat len) rest)); [done| | |done|done|].
  - cbn [store_mem set_fd g_fds]. by rewrite zlen_upd.
  - cbn [store_mem set_fd g_fds]. apply rd_upd_eq. lia.
  - intros f' rest' Ho' Hob' Hbu'. apply wp_ret.
    specialize (HQ f' rest' Ho' ltac:(congruence) ltac:(congruence)). cbn [pieces fmap list_fmap] in HQ.
    rewrite store_pieces_set_fd, set_fd_twice. exact HQ.
Qed.

Context (drv : FAT32Driver) (Hg : geometry drv).

Lemma wp_new_FileFD_written obj (d d' : D) mm out name path data cs i
    (Q : FileFD -> World (D * Kernel) M -> Prop) k :
  alloc_inv mm -> room [zlen data; 512] mm -> room [zlen data; cluster_bytes drv; 512] mm ->
  room [cluster_bytes drv; 512] mm ->
  writable drv d 0 name path data -> file_written drv d d' (or_root drv 0) name data cs i -> cs <> [] ->
  zlen data <= kMaxFileSize ->
  (forall f mm' out', open_on f data data -> ff_object f = obj -> Free (ff_buffer f) (zlen data) mm' = mm ->
     Q f (mkWorld (d', k) mm' out')) ->
  wp (new_FileFD 126 obj (Some drv) path) Q (mkWorld (d', k) mm out).
Proof.
  intros Hi [Hp Hr1] [_ Hr2] Hrc Hwt Hfw Hne Hsm HQ. pose proof (wt_size _ _ _ _ _ _ Hwt) as Hz.
  unfold new_FileFD. cbv zeta.
  apply wp_bind, wp_on_src. eapply wp_GetFileSize_written; [done..|exact Hwt|exact Hfw|done|].
  intros o1. cbn [w_dev w_mm w_out]. rewrite (proj2 (Z.eqb_neq (zlen data) 0)) by lia.
  rewrite (proj2 (Z.ltb_ge kMaxFileSize (zlen data))) by lia.
  apply wp_bind. unfold wp at 1, Allocate_. cbn [w_mm w_dev w_out]. rewrite Allocate_align.
  destruct (Allocate (zlen data) 4096 mm) as [b m1] eqn:HA. cbn [fst snd] in *.
  rewrite (proj2 (Z.eqb_neq b 0)) by done.
  assert (Hi1 : alloc_inv m1) by (eapply Allocate_inv; [exact Hi| |exact HA]; unfold kMaxFileSize in *; lia).
  assert (HF : Free b (zlen data) m1 = mm)
    by (eapply Allocate_Free; [exact Hi| |exact HA|done]; unfold kMaxFileSize in *; lia).
  assert (Hlr : zlen (replicate (Z.to_nat (zlen data)) 0) = zlen data) by (rewrite zlen_zeros; lia).
  apply wp_bind, wp_on_src. eapply wp_ReadFile_written; [exact Hg|done..|exact Hwt|exact Hfw|done|lia|lia|].
  intros o2. cbn [w_dev w_mm w_out]. rewrite (proj2 (Z.ltb_lt 0 (zlen data))) by lia.
  apply wp_ret, HQ; [|done|done]. split; cbn; try done; [|lia].
  unfold splice. cbn [Z.to_nat take app]. rewrite drop_ge; [by rewrite app_nil_r|].
  unfold zlen in *. lia.
Qed.

Lemma free_fd_Some fds fd : free_fd fds = Some fd <->
  3 <= fd < 16 /\ rd fds fd = None /\ forall j, 3 <= j < fd -> rd fds j <> None.
Proof.
  unfold free_fd. rewrite for_return_Some. change (3 + Z.of_nat 13) with 16. split.
  - intros (k & Hk & Hb & Hlt). destruct (rd fds k) eqn:E; [done|]. injection Hb as <-.
    split; [done|]. split; [done|]. intros j Hj Hn. specialize (Hlt j Hj). by rewrite Hn in Hlt.
  - intros (Hr & Hn & Hlt). exists fd. rewrite Hn. split; [done|]. split; [done|].
    intros j Hj. specialize (Hlt j Hj). by destruct (rd fds j).
Qed.

(** the frame allocator has room for the driver's buffers with a file open *)
Record open_room (mm : M) (size : Z) : Prop := {
  or_fat : room [512] mm;
  or_dir : room [cluster_bytes drv; 512] mm;
  or_obj : room [sizeof_FileFD + 16; cluster_bytes drv; 512] mm;
  or_buf1 : room [sizeof_FileFD + 16; size; 512] mm;
  or_buf2 : room [sizeof_FileFD + 16; size; cluster_bytes drv; 512] mm
}.

(** an open descriptor on [data], with the memory as [mm] once it is closed *)
Definition owned (mm m2 : M) (f : FileFD) (data : list Z) : Prop :=
  Free (ff_object f) (sizeof_FileFD + 16) (Free (ff_buffer f) (zlen data) m2) = mm.

(** Open of a file just written *)
Lemma wp_sys_Open_written (d d' : D) k mm out name path data cs i fd (Q : Z -> World (D * Kernel) M -> Prop) :
  alloc_inv mm -> open_room mm (zlen data) -> writable drv d 0 name path data ->
  file_written drv d d' (or_root drv 0) name data cs i -> cs <> [] ->
  zlen data <= kMaxFileSize -> free_fd (g_fds k) = Some fd ->
  (forall f m2 out', open_on f data data -> owned mm m2 f data ->
     Q fd (mkWorld (d', set_fd fd (Some (FD_FILE f)) k) m2 out')) ->
  wp (sys_Open 126 (Some drv) path) Q (mkWorld (d', k) mm out).
Proof.
  intros Hi [R1 R2 [Rp R3] [_ R4] [_ R5]] Hwt Hfw Hne Hsm Hfd HQ.
  unfold sys_Open. apply wp_bind, wp_kget. rewrite Hfd.
  apply wp_bind, wp_Buffer_at; [done|by vm_compute|exact Rp|]. intros obj Hi1 HF1.
  apply wp_bind. eapply wp_new_FileFD_written; [done..|exact Hwt|exact Hfw|done|done|].
  intros f m2 o2 Hop Hob HF2. rewrite (oo_valid _ _ _ Hop). apply wp_bind, wp_kset, wp_ret.
  apply HQ; [exact Hop|]. unfold owned. by rewrite HF2, Hob.
Qed.

(** Close of an open file *)
Lemma wp_sys_Close_open fd f data rest d k mm m2 out (Q : Z -> World (D * Kernel) M -> Prop) :
  3 <= fd < 16 -> rd (g_fds k) fd = Some (FD_FILE f) -> open_on f data rest -> owned mm m2 f data ->
  Q 0 (mkWorld (d, set_fd fd None k) mm out) ->
  wp (sys_Close fd) Q (mkWorld (d, k) m2 out).
Proof.
  intros Hfd Hf Ho How HQ. unfold sys_Close.
  assert (E32 : i32 fd = fd) by (unfold i32; rewrite Z.mod_small; lia). rewrite E32.
  apply wp_bind, wp_kget. rewrite (proj2 (Z.leb_le 3 fd)), (proj2 (Z.ltb_lt fd 16)) by lia. cbn [andb].
  rewrite Hf. cbn [delete_fd]. apply wp_bind. unfold delete_FileFD.
  rewrite (proj2 (Z.eqb_neq _ 0) (oo_buffer _ _ _ Ho)).
  apply wp_bind, wp_Free. rewrite (oo_size _ _ _ Ho). apply wp_Free.
  unfold owned in How. rewrite How. apply wp_bind, wp_kset, wp_ret. exact HQ.
Qed.

(** the calls of a program that reads a file *)
Definition open_read_close (path : list Z) (reqs : list (Z * Z)) : FS (Z * list Z * Z) :=
  fd <- sys_Open 126 (Some drv) path ;;
  ns <- read_each fd reqs ;;
  r <- sys_Close fd ;;
  fs_ret (fd, ns, r).

(** A program that opens a file just written gets the lowest free descriptor; its
    reads, of any lengths, get the successive pieces of the file and then zeros, at
    the addresses it gave and nowhere else; after Close the descriptor table and the
    memory are as before. *)
Theorem open_read_close_stream d k mm out name path data reqs fd :
  alloc_inv mm -> open_room mm (zlen data) -> writable drv d 0 name path data ->
  zlen data <= kMaxFileSize -> zlen (g_fds k) = 16 -> free_fd (g_fds k) = Some fd ->
  Forall (fun r => 0 <= r.2) reqs ->
  exists d' out',
    (on_src (WriteFile 126 drv name data (zlen data) 0) ;; open_read_close path reqs) (mkWorld (d, k) mm out)
    = Done (fd, (fun p => zlen p.2) <$> pieces data reqs, 0)
        (mkWorld (d', store_pieces (pieces data reqs) k) mm out').
Proof.
  intros Hi Hroom Hwt Hsm Hk Hfd Hreqs.
  apply free_fd_Some in Hfd as Hfd'. destruct Hfd' as (Hr & Hn & _). pose proof (or_fat _ _ Hroom) as R1.
  pose proof (or_dir _ _ Hroom) as R2.
  assert (HW : wp (on_src (WriteFile 126 drv name data (zlen data) 0) ;; open_read_close path reqs)
    (fun r w => r = (fd, (fun p => zlen p.2) <$> pieces data reqs, 0)
       /\ exists d' out', w = mkWorld (d', store_pieces (pieces data reqs) k) mm out') (mkWorld (d, k) mm out)).
  { apply wp_bind, wp_on_src. eapply wp_WriteFile_writable; [done..|exact Hwt|].
    intros d' cs i o1 Hne Hfw. cbn [w_dev w_mm w_out]. unfold open_read_close.
    apply wp_bind. eapply wp_sys_Open_written; [done..|exact Hwt|exact Hfw|done|done|exact Hfd|].
    intros f m2 o2 Hop How.
    apply wp_bind. eapply (wp_read_each fd reqs f data data); [done| | |done|done|].
    - cbn [set_fd g_fds]. by rewrite zlen_upd.
    - cbn [set_fd g_fds]. apply rd_upd_eq. lia.
    - intros f' rest' Hop' Hob' Hbu'. rewrite store_pieces_set_fd, set_fd_twice. apply wp_bind.
      eapply (wp_sys_Close_open fd f' data rest' _ _ mm); [done| |done| |].
      + cbn [set_fd g_fds]. apply rd_upd_eq. rewrite store_pieces_fds. lia.
      + unfold owned. rewrite Hob', Hbu'. exact How.
      + apply wp_ret. split; [done|]. rewrite set_fd_twice, set_fd_is; [by eexists _, _|by rewrite store_pieces_fds|lia|by rewrite store_pieces_fds]. }
  apply wp_Done in HW as (r & w & HW & -> & d' & out' & ->). by exists d', out'.
Qed.
End Stream.

Definition sample_kernel : Kernel :=
  mkKernel (Some (FD_CONSOLE 0) :: Some (FD_CONSOLE 0) :: Some (FD_CONSOLE 0) :: replicate 13 None) None
    (fun _ => 0) [].

Lemma open_read_close_stream_witness : exists d' out',
  (on_src (WriteFile 126 small_volume (c_lit "HELLO   TXT") small_data 700 0) ;;
   open_read_close small_volume (c_lit "hello.txt") [(4096, 512); (8192, 512); (8192, 512)])
    (mkWorld (small_disk, sample_kernel) sample [])
  = Done (3, [512; 188; 0], 0)
      (mkWorld (d', store_pieces (pieces small_data [(4096, 512); (8192, 512); (8192, 512)]) sample_kernel) sample out').
Proof.
  assert (Hl : zlen small_data = 700) by (vm_compute; reflexivity).
  assert (Hp : (fun p => zlen p.2) <$> pieces small_data [(4096, 512); (8192, 512); (8192, 512)] = [512; 188; 0])
    by (vm_compute; reflexivity).
  rewrite <- Hp, <- Hl.
  apply (open_read_close_stream small_volume small_geometry small_disk sample_kernel sample []
    (c_lit "HELLO   TXT") (c_lit "hello.txt") small_data [(4096, 512); (8192, 512); (8192, 512)] 3).
  - exact sample_alloc_inv.
  - split; vm_compute; repeat split; discriminate.
  - exact small_writable.
  - rewrite Hl. vm_compute. discriminate.
  - vm_compute. reflexivity.
  - vm_compute. reflexivity.
  - repeat constructor; cbn; lia.
Defined.
