(* ===== verification/Shell.v ===== *)
(** * The shell (apps/shell/main.cpp)

    The user program that reads keys, edits a command line and runs commands through
    system calls.  [Class UserCalls] is apps/_header/syscall.hpp.  A line typed with its
    corrections runs the command of its words, whatever the rounds the keys come in. *)
From S2P Require Import Prelude CStr.

(** ** apps/_header/syscall.hpp *)

Class UserCalls (W : Type) := {
  sc_Write : Z -> list Z -> W -> W;
  (** at most so many characters *)
  sc_Read : Z -> Z -> W -> list Z * W;
  sc_ListDirectory : Z -> W -> W;
  (** the result, and the bytes the buffer receives *)
  sc_ReadFile : list Z -> Z -> W -> Z * list Z * W;
  sc_DeleteFile : list Z -> W -> Z * W;
  sc_Spawn : list Z -> list (list Z) -> W -> Z * W;
  sc_Yield : W -> W
}.

Definition kMaxCommandLen : Z := 256.

(** the program, between two keys *)
Record Shell := mkShell {
  buffer_ : list Z;
  cursor_pos_ : Z;
  prompt_shown_ : bool
}.

Definition new_Shell : Shell := mkShell (replicate 256 0) 0 false.

(** what a command leaves: the shell with its [prompt_shown_], or its end, or a path
    written past the end of its buffer *)
Inductive Outcome (S W : Type) :=
  | Continue (s : S) (w : W)
  | Exited (w : W)
  | Overflow.
Arguments Continue {S W}.
Arguments Exited {S W}.
Arguments Overflow {S W}.

(** ** The words of a command line *)

(** [while ( *p == ' ') *p++ = 0;] *)
Fixpoint skip_spaces (fuel : nat) (p : Z) (buf : list Z) : Z * list Z :=
  match fuel with
  | O => (p, buf)
  | S fuel' => if rd buf p =? 32 then skip_spaces fuel' (p + 1) (upd buf p 0) else (p, buf)
  end.

(** [while ( *p && *p != ' ') p++;] *)
Fixpoint word_end (fuel : nat) (p : Z) (buf : list Z) : Z :=
  match fuel with
  | O => p
  | S fuel' => if negb (rd buf p =? 0) && negb (rd buf p =? 32) then word_end fuel' (p + 1) buf else p
  end.

(** the offsets of the arguments, and the buffer with their ends marked *)
Fixpoint parse_loop (fuel : nat) (p : Z) (argv : list Z) (buf : list Z) : list Z * list Z :=
  match fuel with
  | O => (argv, buf)
  | S fuel' =>
      if rd buf p =? 0 then (argv, buf)
      else
        let '(p, buf) := skip_spaces (length buf) p buf in
        if rd buf p =? 0 then (argv, buf)
        else
          let argv := argv ++ [p] in
          if 32 <=? zlen argv then (argv, buf)
          else parse_loop fuel' (word_end (length buf) p buf) argv buf
  end.

(** the string at an offset *)
Definition arg_at (buf : list Z) (o : Z) : list Z := cstr_of (drop (Z.to_nat o) buf).

Section Commands.
Context {W : Type} `{UserCalls W}.
Implicit Types (w : W) (sh : Shell).

Definition Print (s : list Z) w : W := sc_Write 1 s w.

Definition PrintPrompt w : W := Print (c_lit "Sylphia:/$ ") w.

(** [Print("\n")] thirty times *)
Definition clear_screen w : W := for_loop 30 0 (fun _ w => Print (c_lit "\n") w) w.

Definition cat (args : list (list Z)) w : W :=
  if 1 <? zlen args then
    let '(bytes, data, w) := sc_ReadFile (args !!! 1%nat) 4095 w in
    let buf := splice (replicate 4096 0) 0 data in
    if 0 <? bytes then
      Print (c_lit "\n") (Print (cstr_of (upd buf bytes 0)) w)
    else Print (c_lit "Error: File not found or empty.\n") w
  else Print (c_lit "Usage: cat <filename>\n") w.

Definition rm (args : list (list Z)) w : W :=
  if 1 <? zlen args then
    let name := args !!! 1%nat in
    let '(result, w) := sc_DeleteFile name w in
    Print (c_lit "\n") (Print name (Print (c_lit (if result =? 0 then "Deleted " else "Could not delete ")) w))
  else Print (c_lit "Usage: rm <filename>\n") w.

Definition sys_info w : W :=
  let line := c_lit "===============================================\n" in
  let w := Print (c_lit "=============== Sylphia-OS ZERO ===============\n") w in
  let w := Print (c_lit "Shell running in user mode!\n") w in
  Print line (Print (c_lit "Rust\n") w).

(** a program of /sys/bin; [path] has 64 characters *)
Definition run_program (args : list (list Z)) (shown : bool) w : Outcome bool W :=
  match strcpy (replicate 64 0) (c_lit "/sys/bin/") with
  | None => Overflow
  | Some path =>
      match strcat path (args !!! 0%nat) with
      | None => Overflow
      | Some path =>
          let '(task_id, w) := sc_Spawn (cstr_of path) args w in
          if task_id =? 0 then
            Continue shown (Print (c_lit "\n") (Print (args !!! 0%nat) (Print (c_lit "Unknown command: ") w)))
          else Continue false w
      end
  end.

(** the commands, on the strings of [argv] *)
Definition dispatch (args : list (list Z)) (shown : bool) w : Outcome bool W :=
  let command (name : string) := strcmp (args !!! 0%nat) (c_lit name) =? 0 in
  if command "clear" then Continue shown (clear_screen w)
  else if command "echo" then
    Continue shown (if 1 <? zlen args then Print (c_lit "\n") (Print (args !!! 1%nat) w) else w)
  else if command "ls" then Continue shown (sc_ListDirectory 0 w)
  else if command "cat" then Continue shown (cat args w)
  else if command "rm" then Continue shown (rm args w)
  else if command "sys" then Continue shown (sys_info w)
  else if command "exit" then Exited (Print (c_lit "Exiting shell...\n") w)
  else run_program args shown w.

Definition ExecuteCommand sh w : Outcome Shell W :=
  if cursor_pos_ sh =? 0 then Continue sh w
  else
    let '(argv, buf) := parse_loop (length (buffer_ sh)) 0 [] (buffer_ sh) in
    let sh := mkShell buf (cursor_pos_ sh) (prompt_shown_ sh) in
    if zlen argv =? 0 then Continue sh w
    else
      match dispatch (map (arg_at buf) argv) (prompt_shown_ sh) w with
      | Continue shown w => Continue (mkShell buf (cursor_pos_ sh) shown) w
      | Exited w => Exited w
      | Overflow => Overflow
      end.

(** ** Keys *)

Definition OnKey (c : Z) sh w : Outcome Shell W :=
  if c =? 0 then Continue sh w
  else
    let w := if prompt_shown_ sh then w else PrintPrompt w in
    let sh := mkShell (buffer_ sh) (cursor_pos_ sh) true in
    if c =? 10 then
      match ExecuteCommand sh (Print (c_lit "\n") w) with
      | Continue sh w =>
          let sh := mkShell (memset (buffer_ sh) 0 kMaxCommandLen) 0 (prompt_shown_ sh) in
          Continue sh (if prompt_shown_ sh then PrintPrompt w else w)
      | o => o
      end
    else if c =? 8 then
      if 0 <? cursor_pos_ sh then
        Continue (mkShell (upd (buffer_ sh) (cursor_pos_ sh - 1) 0) (cursor_pos_ sh - 1) true) (Print (c_lit "\b") w)
      else Continue sh w
    else if cursor_pos_ sh <? kMaxCommandLen - 1 then
      Continue (mkShell (upd (buffer_ sh) (cursor_pos_ sh) c) (cursor_pos_ sh + 1) true) (Print [c] w)
    else Continue sh w.

(** the keys of one [Read] *)
Fixpoint OnKeys (cs : list Z) sh w : Outcome Shell W :=
  match cs with
  | [] => Continue sh w
  | c :: cs => match OnKey c sh w with
               | Continue sh w => OnKeys cs sh w
               | o => o
               end
  end.

(** [n] turns of the loop of Run *)
Fixpoint run_loop (n : nat) sh w : Outcome Shell W :=
  match n with
  | O => Continue sh w
  | S n' =>
      let '(buf, w) := sc_Read 0 16 w in
      match OnKeys buf sh w with
      | Continue sh w => run_loop n' sh (sc_Yield w)
      | o => o
      end
  end.

Definition Run (n : nat) sh w : Outcome Shell W :=
  let w := Print (c_lit "\nWelcome to Sylphia-OS Shell!\n") w in
  run_loop n (mkShell (buffer_ sh) (cursor_pos_ sh) true) (PrintPrompt w).
End Commands.

(** ** What the parser computes *)

Fixpoint drop_spaces (l : list Z) : list Z :=
  match l with
  | c :: t => if c =? 32 then drop_spaces t else l
  | [] => []
  end.

Fixpoint first_word (l : list Z) : list Z :=
  match l with
  | c :: t => if c =? 32 then [] else c :: first_word t
  | [] => []
  end.

(** the line split at its blanks, the last of [n] words with the rest of the line *)
Fixpoint words_upto (n : nat) (l : list Z) : list (list Z) :=
  match drop_spaces l with
  | [] => []
  | l1 =>
      match n with
      | O => []
      | S O => [l1]
      | S n' => first_word l1 :: words_upto n' (drop (length (first_word l1)) l1)
      end
  end.

Lemma words_upto_S n l :
  (n <> 0)%nat ->
  words_upto n l = match drop_spaces l with
                   | [] => []
                   | l1 => if decide (n = 1%nat) then [l1]
                           else first_word l1 :: words_upto (n - 1) (drop (length (first_word l1)) l1)
                   end.
Proof.
  intros Hn. destruct n as [|[|n]]; [done|..]; cbn [words_upto]; destruct (drop_spaces l) as [|c t]; done.
Qed.

Lemma drop_spaces_split l :
  exists k, l = replicate k 32 ++ drop_spaces l /\ (drop_spaces l = [] \/ exists c t, drop_spaces l = c :: t /\ c <> 32).
Proof.
  induction l as [|c t (k & Hk & Hd)]; cbn [drop_spaces].
  - exists 0%nat. auto.
  - destruct (Z.eqb_spec c 32) as [->|Hne].
    + exists (S k). split; [|done]. cbn [replicate app]. by f_equal.
    + exists 0%nat. split; [done|]. right. by exists c, t.
Qed.

Lemma first_word_split l :
  exists r, l = first_word l ++ r /\ (r = [] \/ exists t, r = 32 :: t) /\ Forall (fun c => c <> 32) (first_word l).
Proof.
  induction l as [|c t (r & Hr & He & Hf)]; cbn [first_word]; [by exists []; auto|].
  destruct (Z.eqb_spec c 32) as [->|Hne].
  - exists (32 :: t). split; [done|]. split; [|constructor]. right. by exists t.
  - exists r. split; [cbn; by f_equal|]. split; [done|]. by constructor.
Qed.

Lemma rd_at (pre l : list Z) : rd (pre ++ l) (zlen pre) = rd l 0.
Proof. rewrite rd_app_r by lia. by rewrite Z.sub_diag. Qed.

Lemma rd_head (pre l : list Z) c : rd (pre ++ c :: l) (zlen pre) = c.
Proof. rewrite rd_app_r by lia. by rewrite Z.sub_diag. Qed.

Lemma upd_head (pre l : list Z) c v : upd (pre ++ c :: l) (zlen pre) v = (pre ++ [v]) ++ l.
Proof.
  unfold upd, zlen. rewrite (proj2 (Z.ltb_ge _ _)), Nat2Z.id by lia.
  rewrite insert_app_r_alt, Nat.sub_diag by lia. cbn. by rewrite <- app_assoc.
Qed.

Lemma skip_spaces_spec k : forall fuel pre l,
  (k < fuel)%nat -> rd l 0 <> 32 ->
  skip_spaces fuel (zlen pre) (pre ++ replicate k 32 ++ l)
  = (zlen pre + Z.of_nat k, pre ++ replicate k 0 ++ l).
Proof.
  induction k as [|k IH]; intros [|fuel] pre l Hf Hl; try lia; cbn [skip_spaces replicate app].
  - rewrite rd_at, (proj2 (Z.eqb_neq _ _)) by done. f_equal. lia.
  - rewrite rd_head, upd_head. cbn [Z.eqb Pos.eqb].
    replace (zlen pre + 1) with (zlen (pre ++ [0])) by (rewrite zlen_app; done).
    rewrite IH by (done || lia). rewrite zlen_app. change (zlen [0]) with 1. f_equal; [lia|].
    by rewrite <- !app_assoc.
Qed.

Lemma word_end_spec w : forall fuel pre l,
  (length w < fuel)%nat -> Forall (fun c => c <> 0) w -> Forall (fun c => c <> 32) w -> rd l 0 = 0 \/ rd l 0 = 32 ->
  word_end fuel (zlen pre) (pre ++ w ++ l) = zlen pre + zlen w.
Proof.
  induction w as [|c w IH]; intros [|fuel] pre l Hf H0 H32 Hl; cbn [length] in *; try lia; cbn [word_end app].
  - rewrite rd_at. change (zlen (@nil Z)) with 0. destruct Hl as [-> | ->]; cbn; lia.
  - apply Forall_cons in H0 as [Hc0 H0]. apply Forall_cons in H32 as [Hc32 H32].
    rewrite rd_head, (proj2 (Z.eqb_neq c 0)), (proj2 (Z.eqb_neq c 32)) by done. cbn [negb andb].
    change (pre ++ c :: w ++ l) with (pre ++ [c] ++ (w ++ l)). rewrite app_assoc.
    replace (zlen pre + 1) with (zlen (pre ++ [c])) by (rewrite zlen_app; done).
    rewrite IH by (done || lia). rewrite zlen_app, (zlen_cons c w). change (zlen [c]) with 1. lia.
Qed.

Lemma arg_at_app (pre l : list Z) o : 0 <= o -> arg_at (pre ++ l) (zlen pre + o) = arg_at l o.
Proof.
  intros Ho. unfold arg_at, zlen. rewrite Z2Nat.inj_add, Nat2Z.id by lia. by rewrite <- drop_drop, drop_app_length.
Qed.

Lemma cstr_of_word (w x : list Z) : Forall (fun c => c <> 0) w -> x <> [] -> rd x 0 = 0 -> cstr_of (w ++ x) = w.
Proof.
  intros Hw Hx Hr. destruct x as [|y x]; [done|]. change (y = 0) in Hr. subst y.
  induction Hw as [|c w Hc _ IH]; [done|]. cbn [app cstr_of]. by rewrite (proj2 (Z.eqb_neq c 0)), IH.
Qed.

Lemma is_cstr_nonzero l : is_cstr l -> Forall (fun c => c <> 0) l.
Proof. intros Hl. eapply Forall_impl; [exact Hl|]. cbn. lia. Qed.

(** one word: the parser skips the blanks before it and finds its end *)
Lemma parse_word k pre w x :
  is_cstr w -> Forall (fun c => c <> 32) w -> w <> [] -> x <> [] -> rd x 0 = 0 \/ rd x 0 = 32 ->
  let buf := pre ++ replicate k 32 ++ w ++ x in
  let buf' := pre ++ replicate k 0 ++ w ++ x in
  rd buf (zlen pre) <> 0 /\ skip_spaces (length buf) (zlen pre) buf = (zlen pre + Z.of_nat k, buf')
  /\ rd buf' (zlen pre + Z.of_nat k) <> 0
  /\ word_end (length buf') (zlen pre + Z.of_nat k) buf' = zlen (pre ++ replicate k 0 ++ w).
Proof.
  intros Hw H32 Hne Hxne Hx. destruct w as [|c t]; [done|]. pose proof (is_cstr_nonzero _ Hw) as H0.
  pose proof H0 as [Hc0 _]%Forall_cons. pose proof H32 as [Hc32 _]%Forall_cons. cbn zeta.
  assert (Hp : zlen pre + Z.of_nat k = zlen (pre ++ replicate k 0)) by (by rewrite zlen_app, zlen_zeros).
  split; [|split; [|split]].
  - rewrite rd_at. destruct k; [done|]. by change (32 <> 0).
  - apply skip_spaces_spec; [rewrite !length_app, length_replicate; cbn; lia|done].
  - by rewrite Hp, (app_assoc pre), rd_at.
  - rewrite Hp, (app_assoc pre), word_end_spec; [|rewrite !length_app; destruct x; [done|cbn; lia]|done..].
    by rewrite !zlen_app, Z.add_assoc.
Qed.

(** a line of blanks only *)
Lemma parse_blanks fuel k pre rest argv :
  (k < S fuel)%nat -> (length argv < 32)%nat ->
  parse_loop (S fuel) (zlen pre) argv (pre ++ replicate k 32 ++ 0 :: rest)
  = (argv, pre ++ replicate k 0 ++ 0 :: rest).
Proof.
  intros Hf Ha. cbn [parse_loop]. destruct k as [|k]; [by rewrite rd_at|].
  rewrite rd_at. cbn [replicate app rd]. change (rd (32 :: replicate k 32 ++ 0 :: rest) 0 =? 0) with false. cbv iota.
  change (32 :: replicate k 32 ++ 0 :: rest) with (replicate (S k) 32 ++ 0 :: rest).
  rewrite skip_spaces_spec by (done || rewrite !length_app, length_replicate; cbn; lia).
  replace (zlen pre + Z.of_nat (S k)) with (zlen (pre ++ replicate (S k) 0)) by (by rewrite zlen_app, zlen_zeros).
  rewrite app_assoc, rd_at. by rewrite <- app_assoc.
Qed.

(** the word behind [k] blanks, which end the one before; behind it there is a zero *)
Lemma arg_behind k w rest :
  Forall (fun c => c <> 0) w -> rd rest 0 = 0 -> rest <> [] ->
  arg_at (replicate k 0 ++ w ++ rest) (Z.of_nat k) = w.
Proof.
  intros Hw Hr Hne. replace (Z.of_nat k) with (zlen (replicate k 0) + 0) by (rewrite zlen_zeros; lia).
  rewrite arg_at_app by lia. change (arg_at ?x 0) with (cstr_of x). by apply cstr_of_word.
Qed.

(** the words behind that one *)
Lemma args_behind k w rest offs : Forall (fun o => 0 <= o) offs ->
  map (arg_at (replicate k 0 ++ w ++ rest)) (map (Z.add (Z.of_nat k + zlen w)) offs) = map (arg_at rest) offs.
Proof.
  intros Hpos. rewrite map_map. apply map_ext_in. intros o Ho. apply list_elem_of_In in Ho.
  rewrite Forall_forall in Hpos. specialize (Hpos o Ho).
  replace (Z.of_nat k + zlen w + o) with (zlen (replicate k 0) + (zlen w + o)) by (rewrite zlen_zeros; lia).
  rewrite arg_at_app by (pose proof (zlen_nonneg w); lia). by rewrite arg_at_app by lia.
Qed.

(** what the parser leaves of the line [l]: a line of the same length that ends a word
    before it, and the offsets of the words *)
Lemma parse_loop_spec fuel : forall pre l rest argv,
  is_cstr l -> (length l < fuel)%nat -> (length argv < 32)%nat ->
  exists offs l', parse_loop fuel (zlen pre) argv (pre ++ l ++ 0 :: rest)
      = (argv ++ map (Z.add (zlen pre)) offs, pre ++ l' ++ 0 :: rest)
    /\ length l' = length l /\ Forall (fun o => 0 <= o) offs
    /\ (rd l 0 = 0 \/ rd l 0 = 32 -> rd (l' ++ 0 :: rest) 0 = 0)
    /\ map (arg_at (l' ++ 0 :: rest)) offs = words_upto (32 - length argv) l.
Proof.
  induction fuel as [|fuel IH]; intros pre l rest argv Hl Hf Ha; [lia|]. cbn [parse_loop].
  rewrite words_upto_S by lia.
  destruct (drop_spaces_split l) as (k & Hk & Hd). set (l1 := drop_spaces l) in *. clearbody l1. subst l.
  rewrite length_app, length_replicate in Hf. apply Forall_app in Hl as [_ Hl1].
  rewrite <- app_assoc. destruct Hd as [->|(c & t & -> & Hc)].
  - (* blanks only *)
    exists [], (replicate k 0). rewrite app_nil_r. pose proof (parse_blanks fuel k pre rest argv) as HP.
    cbn [parse_loop] in HP. cbn [app length] in Hf |- *. rewrite HP by lia. cbn [map]. rewrite app_nil_r, !length_replicate.
    split_and!; try done. by destruct k.
  - apply Forall_cons in Hl1 as Hl1'. destruct Hl1' as [Hc0 _].
    destruct (first_word_split (c :: t)) as (r & Hr & Hre & Hw). set (w := first_word (c :: t)) in *.
    assert (Hwne : w <> []) by (unfold w; cbn [first_word]; by rewrite (proj2 (Z.eqb_neq c 32))).
    assert (Hfw : first_word (w ++ r) = w) by (by rewrite <- Hr).
    rewrite Hr in Hl1. apply Forall_app in Hl1 as [Hlw Hlr]. rewrite Hr, <- app_assoc.
    assert (Hrx : rd (r ++ 0 :: rest) 0 = 0 \/ rd (r ++ 0 :: rest) 0 = 32).
    { destruct Hre as [->|(t' & ->)]; [by left|by right]. }
    destruct (parse_word k pre w (r ++ 0 :: rest) Hlw Hw Hwne ltac:(by destruct r) Hrx) as (P1 & P2 & P3 & P4). cbn zeta in P1, P2, P3, P4.
    rewrite (proj2 (Z.eqb_neq _ _) P1), P2, (proj2 (Z.eqb_neq _ _) P3).
    rewrite zlen_app. change (zlen [_]) with 1.
    assert (Hz : rd (replicate k 32 ++ c :: t) 0 = 0 \/ rd (replicate k 32 ++ c :: t) 0 = 32 -> k <> 0%nat).
    { intros Hz ->. cbn [replicate app] in Hz. change (c = 0 \/ c = 32) in Hz. destruct Hz; lia. }
    rewrite Hr in Hz.
    destruct (Z.leb_spec 32 (zlen argv + 1)) as [Hlast|Hmore]; unfold zlen in Hlast || unfold zlen in Hmore.
    + rewrite decide_True by lia.
      exists [Z.of_nat k], (replicate k 0 ++ w ++ r). cbn [map]. rewrite <- !app_assoc. split_and!; try done.
      * rewrite !length_app, !length_replicate. done.
      * constructor; [lia|constructor].
      * intros Hd. specialize (Hz Hd). by destruct k.
      * f_equal. rewrite (app_assoc w). apply arg_behind; [|done|done].
        apply is_cstr_nonzero, Forall_app. by split.
    + rewrite P4, decide_False, ?Hfw by lia.
      destruct (IH (pre ++ replicate k 0 ++ w) r rest (argv ++ [zlen pre + Z.of_nat k])) as (offs & r' & HP & Hlen & Hpos & Hend & Hmap);
        [done| |rewrite length_app; cbn; lia|].
      { assert (length w <> 0%nat) by (by destruct w). apply (f_equal length) in Hr. rewrite length_app in Hr. lia. }
      exists (Z.of_nat k :: map (Z.add (Z.of_nat k + zlen w)) offs), (replicate k 0 ++ w ++ r').
      rewrite <- !app_assoc in HP |- *. rewrite HP. split; [|split; [|split; [|split]]].
      * rewrite <- !app_assoc. cbn [map app]. do 3 f_equal. rewrite map_map. apply map_ext. intros o.
        rewrite !zlen_app, zlen_zeros. lia.
      * rewrite !length_app, !length_replicate, Hlen. done.
      * constructor; [lia|]. apply Forall_map. eapply Forall_impl; [exact Hpos|]. intros o Ho. pose proof (zlen_nonneg w).
        change (0 <= Z.of_nat k + zlen w + o). change (0 <= o) in Ho. lia.
      * intros Hd. specialize (Hz Hd). by destruct k.
      * cbn [map]. f_equal.
        -- apply arg_behind; [by apply is_cstr_nonzero| |by destruct r'].
           apply Hend. destruct Hre as [->|(t' & ->)]; [by left|by right].
        -- rewrite drop_app_length. replace (32 - length argv - 1)%nat with (32 - length (argv ++ [(zlen pre + Z.of_nat k)%Z]))%nat
             by (rewrite length_app; cbn; lia).
           rewrite <- Hmap. by apply args_behind.
Qed.

(** ** A line of input *)

(** the line after one more key *)
Definition edit (l : list Z) (c : Z) : list Z :=
  if c =? 8 then take (length l - 1) l else if zlen l <? 255 then l ++ [c] else l.

(** the keys of a line: neither zero nor a newline *)
Definition line_key (c : Z) : Prop := 0 < c < 256 /\ c <> 10.

Section Typing.
Context {W : Type} `{UserCalls W}.
Implicit Types (w : W) (sh : Shell).

(** what the keys print while the line is edited *)
Fixpoint echo (l ks : list Z) w : W :=
  match ks with
  | [] => w
  | c :: ks =>
      let w := if c =? 8 then match l with [] => w | _ => Print [8] w end
               else if zlen l <? 255 then Print [c] w else w in
      echo (edit l c) ks w
  end.

(** the command a line stands for *)
Definition run_line (l : list Z) w : Outcome bool W :=
  match words_upto 32 l with
  | [] => Continue true w
  | args => dispatch args true w
  end.

(** the shell has the line [l] *)
Record editing (l : list Z) (shown : bool) sh : Prop := {
  ed_buffer : buffer_ sh = l ++ replicate (256 - length l) 0;
  ed_cursor : cursor_pos_ sh = zlen l;
  ed_prompt : prompt_shown_ sh = shown;
  ed_length : zlen l <= 255;
  ed_bytes : is_cstr l }.

Lemma OnKey_edit l sh w c :
  editing l true sh -> line_key c ->
  exists sh', OnKey c sh w = Continue sh' (echo l [c] w) /\ editing (edit l c) true sh'.
Proof.
  intros [Hb Hc Hp Hl Hs] [Hc0 Hc10]. unfold OnKey, echo, edit.
  rewrite (proj2 (Z.eqb_neq c 0)), (proj2 (Z.eqb_neq c 10)), Hp by lia. cbn [buffer_ cursor_pos_ prompt_shown_].
  rewrite Hb, Hc. unfold zlen in Hl |- *. destruct (Z.eqb_spec c 8) as [->|Hc8].
  - destruct l as [|d l' _] using rev_ind.
    + eexists. split; [reflexivity|]. by split.
    + rewrite length_app in *. cbn [length] in *. rewrite (proj2 (Z.ltb_lt 0 _)) by lia.
      eexists. split; [|].
      { f_equal. destruct l'; reflexivity. }
      replace (length l' + 1 - 1)%nat with (length l') by lia. rewrite take_app_length.
      apply Forall_app in Hs as [Hs _]. split; cbn; try done; [|unfold zlen; lia..].
      replace (Z.of_nat (length l' + 1) - 1) with (zlen l') by (unfold zlen; lia).
      rewrite <- app_assoc. cbn [app]. rewrite upd_head, <- app_assoc. f_equal.
      replace (256 - length l')%nat with (S (256 - (length l' + 1))) by lia. done.
  - unfold kMaxCommandLen. destruct (Z.ltb_spec (Z.of_nat (length l)) (256 - 1)).
    + rewrite (proj2 (Z.ltb_lt _ 255)) by lia. eexists. split; [reflexivity|]. split; cbn; try done.
      * change (Z.of_nat (length l)) with (zlen l).
        replace (256 - length l)%nat with (S (256 - (length l + 1))) by lia. cbn [replicate].
        rewrite upd_head, length_app. done.
      * rewrite zlen_app. done.
      * rewrite zlen_app. unfold zlen. cbn. lia.
      * apply Forall_app. split; [done|]. by apply Forall_singleton.
    + rewrite (proj2 (Z.ltb_ge _ 255)) by lia. eexists. split; [reflexivity|]. by split.
Qed.

Lemma OnKeys_edit ks : forall l sh w,
  editing l true sh -> Forall line_key ks ->
  exists sh', OnKeys ks sh w = Continue sh' (echo l ks w) /\ editing (fold_left edit ks l) true sh'.
Proof.
  induction ks as [|c ks IH]; intros l sh w He Hk; cbn [OnKeys fold_left echo]; [by exists sh|].
  apply Forall_cons in Hk as [Hc Hk]. destruct (OnKey_edit l sh w c He Hc) as (sh1 & -> & He1).
  apply (IH (edit l c) sh1 _ He1 Hk).
Qed.

Lemma OnKeys_app ks1 ks2 sh w :
  OnKeys (ks1 ++ ks2) sh w
  = match OnKeys ks1 sh w with Continue sh w => OnKeys ks2 sh w | o => o end.
Proof.
  revert sh w. induction ks1 as [|c ks1 IH]; intros sh w; cbn [app OnKeys]; [done|].
  destruct (OnKey c sh w); done.
Qed.

(** the prompt of a shell that has none yet comes with its first key *)
Lemma OnKey_prompt c sh w :
  0 < c -> prompt_shown_ sh = false ->
  OnKey c sh w = OnKey c (mkShell (buffer_ sh) (cursor_pos_ sh) true) (PrintPrompt w).
Proof. intros Hc Hp. unfold OnKey. by rewrite Hp, (proj2 (Z.eqb_neq c 0)) by lia. Qed.

Lemma ExecuteCommand_spec l sh w :
  editing l true sh ->
  exists buf, length buf = 256%nat /\
    ExecuteCommand sh w = match run_line l w with
                          | Continue shown w => Continue (mkShell buf (zlen l) shown) w
                          | Exited w => Exited w
                          | Overflow => Overflow
                          end.
Proof.
  intros [Hb Hc Hp Hl Hs]. unfold ExecuteCommand, run_line. rewrite Hc, Hp.
  assert (Hlen : length (buffer_ sh) = 256%nat).
  { rewrite Hb, length_app, length_replicate. unfold zlen in Hl. lia. }
  destruct (Z.eqb_spec (zlen l) 0) as [Hz|Hz].
  { assert (l = []) as -> by (destruct l; [done|unfold zlen in Hz; cbn in Hz; lia]). exists (buffer_ sh). split; [done|]. cbn. by destruct sh; cbn in *; subst. }
  rewrite Hlen, Hb. unfold zlen in Hl.
  replace (256 - length l)%nat with (S (255 - length l)) by lia. cbn [replicate].
  destruct (parse_loop_spec 256 [] l (replicate (255 - length l) 0) []) as (offs & l' & HP & Hl' & _ & _ & Hm);
    [done|lia|cbn; lia|]. cbn [app] in HP. change (zlen []) with 0 in HP. rewrite HP.
  exists (l' ++ 0 :: replicate (255 - length l) 0). split; [rewrite length_app; cbn; rewrite length_replicate; lia|].
  cbn [length] in Hm. change (32 - 0)%nat with 32%nat in Hm. rewrite <- Hm.
  assert (Hid : map (Z.add 0) offs = offs) by (by rewrite (map_ext _ id), map_id). rewrite Hid.
  destruct offs as [|o offs]; cbn [map]; [done|].
  change (zlen (o :: offs) =? 0) with false. cbn [cursor_pos_ prompt_shown_ buffer_].
  by destruct (dispatch _ true w).
Qed.

(** C15: The user shell: the keys of a line, corrected with backspace and cut at 255
    characters, followed by a newline, print as they are typed, run the command whose
    arguments are the words of the line, and leave an empty line and a new prompt, unless
    the command is a program that was started, when the prompt comes with the next key. *)
Theorem OnKeys_line ks shown sh w :
  editing [] shown sh -> Forall line_key ks ->
  OnKeys (ks ++ [10]) sh w
  = match run_line (fold_left edit ks []) (Print [10] (echo [] ks (if shown then w else PrintPrompt w))) with
    | Continue shown w => Continue (mkShell (replicate 256 0) 0 shown) (if shown then PrintPrompt w else w)
    | Exited w => Exited w
    | Overflow => Overflow
    end.
Proof.
  intros He Hk.
  assert (Hstart : OnKeys (ks ++ [10]) sh w
    = OnKeys (ks ++ [10]) (mkShell (buffer_ sh) (cursor_pos_ sh) true) (if shown then w else PrintPrompt w)).
  { destruct shown.
    - destruct He as [_ _ <- _ _]. by destruct sh as [b c []].
    - destruct ks as [|c ks]; cbn [app OnKeys]; rewrite OnKey_prompt by (apply He || done || (apply Forall_cons in Hk as [[Hc _] _]; lia)); done. }
  rewrite Hstart. clear Hstart. set (w0 := if shown then w else PrintPrompt w). set (sh0 := mkShell _ _ _).
  assert (He0 : editing [] true sh0) by (destruct He; by split).
  rewrite OnKeys_app. destruct (OnKeys_edit ks [] sh0 w0 He0 Hk) as (sh1 & -> & He1).
  set (l := fold_left edit ks []) in *. cbn [OnKeys]. unfold OnKey. cbn [Z.eqb Pos.eqb].
  rewrite (ed_prompt _ _ _ He1).
  assert (He2 : editing l true (mkShell (buffer_ sh1) (cursor_pos_ sh1) true)) by (destruct He1; by split).
  destruct (ExecuteCommand_spec l _ (Print (c_lit "\n") (echo [] ks w0)) He2) as (buf & Hbuf & ->).
  change (c_lit "\n") with [10]. destruct (run_line l (Print [10] (echo [] ks w0))) as [shown' w'|w'|]; try done.
  cbn [prompt_shown_ buffer_]. do 2 f_equal.
  unfold memset, kMaxCommandLen. rewrite splice_0, length_replicate. change (u8 0) with 0.
  change (Z.to_nat 256) with 256%nat. rewrite drop_ge by lia. apply app_nil_r.
Qed.
End Typing.

(** the path of a program has 64 characters: a command of 55 or more writes past it *)
Lemma long_command_overflows {W} `{UserCalls W} args shown (w : W) :
  55 <= zlen (args !!! 0%nat) -> run_program args shown w = Overflow.
Proof.
  intros Hl. unfold run_program. assert (Hs : strcpy (replicate 64 0) (c_lit "/sys/bin/")
    = Some (c_lit "/sys/bin/" ++ replicate 55 0)) by (vm_compute; reflexivity).
  rewrite Hs. unfold strcat. assert (Hc : zlen (cstr_of (c_lit "/sys/bin/" ++ replicate 55 0)) = 9) by (vm_compute; reflexivity).
  rewrite Hc, copy_str_splice by lia. change (zlen (c_lit "/sys/bin/" ++ replicate 55 0)) with 64.
  by rewrite (proj2 (Z.ltb_ge _ 64)) by lia.
Qed.

(** ** A system that records what is written and the programs started *)

Definition Trace : Type := list (list Z).

#[export] Instance trace_calls : UserCalls Trace := {
  sc_Write fd s w := w ++ [s];
  sc_Read fd n w := ([], w);
  sc_ListDirectory cluster w := w;
  sc_ReadFile path n w := (0, [], w);
  sc_DeleteFile path w := (0, w);
  sc_Spawn path args w := (1, w ++ [path] ++ args);
  sc_Yield w := w
}.

(** a corrected [echo] *)
Lemma OnKeys_line_witness :
  OnKeys (c_lit "ex\bcho  hi" ++ [10]) new_Shell ([] : Trace)
  = Continue (mkShell (replicate 256 0) 0 true)
      ([c_lit "Sylphia:/$ "; c_lit "e"; c_lit "x"; c_lit "\b"; c_lit "c"; c_lit "h"; c_lit "o"; c_lit " "; c_lit " ";
        c_lit "h"; c_lit "i"; c_lit "\n"; c_lit "hi"; c_lit "\n"; c_lit "Sylphia:/$ "]).
Proof.
  rewrite (OnKeys_line (c_lit "ex\bcho  hi") false new_Shell ([] : Trace)).
  - vm_compute. reflexivity.
  - split; [reflexivity|reflexivity|reflexivity|vm_compute; discriminate|apply Forall_nil; exact I].
  - repeat (apply Forall_cons; split; [split; [vm_compute; split; reflexivity|vm_compute; discriminate]|]).
    apply Forall_nil. exact I.
Defined.
