(* ===== verification/Apps.v ===== *)
(** * The test programs (apps/stdio/main.cpp, apps/test/main.cpp, apps/_link/start.asm)

    User programs over the system calls of [Class UserCalls]; PutChar and Exit are
    arguments.  The number printing of the test program prints the number. *)
From S2P Require Import Prelude CStr Printk Shell.

Section Stdio.
Context {W : Type} `{UserCalls W}.
Implicit Types w : W.

Definition welcome : list Z := c_lit "Standard I/O Test App\nType something and press Enter (or just type):\n".

(** the loop: [None] when it has not ended after [n] rounds *)
Fixpoint echo_loop (n : nat) w : option W :=
  match n with
  | O => None
  | S n' =>
      let '(buf, w) := sc_Read 0 128 w in
      let w := if 0 <? zlen buf then sc_Write 1 buf w else w in
      if (0 <? zlen buf) && (rd buf 0 =? 113) then Some w else echo_loop n' w
  end.

(** main, and what it ends with *)
Definition stdio_main (n : nat) (Exit : W -> W) w : option W :=
  match echo_loop n (sc_Write 1 welcome w) with
  | Some w => Some (Exit (sc_Write 1 (c_lit "\nExiting...\n") w))
  | None => None
  end.
End Stdio.

Section Test.
Context {W : Type}.
Variables (PutChar : Z -> W -> W) (Exit : W -> W).
Implicit Types w : W.

Definition print (s : list Z) w : W := fold_left (fun w c => PutChar c w) s w.

(** C's division and remainder; 32 rounds are more than a 32-bit number has digits *)
Fixpoint print_digits (fuel : nat) (n : Z) w : W :=
  match fuel with
  | O => w
  | S f =>
      let '(n, w) := if n <? 0 then (i32 (- n), PutChar 45 w) else (n, w) in
      let w := if negb (Z.quot n 10 =? 0) then print_digits f (Z.quot n 10) w else w in
      PutChar (u8 (Z.rem n 10 + 48)) w
  end.
Definition print_int (n : Z) w : W := print_digits 32 n w.

Definition hex_nibble (n i : Z) w : W :=
  let nibble := Z.land (Z.shiftr n (i * 4)) 0xF in
  if nibble <? 10 then PutChar (nibble + 48) w else PutChar (nibble - 10 + 65) w.

(** [for (i = 15; i >= 0; --i)] *)
Fixpoint print_nibbles (m : nat) (n : Z) w : W :=
  match m with
  | O => w
  | S i => print_nibbles i n (hex_nibble n (Z.of_nat i) w)
  end.
Definition print_hex (n : Z) w : W := print_nibbles 16 n (PutChar 120 (PutChar 48 w)).

Definition test_main w : W := Exit (print [72; 105; 33; 10] w).

(** [main] returns; then the system call Exit, and an endless loop *)
Definition _start (main : W -> W) w : W := Exit (main w).

(** ** The printed number *)

Lemma print_app s1 s2 w : print (s1 ++ s2) w = print s2 (print s1 w).
Proof. unfold print. apply fold_left_app. Qed.

Lemma print_digits_positive f : forall n w, 0 <= n < 2 ^ Z.of_nat f -> (0 < f)%nat ->
  print_digits f n w = print (rev (utoa_digits f n 10)) w.
Proof.
  induction f as [|f IH]; intros n w Hn Hf; [lia|]. cbn [print_digits utoa_digits rev].
  rewrite (proj2 (Z.ltb_ge n 0)) by lia. rewrite Z.quot_div_nonneg, Z.rem_mod_nonneg by lia.
  rewrite print_app. pose proof (Z.mod_pos_bound n 10 ltac:(lia)) as Hm.
  assert (Hd : digit_char (n mod 10) = u8 (n mod 10 + 48)).
  { unfold digit_char. rewrite (proj2 (Z.ltb_lt _ 10)) by lia. by rewrite u8_small by lia. }
  rewrite Hd. destruct (Z.eqb_spec (n / 10) 0) as [Hz|Hz]; cbn [negb rev]; [done|].
  rewrite IH; [done| |].
  - rewrite Nat2Z.inj_succ, Z.pow_succ_r in Hn by lia. split; [apply Z.div_pos; lia|]. apply Z.div_lt_upper_bound; nia.
  - destruct f; [|lia]. cbn in Hn. rewrite Z.div_small in Hz by lia. done.
Qed.

(** print_int prints a minus sign when it must and the digits of the number, most
    significant first; the smallest number has no negative. *)
Lemma print_int_decimal n w : - 2 ^ 31 < n < 2 ^ 31 ->
  exists s, print_int n w = print ((if n <? 0 then [45] else []) ++ s) w /\ digits_value 10 s = Z.abs n.
Proof.
  intros Hn. exists (rev (utoa_digits 32 (Z.abs n) 10)).
  assert (Ha : 0 <= Z.abs n < 2 ^ Z.of_nat 32) by (change (2 ^ Z.of_nat 32) with 4294967296; lia).
  split; [|by apply utoa_digits_value; [lia| |lia]].
  rewrite print_app, <- print_digits_positive; [|exact Ha|lia].
  unfold print_int. destruct (Z.ltb_spec n 0) as [Hneg|Hpos].
  - rewrite Z.abs_neq by lia. change 32%nat with (S 31) at 1 2. cbn [print_digits].
    rewrite (proj2 (Z.ltb_lt n 0)), (proj2 (Z.ltb_ge (- n) 0)) by lia.
    replace (i32 (- n)) with (- n) by (unfold i32; rewrite Z.mod_small by lia; lia). done.
  - by rewrite Z.abs_eq by lia.
Qed.
End Test.
