(* ===== verification/KernelState.v ===== *)
(** * The state of the whole kernel

    The components keep their own state in the files before this one.  [Sys] puts the
    states together, and a step of a component becomes a step of the kernel: it runs on
    its part, with the one frame allocator, and what it prints goes to the console in
    the order it is printed. *)
From S2P Require Import Prelude Run Memory Rings CStr Printk Device Fat32Names Fat32 Graphics Console Logger Machine Cpu UserMode Paging PagingMap Tasks Scheduler Pci Xhci Usb UsbKeyboard MassStorage UsbPorts Process Nvme Syscall.
#[local] Open Scope run_scope.

(** [app]: the machine, the internal disk, the tasks with the page tables and the
    processor, and all that was printed; [stick] is the USB disk.  [None] is a null
    pointer. *)
Record Sys (W D1 D2 M : Type) := mkSys {
  app : Host W D2 (App M);
  stick : D1;
  kern : Kernel;
  g_event_logger : option EventLogger;
  g_xhci : option Controller;
  devices : Drivers;
  g_nvme : option (Nvme.Driver W M);
  g_lapic : bool;
  g_fat32_driver : option FAT32Driver;
  g_idle_task : Z
}.
Arguments mkSys {W D1 D2 M}.
Arguments app {W D1 D2 M}.
Arguments stick {W D1 D2 M}.
Arguments kern {W D1 D2 M}.
Arguments g_event_logger {W D1 D2 M}.
Arguments g_xhci {W D1 D2 M}.
Arguments devices {W D1 D2 M}.
Arguments g_nvme {W D1 D2 M}.
Arguments g_lapic {W D1 D2 M}.
Arguments g_fat32_driver {W D1 D2 M}.
Arguments g_idle_task {W D1 D2 M}.

Section Kernel.
Context {W D1 D2 M : Type} `{Machine W} `{BlockDevice D1} `{BlockDevice D2}
  `{FrameAllocator M} `{FramePool M}.
Local Abbreviation St := (Sys W D1 D2 M).
Local Abbreviation SR := (fun A => St -> Run St A).
Implicit Types s : St.

(** ** Parts of the state *)

Definition set_app s (a : Host W D2 (App M)) : St :=
  mkSys a (stick s) (kern s) (g_event_logger s) (g_xhci s) (devices s) (g_nvme s) (g_lapic s) (g_fat32_driver s) (g_idle_task s).
Definition set_stick s (d : D1) : St :=
  mkSys (app s) d (kern s) (g_event_logger s) (g_xhci s) (devices s) (g_nvme s) (g_lapic s) (g_fat32_driver s) (g_idle_task s).
Definition set_kern s (k : Kernel) : St :=
  mkSys (app s) (stick s) k (g_event_logger s) (g_xhci s) (devices s) (g_nvme s) (g_lapic s) (g_fat32_driver s) (g_idle_task s).
Definition set_logger s (l : option EventLogger) : St :=
  mkSys (app s) (stick s) (kern s) l (g_xhci s) (devices s) (g_nvme s) (g_lapic s) (g_fat32_driver s) (g_idle_task s).
Definition set_buses s (x : option Controller) (d : Drivers) (n : option (Nvme.Driver W M)) : St :=
  mkSys (app s) (stick s) (kern s) (g_event_logger s) x d n (g_lapic s) (g_fat32_driver s) (g_idle_task s).
Definition set_lapic s (b : bool) : St :=
  mkSys (app s) (stick s) (kern s) (g_event_logger s) (g_xhci s) (devices s) (g_nvme s) b (g_fat32_driver s) (g_idle_task s).
Definition set_fs s (f : option FAT32Driver) : St :=
  mkSys (app s) (stick s) (kern s) (g_event_logger s) (g_xhci s) (devices s) (g_nvme s) (g_lapic s) f (g_idle_task s).
Definition set_idle s (t : Z) : St :=
  mkSys (app s) (stick s) (kern s) (g_event_logger s) (g_xhci s) (devices s) (g_nvme s) (g_lapic s) (g_fat32_driver s) t.

(** the frame allocator is in the page manager *)
Definition frames s : M := Paging.pool (paging (app s)).
Definition set_paging s (p : PM M) : St := set_app s (with_tasks (app s) (with_pages p (tasks (app s)))).
Definition set_frames s (m : M) : St := set_paging s (Paging.with_pool (paging (app s)) m).
Definition set_machine s (w : W) : St := set_app s (with_mach (app s) w).
Definition set_disk s (d : D2) : St :=
  set_app s (mkHost (mach (app s)) d (drv (app s)) (out (app s))).

(** ** What is printed *)

(** kprintf: the strings it hands to PutString, as Printk.v computes them *)
Definition show_event (c : option Console) (e : kevent) : option Console :=
  match c, Printk.kprintf true (kp_fmt e) (kp_args e) with
  | Some c, Some (strs, _) => Some (fold_left PutString strs c)
  | _, _ => c
  end.

Definition shown (evs : list kevent) s : St :=
  set_kern (set_app s (mkHost (mach (app s)) (Machine.pool (app s)) (drv (app s)) (out (app s) ++ evs)))
    (set_console (fold_left show_event evs (g_console (kern s))) (kern s)).
Definition kprintf (fmt : string) (args : list karg) : SR unit := fun s => Ret tt (shown [KP (c_lit fmt) args] s).

(** ** Steps of the components *)

(** also for a null pointer followed, as in Process.v *)
Definition undefined {A} : SR A := fun _ => NoFuel.

(** a step that starts with nothing printed *)
Definition quiet_pages (p : PM M) : PM M :=
  mkPM (pml4_table_ p) (cr3 p) (tables p) (Paging.pool p) (invalidated p) [].
Definition quiet (h : Host W D2 (App M)) : Host W D2 (App M) :=
  let h := mkHost (mach h) (Machine.pool h) (drv h) [] in
  with_tasks h (with_pages (quiet_pages (paging h)) (Process.tasks h)).
Definition settle s (h : Host W D2 (App M)) : St :=
  let evs := pm_out (paging h) ++ out h in
  let h := quiet h in
  shown evs (set_app s (mkHost (mach h) (Machine.pool h) (drv h) (out (app s)))).

Definition on_app {A} (m : Host W D2 (App M) -> Run (Host W D2 (App M)) A) : SR A := fun s =>
  match m (quiet (app s)) with
  | Ret a h => Ret a (settle s h)
  | Halted h => Halted (settle s h)
  | NoFuel => NoFuel
  end.

(** code on the machine, the allocator and the part [part] of the state *)
Definition on_part {X A} (part : St -> X) (set_part : St -> X -> St)
    (m : Host W M X -> Run (Host W M X) A) : SR A := fun s =>
  let back (h : Host W M X) := shown (out h) (set_frames (set_part (set_machine s (mach h)) (drv h)) (Machine.pool h)) in
  match m (mkHost (mach (app s)) (frames s) (part s) []) with
  | Ret a h => Ret a (back h)
  | Halted h => Halted (back h)
  | NoFuel => NoFuel
  end.

Definition on_hardware {A} (m : Host W M unit -> Run (Host W M unit) A) : SR A :=
  on_part (fun _ => tt) (fun s _ => s) m.

Definition set_core s (c : Core) : St :=
  set_app s (with_app (app s) (mkApp (sched (drv (app s))) c (g_app_running (drv (app s))) (flushed (drv (app s))))).
Definition on_boot {A} (m : Host W M (Cpu * PM M) -> Run (Host W M (Cpu * PM M)) A) : SR A :=
  on_part (fun s => (sys (core (drv (app s))), quiet_pages (paging (app s))))
    (fun s x => set_paging (set_core s (set_sys (fun _ => x.1) (core (drv (app s))))) (quiet_pages x.2)) m.

Definition on_buses {A} (m : Host W M (option Controller * Drivers * option (Nvme.Driver W M)) ->
    Run (Host W M (option Controller * Drivers * option (Nvme.Driver W M))) A) : SR A :=
  on_part (fun s => (g_xhci s, devices s, g_nvme s)) (fun s x => set_buses s x.1.1 x.1.2 x.2) m.

(** a method of the object g_xhci points to *)
Definition on_xhci {A} (m : Host W M Controller -> Run (Host W M Controller) A) : SR A := fun s =>
  match g_xhci s with
  | Some x => on_part (fun _ => x) (fun s x => set_buses s (Some x) (devices s) (g_nvme s)) m s
  | None => NoFuel
  end.

(** the monad of Device.v *)
Definition on_device {D A} (device : St -> D) (set_device : St -> D -> St) (m : FS D M A) : SR A := fun s =>
  match m (mkWorld (device s) (frames s) []) with
  | Done a w => Ret a (shown (w_out w) (set_frames (set_device s (w_dev w)) (w_mm w)))
  | NullBuffer | OutOfFuel => NoFuel
  end.
Definition on_calls {A} : FS (D2 * Kernel) M A -> SR A :=
  on_device (fun s => (Machine.pool (app s), kern s)) (fun s x => set_kern (set_disk s x.1) x.2).
Definition on_disk {A} : FS D2 M A -> SR A := on_device (fun s => Machine.pool (app s)) set_disk.
Definition on_disks {A} : FS (D1 * D2) M A -> SR A :=
  on_device (fun s => (stick s, Machine.pool (app s))) (fun s x => set_stick (set_disk s x.2) x.1).
End Kernel.
Arguments kprintf {W D1 D2 M} _%_string _ _.
