(* ===== verification/KernelMain.v ===== *)
(** * KernelMain (kernel/main.cpp, sys/init/init.cpp)

    The start of the kernel, every step in its order on the state of [KernelState]:
    screen and console, processor and memory, standard input and output, the devices,
    the file system, interrupts and tasks; and the interrupt of the timer, whose first
    arrival starts the idle task.  An interrupt between [sti] and the end of KernelMain is
    not modelled. *)
From stdpp Require Import functions.
From S2P Require Import Prelude Run Memory Rings CStr Printk Device Fat32Names Fat32 Graphics Console Logger Installer Machine Cpu Idt UserMode Paging Tasks TaskQueue Scheduler TaskLife Pci Xhci Usb UsbKeyboard MassStorage UsbPorts Interrupts Apic Init Process Nvme Syscall KernelState.
#[local] Open Scope run_scope.

(** ** The controllers SetupPCI finds *)

Section Buses.
Context {W M : Type} `{Machine W} `{FrameAllocator M}.
(** the NVMe controller whose registers are at an address *)
Variable nvme_at : Z -> NvmeController W.
Local Abbreviation Buses := (option Controller * Drivers * option (Nvme.Driver W M))%type.
Local Abbreviation BR := (fun A => Host W M Buses -> Run (Host W M Buses) A).

Definition sizeof_Controller : Z := 106600.
Definition sizeof_NvmeDriver : Z := 112.

(** operator new for an object; a null pointer would be followed by its constructor *)
Definition construct (size : Z) : BR Z :=
  obj <-- new_object size ;;
  if obj =? 0 then fun _ => NoFuel else ret obj.

Definition on_controller {A} (x : Controller) (m : Host W M Controller -> Run (Host W M Controller) A) : BR A := fun s =>
  let back (h : Host W M Controller) :=
    mkHost (mach h) (Machine.pool h) (Some (drv h), (drv s).1.2, (drv s).2) (Machine.out h) in
  match m (mkHost (mach s) (Machine.pool s) x (Machine.out s)) with
  | Ret a h => Ret a (back h)
  | Halted h => Halted (back h)
  | NoFuel => NoFuel
  end.

(** [fuel] and [polls] are those of UsbPorts.v; [dev_desc] is a local variable *)
Definition start_xhci (fuel polls : nat) (dev_desc : Z) (dev : Device) : BR unit :=
  construct sizeof_Controller ;;;
  d <-- get (fun s => (drv s).1.2) ;;
  d <-- on_controller (new_Controller dev) (UsbPorts.Initialize fuel polls dev_desc d) ;;
  Run.modify (fun s => with_drv s ((drv s).1.1, d, (drv s).2)).

Definition start_nvme (fuel : nat) (bar0 : Z) : BR unit :=
  construct sizeof_NvmeDriver ;;;
  fun s =>
    let _ := nvme_at bar0 in
    let back (n : Nvme.Driver W M) :=
      mkHost (Nvme.ctl n) (Nvme.pool n) ((drv s).1, Some n) (Machine.out s ++ nv_out n) in
    match (Nvme.Initialize fuel ;;; IdentifyController fuel ;;; CreateIOQueues fuel)
            (new_Driver (mach s) (Machine.pool s)) with
    | Ret a n => Ret a (back n)
    | Halted n => Halted (back n)
    | NoFuel => NoFuel
    end.
End Buses.

(** ** Standard input and output, the logger *)

Section InitializeIO.
Context {W D1 D2 M : Type} `{Machine W} `{BlockDevice D1} `{BlockDevice D2} `{FrameAllocator M} `{FramePool M}.
Local Abbreviation SR := (fun A => Sys W D1 D2 M -> Run (Sys W D1 D2 M) A).

Definition sizeof_EventLogger : Z := 38928.

Definition set_stdio (fd : Z) (x : FileDescriptor) : SR unit :=
  Run.modify (fun s => set_kern s (set_fd fd (Some x) (kern s))).

(** [junk] is what the memory of the messages holds *)
Definition InitializeLogger (junk : list (list Z)) : SR unit :=
  on_disk (Buffer (sizeof_EventLogger + 16) 16) ;;;
  Run.modify (fun s => set_logger s (Some (new_EventLogger junk))).

(** [garbage]: the uninitialised array of the keyboard's buffer *)
Definition InitializeIO (garbage : list Z) (junk : list (list Z)) : SR unit :=
  keyboard <-- on_disk (Buffer (sizeof_KeyboardFD + 16) 16) ;;
  set_stdio 0 (FD_KEYBOARD keyboard (KeyboardFD.new garbage)) ;;;
  console <-- on_disk (Buffer (sizeof_ConsoleFD + 16) 16) ;;
  set_stdio 1 (FD_CONSOLE console) ;;;
  console <-- on_disk (Buffer (sizeof_ConsoleFD + 16) 16) ;;
  set_stdio 2 (FD_CONSOLE console) ;;;
  kprintf "Standard I/O Initialized (FD 0, 1, 2).\n" [] ;;;
  InitializeLogger junk ;;;
  kprintf "Event Logger Initialized.\n" [].
End InitializeIO.

(** ** KernelMain *)

Section KernelMain.
Context {W D1 D2 : Type} `{Machine W} `{BlockDevice D1} `{BlockDevice D2}.
Local Abbreviation MM := MemoryManager.t.
Local Abbreviation St := (Sys W D1 D2 MM).
Local Abbreviation SR := (fun A => St -> Run St A).

(** addresses of static variables and of functions, and what memory holds where an
    object is made or the installer takes a buffer *)
Variables (gdt tss idt : Z) (address : Handler -> Z) (SyscallEntry_at kernel_start kernel_end IdleTaskEntry_at dev_desc : Z).
Variables (nvme_at : Z -> NvmeController W) (fuel polls : nat) (copies : nat -> list Z).
Variables (esc garbage : list Z) (junk : list (list Z)) (pixels : Pixels).

Definition kDesktopBG : Z := 0xFF181818.

(** step 1 *)
Definition initialize_console (config : FrameBufferConfig) : SR unit :=
  let fb := FillRectangle config 0 0 (HorizontalResolution config) (VerticalResolution config) kDesktopBG pixels in
  Run.modify (fun s => set_kern s (set_console (Some (new_Console config 0xFFFFFFFF kDesktopBG esc fb)) (kern s))).

(** step 4 *)
Definition setup_pci : SR unit :=
  on_buses (SetupPCI (start_xhci fuel polls dev_desc) (start_nvme nvme_at fuel)).

(** step 5 *)
Definition boot_file_system : SR unit :=
  nvme <-- get (fun s => bool_decide (is_Some (g_nvme s))) ;;
  stick <-- get (fun s => bool_decide (is_Some (g_mass_storage (devices s)))) ;;
  fs <-- on_disks (BootFileSystem fuel copies nvme stick) ;;
  Run.modify (fun s => set_fs s fs).

Definition log_info (ty : LogType) (msg : string) : SR unit := fun s =>
  match g_event_logger s with
  | Some l => Ret tt (set_logger s (Some (Log l Info ty (c_lit msg))))
  | None => NoFuel
  end.

(** step 6 *)
Definition enable_apic : SR unit :=
  Run.modify (fun s => set_lapic s true) ;;;
  on_hardware LapicEnable ;;;
  log_info Logger.Kernel "Local APIC enabled." ;;;
  on_hardware (id <-- GetID ;; IoapicEnable 1 0x40 id).

(** step 7 *)
Definition start_tasks : SR unit :=
  on_app (on_tasks Tasks.Initialize) ;;;
  on_app (try_sched (fun x => Some (Scheduler.Initialize x))) ;;;
  task <-- on_app (InitializeIdleTask IdleTaskEntry_at) ;;
  Run.modify (fun s => set_idle s task) ;;;
  kprintf "[Kernel] Multitasking initialized.\n" [].

(** steps 1 to 5 *)
Definition boot_system (config : FrameBufferConfig) (memmap : MemoryMap) : SR unit :=
  on_app (on_processor cli) ;;;
  initialize_console config ;;;
  on_boot (InitializeCore gdt tss idt address SyscallEntry_at kernel_start kernel_end memmap) ;;;
  InitializeIO garbage junk ;;;
  setup_pci ;;;
  on_app (on_processor sti) ;;;
  boot_file_system.

Definition KernelMain (config : FrameBufferConfig) (memmap : MemoryMap) : SR unit :=
  boot_system config memmap ;;;
  enable_apic ;;;
  start_tasks ;;;
  kprintf "\nWelcome to Sylphia-OS!\n" [] ;;;
  kprintf "[Kernel] Starting scheduler... Shell will be auto-started.\n" [] ;;;
  on_app (try_sched (fun x => Some (Enable x))) ;;;
  on_hardware (StartTimer 10 0x20) ;;;
  halt.
End KernelMain.

(** ** The interrupt of the timer (TimerHandler of interrupt.cpp) *)

Section Timer.
Context {W D1 D2 M : Type} `{Machine W} `{BlockDevice D1} `{BlockDevice D2} `{FrameAllocator M} `{FramePool M}.
Local Abbreviation SR := (fun A => Sys W D1 D2 M -> Run (Sys W D1 D2 M) A).
Variable fuel : nat.

Definition acknowledge : SR unit :=
  lapic <-- get g_lapic ;;
  if lapic then on_hardware EndOfInterrupt else ret tt.

(** g_usb_keyboard->Update(), which hands characters to g_fds[0] when it is a KeyboardFD *)
Definition update_stdin : SR unit :=
  d <-- get devices ;;
  match g_usb_keyboard d with
  | None => ret tt
  | Some _ =>
      x <-- get (fun s => rd (g_fds (kern s)) 0) ;;
      match x with
      | Some (FD_KEYBOARD obj r) =>
          r' <-- on_xhci (update_keyboard fuel d (Some r)) ;;
          set_stdio 0 (FD_KEYBOARD obj (default r r'))
      | _ => on_xhci (update_keyboard fuel d None) ;;; ret tt
      end
  end.

Definition timer_interrupt : SR unit :=
  acknowledge ;;;
  update_stdin ;;;
  on_app (try_sched (Schedule false)).
End Timer.

(** ** What the steps leave alone *)

Section Kept.
Context {W D1 D2 M : Type} `{Machine W} `{BlockDevice D1} `{BlockDevice D2} `{FrameAllocator M} `{FramePool M}.
Local Abbreviation St := (Sys W D1 D2 M).
Implicit Types s : St.

Record kept s s' : Prop := {
  kp_logger : g_event_logger s' = g_event_logger s;
  kp_fds : g_fds (kern s') = g_fds (kern s);
  kp_heap : heap (tasks (app s')) = heap (tasks (app s));
  kp_regs : regs (core (drv (app s'))) = regs (core (drv (app s)))
}.

Lemma kept_trans s1 s2 s3 : kept s1 s2 -> kept s2 s3 -> kept s1 s3.
Proof. intros [] []. split; congruence. Qed.

Lemma on_part_kept {X A} part set_part (m : Host W M X -> Run (Host W M X) A) s a s' :
  (forall s x, kept s (set_part s x)) -> on_part part set_part m s = Ret a s' -> kept s s'.
Proof.
  intros Hset. unfold on_part. destruct (m _) as [b h| |]; [|done..]. intros [= <- <-].
  destruct (Hset (set_machine s (mach h)) (drv h)) as [Hl Hf Hh Hr].
  split; [exact Hl|exact Hf|exact Hh|exact Hr].
Qed.

Lemma on_device_kept {D A} device set_device (m : FS D M A) s a s' :
  (forall s d, kept s (set_device s d)) -> on_device device set_device m s = Ret a s' -> kept s s'.
Proof.
  intros Hset. unfold on_device. destruct (m _) as [b w| |]; [|done..]. intros [= <- <-].
  destruct (Hset s (w_dev w)) as [Hl Hf Hh Hr]. split; [exact Hl|exact Hf|exact Hh|exact Hr].
Qed.

Lemma on_boot_kept {A} (m : Host W M (Cpu * PM M) -> Run (Host W M (Cpu * PM M)) A) s a s' :
  on_boot m s = Ret a s' -> kept s s'.
Proof. apply on_part_kept. by split. Qed.
Lemma on_buses_kept {A} m s (a : A) s' : on_buses m s = Ret a s' -> kept s s'.
Proof. apply on_part_kept. by split. Qed.
Lemma on_disk_kept {A} (m : FS D2 M A) s a s' : on_disk m s = Ret a s' -> kept s s'.
Proof. apply on_device_kept. by split. Qed.
Lemma on_disks_kept {A} (m : FS (D1 * D2) M A) s a s' : on_disks m s = Ret a s' -> kept s s'.
Proof. apply on_device_kept. by split. Qed.

(** [cli] and [sti] change the flags only *)
Record kept_but_flags s s' : Prop := {
  kf_logger : g_event_logger s' = g_event_logger s;
  kf_fds : g_fds (kern s') = g_fds (kern s);
  kf_heap : heap (tasks (app s')) = heap (tasks (app s))
}.

Lemma cli_kept s a s' : on_app (on_processor cli) s = Ret a s' -> kept_but_flags s s'.
Proof. intros [= <- <-]. by split. Qed.

Lemma sti_kept s a s' : on_app (on_processor sti) s = Ret a s' ->
  kept_but_flags s s' /\ Z.testbit (regs (core (drv (app s'))) RFLAGS) 9 = true.
Proof.
  intros [= <- <-]. split; [by split|]. set (f := regs (core (drv (app s)))).
  change (Z.testbit ((<[RFLAGS := Z.lor (f RFLAGS) interrupt_flag]> f) RFLAGS) 9 = true).
  rewrite fn_lookup_insert, Z.lor_spec. apply orb_true_r.
Qed.
End Kept.

(** ** Standard input and output *)

Section Stdio.
Context {W D1 D2 M : Type} `{Machine W} `{BlockDevice D1} `{BlockDevice D2} `{FrameAllocator M} `{FramePool M}.
Local Abbreviation St := (Sys W D1 D2 M).
Implicit Types s : St.

Definition stdio s : Prop := exists keyboard ring out err,
  rd (g_fds (kern s)) 0 = Some (FD_KEYBOARD keyboard ring) /\ rd (g_fds (kern s)) 1 = Some (FD_CONSOLE out)
  /\ rd (g_fds (kern s)) 2 = Some (FD_CONSOLE err).

Lemma stdio_fds s s' : g_fds (kern s') = g_fds (kern s) -> stdio s -> stdio s'.
Proof. intros Hf (k & r & o & e & Hst). exists k, r, o, e. by rewrite Hf. Qed.

Lemma set_stdio_Ret fd x s a s' : set_stdio fd x s = Ret a s' ->
  g_fds (kern s') = upd (g_fds (kern s)) fd (Some x) /\ heap (tasks (app s')) = heap (tasks (app s)).
Proof. by intros [= <- <-]. Qed.

Lemma InitializeIO_stdio garbage junk s a s' : zlen (g_fds (kern s)) = 16 ->
  InitializeIO garbage junk s = Ret a s' ->
  stdio s' /\ is_Some (g_event_logger s') /\ heap (tasks (app s')) = heap (tasks (app s)).
Proof.
  intros Hl Hr. unfold InitializeIO in Hr.
  apply bind_Ret_inv in Hr as (k & s1 & E1 & Hr). apply bind_Ret_inv in Hr as (u2 & s2 & E2 & Hr).
  apply bind_Ret_inv in Hr as (c & s3 & E3 & Hr). apply bind_Ret_inv in Hr as (u4 & s4 & E4 & Hr).
  apply bind_Ret_inv in Hr as (e & s5 & E5 & Hr). apply bind_Ret_inv in Hr as (u6 & s6 & E6 & Hr).
  apply bind_Ret_inv in Hr as (u7 & s7 & E7 & Hr). apply bind_Ret_inv in Hr as (u8 & s8 & E8 & Hr).
  apply bind_Ret_inv in E8 as (b & s9 & E9 & E8).
  injection E7 as <- <-. injection E8 as <- <-. injection Hr as <- <-.
  apply set_stdio_Ret in E2 as [F2 T2]. apply set_stdio_Ret in E4 as [F4 T4]. apply set_stdio_Ret in E6 as [F6 T6].
  apply on_disk_kept in E1 as [_ F1 T1 _]. apply on_disk_kept in E3 as [_ F3 T3 _].
  apply on_disk_kept in E5 as [_ F5 T5 _]. apply on_disk_kept in E9 as [_ F9 T9 _].
  split; [|split; [by eexists|]].
  - apply (stdio_fds s9); [done|]. exists k, (KeyboardFD.new garbage), c, e.
    change (g_fds (kern (shown _ s6))) with (g_fds (kern s6)) in F9.
    rewrite F9, F6, F5, F4, F3, F2, F1. set (l := g_fds (kern s)) in *. clearbody l.
    split_and!.
    + by rewrite !rd_upd_ne, rd_upd_eq by (rewrite ?zlen_upd; lia).
    + by rewrite !rd_upd_ne, rd_upd_eq by (rewrite ?zlen_upd; lia).
    + by rewrite rd_upd_eq by (rewrite ?zlen_upd; lia).
  - change (heap (tasks (app s9)) = heap (tasks (app s))).
    change (heap (tasks (app (shown _ s6)))) with (heap (tasks (app s6))) in T9. congruence.
Qed.
End Stdio.

(** ** The interrupt controllers *)

Section Hardware.
Context {W D1 D2 M : Type} `{Machine W} `{BlockDevice D1} `{BlockDevice D2} `{FrameAllocator M} `{FramePool M}.
Local Abbreviation St := (Sys W D1 D2 M).
Local Abbreviation HR := (fun A => Host W M unit -> Run (Host W M unit) A).
Implicit Types s : St.

(** what code that only accesses registers leaves *)
Record untouched s s' : Prop := {
  un_logger : g_event_logger s' = g_event_logger s;
  un_fds : g_fds (kern s') = g_fds (kern s);
  un_fs : g_fat32_driver s' = g_fat32_driver s;
  un_idle : g_idle_task s' = g_idle_task s;
  un_lapic : g_lapic s' = g_lapic s;
  un_drv : drv (app s') = drv (app s)
}.

Lemma untouched_trans s1 s2 s3 : untouched s1 s2 -> untouched s2 s3 -> untouched s1 s3.
Proof. intros [] []. split; congruence. Qed.

Lemma on_hardware_runs {A} (m : HR A) f s : runs m f ->
  exists s', on_hardware m s = Ret (fst (f (mach (app s)))) s' /\ untouched s s'
    /\ mach (app s') = snd (f (mach (app s))).
Proof.
  intros Hm. unfold on_hardware, on_part. rewrite (Hm (mkHost (mach (app s)) (frames s) tt [])).
  eexists. split; [reflexivity|]. split; [|done]. split; try done.
  unfold frames, paging. destruct s as [[w0 d0 [sc c b n] o] ? ? ? ? ? ? ? ? ?]. cbn.
  destruct sc as [t ? ? ? ? ?], t as [? ? ? ? ? ? ? ? ? p], p. done.
Qed.
End Hardware.

(** ** The idle task waits for the first tick *)

Section Idle.
Context {W D1 D2 : Type} `{ApicLaws W} `{BlockDevice D1} `{BlockDevice D2}.
Local Abbreviation MM := MemoryManager.t.
Local Abbreviation St := (Sys W D1 D2 MM).
Implicit Types s : St.

(** the interrupt controllers of the machine *)
Abbreviation controllers s := (apic (mach (app s))).

Lemma on_hardware_effect (m : Host W MM unit -> Run (Host W MM unit) unit) P s : effect m P ->
  exists s', on_hardware m s = Ret tt s' /\ untouched s s' /\ P (controllers s) (controllers s').
Proof.
  intros (f & Hr & HP). destruct (on_hardware_runs m f s Hr) as (s' & E & Hu & Hm). exists s'.
  destruct (fst _). split; [exact E|]. split; [exact Hu|]. rewrite Hm. apply HP.
Qed.

Lemma enable_apic_ends s : is_Some (g_event_logger s) -> exists s', enable_apic s = Ret tt s'
  /\ g_lapic s' = true /\ g_fds (kern s') = g_fds (kern s) /\ g_fat32_driver s' = g_fat32_driver s
  /\ drv (app s') = drv (app s)
  /\ controllers s' = apic_write 0xFEC00010 0x40 (apic_write 0xFEC00000 0x12
       (apic_write 0xFEC00010 (Z.shiftl (local_id (controllers s)) 24) (apic_write 0xFEC00000 0x13
         (apic_write 0xFEE000F0 0x1FF (controllers s))))).
Proof.
  intros [l Hl]. unfold enable_apic.
  rewrite (bind_Ret _ _ s tt (set_lapic s true)) by reflexivity.
  destruct (on_hardware_effect LapicEnable _ (set_lapic s true) LapicEnable_effect) as (s1 & E1 & [L1 F1 V1 _ A1 R1] & C1).
  rewrite (bind_Ret _ _ _ _ _ E1). set (l' := Log l Info Logger.Kernel (c_lit "Local APIC enabled.")).
  rewrite (bind_Ret _ _ s1 tt (set_logger s1 (Some l'))) by (unfold log_info; rewrite L1; cbn; rewrite Hl; done).
  destruct (on_hardware_effect _ _ (set_logger s1 (Some l')) (route_effect 1 0x40)) as (s2 & E2 & [L2 F2 V2 _ A2 R2] & C2).
  change (controllers (set_logger s1 (Some l'))) with (controllers s1) in C2.
  change (controllers (set_lapic s true)) with (controllers s) in C1.
  exists s2. split; [exact E2|]. split_and!.
  - rewrite A2. exact A1.
  - rewrite F2. exact F1.
  - rewrite V2. exact V1.
  - rewrite R2. exact R1.
  - rewrite C2, C1, local_id_write. pose proof (apic_id_range (mach (app s))) as Hid.
    set (high := Z.shiftl (local_id (controllers s)) 24).
    assert (Hh : 0 <= high < 2 ^ 32) by (unfold high; rewrite Z.shiftl_mul_pow2 by lia; lia).
    rewrite (u32_small high Hh), (u32_small high Hh). reflexivity.
Qed.

(** the task [p] waits for its first turn and the scheduler is on *)
Definition waiting s (p entry page_table : Z) : Prop :=
  waits (tasks (app s)) p entry page_table /\ enabled_ (sched (drv (app s))) = true.

Lemma on_part_waiting {X A} part set_part (m : Host W MM X -> Run (Host W MM X) A) s a s' p entry root :
  (forall s x, waiting s p entry root -> waiting (set_part s x) p entry root) ->
  on_part part set_part m s = Ret a s' -> waiting s p entry root -> waiting s' p entry root.
Proof.
  intros Hset. unfold on_part. destruct (m _) as [b h| |]; [|done..]. intros [= <- <-] Hw.
  assert (Hm : waiting (set_machine s (mach h)) p entry root) by exact Hw.
  destruct (Hset _ (drv h) Hm) as [Hw1 He1]. split; [|exact He1]. exact (waits_pages _ _ _ _ _ Hw1).
Qed.

Lemma on_xhci_waiting {A} (m : Host W MM Controller -> Run (Host W MM Controller) A) s a s' p entry root :
  on_xhci m s = Ret a s' -> waiting s p entry root -> waiting s' p entry root.
Proof.
  unfold on_xhci. destruct (g_xhci s) as [x|]; [|done]. apply on_part_waiting. done.
Qed.

Lemma update_stdin_waiting fuel s a s' p entry root :
  update_stdin fuel s = Ret a s' -> waiting s p entry root -> waiting s' p entry root.
Proof.
  unfold update_stdin. intros Hr Hw. apply bind_Ret_inv in Hr as (d & t1 & E1 & Hr). injection E1 as <- <-.
  destruct (g_usb_keyboard (devices s)); [|by injection Hr as _ <-].
  apply bind_Ret_inv in Hr as (x & t2 & E2 & Hr). injection E2 as <- <-.
  assert (Hnone : (on_xhci (update_keyboard fuel (devices s) None) ;;; ret tt) s = Ret a s' -> waiting s' p entry root).
  { intros Hn. apply bind_Ret_inv in Hn as (r & t3 & E3 & Hn). injection Hn as _ <-.
    exact (on_xhci_waiting _ _ _ _ _ _ _ E3 Hw). }
  destruct (rd (g_fds (kern s)) 0) as [[|obj r| |]|]; try by apply Hnone.
  apply bind_Ret_inv in Hr as (r' & t3 & E3 & Hr). injection Hr as _ <-.
  exact (on_xhci_waiting _ _ _ _ _ _ _ E3 Hw).
Qed.

(** TaskManager::Initialize forgets every task: with an empty heap the queue is empty *)
Lemma Initialize_queue (t : TM MM) : heap t = ∅ -> TaskQueue.queue (Tasks.Initialize t) [].
Proof.
  intros Hh. split; try done.
  - apply NoDup_nil_2.
  - apply not_elem_of_nil.
  - intros p tk Hl. cbn in Hl. rewrite Hh in Hl. done.
  - cbn. by rewrite Hh.
Qed.

(** CreateTask without memory for the structure or the stack *)
Definition no_memory (m : MM) : Prop :=
  fst (Allocate sizeof_Task 16 m) = 0
  \/ fst (Allocate Tasks.kKernelStackSize 16 (snd (Allocate sizeof_Task 16 m))) = 0.

Lemma CreateTask_null (t : TM MM) entry : fst (CreateTask entry t) = 0 -> no_memory (Paging.pool (pages t)).
Proof.
  unfold CreateTask, no_memory. destruct (Allocate sizeof_Task 16 _) as [p m1]. cbn [fst snd].
  destruct (Z.eqb_spec p 0) as [->|Hp]; [by left|]. cbn [pages with_mm with_pages Paging.with_pool Paging.pool].
  destruct (Allocate Tasks.kKernelStackSize 16 m1) as [stack m2]. cbn [fst].
  destruct (Z.eqb_spec stack 0) as [->|Hst]; [by right|]. done.
Qed.

(** the tasks after a step, with what it printed taken out *)
Lemma tasks_settle s (h : Host W D2 (App MM)) :
  tasks (app (settle s h)) = with_pages (quiet_pages (paging h)) (tasks h).
Proof. reflexivity. Qed.

Lemma queue_pages (t : TM MM) l pm : TaskQueue.queue t l -> TaskQueue.queue (with_pages pm t) l.
Proof. intros []. by split. Qed.

(** InitializeIdleTask where no task exists *)
Lemma InitializeIdleTask_ends entry (h : Host W D2 (App MM)) :
  TaskQueue.queue (tasks h) [] -> heap (tasks h) = ∅ -> current_task_ (tasks h) = 0 ->
  exists p h', InitializeIdleTask entry h = Ret p h' /\ core (drv h') = core (drv h) /\ mach h' = mach h
    /\ (p = 0 /\ no_memory (Paging.pool (paging h)) \/ waits (tasks h') p entry (cr3 (paging h))).
Proof.
  intros Hq Hh Hc. pose proof (CreateTask_waits (tasks h) entry Hq Hc) as Hw.
  pose proof (CreateTask_null (tasks h) entry) as Hz. unfold InitializeIdleTask.
  destruct (CreateTask entry (tasks h)) as [p t1] eqn:HC. cbn [fst] in Hz.
  rewrite (bind_Ret _ _ h p (with_tasks h t1)) by (unfold try_tasks; by rewrite HC).
  rewrite Hh in Hw. destruct (Hw (lookup_empty p)) as [->|(t2 & HA & Hwt & Hp)].
  - eexists 0, _. split; [reflexivity|]. split; [done|]. split; [done|]. left. split; [done|]. by apply Hz.
  - rewrite (proj2 (Z.eqb_neq p 0)) by done. cbn [negb].
    assert (Ht : try_tasks_ (AddToReadyQueue p) (with_tasks h t1) = Ret tt (with_tasks (with_tasks h t1) t2)).
    { unfold try_tasks_, try_tasks. change (tasks (with_tasks h t1)) with t1. rewrite HA. done. }
    rewrite (bind_Ret _ _ _ tt (with_tasks (with_tasks (with_tasks h t1) t2)
      (tprintf "[IdleTask] Created and added to ready queue.\n" [] t2))).
    2: { rewrite (bind_Ret _ _ _ _ _ Ht). reflexivity. }
    eexists p, _. split; [reflexivity|]. split; [done|]. split; [done|]. right. by apply waits_pages.
Qed.

(** what step 7 leaves of the rest *)
Record same_devices s s' : Prop := {
  sd_fds : g_fds (kern s') = g_fds (kern s);
  sd_fs : g_fat32_driver s' = g_fat32_driver s;
  sd_lapic : g_lapic s' = g_lapic s;
  sd_core : core (drv (app s')) = core (drv (app s));
  sd_mach : mach (app s') = mach (app s)
}.

Lemma start_tasks_ends entry s : heap (tasks (app s)) = ∅ ->
  exists s', start_tasks entry s = Ret tt s' /\ same_devices s s'
    /\ (g_idle_task s' = 0 /\ no_memory (frames s)
        \/ waits (tasks (app s')) (g_idle_task s') entry (cr3 (paging (app s)))).
Proof.
  intros Hh. unfold start_tasks.
  set (h1 := with_tasks (quiet (app s)) (Tasks.Initialize (tasks (quiet (app s))))).
  rewrite (bind_Ret _ _ s tt (settle s h1)) by reflexivity. set (s1 := settle s h1).
  assert (Hq1 : TaskQueue.queue (tasks (app s1)) []) by (apply queue_pages, Initialize_queue; exact Hh).
  set (h2 := with_sched (quiet (app s1)) (Scheduler.Initialize (sched (drv (quiet (app s1)))))).
  rewrite (bind_Ret _ _ s1 tt (settle s1 h2)) by reflexivity. set (s2 := settle s1 h2).
  assert (Hq2 : TaskQueue.queue (tasks (quiet (app s2))) []) by (do 4 apply queue_pages; exact Hq1).
  destruct (InitializeIdleTask_ends entry (quiet (app s2)) Hq2 Hh eq_refl) as (p & h3 & HI & Hcore & Hmach & Hp).
  rewrite (bind_Ret _ _ s2 p (settle s2 h3)) by (unfold on_app; by rewrite HI).
  eexists. split; [reflexivity|]. split; [split; [done|done|done|exact Hcore|exact Hmach]|].
  destruct Hp as [[-> Hn]|Hw]; [left; split; [done|exact Hn]|right]. exact (waits_pages _ _ _ _ _ Hw).
Qed.

Variables (gdt tss idt : Z) (address : Handler -> Z) (SyscallEntry_at kernel_start kernel_end IdleTaskEntry_at dev_desc : Z).
Variables (nvme_at : Z -> NvmeController W) (fuel polls : nat) (copies : nat -> list Z).
Variables (esc garbage : list Z) (junk : list (list Z)) (pixels : Pixels).
Local Abbreviation boot := (boot_system gdt tss idt address SyscallEntry_at kernel_start kernel_end dev_desc
  nvme_at fuel polls copies esc garbage junk pixels).
Local Abbreviation main := (KernelMain gdt tss idt address SyscallEntry_at kernel_start kernel_end IdleTaskEntry_at
  dev_desc nvme_at fuel polls copies esc garbage junk pixels).

Lemma initialize_console_kept config s a s' : initialize_console esc pixels config s = Ret a s' -> kept s s'.
Proof. unfold initialize_console, Run.modify. generalize (FillRectangle config 0 0). intros g [= <- <-]. by split. Qed.

Lemma setup_pci_kept s a s' : setup_pci dev_desc nvme_at fuel polls s = Ret a s' -> kept s s'.
Proof. unfold setup_pci. apply on_buses_kept. Qed.

Lemma boot_file_system_kept s a s' : boot_file_system fuel copies s = Ret a s' -> kept s s'.
Proof.
  unfold boot_file_system. intros Hr. apply bind_Ret_inv in Hr as (b1 & t1 & E1 & Hr). injection E1 as _ <-.
  apply bind_Ret_inv in Hr as (b2 & t2 & E2 & Hr). injection E2 as _ <-.
  apply bind_Ret_inv in Hr as (fs & t3 & E3 & Hr). apply on_disks_kept in E3 as [L F T R].
  injection Hr as <- <-. by split.
Qed.

Lemma boot_system_steps config memmap s : boot config memmap s = (
  on_app (on_processor cli) ;;;
  initialize_console esc pixels config ;;;
  on_boot (InitializeCore gdt tss idt address SyscallEntry_at kernel_start kernel_end memmap) ;;;
  InitializeIO garbage junk ;;;
  setup_pci dev_desc nvme_at fuel polls ;;;
  on_app (on_processor sti) ;;;
  boot_file_system fuel copies) s.
Proof. reflexivity. Qed.

(** steps 1 to 5, when they end *)
Lemma boot_system_ends config memmap s s1 : zlen (g_fds (kern s)) = 16 -> heap (tasks (app s)) = ∅ ->
  boot config memmap s = Ret tt s1 ->
  stdio s1 /\ is_Some (g_event_logger s1) /\ heap (tasks (app s1)) = ∅
  /\ Z.testbit (regs (core (drv (app s1))) RFLAGS) 9 = true.
Proof.
  intros Hl Hh Hr. rewrite boot_system_steps in Hr.
  apply bind_Ret_inv in Hr as (u1 & t1 & E1 & Hr). apply bind_Ret_inv in Hr as (u2 & t2 & E2 & Hr).
  apply bind_Ret_inv in Hr as (u3 & t3 & E3 & Hr). apply bind_Ret_inv in Hr as (u4 & t4 & E4 & Hr).
  apply bind_Ret_inv in Hr as (u5 & t5 & E5 & Hr). apply bind_Ret_inv in Hr as (u6 & t6 & E6 & E7).
  destruct (cli_kept _ _ _ E1) as [_ F1 T1]. destruct (sti_kept _ _ _ E6) as [[L6 F6 T6] Hif].
  pose proof (kept_trans _ _ _ (initialize_console_kept _ _ _ _ E2) (on_boot_kept _ _ _ _ E3)) as [_ F3 T3 _].
  pose proof (setup_pci_kept _ _ _ E5) as [L5 F5 T5 _]. pose proof (boot_file_system_kept _ _ _ E7) as [L F T R].
  apply InitializeIO_stdio in E4 as (Hs & Hlog & T4); [|by rewrite F3, F1].
  split; [by apply (stdio_fds t4); [congruence|]|]. split; [by rewrite L, L6, L5|].
  split; [by rewrite T, T6, T5, T4, T3, T1|]. by rewrite R.
Qed.

(** ** The first tick *)

(** the timer's interrupt comes in with the machine at [w]: it is acknowledged, standard
    input is looked at, and the task [p] starts; only the keyboard's driver can stop it *)
Definition first_tick s w (p entry page_table : Z) : Prop :=
  exists s2, acknowledge (set_machine s w) = Ret tt s2 /\ controllers s2 = controllers s /\
  match update_stdin fuel s2 with
  | Ret _ _ => exists s4, timer_interrupt fuel (set_machine s w) = Ret tt s4
      /\ starts_at (sched (drv (app s4))) p entry page_table /\ TaskQueue.queue (tasks (app s4)) []
  | Halted s3 => timer_interrupt fuel (set_machine s w) = Halted s3
  | NoFuel => timer_interrupt fuel (set_machine s w) = NoFuel
  end.

Lemma first_tick_ok s w p entry page_table :
  g_lapic s = true -> waiting s p entry page_table -> timer_fires (controllers s) = Some (apic w) ->
  first_tick s w p entry page_table.
Proof.
  intros Hlapic Hw Hf. set (s1 := set_machine s w).
  destruct (on_hardware_effect EndOfInterrupt _ s1 EndOfInterrupt_effect) as (s2 & E2 & [_ _ _ _ _ R2] & C2).
  assert (Hack : acknowledge s1 = Ret tt s2).
  { unfold acknowledge. rewrite (bind_Ret _ _ s1 true s1); [exact E2|]. unfold get. by rewrite <- Hlapic. }
  exists s2. split; [exact Hack|]. split; [rewrite C2; by apply timer_fires_eoi|].
  assert (Hw2 : waiting s2 p entry page_table).
  { unfold waiting, tasks. rewrite R2. exact Hw. }
  unfold timer_interrupt. rewrite (bind_Ret _ _ _ _ _ Hack).
  destruct (update_stdin fuel s2) as [[] s3|s3|] eqn:E3; [|by unfold bind; rewrite E3|by unfold bind; rewrite E3].
  rewrite (bind_Ret _ _ _ _ _ E3). destruct (update_stdin_waiting fuel _ _ _ _ _ _ E3 Hw2) as [Hw3 He3].
  destruct (first_run (sched (drv (quiet (app s3)))) p entry page_table false (waits_pages _ _ _ _ _ Hw3) He3)
    as (x & HS & Hst & Hq & _).
  exists (settle s3 (with_sched (quiet (app s3)) x)). split.
  { unfold on_app, try_sched. by rewrite HS. }
  split; [exact Hst|]. by apply queue_pages.
Qed.

End Idle.

(** ** A machine without devices *)

Definition no_nvme (_ : Z) : NvmeController ApicSim.t := {|
  get_cc _ := 0; set_cc _ w := w; get_csts _ := 0; set_aqa _ w := w; set_asq _ w := w; set_acq _ w := w;
  ram _ _ := 0; cq_status _ _ := 0; Nvme.clear _ _ w := w; ring_sq _ _ _ _ w := w; ring_cq _ _ w := w;
  Nvme.pause w := w |}.

Definition small_screen : FrameBufferConfig := mkFrameBufferConfig 0 2048 16 32 16.
Definition eight_megabytes : MemoryMap := [Build_MemoryDescriptor 7 0x1000 0 2000 0].
Definition power_on_with {W} (w : W) : Sys W RamDisk RamDisk MemoryManager.t :=
  mkSys (mkHost w ∅
      (mkApp (mkSched empty_tm false 0 zero_context zero_context false)
         (mkCore (fun _ => 0) (mkCpu 0 0 0 0 0x38 0x30 0x30 0 0 0 0x80000011 0x668 ∅) 0) false 0) [])
    ∅ (mkKernel (replicate 16 None) None (fun _ => 0) []) None None (mkDrivers None None) None false None 0.

(** without a keyboard the tick always ends *)
Lemma update_stdin_none {W D1 D2 M} `{Machine W} `{BlockDevice D1} `{BlockDevice D2} `{FrameAllocator M} `{FramePool M} fuel
    (s : Sys W D1 D2 M) :
  g_usb_keyboard (devices s) = None -> update_stdin fuel s = Ret tt s.
Proof. intros Hk. unfold update_stdin, get, bind. by rewrite Hk. Qed.

Definition power_on := power_on_with (∅ : Ram.t).

(** with the interrupt controllers *)
Definition reset_machine : ApicSim.t := (∅, ApicSim.reset).
Abbreviation small_boot := (boot_system 0x100000 0x101000 0x102000 IdtSim.address 0x104000 0x100000 0x110000 0x106000
  no_nvme 9 9 (fun _ => []) (replicate 32 0) (replicate 1024 0) (replicate 256 (replicate 128 0)) ∅ small_screen eight_megabytes
  (power_on_with reset_machine)).
Abbreviation small_main := (KernelMain 0x100000 0x101000 0x102000 IdtSim.address 0x104000 0x100000 0x110000 0x105000
  0x106000 no_nvme 9 9 (fun _ => []) (replicate 32 0) (replicate 1024 0) (replicate 256 (replicate 128 0)) ∅ small_screen
  eight_megabytes (power_on_with reset_machine)).

(** no keyboard, and room for the idle task *)
Definition idle_checks (s' : Sys ApicSim.t RamDisk RamDisk MemoryManager.t) : bool :=
  negb (g_idle_task s' =? 0)
  && match acknowledge (set_machine s' (ApicSim.fired (mach (app s')))) with
     | Ret _ s2 => match g_usb_keyboard (devices s2) with None => true | Some _ => false end
     | _ => false
     end.

(** the steps after the file system *)
Definition after_boot : Sys ApicSim.t RamDisk RamDisk MemoryManager.t -> Run (Sys ApicSim.t RamDisk RamDisk MemoryManager.t) unit :=
  enable_apic ;;;
  start_tasks 0x105000 ;;;
  kprintf "\nWelcome to Sylphia-OS!\n" [] ;;;
  kprintf "[Kernel] Starting scheduler... Shell will be auto-started.\n" [] ;;;
  on_app (try_sched (fun x => Some (Enable x))) ;;;
  on_hardware (StartTimer 10 0x20) ;;;
  halt.

Lemma small_main_checks :
  match small_boot with
  | Ret _ s1 => match after_boot s1 with Halted s' => idle_checks s' | _ => false end
  | _ => false
  end = true.
Proof. vm_compute. reflexivity. Qed.

Lemma small_main_split : small_main =
  match small_boot with Ret _ s1 => after_boot s1 | Halted s1 => Halted s1 | NoFuel => NoFuel end.
Proof. reflexivity. Qed.

