(* ===== verification/KernelShell.v ===== *)
(** * The shell in the kernel (kernel/shell/shell.cpp, shell.hpp)

    A command line with a pipe, the commands, and the viewer of the event log.  It runs
    on the state of the whole kernel: the descriptors, the file system, the logger, the
    keyboard and the loader.  No object of the class is created, since the shell that is
    started is the user program of Shell.v, whose word splitting is the same. *)
From S2P Require Import Prelude CStr Shell Run Memory Rings Printk Device Fat32Names Fat32 Graphics Console Logger Layouts Machine Cpu UserMode Paging Tasks Scheduler Xhci Usb UsbKeyboard MassStorage UsbPorts Process Syscall KernelState.
#[local] Open Scope run_scope.

Definition kMaxCommandLen : Z := 100.

Record Shell := mkShell { buffer_ : list Z; cursor_pos_ : Z; current_cluster_ : Z }.

Definition memset (dest : list Z) (val len : Z) : list Z := splice dest 0 (replicate (Z.to_nat len) (u8 val)).

(** the constructor; [garbage] is what the object's memory holds *)
Definition new_Shell (garbage : list Z) : Shell := mkShell (memset garbage 0 kMaxCommandLen) 0 0.

(** ** The options of [logger] *)

Record Options := mkOptions {
  filter_level : option LogLevel; filter_type : option LogType; keyword : option (list Z); do_flush : bool }.

Definition is_word (a : list Z) (name : string) : bool := strcmp a (c_lit name) =? 0.

Definition level_word (a : list Z) : option LogLevel :=
  if is_word a "info" then Some Info
  else if is_word a "warn" then Some Warning
  else if is_word a "error" then Some Error
  else None.

Definition type_word (a : list Z) : option LogType :=
  if is_word a "kernel" then Some Logger.Kernel
  else if is_word a "fs" then Some FSLog
  else if is_word a "driver" then Some Driver
  else if is_word a "memory" then Some MemoryLog
  else if is_word a "app" then Some Application
  else None.

(** a word that is not known leaves the filter as it is *)
Definition or_else {A} (x y : option A) : option A := match x with Some _ => x | None => y end.

(** the loop over the arguments behind the first *)
Fixpoint parse_options (args : list (list Z)) (o : Options) : Options :=
  match args with
  | [] => o
  | a :: rest =>
      let last := if is_word a "flush"
                  then mkOptions (filter_level o) (filter_type o) (keyword o) true else o in
      match rest with
      | [] => last
      | v :: rest' =>
          if is_word a "-l" then
            parse_options rest' (mkOptions (or_else (level_word v) (filter_level o)) (filter_type o) (keyword o) (do_flush o))
          else if is_word a "-t" then
            parse_options rest' (mkOptions (filter_level o) (or_else (type_word v) (filter_type o)) (keyword o) (do_flush o))
          else if is_word a "-s" then
            parse_options rest' (mkOptions (filter_level o) (filter_type o) (Some v) (do_flush o))
          else parse_options rest last
      end
  end.

(** ** The keys of the log viewer *)

Record View := mkView { current_page : Z; viewing : bool; waiting : bool }.

Definition next_page (total_pages page : Z) : Z := if page <? u32 (total_pages - 1) then page + 1 else page.
Definition prev_page (page : Z) : Z := if 0 <? page then page - 1 else page.

Definition view_key (total_pages : Z) (v : View) (c : Z) : View :=
  if (c =? 113) || (c =? 81) then mkView (current_page v) false false
  else if c =? 0x1B then mkView (prev_page (current_page v)) (viewing v) false
  else if c =? 91 then v
  else if c =? 67 then mkView (next_page total_pages (current_page v)) (viewing v) false
  else if c =? 68 then mkView (prev_page (current_page v)) (viewing v) false
  else if (c =? 110) || (c =? 32) then mkView (next_page total_pages (current_page v)) (viewing v) false
  else if c =? 112 then mkView (prev_page (current_page v)) (viewing v) false
  else v.

Definition kLogsPerPage : Z := 10.

(** the character between the keyword of a filter *)
Definition quote : string := String.String (Ascii.ascii_of_nat 34) String.EmptyString.

Section KernelShell.
Context {W D1 D2 M : Type} `{Machine W} `{BlockDevice D1} `{BlockDevice D2} `{FrameAllocator M} `{FramePool M}.
Local Abbreviation St := (Sys W D1 D2 M).
Local Abbreviation SR := (fun A => St -> Run St A).
Implicit Types (s : St) (sh : Shell).

(** the rounds of the loops *)
Variable fuel : nat.
(** the addresses of the arrays [buf] on the stack, of [argv], and of [buffer_] *)
Variables (buf_at argv_at buffer_at : Z).
(** the Rust loader and what the other loader calls, as in Process.v *)
Variables (rust_elf_load_from_buffer : list Z -> Z -> Host W D2 (App M) -> Run (Host W D2 (App M)) (option Z)).
Variables (use_rust : bool) (AppTaskEntry_at : Z).
(** what a program started by LoadAndRun does until ExitApp brings it back *)
Variable program : SR unit.

Definition PrintPrompt : SR unit := KernelState.kprintf "Sylphia:/$ " [].

(** ** Standard input and output *)

(** [g_fds[fd]], which the code follows without a test *)
Definition fd_at (fd : Z) : SR FileDescriptor :=
  x <-- Run.get (fun s => rd (g_fds (kern s)) fd) ;;
  match x with Some x => ret x | None => undefined end.
Definition put_fd (fd : Z) (x : option FileDescriptor) : SR unit :=
  Run.modify (fun s => set_kern s (set_fd fd x (kern s))).
Definition is_keyboard (x : FileDescriptor) : bool :=
  match x with FD_KEYBOARD _ _ => true | _ => false end.

(** g_usb_keyboard->Update(), with which KeyboardFD::Read begins *)
Definition poll_keyboard (fd : Z) (x : FileDescriptor) : SR unit :=
  match x with
  | FD_KEYBOARD obj r =>
      d <-- Run.get devices ;;
      match UsbPorts.g_usb_keyboard d with
      | None => ret tt
      | Some _ =>
          r' <-- on_xhci (update_keyboard fuel d (Some r)) ;;
          put_fd fd (Some (FD_KEYBOARD obj (default r r')))
      end
  | _ => ret tt
  end.

(** [g_fds[0]->Read(buf, len)]: the result; the characters are in the array *)
Definition read_stdin (len : Z) : SR Z :=
  x <-- fd_at 0 ;;
  poll_keyboard 0 x ;;;
  x <-- fd_at 0 ;;
  on_calls (fd_Read 0 x buf_at len).
Definition chars_read (len : Z) : SR (list Z) := Run.get (fun s => load_mem buf_at len (kern s)).

(** [g_fds[1]->Write(bytes, len)] *)
Definition write_stdout (bytes : list Z) : SR unit :=
  x <-- fd_at 1 ;;
  on_calls (fd_Write 1 x bytes (zlen bytes)) ;;; ret tt.

Definition force_send : SR unit :=
  d <-- Run.get devices ;;
  match UsbPorts.g_usb_keyboard d with
  | Some kb => let _ := Xhci_controller (W := W) (M := M) fuel in on_xhci (ForceSendTRB kb)
  | None => undefined
  end.

(** ** The commands *)

(** cat without arguments *)
Fixpoint cat_stdin (n : nat) : SR unit :=
  match n with
  | O => undefined
  | S n' =>
      len <-- read_stdin 127 ;;
      if len <=? 0 then ret tt
      else
        bytes <-- chars_read len ;;
        write_stdout bytes ;;;
        x <-- fd_at 0 ;;
        if is_keyboard x then ret tt else cat_stdin n'
  end.

Definition cat_file (filename : list Z) : SR unit :=
  fs <-- Run.get g_fat32_driver ;;
  match fs with
  | None => KernelState.kprintf "Error: File System not initialized.\n" []
  | Some fs =>
      buf <-- on_disk (Buffer 4096 16) ;;
      let** (bytes_read, content) := on_disk (ReadFile fuel fs filename (replicate 4096 0) 4096 0) in
      (if 0 <? bytes_read then write_stdout (slice content 0 bytes_read) ;;; write_stdout [10]
       else KernelState.kprintf "Error: File not found or empty.\n" []) ;;;
      on_disk (Device.Free_ buf 4096)
  end.

Definition cat (args : list (list Z)) : SR unit :=
  if zlen args =? 1 then cat_stdin fuel else cat_file (args !!! 1%nat).

Definition clear_screen : SR unit := run_for 30 0 (fun _ => KernelState.kprintf "\n" []).

Definition echo (args : list (list Z)) : SR unit :=
  if 1 <? zlen args then write_stdout (args !!! 1%nat) ;;; write_stdout [10] else ret tt.

Definition ls : SR unit :=
  fs <-- Run.get g_fat32_driver ;;
  match fs with
  | Some fs => on_disk (ListDirectory fuel fs 0)
  | None => KernelState.kprintf "Error: File System not initialized.\n" []
  end.

(** without an argument the pointer is not initialised *)
Definition rm (args : list (list Z)) : SR unit :=
  fs <-- Run.get g_fat32_driver ;;
  match fs with
  | Some fs =>
      match args !! 1%nat with
      | None => undefined
      | Some filename =>
          ok <-- on_disk (DeleteFile fuel fs filename 0) ;;
          if (ok : bool) then KernelState.kprintf "Deleted %s\n" [KStr filename]
          else KernelState.kprintf "Could not delete %s\n" [KStr filename]
      end
  | None => KernelState.kprintf "File System not initialized.\n" []
  end.

(** *** logger *)

Definition show_entry (e : LogEntry) : SR unit :=
  (match level e with
   | Info => KernelState.kprintf "\e[42;30m" []
   | Warning => KernelState.kprintf "\e[43;30m" []
   | Error => KernelState.kprintf "\e[41;37m" []
   end) ;;;
  KernelState.kprintf "[%5s]" [KStr (LevelToString (level e))] ;;;
  KernelState.kprintf "\e[0m" [] ;;;
  KernelState.kprintf "[%6s] %s\n" [KStr (TypeToString (Logger.type e)); KStr (cstr_of (message e))].

Fixpoint show_entries (es : list LogEntry) : SR unit :=
  match es with [] => ret tt | e :: rest => show_entry e ;;; show_entries rest end.

Definition show_page (o : Options) (lg : EventLogger) (page total_pages total_logs : Z) : SR unit :=
  run_for 25 0 (fun _ => KernelState.kprintf "\n" []) ;;;
  KernelState.kprintf "=== Event Log (Page %d/%d, Total: %d) ===\n" [KInt (page + 1); KInt total_pages; KInt total_logs] ;;;
  KernelState.kprintf "Filters: " [] ;;;
  (match filter_level o with Some l => KernelState.kprintf "Level=%s " [KStr (LevelToString l)] | None => ret tt end) ;;;
  (match filter_type o with Some t => KernelState.kprintf "Type=%s " [KStr (TypeToString t)] | None => ret tt end) ;;;
  (match keyword o with Some k => KernelState.kprintf (String.append "Keyword=" (String.append quote (String.append "%s" quote))) [KStr k] | None => ret tt end) ;;;
  (match filter_level o, filter_type o, keyword o with
   | None, None, None => KernelState.kprintf "None" []
   | _, _, _ => ret tt
   end) ;;;
  KernelState.kprintf "\n" [] ;;;
  KernelState.kprintf "----------------------------------------\n" [] ;;;
  show_entries (GetLogs (filter_level o) (filter_type o) (keyword o) lg kLogsPerPage (u32 (page * kLogsPerPage))) ;;;
  KernelState.kprintf "----------------------------------------\n" [] ;;;
  KernelState.kprintf "[<-] Prev  [->] Next  [Q] Quit\n" [].

(** [while (waiting)] *)
Fixpoint wait_key (n : nat) (total_pages : Z) (v : View) : SR View :=
  match n with
  | O => undefined
  | S n' =>
      if waiting v then
        force_send ;;;
        len <-- read_stdin 8 ;;
        if 0 <? len then
          cs <-- chars_read len ;;
          wait_key n' total_pages (fold_left (view_key total_pages) cs v)
        else wait_key n' total_pages v
      else ret v
  end.

(** [while (viewing)] *)
Fixpoint view_logs (n : nat) (o : Options) (lg : EventLogger) (page total_pages total_logs : Z) : SR unit :=
  match n with
  | O => undefined
  | S n' =>
      show_page o lg page total_pages total_logs ;;;
      v <-- wait_key fuel total_pages (mkView page true true) ;;
      if viewing v then view_logs n' o lg (current_page v) total_pages total_logs else ret tt
  end.

Definition logger (args : list (list Z)) : SR unit :=
  lg <-- Run.get g_event_logger ;;
  match lg with
  | None => KernelState.kprintf "Error: Logger not initialized.\n" []
  | Some lg =>
      let o := parse_options (tail args) (mkOptions None None None false) in
      if do_flush o then
        fs <-- Run.get g_fat32_driver ;;
        lg' <-- on_disk (Logger.Flush fuel fs lg) ;;
        Run.modify (fun s => set_logger s (Some lg')) ;;;
        KernelState.kprintf "Logs flushed to file.\n" []
      else
        let total_logs := GetLogCount (filter_level o) (filter_type o) (keyword o) lg in
        if total_logs =? 0 then KernelState.kprintf "No logs found.\n" []
        else
          let total_pages := u32 (total_logs + kLogsPerPage - 1) / kLogsPerPage in
          view_logs fuel o lg 0 total_pages total_logs
  end.

(** *** sys, and the programs *)

Definition sys_command : SR unit :=
  KernelState.kprintf "=============== Sylphia-OS ZERO ===============\n" [] ;;;
  KernelState.kprintf "Version: v%d.%d.%d-%s\n" [KInt (System.Major System.Version); KInt (System.Minor System.Version);
    KInt (System.Patch System.Version); KStr System.ReleaseTypeToString] ;;;
  KernelState.kprintf "Build: %04d/%02d/%02d\n" [KInt (System.Year System.Date); KInt (System.Month System.Date); KInt (System.Day System.Date)] ;;;
  KernelState.kprintf "===============================================\n" [].

(** [argv] and its strings where LoadAndRun finds them *)
Definition publish_argv (offsets : list Z) (args : list (list Z)) : SR unit :=
  on_app (on_tasks (fun t =>
    with_arrays (<[argv_at := (fun o => buffer_at + o) <$> offsets]> (arrays t))
      (with_strings (foldr (fun p m => <[buffer_at + p.1 := p.2]> m) (strings t) (zip offsets args)) t))).

(** LoadAndRun: the program runs until it is brought back *)
Definition load_and_run (path : list Z) (argc : Z) : SR bool :=
  fs <-- Run.get g_fat32_driver ;;
  started <-- on_app (LoadAndRun fuel fs path argc argv_at) ;;
  if (started : bool) then program ;;; on_app LoadAndRun_return else ret false.

(** a path longer than its 64 places has no result *)
Definition run_program (offsets : list Z) (args : list (list Z)) : SR unit :=
  x <-- fd_at 0 ;;
  (match x with FD_KEYBOARD obj r => put_fd 0 (Some (FD_KEYBOARD obj (KeyboardFD.Flush r))) | _ => ret tt end) ;;;
  force_send ;;;
  match path ← strcpy (replicate 64 0) (c_lit "/sys/bin/"); strcat path (args !!! 0%nat) with
  | None => undefined
  | Some path =>
      let path := cstr_of path in
      fs <-- Run.get g_fat32_driver ;;
      publish_argv offsets args ;;;
      task <-- on_app (CreateProcess fuel fs rust_elf_load_from_buffer use_rust AppTaskEntry_at path (zlen args) (Some (Some <$> args))) ;;
      if task =? 0 then
        ok <-- load_and_run path (zlen args) ;;
        if negb (ok : bool) then KernelState.kprintf "Unknown command: %s\n" [KStr (args !!! 0%nat)] else ret tt
      else ret tt
  end.

Definition dispatch (offsets : list Z) (args : list (list Z)) : SR unit :=
  let command := is_word (args !!! 0%nat) in
  if command "cat" then cat args
  else if command "clear" then clear_screen
  else if command "echo" then echo args
  else if command "ls" then ls
  else if command "rm" then rm args
  else if command "logger" then logger args
  else if command "sys" then sys_command
  else run_program offsets args.

(** ** The command line *)

(** [cmd_line] is at [p] in the buffer, which it changes *)
Definition ExecuteSingleCommand (buf : list Z) (p : Z) : SR (list Z) :=
  let '(offsets, buf) := parse_loop (length buf) p [] buf in
  if zlen offsets =? 0 then ret buf
  else dispatch offsets (arg_at buf <$> offsets) ;;; ret buf.

Definition pipe_position sh : option Z :=
  for_return (Z.to_nat (cursor_pos_ sh)) 0 (fun i => if rd (buffer_ sh) i =? 124 then Some i else None).

(** [garbage]: the array of the new pipe.  The pipe is the object in the slot, so what
    the first command wrote is there when it moves to the other slot. *)
Definition run_pipe (garbage : list Z) (buf : list Z) (pipe_pos : Z) : SR unit :=
  obj <-- on_disk (Buffer (sizeof_PipeFD + 16) 16) ;;
  array <-- on_disk (Buffer (PipeFD.kBufferSize + 16) 16) ;;
  original_stdout <-- Run.get (fun s => rd (g_fds (kern s)) 1) ;;
  put_fd 1 (Some (FD_PIPE obj array (PipeFD.new garbage))) ;;;
  buf <-- ExecuteSingleCommand buf 0 ;;
  pipe <-- fd_at 1 ;;
  put_fd 1 original_stdout ;;;
  original_stdin <-- Run.get (fun s => rd (g_fds (kern s)) 0) ;;
  put_fd 0 (Some pipe) ;;;
  buf <-- ExecuteSingleCommand buf pipe_pos ;;
  pipe <-- fd_at 0 ;;
  put_fd 0 original_stdin ;;;
  on_calls (delete_fd pipe).

Definition ExecuteCommand (garbage : list Z) sh : SR unit :=
  if cursor_pos_ sh =? 0 then ret tt
  else
    match pipe_position sh with
    | Some i => run_pipe garbage (upd (buffer_ sh) i 0) (i + 1)
    | None => ExecuteSingleCommand (buffer_ sh) 0 ;;; ret tt
    end.

Definition OnKey (garbage : list Z) (c : Z) sh : SR Shell :=
  if c =? 0 then ret sh
  else if c =? 10 then
    KernelState.kprintf "\n" [] ;;;
    ExecuteCommand garbage sh ;;;
    PrintPrompt ;;;
    ret (mkShell (memset (buffer_ sh) 0 kMaxCommandLen) 0 (current_cluster_ sh))
  else if c =? 8 then
    if 0 <? cursor_pos_ sh then
      KernelState.kprintf "\b" [] ;;;
      ret (mkShell (upd (buffer_ sh) (cursor_pos_ sh - 1) 0) (cursor_pos_ sh - 1) (current_cluster_ sh))
    else ret sh
  else if cursor_pos_ sh <? kMaxCommandLen - 1 then
    KernelState.kprintf "%s" [KStr (cstr_of [c; 0])] ;;;
    ret (mkShell (upd (buffer_ sh) (cursor_pos_ sh) c) (cursor_pos_ sh + 1) (current_cluster_ sh))
  else ret sh.
End KernelShell.

(** ** The arrow keys in the viewer

    Each of the three characters of an arrow key's sequence is a key of its own: the
    escape character goes back a page first. *)

Lemma right_arrow total v : 0 < current_page v < total -> total < 2 ^ 32 ->
  current_page (fold_left (view_key total) [0x1B; 91; 67] v) = current_page v.
Proof.
  intros Hp Ht. cbn [fold_left]. unfold view_key, next_page, prev_page. cbn.
  rewrite (proj2 (Z.ltb_lt 0 _)) by lia. rewrite u32_small by lia.
  rewrite (proj2 (Z.ltb_lt _ (total - 1))) by lia. lia.
Qed.

Lemma left_arrow total v : 1 < current_page v ->
  current_page (fold_left (view_key total) [0x1B; 91; 68] v) = current_page v - 2.
Proof.
  intros Hp. cbn [fold_left]. unfold view_key, prev_page. cbn.
  rewrite (proj2 (Z.ltb_lt 0 (current_page v))) by lia. rewrite (proj2 (Z.ltb_lt 0 _)) by lia. lia.
Qed.
