(* ===== verification/SyscallHandler.v ===== *)
(** * The system call handler (sys/syscall.cpp)

    The switch over the number of the call, on the state of the whole kernel: the
    strings and the array of arguments are read from the caller's memory, and each case
    is the definition of Syscall.v or Process.v for it. *)
From S2P Require Import Prelude Run Memory CStr Printk Device Fat32Names Fat32 Fat32Table Fat32Files Console Machine Cpu UserMode Paging Tasks Scheduler Xhci Usb UsbPorts Process Nvme Syscall KernelState KernelMain KernelShell.
#[local] Open Scope run_scope.

(** ** Strings of the caller *)

(** the characters at an address up to the first zero; [None] if there is none within
    [n] of them *)
Fixpoint string_at (n : nat) (addr : Z) (k : Kernel) : option (list Z) :=
  match n with
  | O => None
  | S n' => if mem k addr =? 0 then Some []
            else rest ← string_at n' (addr + 1) k; Some (mem k addr :: rest)
  end.

(** the array [user_argv]: [argc] pointers, some of them null *)
Fixpoint argv_at (n : nat) (argc : nat) (addr : Z) (k : Kernel) : option (list (option (list Z))) :=
  match argc with
  | O => Some []
  | S argc' =>
      let ptr := le_val (load_mem addr 8 k) in
      arg ← if ptr =? 0 then Some None else str ← string_at n ptr k; Some (Some str);
      rest ← argv_at n argc' (addr + 8) k; Some (arg :: rest)
  end.

Lemma string_at_spec n : forall addr k str, is_cstr str -> (length str < n)%nat ->
  load_mem addr (zlen str + 1) k = str ++ [0] -> string_at n addr k = Some str.
Proof.
  induction n as [|n IH]; intros addr k str Hs Hn Hm; [lia|].
  assert (Hi : forall i, (i <= length str)%nat -> mem k (addr + Z.of_nat i) = default 0 ((str ++ [0]) !! i)).
  { intros i Hi. rewrite <- Hm. unfold load_mem. rewrite list_lookup_fmap.
    rewrite lookup_seqZ_lt by (unfold zlen; lia). cbn. by rewrite Z.add_0_l. }
  pose proof (Hi 0%nat ltac:(lia)) as H0. rewrite Z.add_0_r in H0. cbn [string_at]. rewrite H0.
  destruct str as [|c str]; [done|]. change (default 0 (((c :: str) ++ [0]) !! 0%nat)) with c.
  apply Forall_cons in Hs as [Hc Hs]. rewrite (proj2 (Z.eqb_neq c 0)) by (unfold is_byte in Hc; lia).
  rewrite (IH (addr + 1) k str); [done|exact Hs|cbn in Hn; lia|].
  unfold load_mem. apply list_eq. intros i. rewrite list_lookup_fmap.
  destruct (decide (i <= length str)%nat) as [Hle|Hgt].
  - rewrite lookup_seqZ_lt by (unfold zlen; lia). cbn [fmap option_fmap option_map]. rewrite Z.add_0_l.
    replace (addr + 1 + Z.of_nat i) with (addr + Z.of_nat (S i)) by lia. rewrite (Hi (S i)) by (cbn; lia).
    destruct (lookup_lt_is_Some_2 (str ++ [0]) i) as [x Hx]; [rewrite length_app; cbn; lia|].
    change (((c :: str) ++ [0]) !! S i) with ((str ++ [0]) !! i). by rewrite Hx.
  - rewrite lookup_seqZ_ge by (unfold zlen; lia). symmetry. apply lookup_ge_None_2. rewrite length_app. cbn. lia.
Qed.

Lemma string_at_mem n : forall addr k k', mem k = mem k' -> string_at n addr k = string_at n addr k'.
Proof. induction n as [|n IH]; intros addr k k' Hk; cbn [string_at]; [done|]. by rewrite Hk, (IH _ k k' Hk). Qed.

Section Handler.
Context {W D1 D2 M : Type} `{Machine W} `{BlockDevice D1} `{BlockDevice D2} `{FrameAllocator M} `{FramePool M}.
Local Abbreviation St := (Sys W D1 D2 M).
Local Abbreviation SR := (fun A => St -> Run St A).
Implicit Types s : St.

(** [fuel]: the rounds of the loops of the drivers; [strings]: how far a string may go *)
Variables (fuel strings : nat).
(** what the array [kernel_buf] of Write holds before, and the address of [kernel_argv] *)
Variables (stack : Z -> Z) (kernel_argv_at : Z).
(** the program loader, as in Process.v *)
Variables (rust_elf_load_from_buffer : list Z -> Z -> Host W D2 (App M) -> Run (Host W D2 (App M)) (option Z)).
Variables (use_rust : bool) (AppTaskEntry_at : Z).

(** what follows a string of the caller *)
Definition user_string (addr : Z) : SR (list Z) := fun s =>
  match string_at strings addr (kern s) with Some str => Ret str s | None => NoFuel end.

Definition user_argv (addr argc : Z) : SR (list (option (list Z))) := fun s =>
  match argv_at strings (Z.to_nat (if 32 <? argc then 32 else argc)) addr (kern s) with
  | Some argv => Ret argv s
  | None => NoFuel
  end.

(** [g_fds[0]] if it is a KeyboardFD *)
Definition keyboard_fd s : option (Z * Rings.Ring) :=
  match rd (g_fds (kern s)) 0 with Some (FD_KEYBOARD obj r) => Some (obj, r) | _ => None end.

(** [g_fds[0]->Flush()] *)
Definition flush_keyboard : SR unit := Run.modify (fun s =>
  match keyboard_fd s with
  | Some (obj, r) => set_kern s (set_fd 0 (Some (FD_KEYBOARD obj (Rings.KeyboardFD.Flush r))) (kern s))
  | None => s
  end).

(** case 5: a KeyboardFD first polls the USB keyboard *)
Definition poll_fd (fd : Z) : SR unit :=
  x <-- Run.get (fun s => if in_table fd then rd (g_fds (kern s)) fd else None) ;;
  match x with Some x => poll_keyboard fuel fd x | None => ret tt end.

(** After case 2 the processor is where ExitApp leaves it, and the result is for nobody.
    The message of that case is printed before the keyboard is flushed; neither step
    sees the other. *)
Definition SyscallHandler (syscall_number arg1 arg2 arg3 arg4 return_rip : Z) : SR Z :=
  fs <-- Run.get g_fat32_driver ;;
  match syscall_number with
  | 1 => on_calls (sys_PutChar arg1)
  | 2 =>
      keyboard <-- Run.get (fun s => bool_decide (is_Some (keyboard_fd s))) ;;
      flush_keyboard ;;; on_app (sys_Exit keyboard) ;;; ret 0
  | 3 => on_calls (sys_ListDirectory fuel fs arg1)
  | 4 =>
      match fs with
      | Some _ => name <-- user_string arg1 ;; on_calls (sys_ReadFile fuel fs name arg2 arg3)
      | None => ret 0
      end
  | 5 => poll_fd (i32 arg1) ;;; on_calls (sys_Read arg1 arg2 arg3)
  | 6 => on_calls (sys_Write stack arg1 arg2 arg3)
  | 10 => on_app (try_sched Yield) ;;; ret 0
  | 11 => on_app sys_TaskExit
  | 20 =>
      path <-- user_string arg1 ;;
      argv <-- user_argv arg3 (i32 arg2) ;;
      on_app (sys_Spawn fuel fs rust_elf_load_from_buffer use_rust AppTaskEntry_at kernel_argv_at path arg2 argv)
  | 21 =>
      free <-- Run.get (fun s => free_fd (g_fds (kern s))) ;;
      match free with
      | Some _ => path <-- user_string arg1 ;; on_calls (sys_Open fuel fs path)
      | None => ret (u64 (-1))
      end
  | 22 => on_calls (sys_Close arg1)
  | 23 =>
      match fs with
      | Some _ => path <-- user_string arg1 ;; on_calls (sys_DeleteFile fuel fs path)
      | None => ret (u64 (-1))
      end
  | _ => KernelState.kprintf "Unknown Syscall: %ld\n" [KInt syscall_number] ;;; ret 0
  end.
End Handler.

(** ** What a call does, from the definition of its case *)

Section Step.
Context {W D1 D2 M : Type} `{Machine W} `{BlockDevice D1} `{BlockDeviceLaws D2} `{FrameAllocatorLaws M} `{FramePool M}.
Local Abbreviation St := (Sys W D1 D2 M).
Implicit Types s : St.

(** the state with the world a step of Device.v ends in; what it printed is on the console *)
Record left_by (w : World (D2 * Kernel) M) s s' : Prop := {
  lb_kern : exists c, kern s' = set_console c (w_dev w).2;
  lb_quiet : w_out w = [] -> kern s' = (w_dev w).2;
  lb_disk : Machine.pool (app s') = (w_dev w).1;
  lb_frames : frames s' = w_mm w;
  lb_fs : g_fat32_driver s' = g_fat32_driver s
}.

Lemma shown_nothing evs s : evs = [] -> kern (shown evs s) = kern s.
Proof. intros ->. cbn. by destruct (kern s). Qed.

Lemma on_calls_wp {A} (m : FS (D2 * Kernel) M A) (Q : A -> World (D2 * Kernel) M -> Prop) s :
  wp m Q (mkWorld (Machine.pool (app s), kern s) (frames s) []) ->
  exists a w s', on_calls m s = Ret a s' /\ Q a w /\ left_by w s s'.
Proof.
  intros Hm. apply wp_Done in Hm as (a & w & Hm & HQ). exists a, w. unfold on_calls, on_device. rewrite Hm.
  eexists. split; [reflexivity|]. split; [exact HQ|]. split; try reflexivity; [by eexists|].
  intros Hq. by rewrite shown_nothing.
Qed.

Lemma on_disk_wp {A} (m : FS D2 M A) (Q : A -> World D2 M -> Prop) s :
  wp m Q (mkWorld (Machine.pool (app s)) (frames s) []) ->
  exists a w s', on_disk m s = Ret a s' /\ Q a w
    /\ left_by (mkWorld (w_dev w, kern s) (w_mm w) (w_out w)) s s'.
Proof.
  intros Hm. apply wp_Done in Hm as (a & w & Hm & HQ). exists a, w. unfold on_disk, on_device. rewrite Hm.
  eexists. split; [reflexivity|]. split; [exact HQ|]. split; try reflexivity; [by eexists|].
  intros Hq. by rewrite shown_nothing.
Qed.
End Step.

(** ** A program that reads a file by system calls *)

Lemma store_pieces_mem ps : forall k k', mem k = mem k' -> mem (store_pieces ps k) = mem (store_pieces ps k').
Proof.
  induction ps as [|p ps IH]; intros k k' Hk; [done|]. apply (IH (store_mem p.1 p.2 k) (store_mem p.1 p.2 k')).
  unfold store_mem. cbn [mem]. by rewrite Hk.
Qed.

Section Stream.
Context {W D1 D2 M : Type} `{Machine W} `{BlockDevice D1} `{BlockDeviceLaws D2} `{FrameAllocatorLaws M} `{FramePool M}.
Local Abbreviation St := (Sys W D1 D2 M).
Local Abbreviation SR := (fun A => St -> Run St A).
Implicit Types s : St.
Variables (strings : nat) (stack : Z -> Z) (kernel_argv_at : Z).
Variables (rust_elf_load_from_buffer : list Z -> Z -> Host W D2 (App M) -> Run (Host W D2 (App M)) (option Z)).
Variables (use_rust : bool) (AppTaskEntry_at : Z).

Local Abbreviation call :=
  (SyscallHandler 126 strings stack kernel_argv_at rust_elf_load_from_buffer use_rust AppTaskEntry_at).

Fixpoint read_calls (fd : Z) (reqs : list (Z * Z)) : SR (list Z) :=
  match reqs with
  | [] => ret []
  | (buf, len) :: rest =>
      n <-- call 5 fd buf len 0 0 ;;
      ns <-- read_calls fd rest ;;
      ret (n :: ns)
  end.

(** open, read, close *)
Definition reader (path_addr : Z) (reqs : list (Z * Z)) : SR (Z * list Z * Z)%type :=
  fd <-- call 21 path_addr 0 0 0 0 ;;
  ns <-- read_calls fd reqs ;;
  r <-- call 22 fd 0 0 0 0 ;;
  ret (fd, ns, r).

(** one call on a file that is open *)
Record file_open (fd : Z) (f : FileFD) (data rest : list Z) s : Prop := {
  fo_range : 3 <= fd < 16;
  fo_table : zlen (g_fds (kern s)) = 16;
  fo_fd : rd (g_fds (kern s)) fd = Some (FD_FILE f);
  fo_open : open_on f data rest
}.

Lemma call_5 fd f data rest s buf len : file_open fd f data rest s -> 0 <= len ->
  exists f' s', call 5 fd buf len 0 0 s = Ret (zlen (slice rest 0 len)) s'
    /\ file_open fd f' data (drop (Z.to_nat len) rest) s'
    /\ ff_object f' = ff_object f /\ ff_buffer f' = ff_buffer f
    /\ g_fds (kern s') = upd (g_fds (kern s)) fd (Some (FD_FILE f'))
    /\ mem (kern s') = mem (store_mem buf (slice rest 0 len) (kern s)) /\ frames s' = frames s.
Proof.
  intros [Hfd Hl Hf Ho] Hlen.
  assert (E32 : i32 fd = fd) by (unfold i32; rewrite Z.mod_small; lia).
  assert (Hp : poll_fd 126 (i32 fd) s = Ret tt s).
  { unfold poll_fd, bind, Run.get. rewrite E32. unfold in_table.
    rewrite (proj2 (Z.leb_le 0 fd)), (proj2 (Z.ltb_lt fd 16)) by lia. cbn [andb]. by rewrite Hf. }
  destruct (on_calls_wp (sys_Read fd buf len) (fun n w => exists f', n = zlen (slice rest 0 len)
    /\ open_on f' data (drop (Z.to_nat len) rest) /\ ff_object f' = ff_object f /\ ff_buffer f' = ff_buffer f
    /\ (w_dev w).2 = set_fd fd (Some (FD_FILE f')) (store_mem buf (slice rest 0 len) (kern s))
    /\ w_mm w = frames s) s) as (n & w & s' & Hr & (f' & -> & Ho' & Ob & Bu & Hk & Hm) & [[c Hc] _ _ Hfr _]).
  { eapply (wp_sys_Read_open fd f data rest); [done..|]. intros f' Ho' Ob Bu. by exists f'. }
  exists f', s'. unfold SyscallHandler. rewrite (bind_Ret _ _ s (g_fat32_driver s) s) by reflexivity.
  rewrite (bind_Ret _ _ _ _ _ Hp), Hr, Hc, Hk, Hfr, Hm. split; [done|].
  split; [split; [done|..|done]|done].
  - rewrite Hc, Hk. cbn. by rewrite zlen_upd.
  - rewrite Hc, Hk. cbn. apply rd_upd_eq. lia.
Qed.

Lemma read_calls_spec fd reqs : forall f data rest s,
  file_open fd f data rest s -> Forall (fun r => 0 <= r.2) reqs ->
  exists f' rest' s', read_calls fd reqs s = Ret ((fun p => zlen p.2) <$> pieces rest reqs) s'
    /\ file_open fd f' data rest' s' /\ ff_object f' = ff_object f /\ ff_buffer f' = ff_buffer f
    /\ g_fds (kern s') = upd (g_fds (kern s)) fd (Some (FD_FILE f'))
    /\ mem (kern s') = mem (store_pieces (pieces rest reqs) (kern s)) /\ frames s' = frames s.
Proof.
  induction reqs as [|[buf len] reqs IH]; intros f data rest s Ho Hreqs.
  { exists f, rest, s. split; [done|]. split; [done|]. split_and!; try done.
    destruct Ho as [Hfd Hl Hf _]. pose proof (set_fd_is fd (kern s) _ Hl ltac:(lia) Hf) as E.
    apply (f_equal g_fds) in E. by symmetry. }
  apply Forall_cons in Hreqs as [Hlen Hreqs]. cbn [snd] in Hlen.
  destruct (call_5 fd f data rest s buf len Ho Hlen) as (f1 & s1 & R1 & Ho1 & Ob1 & Bu1 & F1 & M1 & A1).
  destruct (IH f1 data _ s1 Ho1 Hreqs) as (f2 & rest2 & s2 & R2 & Ho2 & Ob2 & Bu2 & F2 & M2 & A2).
  exists f2, rest2, s2. cbn [read_calls]. rewrite (bind_Ret _ _ _ _ _ R1), (bind_Ret _ _ _ _ _ R2).
  split; [done|]. split; [done|]. split_and!; try congruence.
  - by rewrite F2, F1, upd_upd.
  - rewrite M2. apply (store_pieces_mem _ _ (store_mem buf (slice rest 0 len) (kern s))). exact M1.
Qed.

Context (drv : FAT32Driver) (Hg : geometry drv).

(** a file just written can be opened; [mm] is the allocator before *)
Record openable s (d : D2) (name path data : list Z) (fd : Z) : Prop := {
  op_alloc : alloc_inv (frames s);
  op_room : open_room drv (frames s) (zlen data);
  op_small : zlen data <= kMaxFileSize;
  op_fs : g_fat32_driver s = Some drv;
  op_table : zlen (g_fds (kern s)) = 16;
  op_free : free_fd (g_fds (kern s)) = Some fd;
  op_written : writable drv d 0 name path data
}.

Lemma call_21 s d name path data cs i fd addr :
  openable s d name path data fd -> file_written drv d (Machine.pool (app s)) (or_root drv 0) name data cs i -> cs <> [] ->
  string_at strings addr (kern s) = Some path ->
  exists f s', call 21 addr 0 0 0 0 s = Ret fd s' /\ file_open fd f data data s'
    /\ owned (frames s) (frames s') f data
    /\ g_fds (kern s') = upd (g_fds (kern s)) fd (Some (FD_FILE f)) /\ mem (kern s') = mem (kern s).
Proof.
  intros [Hi Hroom Hsm Hfs Hl Hfd Hwt] Hfw Hne Hstr.
  apply free_fd_Some in Hfd as Hr. destruct Hr as (Hr & _ & _).
  destruct (on_calls_wp (sys_Open 126 (Some drv) path) (fun n w => exists f, n = fd /\ open_on f data data
    /\ owned (frames s) (w_mm w) f data /\ (w_dev w).2 = set_fd fd (Some (FD_FILE f)) (kern s)) s)
    as (n & w & s' & HR & (f & -> & Ho & How & Hk) & [[c Hc] _ _ Hfr _]).
  { eapply wp_sys_Open_written; [exact Hg|exact Hi|exact Hroom|exact Hwt|exact Hfw|exact Hne|exact Hsm|exact Hfd|].
    intros f m2 o Ho How. by exists f. }
  exists f, s'. unfold SyscallHandler. rewrite (bind_Ret _ _ s (Some drv) s) by (unfold Run.get; by rewrite Hfs).
  rewrite (bind_Ret _ _ s (Some fd) s) by (unfold Run.get; by rewrite Hfd).
  rewrite (bind_Ret _ _ s path s) by (unfold user_string; by rewrite Hstr).
  rewrite HR, Hc, Hk, Hfr. split; [done|]. split; [split; [done|..|done]|done].
  - rewrite Hc, Hk. cbn. by rewrite zlen_upd.
  - rewrite Hc, Hk. cbn. apply rd_upd_eq. lia.
Qed.

Lemma call_22 fd f data rest s mm : file_open fd f data rest s -> owned mm (frames s) f data ->
  exists s', call 22 fd 0 0 0 0 s = Ret 0 s' /\ g_fds (kern s') = upd (g_fds (kern s)) fd None
    /\ mem (kern s') = mem (kern s) /\ frames s' = mm.
Proof.
  intros [Hfd Hl Hf Ho] How.
  destruct (on_calls_wp (sys_Close fd) (fun n w => n = 0 /\ (w_dev w).2 = set_fd fd None (kern s) /\ w_mm w = mm) s)
    as (n & w & s' & HR & (-> & Hk & Hm) & [[c Hc] _ _ Hfr _]).
  { by eapply wp_sys_Close_open. }
  exists s'. unfold SyscallHandler. rewrite (bind_Ret _ _ s (g_fat32_driver s) s) by reflexivity.
  by rewrite HR, Hc, Hk, Hfr, Hm.
Qed.

(** C14: A file the kernel has just written is read back by a program through the
    system call handler: Open, with the path in the program's memory, gives the lowest
    free descriptor; Reads of any lengths give the successive pieces of the file and
    then zero bytes, stored at the addresses given and nowhere else; after Close the
    descriptor table and the frame allocator are as before. *)
Theorem SyscallHandler_reads_file s name path data fd addr reqs :
  openable s (Machine.pool (app s)) name path data fd -> string_at strings addr (kern s) = Some path ->
  Forall (fun r => 0 <= r.2) reqs ->
  exists s', (on_disk (WriteFile 126 drv name data (zlen data) 0) ;;; reader addr reqs) s
    = Ret (fd, (fun p => zlen p.2) <$> pieces data reqs, 0) s'
    /\ g_fds (kern s') = g_fds (kern s) /\ mem (kern s') = mem (store_pieces (pieces data reqs) (kern s))
    /\ frames s' = frames s.
Proof.
  intros Hop Hstr Hreqs. destruct Hop as [Hi Hroom Hsm Hfs Hl Hfd Hwt].
  destruct (on_disk_wp (WriteFile 126 drv name data (zlen data) 0) (fun _ w => w_mm w = frames s /\ exists cs i, cs <> []
    /\ file_written drv (Machine.pool (app s)) (w_dev w) (or_root drv 0) name data cs i) s)
    as ([] & w & s1 & R1 & (Hm1 & cs & i & Hne & Hfw) & [[c1 K1] _ P1 F1 V1]).
  { pose proof (or_fat _ _ _ Hroom). pose proof (or_dir _ _ _ Hroom).
    eapply wp_WriteFile_writable; [done..|exact Hwt|]. intros d' cs i o Hne Hfw. split; [done|]. by exists cs, i. }
  cbn [w_dev w_mm snd fst] in K1, P1, F1. rewrite Hm1 in F1.
  assert (G1 : g_fds (kern s1) = g_fds (kern s)) by by rewrite K1.
  assert (E1 : mem (kern s1) = mem (kern s)) by by rewrite K1.
  destruct (call_21 s1 (Machine.pool (app s)) name path data cs i fd addr) as (f & s2 & R2 & Ho2 & How & G2 & E2).
  { by split; rewrite ?F1, ?V1, ?G1. }
  { by rewrite P1. } { done. } { rewrite K1. by rewrite (string_at_mem strings addr _ (kern s)). }
  destruct (read_calls_spec fd reqs f data data s2 Ho2 Hreqs) as (f3 & rest & s3 & R3 & Ho3 & Ob & Bu & G3 & E3 & F3).
  destruct (call_22 fd f3 data rest s3 (frames s1) Ho3) as (s4 & R4 & G4 & E4 & F4).
  { unfold owned. rewrite Ob, Bu, F3. exact How. }
  exists s4. unfold reader. rewrite (bind_Ret _ _ _ _ _ R1), (bind_Ret _ _ _ _ _ R2), (bind_Ret _ _ _ _ _ R3), (bind_Ret _ _ _ _ _ R4).
  split; [done|]. split; [|split; [|by rewrite F4, F1]].
  - rewrite G4, G3, G2, !upd_upd, G1. apply free_fd_Some in Hfd as (Hr & Hn & _).
    exact (f_equal g_fds (set_fd_is fd (kern s) None Hl ltac:(lia) Hn)).
  - rewrite E4, E3. apply store_pieces_mem. by rewrite E2.
Qed.
End Stream.

(** ** A program that reads hello.txt *)

(** its memory holds the path at 0x5000 *)
Definition reader_kernel : Kernel :=
  mkKernel (g_fds sample_kernel) None (fun a => rd (c_lit "hello.txt") (a - 0x5000)) [].
Definition reader_state : Sys Machine.Ram.t RamDisk RamDisk MemoryManager.t :=
  set_fs (set_frames (set_disk (set_kern power_on reader_kernel) small_disk) sample) (Some small_volume).
Definition no_loader : list Z -> Z -> Host Machine.Ram.t RamDisk (App MemoryManager.t)
    -> Run (Host Machine.Ram.t RamDisk (App MemoryManager.t)) (option Z) := fun _ _ s => Ret None s.

Lemma SyscallHandler_reads_file_witness : exists s',
  (on_disk (WriteFile 126 small_volume (c_lit "HELLO   TXT") small_data 700 0) ;;;
   reader 256 (fun _ => 0) 0 no_loader false 0 0x5000 [(4096, 512); (8192, 512); (8192, 512)]) reader_state
  = Ret (3, [512; 188; 0], 0) s'
  /\ g_fds (kern s') = g_fds reader_kernel
  /\ mem (kern s') = mem (store_pieces (pieces small_data [(4096, 512); (8192, 512); (8192, 512)]) reader_kernel)
  /\ frames s' = sample.
Proof.
  assert (Hl : zlen small_data = 700) by (vm_compute; reflexivity).
  assert (Hp : (fun p => zlen p.2) <$> pieces small_data [(4096, 512); (8192, 512); (8192, 512)] = [512; 188; 0])
    by (vm_compute; reflexivity).
  rewrite <- Hp, <- Hl.
  apply (SyscallHandler_reads_file 256 (fun _ => 0) 0 no_loader false 0 small_volume small_geometry reader_state
    (c_lit "HELLO   TXT") (c_lit "hello.txt") small_data 3 0x5000 [(4096, 512); (8192, 512); (8192, 512)]).
  - split.
    + exact sample_alloc_inv.
    + split; vm_compute; repeat split; discriminate.
    + rewrite Hl. vm_compute. discriminate.
    + reflexivity.
    + vm_compute. reflexivity.
    + vm_compute. reflexivity.
    + exact small_writable.
  - vm_compute. reflexivity.
  - repeat constructor; cbn; lia.
Defined.
