(* ===== verification/UserProgram.v ===== *)
(** * User programs on the kernel (apps/_header/syscall.hpp)

    The wrappers of the system calls, on the state of the whole kernel, and with them
    the interface [UserCalls] the programs of Shell.v and Apps.v are written against:
    what is proved of the shell over any system holds of the shell on this kernel. *)
From S2P Require Import Prelude CStr Shell Run Memory Rings Device Graphics Console Machine Cpu UserMode Paging Tasks Scheduler Process Fat32Names Fat32 Fat32Table Fat32Files Nvme Syscall KernelState KernelMain KernelShell SyscallHandler.
#[local] Open Scope run_scope.

Section Wrappers.
Context {W D1 D2 M : Type} `{Machine W} `{BlockDevice D1} `{BlockDevice D2} `{FrameAllocator M} `{FramePool M}.
Local Abbreviation St := (Sys W D1 D2 M).
Local Abbreviation SR := (fun A => St -> Run St A).
Implicit Types s : St.

(** those of SyscallHandler.v *)
Variables (fuel strings : nat) (stack : Z -> Z) (kernel_argv_at : Z).
Variables (rust_elf_load_from_buffer : list Z -> Z -> Host W D2 (App M) -> Run (Host W D2 (App M)) (option Z)).
Variables (use_rust : bool) (AppTaskEntry_at : Z).

Local Abbreviation call :=
  (SyscallHandler fuel strings stack kernel_argv_at rust_elf_load_from_buffer use_rust AppTaskEntry_at).

(** registers a wrapper does not set are 0 here; no call that it makes reads them *)
Definition Syscall0 (syscall_number : Z) : SR Z := call syscall_number 0 0 0 0 0.
Definition Syscall1 (syscall_number arg1 : Z) : SR Z := call syscall_number arg1 0 0 0 0.
Definition Syscall3 (syscall_number arg1 arg2 arg3 : Z) : SR Z := call syscall_number arg1 arg2 arg3 0 0.

Definition as_int (m : SR Z) : SR Z := r <-- m ;; ret (i32 r).

(** [char] is signed *)
Definition PutChar (c : Z) : SR unit := Syscall1 1 (u64 (if c <? 128 then c else c - 256)) ;;; ret tt.
Definition Exit : SR unit := Syscall0 2 ;;; ret tt.
Definition Read (fd buf len : Z) : SR Z := as_int (Syscall3 5 (u64 fd) buf (u64 len)).
Definition Write (fd buf len : Z) : SR Z := as_int (Syscall3 6 (u64 fd) buf (u64 len)).
Definition ListDirectory (cluster : Z) : SR unit := Syscall1 3 cluster ;;; ret tt.
Definition ReadFile (path buf len : Z) : SR Z := as_int (Syscall3 4 path buf (u64 len)).
Definition Spawn (path argc argv : Z) : SR Z := Syscall3 20 path (u64 argc) argv.
Definition Open (path flags : Z) : SR Z := as_int (Syscall3 21 path (u64 flags) 0).
Definition Close (fd : Z) : SR Z := as_int (Syscall1 22 (u64 fd)).
Definition DeleteFile (path : Z) : SR Z := as_int (Syscall1 23 path).
Definition Yield : SR unit := Syscall0 10 ;;; ret tt.

(** ** The interface of the programs *)

(** where the program has its buffer, a path, an array of arguments and their strings *)
Variables (buf_at path_at argv_at strings_at : Z).

Definition place (addr : Z) (bytes : list Z) : SR unit :=
  Run.modify (fun s => set_kern s (store_mem addr bytes (kern s))).
Definition taken (addr n : Z) : SR (list Z) := Run.get (fun s => load_mem addr n (kern s)).

Fixpoint place_args (args : list (list Z)) (array addr : Z) : SR unit :=
  match args with
  | [] => place array (le_bytes 8 0)
  | str :: rest =>
      place addr (str ++ [0]) ;;; place array (le_bytes 8 addr) ;;;
      place_args rest (array + 8) (addr + zlen str + 1)
  end.

(** [None]: the program does not come back from a call *)
Definition calls {A} (nothing : A) (m : SR A) (w : option St) : A * option St :=
  match w with
  | Some s => match m s with Ret a s' => (a, Some s') | _ => (nothing, None) end
  | None => (nothing, None)
  end.

Definition kernel_calls : UserCalls (option St) := {|
  sc_Write fd bytes w := snd (calls 0 (place buf_at bytes ;;; Write fd buf_at (zlen bytes)) w);
  sc_Read fd len w := calls [] (n <-- Read fd buf_at len ;; taken buf_at n) w;
  sc_ListDirectory cluster w := snd (calls tt (ListDirectory cluster) w);
  sc_ReadFile path len w :=
    calls (0, []) (place path_at (path ++ [0]) ;;; n <-- ReadFile path_at buf_at len ;;
                   bytes <-- taken buf_at len ;; ret (n, bytes)) w;
  sc_DeleteFile path w :=
    let '(r, w) := calls 0 (place path_at (path ++ [0]) ;;; DeleteFile path_at) w in (r, w);
  sc_Spawn path args w :=
    let '(r, w) := calls 0 (place path_at (path ++ [0]) ;;; place_args args argv_at strings_at ;;;
                            Spawn path_at (zlen args) argv_at) w in (r, w);
  sc_Yield w := snd (calls tt Yield w)
|}.
End Wrappers.

(** ** Bytes through the program's memory *)

Lemma load_stored addr bytes k : load_mem addr (zlen bytes) (store_mem addr bytes k) = bytes.
Proof.
  apply list_eq. intros i. unfold load_mem. rewrite list_lookup_fmap.
  destruct (decide (i < length bytes)%nat) as [Hi|Hi].
  - rewrite lookup_seqZ_lt by (unfold zlen; lia). cbn [fmap option_fmap option_map store_mem mem].
    rewrite Z.add_0_l, (proj2 (Z.leb_le addr _)), (proj2 (Z.ltb_lt _ (addr + zlen bytes))) by (unfold zlen; lia).
    cbn [andb]. replace (addr + Z.of_nat i - addr) with (Z.of_nat i) by lia. unfold rd.
    rewrite (proj2 (Z.ltb_ge _ 0)), Nat2Z.id by lia. destruct (lookup_lt_is_Some_2 bytes i Hi) as [x Hx]. by rewrite Hx.
  - rewrite lookup_seqZ_ge by (unfold zlen; lia). symmetry. apply lookup_ge_None_2. lia.
Qed.

(** up to 255 bytes, Write passes on what the program wrote *)
Lemma kernel_buf_stored stack addr bytes k : zlen bytes <= 255 ->
  kernel_buf stack addr (zlen bytes) (store_mem addr bytes k) = bytes.
Proof.
  intros Hl. transitivity (load_mem addr (zlen bytes) (store_mem addr bytes k)); [|apply load_stored].
  unfold kernel_buf, load_mem. apply list_fmap_ext.
  intros i j Hj. apply lookup_seqZ in Hj as [-> Hi]. cbn beta.
  by rewrite (proj2 (Z.ltb_lt _ (zlen bytes))), (proj2 (Z.ltb_lt _ 255)) by lia.
Qed.

Section Typing.
Context {W D1 D2 M : Type} `{Machine W} `{BlockDevice D1} `{BlockDeviceLaws D2} `{FrameAllocatorLaws M} `{FramePool M}.
Local Abbreviation St := (Sys W D1 D2 M).
Implicit Types s : St.
Variables (fuel strings : nat) (stack : Z -> Z) (kernel_argv_at : Z).
Variables (rust_elf_load_from_buffer : list Z -> Z -> Host W D2 (App M) -> Run (Host W D2 (App M)) (option Z)).
Variables (use_rust : bool) (AppTaskEntry_at : Z) (buf_at path_at argv_at strings_at : Z).

#[local] Instance program_calls : UserCalls (option St) :=
  kernel_calls fuel strings stack kernel_argv_at rust_elf_load_from_buffer use_rust AppTaskEntry_at
    buf_at path_at argv_at strings_at.

Lemma wp_sys_Write_console obj c buf len (d : D2) k mm out (Q : Z -> World (D2 * Kernel) M -> Prop) :
  rd (g_fds k) 1 = Some (FD_CONSOLE obj) -> g_console k = Some c ->
  Q (u64 (i32 len)) (mkWorld (d, set_console (Some (console_write (kernel_buf stack buf len k) c)) k) mm out) ->
  wp (sys_Write stack 1 buf len) Q (mkWorld (d, k) mm out).
Proof.
  intros Hf Hc HQ. unfold sys_Write. apply wp_bind, wp_kget.
  change (if in_table (i32 1) then rd (g_fds k) (i32 1) else None) with (rd (g_fds k) 1). rewrite Hf.
  apply wp_bind, wp_kget, wp_bind. cbn [fd_Write]. apply wp_bind, wp_kget. rewrite Hc.
  apply wp_bind, wp_kset, wp_ret, wp_ret. exact HQ.
Qed.

(** standard output is the console [c] *)
Definition screen s (c : Console) : Prop :=
  g_console (kern s) = Some c /\ exists obj, rd (g_fds (kern s)) 1 = Some (FD_CONSOLE obj).

(** a text of at most 255 bytes is shown as it is *)
Lemma Write_shows bytes s c : screen s c -> zlen bytes <= 255 ->
  exists s', sc_Write 1 bytes (Some s) = Some s' /\ screen s' (console_write bytes c).
Proof.
  intros [Hc [obj Hf]] Hl. pose proof (zlen_nonneg bytes) as Hn.
  set (s1 := set_kern s (store_mem buf_at bytes (kern s))).
  destruct (on_calls_wp (sys_Write stack 1 buf_at (zlen bytes)) (fun n w => w_out w = []
    /\ (w_dev w).2 = set_console (Some (console_write bytes c)) (store_mem buf_at bytes (kern s))) s1)
    as (n & w & s' & HR & [Ho Hk] & [_ Hq _ _ _]).
  { eapply wp_sys_Write_console; [exact Hf|exact Hc|]. split; [done|].
    cbn [w_dev snd]. change (kern s1) with (store_mem buf_at bytes (kern s)). by rewrite kernel_buf_stored. }
  exists s'. split.
  - cbn [sc_Write program_calls kernel_calls calls]. rewrite (bind_Ret _ _ s tt s1) by reflexivity.
    unfold Write, as_int, Syscall3. rewrite (u64_small (zlen bytes)) by lia.
    rewrite (bind_Ret _ _ s1 n s') by exact HR. reflexivity.
  - unfold screen. rewrite (Hq Ho), Hk. split; [done|]. by exists obj.
Qed.

(** ** The keys that wait in the keyboard's buffer *)

Lemma Read_all r len : KeyboardFD.inv r -> zlen (KeyboardFD.queue r) <= len ->
  exists r', KeyboardFD.Read [] len r = (zlen (KeyboardFD.queue r), KeyboardFD.queue r, r')
    /\ KeyboardFD.inv r' /\ KeyboardFD.queue r' = [].
Proof.
  intros Hr Hl. pose proof (zlen_contents _ r Hr) as Hz. unfold KeyboardFD.Read. cbn [fold_left].
  destruct (Z.eqb_spec (count_ r) 0) as [He|He].
  - assert (KeyboardFD.queue r = []) as Hq by (apply nil_length_inv; unfold zlen in Hz; lia).
    rewrite Hq. by exists r.
  - pose proof (read_loop_spec KeyboardFD.kBufferSize KeyboardFD.keyboard_size_pos (Z.to_nat len) r Hr) as HR.
    destruct (read_loop _ _ r) as [out r']. destruct HR as (Hr' & -> & Hd). exists r'.
    rewrite take_ge by (unfold zlen in Hl; lia). split; [done|]. split; [done|].
    rewrite Hd. apply drop_ge. unfold zlen in Hl. lia.
Qed.

(** [ks] wait there once the keyboard has been polled, which leaves the screen alone *)
Definition waiting_keys s (c : Console) (ks : list Z) : Prop := exists s0 obj r,
  poll_fd fuel 0 s = Ret tt s0 /\ rd (g_fds (kern s0)) 0 = Some (FD_KEYBOARD obj r)
  /\ KeyboardFD.inv r /\ KeyboardFD.queue r = ks /\ typed (kern s0) = [] /\ zlen (g_fds (kern s0)) = 16
  /\ screen s0 c.

Lemma wp_sys_Read_keyboard obj r len ks (d : D2) k mm out (Q : Z -> World (D2 * Kernel) M -> Prop) :
  rd (g_fds k) 0 = Some (FD_KEYBOARD obj r) -> KeyboardFD.inv r -> KeyboardFD.queue r = ks -> typed k = [] ->
  zlen ks <= len ->
  (forall r', Q (zlen ks) (mkWorld (d, store_mem buf_at ks (set_fd 0 (Some (FD_KEYBOARD obj r')) (set_typed [] k))) mm out)) ->
  wp (sys_Read 0 buf_at len) Q (mkWorld (d, k) mm out).
Proof.
  intros Hf Hr Hq Ht Hl HQ. unfold sys_Read. apply wp_bind, wp_kget.
  change (if in_table (i32 0) then rd (g_fds k) (i32 0) else None) with (rd (g_fds k) 0). rewrite Hf.
  apply wp_bind. cbn [fd_Read]. apply wp_bind, wp_kget. rewrite Ht.
  destruct (Read_all r len Hr) as (r' & HR & _ & _); [by rewrite Hq|]. rewrite HR.
  apply wp_bind, wp_kset, wp_ret, wp_ret.
  assert (Hb : 0 <= zlen ks <= 1024).
  { split; [apply zlen_nonneg|]. rewrite <- Hq, zlen_contents by done. apply Hr. }
  rewrite Hq. replace (u64 (i32 (zlen ks))) with (zlen ks); [apply HQ|].
  unfold i32. rewrite Z.mod_small, u64_small by lia. lia.
Qed.

Lemma Read_keys s c ks len : waiting_keys s c ks -> zlen ks <= len < 2 ^ 31 ->
  exists s', sc_Read 0 len (Some s) = (ks, Some s') /\ screen s' c.
Proof.
  intros (s0 & obj & r & Hp & Hf & Hr & Hq & Ht & Hl & Hc & out & Ho) Hlen. pose proof (zlen_nonneg ks) as Hn.
  destruct (on_calls_wp (sys_Read 0 buf_at len) (fun n w => n = zlen ks /\ w_out w = [] /\ exists r', (w_dev w).2
    = store_mem buf_at ks (set_fd 0 (Some (FD_KEYBOARD obj r')) (set_typed [] (kern s0)))) s0)
    as (n & w & s' & HR & (-> & Hw & r' & Hk) & [_ Hquiet _ _ _]).
  { eapply wp_sys_Read_keyboard; [exact Hf|exact Hr|exact Hq|exact Ht|lia|]. intros r'. split; [done|]. split; [done|]. by exists r'. }
  specialize (Hquiet Hw). rewrite Hk in Hquiet. exists s'. split.
  - cbn [sc_Read program_calls kernel_calls calls]. unfold Read, as_int, Syscall3. rewrite (u64_small len) by lia.
    assert (HC : SyscallHandler fuel strings stack kernel_argv_at rust_elf_load_from_buffer use_rust AppTaskEntry_at
      5 (u64 0) buf_at len 0 0 s = Ret (zlen ks) s').
    { unfold SyscallHandler. rewrite (bind_Ret _ _ s (g_fat32_driver s) s) by reflexivity.
      by rewrite (bind_Ret _ _ s tt s0) by exact Hp. }
    assert (HA : as_int (SyscallHandler fuel strings stack kernel_argv_at rust_elf_load_from_buffer use_rust AppTaskEntry_at
      5 (u64 0) buf_at len 0 0) s = Ret (zlen ks) s').
    { unfold as_int. rewrite (bind_Ret _ _ _ _ _ HC). unfold ret. f_equal. unfold i32. rewrite Z.mod_small by lia. lia. }
    unfold as_int in HA. rewrite (bind_Ret _ _ _ _ _ HA). unfold taken, Run.get. by rewrite Hquiet, load_stored.
  - unfold screen. rewrite Hquiet. split; [exact Hc|]. exists out. cbn [store_mem set_fd set_typed g_fds].
    rewrite rd_upd_ne by lia. exact Ho.
Qed.

(** ** Keys on the screen *)

(** the bytes the keys are shown with *)
Fixpoint echo_bytes (l ks : list Z) : list Z :=
  match ks with
  | [] => []
  | c :: ks =>
      (if c =? 8 then match l with [] => [] | _ => [8] end else if zlen l <? 255 then [c] else [])
      ++ echo_bytes (edit l c) ks
  end.

Lemma console_write_app bs bs' c : console_write (bs ++ bs') c = console_write bs' (console_write bs c).
Proof. apply fold_left_app. Qed.

Lemma echo_shown ks : forall l s c, screen s c ->
  exists s', Shell.echo l ks (Some s) = Some s' /\ screen s' (console_write (echo_bytes l ks) c).
Proof.
  assert (Hone : forall bytes s c, screen s c -> zlen bytes <= 255 ->
    exists s', match bytes with [] => Some s | _ => Print bytes (Some s) end = Some s' /\ screen s' (console_write bytes c)).
  { intros [|b bytes] s c Hs Hl; [by exists s|]. by apply Write_shows. }
  induction ks as [|k ks IH]; intros l s c Hs; cbn [Shell.echo echo_bytes]; [by exists s|].
  set (one := if k =? 8 then match l with [] => [] | _ => [8] end else if zlen l <? 255 then [k] else []).
  destruct (Hone one s c Hs) as (s1 & E1 & Hs1); [subst one; repeat case_match; done|].
  destruct (IH (edit l k) s1 _ Hs1) as (s2 & E2 & Hs2). exists s2. rewrite console_write_app. split; [|exact Hs2].
  rewrite <- E2, <- E1. f_equal. subst one. destruct (k =? 8); [by destruct l|by destruct (zlen l <? 255)].
Qed.

(** C16: From the keyboard to the screen: the keys that wait in the keyboard's buffer reach
    the user shell by one Read, in order; the shell, a program behind the system call
    handler, adds them with its corrections to its line, and the console shows what was
    typed: each key accepted, and a backspace for each one taken back. *)
Theorem typed_line_shown s c ks l sh : waiting_keys s c ks -> zlen ks <= 16 ->
  editing l true sh -> Forall line_key ks ->
  exists s1 sh' s2, sc_Read 0 16 (Some s) = (ks, Some s1) /\ OnKeys ks sh (Some s1) = Continue sh' (Some s2)
    /\ editing (fold_left edit ks l) true sh' /\ screen s2 (console_write (echo_bytes l ks) c).
Proof.
  intros Hw Hl He Hk. destruct (Read_keys s c ks 16 Hw ltac:(lia)) as (s1 & R1 & S1).
  destruct (OnKeys_edit ks l sh (Some s1) He Hk) as (sh' & R2 & He').
  destruct (echo_shown ks l s1 c S1) as (s2 & R3 & S2). exists s1, sh', s2. by rewrite R2, R3.
Qed.
End Typing.

(** ** Two keys on a small screen *)

Definition two_keys : Ring := KeyboardFD.OnInput (KeyboardFD.OnInput (KeyboardFD.new (replicate 1024 0)) 104) 105.
Definition blank_console : Console := new_Console small_screen 0xFFFFFFFF kDesktopBG [] ∅.
Definition typing_state : Sys Machine.Ram.t RamDisk RamDisk MemoryManager.t :=
  set_kern reader_state (mkKernel (Some (FD_KEYBOARD 0 two_keys) :: Some (FD_CONSOLE 0) :: replicate 14 None)
    (Some blank_console) (fun _ => 0) []).

#[local] Instance sample_calls : UserCalls (option (Sys Machine.Ram.t RamDisk RamDisk MemoryManager.t)) :=
  kernel_calls 126 256 (fun _ => 0) 0 no_loader false 0 0x5000 0x6000 0x7000 0x8000.

Lemma typed_line_shown_witness :
  exists s1 sh' s2, sc_Read 0 16 (Some typing_state) = ([104; 105], Some s1)
    /\ OnKeys [104; 105] (Shell.mkShell (replicate 256 0) 0 true) (Some s1) = Continue sh' (Some s2)
    /\ editing [104; 105] true sh' /\ screen s2 (console_write [104; 105] blank_console).
Proof.
  destruct (typed_line_shown 126 256 (fun _ => 0) 0 no_loader false 0 0x5000 0x6000 0x7000 0x8000 typing_state
    blank_console [104; 105] [] (Shell.mkShell (replicate 256 0) 0 true)) as (s1 & sh' & s2 & R1 & R2 & He & Hs).
  - exists typing_state, 0, two_keys. split; [reflexivity|]. split; [reflexivity|].
    split; [split; vm_compute; intuition (try discriminate; reflexivity)|].
    split; [vm_compute; reflexivity|]. split; [reflexivity|]. split; [vm_compute; reflexivity|].
    split; [reflexivity|]. by exists 0.
  - vm_compute. discriminate.
  - split; [reflexivity|reflexivity|reflexivity|vm_compute; discriminate|apply Forall_nil; exact I].
  - repeat (apply Forall_cons; split; [split; [split; vm_compute; reflexivity|vm_compute; discriminate]|]).
    apply Forall_nil. exact I.
  - exists s1, sh', s2. exact (conj R1 (conj R2 (conj He Hs))).
Defined.
