(* ===== verification/TestTasks.v ===== *)
(** * The test tasks and the serial line (task/test_task.cpp, task/idle_task.cpp)

    Three tasks that count and yield, and what a debug build of the idle task adds: the
    characters of the serial port go to standard input. *)
From S2P Require Import Prelude Run Memory Rings Machine Device Fat32 Paging Tasks Scheduler Xhci UsbPorts Process Syscall KernelState.
#[local] Open Scope run_scope.

Section TestTasks.
Context {W D M : Type} `{Machine W} `{BlockDevice D} `{FrameAllocator M} `{FramePool M}.
Local Abbreviation HR := (fun A => Host W D (App M) -> Run (Host W D (App M)) A).

(** the three functions differ in a letter; [counter] is the static variable *)
Inductive letter := A | B | C.
Definition prefix (l : letter) : string := match l with A => "A" | B => "B" | C => "C" end.

(** what the other tasks do until this one is switched to again *)
Variable others : HR unit.

(** one turn of the endless loop; the waiting loop in it has no effect *)
Definition test_turn (l : letter) (counter : Z) : HR Z :=
  let counter := u64 (counter + 1) in
  (if counter mod 100 =? 0 then Process.kprintf (String.append "[" (String.append (prefix l) ":%lu] ")) [KInt counter] else ret tt) ;;;
  try_sched Yield ;;;
  others ;;;
  ret counter.

Fixpoint test_turns (n : nat) (l : letter) (counter : Z) : HR Z :=
  match n with
  | O => ret counter
  | S n' => counter <-- test_turn l counter ;; test_turns n' l counter
  end.

Definition TestTask (n : nat) (l : letter) (counter : Z) : HR Z :=
  t <-- ask_state (fun s => heap (tasks s) !! GetCurrentTask (tasks s)) ;;
  match t with
  | None => Process.undefined
  | Some t =>
      Process.kprintf (String.append "[Task" (String.append (prefix l) "] Started! ID=%lu\n")) [KInt (task_id t)] ;;;
      test_turns n l counter
  end.

(** [entry] is the address of the function *)
Definition create_test_task (l : letter) (entry : Z) : HR unit :=
  task <-- try_tasks (fun t => Some (CreateTask entry t)) ;;
  if task =? 0 then ret tt
  else
    try_tasks_ (AddToReadyQueue task) ;;;
    t <-- ask_state (fun s => heap (tasks s) !! task) ;;
    match t with
    | None => Process.undefined
    | Some t =>
        Process.kprintf (String.append "[TestTask] Task" (String.append (prefix l) " created (ID=%lu)\n")) [KInt (task_id t)]
    end.

Definition InitializeTestTasks (TestTask_at : letter -> Z) : HR unit :=
  Process.kprintf "[TestTask] Creating test tasks...\n" [] ;;;
  create_test_task A (TestTask_at A) ;;;
  create_test_task B (TestTask_at B) ;;;
  create_test_task C (TestTask_at C) ;;;
  n <-- ask_state (fun s => GetTaskCount (tasks s)) ;;
  Process.kprintf "[TestTask] All test tasks created. Total tasks: %lu\n" [KInt n].
End TestTasks.

(** ** The serial port *)

Section Serial.
Context {W D1 D2 M : Type} `{Machine W} `{BlockDevice D1} `{BlockDevice D2} `{FrameAllocator M} `{FramePool M}.
Local Abbreviation SR := (fun A => Sys W D1 D2 M -> Run (Sys W D1 D2 M) A).

Definition SERIAL_COM1_PORT : Z := 0x3F8.

Definition serial_has_data : SR bool :=
  v <-- on_hardware (ask (IoIn8 (SERIAL_COM1_PORT + 5))) ;; ret (negb (Z.land v 0x01 =? 0)).
Definition serial_getchar : SR Z := on_hardware (ask (IoIn8 SERIAL_COM1_PORT)).

(** the character for standard input, when that is a KeyboardFD *)
Definition serial_input (c : Z) : SR unit := Run.modify (fun s =>
  match rd (g_fds (kern s)) 0 with
  | Some (FD_KEYBOARD obj r) => set_kern s (set_fd 0 (Some (FD_KEYBOARD obj (KeyboardFD.OnInput r c))) (kern s))
  | _ => s
  end).

Fixpoint poll_serial_input (fuel : nat) : SR unit :=
  match fuel with
  | O => KernelState.undefined
  | S n =>
      has_data <-- serial_has_data ;;
      if (has_data : bool) then
        c <-- serial_getchar ;;
        serial_input (if c =? 13 then 10 else c) ;;;
        poll_serial_input n
      else ret tt
  end.
End Serial.
